(* ===== verification/_CoqProject ===== *)
-Q . S2P
Prelude.v
GoFloat.v
GoStrings.v
GoTime.v
Sha256.v
Base64.v
Errors.v
Domain.v
Config.v
DeepCopyHeap.v
Engine.v
Buckets.v
EngineFacts.v
Diagnostics.v
SdkEngine.v
Entities.v
StoreState.v
StoreAudit.v
StoreFlags.v
StoreFlagsFacts.v
StoreGovernance.v
StoreIdentity.v
StoreTenancy.v
StoreTables.v
Sql.v
SqliteState.v
Sqlite.v
SqliteSpec.v
SqliteOps.v
SqliteFacts.v
PostgresState.v
Postgres.v
PostgresFacts.v
StoreIdentityFacts.v
CircuitBreakers.v
Scheduler.v
Http.v
Auth.v
Access.v
ApiFlags.v
ApiGovernance.v
ApiKeys.v
ApiAuth.v
ApiRoutes.v
AuthFacts.v
AccessFacts.v
ApiFlagsFacts.v
ApiGovernanceFacts.v
ApiKeysFacts.v
ApiAuthFacts.v
ApiExamples.v
ApiSso.v
ApiSsoFacts.v
ApiCanary.v
StreamHub.v
RateLimit.v
Cookies.v
Telemetry.v
TelemetryServer.v
Stats.v
HandlerFacts.v
Client.v
ClientStream.v
ClientFacts.v
ApiStream.v
OpenFeature.v
Backup.v
ApiTenancy.v
ApiAudit.v
ApiAuditFacts.v
SdkClient.v
SdkOpenFeature.v
ApiExperiments.v
Router.v
Middleware.v
Mailer.v
Cli.v
Metrics.v
Startup.v
ApiPages.v
