(* ===== verification/Prelude.v ===== *)
(** * Flagura: a verification library

    Flagura is a feature-flag platform in Go.  A server keeps flags per project,
    evaluates them for callers, records every change in a hash-chained audit
    log, governs changes by a four-eyes rule and rolls flags out in canary
    stages; clients evaluate through the server or, with the Go SDK, locally.
    The flags are kept in memory, in SQLite or in Postgres; updates reach the
    clients over event streams.  This library models the program as Rocq
    definitions that compute, and proves what makes it correct.

    ** The files

    Foundations:
    - [Prelude]: record update [r <| f := v |>], results, strings, 64-bit
      wrap-around, list lemmas, and [Sys], the clock and the random source;
    - [GoFloat]: [float64] as binary64 values ([SpecFloat]), with exactness and
      monotonicity lemmas;
    - [GoStrings]: the parts of [strings], [strconv] and [fmt] the code calls;
      [GoRuntime] holds what is not defined here (see below);
    - [GoTime]: [time.Time] as nanoseconds, RFC 3339 printing and parsing, and
      that parsing undoes printing;
    - [Sha256], [Base64]: SHA-256, checked on the standard test vectors, and the
      URL alphabet of base64.

    The domain ([pkg/domain]):
    - [Errors]: [errors.go], the error codes, the error chain and its mapping;
    - [Domain]: [flag.go], [constants.go], the flag data model and validation;
    - [Entities]: [user.go], [workspace.go], [canary.go], [health.go],
      [audit.go], [id.go], [oidc.go], [experiment.go];
    - [DeepCopyHeap]: the [DeepCopy] methods over a heap of slices and maps;
    - [Config]: [pkg/config/config.go], the configuration from the environment.

    Evaluation ([pkg/engine/evaluator.go], [sdks/go/evaluator.go]):
    - [Engine]: FNV-1a, sticky buckets, rules, the split, [EvaluateFlag];
    - [Buckets]: the 10,000 slots behind the buckets: for whole percentages the
      comparison of buckets is the comparison of slots;
    - [EngineFacts]: the specification [Decides] of an evaluation, which
      [EvaluateFlag] refines, and what it promises of rules, rollouts and splits;
    - [Diagnostics]: the traced evaluation and the benchmark;
    - [SdkEngine]: the SDK's evaluator, where it agrees with the server, and
      where it does not.

    The in-memory store ([pkg/store/memory.go]):
    - [StoreState]: [MemoryStore] and the immutable snapshot;
    - [StoreAudit]: the audit log: append, verify, export, purge;
    - [StoreFlags], [StoreFlagsFacts]: flags: read, save, delete, toggle, roll out;
    - [StoreGovernance]: change requests;
    - [StoreIdentity], [StoreTenancy], [StoreIdentityFacts]: users, sessions,
      password resets, API keys; organizations, projects, invitations;
    - [StoreTables]: canary schedules, single sign-on settings, events.

    The SQL stores:
    - [Sql]: what a statement does to a table, the list of its rows: INSERT with
      its conflict clauses, UPDATE, DELETE, SELECT with WHERE and ORDER BY;
      [Sql Db A], operations as sequences of statements with readings of the
      clock and the random source, the mutex, transactions, and the order in
      which the engine yields unordered rows; [moves], what an operation does to
      the database along a relation, and [tame], that it returns; [Policy], which
      rows of a table may appear, change and go, and what a lawful one keeps;
    - [SqliteState], [Sqlite]: [pkg/store/sqlite.go], the schema and then the
      operations in the sections of the file; [SqliteState] also holds
      [SqliteLib], the JSON of the columns;
    - [SqliteSpec]: the contract of the store, a policy for each of its fifteen
      tables; [SqliteOps]: every operation keeps to it, and returns;
      [SqliteFacts]: the invariants and what follows, with the theorems applied
      to a small shop;
    - [PostgresState], [Postgres]: [pkg/store/postgres.go] in the same way,
      without a mutex; [PostgresLib] holds the JSON, the collation and the
      precision of times; [PostgresFacts]: its audit trail and its password
      resets, with examples;
    - [Backup]: [pkg/store/backup.go], snapshots of the in-memory store.

    Around the store:
    - [CircuitBreakers]: the breakers of [pkg/client] and [sdks/go];
    - [Scheduler]: [pkg/canary/scheduler.go], against the class
      [CanaryStore] of the operations it calls and the laws [CanaryStoreLaws]
      it relies on; the in-memory store is an instance of both.

    The HTTP API ([pkg/api]):
    - [Http]: requests, replies, and [Handler], the monad of handlers: the world
      (store, user in the context, broadcasts) and the early exit by a reply;
      [wp] and [keeps], the two ways the theorems reason about it;
    - [Auth]: [session.go], [middleware.go]: who a request comes from, and the
      middleware that lets it in;
    - [Access]: which project it works on and who may use it
      ([authorizeProjectAccess], [resolveAndAuthorizeProjectID]);
    - [ApiFlags]: [handlers_flags.go], [handlers_eval.go];
    - [ApiGovernance]: [handlers_changerequest.go];
    - [ApiKeys]: [handlers_apikey.go], and the webhook and the reset of
      [handlers_admin.go];
    - [ApiAuth]: [handlers_auth.go], [handlers_password.go],
      [handlers_profile.go], over the class [AuthLib] of third-party calls;
    - [ApiRoutes]: [router.go] and the routes of these handlers in [server.go];
    - [AuthFacts], [AccessFacts], [ApiFlagsFacts], [ApiGovernanceFacts],
      [ApiKeysFacts], [ApiAuthFacts]: what they guarantee, each built on the
      [wp] lemmas of the ones before; [ApiExamples]: a small instance, on which
      the theorems are applied and the gaps shown; [HandlerFacts]: the start that
      the handlers for anonymous callers share;
    - [ApiSso], [ApiSsoFacts]: [handlers_oauth.go] and
      [handlers_oidc.go], with the answers of the identity provider as an
      argument;
    - [ApiTenancy]: [handlers_projects.go] and the invitations of
      [handlers_admin.go];
    - [ApiAudit], [ApiAuditFacts]: [handlers_audit.go], [handlers_backup.go];
    - [ApiCanary]: [handlers_canary.go], with the scheduler in the world of the
      handlers;
    - [TelemetryServer], [Stats], [ApiExperiments]:
      [handlers_telemetry.go], [handlers_experiment.go], [pkg/stats/stats.go];
    - [StreamHub], [ApiStream]: [stream.go], the hub as a
      transition system of goroutines and channels, and the way of an update
      from the store to a client;
    - [RateLimit]: [ratelimit.go], over the laws of a token bucket;
    - [Router]: [routes.go] and the table of [server.go]: which handler and which
      middlewares every path leads to;
    - [Middleware]: [middleware.go], [middleware_trace.go] and [ServeHTTP] of
      [server.go], one level below the handlers: the headers, writers, log lines
      and spans of one exchange, and the panics that cross them;
    - [Cookies]: the cookies of [session.go] with all their attributes, what
      net/http writes of them and what the jar of a browser keeps;
    - [ApiPages]: [handlers_ui.go], [handlers_health.go].

    Around the server:
    - [Mailer]: [pkg/email/mailer.go], messages and the dialogue with the server;
    - [Metrics]: [pkg/telemetry/metrics.go], counters shared by threads;
    - [Startup]: [cmd/server/main.go] and [api/index.go]: the choice of the store,
      the life of the process, and the one server of the serverless function;
    - [Cli]: [cmd/cli] and [pkg/domain/version.go], commands as programs with
      requests, output and an exit code.

    The clients:
    - [Client], [ClientStream], [ClientFacts], [Telemetry]: [pkg/client], its
      cache, its remote and local evaluation, the parser of the event stream and
      the telemetry buffer (of the SDK as well);
    - [SdkClient]: the client of [sdks/go];
    - [OpenFeature], [SdkOpenFeature]: the OpenFeature providers of both,
      [pkg/openfeature/provider.go] and [sdks/go/openfeature/provider.go].

    ** How the code is modelled

    Structs are records with Go's field names after a prefix; maps are [gmap]s;
    an operation takes the state, and the outside world where it reads the clock
    or the random source, and returns the new state with Go's results, an error
    being [Err] of [GoError].  The readings of the clock are numbered in the
    order of the calls, so two readings in one operation may differ.  Where the
    code ranges over a map and the order can be observed, the order is an
    argument.  An operation of the in-memory store runs under its locks and is
    one step.  The nil error is [None] or [Ok].

    An operation of a SQL store is a value of [Sql Db A]: it reads and writes a
    database of typed tables statement by statement, and ends with Go's results
    or blocks on a mutex its own goroutine holds.  Statements are atomic; a
    violated key or reference fails the statement, or is passed over where the
    statement says so.  A table is the list of its rows in the order of
    insertion; a query without ORDER BY yields them in an order the environment
    chooses, of which only [fair_scan] is known: they are the rows.

    A handler is run on a decoded body (or the decoder's error); what it writes
    is one [Reply].  Handlers do not interleave: each call of the store is one
    step, and a request is served from one world to the next.  Where the code
    shares memory under locks of its own, as the counters of [Metrics] and the
    server of [Startup], goroutines are threads that take one step at a time, and
    the theorems hold for every schedule.

    Recursion is structural, on the list the Go loop ranges over.  Fuel appears
    in three places, and is enough in each: the SHA-256 block loop (one unit per
    byte of the padded message, of which each round takes 64), the loops of
    [TrimSpace] (the length of the string; each step drops a byte), and the
    hexadecimal printer (sixteen digits).  Loops that wait (the stream hub, the
    clients' streams) are step relations.

    ** What the theorems show

    - Evaluation: [EvaluateFlag] refines a relational specification; a rollout at
      a whole percentage admits exactly that share of the slots, and raising it
      never switches a caller off; a split serves each variant its share; rules
      behave on missing attributes, negation and numbers as they read.
    - Flags in the store: reads and writes of a project stay inside it; a saved
      flag is read back; a kill switch or a rollout is effective in the next
      evaluation.
    - Audit: every operation keeps each project's hash chain valid, purging
      included; a trail with a known head hash cannot be changed without a
      SHA-256 collision.
    - Governance: no change request is decided by its author in any reachable
      store; applying one is checked against the version it was based on, has
      exactly the proposed effect, and happens once.
    - Identity: the user indexes stay coherent; resets are single-use and close
      the user's sessions; revoked keys stay revoked; invitations and
      organizations do what they say.
    - Copies: a deep copy has its original's value and shares no memory with it.
    - The API: who is let in and who is not; a request changes the flags of one
      project only, one its caller may use; a key bound to an environment
      reaches no other by the routes that check it; reviews, change requests and
      new keys stay within the caller's rights; logins, logouts and password
      changes do what they say.
    - Breakers and scheduler: invariants along traces, fail-fast and recovery;
      a stage is reported only after the store serves it; canaries complete;
      rollbacks stick.
    - SQLite: every operation refines the contract of its tables and returns; in
      every reachable database keys are unique, references resolve and nobody
      decided a request of his own; revoked keys, used reset tokens and applied
      requests stay so; saved flags are read back and projects are apart;
      appending and purging keep the audit chains while the texts of the times
      are in order; [Reset] blocks for ever.
    - Postgres: audit chains of whole microseconds are kept; a finer time or two
      appends at once break them; a password reset is atomic, works once and
      closes the sessions.
    - Streams and clients: the hub never panics and delivers in order, only to
      the project and the environment a message is for; an update that is
      published reaches the cache of a connected client; asking the server and
      evaluating on a synchronised cache agree.
    - Limits, statistics, telemetry: an identity is held to its bucket; counts of
      reports and buffers are conserved; typed evaluations serve the caller's
      default on errors.
    - Sign-on and routes: a callback signs in only who the provider vouched for,
      in the browser that asked; a stranger reaches only the public routes.
    - Responses: whatever the handler does, also when it panics, the answer has
      the security headers; pages of other origins may send credentials only if
      they are listed, or local where there is no list; what logging in puts into
      a browser, logging out removes; the dashboard shows the data of one project,
      and which one.
    - Backup: a restored store evaluates as the one that was saved.
    - Around the server: no evaluation goes uncounted and counting never blocks,
      under any schedule; every request of the serverless function is served by
      one server; a subject or an address cannot add a header to a message; a
      command that exits with zero had its request accepted, and a flag written
      after an argument has no effect.

    Where the code does less than it should, a theorem on a concrete instance
    records it: [developer_becomes_admin], [padded_key_crosses_tenants],
    [author_approves_by_key] and others whose comments say so.

    ** What is assumed or not modelled

    - [GoRuntime] stands for the regular-expression engine, Unicode case tables
      beyond ASCII, [strconv.ParseFloat] and the shortest-float printer; the
      theorems hold for every instance, and [sample_runtime] is a concrete one.
    - Floating-point operations are rounded one by one: the compiler does not
      fuse a multiplication with an addition.
    - [crypto/rand] does not fail; the pointer to the snapshot is never nil (the
      constructor stores one); the scheduler has a store, as in the server.
    - [AuthLib] stands for bcrypt and the parser of mail addresses, with the one
      law that a hash accepts the password it was made from.
    - Outside [DeepCopyHeap], copies are values: [DeepCopy] is the identity, and
      the backing array of a [Stages] slice is not shared.
    - [SqliteLib] and [PostgresLib] stand for JSON columns, [SqlDriver] for the
      messages of violated constraints; of TIMESTAMPTZ it is assumed that it
      keeps whole microseconds as they are ([PostgresLaws]).  A database fails
      for no other reason than its constraints: connections do not break.  Other
      codecs and third-party calls are classes next to their use ([SsoLib],
      [RateLib] with [RateLaws], the codec of [Backup], [math_Erf] of [Stats]).
    - More parameters next to their use: [NetLib] and [WireLib] (parsers of
      package net, what the transport does to a response), [MailLib] (templates,
      the parser of addresses, the answers of the mail server), [CliLib] (JSON,
      the printing of times), and in [Startup] what opening a store answers.
    - Of the API: the notification e-mails of the handlers, security log lines,
      spans inside the handlers, the goroutines [NewServer] starts and the setters
      of its fields.
    - Of the SQL stores: opening files and connections, PRAGMAs, the creation of
      tables and indexes, [Ping] and [Close].
    - Of the clients: tickers, goroutines and log lines; transports and decoders
      are arguments.
    - Not modelled, since it is input and output, generated or glue: the set-up
      of OpenTelemetry ([pkg/telemetry/tracer.go]), the views that templ generates
      and the assets, the example of [examples/go], the file copy [BackupSQLite],
      the ticker of the scheduler. *)

From Stdlib Require Export Ascii ZArith Lia SpecFloat.
From stdpp Require Export base numbers pretty strings gmap list.

(** ** Functional record update *)

(** [Eta R] packages the eta-expansion of a record type: the function that
    rebuilds a record from its projections. *)
Class Eta (R : Type) := { eta_expand : R → R }.

(** [Update proj] is the update function of the field [proj], computed from the
    record's eta-expansion by abstracting the projection out of it. *)
Class Update {R T : Type} (proj : R → T) := update_field : (T → T) → R → R.

Arguments update_field {R T} proj {_} f r / : assert.

Ltac solve_update :=
  lazymatch goal with
  | |- @Update ?R ?T ?proj =>
      let e := constr:(@eta_expand R _) in
      let e := eval cbv beta iota delta [eta_expand] in e in
      let e := eval hnf in e in
      lazymatch eval pattern proj in e with
      | ?k _ => let t := constr:(fun (f : T -> T) (r : R) => k (fun r0 => f (proj r0)) r) in
                let t := eval cbv beta in t in
                exact t
      end
  end.

#[export] Hint Extern 1 (Update _) => solve_update : typeclass_instances.

Declare Scope go_scope.
Delimit Scope go_scope with go.
Open Scope go_scope.

#[warnings="-postfix-notation-not-level-1"]
Notation "r <| f := v |>" := (update_field f (λ _, v) r)
  (at level 12, left associativity, f at level 9, v at level 200,
   format "r  <| f  :=  v |>") : go_scope.

(** ** Results of fallible operations *)

(** A Go function that returns [(T, error)]: [Ok v] is [v, nil]; [Err e] is a
    non-nil error. *)
Inductive result (E A : Type) : Type :=
| Ok (a : A)
| Err (e : E).
Arguments Ok {E A} a.
Arguments Err {E A} e.

Definition is_ok {E A} (r : result E A) : bool :=
  match r with Ok _ => true | Err _ => false end.

(** ** Machine integers *)

(** Go's [uint64] and [int] (64 bits) as [Z] with the wrap-around written out. *)
Definition wrap_u64 (z : Z) : Z := z `mod` 2 ^ 64.
Definition wrap_i64 (z : Z) : Z := (z + 2 ^ 63) `mod` 2 ^ 64 - 2 ^ 63.

Lemma wrap_u64_range z : (0 ≤ wrap_u64 z < 2 ^ 64)%Z.
Proof. apply Z.mod_pos_bound. lia. Qed.

Lemma wrap_u64_small z : (0 ≤ z < 2 ^ 64)%Z → wrap_u64 z = z.
Proof. intros H. by apply Z.mod_small. Qed.

Lemma wrap_i64_small z : (- 2 ^ 63 ≤ z < 2 ^ 63)%Z → wrap_i64 z = z.
Proof. intros H. unfold wrap_i64. rewrite Z.mod_small; lia. Qed.

(** ** Strings *)

(** [s == t] of Go, as a boolean. *)
Definition str_eqb (s t : string) : bool := bool_decide (s = t).

Notation "s =s? t" := (str_eqb s t) (at level 70) : go_scope.

Lemma str_eqb_eq s t : (s =s? t) = true ↔ s = t.
Proof. apply bool_decide_eq_true. Qed.

Lemma str_eqb_neq s t : (s =s? t) = false ↔ s ≠ t.
Proof. apply bool_decide_eq_false. Qed.

Lemma str_eqb_refl s : (s =s? s) = true.
Proof. by apply str_eqb_eq. Qed.

Lemma str_eqb_sym s t : (s =s? t) = (t =s? s).
Proof. unfold str_eqb. apply bool_decide_ext. split; congruence. Qed.

Lemma str_decide {A} (s t : string) (x y : A) :
  (if decide (s = t) then x else y) = if s =s? t then x else y.
Proof.
  unfold str_eqb. destruct (decide (s = t)) as [H|H].
  - by rewrite bool_decide_eq_true_2.
  - by rewrite bool_decide_eq_false_2.
Qed.

(** [if x == "" { x = d }]: the idiom for defaulting a string. *)
Definition or_default (s d : string) : string := if s =s? "" then d else s.

Lemma or_default_nonempty s d : s ≠ ""%string → or_default s d = s.
Proof. intros H. unfold or_default. by rewrite (proj2 (str_eqb_neq _ _) H). Qed.

Lemma or_default_empty d : or_default "" d = d.
Proof. reflexivity. Qed.

Lemma or_default_neq_empty s d : d ≠ ""%string → or_default s d ≠ ""%string.
Proof. unfold or_default. destruct (s =s? "") eqn:E; [done|]. by apply str_eqb_neq in E. Qed.

Lemma or_default_idem s d : or_default (or_default s d) d = or_default s d.
Proof.
  unfold or_default. destruct (s =s? "") eqn:E; [|by rewrite E].
  by destruct (d =s? "").
Qed.

Lemma str_append_cons c s t : String c s +:+ t = String c (s +:+ t).
Proof. reflexivity. Qed.

Lemma str_append_nil_l s : "" +:+ s = s.
Proof. reflexivity. Qed.

Lemma str_append_nil_r s : s +:+ "" = s.
Proof. induction s as [|c s IH]; [done|]. by rewrite str_append_cons, IH. Qed.

Lemma str_append_assoc a b c : (a +:+ b) +:+ c = a +:+ (b +:+ c).
Proof. induction a as [|x a IH]; [done|]. by rewrite !str_append_cons, IH. Qed.

Lemma str_length_append a b :
  String.length (a +:+ b) = (String.length a + String.length b)%nat.
Proof. induction a as [|x a IH]; [done|]. rewrite str_append_cons. simpl. by rewrite IH. Qed.

Lemma str_append_inj_l a b c : a +:+ b = a +:+ c → b = c.
Proof.
  induction a as [|x a IH]; [done|]. rewrite !str_append_cons. intros [= ?]. by apply IH.
Qed.

Lemma str_append_eq_empty a b : a +:+ b = "" → a = "" ∧ b = "".
Proof. destruct a; [done|by rewrite str_append_cons]. Qed.

(** Whether the byte [c] occurs in [s]. *)
Fixpoint str_mem (c : ascii) (s : string) : bool :=
  match s with
  | EmptyString => false
  | String c' s' => bool_decide (c' = c) || str_mem c s'
  end.

Lemma str_mem_append c s t : str_mem c (s +:+ t) = str_mem c s || str_mem c t.
Proof.
  induction s as [|x s IH]; [done|]. rewrite str_append_cons. simpl.
  by rewrite IH, orb_assoc.
Qed.

(** Two fields joined by a separator that does not occur in the first field (or
    in the second) are recovered from the joined text. *)
Lemma str_join_inj_l (c : ascii) a b a' b' :
  str_mem c a = false → str_mem c a' = false →
  a +:+ String c b = a' +:+ String c b' → a = a' ∧ b = b'.
Proof.
  revert a'. induction a as [|x a IH]; intros [|x' a'] Ha Ha'; simpl in *;
    rewrite ?str_append_cons, ?str_append_nil_l; intros [= ]; subst.
  - done.
  - by rewrite bool_decide_eq_true_2 in Ha'.
  - by rewrite bool_decide_eq_true_2 in Ha.
  - apply orb_false_iff in Ha as [_ Ha], Ha' as [_ Ha'].
    edestruct IH as [-> ->]; [done..|]. done.
Qed.

Lemma str_join_inj_plain (c : ascii) a b a' b' :
  str_mem c a = false → str_mem c b = false →
  a +:+ String c b = a' +:+ String c b' → a = a' ∧ b = b'.
Proof.
  revert a'. induction a as [|x a IH]; intros [|x' a'] Ha Hb; simpl in *;
    rewrite ?str_append_cons, ?str_append_nil_l; intros [= ]; subst.
  - done.
  - rewrite str_mem_append in Hb. simpl in Hb.
    by rewrite bool_decide_eq_true_2, orb_true_r in Hb.
  - by rewrite bool_decide_eq_true_2 in Ha.
  - apply orb_false_iff in Ha as [_ Ha]. edestruct IH as [-> ->]; [done..|]. done.
Qed.

Lemma str_join_inj_r (c : ascii) a b a' b' :
  str_mem c b = false → str_mem c b' = false →
  a +:+ String c b = a' +:+ String c b' → a = a' ∧ b = b'.
Proof.
  revert a'. induction a as [|x a IH]; intros [|x' a'] Hb Hb';
    rewrite ?str_append_cons, ?str_append_nil_l; intros [= ]; subst.
  - done.
  - rewrite str_mem_append in Hb. simpl in Hb.
    rewrite bool_decide_eq_true_2, orb_true_r in Hb by done. done.
  - rewrite str_mem_append in Hb'. simpl in Hb'.
    rewrite bool_decide_eq_true_2, orb_true_r in Hb' by done. done.
  - edestruct IH as [-> ->]; [done..|]. done.
Qed.

(** ** Lists *)

Section Filters.
Context {A : Type} (P : A → Prop) `{∀ x, Decision (P x)}.

Lemma list_filter_all l : Forall P l → filter P l = l.
Proof. induction 1; [done|]. rewrite filter_cons_True by done. by f_equal. Qed.

Lemma list_filter_none l : Forall (λ x, ¬ P x) l → filter P l = [].
Proof. induction 1; [done|]. by rewrite filter_cons_False by done. Qed.

Lemma list_filter_within (Q : A → Prop) `{∀ x, Decision (Q x)} l :
  Forall (λ x, P x → Q x) l → filter P (filter Q l) = filter P l.
Proof.
  induction 1 as [|x l Hx _ IH]; [done|]. rewrite !(filter_cons _ x).
  destruct (decide (P x)), (decide (Q x)); rewrite ?(filter_cons _ x), ?IH;
    rewrite ?decide_True, ?decide_False by done; naive_solver.
Qed.

Lemma Forall_list_filter (Q : A → Prop) l : Forall Q l → Forall Q (filter P l).
Proof. rewrite !Forall_forall. intros Hl x Hx%list_elem_of_filter. apply Hl, Hx. Qed.

End Filters.

(** ** Automation *)

(** Case analysis on boolean guards, turning the comparisons the models use
    into propositions. *)
Create HintDb flagura.

Ltac simp_bool :=
  repeat match goal with
  | H : (?s =s? ?t) = true |- _ => apply str_eqb_eq in H
  | H : (?s =s? ?t) = false |- _ => apply str_eqb_neq in H
  | H : negb _ = true |- _ => apply negb_true_iff in H
  | H : negb _ = false |- _ => apply negb_false_iff in H
  | H : _ && _ = true |- _ => apply andb_true_iff in H as [? ?]
  | H : _ || _ = false |- _ => apply orb_false_iff in H as [? ?]
  | H : (_ <=? _)%Z = true |- _ => apply Z.leb_le in H
  | H : (_ <=? _)%Z = false |- _ => apply Z.leb_gt in H
  | H : (_ <? _)%Z = true |- _ => apply Z.ltb_lt in H
  | H : (_ <? _)%Z = false |- _ => apply Z.ltb_ge in H
  | H : (_ =? _)%Z = true |- _ => apply Z.eqb_eq in H
  | H : (_ =? _)%Z = false |- _ => apply Z.eqb_neq in H
  end.

(** Split every [if]/[match] of the goal that is not under a binder. *)
Ltac case_if :=
  match goal with
  | |- context [if ?b then _ else _] => destruct b eqn:?
  end.

(** ** The outside world *)

(** What one call of an operation reads from outside the program: the successive
    readings of the wall clock (nanoseconds since the Unix epoch) and the
    hexadecimal text of the successive reads of the random source. *)
Record Sys := mkSys {
  sys_now : nat → Z;
  sys_rand : nat → string;
}.

(** What is left of the outside world after [n] readings of the clock and [m]
    reads of the random source. *)
Definition sys_after (n m : nat) (sys : Sys) : Sys :=
  mkSys (λ k, sys_now sys (n + k)%nat) (λ k, sys_rand sys (m + k)%nat).
