(* ===== verification/GoFloat.v ===== *)
(** * IEEE-754 binary64, the [float64] of Go

    Floating-point numbers are Rocq's [spec_float], whose operations are
    parameterised by the precision and the exponent range; binary64 is
    [prec = 53] and [emax = 1024].  Everything here computes, so that a concrete
    evaluation is a [vm_compute]. *)

From S2P Require Import Prelude.

Abbreviation f64 := spec_float.

Definition f64_add : f64 → f64 → f64 := SFadd 53 1024.
Definition f64_sub : f64 → f64 → f64 := SFsub 53 1024.
Definition f64_mul : f64 → f64 → f64 := SFmul 53 1024.
Definition f64_div : f64 → f64 → f64 := SFdiv 53 1024.
Definition f64_abs : f64 → f64 := SFabs.
Definition f64_ltb : f64 → f64 → bool := SFltb.
Definition f64_leb : f64 → f64 → bool := SFleb.

(** Conversion of an integer ([float64(n)]), rounded to nearest even. *)
Definition f64_of_Z (z : Z) : f64 := binary_normalize 53 1024 z 0 false.

(** The decimal constant [n/d] of the source, with [n] and [d] exactly
    representable, hence correctly rounded. *)
Definition f64_ratio (n d : Z) : f64 := f64_div (f64_of_Z n) (f64_of_Z d).

Definition f64_zero : f64 := S754_zero false.

#[export] Instance f64_eq_dec : EqDecision f64.
Proof. solve_decision. Defined.

(** [math.Round]: to the nearest integer, halves away from zero. *)
Definition f64_round (x : f64) : f64 :=
  match x with
  | S754_finite s m e =>
      if (0 <=? e)%Z then x
      else
        let q := Z.shiftr (Z.pos m) (- e) in
        let r := (Z.pos m - Z.shiftl q (- e))%Z in
        let n := if (Z.shiftl 1 (- e) <=? 2 * r)%Z then (q + 1)%Z else q in
        binary_normalize 53 1024 (cond_Zopp s n) 0 s
  | _ => x
  end.

(** [math.Floor]. *)
Definition f64_floor (x : f64) : f64 :=
  match x with
  | S754_finite s m e =>
      if (0 <=? e)%Z then x
      else binary_normalize 53 1024 (Z.shiftr (cond_Zopp s (Z.pos m)) (- e)) 0 s
  | _ => x
  end.

(** The conversion [int(x)] of a finite float: truncation towards zero. *)
Definition f64_trunc (x : f64) : Z :=
  match x with
  | S754_finite s m e =>
      cond_Zopp s (if (0 <=? e)%Z then Z.shiftl (Z.pos m) e else Z.shiftr (Z.pos m) (- e))
  | _ => 0%Z
  end.

Declare Scope f64_scope.
Delimit Scope f64_scope with f64.
Infix "+" := f64_add : f64_scope.
Infix "-" := f64_sub : f64_scope.
Infix "*" := f64_mul : f64_scope.
Infix "/" := f64_div : f64_scope.
Infix "<?" := f64_ltb : f64_scope.
Infix "<=?" := f64_leb : f64_scope.

Lemma compare_cont_eq m n : Pos.compare_cont Eq m n = (m ?= n)%positive.
Proof. reflexivity. Qed.

(** The order of the non-NaN values is a total order: the lemmas the rollout
    theorems use. *)
Ltac f64_cases :=
  unfold f64_ltb, f64_leb, SFltb, SFleb, SFcompare in *;
  repeat match goal with x : f64 |- _ => destruct x | x : spec_float |- _ => destruct x end;
  rewrite ?compare_cont_eq in *;
  repeat match goal with b : bool |- _ => destruct b end;
  repeat match goal with
  | H : context [(?a ?= ?b)%Z] |- _ => destruct (Z.compare_spec a b); subst
  | |- context [(?a ?= ?b)%Z] => destruct (Z.compare_spec a b); subst
  | H : context [(?a ?= ?b)%positive] |- _ => destruct (Pos.compare_spec a b); subst
  | |- context [(?a ?= ?b)%positive] => destruct (Pos.compare_spec a b); subst
  | |- context [Pos.compare_cont Eq ?a ?b] => rewrite (compare_cont_eq a b)
  end; simpl in *; try done; try lia.

Lemma f64_lt_le_trans x y z :
  f64_ltb x y = true → f64_leb y z = true → f64_ltb x z = true.
Proof. intros H1 H2. f64_cases. Qed.

Lemma f64_le_lt_trans x y z :
  f64_leb x y = true → f64_ltb y z = true → f64_ltb x z = true.
Proof. intros H1 H2. f64_cases. Qed.

Lemma f64_le_trans x y z :
  f64_leb x y = true → f64_leb y z = true → f64_leb x z = true.
Proof. intros H1 H2. f64_cases. Qed.

Lemma f64_lt_le x y : f64_ltb x y = true → f64_leb x y = true.
Proof. intros H. f64_cases. Qed.

Lemma f64_le_not_lt x y : f64_leb x y = true → f64_ltb y x = false.
Proof. intros H. f64_cases. Qed.

Lemma f64_lt_irrefl x : f64_ltb x x = false.
Proof. f64_cases. Qed.

Definition is_nan (x : f64) : bool := match x with S754_nan => true | _ => false end.

Lemma f64_ltb_negb_leb x y :
  is_nan x = false → is_nan y = false → f64_ltb x y = negb (f64_leb y x).
Proof. intros Hx Hy. f64_cases. Qed.
