(* ===== verification/GoStrings.v ===== *)
(** * The parts of Go's [strings], [strconv] and [fmt] packages the code calls

    A Go string is a sequence of bytes: [string] of the standard library.  What
    needs the Unicode case tables, the regular-expression engine or the
    shortest-float printer of Go is a field of [GoRuntime]; everything else is
    defined and computes. *)

From S2P Require Import Prelude GoFloat.

(** ** What stays a parameter *)

Class GoRuntime := {
  (** [strings.Map(unicode.ToLower, s)] and [strings.Map(unicode.ToUpper, s)],
      reached when [s] has a byte outside ASCII. *)
  rt_to_lower : string → string;
  rt_to_upper : string → string;
  (** [strings.EqualFold] on strings with a byte outside ASCII. *)
  rt_equal_fold : string → string → bool;
  (** [regexp.Compile] with the resulting [MatchString]; [None] is a compile
      error. *)
  rt_regexp : string → option (string → bool);
  (** [strconv.ParseFloat(s, 64)] ([None]: an error) and
      [strconv.FormatFloat(v, 'f', -1, 64)]. *)
  rt_parse_float : string → option f64;
  rt_format_float : f64 → string;
  (** The verb [%v] on a [float64]. *)
  rt_sprint_float : f64 → string;
  (** [strconv.Quote], the verb [%q]. *)
  rt_quote : string → string;
}.

(** ** Bytes and ASCII *)

Definition byte_val (c : ascii) : Z := Z.of_N (N_of_ascii c).

Definition is_ascii_byte (c : ascii) : bool := (byte_val c <? 128)%Z.

Fixpoint str_forallb (P : ascii → bool) (s : string) : bool :=
  match s with
  | EmptyString => true
  | String c s' => P c && str_forallb P s'
  end.

Fixpoint str_map (f : ascii → ascii) (s : string) : string :=
  match s with
  | EmptyString => EmptyString
  | String c s' => String (f c) (str_map f s')
  end.

Definition is_ascii (s : string) : bool := str_forallb is_ascii_byte s.

Definition lower_byte (c : ascii) : ascii :=
  if (65 <=? byte_val c)%Z && (byte_val c <=? 90)%Z
  then ascii_of_N (Z.to_N (byte_val c + 32)) else c.

Definition upper_byte (c : ascii) : ascii :=
  if (97 <=? byte_val c)%Z && (byte_val c <=? 122)%Z
  then ascii_of_N (Z.to_N (byte_val c - 32)) else c.

(** ** Prefixes, suffixes, substrings *)

Definition HasPrefix (s p : string) : bool := String.prefix p s.

Definition HasSuffix (s p : string) : bool :=
  (String.length p <=? String.length s)%nat &&
  (String.substring (String.length s - String.length p) (String.length p) s =s? p).

Fixpoint Contains (s p : string) : bool :=
  HasPrefix s p ||
  match s with
  | EmptyString => false
  | String _ s' => Contains s' p
  end.

Definition str_drop (n : nat) (s : string) : string :=
  String.substring n (String.length s - n) s.

Definition str_take (n : nat) (s : string) : string := String.substring 0 n s.

Definition TrimPrefix (s p : string) : string :=
  if HasPrefix s p then str_drop (String.length p) s else s.

Definition TrimSuffix (s p : string) : string :=
  if HasSuffix s p then str_take (String.length s - String.length p) s else s.

(** [strings.Split(s, sep)] for a one-byte separator, the only case used. *)
Fixpoint split_go (sep : ascii) (s : string) (cur : string) : list string :=
  match s with
  | EmptyString => [cur]
  | String c s' =>
      if bool_decide (c = sep) then cur :: split_go sep s' ""
      else split_go sep s' (cur +:+ String c "")
  end.

Definition Split (s : string) (sep : ascii) : list string := split_go sep s "".

(** ** White space *)

(** The UTF-8 encodings of the runes [unicode.IsSpace] accepts: the six ASCII
    ones, U+0085, U+00A0, U+1680, U+2000 to U+200A, U+2028, U+2029, U+202F,
    U+205F and U+3000. *)
Definition bytes_str (l : list N) : string :=
  foldr (λ b s, String (ascii_of_N b) s) EmptyString l.

Definition go_spaces : list string :=
  bytes_str <$>
  ([ [9]; [10]; [11]; [12]; [13]; [32]; [194; 133]; [194; 160]; [225; 154; 128];
     [226; 128; 168]; [226; 128; 169]; [226; 128; 175]; [226; 129; 159];
     [227; 128; 128] ] ++
   ((λ b, [226; 128; b]) <$> [128; 129; 130; 131; 132; 133; 134; 135; 136; 137; 138]))%N.

Definition leading_space (s : string) : option string :=
  list_find (λ p, HasPrefix s p = true) go_spaces ≫= λ '(_, p), Some p.

Definition trailing_space (s : string) : option string :=
  list_find (λ p, HasSuffix s p = true) go_spaces ≫= λ '(_, p), Some p.

Fixpoint trim_left_space (fuel : nat) (s : string) : string :=
  match fuel with
  | 0 => s
  | S fuel =>
      match leading_space s with
      | Some p => trim_left_space fuel (str_drop (String.length p) s)
      | None => s
      end
  end.

Fixpoint trim_right_space (fuel : nat) (s : string) : string :=
  match fuel with
  | 0 => s
  | S fuel =>
      match trailing_space s with
      | Some p => trim_right_space fuel (str_take (String.length s - String.length p) s)
      | None => s
      end
  end.

(** [strings.TrimSpace]: every encoding above is at least one byte long, so the
    length of the string bounds the number of steps. *)
Definition TrimSpace (s : string) : string :=
  let s := trim_left_space (String.length s) s in
  trim_right_space (String.length s) s.

(** [strings.Trim(s, cutset)] for a cutset of one ASCII byte. *)
Fixpoint trim_left_byte (c : ascii) (s : string) : string :=
  match s with
  | String c' s' => if bool_decide (c' = c) then trim_left_byte c s' else s
  | EmptyString => s
  end.

Definition Trim (s : string) (c : ascii) : string :=
  String.rev (trim_left_byte c (String.rev (trim_left_byte c s))).

(** [strings.TrimRight(s, "/")]. *)
Definition TrimRightSlash (s : string) : string :=
  String.rev (trim_left_byte "/" (String.rev s)).

(** [strings.ReplaceAll(s, old, "")] for a one-byte [old]. *)
Fixpoint remove_byte (c : ascii) (s : string) : string :=
  match s with
  | EmptyString => EmptyString
  | String c' s' => if bool_decide (c' = c) then remove_byte c s' else String c' (remove_byte c s')
  end.

(** ** Case mapping *)

Section Case.
Context `{GoRuntime}.

Definition ToLower (s : string) : string :=
  if is_ascii s then str_map lower_byte s else rt_to_lower s.

Definition ToUpper (s : string) : string :=
  if is_ascii s then str_map upper_byte s else rt_to_upper s.

Definition EqualFold (s t : string) : bool :=
  if is_ascii s && is_ascii t
  then str_map lower_byte s =s? str_map lower_byte t
  else rt_equal_fold s t.

End Case.

(** ** Numbers as text *)

(** [strconv.Itoa], [strconv.FormatInt(n, 10)] and the verb [%d]. *)
Definition Itoa (z : Z) : string := pretty z.

Definition hex_digit (d : Z) : ascii :=
  ascii_of_N (Z.to_N (if (d <? 10)%Z then 48 + d else 87 + d)).

Fixpoint hex_digits (fuel : nat) (n : Z) (acc : string) : string :=
  match fuel with
  | 0 => acc
  | S fuel =>
      let acc := String (hex_digit (n mod 16)%Z) acc in
      if (n <? 16)%Z then acc else hex_digits fuel (n / 16)%Z acc
  end.

(** [strconv.FormatUint(n, 16)]: a [uint64] has at most 16 hexadecimal digits. *)
Definition FormatUint16 (n : Z) : string := hex_digits 16 n "".

(** [hex.EncodeToString]. *)
Definition hex_byte (b : Z) : string :=
  String (hex_digit (b / 16 mod 16)%Z) (String (hex_digit (b mod 16)%Z) "").

Definition hex_encode (bs : list Z) : string := foldr (λ b s, hex_byte b +:+ s) ""%string bs.

(** Decimal text of [n], padded on the left with zeros to [w] digits. *)
Definition pad_left (w : nat) (s : string) : string :=
  foldr (λ _ s, String "0" s) s (replicate (w - String.length s) ()).

Definition pad_Z (w : nat) (n : Z) : string := pad_left w (Itoa n).

(** The verb [%.<prec>f]: the exact binary value, rounded half to even to
    [prec] decimals. *)
Definition scaled_round (prec : nat) (m : positive) (e : Z) : Z :=
  let num := (Z.pos m * 10 ^ Z.of_nat prec * 2 ^ Z.max e 0)%Z in
  let den := (2 ^ Z.max (- e) 0)%Z in
  let q := (num / den)%Z in
  let r := (num mod den)%Z in
  match (2 * r ?= den)%Z with
  | Lt => q
  | Eq => if Z.even q then q else q + 1
  | Gt => q + 1
  end%Z.

Definition format_unsigned (prec : nat) (n : Z) : string :=
  match prec with
  | 0 => Itoa n
  | _ => let b := (10 ^ Z.of_nat prec)%Z in
         Itoa (n / b) +:+ "." +:+ pad_Z prec (n mod b)
  end.

Definition FormatFixed (prec : nat) (x : f64) : string :=
  match x with
  | S754_nan => "NaN"
  | S754_infinity s => if s then "-Inf" else "+Inf"
  | S754_zero s => (if s then "-" else "") +:+ format_unsigned prec 0
  | S754_finite s m e =>
      (if s then "-" else "") +:+ format_unsigned prec (scaled_round prec m e)
  end.

(** The verb [%v] on a [[]string]. *)
Definition sprint_strings (l : list string) : string :=
  "[" +:+ String.concat " " l +:+ "]".

(** ** Lemmas *)

Lemma HasPrefix_app p s : HasPrefix (p +:+ s) p = true.
Proof.
  unfold HasPrefix. induction p as [|c p IH]; simpl; [by destruct s|].
  destruct (ascii_dec c c); [done|congruence].
Qed.

Lemma str_substring_all s : String.substring 0 (String.length s) s = s.
Proof. induction s as [|c s IH]; simpl; congruence. Qed.

Lemma str_mem_substring c n m s : str_mem c (String.substring n m s) = true → str_mem c s = true.
Proof.
  revert n m. induction s as [|x s IH]; intros [|n] [|m]; simpl; try done.
  - intros [H|H]%orb_true_iff; apply orb_true_iff; [by left|right; by eapply IH].
  - intros H. apply orb_true_iff. right. by eapply IH.
  - intros H. apply orb_true_iff. right. by eapply IH.
Qed.

(** Trimming and removing only take bytes away. *)
Lemma trim_left_space_mem n c s : str_mem c (trim_left_space n s) = true → str_mem c s = true.
Proof.
  revert s. induction n as [|n IH]; intros s; [done|]. cbn [trim_left_space].
  destruct (leading_space s); [|done]. intros Hc%IH. by eapply str_mem_substring.
Qed.

Lemma trim_right_space_mem n c s : str_mem c (trim_right_space n s) = true → str_mem c s = true.
Proof.
  revert s. induction n as [|n IH]; intros s; [done|]. cbn [trim_right_space].
  destruct (trailing_space s); [|done]. intros Hc%IH. by eapply str_mem_substring.
Qed.

Lemma TrimSpace_mem c s : str_mem c (TrimSpace s) = true → str_mem c s = true.
Proof. intros Hc%trim_right_space_mem. by apply trim_left_space_mem in Hc. Qed.

Lemma remove_byte_mem c d s : str_mem c (remove_byte d s) = negb (bool_decide (d = c)) && str_mem c s.
Proof.
  induction s as [|x s IH]; [by rewrite andb_false_r|]. cbn.
  destruct (decide (x = d)) as [->|Hx].
  - rewrite bool_decide_true by done. rewrite IH. by destruct (bool_decide (d = c)).
  - rewrite (bool_decide_false (x = d)) by done. cbn. rewrite IH.
    destruct (decide (x = c)) as [->|Hc].
    + rewrite (bool_decide_true (c = c)), (bool_decide_false (d = c)) by congruence. done.
    + by rewrite (bool_decide_false (x = c)) by done.
Qed.

Lemma TrimPrefix_app p s : TrimPrefix (p +:+ s) p = s.
Proof.
  unfold TrimPrefix. rewrite HasPrefix_app. unfold str_drop.
  replace (String.length (p +:+ s) - String.length p)%nat with (String.length s)
    by (rewrite str_length_append; lia).
  induction p as [|c p IH]; [apply str_substring_all|exact IH].
Qed.

Lemma HasPrefix_spec s p : HasPrefix s p = true ↔ ∃ t, s = p +:+ t.
Proof.
  split; [|intros [t ->]; apply HasPrefix_app].
  revert s. unfold HasPrefix. induction p as [|c p IH]; intros s Hp; [by exists s|].
  destruct s as [|c' s]; simpl in Hp; [done|].
  destruct (ascii_dec c c') as [->|]; [|done].
  destruct (IH _ Hp) as [t ->]. by exists t.
Qed.

(** The substring search of the model finds a substring exactly when there is
    one. *)
Lemma Contains_spec s p : Contains s p = true ↔ ∃ a b, s = a +:+ p +:+ b.
Proof.
  induction s as [|c s IH]; cbn [Contains]; rewrite orb_true_iff, HasPrefix_spec.
  - split.
    + intros [[t Ht]|?]; [|done]. by exists "", t.
    + intros ([|a] & b & Hs); [|done]. left. by exists b.
  - rewrite IH. split.
    + intros [[t Ht]|(a & b & ->)].
      * by exists "", t.
      * by exists (String c a), b.
    + intros ([|a a'] & b & Hs); simpl in Hs.
      * left. by exists b.
      * right. injection Hs as -> ->. by exists a', b.
Qed.

(** ** Numbers in strings *)

Fixpoint decimal_go (s : string) (acc : Z) : option Z :=
  match s with
  | EmptyString => Some acc
  | String c s' =>
      if (48 <=? byte_val c)%Z && (byte_val c <=? 57)%Z
      then decimal_go s' (10 * acc + (byte_val c - 48))%Z else None
  end.

(** [strconv.ParseInt(s, 10, 64)]: an optional sign and decimal digits, within [int64]. *)
Definition ParseInt (s : string) : option Z :=
  let '(neg, digits) :=
    match s with
    | String "-" s' => (true, s')
    | String "+" s' => (false, s')
    | _ => (false, s)
    end in
  if digits =s? "" then None
  else
    match decimal_go digits 0 with
    | Some n =>
        let v := if neg : bool then (- n)%Z else n in
        if ((- 2 ^ 63 <=? v) && (v <? 2 ^ 63))%Z then Some v else None
    | None => None
    end.

(** [strconv.Atoi], with the 64-bit [int]. *)
Definition Atoi (s : string) : option Z := ParseInt s.

(** [strconv.ParseBool]. *)
Definition ParseBool (s : string) : option bool :=
  if existsb (String.eqb s) ["1"; "t"; "T"; "true"; "TRUE"; "True"] then Some true
  else if existsb (String.eqb s) ["0"; "f"; "F"; "false"; "FALSE"; "False"] then Some false
  else None.

(** ** A concrete runtime

    An instance of the parameters, for evaluating the models on examples:
    case mapping restricted to ASCII, decimal integers for numbers, patterns
    that match themselves. *)

Definition sample_runtime : GoRuntime := {|
  rt_to_lower := str_map lower_byte;
  rt_to_upper := str_map upper_byte;
  rt_equal_fold s t := str_map lower_byte s =s? str_map lower_byte t;
  rt_regexp p := if p =s? "(" then None else Some (λ s, Contains s p);
  rt_parse_float s := if s =s? "" then None else f64_of_Z <$> decimal_go s 0;
  rt_format_float x := Itoa (f64_trunc x);
  rt_sprint_float x := Itoa (f64_trunc x);
  rt_quote s := String (ascii_of_nat 34) (s +:+ String (ascii_of_nat 34) EmptyString);
|}.
