(* ===== verification/GoTime.v ===== *)
(** * Time

    [time.Time] as nanoseconds; RFC 3339, printed and parsed. *)

From S2P Require Import Prelude GoFloat GoStrings.

(** * Time

    A [time.Time] is its number of nanoseconds since the Unix epoch, a [Z]; a
    [time.Duration] is a signed 64-bit number of nanoseconds. *)

Abbreviation Time := Z.
Abbreviation Duration := Z.

(** The zero [time.Time], January 1 of year 1, 00:00:00 UTC. *)
Definition time_zero : Time := (-62135596800000000000)%Z.

Definition IsZero (t : Time) : bool := (t =? time_zero)%Z.

Definition Before (t u : Time) : bool := (t <? u)%Z.
Definition After (t u : Time) : bool := (u <? t)%Z.

Definition max_duration : Duration := (2 ^ 63 - 1)%Z.
Definition min_duration : Duration := (- 2 ^ 63)%Z.

(** [t.Sub(u)] saturates at the range of [Duration]. *)
Definition time_sub (t u : Time) : Duration :=
  Z.max min_duration (Z.min max_duration (t - u)).

(** [t.Add(d)]. *)
Definition time_add (t : Time) (d : Duration) : Time := (t + d)%Z.

Definition Second : Duration := 1000000000%Z.
Definition Minute : Duration := (60 * Second)%Z.
Definition Hour : Duration := (3600 * Second)%Z.

(** [d.Seconds()]: whole seconds plus the fraction, in floating point. *)
Definition Seconds (d : Duration) : f64 :=
  (f64_of_Z (Z.quot d Second) + f64_of_Z (Z.rem d Second) / f64_of_Z Second)%f64.

(** ** [t.UTC().Format(time.RFC3339Nano)] *)

(** Year, month and day of a day number counted from 1970-01-01, in the
    proleptic Gregorian calendar. *)
Definition civil_of_days (days : Z) : Z * Z * Z :=
  let z := (days + 719468)%Z in
  let era := (z / 146097)%Z in
  let doe := (z mod 146097)%Z in
  let yoe := ((doe - doe / 1460 + doe / 36524 - doe / 146096) / 365)%Z in
  let doy := (doe - (365 * yoe + yoe / 4 - yoe / 100))%Z in
  let mp := ((5 * doy + 2) / 153)%Z in
  let d := (doy - (153 * mp + 2) / 5 + 1)%Z in
  let m := (if mp <? 10 then mp + 3 else mp - 9)%Z in
  ((yoe + era * 400 + (if m <=? 2 then 1 else 0))%Z, m, d).

(** The fraction [.999999999]: nine digits without the trailing zeros, and no
    point when nothing is left. *)
Definition strip_zeros (s : string) : string :=
  String.rev (trim_left_byte "0" (String.rev s)).

Definition rfc3339_fraction (ns : Z) : string :=
  match strip_zeros (pad_Z 9 ns) with
  | EmptyString => ""
  | s => "." +:+ s
  end.

Definition FormatRFC3339Nano (t : Time) : string :=
  let secs := (t / Second)%Z in
  let ns := (t mod Second)%Z in
  let sod := (secs mod 86400)%Z in
  let '(y, m, d) := civil_of_days (secs / 86400) in
  pad_Z 4 y +:+ "-" +:+ pad_Z 2 m +:+ "-" +:+ pad_Z 2 d +:+ "T" +:+
  pad_Z 2 (sod / 3600) +:+ ":" +:+ pad_Z 2 (sod / 60 mod 60) +:+ ":" +:+
  pad_Z 2 (sod mod 60) +:+ rfc3339_fraction ns +:+ "Z".

Example rfc3339_sample :
  FormatRFC3339Nano 1700000000123456000 = "2023-11-14T22:13:20.123456Z".
Proof. vm_compute. reflexivity. Qed.

Example rfc3339_zero : FormatRFC3339Nano time_zero = "0001-01-01T00:00:00Z".
Proof. vm_compute. reflexivity. Qed.

(** A formatted time has no [|] in it. *)
Lemma str_mem_rev_app c s t : str_mem c (String.rev_app s t) = str_mem c s || str_mem c t.
Proof.
  revert t. induction s as [|x s IH]; intros t; simpl; [done|]. rewrite IH. simpl.
  by destruct (bool_decide (x = c)), (str_mem c s).
Qed.

Lemma str_mem_rev c s : str_mem c (String.rev s) = str_mem c s.
Proof. unfold String.rev. by rewrite str_mem_rev_app, orb_false_r. Qed.

Lemma str_mem_trim_left c x s : str_mem c s = false → str_mem c (trim_left_byte x s) = false.
Proof. induction s as [|y s IH]; simpl; [done|]. case_if; [|done]. intros. simp_bool. auto. Qed.

(** A byte that occurs in no decimal number. *)
Definition not_decimal (c : ascii) : bool := negb (str_mem c "-0123456789").

Lemma pretty_N_char_decimal c x : not_decimal c = true → pretty_N_char x ≠ c.
Proof. intros Hc <-. revert Hc. unfold pretty_N_char. by repeat case_match. Qed.

Lemma pretty_N_go_no c x s :
  not_decimal c = true → str_mem c s = false → str_mem c (pretty_N_go x s) = false.
Proof.
  intros Hc. revert s. induction (N.lt_wf_0 x) as [x _ IH]; intros s Hs.
  assert (x = 0 ∨ 0 < x)%N as [-> | Hx] by lia; [by rewrite pretty_N_go_0|].
  rewrite pretty_N_go_step by done. apply IH; [by apply N.div_lt|].
  cbn [str_mem]. rewrite Hs, orb_false_r. apply bool_decide_eq_false.
  by apply pretty_N_char_decimal.
Qed.

Lemma Itoa_no c z : not_decimal c = true → str_mem c (Itoa z) = false.
Proof.
  intros Hc.
  assert (∀ x : N, str_mem c (pretty x) = false) as HN.
  { intros x. unfold pretty, pretty_N. case_decide; [|by apply pretty_N_go_no].
    unfold not_decimal in Hc. simpl in *. simp_bool. by rewrite orb_false_r. }
  unfold Itoa, pretty, pretty_Z.
  destruct z as [|p|p]; [apply (HN 0%N)|apply (HN (N.pos p))|].
  rewrite str_mem_append. apply orb_false_intro; [|apply (HN (N.pos p))].
  unfold not_decimal in Hc. simpl in *. simp_bool. by rewrite orb_false_r.
Qed.

Lemma Itoa_no_bar z : str_mem "|" (Itoa z) = false.
Proof. by apply Itoa_no. Qed.

Lemma Itoa_no_colon z : str_mem ":" (Itoa z) = false.
Proof. by apply Itoa_no. Qed.

Lemma pad_Z_no_bar w z : str_mem "|" (pad_Z w z) = false.
Proof.
  unfold pad_Z, pad_left. induction (replicate _ ()) as [|u l IH]; simpl; [apply Itoa_no_bar|done].
Qed.

Lemma FormatRFC3339Nano_no_bar t : str_mem "|" (FormatRFC3339Nano t) = false.
Proof.
  unfold FormatRFC3339Nano. destruct (civil_of_days _) as [[y m] d].
  rewrite !str_mem_append, !pad_Z_no_bar. simpl. rewrite orb_false_r.
  unfold rfc3339_fraction.
  assert (str_mem "|" (strip_zeros (pad_Z 9 (t mod Second))) = false) as Hf.
  { unfold strip_zeros. rewrite str_mem_rev. apply str_mem_trim_left.
    rewrite str_mem_rev. apply pad_Z_no_bar. }
  destruct (strip_zeros _); [done|]. by rewrite str_mem_append, Hf.
Qed.

(** * Parsing of times

    [time.Parse] with the layouts RFC 3339 and RFC 3339 with a fraction (both
    accept a fraction), [Format] with whole seconds, and what is left of a time
    that is formatted and parsed again: a column of text keeps the second, or with
    the long format the nanosecond. *)

(** ** Fixed-width numbers *)

Definition is_digit (c : ascii) : bool := (48 <=? byte_val c)%Z && (byte_val c <=? 57)%Z.

(** The number in the next [w] bytes, all digits, and what follows it. *)
Fixpoint parse_fixed (w : nat) (acc : Z) (s : string) : option (Z * string) :=
  match w with
  | 0 => Some (acc, s)
  | S w =>
      match s with
      | String c s' => if is_digit c then parse_fixed w (10 * acc + (byte_val c - 48))%Z s' else None
      | EmptyString => None
      end
  end.

Definition skip_byte (c : ascii) (s : string) : option string :=
  match s with
  | String c' s' => if bool_decide (c' = c) then Some s' else None
  | EmptyString => None
  end.

(** The digits after the point; [weight] is what the next one counts in
    nanoseconds, 0 after the ninth. *)
Fixpoint parse_digits_frac (weight acc : Z) (s : string) : Z * string :=
  match s with
  | String c s' =>
      if is_digit c then parse_digits_frac (weight / 10) (acc + (byte_val c - 48) * weight)%Z s'
      else (acc, s)
  | EmptyString => (acc, s)
  end.

(** The optional fraction: a point or a comma before at least one digit. *)
Definition parse_frac (s : string) : Z * string :=
  match s with
  | String c (String d s') =>
      if (bool_decide (c = "."%char) || bool_decide (c = ","%char)) && is_digit d
      then parse_digits_frac 100000000 0 (String d s') else (0%Z, s)
  | _ => (0%Z, s)
  end.

(** The offset of the zone in seconds. *)
Definition parse_zone (s : string) : option Z :=
  match s with
  | String c s' =>
      if bool_decide (c = "Z"%char) then if s' =s? "" then Some 0%Z else None
      else if bool_decide (c = "+"%char) || bool_decide (c = "-"%char) then
        '(h, s') ← parse_fixed 2 0 s';
        s' ← skip_byte ":" s';
        '(m, s') ← parse_fixed 2 0 s';
        if (s' =s? "") && (h <=? 24)%Z && (m <=? 60)%Z
        then Some ((if bool_decide (c = "-"%char) then -1 else 1) * (3600 * h + 60 * m))%Z else None
      else None
  | EmptyString => None
  end.

(** ** Dates *)

Definition days_of_civil (y m d : Z) : Z :=
  let y := (if m <=? 2 then y - 1 else y)%Z in
  let era := (y / 400)%Z in
  let yoe := (y - era * 400)%Z in
  let mp := (if m <=? 2 then m + 9 else m - 3)%Z in
  let doy := ((153 * mp + 2) / 5 + d - 1)%Z in
  let doe := (yoe * 365 + yoe / 4 - yoe / 100 + doy)%Z in
  (era * 146097 + doe - 719468)%Z.

(** A date is one of the calendar when counting days gives it back. *)
Definition valid_date (y m d : Z) : bool :=
  (1 <=? m)%Z && (m <=? 12)%Z && bool_decide (civil_of_days (days_of_civil y m d) = (y, m, d)).

(** [time.Parse(time.RFC3339, s)], and the same with [time.RFC3339Nano]. *)
Definition ParseRFC3339 (s : string) : option Time :=
  '(y, s) ← parse_fixed 4 0 s; s ← skip_byte "-" s;
  '(mo, s) ← parse_fixed 2 0 s; s ← skip_byte "-" s;
  '(d, s) ← parse_fixed 2 0 s; s ← skip_byte "T" s;
  '(h, s) ← parse_fixed 2 0 s; s ← skip_byte ":" s;
  '(mi, s) ← parse_fixed 2 0 s; s ← skip_byte ":" s;
  '(sec, s) ← parse_fixed 2 0 s;
  let '(ns, s) := parse_frac s in
  zone ← parse_zone s;
  if valid_date y mo d && (h <? 24)%Z && (mi <? 60)%Z && (sec <? 60)%Z
  then Some ((days_of_civil y mo d * 86400 + 3600 * h + 60 * mi + sec - zone) * Second + ns)%Z
  else None.

(** [t.UTC().Format(time.RFC3339)]. *)
Definition FormatRFC3339 (t : Time) : string := FormatRFC3339Nano (t / Second * Second)%Z.

(** [t, _ := time.Parse(time.RFC3339, s)]: the zero time when it fails. *)
Definition parse_time (s : string) : Time := default time_zero (ParseRFC3339 s).

Example parse_sample : ParseRFC3339 "2023-11-14T22:13:20.123456Z" = Some 1700000000123456000%Z.
Proof. vm_compute. reflexivity. Qed.

Example parse_offset : ParseRFC3339 "2023-11-14T23:13:20+01:00" = Some 1700000000000000000%Z.
Proof. vm_compute. reflexivity. Qed.

Example parse_no_date : ParseRFC3339 "2023-02-29T00:00:00Z" = None.
Proof. vm_compute. reflexivity. Qed.

(** ** Round trips *)

(** [lia] with division and remainder by constants. *)
Ltac div_lia := Z.to_euclidean_division_equations; lia.

Lemma civil_yoe doe :
  (0 ≤ doe < 146097 → 0 ≤ (doe - doe / 1460 + doe / 36524 - doe / 146096) / 365 < 400)%Z.
Proof. intros H. assert (doe / 146096 = 0 ∨ doe = 146096)%Z by div_lia. div_lia. Qed.

Lemma civil_doy doe yoe :
  (0 ≤ doe < 146097 → 0 ≤ yoe < 400 →
   yoe = (doe - doe / 1460 + doe / 36524 - doe / 146096) / 365 →
   0 ≤ doe - (365 * yoe + yoe / 4 - yoe / 100) ≤ 366)%Z.
Proof.
  intros H Hy Hyoe.
  assert (365 * yoe ≤ doe - doe / 1460 + doe / 36524 - doe / 146096 < 365 * yoe + 365)%Z by div_lia.
  clear Hyoe. assert (0 ≤ doe / 146096 ≤ 1)%Z by div_lia.
  assert (yoe / 100 = 0 ∨ yoe / 100 = 1 ∨ yoe / 100 = 2 ∨ yoe / 100 = 3)%Z as Hd by div_lia.
  assert (doe / 36524 = 0 ∨ doe / 36524 = 1 ∨ doe / 36524 = 2 ∨ doe / 36524 = 3 ∨ doe / 36524 = 4)%Z
    as Hc by div_lia.
  destruct Hc as [Hc|[Hc|[Hc|[Hc|Hc]]]], Hd as [Hd|[Hd|[Hd|Hd]]]; rewrite Hc, Hd in *; div_lia.
Qed.

Lemma days_of_civil_of_days z :
  let '(y, m, d) := civil_of_days z in
  days_of_civil y m d = z ∧ (1 ≤ m ≤ 12)%Z ∧ (0 ≤ d < 100)%Z.
Proof.
  unfold civil_of_days.
  set (z0 := (z + 719468)%Z). set (era := (z0 / 146097)%Z).
  set (doe := (z0 mod 146097)%Z).
  set (yoe := ((doe - doe / 1460 + doe / 36524 - doe / 146096) / 365)%Z).
  set (doy := (doe - (365 * yoe + yoe / 4 - yoe / 100))%Z).
  assert (0 ≤ doe < 146097)%Z as Hdoe by (apply Z.mod_pos_bound; lia).
  assert (z0 = era * 146097 + doe)%Z as Hz by (unfold era, doe; div_lia).
  pose proof (civil_yoe doe Hdoe) as Hyoe. pose proof (civil_doy doe yoe Hdoe Hyoe eq_refl) as Hdoy.
  fold yoe in Hyoe. fold doy in Hdoy.
  assert (doe = doy + 365 * yoe + yoe / 4 - yoe / 100)%Z as Hd by (unfold doy; lia).
  clearbody doy yoe doe era. subst z0.
  assert (0 ≤ (5 * doy + 2) / 153 ≤ 11)%Z as Hmp by div_lia.
  assert (0 ≤ doy - (153 * ((5 * doy + 2) / 153) + 2) / 5 + 1 < 100)%Z as Hday by div_lia.
  set (mp := ((5 * doy + 2) / 153)%Z) in *. clearbody mp. unfold days_of_civil.
  destruct (Z.ltb_spec mp 10) as [Hlt|Hge].
  - rewrite (proj2 (Z.leb_gt (mp + 3) 2)) by lia.
    replace ((yoe + era * 400 + 0) / 400)%Z with era by div_lia.
    replace (yoe + era * 400 + 0 - era * 400)%Z with yoe by lia.
    replace (mp + 3 - 3)%Z with mp by lia. split_and!; try lia; div_lia.
  - rewrite (proj2 (Z.leb_le (mp - 9) 2)) by lia.
    replace ((yoe + era * 400 + 1 - 1) / 400)%Z with era by div_lia.
    replace (yoe + era * 400 + 1 - 1 - era * 400)%Z with yoe by lia.
    replace (mp - 9 + 9)%Z with mp by lia. split_and!; try lia; div_lia.
Qed.

(** [k] zeros before [s]. *)
Fixpoint zeros (k : nat) (s : string) : string :=
  match k with 0 => s | S k => String "0" (zeros k s) end.

Lemma pad_left_zeros w s : pad_left w s = zeros (w - String.length s) s.
Proof. unfold pad_left. induction (w - String.length s)%nat as [|k IH]; [done|]. cbn. by f_equal. Qed.

Lemma zeros_app k s t : zeros k s +:+ t = zeros k (s +:+ t).
Proof. induction k as [|k IH]; [done|]. cbn [zeros]. by rewrite str_append_cons, IH. Qed.

(** The last [w] digits of [x] before [s]. *)
Fixpoint fixed (w : nat) (x : N) (s : string) : string :=
  match w with
  | 0 => s
  | S w => fixed w (x / 10) (String (pretty_N_char (x `mod` 10)) s)
  end.

Lemma pow10_S w : (10 ^ N.of_nat (S w) = 10 * 10 ^ N.of_nat w)%N.
Proof. by rewrite Nat2N.inj_succ, N.pow_succ_r'. Qed.

Lemma fixed_zero w s : fixed w 0 s = zeros w s.
Proof.
  assert (∀ k t, zeros k (String "0" t) = String "0" (zeros k t)) as Hz.
  { intros k t. induction k as [|k IH]; [done|]. cbn. by f_equal. }
  revert s. induction w as [|w IH]; intros s; [done|]. cbn. by rewrite IH, Hz.
Qed.

Lemma fixed_go w x s :
  (0 < x < 10 ^ N.of_nat w)%N →
  fixed w x s = zeros (w + String.length s - String.length (pretty_N_go x s)) (pretty_N_go x s) ∧
  (String.length (pretty_N_go x s) ≤ w + String.length s)%nat.
Proof.
  revert x s. induction w as [|w IH]; intros x s Hx; [rewrite N.pow_0_r in Hx; lia|].
  rewrite pow10_S in Hx. rewrite pretty_N_go_step by lia. cbn [fixed].
  set (c := pretty_N_char _).
  destruct (decide (x / 10 = 0)%N) as [H0|H0].
  - rewrite H0, pretty_N_go_0, fixed_zero. cbn [String.length]. split; [f_equal; lia|lia].
  - assert (x / 10 < 10 ^ N.of_nat w)%N by (apply N.Div0.div_lt_upper_bound; lia).
    destruct (IH (x / 10)%N (String c s)) as [-> Hl]; [split; [by apply N.neq_0_lt_0|done]|].
    cbn [String.length] in Hl |- *. split; [f_equal; lia|lia].
Qed.

Lemma pad_fixed w z :
  (0 ≤ z < 10 ^ Z.of_nat w)%Z → w ≠ 0%nat → pad_Z w z = fixed w (Z.to_N z) "".
Proof.
  intros Hz Hw. unfold pad_Z, Itoa. rewrite pad_left_zeros.
  assert (Z.to_N z < 10 ^ N.of_nat w)%N as Hlt.
  { apply N2Z.inj_lt. rewrite Z2N.id, N2Z.inj_pow, nat_N_Z by lia. lia. }
  destruct z as [|p|p]; [|clear Hz; cbn [Z.to_N] in Hlt|lia].
  - rewrite fixed_zero. destruct w as [|w]; [done|]. cbn. rewrite Nat.sub_0_r.
    change (pretty 0%Z) with "0". clear. induction w as [|w IH]; [done|]. cbn [zeros]. by f_equal.
  - destruct (fixed_go w (N.pos p) "") as [Hf Hl]; [lia|]. cbn [Z.to_N String.length] in *.
    rewrite Hf. change (pretty (Z.pos p)) with (pretty_N_go (N.pos p) ""). by rewrite Nat.add_0_r.
Qed.

Lemma parse_fixed_add w w' a s :
  parse_fixed (w + w') a s = '(a', s') ← parse_fixed w a s; parse_fixed w' a' s'.
Proof.
  revert a s. induction w as [|w IH]; intros a s; [done|]. cbn.
  destruct s as [|c s]; [done|]. destruct (is_digit c); [apply IH|done].
Qed.

Lemma pretty_char_digit d :
  (d < 10)%N → is_digit (pretty_N_char d) = true ∧ byte_val (pretty_N_char d) = (48 + Z.of_N d)%Z.
Proof. intros H. do 10 (destruct d as [|d] using N.peano_ind; [done|clear IHd]). lia. Qed.

Lemma parse_fixed_fixed w a x s :
  (x < 10 ^ N.of_nat w)%N →
  parse_fixed w a (fixed w x s) = Some ((a * 10 ^ Z.of_nat w + Z.of_N x)%Z, s).
Proof.
  revert a x s. induction w as [|w IH]; intros a x s Hx.
  { rewrite N.pow_0_r in Hx. cbn. repeat f_equal. lia. }
  rewrite pow10_S in Hx. replace (parse_fixed (S w)) with (parse_fixed (w + 1)) by (f_equal; lia).
  rewrite parse_fixed_add. cbn [fixed]. rewrite IH by (apply N.Div0.div_lt_upper_bound; lia).
  cbn. destruct (pretty_char_digit (x mod 10)) as [-> ->]; [by apply N.mod_lt|].
  do 2 f_equal. rewrite Nat2Z.inj_succ, Z.pow_succ_r by lia.
  rewrite N2Z.inj_div, N2Z.inj_mod. pose proof (Z.div_mod (Z.of_N x) 10). lia.
Qed.

Lemma parse_pad w z s :
  (0 ≤ z < 10 ^ Z.of_nat w)%Z → w ≠ 0%nat → parse_fixed w 0 (pad_Z w z +:+ s) = Some (z, s).
Proof.
  intros Hz Hw. rewrite pad_fixed by done.
  assert (∀ w x t, fixed w x t +:+ s = fixed w x (t +:+ s)) as Happ.
  { clear. induction w as [|w IH]; intros x t; [done|]. cbn. by rewrite IH. }
  rewrite Happ, str_append_nil_l, parse_fixed_fixed; [repeat f_equal; lia|].
  apply N2Z.inj_lt. rewrite Z2N.id, N2Z.inj_pow, nat_N_Z by lia. lia.
Qed.

(** *** The fraction *)

Definition digits (s : string) : Prop := ∀ c, str_mem c s = true → is_digit c = true.

Lemma digits_cons c s : digits (String c s) ↔ is_digit c = true ∧ digits s.
Proof.
  unfold digits. split.
  - intros H. split; [apply H|intros d Hd; apply H]; cbn; [by rewrite bool_decide_eq_true_2|].
    by rewrite Hd, orb_true_r.
  - intros [Hc Hs] d. cbn. destruct (bool_decide_reflect (c = d)) as [->|_]; [done|apply Hs].
Qed.

Lemma digits_fixed w x s : digits s → digits (fixed w x s).
Proof.
  revert x s. induction w as [|w IH]; intros x s Hs; [done|]. cbn [fixed]. apply IH, digits_cons.
  split; [|done]. by apply pretty_char_digit, N.mod_lt.
Qed.

Definition stops (s : string) : Prop :=
  match s with String c _ => is_digit c = false | EmptyString => True end.

Lemma frac_stops weight acc s : stops s → parse_digits_frac weight acc s = (acc, s).
Proof. destruct s as [|c s]; [done|]. cbn. by intros ->. Qed.

Lemma frac_fixed w a b s v s' :
  parse_fixed (S w) a s = Some (v, s') → stops s' →
  parse_digits_frac (10 ^ Z.of_nat w) b s = ((b + (v - a * 10 ^ Z.of_nat (S w)))%Z, s').
Proof.
  revert a b s. induction w as [|w IH]; intros a b s.
  - destruct s as [|c s]; [done|]. cbn. destruct (is_digit c); [|done]. intros [= <- ->] Hs.
    rewrite (frac_stops _ _ s') by exact Hs. f_equal. lia.
  - destruct s as [|c s]; [done|]. intros Hp Hs. change (parse_fixed (S (S w)) a (String c s)) with
      (if is_digit c then parse_fixed (S w) (10 * a + (byte_val c - 48)) s else None) in Hp.
    cbn [parse_digits_frac]. destruct (is_digit c); [|done].
    replace (10 ^ Z.of_nat (S w) / 10)%Z with (10 ^ Z.of_nat w)%Z
      by (rewrite Nat2Z.inj_succ, Z.pow_succ_r, Z.mul_comm, Z.div_mul; lia).
    erewrite IH by done. f_equal.
    rewrite (Nat2Z.inj_succ (S w)), (Z.pow_succ_r _ (Z.of_nat (S w))) by lia. ring.
Qed.

Lemma frac_zeros weight acc t k s :
  digits t → stops s →
  parse_digits_frac weight acc (t +:+ zeros k s) = parse_digits_frac weight acc (t +:+ s).
Proof.
  intros Ht Hs. revert weight acc Ht. induction t as [|c t IH]; intros weight acc Ht.
  - rewrite !str_append_nil_l, (frac_stops _ _ s Hs). revert weight acc.
    induction k as [|k IH]; intros weight acc; cbn [zeros]; [by apply frac_stops|].
    cbn [parse_digits_frac]. change (is_digit "0") with true. cbn iota.
    rewrite IH. f_equal. change (byte_val "0") with 48%Z. lia.
  - apply digits_cons in Ht as [Hc Ht]. rewrite !str_append_cons. cbn. rewrite Hc. by apply IH.
Qed.

Lemma rev_app_spec s t : String.rev_app s t = String.rev s +:+ t.
Proof.
  unfold String.rev. revert t. induction s as [|c s IH]; intros t; cbn; [by rewrite str_append_nil_l|].
  rewrite IH, (IH (String c "")), str_append_assoc, str_append_cons. by rewrite str_append_nil_l.
Qed.

Lemma rev_cons c s : String.rev (String c s) = String.rev s +:+ String c "".
Proof. unfold String.rev at 1. cbn. apply rev_app_spec. Qed.

Lemma rev_app s t : String.rev (s +:+ t) = String.rev t +:+ String.rev s.
Proof.
  induction s as [|c s IH]; [by rewrite str_append_nil_l, str_append_nil_r|].
  by rewrite str_append_cons, !rev_cons, IH, str_append_assoc.
Qed.

Lemma rev_rev s : String.rev (String.rev s) = s.
Proof.
  induction s as [|c s IH]; [done|]. rewrite rev_cons, rev_app, IH.
  change (String.rev (String c "")) with (String c ""). by rewrite str_append_cons, str_append_nil_l.
Qed.

Lemma strip_zeros_split s : ∃ k, s = strip_zeros s +:+ zeros k "".
Proof.
  assert (∀ r, ∃ k, String.rev r = String.rev (trim_left_byte "0" r) +:+ zeros k "") as H.
  { induction r as [|c r [k IH]]; [by exists 0%nat|]. cbn [trim_left_byte].
    destruct (bool_decide_reflect (c = "0"%char)) as [->|_].
    - exists (S k). rewrite rev_cons, IH, str_append_assoc. f_equal.
      clear. induction k as [|k IH]; [done|]. cbn [zeros]. by rewrite str_append_cons, IH.
    - exists 0%nat. by rewrite str_append_nil_r. }
  destruct (H (String.rev s)) as [k Hk]. rewrite rev_rev in Hk. by exists k.
Qed.

Lemma parse_frac_round ns s :
  (0 ≤ ns < Second)%Z → stops s →
  (∀ c s', s = String c s' → c ≠ "."%char ∧ c ≠ ","%char) →
  parse_frac (rfc3339_fraction ns +:+ s) = (ns, s).
Proof.
  intros Hns Hs Hc. unfold rfc3339_fraction.
  destruct (strip_zeros_split (pad_Z 9 ns)) as [k Hk].
  assert (parse_digits_frac 100000000 0 (pad_Z 9 ns +:+ s) = (ns, s)) as Hv.
  { change 100000000%Z with (10 ^ Z.of_nat 8)%Z. erewrite frac_fixed; [|by apply parse_pad|done].
    f_equal. lia. }
  assert (digits (strip_zeros (pad_Z 9 ns))) as Hd.
  { intros c Hm. assert (str_mem c (pad_Z 9 ns) = true) as Hm' by (rewrite Hk, str_mem_append, Hm; done).
    rewrite pad_fixed in Hm' by done. revert c Hm' Hm. intros c Hm' _.
    by apply (digits_fixed 9 (Z.to_N ns) ""). }
  rewrite Hk, str_append_assoc, zeros_app, str_append_nil_l, frac_zeros in Hv by done.
  destruct (strip_zeros _) as [|c t].
  - rewrite str_append_nil_l in *. rewrite frac_stops in Hv by done. injection Hv as <-.
    destruct s as [|c [|d s]]; [done..|]. destruct (Hc _ _ eq_refl) as [H1 H2]. cbn.
    by rewrite !bool_decide_eq_false_2 by done.
  - apply digits_cons in Hd as [Hd _]. rewrite str_append_cons in Hv.
    rewrite str_append_assoc, !str_append_cons, str_append_nil_l. cbn [parse_frac].
    by rewrite Hd, bool_decide_eq_true_2.
Qed.

(** *** Whole times *)

(** The years that RFC 3339 can write. *)
Definition year_ok (t : Time) : Prop := (0 ≤ (civil_of_days (t / Second / 86400)).1.1 ≤ 9999)%Z.

(** A time of a year with four digits survives being formatted with its
    nanoseconds and parsed. *)
Lemma parse_format_nano (t : Time) : year_ok t → ParseRFC3339 (FormatRFC3339Nano t) = Some t.
Proof.
  unfold year_ok, FormatRFC3339Nano.
  set (secs := (t / Second)%Z). set (ns := (t mod Second)%Z). set (sod := (secs mod 86400)%Z).
  pose proof (days_of_civil_of_days (secs / 86400)) as Hc.
  destruct (civil_of_days (secs / 86400)) as [[y m] d] eqn:E. destruct Hc as (Hday & Hm & Hd).
  cbn [fst]. intros Hy.
  assert (0 ≤ ns < Second)%Z as Hns by (apply Z.mod_pos_bound; done).
  assert (0 ≤ sod < 86400)%Z as Hsod by (apply Z.mod_pos_bound; done).
  assert (0 ≤ sod / 3600 < 24 ∧ 0 ≤ sod / 60 mod 60 < 60 ∧ 0 ≤ sod mod 60 < 60)%Z as (Hh & Hmi & Hs)
    by div_lia.
  unfold ParseRFC3339.
  repeat (rewrite parse_pad by (lia || done); cbn [mbind option_bind]; cbv beta iota;
    rewrite ?str_append_cons, ?str_append_nil_l; cbn [skip_byte];
    rewrite ?bool_decide_eq_true_2 by done; cbn [mbind option_bind]; cbv beta iota).
  rewrite parse_frac_round by (done || (intros ? ? [= <- <-]; done)). cbn [parse_zone].
  rewrite bool_decide_eq_true_2, str_eqb_refl by done. cbn [mbind option_bind].
  unfold valid_date. rewrite Hday, E, bool_decide_eq_true_2 by done.
  rewrite !(proj2 (Z.leb_le _ _)), !(proj2 (Z.ltb_lt _ _)) by lia. cbn [andb].
  f_equal. unfold ns, secs, sod in *. unfold Second in *. clear -t. div_lia.
Qed.

Lemma year_ok_seconds t : year_ok t → year_ok (t / Second * Second).
Proof. unfold year_ok. by rewrite Z.div_mul. Qed.

(** A column of whole seconds keeps the second of a time. *)
Lemma parse_format_seconds t : year_ok t → parse_time (FormatRFC3339 t) = (t / Second * Second)%Z.
Proof.
  intros H. unfold parse_time, FormatRFC3339. by rewrite parse_format_nano by by apply year_ok_seconds.
Qed.

Lemma parse_format_time t : year_ok t → parse_time (FormatRFC3339Nano t) = t.
Proof. intros H. unfold parse_time. by rewrite parse_format_nano. Qed.
