(* ===== verification/Sha256.v ===== *)
(** * SHA-256 ([crypto/sha256]) *)

From S2P Require Import Prelude GoFloat GoStrings.

Local Open Scope Z_scope.

Definition w32 (z : Z) : Z := z mod 2 ^ 32.

Definition rotr (n x : Z) : Z := Z.lor (Z.shiftr x n) (w32 (Z.shiftl x (32 - n))).

(** *** The constants

    They are the first 32 bits of the fractional parts of the cube roots and
    square roots of the first primes, and are computed from that definition. *)

(** No number from 2 to [p - 1] divides [p]. *)
Definition is_prime (p : Z) : bool :=
  forallb (λ d, negb (p mod Z.of_nat d =? 0)) (seq 2 (Z.to_nat p - 2)).

Definition sha_primes : list Z :=
  Eval vm_compute in filter (λ p, is_prime p = true) (Z.of_nat <$> seq 2 310).

(** The greatest [r] below [2^k + r0] with [r ^ 3 ≤ n], bit by bit. *)
Fixpoint cube_root (k : nat) (r0 n : Z) : Z :=
  match k with
  | O => r0
  | S k =>
      let r := r0 + 2 ^ Z.of_nat k in
      cube_root k (if r ^ 3 <=? n then r else r0) n
  end.

Definition sha_k : list Z :=
  Eval vm_compute in (λ p, w32 (cube_root 40 0 (p * 2 ^ 96))) <$> sha_primes.

Definition sha_init : list Z :=
  Eval vm_compute in (λ p, w32 (Z.sqrt (p * 2 ^ 64))) <$> take 8 sha_primes.

(** The message as bytes, padded to a multiple of 64. *)
Fixpoint str_bytes (s : string) : list Z :=
  match s with
  | EmptyString => []
  | String c s' => byte_val c :: str_bytes s'
  end.

Definition be_bytes (n : nat) (z : Z) : list Z :=
  (λ i, Z.shiftr z (8 * Z.of_nat i) mod 256) <$> reverse (seq 0 n).

Definition sha_pad (msg : list Z) : list Z :=
  let len := Z.of_nat (length msg) in
  let zeros := (55 - len) mod 64 in
  msg ++ 128 :: replicate (Z.to_nat zeros) 0 ++ be_bytes 8 (8 * len).

Fixpoint words_of_bytes (bs : list Z) : list Z :=
  match bs with
  | a :: b :: c :: d :: bs' =>
      (Z.shiftl a 24 + Z.shiftl b 16 + Z.shiftl c 8 + d) :: words_of_bytes bs'
  | _ => []
  end.

(** The message schedule, kept newest first: [w] holds the words so far. *)
Fixpoint sha_schedule (n : nat) (w : list Z) : list Z :=
  match n with
  | O => reverse w
  | S n =>
      let at_ i := nth i w 0 in
      let x15 := at_ 14%nat in
      let x2 := at_ 1%nat in
      let s0 := Z.lxor (rotr 7 x15) (Z.lxor (rotr 18 x15) (Z.shiftr x15 3)) in
      let s1 := Z.lxor (rotr 17 x2) (Z.lxor (rotr 19 x2) (Z.shiftr x2 10)) in
      sha_schedule n (w32 (at_ 15%nat + s0 + at_ 6%nat + s1) :: w)
  end.

Definition sha_round (st : list Z) (kw : Z * Z) : list Z :=
  match st with
  | [a; b; c; d; e; f; g; h] =>
      let '(k, w) := kw in
      let s1 := Z.lxor (rotr 6 e) (Z.lxor (rotr 11 e) (rotr 25 e)) in
      let ch := Z.lxor (Z.land e f) (Z.land (Z.lxor e (2 ^ 32 - 1)) g) in
      let t1 := h + s1 + ch + k + w in
      let s0 := Z.lxor (rotr 2 a) (Z.lxor (rotr 13 a) (rotr 22 a)) in
      let maj := Z.lxor (Z.land a b) (Z.lxor (Z.land a c) (Z.land b c)) in
      [w32 (t1 + s0 + maj); a; b; c; w32 (d + t1); e; f; g]
  | _ => st
  end.

Definition sha_block (st block : list Z) : list Z :=
  let w := sha_schedule 48 (reverse (words_of_bytes block)) in
  let st' := fold_left sha_round (zip sha_k w) st in
  zip_with (λ x y, w32 (x + y)) st st'.

Fixpoint sha_blocks (fuel : nat) (st msg : list Z) : list Z :=
  match fuel with
  | O => st
  | S fuel => sha_blocks fuel (sha_block st (take 64 msg)) (drop 64 msg)
  end.

Definition sha256 (msg : list Z) : list Z :=
  let padded := sha_pad msg in
  let st := sha_blocks (length padded / 64) sha_init padded in
  st ≫= be_bytes 4.

(** [hex.EncodeToString(sha256.Sum256([]byte(s))[:])]. *)
Definition sha256_hex (s : string) : string := hex_encode (sha256 (str_bytes s)).

Example sha256_abc :
  sha256_hex "abc" = "ba7816bf8f01cfea414140de5dae2223b00361a396177a9cb410ff61f20015ad".
Proof. vm_compute. reflexivity. Qed.

Example sha256_two_blocks :
  sha256_hex "abcdbcdecdefdefgefghfghighijhijkijkljklmklmnlmnomnopnopq"
  = "248d6a61d20638b8e5c026930c3e6039a33ce45964ff2167f6ecedd419db06c1".
Proof. vm_compute. reflexivity. Qed.

(** ** The digest is never the empty string *)

Lemma sha_round_length st kw : length st = 8%nat → length (sha_round st kw) = 8%nat.
Proof.
  intros H. unfold sha_round. destruct kw.
  do 9 (destruct st as [|? st]; [done|]; simpl in H; try discriminate). all: done.
Qed.

Lemma sha_rounds_length l st :
  length st = 8%nat → length (fold_left sha_round l st) = 8%nat.
Proof. revert st. induction l; intros; simpl; [done|]. by apply IHl, sha_round_length. Qed.

Lemma sha_block_length st block : length st = 8%nat → length (sha_block st block) = 8%nat.
Proof.
  intros H. unfold sha_block. rewrite length_zip_with, H.
  by rewrite sha_rounds_length.
Qed.

Lemma sha_blocks_length fuel st msg :
  length st = 8%nat → length (sha_blocks fuel st msg) = 8%nat.
Proof. revert st msg. induction fuel; intros; simpl; [done|]. by apply IHfuel, sha_block_length. Qed.

Lemma be_bytes_length n z : length (be_bytes n z) = n.
Proof. unfold be_bytes. by rewrite length_fmap, length_reverse, length_seq. Qed.

Lemma flat_be_bytes_length st : length (st ≫= be_bytes 4) = (4 * length st)%nat.
Proof.
  induction st as [|x st IH]; [done|]. cbn [mbind list_bind].
  rewrite length_app, be_bytes_length. simpl length. change (list_bind _ _ _ _) with (st ≫= be_bytes 4). lia.
Qed.

Lemma sha256_length msg : length (sha256 msg) = 32%nat.
Proof. unfold sha256. by rewrite flat_be_bytes_length, sha_blocks_length. Qed.

Lemma hex_encode_length bs : String.length (hex_encode bs) = (2 * length bs)%nat.
Proof.
  induction bs as [|b bs IH]; [done|]. cbn [hex_encode foldr].
  rewrite str_length_append. unfold hex_encode in IH. rewrite IH. simpl. lia.
Qed.

Lemma sha256_hex_length s : String.length (sha256_hex s) = 64%nat.
Proof. unfold sha256_hex. by rewrite hex_encode_length, sha256_length. Qed.

Lemma sha256_hex_nonempty s : sha256_hex s ≠ ""%string.
Proof. intros H. pose proof (sha256_hex_length s) as Hl. by rewrite H in Hl. Qed.
