(* ===== verification/Base64.v ===== *)
(** * Base64 in the URL alphabet ([encoding/base64])

    [RawURLEncoding] and [URLEncoding] as the program uses them: encoding, and
    decoding that skips line breaks and does not look at the unused bits of the
    last digit. *)

From S2P Require Import Prelude GoFloat GoStrings Sha256.

#[local] Open Scope Z_scope.

Definition chr (b : Z) : ascii := ascii_of_N (Z.to_N b).
Definition bytes_string (bs : list Z) : string := foldr (λ b s, String (chr b) s) EmptyString bs.

(** ** Bytes and digits of six bits *)

Fixpoint digits_of_bytes (bs : list Z) : list Z :=
  match bs with
  | a :: b :: c :: bs' =>
      a / 4 :: a mod 4 * 16 + b / 16 :: b mod 16 * 4 + c / 64 :: c mod 64 :: digits_of_bytes bs'
  | [a; b] => [a / 4; a mod 4 * 16 + b / 16; b mod 16 * 4]
  | [a] => [a / 4; a mod 4 * 16]
  | [] => []
  end.

Fixpoint bytes_of_digits (ds : list Z) : option (list Z) :=
  match ds with
  | w :: x :: y :: z :: ds' =>
      ([w * 4 + x / 16; x mod 16 * 16 + y / 4; y mod 4 * 64 + z] ++.) <$> bytes_of_digits ds'
  | [w; x; y] => Some [w * 4 + x / 16; x mod 16 * 16 + y / 4]
  | [w; x] => Some [w * 4 + x / 16]
  | [_] => None
  | [] => Some []
  end.

Definition digit_char (d : Z) : Z :=
  if d <? 26 then 65 + d
  else if d <? 52 then 71 + d
  else if d <? 62 then d - 4
  else if d =? 62 then 45 else 95.

Definition char_digit (b : Z) : option Z :=
  if (65 <=? b) && (b <=? 90) then Some (b - 65)
  else if (97 <=? b) && (b <=? 122) then Some (b - 71)
  else if (48 <=? b) && (b <=? 57) then Some (b + 4)
  else if b =? 45 then Some 62
  else if b =? 95 then Some 63
  else None.

(** ** The encodings *)

Definition RawURL_encode (s : string) : string :=
  bytes_string (digit_char <$> digits_of_bytes (str_bytes s)).

Definition decode_bytes (bs : list Z) : option string :=
  ds ← mapM char_digit bs;
  bytes_string <$> bytes_of_digits ds.

Definition without_breaks (s : string) : list Z :=
  filter (λ b, (b ≠ 10 ∧ b ≠ 13)%Z) (str_bytes s).

Definition RawURL_decode (s : string) : option string := decode_bytes (without_breaks s).

(** With padding: the last group is filled up to four characters with [=]. *)
Definition URL_decode (s : string) : option string :=
  let bs := without_breaks s in
  if negb (Z.of_nat (length bs) mod 4 =? 0) then None
  else
    match reverse bs with
    | 61 :: 61 :: rest => decode_bytes (reverse rest)
    | 61 :: rest => decode_bytes (reverse rest)
    | _ => decode_bytes bs
    end.

Example raw_url_sample : RawURL_encode "Hi?>~" = "SGk_Pn4".
Proof. reflexivity. Qed.

Example url_sample : URL_decode "SGk_Pn4=" = Some "Hi?>~" ∧ URL_decode "SGk_Pn4" = None ∧
  RawURL_decode "SGk_Pn4=" = None.
Proof. repeat split; vm_compute; reflexivity. Qed.

(** ** Decoding what was encoded *)

Definition is_byte (b : Z) : Prop := (0 ≤ b < 256)%Z.
Definition is_digit (d : Z) : Prop := (0 ≤ d < 64)%Z.

Lemma str_bytes_range s : Forall is_byte (str_bytes s).
Proof.
  induction s as [|c s IH]; simpl; constructor; [|done].
  unfold is_byte, byte_val. pose proof (N_ascii_bounded c). lia.
Qed.

Lemma chr_byte c : chr (byte_val c) = c.
Proof. unfold chr, byte_val. by rewrite N2Z.id, ascii_N_embedding. Qed.

Lemma byte_chr b : is_byte b → byte_val (chr b) = b.
Proof.
  unfold is_byte, chr, byte_val. intros Hb. rewrite N_ascii_embedding; lia.
Qed.

Lemma bytes_string_of s : bytes_string (str_bytes s) = s.
Proof. induction s as [|c s IH]; simpl; [done|]. by rewrite IH, chr_byte. Qed.

Lemma str_bytes_of bs : Forall is_byte bs → str_bytes (bytes_string bs) = bs.
Proof. induction 1 as [|b bs Hb _ IH]; simpl; [done|]. by rewrite IH, byte_chr. Qed.

(** Induction by groups of three bytes. *)
Definition groups_ind (P : list Z → Prop) (H0 : P []) (H1 : ∀ a, P [a]) (H2 : ∀ a b, P [a; b])
    (H3 : ∀ a b c l, P l → P (a :: b :: c :: l)) : ∀ l, P l :=
  fix F l :=
    match l with
    | [] => H0
    | [a] => H1 a
    | [a; b] => H2 a b
    | a :: b :: c :: l => H3 a b c l (F l)
    end.

(** The digits of a group give its bytes back. *)
Lemma group_bytes a b c :
  is_byte a → is_byte b → is_byte c →
  (a / 4 * 4 + (a mod 4 * 16 + b / 16) / 16 = a ∧
   (a mod 4 * 16 + b / 16) mod 16 * 16 + (b mod 16 * 4 + c / 64) / 4 = b ∧
   (b mod 16 * 4 + c / 64) mod 4 * 64 + c mod 64 = c)%Z.
Proof. unfold is_byte. intros. Z.to_euclidean_division_equations. lia. Qed.

Lemma group_digits a b c :
  is_byte a → is_byte b → is_byte c →
  is_digit (a / 4) ∧ is_digit (a mod 4 * 16 + b / 16) ∧ is_digit (b mod 16 * 4 + c / 64) ∧
  is_digit (c mod 64).
Proof. unfold is_byte, is_digit. intros. Z.to_euclidean_division_equations. lia. Qed.

Lemma byte_zero : is_byte 0.
Proof. unfold is_byte. lia. Qed.

Lemma bytes_digits bs : Forall is_byte bs → bytes_of_digits (digits_of_bytes bs) = Some bs.
Proof.
  induction bs as [|a|a b|a b c l IH] using groups_ind; simpl; [done|..].
  - intros [Ha _]%Forall_cons. destruct (group_bytes a 0 0 Ha byte_zero byte_zero) as (E1 & _).
    change (0 / 16)%Z with 0%Z in E1. rewrite Z.add_0_r in E1. by rewrite E1.
  - intros [Ha [Hb _]%Forall_cons]%Forall_cons.
    destruct (group_bytes a b 0 Ha Hb byte_zero) as (E1 & E2 & _).
    change (0 / 64)%Z with 0%Z in E2. rewrite Z.add_0_r in E2. by rewrite E1, E2.
  - intros [Ha [Hb [Hc Hl]%Forall_cons]%Forall_cons]%Forall_cons. rewrite (IH Hl).
    destruct (group_bytes a b c Ha Hb Hc) as (E1 & E2 & E3). csimpl. by rewrite E1, E2, E3.
Qed.

Lemma digits_range bs : Forall is_byte bs → Forall is_digit (digits_of_bytes bs).
Proof.
  induction bs as [|a|a b|a b c l IH] using groups_ind; simpl; [constructor|..].
  - intros [Ha _]%Forall_cons. destruct (group_digits a 0 0 Ha byte_zero byte_zero) as (D1 & D2 & _).
    change (0 / 16)%Z with 0%Z in D2. rewrite Z.add_0_r in D2. auto.
  - intros [Ha [Hb _]%Forall_cons]%Forall_cons.
    destruct (group_digits a b 0 Ha Hb byte_zero) as (D1 & D2 & D3 & _).
    change (0 / 64)%Z with 0%Z in D3. rewrite Z.add_0_r in D3. auto.
  - intros [Ha [Hb [Hc Hl]%Forall_cons]%Forall_cons]%Forall_cons.
    destruct (group_digits a b c Ha Hb Hc) as (D1 & D2 & D3 & D4). auto 6.
Qed.

(** The alphabet, checked digit by digit. *)
Lemma char_digit_table :
  forallb (λ d, match char_digit (digit_char d) with Some e => Z.eqb d e | None => false end &&
                negb (digit_char d =? 10)%Z && negb (digit_char d =? 13)%Z &&
                (0 <=? digit_char d)%Z && (digit_char d <? 256)%Z)
    (seqZ 0 64) = true.
Proof. vm_compute. reflexivity. Qed.

Lemma digit_char_spec d :
  is_digit d →
  char_digit (digit_char d) = Some d ∧ is_byte (digit_char d) ∧ digit_char d ≠ 10%Z ∧ digit_char d ≠ 13%Z.
Proof.
  intros Hd. pose proof char_digit_table as Ht. rewrite forallb_forall in Ht.
  specialize (Ht d). rewrite <- list_elem_of_In, elem_of_seqZ in Ht. unfold is_digit in Hd.
  specialize (Ht ltac:(lia)). rewrite !andb_true_iff, !negb_true_iff, !Z.eqb_neq in Ht.
  destruct Ht as ((((Ht & ?) & ?) & ?) & ?).
  destruct (char_digit (digit_char d)) as [e|]; [|done]. apply Z.eqb_eq in Ht. subst e.
  unfold is_byte. repeat split; lia || done.
Qed.

Lemma decode_digits ds : Forall is_digit ds → mapM char_digit (digit_char <$> ds) = Some ds.
Proof.
  intros Hd. apply mapM_Some_2. rewrite Forall2_fmap_l. apply Forall_Forall2_diag.
  eapply Forall_impl; [exact Hd|]. intros d Hdd. apply (digit_char_spec d Hdd).
Qed.

(** Encoding loses nothing, whatever the bytes. *)
Lemma RawURL_roundtrip s : RawURL_decode (RawURL_encode s) = Some s.
Proof.
  pose proof (digits_range _ (str_bytes_range s)) as Hd.
  assert (Hb : Forall is_byte (digit_char <$> digits_of_bytes (str_bytes s))).
  { apply Forall_fmap. eapply Forall_impl; [exact Hd|]. intros d Hdd. apply (digit_char_spec d Hdd). }
  assert (Hw : without_breaks (RawURL_encode s) = digit_char <$> digits_of_bytes (str_bytes s)).
  { unfold without_breaks, RawURL_encode. rewrite (str_bytes_of _ Hb). clear Hb.
    induction Hd as [|d ds Hdd _ IH]; [done|]. rewrite fmap_cons.
    destruct (digit_char_spec d Hdd) as (_ & _ & ? & ?). rewrite filter_cons, decide_True by done.
    by rewrite IH. }
  unfold RawURL_decode. rewrite Hw. unfold decode_bytes. rewrite (decode_digits _ Hd). csimpl.
  rewrite (bytes_digits _ (str_bytes_range s)). csimpl. by rewrite bytes_string_of.
Qed.
