(* ===== verification/Errors.v ===== *)
(** * Errors ([pkg/domain/errors.go])

    Sentinel errors, the structured [AppError], and the mapping from one to the
    other that decides the HTTP status of a response. *)

From S2P Require Import Prelude GoFloat GoStrings.

(** ** Sentinels *)

Inductive SentinelErr :=
| ErrNotFound | ErrUnauthorized | ErrForbidden | ErrConflict | ErrInvalidInput
| ErrUserNotFound | ErrEmailAlreadyExists | ErrOrgNotFound | ErrProjectNotFound
| ErrFlagNotFound | ErrInvalidEnvironment | ErrEnvironmentRestricted
| ErrKeyNotFound | ErrKeyRevoked | ErrFourEyesSelfApproval
| ErrChangeRequestConflict | ErrInternal.

#[export] Instance SentinelErr_eq_dec : EqDecision SentinelErr.
Proof. solve_decision. Defined.

Definition sentinel_text (s : SentinelErr) : string :=
  match s with
  | ErrNotFound => "resource not found"
  | ErrUnauthorized => "unauthorized: missing or invalid credentials"
  | ErrForbidden => "forbidden: insufficient permissions"
  | ErrConflict => "resource conflict: entity already exists"
  | ErrInvalidInput => "invalid input: validation failed"
  | ErrUserNotFound => "user not found"
  | ErrEmailAlreadyExists => "an account with this email address already exists"
  | ErrOrgNotFound => "organization not found"
  | ErrProjectNotFound => "project not found"
  | ErrFlagNotFound => "feature flag not found"
  | ErrInvalidEnvironment => "invalid environment"
  | ErrEnvironmentRestricted => "api key environment restriction violated"
  | ErrKeyNotFound => "api key not found"
  | ErrKeyRevoked => "api key revoked"
  | ErrFourEyesSelfApproval => "author cannot review or approve their own change request"
  | ErrChangeRequestConflict =>
      "flag configuration has been modified since change request was created; please re-review"
  | ErrInternal => "internal server error"
  end.

(** ** Codes *)

Abbreviation ErrorCode := Z.

Definition ErrCodeUnauthorized : ErrorCode := 1001%Z.
Definition ErrCodeForbidden : ErrorCode := 1002%Z.
Definition ErrCodeInvalidCredentials : ErrorCode := 1003%Z.
Definition ErrCodeAPIKeyNotFound : ErrorCode := 1004%Z.
Definition ErrCodeAPIKeyRevoked : ErrorCode := 1005%Z.
Definition ErrCodeEnvironmentRestricted : ErrorCode := 1006%Z.
Definition ErrCodePasswordTooWeak : ErrorCode := 1007%Z.
Definition ErrCodeEmailAlreadyExists : ErrorCode := 1008%Z.
Definition ErrCodeUserNotFound : ErrorCode := 1009%Z.
Definition ErrCodeOrgNotFound : ErrorCode := 2001%Z.
Definition ErrCodeOrgConflict : ErrorCode := 2002%Z.
Definition ErrCodeProjectNotFound : ErrorCode := 2003%Z.
Definition ErrCodeProjectConflict : ErrorCode := 2004%Z.
Definition ErrCodeProjectAccessDenied : ErrorCode := 2005%Z.
Definition ErrCodeProjectRequired : ErrorCode := 2006%Z.
Definition ErrCodeFlagNotFound : ErrorCode := 3001%Z.
Definition ErrCodeFlagAlreadyExists : ErrorCode := 3002%Z.
Definition ErrCodeInvalidEnvironment : ErrorCode := 3003%Z.
Definition ErrCodeInvalidRollout : ErrorCode := 3004%Z.
Definition ErrCodeEvaluationMissingCtx : ErrorCode := 3005%Z.
Definition ErrCodeNotFound : ErrorCode := 3006%Z.
Definition ErrCodeChangeRequestNotFound : ErrorCode := 4001%Z.
Definition ErrCodeFourEyesSelfApproval : ErrorCode := 4002%Z.
Definition ErrCodeChangeRequestReviewed : ErrorCode := 4003%Z.
Definition ErrCodeExperimentNotFound : ErrorCode := 4004%Z.
Definition ErrCodeChangeRequestConflict : ErrorCode := 4005%Z.
Definition ErrCodeDatabaseConnection : ErrorCode := 5001%Z.
Definition ErrCodeDatabaseQuery : ErrorCode := 5002%Z.
Definition ErrCodeDatabaseConstraint : ErrorCode := 5003%Z.
Definition ErrCodeSSEStreamDisconnect : ErrorCode := 6001%Z.
Definition ErrCodeCircuitBreakerOpen : ErrorCode := 6002%Z.
Definition ErrCodeRateLimitExceeded : ErrorCode := 6003%Z.
Definition ErrCodePayloadTooLarge : ErrorCode := 6004%Z.
Definition ErrCodeMalformedPayload : ErrorCode := 6005%Z.
Definition ErrCodeBadRequest : ErrorCode := 6006%Z.
Definition ErrCodeInternal : ErrorCode := 9001%Z.

(** [ErrorCode.Layer]. *)
Definition Layer (c : ErrorCode) : string :=
  if (1000 <=? c)%Z && (c <? 2000)%Z then "SecurityLayer"
  else if (2000 <=? c)%Z && (c <? 3000)%Z then "MultiTenancyLayer"
  else if (3000 <=? c)%Z && (c <? 4000)%Z then "FlagEngineLayer"
  else if (4000 <=? c)%Z && (c <? 5000)%Z then "GovernanceLayer"
  else if (5000 <=? c)%Z && (c <? 6000)%Z then "StorageLayer"
  else if (6000 <=? c)%Z && (c <? 7000)%Z then "TransportLayer"
  else "SystemLayer".

(** [ErrorCode.String]: the arms of the switch, in the source's order. *)
Definition code_names : list (ErrorCode * string) :=
  [ (ErrCodeUnauthorized, "UNAUTHORIZED");
    (ErrCodeForbidden, "FORBIDDEN");
    (ErrCodeInvalidCredentials, "INVALID_CREDENTIALS");
    (ErrCodeAPIKeyNotFound, "API_KEY_NOT_FOUND");
    (ErrCodeAPIKeyRevoked, "API_KEY_REVOKED");
    (ErrCodeEnvironmentRestricted, "ENVIRONMENT_RESTRICTED");
    (ErrCodePasswordTooWeak, "PASSWORD_TOO_WEAK");
    (ErrCodeEmailAlreadyExists, "EMAIL_ALREADY_EXISTS");
    (ErrCodeOrgNotFound, "ORGANIZATION_NOT_FOUND");
    (ErrCodeOrgConflict, "ORGANIZATION_CONFLICT");
    (ErrCodeProjectNotFound, "PROJECT_NOT_FOUND");
    (ErrCodeProjectConflict, "PROJECT_CONFLICT");
    (ErrCodeProjectAccessDenied, "PROJECT_ACCESS_DENIED");
    (ErrCodeFlagNotFound, "FLAG_NOT_FOUND");
    (ErrCodeFlagAlreadyExists, "FLAG_ALREADY_EXISTS");
    (ErrCodeInvalidEnvironment, "INVALID_ENVIRONMENT");
    (ErrCodeInvalidRollout, "INVALID_ROLLOUT");
    (ErrCodeEvaluationMissingCtx, "EVALUATION_MISSING_CONTEXT");
    (ErrCodeNotFound, "NOT_FOUND");
    (ErrCodeChangeRequestNotFound, "CHANGE_REQUEST_NOT_FOUND");
    (ErrCodeFourEyesSelfApproval, "FOUR_EYES_SELF_APPROVAL");
    (ErrCodeChangeRequestReviewed, "CHANGE_REQUEST_ALREADY_REVIEWED");
    (ErrCodeExperimentNotFound, "EXPERIMENT_NOT_FOUND");
    (ErrCodeDatabaseConnection, "DATABASE_CONNECTION_ERROR");
    (ErrCodeDatabaseQuery, "DATABASE_QUERY_ERROR");
    (ErrCodeDatabaseConstraint, "DATABASE_CONSTRAINT_VIOLATION");
    (ErrCodeSSEStreamDisconnect, "STREAM_DISCONNECT");
    (ErrCodeCircuitBreakerOpen, "CIRCUIT_BREAKER_OPEN");
    (ErrCodeRateLimitExceeded, "RATE_LIMIT_EXCEEDED");
    (ErrCodePayloadTooLarge, "PAYLOAD_TOO_LARGE");
    (ErrCodeMalformedPayload, "MALFORMED_PAYLOAD") ].

Fixpoint code_lookup (c : ErrorCode) (l : list (ErrorCode * string)) : string :=
  match l with
  | [] => "INTERNAL_SERVER_ERROR"
  | (c', n) :: l' => if (c =? c')%Z then n else code_lookup c l'
  end.

Definition code_String (c : ErrorCode) : string := code_lookup c code_names.

(** ** Error values *)

(** A non-nil Go [error] of this code base: a sentinel, a plain text error, an
    error wrapped by [fmt.Errorf("...%w", ...)] (its whole text and the wrapped
    error), or an [*AppError] with its optional cause. *)
#[warnings="-register-all"]
Inductive GoError :=
| ESentinel (s : SentinelErr)
| EText (msg : string)
| EWrap (msg : string) (inner : GoError)
| EApp (Code : ErrorCode) (Type_ Layer_ Message : string) (HTTPStatus : Z) (Err_ : option GoError).

(** [err.Error()]. *)
Fixpoint Error (e : GoError) : string :=
  match e with
  | ESentinel s => sentinel_text s
  | EText m => m
  | EWrap m _ => m
  | EApp code ty _ msg _ cause =>
      let head := "[" +:+ ty +:+ "/" +:+ Itoa code +:+ "] " +:+ msg in
      match cause with
      | Some c => head +:+ ": " +:+ Error c
      | None => head
      end
  end.

(** [errors.Unwrap]. *)
Definition Unwrap (e : GoError) : option GoError :=
  match e with
  | EWrap _ i => Some i
  | EApp _ _ _ _ _ c => c
  | _ => None
  end.

(** [errors.Is(e, target)] for a sentinel target. *)
Fixpoint errors_Is (e : GoError) (target : SentinelErr) : bool :=
  match e with
  | ESentinel s => bool_decide (s = target)
  | EText _ => false
  | EWrap _ i => errors_Is i target
  | EApp _ _ _ _ _ (Some c) => errors_Is c target
  | EApp _ _ _ _ _ None => false
  end.

(** [errors.As(e, &appErr)]: the first [*AppError] of the chain. *)
Fixpoint errors_AsApp (e : GoError) : option GoError :=
  match e with
  | EApp _ _ _ _ _ _ => Some e
  | EWrap _ i => errors_AsApp i
  | _ => None
  end.

Definition NewAppError (code : ErrorCode) (message : string) (status : Z)
    (cause : option GoError) : GoError :=
  EApp code (code_String code) (Layer code) message status cause.

(** The switch of [MapSentinelToAppError], in the source's order. *)
Definition sentinel_arms : list (SentinelErr * (ErrorCode * Z)) :=
  [ (ErrUnauthorized, (ErrCodeUnauthorized, 401%Z));
    (ErrForbidden, (ErrCodeForbidden, 403%Z));
    (ErrEnvironmentRestricted, (ErrCodeEnvironmentRestricted, 403%Z));
    (ErrEmailAlreadyExists, (ErrCodeEmailAlreadyExists, 409%Z));
    (ErrConflict, (ErrCodeFlagAlreadyExists, 409%Z));
    (ErrUserNotFound, (ErrCodeUserNotFound, 404%Z));
    (ErrOrgNotFound, (ErrCodeOrgNotFound, 404%Z));
    (ErrProjectNotFound, (ErrCodeProjectNotFound, 404%Z));
    (ErrFlagNotFound, (ErrCodeFlagNotFound, 404%Z));
    (ErrNotFound, (ErrCodeNotFound, 404%Z));
    (ErrInvalidInput, (ErrCodeMalformedPayload, 400%Z));
    (ErrInvalidEnvironment, (ErrCodeInvalidEnvironment, 400%Z));
    (ErrFourEyesSelfApproval, (ErrCodeFourEyesSelfApproval, 400%Z));
    (ErrChangeRequestConflict, (ErrCodeChangeRequestConflict, 409%Z)) ].

Fixpoint sentinel_switch (e : GoError) (arms : list (SentinelErr * (ErrorCode * Z)))
    : ErrorCode * Z :=
  match arms with
  | [] => (ErrCodeInternal, 500%Z)
  | (s, r) :: arms' => if errors_Is e s then r else sentinel_switch e arms'
  end.

(** [MapSentinelToAppError]; [None] is the nil error. *)
Definition MapSentinelToAppError (err : option GoError) : option GoError :=
  match err with
  | None => None
  | Some e =>
      match errors_AsApp e with
      | Some a => Some a
      | None =>
          let '(code, status) := sentinel_switch e sentinel_arms in
          Some (NewAppError code (Error e) status (Some e))
      end
  end.

(** ** Projections of an [*AppError] *)

Definition app_code (e : GoError) : option ErrorCode :=
  match e with EApp c _ _ _ _ _ => Some c | _ => None end.
Definition app_type (e : GoError) : option string :=
  match e with EApp _ t _ _ _ _ => Some t | _ => None end.
Definition app_status (e : GoError) : option Z :=
  match e with EApp _ _ _ _ s _ => Some s | _ => None end.

(** ** Theorems *)

(** The sentinel at the end of a chain of wrappings, when it has one. *)
Fixpoint root_sentinel (e : GoError) : option SentinelErr :=
  match e with
  | ESentinel s => Some s
  | EText _ => None
  | EWrap _ i => root_sentinel i
  | EApp _ _ _ _ _ (Some c) => root_sentinel c
  | EApp _ _ _ _ _ None => None
  end.

Lemma errors_Is_root e t : errors_Is e t = true ↔ root_sentinel e = Some t.
Proof.
  revert e. fix IH 1. intros [s|m|m i|? ? ? ? ? [c|]]; simpl.
  - clear IH. rewrite bool_decide_eq_true. naive_solver.
  - done.
  - apply IH.
  - apply IH.
  - done.
Qed.

Lemma sentinel_switch_root e e' arms :
  root_sentinel e = root_sentinel e' → sentinel_switch e arms = sentinel_switch e' arms.
Proof.
  intros Hr. induction arms as [|[s r] arms IH]; [done|]. simpl. rewrite IH.
  destruct (errors_Is e s) eqn:E1, (errors_Is e' s) eqn:E2; try done.
  - apply errors_Is_root in E1. rewrite Hr in E1. apply errors_Is_root in E1. congruence.
  - apply errors_Is_root in E2. rewrite <- Hr in E2. apply errors_Is_root in E2. congruence.
Qed.

Lemma errors_AsApp_app e a : errors_AsApp e = Some a → errors_AsApp a = Some a.
Proof.
  induction e; simpl; try done. by intros [= <-].
Qed.

(** Every mapping result carries a layer that matches its code, whatever error
    goes in, and mapping again changes nothing. *)
Theorem MapSentinelToAppError_idempotent err :
  MapSentinelToAppError (MapSentinelToAppError err) = MapSentinelToAppError err.
Proof.
  destruct err as [e|]; [|done]. cbn [MapSentinelToAppError].
  destruct (errors_AsApp e) as [a|] eqn:E; cbn [MapSentinelToAppError].
  - by rewrite (errors_AsApp_app _ _ E).
  - by destruct (sentinel_switch e sentinel_arms).
Qed.

(** Wrapping an error with [%w], any number of times, does not change the code
    and the status it maps to. *)
Theorem MapSentinelToAppError_wrap m e a a' :
  MapSentinelToAppError (Some e) = Some a →
  MapSentinelToAppError (Some (EWrap m e)) = Some a' →
  app_code a = app_code a' ∧ app_status a = app_status a'.
Proof.
  cbn [MapSentinelToAppError errors_AsApp].
  destruct (errors_AsApp e) as [b|] eqn:E; [naive_solver|].
  rewrite (sentinel_switch_root (EWrap m e) e sentinel_arms eq_refl).
  destruct (sentinel_switch e sentinel_arms). intros [= <-] [= <-]. done.
Qed.
