(* ===== verification/Domain.v ===== *)
(** * The data of the platform ([pkg/domain])

    One record per Go struct, with a prefix for the struct and Go's field name
    after it.  String-typed enumerations ([Environment], [RuleOperator], ...) stay
    strings with named constants, because a value outside the constants reaches
    the [default] arms of the code.  A nil slice or map is the empty one: no
    operation modelled here tells them apart. *)

From S2P Require Import Prelude GoFloat GoStrings GoTime Errors.

(** ** Constants ([constants.go], [flag.go]) *)

Abbreviation Environment := string.
Abbreviation UserRole := string.

Definition EnvProduction : Environment := "production".
Definition EnvStaging : Environment := "staging".
Definition EnvDevelopment : Environment := "development".
Definition EnvAll : Environment := "all".

Definition RoleAdmin : UserRole := "admin".
Definition RoleDeveloper : UserRole := "developer".
Definition RoleQA : UserRole := "qa".
Definition RoleMember : UserRole := "member".
Definition RoleViewer : UserRole := "viewer".

Definition DefaultOrgID : string := "org_default".
Definition DefaultOrgName : string := "Default Organization".
Definition DefaultOrgSlug : string := "default-org".
Definition DefaultProjectID : string := "proj_default".
Definition DefaultProjectName : string := "Default Project".
Definition DefaultProjectSlug : string := "default-project".

Definition StrategyBoolean : string := "boolean".
Definition StrategyPercentage : string := "percentage".
Definition StrategyRules : string := "rules".
Definition StrategyMultivariate : string := "multivariate".

Definition AttrUserID : string := "user_id".
Definition AttrEmail : string := "email".
Definition AttrCountry : string := "country".
Definition AttrRole : string := "role".
Definition AttrTier : string := "tier".
Definition AttrCustom : string := "custom".

Definition OpEquals : string := "equals".
Definition OpNotEquals : string := "not_equals".
Definition OpContains : string := "contains".
Definition OpNotContains : string := "not_contains".
Definition OpStartsWith : string := "starts_with".
Definition OpEndsWith : string := "ends_with".
Definition OpInList : string := "in_list".
Definition OpNotInList : string := "not_in_list".
Definition OpGreaterThan : string := "greater_than".
Definition OpGreaterThanOrEqual : string := "greater_than_or_equal".
Definition OpLessThan : string := "less_than".
Definition OpLessThanOrEqual : string := "less_than_or_equal".
Definition OpRegex : string := "regex".

Definition ActionForceEnabled : string := "force_enabled".
Definition ActionForceDisabled : string := "force_disabled".
Definition ActionServeVariant : string := "serve_variant".

Definition ReasonKillSwitchDisabled : string := "KILL_SWITCH_DISABLED".
Definition ReasonEnvDisabled : string := "ENV_DISABLED".
Definition ReasonTargetingRuleMatch : string := "TARGETING_RULE_MATCH".
Definition ReasonPercentageBucket : string := "PERCENTAGE_ROLLOUT_BUCKET".
Definition ReasonPercentageExcluded : string := "PERCENTAGE_ROLLOUT_EXCLUDED".
Definition ReasonMultivariateBucket : string := "MULTIVARIATE_BUCKET".
Definition ReasonDefaultEnabled : string := "DEFAULT_ENABLED".
Definition ReasonDefaultOff : string := "DEFAULT_OFF".
Definition ReasonFlagNotFound : string := "FLAG_NOT_FOUND".

(** ** Dynamic values *)

(** An [interface{}], by the cases the type switches of the code distinguish.
    [AnyStringer] carries what [String()] returns and [AnyOther] (a JSON array
    or object) what the verb [%v] prints. *)
Inductive GoAny :=
| AnyNil
| AnyString (s : string)
| AnyStringer (text : string)
| AnyBool (b : bool)
| AnyInt (z : Z)
| AnyInt64 (z : Z)
| AnyFloat64 (x : f64)
| AnyOther (sprint : string).

(** ** Feature flags ([flag.go]) *)

Record TargetingRule := mkRule {
  tr_ID : string;
  tr_Name : string;
  tr_Attribute : string;
  tr_CustomKey : string;
  tr_Operator : string;
  tr_Values : list string;
  tr_Action : string;
  tr_ServeVariant : string;
}.

Record FlagVariant := mkVariant {
  fv_Key : string;
  fv_Name : string;
  fv_Value : GoAny;
  fv_Weight : f64;
  fv_Description : string;
}.

Record EnvironmentConfig := mkEnvConfig {
  ec_Enabled : bool;
  ec_Strategy : string;
  ec_Percentage : f64;
  ec_Rules : list TargetingRule;
  ec_Variants : list FlagVariant;
  ec_DefaultVariant : string;
  ec_OffVariant : string;
  ec_RequiresApproval : bool;
}.

#[export] Instance eta_EnvironmentConfig : Eta EnvironmentConfig :=
  {| eta_expand r := mkEnvConfig (ec_Enabled r) (ec_Strategy r) (ec_Percentage r) (ec_Rules r)
       (ec_Variants r) (ec_DefaultVariant r) (ec_OffVariant r) (ec_RequiresApproval r) |}.

Record FeatureFlag := mkFlag {
  ff_ID : string;
  ff_ProjectID : string;
  ff_ConfigVersion : Z;
  ff_Key : string;
  ff_Name : string;
  ff_Description : string;
  ff_Type : string;
  ff_Tags : list string;
  ff_Environments : gmap string EnvironmentConfig;
  ff_CreatedAt : Time;
  ff_UpdatedAt : Time;
}.

#[export] Instance eta_FeatureFlag : Eta FeatureFlag :=
  {| eta_expand r := mkFlag (ff_ID r) (ff_ProjectID r) (ff_ConfigVersion r) (ff_Key r) (ff_Name r)
       (ff_Description r) (ff_Type r) (ff_Tags r) (ff_Environments r) (ff_CreatedAt r)
       (ff_UpdatedAt r) |}.

(** The zero values [EnvironmentConfig{}] and [FeatureFlag{}]. *)
Definition zero_EnvironmentConfig : EnvironmentConfig :=
  mkEnvConfig false "" f64_zero [] [] "" "" false.

Definition zero_FeatureFlag : FeatureFlag :=
  mkFlag "" "" 0 "" "" "" "" [] ∅ time_zero time_zero.

(** [EvaluationContext]; [ctx_Attributes] maps a custom key to its value. *)
Record EvaluationContext := mkCtx {
  ctx_UserID : string;
  ctx_Email : string;
  ctx_Country : string;
  ctx_Role : string;
  ctx_Tier : string;
  ctx_Environment : Environment;
  ctx_Attributes : gmap string GoAny;
}.

#[export] Instance eta_EvaluationContext : Eta EvaluationContext :=
  {| eta_expand r := mkCtx (ctx_UserID r) (ctx_Email r) (ctx_Country r) (ctx_Role r) (ctx_Tier r)
       (ctx_Environment r) (ctx_Attributes r) |}.

Record EvaluationResult := mkResult {
  er_FlagKey : string;
  er_Enabled : bool;
  er_Variant : string;
  er_Value : GoAny;
  er_Reason : string;
  er_MatchedRuleID : string;
  er_MatchedRuleName : string;
  er_BucketVal : option f64;
  er_BucketThreshold : option f64;
  er_HashRaw : string;
  er_EvaluationLatencyNs : Z;
  er_EvaluationLatencyUs : f64;
}.

#[export] Instance eta_EvaluationResult : Eta EvaluationResult :=
  {| eta_expand r := mkResult (er_FlagKey r) (er_Enabled r) (er_Variant r) (er_Value r)
       (er_Reason r) (er_MatchedRuleID r) (er_MatchedRuleName r) (er_BucketVal r)
       (er_BucketThreshold r) (er_HashRaw r) (er_EvaluationLatencyNs r)
       (er_EvaluationLatencyUs r) |}.

(** [EvaluationResult{}], the value a struct literal starts from. *)
Definition zero_EvaluationResult : EvaluationResult :=
  mkResult "" false "" AnyNil "" "" "" None None "" 0 f64_zero.

Record AuditLogEntry := mkAudit {
  al_ID : string;
  al_ProjectID : string;
  al_Timestamp : Time;
  al_Actor : string;
  al_Action : string;
  al_FlagKey : string;
  al_Environment : Environment;
  al_Details : string;
  al_PrevHash : string;
  al_EntryHash : string;
}.

#[export] Instance eta_AuditLogEntry : Eta AuditLogEntry :=
  {| eta_expand r := mkAudit (al_ID r) (al_ProjectID r) (al_Timestamp r) (al_Actor r) (al_Action r)
       (al_FlagKey r) (al_Environment r) (al_Details r) (al_PrevHash r) (al_EntryHash r) |}.

(** ** Methods of [FeatureFlag] and [EnvironmentConfig] *)

Definition EnvConfig (f : FeatureFlag) (env : string) : EnvironmentConfig :=
  match ff_Environments f !! env with
  | Some cfg => cfg
  | None => zero_EnvironmentConfig
  end.

Definition ProdConfig (f : FeatureFlag) : EnvironmentConfig := EnvConfig f "production".
Definition IsProdEnabled (f : FeatureFlag) : bool := ec_Enabled (ProdConfig f).
Definition ProdPercentage (f : FeatureFlag) : f64 := ec_Percentage (ProdConfig f).
Definition ProdStrategy (f : FeatureFlag) : string :=
  let strat := ec_Strategy (ProdConfig f) in
  if strat =s? "" then "boolean" else strat.
Definition ProdRulesCount (f : FeatureFlag) : nat := length (ec_Rules (ProdConfig f)).

(** The [DeepCopy] methods, field by field.  On values a copy equals its
    original ([DeepCopy_id]); the sharing of memory is the subject of
    [DeepCopyHeap]. *)
Definition Rule_DeepCopy (r : TargetingRule) : TargetingRule :=
  mkRule (tr_ID r) (tr_Name r) (tr_Attribute r) (tr_CustomKey r) (tr_Operator r)
    ((λ v, v) <$> tr_Values r) (tr_Action r) (tr_ServeVariant r).

Definition Config_DeepCopy (c : EnvironmentConfig) : EnvironmentConfig :=
  c <| ec_Rules := Rule_DeepCopy <$> ec_Rules c |>
    <| ec_Variants := (λ v, v) <$> ec_Variants c |>.

Definition DeepCopy (f : FeatureFlag) : FeatureFlag :=
  f <| ff_Tags := (λ t, t) <$> ff_Tags f |>
    <| ff_Environments := Config_DeepCopy <$> ff_Environments f |>.

Lemma Rule_DeepCopy_id r : Rule_DeepCopy r = r.
Proof. destruct r. unfold Rule_DeepCopy. simpl. by rewrite list_fmap_id. Qed.

Lemma Config_DeepCopy_id c : Config_DeepCopy c = c.
Proof.
  destruct c. unfold Config_DeepCopy. simpl. f_equal; [|by rewrite list_fmap_id].
  rewrite <- (list_fmap_id ec_Rules0) at 2. apply list_fmap_ext. intros. apply Rule_DeepCopy_id.
Qed.

Lemma DeepCopy_id f : DeepCopy f = f.
Proof.
  destruct f. unfold DeepCopy. simpl. f_equal; [by rewrite list_fmap_id|].
  rewrite <- (map_fmap_id ff_Environments0) at 2.
  apply map_fmap_ext. intros. apply Config_DeepCopy_id.
Qed.

(** ** Flag keys: [^[a-zA-Z0-9_-]{1,64}$] *)

Definition is_flag_key_byte (c : ascii) : bool :=
  let b := byte_val c in
  ((97 <=? b)%Z && (b <=? 122)%Z) || ((65 <=? b)%Z && (b <=? 90)%Z) ||
  ((48 <=? b)%Z && (b <=? 57)%Z) || (b =? 95)%Z || (b =? 45)%Z.

Definition IsValidFlagKey (key : string) : bool :=
  (1 <=? String.length key)%nat && (String.length key <=? 64)%nat &&
  str_forallb is_flag_key_byte key.

(** ** Validation *)

Fixpoint sum_variant_weights (vs : list FlagVariant) (total : f64) : result GoError f64 :=
  match vs with
  | [] => Ok total
  | v :: vs' =>
      if f64_ltb (fv_Weight v) f64_zero
      then Err (EText ("variant '" +:+ fv_Key v +:+ "' has negative weight: " +:+
                       FormatFixed 2 (fv_Weight v)))
      else sum_variant_weights vs' (f64_add total (fv_Weight v))
  end.

(** [ValidateEnvironmentConfig]; [None] is the nil error. *)
Definition ValidateEnvironmentConfig (cfg : EnvironmentConfig) : option GoError :=
  if ec_Strategy cfg =s? StrategyMultivariate then
    match ec_Variants cfg with
    | [] => Some (EText "multivariate strategy requires at least one variant")
    | vs =>
        match sum_variant_weights vs f64_zero with
        | Err e => Some e
        | Ok total =>
            if f64_ltb (f64_ratio 1 100) (f64_abs (f64_sub total (f64_of_Z 100)))
            then Some (EText ("multivariate variant weights must sum to 100% (current sum: " +:+
                              FormatFixed 2 total +:+ "%)"))
            else None
        end
    end
  else None.

(** [ValidateFeatureFlag]: the loop over the environments map, [it] being the
    order in which the runtime visits it. *)
Fixpoint ValidateFeatureFlag (it : list (Environment * EnvironmentConfig)) : option GoError :=
  match it with
  | [] => None
  | (env, cfg) :: it' =>
      match ValidateEnvironmentConfig cfg with
      | Some err =>
          Some (EWrap ("invalid config for environment '" +:+ env +:+ "': " +:+ Error err) err)
      | None => ValidateFeatureFlag it'
      end
  end.

(** Validation accepts a flag exactly when it accepts every environment's
    configuration, whatever order the map is visited in. *)
Theorem ValidateFeatureFlag_order_independent f it :
  it ≡ₚ map_to_list (ff_Environments f) →
  ValidateFeatureFlag it = None ↔
  map_Forall (λ _ cfg, ValidateEnvironmentConfig cfg = None) (ff_Environments f).
Proof.
  intros Hp. rewrite map_Forall_to_list, <- Hp. clear Hp.
  induction it as [|[env cfg] it IH]; simpl; [done|].
  rewrite Forall_cons, <- IH. simpl. clear IH.
  destruct (ValidateEnvironmentConfig cfg); split; [done|by intros []|done|tauto].
Qed.

(** ** Instances *)

Lemma ValidateFeatureFlag_order_independent_witness :
  let f := zero_FeatureFlag <| ff_Environments := {[ EnvProduction := zero_EnvironmentConfig ]} |> in
  ValidateFeatureFlag [(EnvProduction, zero_EnvironmentConfig)] = None ↔
  map_Forall (λ _ cfg, ValidateEnvironmentConfig cfg = None) (ff_Environments f).
Proof.
  intros f. apply ValidateFeatureFlag_order_independent. simpl.
  by rewrite map_to_list_singleton.
Defined.
