(* ===== verification/Config.v ===== *)
(** * Configuration from the environment ([pkg/config/config.go])

    [Load] reads the environment once, falls back to a default for every variable
    that is not set or does not parse, and validates the result. *)

From S2P Require Import Prelude GoFloat GoStrings GoTime Sha256 Errors Domain.

(** [slog.Level]. *)
Definition LevelDebug : Z := -4.
Definition LevelInfo : Z := 0.
Definition LevelWarn : Z := 4.
Definition LevelError : Z := 8.

Record Config := mkConfig {
  cfg_ServerPort : string;
  cfg_Host : string;
  cfg_BaseURL : string;
  cfg_Environment : Environment;
  cfg_DatabaseURL : string;
  cfg_LogLevel : Z;
  cfg_LogFormat : string;
  cfg_ReadHeaderTimeout : Duration;
  cfg_ReadTimeout : Duration;
  cfg_WriteTimeout : Duration;
  cfg_IdleTimeout : Duration;
  cfg_MaxHeaderBytes : Z;
  cfg_RateLimitRPS : f64;
  cfg_RateLimitBurst : Z;
  cfg_CORSAllowedOrigins : list string;
  cfg_GoogleClientID : string;
  cfg_GoogleClientSecret : string;
  cfg_GitHubClientID : string;
  cfg_GitHubClientSecret : string;
}.

Definition IsGoogleOAuthEnabled (c : Config) : bool :=
  negb (cfg_GoogleClientID c =s? "") && negb (cfg_GoogleClientSecret c =s? "").

Definition IsGitHubOAuthEnabled (c : Config) : bool :=
  negb (cfg_GitHubClientID c =s? "") && negb (cfg_GitHubClientSecret c =s? "").

Definition Validate (c : Config) : option GoError :=
  if cfg_ServerPort c =s? "" then Some (EText "server_port cannot be empty")
  else if f64_leb (cfg_RateLimitRPS c) f64_zero
  then Some (EText "rate_limit_rps must be greater than 0")
  else if (cfg_RateLimitBurst c <=? 0)%Z
  then Some (EText "rate_limit_burst must be greater than 0")
  else None.

Section Load.
Context `{GoRuntime} (env : string → string).

Definition getEnv (key defaultVal : string) : string := or_default (env key) defaultVal.

Definition log_level (levelStr : string) : Z :=
  if levelStr =s? "DEBUG" then LevelDebug
  else if (levelStr =s? "WARN") || (levelStr =s? "WARNING") then LevelWarn
  else if levelStr =s? "ERROR" then LevelError
  else LevelInfo.

(** The value of [FLAGURA_RATE_LIMIT_RPS] when it parses as a positive number. *)
Definition rate_limit_rps : f64 :=
  match rt_parse_float (env "FLAGURA_RATE_LIMIT_RPS") with
  | Some rps =>
      if negb (env "FLAGURA_RATE_LIMIT_RPS" =s? "") && f64_ltb f64_zero rps then rps
      else f64_of_Z 100
  | None => f64_of_Z 100
  end.

Definition rate_limit_burst : Z :=
  match Atoi (env "FLAGURA_RATE_LIMIT_BURST") with
  | Some burst =>
      if negb (env "FLAGURA_RATE_LIMIT_BURST" =s? "") && (0 <? burst)%Z then burst else 200
  | None => 200
  end.

Definition Load : result GoError Config :=
  let cfg :=
    mkConfig (getEnv "PORT" "3000") (getEnv "HOST" "0.0.0.0")
      (getEnv "FLAGURA_BASE_URL" "http://localhost:3000")
      (ToLower (getEnv "FLAGURA_ENV" EnvProduction)) (env "DATABASE_URL")
      (log_level (ToUpper (getEnv "FLAGURA_LOG_LEVEL" "INFO")))
      (ToLower (getEnv "FLAGURA_LOG_FORMAT" "json"))
      (5 * Second) (15 * Second) (15 * Second) (60 * Second) (Z.shiftl 1 20)
      rate_limit_rps rate_limit_burst ["*"]
      (env "GOOGLE_CLIENT_ID") (env "GOOGLE_CLIENT_SECRET")
      (env "GITHUB_CLIENT_ID") (env "GITHUB_CLIENT_SECRET") in
  match Validate cfg with
  | Some err => Err (EWrap ("config validation failed: " +:+ Error err) err)
  | None => Ok cfg
  end.

Lemma getEnv_nonempty key d : d ≠ "" → getEnv key d ≠ "".
Proof. apply or_default_neq_empty. Qed.

Lemma rate_limit_rps_positive : f64_ltb f64_zero rate_limit_rps = true.
Proof.
  unfold rate_limit_rps.
  destruct (rt_parse_float _) as [rps|]; [|by vm_compute].
  destruct (negb _ && f64_ltb f64_zero rps) eqn:Hp; [|by vm_compute].
  by apply andb_true_iff in Hp as [_ Hp].
Qed.

Lemma rate_limit_burst_positive : (0 < rate_limit_burst)%Z.
Proof.
  unfold rate_limit_burst. destruct (Atoi _) as [b|]; [|done].
  destruct (negb _ && (0 <? b)%Z) eqn:Hb; [|done]. apply andb_true_iff in Hb as [_ Hb]. lia.
Qed.

(** Loading succeeds in every environment, even with values that do not parse or
    are out of range, and the configuration it returns has a port, a positive and
    ordered rate and a positive burst. *)
Theorem Load_total :
  ∃ c, Load = Ok c ∧ Validate c = None ∧ cfg_ServerPort c ≠ "" ∧
    f64_ltb f64_zero (cfg_RateLimitRPS c) = true ∧ (0 < cfg_RateLimitBurst c)%Z.
Proof.
  unfold Load. match goal with |- context [Validate ?c] => assert (Hv : Validate c = None) end.
  { unfold Validate. cbn [cfg_ServerPort cfg_RateLimitRPS cfg_RateLimitBurst].
    rewrite (proj2 (str_eqb_neq _ "")) by (by apply getEnv_nonempty).
    pose proof rate_limit_rps_positive as Hr. pose proof rate_limit_burst_positive as Hb.
    destruct (f64_leb rate_limit_rps f64_zero) eqn:Hle.
    { apply f64_le_not_lt in Hle. congruence. }
    destruct (rate_limit_burst <=? 0)%Z eqn:Hle'; [lia|done]. }
  rewrite Hv. eexists. split; [done|]. split; [exact Hv|].
  repeat split; [by apply getEnv_nonempty|apply rate_limit_rps_positive|apply rate_limit_burst_positive].
Qed.

End Load.

(** Social login needs both halves of a credential. *)
Lemma oauth_needs_secret c :
  (IsGoogleOAuthEnabled c = true → cfg_GoogleClientSecret c ≠ "") ∧
  (IsGitHubOAuthEnabled c = true → cfg_GitHubClientSecret c ≠ "").
Proof.
  unfold IsGoogleOAuthEnabled, IsGitHubOAuthEnabled.
  split; intros [_ Hs]%andb_true_iff; by apply negb_true_iff, str_eqb_neq in Hs.
Qed.
