(* ===== verification/DeepCopyHeap.v ===== *)
(** * Deep copies and shared memory ([DeepCopy] of [pkg/domain/flag.go])

    Slices and maps are references in Go.  Here a flag is a struct whose slices
    and maps are locations of a heap, as the garbage-collected memory has them;
    [heap_DeepCopy] follows the three [DeepCopy] methods and allocates.  The
    theorem says that a copy has the value of its original ([DeepCopy_id] is
    the same statement on values) and shares no location with anything that
    existed before.  The dynamic value of a variant is part of the variant:
    what it refers to, if it is a map or a slice, is shared by the copy. *)

From S2P Require Import Prelude GoFloat Domain.

Abbreviation loc := nat.

(** The slice or map behind a field; [None] is nil. *)
Abbreviation ref := (option loc).

(** The structs with their references apart; the fields of the value that the
    references stand for are not used. *)
Record HRule := mkHRule { hr_fields : TargetingRule; hr_Values : ref }.
Record HConfig := mkHConfig { hc_fields : EnvironmentConfig; hc_Rules : ref; hc_Variants : ref }.
Record HFlag := mkHFlag { hf_fields : FeatureFlag; hf_Tags : ref; hf_Environments : ref }.

Inductive obj :=
| OStrings (l : list string)
| ORules (l : list HRule)
| OVariants (l : list FlagVariant)
| OEnvironments (m : gmap string HConfig).

Abbreviation heap := (gmap loc obj).

(** ** The values that structs in a heap stand for *)

Definition strings_at (h : heap) (p : ref) (l : list string) : Prop :=
  match p with None => l = [] | Some x => h !! x = Some (OStrings l) end.

Definition with_values (r : TargetingRule) (vs : list string) : TargetingRule :=
  mkRule (tr_ID r) (tr_Name r) (tr_Attribute r) (tr_CustomKey r) (tr_Operator r) vs (tr_Action r)
    (tr_ServeVariant r).

Definition rule_at (h : heap) (r : HRule) (v : TargetingRule) : Prop :=
  ∃ vs, strings_at h (hr_Values r) vs ∧ v = with_values (hr_fields r) vs.

Definition rules_at (h : heap) (p : ref) (l : list TargetingRule) : Prop :=
  match p with
  | None => l = []
  | Some x => ∃ rs, h !! x = Some (ORules rs) ∧ Forall2 (rule_at h) rs l
  end.

Definition variants_at (h : heap) (p : ref) (l : list FlagVariant) : Prop :=
  match p with None => l = [] | Some x => h !! x = Some (OVariants l) end.

Definition config_at (h : heap) (c : HConfig) (v : EnvironmentConfig) : Prop :=
  ∃ rs vs, rules_at h (hc_Rules c) rs ∧ variants_at h (hc_Variants c) vs ∧
    v = hc_fields c <| ec_Rules := rs |> <| ec_Variants := vs |>.

Definition configs_at (h : heap) (m : gmap string HConfig) (v : gmap string EnvironmentConfig) : Prop :=
  ∀ k, option_Forall2 (config_at h) (m !! k) (v !! k).

Definition environments_at (h : heap) (p : ref) (v : gmap string EnvironmentConfig) : Prop :=
  match p with
  | None => v = ∅
  | Some x => ∃ m, h !! x = Some (OEnvironments m) ∧ configs_at h m v
  end.

Definition flag_at (h : heap) (f : HFlag) (v : FeatureFlag) : Prop :=
  ∃ ts es, strings_at h (hf_Tags f) ts ∧ environments_at h (hf_Environments f) es ∧
    v = hf_fields f <| ff_Tags := ts |> <| ff_Environments := es |>.

(** ** The methods *)

(** [make] and a [copy] or a loop that fills it. *)
Definition alloc (h : heap) (o : obj) : heap * ref :=
  let x := fresh (dom h) in (<[x := o]> h, Some x).

(** [if s != nil { clone = make(...); copy(clone, s) }]; a reference to an object
    of another kind is no Go program, and has no result. *)
Definition copy_strings (h : heap) (p : ref) : option (heap * ref) :=
  match p with
  | None => Some (h, None)
  | Some x => match h !! x with Some (OStrings l) => Some (alloc h (OStrings l)) | _ => None end
  end.

Definition copy_variants (h : heap) (p : ref) : option (heap * ref) :=
  match p with
  | None => Some (h, None)
  | Some x => match h !! x with Some (OVariants l) => Some (alloc h (OVariants l)) | _ => None end
  end.

Definition heap_Rule_DeepCopy (h : heap) (r : HRule) : option (heap * HRule) :=
  '(h, vs) ← copy_strings h (hr_Values r); Some (h, mkHRule (hr_fields r) vs).

Fixpoint copy_rules (h : heap) (rs : list HRule) : option (heap * list HRule) :=
  match rs with
  | [] => Some (h, [])
  | r :: rs =>
      '(h, r') ← heap_Rule_DeepCopy h r;
      '(h, rs') ← copy_rules h rs;
      Some (h, r' :: rs')
  end.

Definition heap_Config_DeepCopy (h : heap) (c : HConfig) : option (heap * HConfig) :=
  '(h, rules) ←
    match hc_Rules c with
    | None => Some (h, None)
    | Some x =>
        match h !! x with
        | Some (ORules rs) => '(h, rs') ← copy_rules h rs; Some (alloc h (ORules rs'))
        | _ => None
        end
    end;
  '(h, variants) ← copy_variants h (hc_Variants c);
  Some (h, mkHConfig (hc_fields c) rules variants).

(** The loop over the environments, in the order of the map. *)
Definition copy_environments (h : heap) (m : gmap string HConfig)
    : option (heap * gmap string HConfig) :=
  map_fold (λ k c acc,
    '(h, m') ← acc;
    '(h, c') ← heap_Config_DeepCopy h c;
    Some (h, <[k := c']> m')) (Some (h, ∅)) m.

Definition heap_DeepCopy (h : heap) (f : HFlag) : option (heap * HFlag) :=
  '(h, tags) ← copy_strings h (hf_Tags f);
  '(h, envs) ←
    match hf_Environments f with
    | None => Some (h, None)
    | Some x =>
        match h !! x with
        | Some (OEnvironments m) =>
            '(h, m') ← copy_environments h m; Some (alloc h (OEnvironments m'))
        | _ => None
        end
    end;
  Some (h, mkHFlag (hf_fields f) tags envs).

(** ** Independence *)

(** The heaps agree on what the first one has outside of [D]. *)
Definition agree_off (D : gset loc) (h h' : heap) : Prop :=
  ∀ x o, x ∉ D → h !! x = Some o → h' !! x = Some o.

Lemma agree_off_mono D h1 h2 h : h1 ⊆ h2 → agree_off D h2 h → agree_off D h1 h.
Proof. intros Hs Ha x o Hx Ho. apply Ha; [done|]. by eapply lookup_weaken. Qed.

(** What a copy must be: the heap only grows, and the new value can be read in
    every heap that keeps the new locations, whatever happens to [D]. *)
Definition copied {A B} (D : gset loc) (at_ : heap → A → B → Prop) (v : B) (h : heap)
    (r : option (heap * A)) : Prop :=
  ∃ h' a, r = Some (h', a) ∧ h ⊆ h' ∧ ∀ h'', agree_off D h' h'' → at_ h'' a v.

Section Growth.
Context (h h' : heap) (Hs : h ⊆ h').

Lemma strings_at_mono p l : strings_at h p l → strings_at h' p l.
Proof using Hs. destruct p; [|done]. simpl. intros. by eapply lookup_weaken. Qed.

Lemma rule_at_mono r v : rule_at h r v → rule_at h' r v.
Proof using Hs. intros (vs & Hv & ->). exists vs. split; [by apply strings_at_mono|done]. Qed.

Lemma rules_at_mono p l : rules_at h p l → rules_at h' p l.
Proof using Hs.
  destruct p; [|done]. intros (rs & Hr & Hf). exists rs. split; [by eapply lookup_weaken|].
  eapply Forall2_impl; [exact Hf|apply rule_at_mono].
Qed.

Lemma variants_at_mono p l : variants_at h p l → variants_at h' p l.
Proof using Hs. destruct p; [|done]. simpl. intros. by eapply lookup_weaken. Qed.

Lemma config_at_mono c v : config_at h c v → config_at h' c v.
Proof using Hs.
  intros (rs & vs & Hr & Hv & ->). exists rs, vs.
  split_and!; [by apply rules_at_mono|by apply variants_at_mono|done].
Qed.

Lemma configs_at_mono m v : configs_at h m v → configs_at h' m v.
Proof using Hs.
  intros Hm k. specialize (Hm k). destruct Hm; constructor. by apply config_at_mono.
Qed.

End Growth.

Lemma alloc_copied {A B} D (at_ : heap → A → B → Prop) v h o (mk : ref → A) :
  D ⊆ dom h →
  (∀ x h'', agree_off D h h'' → h'' !! x = Some o → at_ h'' (mk (Some x)) v) →
  copied D at_ v h (Some ((alloc h o).1, mk (alloc h o).2)).
Proof.
  intros HD Hat. pose proof (is_fresh (dom h)) as Hx. set (x := fresh (dom h)) in *.
  exists (<[x := o]> h), (mk (Some x)). split; [done|].
  assert (h ⊆ <[x := o]> h) as Hs by (by apply insert_subseteq, not_elem_of_dom).
  split; [done|]. intros h'' Ha. assert (x ∉ D) as HxD by set_solver.
  apply Hat; [by eapply agree_off_mono|]. apply Ha; [done|apply lookup_insert_eq].
Qed.

Lemma copied_bind {A B A' B'} D (at1 : heap → A → B → Prop) (at2 : heap → A' → B' → Prop) v1 v2 h r k :
  copied D at1 v1 h r →
  (∀ h1 a, h ⊆ h1 → (∀ h'', agree_off D h1 h'' → at1 h'' a v1) → copied D at2 v2 h1 (k (h1, a))) →
  copied D at2 v2 h (r ≫= k).
Proof.
  intros (h1 & a & -> & Hs & Ha) Hk. destruct (Hk h1 a Hs Ha) as (h2 & b & Hr & Hs2 & Hb).
  exists h2, b. split; [exact Hr|]. split; [by etrans|done].
Qed.

Lemma copied_ret {A B} D (at_ : heap → A → B → Prop) v h a :
  (∀ h'', agree_off D h h'' → at_ h'' a v) → copied D at_ v h (Some (h, a)).
Proof. intros Ha. by exists h, a. Qed.

Lemma dom_grows (D : gset loc) (h h' : heap) : D ⊆ dom h → h ⊆ h' → D ⊆ dom h'.
Proof. intros HD Hs%subseteq_dom. set_solver. Qed.

Section Copies.
Context (D : gset loc).

Lemma copy_strings_copied h p l :
  D ⊆ dom h → strings_at h p l → copied D strings_at l h (copy_strings h p).
Proof.
  intros HD. destruct p as [x|]; simpl.
  - intros ->. apply (alloc_copied _ _ _ _ _ id); [done|]. intros y h'' _ Hy. exact Hy.
  - intros ->. by apply copied_ret.
Qed.

Lemma copy_variants_copied h p l :
  D ⊆ dom h → variants_at h p l → copied D variants_at l h (copy_variants h p).
Proof.
  intros HD. destruct p as [x|]; simpl.
  - intros ->. apply (alloc_copied _ _ _ _ _ id); [done|]. intros y h'' _ Hy. exact Hy.
  - intros ->. by apply copied_ret.
Qed.

Lemma copy_rule_copied h r v :
  D ⊆ dom h → rule_at h r v → copied D rule_at v h (heap_Rule_DeepCopy h r).
Proof.
  intros HD (vs & Hv & ->). eapply copied_bind; [by apply copy_strings_copied|].
  intros h1 p Hs Hp. apply copied_ret. intros h'' Ha. exists vs. split; [by apply Hp|done].
Qed.

Lemma copy_rules_copied h rs vs :
  D ⊆ dom h → Forall2 (rule_at h) rs vs →
  copied D (λ h, Forall2 (rule_at h)) vs h (copy_rules h rs).
Proof.
  intros HD Hf. revert h HD Hf. revert vs. induction rs as [|r rs IH]; intros vs h HD Hf.
  - inversion Hf; subst. apply copied_ret. constructor.
  - inversion Hf as [|? v ? vs' Hr Hrs]; subst. simpl.
    eapply copied_bind; [by apply copy_rule_copied|]. intros h1 r' Hs1 Hr'.
    eapply copied_bind; [apply (IH vs')|].
    + by eapply dom_grows.
    + eapply Forall2_impl; [exact Hrs|]. by apply rule_at_mono.
    + intros h2 rs' Hs2 Hrs'. apply copied_ret. intros h'' Ha. constructor; [|by apply Hrs'].
      apply Hr'. by eapply agree_off_mono.
Qed.

Lemma copy_config_copied h c v :
  D ⊆ dom h → config_at h c v → copied D config_at v h (heap_Config_DeepCopy h c).
Proof.
  intros HD (rs & vs & Hr & Hv & ->). unfold heap_Config_DeepCopy.
  eapply (copied_bind D rules_at config_at rs).
  - destruct (hc_Rules c) as [x|]; [|simpl in Hr; subst; by apply copied_ret].
    destruct Hr as (l & -> & Hl). eapply copied_bind; [by apply copy_rules_copied|].
    intros h1 l' Hs1 Hl'. apply (alloc_copied _ _ _ _ _ id); [by eapply dom_grows|].
    intros y h'' Ha Hlook. exists l'. split; [exact Hlook|]. by apply Hl'.
  - intros h1 p Hs1 Hp. eapply copied_bind; [apply copy_variants_copied|].
    + by eapply dom_grows.
    + by eapply variants_at_mono.
    + intros h2 q Hs2 Hq. apply copied_ret. intros h'' Ha. exists rs, vs.
      split_and!; [|by apply Hq|done]. apply Hp. by eapply agree_off_mono.
Qed.

Lemma copy_environments_copied h m v :
  D ⊆ dom h → configs_at h m v → copied D configs_at v h (copy_environments h m).
Proof.
  intros HD. unfold copy_environments. revert v.
  apply (map_fold_weak_ind (λ r m, ∀ v, configs_at h m v → copied D configs_at v h r)).
  - intros v Hv. apply copied_ret. intros h'' _ k. specialize (Hv k). rewrite lookup_empty in *.
    inversion Hv. constructor.
  - intros k c m' r Hk IH v Hv.
    pose proof (Hv k) as Hkv. rewrite lookup_insert_eq in Hkv.
    inversion Hkv as [? w Hc Heq Ew|]; subst.
    eapply (copied_bind D configs_at configs_at (delete k v)).
    + apply IH. intros j. destruct (decide (j = k)) as [->|Hj].
      * rewrite Hk, lookup_delete_eq. constructor.
      * specialize (Hv j). rewrite lookup_insert_ne in Hv by done. by rewrite lookup_delete_ne.
    + intros h1 m1 Hs1 Hm1. eapply copied_bind; [apply copy_config_copied|].
      * by eapply dom_grows.
      * by eapply config_at_mono.
      * intros h2 c' Hs2 Hc'. apply copied_ret. intros h'' Ha j.
        destruct (decide (j = k)) as [->|Hj].
        { rewrite lookup_insert_eq, <- Ew. constructor. by apply Hc'. }
        rewrite lookup_insert_ne by done.
        assert (agree_off D h1 h'') as Ha1 by (by eapply agree_off_mono).
        specialize (Hm1 h'' Ha1 j). by rewrite lookup_delete_ne in Hm1.
Qed.

Lemma copy_flag_copied h f v :
  D ⊆ dom h → flag_at h f v → copied D flag_at v h (heap_DeepCopy h f).
Proof.
  intros HD (ts & es & Ht & He & ->). unfold heap_DeepCopy.
  eapply copied_bind; [by apply copy_strings_copied|]. intros h1 p Hs1 Hp.
  eapply (copied_bind D environments_at flag_at es).
  - destruct (hf_Environments f) as [x|]; [|simpl in He; subst; by apply copied_ret].
    destruct He as (m & Hx & Hm). rewrite (lookup_weaken _ _ _ _ Hx Hs1).
    eapply copied_bind; [apply copy_environments_copied|].
    + by eapply dom_grows.
    + by eapply configs_at_mono.
    + intros h2 m' Hs2 Hm'. apply (alloc_copied _ _ _ _ _ id).
      { eapply dom_grows; [|exact Hs2]. by eapply dom_grows. }
      intros y h'' Ha Hlook. exists m'. split; [exact Hlook|]. by apply Hm'.
  - intros h2 q Hs2 Hq. apply copied_ret. intros h'' Ha. exists ts, es.
    split_and!; [|by apply Hq|done]. apply Hp. by eapply agree_off_mono.
Qed.

End Copies.

(** A deep copy is independent of its original: copying a flag succeeds, the
    copy has the value of the original, the original is not changed by making
    it, and afterwards no write to the memory that existed before (through the
    original or any alias of it) changes the copy, and no write to the memory
    that did not exist before (through the copy) changes the original. *)
Theorem DeepCopy_independent h f v :
  flag_at h f v →
  ∃ h' f', heap_DeepCopy h f = Some (h', f') ∧
    flag_at h' f' (DeepCopy v) ∧ flag_at h' f v ∧
    (∀ h'', (∀ x, x ∉ dom h → h'' !! x = h' !! x) → flag_at h'' f' (DeepCopy v)) ∧
    (∀ h'', (∀ x, x ∈ dom h → h'' !! x = h' !! x) → flag_at h'' f v).
Proof.
  intros Hf. rewrite DeepCopy_id.
  destruct (copy_flag_copied (dom h) h f v) as (h' & f' & Hr & Hs & Ha); [done|done|].
  assert (∀ h'', h ⊆ h'' → flag_at h'' f v) as Hmono.
  { intros h'' Hs''. destruct Hf as (ts & es & Ht & He & ->). exists ts, es.
    split_and!; [by eapply strings_at_mono| |done].
    destruct (hf_Environments f) as [x|]; [|done]. destruct He as (m & Hx & Hm). exists m.
    split; [by eapply lookup_weaken|by eapply configs_at_mono]. }
  exists h', f'. split_and!; [done| |by apply Hmono| |].
  - apply Ha. by intros x o _ Ho.
  - intros h'' Hout. apply Ha. intros x o Hx Ho. by rewrite Hout.
  - intros h'' Hin. apply Hmono, map_subseteq_spec. intros x o Ho. rewrite Hin.
    + by eapply lookup_weaken.
    + by apply elem_of_dom.
Qed.

(** ** An instance *)

Definition demo_hconfigs : gmap string HConfig :=
  {[ "production" := mkHConfig (zero_EnvironmentConfig <| ec_Enabled := true |>) (Some 1%nat) None ]}.

Definition demo_heap : heap :=
  {[ 0%nat := OStrings ["a@x"];
     1%nat := ORules [mkHRule (mkRule "r1" "r1" AttrEmail "" OpInList [] ActionForceEnabled "") (Some 0%nat)];
     2%nat := OEnvironments demo_hconfigs ]}.

Definition demo_hflag : HFlag := mkHFlag (zero_FeatureFlag <| ff_Key := "k" |>) None (Some 2%nat).

Definition demo_rule : TargetingRule :=
  mkRule "r1" "r1" AttrEmail "" OpInList ["a@x"] ActionForceEnabled "".

Definition demo_configs : gmap string EnvironmentConfig :=
  {[ "production" := zero_EnvironmentConfig <| ec_Enabled := true |> <| ec_Rules := [demo_rule] |> ]}.

Definition demo_value : FeatureFlag :=
  zero_FeatureFlag <| ff_Key := "k" |> <| ff_Environments := demo_configs |>.

Lemma demo_value_at : flag_at demo_heap demo_hflag demo_value.
Proof.
  exists [], demo_configs. split_and!; [done| |done]. exists demo_hconfigs. split; [reflexivity|].
  intros k. unfold demo_hconfigs, demo_configs. destruct (decide (k = "production")) as [->|Hk].
  - rewrite !lookup_singleton_eq. constructor. exists [demo_rule], [].
    split_and!; [|done|reflexivity]. eexists. split; [vm_compute; reflexivity|].
    repeat constructor. exists ["a@x"]. by split.
  - rewrite !lookup_singleton_ne by done. constructor.
Qed.

Lemma DeepCopy_independent_witness :
  ∃ h' f', heap_DeepCopy demo_heap demo_hflag = Some (h', f') ∧
    flag_at h' f' (DeepCopy demo_value) ∧ flag_at h' demo_hflag demo_value ∧
    (∀ h'', (∀ x, x ∉ dom demo_heap → h'' !! x = h' !! x) → flag_at h'' f' (DeepCopy demo_value)) ∧
    (∀ h'', (∀ x, x ∈ dom demo_heap → h'' !! x = h' !! x) → flag_at h'' demo_hflag demo_value).
Proof. apply (DeepCopy_independent demo_heap demo_hflag demo_value demo_value_at). Defined.
