(* ===== verification/Engine.v ===== *)
(** * The evaluation engine ([pkg/engine/evaluator.go])

    Sticky hashing, targeting rules, multivariate splits and the evaluation of a
    flag, with and without a diagnostic trace.  The clock readings that only
    feed the latency fields are arguments. *)

From S2P Require Import Prelude GoFloat GoStrings GoTime Errors Domain.

(** ** Hashing and buckets *)

Definition fnv_offset64 : Z := 14695981039346656037%Z.
Definition fnv_prime64 : Z := 1099511628211%Z.

Fixpoint fnv1a_write (h : Z) (s : string) : Z :=
  match s with
  | EmptyString => h
  | String c s' => fnv1a_write (wrap_u64 (Z.lxor h (byte_val c) * fnv_prime64)) s'
  end.

Definition FNV1a64 (input : string) : Z := fnv1a_write fnv_offset64 input.

(** [math.Round((slot/100.0)*100) / 100] on [slot := float64(n)]. *)
Definition bucket_of_slot (n : Z) : f64 :=
  let slot := f64_of_Z n in
  f64_div (f64_round (f64_mul (f64_div slot (f64_of_Z 100)) (f64_of_Z 100))) (f64_of_Z 100).

Definition GetStickyBucket (identifier salt : string) : f64 * string :=
  let combined := identifier +:+ ":" +:+ salt in
  let hash := FNV1a64 combined in
  (bucket_of_slot (hash mod 10000), FormatUint16 hash).

(** ** Targeting rules *)

Section Rules.
Context `{GoRuntime}.

Definition toRawStringFast (val : GoAny) : string :=
  match val with
  | AnyString v => TrimSpace v
  | AnyStringer t => TrimSpace t
  | AnyBool b => if b then "true" else "false"
  | AnyInt z => Itoa z
  | AnyInt64 z => Itoa z
  | AnyFloat64 x => rt_format_float x
  | AnyOther t => TrimSpace t
  | AnyNil => TrimSpace "<nil>"
  end.

Definition toStringFast (val : GoAny) : string :=
  match val with
  | AnyString v => ToLower (TrimSpace v)
  | AnyStringer t => ToLower (TrimSpace t)
  | AnyBool b => if b then "true" else "false"
  | AnyInt z => Itoa z
  | AnyInt64 z => Itoa z
  | AnyFloat64 x => rt_format_float x
  | AnyOther t => ToLower (TrimSpace t)
  | AnyNil => ToLower (TrimSpace "<nil>")
  end.

(** The attribute a rule looks at; [AnyNil] when there is none. *)
Definition rule_target (rule : TargetingRule) (ctx : EvaluationContext) : GoAny :=
  let a := tr_Attribute rule in
  if a =s? AttrUserID then AnyString (ctx_UserID ctx)
  else if a =s? AttrEmail then AnyString (ctx_Email ctx)
  else if a =s? AttrCountry then AnyString (ctx_Country ctx)
  else if a =s? AttrRole then AnyString (ctx_Role ctx)
  else if a =s? AttrTier then AnyString (ctx_Tier ctx)
  else if a =s? AttrCustom then
    if negb (tr_CustomKey rule =s? "")
    then default AnyNil (ctx_Attributes ctx !! tr_CustomKey rule)
    else AnyNil
  else AnyNil.

(** [getOrCompileRegex]: the process-wide cache of compiled patterns
    ([regexCache]) in front of [regexp.Compile]. *)
Definition RegexCache : Type := gmap string (string → bool).

Definition getOrCompileRegex (cache : RegexCache) (patternStr : string)
    : option (string → bool) * RegexCache :=
  match cache !! patternStr with
  | Some re => (Some re, cache)
  | None =>
      match rt_regexp patternStr with
      | None => (None, cache)
      | Some re => (Some re, <[patternStr := re]> cache)
      end
  end.

Definition norm_value (v : string) : string := ToLower (TrimSpace v).

(** The four numeric operators differ in the comparison only. *)
Definition numeric_op (cmp : f64 → f64 → bool) (strVal : string) (values : list string) : bool :=
  match rt_parse_float strVal, values with
  | None, _ => false
  | Some _, [] => false
  | Some numVal, v :: _ =>
      match rt_parse_float v with
      | None => false
      | Some threshold => cmp numVal threshold
      end
  end.

(** The regular expression goes straight to the compiler here:
    [getOrCompileRegex_transparent] shows that the cache makes no
    difference. *)
Definition EvaluateRule (rule : TargetingRule) (ctx : EvaluationContext) : bool :=
  let targetVal := rule_target rule ctx in
  match targetVal with
  | AnyNil => false
  | _ =>
      let strVal := toStringFast targetVal in
      if strVal =s? "" then false
      else
        let op := tr_Operator rule in
        let vs := tr_Values rule in
        if op =s? OpEquals then existsb (λ v, norm_value v =s? strVal) vs
        else if op =s? OpNotEquals then negb (existsb (λ v, norm_value v =s? strVal) vs)
        else if op =s? OpContains then existsb (λ v, Contains strVal (norm_value v)) vs
        else if op =s? OpNotContains then negb (existsb (λ v, Contains strVal (norm_value v)) vs)
        else if op =s? OpStartsWith then existsb (λ v, HasPrefix strVal (norm_value v)) vs
        else if op =s? OpEndsWith then existsb (λ v, HasSuffix strVal (norm_value v)) vs
        else if op =s? OpInList then existsb (λ v, norm_value v =s? strVal) vs
        else if op =s? OpNotInList then negb (existsb (λ v, norm_value v =s? strVal) vs)
        else if op =s? OpGreaterThan then numeric_op (λ a b, f64_ltb b a) strVal vs
        else if op =s? OpGreaterThanOrEqual then numeric_op (λ a b, f64_leb b a) strVal vs
        else if op =s? OpLessThan then numeric_op f64_ltb strVal vs
        else if op =s? OpLessThanOrEqual then numeric_op f64_leb strVal vs
        else if op =s? OpRegex then
          match vs with
          | [] => false
          | p :: _ =>
              match rt_regexp p with
              | None => false
              | Some matches => matches (toRawStringFast targetVal)
              end
          end
        else false
  end.

(** ** Multivariate splits *)

Definition positive_weight (acc : f64) (v : FlagVariant) : f64 :=
  if f64_ltb f64_zero (fv_Weight v) then f64_add acc (fv_Weight v) else acc.

Definition total_weight (variants : list FlagVariant) : f64 :=
  fold_left positive_weight variants f64_zero.

(** The weight a variant contributes, normalised when the total is not 100. *)
Definition normalized_weight (totalWeight w : f64) : f64 :=
  if f64_ltb f64_zero totalWeight &&
     f64_ltb (f64_ratio 1 1000) (f64_abs (f64_sub totalWeight (f64_of_Z 100)))
  then f64_mul (f64_div w totalWeight) (f64_of_Z 100)
  else w.

Fixpoint pick_variant (totalWeight bucket cumulative : f64) (vs : list FlagVariant)
    : option FlagVariant :=
  match vs with
  | [] => None
  | v :: vs' =>
      let cumulative := f64_add cumulative (normalized_weight totalWeight (fv_Weight v)) in
      if f64_ltb bucket cumulative then Some v
      else pick_variant totalWeight bucket cumulative vs'
  end.

Definition default_variant : FlagVariant :=
  mkVariant "default" "Default" (AnyBool true) (f64_of_Z 100) "".

Definition ResolveMultivariateVariant (variants : list FlagVariant) (identifier flagKey : string)
    : FlagVariant * f64 * string :=
  match last variants with
  | None => (default_variant, f64_zero, "0")
  | Some lastVariant =>
      let '(bucket, hashRaw) := GetStickyBucket identifier (flagKey +:+ ":multivariate") in
      match pick_variant (total_weight variants) bucket f64_zero variants with
      | Some v => (v, bucket, hashRaw)
      | None => (lastVariant, bucket, hashRaw)
      end
  end.

(** ** Evaluating a flag *)

Definition missing_env_config : EnvironmentConfig :=
  zero_EnvironmentConfig <| ec_Strategy := StrategyBoolean |>.

Definition eval_env (ctx : EvaluationContext) : Environment :=
  or_default (ctx_Environment ctx) EnvProduction.

Definition eval_config (flag : FeatureFlag) (ctx : EvaluationContext) : EnvironmentConfig :=
  default missing_env_config (ff_Environments flag !! eval_env ctx).

Definition eval_identifier (ctx : EvaluationContext) : string :=
  or_default (or_default (ctx_UserID ctx) (ctx_Email ctx)) "anonymous-user".

Definition latency_us (ns : Z) : f64 := f64_div (f64_of_Z ns) (f64_of_Z 1000).

Definition variant_value (vs : list FlagVariant) (key : string) : GoAny :=
  match list_find (λ v, fv_Key v = key) vs with
  | Some (_, v) => fv_Value v
  | None => AnyBool true
  end.

(** What a matching rule makes of the evaluation. *)
Definition rule_result (ns : Z) (flag : FeatureFlag) (cfg : EnvironmentConfig)
    (rule : TargetingRule) : EvaluationResult :=
  if tr_Action rule =s? ActionForceDisabled then
    mkResult (ff_Key flag) false (or_default (ec_OffVariant cfg) "off") (AnyBool false)
      ReasonTargetingRuleMatch (tr_ID rule) (tr_Name rule) None None "" ns (latency_us ns)
  else if (tr_Action rule =s? ActionServeVariant) && negb (tr_ServeVariant rule =s? "") then
    mkResult (ff_Key flag) true (tr_ServeVariant rule)
      (variant_value (ec_Variants cfg) (tr_ServeVariant rule))
      ReasonTargetingRuleMatch (tr_ID rule) (tr_Name rule) None None "" ns (latency_us ns)
  else
    mkResult (ff_Key flag) true (or_default (ec_DefaultVariant cfg) "on") (AnyBool true)
      ReasonTargetingRuleMatch (tr_ID rule) (tr_Name rule) None None "" ns (latency_us ns).

Definition percentage_result (ns : Z) (flag : FeatureFlag) (cfg : EnvironmentConfig)
    (identifier : string) : EvaluationResult :=
  let '(bucket, hashRaw) := GetStickyBucket identifier (ff_Key flag) in
  let threshold := ec_Percentage cfg in
  let isEnabled := f64_ltb bucket threshold in
  let variant :=
    if isEnabled then or_default (ec_DefaultVariant cfg) "treatment"
    else or_default (ec_OffVariant cfg) "control" in
  let reason := if isEnabled then ReasonPercentageBucket else ReasonPercentageExcluded in
  mkResult (ff_Key flag) isEnabled variant (AnyBool isEnabled) reason "" ""
    (Some bucket) (Some threshold) hashRaw ns (latency_us ns).

Definition multivariate_result (ns : Z) (flag : FeatureFlag) (cfg : EnvironmentConfig)
    (identifier : string) : EvaluationResult :=
  let '(v, bucket, hashRaw) :=
    ResolveMultivariateVariant (ec_Variants cfg) identifier (ff_Key flag) in
  mkResult (ff_Key flag) true (fv_Key v) (fv_Value v) ReasonMultivariateBucket "" ""
    (Some bucket) None hashRaw ns (latency_us ns).

Definition default_result (ns : Z) (flag : FeatureFlag) (cfg : EnvironmentConfig)
    : EvaluationResult :=
  mkResult (ff_Key flag) true (or_default (ec_DefaultVariant cfg) "on") (AnyBool true)
    ReasonDefaultEnabled "" "" None None "" ns (latency_us ns).

Definition kill_switch_result (ns : Z) (flag : FeatureFlag) (cfg : EnvironmentConfig)
    : EvaluationResult :=
  mkResult (ff_Key flag) false (or_default (ec_OffVariant cfg) "off") (AnyBool false)
    ReasonKillSwitchDisabled "" "" None None "" ns (latency_us ns).

(** The loop over the rules: the first one that matches decides. *)
Fixpoint first_match (ctx : EvaluationContext) (rules : list TargetingRule)
    : option TargetingRule :=
  match rules with
  | [] => None
  | rule :: rules' => if EvaluateRule rule ctx then Some rule else first_match ctx rules'
  end.

(** [EvaluateFlag]; [ns] is the elapsed time it measures. *)
Definition EvaluateFlag (ns : Z) (flag : FeatureFlag) (ctx : EvaluationContext)
    : EvaluationResult :=
  let cfg := eval_config flag ctx in
  let identifier := eval_identifier ctx in
  if negb (ec_Enabled cfg) then kill_switch_result ns flag cfg
  else
    match first_match ctx (ec_Rules cfg) with
    | Some rule => rule_result ns flag cfg rule
    | None =>
        if ec_Strategy cfg =s? StrategyPercentage then percentage_result ns flag cfg identifier
        else if ec_Strategy cfg =s? StrategyMultivariate
        then multivariate_result ns flag cfg identifier
        else default_result ns flag cfg
    end.

End Rules.
