(* ===== verification/Buckets.v ===== *)
(** * Arithmetic of the sticky buckets

    The evaluator compares the binary64 number
    [math.Round((slot/100.0)*100)/100] with percentages.  This file shows that
    for the ten thousand slots and for whole percentages these floating-point
    comparisons are exactly the integer comparisons one expects.  The proofs
    check every slot; to do so quickly they compute with the kernel's hardware
    floats and transfer the result to [spec_float] by the axioms that specify
    those primitives ([FloatAxioms]). *)

From S2P Require Import Prelude GoFloat GoStrings GoTime Errors Domain Engine.
From Stdlib Require Uint63 Floats.

Module Hardware.
Import Uint63 Floats.

(** [z] as a hardware float, through a 63-bit machine integer. *)
Definition hw (z : Z) : float := of_uint63 (Uint63.of_Z z).

Lemma hw_of_Z z : (0 ≤ z < 2 ^ 62)%Z → Prim2SF (hw z) = f64_of_Z z.
Proof.
  intros Hz. unfold hw. rewrite of_uint63_spec, Uint63.of_Z_spec, Z.mod_small; [done|].
  unfold Uint63.wB. change (2 ^ Z.of_nat Uint63.size)%Z with (2 ^ 63)%Z. lia.
Qed.

Lemma hw_div x y : Prim2SF (x / y) = f64_div (Prim2SF x) (Prim2SF y).
Proof. apply div_spec. Qed.

Lemma hw_mul x y : Prim2SF (x * y) = f64_mul (Prim2SF x) (Prim2SF y).
Proof. apply mul_spec. Qed.

Lemma hw_add x y : Prim2SF (x + y) = f64_add (Prim2SF x) (Prim2SF y).
Proof. apply add_spec. Qed.

(** The check for one slot: rounding recovers the slot, and the quotient lies
    between the whole percentages around it. *)
Definition slot_ok (n : Z) : bool :=
  let s := hw n in
  let b := (s / hw 100)%float in
  bool_decide (f64_round (Prim2SF (b * hw 100)) = Prim2SF s) &&
  ((hw (n / 100) <=? b)%float && (b <? hw (n / 100 + 1))%float).

(** The check for one pair of whole weights. *)
Definition sum_ok (a b : Z) : bool :=
  bool_decide (Prim2SF (hw a + hw b) = Prim2SF (hw (a + b))).

End Hardware.

(** [P] holds on the [fuel] integers from [z] on. *)
Fixpoint check_range (P : Z → bool) (fuel : nat) (z : Z) : bool :=
  match fuel with
  | O => true
  | S fuel => P z && check_range P fuel (z + 1)
  end.

Lemma check_range_spec P fuel z :
  check_range P fuel z = true → ∀ n, (z ≤ n < z + Z.of_nat fuel)%Z → P n = true.
Proof.
  revert z. induction fuel as [|fuel IH]; intros z Hc n Hn; [lia|].
  simpl in Hc. apply andb_true_iff in Hc as [HP Hc].
  destruct (decide (n = z)) as [->|]; [done|]. apply (IH (z + 1)%Z); [done|lia].
Qed.

Import Hardware.

Lemma slots_ok : check_range slot_ok (100 * 100) 0 = true.
Proof. vm_compute. reflexivity. Qed.

Lemma slot_ok_all n : (0 ≤ n < 10000)%Z → slot_ok n = true.
Proof. intros Hn. apply (check_range_spec _ _ _ slots_ok). lia. Qed.

(** The rounding step of the source undoes the error of the division: the
    bucket of a slot is the correctly rounded [slot/100]. *)
Lemma bucket_of_slot_exact n : (0 ≤ n < 10000)%Z → bucket_of_slot n = f64_ratio n 100.
Proof.
  intros Hn. pose proof (slot_ok_all n Hn) as Hok. unfold slot_ok in Hok.
  apply andb_true_iff in Hok as [Hr _]. apply bool_decide_eq_true in Hr.
  rewrite hw_mul, hw_div, !hw_of_Z in Hr by lia.
  unfold bucket_of_slot, f64_ratio. by rewrite Hr.
Qed.

(** A bucket lies in the unit interval of its whole percentage. *)
Lemma bucket_of_slot_unit n :
  (0 ≤ n < 10000)%Z →
  f64_leb (f64_of_Z (n / 100)) (bucket_of_slot n) = true ∧
  f64_ltb (bucket_of_slot n) (f64_of_Z (n / 100 + 1)) = true.
Proof.
  intros Hn. pose proof (slot_ok_all n Hn) as Hok. unfold slot_ok in Hok.
  apply andb_true_iff in Hok as [_ [Hl Hu]%andb_true_iff].
  assert (0 ≤ n / 100 < 100)%Z by (split; [apply Z.div_pos|apply Z.div_lt_upper_bound]; lia).
  rewrite FloatAxioms.leb_spec, hw_div, !hw_of_Z in Hl by lia.
  rewrite FloatAxioms.ltb_spec, hw_div, !hw_of_Z in Hu by lia.
  rewrite bucket_of_slot_exact by done. done.
Qed.

(** ** Whole numbers as floats *)

Lemma f64_of_Z_step_ok : check_range (λ a, f64_leb (f64_of_Z a) (f64_of_Z (a + 1))) 100 0 = true.
Proof. vm_compute. reflexivity. Qed.

Lemma f64_of_Z_le a b : (0 ≤ a ≤ b)%Z → (b ≤ 100)%Z → f64_leb (f64_of_Z a) (f64_of_Z b) = true.
Proof.
  intros [Ha Hab] Hb. revert Hb. pattern b. apply (Zlt_lower_bound_ind _ a); [|done].
  clear b Hab. intros b IH Hab Hb.
  destruct (decide (b = a)) as [->|Hne].
  - assert (check_range (λ a, f64_leb (f64_of_Z a) (f64_of_Z a)) 101 0 = true) as Hr
      by (vm_compute; reflexivity).
    apply (check_range_spec _ _ _ Hr). lia.
  - apply f64_le_trans with (f64_of_Z (b - 1)); [apply IH; lia|].
    replace b with (b - 1 + 1)%Z at 2 by lia.
    apply (check_range_spec _ _ _ f64_of_Z_step_ok). lia.
Qed.

Lemma sums_ok :
  check_range (λ a, check_range (λ b, (100 <? a + b)%Z || sum_ok a b) 101 0) 101 0 = true.
Proof. vm_compute. reflexivity. Qed.

(** Sums of whole weights up to 100 are exact. *)
Lemma f64_add_whole a b :
  (0 ≤ a)%Z → (0 ≤ b)%Z → (a + b ≤ 100)%Z →
  f64_add (f64_of_Z a) (f64_of_Z b) = f64_of_Z (a + b).
Proof.
  intros Ha Hb Hab.
  pose proof (check_range_spec _ _ _ sums_ok a ltac:(lia)) as H. cbv beta in H.
  pose proof (check_range_spec _ _ _ H b ltac:(lia)) as Hs. cbv beta in Hs.
  destruct (100 <? a + b)%Z eqn:E; [apply Z.ltb_lt in E; lia|]. cbn [orb] in Hs.
  unfold sum_ok in Hs. apply bool_decide_eq_true in Hs.
  by rewrite hw_add, !hw_of_Z in Hs by lia.
Qed.

(** ** Buckets against whole percentages *)

(** The test [bucket < k] of the evaluator, for a whole percentage [k], selects
    exactly the slots below [100*k]. *)
Lemma bucket_lt_whole n k :
  (0 ≤ n < 10000)%Z → (0 ≤ k ≤ 100)%Z →
  f64_ltb (bucket_of_slot n) (f64_of_Z k) = (n <? 100 * k)%Z.
Proof.
  intros Hn Hk. destruct (bucket_of_slot_unit n Hn) as [Hl Hu].
  pose proof (Z.div_mod n 100 ltac:(lia)). pose proof (Z.mod_pos_bound n 100 ltac:(lia)).
  destruct (n <? 100 * k)%Z eqn:E; simp_bool.
  - apply f64_lt_le_trans with (f64_of_Z (n / 100 + 1)); [done|]. apply f64_of_Z_le; lia.
  - apply f64_le_not_lt, f64_le_trans with (f64_of_Z (n / 100)); [|done].
    apply f64_of_Z_le; lia.
Qed.

Lemma f64_of_Z_lt a b : (0 ≤ a < b)%Z → (b ≤ 100)%Z → f64_ltb (f64_of_Z a) (f64_of_Z b) = true.
Proof.
  intros Hab Hb. pose proof (bucket_of_slot_unit (100 * a) ltac:(lia)) as [Hl _].
  replace (100 * a / 100)%Z with a in Hl by (rewrite Z.mul_comm; by rewrite Z.div_mul).
  apply f64_le_lt_trans with (bucket_of_slot (100 * a)); [done|].
  rewrite bucket_lt_whole by lia. apply Z.ltb_lt. lia.
Qed.

(** ** The slot of an identifier *)

Definition sticky_slot (identifier salt : string) : Z :=
  (FNV1a64 (identifier +:+ ":" +:+ salt) mod 10000)%Z.

Lemma sticky_slot_range identifier salt : (0 ≤ sticky_slot identifier salt < 10000)%Z.
Proof. apply Z.mod_pos_bound. lia. Qed.

#[export] Hint Resolve sticky_slot_range : flagura.

Lemma GetStickyBucket_slot identifier salt :
  GetStickyBucket identifier salt
  = (bucket_of_slot (sticky_slot identifier salt),
     FormatUint16 (FNV1a64 (identifier +:+ ":" +:+ salt))).
Proof. reflexivity. Qed.
