(* ===== verification/EngineFacts.v ===== *)
(** * What the evaluation engine guarantees

    A declarative specification of a flag's evaluation with the proof that
    [EvaluateFlag] refines it, and the properties of rollouts, of multivariate
    splits and of targeting rules. *)

From S2P Require Import Prelude GoFloat GoStrings GoTime Errors Domain Engine Buckets.

(** ** The specification *)

Section Spec.
Context `{GoRuntime}.

(** Rule number [i] is the one that decides: it matches and no earlier one
    does. *)
Definition deciding_rule (ctx : EvaluationContext) (rules : list TargetingRule) (i : nat)
    (rule : TargetingRule) : Prop :=
  rules !! i = Some rule ∧ EvaluateRule rule ctx = true ∧
  ∀ j r, (j < i)%nat → rules !! j = Some r → EvaluateRule r ctx = false.

Definition no_rule (ctx : EvaluationContext) (rules : list TargetingRule) : Prop :=
  ∀ r, r ∈ rules → EvaluateRule r ctx = false.

(** The answer to an evaluation: on or off, the variant and value served, the
    reason and the rule that decided. *)
Record Answer := mkAnswer {
  an_enabled : bool;
  an_variant : string;
  an_value : GoAny;
  an_reason : string;
  an_rule : string;
}.

Definition answer (r : EvaluationResult) : Answer :=
  mkAnswer (er_Enabled r) (er_Variant r) (er_Value r) (er_Reason r) (er_MatchedRuleID r).

Inductive Decides (flag : FeatureFlag) (ctx : EvaluationContext) : Answer → Prop :=
| decides_unconfigured :
    ff_Environments flag !! eval_env ctx = None →
    Decides flag ctx (mkAnswer false "off" (AnyBool false) ReasonKillSwitchDisabled "")
| decides_kill_switch cfg :
    ff_Environments flag !! eval_env ctx = Some cfg → ec_Enabled cfg = false →
    Decides flag ctx (mkAnswer false (or_default (ec_OffVariant cfg) "off") (AnyBool false)
      ReasonKillSwitchDisabled "")
| decides_force_off cfg i rule :
    ff_Environments flag !! eval_env ctx = Some cfg → ec_Enabled cfg = true →
    deciding_rule ctx (ec_Rules cfg) i rule → tr_Action rule = ActionForceDisabled →
    Decides flag ctx (mkAnswer false (or_default (ec_OffVariant cfg) "off") (AnyBool false)
      ReasonTargetingRuleMatch (tr_ID rule))
| decides_serve cfg i rule :
    ff_Environments flag !! eval_env ctx = Some cfg → ec_Enabled cfg = true →
    deciding_rule ctx (ec_Rules cfg) i rule → tr_Action rule = ActionServeVariant →
    tr_ServeVariant rule ≠ "" →
    Decides flag ctx (mkAnswer true (tr_ServeVariant rule)
      (variant_value (ec_Variants cfg) (tr_ServeVariant rule))
      ReasonTargetingRuleMatch (tr_ID rule))
| decides_force_on cfg i rule :
    ff_Environments flag !! eval_env ctx = Some cfg → ec_Enabled cfg = true →
    deciding_rule ctx (ec_Rules cfg) i rule → tr_Action rule ≠ ActionForceDisabled →
    (tr_Action rule ≠ ActionServeVariant ∨ tr_ServeVariant rule = "") →
    Decides flag ctx (mkAnswer true (or_default (ec_DefaultVariant cfg) "on") (AnyBool true)
      ReasonTargetingRuleMatch (tr_ID rule))
| decides_rollout_in cfg :
    ff_Environments flag !! eval_env ctx = Some cfg → ec_Enabled cfg = true →
    no_rule ctx (ec_Rules cfg) → ec_Strategy cfg = StrategyPercentage →
    f64_ltb (bucket_of_slot (sticky_slot (eval_identifier ctx) (ff_Key flag)))
      (ec_Percentage cfg) = true →
    Decides flag ctx (mkAnswer true (or_default (ec_DefaultVariant cfg) "treatment")
      (AnyBool true) ReasonPercentageBucket "")
| decides_rollout_out cfg :
    ff_Environments flag !! eval_env ctx = Some cfg → ec_Enabled cfg = true →
    no_rule ctx (ec_Rules cfg) → ec_Strategy cfg = StrategyPercentage →
    f64_ltb (bucket_of_slot (sticky_slot (eval_identifier ctx) (ff_Key flag)))
      (ec_Percentage cfg) = false →
    Decides flag ctx (mkAnswer false (or_default (ec_OffVariant cfg) "control")
      (AnyBool false) ReasonPercentageExcluded "")
| decides_multivariate cfg v bucket hash :
    ff_Environments flag !! eval_env ctx = Some cfg → ec_Enabled cfg = true →
    no_rule ctx (ec_Rules cfg) → ec_Strategy cfg = StrategyMultivariate →
    ResolveMultivariateVariant (ec_Variants cfg) (eval_identifier ctx) (ff_Key flag)
      = (v, bucket, hash) →
    Decides flag ctx (mkAnswer true (fv_Key v) (fv_Value v) ReasonMultivariateBucket "")
| decides_default cfg :
    ff_Environments flag !! eval_env ctx = Some cfg → ec_Enabled cfg = true →
    no_rule ctx (ec_Rules cfg) → ec_Strategy cfg ≠ StrategyPercentage →
    ec_Strategy cfg ≠ StrategyMultivariate →
    Decides flag ctx (mkAnswer true (or_default (ec_DefaultVariant cfg) "on") (AnyBool true)
      ReasonDefaultEnabled "").

(** *** The rule loop *)

Lemma first_match_Some ctx rules rule :
  first_match ctx rules = Some rule → ∃ i, deciding_rule ctx rules i rule.
Proof.
  induction rules as [|r rules IH]; simpl; [done|].
  destruct (EvaluateRule r ctx) eqn:E; intros Hf.
  - simplify_eq. exists 0%nat. repeat split; [done|]. intros; lia.
  - destruct (IH Hf) as (i & Hi & Hm & Hj). exists (S i). repeat split; [done..|].
    intros [|j] r' Hlt; simpl; [by intros [= <-]|]. apply Hj. lia.
Qed.

Lemma first_match_None ctx rules : first_match ctx rules = None ↔ no_rule ctx rules.
Proof.
  unfold no_rule. induction rules as [|r rules IH]; simpl.
  - split; [|done]. intros _ r Hr. by apply elem_of_nil in Hr.
  - destruct (EvaluateRule r ctx) eqn:E.
    + split; [done|]. intros Hn. specialize (Hn r ltac:(left)). congruence.
    + rewrite IH. split; [|intros Hn r' Hr'; apply Hn; by right].
      intros Hn r' [->|Hr']%elem_of_cons; [done|by apply Hn].
Qed.

Lemma deciding_rule_unique ctx rules i j r s :
  deciding_rule ctx rules i r → deciding_rule ctx rules j s → i = j ∧ r = s.
Proof.
  intros (Hi & Hr & Hbi) (Hj & Hs & Hbj).
  assert (i = j) as ->; [|by simplify_eq].
  destruct (Nat.lt_trichotomy i j) as [Hlt|[?|Hlt]]; [|done|].
  - by rewrite (Hbj i r Hlt Hi) in Hr.
  - by rewrite (Hbi j s Hlt Hj) in Hs.
Qed.

Lemma deciding_rule_first_match ctx rules i r :
  deciding_rule ctx rules i r → first_match ctx rules = Some r.
Proof.
  intros Hd. destruct (first_match ctx rules) as [s|] eqn:E.
  - apply first_match_Some in E as [j Hj]. f_equal. symmetry.
    by eapply (deciding_rule_unique ctx rules i j).
  - apply first_match_None in E. destruct Hd as (Hi & Hr & _).
    rewrite (E r) in Hr; [done|]. by eapply list_elem_of_lookup_2.
Qed.

(** *** Refinement *)

Lemma EvaluateFlag_decides ns flag ctx : Decides flag ctx (answer (EvaluateFlag ns flag ctx)).
Proof.
  unfold EvaluateFlag, eval_config.
  destruct (ff_Environments flag !! eval_env ctx) as [cfg|] eqn:Hc; simpl;
    [|by apply decides_unconfigured].
  destruct (ec_Enabled cfg) eqn:He; simpl; [|by eapply decides_kill_switch].
  destruct (first_match ctx (ec_Rules cfg)) as [rule|] eqn:Hf.
  - apply first_match_Some in Hf as [i Hi]. unfold rule_result, answer.
    repeat case_if; simp_bool; simpl; [by eapply decides_force_off|by eapply decides_serve|].
    eapply decides_force_on; try done.
    destruct (decide (tr_Action rule = ActionServeVariant)) as [Ha|]; [right|by left].
    rewrite Ha, str_eqb_refl in Heqb0. simpl in Heqb0. by simp_bool.
  - apply first_match_None in Hf. repeat case_if; simp_bool.
    + unfold percentage_result, answer. rewrite GetStickyBucket_slot.
      case_if; simpl; [by eapply decides_rollout_in|by eapply decides_rollout_out].
    + unfold multivariate_result, answer.
      destruct (ResolveMultivariateVariant _ _ _) as [[v b] h] eqn:Hv.
      by eapply decides_multivariate.
    + by eapply decides_default.
Qed.

Lemma Decides_answer ns flag ctx a :
  Decides flag ctx a → answer (EvaluateFlag ns flag ctx) = a.
Proof.
  intros Ha. unfold EvaluateFlag, eval_config.
  destruct Ha;
    repeat match goal with
    | H : ff_Environments _ !! _ = _ |- _ => rewrite H; clear H; simpl
    | H : ec_Enabled _ = _ |- _ => rewrite H; clear H; simpl
    | H : deciding_rule _ _ _ _ |- _ => rewrite (deciding_rule_first_match _ _ _ _ H); clear H
    | H : no_rule _ _ |- _ => rewrite (proj2 (first_match_None _ _) H); clear H
    | H : ec_Strategy _ = _ |- _ => rewrite H; clear H; simpl
    | H : tr_Action _ = _ |- _ => unfold rule_result; rewrite H; clear H; simpl
    | |- context [rule_result] => unfold rule_result
    | |- context [percentage_result] =>
        unfold percentage_result, answer; rewrite GetStickyBucket_slot
    | |- context [multivariate_result] => unfold multivariate_result, answer
    | H : f64_ltb _ _ = _ |- _ => rewrite H; clear H
    | H : ResolveMultivariateVariant _ _ _ = _ |- _ => rewrite H; clear H
    | H : ?s ≠ ?t |- context [?s =s? ?t] => rewrite (proj2 (str_eqb_neq _ _) H)
    end; try done.
  destruct (_ && _) eqn:E; [|done]. simp_bool.
  match goal with H : _ ∨ _ |- _ => by destruct H end.
Qed.

(** C1: Refinement: the specification determines one answer for every flag and
    context, and it is the one [EvaluateFlag] gives, at whatever speed. *)
Theorem EvaluateFlag_refines_spec ns flag ctx a :
  Decides flag ctx a ↔ answer (EvaluateFlag ns flag ctx) = a.
Proof.
  split; [apply Decides_answer|]. intros <-. apply EvaluateFlag_decides.
Qed.

End Spec.

(** ** Percentage rollouts *)

Section Rollout.
Context `{GoRuntime}.

(** The evaluation gets past the kill switch and the rules to a strategy. *)
Definition reaches_strategy (flag : FeatureFlag) (ctx : EvaluationContext)
    (cfg : EnvironmentConfig) (strategy : string) : Prop :=
  ff_Environments flag !! eval_env ctx = Some cfg ∧ ec_Enabled cfg = true ∧
  no_rule ctx (ec_Rules cfg) ∧ ec_Strategy cfg = strategy.

Lemma EvaluateFlag_percentage ns flag ctx cfg :
  reaches_strategy flag ctx cfg StrategyPercentage →
  EvaluateFlag ns flag ctx = percentage_result ns flag cfg (eval_identifier ctx).
Proof.
  intros (Hc & He & Hn & Hs). unfold EvaluateFlag, eval_config.
  rewrite Hc. simpl. rewrite He. simpl. by rewrite (proj2 (first_match_None _ _) Hn), Hs.
Qed.

Lemma EvaluateFlag_multivariate ns flag ctx cfg :
  reaches_strategy flag ctx cfg StrategyMultivariate →
  EvaluateFlag ns flag ctx = multivariate_result ns flag cfg (eval_identifier ctx).
Proof.
  intros (Hc & He & Hn & Hs). unfold EvaluateFlag, eval_config.
  rewrite Hc. simpl. rewrite He. simpl. by rewrite (proj2 (first_match_None _ _) Hn), Hs.
Qed.

Lemma percentage_result_enabled ns flag cfg identifier :
  er_Enabled (percentage_result ns flag cfg identifier)
  = f64_ltb (bucket_of_slot (sticky_slot identifier (ff_Key flag))) (ec_Percentage cfg).
Proof. unfold percentage_result. by rewrite GetStickyBucket_slot. Qed.

(** The number of the ten thousand slots a percentage admits. *)
Definition admitted_slots (percentage : f64) : nat :=
  length (filter (λ n, f64_ltb (bucket_of_slot n) percentage = true) (seqZ 0 10000)).

Lemma admitted_slots_whole k : (0 ≤ k ≤ 100)%Z → admitted_slots (f64_of_Z k) = Z.to_nat (100 * k).
Proof.
  intros Hk. unfold admitted_slots.
  replace 10000%Z with (100 * k + (10000 - 100 * k))%Z by lia.
  rewrite seqZ_app, filter_app, length_app by lia.
  rewrite (list_filter_all _ (seqZ 0 (100 * k))), list_filter_none.
  - rewrite length_seqZ. simpl. lia.
  - apply Forall_forall. intros n Hn%elem_of_seqZ. rewrite bucket_lt_whole by lia.
    intros Hlt. simp_bool. lia.
  - apply Forall_forall. intros n Hn%elem_of_seqZ. rewrite bucket_lt_whole by lia.
    apply Z.ltb_lt. lia.
Qed.

(** C2: a rollout at a whole percentage [k] admits a caller exactly when the
    slot of its identifier is below [100*k], so it admits exactly [k] per cent
    of the slots: no floating-point error moves anybody across the threshold. *)
Theorem percentage_rollout_exact ns flag ctx cfg k :
  reaches_strategy flag ctx cfg StrategyPercentage →
  ec_Percentage cfg = f64_of_Z k → (0 ≤ k ≤ 100)%Z →
  er_Enabled (EvaluateFlag ns flag ctx)
    = (sticky_slot (eval_identifier ctx) (ff_Key flag) <? 100 * k)%Z ∧
  admitted_slots (ec_Percentage cfg) = Z.to_nat (100 * k).
Proof.
  intros Hr Hp Hk. rewrite (EvaluateFlag_percentage _ _ _ _ Hr), percentage_result_enabled, Hp.
  split; [|by apply admitted_slots_whole]. apply bucket_lt_whole; auto with flagura.
Qed.

(** Raising the percentage of a rollout, by any amount, never switches the
    flag off for a caller that already had it, and never changes its bucket. *)
Theorem percentage_rollout_monotone ns ns' flag flag' ctx cfg cfg' :
  reaches_strategy flag ctx cfg StrategyPercentage →
  reaches_strategy flag' ctx cfg' StrategyPercentage →
  ff_Key flag' = ff_Key flag →
  f64_leb (ec_Percentage cfg) (ec_Percentage cfg') = true →
  (er_Enabled (EvaluateFlag ns flag ctx) = true →
   er_Enabled (EvaluateFlag ns' flag' ctx) = true) ∧
  er_BucketVal (EvaluateFlag ns' flag' ctx) = er_BucketVal (EvaluateFlag ns flag ctx).
Proof.
  intros Hr Hr' Hk Hle.
  rewrite (EvaluateFlag_percentage _ _ _ _ Hr), (EvaluateFlag_percentage _ _ _ _ Hr').
  rewrite !percentage_result_enabled, Hk. split.
  - intros Hlt. by eapply f64_lt_le_trans.
  - unfold percentage_result. by rewrite !GetStickyBucket_slot, Hk.
Qed.

(** ** Multivariate splits *)

Lemma pick_variant_elem total bucket cumulative vs v :
  pick_variant total bucket cumulative vs = Some v → v ∈ vs.
Proof.
  revert cumulative. induction vs as [|v' vs IH]; intros cumulative; simpl; [done|].
  case_if; intros Hp; simplify_eq; [by left|right; eauto].
Qed.

Lemma ResolveMultivariateVariant_elem vs identifier key v bucket hash :
  vs ≠ [] → ResolveMultivariateVariant vs identifier key = (v, bucket, hash) → v ∈ vs.
Proof.
  intros Hne. unfold ResolveMultivariateVariant.
  destruct (last vs) as [l|] eqn:Hl; [|by apply last_None in Hl].
  rewrite GetStickyBucket_slot. destruct (pick_variant _ _ _ _) as [v'|] eqn:Hp; intros Hr;
    simplify_eq; [by eapply pick_variant_elem|].
  apply last_Some in Hl as [vs' ->]. apply elem_of_app. right. by left.
Qed.

Lemma f64_of_Z_pos_ok :
  check_range (λ a, eqb (f64_ltb f64_zero (f64_of_Z a)) (0 <? a)%Z) 101 0 = true.
Proof. vm_compute. reflexivity. Qed.

Lemma f64_of_Z_pos a : (0 ≤ a ≤ 100)%Z → f64_ltb f64_zero (f64_of_Z a) = (0 <? a)%Z.
Proof. intros Ha. apply eqb_prop, (check_range_spec _ _ _ f64_of_Z_pos_ok). lia. Qed.

Definition Zsum (ws : list Z) : Z := foldr Z.add 0%Z ws.

Lemma Zsum_nonneg ws : Forall (Z.le 0) ws → (0 ≤ Zsum ws)%Z.
Proof. induction 1; simpl; lia. Qed.

(** The weights of the variants are the whole numbers [ws]. *)
Definition whole_weights (vs : list FlagVariant) (ws : list Z) : Prop :=
  Forall2 (λ v w, fv_Weight v = f64_of_Z w ∧ (0 ≤ w)%Z) vs ws.

Lemma whole_weights_nonneg vs ws : whole_weights vs ws → Forall (Z.le 0) ws.
Proof. induction 1 as [|v w vs ws [_ Hw] _ IH]; by constructor. Qed.

Lemma total_weight_whole_acc vs ws a :
  whole_weights vs ws → (0 ≤ a)%Z → (a + Zsum ws ≤ 100)%Z →
  fold_left positive_weight vs (f64_of_Z a) = f64_of_Z (a + Zsum ws).
Proof.
  intros Hw. revert a. induction Hw as [|v w vs ws [Hv Hpos] Hw IH]; intros a Ha Hs; simpl.
  { f_equal. simpl. lia. }
  simpl in Hs. pose proof (Zsum_nonneg ws (whole_weights_nonneg _ _ Hw)).
  unfold positive_weight at 2. rewrite Hv, f64_of_Z_pos by lia.
  destruct (0 <? w)%Z eqn:E; simp_bool.
  - rewrite f64_add_whole, IH by lia. f_equal. lia.
  - rewrite IH by lia. f_equal. lia.
Qed.

Lemma normalized_weight_100 w : normalized_weight (f64_of_Z 100) w = w.
Proof.
  unfold normalized_weight.
  by replace (f64_ltb f64_zero (f64_of_Z 100) &&
    f64_ltb (f64_ratio 1 1000) (f64_abs (f64_sub (f64_of_Z 100) (f64_of_Z 100))))
    with false by (vm_compute; reflexivity).
Qed.

Lemma pick_variant_whole vs ws c n :
  whole_weights vs ws → (0 ≤ c)%Z → (c + Zsum ws ≤ 100)%Z → (0 ≤ n < 10000)%Z →
  (100 * c ≤ n < 100 * (c + Zsum ws))%Z →
  ∃ i v, vs !! i = Some v ∧
    pick_variant (f64_of_Z 100) (bucket_of_slot n) (f64_of_Z c) vs = Some v ∧
    (100 * (c + Zsum (take i ws)) ≤ n < 100 * (c + Zsum (take (S i) ws)))%Z.
Proof.
  intros Hw. revert c. induction Hw as [|v w vs ws [Hv Hpos] Hw IH]; intros c Hc Hs Hn Hi;
    simpl in *; [lia|].
  pose proof (Zsum_nonneg ws (whole_weights_nonneg _ _ Hw)).
  rewrite normalized_weight_100, Hv, f64_add_whole, bucket_lt_whole by lia.
  destruct (n <? 100 * (c + w))%Z eqn:E; simp_bool.
  - exists 0%nat, v. repeat split; simpl; [lia..].
  - destruct (IH (c + w)%Z) as (i & v' & Hv' & Hp & Hlo & Hhi); [lia..|].
    exists (S i), v'. repeat split; [done..| |]; simpl; simpl in Hhi; lia.
Qed.

(** C4: when the variants have whole weights that sum to 100, the variant served
    is the one whose interval of the cumulative weights contains the slot of
    the caller, so that a variant of weight [w] gets exactly [100*w] of the ten
    thousand slots. *)
Theorem multivariate_split_exact ns flag ctx cfg ws :
  reaches_strategy flag ctx cfg StrategyMultivariate →
  whole_weights (ec_Variants cfg) ws → Zsum ws = 100%Z →
  let slot := sticky_slot (eval_identifier ctx) (ff_Key flag +:+ ":multivariate") in
  ∃ i v, ec_Variants cfg !! i = Some v ∧
    (100 * Zsum (take i ws) ≤ slot < 100 * Zsum (take (S i) ws))%Z ∧
    answer (EvaluateFlag ns flag ctx)
      = mkAnswer true (fv_Key v) (fv_Value v) ReasonMultivariateBucket "".
Proof.
  intros Hr Hw Hs slot. rewrite (EvaluateFlag_multivariate _ _ _ _ Hr).
  pose proof (sticky_slot_range (eval_identifier ctx) (ff_Key flag +:+ ":multivariate")).
  destruct (pick_variant_whole (ec_Variants cfg) ws 0 slot) as (i & v & Hi & Hp & Hb);
    [done|lia..|].
  exists i, v. split_and!; [done|lia..|].
  unfold multivariate_result, ResolveMultivariateVariant.
  destruct (last (ec_Variants cfg)) as [l|] eqn:Hl;
    [|apply last_None in Hl; by rewrite Hl in Hi].
  rewrite GetStickyBucket_slot. fold slot. unfold total_weight.
  change f64_zero with (f64_of_Z 0).
  rewrite (total_weight_whole_acc _ ws) by (done || lia). by rewrite Z.add_0_l, Hs, Hp.
Qed.

(** Whatever the weights, a multivariate flag with at least one variant is
    on and serves one of its variants, with that variant's value. *)
Theorem multivariate_serves_configured ns flag ctx cfg :
  reaches_strategy flag ctx cfg StrategyMultivariate → ec_Variants cfg ≠ [] →
  ∃ v, v ∈ ec_Variants cfg ∧
    answer (EvaluateFlag ns flag ctx)
      = mkAnswer true (fv_Key v) (fv_Value v) ReasonMultivariateBucket "".
Proof.
  intros Hr Hne. rewrite (EvaluateFlag_multivariate _ _ _ _ Hr). unfold multivariate_result.
  destruct (ResolveMultivariateVariant _ _ _) as [[v b] h] eqn:E.
  exists v. split; [by eapply ResolveMultivariateVariant_elem|done].
Qed.

End Rollout.

(** ** Targeting rules *)

Section RuleFacts.
Context `{GoRuntime}.

(** Every cached pattern was compiled from its own text. *)
Definition cache_coherent (cache : RegexCache) : Prop :=
  map_Forall (λ p re, rt_regexp p = Some re) cache.

(** The cache is invisible: from a coherent cache a lookup returns what the
    compiler returns, and leaves a coherent cache. *)
Theorem getOrCompileRegex_transparent cache p :
  cache_coherent cache →
  (getOrCompileRegex cache p).1 = rt_regexp p ∧ cache_coherent (getOrCompileRegex cache p).2.
Proof.
  intros Hc. unfold getOrCompileRegex. destruct (cache !! p) as [re|] eqn:E; simpl.
  - split; [|done]. symmetry. exact (Hc _ _ E).
  - destruct (rt_regexp p) as [re|] eqn:Hre; simpl; [|done].
    split; [done|]. by apply map_Forall_insert_2.
Qed.

(** The caller has the attribute the rule looks at: it is there and its text is
    not blank. *)
Definition attribute_present (rule : TargetingRule) (ctx : EvaluationContext) : bool :=
  match rule_target rule ctx with
  | AnyNil => false
  | v => negb (toStringFast v =s? "")
  end.

Definition with_op (rule : TargetingRule) (op : string) : TargetingRule :=
  mkRule (tr_ID rule) (tr_Name rule) (tr_Attribute rule) (tr_CustomKey rule) op (tr_Values rule)
    (tr_Action rule) (tr_ServeVariant rule).

(** The operators that come with a negated form. *)
Definition negated_ops : list (string * string) :=
  [(OpEquals, OpNotEquals); (OpContains, OpNotContains); (OpInList, OpNotInList)].

(** A rule on an attribute the caller does not have never matches, whatever
    its operator, so a "not equals" rule does not catch anonymous callers. *)
Theorem EvaluateRule_absent rule ctx :
  attribute_present rule ctx = false → EvaluateRule rule ctx = false.
Proof.
  unfold attribute_present, EvaluateRule.
  destruct (rule_target rule ctx); try done; intros Hp; simp_bool; by rewrite Hp.
Qed.

(** For a caller that has the attribute, each negated operator is the exact
    complement of its positive form. *)
Theorem EvaluateRule_negated_op rule ctx op nop :
  attribute_present rule ctx = true → (op, nop) ∈ negated_ops →
  EvaluateRule (with_op rule nop) ctx = negb (EvaluateRule (with_op rule op) ctx).
Proof.
  intros Hp Hop. unfold attribute_present in Hp. unfold EvaluateRule.
  change (rule_target (with_op rule nop) ctx) with (rule_target rule ctx).
  change (rule_target (with_op rule op) ctx) with (rule_target rule ctx).
  destruct (rule_target rule ctx); try done;
    simp_bool; rewrite (proj2 (str_eqb_neq _ _) Hp);
    unfold negated_ops in Hop;
    repeat (apply elem_of_cons in Hop as [[= -> ->]|Hop]; [done|]); by apply elem_of_nil in Hop.
Qed.

(** [strVal] and the threshold of the rule as numbers. *)
Definition numeric_operands (rule : TargetingRule) (ctx : EvaluationContext) : option (f64 * f64) :=
  match rt_parse_float (toStringFast (rule_target rule ctx)), tr_Values rule with
  | Some a, v :: _ => (λ b, (a, b)) <$> rt_parse_float v
  | _, _ => None
  end.

Definition numeric_ops : list (string * (f64 → f64 → bool)) :=
  [(OpGreaterThan, λ a b, f64_ltb b a); (OpGreaterThanOrEqual, λ a b, f64_leb b a);
   (OpLessThan, f64_ltb); (OpLessThanOrEqual, f64_leb)].

Lemma EvaluateRule_numeric_op rule ctx op cmp :
  attribute_present rule ctx = true → (op, cmp) ∈ numeric_ops →
  EvaluateRule (with_op rule op) ctx
  = match numeric_operands rule ctx with Some (a, b) => cmp a b | None => false end.
Proof.
  intros Hp Hop. unfold attribute_present in Hp. unfold EvaluateRule, numeric_operands.
  change (rule_target (with_op rule op) ctx) with (rule_target rule ctx).
  destruct (rule_target rule ctx); try done;
    simp_bool; rewrite (proj2 (str_eqb_neq _ _) Hp);
    unfold numeric_ops in Hop;
    repeat (apply elem_of_cons in Hop as [[= -> ->]|Hop];
      [simpl; unfold numeric_op; repeat (case_match; simplify_eq/=; try done)|]);
    by apply elem_of_nil in Hop.
Qed.

(** On numbers, "greater than" and "less than or equal" (and "less than" and
    "greater than or equal") are complementary; when either side is not a
    number all four operators are false. *)
Theorem EvaluateRule_numeric rule ctx :
  attribute_present rule ctx = true →
  let holds op := EvaluateRule (with_op rule op) ctx in
  match numeric_operands rule ctx with
  | None => Forall (λ op, holds op = false) numeric_ops.*1
  | Some (a, b) =>
      is_nan a = false → is_nan b = false →
      holds OpGreaterThan = f64_ltb b a ∧ holds OpLessThan = f64_ltb a b ∧
      holds OpLessThanOrEqual = negb (holds OpGreaterThan) ∧
      holds OpGreaterThanOrEqual = negb (holds OpLessThan)
  end.
Proof.
  intros Hp holds. pose proof (EvaluateRule_numeric_op rule ctx) as Hop.
  assert (Forall (λ oc, holds oc.1 = match numeric_operands rule ctx with
    Some (a, b) => oc.2 a b | None => false end) numeric_ops) as Hall.
  { apply Forall_forall. intros [op cmp] Hin. by apply Hop. }
  unfold numeric_ops in Hall. rewrite !Forall_cons in Hall.
  destruct Hall as (Hgt & Hge & Hlt & Hle & _). cbn [fst snd] in Hgt, Hge, Hlt, Hle. clear Hop Hp. clearbody holds.
  destruct (numeric_operands rule ctx) as [[a b]|]; [|repeat constructor; done].
  intros Ha Hb. rewrite Hgt, Hge, Hlt, Hle, !f64_ltb_negb_leb, !negb_involutive by done. done.
Qed.

End RuleFacts.

(** ** Instances *)

(** A flag with one environment, and a caller. *)
Definition demo_flag (cfg : EnvironmentConfig) : FeatureFlag :=
  zero_FeatureFlag <| ff_Key := "beta" |> <| ff_Environments := {[ EnvProduction := cfg ]} |>.

Definition demo_ctx : EvaluationContext := mkCtx "alice" "" "DE" "" "" "" ∅.

Definition rollout_demo (k : Z) : EnvironmentConfig :=
  zero_EnvironmentConfig <| ec_Enabled := true |> <| ec_Strategy := StrategyPercentage |>
    <| ec_Percentage := f64_of_Z k |>.

Definition split_demo : EnvironmentConfig :=
  zero_EnvironmentConfig <| ec_Enabled := true |> <| ec_Strategy := StrategyMultivariate |>
    <| ec_Variants := [mkVariant "a" "" (AnyInt 1) (f64_of_Z 30) "";
                       mkVariant "b" "" (AnyInt 2) (f64_of_Z 70) ""] |>.

Definition age_rule : TargetingRule := mkRule "r" "" AttrCountry "" OpEquals ["de"] "" "".

Lemma demo_reaches cfg strategy :
  ec_Enabled cfg = true → ec_Rules cfg = [] → ec_Strategy cfg = strategy →
  reaches_strategy (H := sample_runtime) (demo_flag cfg) demo_ctx cfg strategy.
Proof.
  intros He Hr Hs. split_and!; [reflexivity|done| |done].
  rewrite Hr. intros r Hin. by apply elem_of_nil in Hin.
Qed.

Lemma percentage_rollout_exact_witness :
  er_Enabled (EvaluateFlag (H := sample_runtime) 0 (demo_flag (rollout_demo 30)) demo_ctx)
    = (sticky_slot "alice" "beta" <? 100 * 30)%Z ∧
  admitted_slots (f64_of_Z 30) = Z.to_nat (100 * 30).
Proof.
  apply (percentage_rollout_exact (H := sample_runtime) 0 (demo_flag (rollout_demo 30)) demo_ctx
    (rollout_demo 30) 30); [by apply demo_reaches|done|lia].
Defined.

Lemma percentage_rollout_monotone_witness :
  (er_Enabled (EvaluateFlag (H := sample_runtime) 0 (demo_flag (rollout_demo 30)) demo_ctx) = true →
   er_Enabled (EvaluateFlag (H := sample_runtime) 1 (demo_flag (rollout_demo 60)) demo_ctx) = true) ∧
  er_BucketVal (EvaluateFlag (H := sample_runtime) 1 (demo_flag (rollout_demo 60)) demo_ctx)
  = er_BucketVal (EvaluateFlag (H := sample_runtime) 0 (demo_flag (rollout_demo 30)) demo_ctx).
Proof.
  apply (percentage_rollout_monotone (H := sample_runtime) 0 1 (demo_flag (rollout_demo 30))
    (demo_flag (rollout_demo 60)) demo_ctx (rollout_demo 30) (rollout_demo 60));
    [by apply demo_reaches|by apply demo_reaches|done|vm_compute; reflexivity].
Defined.

Lemma multivariate_split_exact_witness :
  ∃ i v, ec_Variants split_demo !! i = Some v ∧
    (100 * Zsum (take i [30; 70]) ≤ sticky_slot "alice" ("beta" +:+ ":multivariate")
       < 100 * Zsum (take (S i) [30; 70]))%Z ∧
    answer (EvaluateFlag (H := sample_runtime) 0 (demo_flag split_demo) demo_ctx)
      = mkAnswer true (fv_Key v) (fv_Value v) ReasonMultivariateBucket "".
Proof.
  apply (multivariate_split_exact (H := sample_runtime) 0 (demo_flag split_demo) demo_ctx split_demo
    [30; 70]%Z); [by apply demo_reaches| |reflexivity].
  repeat constructor; lia.
Defined.

Lemma multivariate_serves_configured_witness :
  ∃ v, v ∈ ec_Variants split_demo ∧
    answer (EvaluateFlag (H := sample_runtime) 0 (demo_flag split_demo) demo_ctx)
      = mkAnswer true (fv_Key v) (fv_Value v) ReasonMultivariateBucket "".
Proof.
  apply (multivariate_serves_configured (H := sample_runtime) 0 (demo_flag split_demo) demo_ctx
    split_demo); [by apply demo_reaches|done].
Defined.

Lemma EvaluateRule_absent_witness :
  EvaluateRule (H := sample_runtime) (with_op age_rule OpNotEquals) (mkCtx "" "" "" "" "" "" ∅)
  = false.
Proof. apply (EvaluateRule_absent (H := sample_runtime)). reflexivity. Defined.

Lemma EvaluateRule_negated_op_witness :
  EvaluateRule (H := sample_runtime) (with_op age_rule OpNotEquals) demo_ctx
  = negb (EvaluateRule (H := sample_runtime) (with_op age_rule OpEquals) demo_ctx).
Proof.
  apply (EvaluateRule_negated_op (H := sample_runtime) age_rule demo_ctx OpEquals OpNotEquals);
    [reflexivity|left].
Defined.

Definition seats_rule : TargetingRule := mkRule "r" "" AttrTier "" "" ["10"] "" "".
Definition seats_ctx : EvaluationContext := mkCtx "alice" "" "" "" "12" "" ∅.

Lemma EvaluateRule_numeric_witness :
  EvaluateRule (H := sample_runtime) (with_op seats_rule OpGreaterThan) seats_ctx
    = f64_ltb (f64_of_Z 10) (f64_of_Z 12) ∧
  EvaluateRule (H := sample_runtime) (with_op seats_rule OpLessThanOrEqual) seats_ctx
    = negb (EvaluateRule (H := sample_runtime) (with_op seats_rule OpGreaterThan) seats_ctx).
Proof.
  pose proof (EvaluateRule_numeric (H := sample_runtime) seats_rule seats_ctx eq_refl) as Hn.
  change (numeric_operands (H := sample_runtime) seats_rule seats_ctx)
    with (Some (f64_of_Z 12, f64_of_Z 10)) in Hn.
  destruct (Hn eq_refl eq_refl) as (Hg & _ & Hle & _). exact (conj Hg Hle).
Defined.

Lemma getOrCompileRegex_transparent_witness :
  (getOrCompileRegex (H := sample_runtime) ∅ "a+").1 = rt_regexp (GoRuntime := sample_runtime) "a+" ∧
  cache_coherent (H := sample_runtime) (getOrCompileRegex (H := sample_runtime) ∅ "a+").2.
Proof. apply (getOrCompileRegex_transparent (H := sample_runtime)). apply map_Forall_empty. Defined.
