(* ===== verification/Diagnostics.v ===== *)
(** * Evaluation with a trace, and the engine's benchmark
    ([EvaluateFlagWithTrace] and [RunBenchmark] of [pkg/engine/evaluator.go])

    The elapsed times both functions report are arguments. *)

From S2P Require Import Prelude GoFloat GoStrings GoTime Errors Domain Engine Buckets EngineFacts.

(** ** Evaluation with a trace *)

Record RuleEvaluationStep := mkStep {
  st_StepIndex : nat;
  st_Name : string;
  st_Passed : bool;
  st_Detail : string;
}.

Record EvaluationTrace := mkTrace {
  et_FlagKey : string;
  et_Environment : Environment;
  et_IdentifierUsed : string;
  et_Steps : list RuleEvaluationStep;
  et_FinalReason : string;
  et_FinalVariant : string;
  et_FinalEnabled : bool;
  et_Bucket : f64;
  et_ElapsedNs : Z;
}.

Section Trace.
Context `{GoRuntime}.

Definition rule_condition_text (rule : TargetingRule) : string :=
  "(" +:+ tr_Attribute rule +:+ " " +:+ tr_Operator rule +:+ " " +:+
  sprint_strings (tr_Values rule) +:+ ")".

Definition rule_match_step (idx : nat) (rule : TargetingRule) : RuleEvaluationStep :=
  mkStep idx ("Targeting Rule Match: " +:+ tr_Name rule) true
    ("Condition matched " +:+ rule_condition_text rule +:+ ". Action: " +:+
     tr_Action rule +:+ ".").

Definition rule_miss_step (idx : nat) (rule : TargetingRule) : RuleEvaluationStep :=
  mkStep idx ("Targeting Rule Check: " +:+ tr_Name rule) false
    ("Did not match context condition " +:+ rule_condition_text rule +:+ ".").

(** The loop over the rules: the steps it appends, the next step index and
    whether a rule matched. *)
Fixpoint trace_rules (ctx : EvaluationContext) (idx : nat) (rules : list TargetingRule)
    : list RuleEvaluationStep * nat * bool :=
  match rules with
  | [] => ([], idx, false)
  | rule :: rules' =>
      if EvaluateRule rule ctx then ([rule_match_step idx rule], idx, true)
      else
        let '(steps, idx', matched) := trace_rules ctx (S idx) rules' in
        (rule_miss_step idx rule :: steps, idx', matched)
  end.

Definition strategy_step (idx : nat) (cfg : EnvironmentConfig) (bucket : f64)
    : RuleEvaluationStep :=
  if ec_Strategy cfg =s? StrategyPercentage then
    mkStep idx "Deterministic FNV-1a Percentage Rollout" (f64_ltb bucket (ec_Percentage cfg))
      ("User sticky bucket #" +:+ FormatFixed 2 bucket +:+
       "% evaluated against rollout threshold " +:+ FormatFixed 1 (ec_Percentage cfg) +:+ "%.")
  else if ec_Strategy cfg =s? StrategyMultivariate then
    mkStep idx "Multivariate Traffic Split" true
      ("User assigned to weighted variant bucket #" +:+ FormatFixed 2 bucket +:+ "%.")
  else mkStep idx "Default Boolean Strategy" true "Standard default boolean rollout applied.".

Definition trace_of (flag : FeatureFlag) (ctx : EvaluationContext)
    (steps : list RuleEvaluationStep) (res : EvaluationResult) (bucket : f64) (elapsed : Z)
    : EvaluationTrace :=
  mkTrace (ff_Key flag) (eval_env ctx) (eval_identifier ctx) steps (er_Reason res)
    (er_Variant res) (er_Enabled res) bucket elapsed.

Definition early_result (flag : FeatureFlag) (variant reason : string) (ns : Z)
    : EvaluationResult :=
  mkResult (ff_Key flag) false variant (AnyBool false) reason "" "" None None "" ns f64_zero.

(** [ns] is the elapsed time the nested [EvaluateFlag] measures, [total] the one
    measured here. *)
Definition EvaluateFlagWithTrace (ns total : Z) (flag : FeatureFlag) (ctx : EvaluationContext)
    : EvaluationResult * EvaluationTrace :=
  let env := eval_env ctx in
  match ff_Environments flag !! env with
  | None =>
      let steps := [mkStep 1 "Environment Configuration Check" false
        ("Environment " +:+ rt_quote env +:+ " is not configured on this flag.")] in
      let res := early_result flag "off" ReasonEnvDisabled total in
      (res, trace_of flag ctx steps res f64_zero (er_EvaluationLatencyNs res))
  | Some cfg =>
      if negb (ec_Enabled cfg) then
        let steps := [mkStep 1 "Master Kill-Switch Check" false
          ("Kill-Switch is engaged in " +:+ env +:+ " environment (Flag is turned OFF).")] in
        let res :=
          early_result flag (or_default (ec_OffVariant cfg) "off") ReasonKillSwitchDisabled total in
        (res, trace_of flag ctx steps res f64_zero (er_EvaluationLatencyNs res))
      else
        let kill := mkStep 1 "Master Kill-Switch Check" true
          ("Flag is active and enabled in " +:+ env +:+ " environment.") in
        let '(steps, idx, matched) := trace_rules ctx 2 (ec_Rules cfg) in
        let res := EvaluateFlag ns flag ctx in
        if matched then (res, trace_of flag ctx (kill :: steps) res f64_zero total)
        else
          let bucket := (GetStickyBucket (eval_identifier ctx) (ff_Key flag)).1 in
          (res, trace_of flag ctx (kill :: steps ++ [strategy_step idx cfg bucket]) res bucket total)
  end.

(** *** Properties *)

Lemma trace_rules_matched ctx idx rules :
  (trace_rules ctx idx rules).2 = bool_decide (is_Some (first_match ctx rules)).
Proof.
  revert idx. induction rules as [|r rules IH]; intros idx; simpl; [done|].
  destruct (EvaluateRule r ctx); [done|].
  specialize (IH (S idx)). by destruct (trace_rules ctx (S idx) rules) as [[steps idx'] m].
Qed.

(** The steps of the rule loop are numbered consecutively, all but the last of
    a match failed, and the index after them is the next one. *)
Lemma trace_rules_numbered ctx idx rules :
  let '(steps, idx', matched) := trace_rules ctx idx rules in
  st_StepIndex <$> steps = seq idx (length steps) ∧
  (matched = false → idx' = (idx + length steps)%nat).
Proof.
  revert idx. induction rules as [|r rules IH]; intros idx; simpl; [split; [done|lia]|].
  destruct (EvaluateRule r ctx); simpl; [done|].
  specialize (IH (S idx)). destruct (trace_rules ctx (S idx) rules) as [[steps idx'] m].
  destruct IH as [Hs Hi]. csimpl. rewrite Hs. split; [done|]. intros Hm. rewrite (Hi Hm). lia.
Qed.

Lemma strategy_step_index idx cfg bucket : st_StepIndex (strategy_step idx cfg bucket) = idx.
Proof. unfold strategy_step. by repeat case_if. Qed.

Lemma EvaluateFlagWithTrace_numbered ns total flag ctx :
  let steps := et_Steps (EvaluateFlagWithTrace ns total flag ctx).2 in
  st_StepIndex <$> steps = seq 1 (length steps).
Proof.
  unfold EvaluateFlagWithTrace. destruct (ff_Environments flag !! eval_env ctx) as [cfg|]; [|done].
  destruct (ec_Enabled cfg); [|done]. cbn [negb].
  pose proof (trace_rules_numbered ctx 2 (ec_Rules cfg)) as Hn.
  destruct (trace_rules ctx 2 (ec_Rules cfg)) as [[steps idx] m]. destruct Hn as [Hs Hi].
  destruct m; cbn [snd trace_of et_Steps].
  - csimpl. by rewrite Hs.
  - rewrite fmap_cons, fmap_app, Hs. simpl. rewrite strategy_step_index, (Hi eq_refl), length_app.
    simpl. rewrite Nat.add_1_r, seq_S. by f_equal.
Qed.

(** A trace tells the truth about the evaluation: whenever the environment
    is configured the traced evaluation gives the same answer as the plain one,
    the trace's summary is that answer, and its steps are numbered 1, 2, 3, ...
    without gaps. *)
Theorem EvaluateFlagWithTrace_faithful ns ns' total flag ctx :
  is_Some (ff_Environments flag !! eval_env ctx) →
  let '(res, tr) := EvaluateFlagWithTrace ns total flag ctx in
  answer res = answer (EvaluateFlag ns' flag ctx) ∧
  et_FinalEnabled tr = er_Enabled res ∧ et_FinalVariant tr = er_Variant res ∧
  et_FinalReason tr = er_Reason res ∧
  st_StepIndex <$> et_Steps tr = seq 1 (length (et_Steps tr)).
Proof.
  intros [cfg Hc]. pose proof (EvaluateFlagWithTrace_numbered ns total flag ctx) as Hn.
  assert (∀ n, answer (EvaluateFlag n flag ctx) = answer (EvaluateFlag ns' flag ctx)) as Hns.
  { intros n. apply Decides_answer, EvaluateFlag_decides. }
  destruct (EvaluateFlagWithTrace ns total flag ctx) as [res tr] eqn:E. simpl in Hn.
  revert E. unfold EvaluateFlagWithTrace. rewrite Hc.
  destruct (ec_Enabled cfg) eqn:He; simpl.
  - destruct (trace_rules _ _ _) as [[steps idx] m]. destruct m; intros [= <- <-]; auto.
  - intros [= <- <-]. split_and!; try done.
    unfold EvaluateFlag, eval_config. rewrite Hc. simpl. by rewrite He.
Qed.

(** For an environment the flag does not configure, the two evaluators
    agree that the flag is off but report different reasons. *)
Theorem EvaluateFlagWithTrace_unconfigured ns ns' total flag ctx :
  ff_Environments flag !! eval_env ctx = None →
  er_Enabled (EvaluateFlagWithTrace ns total flag ctx).1 = er_Enabled (EvaluateFlag ns' flag ctx) ∧
  er_Reason (EvaluateFlagWithTrace ns total flag ctx).1 = ReasonEnvDisabled ∧
  er_Reason (EvaluateFlag ns' flag ctx) = ReasonKillSwitchDisabled.
Proof.
  intros Hc. unfold EvaluateFlagWithTrace, EvaluateFlag, eval_config. by rewrite Hc.
Qed.

End Trace.

(** ** The benchmark *)

(** [math.Max] and [math.Min]. *)
Definition f64_max (x y : f64) : f64 :=
  match x, y with
  | S754_infinity false, _ | _, S754_infinity false => S754_infinity false
  | S754_nan, _ | _, S754_nan => S754_nan
  | S754_zero true, S754_zero _ => y
  | S754_zero _, S754_zero _ => x
  | _, _ => if f64_ltb y x then x else y
  end.

Definition f64_min (x y : f64) : f64 :=
  match x, y with
  | S754_infinity true, _ | _, S754_infinity true => S754_infinity true
  | S754_nan, _ | _, S754_nan => S754_nan
  | S754_zero true, S754_zero _ => x
  | S754_zero _, S754_zero _ => y
  | _, _ => if f64_ltb x y then x else y
  end.

Record BenchmarkMetrics := mkMetrics {
  bm_Iterations : Z;
  bm_TotalDurationMs : f64;
  bm_OpsPerSec : Z;
  bm_P50Ns : Z;
  bm_P90Ns : Z;
  bm_P99Ns : Z;
  bm_P999Ns : Z;
  bm_MinNs : Z;
  bm_MaxNs : Z;
  bm_AvgNs : Z;
  bm_HashBuckets : list Z;
}.

Section Benchmark.
Context `{GoRuntime}.

Definition bench_clamp (iterations : Z) : Z :=
  let iterations := if (iterations <? 500)%Z then 500%Z else iterations in
  if (100000 <? iterations)%Z then 100000%Z else iterations.

Definition bench_uid (i : Z) : string := "bench_usr_" +:+ Itoa (Z.rem i 25000).

Definition bench_ctx (env : Environment) (i : Z) : EvaluationContext :=
  let email :=
    if (Z.rem i 4 =? 0)%Z then "test_" +:+ Itoa i +:+ "@flagura.dev"
    else "test_" +:+ Itoa i +:+ "@example.com" in
  let country := if negb (Z.rem i 2 =? 0)%Z then "DE" else "US" in
  let tier := if (Z.rem i 10 =? 0)%Z then "enterprise" else "free" in
  mkCtx (bench_uid i) email country "" tier env ∅.

Definition bucket_index (b : f64) : Z :=
  f64_trunc (f64_min (f64_of_Z 99) (f64_max (f64_of_Z 0) (f64_floor b))).

(** The bucket an iteration counts. *)
Definition bench_bucket (flag : FeatureFlag) (env : Environment) (ns i : Z) : f64 :=
  match er_BucketVal (EvaluateFlag ns flag (bench_ctx env i)) with
  | Some b => b
  | None => (GetStickyBucket (bench_uid i) (ff_Key flag)).1
  end.

Definition bench_count (flag : FeatureFlag) (env : Environment) (dur : Z → Z)
    (buckets : list Z) (i : Z) : list Z :=
  alter (Z.add 1) (Z.to_nat (bucket_index (bench_bucket flag env (dur i) i))) buckets.

Definition insert_sorted (x : Z) : list Z → list Z :=
  fix go l := match l with
    | [] => [x]
    | y :: l' => if (x <=? y)%Z then x :: l else y :: go l'
    end.

Definition sort_ints (l : list Z) : list Z := foldr insert_sorted [] l.

(** The histogram of the run. *)
Definition bench_histogram (flag : FeatureFlag) (env : Environment) (iterations : Z)
    (dur : Z → Z) : list Z :=
  foldl (bench_count flag env dur) (replicate 100 0%Z) (seqZ 0 (bench_clamp iterations)).

(** [dur i] is the time measured for iteration [i] and [total] the one for the
    whole run.  [None] is the panic of an index out of range. *)
Definition RunBenchmark (flag : FeatureFlag) (env : Environment) (iterations : Z)
    (dur : Z → Z) (total : Duration) : option BenchmarkMetrics :=
  let n := bench_clamp iterations in
  let runs := seqZ 0 n in
  let buckets := bench_histogram flag env iterations dur in
  let latencies := sort_ints (dur <$> runs) in
  let at_ratio (a b : Z) :=
    latencies !! Z.to_nat (f64_trunc (f64_mul (f64_of_Z n) (f64_ratio a b))) in
  p50 ← at_ratio 50%Z 100%Z; p90 ← at_ratio 90%Z 100%Z; p99 ← at_ratio 99%Z 100%Z;
  p999 ← at_ratio 999%Z 1000%Z;
  minNs ← latencies !! 0%nat; maxNs ← latencies !! Z.to_nat (n - 1);
  let sum := foldl (λ s l, wrap_i64 (s + l)) 0%Z latencies in
  Some (mkMetrics n (f64_div (f64_of_Z (Z.quot total 1000)) (f64_of_Z 1000))
    (if f64_ltb f64_zero (Seconds total)
     then f64_trunc (f64_div (f64_of_Z n) (Seconds total)) else 0%Z)
    p50 p90 p99 p999 minNs maxNs (Z.quot sum n) buckets).

(** *** Properties *)

Lemma bucket_index_slots :
  check_range (λ n, bucket_index (FloatOps.Prim2SF (PrimFloat.div (Hardware.hw n) (Hardware.hw 100)))
    =? n / 100)%Z (100 * 100) 0 = true.
Proof. vm_compute. reflexivity. Qed.

Lemma bucket_index_slot n : (0 ≤ n < 10000)%Z → bucket_index (bucket_of_slot n) = (n / 100)%Z.
Proof.
  intros Hn. pose proof (check_range_spec _ _ _ bucket_index_slots n ltac:(lia)) as Hb.
  cbv beta in Hb. rewrite Hardware.hw_div, !Hardware.hw_of_Z in Hb by lia.
  rewrite bucket_of_slot_exact by done. by apply Z.eqb_eq.
Qed.

Lemma ResolveMultivariateVariant_bucket vs identifier key :
  ∃ n, (0 ≤ n < 10000)%Z ∧ (ResolveMultivariateVariant vs identifier key).1.2 = bucket_of_slot n.
Proof.
  unfold ResolveMultivariateVariant. destruct (last vs).
  - exists (sticky_slot identifier (key +:+ ":multivariate")). split; [auto with flagura|].
    rewrite GetStickyBucket_slot. by destruct (pick_variant _ _ _ _).
  - exists 0%Z. split; [lia|]. reflexivity.
Qed.

Lemma bench_bucket_slot flag env ns i :
  ∃ n, (0 ≤ n < 10000)%Z ∧ bench_bucket flag env ns i = bucket_of_slot n.
Proof.
  unfold bench_bucket.
  assert (∃ n, (0 ≤ n < 10000)%Z ∧
    (GetStickyBucket (bench_uid i) (ff_Key flag)).1 = bucket_of_slot n) as Hs.
  { exists (sticky_slot (bench_uid i) (ff_Key flag)). split; [auto with flagura|done]. }
  unfold EvaluateFlag. case_if; [done|].
  destruct (first_match _ _).
  { unfold rule_result. by repeat case_if. }
  repeat case_if; [| |done].
  - unfold percentage_result. rewrite GetStickyBucket_slot. simpl.
    eexists. split; [|done]. auto with flagura.
  - unfold multivariate_result.
    destruct (ResolveMultivariateVariant_bucket
      (ec_Variants (eval_config flag (bench_ctx env i)))
      (eval_identifier (bench_ctx env i)) (ff_Key flag)) as (n & Hn & Hb).
    destruct (ResolveMultivariateVariant _ _ _) as [[v b] h]. simpl in *. eauto.
Qed.

Lemma Zsum_alter l k : (k < length l)%nat → Zsum (alter (Z.add 1) k l) = (1 + Zsum l)%Z.
Proof.
  revert k. induction l as [|x l IH]; intros [|k] Hk; simpl in Hk; [lia..|simpl; lia|].
  change (x + Zsum (alter (Z.add 1) k l) = 1 + (x + Zsum l))%Z. rewrite IH by lia. lia.
Qed.

Lemma bench_count_total flag env dur buckets i :
  length buckets = 100%nat →
  length (bench_count flag env dur buckets i) = 100%nat ∧
  Zsum (bench_count flag env dur buckets i) = (1 + Zsum buckets)%Z.
Proof.
  intros Hl. unfold bench_count. split; [by rewrite length_alter|].
  apply Zsum_alter. rewrite Hl.
  destruct (bench_bucket_slot flag env (dur i) i) as (n & Hn & ->).
  rewrite bucket_index_slot by done.
  assert (0 ≤ n / 100 < 100)%Z by (split; [apply Z.div_pos|apply Z.div_lt_upper_bound]; lia).
  lia.
Qed.

Lemma bench_counts_total flag env dur runs buckets :
  length buckets = 100%nat →
  let b := foldl (bench_count flag env dur) buckets runs in
  length b = 100%nat ∧ Zsum b = (Zsum buckets + Z.of_nat (length runs))%Z.
Proof.
  revert buckets. induction runs as [|i runs IH]; intros buckets Hl; simpl; [split; [done|lia]|].
  destruct (bench_count_total flag env dur buckets i Hl) as [Hl' Hs].
  destruct (IH _ Hl') as [HL HS]. split; [done|]. rewrite HS, Hs. lia.
Qed.

(** The benchmark runs between 500 and 100,000 iterations, and its histogram
    has a hundred cells that together count every iteration once, so no bucket
    falls outside the array. *)
Theorem bench_histogram_total flag env iterations dur :
  (500 ≤ bench_clamp iterations ≤ 100000)%Z ∧
  length (bench_histogram flag env iterations dur) = 100%nat ∧
  Zsum (bench_histogram flag env iterations dur) = bench_clamp iterations.
Proof.
  assert (500 ≤ bench_clamp iterations ≤ 100000)%Z as Hn.
  { unfold bench_clamp. repeat case_if; simp_bool; lia. }
  split; [done|].
  destruct (bench_counts_total flag env dur (seqZ 0 (bench_clamp iterations))
    (replicate 100 0%Z) eq_refl) as [HL HS].
  split; [done|]. unfold bench_histogram. rewrite HS, length_seqZ. simpl. lia.
Qed.

(** The percentiles are read inside the sorted latencies. *)
Definition ratio_inside (n : Z) : bool :=
  forallb (λ '(a, b), let i := f64_trunc (FloatOps.Prim2SF
      (PrimFloat.mul (Hardware.hw n) (PrimFloat.div (Hardware.hw a) (Hardware.hw b)))) in
      (0 <=? i)%Z && (i <? n)%Z)
    [(50, 100); (90, 100); (99, 100); (999, 1000)]%Z.

Lemma ratios_inside : check_range (λ k, check_range ratio_inside 1000 (1 + k * 1000)) 100 0 = true.
Proof. vm_compute. reflexivity. Qed.

Lemma ratio_index_inside n a b :
  (1 ≤ n ≤ 100000)%Z → (a, b) ∈ [(50, 100); (90, 100); (99, 100); (999, 1000)]%Z →
  (0 ≤ f64_trunc (f64_mul (f64_of_Z n) (f64_ratio a b)) < n)%Z.
Proof.
  intros Hn Hab.
  pose proof (check_range_spec _ _ _ ratios_inside ((n - 1) / 1000)%Z) as Hk. cbv beta in Hk.
  pose proof (Z.div_mod (n - 1) 1000 ltac:(lia)) as Hdm. pose proof (Z.mod_pos_bound (n - 1) 1000 ltac:(lia)).
  assert (ratio_inside n = true) as Hr.
  { apply (check_range_spec _ _ _ (Hk ltac:(lia))). lia. }
  unfold ratio_inside in Hr. rewrite forallb_forall in Hr.
  specialize (Hr (a, b) (proj1 (list_elem_of_In _ _) Hab)). cbv beta iota zeta in Hr.
  assert (0 ≤ a < 2 ^ 62 ∧ 0 ≤ b < 2 ^ 62)%Z as [Ha Hb].
  { clear -Hab. set_unfold in Hab. destruct_or! Hab; simplify_eq; by split. }
  clear Hk Hdm. rewrite Hardware.hw_mul, Hardware.hw_div, !Hardware.hw_of_Z in Hr by (clear Hr; lia).
  unfold f64_ratio. apply andb_true_iff in Hr as [?%Z.leb_le ?%Z.ltb_lt]. lia.
Qed.

Lemma insert_sorted_length x l : length (insert_sorted x l) = S (length l).
Proof. induction l as [|y l IH]; [done|]. cbn. case_if; cbn; [done|]. f_equal. exact IH. Qed.

Lemma sort_ints_length l : length (sort_ints l) = length l.
Proof.
  unfold sort_ints. induction l as [|x l IH]; [done|]. cbn [foldr length]. by rewrite insert_sorted_length, IH.
Qed.

(** The benchmark returns, whatever was measured: no percentile is looked up
    outside the latencies, for any number of iterations asked for. *)
Theorem RunBenchmark_returns flag env iterations dur total :
  ∃ m, RunBenchmark flag env iterations dur total = Some m ∧ bm_Iterations m = bench_clamp iterations ∧
    bm_HashBuckets m = bench_histogram flag env iterations dur.
Proof.
  destruct (bench_histogram_total flag env iterations dur) as [Hn _].
  unfold RunBenchmark. set (n := bench_clamp iterations) in *. set (ls := sort_ints _).
  assert (length ls = Z.to_nat n) as Hl by (unfold ls; by rewrite sort_ints_length, length_fmap, length_seqZ).
  assert (∀ i, (0 ≤ i < n)%Z → ∃ v, ls !! Z.to_nat i = Some v) as Hin.
  { intros i Hi. apply lookup_lt_is_Some. lia. }
  assert (∀ a b, (a, b) ∈ [(50, 100); (90, 100); (99, 100); (999, 1000)]%Z →
    ∃ v, ls !! Z.to_nat (f64_trunc (f64_mul (f64_of_Z n) (f64_ratio a b))) = Some v) as Hr.
  { intros a b Hab. apply Hin, ratio_index_inside; [lia|done]. }
  destruct (Hr 50 100)%Z as [v1 E1]; [by repeat constructor|]. destruct (Hr 90 100)%Z as [v2 E2]; [by repeat constructor|].
  destruct (Hr 99 100)%Z as [v3 E3]; [by repeat constructor|]. destruct (Hr 999 1000)%Z as [v4 E4]; [by repeat constructor|].
  destruct (Hin 0%Z) as [v5 E5]; [lia|]. destruct (Hin (n - 1)%Z) as [v6 E6]; [lia|].
  cbn zeta. rewrite E1; cbn. rewrite E2; cbn. rewrite E3; cbn. rewrite E4; cbn.
  change (Z.to_nat 0) with 0%nat in E5. rewrite E5; cbn. rewrite E6; cbn. by eexists.
Qed.

End Benchmark.

(** ** Instances *)

Lemma EvaluateFlagWithTrace_faithful_witness :
  let '(res, tr) :=
    EvaluateFlagWithTrace (H := sample_runtime) 0 1 (demo_flag (rollout_demo 30)) demo_ctx in
  answer res = answer (EvaluateFlag (H := sample_runtime) 2 (demo_flag (rollout_demo 30)) demo_ctx) ∧
  et_FinalEnabled tr = er_Enabled res ∧ et_FinalVariant tr = er_Variant res ∧
  et_FinalReason tr = er_Reason res ∧
  st_StepIndex <$> et_Steps tr = seq 1 (length (et_Steps tr)).
Proof.
  apply (EvaluateFlagWithTrace_faithful (H := sample_runtime) 0 2 1 (demo_flag (rollout_demo 30))
    demo_ctx).
  by exists (rollout_demo 30).
Defined.
