(* ===== verification/SdkEngine.v ===== *)
(** * Local evaluation in the Go SDK ([sdks/go/models.go], [sdks/go/evaluator.go])

    The SDK has data types and an evaluator of its own.  The theorems relate it
    to the server's: where the two agree on a rollout and where they do not. *)

From S2P Require Import Prelude GoFloat GoStrings GoTime Errors Domain Engine Buckets EngineFacts.

(** ** Data *)

Record SdkVariant := mkSdkVariant {
  sv_Key : string;
  sv_Value : GoAny;
  sv_Weight : Z;
  sv_Description : string;
}.

Record RuleCondition := mkCondition {
  rc_Attribute : string;
  rc_Operator : string;
  rc_Value : GoAny;
}.

Record SdkRule := mkSdkRule {
  sr_ID : string;
  sr_Description : string;
  sr_Conditions : list RuleCondition;
  sr_Variant : string;
  sr_Value : GoAny;
  sr_Enabled : bool;
}.

Record SdkEnvConfig := mkSdkEnvConfig {
  se_Enabled : bool;
  se_Strategy : string;
  se_Percentage : Z;
  se_Rules : list SdkRule;
  se_DefaultVariant : string;
  se_DefaultValue : GoAny;
}.

Record SdkFlag := mkSdkFlag {
  sf_ID : string;
  sf_ProjectID : string;
  sf_Key : string;
  sf_Name : string;
  sf_Description : string;
  sf_Type : string;
  sf_Tags : list string;
  sf_Variants : list SdkVariant;
  sf_Environments : gmap string SdkEnvConfig;
  sf_CreatedAt : Time;
  sf_UpdatedAt : Time;
}.

Record SdkContext := mkSdkContext {
  sc_UserID : string;
  sc_Email : string;
  sc_Country : string;
  sc_Role : string;
  sc_Tier : string;
  sc_Environment : string;
  sc_Custom : gmap string GoAny;
}.

Record SdkResult := mkSdkResult {
  sx_FlagKey : string;
  sx_Enabled : bool;
  sx_Variant : string;
  sx_Value : GoAny;
  sx_Reason : string;
  sx_Bucket : f64;
  sx_EvaluationLatencyNs : Z;
  sx_EvaluationLatencyUs : f64;
}.

(** ** The evaluator *)

Definition sdk_GetStickyBucket (identifier salt : string) : f64 :=
  let combined := identifier +:+ ":" +:+ salt in
  let hash := FNV1a64 combined in
  let slot := f64_of_Z (hash mod 10000) in
  f64_div (f64_round (f64_mul (f64_div slot (f64_of_Z 100)) (f64_of_Z 100))) (f64_of_Z 100).

Section SdkEval.
Context `{GoRuntime}.

(** [fmt.Sprintf("%v", v)]. *)
Definition sprint_any (v : GoAny) : string :=
  match v with
  | AnyNil => "<nil>"
  | AnyString s => s
  | AnyStringer t => t
  | AnyBool b => if b then "true" else "false"
  | AnyInt z | AnyInt64 z => Itoa z
  | AnyFloat64 x => rt_sprint_float x
  | AnyOther t => t
  end.

Definition condition_target (cond : RuleCondition) (ctx : SdkContext) : GoAny :=
  let a := ToLower (rc_Attribute cond) in
  if (a =s? "user_id") || (a =s? "userid") then AnyString (sc_UserID ctx)
  else if a =s? "email" then AnyString (sc_Email ctx)
  else if a =s? "country" then AnyString (sc_Country ctx)
  else if a =s? "role" then AnyString (sc_Role ctx)
  else if a =s? "tier" then AnyString (sc_Tier ctx)
  else default AnyNil (sc_Custom ctx !! rc_Attribute cond).

Definition sdk_numeric (cmp : f64 → f64 → bool) (strTarget strExpected : string) : bool :=
  match rt_parse_float strTarget, rt_parse_float strExpected with
  | Some tNum, Some eNum => cmp tNum eNum
  | _, _ => false
  end.

Definition op_in (op : string) (names : list string) : bool := existsb (str_eqb op) names.

Definition EvaluateCondition (cond : RuleCondition) (ctx : SdkContext) : bool :=
  let targetVal := condition_target cond ctx in
  match targetVal with
  | AnyNil => false
  | _ =>
      let strTarget := toStringFast targetVal in
      let strExpected := toStringFast (rc_Value cond) in
      let op := ToUpper (rc_Operator cond) in
      if op_in op ["EQUALS"; "EQ"; "=="] then strTarget =s? strExpected
      else if op_in op ["NOT_EQUALS"; "NEQ"; "!="] then negb (strTarget =s? strExpected)
      else if op =s? "CONTAINS" then Contains strTarget strExpected
      else if op =s? "NOT_CONTAINS" then negb (Contains strTarget strExpected)
      else if op =s? "STARTS_WITH" then HasPrefix strTarget strExpected
      else if op =s? "ENDS_WITH" then HasSuffix strTarget strExpected
      else if op =s? "IN" then existsb (λ p, TrimSpace p =s? strTarget) (Split strExpected ",")
      else if op =s? "NOT_IN" then
        negb (existsb (λ p, TrimSpace p =s? strTarget) (Split strExpected ","))
      else if op_in op ["MATCHES_REGEX"; "REGEX"] then
        match rt_regexp (sprint_any (rc_Value cond)) with
        | None => false
        | Some matches => matches (sprint_any targetVal)
        end
      else if op_in op ["GREATER_THAN"; "GT"; ">"] then
        sdk_numeric (λ a b, f64_ltb b a) strTarget strExpected
      else if op_in op ["GREATER_THAN_OR_EQUAL"; "GTE"; ">="] then
        sdk_numeric (λ a b, f64_leb b a) strTarget strExpected
      else if op_in op ["LESS_THAN"; "LT"; "<"] then sdk_numeric f64_ltb strTarget strExpected
      else if op_in op ["LESS_THAN_OR_EQUAL"; "LTE"; "<="] then
        sdk_numeric f64_leb strTarget strExpected
      else false
  end.

Definition sdk_env (ctx : SdkContext) : string := or_default (sc_Environment ctx) EnvProduction.
Definition sdk_identifier (ctx : SdkContext) : string := or_default (sc_UserID ctx) "anonymous".

Definition rule_matches (ctx : SdkContext) (rule : SdkRule) : bool :=
  forallb (λ cond, EvaluateCondition cond ctx) (sr_Conditions rule).

Fixpoint sdk_pick_variant (bucket cumulative : f64) (vs : list SdkVariant) : option SdkVariant :=
  match vs with
  | [] => None
  | v :: vs' =>
      let cumulative := f64_add cumulative (f64_of_Z (sv_Weight v)) in
      if f64_ltb bucket cumulative then Some v else sdk_pick_variant bucket cumulative vs'
  end.

(** [Evaluate]; [ns] is the elapsed time it measures. *)
Definition Evaluate (ns : Z) (flag : SdkFlag) (ctx : SdkContext) : SdkResult :=
  let res enabled variant value reason bucket :=
    mkSdkResult (sf_Key flag) enabled variant value reason bucket ns (latency_us ns) in
  match sf_Environments flag !! sdk_env ctx with
  | None => res false "" AnyNil "ENVIRONMENT_NOT_FOUND" f64_zero
  | Some cfg =>
      if negb (se_Enabled cfg) then res false "" AnyNil "FLAG_DISABLED" f64_zero
      else if se_Strategy cfg =s? StrategyBoolean then
        res true "" AnyNil "STRATEGY_BOOLEAN" f64_zero
      else if se_Strategy cfg =s? StrategyPercentage then
        let bucket := sdk_GetStickyBucket (sdk_identifier ctx) (sf_Key flag) in
        let enabled := f64_ltb bucket (f64_of_Z (se_Percentage cfg)) in
        res enabled "" AnyNil
          (if enabled then "PERCENTAGE_ROLLOUT_INCLUDED" else "PERCENTAGE_ROLLOUT_EXCLUDED") bucket
      else if se_Strategy cfg =s? StrategyRules then
        match list_find (λ r, rule_matches ctx r = true) (se_Rules cfg) with
        | Some (_, rule) =>
            res (sr_Enabled rule) (sr_Variant rule) (sr_Value rule)
              ("RULE_MATCH: " +:+ sr_ID rule) f64_zero
        | None =>
            res false (se_DefaultVariant cfg) (se_DefaultValue cfg) "RULES_DEFAULT_FALLBACK" f64_zero
        end
      else if se_Strategy cfg =s? StrategyMultivariate then
        let bucket := sdk_GetStickyBucket (sdk_identifier ctx) (sf_Key flag) in
        match sdk_pick_variant bucket f64_zero (sf_Variants flag) with
        | Some v => res true (sv_Key v) (sv_Value v) "MULTIVARIATE_MATCH" bucket
        | None =>
            res true (se_DefaultVariant cfg) (se_DefaultValue cfg) "MULTIVARIATE_FALLBACK" bucket
        end
      else res true "" AnyNil "DEFAULT_ENABLED" f64_zero
  end.

(** ** Agreement with the server *)

Lemma sdk_bucket_server identifier salt :
  sdk_GetStickyBucket identifier salt = (GetStickyBucket identifier salt).1.
Proof. reflexivity. Qed.

(** The SDK's flag is the server's flag as far as a percentage rollout goes. *)
Definition same_rollout (sdk : SdkFlag) (server : FeatureFlag) (env : string) : Prop :=
  sf_Key sdk = ff_Key server ∧
  ∃ scfg cfg, sf_Environments sdk !! env = Some scfg ∧ ff_Environments server !! env = Some cfg ∧
    se_Enabled scfg = true ∧ ec_Enabled cfg = true ∧ ec_Rules cfg = [] ∧
    se_Strategy scfg = StrategyPercentage ∧ ec_Strategy cfg = StrategyPercentage ∧
    ec_Percentage cfg = f64_of_Z (se_Percentage scfg).

(** For an identified caller, a percentage rollout evaluated in the SDK and
    on the server gives the same decision and the same bucket. *)
Theorem sdk_percentage_agrees ns ns' sdk server sctx ctx :
  sc_UserID sctx ≠ "" → ctx_UserID ctx = sc_UserID sctx →
  ctx_Environment ctx = sc_Environment sctx →
  same_rollout sdk server (sdk_env sctx) →
  sx_Enabled (Evaluate ns sdk sctx) = er_Enabled (EvaluateFlag ns' server ctx) ∧
  Some (sx_Bucket (Evaluate ns sdk sctx)) = er_BucketVal (EvaluateFlag ns' server ctx).
Proof.
  intros Hid Hu He (Hk & scfg & cfg & Hs & Hc & Hse & Hce & Hr & Hss & Hcs & Hp).
  rewrite (EvaluateFlag_percentage ns' server ctx cfg).
  - unfold Evaluate. rewrite Hs, Hse, Hss. simpl.
    unfold percentage_result, eval_identifier, sdk_identifier.
    rewrite Hu, !(or_default_nonempty (sc_UserID sctx)) by done.
    rewrite sdk_bucket_server, Hk, Hp. by rewrite GetStickyBucket_slot.
  - unfold reaches_strategy, eval_env, no_rule. rewrite He. split_and!; [done..| |done].
    rewrite Hr. intros r Hr'. by apply elem_of_nil in Hr'.
Qed.

(** A whole-percentage rollout in the SDK admits exactly the slots below
    [100*k], like the server's. *)
Theorem sdk_percentage_exact ns flag ctx cfg k :
  sf_Environments flag !! sdk_env ctx = Some cfg → se_Enabled cfg = true →
  se_Strategy cfg = StrategyPercentage → se_Percentage cfg = k → (0 ≤ k ≤ 100)%Z →
  sx_Enabled (Evaluate ns flag ctx)
  = (sticky_slot (sdk_identifier ctx) (sf_Key flag) <? 100 * k)%Z.
Proof.
  intros Hc He Hs Hp Hk. unfold Evaluate. rewrite Hc, He, Hs. simpl.
  rewrite Hp, sdk_bucket_server, GetStickyBucket_slot. simpl.
  apply bucket_lt_whole; auto with flagura.
Qed.

End SdkEval.

(** ** Where they differ *)

(** A split in two halves, as the server and as the SDK see it. *)
Definition halves_cfg : EnvironmentConfig :=
  zero_EnvironmentConfig <| ec_Enabled := true |> <| ec_Strategy := StrategyMultivariate |>
    <| ec_Variants := [mkVariant "a" "" (AnyBool true) (f64_of_Z 50) "";
                       mkVariant "b" "" (AnyBool true) (f64_of_Z 50) ""] |>.

Definition halves_flag : FeatureFlag :=
  zero_FeatureFlag <| ff_Key := "split" |>
    <| ff_Environments := {[ EnvProduction := halves_cfg ]} |>.

Definition halves_sdk_flag : SdkFlag :=
  mkSdkFlag "" "" "split" "" "" "" []
    [mkSdkVariant "a" (AnyBool true) 50 ""; mkSdkVariant "b" (AnyBool true) 50 ""]
    {[ EnvProduction := mkSdkEnvConfig true StrategyMultivariate 0 [] "" AnyNil ]} time_zero time_zero.

Definition user_ctx (u : string) : EvaluationContext := mkCtx u "" "" "" "" "" ∅.
Definition user_sdk_ctx (u : string) : SdkContext := mkSdkContext u "" "" "" "" "" ∅.

Definition rollout60_flag : FeatureFlag :=
  zero_FeatureFlag <| ff_Key := "beta" |>
    <| ff_Environments := {[ EnvProduction :=
         zero_EnvironmentConfig <| ec_Enabled := true |> <| ec_Strategy := StrategyPercentage |>
           <| ec_Percentage := f64_of_Z 60 |> ]} |>.

Definition rollout60_sdk_flag : SdkFlag :=
  mkSdkFlag "" "" "beta" "" "" "" [] []
    {[ EnvProduction := mkSdkEnvConfig true StrategyPercentage 60 [] "" AnyNil ]}
    time_zero time_zero.

(** The SDK and the server put the same caller in different variants of the
    same split (their salts differ), and decide the same rollout differently
    for an anonymous caller (their identifiers differ). *)
Theorem sdk_server_divergence `{GoRuntime} ns :
  (er_Variant (EvaluateFlag ns halves_flag (user_ctx "u1")) = "a" ∧
   sx_Variant (Evaluate ns halves_sdk_flag (user_sdk_ctx "u1")) = "b") ∧
  (er_Enabled (EvaluateFlag ns rollout60_flag (user_ctx "")) = false ∧
   sx_Enabled (Evaluate ns rollout60_sdk_flag (user_sdk_ctx "")) = true).
Proof. split; split; vm_compute; reflexivity. Qed.

(** ** Instances *)

Lemma sdk_percentage_agrees_witness :
  sx_Enabled (Evaluate (H := sample_runtime) 0 rollout60_sdk_flag (user_sdk_ctx "u1"))
    = er_Enabled (EvaluateFlag (H := sample_runtime) 0 rollout60_flag (user_ctx "u1")) ∧
  Some (sx_Bucket (Evaluate (H := sample_runtime) 0 rollout60_sdk_flag (user_sdk_ctx "u1")))
    = er_BucketVal (EvaluateFlag (H := sample_runtime) 0 rollout60_flag (user_ctx "u1")).
Proof.
  apply (sdk_percentage_agrees (H := sample_runtime) 0 0 rollout60_sdk_flag rollout60_flag
    (user_sdk_ctx "u1") (user_ctx "u1")); [done..|].
  split; [done|]. eexists _, _. split_and!; reflexivity.
Defined.
