(* ===== verification/Entities.v ===== *)
(** * Users, tenants, change requests, canaries and experiments ([pkg/domain])

    The records of [user.go], [workspace.go], [canary.go], [oidc.go],
    [experiment.go], [health.go] and [audit.go] with their methods.  A pointer
    that the code uses as an optional value is an [option]; a clock reading is
    an argument. *)

From S2P Require Import Prelude GoFloat GoStrings GoTime Sha256 Errors Domain.

(** ** Members and users *)

Record OrgMember := mkMember {
  om_ID : string;
  om_OrganizationID : string;
  om_UserID : string;
  om_Role : string;
  om_CreatedAt : Time;
}.

#[export] Instance eta_OrgMember : Eta OrgMember :=
  {| eta_expand r := mkMember (om_ID r) (om_OrganizationID r) (om_UserID r) (om_Role r) (om_CreatedAt r) |}.

Record User := mkUser {
  us_ID : string;
  us_Email : string;
  us_PasswordHash : string;
  us_Name : string;
  us_Role : UserRole;
  us_AvatarURL : string;
  us_CreatedAt : Time;
  us_UpdatedAt : Time;
  us_ActiveMembership : option OrgMember;
}.

#[export] Instance eta_User : Eta User :=
  {| eta_expand r := mkUser (us_ID r) (us_Email r) (us_PasswordHash r) (us_Name r) (us_Role r) (us_AvatarURL
       r) (us_CreatedAt r) (us_UpdatedAt r) (us_ActiveMembership r) |}.

(** [EffectiveRole] and [IsPrivileged]; [None] is the nil receiver. *)
Definition EffectiveRole (u : option User) : string :=
  match u with
  | None => ""
  | Some u =>
      if us_Role u =s? RoleAdmin then "admin"
      else
        match us_ActiveMembership u with
        | Some m => if negb (om_Role m =s? "") then om_Role m else us_Role u
        | None => us_Role u
        end
  end.

Definition IsPrivileged (u : option User) : bool :=
  match u with
  | None => false
  | Some _ => let role := EffectiveRole u in (role =s? "owner") || (role =s? "admin")
  end.

Record Session := mkSession {
  ss_Token : string;
  ss_UserID : string;
  ss_User : option User;
  ss_ExpiresAt : Time;
  ss_CreatedAt : Time;
}.

#[export] Instance eta_Session : Eta Session :=
  {| eta_expand r := mkSession (ss_Token r) (ss_UserID r) (ss_User r) (ss_ExpiresAt r) (ss_CreatedAt r) |}.

(** The three [IsExpired] methods are [time.Now().After(ExpiresAt)]. *)
Definition Session_IsExpired (now : Time) (s : Session) : bool := After now (ss_ExpiresAt s).

Record APIKey := mkAPIKey {
  ak_ID : string;
  ak_ProjectID : string;
  ak_Environment : string;
  ak_Key : string;
  ak_KeyPrefix : string;
  ak_KeyHash : string;
  ak_Name : string;
  ak_Role : UserRole;
  ak_CreatedBy : string;
  ak_CreatedAt : Time;
  ak_LastUsedAt : option Time;
  ak_Revoked : bool;
}.

#[export] Instance eta_APIKey : Eta APIKey :=
  {| eta_expand r := mkAPIKey (ak_ID r) (ak_ProjectID r) (ak_Environment r) (ak_Key r) (ak_KeyPrefix r)
       (ak_KeyHash r) (ak_Name r) (ak_Role r) (ak_CreatedBy r) (ak_CreatedAt r) (ak_LastUsedAt
       r) (ak_Revoked r) |}.

(** [AllowsEnvironment]; the nil key (a session instead of a key) is not
    restricted. *)
Definition AllowsEnvironment (k : option APIKey) (env : Environment) : bool :=
  match k with
  | None => true
  | Some k =>
      if (ak_Environment k =s? "") || (ak_Environment k =s? "all") || (ak_Environment k =s? "*")
      then true
      else ak_Environment k =s? env
  end.

Record PasswordResetToken := mkResetToken {
  pr_Token : string;
  pr_Email : string;
  pr_ExpiresAt : Time;
  pr_Used : bool;
  pr_CreatedAt : Time;
}.

#[export] Instance eta_PasswordResetToken : Eta PasswordResetToken :=
  {| eta_expand r := mkResetToken (pr_Token r) (pr_Email r) (pr_ExpiresAt r) (pr_Used r) (pr_CreatedAt r) |}.

Definition ResetToken_IsExpired (now : Time) (t : PasswordResetToken) : bool :=
  After now (pr_ExpiresAt t).

(** ** Organizations and projects *)

Record Organization := mkOrg {
  og_ID : string;
  og_Name : string;
  og_Slug : string;
  og_Description : string;
  og_CreatedAt : Time;
  og_UpdatedAt : Time;
}.

#[export] Instance eta_Organization : Eta Organization :=
  {| eta_expand r := mkOrg (og_ID r) (og_Name r) (og_Slug r) (og_Description r) (og_CreatedAt r)
       (og_UpdatedAt r) |}.

Record Project := mkProject {
  pj_ID : string;
  pj_OrganizationID : string;
  pj_ConfigVersion : Z;
  pj_Name : string;
  pj_Slug : string;
  pj_Description : string;
  pj_CreatedAt : Time;
  pj_UpdatedAt : Time;
}.

#[export] Instance eta_Project : Eta Project :=
  {| eta_expand r := mkProject (pj_ID r) (pj_OrganizationID r) (pj_ConfigVersion r) (pj_Name r) (pj_Slug r)
       (pj_Description r) (pj_CreatedAt r) (pj_UpdatedAt r) |}.

Record OrgInvitation := mkInvitation {
  iv_ID : string;
  iv_OrganizationID : string;
  iv_OrgName : string;
  iv_Email : string;
  iv_Token : string;
  iv_Role : string;
  iv_InvitedBy : string;
  iv_ExpiresAt : Time;
  iv_AcceptedAt : option Time;
  iv_CreatedAt : Time;
}.

#[export] Instance eta_OrgInvitation : Eta OrgInvitation :=
  {| eta_expand r := mkInvitation (iv_ID r) (iv_OrganizationID r) (iv_OrgName r) (iv_Email r) (iv_Token r)
       (iv_Role r) (iv_InvitedBy r) (iv_ExpiresAt r) (iv_AcceptedAt r) (iv_CreatedAt r) |}.

Definition Invitation_IsExpired (now : Time) (i : OrgInvitation) : bool := After now (iv_ExpiresAt i).

Definition IsAccepted (i : OrgInvitation) : bool :=
  match iv_AcceptedAt i with Some _ => true | None => false end.

Record OIDCConfig := mkOIDC {
  oc_OrganizationID : string;
  oc_Enabled : bool;
  oc_IssuerURL : string;
  oc_ClientID : string;
  oc_ClientSecret : string;
  oc_AllowedDomains : string;
  oc_DefaultRole : string;
  oc_CreatedAt : Time;
  oc_UpdatedAt : Time;
}.

#[export] Instance eta_OIDCConfig : Eta OIDCConfig :=
  {| eta_expand r := mkOIDC (oc_OrganizationID r) (oc_Enabled r) (oc_IssuerURL r) (oc_ClientID r)
       (oc_ClientSecret r) (oc_AllowedDomains r) (oc_DefaultRole r) (oc_CreatedAt r)
       (oc_UpdatedAt r) |}.

(** ** Identifiers and constructors ([id.go]) *)

Section Constructors.
Context `{GoRuntime}.

(** [NewID]: one read of the random source and one of the clock. *)
Definition NewID (sys : Sys) (prefix : string) : string :=
  prefix +:+ "_" +:+ Itoa (sys_now sys 0) +:+ "_" +:+ str_take 8 (sys_rand sys 0).

Definition is_slug_byte (c : ascii) : bool :=
  let b := byte_val c in
  ((97 <=? b)%Z && (b <=? 122)%Z) || ((48 <=? b)%Z && (b <=? 57)%Z).

Definition is_slug_separator (c : ascii) : bool :=
  let b := byte_val c in (b =? 32)%Z || (b =? 45)%Z || (b =? 95)%Z.

(** The loop of [Slugify].  It ranges over runes; a rune outside ASCII is
    dropped, and so are the bytes of its encoding, which are all above 127. *)
Fixpoint slug_go (s result : string) : string :=
  match s with
  | EmptyString => result
  | String c s' =>
      if is_slug_byte c then slug_go s' (result +:+ String c EmptyString)
      else if is_slug_separator c then
        if (0 <? String.length result)%nat && negb (HasSuffix result "-")
        then slug_go s' (result +:+ "-") else slug_go s' result
      else slug_go s' result
  end.

Definition Slugify (name : string) : string :=
  let res := Trim (slug_go (ToLower (TrimSpace name)) "") "-" in
  if res =s? "" then "default" else res.

Definition NewOrganization (sys : Sys) (name slug description : string) : Organization :=
  let now := sys_now sys 0 in
  let slug := if slug =s? "" then Slugify name else slug in
  mkOrg (NewID (sys_after 1 0 sys) "org") (TrimSpace name) slug (TrimSpace description) now now.

Definition NewProject (sys : Sys) (orgID name slug description : string) : Project :=
  let now := sys_now sys 0 in
  let orgID := or_default orgID DefaultOrgID in
  let slug := if slug =s? "" then Slugify name else slug in
  mkProject (NewID (sys_after 1 0 sys) "proj") orgID 0 (TrimSpace name) slug (TrimSpace description) now now.

Definition NewUser (sys : Sys) (email name passwordHash : string) (role : UserRole) : User :=
  let now := sys_now sys 0 in
  let role := or_default role RoleDeveloper in
  mkUser (NewID (sys_after 1 0 sys) "usr") (TrimSpace (ToLower email)) passwordHash (TrimSpace name) role "" now now
    None.

(** [IsDomainAllowed]; [None] is the nil receiver. *)
Definition IsDomainAllowed (c : option OIDCConfig) (email : string) : bool :=
  match c with
  | None => true
  | Some c =>
      if TrimSpace (oc_AllowedDomains c) =s? "" then true
      else
        match Split email "@" with
        | [_; d] =>
            let domain := ToLower (TrimSpace d) in
            existsb (λ a, ToLower (TrimPrefix (TrimSpace a) "@") =s? domain)
              (Split (oc_AllowedDomains c) ",")
        | _ => false
        end
  end.

End Constructors.

(** ** Change requests *)

Abbreviation ChangeRequestStatus := string.
Definition ChangeRequestStatusPending : ChangeRequestStatus := "PENDING".
Definition ChangeRequestStatusApproved : ChangeRequestStatus := "APPROVED".
Definition ChangeRequestStatusRejected : ChangeRequestStatus := "REJECTED".
Definition ChangeRequestStatusApplied : ChangeRequestStatus := "APPLIED".

Record ChangeRequest := mkCR {
  cr_ID : string;
  cr_ProjectID : string;
  cr_FlagKey : string;
  cr_Environment : Environment;
  cr_Title : string;
  cr_Description : string;
  cr_AuthorUserID : string;
  cr_AuthorEmail : string;
  cr_AuthorName : string;
  cr_ProposedConfig : EnvironmentConfig;
  cr_BaseConfigVersion : Z;
  cr_Status : ChangeRequestStatus;
  cr_ReviewerUserID : string;
  cr_ReviewerEmail : string;
  cr_ReviewerName : string;
  cr_ReviewComments : string;
  cr_CreatedAt : Time;
  cr_ReviewedAt : option Time;
  cr_AppliedAt : option Time;
}.

#[export] Instance eta_ChangeRequest : Eta ChangeRequest :=
  {| eta_expand r := mkCR (cr_ID r) (cr_ProjectID r) (cr_FlagKey r) (cr_Environment r) (cr_Title r)
       (cr_Description r) (cr_AuthorUserID r) (cr_AuthorEmail r) (cr_AuthorName r)
       (cr_ProposedConfig r) (cr_BaseConfigVersion r) (cr_Status r) (cr_ReviewerUserID r)
       (cr_ReviewerEmail r) (cr_ReviewerName r) (cr_ReviewComments r) (cr_CreatedAt r)
       (cr_ReviewedAt r) (cr_AppliedAt r) |}.

(** [Review] mutates its receiver: the new value, or the error that leaves it
    alone. *)
Definition Review (now : Time) (cr : ChangeRequest)
    (reviewerID reviewerEmail reviewerName : string) (approved : bool) (comments : string)
    : result GoError ChangeRequest :=
  if negb (cr_Status cr =s? ChangeRequestStatusPending) then
    Err (EText "cannot review non-pending change request")
  else if cr_AuthorUserID cr =s? reviewerID then Err (ESentinel ErrFourEyesSelfApproval)
  else
    Ok (cr <| cr_ReviewerUserID := reviewerID |> <| cr_ReviewerEmail := reviewerEmail |>
           <| cr_ReviewerName := reviewerName |> <| cr_ReviewComments := comments |>
           <| cr_ReviewedAt := Some now |>
           <| cr_Status :=
                if approved then ChangeRequestStatusApproved else ChangeRequestStatusRejected |>).

(** ** Canary schedules *)

Abbreviation CanaryStatus := string.
Definition CanaryStatusActive : CanaryStatus := "ACTIVE".
Definition CanaryStatusPaused : CanaryStatus := "PAUSED".
Definition CanaryStatusCompleted : CanaryStatus := "COMPLETED".
Definition CanaryStatusRolledBack : CanaryStatus := "ROLLED_BACK".
Definition CanaryStatusNeedsAttention : CanaryStatus := "NEEDS_ATTENTION".

Record CanaryStage := mkStage {
  cg_Index : Z;
  cg_TargetPercentage : f64;
  cg_DurationSec : Z;
  cg_StartedAt : Time;
  cg_CompletedAt : Time;
}.

#[export] Instance eta_CanaryStage : Eta CanaryStage :=
  {| eta_expand r := mkStage (cg_Index r) (cg_TargetPercentage r) (cg_DurationSec r) (cg_StartedAt r)
       (cg_CompletedAt r) |}.

Record CanaryGuardrails := mkGuardrails {
  gr_MaxErrorRatePct : f64;
  gr_MaxP99LatencyMs : f64;
  gr_AutoRollback : bool;
  gr_AlertWebhookURL : string;
}.

Record CanarySchedule := mkSchedule {
  cs_ID : string;
  cs_ProjectID : string;
  cs_FlagKey : string;
  cs_Environment : Environment;
  cs_Status : CanaryStatus;
  cs_CurrentStageIdx : nat;
  cs_Stages : list CanaryStage;
  cs_Guardrails : CanaryGuardrails;
  cs_RollbackReason : string;
  cs_CreatedAt : Time;
  cs_UpdatedAt : Time;
  cs_LastEvaluatedAt : Time;
}.

#[export] Instance eta_CanarySchedule : Eta CanarySchedule :=
  {| eta_expand r := mkSchedule (cs_ID r) (cs_ProjectID r) (cs_FlagKey r) (cs_Environment r) (cs_Status r)
       (cs_CurrentStageIdx r) (cs_Stages r) (cs_Guardrails r) (cs_RollbackReason r)
       (cs_CreatedAt r) (cs_UpdatedAt r) (cs_LastEvaluatedAt r) |}.

(** [CanAdvanceStage]: whether the stage is over, the next stage and whether
    this completes the rollout.  ([CurrentStageIdx] is never negative.) *)
Definition CanAdvanceStage (cs : CanarySchedule) (now : Time) : bool * option CanaryStage * bool :=
  if negb (cs_Status cs =s? CanaryStatusActive) then (false, None, false)
  else
    match cs_Stages cs !! cs_CurrentStageIdx cs with
    | None => (false, None, false)
    | Some currentStage =>
        let elapsedSec := Seconds (time_sub now (cg_StartedAt currentStage)) in
        if f64_leb (f64_of_Z (cg_DurationSec currentStage)) elapsedSec then
          match cs_Stages cs !! S (cs_CurrentStageIdx cs) with
          | None => (true, None, true)
          | Some next => (true, Some next, false)
          end
        else (false, None, false)
    end.

Definition CommitStageAdvancement (cs : CanarySchedule) (now : Time) : CanarySchedule :=
  match cs_Stages cs !! cs_CurrentStageIdx cs with
  | None => cs
  | Some currentStage =>
      let i := cs_CurrentStageIdx cs in
      let stages := <[i := currentStage <| cg_CompletedAt := now |>]> (cs_Stages cs) in
      let cs := cs <| cs_Stages := stages |> <| cs_CurrentStageIdx := S i |>
                   <| cs_UpdatedAt := now |> in
      match stages !! S i with
      | None => cs <| cs_Status := CanaryStatusCompleted |>
      | Some next => cs <| cs_Stages := <[S i := next <| cg_StartedAt := now |>]> stages |>
      end
  end.

(** [NextStage] returns a pointer into the schedule's own stages, so the stage
    it reports is the one after the update. *)
Definition NextStage (cs : CanarySchedule) (now : Time)
    : CanarySchedule * (bool * option CanaryStage) :=
  let '(canAdvance, next, isComp) := CanAdvanceStage cs now in
  if negb canAdvance then (cs, (false, None))
  else
    let cs' := CommitStageAdvancement cs now in
    if isComp then (cs', (false, None))
    else (cs', (true, cs_Stages cs' !! S (cs_CurrentStageIdx cs))).

(** ** Experiment events *)

Record ExperimentEvent := mkEvent {
  ev_ID : string;
  ev_ProjectID : string;
  ev_FlagKey : string;
  ev_Variant : string;
  ev_MetricName : string;
  ev_EventType : string;
  ev_Value : f64;
  ev_UserID : string;
  ev_Environment : Environment;
  ev_Timestamp : Time;
}.

#[export] Instance eta_ExperimentEvent : Eta ExperimentEvent :=
  {| eta_expand r := mkEvent (ev_ID r) (ev_ProjectID r) (ev_FlagKey r) (ev_Variant r) (ev_MetricName r)
       (ev_EventType r) (ev_Value r) (ev_UserID r) (ev_Environment r) (ev_Timestamp r) |}.

(** ** Flag health *)

Definition HealthStatusActive : string := "ACTIVE".
Definition HealthStatusStale : string := "READY_FOR_CLEANUP".
Definition HealthStatusDead : string := "DEAD_FLAG".

Record FlagHealthReport := mkHealth {
  fh_Status : string;
  fh_IsStale : bool;
  fh_Reason : string;
  fh_SuggestedAction : string;
}.

(** The loop that looks for another enabled environment stops at the first one:
    its answer does not depend on the order of the map. *)
Definition other_env_active (flag : FeatureFlag) : bool :=
  existsb (λ ec, negb (ec.1 =s? EnvProduction) && ec_Enabled ec.2)
    (map_to_list (ff_Environments flag)).

Definition updated_within (now : Time) (flag : FeatureFlag) (d : Duration) : bool :=
  negb (IsZero (ff_UpdatedAt flag)) && (time_sub now (ff_UpdatedAt flag) <? d)%Z.

Definition is_full_rollout (cfg : EnvironmentConfig) : bool :=
  ((ec_Strategy cfg =s? StrategyPercentage) && f64_leb (f64_of_Z 100) (ec_Percentage cfg) &&
   (length (ec_Rules cfg) =? 0)%nat) ||
  ((ec_Strategy cfg =s? StrategyBoolean) && (length (ec_Rules cfg) =? 0)%nat).

Definition AnalyzeFlagHealth (now : Time) (flag : FeatureFlag) : FlagHealthReport :=
  match ff_Environments flag !! EnvProduction with
  | None =>
      mkHealth HealthStatusActive false "Flag has no production environment configuration"
        "Configure production environment rules"
  | Some prodEnv =>
      if negb (ec_Enabled prodEnv) then
        if updated_within now flag (14 * 24 * Hour) then
          let reason := "Kill-switch recently engaged in production; confirm this was intentional before taking action" in
          let reason :=
            if other_env_active flag then reason +:+ " (other environments are still enabled)"
            else reason in
          mkHealth HealthStatusActive false reason
            "Recently disabled — confirm incident response resolution before decommissioning flag."
        else if other_env_active flag then
          mkHealth HealthStatusDead true
            "Kill-switch engaged in production for 14+ days, but other environments are still active"
            "Confirm feature is cancelled across all environments before deleting flag."
        else
          mkHealth HealthStatusDead true
            "Kill-switch is engaged in production (0% traffic for 14+ days)"
            "If this feature was cancelled, remove the code branch and delete this flag."
      else if is_full_rollout prodEnv then
        if updated_within now flag (7 * 24 * Hour) then
          mkHealth HealthStatusActive false
            "100% rolled out to production (within 7-day bake period)"
            "Allow bake period to conclude before removing code branch from repository."
        else
          mkHealth HealthStatusStale true
            "100% rolled out to all users in production with no custom rules"
            "Feature is fully launched. Clean up flag check in your codebase to eliminate technical debt."
      else
        mkHealth HealthStatusActive false
          "Actively evaluating traffic splits or custom targeting rules"
          "Monitor canary health and increment percentage when confident."
  end.

(** ** Audit entries ([audit.go]) *)

Definition AuditGenesisHash : string := "GENESIS".

Record AuditIntegrityResult := mkIntegrity {
  ai_Valid : bool;
  ai_TotalVerified : nat;
  ai_HeadHash : string;
  ai_VerifiedAt : Time;
  ai_BrokenEntryID : string;
  ai_ErrorMessage : string;
}.

(** The text [ComputeAuditEntryHash] hashes. *)
Definition audit_payload (prevHash : string) (entry : AuditLogEntry) : string :=
  or_default prevHash AuditGenesisHash +:+ "|" +:+ al_ID entry +:+ "|" +:+ al_ProjectID entry +:+
  "|" +:+ al_FlagKey entry +:+ "|" +:+ al_Action entry +:+ "|" +:+ al_Environment entry +:+
  "|" +:+ al_Actor entry +:+ "|" +:+ al_Details entry +:+ "|" +:+
  FormatRFC3339Nano (al_Timestamp entry).

Definition ComputeAuditEntryHash (prevHash : string) (entry : AuditLogEntry) : string :=
  sha256_hex (audit_payload prevHash entry).
