(* ===== verification/StoreState.v ===== *)
(** * The in-memory store: its state ([pkg/store/memory.go])

    [FlagSnapshot] is the immutable view readers load atomically; [MemoryStore]
    holds it together with the tables.  The snapshot pointer is never nil:
    [NewMemoryStore] stores one and every later store replaces it, so the nil
    branches of the code are unreachable and the model has no such value.

    An operation takes the outside world and the store and returns the new store
    with Go's results; each runs under the store's locks, so it is one step.
    Where the code ranges over a map and the order can show in the result, the
    order is an argument. *)

From S2P Require Import Prelude GoFloat GoStrings GoTime Sha256 Errors Domain Entities.

Record FlagSnapshot := mkSnapshot {
  sn_flagsMap : gmap string FeatureFlag;
  sn_flagsList : list FeatureFlag;
}.

(** A copy of a flag as the snapshot keeps it. *)
Definition snapshot_flag (f : FeatureFlag) : FeatureFlag :=
  let fCopy := DeepCopy f in
  let fCopy :=
    if ff_ProjectID fCopy =s? "" then fCopy <| ff_ProjectID := DefaultProjectID |> else fCopy in
  if (ff_ConfigVersion fCopy =? 0)%Z then fCopy <| ff_ConfigVersion := 1%Z |> else fCopy.

(** The entries one flag adds to the map. *)
Definition snapshot_index (m : gmap string FeatureFlag) (fCopy : FeatureFlag)
    : gmap string FeatureFlag :=
  let m := <[ff_ProjectID fCopy +:+ ":" +:+ ff_Key fCopy := fCopy]> m in
  if negb (ff_ID fCopy =s? "") then
    <[ff_ID fCopy := fCopy]> (<[ff_ProjectID fCopy +:+ ":" +:+ ff_ID fCopy := fCopy]> m)
  else m.

Definition newFlagSnapshot (flags : list FeatureFlag) : FlagSnapshot :=
  let copies := snapshot_flag <$> flags in
  mkSnapshot (foldl snapshot_index ∅ copies) copies.

Record MemoryStore := mkStore {
  ms_flagsSnapshot : FlagSnapshot;
  ms_orgs : gmap string Organization;
  ms_projects : gmap string Project;
  ms_orgMembers : gmap string OrgMember;
  ms_orgInvitations : gmap string OrgInvitation;
  ms_auditLogs : list AuditLogEntry;
  ms_events : list ExperimentEvent;
  ms_users : gmap string User;
  ms_sessions : gmap string Session;
  ms_changeRequests : gmap string ChangeRequest;
  ms_apiKeys : gmap string APIKey;
  ms_apiKeysByHash : gmap string string;
  ms_passwordResetTokens : gmap string PasswordResetToken;
  ms_canarySchedules : gmap string CanarySchedule;
  ms_oidcConfigs : gmap string OIDCConfig;
  ms_auditAnchors : gmap string string;
}.

#[export] Instance eta_MemoryStore : Eta MemoryStore :=
  {| eta_expand r := mkStore (ms_flagsSnapshot r) (ms_orgs r) (ms_projects r) (ms_orgMembers r)
       (ms_orgInvitations r) (ms_auditLogs r) (ms_events r) (ms_users r) (ms_sessions r)
       (ms_changeRequests r) (ms_apiKeys r) (ms_apiKeysByHash r) (ms_passwordResetTokens r)
       (ms_canarySchedules r) (ms_oidcConfigs r) (ms_auditAnchors r) |}.

Definition NewMemoryStore : MemoryStore :=
  mkStore (newFlagSnapshot []) ∅ ∅ ∅ ∅ [] [] ∅ ∅ ∅ ∅ ∅ ∅ ∅ ∅ ∅.

Definition flags_of (s : MemoryStore) : list FeatureFlag := sn_flagsList (ms_flagsSnapshot s).

Lemma snapshot_flag_project f :
  ff_ProjectID (snapshot_flag f) = or_default (ff_ProjectID f) DefaultProjectID.
Proof.
  unfold snapshot_flag, or_default. rewrite DeepCopy_id.
  by destruct (ff_ProjectID f =s? ""); simpl; case_if.
Qed.

Lemma snapshot_flag_key f : ff_Key (snapshot_flag f) = ff_Key f.
Proof. unfold snapshot_flag. rewrite DeepCopy_id. by repeat case_if. Qed.

Lemma snapshot_flag_id f : ff_ID (snapshot_flag f) = ff_ID f.
Proof. unfold snapshot_flag. rewrite DeepCopy_id. by repeat case_if. Qed.

Lemma snapshot_flag_envs f : ff_Environments (snapshot_flag f) = ff_Environments f.
Proof. unfold snapshot_flag. rewrite DeepCopy_id. by repeat case_if. Qed.

(** A flag that went through a snapshot once is kept as it is. *)
Definition normal_flag (f : FeatureFlag) : Prop := ff_ProjectID f ≠ "" ∧ ff_ConfigVersion f ≠ 0%Z.

Lemma snapshot_flag_normal f : normal_flag (snapshot_flag f).
Proof.
  unfold normal_flag. rewrite snapshot_flag_project. split; [by apply or_default_neq_empty|].
  unfold snapshot_flag. rewrite DeepCopy_id.
  repeat case_if; simpl in *; simp_bool; congruence || lia.
Qed.

Lemma snapshot_flag_id_on f : normal_flag f → snapshot_flag f = f.
Proof.
  intros [Hp Hv]. unfold snapshot_flag. rewrite DeepCopy_id.
  rewrite (proj2 (str_eqb_neq _ _) Hp). by rewrite (proj2 (Z.eqb_neq _ _) Hv).
Qed.

Lemma newFlagSnapshot_list flags : sn_flagsList (newFlagSnapshot flags) = snapshot_flag <$> flags.
Proof. reflexivity. Qed.

Lemma newFlagSnapshot_list_normal flags :
  Forall normal_flag flags → sn_flagsList (newFlagSnapshot flags) = flags.
Proof.
  intros Hn. rewrite newFlagSnapshot_list. induction Hn as [|f fs Hf _ IH]; [done|].
  csimpl. by rewrite snapshot_flag_id_on, IH.
Qed.
