(* ===== verification/StoreAudit.v ===== *)
(** * The audit chain of the in-memory store ([pkg/store/memory.go])

    Entries are kept newest first, the entries of all projects interleaved;
    each carries the hash of the previous entry of its project.  The theorems
    show that the operations of the store keep every project's chain valid and
    that a valid chain determines the history it records. *)

From Stdlib Require Import Sorting.Sorted.
From S2P Require Import Prelude GoFloat GoStrings GoTime Sha256 Errors Domain Entities StoreState.

(** ** Operations *)

(** [limit > 0 && len(res) >= limit { break }] in a collecting loop. *)
Definition limited {A} (limit : Z) (l : list A) : list A :=
  if (0 <? limit)%Z then take (Z.to_nat limit) l else l.

Definition ListAuditLogs (s : MemoryStore) (limit : Z) : list AuditLogEntry :=
  let n := Z.of_nat (length (ms_auditLogs s)) in
  let limit := if (limit <=? 0)%Z || (n <? limit)%Z then n else limit in
  take (Z.to_nat limit) (ms_auditLogs s).

Definition project_logs (p : string) (logs : list AuditLogEntry) : list AuditLogEntry :=
  filter (λ e, al_ProjectID e = p) logs.

Definition ListAuditLogsByProject (s : MemoryStore) (projectID : string) (limit : Z)
    : list AuditLogEntry :=
  let projectID := or_default projectID DefaultProjectID in
  limited limit (project_logs projectID (ms_auditLogs s)).

Definition export_selects (p : string) (from to : option Time) (e : AuditLogEntry) : bool :=
  (al_ProjectID e =s? p) &&
  negb (match from with Some t => Before (al_Timestamp e) t | None => false end) &&
  negb (match to with Some t => After (al_Timestamp e) t | None => false end).

Definition ExportAuditLogs (s : MemoryStore) (projectID : string) (from to : option Time)
    (limit : Z) : list AuditLogEntry :=
  let projectID := or_default projectID DefaultProjectID in
  limited limit (filter (λ e, export_selects projectID from to e = true) (ms_auditLogs s)).

(** The hash a project's chain starts from: its anchor, if a purge left one. *)
Definition anchor_of (s : MemoryStore) (p : string) : string :=
  match ms_auditAnchors s !! p with
  | Some anchor => if negb (anchor =s? "") then anchor else AuditGenesisHash
  | None => AuditGenesisHash
  end.

(** The hash a new entry of project [p] is linked to. *)
Definition prev_hash_for (s : MemoryStore) (p : string) : string :=
  match head (project_logs p (ms_auditLogs s)) with
  | Some l => if negb (al_EntryHash l =s? "") then al_EntryHash l else anchor_of s p
  | None => anchor_of s p
  end.

Definition seal_entry (s : MemoryStore) (entry : AuditLogEntry) : AuditLogEntry :=
  if (al_PrevHash entry =s? "") || (al_EntryHash entry =s? "") then
    let prevHash := prev_hash_for s (al_ProjectID entry) in
    let entry := entry <| al_PrevHash := prevHash |> in
    entry <| al_EntryHash := ComputeAuditEntryHash prevHash entry |>
  else entry.

Definition appendAuditLogLocked (now : Time) (s : MemoryStore) (entry : AuditLogEntry)
    : MemoryStore * AuditLogEntry :=
  let entry := entry <| al_ProjectID := or_default (al_ProjectID entry) DefaultProjectID |> in
  let entry := if IsZero (al_Timestamp entry) then entry <| al_Timestamp := now |> else entry in
  let entry := seal_entry s entry in
  match list_find (λ l, al_ID l = al_ID entry ∧ al_ProjectID l = al_ProjectID entry)
          (ms_auditLogs s) with
  | Some (_, l) => (s, l)
  | None => (s <| ms_auditLogs := entry :: ms_auditLogs s |>, entry)
  end.

Definition AppendAuditLog (sys : Sys) (s : MemoryStore) (entry : AuditLogEntry)
    : MemoryStore * AuditLogEntry :=
  appendAuditLogLocked (sys_now sys 0) s entry.

(** The verification loop, from oldest to newest. *)
Fixpoint verify_chain (now : Time) (i : nat) (expectedPrev : string) (chain : list AuditLogEntry)
    : AuditIntegrityResult :=
  match chain with
  | [] => mkIntegrity true i expectedPrev now "" ""
  | entry :: chain' =>
      if (i =? 0)%nat && negb (al_PrevHash entry =s? expectedPrev) &&
         negb (al_PrevHash entry =s? AuditGenesisHash) then
        mkIntegrity false i "" now (al_ID entry)
          ("initial entry prev_hash mismatch: expected " +:+ expectedPrev +:+ ", got " +:+
           al_PrevHash entry)
      else if negb (i =? 0)%nat && negb (al_PrevHash entry =s? expectedPrev) then
        mkIntegrity false i "" now (al_ID entry)
          ("broken chain linkage at entry " +:+ al_ID entry +:+ ": prev_hash " +:+
           al_PrevHash entry +:+ " does not match predecessor " +:+ expectedPrev)
      else
        let computed := ComputeAuditEntryHash (al_PrevHash entry) entry in
        if negb (al_EntryHash entry =s? computed) then
          mkIntegrity false i "" now (al_ID entry)
            ("hash tampering detected at entry " +:+ al_ID entry +:+ ": computed " +:+ computed +:+
             ", stored " +:+ al_EntryHash entry)
        else verify_chain now (S i) (al_EntryHash entry) chain'
  end.

Definition VerifyAuditLogIntegrity (sys : Sys) (s : MemoryStore) (projectID : string)
    : AuditIntegrityResult :=
  let projectID := or_default projectID DefaultProjectID in
  let now := sys_now sys 0 in
  match project_logs projectID (ms_auditLogs s) with
  | [] => mkIntegrity true 0 "" now "" ""
  | entries => verify_chain now 0 (anchor_of s projectID) (reverse entries)
  end.

Definition purged_by (p : string) (before : Time) (e : AuditLogEntry) : bool :=
  (al_ProjectID e =s? p) && Before (al_Timestamp e) before.

Definition PurgeAuditLogs (s : MemoryStore) (projectID : string) (before : Time)
    : MemoryStore * nat :=
  let projectID := or_default projectID DefaultProjectID in
  let purged := filter (λ e, purged_by projectID before e = true) (ms_auditLogs s) in
  let surviving := filter (λ e, purged_by projectID before e = false) (ms_auditLogs s) in
  (* the first purged entry with a hash: later ones find [lastPurgedHash] set *)
  let lastPurgedHash :=
    match list_find (λ e, al_EntryHash e ≠ "") purged with
    | Some (_, e) => al_EntryHash e
    | None => ""
    end in
  let s :=
    if (0 <? length purged)%nat && negb (lastPurgedHash =s? "")
    then s <| ms_auditAnchors := <[projectID := lastPurgedHash]> (ms_auditAnchors s) |>
    else s in
  (s <| ms_auditLogs := surviving |>, length purged).

(** ** Specification: a linked chain, oldest entry first *)

Fixpoint chained (prev : string) (chain : list AuditLogEntry) : Prop :=
  match chain with
  | [] => True
  | e :: chain' =>
      al_PrevHash e = prev ∧ al_EntryHash e = ComputeAuditEntryHash prev e ∧
      chained (al_EntryHash e) chain'
  end.

Definition head_hash (prev : string) (chain : list AuditLogEntry) : string :=
  match last chain with Some e => al_EntryHash e | None => prev end.

(** Project [p]'s chain is linked from its anchor. *)
Definition chain_ok (s : MemoryStore) (p : string) : Prop :=
  chained (anchor_of s p) (reverse (project_logs p (ms_auditLogs s))).

Lemma head_hash_cons prev e chain : head_hash prev (e :: chain) = head_hash (al_EntryHash e) chain.
Proof. unfold head_hash. rewrite last_cons. by destruct (last chain). Qed.

Lemma head_hash_snoc prev e chain : head_hash prev (chain ++ [e]) = al_EntryHash e.
Proof. unfold head_hash. by rewrite last_snoc. Qed.

Lemma chained_app prev c1 c2 :
  chained prev (c1 ++ c2) ↔ chained prev c1 ∧ chained (head_hash prev c1) c2.
Proof.
  revert prev. induction c1 as [|e c1 IH]; intros prev; simpl; [tauto|].
  rewrite IH, head_hash_cons. tauto.
Qed.

Lemma chained_hash_nonempty prev chain e : chained prev chain → e ∈ chain → al_EntryHash e ≠ "".
Proof.
  revert prev. induction chain as [|e' chain IH]; intros prev; simpl.
  - intros _ He. by apply elem_of_nil in He.
  - intros (_ & Hh & Hc) [->|He]%elem_of_cons; [|by eapply IH].
    rewrite Hh. apply sha256_hex_nonempty.
Qed.

(** *** Verification accepts exactly the linked chains *)

Lemma verify_chain_linked now i prev chain :
  chained prev chain →
  verify_chain now i prev chain
  = mkIntegrity true (i + length chain) (head_hash prev chain) now "" "".
Proof.
  revert i prev. induction chain as [|e chain IH]; intros i prev; simpl.
  - intros _. by rewrite Nat.add_0_r.
  - intros (Hp & Hh & Hc). rewrite Hp, str_eqb_refl. simpl. rewrite andb_false_r. simpl.
    rewrite <- Hh, str_eqb_refl, andb_false_r. simpl. rewrite IH by done.
    rewrite head_hash_cons. f_equal. lia.
Qed.

Lemma verify_chain_valid now i prev chain :
  ai_Valid (verify_chain now i prev chain) = true →
  ai_TotalVerified (verify_chain now i prev chain) = (i + length chain)%nat ∧
  ∃ base, (base = prev ∨ i = 0%nat ∧ base = AuditGenesisHash) ∧ chained base chain ∧
    ai_HeadHash (verify_chain now i prev chain)
    = match chain with [] => prev | _ => head_hash base chain end.
Proof.
  revert i prev. induction chain as [|e chain IH]; intros i prev; simpl.
  { intros _. split; [lia|]. exists prev. auto. }
  destruct ((i =? 0)%nat && _ && _) eqn:E1; [done|].
  destruct (negb (i =? 0)%nat && _) eqn:E2; [done|].
  destruct (negb (al_EntryHash e =s? _)) eqn:E3; [done|]. simp_bool.
  intros Hv. destruct (IH _ _ Hv) as [Ht (base & Hb & Hc & Hh)].
  destruct Hb as [->|[? _]]; [|done]. split; [lia|].
  exists (al_PrevHash e). split_and!.
  - destruct (decide (al_PrevHash e = prev)) as [|Hne]; [by left|right].
    rewrite (proj2 (str_eqb_neq _ _) Hne) in E1, E2.
    destruct (i =? 0)%nat eqn:Ei; simpl in E1, E2; [|done].
    apply Nat.eqb_eq in Ei. by simp_bool.
  - done.
  - done.
  - done.
  - rewrite Hh, head_hash_cons. by destruct chain.
Qed.

(** *** Appending *)

Lemma project_logs_cons p e logs :
  project_logs p (e :: logs)
  = if decide (al_ProjectID e = p) then e :: project_logs p logs else project_logs p logs.
Proof. unfold project_logs. by rewrite filter_cons. Qed.

Lemma prev_hash_for_chain s p :
  chain_ok s p →
  prev_hash_for s p = head_hash (anchor_of s p) (reverse (project_logs p (ms_auditLogs s))).
Proof.
  intros Hc. unfold prev_hash_for, head_hash. rewrite last_reverse.
  destruct (head (project_logs p (ms_auditLogs s))) as [l|] eqn:Hl; [|done].
  assert (al_EntryHash l ≠ "") as Hne.
  { eapply chained_hash_nonempty; [exact Hc|]. apply elem_of_reverse.
    by apply head_Some_elem_of. }
  by rewrite (proj2 (str_eqb_neq _ _) Hne).
Qed.

(** An entry the store has still to link: the caller has not supplied both
    hashes. *)
Definition unsealed (e : AuditLogEntry) : Prop := al_PrevHash e = "" ∨ al_EntryHash e = "".

Lemma payload_ignores_hashes prev e a b :
  audit_payload prev (e <| al_PrevHash := a |> <| al_EntryHash := b |>) = audit_payload prev e.
Proof. reflexivity. Qed.

Lemma seal_entry_unsealed s e :
  unsealed e →
  let prev := prev_hash_for s (al_ProjectID e) in
  seal_entry s e = e <| al_PrevHash := prev |>
                     <| al_EntryHash := ComputeAuditEntryHash prev e |>.
Proof.
  intros Hu. unfold seal_entry.
  assert ((al_PrevHash e =s? "") || (al_EntryHash e =s? "") = true) as ->; [|done].
  destruct Hu as [-> | ->]; by rewrite ?orb_true_r.
Qed.

(** The append either finds an entry of the same identity and changes nothing,
    or prepends the linked entry. *)
Lemma appendAuditLogLocked_spec now s e :
  unsealed e →
  let s' := (appendAuditLogLocked now s e).1 in
  s' = s ∨
  ∃ e', s' = s <| ms_auditLogs := e' :: ms_auditLogs s |> ∧
    al_ProjectID e' = or_default (al_ProjectID e) DefaultProjectID ∧
    al_PrevHash e' = prev_hash_for s (al_ProjectID e') ∧
    al_EntryHash e' = ComputeAuditEntryHash (al_PrevHash e') e' ∧
    al_Timestamp e' = (if IsZero (al_Timestamp e) then now else al_Timestamp e).
Proof.
  intros Hu s'. subst s'. unfold appendAuditLogLocked.
  set (e1 := e <| al_ProjectID := _ |>).
  set (e2 := if IsZero (al_Timestamp e1) then _ else _).
  assert (unsealed e2 ∧ al_ProjectID e2 = or_default (al_ProjectID e) DefaultProjectID ∧
    al_Timestamp e2 = (if IsZero (al_Timestamp e) then now else al_Timestamp e)) as (Hu2 & Hp & Ht).
  { subst e2. change (al_Timestamp e1) with (al_Timestamp e).
    by destruct (IsZero (al_Timestamp e)). }
  rewrite (seal_entry_unsealed s e2 Hu2).
  destruct (list_find _ _) as [[i l]|]; [by left|right]. eexists. split; [done|].
  split_and!; [exact Hp|reflexivity|reflexivity|exact Ht].
Qed.

Lemma chain_ok_append now s e p :
  unsealed e → chain_ok s p → chain_ok (appendAuditLogLocked now s e).1 p.
Proof.
  intros Hu Hc. destruct (appendAuditLogLocked_spec now s e Hu)
    as [->|(e' & -> & Hp & Hprev & Hh & _)]; [done|].
  unfold chain_ok in *.
  change (anchor_of (s <| ms_auditLogs := _ |>) p) with (anchor_of s p). simpl.
  rewrite project_logs_cons. destruct (decide (al_ProjectID e' = p)) as [<-|]; [|done].
  rewrite reverse_cons. apply chained_app. split; [done|].
  rewrite prev_hash_for_chain in Hprev by done. simpl. rewrite <- Hprev. auto.
Qed.

(** Appending an entry the store links itself keeps every project's chain
    valid: verification succeeds, covers all entries of the project and
    reports the newest one's hash. *)
Theorem AppendAuditLog_keeps_chain sys sys' s e p :
  unsealed e → p ≠ "" → chain_ok s p →
  let s' := (AppendAuditLog sys s e).1 in
  let r := VerifyAuditLogIntegrity sys' s' p in
  chain_ok s' p ∧ ai_Valid r = true ∧
  ai_TotalVerified r = length (project_logs p (ms_auditLogs s')).
Proof.
  intros Hu Hp Hc s' r. assert (chain_ok s' p) as Hc' by (by apply chain_ok_append).
  split; [done|]. subst r. unfold VerifyAuditLogIntegrity. rewrite or_default_nonempty by done.
  unfold chain_ok in Hc'. destruct (project_logs p (ms_auditLogs s')) as [|e0 l] eqn:El; [done|].
  rewrite verify_chain_linked by done. simpl. split; [done|]. by rewrite length_reverse.
Qed.

(** *** Purging *)

Definition newer_first (a b : AuditLogEntry) : Prop := (al_Timestamp b ≤ al_Timestamp a)%Z.

Lemma purged_by_project p before e :
  al_ProjectID e = p → purged_by p before e = Before (al_Timestamp e) before.
Proof. intros <-. unfold purged_by. by rewrite str_eqb_refl. Qed.

(** In a project's entries, sorted by time, the purged ones come last. *)
Lemma purge_split p before l :
  Forall (λ e, al_ProjectID e = p) l → StronglySorted newer_first l →
  l = filter (λ e, purged_by p before e = false) l ++ filter (λ e, purged_by p before e = true) l.
Proof.
  intros Hp Hs. induction Hs as [|e l Hs IH Hall]; [done|].
  apply Forall_cons in Hp as [He Hp].
  destruct (purged_by p before e) eqn:E.
  - assert (Forall (λ e, purged_by p before e = true) (e :: l)) as Hf.
    { constructor; [done|]. apply Forall_forall. intros e' He'.
      rewrite Forall_forall in Hp, Hall. rewrite purged_by_project by auto.
      rewrite purged_by_project in E by done. specialize (Hall _ He').
      unfold Before, newer_first in *. simp_bool. apply Z.ltb_lt. lia. }
    rewrite (list_filter_none (λ e, purged_by p before e = false)),
      (list_filter_all (λ e, purged_by p before e = true)); [done|done|].
    eapply Forall_impl; [exact Hf|]. simpl. congruence.
  - rewrite (filter_cons_True (λ e, purged_by p before e = false)),
      (filter_cons_False (λ e, purged_by p before e = true)) by congruence. simpl. f_equal. by apply IH.
Qed.

Lemma project_logs_filter p (P : AuditLogEntry → bool) b logs :
  project_logs p (filter (λ e, P e = b) logs) = filter (λ e, P e = b) (project_logs p logs).
Proof. unfold project_logs. rewrite !list_filter_filter. apply list_filter_iff. tauto. Qed.

Lemma project_logs_Forall p logs : Forall (λ e, al_ProjectID e = p) (project_logs p logs).
Proof. apply Forall_forall. intros e He%list_elem_of_filter. tauto. Qed.

Lemma purge_other_project p q before logs :
  p ≠ q → project_logs q (filter (λ e, purged_by p before e = false) logs) = project_logs q logs.
Proof.
  intros Hpq. rewrite project_logs_filter. apply list_filter_all.
  eapply Forall_impl; [apply project_logs_Forall|]. intros e He. simpl in He.
  unfold purged_by. by rewrite (proj2 (str_eqb_neq (al_ProjectID e) p)) by congruence.
Qed.

Lemma purged_are_of_project p before logs :
  filter (λ e, purged_by p before e = true) logs
  = filter (λ e, purged_by p before e = true) (project_logs p logs).
Proof.
  unfold project_logs. rewrite list_filter_filter. apply list_filter_iff.
  intros e. split; [|tauto]. intros He. split; [done|].
  unfold purged_by in He. by simp_bool.
Qed.

Lemma chain_ok_purge_other s p q before :
  or_default p DefaultProjectID ≠ q → chain_ok s q → chain_ok (PurgeAuditLogs s p before).1 q.
Proof.
  intros Hpq Hc. unfold chain_ok, PurgeAuditLogs in *. simpl.
  rewrite purge_other_project by done.
  match goal with |- chained ?a _ => replace a with (anchor_of s q); [done|] end.
  case_if; [|done]. unfold anchor_of. simpl. by rewrite lookup_insert_ne.
Qed.

Lemma chain_ok_purge_same s p before :
  p ≠ "" → StronglySorted newer_first (project_logs p (ms_auditLogs s)) →
  chain_ok s p → chain_ok (PurgeAuditLogs s p before).1 p.
Proof.
  intros Hp Hs Hc. unfold chain_ok, PurgeAuditLogs in *. rewrite or_default_nonempty by done.
  rewrite purged_are_of_project.
  pose proof (purge_split p before _ (project_logs_Forall p _) Hs) as Hsplit.
  set (live := filter (λ e, purged_by p before e = false) (project_logs p (ms_auditLogs s))) in *.
  set (gone := filter (λ e, purged_by p before e = true) (project_logs p (ms_auditLogs s))) in *.
  rewrite Hsplit, reverse_app in Hc. apply chained_app in Hc as [Hgone Hlive].
  cbn [fst ms_auditLogs update_field]. rewrite project_logs_filter. fold live.
  destruct gone as [|e gone'] eqn:Eg.
  - simpl. exact Hlive.
  - assert (al_EntryHash e ≠ "") as Hne.
    { eapply chained_hash_nonempty; [exact Hgone|]. apply elem_of_reverse. by left. }
    replace (list_find (λ e, al_EntryHash e ≠ "") (e :: gone')) with (Some (0%nat, e))
      by (simpl; by rewrite decide_True).
    rewrite (proj2 (str_eqb_neq _ _) Hne). simpl.
    rewrite reverse_cons in Hlive. unfold head_hash in Hlive. rewrite last_snoc in Hlive.
    unfold anchor_of. simpl. rewrite lookup_insert_eq.
    by rewrite (proj2 (str_eqb_neq _ _) Hne).
Qed.

(** Purging old entries keeps every project's chain valid, provided the
    entries of the purged project were recorded in the order of their
    timestamps: the remaining entries are linked to the anchor the purge
    leaves behind. *)
Theorem PurgeAuditLogs_keeps_chain s p q before :
  p ≠ "" → StronglySorted newer_first (project_logs p (ms_auditLogs s)) →
  chain_ok s q → chain_ok (PurgeAuditLogs s p before).1 q.
Proof.
  intros Hp Hs Hc. destruct (decide (p = q)) as [<-|Hne]; [by apply chain_ok_purge_same|].
  apply chain_ok_purge_other; [|done]. by rewrite or_default_nonempty.
Qed.

(** ** Tamper evidence *)

(** Two different texts with the same SHA-256 digest. *)
Definition sha256_collision : Prop := ∃ x y : string, x ≠ y ∧ sha256_hex x = sha256_hex y.

(** No field before the details contains the separator of the hashed text. *)
Definition clean (e : AuditLogEntry) : Prop :=
  Forall (λ s, str_mem "|" s = false)
    [al_PrevHash e; al_ID e; al_ProjectID e; al_FlagKey e; al_Action e; al_Environment e;
     al_Actor e].

(** The two entries say the same. *)
Record same_content (e e' : AuditLogEntry) : Prop := {
  sc_id : al_ID e = al_ID e';
  sc_project : al_ProjectID e = al_ProjectID e';
  sc_flag : al_FlagKey e = al_FlagKey e';
  sc_action : al_Action e = al_Action e';
  sc_env : al_Environment e = al_Environment e';
  sc_actor : al_Actor e = al_Actor e';
  sc_details : al_Details e = al_Details e';
  sc_time : FormatRFC3339Nano (al_Timestamp e) = FormatRFC3339Nano (al_Timestamp e');
}.

Lemma or_default_no_bar s d :
  str_mem "|" s = false → str_mem "|" d = false → str_mem "|" (or_default s d) = false.
Proof. unfold or_default. by case_if. Qed.

Lemma audit_payload_inj e e' :
  clean e → clean e' →
  audit_payload (al_PrevHash e) e = audit_payload (al_PrevHash e') e' →
  or_default (al_PrevHash e) AuditGenesisHash = or_default (al_PrevHash e') AuditGenesisHash ∧
  same_content e e'.
Proof.
  intros Hc Hc'. unfold clean in *. rewrite !Forall_cons in Hc, Hc'.
  destruct Hc as (H0 & H1 & H2 & H3 & H4 & H5 & H6 & _).
  destruct Hc' as (H0' & H1' & H2' & H3' & H4' & H5' & H6' & _).
  unfold audit_payload. intros H.
  apply str_join_inj_l in H as [? H]; [|by apply or_default_no_bar..].
  apply str_join_inj_l in H as [? H]; [|done..].
  apply str_join_inj_l in H as [? H]; [|done..].
  apply str_join_inj_l in H as [? H]; [|done..].
  apply str_join_inj_l in H as [? H]; [|done..].
  apply str_join_inj_l in H as [? H]; [|done..].
  apply str_join_inj_l in H as [? H]; [|done..].
  apply str_join_inj_r in H as [? H]; [|apply FormatRFC3339Nano_no_bar..].
  by repeat split.
Qed.

Lemma same_hash_same_payload prev prev' e e' :
  ComputeAuditEntryHash prev e = ComputeAuditEntryHash prev' e' →
  audit_payload prev e = audit_payload prev' e' ∨ sha256_collision.
Proof.
  intros Hh. destruct (decide (audit_payload prev e = audit_payload prev' e')) as [|Hne]; [by left|].
  right. by exists (audit_payload prev e), (audit_payload prev' e').
Qed.

Lemma head_hash_nonempty base c :
  chained base c → base ≠ "" → head_hash base c ≠ "".
Proof.
  intros Hc Hb. unfold head_hash. destruct (last c) as [e|] eqn:E; [|done].
  eapply chained_hash_nonempty; [exact Hc|]. apply last_Some in E as [l ->].
  apply elem_of_app. right. by left.
Qed.

Lemma chained_determined base base' c c' :
  base ≠ "" → base' ≠ "" →
  chained base c → chained base' c' → length c = length c' →
  Forall clean c → Forall clean c' → head_hash base c = head_hash base' c' →
  Forall2 same_content c c' ∨ sha256_collision.
Proof.
  intros Hb Hb'. revert c'. induction c as [|e c IH] using rev_ind; intros c'.
  { intros _ _ Hl. destruct c'; [|done]. left. constructor. }
  destruct c' as [|e' c' _] using rev_ind; [rewrite length_app; simpl; lia|].
  rewrite !chained_app, !length_app, !Forall_app, !head_hash_snoc.
  intros (Hc & Hp & Hh & _) (Hc' & Hp' & Hh' & _) Hl [Hcl He] [Hcl' He'] Hhead.
  rewrite Forall_singleton in He, He'. simpl in Hl.
  rewrite Hh, Hh', <- Hp, <- Hp' in Hhead.
  destruct (same_hash_same_payload _ _ _ _ Hhead) as [Hpay|]; [|by right].
  apply audit_payload_inj in Hpay as [Hprev Hsame]; [|done..].
  rewrite Hp, Hp', !or_default_nonempty in Hprev by (by apply head_hash_nonempty).
  destruct (IH c') as [|]; [done|done|lia|done|done|done| |by right].
  left. apply Forall2_app; [done|]. by constructor.
Qed.

Lemma anchor_of_nonempty s p : anchor_of s p ≠ "".
Proof.
  unfold anchor_of. destruct (ms_auditAnchors s !! p) as [a|]; [|done].
  case_if; [|done]. by simp_bool.
Qed.

Lemma Verify_valid_chained sys s p :
  p ≠ "" → ai_Valid (VerifyAuditLogIntegrity sys s p) = true →
  project_logs p (ms_auditLogs s) ≠ [] →
  ∃ base, base ≠ "" ∧ chained base (reverse (project_logs p (ms_auditLogs s))) ∧
    ai_HeadHash (VerifyAuditLogIntegrity sys s p)
    = head_hash base (reverse (project_logs p (ms_auditLogs s))).
Proof.
  intros Hp. unfold VerifyAuditLogIntegrity. rewrite or_default_nonempty by done.
  destruct (project_logs p (ms_auditLogs s)) as [|e l]; [done|]. intros Hv _.
  destruct (verify_chain_valid _ _ _ _ Hv) as [_ (base & Hb & Hc & Hh)].
  exists base. split_and!; [|done|].
  - destruct Hb as [-> | [_ ->]]; [apply anchor_of_nonempty|done].
  - rewrite Hh. destruct (reverse (e :: l)) eqn:E; [|done].
    apply (f_equal length) in E. rewrite length_reverse in E. done.
Qed.


(** ** Where the hash is ambiguous *)

Definition bar_entry (actor details : string) : AuditLogEntry :=
  mkAudit "log_1" "p" 0 actor "FLAG_DELETED" "checkout" "all" details "" "".

(** The separator is not escaped: two entries with different actors have the
    same hash. *)
Theorem audit_hash_ambiguous prev :
  al_Actor (bar_entry "eve|bob" "removed") ≠ al_Actor (bar_entry "eve" "bob|removed") ∧
  ComputeAuditEntryHash prev (bar_entry "eve|bob" "removed")
  = ComputeAuditEntryHash prev (bar_entry "eve" "bob|removed").
Proof. split; [done|]. unfold ComputeAuditEntryHash, audit_payload. by f_equal. Qed.

(** ** Instances *)

(** A clock that always shows [t], and a random source. *)
Definition sys_at (t : Time) : Sys := mkSys (λ _, t) (λ _, "00").

Definition demo_entry (id : string) (t : Time) : AuditLogEntry :=
  mkAudit id "shop" t "ada" "FLAG_TOGGLED" "checkout" "production" "Toggled" "" "".

(** The audit trail after two appends. *)
Definition demo_trail : MemoryStore :=
  (AppendAuditLog (sys_at 9)
     (AppendAuditLog (sys_at 9) NewMemoryStore (demo_entry "log_1" 5)).1 (demo_entry "log_2" 7)).1.

Lemma demo_trail_ok : chain_ok demo_trail "shop".
Proof. apply chain_ok_append; [by left|]. by apply chain_ok_append; [left|]. Qed.

Lemma AppendAuditLog_keeps_chain_witness :
  let s' := (AppendAuditLog (sys_at 9) demo_trail (demo_entry "log_3" 8)).1 in
  let r := VerifyAuditLogIntegrity (sys_at 10) s' "shop" in
  chain_ok s' "shop" ∧ ai_Valid r = true ∧
  ai_TotalVerified r = length (project_logs "shop" (ms_auditLogs s')).
Proof.
  apply (AppendAuditLog_keeps_chain (sys_at 9) (sys_at 10) demo_trail (demo_entry "log_3" 8));
    [by left|done|apply demo_trail_ok].
Defined.

Lemma PurgeAuditLogs_keeps_chain_witness :
  chain_ok (PurgeAuditLogs demo_trail "shop" 6).1 "shop" ∧ (PurgeAuditLogs demo_trail "shop" 6).2 = 1%nat.
Proof.
  split; [|vm_compute; reflexivity].
  apply (PurgeAuditLogs_keeps_chain demo_trail "shop"); [done| |apply demo_trail_ok].
  vm_compute. repeat constructor; intros H; discriminate H.
Defined.

