(* ===== verification/StoreFlags.v ===== *)
(** * Flags in the in-memory store ([pkg/store/memory.go])

    Reading, saving, deleting, toggling and rolling out flags.  Readers look up
    the map of the current snapshot; writers build a new list, index it and
    replace the snapshot, then record an audit entry. *)

From S2P Require Import Prelude GoFloat GoStrings GoTime Sha256 Errors Domain Engine Buckets.
From S2P Require Import EngineFacts Entities StoreState StoreAudit.

(** ** Reading *)

Definition ListFlags (s : MemoryStore) : list FeatureFlag := DeepCopy <$> flags_of s.

Definition ListFlagsByProject (s : MemoryStore) (projectID : string) : list FeatureFlag :=
  let projectID := or_default projectID DefaultProjectID in
  DeepCopy <$> filter (λ f, ff_ProjectID f = projectID) (flags_of s).

Definition flag_not_found (keyOrID : string) : GoError := EText ("flag not found: " +:+ keyOrID).

Definition GetFlagByProject (s : MemoryStore) (projectID keyOrID : string)
    : result GoError FeatureFlag :=
  let projectID := or_default projectID DefaultProjectID in
  match sn_flagsMap (ms_flagsSnapshot s) !! (projectID +:+ ":" +:+ keyOrID) with
  | Some f => Ok (DeepCopy f)
  | None => Err (flag_not_found keyOrID)
  end.

Definition GetFlag (s : MemoryStore) (keyOrID : string) : result GoError FeatureFlag :=
  match GetFlagByProject s DefaultProjectID keyOrID with
  | Ok f => Ok f
  | Err _ =>
      match sn_flagsMap (ms_flagsSnapshot s) !! keyOrID with
      | Some flag => Ok (DeepCopy flag)
      | None =>
          match list_find (λ f, ff_Key f = keyOrID ∨ ff_ID f = keyOrID) (flags_of s) with
          | Some (_, f) => Ok (DeepCopy f)
          | None => Err (flag_not_found keyOrID)
          end
      end
  end.

(** ** Writing *)

(** The project a stored flag belongs to. *)
Definition flag_project (f : FeatureFlag) : string := or_default (ff_ProjectID f) DefaultProjectID.

(** [fProj == projectID && (f.Key == keyOrID || f.ID == keyOrID)]. *)
Definition flag_matches (projectID keyOrID : string) (f : FeatureFlag) : bool :=
  (flag_project f =s? projectID) && ((ff_Key f =s? keyOrID) || (ff_ID f =s? keyOrID)).

Definition save_matches (flag f : FeatureFlag) : bool :=
  ((ff_ID f =s? ff_ID flag) || (ff_Key f =s? ff_Key flag)) &&
  (flag_project f =s? ff_ProjectID flag).

Definition bump (v : Z) : Z := wrap_u64 (v + 1).

(** [s.flagsSnapshot.Store(newFlagSnapshot(newList))]. *)
Definition store_flags (s : MemoryStore) (newList : list FeatureFlag) : MemoryStore :=
  s <| ms_flagsSnapshot := newFlagSnapshot newList |>.

(** The flag that replaces the matching one. *)
Definition save_updated (now : Time) (flag f : FeatureFlag) : FeatureFlag :=
  flag <| ff_ID := ff_ID f |> <| ff_CreatedAt := ff_CreatedAt f |> <| ff_UpdatedAt := now |>
       <| ff_ConfigVersion := bump (ff_ConfigVersion f) |>.

Definition save_created (sys : Sys) (flag : FeatureFlag) : FeatureFlag :=
  let now := sys_now sys 0 in
  let id :=
    if ff_ID flag =s? ""
    then "flag_" +:+ Itoa (sys_now sys 1 / Second) +:+ "_" +:+ sys_rand sys 0
    else ff_ID flag in
  let version := if (ff_ConfigVersion flag =? 0)%Z then 1%Z else ff_ConfigVersion flag in
  flag <| ff_ID := id |> <| ff_ConfigVersion := version |>
       <| ff_CreatedAt := now |> <| ff_UpdatedAt := now |>.

Definition log_id (t : Time) : string := "log_" +:+ Itoa t.

(** The new list of flags and the log entry of a save: the first flag of the
    project with the identifier or the key is replaced; otherwise the flag is
    put in front. *)
Definition save_plan (sys : Sys) (s : MemoryStore) (flagCopy : FeatureFlag) (actor : string)
    : list FeatureFlag * AuditLogEntry :=
  let now := sys_now sys 0 in
  match list_find (λ f, save_matches flagCopy f = true) (flags_of s) with
  | Some (i, f) =>
      let flagCopy := save_updated now flagCopy f in
      (<[i := flagCopy]> (flags_of s),
       mkAudit (log_id (sys_now sys 1)) (ff_ProjectID flagCopy) now actor "FLAG_UPDATED"
         (ff_Key flagCopy) "all"
         ("Updated configuration and rules for '" +:+ ff_Key flagCopy +:+ "'.") "" "")
  | None =>
      let flagCopy' := save_created sys flagCopy in
      (flagCopy' :: flags_of s,
       mkAudit (log_id (sys_now sys (if ff_ID flagCopy =s? "" then 2 else 1)))
         (ff_ProjectID flagCopy') now actor "FLAG_CREATED" (ff_Key flagCopy') "all"
         ("Created new " +:+ ff_Type flagCopy' +:+ " flag '" +:+ ff_Name flagCopy' +:+ "' [" +:+
          ff_Key flagCopy' +:+ "].") "" "")
  end.

Definition SaveFlag (sys : Sys) (s : MemoryStore) (flag : FeatureFlag) (actor : string)
    : MemoryStore * result GoError (option AuditLogEntry) :=
  let actor := or_default actor "developer@flagura.dev" in
  let flagCopy := DeepCopy flag in
  if TrimSpace (ff_ProjectID flagCopy) =s? "" then
    (s, Err (EText "project_id is required to save a feature flag"))
  else
    let '(newList, log) := save_plan sys s flagCopy actor in
    let s := store_flags s newList in
    if actor =s? "snapshot_restore" then (s, Ok None)
    else
      let '(s, log) := appendAuditLogLocked (sys_now sys 3) s log in
      (s, Ok (Some log)).

Definition not_in_project (projectID keyOrID : string) : GoError :=
  EText ("flag not found in project " +:+ projectID +:+ ": " +:+ keyOrID).

Definition DeleteFlagByProject (sys : Sys) (s : MemoryStore) (projectID keyOrID actor : string)
    : MemoryStore * result GoError AuditLogEntry :=
  let projectID := or_default projectID DefaultProjectID in
  let actor := or_default actor "admin@flagura.dev" in
  let newList := filter (λ f, flag_matches projectID keyOrID f = false) (flags_of s) in
  match last (filter (λ f, flag_matches projectID keyOrID f = true) (flags_of s)) with
  | None => (s, Err (not_in_project projectID keyOrID))
  | Some f =>
      let deletedKey := ff_Key f in
      let log := mkAudit (log_id (sys_now sys 0)) projectID (sys_now sys 1) actor "FLAG_DELETED"
        deletedKey "all"
        ("Permanently removed feature flag '" +:+ deletedKey +:+ "' from project '" +:+
         projectID +:+ "'.") "" "" in
      let '(s, log) := appendAuditLogLocked (sys_now sys 2) (store_flags s newList) log in
      (s, Ok log)
  end.

(** The loop of the two updates: every matching flag is replaced, and the last
    one with its log entry is returned; [k] counts the matches so far. *)
Fixpoint update_flags (sel : FeatureFlag → bool)
    (upd : nat → FeatureFlag → FeatureFlag * AuditLogEntry) (k : nat) (flags : list FeatureFlag)
    : list FeatureFlag * option (FeatureFlag * AuditLogEntry) :=
  match flags with
  | [] => ([], None)
  | f :: flags' =>
      if sel f then
        let '(f', log) := upd k (DeepCopy f) in
        let '(fs, last) := update_flags sel upd (S k) flags' in
        (f' :: fs, Some (default (f', log) last))
      else
        let '(fs, last) := update_flags sel upd k flags' in
        (DeepCopy f :: fs, last)
  end.

Definition update_by_project (sys : Sys) (s : MemoryStore) (projectID keyOrID : string)
    (upd : nat → FeatureFlag → FeatureFlag * AuditLogEntry)
    : MemoryStore * result GoError (FeatureFlag * AuditLogEntry) :=
  match update_flags (flag_matches projectID keyOrID) upd 0 (flags_of s) with
  | (_, None) => (s, Err (not_in_project projectID keyOrID))
  | (newList, Some (updatedFlag, log)) =>
      let now := sys_now sys (3 * length newList) in
      let '(s, log) := appendAuditLogLocked now (store_flags s newList) log in
      (s, Ok (updatedFlag, log))
  end.

(** The clock is read three times per matching flag: for [UpdatedAt], for the
    log's identifier and for its timestamp. *)
Definition toggled_cfg (enabled : option bool) (cfg : EnvironmentConfig) : EnvironmentConfig :=
  cfg <| ec_Enabled := match enabled with Some b => b | None => negb (ec_Enabled cfg) end |>.

Definition set_env (env : Environment) (cfg : EnvironmentConfig) (now : Time) (f : FeatureFlag)
    : FeatureFlag :=
  f <| ff_Environments := <[env := cfg]> (ff_Environments f) |>
    <| ff_ConfigVersion := bump (ff_ConfigVersion f) |> <| ff_UpdatedAt := now |>.

Definition toggle_one (sys : Sys) (projectID : string) (env : Environment) (enabled : option bool)
    (actor : string) (k : nat) (f : FeatureFlag) : FeatureFlag * AuditLogEntry :=
  let cfg := toggled_cfg enabled (EnvConfig f env) in
  let f' := set_env env cfg (sys_now sys (3 * k)) f in
  let statusText := if ec_Enabled cfg then "Enabled" else "Disabled (Kill Switch)" in
  (f', mkAudit (log_id (sys_now sys (3 * k + 1))) projectID (sys_now sys (3 * k + 2)) actor
         "KILL_SWITCH_TOGGLED" (ff_Key f') env
         (statusText +:+ " flag for " +:+ env +:+ " environment in project " +:+ projectID +:+ ".")
         "" "").

Definition ToggleFlagByProject (sys : Sys) (s : MemoryStore) (projectID keyOrID : string)
    (env : Environment) (enabled : option bool) (actor : string)
    : MemoryStore * result GoError (FeatureFlag * AuditLogEntry) :=
  let projectID := or_default projectID DefaultProjectID in
  let actor := or_default actor "admin@flagura.dev" in
  let env := or_default env EnvProduction in
  update_by_project sys s projectID keyOrID (toggle_one sys projectID env enabled actor).

Definition clamp_pct (pct : f64) : f64 :=
  let pct := if f64_ltb pct f64_zero then f64_zero else pct in
  if f64_ltb (f64_of_Z 100) pct then f64_of_Z 100 else pct.

Definition rollout_cfg (pct : f64) (cfg : EnvironmentConfig) : EnvironmentConfig :=
  let cfg := cfg <| ec_Percentage := pct |> in
  if (ec_Strategy cfg =s? StrategyBoolean) && f64_ltb pct (f64_of_Z 100)
  then cfg <| ec_Strategy := StrategyPercentage |> else cfg.

Definition rollout_one (sys : Sys) (projectID : string) (env : Environment) (pct : f64)
    (actor : string) (k : nat) (f : FeatureFlag) : FeatureFlag * AuditLogEntry :=
  let old := EnvConfig f env in
  let f' := set_env env (rollout_cfg pct old) (sys_now sys (3 * k)) f in
  (f', mkAudit (log_id (sys_now sys (3 * k + 1))) projectID (sys_now sys (3 * k + 2)) actor
         "ROLLOUT_UPDATED" (ff_Key f') env
         ("Updated percentage rollout from " +:+ FormatFixed 0 (ec_Percentage old) +:+ "% to " +:+
          FormatFixed 0 pct +:+ "% for " +:+ env +:+ " in project " +:+ projectID +:+ ".") "" "").

Definition UpdateRolloutByProject (sys : Sys) (s : MemoryStore) (projectID keyOrID : string)
    (env : Environment) (pct : f64) (actor : string)
    : MemoryStore * result GoError (FeatureFlag * AuditLogEntry) :=
  let projectID := or_default projectID DefaultProjectID in
  let actor := or_default actor "engineer@flagura.dev" in
  let env := or_default env EnvProduction in
  let pct := clamp_pct pct in
  update_by_project sys s projectID keyOrID (rollout_one sys projectID env pct actor).

(** The forms without a project find the flag's project first. *)
Definition DeleteFlag (sys : Sys) (s : MemoryStore) (keyOrID actor : string)
    : MemoryStore * result GoError AuditLogEntry :=
  match GetFlag s keyOrID with
  | Err e => (s, Err e)
  | Ok f => DeleteFlagByProject sys s (ff_ProjectID f) keyOrID actor
  end.

Definition ToggleFlag (sys : Sys) (s : MemoryStore) (keyOrID : string) (env : Environment)
    (enabled : option bool) (actor : string)
    : MemoryStore * result GoError (FeatureFlag * AuditLogEntry) :=
  match GetFlag s keyOrID with
  | Err e => (s, Err e)
  | Ok f => ToggleFlagByProject sys s (ff_ProjectID f) keyOrID env enabled actor
  end.

Definition UpdateRollout (sys : Sys) (s : MemoryStore) (keyOrID : string) (env : Environment)
    (pct : f64) (actor : string) : MemoryStore * result GoError (FeatureFlag * AuditLogEntry) :=
  match GetFlag s keyOrID with
  | Err e => (s, Err e)
  | Ok f => UpdateRolloutByProject sys s (ff_ProjectID f) keyOrID env pct actor
  end.

Definition Reset (s : MemoryStore) : MemoryStore :=
  s <| ms_flagsSnapshot := newFlagSnapshot [] |> <| ms_events := [] |> <| ms_auditLogs := [] |>
    <| ms_auditAnchors := ∅ |>.
