(* ===== verification/StoreFlagsFacts.v ===== *)
(** * What the flag operations of the store guarantee

    The snapshot map answers lookups as a scan of the list would; writes are
    confined to their project; a kill switch or a rollout takes effect in the
    next evaluation; every change is audited and the chain stays valid. *)

From S2P Require Import Prelude GoFloat GoStrings GoTime Sha256 Errors Domain Engine Buckets.
From S2P Require Import EngineFacts Entities StoreState StoreAudit StoreFlags.

(** ** The snapshot map *)

(** The map has an entry [x] for the flag. *)
Definition indexed_as (x : string) (f : FeatureFlag) : bool :=
  (ff_ProjectID f +:+ ":" +:+ ff_Key f =s? x) ||
  (negb (ff_ID f =s? "") && ((ff_ProjectID f +:+ ":" +:+ ff_ID f =s? x) || (ff_ID f =s? x))).

Lemma snapshot_index_lookup m f x :
  snapshot_index m f !! x = if indexed_as x f then Some f else m !! x.
Proof.
  unfold snapshot_index, indexed_as.
  destruct (ff_ID f =s? ""); simpl; rewrite !lookup_insert, !str_decide;
    repeat match goal with |- context [?a =s? x] => destruct (a =s? x) end; done.
Qed.

(** A lookup finds the last flag of the list that has the entry. *)
Lemma snapshot_lookup flags x :
  sn_flagsMap (newFlagSnapshot flags) !! x
  = last (filter (λ f, indexed_as x f = true) (snapshot_flag <$> flags)).
Proof.
  unfold newFlagSnapshot. simpl. generalize (snapshot_flag <$> flags). intros copies.
  induction copies as [|f copies IH] using rev_ind; [done|].
  rewrite foldl_snoc, snapshot_index_lookup, filter_app.
  destruct (indexed_as x f) eqn:E.
  - rewrite (filter_singleton_True (λ f, indexed_as x f = true)) by done. by rewrite last_snoc.
  - rewrite (filter_singleton_False (λ f, indexed_as x f = true)) by congruence.
    by rewrite app_nil_r.
Qed.

(** The store's snapshot was built from a list of flags. *)
Definition flags_wf (s : MemoryStore) : Prop :=
  ms_flagsSnapshot s = newFlagSnapshot (flags_of s) ∧ Forall normal_flag (flags_of s).

Lemma flags_wf_store s flags : flags_wf (store_flags s flags).
Proof.
  assert (Forall normal_flag (snapshot_flag <$> flags)) as Hn.
  { apply Forall_fmap, Forall_true. intros f. apply snapshot_flag_normal. }
  split; [|done]. unfold store_flags, flags_of. simpl. unfold newFlagSnapshot at 1 2. simpl.
  assert (snapshot_flag <$> (snapshot_flag <$> flags) = snapshot_flag <$> flags) as E.
  { apply (newFlagSnapshot_list_normal _ Hn). }
  by rewrite E.
Qed.

Lemma flags_of_store s flags : flags_of (store_flags s flags) = snapshot_flag <$> flags.
Proof. reflexivity. Qed.

Lemma flags_wf_lookup s x :
  flags_wf s →
  sn_flagsMap (ms_flagsSnapshot s) !! x = last (filter (λ f, indexed_as x f = true) (flags_of s)).
Proof.
  intros [Hs Hn]. rewrite Hs, snapshot_lookup. do 2 f_equal.
  apply (newFlagSnapshot_list_normal _ Hn).
Qed.

(** ** Reading is confined to a project *)

Definition no_colon (s : string) : Prop := str_mem ":" s = false.

(** Identifiers and projects of the stored flags contain no colon.  (Keys may:
    the map separates the project at the first colon.) *)
Definition plain_ids (s : MemoryStore) : Prop :=
  Forall (λ f, no_colon (ff_ID f) ∧ no_colon (ff_ProjectID f)) (flags_of s).

Lemma indexed_as_project p k f :
  no_colon p → no_colon (ff_ID f) → no_colon (ff_ProjectID f) →
  indexed_as (p +:+ ":" +:+ k) f = true ↔
  ff_ProjectID f = p ∧ (ff_Key f = k ∨ ff_ID f ≠ "" ∧ ff_ID f = k).
Proof.
  intros Hp Hid Hpr. unfold indexed_as.
  assert (∀ x, (ff_ProjectID f +:+ ":" +:+ x =s? p +:+ ":" +:+ k) = true ↔
    ff_ProjectID f = p ∧ x = k) as Hj.
  { intros x. rewrite str_eqb_eq. split; [|by intros [-> ->]].
    intros E. by apply (str_join_inj_l ":") in E. }
  assert ((ff_ID f =s? p +:+ ":" +:+ k) = false) as Hn.
  { apply str_eqb_neq. intros E. unfold no_colon in Hid. rewrite E in Hid.
    rewrite !str_mem_append in Hid. simpl in Hid. by rewrite orb_true_r in Hid. }
  rewrite Hn, orb_false_r, orb_true_iff, andb_true_iff, !Hj, negb_true_iff, str_eqb_neq. tauto.
Qed.

Lemma GetFlagByProject_Ok s p k f :
  flags_wf s → plain_ids s → no_colon p → p ≠ "" → GetFlagByProject s p k = Ok f →
  f ∈ flags_of s ∧ ff_ProjectID f = p ∧ (ff_Key f = k ∨ ff_ID f = k).
Proof.
  intros Hwf Hpl Hp Hne. unfold GetFlagByProject. rewrite or_default_nonempty by done.
  rewrite flags_wf_lookup by done. destruct (last _) as [g|] eqn:El; [|done].
  intros [= <-]. rewrite DeepCopy_id. apply last_Some in El as [l El].
  assert (g ∈ filter (λ f, indexed_as (p +:+ ":" +:+ k) f = true) (flags_of s)) as Hg.
  { rewrite El. apply elem_of_app. right. by left. }
  apply list_elem_of_filter in Hg as [Hi Hin].
  destruct (proj1 (Forall_forall _ _) Hpl g Hin) as [Hid Hpr].
  apply indexed_as_project in Hi as [? [?|[_ ?]]]; auto.
Qed.

Lemma GetFlagByProject_found s p k f :
  flags_wf s → plain_ids s → no_colon p → p ≠ "" →
  f ∈ flags_of s → ff_ProjectID f = p → (ff_Key f = k ∨ ff_ID f ≠ "" ∧ ff_ID f = k) →
  ∃ g, GetFlagByProject s p k = Ok g.
Proof.
  intros Hwf Hpl Hp Hne Hin Hpr Hk. unfold GetFlagByProject. rewrite or_default_nonempty by done.
  rewrite flags_wf_lookup by done. destruct (last _) as [g|] eqn:El; [by eexists|].
  apply last_None in El. exfalso.
  destruct (proj1 (Forall_forall _ _) Hpl f Hin) as [Hid Hpr'].
  eapply (filter_nil_not_elem_of _ _ f El); [|exact Hin]. by apply indexed_as_project.
Qed.

(** Tenant isolation of reads: as long as no stored identifier or project
    contains a colon, a lookup in a project returns a flag of that project that
    has the requested key or identifier, and finds one whenever there is one. *)
Theorem GetFlagByProject_isolated s p k :
  flags_wf s → plain_ids s → no_colon p → p ≠ "" →
  match GetFlagByProject s p k with
  | Ok f => f ∈ flags_of s ∧ ff_ProjectID f = p ∧ (ff_Key f = k ∨ ff_ID f = k)
  | Err _ => ∀ f, f ∈ flags_of s → ff_ProjectID f = p → ff_Key f ≠ k
  end.
Proof.
  intros Hwf Hpl Hp Hne. destruct (GetFlagByProject s p k) as [f|e] eqn:E.
  - by apply GetFlagByProject_Ok.
  - intros f Hin Hpr Hk.
    destruct (GetFlagByProject_found s p k f) as [g Hg]; auto. congruence.
Qed.

(** ** The update loop *)

Lemma update_flags_Forall2 (sel : FeatureFlag → bool) upd k flags :
  Forall2 (λ f f' : FeatureFlag, if sel f then ∃ j, f' = (upd j f).1 else f' = f)
    flags (update_flags sel upd k flags).1.
Proof.
  revert k. induction flags as [|f flags IH]; intros k; simpl; [done|]. rewrite DeepCopy_id.
  destruct (sel f) eqn:Es.
  - destruct (upd k f) as [f' log] eqn:Eu. specialize (IH (S k)).
    destruct (update_flags sel upd (S k) flags) as [fs l]. simpl in *.
    constructor; [|done]. rewrite Es. exists k. by rewrite Eu.
  - specialize (IH k). destruct (update_flags sel upd k flags) as [fs l]. simpl in *.
    constructor; [|done]. by rewrite Es.
Qed.

(** The returned flag and log entry are those of a matching flag; none is
    returned only when nothing matches. *)
Lemma update_flags_last sel upd k flags :
  match (update_flags sel upd k flags).2 with
  | Some r => ∃ j f, f ∈ flags ∧ sel f = true ∧ r = upd j f
  | None => Forall (λ f, sel f = false) flags
  end.
Proof.
  revert k. induction flags as [|f flags IH]; intros k; simpl; [done|]. rewrite DeepCopy_id.
  destruct (sel f) eqn:Es.
  - destruct (upd k f) as [f' log] eqn:Eu. specialize (IH (S k)).
    destruct (update_flags sel upd (S k) flags) as [fs [r|]]; simpl in *.
    + destruct IH as (j & g & Hg & Hs & ->). exists j, g. split; [by right|done].
    + exists k, f. split; [by left|done].
  - specialize (IH k). destruct (update_flags sel upd k flags) as [fs [r|]]; simpl in *.
    + destruct IH as (j & g & Hg & Hs & ->). exists j, g. split; [by right|done].
    + by constructor.
Qed.

(** ** Writing *)

Section Writes.
Context `{GoRuntime}.

(** The flag operations of a project, as data. *)
Inductive FlagOp :=
| FSave (flag : FeatureFlag)
| FDelete (keyOrID : string)
| FToggle (keyOrID : string) (env : Environment) (enabled : option bool)
| FRollout (keyOrID : string) (env : Environment) (pct : f64).

(** The store after an operation of project [p], and whether it succeeded. *)
Definition run_flag_op (sys : Sys) (s : MemoryStore) (p actor : string) (op : FlagOp)
    : MemoryStore * bool :=
  match op with
  | FSave flag => let '(s', r) := SaveFlag sys s (flag <| ff_ProjectID := p |>) actor in (s', is_ok r)
  | FDelete k => let '(s', r) := DeleteFlagByProject sys s p k actor in (s', is_ok r)
  | FToggle k env enabled =>
      let '(s', r) := ToggleFlagByProject sys s p k env enabled actor in (s', is_ok r)
  | FRollout k env pct =>
      let '(s', r) := UpdateRolloutByProject sys s p k env pct actor in (s', is_ok r)
  end.

(** What a write of project [p] does to the list of flags. *)
Inductive flags_written (p : string) (old : list FeatureFlag) : list FeatureFlag → Prop :=
| written_created f :
    ff_ProjectID f = p → flags_written p old (f :: old)
| written_filtered (keep : FeatureFlag → bool) :
    (∀ f, ff_ProjectID f ≠ p → normal_flag f → keep f = true) →
    flags_written p old (filter (λ f, keep f = true) old)
| written_updated new :
    Forall2 (λ f f', f' = f ∨ flag_project f = p ∧ ff_ProjectID f' = ff_ProjectID f) old new →
    flags_written p old new.

Lemma save_plan_written sys s flag actor :
  ff_ProjectID flag ≠ "" → Forall normal_flag (flags_of s) →
  let '(new, log) := save_plan sys s flag actor in
  flags_written (ff_ProjectID flag) (flags_of s) new ∧ unsealed log.
Proof.
  intros Hp Hn. unfold save_plan. destruct (list_find _ _) as [[i f]|] eqn:El.
  - apply list_find_Some in El as (Hi & Hm & _). split; [|by left].
    pose proof (proj1 (Forall_lookup _ _) Hn _ _ Hi) as Hnf.
    apply written_updated. rewrite <- (list_insert_id (flags_of s) i f) at 1 by done.
    apply Forall2_insert; [apply Forall_Forall2_diag, Forall_true; by left|].
    right. unfold save_matches in Hm. simp_bool. unfold flag_project in *.
    rewrite or_default_nonempty in * by apply Hnf. done.
  - split; [by apply written_created|by left].
Qed.

Lemma update_flags_written p k upd s :
  (∀ j f, unsealed (upd j f).2 ∧ ff_ProjectID (upd j f).1 = ff_ProjectID f) →
  flags_written p (flags_of s) (update_flags (flag_matches p k) upd 0 (flags_of s)).1.
Proof.
  intros Hupd. apply written_updated.
  eapply Forall2_impl; [apply update_flags_Forall2|]. intros f f'. simpl.
  destruct (flag_matches p k f) eqn:Em; [|by left].
  intros [j ->]. right. split; [|apply Hupd]. unfold flag_matches in Em. by simp_bool.
Qed.

(** The outcome of a write: a failure changes nothing; a success replaces the
    flags in one of those ways and appends to the audit log (unless it restores
    a snapshot). *)
Definition write_effect (p : string) (s s' : MemoryStore) (ok : bool) : Prop :=
  if ok then
    ∃ new, flags_written p (flags_of s) new ∧
      (s' = store_flags s new ∨
       ∃ now log, unsealed log ∧ s' = (appendAuditLogLocked now (store_flags s new) log).1)
  else s' = s.

Lemma write_effect_append p s new now log :
  flags_written p (flags_of s) new → unsealed log →
  write_effect p s (appendAuditLogLocked now (store_flags s new) log).1 true.
Proof. intros Hw Hu. exists new. split; [done|]. right. by exists now, log. Qed.

Lemma update_by_project_effect sys s p k upd :
  (∀ j f, unsealed (upd j f).2 ∧ ff_ProjectID (upd j f).1 = ff_ProjectID f) →
  write_effect p s (update_by_project sys s p k upd).1 (is_ok (update_by_project sys s p k upd).2).
Proof.
  intros Hupd. unfold update_by_project.
  pose proof (update_flags_written p k upd s Hupd) as Hw.
  pose proof (update_flags_last (flag_matches p k) upd 0 (flags_of s)) as Hl.
  destruct (update_flags _ _ _ _) as [new [[f log]|]]; [|done].
  simpl in *. destruct Hl as (j & g & _ & _ & Hr).
  pose proof (write_effect_append p s new (sys_now sys (3 * length new)) log Hw) as He.
  destruct (appendAuditLogLocked _ _ _) as [s' log']. simpl in *. apply He.
  replace log with (upd j g).2 by (by rewrite <- Hr). apply Hupd.
Qed.

Lemma run_flag_op_effect sys s p actor op :
  p ≠ "" → flags_wf s →
  write_effect p s (run_flag_op sys s p actor op).1 (run_flag_op sys s p actor op).2.
Proof.
  intros Hp [_ Hn]. destruct op as [flag|k|k env enabled|k env pct]; simpl.
  - unfold SaveFlag. rewrite DeepCopy_id. case_if; [done|].
    pose proof (save_plan_written sys s (flag <| ff_ProjectID := p |>)
      (or_default actor "developer@flagura.dev") Hp Hn) as Hw.
    destruct (save_plan _ _ _ _) as [new log]. destruct Hw as [Hw Hu].
    case_if; [exists new; auto|].
    pose proof (write_effect_append p s new (sys_now sys 3) log Hw Hu) as He.
    by destruct (appendAuditLogLocked _ _ _) as [s' log'].
  - unfold DeleteFlagByProject. rewrite or_default_nonempty by done.
    destruct (last _) as [f|]; [|done].
    match goal with |- context [appendAuditLogLocked ?now (store_flags s ?new) ?log] =>
      pose proof (write_effect_append p s new now log) as He end.
    destruct (appendAuditLogLocked _ _ _) as [s' log']. apply He; [|by left].
    rewrite (list_filter_iff _ (λ f, negb (flag_matches p k f) = true))
      by (intros g; symmetry; apply negb_true_iff).
    apply (written_filtered _ _ (λ f, negb (flag_matches p k f))).
    intros g Hg Hng. unfold flag_matches, flag_project. rewrite or_default_nonempty by apply Hng.
    by rewrite (proj2 (str_eqb_neq _ _) Hg).
  - unfold ToggleFlagByProject. rewrite or_default_nonempty by done.
    pose proof (update_by_project_effect sys s p k (toggle_one sys p (or_default env EnvProduction)
      enabled (or_default actor "admin@flagura.dev"))) as He.
    destruct (update_by_project _ _ _ _ _). apply He. intros j f. split; [by left|done].
  - unfold UpdateRolloutByProject. rewrite or_default_nonempty by done.
    pose proof (update_by_project_effect sys s p k (rollout_one sys p (or_default env EnvProduction)
      (clamp_pct pct) (or_default actor "engineer@flagura.dev"))) as He.
    destruct (update_by_project _ _ _ _ _). apply He. intros j f. split; [by left|done].
Qed.

(** *** Frames *)

Definition other_projects (p : string) (flags : list FeatureFlag) : list FeatureFlag :=
  filter (λ f, ff_ProjectID f ≠ p) flags.

Lemma append_flags now s e :
  ms_flagsSnapshot (appendAuditLogLocked now s e).1 = ms_flagsSnapshot s ∧
  ms_auditAnchors (appendAuditLogLocked now s e).1 = ms_auditAnchors s.
Proof. unfold appendAuditLogLocked. by destruct (list_find _ _) as [[i l]|]. Qed.

Lemma normal_snapshot_fmap flags : Forall normal_flag flags → snapshot_flag <$> flags = flags.
Proof. intros Hn. apply (newFlagSnapshot_list_normal _ Hn). Qed.

Lemma flags_written_others p old new :
  p ≠ "" → Forall normal_flag old → flags_written p old new →
  other_projects p (snapshot_flag <$> new) = other_projects p old.
Proof.
  intros Hp Hn Hw. unfold other_projects. destruct Hw as [f Hf|keep Hk|new Hu].
  - csimpl. rewrite filter_cons_False.
    + by rewrite normal_snapshot_fmap.
    + intros Hne. by rewrite snapshot_flag_project, Hf, or_default_nonempty in Hne.
  - rewrite normal_snapshot_fmap by (by apply Forall_list_filter).
    apply list_filter_within. eapply Forall_impl; [exact Hn|]. auto.
  - revert Hn. induction Hu as [|f f' fs fs' Hf _ IH]; [done|]. intros [Hnf Hn]%Forall_cons.
    csimpl. rewrite !filter_cons, IH by done. destruct Hf as [-> | [Hfp Hff']].
    + by rewrite snapshot_flag_id_on.
    + unfold flag_project in Hfp. rewrite or_default_nonempty in Hfp by apply Hnf.
      rewrite snapshot_flag_project, Hff', Hfp, or_default_nonempty by done.
      rewrite !decide_False by tauto. done.
Qed.

Lemma run_flag_op_isolated sys s p actor op :
  p ≠ "" → flags_wf s →
  flags_wf (run_flag_op sys s p actor op).1 ∧
  other_projects p (flags_of (run_flag_op sys s p actor op).1) = other_projects p (flags_of s) ∧
  ((run_flag_op sys s p actor op).2 = false → (run_flag_op sys s p actor op).1 = s).
Proof.
  intros Hp Hwf. pose proof (run_flag_op_effect sys s p actor op Hp Hwf) as He.
  destruct (run_flag_op sys s p actor op) as [s' ok]. cbn [fst snd] in *. unfold write_effect in He.
  destruct ok; [|by subst].
  destruct He as (new & Hw & Hs'). apply flags_written_others in Hw; [|done|by apply Hwf].
  destruct Hs' as [-> | (now & log & _ & ->)]; (split; [|split; [|done]]).
  - apply flags_wf_store.
  - by rewrite flags_of_store.
  - unfold flags_wf, flags_of. rewrite (proj1 (append_flags _ _ _)). apply flags_wf_store.
  - unfold flags_of in *. rewrite (proj1 (append_flags _ _ _)). exact Hw.
Qed.

(** C20: tenant isolation of writes: creating, updating, deleting, toggling or
    rolling out a flag of one project leaves the flags of all other projects as
    they were, in the same order; and a write that fails changes nothing. *)
Theorem flag_writes_isolated sys s p actor op :
  p ≠ "" → flags_wf s →
  let '(s', ok) := run_flag_op sys s p actor op in
  flags_wf s' ∧ other_projects p (flags_of s') = other_projects p (flags_of s) ∧
  (ok = false → s' = s).
Proof.
  intros Hp Hwf. pose proof (run_flag_op_isolated sys s p actor op Hp Hwf) as Hi.
  by destruct (run_flag_op sys s p actor op).
Qed.

(** No flag operation of any project breaks any project's audit chain. *)
Theorem flag_writes_keep_chain sys s p actor op q :
  p ≠ "" → flags_wf s → chain_ok s q → chain_ok (run_flag_op sys s p actor op).1 q.
Proof.
  intros Hp Hwf Hc. pose proof (run_flag_op_effect sys s p actor op Hp Hwf) as He.
  destruct (run_flag_op sys s p actor op) as [s' ok]. simpl in *. unfold write_effect in He.
  destruct ok; [|by subst].
  destruct He as (new & _ & [-> | (now & log & Hu & ->)]); [done|]. by apply chain_ok_append.
Qed.

(** *** Reading back an update *)

(** The update keeps the names by which flags are found. *)
Definition keeps_names (upd : nat → FeatureFlag → FeatureFlag * AuditLogEntry) : Prop :=
  ∀ j f, ff_ID (upd j f).1 = ff_ID f ∧ ff_Key (upd j f).1 = ff_Key f ∧
    ff_ProjectID (upd j f).1 = ff_ProjectID f.

Lemma update_by_project_Ok sys s p k upd r :
  (update_by_project sys s p k upd).2 = Ok r →
  ∃ new, new = (update_flags (flag_matches p k) upd 0 (flags_of s)).1 ∧
    ms_flagsSnapshot (update_by_project sys s p k upd).1 = newFlagSnapshot new ∧
    ∃ f, f ∈ flags_of s ∧ flag_matches p k f = true.
Proof.
  unfold update_by_project.
  pose proof (update_flags_last (flag_matches p k) upd 0 (flags_of s)) as Hl.
  destruct (update_flags _ _ _ _) as [new [[f log]|]]; [|done]. simpl in Hl.
  destruct Hl as (j & g & Hg & Hm & _). intros _. exists new. split; [done|].
  pose proof (append_flags (sys_now sys (3 * length new)) (store_flags s new) log) as [Ha _].
  destruct (appendAuditLogLocked _ _ _) as [s' log']. simpl in *. split; [done|]. by exists g.
Qed.

Lemma update_flags_elem sel upd k flags f' :
  f' ∈ (update_flags sel upd k flags).1 →
  ∃ f, f ∈ flags ∧ (f' = f ∧ sel f = false ∨ sel f = true ∧ ∃ j, f' = (upd j f).1).
Proof.
  intros Hf'. apply list_elem_of_lookup in Hf' as [i Hi].
  destruct (Forall2_lookup_r _ _ _ _ _ (update_flags_Forall2 sel upd k flags) Hi) as (f & Hf & Hr).
  exists f. split; [by eapply list_elem_of_lookup_2|].
  destruct (sel f); [right|left]; auto.
Qed.

Lemma update_flags_elem_of sel upd k flags f :
  f ∈ flags → sel f = true → ∃ j, (upd j f).1 ∈ (update_flags sel upd k flags).1.
Proof.
  intros Hf Hs. apply list_elem_of_lookup in Hf as [i Hi].
  destruct (Forall2_lookup_l _ _ _ _ _ (update_flags_Forall2 sel upd k flags) Hi) as (f' & Hf' & Hr).
  rewrite Hs in Hr. destruct Hr as [j ->]. exists j. by eapply list_elem_of_lookup_2.
Qed.

Lemma flag_matches_spec p k f :
  normal_flag f →
  flag_matches p k f = true ↔ ff_ProjectID f = p ∧ (ff_Key f = k ∨ ff_ID f = k).
Proof.
  intros [Hp _]. unfold flag_matches, flag_project. rewrite or_default_nonempty by done.
  rewrite andb_true_iff, orb_true_iff, !str_eqb_eq. done.
Qed.

Lemma update_by_project_valid sys s p k upd r :
  flags_wf s → plain_ids s → keeps_names upd →
  (update_by_project sys s p k upd).2 = Ok r →
  flags_wf (update_by_project sys s p k upd).1 ∧ plain_ids (update_by_project sys s p k upd).1.
Proof.
  intros [Hs Hn] Hpl Hnames Hok.
  destruct (update_by_project_Ok _ _ _ _ _ _ Hok) as (new & Hnew & Hsnap & _).
  set (s' := (update_by_project sys s p k upd).1) in *.
  assert (flags_of s' = snapshot_flag <$> new) as Hfl by (unfold flags_of; by rewrite Hsnap).
  split.
  - pose proof (flags_wf_store s new) as Hw. unfold flags_wf, flags_of in *. by rewrite Hsnap.
  - unfold plain_ids. rewrite Hfl. apply Forall_fmap, Forall_forall. intros g Hg. simpl.
    rewrite Hnew in Hg. apply update_flags_elem in Hg as (g0 & Hg0 & Hcase).
    destruct (proj1 (Forall_forall _ _) Hpl g0 Hg0) as [Hi Hpr].
    pose proof (proj1 (Forall_forall _ _) Hn g0 Hg0) as [Hnp _].
    assert (ff_ID g = ff_ID g0 ∧ ff_ProjectID g = ff_ProjectID g0) as [Hgi Hgp].
    { destruct Hcase as [[-> _] | [_ [j ->]]]; [done|]. split; apply Hnames. }
    rewrite snapshot_flag_id, snapshot_flag_project, Hgi, Hgp, or_default_nonempty; done.
Qed.

(** After a successful update, looking the flag up by the same name finds one
    of the updated flags. *)
Lemma update_by_project_read sys s p k upd r :
  flags_wf s → plain_ids s → no_colon p → p ≠ "" → k ≠ "" → keeps_names upd →
  (update_by_project sys s p k upd).2 = Ok r →
  ∃ j f, f ∈ flags_of s ∧ flag_matches p k f = true ∧
    GetFlagByProject (update_by_project sys s p k upd).1 p k = Ok (snapshot_flag (upd j f).1).
Proof.
  intros Hwf Hpl Hp Hne Hk Hnames Hok. pose proof Hwf as [Hs Hn].
  destruct (update_by_project_valid _ _ _ _ _ _ Hwf Hpl Hnames Hok) as [Hwf' Hpl'].
  destruct (update_by_project_Ok _ _ _ _ _ _ Hok) as (new & Hnew & Hsnap & f & Hf & Hm).
  set (s' := (update_by_project sys s p k upd).1) in *.
  assert (flags_of s' = snapshot_flag <$> new) as Hfl by (unfold flags_of; by rewrite Hsnap).
  pose proof (proj1 (Forall_forall _ _) Hn f Hf) as Hnf.
  pose proof (proj1 (flag_matches_spec p k f Hnf) Hm) as [Hfp Hfk].
  destruct (update_flags_elem_of (flag_matches p k) upd 0 (flags_of s) f Hf Hm) as [j Hj].
  destruct (GetFlagByProject_found s' p k (snapshot_flag (upd j f).1)) as [g Hg]; try done.
  { rewrite Hfl, Hnew. by apply list_elem_of_fmap_2. }
  { rewrite snapshot_flag_project. destruct (Hnames j f) as (_ & _ & ->).
    rewrite Hfp. by rewrite or_default_nonempty. }
  { rewrite snapshot_flag_key, snapshot_flag_id. destruct (Hnames j f) as (-> & -> & _).
    destruct Hfk as [->|Hfi]; [by left|right]. by rewrite Hfi. }
  destruct (GetFlagByProject_Ok s' p k g) as (Hgin & Hgp & Hgk); try done.
  rewrite Hfl in Hgin. apply list_elem_of_fmap in Hgin as (g1 & -> & Hg1).
  rewrite Hnew in Hg1. apply update_flags_elem in Hg1 as (g0 & Hg0 & Hcase).
  pose proof (proj1 (Forall_forall _ _) Hn g0 Hg0) as Hng0.
  assert (ff_ID g1 = ff_ID g0 ∧ ff_Key g1 = ff_Key g0 ∧ ff_ProjectID g1 = ff_ProjectID g0)
    as (H1 & H2 & H3).
  { destruct Hcase as [[-> _] | [_ [j' ->]]]; [done|]. apply Hnames. }
  assert (flag_matches p k g0 = true) as Hm0.
  { apply flag_matches_spec; [done|].
    rewrite snapshot_flag_project, H3, or_default_nonempty in Hgp by apply Hng0.
    by rewrite snapshot_flag_key, snapshot_flag_id, H1, H2 in Hgk. }
  destruct Hcase as [[_ Hf0] | [_ [j' ->]]]; [congruence|]. by exists j', g0.
Qed.

(** C5: the kill switch works: once disabling a flag in an environment has
    succeeded, looking the flag up in its project by the same name and
    evaluating it in that environment gives "off" for every caller, whatever
    the flag's rules, strategy and percentage. *)
Theorem kill_switch_effective sys s p k env actor s' r :
  flags_wf s → plain_ids s → no_colon p → p ≠ "" → k ≠ "" →
  ToggleFlagByProject sys s p k env (Some false) actor = (s', Ok r) →
  ∃ flag, GetFlagByProject s' p k = Ok flag ∧
    ∀ ns ctx, eval_env ctx = or_default env EnvProduction →
      er_Enabled (EvaluateFlag ns flag ctx) = false.
Proof.
  intros Hwf Hpl Hp Hne Hk. unfold ToggleFlagByProject. rewrite or_default_nonempty by done.
  set (upd := toggle_one _ _ _ _ _). intros Hu.
  assert (keeps_names upd) as Hnames by done.
  destruct (update_by_project_read sys s p k upd r) as (j & f & _ & _ & Hg); try done;
    [by rewrite Hu|]. rewrite Hu in Hg.
  eexists. split; [exact Hg|]. intros ns ctx Henv.
  unfold EvaluateFlag, eval_config. rewrite snapshot_flag_envs, Henv. simpl.
  by rewrite lookup_insert_eq.
Qed.

(** A configuration on which a rollout decides alone. *)
Definition plain_rollout (cfg : EnvironmentConfig) : Prop :=
  ec_Enabled cfg = true ∧ ec_Rules cfg = [] ∧
  (ec_Strategy cfg = StrategyBoolean ∨ ec_Strategy cfg = StrategyPercentage).

Lemma clamp_pct_whole n : (0 ≤ n ≤ 100)%Z → clamp_pct (f64_of_Z n) = f64_of_Z n.
Proof.
  intros Hn. unfold clamp_pct.
  rewrite (f64_le_not_lt f64_zero) by (apply (f64_of_Z_le 0 n); lia).
  by rewrite (f64_le_not_lt _ (f64_of_Z 100)) by (apply f64_of_Z_le; lia).
Qed.

Lemma rollout_cfg_plain n cfg :
  plain_rollout cfg → (0 ≤ n < 100)%Z →
  let cfg' := rollout_cfg (f64_of_Z n) cfg in
  ec_Enabled cfg' = true ∧ ec_Rules cfg' = [] ∧ ec_Strategy cfg' = StrategyPercentage ∧
  ec_Percentage cfg' = f64_of_Z n.
Proof.
  intros (He & Hr & Hs) Hn. unfold rollout_cfg.
  change (ec_Strategy (cfg <| ec_Percentage := f64_of_Z n |>)) with (ec_Strategy cfg).
  rewrite f64_of_Z_lt, andb_true_r by lia.
  destruct Hs as [Hs|Hs]; rewrite Hs; simpl; auto.
Qed.

(** A rollout takes effect: after moving an enabled flag without rules to
    [n] per cent, evaluating the stored flag admits exactly the callers whose
    slot is below [100*n]. *)
Theorem rollout_effective sys s p k env n actor s' r :
  flags_wf s → plain_ids s → no_colon p → p ≠ "" → k ≠ "" → (0 ≤ n < 100)%Z →
  (∀ f, f ∈ flags_of s → flag_matches p k f = true →
    plain_rollout (EnvConfig f (or_default env EnvProduction))) →
  UpdateRolloutByProject sys s p k env (f64_of_Z n) actor = (s', Ok r) →
  ∃ flag, GetFlagByProject s' p k = Ok flag ∧
    ∀ ns ctx, eval_env ctx = or_default env EnvProduction →
      er_Enabled (EvaluateFlag ns flag ctx)
      = (sticky_slot (eval_identifier ctx) (ff_Key flag) <? 100 * n)%Z.
Proof.
  intros Hwf Hpl Hp Hne Hk Hn Hpr. unfold UpdateRolloutByProject.
  rewrite or_default_nonempty, clamp_pct_whole by (done || lia).
  set (upd := rollout_one _ _ _ _ _). intros Hu.
  assert (keeps_names upd) as Hnames by done.
  destruct (update_by_project_read sys s p k upd r) as (j & f & Hf & Hm & Hg); try done;
    [by rewrite Hu|]. rewrite Hu in Hg.
  eexists. split; [exact Hg|]. intros ns ctx Henv.
  set (cfg := rollout_cfg (f64_of_Z n) (EnvConfig f (or_default env EnvProduction))).
  destruct (rollout_cfg_plain n _ (Hpr f Hf Hm) Hn) as (He & Hr & Hs & Hpc). fold cfg in He, Hr, Hs, Hpc.
  assert (reaches_strategy (snapshot_flag (upd j f).1) ctx cfg StrategyPercentage) as Hreach.
  { unfold reaches_strategy, no_rule. rewrite snapshot_flag_envs, Henv, Hr.
    split_and!; [by apply lookup_insert_eq|done| |done].
    intros rule Hin. by apply elem_of_nil in Hin. }
  rewrite (EvaluateFlag_percentage _ _ _ _ Hreach), percentage_result_enabled, Hpc.
  apply bucket_lt_whole; [auto with flagura|lia].
Qed.

(** *** Reading back a save *)

(** Apart from the flag a save replaces, no flag of the project answers to the
    saved key. *)
Definition sole_holder (s : MemoryStore) (flag : FeatureFlag) : Prop :=
  let replaced := fst <$> list_find (λ f, save_matches flag f = true) (flags_of s) in
  ∀ j g, replaced ≠ Some j → flags_of s !! j = Some g → ff_ProjectID g = ff_ProjectID flag →
    ff_Key g ≠ ff_Key flag ∧ ff_ID g ≠ ff_Key flag.

(** The flag a save stores. *)
Definition saved_flag (sys : Sys) (s : MemoryStore) (flag : FeatureFlag) : FeatureFlag :=
  match list_find (λ f, save_matches flag f = true) (flags_of s) with
  | Some (_, f) => save_updated (sys_now sys 0) flag f
  | None => save_created sys flag
  end.

Lemma saved_flag_names sys s flag :
  plain_ids s → no_colon (ff_ID flag) → no_colon (sys_rand sys 0) →
  ff_Key (saved_flag sys s flag) = ff_Key flag ∧
  ff_ProjectID (saved_flag sys s flag) = ff_ProjectID flag ∧
  ff_Environments (saved_flag sys s flag) = ff_Environments flag ∧
  no_colon (ff_ID (saved_flag sys s flag)).
Proof.
  intros Hpl Hid Hr. unfold saved_flag. destruct (list_find _ _) as [[i f]|] eqn:El.
  - apply list_find_Some in El as (Hi & _ & _). split_and!; [done..|].
    apply list_elem_of_lookup_2 in Hi. by apply (proj1 (Forall_forall _ _) Hpl f Hi).
  - split_and!; [done..|]. unfold save_created. simpl. case_if; [|done].
    unfold no_colon in *. rewrite !str_mem_append, Hr, Itoa_no_colon. done.
Qed.

Lemma save_plan_elem sys s flag actor g :
  sole_holder s flag → g ∈ (save_plan sys s flag actor).1 →
  g = saved_flag sys s flag ∨
  g ∈ flags_of s ∧
  (ff_ProjectID g = ff_ProjectID flag → ff_Key g ≠ ff_Key flag ∧ ff_ID g ≠ ff_Key flag).
Proof.
  unfold sole_holder, save_plan, saved_flag.
  destruct (list_find _ _) as [[i f]|] eqn:El; simpl; intros Hsole Hg.
  - apply list_elem_of_lookup in Hg as [j Hj]. rewrite list_lookup_insert in Hj.
    case_decide as Hd; [left; congruence|right].
    apply list_find_Some in El as (Hi & _ & _). apply lookup_lt_Some in Hi.
    split; [by eapply list_elem_of_lookup_2|]. intros Hp. apply (Hsole j); [|done|done].
    intros [= ->]. by apply Hd.
  - apply elem_of_cons in Hg as [->|Hg]; [by left|right]. split; [done|]. intros Hp.
    apply list_elem_of_lookup in Hg as [j Hj]. by apply (Hsole j).
Qed.

Lemma save_plan_saved sys s flag actor : saved_flag sys s flag ∈ (save_plan sys s flag actor).1.
Proof.
  unfold save_plan, saved_flag. destruct (list_find _ _) as [[i f]|] eqn:El; simpl; [|by left].
  apply list_find_Some in El as (Hi & _ & _). apply lookup_lt_Some in Hi.
  apply list_elem_of_lookup. exists i. by apply list_lookup_insert_eq.
Qed.

Lemma SaveFlag_snapshot sys s flag actor :
  TrimSpace (ff_ProjectID flag) ≠ "" →
  is_ok (SaveFlag sys s flag actor).2 = true ∧
  ms_flagsSnapshot (SaveFlag sys s flag actor).1
  = newFlagSnapshot (save_plan sys s flag (or_default actor "developer@flagura.dev")).1.
Proof.
  intros Ht. unfold SaveFlag. rewrite DeepCopy_id, (proj2 (str_eqb_neq _ _) Ht).
  destruct (save_plan _ _ _ _) as [new log]. case_if; [done|].
  pose proof (append_flags (sys_now sys 3) (store_flags s new) log) as [Ha _].
  by destruct (appendAuditLogLocked _ _ _).
Qed.

(** Save and read back: saving a flag under a key no other flag of its
    project answers to succeeds, and looking the key up returns the saved
    flag: its environments, with the next configuration version if it replaced
    one. *)
Theorem SaveFlag_roundtrip sys s flag actor :
  let p := ff_ProjectID flag in
  flags_wf s → plain_ids s → no_colon p → TrimSpace p ≠ "" → p ≠ "" →
  no_colon (ff_ID flag) → no_colon (sys_rand sys 0) → sole_holder s flag →
  let '(s', r) := SaveFlag sys s flag actor in
  is_ok r = true ∧
  GetFlagByProject s' p (ff_Key flag) = Ok (snapshot_flag (saved_flag sys s flag)) ∧
  ff_Environments (snapshot_flag (saved_flag sys s flag)) = ff_Environments flag.
Proof.
  intros p [Hs Hn] Hpl Hp Ht Hne Hid Hr Hsole.
  destruct (SaveFlag_snapshot sys s flag actor Ht) as [Hok Hsnap].
  destruct (SaveFlag sys s flag actor) as [s' r]. simpl in *.
  destruct (saved_flag_names sys s flag Hpl Hid Hr) as (Hkey & Hproj & Henv & Hsid).
  set (new := (save_plan _ _ _ _).1) in Hsnap.
  assert (∀ g, g ∈ new → g = saved_flag sys s flag ∨ g ∈ flags_of s ∧
    (ff_ProjectID g = p → ff_Key g ≠ ff_Key flag ∧ ff_ID g ≠ ff_Key flag)) as Helem
    by (intros g; by apply save_plan_elem).
  assert (flags_of s' = snapshot_flag <$> new) as Hfl by (unfold flags_of; by rewrite Hsnap).
  assert (flags_wf s') as Hwf'.
  { pose proof (flags_wf_store s new) as Hw. unfold flags_wf, flags_of in *. by rewrite Hsnap. }
  assert (plain_ids s') as Hpl'.
  { unfold plain_ids. rewrite Hfl. apply Forall_fmap, Forall_forall. intros g Hg. simpl.
    rewrite snapshot_flag_id, snapshot_flag_project.
    destruct (Helem g Hg) as [-> | [Hgs _]].
    - rewrite Hproj, or_default_nonempty by done. done.
    - rewrite or_default_nonempty by apply (proj1 (Forall_forall _ _) Hn g Hgs).
      by apply (proj1 (Forall_forall _ _) Hpl). }
  split; [done|]. split; [|by rewrite snapshot_flag_envs].
  destruct (GetFlagByProject_found s' p (ff_Key flag) (snapshot_flag (saved_flag sys s flag)))
    as [g Hg]; try done.
  { rewrite Hfl. apply list_elem_of_fmap_2. apply save_plan_saved. }
  { by rewrite snapshot_flag_project, Hproj, or_default_nonempty. }
  { left. by rewrite snapshot_flag_key. }
  rewrite Hg. f_equal.
  destruct (GetFlagByProject_Ok s' p (ff_Key flag) g) as (Hgin & Hgp & Hgk); try done.
  rewrite Hfl in Hgin. apply list_elem_of_fmap in Hgin as (g0 & -> & Hg0).
  destruct (Helem g0 Hg0) as [-> | [Hgs Hno]]; [done|exfalso].
  rewrite snapshot_flag_project, or_default_nonempty in Hgp
    by apply (proj1 (Forall_forall _ _) Hn g0 Hgs).
  rewrite snapshot_flag_key, snapshot_flag_id in Hgk.
  destruct (Hno Hgp) as [Hk1 Hk2]. by destruct Hgk.
Qed.

End Writes.

(** ** What the names do not guarantee *)

Definition named_flag (id p k : string) : FeatureFlag :=
  zero_FeatureFlag <| ff_ID := id |> <| ff_ProjectID := p |> <| ff_Key := k |>.

Definition store_with (flags : list FeatureFlag) : MemoryStore := store_flags NewMemoryStore flags.

(** A flag of one project whose identifier is "victim:checkout" is served as
    the flag "checkout" of the project "victim": the map that indexes flags
    does not separate the two names. *)
Theorem flag_identifier_crosses_projects :
  ∃ f, GetFlagByProject (store_with [named_flag "victim:checkout" "evil" "bait"]) "victim" "checkout"
    = Ok f ∧ ff_ProjectID f = "evil".
Proof. eexists. split; vm_compute; reflexivity. Qed.

(** Saving a flag under the identifier of one flag and the key of another
    leaves the project with two flags of the same key. *)
Theorem SaveFlag_duplicate_key sys :
  let s := store_with [named_flag "id1" "p" "a"; named_flag "id2" "p" "b"] in
  ff_Key <$> ListFlagsByProject (SaveFlag sys s (named_flag "id1" "p" "b") "snapshot_restore").1 "p"
  = ["b"; "b"].
Proof. vm_compute. reflexivity. Qed.

(** ** Instances *)

(** Two shops with a flag each, the first one rolled out to half its callers. *)
Definition shop_flag : FeatureFlag :=
  named_flag "flag_1" "shop" "checkout" <| ff_Environments := {[ EnvProduction := rollout_demo 50 ]} |>.

Definition shops : MemoryStore := store_with [shop_flag; named_flag "flag_2" "bakery" "checkout"].

Lemma shops_wf : flags_wf shops.
Proof. apply flags_wf_store. Qed.

Lemma shops_plain : plain_ids shops.
Proof. repeat constructor. Qed.

Lemma GetFlagByProject_isolated_witness :
  match GetFlagByProject shops "shop" "checkout" with
  | Ok f => f ∈ flags_of shops ∧ ff_ProjectID f = "shop" ∧ (ff_Key f = "checkout" ∨ ff_ID f = "checkout")
  | Err _ => ∀ f, f ∈ flags_of shops → ff_ProjectID f = "shop" → ff_Key f ≠ "checkout"
  end.
Proof.
  apply (GetFlagByProject_isolated shops "shop" "checkout");
    [apply shops_wf|apply shops_plain|done|done].
Defined.

Lemma flag_writes_isolated_witness :
  let '(s', ok) := run_flag_op (sys_at 9) shops "shop" "ada" (FDelete "checkout") in
  flags_wf s' ∧ other_projects "shop" (flags_of s') = other_projects "shop" (flags_of shops) ∧
  (ok = false → s' = shops).
Proof.
  apply (flag_writes_isolated (sys_at 9) shops "shop" "ada" (FDelete "checkout"));
    [done|apply shops_wf].
Defined.

Lemma flag_writes_keep_chain_witness :
  chain_ok (run_flag_op (sys_at 9) shops "shop" "ada" (FDelete "checkout")).1 "shop".
Proof.
  apply (flag_writes_keep_chain (sys_at 9) shops "shop" "ada"
    (FDelete "checkout") "shop"); [done|apply shops_wf|done].
Defined.

Lemma kill_switch_effective_witness :
  let s' := (ToggleFlagByProject (sys_at 9) shops "shop" "checkout" ""
    (Some false) "ada").1 in
  ∃ flag, GetFlagByProject s' "shop" "checkout" = Ok flag ∧
    ∀ ns ctx, eval_env ctx = EnvProduction →
      er_Enabled (EvaluateFlag (H := sample_runtime) ns flag ctx) = false.
Proof.
  destruct (ToggleFlagByProject _ _ _ _ _ _ _) as [s' [r|e]] eqn:E; [|by vm_compute in E].
  by apply (kill_switch_effective (H := sample_runtime) (sys_at 9) shops "shop" "checkout" "" "ada" s' r
    shops_wf shops_plain).
Defined.

Lemma rollout_effective_witness :
  let s' := (UpdateRolloutByProject (sys_at 9) shops "shop" "checkout" ""
    (f64_of_Z 20) "ada").1 in
  ∃ flag, GetFlagByProject s' "shop" "checkout" = Ok flag ∧
    ∀ ns ctx, eval_env ctx = EnvProduction →
      er_Enabled (EvaluateFlag (H := sample_runtime) ns flag ctx)
      = (sticky_slot (eval_identifier ctx) (ff_Key flag) <? 100 * 20)%Z.
Proof.
  destruct (UpdateRolloutByProject _ _ _ _ _ _ _) as [s' [r|e]] eqn:E; [|by vm_compute in E].
  apply (rollout_effective (H := sample_runtime) (sys_at 9) shops "shop" "checkout" "" 20 "ada" s' r
    shops_wf shops_plain); [done..| |exact E].
  change (flags_of shops) with [snapshot_flag shop_flag; snapshot_flag (named_flag "flag_2" "bakery" "checkout")].
  intros f Hf Hm. apply elem_of_cons in Hf as [->|Hf]; [by split_and!; [..|right]|].
  apply list_elem_of_singleton in Hf as ->. by vm_compute in Hm.
Defined.

Definition renamed_flag : FeatureFlag := shop_flag <| ff_Name := "Checkout" |>.

Lemma renamed_sole_holder : sole_holder shops renamed_flag.
Proof.
  unfold sole_holder. set (replaced := fst <$> _).
  assert (replaced = Some 0%nat) as -> by (vm_compute; reflexivity). intros [|[|j]] g Hj Hg Hp; [done| |done]. injection Hg as <-. by vm_compute in Hp.
Qed.

Lemma SaveFlag_roundtrip_witness :
  let '(s', r) := SaveFlag (sys_at 9) shops renamed_flag "ada" in
  is_ok r = true ∧
  GetFlagByProject s' (ff_ProjectID renamed_flag) (ff_Key renamed_flag)
    = Ok (snapshot_flag (saved_flag (sys_at 9) shops renamed_flag)) ∧
  ff_Environments (snapshot_flag (saved_flag (sys_at 9) shops renamed_flag))
    = ff_Environments renamed_flag.
Proof.
  refine (SaveFlag_roundtrip (sys_at 9) shops renamed_flag "ada" shops_wf shops_plain _ _ _ _ _
    renamed_sole_holder); done.
Defined.
