(* ===== verification/StoreGovernance.v ===== *)
(** * Change requests in the in-memory store ([pkg/store/memory.go])

    Creation, review and application of change requests, with the four-eyes
    rule as an invariant of every reachable store. *)

From S2P Require Import Prelude GoFloat GoStrings GoTime Sha256 Errors Domain Engine Buckets.
From S2P Require Import EngineFacts Entities StoreState StoreAudit StoreFlags StoreFlagsFacts.

(** ** Operations *)

Definition CreateChangeRequest (sys : Sys) (s : MemoryStore) (cr : ChangeRequest)
    : MemoryStore * result GoError ChangeRequest :=
  let now := sys_now sys 0 in
  let id :=
    if cr_ID cr =s? "" then "cr_" +:+ Itoa now +:+ "_" +:+ sys_rand sys 0 else cr_ID cr in
  let cr := cr <| cr_ID := id |> <| cr_Status := ChangeRequestStatusPending |>
               <| cr_CreatedAt := now |> in
  (s <| ms_changeRequests := <[cr_ID cr := cr]> (ms_changeRequests s) |>, Ok cr).

Definition cr_not_found (id : string) : GoError := EText ("change request not found: " +:+ id).

Definition GetChangeRequest (s : MemoryStore) (id : string) : result GoError ChangeRequest :=
  match ms_changeRequests s !! id with
  | None => Err (cr_not_found id)
  | Some cr => Ok cr
  end.

(** [it] is the order in which the runtime visits the map. *)
Definition ListChangeRequests (it : list (string * ChangeRequest)) (status : ChangeRequestStatus)
    : list ChangeRequest :=
  filter (λ cr, (status =s? "") || (cr_Status cr =s? status) = true) it.*2.

Definition ListChangeRequestsByProject (it : list (string * ChangeRequest)) (projectID : string)
    (status : ChangeRequestStatus) : list ChangeRequest :=
  let projectID := or_default projectID DefaultProjectID in
  filter (λ cr, (cr_ProjectID cr =s? projectID) &&
                ((status =s? "") || (cr_Status cr =s? status)) = true) it.*2.

Definition ReviewChangeRequest (sys : Sys) (s : MemoryStore)
    (id reviewerID reviewerEmail reviewerName : string) (approved : bool) (comments : string)
    : MemoryStore * result GoError ChangeRequest :=
  match ms_changeRequests s !! id with
  | None => (s, Err (cr_not_found id))
  | Some cr =>
      match Review (sys_now sys 0) cr reviewerID reviewerEmail reviewerName approved comments with
      | Err e => (s, Err e)
      | Ok cr => (s <| ms_changeRequests := <[id := cr]> (ms_changeRequests s) |>, Ok cr)
      end
  end.

Definition target_not_found (cr : ChangeRequest) : GoError :=
  EText ("target flag not found: " +:+ cr_FlagKey cr).

(** The flag with the proposed configuration in place. *)
Definition apply_to (now : Time) (cr : ChangeRequest) (f : FeatureFlag) : FeatureFlag :=
  f <| ff_Environments :=
         <[cr_Environment cr := Config_DeepCopy (cr_ProposedConfig cr)]> (ff_Environments f) |>
    <| ff_UpdatedAt := now |> <| ff_ConfigVersion := bump (ff_ConfigVersion f) |>.

Definition version_conflict (cr : ChangeRequest) (f : FeatureFlag) : bool :=
  (0 <? cr_BaseConfigVersion cr)%Z && negb (ff_ConfigVersion f =? cr_BaseConfigVersion cr)%Z.

(** The loop over the flags; [None] is the early return on a version conflict.
    [k] counts the readings of the clock. *)
Fixpoint apply_loop (sys : Sys) (cr : ChangeRequest) (crProj : string) (k : nat)
    (flags : list FeatureFlag) : option (list FeatureFlag * option FeatureFlag * nat) :=
  match flags with
  | [] => Some ([], None, k)
  | f :: flags' =>
      let flagCopy := DeepCopy f in
      if flag_matches crProj (cr_FlagKey cr) flagCopy then
        if version_conflict cr flagCopy then None
        else
          let f' := apply_to (sys_now sys k) cr flagCopy in
          match apply_loop sys cr crProj (S k) flags' with
          | None => None
          | Some (fs, last, k') => Some (f' :: fs, Some (default f' last), k')
          end
      else
        match apply_loop sys cr crProj k flags' with
        | None => None
        | Some (fs, last, k') => Some (flagCopy :: fs, last, k')
        end
  end.

Definition ApplyChangeRequest (sys : Sys) (s : MemoryStore) (id actor : string)
    : MemoryStore * result GoError (FeatureFlag * ChangeRequest * AuditLogEntry) :=
  match ms_changeRequests s !! id with
  | None => (s, Err (cr_not_found id))
  | Some cr =>
      if negb (cr_Status cr =s? ChangeRequestStatusApproved) then
        (s, Err (EText ("cannot apply change request with status '" +:+ cr_Status cr +:+
                        "' (must be APPROVED)")))
      else
        let crProj := or_default (cr_ProjectID cr) DefaultProjectID in
        match apply_loop sys cr crProj 0 (flags_of s) with
        | None => (s, Err (ESentinel ErrChangeRequestConflict))
        | Some (_, None, _) => (s, Err (target_not_found cr))
        | Some (newList, Some updatedFlag, k) =>
            let now := sys_now sys k in
            let cr := cr <| cr_Status := ChangeRequestStatusApplied |>
                         <| cr_AppliedAt := Some now |> in
            let s := s <| ms_changeRequests := <[id := cr]> (ms_changeRequests s) |> in
            let audit := mkAudit ("audit_" +:+ Itoa now) (ff_ProjectID updatedFlag) now actor
              "APPLY_CHANGE_REQUEST" (ff_Key updatedFlag) (cr_Environment cr)
              ("Applied ChangeRequest " +:+ id +:+ " by reviewer " +:+ cr_ReviewerEmail cr +:+
               " for " +:+ cr_Environment cr) "" "" in
            let '(s, audit) := appendAuditLogLocked (sys_now sys (S k)) s audit in
            (store_flags s newList, Ok (updatedFlag, cr, audit))
        end
  end.

(** ** One application *)

Lemma apply_loop_Forall2 sys cr p k flags new last k' :
  apply_loop sys cr p k flags = Some (new, last, k') →
  Forall2 (λ f f', if flag_matches p (cr_FlagKey cr) f
                   then version_conflict cr f = false ∧ ∃ j, f' = apply_to (sys_now sys j) cr f
                   else f' = f) flags new ∧
  match last with
  | Some f' => ∃ f j, f ∈ flags ∧ flag_matches p (cr_FlagKey cr) f = true ∧
                 f' = apply_to (sys_now sys j) cr f
  | None => Forall (λ f, flag_matches p (cr_FlagKey cr) f = false) flags
  end.
Proof.
  revert k new last k'. induction flags as [|f flags IH]; intros k new last k'; simpl.
  { intros [= <- <- <-]. done. }
  rewrite DeepCopy_id. destruct (flag_matches p (cr_FlagKey cr) f) eqn:Em.
  - destruct (version_conflict cr f) eqn:Ev; [done|].
    destruct (apply_loop sys cr p (S k) flags) as [[[fs l] k1]|] eqn:El; [|done].
    intros [= <- <- <-]. destruct (IH _ _ _ _ El) as [H2 Hl]. split.
    + constructor; [|done]. rewrite Em. eauto.
    + destruct l as [g|]; simpl; [|exists f, k; split; [by left|done]].
      destruct Hl as (f0 & j & Hf0 & Hm & ->). exists f0, j. split; [by right|done].
  - destruct (apply_loop sys cr p k flags) as [[[fs l] k1]|] eqn:El; [|done].
    intros [= <- <- <-]. destruct (IH _ _ _ _ El) as [H2 Hl]. split.
    + constructor; [|done]. by rewrite Em.
    + destruct l as [g|]; [|by constructor].
      destruct Hl as (f0 & j & Hf0 & Hm & ->). exists f0, j. split; [by right|done].
Qed.

Lemma apply_loop_conflict sys cr p k flags :
  apply_loop sys cr p k flags = None →
  ∃ f, f ∈ flags ∧ flag_matches p (cr_FlagKey cr) f = true ∧ version_conflict cr f = true.
Proof.
  revert k. induction flags as [|f flags IH]; intros k; simpl; [done|]. rewrite DeepCopy_id.
  destruct (flag_matches p (cr_FlagKey cr) f) eqn:Em.
  - destruct (version_conflict cr f) eqn:Ev; [exists f; split; [by left|done]|].
    destruct (apply_loop sys cr p (S k) flags) as [[[fs l] k1]|] eqn:El; [done|].
    intros _. destruct (IH _ El) as (g & Hg & Hr). exists g. split; [by right|done].
  - destruct (apply_loop sys cr p k flags) as [[[fs l] k1]|] eqn:El; [done|].
    intros _. destruct (IH _ El) as (g & Hg & Hr). exists g. split; [by right|done].
Qed.

Lemma append_changeRequests now s e :
  ms_changeRequests (appendAuditLogLocked now s e).1 = ms_changeRequests s.
Proof. unfold appendAuditLogLocked. by destruct (list_find _ _) as [[i l]|]. Qed.

Lemma ApplyChangeRequest_Ok sys s id actor f cr' audit :
  (ApplyChangeRequest sys s id actor).2 = Ok (f, cr', audit) →
  ∃ cr new, ms_changeRequests s !! id = Some cr ∧ cr_Status cr = ChangeRequestStatusApproved ∧
    (∃ now, cr' = cr <| cr_Status := ChangeRequestStatusApplied |> <| cr_AppliedAt := Some now |>) ∧
    (∃ k last k', apply_loop sys cr (or_default (cr_ProjectID cr) DefaultProjectID) k (flags_of s)
       = Some (new, last, k')) ∧
    (∃ f0 j, f0 ∈ flags_of s ∧
       flag_matches (or_default (cr_ProjectID cr) DefaultProjectID) (cr_FlagKey cr) f0 = true ∧
       f = apply_to (sys_now sys j) cr f0) ∧
    ms_flagsSnapshot (ApplyChangeRequest sys s id actor).1 = newFlagSnapshot new ∧
    ms_changeRequests (ApplyChangeRequest sys s id actor).1
      = <[id := cr']> (ms_changeRequests s).
Proof.
  unfold ApplyChangeRequest. destruct (ms_changeRequests s !! id) as [cr|] eqn:Ec; [|done].
  destruct (cr_Status cr =s? ChangeRequestStatusApproved) eqn:Es; simpl; [|done].
  destruct (apply_loop _ _ _ _ _) as [[[new [uf|]] k]|] eqn:El; [|done..].
  match goal with |- context [appendAuditLogLocked ?now ?s0 ?log] =>
    pose proof (append_changeRequests now s0 log) as Ha;
    destruct (appendAuditLogLocked now s0 log) as [s1 a1] end.
  simpl in *. intros [= <- <- <-]. exists cr, new. simp_bool.
  destruct (apply_loop_Forall2 _ _ _ _ _ _ _ _ El) as [_ (f0 & j & Hf0 & Hm & Hf)].
  split_and!; [done|done|by eexists|by eexists _, _, _|by exists f0, j|done|done].
Qed.

(** Applying a change request succeeds only on an approved one whose base
    version, if it names one, is still the version of the target flag; it puts
    exactly the proposed configuration into the named environment, leaves the
    flag's other environments alone, increments the version, and marks the
    request as applied. *)
Theorem ApplyChangeRequest_effect sys s id actor f cr' audit :
  (ApplyChangeRequest sys s id actor).2 = Ok (f, cr', audit) →
  ∃ cr f0, ms_changeRequests s !! id = Some cr ∧ f0 ∈ flags_of s ∧
    cr_Status cr = ChangeRequestStatusApproved ∧
    (cr_BaseConfigVersion cr = 0 ∨ (cr_BaseConfigVersion cr < 0)%Z ∨
     ff_ConfigVersion f0 = cr_BaseConfigVersion cr)%Z ∧
    ff_Key f = ff_Key f0 ∧ ff_ProjectID f = ff_ProjectID f0 ∧
    ff_ConfigVersion f = bump (ff_ConfigVersion f0) ∧
    ff_Environments f = <[cr_Environment cr := cr_ProposedConfig cr]> (ff_Environments f0) ∧
    ms_changeRequests (ApplyChangeRequest sys s id actor).1 !! id = Some cr' ∧
    cr_Status cr' = ChangeRequestStatusApplied.
Proof.
  intros Hok. destruct (ApplyChangeRequest_Ok _ _ _ _ _ _ _ Hok)
    as (cr & new & Hc & Hs & (now & Hcr') & (k & last & k' & Hl) & (f0 & j & Hf0 & Hm & Hf) & _ & Hm').
  exists cr, f0. destruct (apply_loop_Forall2 _ _ _ _ _ _ _ _ Hl) as [H2 _].
  apply list_elem_of_lookup in Hf0 as Hf0'. destruct Hf0' as [i Hi].
  destruct (Forall2_lookup_l _ _ _ _ _ H2 Hi) as (f1 & _ & Hv). rewrite Hm in Hv.
  destruct Hv as [Hv _]. rewrite Hm', lookup_insert_eq. subst f cr'.
  split_and!; try done; [|simpl; by rewrite Config_DeepCopy_id].
  unfold version_conflict in Hv. apply andb_false_iff in Hv as [Hv|Hv]; simp_bool; lia.
Qed.

(** A change request based on an older version of the flag is refused with
    the conflict error, and nothing changes: no concurrent edit is lost. *)
Theorem ApplyChangeRequest_conflict sys s id actor cr f :
  ms_changeRequests s !! id = Some cr → cr_Status cr = ChangeRequestStatusApproved →
  f ∈ flags_of s → flag_project f = or_default (cr_ProjectID cr) DefaultProjectID →
  ff_Key f = cr_FlagKey cr → (0 < cr_BaseConfigVersion cr)%Z →
  ff_ConfigVersion f ≠ cr_BaseConfigVersion cr →
  ApplyChangeRequest sys s id actor = (s, Err (ESentinel ErrChangeRequestConflict)).
Proof.
  intros Hc Hs Hf Hp Hk Hb Hv. unfold ApplyChangeRequest. rewrite Hc, Hs. simpl.
  destruct (apply_loop _ _ _ _ _) as [[[new last] k]|] eqn:El; [exfalso|done].
  destruct (apply_loop_Forall2 _ _ _ _ _ _ _ _ El) as [H2 _].
  apply list_elem_of_lookup in Hf as [i Hi].
  destruct (Forall2_lookup_l _ _ _ _ _ H2 Hi) as (f1 & _ & Hm).
  unfold flag_matches in Hm. rewrite Hp, Hk, !str_eqb_refl in Hm. simpl in Hm.
  destruct Hm as [Hm _]. unfold version_conflict in Hm.
  apply andb_false_iff in Hm as [Hm|Hm]; simp_bool; [lia|done].
Qed.

(** ** The four-eyes rule *)

(** One step of the store as far as change requests go: one of the three
    operations, or any operation that leaves the requests alone. *)
Inductive gov_step (s : MemoryStore) : MemoryStore → Prop :=
| gov_create sys cr : gov_step s (CreateChangeRequest sys s cr).1
| gov_review sys id rid remail rname approved comments :
    gov_step s (ReviewChangeRequest sys s id rid remail rname approved comments).1
| gov_apply sys id actor : gov_step s (ApplyChangeRequest sys s id actor).1
| gov_other s' : ms_changeRequests s' = ms_changeRequests s → gov_step s s'.

Inductive gov_reachable : MemoryStore → Prop :=
| gov_start : gov_reachable NewMemoryStore
| gov_next s s' : gov_reachable s → gov_step s s' → gov_reachable s'.

(** A request that is no longer pending was reviewed by someone other than its
    author, at some time; an applied one was applied at some time. *)
Definition four_eyes (cr : ChangeRequest) : Prop :=
  cr_Status cr = ChangeRequestStatusPending ∨
  cr_Status cr ∈ [ChangeRequestStatusApproved; ChangeRequestStatusRejected;
                  ChangeRequestStatusApplied] ∧
  cr_ReviewerUserID cr ≠ cr_AuthorUserID cr ∧ is_Some (cr_ReviewedAt cr) ∧
  (cr_Status cr = ChangeRequestStatusApplied → is_Some (cr_AppliedAt cr)).

Definition four_eyes_store (s : MemoryStore) : Prop :=
  map_Forall (λ _ cr, four_eyes cr) (ms_changeRequests s).

Lemma Review_four_eyes now cr rid remail rname approved comments cr' :
  Review now cr rid remail rname approved comments = Ok cr' → four_eyes cr'.
Proof.
  unfold Review. destruct (cr_Status cr =s? _); simpl; [|done].
  destruct (cr_AuthorUserID cr =s? rid) eqn:E; [done|]. intros [= <-]. right. simp_bool. simpl.
  destruct approved; (split_and!; [set_solver|congruence|done|done]).
Qed.

Lemma four_eyes_step s s' : gov_step s s' → four_eyes_store s → four_eyes_store s'.
Proof.
  intros Hstep Hinv. unfold four_eyes_store in *. destruct Hstep as [sys cr|sys id ? ? ? ? ?|sys id actor|s' Heq].
  - simpl. apply map_Forall_insert_2; [|done]. by left.
  - unfold ReviewChangeRequest. destruct (ms_changeRequests s !! id) as [cr|]; [|done].
    destruct (Review _ _ _ _ _ _ _) as [cr'|e] eqn:Er; [|done]. simpl.
    apply map_Forall_insert_2; [|done]. by eapply Review_four_eyes.
  - destruct ((ApplyChangeRequest sys s id actor).2) as [[[f cr'] audit]|e] eqn:Eo.
    + destruct (ApplyChangeRequest_Ok _ _ _ _ _ _ _ Eo)
        as (cr & new & Hc & Hs & (now & ->) & _ & _ & _ & ->).
      apply map_Forall_insert_2; [|done]. specialize (Hinv _ _ Hc). simpl in Hinv.
      destruct Hinv as [Hp|(_ & Hr & Ht & _)]; [rewrite Hs in Hp; done|].
      right. simpl. split_and!; [set_solver|done|done|done].
    + revert Eo. unfold ApplyChangeRequest. destruct (ms_changeRequests s !! id) as [cr|]; [|done].
      destruct (negb _); [done|].
      destruct (apply_loop _ _ _ _ _) as [[[new [uf|]] k]|]; [|done..].
      by destruct (appendAuditLogLocked _ _ _).
  - by rewrite Heq.
Qed.

(** The four-eyes rule holds in every store the operations can reach: no
    change request is ever approved, rejected or applied without a review by
    somebody other than its author. *)
Theorem four_eyes_invariant s id cr :
  gov_reachable s → ms_changeRequests s !! id = Some cr → four_eyes cr.
Proof.
  intros Hr. assert (four_eyes_store s) as Hinv; [|by apply (Hinv id)].
  induction Hr as [|s0 s' _ IH Hstep]; [apply map_Forall_empty|]. by eapply four_eyes_step.
Qed.

(** A change request takes effect at most once: right after a successful
    application a second one is refused and changes nothing. *)
Theorem ApplyChangeRequest_once sys sys' s id actor actor' r :
  (ApplyChangeRequest sys s id actor).2 = Ok r →
  let s' := (ApplyChangeRequest sys s id actor).1 in
  (ApplyChangeRequest sys' s' id actor').1 = s' ∧
  is_ok (ApplyChangeRequest sys' s' id actor').2 = false.
Proof.
  destruct r as [[f cr'] audit]. intros Hok s'.
  destruct (ApplyChangeRequest_Ok _ _ _ _ _ _ _ Hok)
    as (cr & new & _ & _ & (now & Hcr') & _ & _ & _ & Hm). fold s' in Hm.
  unfold ApplyChangeRequest. rewrite Hm, lookup_insert_eq. by subst cr'.
Qed.

(** ** Instances *)

Definition turned_off : EnvironmentConfig := zero_EnvironmentConfig.

(** Ada asks for the checkout of the shop to be turned off; [base] is the
    version she saw. *)
Definition demo_request (base : Z) : ChangeRequest :=
  mkCR "cr_1" "shop" "checkout" EnvProduction "Stop" "" "usr_ada" "ada@x" "Ada" turned_off base
    ChangeRequestStatusPending "" "" "" "" 0 None None.

(** The shop after Bob has approved the request. *)
Definition approved_shop (base : Z) : MemoryStore :=
  (ReviewChangeRequest (sys_at 8) (CreateChangeRequest (sys_at 7) shops (demo_request base)).1
     "cr_1" "usr_bob" "bob@x" "Bob" true "fine").1.

Definition approved_request (base : Z) : ChangeRequest :=
  demo_request base <| cr_CreatedAt := 7%Z |> <| cr_Status := ChangeRequestStatusApproved |>
    <| cr_ReviewerUserID := "usr_bob" |> <| cr_ReviewerEmail := "bob@x" |>
    <| cr_ReviewerName := "Bob" |> <| cr_ReviewComments := "fine" |> <| cr_ReviewedAt := Some 8%Z |>.

Lemma four_eyes_invariant_witness :
  let s1 := (CreateChangeRequest (sys_at 7) NewMemoryStore (demo_request 1)).1 in
  let s2 := (ReviewChangeRequest (sys_at 8) s1 "cr_1" "usr_bob" "bob@x" "Bob" true "fine").1 in
  ms_changeRequests s2 !! "cr_1" = Some (approved_request 1) ∧ four_eyes (approved_request 1).
Proof.
  intros s1 s2. split; [vm_compute; reflexivity|].
  apply (four_eyes_invariant s2 "cr_1"); [|vm_compute; reflexivity].
  apply (gov_next s1); [apply (gov_next NewMemoryStore); [apply gov_start|apply gov_create]|].
  apply gov_review.
Defined.

Lemma ApplyChangeRequest_effect_witness :
  ∃ f cr' audit, (ApplyChangeRequest (sys_at 9) (approved_shop 1) "cr_1" "bob").2 = Ok (f, cr', audit) ∧
  ∃ cr f0, ms_changeRequests (approved_shop 1) !! "cr_1" = Some cr ∧ f0 ∈ flags_of (approved_shop 1) ∧
    cr_Status cr = ChangeRequestStatusApproved ∧
    (cr_BaseConfigVersion cr = 0 ∨ (cr_BaseConfigVersion cr < 0)%Z ∨
     ff_ConfigVersion f0 = cr_BaseConfigVersion cr)%Z ∧
    ff_Key f = ff_Key f0 ∧ ff_ProjectID f = ff_ProjectID f0 ∧
    ff_ConfigVersion f = bump (ff_ConfigVersion f0) ∧
    ff_Environments f = <[cr_Environment cr := cr_ProposedConfig cr]> (ff_Environments f0) ∧
    ms_changeRequests (ApplyChangeRequest (sys_at 9) (approved_shop 1) "cr_1" "bob").1 !! "cr_1"
      = Some cr' ∧
    cr_Status cr' = ChangeRequestStatusApplied.
Proof.
  destruct ((ApplyChangeRequest (sys_at 9) (approved_shop 1) "cr_1" "bob").2) as [[[f cr'] audit]|e] eqn:E;
    [|by vm_compute in E].
  exists f, cr', audit. split; [reflexivity|].
  exact (ApplyChangeRequest_effect (sys_at 9) (approved_shop 1) "cr_1" "bob" f cr' audit E).
Defined.

Lemma ApplyChangeRequest_conflict_witness :
  ApplyChangeRequest (sys_at 9) (approved_shop 4) "cr_1" "bob"
  = (approved_shop 4, Err (ESentinel ErrChangeRequestConflict)).
Proof.
  apply (ApplyChangeRequest_conflict (sys_at 9) (approved_shop 4) "cr_1" "bob" (approved_request 4)
    (snapshot_flag shop_flag)); first [by vm_compute | by left | done].
Defined.

Lemma ApplyChangeRequest_once_witness :
  let s' := (ApplyChangeRequest (sys_at 9) (approved_shop 1) "cr_1" "bob").1 in
  (ApplyChangeRequest (sys_at 10) s' "cr_1" "eve").1 = s' ∧
  is_ok (ApplyChangeRequest (sys_at 10) s' "cr_1" "eve").2 = false.
Proof.
  destruct ((ApplyChangeRequest (sys_at 9) (approved_shop 1) "cr_1" "bob").2) as [r|e] eqn:E;
    [|by vm_compute in E].
  exact (ApplyChangeRequest_once (sys_at 9) (sys_at 10) (approved_shop 1) "cr_1" "bob" "eve" r E).
Defined.
