(* ===== verification/StoreIdentity.v ===== *)
(** * Users, credentials and tenants in the in-memory store
    ([pkg/store/memory.go])

    Users are kept under their e-mail and their identifier, organizations under
    identifier and slug, projects under three keys, invitations under token and
    identifier.  A loop over a map that deletes or updates the selected entries
    is a filter or a map over it; a loop that collects entries takes the order
    [it] in which the runtime visits the map.  Reading the system's random
    source does not fail. *)

From S2P Require Import Prelude GoFloat GoStrings GoTime Sha256 Errors Domain Entities StoreState.
From S2P Require Import StoreAudit.

(** [if !seen[x.ID] && sel(x) { seen[x.ID] = true; append x }]. *)
Fixpoint collect {A} (id : A → string) (sel : A → bool) (seen : list string) (l : list A) : list A :=
  match l with
  | [] => []
  | x :: l' =>
      if negb (existsb (str_eqb (id x)) seen) && sel x
      then x :: collect id sel (id x :: seen) l'
      else collect id sel seen l'
  end.

(** ** Users and sessions *)

Definition no_user_email (email : string) : GoError :=
  EText ("user not found with email: " +:+ email).
Definition no_user_id (id : string) : GoError := EText ("user not found with ID: " +:+ id).

Definition CreateUser (sys : Sys) (s : MemoryStore) (user : User)
    : MemoryStore * result GoError User :=
  match ms_users s !! us_Email user with
  | Some _ => (s, Err (EText ("user with email " +:+ us_Email user +:+ " already exists")))
  | None =>
      let fresh := us_ID user =s? "" in
      let id :=
        if fresh then "usr_" +:+ Itoa (sys_now sys 0) +:+ "_" +:+ sys_rand sys 0 else us_ID user in
      let now := sys_now sys (if fresh then 1 else 0) in
      let user := user <| us_ID := id |> <| us_CreatedAt := now |> <| us_UpdatedAt := now |> in
      (s <| ms_users := <[us_ID user := user]> (<[us_Email user := user]> (ms_users s)) |>, Ok user)
  end.

Definition ListUsers (it : list (string * User)) : list User :=
  (λ u, u <| us_PasswordHash := "" |>) <$> collect us_ID (λ _, true) [] it.*2.

Definition GetUserByEmail (s : MemoryStore) (email : string) : result GoError User :=
  match ms_users s !! email with None => Err (no_user_email email) | Some u => Ok u end.

Definition GetUserByID (s : MemoryStore) (id : string) : result GoError User :=
  match ms_users s !! id with None => Err (no_user_id id) | Some u => Ok u end.

Definition CreateSession (s : MemoryStore) (session : Session) : MemoryStore :=
  s <| ms_sessions := <[ss_Token session := session]> (ms_sessions s) |>.

Definition GetSession (sys : Sys) (s : MemoryStore) (token : string) : result GoError Session :=
  match ms_sessions s !! token with
  | None => Err (EText "session not found")
  | Some sess =>
      if Session_IsExpired (sys_now sys 0) sess then Err (EText "session expired")
      else
        match ms_users s !! ss_UserID sess with
        | Some user => Ok (sess <| ss_User := Some user |>)
        | None => Ok sess
        end
  end.

Definition DeleteSession (s : MemoryStore) (token : string) : MemoryStore :=
  s <| ms_sessions := delete token (ms_sessions s) |>.

Definition drop_sessions (userID : string) (sessions : gmap string Session) : gmap string Session :=
  filter (λ ts, ss_UserID ts.2 ≠ userID) sessions.

Definition DeleteUserSessions (s : MemoryStore) (userID : string) : MemoryStore :=
  s <| ms_sessions := drop_sessions userID (ms_sessions s) |>.

(** Point the sessions of a user at its new value. *)
Definition refresh_sessions (user : User) (sessions : gmap string Session) : gmap string Session :=
  (λ sess, if ss_UserID sess =s? us_ID user then sess <| ss_User := Some user |> else sess)
    <$> sessions.

Definition UpdateUser (sys : Sys) (s : MemoryStore) (user : User)
    : MemoryStore * result GoError User :=
  match ms_users s !! us_ID user with
  | None => (s, Err (no_user_id (us_ID user)))
  | Some existing =>
      let existing :=
        if negb (us_Name user =s? "") then existing <| us_Name := us_Name user |> else existing in
      let existing :=
        if negb (us_Role user =s? "") then existing <| us_Role := us_Role user |> else existing in
      let existing := existing <| us_AvatarURL := us_AvatarURL user |>
                               <| us_UpdatedAt := sys_now sys 0 |> in
      (s <| ms_users :=
              <[us_Email existing := existing]> (<[us_ID existing := existing]> (ms_users s)) |>
         <| ms_sessions := refresh_sessions existing (ms_sessions s) |>, Ok existing)
  end.

Definition UpdateUserPassword (sys : Sys) (s : MemoryStore) (userID newPasswordHash : string)
    : MemoryStore * option GoError :=
  match ms_users s !! userID with
  | None => (s, Some (no_user_id userID))
  | Some user =>
      let user := user <| us_PasswordHash := newPasswordHash |>
                       <| us_UpdatedAt := sys_now sys 0 |> in
      (s <| ms_users := <[us_Email user := user]> (<[us_ID user := user]> (ms_users s)) |>
         <| ms_sessions := refresh_sessions user (ms_sessions s) |>, None)
  end.

(** ** Password reset *)

Definition CreatePasswordResetToken (sys : Sys) (s : MemoryStore) (email : string) (ttl : Duration)
    : MemoryStore * result GoError string :=
  match ms_users s !! email with
  | None => (s, Err (no_user_email email))
  | Some user =>
      let token := "flg_rst_" +:+ sys_rand sys 0 in
      let now := sys_now sys 0 in
      let t := mkResetToken token (us_Email user) (time_add now ttl) false now in
      (s <| ms_passwordResetTokens := <[token := t]> (ms_passwordResetTokens s) |>, Ok token)
  end.

Definition GetPasswordResetToken (s : MemoryStore) (token : string)
    : result GoError PasswordResetToken :=
  match ms_passwordResetTokens s !! token with
  | None => Err (EText "invalid or expired password reset token")
  | Some t => Ok t
  end.

Definition ResetPasswordWithToken (sys : Sys) (s : MemoryStore) (token newPasswordHash : string)
    : MemoryStore * option GoError :=
  match ms_passwordResetTokens s !! token with
  | None => (s, Some (EText "invalid or expired reset token"))
  | Some t =>
      if pr_Used t then (s, Some (EText "reset token has already been used"))
      else if ResetToken_IsExpired (sys_now sys 0) t then
        (s, Some (EText "reset token has expired"))
      else
        match ms_users s !! pr_Email t with
        | None => (s, Some (EText "user associated with token not found"))
        | Some user =>
            let user := user <| us_PasswordHash := newPasswordHash |>
                             <| us_UpdatedAt := sys_now sys 1 |> in
            (s <| ms_users := <[us_ID user := user]> (<[us_Email user := user]> (ms_users s)) |>
               <| ms_passwordResetTokens :=
                    <[token := t <| pr_Used := true |>]> (ms_passwordResetTokens s) |>
               <| ms_sessions := drop_sessions (us_ID user) (ms_sessions s) |>, None)
        end
  end.

(** ** API keys *)

Definition CreateAPIKey (sys : Sys) (s : MemoryStore) (key : APIKey) : MemoryStore * APIKey :=
  let fresh := ak_ID key =s? "" in
  let id :=
    if fresh then "key_" +:+ Itoa (sys_now sys 0) +:+ "_" +:+ sys_rand sys 0 else ak_ID key in
  let now := sys_now sys (if fresh then 1 else 0) in
  let key := key <| ak_ID := id |>
                 <| ak_ProjectID := or_default (ak_ProjectID key) DefaultProjectID |>
                 <| ak_Environment := or_default (ak_Environment key) "production" |>
                 <| ak_CreatedAt := now |> <| ak_Revoked := false |> in
  let s := s <| ms_apiKeys := <[ak_ID key := key]> (ms_apiKeys s) |> in
  let s :=
    if negb (ak_KeyHash key =s? "")
    then s <| ms_apiKeysByHash := <[ak_KeyHash key := ak_ID key]> (ms_apiKeysByHash s) |> else s in
  (s, key).

Definition redact (k : APIKey) : APIKey := k <| ak_Key := "" |> <| ak_KeyHash := "" |>.

Definition ListAPIKeys (it : list (string * APIKey)) : list APIKey := redact <$> it.*2.

Definition ListAPIKeysByProject (it : list (string * APIKey)) (projectID : string) : list APIKey :=
  let projectID := or_default projectID DefaultProjectID in
  redact <$> filter (λ k, ak_ProjectID k = projectID) it.*2.

Definition GetAPIKeyByHash (sys : Sys) (s : MemoryStore) (hash : string)
    : MemoryStore * result GoError APIKey :=
  match ms_apiKeysByHash s !! hash with
  | None => (s, Err (EText "api key not found"))
  | Some id =>
      match ms_apiKeys s !! id with
      | None => (s, Err (EText "api key revoked or not found"))
      | Some key =>
          if ak_Revoked key then (s, Err (EText "api key revoked or not found"))
          else
            let key := key <| ak_LastUsedAt := Some (sys_now sys 0) |> in
            (s <| ms_apiKeys := <[id := key]> (ms_apiKeys s) |>, Ok key)
      end
  end.

Definition key_not_found (id : string) : GoError := EText ("api key not found: " +:+ id).

Definition GetAPIKeyByID (s : MemoryStore) (id : string) : result GoError APIKey :=
  match ms_apiKeys s !! id with
  | None => Err (key_not_found id)
  | Some key => Ok (key <| ak_KeyHash := "" |>)
  end.

(** What both revocations do to the key. *)
Definition revoke (s : MemoryStore) (id : string) (key : APIKey) : MemoryStore :=
  s <| ms_apiKeys := <[id := key <| ak_Revoked := true |>]> (ms_apiKeys s) |>
    <| ms_apiKeysByHash := delete (ak_KeyHash key) (ms_apiKeysByHash s) |>.

Definition revoke_audit (sys : Sys) (projectID actor details : string) : AuditLogEntry :=
  mkAudit ("audit_" +:+ Itoa (sys_now sys 0)) projectID (sys_now sys 1) actor "API_KEY_REVOKED"
    "api-keys" "all" details "" "".

Definition RevokeAPIKey (sys : Sys) (s : MemoryStore) (id actor : string)
    : MemoryStore * option GoError :=
  match ms_apiKeys s !! id with
  | None => (s, Some (key_not_found id))
  | Some key =>
      let audit := revoke_audit sys "" actor
        ("Revoked API Key '" +:+ ak_Name key +:+ "' (" +:+ ak_ID key +:+ ")") in
      ((appendAuditLogLocked (sys_now sys 2) (revoke s id key) audit).1, None)
  end.

Definition RevokeAPIKeyByProject (sys : Sys) (s : MemoryStore) (projectID id actor : string)
    : MemoryStore * option GoError :=
  match ms_apiKeys s !! id with
  | None => (s, Some (key_not_found id))
  | Some key =>
      if negb (ak_ProjectID key =s? projectID) then
        (s, Some (EText ("api key '" +:+ id +:+ "' does not belong to project '" +:+ projectID +:+
                         "'")))
      else
        let audit := revoke_audit sys projectID actor
          ("Revoked API Key '" +:+ ak_Name key +:+ "' (" +:+ ak_ID key +:+ ") in project " +:+
           projectID) in
        ((appendAuditLogLocked (sys_now sys 2) (revoke s id key) audit).1, None)
  end.
