(* ===== verification/StoreTenancy.v ===== *)
(** * Organizations, projects, members and invitations in the in-memory store
    ([pkg/store/memory.go]) *)

From S2P Require Import Prelude GoFloat GoStrings GoTime Sha256 Errors Domain Entities StoreState.
From S2P Require Import StoreAudit StoreIdentity.

Definition fresh_id (prefix : string) (sys : Sys) : string :=
  prefix +:+ Itoa (sys_now sys 0) +:+ "_" +:+ sys_rand sys 0.

(** ** Organizations *)

Definition CreateOrganization (sys : Sys) (s : MemoryStore) (org : Organization)
    : MemoryStore * result GoError Organization :=
  let fresh := og_ID org =s? "" in
  let org := org <| og_ID := if fresh then fresh_id "org_" sys else og_ID org |> in
  let org := org <| og_Slug := or_default (og_Slug org) (og_ID org) |> in
  match ms_orgs s !! og_ID org with
  | Some _ => (s, Err (EText ("organization already exists with ID: " +:+ og_ID org)))
  | None =>
      match ms_orgs s !! og_Slug org with
      | Some _ => (s, Err (EText ("organization already exists with slug: " +:+ og_Slug org)))
      | None =>
          let now := sys_now sys (if fresh then 1 else 0) in
          let org := org <| og_CreatedAt := now |> <| og_UpdatedAt := now |> in
          (s <| ms_orgs := <[og_Slug org := org]> (<[og_ID org := org]> (ms_orgs s)) |>, Ok org)
      end
  end.

Definition default_org : Organization :=
  mkOrg DefaultOrgID DefaultOrgName DefaultOrgSlug "Default workspace organization"
    time_zero time_zero.

Definition GetOrganization (s : MemoryStore) (idOrSlug : string) : result GoError Organization :=
  match ms_orgs s !! idOrSlug with
  | Some org => Ok org
  | None =>
      if (idOrSlug =s? DefaultOrgID) || (idOrSlug =s? DefaultOrgSlug) then Ok default_org
      else Err (EText ("organization not found: " +:+ idOrSlug))
  end.

Definition ListOrganizations (it : list (string * Organization)) : list Organization :=
  collect og_ID (λ _, true) [] it.*2.

(** ** Projects *)

Section Projects.
Context `{GoRuntime}.

Definition CreateProject (sys : Sys) (s : MemoryStore) (project : Project)
    : MemoryStore * result GoError Project :=
  if TrimSpace (pj_OrganizationID project) =s? "" then
    (s, Err (EText "organization_id is required to create a project"))
  else
    let fresh := pj_ID project =s? "" in
    let project := project <| pj_ID := if fresh then fresh_id "proj_" sys else pj_ID project |> in
    let project := project <| pj_Slug := or_default (pj_Slug project) (pj_ID project) |> in
    let key := pj_OrganizationID project +:+ ":" +:+ pj_Slug project in
    match ms_projects s !! pj_ID project with
    | Some _ => (s, Err (EText ("project already exists with ID: " +:+ pj_ID project)))
    | None =>
        match ms_projects s !! key with
        | Some _ =>
            (s, Err (EText ("project already exists with slug '" +:+ pj_Slug project +:+
                            "' in org '" +:+ pj_OrganizationID project +:+ "'")))
        | None =>
            let now := sys_now sys (if fresh then 1 else 0) in
            let project := project <| pj_CreatedAt := now |> <| pj_UpdatedAt := now |> in
            (s <| ms_projects :=
                    <[pj_Slug project := project]>
                      (<[key := project]> (<[pj_ID project := project]> (ms_projects s))) |>,
             Ok project)
        end
    end.

Definition default_project : Project :=
  mkProject DefaultProjectID DefaultOrgID 0 DefaultProjectName DefaultProjectSlug
    "Default feature flagging project" time_zero time_zero.

Definition GetProject (s : MemoryStore) (idOrSlug : string) : result GoError Project :=
  match ms_projects s !! idOrSlug with
  | Some proj => Ok proj
  | None =>
      if (idOrSlug =s? DefaultProjectID) || (idOrSlug =s? DefaultProjectSlug)
      then Ok default_project
      else Err (EText ("project not found: " +:+ idOrSlug))
  end.

Definition ListProjects (it : list (string * Project)) (organizationID : string) : list Project :=
  collect pj_ID
    (λ p, (organizationID =s? "") || (pj_OrganizationID p =s? organizationID)) [] it.*2.

(** ** Members *)

Definition member_key (organizationID userID : string) : string :=
  organizationID +:+ ":" +:+ userID.

(** Both writes of a member. *)
Definition put_member (member : OrgMember) (m : gmap string OrgMember) : gmap string OrgMember :=
  <[member_key (om_OrganizationID member) (om_UserID member) := member]>
    (<[om_ID member := member]> m).

Definition CreateOrgMember (sys : Sys) (s : MemoryStore) (member : OrgMember)
    : MemoryStore * OrgMember :=
  let fresh := om_ID member =s? "" in
  let member := member <| om_ID := if fresh then fresh_id "mem_" sys else om_ID member |> in
  let member :=
    if IsZero (om_CreatedAt member)
    then member <| om_CreatedAt := sys_now sys (if fresh then 1 else 0) |> else member in
  let member := member <| om_Role := or_default (om_Role member) "developer" |> in
  (s <| ms_orgMembers := put_member member (ms_orgMembers s) |>, member).

Definition GetOrgMember (s : MemoryStore) (organizationID userID : string)
    : result GoError OrgMember :=
  match ms_orgMembers s !! member_key organizationID userID with
  | Some m => Ok m
  | None => Err (ESentinel ErrNotFound)
  end.

Definition ListOrgMembers (it : list (string * OrgMember)) (organizationID : string)
    : list OrgMember :=
  collect om_ID (λ m, om_OrganizationID m =s? organizationID) [] it.*2.

(** [sort.Slice] by identifier; the identifiers of one list are distinct. *)
Fixpoint insert_org (o : Organization) (l : list Organization) : list Organization :=
  match l with
  | [] => [o]
  | x :: l' => if String.leb (og_ID o) (og_ID x) then o :: l else x :: insert_org o l'
  end.

Definition sort_orgs (l : list Organization) : list Organization := foldr insert_org [] l.

(** Whether some membership of the user names the organization. *)
Definition is_member_of (s : MemoryStore) (userID orgID : string) : bool :=
  existsb (λ km, (om_UserID km.2 =s? userID) && (om_OrganizationID km.2 =s? orgID))
    (map_to_list (ms_orgMembers s)).

(** [it] is the order in which the organizations are visited, in either of the
    two loops. *)
Definition ListUserOrganizations (s : MemoryStore) (it : list (string * Organization))
    (userID : string) : list Organization :=
  let user := ms_users s !! userID in
  let all_orgs :=
    match user with
    | Some u =>
        if us_Role u =s? RoleAdmin then
          let orgs := collect og_ID (λ _, true) [] it.*2 in
          sort_orgs (filter (λ o, is_member_of s userID (og_ID o) = true) orgs) ++
          sort_orgs (filter (λ o, is_member_of s userID (og_ID o) = false) orgs)
        else []
    | None => []
    end in
  match all_orgs with
  | _ :: _ => all_orgs
  | [] =>
      collect og_ID (λ o,
        is_member_of s userID (og_ID o) ||
        match user with Some u => Contains (og_Slug o) (Slugify (us_Name u)) | None => false end)
        [] it.*2
  end.

(** ** Invitations *)

Definition CreateOrgInvitation (sys : Sys) (s : MemoryStore) (inv : OrgInvitation)
    : MemoryStore * OrgInvitation :=
  let fresh := iv_ID inv =s? "" in
  let inv := inv <| iv_ID := if fresh then fresh_id "inv_" sys else iv_ID inv |> in
  let inv :=
    inv <| iv_Token := if iv_Token inv =s? ""
                       then "inv_" +:+ sys_rand sys (if fresh then 1 else 0) else iv_Token inv |> in
  let now := sys_now sys (if fresh then 1 else 0) in
  let inv := if IsZero (iv_CreatedAt inv) then inv <| iv_CreatedAt := now |> else inv in
  let inv :=
    if IsZero (iv_ExpiresAt inv)
    then inv <| iv_ExpiresAt := time_add now (7 * 24 * Hour) |> else inv in
  let inv := inv <| iv_Role := or_default (iv_Role inv) "developer" |> in
  (s <| ms_orgInvitations :=
          <[iv_ID inv := inv]> (<[iv_Token inv := inv]> (ms_orgInvitations s)) |>, inv).

Definition GetOrgInvitation (sys : Sys) (s : MemoryStore) (token : string)
    : result GoError OrgInvitation :=
  match ms_orgInvitations s !! token with
  | None => Err (EText "invitation not found")
  | Some inv =>
      if Invitation_IsExpired (sys_now sys 0) inv then Err (EText "invitation has expired")
      else Ok inv
  end.

(** Whether a known user with an address accepts an invitation for another
    one. *)
Definition wrong_address (user : option User) (inv : OrgInvitation) : bool :=
  match user with
  | Some user =>
      negb (us_Email user =s? "") && negb (iv_Email inv =s? "") &&
      negb (EqualFold (us_Email user) (iv_Email inv))
  | None => false
  end.

Definition AcceptOrgInvitation (sys : Sys) (s : MemoryStore) (token userID : string)
    : MemoryStore * result GoError OrgMember :=
  match ms_orgInvitations s !! token with
  | None => (s, Err (EText "invitation not found"))
  | Some inv =>
      if Invitation_IsExpired (sys_now sys 0) inv then (s, Err (EText "invitation has expired"))
      else if IsAccepted inv then (s, Err (EText "invitation already accepted"))
      else if wrong_address (ms_users s !! userID) inv then
        (s, Err (EText ("invitation was issued for " +:+ iv_Email inv +:+ ", but accepted by " +:+
           match ms_users s !! userID with Some u => us_Email u | None => "" end)))
      else
        let now := sys_now sys 1 in
        let inv := inv <| iv_AcceptedAt := Some now |> in
        let member := mkMember ("mem_" +:+ Itoa now +:+ "_" +:+ sys_rand sys 0)
          (iv_OrganizationID inv) userID (iv_Role inv) now in
        (s <| ms_orgInvitations :=
                <[iv_ID inv := inv]> (<[token := inv]> (ms_orgInvitations s)) |>
           <| ms_orgMembers := put_member member (ms_orgMembers s) |>, Ok member)
  end.

Definition ListOrgInvitations (it : list (string * OrgInvitation)) (organizationID : string)
    : list OrgInvitation :=
  collect iv_ID (λ i, iv_OrganizationID i =s? organizationID) [] it.*2.

End Projects.
