(* ===== verification/StoreTables.v ===== *)
(** * Canary schedules, OIDC configurations and experiment events in the
    in-memory store ([pkg/store/memory.go]) *)

From S2P Require Import Prelude GoFloat GoStrings GoTime Sha256 Errors Domain Entities StoreState.
From S2P Require Import StoreAudit.

(** ** Canary schedules *)

Definition canary_key (projectID flagKey : string) : string := projectID +:+ ":" +:+ flagKey.

Definition SaveCanarySchedule (sys : Sys) (s : MemoryStore) (sched : CanarySchedule)
    : MemoryStore :=
  let sched := sched <| cs_ProjectID := or_default (cs_ProjectID sched) DefaultProjectID |> in
  let now := sys_now sys 0 in
  let sched := if IsZero (cs_CreatedAt sched) then sched <| cs_CreatedAt := now |> else sched in
  let sched := sched <| cs_UpdatedAt := now |> in
  s <| ms_canarySchedules :=
         <[canary_key (cs_ProjectID sched) (cs_FlagKey sched) := sched]> (ms_canarySchedules s) |>.

Definition GetCanarySchedule (s : MemoryStore) (projectID flagKey : string)
    : option CanarySchedule :=
  let projectID := or_default projectID DefaultProjectID in
  ms_canarySchedules s !! canary_key projectID flagKey.

Definition ListActiveCanarySchedules (it : list (string * CanarySchedule)) : list CanarySchedule :=
  filter (λ c, cs_Status c = CanaryStatusActive) it.*2.

Definition ListCanarySchedulesByProject (it : list (string * CanarySchedule)) (projectID : string)
    : list CanarySchedule :=
  let projectID := or_default projectID DefaultProjectID in
  filter (λ c, cs_ProjectID c = projectID) it.*2.

Definition DeleteCanarySchedule (s : MemoryStore) (projectID flagKey : string) : MemoryStore :=
  let projectID := or_default projectID DefaultProjectID in
  s <| ms_canarySchedules := delete (canary_key projectID flagKey) (ms_canarySchedules s) |>.

(** ** OIDC configurations *)

Definition SaveOIDCConfig (sys : Sys) (s : MemoryStore) (cfg : OIDCConfig)
    : MemoryStore * option GoError :=
  if oc_OrganizationID cfg =s? "" then (s, Some (EText "organization_id is required"))
  else
    let now := sys_now sys 0 in
    let cfg := if IsZero (oc_CreatedAt cfg) then cfg <| oc_CreatedAt := now |> else cfg in
    let cfg := cfg <| oc_UpdatedAt := now |>
                   <| oc_DefaultRole := or_default (oc_DefaultRole cfg) "developer" |> in
    (s <| ms_oidcConfigs := <[oc_OrganizationID cfg := cfg]> (ms_oidcConfigs s) |>, None).

Definition GetOIDCConfig (s : MemoryStore) (organizationID : string) : option OIDCConfig :=
  ms_oidcConfigs s !! organizationID.

(** [it] is the order in which the runtime visits the map. *)
Definition GetOIDCConfigByDomain `{GoRuntime} (it : list (string * OIDCConfig))
    (emailDomain : string) : option OIDCConfig :=
  let cleanDomain := ToLower (TrimPrefix (TrimSpace emailDomain) "@") in
  if cleanDomain =s? "" then None
  else
    snd <$> list_find (λ cfg,
      oc_Enabled cfg && IsDomainAllowed (Some cfg) ("probe@" +:+ cleanDomain) = true) it.*2.

Definition DeleteOIDCConfig (s : MemoryStore) (organizationID : string) : MemoryStore :=
  s <| ms_oidcConfigs := delete organizationID (ms_oidcConfigs s) |>.

(** ** Experiment events *)

Definition max_events : nat := 100 * 1000.

(** The clock is read once for each event without a timestamp; [k] counts the
    readings. *)
Fixpoint stamp_events (sys : Sys) (k : nat) (events : list ExperimentEvent)
    : list ExperimentEvent :=
  match events with
  | [] => []
  | ev :: events' =>
      if IsZero (ev_Timestamp ev)
      then ev <| ev_Timestamp := sys_now sys k |> :: stamp_events sys (S k) events'
      else ev :: stamp_events sys k events'
  end.

Definition RecordExperimentEvents (sys : Sys) (s : MemoryStore) (events : list ExperimentEvent)
    : MemoryStore :=
  let events := ms_events s ++ stamp_events sys 0 events in
  let events :=
    if (max_events <? length events)%nat then drop (length events - max_events) events
    else events in
  s <| ms_events := events |>.

Definition GetExperimentEvents (s : MemoryStore) (flagKey : string) (limit : Z)
    : list ExperimentEvent :=
  limited limit (filter (λ ev, flagKey = "" ∨ ev_FlagKey ev = flagKey) (reverse (ms_events s))).

Definition GetExperimentEventsByProject (s : MemoryStore) (projectID flagKey : string) (limit : Z)
    : list ExperimentEvent :=
  let projectID := or_default projectID DefaultProjectID in
  limited limit (filter (λ ev, or_default (ev_ProjectID ev) DefaultProjectID = projectID ∧
                               (flagKey = "" ∨ ev_FlagKey ev = flagKey))
                   (reverse (ms_events s))).

(** ** Properties *)

Lemma stamp_events_length sys k events : length (stamp_events sys k events) = length events.
Proof.
  revert k. induction events as [|ev events IH]; intros k; simpl; [done|].
  case_if; simpl; by rewrite IH.
Qed.

(** The event log is bounded: however many events a call records, at most
    100,000 are kept, they are the most recent ones in order, and none is
    dropped before the limit is reached. *)
Theorem RecordExperimentEvents_bounded sys s events :
  let all := ms_events s ++ stamp_events sys 0 events in
  let kept := ms_events (RecordExperimentEvents sys s events) in
  length kept = Nat.min max_events (length all) ∧ ∃ dropped, all = dropped ++ kept.
Proof.
  intros all kept. unfold kept, RecordExperimentEvents. fold all. cbn [ms_events update_field].
  destruct (max_events <? length all)%nat eqn:E.
  - apply Nat.ltb_lt in E. rewrite length_drop. split; [lia|].
    exists (take (length all - max_events) all). by rewrite take_drop.
  - apply Nat.ltb_ge in E. split; [lia|]. by exists [].
Qed.

(** A canary schedule is found again under its project and flag, and saving
    it does not touch any schedule with another key. *)
Theorem SaveCanarySchedule_lookup sys s sched p k :
  let p0 := or_default (cs_ProjectID sched) DefaultProjectID in
  let s' := SaveCanarySchedule sys s sched in
  (∃ saved, GetCanarySchedule s' (cs_ProjectID sched) (cs_FlagKey sched) = Some saved ∧
     cs_Stages saved = cs_Stages sched ∧ cs_Status saved = cs_Status sched ∧
     cs_ProjectID saved = p0) ∧
  (canary_key (or_default p DefaultProjectID) k ≠ canary_key p0 (cs_FlagKey sched) →
   GetCanarySchedule s' p k = GetCanarySchedule s p k).
Proof.
  intros p0 s'. unfold s', GetCanarySchedule, SaveCanarySchedule. fold p0.
  case_if; simpl; (split; [|intros Hne; by rewrite lookup_insert_ne]);
    rewrite lookup_insert_eq; by eexists.
Qed.
