(* ===== verification/Sql.v ===== *)
(** * SQL: tables, operations, policies

    The common ground of the two SQL stores: what a statement does to a table,
    what an operation is that executes statements, and how to say what a store
    does to the rows of its tables. *)

From stdpp Require Import sorting.
From S2P Require Import Prelude GoFloat GoStrings GoTime Sha256 Errors.

(** * Tables

    What the statements of the SQL stores do to a table, written as functions: a
    table is the list of its rows in the order of insertion (the order of
    [rowid]); a statement is atomic and fails as a whole.  [clash] says which two
    rows cannot be together, by the primary key and the UNIQUE constraints of a
    table.  The rows a SELECT without ORDER BY yields come in an order the engine
    chooses, which is an argument of the operations that read them. *)

(** ** Texts in their binary order *)

Fixpoint text_leb (s t : string) : bool :=
  match s, t with
  | EmptyString, _ => true
  | String _ _, EmptyString => false
  | String c s, String d t =>
      (byte_val c <? byte_val d)%Z || ((byte_val c =? byte_val d)%Z && text_leb s t)
  end.

Lemma text_leb_refl s : text_leb s s = true.
Proof. induction s as [|c s IH]; [done|]. cbn. by rewrite Z.eqb_refl, IH, orb_true_r. Qed.

Lemma text_leb_total s t : text_leb s t = false → text_leb t s = true.
Proof.
  revert t. induction s as [|c s IH]; intros [|d t]; cbn; try done.
  intros [H1 H2]%orb_false_iff. simp_bool.
  destruct (Z.eqb_spec (byte_val c) (byte_val d)) as [Heq|Hne].
  - rewrite Heq, Z.eqb_refl. cbn in *. rewrite (IH t) by done. by rewrite orb_true_r.
  - by rewrite (proj2 (Z.ltb_lt (byte_val d) (byte_val c))) by lia.
Qed.

Lemma text_leb_trans s t u : text_leb s t = true → text_leb t u = true → text_leb s u = true.
Proof.
  revert t u. induction s as [|c s IH]; intros [|d t] [|e u]; cbn; try done.
  rewrite !orb_true_iff, !andb_true_iff, !Z.ltb_lt, !Z.eqb_eq.
  intros [H1|[H1 H1']] [H2|[H2 H2']]; [left; lia..|]. right. split; [lia|by eapply IH].
Qed.

(** ** ORDER BY

    A stable sort: rows with the same key stay in the order they came in. *)

Section Order.
Context {A : Type} (le : A → A → bool).

Fixpoint insert_by (x : A) (l : list A) : list A :=
  match l with
  | [] => [x]
  | y :: l' => if le x y then x :: l else y :: insert_by x l'
  end.

Fixpoint order_by (l : list A) : list A :=
  match l with [] => [] | x :: l => insert_by x (order_by l) end.

Lemma insert_by_perm x l : insert_by x l ≡ₚ x :: l.
Proof.
  induction l as [|y l IH]; [done|]. cbn. destruct (le x y); [done|].
  rewrite IH. apply Permutation_swap.
Qed.

Lemma order_by_perm l : order_by l ≡ₚ l.
Proof. induction l as [|x l IH]; [done|]. cbn. by rewrite insert_by_perm, IH. Qed.

Lemma elem_of_order_by x l : x ∈ order_by l ↔ x ∈ l.
Proof. by rewrite order_by_perm. Qed.

Lemma length_order_by l : length (order_by l) = length l.
Proof. by rewrite order_by_perm. Qed.

(** A row that is not before any other goes to the end. *)
Lemma insert_by_snoc x l y : le x y = true → insert_by x (l ++ [y]) = insert_by x l ++ [y].
Proof.
  intros Hxy. induction l as [|z l IH]; cbn; [by rewrite Hxy|].
  destruct (le x z); [done|]. by rewrite IH.
Qed.

Lemma order_by_snoc l y : Forall (λ x, le x y = true) l → order_by (l ++ [y]) = order_by l ++ [y].
Proof. induction 1 as [|x l Hx _ IH]; [done|]. cbn. by rewrite IH, insert_by_snoc. Qed.

Context (le_total : ∀ x y, le x y = false → le y x = true).
Context (le_trans : ∀ x y z, le x y = true → le y z = true → le x z = true).

Definition ordered (l : list A) : Prop := StronglySorted (λ x y, le x y = true) l.

Lemma insert_by_ordered x l : ordered l → ordered (insert_by x l).
Proof.
  induction 1 as [|y l Hl IH Hy]; cbn; [by repeat constructor|].
  destruct (le x y) eqn:E; constructor.
  - by constructor.
  - constructor; [done|]. eapply Forall_impl; [done|]. cbn. by eauto.
  - done.
  - rewrite insert_by_perm. constructor; [by apply le_total|done].
Qed.

Lemma order_by_ordered l : ordered (order_by l).
Proof. induction l as [|x l IH]; [constructor|]. cbn. by apply insert_by_ordered. Qed.

(** Sorting the selected rows is selecting from the sorted rows. *)
Lemma insert_by_head x l : Forall (λ y, le x y = true) l → insert_by x l = x :: l.
Proof. destruct 1 as [|y l Hy _]; [done|]. cbn. by rewrite Hy. Qed.

Lemma insert_by_filter (P : A → bool) x l :
  ordered l →
  filter (λ y, P y = true) (insert_by x l)
  = if P x then insert_by x (filter (λ y, P y = true) l) else filter (λ y, P y = true) l.
Proof.
  induction 1 as [|y l Hl IH Hy]; cbn [insert_by].
  { rewrite filter_cons. destruct (P x); [by rewrite decide_True|by rewrite decide_False]. }
  destruct (le x y) eqn:Hxy.
  - rewrite (filter_cons _ x). destruct (P x) eqn:Hx; [|by rewrite decide_False].
    rewrite decide_True by done. symmetry. apply insert_by_head, Forall_list_filter. constructor; [done|].
    eapply Forall_impl; [exact Hy|]. cbn. intros z. by apply le_trans.
  - rewrite !(filter_cons _ y), IH. destruct (P y).
    + rewrite !decide_True by done. destruct (P x); [cbn; by rewrite Hxy|done].
    + by rewrite !decide_False by done.
Qed.

Lemma order_by_filter (P : A → bool) l :
  order_by (filter (λ y, P y = true) l) = filter (λ y, P y = true) (order_by l).
Proof.
  induction l as [|x l IH]; [done|]. cbn [order_by]. rewrite insert_by_filter by apply order_by_ordered.
  rewrite filter_cons. destruct (P x); [by rewrite decide_True, <- IH|by rewrite decide_False].
Qed.

(** Rows that come before all others form a prefix. *)
Lemma ordered_prefix (P : A → bool) l :
  ordered l → (∀ x y, le x y = true → P y = true → P x = true) →
  l = filter (λ y, P y = true) l ++ filter (λ y, negb (P y) = true) l.
Proof.
  intros Hl HP. induction Hl as [|x l Hl IH Hx]; [done|]. rewrite !filter_cons.
  destruct (P x) eqn:Hpx; cbn.
  - rewrite decide_True, decide_False by done. cbn. by rewrite <- IH.
  - rewrite decide_False, decide_True by done.
    rewrite (list_filter_none (λ y, P y = true) l); [cbn; f_equal|].
    + symmetry. apply list_filter_all. eapply Forall_impl; [exact Hx|]. cbn. intros y Hy.
      destruct (P y) eqn:E; [|done]. by rewrite (HP x y) in Hpx.
    + eapply Forall_impl; [exact Hx|]. cbn. intros y Hy E. by rewrite (HP x y) in Hpx.
Qed.

End Order.

(** [ORDER BY key DESC]. *)
Definition descending {A} (le : A → A → bool) : A → A → bool := λ x y, le y x.

(** ** Statements *)

Section Statements.
Context {R : Type} (clash : R → R → bool).

Definition table : Type := list R.

(** [INSERT]: fails when a constraint of a row of the table forbids it. *)
Definition sql_insert (row : R) (t : list R) : option (list R) :=
  if existsb (clash row) t then None else Some (t ++ [row]).

(** [INSERT ... ON CONFLICT(...) DO UPDATE SET ...]: the row with the same
    columns of the target is changed, the other constraints are looked at only
    when there is none. *)
Definition sql_upsert (same : R → R → bool) (upd : R → R → R) (row : R) (t : list R)
    : option (list R) :=
  if existsb (same row) t then Some ((λ old, if same row old then upd row old else old) <$> t)
  else sql_insert row t.

(** [INSERT OR IGNORE]. *)
Definition sql_insert_ignore (row : R) (t : list R) : list R := default t (sql_insert row t).

(** [UPDATE ... SET upd WHERE sel], and the number of the rows affected. *)
Definition sql_update (sel : R → bool) (upd : R → R) (t : list R) : list R * Z :=
  ((λ r, if sel r then upd r else r) <$> t, Z.of_nat (length (filter (λ r, sel r = true) t))).

(** [DELETE ... WHERE sel]. *)
Definition sql_delete (sel : R → bool) (t : list R) : list R * Z :=
  (filter (λ r, sel r = false) t, Z.of_nat (length (filter (λ r, sel r = true) t))).

Definition sql_where (sel : R → bool) (t : list R) : list R := filter (λ r, sel r = true) t.

(** *** Uniqueness *)

(** No two rows of the table clash. *)
Definition unique_rows (t : list R) : Prop := ForallOrdPairs (λ a b, clash a b = false) t.

Context (clash_sym : ∀ a b, clash a b = clash b a).

Lemma unique_snoc t row :
  unique_rows t → Forall (λ r, clash r row = false) t → unique_rows (t ++ [row]).
Proof.
  intros Hu. induction Hu as [|r t Hr _ IH]; intros Hf; [by repeat constructor|].
  inversion_clear Hf. constructor; [|by apply IH]. apply Forall_app. split; [done|by constructor].
Qed.

Lemma sql_insert_unique row t t' : sql_insert row t = Some t' → unique_rows t → unique_rows t'.
Proof.
  unfold sql_insert. destruct (existsb (clash row) t) eqn:E; [done|]. intros [= <-] Hu.
  apply unique_snoc; [done|]. apply Forall_forall. intros r Hr. rewrite clash_sym.
  destruct (clash row r) eqn:Hc; [|done].
  assert (existsb (clash row) t = true); [|congruence].
  apply existsb_exists. exists r. split; [by apply list_elem_of_In|done].
Qed.

(** A change that keeps the columns of the constraints. *)
Definition keeps_keys (upd : R → R) : Prop := ∀ a, clash (upd a) = clash a.

Lemma unique_fmap (f : R → R) t : keeps_keys f → unique_rows t → unique_rows (f <$> t).
Proof.
  intros Hf. induction 1 as [|r t Hr _ IH]; [constructor|]. csimpl. constructor; [|done].
  apply Forall_fmap. eapply Forall_impl; [exact Hr|]. cbn. intros b Hb.
  by rewrite Hf, clash_sym, Hf, clash_sym.
Qed.

Lemma sql_update_unique sel upd t :
  keeps_keys upd → unique_rows t → unique_rows (sql_update sel upd t).1.
Proof. intros Hk. apply unique_fmap. intros a. by destruct (sel a). Qed.

Lemma sql_upsert_unique same upd row t t' :
  (∀ row, keeps_keys (upd row)) →
  sql_upsert same upd row t = Some t' → unique_rows t → unique_rows t'.
Proof.
  intros Hk. unfold sql_upsert. case_if; [|apply sql_insert_unique]. intros [= <-].
  apply unique_fmap. intros a. destruct (same row a); [apply Hk|done].
Qed.

Lemma sql_delete_unique sel t : unique_rows t → unique_rows (sql_delete sel t).1.
Proof.
  cbn. induction 1 as [|r t Hr _ IH]; [constructor|]. rewrite filter_cons. case_decide; [|done].
  constructor; [|done]. by apply Forall_list_filter.
Qed.

Lemma unique_lookup t a b : unique_rows t → a ∈ t → b ∈ t → clash a b = true → a = b.
Proof.
  induction 1 as [|r t Hr _ IH]; intros Ha Hb Hc; [by apply not_elem_of_nil in Ha|].
  rewrite Forall_forall in Hr. rewrite elem_of_cons in Ha, Hb.
  destruct Ha as [->|Ha], Hb as [->|Hb]; [done| | |by apply IH].
  - rewrite (Hr b) in Hc by done. done.
  - rewrite clash_sym, (Hr a) in Hc by done. done.
Qed.

(** A query by a key yields the one row that has it, in whatever order it is asked. *)
Lemma unique_where sel t r l :
  unique_rows t → r ∈ t → sel r = true → (∀ a b, sel a = true → sel b = true → clash a b = true) →
  l ≡ₚ sql_where sel t → l = [r].
Proof.
  intros Hu Hr Hs Hsel Hl.
  assert (sql_where sel t = [r]) as Hw; [|rewrite Hw in Hl; by apply Permutation_singleton_r in Hl].
  unfold sql_where. clear l Hl. induction Hu as [|x t Hx Hu IH]; [by apply not_elem_of_nil in Hr|].
  rewrite filter_cons. apply elem_of_cons in Hr as [->|Hr].
  - rewrite decide_True by done. f_equal. apply list_filter_none.
    eapply Forall_impl; [exact Hx|]. cbn. intros b Hb Hsb.
    rewrite (Hsel x b) in Hb by done. done.
  - rewrite decide_False; [by apply IH|]. intros Hsx. rewrite Forall_forall in Hx.
    specialize (Hx r Hr). rewrite (Hsel x r) in Hx by done. done.
Qed.

End Statements.

Arguments table R : clear implicits.

(** Nothing is found where nothing matches. *)
Lemma where_none {R} (sel : R → bool) t l :
  Forall (λ r, sel r = false) t → l ≡ₚ sql_where sel t → l = [].
Proof.
  intros Hf Hl. unfold sql_where in Hl. rewrite list_filter_none in Hl.
  - by apply Permutation_nil_r in Hl.
  - eapply Forall_impl; [exact Hf|]. cbn. by intros r ->.
Qed.

Lemma elem_of_where {R} (sel : R → bool) t r : r ∈ sql_where sel t ↔ sel r = true ∧ r ∈ t.
Proof. unfold sql_where. by rewrite list_elem_of_filter. Qed.

Lemma where_fmap {R} (sel : R → bool) (f : R → R) t :
  (∀ r, r ∈ t → sel (f r) = sel r ∧ (sel r = true → f r = r)) → sql_where sel (f <$> t) = sql_where sel t.
Proof.
  unfold sql_where. induction t as [|r t IH]; [done|]. intros Hf. csimpl. rewrite !filter_cons, IH.
  - destruct (Hf r) as [Hs He]; [by left|]. rewrite Hs. case_decide; [by rewrite He|done].
  - intros x Hx. apply Hf. by right.
Qed.

Lemma where_where {R} (f g : R → bool) t :
  sql_where (λ r, f r && g r) t = filter (λ r, g r = true) (sql_where f t).
Proof.
  unfold sql_where. induction t as [|r t IH]; [done|]. rewrite !filter_cons.
  destruct (f r); cbn [andb]; repeat case_decide; try done; rewrite ?filter_cons, ?IH; by repeat case_decide.
Qed.

Lemma where_andb {R} (f g : R → bool) t :
  Forall (λ r, g r = true) (sql_where f t) → sql_where (λ r, f r && g r) t = sql_where f t.
Proof.
  unfold sql_where. induction t as [|r t IH]; [done|]. rewrite !filter_cons.
  destruct (f r) eqn:Hf; cbn.
  - intros Hall. inversion_clear Hall as [|? ? Hg Ht]. rewrite Hg. cbn. by rewrite IH.
  - by apply IH.
Qed.

Lemma where_snoc {R} (sel : R → bool) t row :
  sql_where sel (t ++ [row]) = sql_where sel t ++ (if sel row then [row] else []).
Proof.
  unfold sql_where. rewrite filter_app, filter_cons, filter_nil.
  destruct (sel row); [by rewrite decide_True|by rewrite decide_False].
Qed.

(** * Operations on a database

    The operations of the SQL stores are sequences of statements with readings of
    the clock and the random source in between.  [Sql Db A] is such an operation:
    it ends with Go's results, an error being [Err], or it blocks for ever on a
    mutex that its own goroutine holds.  What comes from outside is [Env]: the
    clock, the random source, and the order in which the engine yields the rows of
    each query. *)

(** What one call reads from outside; [env_scan k] is the order of the rows of the
    [k]-th query. *)
Record Env := mkEnv {
  env_sys : Sys;
  env_scan : nat → ∀ A : Type, list A → list A;
}.

(** The engine yields the rows that are there. *)
Definition fair_scan (e : Env) : Prop := ∀ k A (l : list A), env_scan e k A l ≡ₚ l.

(** The database, the write lock of the store, and how much of the outside has
    been read. *)
Record Run (Db : Type) := mkRun {
  rn_db : Db;
  rn_locked : bool;
  rn_clock : nat;
  rn_rand : nat;
  rn_query : nat;
}.
Arguments mkRun {Db}.
Arguments rn_db {Db}.
Arguments rn_locked {Db}.
Arguments rn_clock {Db}.
Arguments rn_rand {Db}.
Arguments rn_query {Db}.

Inductive outcome (Db A : Type) : Type :=
| Returned (res : result GoError A) (r : Run Db)
| Blocked (r : Run Db).
Arguments Returned {Db A}.
Arguments Blocked {Db A}.

Definition Sql (Db A : Type) : Type := Env → Run Db → outcome Db A.

(** The state an outcome leaves. *)
Definition final {Db A} (o : outcome Db A) : Run Db :=
  match o with Returned _ r | Blocked r => r end.

(** One call from a store at rest. *)
Definition at_rest {Db} (db : Db) : Run Db := mkRun db false 0 0 0.
Definition call {Db A} (e : Env) (m : Sql Db A) (db : Db) : outcome Db A := m e (at_rest db).

Section Monad.
Context {Db : Type}.

#[export] Instance sql_ret : MRet (Sql Db) := λ A a e r, Returned (Ok a) r.

(** [x, err := m; if err != nil { return err }]. *)
#[export] Instance sql_bind : MBind (Sql Db) := λ A B k m e r,
  match m e r with
  | Returned (Ok a) r => k a e r
  | Returned (Err err) r => Returned (Err err) r
  | Blocked r => Blocked r
  end.

#[export] Instance sql_fmap : FMap (Sql Db) := λ A B f m, m ≫= λ a, mret (f a).

Definition fail {A} (err : GoError) : Sql Db A := λ e r, Returned (Err err) r.

(** The results of [m] as a value: [x, err := m]. *)
Definition attempt {A} (m : Sql Db A) : Sql Db (result GoError A) := λ e r,
  match m e r with Returned res r => Returned (Ok res) r | Blocked r => Blocked r end.

(** [_, _ = m]. *)
Definition ignore {A} (m : Sql Db A) : Sql Db () := attempt m ≫= λ _, mret ().

(** [time.Now().UTC()]. *)
Definition now : Sql Db Time := λ e r,
  Returned (Ok (sys_now (env_sys e) (rn_clock r)))
    (mkRun (rn_db r) (rn_locked r) (S (rn_clock r)) (rn_rand r) (rn_query r)).

(** [hex.EncodeToString] of bytes from [crypto/rand]. *)
Definition random_hex : Sql Db string := λ e r,
  Returned (Ok (sys_rand (env_sys e) (rn_rand r)))
    (mkRun (rn_db r) (rn_locked r) (rn_clock r) (S (rn_rand r)) (rn_query r)).

(** [db.QueryContext]: the rows of [f], in the engine's order. *)
Definition query {A} (f : Db → list A) : Sql Db (list A) := λ e r,
  Returned (Ok (env_scan e (rn_query r) A (f (rn_db r))))
    (mkRun (rn_db r) (rn_locked r) (rn_clock r) (rn_rand r) (S (rn_query r))).

(** A query whose rows, or whose ORDER BY, leave the engine no choice. *)
Definition query_exact {A} (f : Db → A) : Sql Db A := λ e r,
  Returned (Ok (f (rn_db r))) (mkRun (rn_db r) (rn_locked r) (rn_clock r) (rn_rand r) (S (rn_query r))).

(** [db.QueryRowContext(...).Scan]: the first row, if there is one. *)
Definition query_row {A} (f : Db → list A) : Sql Db (option A) := head <$> query f.

(** [db.ExecContext]: an atomic statement and the number of rows it affects. *)
Definition exec (f : Db → result GoError (Db * Z)) : Sql Db Z := λ e r,
  match f (rn_db r) with
  | Ok (db, n) => Returned (Ok n) (mkRun db (rn_locked r) (rn_clock r) (rn_rand r) (rn_query r))
  | Err err => Returned (Err err) r
  end.

Definition set_locked (b : bool) (r : Run Db) : Run Db :=
  mkRun (rn_db r) b (rn_clock r) (rn_rand r) (rn_query r).

(** [s.mu.Lock(); defer s.mu.Unlock()]: the mutex is not reentrant. *)
Definition locked {A} (m : Sql Db A) : Sql Db A := λ e r,
  if rn_locked r then Blocked r
  else match m e (set_locked true r) with
       | Returned res r => Returned res (set_locked false r)
       | Blocked r => Blocked r
       end.

(** [s.mu.RLock(); defer s.mu.RUnlock()]. *)
Definition rlocked {A} (m : Sql Db A) : Sql Db A := λ e r,
  if rn_locked r then Blocked r else m e r.

(** [tx := BeginTx(...); defer tx.Rollback()], with [tx.Commit()] at the end. *)
Definition transaction {A} (m : Sql Db A) : Sql Db A := λ e r,
  match m e r with
  | Returned (Err err) r' =>
      Returned (Err err) (mkRun (rn_db r) (rn_locked r') (rn_clock r') (rn_rand r') (rn_query r'))
  | o => o
  end.

(** [if err := f(x); err != nil { return err }] for every [x]. *)
Fixpoint for_each {A} (f : A → Sql Db ()) (l : list A) : Sql Db () :=
  match l with
  | [] => mret ()
  | x :: l => f x;; for_each f l
  end.

(** A value with an error, as an operation. *)
Definition lift {A} (res : result GoError A) : Sql Db A :=
  match res with Ok a => mret a | Err err => fail err end.

End Monad.

(** ** The statements on a table of the database

    A [Table] of a database: its rows, its unique keys ([tb_clash]) and the
    constraints that do not look at its other rows, as the references to other
    tables ([tb_refs]). *)

Class Table (Db R : Type) := {
  tb_name : string;
  tb_rows : Db → list R;
  tb_put : list R → Db → Db;
  tb_clash : R → R → bool;
  tb_refs : Db → R → bool;
}.

(** What the driver says of a violated constraint. *)
Class SqlDriver := { constraint_error : string → GoError }.

Section Statements.
Context {Db R : Type} `{Table Db R} `{SqlDriver}.

Definition put_rows (db : Db) (t : option (list R)) : result GoError (Db * Z) :=
  match t with
  | Some t => Ok (tb_put t db, 1%Z)
  | None => Err (constraint_error (tb_name (Db:=Db) (R:=R)))
  end.

Definition insert_into (row : R) : Sql Db Z := exec (λ db,
  put_rows db (if tb_refs db row then sql_insert (tb_clash (Db:=Db)) row (tb_rows db) else None)).

Definition upsert_into (same : R → R → bool) (upd : R → R → R) (row : R) : Sql Db Z := exec (λ db,
  put_rows db (if tb_refs db row then sql_upsert (tb_clash (Db:=Db)) same upd row (tb_rows db) else None)).

(** OR IGNORE is for the keys, not for the references. *)
Definition insert_or_ignore (row : R) : Sql Db Z := exec (λ db,
  put_rows db (if tb_refs db row then Some (sql_insert_ignore (tb_clash (Db:=Db)) row (tb_rows db)) else None)).

Definition update_rows (sel : R → bool) (upd : R → R) : Sql Db Z := exec (λ db,
  let '(t, n) := sql_update sel upd (tb_rows db) in Ok (tb_put t db, n)).

Definition delete_from (sel : R → bool) : Sql Db Z := exec (λ db,
  let '(t, n) := sql_delete sel (tb_rows db) in Ok (tb_put t db, n)).

(** [SELECT ... WHERE sel]. *)
Definition select (sel : R → bool) : Sql Db (list R) := query (λ db, sql_where sel (tb_rows db)).
Definition select_one (sel : R → bool) : Sql Db (option R) := head <$> select sel.

(** [SELECT ... WHERE sel ORDER BY le]. *)
Definition select_by (le : R → R → bool) (sel : R → bool) : Sql Db (list R) :=
  order_by le <$> select sel.

End Statements.

(** ** What an operation does to the database

    [steps R e m r]: from the state [r] the operation [m] takes the database along
    [R]; [moves R m]: it does so from every state, whatever the environment.  With
    a preorder this is found by looking at the statements alone. *)

Section Moves.
Context {Db : Type} (R : relation Db) `{!PreOrder R}.

Definition steps {A} (e : Env) (m : Sql Db A) (r : Run Db) : Prop := R (rn_db r) (rn_db (final (m e r))).

Definition moves {A} (m : Sql Db A) : Prop := ∀ e r, fair_scan e → steps e m r.

Lemma moves_ret {A} (a : A) : moves (mret a).
Proof. intros e r _. unfold steps. cbn. reflexivity. Qed.

Lemma moves_fail {A} err : moves (fail (A:=A) err).
Proof. intros e r _. unfold steps. cbn. reflexivity. Qed.

(** The continuation starts in the database the first part leaves. *)
Lemma steps_bind {A B} e (m : Sql Db A) (k : A → Sql Db B) r :
  steps e m r → (∀ a r', m e r = Returned (Ok a) r' → steps e (k a) r') → steps e (m ≫= k) r.
Proof.
  intros Hm Hk. unfold steps, mbind, sql_bind in *.
  destruct (m e r) as [[a|err] r'|r']; cbn in *; [|done..]. etrans; [exact Hm|by apply Hk].
Qed.

Lemma moves_bind {A B} (m : Sql Db A) (k : A → Sql Db B) :
  moves m → (∀ a, moves (k a)) → moves (m ≫= k).
Proof. intros Hm Hk e r He. apply steps_bind; [by apply Hm|]. intros a r' _. by apply Hk. Qed.

Lemma moves_fmap {A B} (f : A → B) (m : Sql Db A) : moves m → moves (f <$> m).
Proof. intros Hm. apply moves_bind; [done|]. intros a. apply moves_ret. Qed.

Lemma moves_attempt {A} (m : Sql Db A) : moves m → moves (attempt m).
Proof. intros Hm e r He. specialize (Hm e r He). unfold steps, attempt in *. by destruct (m e r). Qed.

Lemma moves_ignore {A} (m : Sql Db A) : moves m → moves (ignore m).
Proof. intros Hm. apply moves_bind; [by apply moves_attempt|]. intros a. apply moves_ret. Qed.

Lemma moves_now : moves now.
Proof. intros e r _. unfold steps. cbn. reflexivity. Qed.

Lemma moves_random_hex : moves random_hex.
Proof. intros e r _. unfold steps. cbn. reflexivity. Qed.

Lemma moves_query {A} (f : Db → list A) : moves (query f).
Proof. intros e r _. unfold steps. cbn. reflexivity. Qed.

Lemma moves_query_exact {A} (f : Db → A) : moves (query_exact f).
Proof. intros e r _. unfold steps. cbn. reflexivity. Qed.

Lemma moves_query_row {A} (f : Db → list A) : moves (query_row f).
Proof. apply moves_fmap, moves_query. Qed.

Lemma moves_exec f : (∀ db db' n, f db = Ok (db', n) → R db db') → moves (exec f).
Proof.
  intros Hf e r _. unfold steps, exec.
  destruct (f (rn_db r)) as [[db n]|err] eqn:E; cbn; [by eapply Hf|reflexivity].
Qed.

Lemma steps_locked {A} e (m : Sql Db A) r :
  steps e m (set_locked true r) → steps e (locked m) r.
Proof.
  intros Hm. unfold steps, locked in *. destruct (rn_locked r); [reflexivity|]. by destruct (m e _).
Qed.

Lemma moves_locked {A} (m : Sql Db A) : moves m → moves (locked m).
Proof. intros Hm e r He. by apply steps_locked, Hm. Qed.

Lemma moves_rlocked {A} (m : Sql Db A) : moves m → moves (rlocked m).
Proof. intros Hm e r He. unfold steps, rlocked. destruct (rn_locked r); [reflexivity|by apply Hm]. Qed.

Lemma moves_transaction {A} (m : Sql Db A) : moves m → moves (transaction m).
Proof.
  intros Hm e r He. specialize (Hm e r He). unfold steps, transaction in *.
  destruct (m e r) as [[a|err] r'|r']; cbn in *; [done|reflexivity|done].
Qed.

Lemma moves_for_each {A} (f : A → Sql Db ()) l : (∀ x, moves (f x)) → moves (for_each f l).
Proof.
  intros Hf. induction l as [|x l IH]; [apply moves_ret|]. apply moves_bind; [done|]. by intros _.
Qed.

Lemma moves_lift {A} (res : result GoError A) : moves (lift res).
Proof. destruct res; [apply moves_ret|apply moves_fail]. Qed.

End Moves.

Lemma moves_weaken {Db A} (R R' : relation Db) (m : Sql Db A) :
  (∀ a b, R a b → R' a b) → moves R m → moves R' m.
Proof. intros HR Hm e r He. by apply HR, Hm. Qed.

(** What a [select_one] found is a row of the table. *)
Lemma select_one_found {Db R} `{Table Db R} e (sel : R → bool) (db : Run Db) a r' :
  fair_scan e → select_one sel e db = Returned (Ok a) r' →
  rn_db r' = rn_db db ∧ rn_locked r' = rn_locked db ∧
  match a with
  | Some x => x ∈ tb_rows (rn_db db) ∧ sel x = true
  | None => ∀ x, x ∈ tb_rows (rn_db db) → sel x = false
  end.
Proof.
  intros He. unfold select_one, select, query, fmap, sql_fmap, mbind, sql_bind. cbn. intros [= <- <-].
  split_and!; [done..|]. specialize (He (rn_query db) R (sql_where sel (tb_rows (rn_db db)))).
  destruct (env_scan e _ _ _) as [|x l] eqn:E; cbn.
  - intros x Hx. destruct (sel x) eqn:Hs; [|done].
    assert (x ∈ sql_where sel (tb_rows (rn_db db))) as Hw by by apply elem_of_where.
    rewrite <- He in Hw. by apply not_elem_of_nil in Hw.
  - assert (x ∈ sql_where sel (tb_rows (rn_db db))) as [??]%elem_of_where by (rewrite <- He; by left).
    done.
Qed.

(** The look-ups of one row: what they return comes from a row of the table. *)
Lemma get_found {Db R A} `{Table Db R} e (sel : R → bool) (conv : R → A) err (r : Run Db) a r' :
  fair_scan e →
  (row ← select_one sel; match row with Some x => mret (conv x) | None => fail err end) e r
    = Returned (Ok a) r' →
  rn_db r' = rn_db r ∧ rn_locked r' = rn_locked r ∧
  ∃ x, a = conv x ∧ x ∈ tb_rows (rn_db r) ∧ sel x = true.
Proof.
  intros He. unfold mbind, sql_bind. destruct (select_one sel e r) as [[o|o]|] eqn:E; [|done..].
  destruct (select_one_found e sel r o _ He E) as (Hdb & Hl & Ho).
  destruct o as [x|]; [|done]. intros [= <- <-]. eauto.
Qed.

(** ... and they fail only when there is none. *)
Lemma get_none {Db R A} `{Table Db R} e (sel : R → bool) (conv : R → A) err (r : Run Db) err' r' :
  fair_scan e →
  (row ← select_one sel; match row with Some x => mret (conv x) | None => fail err end) e r
    = Returned (Err err') r' →
  rn_db r' = rn_db r ∧ err' = err ∧ ∀ x, x ∈ tb_rows (rn_db r) → sel x = false.
Proof.
  intros He. unfold mbind, sql_bind. destruct (select_one sel e r) as [[o|o]|] eqn:E.
  - destruct (select_one_found e sel r o _ He E) as (Hdb & Hl & Ho).
    destruct o as [x|]; [done|]. by intros [= <- <-].
  - by unfold select_one, select, query, fmap, sql_fmap, mbind, sql_bind in E.
  - by unfold select_one, select, query, fmap, sql_fmap, mbind, sql_bind in E.
Qed.

Create HintDb sql discriminated.
#[export] Hint Constants Opaque : sql.
#[export] Hint Variables Opaque : sql.
#[export] Hint Resolve moves_ret moves_fail moves_fmap moves_attempt moves_ignore moves_now : sql.
#[export] Hint Resolve moves_random_hex moves_query moves_query_exact moves_query_row moves_locked moves_rlocked : sql.
#[export] Hint Resolve moves_for_each moves_lift : sql.
#[export] Hint Extern 0 (PreOrder _) => typeclasses eauto : sql.

(** Follow the operation; what is left are the statements. *)
Ltac moves_by lem :=
  apply lem; lazymatch goal with |- PreOrder _ => typeclasses eauto | |- _ => idtac end.

Ltac moves_step :=
  match goal with
  | |- ∀ _, moves _ _ => intros ?
  | |- moves _ (mbind _ _) => moves_by @moves_bind
  | |- moves _ (if ?b then _ else _) => destruct b
  | |- moves _ (match ?x with _ => _ end) => destruct x
  | |- moves _ (let _ := _ in _) => cbv zeta
  | |- moves _ (locked _) => moves_by @moves_locked
  | |- moves _ (rlocked _) => moves_by @moves_rlocked
  | |- moves _ (ignore _) => moves_by @moves_ignore
  | |- moves _ (attempt _) => moves_by @moves_attempt
  | |- moves _ (transaction _) => moves_by @moves_transaction
  | |- moves _ (fmap _ _) => moves_by @moves_fmap
  | |- moves _ (for_each _ _) => moves_by @moves_for_each
  | |- moves _ _ => solve [eauto 3 with sql nocore]
  end.

(** An operation that only reads leaves the database as it is. *)
Definition reads {Db A} (m : Sql Db A) : Prop := moves eq m.

Lemma reads_final {Db A} (m : Sql Db A) e r : reads m → fair_scan e → rn_db (final (m e r)) = rn_db r.
Proof. intros H He. symmetry. by apply H. Qed.

(** ** Operations that come back

    [tame b m]: with the mutex in the state [b], [m] returns and leaves it so. *)

Definition tame {Db A} (b : bool) (m : Sql Db A) : Prop :=
  ∀ e r, rn_locked r = b → ∃ res r', m e r = Returned res r' ∧ rn_locked r' = b.

Section Tame.
Context {Db : Type} (b : bool).

Lemma tame_ret {A} (a : A) : tame (Db:=Db) b (mret a).
Proof. intros e r Hr. by eexists _, _. Qed.

Lemma tame_fail {A} err : tame (Db:=Db) b (fail (A:=A) err).
Proof. intros e r Hr. by eexists _, _. Qed.

Lemma tame_bind {A B} (m : Sql Db A) (k : A → Sql Db B) :
  tame b m → (∀ a, tame b (k a)) → tame b (m ≫= k).
Proof.
  intros Hm Hk e r Hr. destruct (Hm e r Hr) as ([a|err] & r' & Heq & Hr').
  - destruct (Hk a e r' Hr') as (res & r'' & Heq' & Hr''). exists res, r''.
    unfold mbind, sql_bind. by rewrite Heq.
  - exists (Err err), r'. unfold mbind, sql_bind. by rewrite Heq.
Qed.

Lemma tame_fmap {A B} (f : A → B) (m : Sql Db A) : tame b m → tame b (f <$> m).
Proof. intros Hm. apply tame_bind; [done|]. intros a. apply tame_ret. Qed.

Lemma tame_attempt {A} (m : Sql Db A) : tame b m → tame b (attempt m).
Proof.
  intros Hm e r Hr. destruct (Hm e r Hr) as (res & r' & Heq & Hr'). exists (Ok res), r'.
  unfold attempt. by rewrite Heq.
Qed.

Lemma tame_ignore {A} (m : Sql Db A) : tame b m → tame b (ignore m).
Proof. intros Hm. apply tame_bind; [by apply tame_attempt|]. intros a. apply tame_ret. Qed.

Lemma tame_now : tame (Db:=Db) b now.
Proof. intros e r Hr. by eexists _, _. Qed.

Lemma tame_random_hex : tame (Db:=Db) b random_hex.
Proof. intros e r Hr. by eexists _, _. Qed.

Lemma tame_query {A} (f : Db → list A) : tame b (query f).
Proof. intros e r Hr. by eexists _, _. Qed.

Lemma tame_query_exact {A} (f : Db → A) : tame b (query_exact f).
Proof. intros e r Hr. by eexists _, _. Qed.

Lemma tame_exec f : tame (Db:=Db) b (exec f).
Proof. intros e r Hr. unfold exec. destruct (f (rn_db r)) as [[db n]|err]; by eexists _, _. Qed.

Lemma tame_transaction {A} (m : Sql Db A) : tame b m → tame b (transaction m).
Proof.
  intros Hm e r Hr. destruct (Hm e r Hr) as ([a|err] & r' & Heq & Hr'); unfold transaction; rewrite Heq;
    by eexists _, _.
Qed.

Lemma tame_for_each {A} (f : A → Sql Db ()) l : (∀ x, tame b (f x)) → tame b (for_each f l).
Proof. intros Hf. induction l as [|x l IH]; [apply tame_ret|]. apply tame_bind; [done|]. by intros _. Qed.

Lemma tame_lift {A} (res : result GoError A) : tame (Db:=Db) b (lift res).
Proof. destruct res; [apply tame_ret|apply tame_fail]. Qed.

End Tame.

(** The mutex is free: taken for the operation, and given back. *)
Lemma tame_locked {Db A} (m : Sql Db A) : tame true m → tame false (locked m).
Proof.
  intros Hm e r Hr. unfold locked. rewrite Hr.
  destruct (Hm e (set_locked true r) eq_refl) as (res & r' & Heq & _). rewrite Heq. by eexists _, _.
Qed.

Lemma tame_rlocked {Db A} (m : Sql Db A) : tame false m → tame false (rlocked m).
Proof. intros Hm e r Hr. unfold rlocked. rewrite Hr. by apply Hm. Qed.

Ltac tame_step :=
  match goal with
  | |- ∀ _, tame _ _ => intros ?
  | |- tame _ (mbind _ _) => apply tame_bind
  | |- tame _ (if ?b then _ else _) => destruct b
  | |- tame _ (match ?x with _ => _ end) => destruct x
  | |- tame _ (let _ := _ in _) => cbv zeta
  | |- tame _ (locked _) => apply tame_locked
  | |- tame _ (rlocked _) => apply tame_rlocked
  | |- tame _ (ignore _) => apply tame_ignore
  | |- tame _ (attempt _) => apply tame_attempt
  | |- tame _ (transaction _) => apply tame_transaction
  | |- tame _ (fmap _ _) => apply tame_fmap
  | |- tame _ (for_each _ _) => apply tame_for_each
  | |- tame _ _ => first [apply tame_ret|apply tame_fail|apply tame_now|apply tame_random_hex|apply tame_query
                         |apply tame_query_exact|apply tame_exec|apply tame_lift|solve [eauto 2 with sql nocore]]
  end.

(** An operation that succeeds has succeeded step by step. *)
Lemma bind_inv {Db A B} (m : Sql Db A) (k : A → Sql Db B) e r b r' :
  (m ≫= k) e r = Returned (Ok b) r' →
  ∃ a r1, m e r = Returned (Ok a) r1 ∧ k a e r1 = Returned (Ok b) r'.
Proof. unfold mbind, sql_bind. destruct (m e r) as [[a|err] r1|r1]; [eauto|done..]. Qed.

Lemma bind_ok {Db A B} (m : Sql Db A) (k : A → Sql Db B) e r a r1 :
  m e r = Returned (Ok a) r1 → (m ≫= k) e r = k a e r1.
Proof. unfold mbind, sql_bind. by intros ->. Qed.

Lemma ret_inv {Db A} (a b : A) e (r r' : Run Db) : mret (M:=Sql Db) a e r = Returned (Ok b) r' → a = b ∧ r' = r.
Proof. by intros [= -> ->]. Qed.

Lemma insert_inv {Db R} `{Table Db R, SqlDriver} (row : R) e (r : Run Db) n r' :
  insert_into row e r = Returned (Ok n) r' →
  tb_refs (rn_db r) row = true ∧
  rn_db r' = tb_put (tb_rows (rn_db r) ++ [row]) (rn_db r) ∧ rn_locked r' = rn_locked r.
Proof.
  unfold insert_into, exec, put_rows, sql_insert. destruct (tb_refs _ row); [|done].
  destruct (existsb _ _); [done|]. by intros [= <- <-].
Qed.

Lemma upsert_ok {Db R} `{Table Db R, SqlDriver} same upd (row : R) t e (r : Run Db) :
  tb_refs (rn_db r) row = true → sql_upsert (tb_clash (Db:=Db)) same upd row (tb_rows (rn_db r)) = Some t →
  upsert_into same upd row e r
  = Returned (Ok 1%Z) (mkRun (tb_put t (rn_db r)) (rn_locked r) (rn_clock r) (rn_rand r) (rn_query r)).
Proof. intros Hr Ht. unfold upsert_into, exec, put_rows. by rewrite Hr, Ht. Qed.

Lemma upsert_inv {Db R} `{Table Db R, SqlDriver} same upd (row : R) n e (r r' : Run Db) :
  upsert_into same upd row e r = Returned (Ok n) r' →
  ∃ t, sql_upsert (tb_clash (Db:=Db)) same upd row (tb_rows (rn_db r)) = Some t ∧
    rn_db r' = tb_put t (rn_db r) ∧ rn_locked r' = rn_locked r.
Proof.
  unfold upsert_into, exec, put_rows. destruct (tb_refs _ row); [|done].
  destruct (sql_upsert _ _ _ _ _) as [t|]; [|done]. intros [= <- <-]. by exists t.
Qed.

Lemma locked_inv {Db A} (m : Sql Db A) e (r : Run Db) a r' :
  locked m e r = Returned a r' →
  rn_locked r = false ∧ ∃ r1, m e (set_locked true r) = Returned a r1 ∧ r' = set_locked false r1.
Proof.
  unfold locked. destruct (rn_locked r); [done|]. destruct (m e _) as [res r1|]; [|done].
  intros [= -> <-]. split; [done|by exists r1].
Qed.

Lemma moves_inv {Db A} (R : relation Db) (m : Sql Db A) e r res r' :
  fair_scan e → moves R m → m e r = Returned res r' → R (rn_db r) (rn_db r').
Proof. intros He Hm Heq. specialize (Hm e r He). unfold steps in Hm. by rewrite Heq in Hm. Qed.

Lemma reads_inv {Db A} (m : Sql Db A) e r res r' :
  fair_scan e → reads m → m e r = Returned res r' → rn_db r' = rn_db r.
Proof. intros He Hm Heq. pose proof (reads_final m e r Hm He) as H. by rewrite Heq in H. Qed.


(** * What may happen to a table

    A [Policy] is the contract of a table: which rows may be added, how a row may
    change, and which rows may be removed.  A [table_step] is a statement within
    the contract; the constraints of the schema are kept by every such step. *)

Class Policy (Db R : Type) := {
  may_add : Db → R → Prop;
  may_change : R → R → Prop;
  may_drop : R → Prop;
}.
#[global] Hint Mode Policy ! ! : typeclass_instances.

Section Policy.
Context {Db R : Type} `{Table Db R, Policy Db R}.

Inductive table_step (db : Db) : list R → Prop :=
| ts_add row :
    may_add db row → tb_refs db row = true → existsb (tb_clash (Db:=Db) row) (tb_rows db) = false →
    table_step db (tb_rows db ++ [row])
| ts_change f :
    (∀ r, r ∈ tb_rows db → f r = r ∨ may_change (Db:=Db) r (f r)) → table_step db (f <$> tb_rows db)
| ts_drop sel :
    (∀ r, r ∈ tb_rows db → sel r = true → may_drop (Db:=Db) r) →
    table_step db (sql_delete sel (tb_rows db)).1.

(** A property of rows that the contract keeps holds of all rows. *)
Lemma table_step_Forall (P : R → Prop) db t :
  (∀ row, may_add db row → P row) →
  (∀ r r', may_change (Db:=Db) r r' → P r → P r') →
  table_step db t → Forall P (tb_rows db) → Forall P t.
Proof.
  intros Hadd Hchg [row Hrow _ _|f Hf|sel Hsel] Hall.
  - apply Forall_app. auto.
  - apply Forall_fmap. rewrite Forall_forall in Hall |- *. intros r Hr. cbn.
    destruct (Hf r Hr) as [->|Hc]; [by apply Hall|]. eapply Hchg, Hall; done.
  - by apply Forall_list_filter.
Qed.

(** What becomes of a row. *)
Lemma table_step_row db t r :
  table_step db t → r ∈ tb_rows db →
  r ∈ t ∨ (∃ r', may_change (Db:=Db) r r' ∧ r' ∈ t) ∨ may_drop (Db:=Db) r.
Proof.
  intros [row Hrow _ _|f Hf|sel Hsel] Hr.
  - left. apply elem_of_app. by left.
  - destruct (Hf r Hr) as [Heq|Hc]; [left|right; left].
    + rewrite <- Heq. by apply list_elem_of_fmap_2.
    + exists (f r). split; [done|]. by apply list_elem_of_fmap_2.
  - destruct (sel r) eqn:E; [right; right; by apply Hsel|left].
    cbn. by rewrite list_elem_of_filter.
Qed.

(** The constraints of the table, the references being looked up in [db]. *)
Definition table_ok (db : Db) (t : list R) : Prop :=
  unique_rows (tb_clash (Db:=Db)) t ∧ Forall (λ r, tb_refs db r = true) t.

(** The contract does not touch keys and references. *)
Class LawfulPolicy : Prop := {
  clash_sym : ∀ a b : R, tb_clash (Db:=Db) a b = tb_clash (Db:=Db) b a;
  change_clash : ∀ r r', may_change (Db:=Db) r r' → tb_clash (Db:=Db) r' = tb_clash (Db:=Db) r;
  change_refs : ∀ (db : Db) r r', may_change (Db:=Db) r r' → tb_refs db r = true → tb_refs db r' = true;
}.

Lemma unique_fmap_in (f : R → R) t :
  LawfulPolicy → (∀ r, r ∈ t → f r = r ∨ may_change (Db:=Db) r (f r)) →
  unique_rows (tb_clash (Db:=Db)) t → unique_rows (tb_clash (Db:=Db)) (f <$> t).
Proof.
  intros HL Hf. assert (∀ r, r ∈ t → tb_clash (Db:=Db) (f r) = tb_clash (Db:=Db) r) as Hk.
  { intros r Hr. destruct (Hf r Hr) as [->|Hc]; [done|]. by apply change_clash. }
  clear Hf. intros Hu. induction Hu as [|r t Hr _ IH]; [constructor|]. csimpl. constructor.
  - apply Forall_fmap. rewrite Forall_forall in Hr |- *. intros b Hb. cbn.
    rewrite (Hk r) by by left. rewrite (clash_sym r), (Hk b) by by right.
    rewrite (clash_sym b). by apply Hr.
  - apply IH. intros b Hb. apply Hk. by right.
Qed.

Lemma table_step_ok db t :
  LawfulPolicy → table_step db t → table_ok db (tb_rows db) → table_ok db t.
Proof.
  intros HL Ht [Hu Hr]. destruct Ht as [row _ Hrow Hc|f Hf|sel _]; split.
  - apply (sql_insert_unique _ clash_sym row (tb_rows db)); [|done]. unfold sql_insert. by rewrite Hc.
  - apply Forall_app. auto.
  - by apply unique_fmap_in.
  - apply Forall_fmap. rewrite Forall_forall in Hr |- *. intros r Hin. cbn.
    destruct (Hf r Hin) as [->|Hc]; [by apply Hr|]. eapply change_refs; [exact Hc|by apply Hr].
  - by apply sql_delete_unique.
  - by apply Forall_list_filter.
Qed.

End Policy.

Arguments LawfulPolicy Db R {_ _}.
