(* ===== verification/SqliteState.v ===== *)
(** * The SQLite store: its schema ([pkg/store/sqlite.go])

    One record per table with a field per column: texts, integers, and NULL where
    the column allows it.  Times are texts in RFC 3339, structures are JSON texts;
    the class [SqliteLib] holds what is not defined here, the JSON of Go values and
    the driver's errors.  The instances of [Table] give the keys and references of
    [autoMigrate]. *)

From S2P Require Import Prelude GoFloat GoStrings GoTime Sha256 Errors Domain Entities.
From S2P Require Import Sql.

(** ** Rows *)

Record OrgRow := mkOrgRow {
  gr_id : string;
  gr_name : string;
  gr_slug : string;
  gr_description : string;
  gr_created_at : string;
  gr_updated_at : string;
}.

#[export] Instance eta_OrgRow : Eta OrgRow :=
  {| eta_expand r := mkOrgRow
       (gr_id r) (gr_name r) (gr_slug r) (gr_description r) (gr_created_at r) (gr_updated_at r) |}.

Record ProjectRow := mkProjectRow {
  pw_id : string;
  pw_organization_id : string;
  pw_name : string;
  pw_slug : string;
  pw_description : string;
  pw_created_at : string;
  pw_updated_at : string;
}.

#[export] Instance eta_ProjectRow : Eta ProjectRow :=
  {| eta_expand r := mkProjectRow
       (pw_id r) (pw_organization_id r) (pw_name r) (pw_slug r) (pw_description r)
       (pw_created_at r) (pw_updated_at r) |}.

Record UserRow := mkUserRow {
  ur_id : string;
  ur_email : string;
  ur_password_hash : string;
  ur_name : string;
  ur_role : string;
  ur_avatar_url : string;
  ur_created_at : string;
  ur_updated_at : string;
}.

#[export] Instance eta_UserRow : Eta UserRow :=
  {| eta_expand r := mkUserRow
       (ur_id r) (ur_email r) (ur_password_hash r) (ur_name r) (ur_role r) (ur_avatar_url r)
       (ur_created_at r) (ur_updated_at r) |}.

Record SessionRow := mkSessionRow {
  sn_token : string;
  sn_user_id : string;
  sn_expires_at : string;
  sn_created_at : string;
}.

#[export] Instance eta_SessionRow : Eta SessionRow :=
  {| eta_expand r := mkSessionRow
       (sn_token r) (sn_user_id r) (sn_expires_at r) (sn_created_at r) |}.

Record FlagRow := mkFlagRow {
  fr_id : string;
  fr_project_id : string;
  fr_key : string;
  fr_config_version : Z;
  fr_name : string;
  fr_description : string;
  fr_type : string;
  fr_tags : string;
  fr_environments : string;
  fr_created_at : string;
  fr_updated_at : string;
}.

#[export] Instance eta_FlagRow : Eta FlagRow :=
  {| eta_expand r := mkFlagRow
       (fr_id r) (fr_project_id r) (fr_key r) (fr_config_version r) (fr_name r)
       (fr_description r) (fr_type r) (fr_tags r) (fr_environments r) (fr_created_at r)
       (fr_updated_at r) |}.

Record AuditRow := mkAuditRow {
  ar_id : string;
  ar_project_id : string;
  ar_flag_key : string;
  ar_action : string;
  ar_environment : string;
  ar_actor : string;
  ar_details : string;
  ar_prev_hash : string;
  ar_entry_hash : string;
  ar_timestamp : string;
}.

#[export] Instance eta_AuditRow : Eta AuditRow :=
  {| eta_expand r := mkAuditRow
       (ar_id r) (ar_project_id r) (ar_flag_key r) (ar_action r) (ar_environment r)
       (ar_actor r) (ar_details r) (ar_prev_hash r) (ar_entry_hash r) (ar_timestamp r) |}.

Record AnchorRow := mkAnchorRow {
  nr_project_id : string;
  nr_anchor_hash : string;
  nr_updated_at : string;
}.

#[export] Instance eta_AnchorRow : Eta AnchorRow :=
  {| eta_expand r := mkAnchorRow
       (nr_project_id r) (nr_anchor_hash r) (nr_updated_at r) |}.

Record EventRow := mkEventRow {
  er_id : string;
  er_project_id : string;
  er_flag_key : string;
  er_variant : string;
  er_metric_name : string;
  er_event_type : string;
  er_value : f64;
  er_user_id : string;
  er_environment : string;
  er_timestamp : string;
}.

#[export] Instance eta_EventRow : Eta EventRow :=
  {| eta_expand r := mkEventRow
       (er_id r) (er_project_id r) (er_flag_key r) (er_variant r) (er_metric_name r)
       (er_event_type r) (er_value r) (er_user_id r) (er_environment r) (er_timestamp r) |}.

Record RequestRow := mkRequestRow {
  qr_id : string;
  qr_project_id : string;
  qr_flag_key : string;
  qr_environment : string;
  qr_title : string;
  qr_description : string;
  qr_author_user_id : string;
  qr_author_email : string;
  qr_author_name : string;
  qr_proposed_config : string;
  qr_status : string;
  qr_reviewer_user_id : string;
  qr_reviewer_email : string;
  qr_reviewer_name : string;
  qr_review_comments : string;
  qr_created_at : string;
  qr_reviewed_at : option string;
  qr_applied_at : option string;
}.

#[export] Instance eta_RequestRow : Eta RequestRow :=
  {| eta_expand r := mkRequestRow
       (qr_id r) (qr_project_id r) (qr_flag_key r) (qr_environment r) (qr_title r)
       (qr_description r) (qr_author_user_id r) (qr_author_email r) (qr_author_name r)
       (qr_proposed_config r) (qr_status r) (qr_reviewer_user_id r) (qr_reviewer_email r)
       (qr_reviewer_name r) (qr_review_comments r) (qr_created_at r) (qr_reviewed_at r)
       (qr_applied_at r) |}.

Record KeyRow := mkKeyRow {
  kr_id : string;
  kr_project_id : string;
  kr_environment : string;
  kr_key_prefix : string;
  kr_key_hash : string;
  kr_name : string;
  kr_role : string;
  kr_created_by : string;
  kr_created_at : string;
  kr_last_used_at : option string;
  kr_revoked : Z;
}.

#[export] Instance eta_KeyRow : Eta KeyRow :=
  {| eta_expand r := mkKeyRow
       (kr_id r) (kr_project_id r) (kr_environment r) (kr_key_prefix r) (kr_key_hash r)
       (kr_name r) (kr_role r) (kr_created_by r) (kr_created_at r) (kr_last_used_at r)
       (kr_revoked r) |}.

Record ResetRow := mkResetRow {
  tr_token : string;
  tr_email : string;
  tr_expires_at : string;
  tr_used : Z;
  tr_created_at : string;
}.

#[export] Instance eta_ResetRow : Eta ResetRow :=
  {| eta_expand r := mkResetRow
       (tr_token r) (tr_email r) (tr_expires_at r) (tr_used r) (tr_created_at r) |}.

Record MemberRow := mkMemberRow {
  mr_id : string;
  mr_organization_id : string;
  mr_user_id : string;
  mr_role : string;
  mr_created_at : string;
}.

#[export] Instance eta_MemberRow : Eta MemberRow :=
  {| eta_expand r := mkMemberRow
       (mr_id r) (mr_organization_id r) (mr_user_id r) (mr_role r) (mr_created_at r) |}.

Record InviteRow := mkInviteRow {
  ir_id : string;
  ir_organization_id : string;
  ir_org_name : string;
  ir_email : string;
  ir_token : string;
  ir_role : string;
  ir_invited_by : string;
  ir_expires_at : string;
  ir_accepted_at : option string;
}.

#[export] Instance eta_InviteRow : Eta InviteRow :=
  {| eta_expand r := mkInviteRow
       (ir_id r) (ir_organization_id r) (ir_org_name r) (ir_email r) (ir_token r) (ir_role r)
       (ir_invited_by r) (ir_expires_at r) (ir_accepted_at r) |}.

Record CanaryRow := mkCanaryRow {
  cy_id : string;
  cy_project_id : string;
  cy_flag_key : string;
  cy_environment : string;
  cy_status : string;
  cy_current_stage_idx : Z;
  cy_stages : string;
  cy_guardrails : string;
  cy_rollback_reason : string;
  cy_created_at : string;
  cy_updated_at : string;
  cy_last_evaluated_at : string;
}.

#[export] Instance eta_CanaryRow : Eta CanaryRow :=
  {| eta_expand r := mkCanaryRow
       (cy_id r) (cy_project_id r) (cy_flag_key r) (cy_environment r) (cy_status r)
       (cy_current_stage_idx r) (cy_stages r) (cy_guardrails r) (cy_rollback_reason r)
       (cy_created_at r) (cy_updated_at r) (cy_last_evaluated_at r) |}.

Record OIDCRow := mkOIDCRow {
  oi_organization_id : string;
  oi_enabled : Z;
  oi_issuer_url : string;
  oi_client_id : string;
  oi_client_secret : string;
  oi_allowed_domains : string;
  oi_default_role : string;
  oi_created_at : string;
  oi_updated_at : string;
}.

#[export] Instance eta_OIDCRow : Eta OIDCRow :=
  {| eta_expand r := mkOIDCRow
       (oi_organization_id r) (oi_enabled r) (oi_issuer_url r) (oi_client_id r)
       (oi_client_secret r) (oi_allowed_domains r) (oi_default_role r) (oi_created_at r)
       (oi_updated_at r) |}.

Record Database := mkDatabase {
  organizations : list OrgRow;
  projects : list ProjectRow;
  users : list UserRow;
  sessions : list SessionRow;
  feature_flags : list FlagRow;
  audit_logs : list AuditRow;
  audit_anchors : list AnchorRow;
  experiment_events : list EventRow;
  change_requests : list RequestRow;
  api_keys : list KeyRow;
  password_reset_tokens : list ResetRow;
  org_members : list MemberRow;
  org_invitations : list InviteRow;
  canary_schedules : list CanaryRow;
  oidc_configs : list OIDCRow;
}.

#[export] Instance eta_Database : Eta Database :=
  {| eta_expand r := mkDatabase
       (organizations r) (projects r) (users r) (sessions r) (feature_flags r) (audit_logs r)
       (audit_anchors r) (experiment_events r) (change_requests r) (api_keys r)
       (password_reset_tokens r) (org_members r) (org_invitations r) (canary_schedules r)
       (oidc_configs r) |}.


Definition empty_database : Database := mkDatabase [] [] [] [] [] [] [] [] [] [] [] [] [] [] [].

(** ** Keys and references *)

Definition has_org (db : Database) (id : string) : bool :=
  existsb (λ o, gr_id o =s? id) (organizations db).
Definition has_user (db : Database) (id : string) : bool :=
  existsb (λ u, ur_id u =s? id) (users db).

#[export] Instance org_table : Table Database OrgRow := {|
  tb_name := "organizations"; tb_rows := organizations;
  tb_put t db := db <| organizations := t |>;
  tb_clash a b := (gr_id a =s? gr_id b) || (gr_slug a =s? gr_slug b);
  tb_refs _ _ := true;
|}.

#[export] Instance project_table : Table Database ProjectRow := {|
  tb_name := "projects"; tb_rows := projects;
  tb_put t db := db <| projects := t |>;
  tb_clash a b := (pw_id a =s? pw_id b) ||
    ((pw_organization_id a =s? pw_organization_id b) && (pw_slug a =s? pw_slug b));
  tb_refs db p := has_org db (pw_organization_id p);
|}.

#[export] Instance user_table : Table Database UserRow := {|
  tb_name := "users"; tb_rows := users;
  tb_put t db := db <| users := t |>;
  tb_clash a b := (ur_id a =s? ur_id b) || (ur_email a =s? ur_email b);
  tb_refs _ _ := true;
|}.

#[export] Instance session_table : Table Database SessionRow := {|
  tb_name := "sessions"; tb_rows := sessions;
  tb_put t db := db <| sessions := t |>;
  tb_clash a b := sn_token a =s? sn_token b;
  tb_refs db s := has_user db (sn_user_id s);
|}.

#[export] Instance flag_table : Table Database FlagRow := {|
  tb_name := "feature_flags"; tb_rows := feature_flags;
  tb_put t db := db <| feature_flags := t |>;
  tb_clash a b := (fr_id a =s? fr_id b) ||
    ((fr_project_id a =s? fr_project_id b) && (fr_key a =s? fr_key b));
  tb_refs _ _ := true;
|}.

#[export] Instance audit_table : Table Database AuditRow := {|
  tb_name := "audit_logs"; tb_rows := audit_logs;
  tb_put t db := db <| audit_logs := t |>;
  tb_clash a b := ar_id a =s? ar_id b;
  tb_refs _ _ := true;
|}.

#[export] Instance anchor_table : Table Database AnchorRow := {|
  tb_name := "audit_anchors"; tb_rows := audit_anchors;
  tb_put t db := db <| audit_anchors := t |>;
  tb_clash a b := nr_project_id a =s? nr_project_id b;
  tb_refs _ _ := true;
|}.

(** SQLite keeps a NaN as NULL, which the column refuses. *)
#[export] Instance event_table : Table Database EventRow := {|
  tb_name := "experiment_events"; tb_rows := experiment_events;
  tb_put t db := db <| experiment_events := t |>;
  tb_clash a b := er_id a =s? er_id b;
  tb_refs _ e := negb (is_nan (er_value e));
|}.

#[export] Instance request_table : Table Database RequestRow := {|
  tb_name := "change_requests"; tb_rows := change_requests;
  tb_put t db := db <| change_requests := t |>;
  tb_clash a b := qr_id a =s? qr_id b;
  tb_refs _ _ := true;
|}.

#[export] Instance key_table : Table Database KeyRow := {|
  tb_name := "api_keys"; tb_rows := api_keys;
  tb_put t db := db <| api_keys := t |>;
  tb_clash a b := (kr_id a =s? kr_id b) || (kr_key_hash a =s? kr_key_hash b);
  tb_refs _ _ := true;
|}.

#[export] Instance reset_table : Table Database ResetRow := {|
  tb_name := "password_reset_tokens"; tb_rows := password_reset_tokens;
  tb_put t db := db <| password_reset_tokens := t |>;
  tb_clash a b := tr_token a =s? tr_token b;
  tb_refs _ _ := true;
|}.

#[export] Instance member_table : Table Database MemberRow := {|
  tb_name := "org_members"; tb_rows := org_members;
  tb_put t db := db <| org_members := t |>;
  tb_clash a b := (mr_id a =s? mr_id b) ||
    ((mr_organization_id a =s? mr_organization_id b) && (mr_user_id a =s? mr_user_id b));
  tb_refs db m := has_org db (mr_organization_id m) && has_user db (mr_user_id m);
|}.

#[export] Instance invite_table : Table Database InviteRow := {|
  tb_name := "org_invitations"; tb_rows := org_invitations;
  tb_put t db := db <| org_invitations := t |>;
  tb_clash a b := (ir_id a =s? ir_id b) || (ir_token a =s? ir_token b);
  tb_refs db i := has_org db (ir_organization_id i);
|}.

#[export] Instance canary_table : Table Database CanaryRow := {|
  tb_name := "canary_schedules"; tb_rows := canary_schedules;
  tb_put t db := db <| canary_schedules := t |>;
  tb_clash a b := (cy_project_id a =s? cy_project_id b) && (cy_flag_key a =s? cy_flag_key b);
  tb_refs _ _ := true;
|}.

#[export] Instance oidc_table : Table Database OIDCRow := {|
  tb_name := "oidc_configs"; tb_rows := oidc_configs;
  tb_put t db := db <| oidc_configs := t |>;
  tb_clash a b := oi_organization_id a =s? oi_organization_id b;
  tb_refs db c := has_org db (oi_organization_id c);
|}.

(** ** What is not defined here *)

(** [write_*] is [json.Marshal] as a column (the empty text when it fails and the
    error is ignored), [read_*] what is in the variable after [json.Unmarshal],
    its error ignored. *)
Class SqliteLib := {
  write_tags : list string → string;
  read_tags : string → list string;
  write_envs : gmap string EnvironmentConfig → string;
  read_envs : string → gmap string EnvironmentConfig;
  write_proposed : EnvironmentConfig → Z → string;
  read_proposed : string → EnvironmentConfig;
  read_base : string → option Z;
  write_stages : list CanaryStage → option string;
  read_stages : string → list CanaryStage;
  write_guardrails : CanaryGuardrails → option string;
  read_guardrails : string → CanaryGuardrails;
  (** [database/sql] refuses an [uint64] above 2^63 - 1 as an argument. *)
  argument_error : GoError;
  (** The errors of [json.Marshal] for stages and guardrails. *)
  stages_error : GoError;
  guardrails_error : GoError;
}.

(** An [uint64] as an argument of a statement. *)
Definition bind_uint64 {Db} `{SqliteLib} (v : Z) : Sql Db Z :=
  if (2 ^ 63 <=? v)%Z then fail argument_error else mret v.

Abbreviation Sqlite := (Sql Database).

(** A text column of an optional time. *)
Definition parse_optional (s : option string) : option Time := parse_time <$> s.
