(* ===== verification/Sqlite.v ===== *)
(** * The SQLite store ([pkg/store/sqlite.go])

    Its operations on the schema of [SqliteState], in the sections of the file:
    the audit trail, flags, organizations and projects, users and keys, change
    requests, the other tables, and the store as a whole. *)

From Stdlib Require Import Floats.SpecFloat.
From S2P Require Import Prelude GoFloat GoStrings GoTime Sha256 Errors Domain Engine Entities.
From S2P Require Import StoreState StoreAudit StoreFlags StoreGovernance Sql SqliteState.

(** * The audit trail in SQLite ([pkg/store/sqlite.go])

    Entries are rows ordered by the text of their time and then by [rowid].  The
    text has no trailing zeros in the fraction of the second, so its order is not
    always that of the times. *)

(** ** Operations *)

Definition audit_of_row (a : AuditRow) : AuditLogEntry :=
  let ts := parse_time (ar_timestamp a) in
  let ts := if IsZero ts then parse_time (ar_timestamp a) else ts in
  mkAudit (ar_id a) (ar_project_id a) ts (ar_actor a) (ar_action a) (ar_flag_key a)
    (ar_environment a) (ar_details a) (ar_prev_hash a) (ar_entry_hash a).

Definition row_of_audit (e : AuditLogEntry) : AuditRow :=
  mkAuditRow (al_ID e) (al_ProjectID e) (al_FlagKey e) (al_Action e) (al_Environment e) (al_Actor e)
    (al_Details e) (al_PrevHash e) (al_EntryHash e) (FormatRFC3339Nano (al_Timestamp e)).

Definition older_row (a b : AuditRow) : bool := text_leb (ar_timestamp a) (ar_timestamp b).

(** [ORDER BY timestamp ASC, rowid ASC], and both DESC. *)
Definition oldest_first (t : list AuditRow) : list AuditRow := order_by older_row t.
Definition newest_first (t : list AuditRow) : list AuditRow := reverse (oldest_first t).

Definition of_project (p : string) (a : AuditRow) : bool := ar_project_id a =s? p.

(** The project's rows, oldest first. *)
Definition trail (p : string) (db : Database) : list AuditRow :=
  oldest_first (sql_where (of_project p) (audit_logs db)).

Section Audit.
Context `{SqlDriver}.

(** [SELECT anchor_hash ...]: the anchor, or the genesis hash. *)
Definition chain_base (p : string) : Sqlite string :=
  anchor ← select_one (λ n : AnchorRow, nr_project_id n =s? p);
  mret (match anchor with
        | Some n => if negb (nr_anchor_hash n =s? "") then nr_anchor_hash n else AuditGenesisHash
        | None => AuditGenesisHash
        end).

Definition audit_id : Sqlite string := (λ h, "audit_" +:+ h) <$> random_hex.

(** The entry with its identifier, project and time, and then with its hashes. *)
Definition completed (entry : AuditLogEntry) (id : string) (ts : Time) : AuditLogEntry :=
  entry <| al_ID := id |> <| al_ProjectID := or_default (al_ProjectID entry) DefaultProjectID |>
        <| al_Timestamp := ts |>.

Definition linked (prevHash : string) (entry : AuditLogEntry) : AuditLogEntry :=
  let entry := entry <| al_PrevHash := prevHash |> in
  entry <| al_EntryHash := ComputeAuditEntryHash prevHash entry |>.

Definition insertAuditLog (entry : AuditLogEntry) : Sqlite (AuditLogEntry * result GoError ()) :=
  id ← (if al_ID entry =s? "" then audit_id else mret (al_ID entry));
  ts ← (if IsZero (al_Timestamp entry) then now else mret (al_Timestamp entry));
  let entry := completed entry id ts in
  newest ← query_exact (λ db, head (newest_first (sql_where
    (λ a, of_project (al_ProjectID entry) a && negb (ar_entry_hash a =s? "")) (audit_logs db))));
  prevHash ← match newest with
             | Some a => mret (ar_entry_hash a)
             | None => chain_base (al_ProjectID entry)
             end;
  let entry := linked prevHash entry in
  res ← attempt (insert_into (row_of_audit entry));
  mret (entry, match res with Ok _ => Ok () | Err err => Err err end).

(** [audit, _ = s.insertAuditLog(...)]. *)
Definition record_audit (entry : AuditLogEntry) : Sqlite AuditLogEntry := fst <$> insertAuditLog entry.

Definition ListAuditLogsByProject (projectID : string) (limit : Z) : Sqlite (list AuditLogEntry) :=
  let limit := if (limit <=? 0)%Z || (500 <? limit)%Z then 100%Z else limit in
  rows ← query_exact (λ db,
    take (Z.to_nat limit) (newest_first (sql_where (of_project projectID) (audit_logs db))));
  mret (audit_of_row <$> rows).

Definition ListAuditLogs (limit : Z) : Sqlite (list AuditLogEntry) :=
  ListAuditLogsByProject DefaultProjectID limit.

Definition VerifyAuditLogIntegrity (projectID : string) : Sqlite AuditIntegrityResult :=
  let projectID := or_default projectID DefaultProjectID in
  rows ← query_exact (trail projectID);
  let chain := audit_of_row <$> rows in
  t ← now;
  match chain with
  | [] => mret (mkIntegrity true 0 "" t "" "")
  | _ => expectedPrev ← chain_base projectID; mret (verify_chain t 0 expectedPrev chain)
  end.

(** The bounds are compared as texts. *)
Definition exported_row (p : string) (from to : option Time) (a : AuditRow) : bool :=
  of_project p a &&
  match from with Some t => text_leb (FormatRFC3339Nano t) (ar_timestamp a) | None => true end &&
  match to with Some t => text_leb (ar_timestamp a) (FormatRFC3339Nano t) | None => true end.

Definition ExportAuditLogs (projectID : string) (from to : option Time) (limit : Z)
    : Sqlite (list AuditLogEntry) :=
  let projectID := or_default projectID DefaultProjectID in
  let limit := if (limit <=? 0)%Z || (10000 <? limit)%Z then 10000%Z else limit in
  rows ← query_exact (λ db,
    take (Z.to_nat limit) (newest_first (sql_where (exported_row projectID from to) (audit_logs db))));
  mret (audit_of_row <$> rows).

(** [project_id = ? AND timestamp < ?]. *)
Definition purged_row (p before : string) (a : AuditRow) : bool :=
  of_project p a && negb (text_leb before (ar_timestamp a)).

Definition PurgeAuditLogs (projectID : string) (before : Time) : Sqlite Z := locked (
  let projectID := or_default projectID DefaultProjectID in
  let beforeStr := FormatRFC3339Nano before in
  last ← query_exact (λ db,
    head (newest_first (sql_where (purged_row projectID beforeStr) (audit_logs db))));
  let lastPurgedHash := default "" (ar_entry_hash <$> last) in
  affected ← delete_from (purged_row projectID beforeStr);
  if (0 <? affected)%Z && negb (lastPurgedHash =s? "") then
    t ← now;
    ignore (upsert_into (λ a b, nr_project_id a =s? nr_project_id b)
      (λ excluded old, old <| nr_anchor_hash := nr_anchor_hash excluded |>
                           <| nr_updated_at := nr_updated_at excluded |>)
      (mkAnchorRow projectID lastPurgedHash (FormatRFC3339 t)));;
    mret affected
  else mret affected).

Definition AppendAuditLog (entry : AuditLogEntry) : Sqlite AuditLogEntry := locked (
  '(log, res) ← insertAuditLog entry;
  lift res;;
  mret log).

End Audit.

(** * Flags in SQLite ([pkg/store/sqlite.go])

    A flag is one row, its environments one JSON text.  Writers hold the mutex of
    the store; readers and the look-up inside a writer do not take it. *)

Section Flags.
Context `{GoRuntime, SqlDriver, SqliteLib}.

Definition flag_of_row (r : FlagRow) : FeatureFlag :=
  mkFlag (fr_id r) (fr_project_id r) (fr_config_version r) (fr_key r) (fr_name r) (fr_description r)
    (fr_type r) (read_tags (fr_tags r)) (read_envs (fr_environments r))
    (parse_time (fr_created_at r)) (parse_time (fr_updated_at r)).

Definition row_of_flag (f : FeatureFlag) : FlagRow :=
  mkFlagRow (ff_ID f) (ff_ProjectID f) (ff_Key f) (ff_ConfigVersion f) (ff_Name f) (ff_Description f)
    (ff_Type f) (write_tags (ff_Tags f)) (write_envs (ff_Environments f))
    (FormatRFC3339 (ff_CreatedAt f)) (FormatRFC3339 (ff_UpdatedAt f)).

(** ** Reading *)

Definition ListFlagsByProject (projectID : string) : Sqlite (list FeatureFlag) :=
  rows ← select_by (descending (λ a b : FlagRow, text_leb (fr_created_at a) (fr_created_at b)))
    (λ r : FlagRow, fr_project_id r =s? projectID);
  mret (flag_of_row <$> rows).

Definition ListFlags : Sqlite (list FeatureFlag) := ListFlagsByProject DefaultProjectID.

(** [project_id = ? AND (key = ? OR id = ?)]. *)
Definition flag_row (projectID keyOrID : string) (r : FlagRow) : bool :=
  (fr_project_id r =s? projectID) && ((fr_key r =s? keyOrID) || (fr_id r =s? keyOrID)).

Definition missing_in_project (projectID keyOrID : string) : GoError :=
  EText ("flag " +:+ rt_quote keyOrID +:+ " not found in project " +:+ projectID).

Definition GetFlagByProject (projectID keyOrID : string) : Sqlite FeatureFlag :=
  row ← select_one (flag_row projectID keyOrID);
  match row with
  | Some r => mret (flag_of_row r)
  | None => fail (missing_in_project projectID keyOrID)
  end.

Definition GetFlag (keyOrID : string) : Sqlite FeatureFlag :=
  res ← attempt (GetFlagByProject DefaultProjectID keyOrID);
  match res with
  | Ok f => mret f
  | Err _ =>
      row ← select_one (λ r : FlagRow, (fr_id r =s? keyOrID) || (fr_key r =s? keyOrID));
      match row with
      | Some r => mret (flag_of_row r)
      | None => fail (EText ("flag " +:+ rt_quote keyOrID +:+ " not found"))
      end
  end.

(** ** Writing *)

(** [ON CONFLICT(project_id, key) DO UPDATE SET ...]. *)
Definition same_flag (a b : FlagRow) : bool :=
  (fr_project_id a =s? fr_project_id b) && (fr_key a =s? fr_key b).

Definition replace_flag (excluded old : FlagRow) : FlagRow :=
  old <| fr_config_version := (fr_config_version old + 1)%Z |> <| fr_name := fr_name excluded |>
      <| fr_description := fr_description excluded |> <| fr_type := fr_type excluded |>
      <| fr_tags := fr_tags excluded |> <| fr_environments := fr_environments excluded |>
      <| fr_updated_at := fr_updated_at excluded |>.

Definition new_audit (p key action env actor details : string) (t : Time) : Sqlite AuditLogEntry :=
  id ← audit_id;
  record_audit (mkAudit id p t actor action key env details "" "").

Definition SaveFlag (flag : FeatureFlag) (actor : string) : Sqlite (option AuditLogEntry) := locked (
  id ← (if ff_ID flag =s? "" then (λ h, "flag_" +:+ h) <$> random_hex else mret (ff_ID flag));
  let flag := flag <| ff_ID := id |> <| ff_ProjectID := or_default (ff_ProjectID flag) DefaultProjectID |> in
  t ← now;
  let flag := flag <| ff_CreatedAt := if IsZero (ff_CreatedAt flag) then t else ff_CreatedAt flag |>
                   <| ff_UpdatedAt := t |> <| ff_ConfigVersion := bump (ff_ConfigVersion flag) |> in
  bind_uint64 (ff_ConfigVersion flag);;
  upsert_into same_flag replace_flag (row_of_flag flag);;
  if actor =s? "snapshot_restore" then mret None
  else Some <$> new_audit (ff_ProjectID flag) (ff_Key flag) "SAVE_FLAG" "all" actor
         ("Saved flag " +:+ rt_quote (ff_Key flag) +:+ " with " +:+
          Itoa (Z.of_nat (size (ff_Environments flag))) +:+ " environments") t).

Definition DeleteFlagByProject (projectID keyOrID actor : string) : Sqlite AuditLogEntry := locked (
  let projectID := or_default projectID DefaultProjectID in
  flag ← GetFlagByProject projectID keyOrID;
  rows ← delete_from (λ r : FlagRow, (fr_project_id r =s? projectID) &&
    ((fr_id r =s? ff_ID flag) || (fr_key r =s? ff_Key flag)));
  if (rows =? 0)%Z then fail (ESentinel ErrFlagNotFound)
  else
    id ← audit_id;
    t ← now;
    record_audit (mkAudit id projectID t actor "DELETE_FLAG" (ff_Key flag) "all"
      ("Deleted flag " +:+ rt_quote (ff_Key flag) +:+ " from project " +:+ rt_quote projectID +:+
       " permanently") "" "")).

(** [UPDATE feature_flags SET environments = ?, ... WHERE id = ? AND project_id = ?]. *)
Definition update_environments (projectID : string) (flag : FeatureFlag) : Sqlite () :=
  update_rows (λ r : FlagRow, (fr_id r =s? ff_ID flag) && (fr_project_id r =s? projectID))
    (λ r, r <| fr_environments := write_envs (ff_Environments flag) |>
            <| fr_config_version := (fr_config_version r + 1)%Z |>
            <| fr_updated_at := FormatRFC3339 (ff_UpdatedAt flag) |>);;
  mret ().

Definition ToggleFlagByProject (projectID keyOrID : string) (env : Environment)
    (enabled : option bool) (actor : string) : Sqlite (FeatureFlag * AuditLogEntry) := locked (
  let projectID := or_default projectID DefaultProjectID in
  flag ← GetFlagByProject projectID keyOrID;
  let cfg := toggled_cfg enabled (EnvConfig flag env) in
  t ← now;
  let flag := set_env env cfg t flag in
  update_environments projectID flag;;
  audit ← new_audit projectID (ff_Key flag) "TOGGLE_FLAG" env actor
    ("Toggled flag " +:+ rt_quote (ff_Key flag) +:+ " [" +:+ env +:+ "] -> " +:+
     (if ec_Enabled cfg then "true" else "false") +:+ " in project " +:+ rt_quote projectID) t;
  mret (flag, audit)).

(** Neither the percentage nor the strategy is looked at. *)
Definition forced_rollout (pct : f64) (cfg : EnvironmentConfig) : EnvironmentConfig :=
  cfg <| ec_Percentage := pct |> <| ec_Strategy := StrategyPercentage |>.

Definition UpdateRolloutByProject (projectID keyOrID : string) (env : Environment) (pct : f64)
    (actor : string) : Sqlite (FeatureFlag * AuditLogEntry) := locked (
  let projectID := or_default projectID DefaultProjectID in
  flag ← GetFlagByProject projectID keyOrID;
  let cfg := forced_rollout pct (EnvConfig flag env) in
  t ← now;
  let flag := set_env env cfg t flag in
  update_environments projectID flag;;
  audit ← new_audit projectID (ff_Key flag) "UPDATE_ROLLOUT" env actor
    ("Updated rollout for " +:+ rt_quote (ff_Key flag) +:+ " [" +:+ env +:+ "] to " +:+
     FormatFixed 1 pct +:+ "% in project " +:+ rt_quote projectID) t;
  mret (flag, audit)).

(** The forms without a project find the flag, with its project, first. *)
Definition DeleteFlag (keyOrID actor : string) : Sqlite AuditLogEntry :=
  flag ← GetFlag keyOrID;
  DeleteFlagByProject (ff_ProjectID flag) (ff_ID flag) actor.

Definition ToggleFlag (keyOrID : string) (env : Environment) (enabled : option bool) (actor : string)
    : Sqlite (FeatureFlag * AuditLogEntry) :=
  flag ← GetFlag keyOrID;
  ToggleFlagByProject (ff_ProjectID flag) (ff_ID flag) env enabled actor.

Definition UpdateRollout (keyOrID : string) (env : Environment) (pct : f64) (actor : string)
    : Sqlite (FeatureFlag * AuditLogEntry) :=
  flag ← GetFlag keyOrID;
  UpdateRolloutByProject (ff_ProjectID flag) (ff_ID flag) env pct actor.

End Flags.

(** * Organizations, projects, members and invitations in SQLite
    ([pkg/store/sqlite.go]) *)

(** ** Organizations *)

Definition org_of_row (r : OrgRow) : Organization :=
  mkOrg (gr_id r) (gr_name r) (gr_slug r) (gr_description r)
    (parse_time (gr_created_at r)) (parse_time (gr_updated_at r)).

(** [project.UpdatedAt] is not read back. *)
Definition project_of_row (r : ProjectRow) : Project :=
  mkProject (pw_id r) (pw_organization_id r) 0 (pw_name r) (pw_slug r) (pw_description r)
    (parse_time (pw_created_at r)) time_zero.

Definition member_of_row (r : MemberRow) : OrgMember :=
  mkMember (mr_id r) (mr_organization_id r) (mr_user_id r) (mr_role r) (parse_time (mr_created_at r)).

Definition invite_of_row (r : InviteRow) : OrgInvitation :=
  mkInvitation (ir_id r) (ir_organization_id r) (ir_org_name r) (ir_email r) (ir_token r) (ir_role r)
    (ir_invited_by r) (parse_time (ir_expires_at r)) (parse_optional (ir_accepted_at r)) time_zero.

(** [if x.ID == "" { x.ID = prefix + generateHexToken(n) }]. *)
Definition id_or_new (id prefix : string) : Sqlite string :=
  if id =s? "" then (λ h, prefix +:+ h) <$> random_hex else mret id.

Section Tenancy.
Context `{GoRuntime, SqlDriver}.

Definition CreateOrganization (org : Organization) : Sqlite Organization := locked (
  id ← id_or_new (og_ID org) "org_";
  t ← now;
  let org := org <| og_ID := id |> <| og_CreatedAt := t |> <| og_UpdatedAt := t |> in
  insert_into (mkOrgRow (og_ID org) (og_Name org) (og_Slug org) (og_Description org)
    (FormatRFC3339 t) (FormatRFC3339 t));;
  mret org).

Definition GetOrganization (idOrSlug : string) : Sqlite Organization :=
  row ← select_one (λ r : OrgRow, (gr_id r =s? idOrSlug) || (gr_slug r =s? idOrSlug));
  match row with
  | Some r => mret (org_of_row r)
  | None => fail (EText ("organization not found: " +:+ idOrSlug))
  end.

Definition by_org_name (a b : OrgRow) : bool := text_leb (gr_name a) (gr_name b).

Definition ListOrganizations : Sqlite (list Organization) :=
  rows ← select_by by_org_name (λ _ : OrgRow, true);
  mret (org_of_row <$> rows).

(** [organizations o JOIN org_members m ON o.id = m.organization_id WHERE m.user_id = ?]. *)
Definition orgs_of_member (userID : string) (db : Database) : list OrgRow :=
  mbind (M:=list) (λ o, (λ _, o) <$>
    sql_where (λ m, (gr_id o =s? mr_organization_id m) && (mr_user_id m =s? userID)) (org_members db))
    (organizations db).

Definition ListUserOrganizations (userID : string) : Sqlite (list Organization) :=
  rows ← query (orgs_of_member userID);
  let l := org_of_row <$> order_by by_org_name rows in
  user ← select_one (λ u : UserRow, ur_id u =s? userID);
  if default "" (ur_role <$> user) =s? RoleAdmin then ListOrganizations else mret l.

(** ** Projects *)

Definition CreateProject (project : Project) : Sqlite Project := locked (
  id ← id_or_new (pj_ID project) "proj_";
  t ← now;
  let project := project <| pj_ID := id |>
    <| pj_OrganizationID := or_default (pj_OrganizationID project) DefaultOrgID |>
    <| pj_CreatedAt := t |> in
  insert_into (mkProjectRow (pj_ID project) (pj_OrganizationID project) (pj_Name project)
    (pj_Slug project) (pj_Description project) (FormatRFC3339 t) (FormatRFC3339 t));;
  mret project).

Definition GetProject (idOrSlug : string) : Sqlite Project :=
  row ← select_one (λ r : ProjectRow, (pw_id r =s? idOrSlug) || (pw_slug r =s? idOrSlug));
  match row with
  | Some r => mret (project_of_row r)
  | None => fail (EText ("project not found: " +:+ idOrSlug))
  end.

Definition ListProjects (organizationID : string) : Sqlite (list Project) :=
  rows ← select_by (λ a b : ProjectRow, text_leb (pw_name a) (pw_name b))
    (λ r : ProjectRow, (organizationID =s? "") || (pw_organization_id r =s? organizationID));
  mret (project_of_row <$> rows).

(** ** Members *)

(** [ON CONFLICT(organization_id, user_id) DO UPDATE SET role = excluded.role]. *)
Definition same_member (a b : MemberRow) : bool :=
  (mr_organization_id a =s? mr_organization_id b) && (mr_user_id a =s? mr_user_id b).

Definition put_member (m : OrgMember) : Sqlite Z :=
  upsert_into same_member (λ excluded old, old <| mr_role := mr_role excluded |>)
    (mkMemberRow (om_ID m) (om_OrganizationID m) (om_UserID m) (om_Role m) (FormatRFC3339 (om_CreatedAt m))).

Definition CreateOrgMember (member : OrgMember) : Sqlite OrgMember := locked (
  id ← id_or_new (om_ID member) "mem_";
  t ← now;
  let member := member <| om_ID := id |> <| om_CreatedAt := t |> in
  put_member member;;
  mret member).

Definition GetOrgMember (organizationID userID : string) : Sqlite OrgMember :=
  row ← select_one (λ m : MemberRow,
    (mr_organization_id m =s? organizationID) && (mr_user_id m =s? userID));
  match row with
  | Some m => mret (member_of_row m)
  | None => fail (ESentinel ErrNotFound)
  end.

Definition ListOrgMembers (organizationID : string) : Sqlite (list OrgMember) :=
  rows ← select_by (λ a b : MemberRow, text_leb (mr_created_at a) (mr_created_at b))
    (λ m : MemberRow, mr_organization_id m =s? organizationID);
  mret (member_of_row <$> rows).

(** ** Invitations *)

Definition CreateOrgInvitation (inv : OrgInvitation) : Sqlite OrgInvitation := locked (
  id ← id_or_new (iv_ID inv) "inv_";
  token ← id_or_new (iv_Token inv) "";
  exp ← (if IsZero (iv_ExpiresAt inv) then (λ t, time_add t (7 * 24 * Hour)%Z) <$> now else mret (iv_ExpiresAt inv));
  let inv := inv <| iv_ID := id |> <| iv_Token := token |> <| iv_ExpiresAt := exp |> in
  insert_into (mkInviteRow (iv_ID inv) (iv_OrganizationID inv) (iv_OrgName inv) (ToLower (iv_Email inv))
    (iv_Token inv) (iv_Role inv) (iv_InvitedBy inv) (FormatRFC3339 (iv_ExpiresAt inv)) None);;
  mret inv).

Definition GetOrgInvitation (token : string) : Sqlite OrgInvitation :=
  row ← select_one (λ i : InviteRow, ir_token i =s? token);
  match row with
  | Some i => mret (invite_of_row i)
  | None => fail (EText "invitation not found")
  end.

(** The invitation is marked before the member is written, in a statement of
    its own. *)
Definition AcceptOrgInvitation (token userID : string) : Sqlite OrgMember := locked (
  inv ← GetOrgInvitation token;
  match iv_AcceptedAt inv with
  | Some _ => fail (EText "invitation already accepted")
  | None =>
    t ← now;
    if After t (iv_ExpiresAt inv) then fail (EText "invitation expired")
    else
      user ← select_one (λ u : UserRow, ur_id u =s? userID);
      let userEmail := default "" (ur_email <$> user) in
      if negb (userEmail =s? "") && negb (iv_Email inv =s? "") && negb (EqualFold userEmail (iv_Email inv))
      then fail (EText ("invitation was issued for " +:+ iv_Email inv +:+ ", but accepted by " +:+ userEmail))
      else
        t ← now;
        ignore (update_rows (λ i : InviteRow, ir_token i =s? token)
          (λ i, i <| ir_accepted_at := Some (FormatRFC3339 t) |>));;
        id ← id_or_new "" "mem_";
        t ← now;
        let member := mkMember id (iv_OrganizationID inv) userID (iv_Role inv) t in
        put_member member;;
        mret member
  end).

Definition ListOrgInvitations (organizationID : string) : Sqlite (list OrgInvitation) :=
  rows ← select_by (descending (λ a b : InviteRow, text_leb (ir_expires_at a) (ir_expires_at b)))
    (λ i : InviteRow, ir_organization_id i =s? organizationID);
  mret (invite_of_row <$> rows).

End Tenancy.

(** * Users, sessions, password resets and API keys in SQLite
    ([pkg/store/sqlite.go]) *)

(** ** Users *)

Definition user_of_row (r : UserRow) : User :=
  mkUser (ur_id r) (ur_email r) (ur_password_hash r) (ur_name r) (ur_role r) (ur_avatar_url r)
    (parse_time (ur_created_at r)) (parse_time (ur_updated_at r)) None.

Definition reset_of_row (r : ResetRow) : PasswordResetToken :=
  mkResetToken (tr_token r) (tr_email r) (parse_time (tr_expires_at r)) (tr_used r =? 1)%Z
    (parse_time (tr_created_at r)).

(** [key_hash] is not among the columns of the lists, and is cleared elsewhere. *)
Definition key_of_row (r : KeyRow) : APIKey :=
  mkAPIKey (kr_id r) (kr_project_id r) (kr_environment r) "" (kr_key_prefix r) "" (kr_name r) (kr_role r)
    (kr_created_by r) (parse_time (kr_created_at r)) (parse_optional (kr_last_used_at r))
    (kr_revoked r =? 1)%Z.

Section Identity.
Context `{GoRuntime, SqlDriver}.

Definition CreateUser (user : User) : Sqlite User := locked (
  id ← id_or_new (us_ID user) "usr_";
  t ← now;
  let user := user <| us_ID := id |> <| us_CreatedAt := t |> <| us_UpdatedAt := t |> in
  insert_into (mkUserRow (us_ID user) (ToLower (us_Email user)) (us_PasswordHash user) (us_Name user)
    (us_Role user) (us_AvatarURL user) (FormatRFC3339 t) (FormatRFC3339 t));;
  mret user).

Definition ListUsers : Sqlite (list User) :=
  rows ← select_by (λ a b : UserRow, text_leb (ur_created_at a) (ur_created_at b)) (λ _ : UserRow, true);
  mret (user_of_row <$> rows).

Definition GetUserByEmail (email : string) : Sqlite User :=
  row ← select_one (λ u : UserRow, ur_email u =s? ToLower email);
  match row with
  | Some u => mret (user_of_row u)
  | None => fail (EText ("user not found: " +:+ email))
  end.

Definition GetUserByID (id : string) : Sqlite User :=
  row ← select_one (λ u : UserRow, ur_id u =s? id);
  match row with
  | Some u => mret (user_of_row u)
  | None => fail (EText ("user not found: " +:+ id))
  end.

Definition no_user_with_id (id : string) : GoError := EText ("user not found with ID: " +:+ id).

Definition UpdateUser (user : User) : Sqlite User := locked (
  t ← now;
  rows ← update_rows (λ u : UserRow, ur_id u =s? us_ID user)
    (λ u, u <| ur_name := us_Name user |> <| ur_avatar_url := us_AvatarURL user |>
            <| ur_updated_at := FormatRFC3339 t |>);
  if (rows =? 0)%Z then fail (no_user_with_id (us_ID user))
  else
    row ← select_one (λ u : UserRow, ur_id u =s? us_ID user);
    match row with
    | Some u => mret (user_of_row u)
    | None => fail (EText "sql: no rows in result set")
    end).

Definition UpdateUserPassword (userID newPasswordHash : string) : Sqlite () := locked (
  t ← now;
  rows ← update_rows (λ u : UserRow, ur_id u =s? userID)
    (λ u, u <| ur_password_hash := newPasswordHash |> <| ur_updated_at := FormatRFC3339 t |>);
  if (rows =? 0)%Z then fail (no_user_with_id userID) else mret ()).

(** ** Sessions *)

Definition CreateSession (session : Session) : Sqlite () := locked (
  insert_into (mkSessionRow (ss_Token session) (ss_UserID session)
    (FormatRFC3339 (ss_ExpiresAt session)) (FormatRFC3339 (ss_CreatedAt session)));;
  mret ()).

Definition DeleteSession (token : string) : Sqlite () := locked (
  delete_from (λ s : SessionRow, sn_token s =s? token);; mret ()).

Definition DeleteUserSessions (userID : string) : Sqlite () := locked (
  delete_from (λ s : SessionRow, sn_user_id s =s? userID);; mret ()).

Definition GetSession (token : string) : Sqlite Session :=
  row ← select_one (λ s : SessionRow, sn_token s =s? token);
  match row with
  | None => fail (EText "session not found")
  | Some s =>
      let expiresAt := parse_time (sn_expires_at s) in
      t ← now;
      if After t expiresAt then ignore (DeleteSession token);; fail (EText "session expired")
      else
        user ← attempt (GetUserByID (sn_user_id s));
        mret (mkSession (sn_token s) (sn_user_id s) (match user with Ok u => Some u | Err _ => None end)
                expiresAt (parse_time (sn_created_at s)))
  end.

(** ** Password resets *)

Definition CreatePasswordResetToken (email : string) (ttl : Duration) : Sqlite string := locked (
  token ← id_or_new "" "flg_rst_";
  t ← now;
  insert_into (mkResetRow token (ToLower email) (FormatRFC3339 (time_add t ttl)) 0 (FormatRFC3339 t));;
  mret token).

Definition GetPasswordResetToken (token : string) : Sqlite PasswordResetToken :=
  row ← select_one (λ r : ResetRow, tr_token r =s? token);
  match row with
  | Some r => mret (reset_of_row r)
  | None => fail (EText "reset token not found")
  end.

Definition ResetPasswordWithToken (token newPasswordHash : string) : Sqlite () := locked (
  pr ← GetPasswordResetToken token;
  if pr_Used pr then fail (EText "token already used")
  else
    t ← now;
    if After t (pr_ExpiresAt pr) then fail (EText "token expired")
    else
      t ← now;
      update_rows (λ u : UserRow, ur_email u =s? pr_Email pr)
        (λ u, u <| ur_password_hash := newPasswordHash |> <| ur_updated_at := FormatRFC3339 t |>);;
      ignore (update_rows (λ r : ResetRow, tr_token r =s? token) (λ r, r <| tr_used := 1%Z |>))).

(** ** API keys *)

Definition CreateAPIKey (key : APIKey) : Sqlite APIKey := locked (
  id ← (if ak_ID key =s? "" then t ← now; (λ h, "key_" +:+ Itoa t +:+ "_" +:+ h) <$> random_hex
        else mret (ak_ID key));
  t ← now;
  let key := key <| ak_ID := id |> <| ak_ProjectID := or_default (ak_ProjectID key) DefaultProjectID |>
    <| ak_Environment := or_default (ak_Environment key) "production" |>
    <| ak_CreatedAt := t |> <| ak_Revoked := false |> in
  insert_into (mkKeyRow (ak_ID key) (ak_ProjectID key) (ak_Environment key) (ak_KeyPrefix key)
    (ak_KeyHash key) (ak_Name key) (ak_Role key) (ak_CreatedBy key) (FormatRFC3339 t) None 0);;
  mret key).

Definition newest_key : KeyRow → KeyRow → bool :=
  descending (λ a b : KeyRow, text_leb (kr_created_at a) (kr_created_at b)).

Definition ListAPIKeys : Sqlite (list APIKey) :=
  rows ← select_by newest_key (λ _ : KeyRow, true);
  mret (key_of_row <$> rows).

Definition ListAPIKeysByProject (projectID : string) : Sqlite (list APIKey) :=
  let projectID := or_default projectID DefaultProjectID in
  rows ← select_by newest_key (λ k : KeyRow, (kr_project_id k =s? projectID) && (kr_revoked k =? 0)%Z);
  mret (key_of_row <$> rows).

Definition GetAPIKeyByHash (hash : string) : Sqlite APIKey :=
  row ← select_one (λ k : KeyRow, (kr_key_hash k =s? hash) && (kr_revoked k =? 0)%Z);
  match row with
  | None => fail (EText "invalid API key")
  | Some k =>
      t ← now;
      ignore (update_rows (λ k' : KeyRow, kr_id k' =s? kr_id k)
        (λ k', k' <| kr_last_used_at := Some (FormatRFC3339 t) |>));;
      mret (key_of_row k <| ak_KeyHash := kr_key_hash k |> <| ak_LastUsedAt := Some t |>)
  end.

Definition GetAPIKeyByID (id : string) : Sqlite APIKey :=
  row ← select_one (λ k : KeyRow, kr_id k =s? id);
  match row with
  | Some k => mret (key_of_row k)
  | None => fail (EText ("api key not found: " +:+ id))
  end.

(** The entry names no project: it goes to the trail of the default one. *)
Definition audit_revocation (actor details : string) : Sqlite AuditLogEntry :=
  t ← now;
  t' ← now;
  record_audit (mkAudit ("audit_" +:+ Itoa t) "" t' actor "API_KEY_REVOKED" "api-keys" "all" details "" "").

Definition revoke (k : KeyRow) : KeyRow := k <| kr_revoked := 1%Z |>.

Definition RevokeAPIKey (id actor : string) : Sqlite () := locked (
  update_rows (λ k : KeyRow, kr_id k =s? id) revoke;;
  audit_revocation actor ("Revoked API Key " +:+ id);;
  mret ()).

Definition RevokeAPIKeyByProject (projectID id actor : string) : Sqlite () := locked (
  rows ← update_rows (λ k : KeyRow, (kr_id k =s? id) && (kr_project_id k =s? projectID)) revoke;
  if (rows =? 0)%Z then fail (EText ("api key not found or not in project: " +:+ id))
  else
    audit_revocation actor ("Revoked API Key " +:+ id +:+ " in project " +:+ projectID);;
    mret ()).

End Identity.

(** * Change requests in SQLite ([pkg/store/sqlite.go])

    The proposed configuration and its base version share one JSON text. *)

Section Governance.
Context `{GoRuntime, SqlDriver, SqliteLib}.

Definition request_of_row (r : RequestRow) : ChangeRequest :=
  mkCR (qr_id r) (qr_project_id r) (qr_flag_key r) (qr_environment r) (qr_title r) (qr_description r)
    (qr_author_user_id r) (qr_author_email r) (qr_author_name r) (read_proposed (qr_proposed_config r))
    (match read_base (qr_proposed_config r) with Some v => if (0 <? v)%Z then v else 0%Z | None => 0%Z end)
    (qr_status r) (qr_reviewer_user_id r) (qr_reviewer_email r) (qr_reviewer_name r)
    (qr_review_comments r) (parse_time (qr_created_at r)) (parse_optional (qr_reviewed_at r))
    (parse_optional (qr_applied_at r)).

(** The reviewer's columns are left to their defaults. *)
Definition row_of_request (cr : ChangeRequest) : RequestRow :=
  mkRequestRow (cr_ID cr) (cr_ProjectID cr) (cr_FlagKey cr) (cr_Environment cr) (cr_Title cr)
    (cr_Description cr) (cr_AuthorUserID cr) (cr_AuthorEmail cr) (cr_AuthorName cr)
    (write_proposed (cr_ProposedConfig cr) (cr_BaseConfigVersion cr)) (cr_Status cr) "" "" "" ""
    (FormatRFC3339 (cr_CreatedAt cr)) None None.

Definition CreateChangeRequest (cr : ChangeRequest) : Sqlite ChangeRequest := locked (
  id ← (if cr_ID cr =s? "" then t ← now; (λ h, "cr_" +:+ Itoa t +:+ "_" +:+ h) <$> random_hex
        else mret (cr_ID cr));
  t ← now;
  let cr := cr <| cr_ID := id |> <| cr_ProjectID := or_default (cr_ProjectID cr) DefaultProjectID |>
    <| cr_CreatedAt := t |> <| cr_Status := ChangeRequestStatusPending |> in
  insert_into (row_of_request cr);;
  mret cr).

Definition GetChangeRequest (id : string) : Sqlite ChangeRequest :=
  row ← select_one (λ r : RequestRow, qr_id r =s? id);
  match row with
  | Some r => mret (request_of_row r)
  | None => fail (EText ("change request " +:+ id +:+ " not found"))
  end.

Definition ListChangeRequestsByProject (projectID : string) (status : ChangeRequestStatus)
    : Sqlite (list ChangeRequest) :=
  let projectID := or_default projectID DefaultProjectID in
  rows ← select_by (descending (λ a b : RequestRow, text_leb (qr_created_at a) (qr_created_at b)))
    (λ r : RequestRow, (qr_project_id r =s? projectID) &&
       (if negb (status =s? "") && negb (status =s? "all") then qr_status r =s? status else true));
  mret (request_of_row <$> rows).

Definition ListChangeRequests (status : ChangeRequestStatus) : Sqlite (list ChangeRequest) :=
  ListChangeRequestsByProject DefaultProjectID status.

(** [UPDATE change_requests SET status = ?, reviewer_user_id = ?, ...]. *)
Definition write_review (cr : ChangeRequest) (t : Time) (r : RequestRow) : RequestRow :=
  r <| qr_status := cr_Status cr |> <| qr_reviewer_user_id := cr_ReviewerUserID cr |>
    <| qr_reviewer_email := cr_ReviewerEmail cr |> <| qr_reviewer_name := cr_ReviewerName cr |>
    <| qr_review_comments := cr_ReviewComments cr |> <| qr_reviewed_at := Some (FormatRFC3339 t) |>.

Definition ReviewChangeRequest (id reviewerID reviewerEmail reviewerName : string) (approved : bool)
    (comments : string) : Sqlite ChangeRequest := locked (
  cr ← GetChangeRequest id;
  t ← now;
  cr ← lift (Review t cr reviewerID reviewerEmail reviewerName approved comments);
  update_rows (λ r : RequestRow, qr_id r =s? id) (write_review cr t);;
  mret cr).

Definition set_config (cr : ChangeRequest) (t : Time) (flag : FeatureFlag) : FeatureFlag :=
  flag <| ff_Environments := <[cr_Environment cr := cr_ProposedConfig cr]> (ff_Environments flag) |>
       <| ff_UpdatedAt := t |> <| ff_ConfigVersion := bump (ff_ConfigVersion flag) |>.

Definition write_applied (t : Time) (r : RequestRow) : RequestRow :=
  r <| qr_status := ChangeRequestStatusApplied |> <| qr_applied_at := Some (FormatRFC3339 t) |>.

Definition ApplyChangeRequest (id actor : string)
    : Sqlite (FeatureFlag * ChangeRequest * AuditLogEntry) := locked (
  cr ← GetChangeRequest id;
  if negb (cr_Status cr =s? ChangeRequestStatusApproved) then
    fail (EText ("cannot apply change request with status '" +:+ cr_Status cr +:+
                 "' (must be APPROVED)"))
  else
    flag ← GetFlagByProject (cr_ProjectID cr) (cr_FlagKey cr);
    if version_conflict cr flag then fail (ESentinel ErrChangeRequestConflict)
    else
      t ← now;
      let flag := set_config cr t flag in
      update_environments (cr_ProjectID cr) flag;;
      t ← now;
      let cr := cr <| cr_Status := ChangeRequestStatusApplied |> <| cr_AppliedAt := Some t |> in
      ignore (update_rows (λ r : RequestRow, qr_id r =s? id) (write_applied t));;
      audit ← new_audit (cr_ProjectID cr) (cr_FlagKey cr) "APPLY_CHANGE_REQUEST" (cr_Environment cr) actor
        ("Applied Change Request #" +:+ id +:+ " for " +:+ rt_quote (cr_FlagKey cr) +:+ " [" +:+
         cr_Environment cr +:+ "]") t;
      mret (flag, cr, audit)).

End Governance.

(** * Experiment events, canary schedules and OIDC configurations in SQLite
    ([pkg/store/sqlite.go]) *)

(** ** Experiment events *)

Definition event_of_row (r : EventRow) : ExperimentEvent :=
  mkEvent (er_id r) (er_project_id r) (er_flag_key r) (er_variant r) (er_metric_name r) (er_event_type r)
    (er_value r) (er_user_id r) (er_environment r) (parse_time (er_timestamp r)).

Definition row_of_event (ev : ExperimentEvent) : EventRow :=
  mkEventRow (ev_ID ev) (ev_ProjectID ev) (ev_FlagKey ev) (ev_Variant ev) (ev_MetricName ev)
    (ev_EventType ev) (ev_Value ev) (ev_UserID ev) (ev_Environment ev) (FormatRFC3339 (ev_Timestamp ev)).

Section Events.
Context `{SqlDriver}.

(** The defaults of a recorded event. *)
Definition complete_event (ev : ExperimentEvent) : Sqlite ExperimentEvent :=
  id ← id_or_new (ev_ID ev) "exp_";
  t ← (if IsZero (ev_Timestamp ev) then now else mret (ev_Timestamp ev));
  mret (ev <| ev_ID := id |> <| ev_ProjectID := or_default (ev_ProjectID ev) DefaultProjectID |>
           <| ev_Timestamp := t |> <| ev_EventType := or_default (ev_EventType ev) "conversion" |>
           <| ev_Value := if SFeqb (ev_Value ev) f64_zero then f64_of_Z 1 else ev_Value ev |>).

Definition RecordExperimentEvents (events : list ExperimentEvent) : Sqlite () := locked (transaction (
  for_each (λ ev, ev ← complete_event ev; insert_into (row_of_event ev);; mret ()) events)).

Definition newest_event : EventRow → EventRow → bool :=
  descending (λ a b : EventRow, text_leb (er_timestamp a) (er_timestamp b)).

Definition event_limit (limit : Z) : nat :=
  Z.to_nat (if (limit <=? 0)%Z || (5000 <? limit)%Z then 1000%Z else limit).

Definition GetExperimentEvents (flagKey : string) (limit : Z) : Sqlite (list ExperimentEvent) :=
  rows ← select_by newest_event (λ r : EventRow, er_flag_key r =s? flagKey);
  mret (event_of_row <$> take (event_limit limit) rows).

Definition GetExperimentEventsByProject (projectID flagKey : string) (limit : Z)
    : Sqlite (list ExperimentEvent) :=
  let projectID := or_default projectID DefaultProjectID in
  rows ← select_by newest_event (λ r : EventRow, (er_project_id r =s? projectID) &&
    ((flagKey =s? "") || (er_flag_key r =s? flagKey)));
  mret (event_of_row <$> take (event_limit limit) rows).

End Events.

(** ** Canary schedules *)

Section Canary.
Context `{SqlDriver, SqliteLib}.

(** A time that does not parse leaves the zero time. *)
Definition scanCanarySchedule (r : CanaryRow) : CanarySchedule :=
  mkSchedule (cy_id r) (cy_project_id r) (cy_flag_key r) (cy_environment r) (cy_status r)
    (Z.to_nat (cy_current_stage_idx r)) (read_stages (cy_stages r)) (read_guardrails (cy_guardrails r))
    (cy_rollback_reason r) (parse_time (cy_created_at r)) (parse_time (cy_updated_at r))
    (parse_time (cy_last_evaluated_at r)).

(** [ON CONFLICT(project_id, flag_key) DO UPDATE SET ...]: the environment is not
    among the columns. *)
Definition same_canary (a b : CanaryRow) : bool :=
  (cy_project_id a =s? cy_project_id b) && (cy_flag_key a =s? cy_flag_key b).

Definition replace_canary (excluded old : CanaryRow) : CanaryRow :=
  old <| cy_status := cy_status excluded |> <| cy_current_stage_idx := cy_current_stage_idx excluded |>
      <| cy_stages := cy_stages excluded |> <| cy_guardrails := cy_guardrails excluded |>
      <| cy_rollback_reason := cy_rollback_reason excluded |> <| cy_updated_at := cy_updated_at excluded |>
      <| cy_last_evaluated_at := cy_last_evaluated_at excluded |>.

(** [json.Marshal] of a field, or the error of the call. *)
Definition marshalled (text : option string) (what : string) : Sqlite string :=
  match text with Some s => mret s | None => fail (EText what) end.

Definition SaveCanarySchedule (sched : CanarySchedule) : Sqlite () := locked (
  t ← now;
  id ← (if cs_ID sched =s? "" then (λ h, "canary_" +:+ Itoa t +:+ "_" +:+ h) <$> random_hex
        else mret (cs_ID sched));
  let or_now x := if IsZero x then t else x in
  match write_stages (cs_Stages sched) with
  | None => fail (EWrap ("failed to marshal canary stages: " +:+ Error stages_error) stages_error)
  | Some stages =>
    match write_guardrails (cs_Guardrails sched) with
    | None => fail (EWrap ("failed to marshal canary guardrails: " +:+ Error guardrails_error) guardrails_error)
    | Some guardrails =>
      upsert_into same_canary replace_canary
        (mkCanaryRow id (or_default (cs_ProjectID sched) DefaultProjectID) (cs_FlagKey sched)
           (cs_Environment sched) (cs_Status sched) (Z.of_nat (cs_CurrentStageIdx sched)) stages guardrails
           (cs_RollbackReason sched) (FormatRFC3339 (or_now (cs_CreatedAt sched))) (FormatRFC3339 t)
           (FormatRFC3339 (or_now (cs_LastEvaluatedAt sched))));;
      mret ()
    end
  end).

Definition GetCanarySchedule (projectID flagKey : string) : Sqlite (option CanarySchedule) := rlocked (
  let projectID := or_default projectID DefaultProjectID in
  row ← select_one (λ r : CanaryRow, (cy_project_id r =s? projectID) && (cy_flag_key r =s? flagKey));
  mret (scanCanarySchedule <$> row)).

Definition ListActiveCanarySchedules : Sqlite (list CanarySchedule) := rlocked (
  rows ← select (λ r : CanaryRow, cy_status r =s? CanaryStatusActive);
  mret (scanCanarySchedule <$> rows)).

Definition ListCanarySchedulesByProject (projectID : string) : Sqlite (list CanarySchedule) := rlocked (
  let projectID := or_default projectID DefaultProjectID in
  rows ← select (λ r : CanaryRow, cy_project_id r =s? projectID);
  mret (scanCanarySchedule <$> rows)).

Definition DeleteCanarySchedule (projectID flagKey : string) : Sqlite () := locked (
  let projectID := or_default projectID DefaultProjectID in
  delete_from (λ r : CanaryRow, (cy_project_id r =s? projectID) && (cy_flag_key r =s? flagKey));;
  mret ()).

End Canary.

(** ** OIDC configurations *)

Section OIDC.
Context `{GoRuntime, SqlDriver}.

Definition oidc_of_row (r : OIDCRow) : OIDCConfig :=
  mkOIDC (oi_organization_id r) (oi_enabled r =? 1)%Z (oi_issuer_url r) (oi_client_id r)
    (oi_client_secret r) (oi_allowed_domains r) (oi_default_role r) (parse_time (oi_created_at r))
    (parse_time (oi_updated_at r)).

Definition replace_oidc (excluded old : OIDCRow) : OIDCRow :=
  excluded <| oi_organization_id := oi_organization_id old |> <| oi_created_at := oi_created_at old |>.

Definition SaveOIDCConfig (cfg : OIDCConfig) : Sqlite () := locked (
  if oc_OrganizationID cfg =s? "" then fail (EText "organization_id is required")
  else
    t ← now;
    upsert_into (λ a b, oi_organization_id a =s? oi_organization_id b) replace_oidc
      (mkOIDCRow (oc_OrganizationID cfg) (if oc_Enabled cfg then 1 else 0)%Z (oc_IssuerURL cfg)
         (oc_ClientID cfg) (oc_ClientSecret cfg) (oc_AllowedDomains cfg)
         (or_default (oc_DefaultRole cfg) "developer")
         (FormatRFC3339 (if IsZero (oc_CreatedAt cfg) then t else oc_CreatedAt cfg)) (FormatRFC3339 t));;
    mret ()).

Definition GetOIDCConfig (organizationID : string) : Sqlite (option OIDCConfig) := rlocked (
  row ← select_one (λ r : OIDCRow, oi_organization_id r =s? organizationID);
  mret (oidc_of_row <$> row)).

Definition GetOIDCConfigByDomain (emailDomain : string) : Sqlite (option OIDCConfig) := rlocked (
  let cleanDomain := ToLower (TrimPrefix (TrimSpace emailDomain) "@") in
  if cleanDomain =s? "" then mret None
  else
    rows ← select (λ r : OIDCRow, (oi_enabled r =? 1)%Z);
    mret (snd <$> list_find (λ cfg, IsDomainAllowed (Some cfg) ("probe@" +:+ cleanDomain) = true)
            (oidc_of_row <$> rows))).

Definition DeleteOIDCConfig (organizationID : string) : Sqlite () := locked (
  delete_from (λ r : OIDCRow, oi_organization_id r =s? organizationID);; mret ()).

End OIDC.

(** * The SQLite store as a whole ([pkg/store/sqlite.go])

    Opening the database, the seed data and the reset. *)

Definition CleanSQLitePath (raw : string) : string :=
  let raw := TrimSpace raw in
  if (raw =s? "") || (raw =s? ":memory:") then ":memory:"
  else if HasPrefix raw "sqlite://" then TrimPrefix raw "sqlite://"
  else if HasPrefix raw "sqlite3://" then TrimPrefix raw "sqlite3://"
  else if HasPrefix raw "file:" then TrimPrefix raw "file:"
  else raw.

Definition sqlite_dsn (dbPath : string) : string :=
  let cleanPath := CleanSQLitePath dbPath in
  if negb (cleanPath =s? ":memory:") && negb (Contains cleanPath "?")
  then cleanPath +:+ "?_pragma=busy_timeout(5000)&_pragma=journal_mode(WAL)" +:+
         "&_pragma=foreign_keys(ON)&_pragma=synchronous(NORMAL)"
  else cleanPath.

Definition DriverName : string := "SQLite".

(** ** Seed data *)

Definition env_cfg (enabled : bool) (strategy : string) (pct : Z) : EnvironmentConfig :=
  mkEnvConfig enabled strategy (f64_of_Z pct) [] [] "" "" false.

Definition seed_envs (production staging development : EnvironmentConfig)
    : gmap string EnvironmentConfig :=
  <[EnvProduction := production]> (<[EnvStaging := staging]> {[EnvDevelopment := development]}).

Definition seedFlags (t : nat → Time) : list FeatureFlag := [
  mkFlag "flag_smart_search" DefaultProjectID 1 "ai-smart-search" "AI Smart Search Assistant"
    "Deterministic canary rollout for LLM semantic search" "boolean" ["frontend"; "search"; "ai"]
    (seed_envs (env_cfg true StrategyPercentage 50) (env_cfg true StrategyPercentage 100)
       (env_cfg true StrategyBoolean 100)) (t 0) (t 1);
  mkFlag "flag_v3_checkout" DefaultProjectID 1 "checkout-v3-streamline" "Streamlined Checkout Flow v3"
    "One-click multi-currency checkout modal" "boolean" ["checkout"; "payments"]
    (seed_envs (env_cfg true StrategyPercentage 100) (env_cfg true StrategyPercentage 100)
       (env_cfg true StrategyBoolean 100)) (t 2) (t 3);
  mkFlag "flag_killswitch_crypto" DefaultProjectID 1 "killswitch-crypto-gateways"
    "Emergency Crypto Gateway Killswitch" "Instant circuit breaker for decentralized settlement layer"
    "boolean" ["payments"; "compliance"]
    (seed_envs (env_cfg false StrategyBoolean 0) (env_cfg true StrategyBoolean 100)
       (env_cfg true StrategyBoolean 100)) (t 4) (t 5)]%nat.

(** [SELECT COUNT] of the rows [sel]. *)
Definition count_rows {R} `{Table Database R} (sel : R → bool) : Sqlite nat :=
  query_exact (λ db, length (sql_where sel (tb_rows db))).

(** The six readings of the clock in the literal of the seed flags. *)
Fixpoint read_clock (n : nat) : Sqlite (list Time) :=
  match n with
  | O => mret []
  | S n => t ← now; ts ← read_clock n; mret (t :: ts)
  end.

Section Store.
Context `{GoRuntime, SqlDriver, SqliteLib}.

Definition seedDefaults : Sqlite () :=
  t ← now;
  let now := FormatRFC3339 t in
  orgCount ← count_rows (λ o : OrgRow, gr_id o =s? DefaultOrgID);
  (if (orgCount =? 0)%nat then
     ignore (insert_or_ignore (mkOrgRow DefaultOrgID DefaultOrgName DefaultOrgSlug
       "Default workspace organization" now now))
   else mret ());;
  projCount ← count_rows (λ p : ProjectRow, pw_id p =s? DefaultProjectID);
  (if (projCount =? 0)%nat then
     ignore (insert_or_ignore (mkProjectRow DefaultProjectID DefaultOrgID DefaultProjectName
       DefaultProjectSlug "Default feature flagging project" now now))
   else mret ());;
  flagCount ← count_rows (λ f : FlagRow, fr_project_id f =s? DefaultProjectID);
  if (flagCount =? 0)%nat then
    ts ← read_clock 6;
    for_each (λ f, ignore (SaveFlag f "system_seed")) (seedFlags (λ k, nth k ts time_zero))
  else mret ().

(** [NewSQLiteStore] on a database whose tables exist; an empty one is the
    result of the migration. *)
Definition NewSQLiteStore (e : Env) (db : Database) : outcome Database () := call e seedDefaults db.

(** ** Reset *)

(** [ON DELETE CASCADE]. *)
Definition cascade (db : Database) : Database :=
  db <| projects := sql_where (λ p, has_org db (pw_organization_id p)) (projects db) |>
     <| org_members := sql_where (λ m, has_org db (mr_organization_id m) && has_user db (mr_user_id m))
                         (org_members db) |>
     <| org_invitations := sql_where (λ i, has_org db (ir_organization_id i)) (org_invitations db) |>
     <| oidc_configs := sql_where (λ c, has_org db (oi_organization_id c)) (oidc_configs db) |>
     <| sessions := sql_where (λ s, has_user db (sn_user_id s)) (sessions db) |>.

(** [DELETE FROM table]. *)
Definition delete_all (R : Type) `{Table Database R} : Sqlite Z := exec (λ db,
  Ok (cascade (tb_put (R:=R) [] db), Z.of_nat (length (tb_rows (R:=R) db)))).

Definition truncateQueries : list (Sqlite Z) := [
  delete_all EventRow; delete_all AuditRow; delete_all RequestRow; delete_all KeyRow; delete_all FlagRow;
  delete_all SessionRow; delete_all ResetRow; delete_all InviteRow; delete_all MemberRow;
  delete_all ProjectRow; delete_all OrgRow; delete_all UserRow].

Definition Reset : Sqlite () := locked (
  for_each ignore truncateQueries;;
  seedDefaults).

End Store.
