(* ===== verification/SqliteSpec.v ===== *)
(** * What the SQLite store promises

    The contract of its tables, and the statements that keep to it. *)

From S2P Require Import Prelude GoFloat GoStrings GoTime Sha256 Errors Domain Entities StoreState.
From S2P Require Import StoreAudit StoreFlags StoreGovernance Sql SqliteState Sqlite.

(** * The contract of the SQLite store

    For every table of [pkg/store/sqlite.go], which rows may appear, how a row may
    change and which rows may go.  [store_step] is one statement within the
    contract, [db_ok] the constraints of the schema; a step keeps them. *)

(** ** The life of a row *)

(** An audit entry carries its own hash. *)
Definition sealed_row (a : AuditRow) : Prop :=
  ∃ entry, a = row_of_audit entry ∧ al_EntryHash entry = ComputeAuditEntryHash (al_PrevHash entry) entry.

Definition new_request (r : RequestRow) : Prop :=
  qr_status r = ChangeRequestStatusPending ∧ qr_reviewer_user_id r = "" ∧ qr_reviewed_at r = None ∧
  qr_applied_at r = None.

(** What a change request is about. *)
Definition request_core (r : RequestRow) : list string :=
  [qr_id r; qr_project_id r; qr_flag_key r; qr_environment r; qr_author_user_id r; qr_proposed_config r;
   qr_created_at r].

(** A review: of a pending request, by somebody other than its author. *)
Definition reviewed (r r' : RequestRow) : Prop :=
  request_core r' = request_core r ∧ qr_status r = ChangeRequestStatusPending ∧
  (qr_status r' = ChangeRequestStatusApproved ∨ qr_status r' = ChangeRequestStatusRejected) ∧
  qr_reviewer_user_id r' ≠ qr_author_user_id r' ∧ qr_applied_at r' = qr_applied_at r.

Definition applied (r r' : RequestRow) : Prop :=
  qr_status r = ChangeRequestStatusApproved ∧
  ∃ t, r' = r <| qr_status := ChangeRequestStatusApplied |> <| qr_applied_at := Some t |>.

Definition key_core (r : KeyRow) : list string :=
  [kr_id r; kr_project_id r; kr_environment r; kr_key_prefix r; kr_key_hash r; kr_name r; kr_role r;
   kr_created_by r; kr_created_at r].

(** ** The contracts *)

#[export] Instance org_policy : Policy Database OrgRow := {|
  may_add _ _ := True;
  may_change _ _ := False;
  may_drop _ := False;
|}.

#[export] Instance project_policy : Policy Database ProjectRow := {|
  may_add _ _ := True;
  may_change _ _ := False;
  may_drop _ := False;
|}.

#[export] Instance user_policy : Policy Database UserRow := {|
  may_add _ _ := True;
  may_change r r' := ur_id r' = ur_id r ∧ ur_email r' = ur_email r ∧ ur_role r' = ur_role r ∧ ur_created_at r' = ur_created_at r;
  may_drop _ := False;
|}.

#[export] Instance session_policy : Policy Database SessionRow := {|
  may_add _ _ := True;
  may_change _ _ := False;
  may_drop _ := True;
|}.

#[export] Instance flag_policy : Policy Database FlagRow := {|
  may_add _ _ := True;
  may_change r r' := fr_id r' = fr_id r ∧ fr_project_id r' = fr_project_id r ∧ fr_key r' = fr_key r ∧
    fr_created_at r' = fr_created_at r ∧ fr_config_version r' = (fr_config_version r + 1)%Z;
  may_drop _ := True;
|}.

#[export] Instance audit_policy : Policy Database AuditRow := {|
  may_add _ row := sealed_row row;
  may_change _ _ := False;
  may_drop _ := True;
|}.

#[export] Instance anchor_policy : Policy Database AnchorRow := {|
  may_add _ _ := True;
  may_change r r' := nr_project_id r' = nr_project_id r;
  may_drop _ := False;
|}.

#[export] Instance event_policy : Policy Database EventRow := {|
  may_add _ _ := True;
  may_change _ _ := False;
  may_drop _ := False;
|}.

#[export] Instance request_policy : Policy Database RequestRow := {|
  may_add _ row := new_request row;
  may_change r r' := reviewed r r' ∨ applied r r';
  may_drop _ := False;
|}.

#[export] Instance key_policy : Policy Database KeyRow := {|
  may_add _ row := kr_revoked row = 0%Z ∧ kr_last_used_at row = None;
  may_change r r' := key_core r' = key_core r ∧ (kr_revoked r' = kr_revoked r ∨ kr_revoked r' = 1%Z);
  may_drop _ := False;
|}.

#[export] Instance reset_policy : Policy Database ResetRow := {|
  may_add _ row := tr_used row = 0%Z;
  may_change r r' := tr_token r' = tr_token r ∧ tr_email r' = tr_email r ∧ tr_expires_at r' = tr_expires_at r ∧
    tr_used r ≠ 1%Z ∧ tr_used r' = 1%Z;
  may_drop _ := False;
|}.

#[export] Instance member_policy : Policy Database MemberRow := {|
  may_add _ _ := True;
  may_change r r' := r' = r <| mr_role := mr_role r' |>;
  may_drop _ := False;
|}.

#[export] Instance invite_policy : Policy Database InviteRow := {|
  may_add _ row := ir_accepted_at row = None;
  may_change r r' := ir_accepted_at r = None ∧ ∃ t, r' = r <| ir_accepted_at := Some t |>;
  may_drop _ := False;
|}.

#[export] Instance canary_policy : Policy Database CanaryRow := {|
  may_add _ _ := True;
  may_change r r' := cy_project_id r' = cy_project_id r ∧ cy_flag_key r' = cy_flag_key r ∧ cy_id r' = cy_id r ∧
    cy_environment r' = cy_environment r ∧ cy_created_at r' = cy_created_at r;
  may_drop _ := True;
|}.

#[export] Instance oidc_policy : Policy Database OIDCRow := {|
  may_add _ _ := True;
  may_change r r' := oi_organization_id r' = oi_organization_id r ∧ oi_created_at r' = oi_created_at r;
  may_drop _ := True;
|}.

(** One statement within the contract. *)
Inductive store_step (db : Database) : Database → Prop :=
| step_org t : table_step (R:=OrgRow) db t → store_step db (tb_put t db)
| step_project t : table_step (R:=ProjectRow) db t → store_step db (tb_put t db)
| step_user t : table_step (R:=UserRow) db t → store_step db (tb_put t db)
| step_session t : table_step (R:=SessionRow) db t → store_step db (tb_put t db)
| step_flag t : table_step (R:=FlagRow) db t → store_step db (tb_put t db)
| step_audit t : table_step (R:=AuditRow) db t → store_step db (tb_put t db)
| step_anchor t : table_step (R:=AnchorRow) db t → store_step db (tb_put t db)
| step_event t : table_step (R:=EventRow) db t → store_step db (tb_put t db)
| step_request t : table_step (R:=RequestRow) db t → store_step db (tb_put t db)
| step_key t : table_step (R:=KeyRow) db t → store_step db (tb_put t db)
| step_reset t : table_step (R:=ResetRow) db t → store_step db (tb_put t db)
| step_member t : table_step (R:=MemberRow) db t → store_step db (tb_put t db)
| step_invite t : table_step (R:=InviteRow) db t → store_step db (tb_put t db)
| step_canary t : table_step (R:=CanaryRow) db t → store_step db (tb_put t db)
| step_oidc t : table_step (R:=OIDCRow) db t → store_step db (tb_put t db).

(** ** The constraints of the schema *)

(** Without the foreign keys of the two referenced tables changing under them. *)
Definition grows (db db' : Database) : Prop :=
  (∀ id, has_org db id = true → has_org db' id = true) ∧
  (∀ id, has_user db id = true → has_user db' id = true).

Definition rows_ok {R} `{Table Database R} (db : Database) : Prop := table_ok (R:=R) db (tb_rows db).
Arguments rows_ok R {_} db.

Record db_ok (db : Database) : Prop := {
  ok_org : rows_ok OrgRow db;
  ok_project : rows_ok ProjectRow db;
  ok_user : rows_ok UserRow db;
  ok_session : rows_ok SessionRow db;
  ok_flag : rows_ok FlagRow db;
  ok_audit : rows_ok AuditRow db;
  ok_anchor : rows_ok AnchorRow db;
  ok_event : rows_ok EventRow db;
  ok_request : rows_ok RequestRow db;
  ok_key : rows_ok KeyRow db;
  ok_reset : rows_ok ResetRow db;
  ok_member : rows_ok MemberRow db;
  ok_invite : rows_ok InviteRow db;
  ok_canary : rows_ok CanaryRow db;
  ok_oidc : rows_ok OIDCRow db;
}.

(** The references of a row survive the growth of the tables they point to. *)
Class Growing (R : Type) `{Table Database R} : Prop :=
  refs_grow : ∀ db db' (r : R), grows db db' → tb_refs db r = true → tb_refs db' r = true.

Ltac clash_symm := first [apply str_eqb_sym|apply (f_equal2 orb); clash_symm|apply (f_equal2 andb); clash_symm].

#[export] Instance org_lawful : LawfulPolicy Database OrgRow.
Proof. split; [intros a b; cbn; clash_symm|done|done]. Qed.

#[export] Instance project_lawful : LawfulPolicy Database ProjectRow.
Proof. split; [intros a b; cbn; clash_symm|done|done]. Qed.

#[export] Instance user_lawful : LawfulPolicy Database UserRow.
Proof.
  split; [intros a b; cbn; clash_symm|intros r r' (Hi & He & _ & _); cbn; by rewrite Hi, He|done].
Qed.

#[export] Instance session_lawful : LawfulPolicy Database SessionRow.
Proof. split; [intros a b; cbn; clash_symm|done|done]. Qed.

#[export] Instance flag_lawful : LawfulPolicy Database FlagRow.
Proof.
  split; [intros a b; cbn; clash_symm|intros r r' (Hi & He & Hk & _); cbn; by rewrite Hi, He, Hk|done].
Qed.

#[export] Instance audit_lawful : LawfulPolicy Database AuditRow.
Proof. split; [intros a b; cbn; clash_symm|done|done]. Qed.

#[export] Instance anchor_lawful : LawfulPolicy Database AnchorRow.
Proof.
  split; [intros a b; cbn; clash_symm|intros r r' Hi; cbn; by rewrite Hi|done].
Qed.

#[export] Instance event_lawful : LawfulPolicy Database EventRow.
Proof. split; [intros a b; cbn; clash_symm|done|done]. Qed.

#[export] Instance request_lawful : LawfulPolicy Database RequestRow.
Proof.
  split; [intros a b; cbn; clash_symm|intros r r' Hc|done].
  assert (qr_id r' = qr_id r) as Hid.
  { destruct Hc as [[Hcore _]|(_ & t & ->)]; [by injection Hcore|done]. }
  cbn. by rewrite Hid.
Qed.

#[export] Instance key_lawful : LawfulPolicy Database KeyRow.
Proof.
  split; [intros a b; cbn; clash_symm|intros r r' [Hc _]|done].
  injection Hc as Hid _ _ _ Hh. cbn. by rewrite Hid, Hh.
Qed.

#[export] Instance reset_lawful : LawfulPolicy Database ResetRow.
Proof.
  split; [intros a b; cbn; clash_symm|intros r r' (Hi & _); cbn; by rewrite Hi|done].
Qed.

#[export] Instance member_lawful : LawfulPolicy Database MemberRow.
Proof.
  split; [intros a b; cbn; clash_symm|intros r r' ->; done|intros db r r' ->; done].
Qed.

#[export] Instance invite_lawful : LawfulPolicy Database InviteRow.
Proof.
  split; [intros a b; cbn; clash_symm|intros r r' (_ & t & ->); done|intros db r r' (_ & t & ->); done].
Qed.

#[export] Instance canary_lawful : LawfulPolicy Database CanaryRow.
Proof.
  split; [intros a b; cbn; clash_symm|intros r r' (Hi & He & _); cbn; by rewrite Hi, He|done].
Qed.

#[export] Instance oidc_lawful : LawfulPolicy Database OIDCRow.
Proof.
  split; [intros a b; cbn; clash_symm|intros r r' (Hi & He); cbn; by rewrite Hi|intros db r r' (Hi & He); cbn; by rewrite Hi].
Qed.

#[export] Instance org_growing : Growing OrgRow.
Proof. by intros db db' r _. Qed.

#[export] Instance project_growing : Growing ProjectRow.
Proof. intros db db' r [Ho _]. apply Ho. Qed.

#[export] Instance user_growing : Growing UserRow.
Proof. by intros db db' r _. Qed.

#[export] Instance session_growing : Growing SessionRow.
Proof. intros db db' r [_ Hu]. apply Hu. Qed.

#[export] Instance flag_growing : Growing FlagRow.
Proof. by intros db db' r _. Qed.

#[export] Instance audit_growing : Growing AuditRow.
Proof. by intros db db' r _. Qed.

#[export] Instance anchor_growing : Growing AnchorRow.
Proof. by intros db db' r _. Qed.

#[export] Instance event_growing : Growing EventRow.
Proof. by intros db db' r _. Qed.

#[export] Instance request_growing : Growing RequestRow.
Proof. by intros db db' r _. Qed.

#[export] Instance key_growing : Growing KeyRow.
Proof. by intros db db' r _. Qed.

#[export] Instance reset_growing : Growing ResetRow.
Proof. by intros db db' r _. Qed.

#[export] Instance member_growing : Growing MemberRow.
Proof. intros db db' r [Ho Hu] [??]%andb_true_iff. apply andb_true_iff. auto. Qed.

#[export] Instance invite_growing : Growing InviteRow.
Proof. intros db db' r [Ho _]. apply Ho. Qed.

#[export] Instance canary_growing : Growing CanaryRow.
Proof. by intros db db' r _. Qed.

#[export] Instance oidc_growing : Growing OIDCRow.
Proof. intros db db' r [Ho _]. apply Ho. Qed.

Lemma table_ok_grows {R} `{Growing R} db db' (t : list R) :
  grows db db' → table_ok db t → table_ok db' t.
Proof.
  intros Hg [Hu Hr]. split; [done|]. eapply Forall_impl; [exact Hr|]. cbn. intros r. by apply refs_grow.
Qed.

Lemma org_step_grows db t : table_step (R:=OrgRow) db t → grows db (tb_put t db).
Proof.
  intros Ht. split; [|done]. intros id. unfold has_org. cbn [organizations tb_put org_table update_field].
  destruct Ht as [row _ _ _|f Hf|sel Hs]; [|rewrite !existsb_exists..].
  - cbn. rewrite existsb_app. by intros ->.
  - intros (r & Hr & Hid). exists (f r). apply list_elem_of_In in Hr. split.
    + apply list_elem_of_In. by apply list_elem_of_fmap_2.
    + by destruct (Hf r Hr) as [->|[]].
  - intros (r & Hr & Hid). exists r. split; [|done]. apply list_elem_of_In in Hr. apply list_elem_of_In.
    cbn. rewrite list_elem_of_filter. split; [|done]. destruct (sel r) eqn:E; [|done].
    by destruct (Hs r Hr E).
Qed.

Lemma user_step_grows db t : table_step (R:=UserRow) db t → grows db (tb_put t db).
Proof.
  intros Ht. split; [done|]. intros id. unfold has_user. cbn [users tb_put user_table update_field].
  destruct Ht as [row _ _ _|f Hf|sel Hs]; [|rewrite !existsb_exists..].
  - cbn. rewrite existsb_app. by intros ->.
  - intros (r & Hr & Hid). exists (f r). apply list_elem_of_In in Hr. split.
    + apply list_elem_of_In. by apply list_elem_of_fmap_2.
    + destruct (Hf r Hr) as [->|(Hi & _)]; [done|]. by rewrite Hi.
  - intros (r & Hr & Hid). exists r. split; [|done]. apply list_elem_of_In in Hr. apply list_elem_of_In.
    cbn. rewrite list_elem_of_filter. split; [|done]. destruct (sel r) eqn:E; [|done].
    by destruct (Hs r Hr E).
Qed.

Lemma store_step_grows db db' : store_step db db' → grows db db'.
Proof. intros []; try done; [by apply org_step_grows|by apply user_step_grows]. Qed.

Lemma table_step_rows_ok {R} `{Growing R, !Policy Database R, !LawfulPolicy Database R} db db' (t : list R) :
  grows db db' → rows_ok R db → table_step db t → table_ok db' t.
Proof. intros Hg Hok Ht. by eapply table_ok_grows, table_step_ok. Qed.

(** A statement within the contract keeps the constraints of the schema. *)
Lemma store_step_ok db db' : store_step db db' → db_ok db → db_ok db'.
Proof.
  intros Hs. pose proof (store_step_grows _ _ Hs) as Hg. intros []. destruct Hs; split;
    first [by eapply table_step_rows_ok|by eapply table_ok_grows].
Qed.

Lemma empty_database_ok : db_ok empty_database.
Proof. split; split; constructor. Qed.

(** * The SQLite store keeps its contract

    Every operation of [pkg/store/sqlite.go], whatever its arguments, the clock,
    the random source and the order in which rows are read, takes the database
    through statements within the contract of [SqliteSpec], and stops short of
    it when it fails. *)

(** From a database within the schema, statements within the contract. *)
Definition within_contract (db db' : Database) : Prop :=
  db_ok db → rtc store_step db db' ∧ db_ok db'.

#[export] Instance within_contract_preorder : PreOrder within_contract.
Proof.
  split; [intros db H; by split|]. intros a b c Hab Hbc Ha.
  destruct (Hab Ha) as [H1 Hb], (Hbc Hb) as [H2 Hc]. split; [by etrans|done].
Qed.

(** The tables of the store. *)
Class OnStore (R : Type) `{Table Database R, !Policy Database R} : Prop :=
  on_store : ∀ db (t : list R), table_step db t → store_step db (tb_put t db).

#[export] Instance org_on_store : OnStore OrgRow.
Proof. intros db t. apply step_org. Qed.
#[export] Instance project_on_store : OnStore ProjectRow.
Proof. intros db t. apply step_project. Qed.
#[export] Instance user_on_store : OnStore UserRow.
Proof. intros db t. apply step_user. Qed.
#[export] Instance session_on_store : OnStore SessionRow.
Proof. intros db t. apply step_session. Qed.
#[export] Instance flag_on_store : OnStore FlagRow.
Proof. intros db t. apply step_flag. Qed.
#[export] Instance audit_on_store : OnStore AuditRow.
Proof. intros db t. apply step_audit. Qed.
#[export] Instance anchor_on_store : OnStore AnchorRow.
Proof. intros db t. apply step_anchor. Qed.
#[export] Instance event_on_store : OnStore EventRow.
Proof. intros db t. apply step_event. Qed.
#[export] Instance request_on_store : OnStore RequestRow.
Proof. intros db t. apply step_request. Qed.
#[export] Instance key_on_store : OnStore KeyRow.
Proof. intros db t. apply step_key. Qed.
#[export] Instance reset_on_store : OnStore ResetRow.
Proof. intros db t. apply step_reset. Qed.
#[export] Instance member_on_store : OnStore MemberRow.
Proof. intros db t. apply step_member. Qed.
#[export] Instance invite_on_store : OnStore InviteRow.
Proof. intros db t. apply step_invite. Qed.
#[export] Instance canary_on_store : OnStore CanaryRow.
Proof. intros db t. apply step_canary. Qed.
#[export] Instance oidc_on_store : OnStore OIDCRow.
Proof. intros db t. apply step_oidc. Qed.

(** ** Statements *)

Section Statements.
Context {R : Type} `{OnStore R, SqlDriver}.

Lemma within_step db (t : list R) : table_step db t → within_contract db (tb_put t db).
Proof.
  intros Ht Hok. apply on_store in Ht. split; [by apply rtc_once|]. by eapply store_step_ok.
Qed.

Lemma put_rows_within db (t : option (list R)) db' n :
  (∀ t', t = Some t' → within_contract db (tb_put t' db)) →
  put_rows db t = Ok (db', n) → within_contract db db'.
Proof. destruct t as [t|]; [|done]. cbn. intros Ht [= <- <-]. by apply Ht. Qed.

Lemma insert_within (row : R) db t :
  may_add db row → tb_refs db row = true →
  sql_insert (tb_clash (Db:=Database)) row (tb_rows db) = Some t → within_contract db (tb_put t db).
Proof.
  intros Hrow Hr. unfold sql_insert. destruct (existsb _ _) eqn:E; [done|]. intros [= <-].
  by apply within_step, ts_add.
Qed.

Lemma moves_insert (row : R) : (∀ db : Database, may_add db row) → moves within_contract (insert_into row).
Proof.
  intros Hrow. apply moves_exec; [typeclasses eauto|]. intros db db' n. apply put_rows_within. intros t'.
  destruct (tb_refs db row) eqn:Hr; [|done]. by apply insert_within.
Qed.

Lemma moves_insert_or_ignore (row : R) :
  (∀ db : Database, may_add db row) → moves within_contract (insert_or_ignore row).
Proof.
  intros Hrow. apply moves_exec; [typeclasses eauto|]. intros db db' n. apply put_rows_within. intros t'.
  destruct (tb_refs db row) eqn:Hr; [|done]. intros [= <-]. unfold sql_insert_ignore.
  destruct (sql_insert _ row _) as [t|] eqn:E; cbn; [by eapply insert_within|].
  apply within_step. rewrite <- (list_fmap_id (tb_rows db)). apply (ts_change _ id). intros r _. by left.
Qed.

Lemma moves_upsert same upd (row : R) :
  (∀ db : Database, may_add db row) → (∀ old, same row old = true → may_change (Db:=Database) old (upd row old)) →
  moves within_contract (upsert_into same upd row).
Proof.
  intros Hrow Hupd. apply moves_exec; [typeclasses eauto|]. intros db db' n. apply put_rows_within. intros t'.
  destruct (tb_refs db row) eqn:Hr; [|done]. unfold sql_upsert.
  destruct (existsb (same row) _) eqn:E; [|by apply insert_within]. intros [= <-].
  apply within_step, ts_change. intros r _. destruct (same row r) eqn:Es; [right; auto|by left].
Qed.

Lemma steps_update e sel (upd : R → R) r :
  (db_ok (rn_db r) → ∀ x, x ∈ tb_rows (rn_db r) → sel x = true → may_change (Db:=Database) x (upd x)) →
  steps within_contract e (update_rows sel upd) r.
Proof.
  intros Hupd Hok. apply within_step; [|done]. apply ts_change. intros x Hx.
  destruct (sel x) eqn:Es; [right; by apply Hupd|by left].
Qed.

Lemma moves_update sel (upd : R → R) :
  (∀ x, sel x = true → may_change (Db:=Database) x (upd x)) → moves within_contract (update_rows sel upd).
Proof. intros Hupd e r _. apply steps_update. auto. Qed.

Lemma moves_delete (sel : R → bool) :
  (∀ x, sel x = true → may_drop (Db:=Database) x) → moves within_contract (delete_from sel).
Proof.
  intros Hsel. apply moves_exec; [typeclasses eauto|]. intros db db' n [= <- <-].
  apply within_step, ts_drop. auto.
Qed.

(** A row found by a key is the only one with it. *)
Lemma found_unique (sel : R → bool) db (x y : R) :
  rows_ok R db → LawfulPolicy Database R →
  (∀ a b : R, sel a = true → sel b = true → tb_clash (Db:=Database) a b = true) →
  x ∈ tb_rows db → y ∈ tb_rows db → sel x = true → sel y = true → x = y.
Proof. intros [Hu _] HL Hsel Hx Hy Sx Sy. apply (unique_lookup _ clash_sym (tb_rows db)); auto. Qed.

End Statements.

Lemma moves_select {R} `{Table Database R} (Rel : relation Database) `{!PreOrder Rel} (sel : R → bool) :
  moves Rel (select sel).
Proof. by apply moves_query. Qed.

Lemma moves_select_one {R} `{Table Database R} (Rel : relation Database) `{!PreOrder Rel} (sel : R → bool) :
  moves Rel (select_one sel).
Proof. by apply moves_fmap, moves_select. Qed.

Lemma moves_select_by {R} `{Table Database R} (Rel : relation Database) `{!PreOrder Rel} le (sel : R → bool) :
  moves Rel (select_by le sel).
Proof. by apply moves_fmap, moves_select. Qed.

#[export] Hint Resolve moves_select moves_select_one moves_select_by : sql.

(** What an operation leaves alone. *)
Lemma steps_bind_frame {A B} (Rel F : relation Database) `{!PreOrder Rel} e (m : Sqlite A) (k : A → Sqlite B) r :
  fair_scan e → moves Rel m → moves F m →
  (∀ a r', F (rn_db r) (rn_db r') → steps Rel e (k a) r') → steps Rel e (m ≫= k) r.
Proof.
  intros He Hm HF Hk. apply steps_bind; [done|by apply Hm|]. intros a r' Heq. apply Hk.
  specialize (HF e r He). unfold steps in HF. by rewrite Heq in HF.
Qed.
