(* ===== verification/SqliteOps.v ===== *)
(** * The operations of the SQLite store against its contract

    Every operation keeps to the contract of [SqliteSpec], and every operation
    returns. *)

From S2P Require Import Prelude GoFloat GoStrings GoTime Sha256 Errors Domain Entities StoreState.
From S2P Require Import StoreAudit StoreFlags StoreGovernance Sql SqliteState Sqlite SqliteSpec.

(** * The operations of the SQLite store, one by one

    [operation m] lists the methods of [SQLiteStore] that read or write the
    database, the reset apart; each keeps the contract. *)

(** The bodies of the operations. *)
Ltac open_operation := cbv beta zeta delta [
    Sqlite.DeleteFlag Sqlite.ToggleFlag Sqlite.UpdateRollout Sqlite.ListFlagsByProject
    Sqlite.ListFlags Sqlite.AppendAuditLog Sqlite.PurgeAuditLogs
    Sqlite.ListAuditLogsByProject Sqlite.ListAuditLogs Sqlite.ExportAuditLogs
    Sqlite.VerifyAuditLogIntegrity chain_base Sqlite.CreateOrganization
    Sqlite.GetOrganization Sqlite.ListOrganizations Sqlite.ListUserOrganizations
    Sqlite.CreateProject Sqlite.GetProject Sqlite.ListProjects
    Sqlite.CreateOrgMember Sqlite.GetOrgMember Sqlite.ListOrgMembers
    Sqlite.CreateOrgInvitation Sqlite.GetOrgInvitation Sqlite.ListOrgInvitations
    id_or_new put_member Sqlite.CreateUser Sqlite.ListUsers Sqlite.GetUserByEmail
    Sqlite.GetUserByID Sqlite.UpdateUser Sqlite.UpdateUserPassword
    Sqlite.CreateSession Sqlite.GetSession Sqlite.DeleteSession
    Sqlite.DeleteUserSessions Sqlite.CreatePasswordResetToken
    Sqlite.GetPasswordResetToken Sqlite.CreateAPIKey Sqlite.ListAPIKeys
    Sqlite.ListAPIKeysByProject Sqlite.GetAPIKeyByHash Sqlite.GetAPIKeyByID
    Sqlite.RevokeAPIKey Sqlite.RevokeAPIKeyByProject Sqlite.CreateChangeRequest
    Sqlite.GetChangeRequest Sqlite.ListChangeRequestsByProject
    Sqlite.ListChangeRequests Sqlite.RecordExperimentEvents
    Sqlite.GetExperimentEvents Sqlite.GetExperimentEventsByProject complete_event
    Sqlite.SaveCanarySchedule Sqlite.GetCanarySchedule Sqlite.ListActiveCanarySchedules
    Sqlite.ListCanarySchedulesByProject Sqlite.DeleteCanarySchedule Sqlite.SaveOIDCConfig
    Sqlite.GetOIDCConfig Sqlite.GetOIDCConfigByDomain Sqlite.DeleteOIDCConfig].

Section Ops.
Context `{GoRuntime, SqlDriver, SqliteLib}.

Inductive operation : ∀ A, Sqlite A → Prop :=
| op_seed : operation _ seedDefaults
| op_save_flag f a : operation _ (SaveFlag f a)
| op_delete_flag_in p k a : operation _ (Sqlite.DeleteFlagByProject p k a)
| op_delete_flag k a : operation _ (Sqlite.DeleteFlag k a)
| op_toggle_in p k e b a : operation _ (Sqlite.ToggleFlagByProject p k e b a)
| op_toggle k e b a : operation _ (Sqlite.ToggleFlag k e b a)
| op_rollout_in p k e x a : operation _ (Sqlite.UpdateRolloutByProject p k e x a)
| op_rollout k e x a : operation _ (Sqlite.UpdateRollout k e x a)
| op_get_flag_in p k : operation _ (Sqlite.GetFlagByProject p k)
| op_get_flag k : operation _ (Sqlite.GetFlag k)
| op_list_flags_in p : operation _ (Sqlite.ListFlagsByProject p)
| op_list_flags : operation _ Sqlite.ListFlags
| op_append_audit e : operation _ (Sqlite.AppendAuditLog e)
| op_purge_audit p t : operation _ (Sqlite.PurgeAuditLogs p t)
| op_list_audit_in p n : operation _ (Sqlite.ListAuditLogsByProject p n)
| op_list_audit n : operation _ (Sqlite.ListAuditLogs n)
| op_export_audit p a b n : operation _ (Sqlite.ExportAuditLogs p a b n)
| op_verify_audit p : operation _ (Sqlite.VerifyAuditLogIntegrity p)
| op_create_org o : operation _ (Sqlite.CreateOrganization o)
| op_get_org i : operation _ (Sqlite.GetOrganization i)
| op_list_orgs : operation _ Sqlite.ListOrganizations
| op_user_orgs u : operation _ (Sqlite.ListUserOrganizations u)
| op_create_project p : operation _ (Sqlite.CreateProject p)
| op_get_project i : operation _ (Sqlite.GetProject i)
| op_list_projects o : operation _ (Sqlite.ListProjects o)
| op_create_member m : operation _ (Sqlite.CreateOrgMember m)
| op_get_member o u : operation _ (Sqlite.GetOrgMember o u)
| op_list_members o : operation _ (Sqlite.ListOrgMembers o)
| op_invite i : operation _ (Sqlite.CreateOrgInvitation i)
| op_get_invitation t : operation _ (Sqlite.GetOrgInvitation t)
| op_accept t u : operation _ (Sqlite.AcceptOrgInvitation t u)
| op_list_invitations o : operation _ (Sqlite.ListOrgInvitations o)
| op_create_user u : operation _ (Sqlite.CreateUser u)
| op_list_users : operation _ Sqlite.ListUsers
| op_user_by_email e : operation _ (Sqlite.GetUserByEmail e)
| op_user_by_id i : operation _ (Sqlite.GetUserByID i)
| op_update_user u : operation _ (Sqlite.UpdateUser u)
| op_update_password i h : operation _ (Sqlite.UpdateUserPassword i h)
| op_create_session s : operation _ (Sqlite.CreateSession s)
| op_get_session t : operation _ (Sqlite.GetSession t)
| op_delete_session t : operation _ (Sqlite.DeleteSession t)
| op_delete_sessions u : operation _ (Sqlite.DeleteUserSessions u)
| op_create_reset e d : operation _ (Sqlite.CreatePasswordResetToken e d)
| op_get_reset t : operation _ (Sqlite.GetPasswordResetToken t)
| op_reset_password t h : operation _ (Sqlite.ResetPasswordWithToken t h)
| op_create_key k : operation _ (Sqlite.CreateAPIKey k)
| op_list_keys : operation _ Sqlite.ListAPIKeys
| op_list_keys_in p : operation _ (Sqlite.ListAPIKeysByProject p)
| op_key_by_hash h : operation _ (Sqlite.GetAPIKeyByHash h)
| op_key_by_id i : operation _ (Sqlite.GetAPIKeyByID i)
| op_revoke i a : operation _ (Sqlite.RevokeAPIKey i a)
| op_revoke_in p i a : operation _ (Sqlite.RevokeAPIKeyByProject p i a)
| op_propose c : operation _ (Sqlite.CreateChangeRequest c)
| op_get_request i : operation _ (Sqlite.GetChangeRequest i)
| op_list_requests_in p s : operation _ (Sqlite.ListChangeRequestsByProject p s)
| op_list_requests s : operation _ (Sqlite.ListChangeRequests s)
| op_review i r e n b c : operation _ (Sqlite.ReviewChangeRequest i r e n b c)
| op_apply i a : operation _ (Sqlite.ApplyChangeRequest i a)
| op_record_events l : operation _ (Sqlite.RecordExperimentEvents l)
| op_get_events k n : operation _ (Sqlite.GetExperimentEvents k n)
| op_get_events_in p k n : operation _ (Sqlite.GetExperimentEventsByProject p k n)
| op_save_canary c : operation _ (Sqlite.SaveCanarySchedule c)
| op_get_canary p k : operation _ (Sqlite.GetCanarySchedule p k)
| op_active_canaries : operation _ Sqlite.ListActiveCanarySchedules
| op_canaries_in p : operation _ (Sqlite.ListCanarySchedulesByProject p)
| op_delete_canary p k : operation _ (Sqlite.DeleteCanarySchedule p k)
| op_save_oidc c : operation _ (Sqlite.SaveOIDCConfig c)
| op_get_oidc o : operation _ (Sqlite.GetOIDCConfig o)
| op_oidc_by_domain d : operation _ (Sqlite.GetOIDCConfigByDomain d)
| op_delete_oidc o : operation _ (Sqlite.DeleteOIDCConfig o).

(** The statements that write, by [moves_step] and the contract. *)
Ltac statement :=
  match goal with
  | |- moves within_contract (insert_into _) => apply moves_insert; intros ?; cbn
  | |- moves within_contract (insert_or_ignore _) => apply moves_insert_or_ignore; intros ?; cbn
  | |- moves within_contract (upsert_into _ _ _) =>
      apply moves_upsert; [intros ?; cbn|intros ? ?; cbn]
  | |- moves within_contract (update_rows _ _) => apply moves_update; intros ? ?; cbn
  | |- moves within_contract (delete_from _) => apply moves_delete; intros ? ?; cbn
  end.

Ltac contract :=
  repeat first [statement|moves_step]; try solve [split_and?; first [done|by left|by right]].

Lemma insertAuditLog_within entry : moves within_contract (insertAuditLog entry).
Proof.
  unfold insertAuditLog, audit_id, chain_base. contract. by eexists.
Qed.
Hint Resolve insertAuditLog_within : sql.

Lemma record_audit_within entry : moves within_contract (record_audit entry).
Proof. unfold record_audit. contract. Qed.
Hint Resolve record_audit_within : sql.

Lemma audit_id_within : moves within_contract audit_id.
Proof. unfold audit_id. contract. Qed.
Hint Resolve audit_id_within : sql.

Lemma new_audit_within p k a env actor d t : moves within_contract (new_audit p k a env actor d t).
Proof. unfold new_audit. contract. Qed.
Hint Resolve new_audit_within : sql.

Lemma GetFlagByProject_reads (Rel : relation Database) `{!PreOrder Rel} p k :
  moves Rel (Sqlite.GetFlagByProject p k).
Proof. unfold Sqlite.GetFlagByProject. repeat moves_step. Qed.
Hint Resolve GetFlagByProject_reads : sql.

Lemma GetFlag_reads (Rel : relation Database) `{!PreOrder Rel} k : moves Rel (Sqlite.GetFlag k).
Proof. unfold Sqlite.GetFlag. repeat moves_step. Qed.
Hint Resolve GetFlag_reads : sql.

Lemma SaveFlag_within f a : moves within_contract (SaveFlag f a).
Proof. unfold SaveFlag, bind_uint64. contract. Qed.
Hint Resolve SaveFlag_within : sql.

Lemma audit_revocation_within a d : moves within_contract (audit_revocation a d).
Proof. unfold audit_revocation. contract. Qed.
Hint Resolve audit_revocation_within : sql.

Lemma ToggleFlagByProject_within p k e b a : moves within_contract (Sqlite.ToggleFlagByProject p k e b a).
Proof. unfold Sqlite.ToggleFlagByProject, update_environments. contract. Qed.
Hint Resolve ToggleFlagByProject_within : sql.

Lemma UpdateRolloutByProject_within p k e x a :
  moves within_contract (Sqlite.UpdateRolloutByProject p k e x a).
Proof. unfold Sqlite.UpdateRolloutByProject, update_environments. contract. Qed.
Hint Resolve UpdateRolloutByProject_within : sql.

Lemma DeleteFlagByProject_within p k a : moves within_contract (Sqlite.DeleteFlagByProject p k a).
Proof. unfold Sqlite.DeleteFlagByProject. contract. Qed.
Hint Resolve DeleteFlagByProject_within : sql.

Lemma seedDefaults_within : moves within_contract seedDefaults.
Proof. unfold seedDefaults, count_rows, read_clock. contract. Qed.
Hint Resolve seedDefaults_within : sql.

(** ** Updates of a row that has just been read

    Here the contract depends on the row: it is the one the update changes,
    because its key is unique. *)

Lemma GetChangeRequest_reads (Rel : relation Database) `{!PreOrder Rel} i :
  moves Rel (Sqlite.GetChangeRequest i).
Proof. unfold Sqlite.GetChangeRequest. repeat moves_step. Qed.
Hint Resolve GetChangeRequest_reads : sql.

Local Ltac stop := by apply (moves_fail within_contract).
Local Ltac return_ := by intros ? ? ?; apply (moves_ret within_contract).

Lemma same_key (a b x : string) : (a =s? x) = true → (b =s? x) = true → (a =s? b) = true.
Proof. rewrite !str_eqb_eq. congruence. Qed.

Lemma moves_steps {A} e (m : Sqlite A) r :
  fair_scan e → moves within_contract m → steps within_contract e m r.
Proof. auto. Qed.

Lemma steps_attempt {A} e (m : Sqlite A) r :
  steps within_contract e m r → steps within_contract e (attempt m) r.
Proof. unfold steps, attempt. by destruct (m e r). Qed.

Lemma steps_lift_Ok {A B} e (a : A) (k : A → Sqlite B) r :
  steps within_contract e (k a) r → steps within_contract e (lift (Ok a) ≫= k) r.
Proof. done. Qed.

Lemma write_review_within t rid em n b c cr (x : RequestRow) :
  Review t (request_of_row x) rid em n b c = Ok cr → reviewed x (write_review cr t x).
Proof.
  unfold Review. cbn [cr_Status cr_AuthorUserID request_of_row].
  destruct (qr_status x =s? _) eqn:Hs; cbn [negb]; [|done].
  destruct (qr_author_user_id x =s? rid) eqn:Ha; [done|]. intros [= <-]. simp_bool.
  repeat split; [done|destruct b; [by left|by right]|]. cbn. congruence.
Qed.

Lemma ReviewChangeRequest_within i rid em n b c :
  moves within_contract (Sqlite.ReviewChangeRequest i rid em n b c).
Proof.
  intros e r He. apply (steps_locked within_contract). generalize (set_locked true r). clear r. intros r.
  apply (steps_bind within_contract); [by apply (GetChangeRequest_reads _)|].
  intros cr r1 Hget. apply (get_found e) in Hget as (Hdb & _ & x & -> & Hx & Hid); [|done].
  apply (steps_bind_frame within_contract eq); [done|by repeat moves_step..|]. intros t r2 Hr2.
  destruct (Review _ _ _ _ _ _ _) as [cr|] eqn:Hrev; [|stop]. apply steps_lift_Ok.
  apply (steps_bind within_contract); [|return_].
  apply steps_update. rewrite <- Hr2, Hdb. intros Hok y Hy Hsy.
  rewrite (found_unique (λ q : RequestRow, qr_id q =s? i) (rn_db r) y x);
    [|by apply ok_request|typeclasses eauto|by intros a b'; apply same_key|done..].
  left. by eapply write_review_within.
Qed.
Hint Resolve ReviewChangeRequest_within : sql.

(** Writing the environments does not touch the requests. *)
Lemma update_environments_frame p f :
  moves (λ a b : Database, change_requests a = change_requests b) (update_environments p f).
Proof. intros e r _. done. Qed.

Lemma update_environments_within p f : moves within_contract (update_environments p f).
Proof. unfold update_environments. contract. Qed.

#[export] Instance same_requests : PreOrder (λ a b : Database, change_requests a = change_requests b).
Proof. split; [done|]. intros a b c. apply eq_trans. Qed.

Lemma ApplyChangeRequest_within i a : moves within_contract (Sqlite.ApplyChangeRequest i a).
Proof.
  intros e r He. apply (steps_locked within_contract). generalize (set_locked true r). clear r. intros r.
  apply (steps_bind within_contract); [by apply (GetChangeRequest_reads _)|].
  intros cr r1 Hget. apply (get_found e) in Hget as (Hdb & _ & x & -> & Hx & Hid); [|done].
  destruct (cr_Status (request_of_row x) =s? _) eqn:Hs; cbn [negb]; [|stop].
  apply (steps_bind_frame within_contract eq); [done|by apply (GetFlagByProject_reads _)..|].
  intros flag r2 Hr2. case_if; [stop|].
  apply (steps_bind_frame within_contract eq); [done|by repeat moves_step..|]. intros t r3 Hr3. cbv zeta.
  apply (steps_bind_frame within_contract _ e _ _ _ He (update_environments_within _ _)
           (update_environments_frame _ _)). intros _ r4 Hr4.
  apply (steps_bind_frame within_contract eq); [done|by repeat moves_step..|]. intros t' r5 Hr5. cbv zeta.
  apply (steps_bind within_contract); [|by intros ? ? _; apply moves_steps; [|contract]].
  apply (steps_bind within_contract); [|return_].
  apply steps_attempt, steps_update. intros Hok y Hy Hsy.
  assert (y ∈ tb_rows (rn_db r)) as Hy'.
  { cbn in *. congruence. }
  rewrite (found_unique (λ q : RequestRow, qr_id q =s? i) (rn_db r5) y x);
    [|by apply ok_request|typeclasses eauto|by intros a' b'; apply same_key|done|cbn in *; congruence|done..].
  right. split; [by simp_bool|by eexists].
Qed.
Hint Resolve ApplyChangeRequest_within : sql.

Lemma GetPasswordResetToken_reads (Rel : relation Database) `{!PreOrder Rel} t :
  moves Rel (Sqlite.GetPasswordResetToken t).
Proof. unfold Sqlite.GetPasswordResetToken. repeat moves_step. Qed.

#[export] Instance same_resets : PreOrder (λ a b : Database, password_reset_tokens a = password_reset_tokens b).
Proof. split; [done|]. intros a b c. apply eq_trans. Qed.

Lemma ResetPasswordWithToken_within t h : moves within_contract (Sqlite.ResetPasswordWithToken t h).
Proof.
  intros e r He. apply (steps_locked within_contract). generalize (set_locked true r). clear r. intros r.
  apply (steps_bind within_contract); [by apply (GetPasswordResetToken_reads _)|].
  intros pr r1 Hget. apply (get_found e) in Hget as (Hdb & _ & x & -> & Hx & Hid); [|done].
  destruct (pr_Used _) eqn:Hused; [stop|].
  apply (steps_bind_frame within_contract eq); [done|by repeat moves_step..|]. intros t1 r2 Hr2.
  case_if; [stop|].
  apply (steps_bind_frame within_contract eq); [done|by repeat moves_step..|]. intros t2 r3 Hr3.
  apply (steps_bind_frame within_contract (λ a b : Database, password_reset_tokens a = password_reset_tokens b));
    [done|contract|by intros ? ? _|]. intros _ r4 Hr4.
  apply (steps_bind within_contract); [|return_].
  apply steps_attempt, steps_update. intros Hok y Hy Hsy.
  rewrite (found_unique (λ q : ResetRow, tr_token q =s? t) (rn_db r4) y x);
    [|by apply ok_reset|typeclasses eauto|by intros a' b'; apply same_key|done|cbn in *; congruence|done..].
  cbn in Hused. simp_bool. by repeat split.
Qed.
Hint Resolve ResetPasswordWithToken_within : sql.

Lemma GetOrgInvitation_reads (Rel : relation Database) `{!PreOrder Rel} t :
  moves Rel (Sqlite.GetOrgInvitation t).
Proof. unfold Sqlite.GetOrgInvitation. repeat moves_step. Qed.

Lemma put_member_within m : moves within_contract (put_member m).
Proof. unfold put_member. contract. Qed.
Hint Resolve put_member_within : sql.

Lemma AcceptOrgInvitation_within t u : moves within_contract (Sqlite.AcceptOrgInvitation t u).
Proof.
  intros e r He. apply (steps_locked within_contract). generalize (set_locked true r). clear r. intros r.
  apply (steps_bind within_contract); [by apply (GetOrgInvitation_reads _)|].
  intros inv r1 Hget. apply (get_found e) in Hget as (Hdb & _ & x & -> & Hx & Hid); [|done].
  destruct (iv_AcceptedAt _) eqn:Hacc; [stop|].
  apply (steps_bind_frame within_contract eq); [done|by repeat moves_step..|]. intros t1 r2 Hr2.
  case_if; [stop|].
  apply (steps_bind_frame within_contract eq); [done|by repeat moves_step..|]. intros user r3 Hr3. cbv zeta.
  case_if; [stop|].
  apply (steps_bind_frame within_contract eq); [done|by repeat moves_step..|]. intros t2 r4 Hr4.
  apply (steps_bind within_contract); [|by intros ? ? _; apply moves_steps; [|unfold id_or_new; contract]].
  apply (steps_bind within_contract); [|return_].
  apply steps_attempt, steps_update. intros Hok y Hy Hsy.
  rewrite (found_unique (λ q : InviteRow, ir_token q =s? t) (rn_db r4) y x);
    [|by apply ok_invite|typeclasses eauto|intros a' b' Ha Hb; cbn; rewrite (same_key _ _ _ Ha Hb); apply orb_true_r
     |done|cbn in *; congruence|done..].
  split; [|by eexists]. cbn in Hacc. unfold parse_optional in Hacc. by destruct (ir_accepted_at x).
Qed.
Hint Resolve AcceptOrgInvitation_within : sql.

(** Every operation keeps the contract of the store. *)
Lemma operation_within A (m : Sqlite A) : operation A m → moves within_contract m.
Proof.
  intros []; try solve [contract]; open_operation; by contract.
Qed.

End Ops.

(** * Every operation of the SQLite store returns

    The mutex is not reentrant and a writer holds it to its end; still, an
    operation called while it is free returns and gives it back.  The reset is
    the exception. *)

Section Returns.
Context `{GoRuntime, SqlDriver, SqliteLib}.

Lemma tame_select {R} `{Table Database R} b (sel : R → bool) : tame b (select sel).
Proof. apply tame_query. Qed.
Lemma tame_select_one {R} `{Table Database R} b (sel : R → bool) : tame b (select_one sel).
Proof. apply tame_fmap, tame_query. Qed.
Lemma tame_select_by {R} `{Table Database R} b le (sel : R → bool) : tame b (select_by le sel).
Proof. apply tame_fmap, tame_query. Qed.
Hint Resolve tame_select tame_select_one tame_select_by : sql.

Lemma tame_insertAuditLog b entry : tame b (insertAuditLog entry).
Proof. unfold insertAuditLog, audit_id, chain_base, insert_into. repeat tame_step. Qed.
Hint Resolve tame_insertAuditLog : sql.

(** Bodies shared by the operations. *)
Lemma tame_record_audit b entry : tame b (record_audit entry).
Proof. unfold record_audit. repeat tame_step. Qed.
Lemma tame_audit_id b : tame b audit_id.
Proof. unfold audit_id. repeat tame_step. Qed.
Lemma tame_get_flag_in b p k : tame b (Sqlite.GetFlagByProject p k).
Proof. unfold Sqlite.GetFlagByProject. repeat tame_step. Qed.
Hint Resolve tame_record_audit tame_audit_id tame_get_flag_in : sql.

Lemma tame_new_audit b p k a env actor d t : tame b (new_audit p k a env actor d t).
Proof. unfold new_audit. repeat tame_step. Qed.
Lemma tame_get_flag b k : tame b (Sqlite.GetFlag k).
Proof. unfold Sqlite.GetFlag. repeat tame_step. Qed.
Lemma tame_revocation b a d : tame b (audit_revocation a d).
Proof. unfold audit_revocation. repeat tame_step. Qed.
Lemma tame_update_environments b p f : tame b (update_environments p f).
Proof. unfold update_environments, update_rows. repeat tame_step. Qed.
Lemma tame_id_or_new b i p : tame b (id_or_new i p).
Proof. unfold id_or_new. repeat tame_step. Qed.
Lemma tame_put_member b m : tame b (put_member m).
Proof. apply tame_exec. Qed.
Hint Resolve tame_new_audit tame_get_flag tame_revocation tame_update_environments tame_id_or_new : sql.
Hint Resolve tame_put_member : sql.

Lemma tame_save_flag f a : tame false (SaveFlag f a).
Proof. unfold SaveFlag, bind_uint64, upsert_into. repeat tame_step. Qed.
Hint Resolve tame_save_flag : sql.

Lemma operation_tame A (m : Sqlite A) : operation A m → tame false m.
Proof.
  intros []; open_operation;
    cbv beta zeta delta [seedDefaults count_rows read_clock Sqlite.DeleteFlagByProject
      Sqlite.ToggleFlagByProject Sqlite.UpdateRolloutByProject Sqlite.AcceptOrgInvitation
      Sqlite.ResetPasswordWithToken Sqlite.ReviewChangeRequest
      Sqlite.ApplyChangeRequest Sqlite.GetOrgInvitation Sqlite.GetPasswordResetToken
      Sqlite.GetChangeRequest insert_into insert_or_ignore upsert_into update_rows delete_from];
    by repeat tame_step.
Qed.

(** C24: An operation called while no other holds the mutex returns, with a result or
    an error, and leaves the mutex free: none waits for itself. *)
Theorem sqlite_operations_return A (m : Sqlite A) e db :
  operation A m → ∃ res r, call e m db = Returned res r ∧ rn_locked r = false.
Proof. intros Hop. by apply operation_tame. Qed.

End Returns.
