(* ===== verification/SqliteFacts.v ===== *)
(** * What the contract of the SQLite store guarantees

    The invariants of every reachable database, what follows from the contract of
    [SqliteSpec] for revocation, password resets, change requests, the audit trail
    and the flags, and the theorems applied to a small shop. *)

From S2P Require Import Prelude GoFloat GoStrings GoTime Sha256 Errors Domain Engine Entities StoreState.
From S2P Require Import StoreAudit StoreFlags StoreGovernance Sql SqliteState Sqlite SqliteSpec SqliteOps.

(** * What the contract of the SQLite store guarantees

    The invariants of every reachable database, and what follows from the
    contract of [SqliteSpec] for revocation, password resets, change requests,
    the audit trail and the flags. *)

(** * What holds in every SQLite database of the store

    The databases a store can leave behind, by any sequence of its operations,
    restarts and resets, and what the contract of the tables says of them. *)

(** ** The life of the rows of a table *)

(** A statement touches one table. *)
Class Separate (R : Type) `{Table Database R, !Policy Database R} : Prop :=
  store_step_rows : ∀ db db', store_step db db' →
    tb_rows (R:=R) db' = tb_rows db ∨ table_step (R:=R) db (tb_rows db').

#[export] Instance request_separate : Separate RequestRow.
Proof. intros db db' []; first [by left|by right]. Qed.
#[export] Instance key_separate : Separate KeyRow.
Proof. intros db db' []; first [by left|by right]. Qed.
#[export] Instance reset_separate : Separate ResetRow.
Proof. intros db db' []; first [by left|by right]. Qed.
#[export] Instance invite_separate : Separate InviteRow.
Proof. intros db db' []; first [by left|by right]. Qed.
#[export] Instance audit_separate : Separate AuditRow.
Proof. intros db db' []; first [by left|by right]. Qed.
#[export] Instance flag_separate : Separate FlagRow.
Proof. intros db db' []; first [by left|by right]. Qed.

Section Rows.
Context {R : Type} `{Separate R}.

(** What the contract keeps of each row holds of all rows. *)
Lemma steps_Forall (P : R → Prop) db db' :
  (∀ (d : Database) row, may_add d row → P row) →
  (∀ r r', may_change (Db:=Database) r r' → P r → P r') →
  rtc store_step db db' → Forall P (tb_rows db) → Forall P (tb_rows db').
Proof.
  intros Hadd Hchg. induction 1 as [|a b c Hab _ IH]; [done|]. intros Ha. apply IH.
  destruct (store_step_rows a b Hab) as [->|Ht]; [done|]. eapply table_step_Forall; eauto.
Qed.

(** Where no row may go, each lives on, changed within the contract. *)
Lemma steps_persist db db' (r : R) :
  (∀ x, ¬ may_drop (Db:=Database) (R:=R) x) → rtc store_step db db' → r ∈ tb_rows db →
  ∃ r', rtc (may_change (Db:=Database)) r r' ∧ r' ∈ tb_rows db'.
Proof.
  intros Hdrop Hs. revert r. induction Hs as [|a b c Hab _ IH]; intros r Hr; [by exists r|].
  destruct (store_step_rows a b Hab) as [Heq|Ht]; [apply IH; by rewrite Heq|].
  destruct (table_step_row a _ r Ht Hr) as [Hr'|[(r' & Hc & Hr')|Hd]]; [by apply IH| |by apply Hdrop in Hd].
  destruct (IH r' Hr') as (r'' & Hc' & Hr''). exists r''. split; [by econstructor|done].
Qed.

End Rows.

(** A property that the contract keeps along the life of a row. *)
Lemma life_keeps {R} `{Policy Database R} (P : R → Prop) (r r' : R) :
  (∀ a b, may_change (Db:=Database) a b → P a → P b) → rtc (may_change (Db:=Database)) r r' → P r → P r'.
Proof. intros HP. induction 1; eauto. Qed.

Section Store.
Context `{GoRuntime, SqlDriver, SqliteLib}.

(** Operations one after the other, each from a store at rest. *)
Inductive runs : Database → Database → Prop :=
| runs_none db : runs db db
| runs_more A (m : Sqlite A) e db db' :
    operation A m → fair_scan e → runs db db' → runs db (rn_db (final (call e m db'))).

Lemma runs_within db db' : runs db db' → within_contract db db'.
Proof.
  induction 1 as [|A m e db db' Hop He _ IH]; [by reflexivity|]. etrans; [exact IH|].
  exact (operation_within A m Hop e (at_rest db') He).
Qed.

(** *** The state Reset leaves *)

Definition truncated (db : Database) : Database :=
  empty_database <| audit_anchors := audit_anchors db |> <| canary_schedules := canary_schedules db |>.

Definition seed_org (now : string) : OrgRow :=
  mkOrgRow DefaultOrgID DefaultOrgName DefaultOrgSlug "Default workspace organization" now now.
Definition seed_project (now : string) : ProjectRow :=
  mkProjectRow DefaultProjectID DefaultOrgID DefaultProjectName DefaultProjectSlug
    "Default feature flagging project" now now.

Lemma where_false {R} (sel : R → bool) t : (∀ r, sel r = false) → sql_where sel t = [].
Proof. intros Hs. apply list_filter_none, Forall_forall. intros r _. by rewrite Hs. Qed.

Lemma where_nil {R} (sel : R → bool) : sql_where sel [] = [].
Proof. done. Qed.

(** The statements of the reset, one after the other. *)
Lemma truncate_cons (R : Type) `{Table Database R} l e (r : Run Database) :
  for_each ignore (delete_all R :: l) e r =
  for_each ignore l e (mkRun (cascade (tb_put (R:=R) [] (rn_db r))) (rn_locked r) (rn_clock r) (rn_rand r)
                         (rn_query r)).
Proof. reflexivity. Qed.

Local Ltac truncate_step :=
  rewrite truncate_cons;
  cbn -[sql_where for_each delete_all]; unfold cascade; cbn -[sql_where for_each delete_all];
  rewrite ?where_nil;
  repeat match goal with |- context [sql_where ?p ?t] => generalize (sql_where p t); intros ? end.

Lemma truncate_all e (r : Run Database) :
  for_each ignore truncateQueries e r =
  Returned (Ok tt) (mkRun (truncated (rn_db r)) (rn_locked r) (rn_clock r) (rn_rand r) (rn_query r)).
Proof.
  destruct r as [[] l c rd q]. unfold truncateQueries.
  do 10 truncate_step. rewrite truncate_cons.
  cbn -[sql_where for_each delete_all]. unfold cascade. cbn -[sql_where for_each delete_all].
  rewrite ?where_nil, (where_false (λ _ : OIDCRow, false)) by done.
  truncate_step. reflexivity.
Qed.

Lemma blocked_while_locked {A} (m : Sqlite A) e (r : Run Database) :
  rn_locked r = true → locked m e r = Blocked r.
Proof. unfold locked. by intros ->. Qed.

Definition reseeded (now : string) (db : Database) : Database :=
  truncated db <| organizations := [seed_org now] |> <| projects := [seed_project now] |>.

(** The seed flags are saved through [SaveFlag], which takes the mutex the reset
    is holding. *)
Lemma seedDefaults_locked e db :
  seedDefaults e (mkRun (truncated db) true 0 0 0) =
  Blocked (mkRun (reseeded (FormatRFC3339 (sys_now (env_sys e) 0)) db) true 7 0 3).
Proof. reflexivity. Qed.

Lemma Reset_result e db :
  call e Reset db = Blocked (mkRun (reseeded (FormatRFC3339 (sys_now (env_sys e) 0)) db) true 7 0 3).
Proof.
  unfold call, Reset, locked. cbn [rn_locked at_rest].
  unfold mbind at 1, sql_bind at 1. rewrite truncate_all.
  cbn [rn_db set_locked at_rest rn_clock rn_rand rn_query rn_locked]. by rewrite seedDefaults_locked.
Qed.

Lemma single_ok {R} `{Table Database R} db (r : R) : tb_refs db r = true → table_ok db [r].
Proof. intros Hr. split; [repeat constructor|by constructor]. Qed.

Lemma nil_ok {R} `{Table Database R} db : table_ok (R:=R) db [].
Proof. split; constructor. Qed.

Lemma reseeded_ok now db : db_ok db → db_ok (reseeded now db).
Proof.
  intros []. split; unfold rows_ok; cbn [tb_rows reseeded truncated];
    first [apply nil_ok|by apply single_ok|by apply (table_ok_grows empty_database)|assumption].
Qed.

(** The databases a store leaves, with a restart wherever one is needed: opening
    the file again is [op_seed]. *)
Inductive reachable : Database → Prop :=
| reach_empty : reachable empty_database
| reach_op A (m : Sqlite A) e db :
    reachable db → operation A m → fair_scan e → reachable (rn_db (final (call e m db)))
| reach_reset e db : reachable db → reachable (rn_db (final (call e Reset db))).

End Store.

(** * Properties of the SQLite store

    The contract of the store, read as statements about its operations. *)

(** ** A look-up by key finds the row *)

Section Lookup.
Context {R : Type} `{Table Database R}.

Lemma select_one_value (sel : R → bool) e (r : Run Database) x :
  fair_scan e → x ∈ tb_rows (rn_db r) →
  (∀ y, y ∈ tb_rows (rn_db r) → sel y = true → y = x) → sel x = true →
  ∃ r', select_one sel e r = Returned (Ok (Some x)) r' ∧ rn_db r' = rn_db r ∧ rn_locked r' = rn_locked r.
Proof.
  intros He Hx Huniq Hsel. destruct (select_one sel e r) as [[o|err]|] eqn:E;
    [|by unfold select_one, select, query, fmap, sql_fmap, mbind, sql_bind in E..].
  destruct (select_one_found e sel r o _ He E) as (Hdb & Hl & Ho). destruct o as [y|].
  - destruct Ho as [Hy Hsy]. rewrite (Huniq y Hy Hsy). eauto.
  - by rewrite Ho in Hsel.
Qed.

Lemma select_one_nothing (sel : R → bool) e (r : Run Database) :
  fair_scan e → (∀ y, y ∈ tb_rows (rn_db r) → sel y = false) →
  ∃ r', select_one sel e r = Returned (Ok None) r' ∧ rn_db r' = rn_db r ∧ rn_locked r' = rn_locked r.
Proof.
  intros He Hnone. destruct (select_one sel e r) as [[o|err]|] eqn:E;
    [|by unfold select_one, select, query, fmap, sql_fmap, mbind, sql_bind in E..].
  destruct (select_one_found e sel r o _ He E) as (Hdb & Hl & Ho). destruct o as [y|]; [|eauto].
  destruct Ho as [Hy Hsy]. by rewrite Hnone in Hsy.
Qed.

End Lookup.

(** ** Invariants of the rows *)

(** Where a change request stands, and who has decided. *)
Definition request_state (r : RequestRow) : Prop :=
  (qr_status r = ChangeRequestStatusPending ∧ qr_applied_at r = None) ∨
  ((qr_status r = ChangeRequestStatusApproved ∨ qr_status r = ChangeRequestStatusRejected) ∧
   qr_reviewer_user_id r ≠ qr_author_user_id r ∧ qr_applied_at r = None) ∨
  (qr_status r = ChangeRequestStatusApplied ∧ qr_reviewer_user_id r ≠ qr_author_user_id r ∧
   ∃ t, qr_applied_at r = Some t).

Lemma request_state_change r r' :
  may_change (Db:=Database) r r' → request_state r → request_state r'.
Proof.
  intros [(_ & Hp & Hs & Hr & Ha)|(Hp & t & ->)] Hst.
  - right; left. split_and!; [done|done|]. rewrite Ha.
    destruct Hst as [[_ ?]|[(Hbad & _)|(Hbad & _)]]; [done|..]; exfalso; rewrite Hp in Hbad;
      [by destruct Hbad|done].
  - right; right. destruct Hst as [[Hbad _]|[(_ & Hne & _)|(_ & Hne & _)]]; [by rewrite Hp in Hbad|..];
      (split_and!; [done|done|by exists t]).
Qed.

Section Facts.
Context `{GoRuntime, SqlDriver, SqliteLib}.

Lemma steps_request_state db db' :
  rtc store_step db db' → Forall request_state (change_requests db) → Forall request_state (change_requests db').
Proof.
  refine (steps_Forall (R:=RequestRow) request_state db db' _ request_state_change).
  intros _ row (Hp & _ & _ & Ha). by left.
Qed.

Lemma steps_sealed db db' :
  rtc store_step db db' → Forall sealed_row (audit_logs db) → Forall sealed_row (audit_logs db').
Proof. by refine (steps_Forall (R:=AuditRow) sealed_row db db' _ _). Qed.

Definition well_kept (db : Database) : Prop :=
  db_ok db ∧ Forall request_state (change_requests db) ∧ Forall sealed_row (audit_logs db).

Lemma reachable_well_kept db : reachable db → well_kept db.
Proof.
  induction 1 as [|A m e db _ IH Hop He|e db _ IH].
  - split; [apply empty_database_ok|by split].
  - destruct IH as (Hok & Hreq & Haud). destruct (operation_within A m Hop e (at_rest db) He Hok) as [Hs Hok'].
    split_and!; [done|by eapply steps_request_state|by eapply steps_sealed].
  - destruct IH as (Hok & _ & _). rewrite Reset_result. cbn [final rn_db].
    split; [by apply reseeded_ok|by split].
Qed.

(** C3: Whatever operation runs, on whatever database within the schema, and however
    it ends: the rows it leaves come from statements the contract of their table
    allows, and the database is within the schema again. *)
Theorem sqlite_refines_contract A (m : Sqlite A) e db :
  operation A m → fair_scan e → db_ok db →
  let db' := rn_db (final (call e m db)) in rtc store_step db db' ∧ db_ok db'.
Proof. intros Hop He Hok. exact (operation_within A m Hop e (at_rest db) He Hok). Qed.


(** C6: No change request in the database was decided by its author, and only a
    decided one is applied. *)
Theorem sqlite_four_eyes db r :
  reachable db → r ∈ change_requests db → qr_status r ≠ ChangeRequestStatusPending →
  qr_reviewer_user_id r ≠ qr_author_user_id r ∧
  (qr_status r = ChangeRequestStatusApplied ↔ ∃ t, qr_applied_at r = Some t).
Proof.
  intros Hreach Hr Hne. destruct (reachable_well_kept db Hreach) as (_ & Hall & _).
  rewrite Forall_forall in Hall. destruct (Hall r Hr) as [[Hp _]|[(Hs & Hd & Ha)|(Hs & Hd & t & Ha)]]; [done|..].
  - split; [done|]. rewrite Ha. split; [|by intros [t Ht]]. by destruct Hs as [-> | ->].
  - split; [done|]. split; [by exists t|done].
Qed.

(** ** What is final *)

Lemma runs_ok db db' : runs db db' → db_ok db → db_ok db'.
Proof. intros Hr Hok. by destruct (runs_within _ _ Hr Hok). Qed.

(** The row a key row has become. *)
Lemma key_life db db' k :
  runs db db' → db_ok db → k ∈ api_keys db →
  ∃ k', k' ∈ api_keys db' ∧ key_core k' = key_core k ∧ (kr_revoked k = 1%Z → kr_revoked k' = 1%Z).
Proof.
  intros Hr Hok Hk. destruct (runs_within _ _ Hr Hok) as [Hs _].
  destruct (steps_persist (R:=KeyRow) db db' k) as (k' & Hlife & Hk'); [by intros ? []|done|done|].
  exists k'. split; [done|]. clear -Hlife. induction Hlife as [|a b c [Hc Hrev] _ IH]; [done|].
  destruct IH as [IHc IHr]. split; [congruence|]. intros Ha. apply IHr. destruct Hrev; congruence.
Qed.

(** C25: A revoked key never authenticates again, whatever operations follow. *)
Theorem sqlite_revocation_final db db' e k :
  db_ok db → k ∈ api_keys db → kr_revoked k = 1%Z → runs db db' → fair_scan e →
  ∃ r, call e (GetAPIKeyByHash (kr_key_hash k)) db' = Returned (Err (EText "invalid API key")) r ∧
    rn_db r = db'.
Proof.
  intros Hok Hk Hrev Hr He. destruct (key_life db db' k Hr Hok Hk) as (k' & Hk' & Hcore & Hrev').
  destruct (select_one_nothing (λ x : KeyRow, (kr_key_hash x =s? kr_key_hash k) && (kr_revoked x =? 0)%Z)
              e (at_rest db') He) as (r' & Hsel & Hdb & _).
  - intros y Hy. destruct (kr_key_hash y =s? kr_key_hash k) eqn:Hh; [|done]. simp_bool.
    assert (y = k') as ->; [|by rewrite (Hrev' Hrev)].
    destruct (runs_ok _ _ Hr Hok) as [_ _ _ _ _ _ _ _ _ [Hu _]].
    eapply (unique_lookup _ clash_sym (api_keys db')); [exact Hu|done|done|]. cbn.
    injection Hcore as _ _ _ _ Hhash. rewrite Hhash, Hh, str_eqb_refl. apply orb_true_r.
  - exists r'. split; [|done]. unfold call, GetAPIKeyByHash, mbind, sql_bind. by rewrite Hsel.
Qed.

(** A password reset token that has been used is refused from then on. *)
Theorem sqlite_reset_token_once db db' e x h :
  db_ok db → x ∈ password_reset_tokens db → tr_used x = 1%Z → runs db db' → fair_scan e →
  ∃ r, call e (ResetPasswordWithToken (tr_token x) h) db' = Returned (Err (EText "token already used")) r ∧
    rn_db r = db'.
Proof.
  intros Hok Hx Hused Hr He. destruct (runs_within _ _ Hr Hok) as [Hs Hok'].
  destruct (steps_persist (R:=ResetRow) db db' x) as (x' & Hlife & Hx'); [by intros ? []|done|done|].
  assert (x' = x) as ->.
  { destruct Hlife as [|a b c (_ & _ & _ & Hu & _) _]; [done|by destruct Hu]. }
  destruct (select_one_value (λ y : ResetRow, tr_token y =s? tr_token x) e
              (set_locked true (at_rest db')) x He Hx') as (r' & Hsel & Hdb & _); [|apply str_eqb_refl|].
  { intros y Hy Hsy. destruct Hok' as [_ _ _ _ _ _ _ _ _ _ [Hu _]].
    by apply (unique_lookup _ clash_sym (password_reset_tokens db')). }
  exists (set_locked false r'). split; [|done].
  unfold call, ResetPasswordWithToken, locked, GetPasswordResetToken, mbind, sql_bind. cbn [rn_locked at_rest].
  rewrite Hsel. cbn. by rewrite Hused.
Qed.

(** An applied request stays applied: applying it again is refused, and nothing is
    written. *)
Theorem sqlite_applied_once db db' e q actor :
  db_ok db → q ∈ change_requests db → qr_status q = ChangeRequestStatusApplied → runs db db' → fair_scan e →
  ∃ r, call e (ApplyChangeRequest (qr_id q) actor) db' =
         Returned (Err (EText "cannot apply change request with status 'APPLIED' (must be APPROVED)")) r ∧
       rn_db r = db'.
Proof.
  intros Hok Hq Hst Hr He. destruct (runs_within _ _ Hr Hok) as [Hs Hok'].
  destruct (steps_persist (R:=RequestRow) db db' q) as (q' & Hlife & Hq'); [by intros ? []|done|done|].
  assert (q' = q) as ->.
  { destruct Hlife as [|a b c [(_ & Hp & _)|(Hp & _)] _]; [done|..]; by rewrite Hp in Hst. }
  destruct (select_one_value (λ y : RequestRow, qr_id y =s? qr_id q) e
              (set_locked true (at_rest db')) q He Hq') as (r' & Hsel & Hdb & _); [|apply str_eqb_refl|].
  { intros y Hy Hsy. destruct Hok' as [_ _ _ _ _ _ _ _ [Hu _]].
    by apply (unique_lookup _ clash_sym (change_requests db')). }
  exists (set_locked false r'). split; [|done].
  unfold call, ApplyChangeRequest, locked, GetChangeRequest, mbind, sql_bind. cbn [rn_locked at_rest].
  rewrite Hsel. cbn. by rewrite Hst.
Qed.

(** C39: Resetting the store empties it and then waits for its own mutex: the call
    never returns, the seed flags are missing, readers find no flag, and whatever
    takes the mutex afterwards, to write or to read, blocks as well. *)
Theorem sqlite_reset_deadlocks e e' db f actor session p k :
  fair_scan e' →
  ∃ r, call e Reset db = Blocked r ∧ users (rn_db r) = [] ∧
    (∃ r', ListFlags e' r = Returned (Ok []) r') ∧
    SaveFlag f actor e' r = Blocked r ∧ CreateSession session e' r = Blocked r ∧
    GetCanarySchedule p k e' r = Blocked r.
Proof.
  intros He. rewrite Reset_result. eexists. split; [done|]. split; [done|]. split.
  - eexists. unfold ListFlags, ListFlagsByProject, select_by, select, query, fmap, sql_fmap, mbind, sql_bind.
    cbn -[order_by]. pose proof (He 3%nat FlagRow []) as Hnil. apply Permutation_nil_r in Hnil. cbn in *. by rewrite Hnil.
  - split_and!; try by apply blocked_while_locked. done.
Qed.

End Facts.

(** * The audit trail in SQLite: what its theorems show

    Rows are ordered by the text of their time.  As long as that order is the one
    of insertion, appending and purging keep the chain of every project; the text
    has no trailing zeros, though, and then it is not. *)

(** ** Rows and entries *)

Lemma audit_of_row_of e : year_ok (al_Timestamp e) → audit_of_row (row_of_audit e) = e.
Proof.
  intros Hy. unfold audit_of_row. cbn [ar_timestamp row_of_audit].
  rewrite parse_format_time by done. destruct (IsZero _); by destruct e.
Qed.

Lemma older_row_total a b : older_row a b = false → older_row b a = true.
Proof. apply text_leb_total. Qed.

Lemma older_row_trans a b c : older_row a b = true → older_row b c = true → older_row a c = true.
Proof. apply text_leb_trans. Qed.

(** The trail of a project as entries, oldest first. *)
Definition entries (p : string) (db : Database) : list AuditLogEntry := audit_of_row <$> trail p db.

(** What the first entry of a trail is linked to. *)
Definition base_of (p : string) (db : Database) : string :=
  match filter (λ n, (nr_project_id n =s? p) = true) (audit_anchors db) with
  | n :: _ => if negb (nr_anchor_hash n =s? "") then nr_anchor_hash n else AuditGenesisHash
  | [] => AuditGenesisHash
  end.

Definition trail_ok (p : string) (db : Database) : Prop := chained (base_of p db) (entries p db).

(** The text of the new time is not before any of the trail. *)
Definition latest (p : string) (db : Database) (ts : Time) : Prop :=
  Forall (λ a, text_leb (ar_timestamp a) (FormatRFC3339Nano ts) = true) (sql_where (of_project p) (audit_logs db)).

Section Audit.
Context `{SqlDriver}.

Lemma chain_base_value p e (r : Run Database) :
  fair_scan e → db_ok (rn_db r) →
  ∃ r', chain_base p e r = Returned (Ok (base_of p (rn_db r))) r' ∧ rn_db r' = rn_db r ∧
    rn_locked r' = rn_locked r.
Proof.
  intros He Hok. unfold chain_base, base_of.
  destruct (filter _ (audit_anchors (rn_db r))) as [|n l] eqn:E.
  - destruct (select_one_nothing (λ n : AnchorRow, nr_project_id n =s? p) e r He) as (r' & Hsel & Hdb).
    + intros y Hy. destruct (_ =s? _) eqn:Hp; [|done].
      assert (y ∈ @nil AnchorRow) as []%not_elem_of_nil. rewrite <- E. by apply list_elem_of_filter.
    + exists r'. split; [|done]. unfold mbind, sql_bind. by rewrite Hsel.
  - assert (n ∈ audit_anchors (rn_db r) ∧ (nr_project_id n =s? p) = true) as [Hn Hp].
    { apply and_comm, (list_elem_of_filter (λ n, (nr_project_id n =s? p) = true)). rewrite E. by left. }
    destruct (select_one_value (H:=anchor_table) (λ n, nr_project_id n =s? p) e r n He Hn) as (r' & Hsel & Hdb); [|done|].
    + intros y Hy Hsy. destruct Hok as [_ _ _ _ _ _ [Hu _]].
      apply (unique_lookup _ clash_sym (audit_anchors (rn_db r))); [done..|]. cbn.
      by eapply same_key.
    + exists r'. split; [|done]. unfold mbind, sql_bind. by rewrite Hsel.
Qed.

(** With every hash in place, the entry a new one is linked to is the last. *)
Lemma trail_nonempty p db :
  trail_ok p db → Forall (λ a, negb (ar_entry_hash a =s? "") = true) (sql_where (of_project p) (audit_logs db)).
Proof.
  intros Hc. rewrite Forall_forall. intros a Ha.
  assert (audit_of_row a ∈ entries p db) as Hin.
  { apply list_elem_of_fmap_2. unfold trail, oldest_first. by apply elem_of_order_by. }
  pose proof (chained_hash_nonempty _ _ _ Hc Hin) as Hne. cbn in Hne.
  by rewrite (proj2 (str_eqb_neq _ _) Hne).
Qed.

Definition newest_hash (p : string) (db : Database) : option AuditRow :=
  head (newest_first (sql_where (λ a, of_project p a && negb (ar_entry_hash a =s? "")) (audit_logs db))).

Lemma newest_hash_spec p db :
  trail_ok p db →
  head_hash (base_of p db) (entries p db)
  = match newest_hash p db with Some a => ar_entry_hash a | None => base_of p db end.
Proof.
  intros Hc. unfold newest_hash, newest_first, head_hash, entries.
  rewrite where_andb by by apply trail_nonempty. rewrite head_reverse, fmap_last.
  fold (trail p db). by destruct (last (trail p db)).
Qed.

(** The database with one entry more. *)
Definition logged (db : Database) (log : AuditLogEntry) : Database :=
  db <| audit_logs := audit_logs db ++ [row_of_audit log] |>.

(** One entry: linked to the last of its project's trail, sealed, and put at the
    end of the table. *)
Lemma insertAuditLog_spec entry e r log r' :
  fair_scan e → db_ok (rn_db r) →
  let p := or_default (al_ProjectID entry) DefaultProjectID in
  trail_ok p (rn_db r) →
  insertAuditLog entry e r = Returned (Ok (log, Ok ())) r' →
  al_ProjectID log = p ∧ al_PrevHash log = head_hash (base_of p (rn_db r)) (entries p (rn_db r)) ∧
  al_EntryHash log = ComputeAuditEntryHash (al_PrevHash log) log ∧
  rn_db r' = logged (rn_db r) log.
Proof.
  intros He Hok p Hc Hins. unfold insertAuditLog in Hins.
  apply bind_inv in Hins as (id & r1 & E1 & Hins).
  apply reads_inv in E1; [|done|unfold reads, audit_id; by repeat moves_step].
  apply bind_inv in Hins as (ts & r2 & E2 & Hins).
  apply reads_inv in E2; [|done|unfold reads; by repeat moves_step].
  change (al_ProjectID (completed entry id ts)) with p in Hins.
  apply bind_inv in Hins as (newest & r3 & E3 & Hins). injection E3 as <- Hr3.
  assert (rn_db r3 = rn_db r) as E3 by (rewrite <- Hr3; cbn; congruence).
  apply bind_inv in Hins as (prevHash & r4 & E4 & Hins). rewrite E2, E1 in E4.
  fold (newest_hash p (rn_db r)) in E4.
  assert (prevHash = head_hash (base_of p (rn_db r)) (entries p (rn_db r)) ∧ rn_db r4 = rn_db r) as [-> Hdb].
  { rewrite newest_hash_spec by done. destruct (newest_hash p (rn_db r)) as [a|].
    - by injection E4 as <- <-.
    - destruct (chain_base_value p e r3 He) as (r6 & Hbase & Hdb & _); [by rewrite E3|].
      rewrite Hbase in E4. injection E4 as <- <-. by rewrite Hdb, E3. }
  apply bind_inv in Hins as (res & r5 & E5 & Hins). apply ret_inv in Hins as [[Hlog Hres]%pair_equal_spec ->].
  rewrite Hlog in E5. destruct res as [n|err]; [|done].
  assert (insert_into (row_of_audit log) e r4 = Returned (Ok n) r5) as Hrow.
  { unfold attempt in E5. destruct (insert_into _ e r4); [|done]. by injection E5 as -> ->. }
  apply insert_inv in Hrow as (_ & Hput & _). rewrite Hput, Hdb.
  split_and!; by rewrite <- Hlog.
Qed.

Lemma entries_snoc p db log :
  al_ProjectID log = p → latest p db (al_Timestamp log) → year_ok (al_Timestamp log) →
  entries p (logged db log) = entries p db ++ [log].
Proof.
  intros Hp Hl Hy. unfold entries, trail, oldest_first.
  change (audit_logs (logged db log)) with (audit_logs db ++ [row_of_audit log]). rewrite where_snoc. replace (of_project p (row_of_audit log)) with true;
    [|symmetry; apply str_eqb_eq; by subst].
  rewrite order_by_snoc by exact Hl. rewrite fmap_app. by cbn [fmap list_fmap]; rewrite audit_of_row_of.
Qed.

Lemma entries_other p db log :
  al_ProjectID log ≠ p →
  entries p (logged db log) = entries p db.
Proof.
  intros Hp. unfold entries, trail, oldest_first.
  change (audit_logs (logged db log)) with (audit_logs db ++ [row_of_audit log]). rewrite where_snoc.
  replace (of_project p (row_of_audit log)) with false by (symmetry; by apply str_eqb_neq).
  by rewrite app_nil_r.
Qed.

Lemma trail_ok_append db log :
  let p := al_ProjectID log in
  trail_ok p db → al_PrevHash log = head_hash (base_of p db) (entries p db) →
  al_EntryHash log = ComputeAuditEntryHash (al_PrevHash log) log →
  latest p db (al_Timestamp log) → year_ok (al_Timestamp log) →
  trail_ok p (logged db log).
Proof.
  intros p Hc Hprev Hh Hl Hy. unfold trail_ok. rewrite entries_snoc by done.
  change (base_of p _) with (base_of p db). apply chained_app. split; [done|].
  split; [done|]. split; [by rewrite <- Hprev|done].
Qed.

(** The verification of a linked trail. *)
Lemma verify_trail p e (r : Run Database) :
  fair_scan e → db_ok (rn_db r) →
  trail_ok (or_default p DefaultProjectID) (rn_db r) →
  ∃ res r', VerifyAuditLogIntegrity p e r = Returned (Ok res) r' ∧ ai_Valid res = true ∧
    ai_TotalVerified res = length (entries (or_default p DefaultProjectID) (rn_db r)) ∧ rn_db r' = rn_db r.
Proof.
  intros He Hok Hc. unfold VerifyAuditLogIntegrity. cbv zeta. set (p' := or_default p DefaultProjectID) in *.
  erewrite bind_ok by reflexivity. erewrite bind_ok by reflexivity.
  fold (entries p' (rn_db r)).
  destruct (entries p' (rn_db r)) as [|en ens] eqn:E; [by eexists _, _|]. cbn [rn_db rn_locked rn_clock rn_rand rn_query].
  set (r1 := mkRun _ _ _ _ _).
  destruct (chain_base_value p' e r1 He Hok) as (r2 & Hbase & Hdb & _).
  rewrite (bind_ok _ _ _ _ _ _ Hbase). change (rn_db r1) with (rn_db r) in *.
  unfold trail_ok in Hc. rewrite E in Hc.
  rewrite verify_chain_linked by done. by eexists _, _.
Qed.

End Audit.

Section AuditFacts.
Context `{SqlDriver}.

(** C8: As long as the text of the new time is not before the trail's, appending puts
    the entry at the end of its project's trail, linked to the entry before it:
    the trail verifies with one entry more, and the other projects' trails are
    untouched. *)
Theorem sqlite_append_keeps_chain entry e e' db log r :
  fair_scan e → fair_scan e' → db_ok db →
  let p := or_default (al_ProjectID entry) DefaultProjectID in
  trail_ok p db →
  call e (AppendAuditLog entry) db = Returned (Ok log) r →
  latest p db (al_Timestamp log) → year_ok (al_Timestamp log) →
  entries p (rn_db r) = entries p db ++ [log] ∧ trail_ok p (rn_db r) ∧
  (∀ q, q ≠ p → entries q (rn_db r) = entries q db) ∧
  ∃ res r', call e' (VerifyAuditLogIntegrity p) (rn_db r) = Returned (Ok res) r' ∧ ai_Valid res = true ∧
    ai_TotalVerified res = S (length (entries p db)).
Proof.
  intros He He' Hok p Hc Hcall Hl Hy.
  unfold call, AppendAuditLog, locked in Hcall. cbn [rn_locked at_rest] in Hcall.
  destruct ((insertAuditLog entry ≫= _) _ _) as [res r1|] eqn:E; [|done]. injection Hcall as -> <-.
  apply bind_inv in E as ([log' res] & r2 & Hins & E). destruct res as [[]|err]; [|done].
  apply (bind_inv (lift (Ok ()))) in E as ([] & r3 & E3 & E). injection E3 as <-. apply ret_inv in E as [-> ->].
  destruct (insertAuditLog_within entry e (set_locked true (at_rest db)) He Hok) as [_ Hok'].
  rewrite Hins in Hok'. cbn [final] in Hok'.
  apply insertAuditLog_spec in Hins as (Hp & Hprev & Hh & Hdb); [|done..]. fold p in Hp, Hprev.
  change (rn_db (set_locked false r2)) with (rn_db r2). change (rn_db (set_locked true (at_rest db))) with db in *.
  rewrite Hdb in *. assert (trail_ok p (logged db log)) as Hc'.
  { rewrite <- Hp in *. by apply trail_ok_append. }
  split_and!; [by apply entries_snoc|done|intros q Hq; apply entries_other; congruence|].
  assert (or_default p DefaultProjectID = p) as Hpp by apply or_default_idem.
  destruct (verify_trail p e' (at_rest (logged db log)) He' Hok') as (res & r' & Hv & Hval & Ht & _);
    [by rewrite Hpp|].
  exists res, r'. split_and!; [done|done|]. rewrite Ht, Hpp. change (rn_db (at_rest ?d)) with d.
  rewrite entries_snoc by done. rewrite length_app. cbn. lia.
Qed.

End AuditFacts.

(** ** Purging *)

(** The anchor a purge writes is the one a verification starts from. *)
Definition anchor_row (p h now : string) : AnchorRow := mkAnchorRow p h now.
Definition put_anchor (p h now : string) (t : list AnchorRow) : option (list AnchorRow) :=
  sql_upsert (tb_clash (Db:=Database)) (λ a b, nr_project_id a =s? nr_project_id b)
    (λ excluded old, old <| nr_anchor_hash := nr_anchor_hash excluded |>
                         <| nr_updated_at := nr_updated_at excluded |>) (anchor_row p h now) t.

Lemma put_anchor_base p h now db :
  h ≠ "" → ∃ t, put_anchor p h now (audit_anchors db) = Some t ∧ base_of p (db <| audit_anchors := t |>) = h.
Proof.
  intros Hh. unfold put_anchor, sql_upsert, sql_insert, base_of.
  change (tb_clash (anchor_row p h now)) with (λ b : AnchorRow, nr_project_id (anchor_row p h now) =s? nr_project_id b).
  destruct (existsb _ (audit_anchors db)) eqn:E.
  - eexists. split; [done|]. cbn -[filter fmap]. revert E. induction (audit_anchors db) as [|n t IH]; [done|].
    cbn -[filter]. rewrite (str_eqb_sym p (nr_project_id n)). destruct (nr_project_id n =s? p) eqn:Hn; cbn -[filter].
    + intros _. rewrite filter_cons_True by done. cbn. by rewrite (proj2 (str_eqb_neq _ _) Hh).
    + intros Ht. rewrite filter_cons_False; [by apply IH|]. by rewrite Hn.
  - eexists. split; [done|]. cbn -[filter]. rewrite filter_app. rewrite (list_filter_none _ (audit_anchors db)).
    + cbn. rewrite decide_True by apply str_eqb_refl. cbn. by rewrite (proj2 (str_eqb_neq _ _) Hh).
    + rewrite Forall_forall. intros n Hn Hp. assert (existsb (λ b : AnchorRow,
        nr_project_id (anchor_row p h now) =s? nr_project_id b) (audit_anchors db) = true); [|congruence].
      apply existsb_exists. exists n. split; [by apply list_elem_of_In|]. cbn. by rewrite str_eqb_sym.
Qed.

(** The trail splits where the purge cuts it. *)
Definition cut (before : string) (a : AuditRow) : bool := negb (text_leb before (ar_timestamp a)).

Lemma trail_cut p before db :
  trail p db = oldest_first (sql_where (purged_row p before) (audit_logs db)) ++
               oldest_first (sql_where (of_project p) (sql_delete (purged_row p before) (audit_logs db)).1).
Proof.
  unfold trail at 1. rewrite (ordered_prefix older_row (cut before) (oldest_first _)).
  - unfold oldest_first. rewrite <- !(order_by_filter _ older_row_total older_row_trans). f_equal; f_equal.
    + symmetry. apply where_where.
    + rewrite <- where_where. unfold sql_delete, sql_where, purged_row, cut. cbn.
      rewrite list_filter_filter. apply list_filter_iff. intros a. destruct (of_project p a), (text_leb _ _); cbn; intuition congruence.
  - apply order_by_ordered; [apply older_row_total|apply older_row_trans].
  - unfold older_row, cut. intros x y Hxy Hy. destruct (text_leb before (ar_timestamp x)) eqn:E; [|done].
    by rewrite (text_leb_trans _ _ _ E Hxy) in Hy.
Qed.

Section Purge.
Context `{GoRuntime, SqlDriver, SqliteLib}.

(** What the purge leaves. *)
Definition purged_db (p before : string) (db : Database) : Database :=
  db <| audit_logs := (sql_delete (purged_row p before) (audit_logs db)).1 |>.

Lemma PurgeAuditLogs_db e projectID before db n r :
  let p := or_default projectID DefaultProjectID in
  let b := FormatRFC3339Nano before in
  let purged := sql_where (purged_row p b) (audit_logs db) in
  let h := default "" (ar_entry_hash <$> last (oldest_first purged)) in
  call e (PurgeAuditLogs projectID before) db = Returned (Ok n) r →
  n = Z.of_nat (length purged) ∧
  if (0 <? n)%Z && negb (h =s? "")
  then ∃ now t, put_anchor p h now (audit_anchors db) = Some t ∧
         rn_db r = purged_db p b db <| audit_anchors := t |>
  else rn_db r = purged_db p b db.
Proof.
  intros p b purged h Hcall. unfold call, PurgeAuditLogs, locked in Hcall.
  cbn [rn_locked at_rest] in Hcall. cbv zeta in Hcall. fold p b in Hcall.
  erewrite !bind_ok in Hcall by reflexivity.
  change (sql_where (purged_row p b) (audit_logs (rn_db (set_locked true (at_rest db))))) with purged in Hcall.
  change (length (filter _ _)) with (length purged) in Hcall.
  unfold newest_first in Hcall. rewrite head_reverse in Hcall. fold h in Hcall.
  destruct ((0 <? Z.of_nat (length purged))%Z && negb (h =s? "")) eqn:E.
  - simp_bool. destruct (put_anchor_base p h (FormatRFC3339 (sys_now (env_sys e) 0)) db) as (t & Ht & _); [done|].
    erewrite bind_ok in Hcall by reflexivity.
    erewrite bind_ok in Hcall.
    2: { unfold ignore, attempt. erewrite bind_ok; [reflexivity|]. by erewrite (upsert_ok _ _ _ t) by done. }
    injection Hcall as <- <-. split; [done|]. rewrite (proj2 (Z.ltb_lt _ _)) by done.
    rewrite (proj2 (str_eqb_neq _ _)) by done. by eexists _, t.
  - injection Hcall as <- <-. split; [done|]. by rewrite E.
Qed.

(** The trail and the anchor a purge leaves belong together. *)
Lemma purge_base p b db db' :
  let purged := sql_where (purged_row p b) (audit_logs db) in
  let h := default "" (ar_entry_hash <$> last (oldest_first purged)) in
  trail_ok p db →
  (if (0 <? Z.of_nat (length purged))%Z && negb (h =s? "")
   then ∃ now t, put_anchor p h now (audit_anchors db) = Some t ∧
          db' = purged_db p b db <| audit_anchors := t |>
   else db' = purged_db p b db) →
  base_of p db' = head_hash (base_of p db) (audit_of_row <$> oldest_first purged) ∧
  audit_logs db' = audit_logs (purged_db p b db).
Proof.
  intros purged h Hc Hdb. unfold head_hash. rewrite fmap_last.
  destruct (last (oldest_first purged)) as [a|] eqn:Hl; cbn [fmap option_fmap option_map default].
  - assert (h = ar_entry_hash a) as Hh by (unfold h; by rewrite ?Hl).
    assert (a ∈ purged) as Ha.
    { apply (elem_of_order_by older_row). apply last_Some_elem_of. exact Hl. }
    assert (h ≠ "") as Hne.
    { rewrite Hh. pose proof (trail_nonempty p db Hc) as Hall. rewrite Forall_forall in Hall.
      specialize (Hall a). apply elem_of_where in Ha as [Hsel Ha]. apply andb_true_iff in Hsel as [Hp _].
      intros He. rewrite He in Hall. cbn in Hall. by discriminate Hall; apply elem_of_where. }
    rewrite (proj2 (str_eqb_neq _ _) Hne), (proj2 (Z.ltb_lt _ _)) in Hdb.
    + destruct Hdb as (nw & t & Ht & ->). split; [|done].
      destruct (put_anchor_base p h nw (purged_db p b db) Hne) as (t' & Ht' & Hb).
      change (audit_anchors (purged_db p b db)) with (audit_anchors db) in Ht'. rewrite Ht in Ht'.
      injection Ht' as <-. rewrite Hb. by rewrite Hh.
    + destruct purged; [by apply not_elem_of_nil in Ha|]. cbn. lia.
  - assert (h = "") as Hh by (unfold h; by rewrite ?Hl). rewrite Hh in Hdb. cbn in Hdb.
    rewrite andb_false_r in Hdb. by subst.
Qed.

Lemma entries_logs p db db' : audit_logs db' = audit_logs db → entries p db' = entries p db.
Proof. unfold entries, trail. by intros ->. Qed.

Lemma entries_purged_other p q b db : q ≠ p → entries q (purged_db p b db) = entries q db.
Proof.
  intros Hq. unfold entries, trail. f_equal. f_equal. unfold purged_db, sql_where. cbn -[filter].
  rewrite list_filter_filter. apply list_filter_iff. intros a. unfold purged_row, of_project.
  destruct (ar_project_id a =s? q) eqn:E; [|by intuition]. simp_bool. subst.
  rewrite (proj2 (str_eqb_neq _ _) Hq). cbn. by intuition.
Qed.

(** C26: Purging a linked trail keeps its later part, linked from the anchor: it still
    verifies.  The other projects' trails are untouched. *)
Theorem sqlite_purge_keeps_chain e e' projectID before db n r :
  fair_scan e → fair_scan e' → db_ok db →
  let p := or_default projectID DefaultProjectID in
  trail_ok p db → call e (PurgeAuditLogs projectID before) db = Returned (Ok n) r →
  trail_ok p (rn_db r) ∧ entries p db = take (Z.to_nat n) (entries p db) ++ entries p (rn_db r) ∧
  (∀ q, q ≠ p → entries q (rn_db r) = entries q db) ∧
  ∃ res r', call e' (VerifyAuditLogIntegrity p) (rn_db r) = Returned (Ok res) r' ∧ ai_Valid res = true.
Proof.
  intros He He' Hok p Hc Hcall.
  pose proof (PurgeAuditLogs_db _ _ _ _ _ _ Hcall) as [-> Hdb]. fold p in Hdb.
  set (b := FormatRFC3339Nano before) in *. destruct (purge_base p b db _ Hc Hdb) as [Hbase Hlogs].
  set (purged := sql_where (purged_row p b) (audit_logs db)) in *.
  assert (entries p db = (audit_of_row <$> oldest_first purged) ++ entries p (rn_db r)) as Hsplit.
  { rewrite (entries_logs p _ _ Hlogs). unfold entries at 1. by rewrite (trail_cut p b), fmap_app. }
  assert (trail_ok p (rn_db r)) as Hc'.
  { unfold trail_ok in Hc. rewrite Hsplit in Hc. apply chained_app in Hc as [_ Hc]. by rewrite <- Hbase in Hc. }
  split_and!; [done| | |].
  - rewrite Nat2Z.id, Hsplit at 1. f_equal. rewrite Hsplit, take_app_length'; [done|].
    rewrite length_fmap. symmetry. apply length_order_by.
  - intros q Hq. rewrite (entries_logs q _ _ Hlogs). by apply entries_purged_other.
  - destruct (operation_within _ _ (op_purge_audit projectID before) e (at_rest db) He Hok) as [_ Hok'].
    fold (call e (PurgeAuditLogs projectID before) db) in Hok'. rewrite Hcall in Hok'.
    destruct (verify_trail p e' (at_rest (rn_db r)) He' Hok') as (res & r' & Hv & Hval & _ & _).
    + unfold p at 1. by rewrite or_default_idem.
    + by exists res, r'.
Qed.
End Purge.

(** ** The order of the texts is not the order of the times *)

#[local] Instance plain_driver : SqlDriver := {| constraint_error t := EText ("constraint failed: " +:+ t) |}.

(** A clock that stands still, and rows in the order of insertion. *)
Definition still_env (t : Time) : Env := mkEnv (mkSys (λ _, t) (λ _, "00")) (λ _ _ l, l).

Lemma still_env_fair t : fair_scan (still_env t).
Proof. by intros k A l. Qed.

(** 1970-01-01T00:00:01.5Z and 1970-01-01T00:00:01.51Z. *)
Definition half_past : Time := 1500000000%Z.
Definition just_after : Time := 1510000000%Z.

Definition shop_entry (id : string) (t : Time) : AuditLogEntry :=
  mkAudit id "shop" t "alice" "SAVE_FLAG" "checkout" "all" "saved" "" "".

Definition two_appends : outcome Database AuditIntegrityResult :=
  call (still_env 0) (AppendAuditLog (shop_entry "a1" half_past);;
                      AppendAuditLog (shop_entry "a2" just_after);;
                      VerifyAuditLogIntegrity "shop") empty_database.

(** Two entries appended in the order of their times, ten milliseconds apart, and
    nothing else: the later one has the smaller text, is read as the first entry
    of the trail, and the verification reports a broken chain. *)
Theorem sqlite_text_order_breaks_trail :
  (half_past < just_after)%Z ∧
  text_leb (FormatRFC3339Nano half_past) (FormatRFC3339Nano just_after) = false ∧
  match two_appends with
  | Returned (Ok res) _ => ai_Valid res = false ∧ ai_BrokenEntryID res = "a2"
  | _ => False
  end.
Proof. split; [done|]. split; [by vm_compute|]. by vm_compute. Qed.

(** * Flags in SQLite: what is saved is found, and only in its project *)

(** ** Writing in one project leaves the flags of the others alone *)

Definition flags_in (q : string) (db : Database) : list FlagRow :=
  sql_where (λ r, fr_project_id r =s? q) (feature_flags db).

Definition same_flags (q : string) (a b : Database) : Prop := flags_in q a = flags_in q b.

#[export] Instance same_flags_preorder q : PreOrder (same_flags q).
Proof. split; [done|]. intros a b c. apply eq_trans. Qed.

Section Isolation.
Context `{GoRuntime, SqlDriver, SqliteLib}.

Lemma same_flags_update q sel (upd : FlagRow → FlagRow) :
  (∀ r, fr_project_id (upd r) = fr_project_id r) → (∀ r, sel r = true → fr_project_id r ≠ q) →
  moves (same_flags q) (update_rows sel upd).
Proof.
  intros Hk Hs e r _. unfold steps, same_flags, flags_in. symmetry. apply where_fmap. intros x _.
  destruct (sel x) eqn:E; [|done]. rewrite Hk. split; [done|]. intros Hx. simp_bool. by apply Hs in E.
Qed.

Lemma same_flags_delete q (sel : FlagRow → bool) :
  (∀ r, sel r = true → fr_project_id r ≠ q) → moves (same_flags q) (delete_from sel).
Proof.
  intros Hs e r _. unfold steps, same_flags, flags_in, sql_where. cbn -[filter].
  rewrite list_filter_filter. apply list_filter_iff. intros x. split; [|by intros []].
  intros Hx. split; [done|]. destruct (sel x) eqn:E; [|done]. apply Hs in E. by simp_bool.
Qed.

Lemma same_flags_upsert q row :
  fr_project_id row ≠ q → moves (same_flags q) (upsert_into same_flag replace_flag row).
Proof.
  intros Hq. apply moves_exec; [typeclasses eauto|]. intros db db' n. cbn [tb_refs flag_table].
  unfold put_rows, sql_upsert, sql_insert. unfold same_flags, flags_in.
  change (tb_rows db) with (feature_flags db).
  destruct (existsb (same_flag row) (feature_flags db)); [|destruct (existsb (tb_clash (Db:=Database) row) (feature_flags db)); [done|]].
  - intros [= <- <-]. symmetry. apply where_fmap. intros x _. unfold same_flag.
    destruct (fr_project_id row =s? fr_project_id x) eqn:E; cbn [andb]; [|done].
    destruct (fr_key row =s? fr_key x); [|done]. split; [done|]. intros Hx. simp_bool. congruence.
  - intros [= <- <-]. symmetry. unfold sql_where. cbn -[filter].
    rewrite filter_app, filter_cons_False, filter_nil, app_nil_r; [done|]. by rewrite (proj2 (str_eqb_neq _ _) Hq).
Qed.

(** Audit entries are rows of another table. *)
Definition all_flags (a b : Database) : Prop := feature_flags a = feature_flags b.

#[export] Instance all_flags_preorder : PreOrder all_flags.
Proof. split; [done|]. intros a b c. apply eq_trans. Qed.

Lemma all_flags_insert (row : AuditRow) : moves all_flags (insert_into row).
Proof.
  apply moves_exec; [typeclasses eauto|]. intros db db' n. unfold put_rows.
  case_match; [|done]. by intros [= <- <-].
Qed.
Hint Resolve all_flags_insert GetFlagByProject_reads : sql.

Lemma all_flags_new_audit p k a env actor d t : moves all_flags (new_audit p k a env actor d t).
Proof. unfold new_audit, audit_id, record_audit, insertAuditLog, audit_id, chain_base. repeat moves_step. Qed.

Lemma same_flags_record q entry : moves (same_flags q) (record_audit entry).
Proof.
  apply (moves_weaken all_flags); [by intros a b Hab; unfold same_flags, flags_in; rewrite Hab|].
  unfold record_audit, insertAuditLog, audit_id, chain_base. repeat moves_step.
Qed.
Hint Resolve same_flags_record : sql.

Lemma same_flags_new_audit q p k a env actor d t : moves (same_flags q) (new_audit p k a env actor d t).
Proof. unfold new_audit, audit_id. repeat moves_step. Qed.
Hint Resolve same_flags_new_audit : sql.

(** The writers of flags of project [p]. *)
Inductive writes_flags (p : string) : ∀ A, Sqlite A → Prop :=
| wf_save f a : or_default (ff_ProjectID f) DefaultProjectID = p → writes_flags p _ (SaveFlag f a)
| wf_delete x k a : or_default x DefaultProjectID = p → writes_flags p _ (Sqlite.DeleteFlagByProject x k a)
| wf_toggle x k env b a :
    or_default x DefaultProjectID = p → writes_flags p _ (Sqlite.ToggleFlagByProject x k env b a)
| wf_rollout x k env pct a :
    or_default x DefaultProjectID = p → writes_flags p _ (Sqlite.UpdateRolloutByProject x k env pct a).

Lemma writes_flags_elsewhere p q A (m : Sqlite A) :
  writes_flags p A m → q ≠ p → moves (same_flags q) m.
Proof.
  intros Hm Hq. destruct Hm as [f a Hp|x k a Hp|x k env b a Hp|x k env pct a Hp].
  - unfold SaveFlag, bind_uint64. repeat moves_step. apply same_flags_upsert. cbn. congruence.
  - unfold Sqlite.DeleteFlagByProject, audit_id. repeat moves_step.
    apply same_flags_delete. intros r [Hr _]%andb_true_iff. simp_bool. congruence.
  - unfold Sqlite.ToggleFlagByProject, update_environments. repeat moves_step.
    apply same_flags_update; [done|]. intros r [_ Hr]%andb_true_iff. simp_bool. congruence.
  - unfold Sqlite.UpdateRolloutByProject, update_environments. repeat moves_step.
    apply same_flags_update; [done|]. intros r [_ Hr]%andb_true_iff. simp_bool. congruence.
Qed.

Definition result_of {Db A} (o : outcome Db A) : option (result GoError A) :=
  match o with Returned res _ => Some res | Blocked _ => None end.

(** Whatever is saved, deleted, toggled or rolled out in project [p], and however
    it ends: a look-up and the list of any other project answer as before. *)
Theorem sqlite_flags_isolated p q A (m : Sqlite A) e e' db k :
  writes_flags p A m → q ≠ p → fair_scan e →
  let db' := rn_db (final (call e m db)) in
  result_of (call e' (Sqlite.GetFlagByProject q k) db') = result_of (call e' (Sqlite.GetFlagByProject q k) db) ∧
  result_of (call e' (Sqlite.ListFlagsByProject q) db') = result_of (call e' (Sqlite.ListFlagsByProject q) db).
Proof.
  intros Hm Hq He db'. pose proof (writes_flags_elsewhere p q A m Hm Hq e (at_rest db) He) as Hs.
  unfold steps in Hs. cbn [rn_db at_rest] in Hs. fold (call e m db) in Hs. fold db' in Hs.
  unfold same_flags, flags_in in Hs. split.
  - assert (sql_where (flag_row q k) (feature_flags db) = sql_where (flag_row q k) (feature_flags db')) as Heq.
    { unfold flag_row. by rewrite !where_where, Hs. }
    unfold call, Sqlite.GetFlagByProject, select_one, select, query, fmap, sql_fmap, mbind, sql_bind.
    cbn -[sql_where]. rewrite Heq. by destruct (env_scan e' 0 FlagRow _).
  - unfold call, Sqlite.ListFlagsByProject, select_by, select, query, fmap, sql_fmap, mbind, sql_bind.
    cbn -[sql_where order_by]. by rewrite Hs.
Qed.

(** *** Saving and reading back *)

(** The row a save leaves: a new one, or the old one with the new contents. *)
Definition saved_row (row : FlagRow) (db : Database) (x : FlagRow) : Prop :=
  (x = row ∧ existsb (same_flag row) (feature_flags db) = false) ∨
  (∃ old, old ∈ feature_flags db ∧ same_flag row old = true ∧ x = replace_flag row old).

Lemma upsert_flag_inv row n e (r r' : Run Database) :
  upsert_into same_flag replace_flag row e r = Returned (Ok n) r' →
  ∃ x, x ∈ feature_flags (rn_db r') ∧ saved_row row (rn_db r) x ∧
    (∀ y, y ∈ feature_flags (rn_db r') → y = x ∨ ∃ z, z ∈ feature_flags (rn_db r) ∧
       fr_id y = fr_id z ∧ fr_project_id y = fr_project_id z ∧ fr_key y = fr_key z).
Proof.
  intros (t & Ht & Hdb & _)%upsert_inv. rewrite Hdb. cbn [feature_flags tb_put flag_table update_field].
  change (tb_rows (rn_db r)) with (feature_flags (rn_db r)) in Ht. revert Ht.
  unfold sql_upsert, sql_insert. destruct (existsb (same_flag row) (feature_flags (rn_db r))) eqn:E.
  - intros [= <-]. apply existsb_exists in E as (old & Hold & Hs). apply list_elem_of_In in Hold.
    exists (replace_flag row old). split_and!.
    + apply list_elem_of_fmap. exists old. by rewrite Hs.
    + right. by exists old.
    + intros y (z & -> & Hz)%list_elem_of_fmap. right. exists z. by destruct (same_flag row z).
  - destruct (existsb (tb_clash (Db:=Database) row) (feature_flags (rn_db r))); [done|]. intros [= <-]. exists row. split_and!.
    + apply elem_of_app. right. by left.
    + by left.
    + intros y [Hy|Hy%list_elem_of_singleton]%elem_of_app; eauto 6.
Qed.

End Isolation.

(** * The theorems of the SQLite store at work

    A small shop: a flag, a change request, a key, a password reset and a trail of
    two entries, through the operations of the store, with every hypothesis of the
    theorems met. *)

#[local] Existing Instance sample_runtime.

#[local] Instance shop_driver : SqlDriver := {| constraint_error t := EText ("constraint failed: " +:+ t) |}.

(** A codec for the values of the shop. *)
Definition shop_config : EnvironmentConfig :=
  mkEnvConfig true StrategyBoolean (f64_of_Z 100) [] [] "" "" true.
Definition shop_envs : gmap string EnvironmentConfig := {[ "production" := shop_config ]}.

#[local] Instance shop_lib : SqliteLib := {|
  write_tags l := if decide (l = []) then "[]" else "[tags]";
  read_tags _ := [];
  write_envs m := if decide (size m = 0)%nat then "{}" else "{production}";
  read_envs s := if s =s? "{production}" then shop_envs else ∅;
  write_proposed _ _ := "{proposed}";
  read_proposed _ := shop_config;
  read_base _ := None;
  write_stages _ := Some "[]";
  read_stages _ := [];
  write_guardrails _ := Some "{}";
  read_guardrails _ := mkGuardrails (f64_of_Z 5) (f64_of_Z 500) true "";
  argument_error := EText "sql: converting argument";
  stages_error := EText "json: unsupported value";
  guardrails_error := EText "json: unsupported value";
|}.

Definition noon : Time := 43200000000000%Z.
Definition at_noon : Env := still_env noon.

Definition after {A} (m : Sqlite A) (db : Database) : Database := rn_db (final (call at_noon m db)).

Lemma after_runs {A} (m : Sqlite A) db db' : operation A m → runs db db' → runs db (after m db').
Proof. intros Hop Hr. by apply runs_more; [|apply still_env_fair|]. Qed.

Lemma after_reachable {A} (m : Sqlite A) db : operation A m → reachable db → reachable (after m db).
Proof. intros Hop Hr. by apply reach_op; [| |apply still_env_fair]. Qed.

Lemma reachable_ok db : reachable db → db_ok db.
Proof. intros Hr. apply (reachable_well_kept db Hr). Qed.

Definition checkout : FeatureFlag :=
  mkFlag "" "shop" 0 "checkout" "Checkout" "" "boolean" [] shop_envs time_zero time_zero.

Definition ask : ChangeRequest :=
  mkCR "cr_1" "shop" "checkout" "production" "Turn on" "" "alice" "alice@shop" "Alice" shop_config 0 ""
    "" "" "" "" time_zero None None.

Definition shop_open : Database := after (SaveFlag checkout "alice") empty_database.
Definition shop_asked : Database := after (CreateChangeRequest ask) shop_open.
Definition shop_reviewed : Database :=
  after (ReviewChangeRequest "cr_1" "bob" "bob@shop" "Bob" true "fine") shop_asked.
Definition shop_applied : Database := after (ApplyChangeRequest "cr_1" "alice") shop_reviewed.
Definition shop_toggled : Database :=
  after (ToggleFlagByProject "shop" "checkout" "production" (Some false) "alice") shop_applied.

Lemma shop_reviewed_reachable : reachable shop_reviewed.
Proof. repeat apply after_reachable; constructor. Qed.

Lemma shop_applied_reachable : reachable shop_applied.
Proof. apply after_reachable; [constructor|]. exact shop_reviewed_reachable. Qed.

(** ** The contract, the schema, the four eyes *)

Lemma sqlite_refines_contract_witness : rtc store_step empty_database shop_open ∧ db_ok shop_open.
Proof.
  exact (sqlite_refines_contract _ (SaveFlag checkout "alice") at_noon empty_database
    (op_save_flag _ _) (still_env_fair _) empty_database_ok).
Defined.

Lemma sqlite_operations_return_witness :
  ∃ res r, call at_noon (ApplyChangeRequest "cr_1" "alice") shop_reviewed = Returned res r ∧ rn_locked r = false.
Proof. exact (sqlite_operations_return _ _ at_noon shop_reviewed (op_apply "cr_1" "alice")). Defined.


Lemma sqlite_four_eyes_witness :
  ∃ r, r ∈ change_requests shop_applied ∧ qr_status r = ChangeRequestStatusApplied ∧
    qr_author_user_id r = "alice" ∧ qr_reviewer_user_id r ≠ "alice".
Proof.
  eexists. split; [vm_compute; by left|]. split; [done|]. split; [done|].
  refine (proj1 (sqlite_four_eyes shop_applied _ shop_applied_reachable _ _)); [vm_compute; by left|done].
Defined.

(** ** What is final *)

Lemma sqlite_applied_once_witness :
  ∃ r, call at_noon (ApplyChangeRequest "cr_1" "carol") shop_toggled =
         Returned (Err (EText "cannot apply change request with status 'APPLIED' (must be APPROVED)")) r ∧
       rn_db r = shop_toggled.
Proof.
  assert (∃ q, q ∈ change_requests shop_applied ∧ qr_status q = ChangeRequestStatusApplied ∧ qr_id q = "cr_1")
    as (q & Hq & Hs & Hid) by (eexists; split; [vm_compute; by left|done]).
  rewrite <- Hid.
  apply (sqlite_applied_once shop_applied shop_toggled at_noon q "carol"); [|done|done| |apply still_env_fair].
  - apply reachable_ok, shop_applied_reachable.
  - apply after_runs; constructor.
Defined.

Definition shop_key : APIKey :=
  mkAPIKey "key_1" "shop" "production" "flg_secret" "flg_" "digest" "server" "viewer" "alice" time_zero None false.

Definition key_made : Database := after (CreateAPIKey shop_key) empty_database.
Definition key_revoked : Database := after (RevokeAPIKey "key_1" "alice") key_made.

Lemma key_revoked_ok : db_ok key_revoked.
Proof. apply reachable_ok. repeat apply after_reachable; constructor. Qed.

Lemma sqlite_revocation_final_witness :
  (∃ k r, call at_noon (GetAPIKeyByHash "digest") key_made = Returned (Ok k) r) ∧
  ∃ r, call at_noon (GetAPIKeyByHash "digest") key_revoked = Returned (Err (EText "invalid API key")) r ∧
    rn_db r = key_revoked.
Proof.
  split; [eexists _, _; by vm_compute|].
  assert (∃ k, k ∈ api_keys key_revoked ∧ kr_revoked k = 1%Z ∧ kr_key_hash k = "digest") as (k & Hk & Hr & Hh)
    by (eexists; split; [vm_compute; by left|done]).
  rewrite <- Hh.
  apply (sqlite_revocation_final key_revoked key_revoked at_noon k); [exact key_revoked_ok|done|done|constructor|].
  apply still_env_fair.
Defined.

Definition alice : User := mkUser "alice" "alice@shop" "old" "Alice" "admin" "" time_zero time_zero None.

Definition reset_asked : Database :=
  after (CreatePasswordResetToken "alice@shop" Hour) (after (CreateUser alice) empty_database).
Definition reset_done : Database := after (ResetPasswordWithToken "flg_rst_00" "new") reset_asked.

Lemma reset_done_ok : db_ok reset_done.
Proof. apply reachable_ok. repeat apply after_reachable; constructor. Qed.

Lemma sqlite_reset_token_once_witness :
  (ur_password_hash <$> users reset_done) = ["new"] ∧
  ∃ r, call at_noon (ResetPasswordWithToken "flg_rst_00" "newer") reset_done =
         Returned (Err (EText "token already used")) r ∧ rn_db r = reset_done.
Proof.
  split; [by vm_compute|].
  assert (∃ x, x ∈ password_reset_tokens reset_done ∧ tr_used x = 1%Z ∧ tr_token x = "flg_rst_00") as (x & Hx & Hu & Ht)
    by (eexists; split; [vm_compute; by left|done]).
  rewrite <- Ht.
  apply (sqlite_reset_token_once reset_done reset_done at_noon x "newer"); [exact reset_done_ok|done|done|constructor|].
  apply still_env_fair.
Defined.

Lemma sqlite_reset_deadlocks_witness :
  ∃ r, call at_noon Reset shop_applied = Blocked r ∧ users (rn_db r) = [] ∧
    (∃ r', ListFlags at_noon r = Returned (Ok []) r') ∧
    SaveFlag checkout "alice" at_noon r = Blocked r.
Proof.
  destruct (sqlite_reset_deadlocks at_noon at_noon shop_applied checkout "alice"
    (mkSession "t" "alice" None time_zero time_zero) "shop" "checkout" (still_env_fair _))
    as (r & H1 & H2 & H3 & H4 & _).
  exact (ex_intro _ r (conj H1 (conj H2 (conj H3 H4)))).
Defined.

(** ** Flags *)

Definition bakery_flag : FeatureFlag := checkout <| ff_ID := "flag_b" |> <| ff_ProjectID := "bakery" |>.

Lemma sqlite_flags_isolated_witness :
  feature_flags (rn_db (final (call at_noon (SaveFlag bakery_flag "eve") shop_applied))) ≠ feature_flags shop_applied ∧
  result_of (call at_noon (GetFlagByProject "shop" "checkout")
              (rn_db (final (call at_noon (SaveFlag bakery_flag "eve") shop_applied))))
  = result_of (call at_noon (GetFlagByProject "shop" "checkout") shop_applied).
Proof.
  split; [intros Heq%(f_equal length); by vm_compute in Heq|].
  assert (writes_flags "bakery" _ (SaveFlag bakery_flag "eve")) as Hw by by constructor.
  assert ("shop" ≠ "bakery") as Hne by done.
  generalize shop_applied. intros db.
  destruct (sqlite_flags_isolated "bakery" "shop" _ (SaveFlag bakery_flag "eve") at_noon at_noon db "checkout"
    Hw Hne (still_env_fair _)) as [H _]. exact H.
Defined.


(** ** The audit trail *)

Definition first_entry : AuditLogEntry := shop_entry "a1" noon.
Definition second_entry : AuditLogEntry := shop_entry "a2" (noon + Second)%Z.

Lemma sqlite_append_keeps_chain_witness :
  ∃ log r, call at_noon (AppendAuditLog first_entry) empty_database = Returned (Ok log) r ∧
    entries "shop" (rn_db r) = [log] ∧
    ∃ res r', call at_noon (VerifyAuditLogIntegrity "shop") (rn_db r) = Returned (Ok res) r' ∧ ai_Valid res = true ∧
      ai_TotalVerified res = 1%nat.
Proof.
  destruct (call at_noon (AppendAuditLog first_entry) empty_database) as [[log|err] r|r] eqn:E;
    [|by vm_compute in E|by vm_compute in E].
  assert (al_Timestamp log = noon) as Ht.
  { assert (al_Timestamp <$> (match result_of (call at_noon (AppendAuditLog first_entry) empty_database) with
                              | Some (Ok l) => Some l | _ => None end) = Some noon) as H by by vm_compute.
    rewrite E in H. cbn in H. by injection H. }
  destruct (sqlite_append_keeps_chain first_entry at_noon at_noon empty_database log r) as (He & _ & _ & Hv);
    [apply still_env_fair|apply still_env_fair|apply empty_database_ok|done|exact E| | |].
  - constructor.
  - rewrite Ht. by vm_compute.
  - exists log, r. split; [done|]. split; [exact He|exact Hv].
Defined.

Definition two_logged : Database := after (AppendAuditLog second_entry) (after (AppendAuditLog first_entry) empty_database).

Lemma two_logged_ok : db_ok two_logged.
Proof. apply reachable_ok. repeat apply after_reachable; constructor. Qed.

Lemma sqlite_purge_keeps_chain_witness :
  ∃ r, call at_noon (PurgeAuditLogs "shop" (noon + Second)) two_logged = Returned (Ok 1%Z) r ∧
    entries "shop" (rn_db r) = drop 1 (entries "shop" two_logged) ∧
    ∃ res r', call at_noon (VerifyAuditLogIntegrity "shop") (rn_db r) = Returned (Ok res) r' ∧ ai_Valid res = true.
Proof.
  destruct (call at_noon (PurgeAuditLogs "shop" (noon + Second)) two_logged) as [[n|err] r|r] eqn:E;
    [|by vm_compute in E|by vm_compute in E].
  assert (result_of (call at_noon (PurgeAuditLogs "shop" (noon + Second)) two_logged) = Some (Ok 1%Z)) as Hn
    by by vm_compute.
  rewrite E in Hn. injection Hn as ->.
  destruct (sqlite_purge_keeps_chain at_noon at_noon "shop" (noon + Second) two_logged 1 r) as (_ & Hs & _ & Hv);
    [apply still_env_fair|apply still_env_fair|exact two_logged_ok| |exact E|].
  - vm_compute. repeat split.
  - exists r. split; [done|]. split; [|exact Hv].
    change (or_default "shop" DefaultProjectID) with "shop" in Hs.
    assert (length (entries "shop" two_logged) = 2%nat) as Hl by by vm_compute.
    destruct (entries "shop" two_logged) as [|a l]; [done|]. cbn in Hs |- *. by injection Hs.
Defined.
