(* ===== verification/PostgresState.v ===== *)
(** * The Postgres store: its schema ([pkg/store/postgres.go])

    A row holds the fields of the Go struct it is scanned into; the tables with
    JSON columns have rows of their own.  A time is kept as the server keeps it,
    which is a parameter, as are the JSON of Go values and the collation of the
    database.  There is no mutex: [locked] is not used here. *)

From S2P Require Import Prelude GoFloat GoStrings GoTime Sha256 Errors Domain Entities Sql.

(** ** Rows *)

Record PgFlag := mkPgFlag {
  pf_id : string;
  pf_project_id : string;
  pf_key : string;
  pf_config_version : Z;
  pf_name : string;
  pf_description : string;
  pf_type : string;
  pf_tags : list string;
  pf_environments : string;
  pf_created_at : Time;
  pf_updated_at : Time;
}.

#[export] Instance eta_PgFlag : Eta PgFlag :=
  {| eta_expand r := mkPgFlag (pf_id r) (pf_project_id r) (pf_key r) (pf_config_version r) (pf_name r)
       (pf_description r) (pf_type r) (pf_tags r) (pf_environments r) (pf_created_at r)
       (pf_updated_at r) |}.

Record PgAnchor := mkPgAnchor {
  pn_project_id : string;
  pn_anchor_hash : string;
  pn_updated_at : Time;
}.

#[export] Instance eta_PgAnchor : Eta PgAnchor :=
  {| eta_expand r := mkPgAnchor (pn_project_id r) (pn_anchor_hash r) (pn_updated_at r) |}.

(** A change request whose [proposed_config] is a JSON text; the struct holds the
    other columns. *)
Record PgRequest := mkPgRequest {
  pq_request : ChangeRequest;
  pq_proposed_config : string;
}.

#[export] Instance eta_PgRequest : Eta PgRequest :=
  {| eta_expand r := mkPgRequest (pq_request r) (pq_proposed_config r) |}.

Record PgCanary := mkPgCanary {
  py_schedule : CanarySchedule;
  py_stages : string;
  py_guardrails : string;
}.

#[export] Instance eta_PgCanary : Eta PgCanary :=
  {| eta_expand r := mkPgCanary (py_schedule r) (py_stages r) (py_guardrails r) |}.

Record PgDatabase := mkPgDatabase {
  organizations : list Organization;
  projects : list Project;
  users : list User;
  sessions : list Session;
  feature_flags : list PgFlag;
  audit_logs : list AuditLogEntry;
  audit_anchors : list PgAnchor;
  experiment_events : list ExperimentEvent;
  change_requests : list PgRequest;
  api_keys : list APIKey;
  password_reset_tokens : list PasswordResetToken;
  org_members : list OrgMember;
  org_invitations : list OrgInvitation;
  canary_schedules : list PgCanary;
  oidc_configs : list OIDCConfig;
}.

#[export] Instance eta_PgDatabase : Eta PgDatabase :=
  {| eta_expand r := mkPgDatabase (organizations r) (projects r) (users r) (sessions r) (feature_flags r)
       (audit_logs r) (audit_anchors r) (experiment_events r) (change_requests r) (api_keys r)
       (password_reset_tokens r) (org_members r) (org_invitations r) (canary_schedules r)
       (oidc_configs r) |}.

Definition no_tables : PgDatabase := mkPgDatabase [] [] [] [] [] [] [] [] [] [] [] [] [] [] [].

(** ** Keys and references *)

Definition has_org (db : PgDatabase) (id : string) : bool :=
  existsb (λ o, og_ID o =s? id) (organizations db).
Definition has_project (db : PgDatabase) (id : string) : bool :=
  existsb (λ p, pj_ID p =s? id) (projects db).
Definition has_user (db : PgDatabase) (id : string) : bool :=
  existsb (λ u, us_ID u =s? id) (users db).

#[export] Instance pg_orgs : Table PgDatabase Organization := {|
  tb_name := "organizations"; tb_rows := organizations;
  tb_put t db := db <| organizations := t |>;
  tb_clash a b := (og_ID a =s? og_ID b) || (og_Slug a =s? og_Slug b);
  tb_refs _ _ := true;
|}.

#[export] Instance pg_projects : Table PgDatabase Project := {|
  tb_name := "projects"; tb_rows := projects;
  tb_put t db := db <| projects := t |>;
  tb_clash a b := (pj_ID a =s? pj_ID b) ||
    ((pj_OrganizationID a =s? pj_OrganizationID b) && (pj_Slug a =s? pj_Slug b));
  tb_refs db p := has_org db (pj_OrganizationID p);
|}.

#[export] Instance pg_users : Table PgDatabase User := {|
  tb_name := "users"; tb_rows := users;
  tb_put t db := db <| users := t |>;
  tb_clash a b := (us_ID a =s? us_ID b) || (us_Email a =s? us_Email b);
  tb_refs _ _ := true;
|}.

#[export] Instance pg_sessions : Table PgDatabase Session := {|
  tb_name := "sessions"; tb_rows := sessions;
  tb_put t db := db <| sessions := t |>;
  tb_clash a b := ss_Token a =s? ss_Token b;
  tb_refs db s := has_user db (ss_UserID s);
|}.

#[export] Instance pg_flags : Table PgDatabase PgFlag := {|
  tb_name := "feature_flags"; tb_rows := feature_flags;
  tb_put t db := db <| feature_flags := t |>;
  tb_clash a b := (pf_id a =s? pf_id b) ||
    ((pf_project_id a =s? pf_project_id b) && (pf_key a =s? pf_key b));
  tb_refs _ _ := true;
|}.

#[export] Instance pg_audit : Table PgDatabase AuditLogEntry := {|
  tb_name := "audit_logs"; tb_rows := audit_logs;
  tb_put t db := db <| audit_logs := t |>;
  tb_clash a b := al_ID a =s? al_ID b;
  tb_refs _ _ := true;
|}.

#[export] Instance pg_anchors : Table PgDatabase PgAnchor := {|
  tb_name := "audit_anchors"; tb_rows := audit_anchors;
  tb_put t db := db <| audit_anchors := t |>;
  tb_clash a b := pn_project_id a =s? pn_project_id b;
  tb_refs _ _ := true;
|}.

#[export] Instance pg_events : Table PgDatabase ExperimentEvent := {|
  tb_name := "experiment_events"; tb_rows := experiment_events;
  tb_put t db := db <| experiment_events := t |>;
  tb_clash a b := ev_ID a =s? ev_ID b;
  tb_refs _ _ := true;
|}.

#[export] Instance pg_requests : Table PgDatabase PgRequest := {|
  tb_name := "change_requests"; tb_rows := change_requests;
  tb_put t db := db <| change_requests := t |>;
  tb_clash a b := cr_ID (pq_request a) =s? cr_ID (pq_request b);
  tb_refs _ _ := true;
|}.

#[export] Instance pg_keys : Table PgDatabase APIKey := {|
  tb_name := "api_keys"; tb_rows := api_keys;
  tb_put t db := db <| api_keys := t |>;
  tb_clash a b := (ak_ID a =s? ak_ID b) || (ak_KeyHash a =s? ak_KeyHash b);
  tb_refs _ _ := true;
|}.

#[export] Instance pg_resets : Table PgDatabase PasswordResetToken := {|
  tb_name := "password_reset_tokens"; tb_rows := password_reset_tokens;
  tb_put t db := db <| password_reset_tokens := t |>;
  tb_clash a b := pr_Token a =s? pr_Token b;
  tb_refs _ _ := true;
|}.

#[export] Instance pg_members : Table PgDatabase OrgMember := {|
  tb_name := "org_members"; tb_rows := org_members;
  tb_put t db := db <| org_members := t |>;
  tb_clash a b := (om_ID a =s? om_ID b) ||
    ((om_OrganizationID a =s? om_OrganizationID b) && (om_UserID a =s? om_UserID b));
  tb_refs db m := has_org db (om_OrganizationID m) && has_user db (om_UserID m);
|}.

#[export] Instance pg_invitations : Table PgDatabase OrgInvitation := {|
  tb_name := "org_invitations"; tb_rows := org_invitations;
  tb_put t db := db <| org_invitations := t |>;
  tb_clash a b := (iv_ID a =s? iv_ID b) || (iv_Token a =s? iv_Token b);
  tb_refs db i := has_org db (iv_OrganizationID i);
|}.

#[export] Instance pg_canaries : Table PgDatabase PgCanary := {|
  tb_name := "canary_schedules"; tb_rows := canary_schedules;
  tb_put t db := db <| canary_schedules := t |>;
  tb_clash a b := (cs_ProjectID (py_schedule a) =s? cs_ProjectID (py_schedule b)) &&
    (cs_FlagKey (py_schedule a) =s? cs_FlagKey (py_schedule b));
  tb_refs db c := has_project db (cs_ProjectID (py_schedule c));
|}.

#[export] Instance pg_oidc : Table PgDatabase OIDCConfig := {|
  tb_name := "oidc_configs"; tb_rows := oidc_configs;
  tb_put t db := db <| oidc_configs := t |>;
  tb_clash a b := oc_OrganizationID a =s? oc_OrganizationID b;
  tb_refs db c := has_org db (oc_OrganizationID c);
|}.

(** ** What is not defined here *)

Class PostgresLib := {
  (** A time as a TIMESTAMPTZ column gives it back. *)
  pg_time : Time → Time;
  (** The order of texts in the collation of the database. *)
  pg_collate : string → string → bool;
  (** [json.Marshal] as a column, or its error; what is in the variable after
      [json.Unmarshal], and its error. *)
  json_envs : gmap string EnvironmentConfig → result GoError string;
  envs_of : string → gmap string EnvironmentConfig;
  json_proposed : EnvironmentConfig → Z → result GoError string;
  proposed_of : string → EnvironmentConfig;
  proposed_error : string → option GoError;
  base_of_json : string → option Z;
  json_stages : list CanaryStage → result GoError string;
  stages_of : string → list CanaryStage;
  json_guardrails : CanaryGuardrails → result GoError string;
  guardrails_of : string → CanaryGuardrails;
}.

(** TIMESTAMPTZ has microseconds. *)
Class PostgresLaws `{PostgresLib} : Prop := {
  pg_time_micros t : (pg_time t mod 1000 = 0)%Z;
  pg_time_exact t : (t mod 1000 = 0)%Z → pg_time t = t;
}.

Abbreviation Pg := (Sql PgDatabase).

(** [sql.ErrNoRows]. *)
Definition no_rows : GoError := EText "sql: no rows in result set".

(** [fmt.Errorf("text: %w", err)] around the error of an operation. *)
Definition wrapped {A} (text : string) (m : Pg A) : Pg A :=
  res ← attempt m;
  match res with
  | Ok a => mret a
  | Err err => fail (EWrap (text +:+ ": " +:+ Error err) err)
  end.

(** [fmt.Sprintf("prefix_%d_%s", time.Now().UnixNano(), hex)] for an empty
    identifier; the random bytes are read first. *)
Definition id_or_new (id prefix : string) : Pg string :=
  if id =s? "" then h ← random_hex; t ← now; mret (prefix +:+ "_" +:+ Itoa t +:+ "_" +:+ h)
  else mret id.

(** The order of a TIMESTAMPTZ column. *)
Definition earlier {R} (f : R → Time) (a b : R) : bool := (f a <=? f b)%Z.
