(* ===== verification/Postgres.v ===== *)
(** * The Postgres store ([pkg/store/postgres.go])

    Its operations on the schema of [PostgresState], in the sections of the file:
    the audit trail, flags, organizations and projects, users and keys, change
    requests, the other tables, and the store as a whole. *)

From S2P Require Import Prelude GoFloat GoStrings GoTime Sha256 Errors Domain Entities StoreState StoreAudit.
From S2P Require Import StoreFlags StoreGovernance Sql PostgresState.

(** * The audit trail in Postgres ([pkg/store/postgres.go])

    The hash of an entry covers its time to the nanosecond, the column keeps
    microseconds; and the look-up of the last entry is a statement of its own,
    before the one that inserts. *)

Section Audit.
Context `{SqlDriver, PostgresLib}.

(** [ORDER BY timestamp, id]. *)
Definition older_entry (a b : AuditLogEntry) : bool :=
  (al_Timestamp a <? al_Timestamp b)%Z ||
  ((al_Timestamp a =? al_Timestamp b)%Z && pg_collate (al_ID a) (al_ID b)).

Definition in_project (p : string) (a : AuditLogEntry) : bool := al_ProjectID a =s? p.

Definition trail (p : string) (db : PgDatabase) : list AuditLogEntry :=
  order_by older_entry (sql_where (in_project p) (audit_logs db)).

Definition newest (sel : AuditLogEntry → bool) (db : PgDatabase) : list AuditLogEntry :=
  reverse (order_by older_entry (sql_where sel (audit_logs db))).

Definition chain_base (p : string) : Pg string :=
  anchor ← select_one (λ n : PgAnchor, pn_project_id n =s? p);
  mret (match anchor with
        | Some n => if negb (pn_anchor_hash n =s? "") then pn_anchor_hash n else AuditGenesisHash
        | None => AuditGenesisHash
        end).

(** The defaults of an entry. *)
Definition complete_entry (entry : AuditLogEntry) : Pg AuditLogEntry :=
  id ← (if al_ID entry =s? "" then t ← now; mret ("log_" +:+ Itoa t) else mret (al_ID entry));
  ts ← (if IsZero (al_Timestamp entry) then now else mret (al_Timestamp entry));
  mret (entry <| al_ID := id |> <| al_ProjectID := or_default (al_ProjectID entry) DefaultProjectID |>
              <| al_Timestamp := ts |>).

(** The first half of [insertAuditLog]: the hash to link to. *)
Definition read_head (p : string) : Pg string :=
  last ← query_exact (λ db, head (newest (λ a, in_project p a && negb (al_EntryHash a =s? "")) db));
  match last with
  | Some a => mret (al_EntryHash a)
  | None => chain_base p
  end.

Definition linked (prevHash : string) (entry : AuditLogEntry) : AuditLogEntry :=
  let entry := entry <| al_PrevHash := prevHash |> in
  entry <| al_EntryHash := ComputeAuditEntryHash prevHash entry |>.

(** The row of an entry. *)
Definition kept (entry : AuditLogEntry) : AuditLogEntry :=
  entry <| al_Timestamp := pg_time (al_Timestamp entry) |>.

(** The second half: the entry with its hashes is inserted. *)
Definition write_entry (prevHash : string) (entry : AuditLogEntry) : Pg AuditLogEntry :=
  let entry := linked prevHash entry in
  insert_into (kept entry);;
  mret entry.

Definition insertAuditLog (entry : AuditLogEntry) : Pg AuditLogEntry :=
  entry ← complete_entry entry;
  prevHash ← read_head (al_ProjectID entry);
  write_entry prevHash entry.

Definition AppendAuditLog (entry : AuditLogEntry) : Pg AuditLogEntry := insertAuditLog entry.

Definition ListAuditLogsByProject (projectID : string) (limit : Z) : Pg (list AuditLogEntry) :=
  let projectID := or_default projectID DefaultProjectID in
  let limit := if (limit <=? 0)%Z then 100%Z else limit in
  take (Z.to_nat limit) <$> select_by (descending (earlier al_Timestamp)) (in_project projectID).

Definition ListAuditLogs (limit : Z) : Pg (list AuditLogEntry) :=
  ListAuditLogsByProject DefaultProjectID limit.

Definition VerifyAuditLogIntegrity (projectID : string) : Pg AuditIntegrityResult :=
  let projectID := or_default projectID DefaultProjectID in
  chain ← query_exact (trail projectID);
  t ← now;
  match chain with
  | [] => mret (mkIntegrity true 0 "" t "" "")
  | _ => expectedPrev ← chain_base projectID; mret (verify_chain t 0 expectedPrev chain)
  end.

(** The bounds of the query are times; the server compares them as it keeps them. *)
Definition exported (p : string) (from to : option Time) (a : AuditLogEntry) : bool :=
  in_project p a &&
  match from with Some t => (pg_time t <=? al_Timestamp a)%Z | None => true end &&
  match to with Some t => (al_Timestamp a <=? pg_time t)%Z | None => true end.

Definition ExportAuditLogs (projectID : string) (from to : option Time) (limit : Z)
    : Pg (list AuditLogEntry) :=
  let projectID := or_default projectID DefaultProjectID in
  let limit := if (limit <=? 0)%Z || (10000 <? limit)%Z then 10000%Z else limit in
  query_exact (λ db, take (Z.to_nat limit) (newest (exported projectID from to) db)).

Definition purged (p : string) (before : Time) (a : AuditLogEntry) : bool :=
  in_project p a && (al_Timestamp a <? pg_time before)%Z.

Definition PurgeAuditLogs (projectID : string) (before : Time) : Pg Z :=
  let projectID := or_default projectID DefaultProjectID in
  last ← query_exact (λ db, head (newest (purged projectID before) db));
  let lastPurgedHash := default "" (al_EntryHash <$> last) in
  affected ← delete_from (purged projectID before);
  if (0 <? affected)%Z && negb (lastPurgedHash =s? "") then
    t ← now;
    ignore (upsert_into (λ a b, pn_project_id a =s? pn_project_id b)
      (λ excluded old, old <| pn_anchor_hash := pn_anchor_hash excluded |>
                           <| pn_updated_at := pn_updated_at excluded |>)
      (mkPgAnchor projectID lastPurgedHash (pg_time t)));;
    mret affected
  else mret affected.

End Audit.

(** * Flags in Postgres ([pkg/store/postgres.go]) *)

Section Flags.
Context `{SqlDriver, PostgresLib}.

Definition flag_of_row (r : PgFlag) : FeatureFlag :=
  mkFlag (pf_id r) (pf_project_id r) (pf_config_version r) (pf_key r) (pf_name r) (pf_description r)
    (pf_type r) (pf_tags r) (envs_of (pf_environments r)) (pf_created_at r) (pf_updated_at r).

(** ** Reading *)

Definition ListFlagsByProject (projectID : string) : Pg (list FeatureFlag) :=
  let projectID := or_default projectID DefaultProjectID in
  rows ← select_by (descending (earlier pf_created_at)) (λ r, pf_project_id r =s? projectID);
  mret (flag_of_row <$> rows).

Definition ListFlags : Pg (list FeatureFlag) := ListFlagsByProject DefaultProjectID.

(** [project_id = $1 AND (key = $2 OR id = $2)]. *)
Definition flag_row (projectID keyOrID : string) (r : PgFlag) : bool :=
  (pf_project_id r =s? projectID) && ((pf_key r =s? keyOrID) || (pf_id r =s? keyOrID)).

Definition GetFlagByProject (projectID keyOrID : string) : Pg FeatureFlag :=
  let projectID := or_default projectID DefaultProjectID in
  row ← select_one (flag_row projectID keyOrID);
  match row with
  | Some r => mret (flag_of_row r)
  | None => fail no_rows
  end.

Definition GetFlag (keyOrID : string) : Pg FeatureFlag := GetFlagByProject DefaultProjectID keyOrID.

(** ** Writing *)

Definition same_flag (a b : PgFlag) : bool :=
  (pf_project_id a =s? pf_project_id b) && (pf_key a =s? pf_key b).

Definition replace_flag (excluded old : PgFlag) : PgFlag :=
  old <| pf_config_version := (pf_config_version old + 1)%Z |> <| pf_name := pf_name excluded |>
      <| pf_description := pf_description excluded |> <| pf_type := pf_type excluded |>
      <| pf_tags := pf_tags excluded |> <| pf_environments := pf_environments excluded |>
      <| pf_updated_at := pf_updated_at excluded |>.

(** [fmt.Sprintf("log_%d", time.Now().UnixNano())]. *)
Definition log_id : Pg string := (λ t, "log_" +:+ Itoa t) <$> now.

(** A new flag starts at version 1, whatever version it carries. *)
Definition SaveFlag (flag : FeatureFlag) (actor : string) : Pg (option AuditLogEntry) :=
  let actor := or_default actor "developer@flagura.dev" in
  if TrimSpace (ff_ProjectID flag) =s? "" then
    fail (EText "project_id is required to save a feature flag")
  else
    id ← (if ff_ID flag =s? "" then
            h ← random_hex; t ← now; mret ("flag_" +:+ Itoa (t / Second) +:+ "_" +:+ h)
          else mret (ff_ID flag));
    t ← now;
    envsJSON ← wrapped "failed to marshal environments" (lift (json_envs (ff_Environments flag)));
    upsert_into same_flag replace_flag
      (mkPgFlag id (ff_ProjectID flag) (ff_Key flag) 1 (ff_Name flag) (ff_Description flag) (ff_Type flag)
         (ff_Tags flag) envsJSON (pg_time t) (pg_time t));;
    if actor =s? "snapshot_restore" then mret None
    else
      logID ← log_id;
      Some <$> insertAuditLog (mkAudit logID (ff_ProjectID flag) t actor "FLAG_UPDATED" (ff_Key flag) "all"
        ("Saved feature flag '" +:+ ff_Key flag +:+ "'.") "" "").

Definition DeleteFlagByProject (projectID keyOrID actor : string) : Pg AuditLogEntry :=
  let projectID := or_default projectID DefaultProjectID in
  let actor := or_default actor "admin@flagura.dev" in
  f ← GetFlagByProject projectID keyOrID;
  rowsAffected ← delete_from (λ r : PgFlag,
    ((pf_id r =s? keyOrID) || (pf_key r =s? keyOrID)) && (pf_project_id r =s? projectID));
  if (rowsAffected =? 0)%Z then fail (ESentinel ErrFlagNotFound)
  else
    logID ← log_id;
    t ← now;
    insertAuditLog (mkAudit logID projectID t actor "FLAG_DELETED" (ff_Key f) "all"
      ("Deleted feature flag '" +:+ ff_Key f +:+ "' from project '" +:+ projectID +:+ "'.") "" "").

(** [UPDATE feature_flags SET environments = $1, ... WHERE id = $3 AND project_id = $4]. *)
Definition update_environments (projectID : string) (flag : FeatureFlag) (envsJSON : string) : Pg () :=
  update_rows (λ r : PgFlag, (pf_id r =s? ff_ID flag) && (pf_project_id r =s? projectID))
    (λ r, r <| pf_environments := envsJSON |> <| pf_config_version := (pf_config_version r + 1)%Z |>
            <| pf_updated_at := pg_time (ff_UpdatedAt flag) |>);;
  mret ().

Definition ToggleFlagByProject (projectID keyOrID : string) (env : Environment) (enabled : option bool)
    (actor : string) : Pg (FeatureFlag * AuditLogEntry) :=
  let projectID := or_default projectID DefaultProjectID in
  f ← GetFlagByProject projectID keyOrID;
  let cfg := toggled_cfg enabled (EnvConfig f env) in
  t ← now;
  let f := set_env env cfg t f in
  envsJSON ← lift (json_envs (ff_Environments f));
  update_environments projectID f envsJSON;;
  let statusText := if ec_Enabled cfg then "Enabled" else "Disabled (Kill Switch)" in
  logID ← log_id;
  t ← now;
  log ← insertAuditLog (mkAudit logID projectID t actor "KILL_SWITCH_TOGGLED" (ff_Key f) env
    (statusText +:+ " flag for " +:+ env +:+ " environment in project " +:+ projectID +:+ ".") "" "");
  mret (f, log).

Definition UpdateRolloutByProject (projectID keyOrID : string) (env : Environment) (pct : f64)
    (actor : string) : Pg (FeatureFlag * AuditLogEntry) :=
  let projectID := or_default projectID DefaultProjectID in
  f ← GetFlagByProject projectID keyOrID;
  let pct := clamp_pct pct in
  let old := EnvConfig f env in
  t ← now;
  let f := set_env env (rollout_cfg pct old) t f in
  envsJSON ← lift (json_envs (ff_Environments f));
  update_environments projectID f envsJSON;;
  logID ← log_id;
  t ← now;
  log ← insertAuditLog (mkAudit logID projectID t actor "ROLLOUT_CHANGED" (ff_Key f) env
    ("Shifted percentage rollout from " +:+ FormatFixed 0 (ec_Percentage old) +:+ "% to " +:+
     FormatFixed 0 pct +:+ "% in " +:+ env +:+ " for project " +:+ projectID +:+ ".") "" "");
  mret (f, log).

(** The forms without a project are about the default one. *)
Definition DeleteFlag (keyOrID actor : string) : Pg AuditLogEntry :=
  DeleteFlagByProject DefaultProjectID keyOrID actor.

Definition ToggleFlag (keyOrID : string) (env : Environment) (enabled : option bool) (actor : string)
    : Pg (FeatureFlag * AuditLogEntry) :=
  ToggleFlagByProject DefaultProjectID keyOrID env enabled actor.

Definition UpdateRollout (keyOrID : string) (env : Environment) (pct : f64) (actor : string)
    : Pg (FeatureFlag * AuditLogEntry) :=
  UpdateRolloutByProject DefaultProjectID keyOrID env pct actor.

End Flags.

(** * Organizations, projects, members and invitations in Postgres
    ([pkg/store/postgres.go]) *)

Section Tenancy.
Context `{GoRuntime, SqlDriver, PostgresLib}.

(** ** Organizations *)

Definition CreateOrganization (org : Organization) : Pg Organization :=
  id ← id_or_new (og_ID org) "org";
  t ← now;
  let org := org <| og_ID := id |> <| og_Slug := or_default (og_Slug org) id |>
                 <| og_CreatedAt := t |> <| og_UpdatedAt := t |> in
  insert_into (org <| og_CreatedAt := pg_time t |> <| og_UpdatedAt := pg_time t |>);;
  mret org.

Definition GetOrganization (idOrSlug : string) : Pg Organization :=
  row ← select_one (λ o, (og_ID o =s? idOrSlug) || (og_Slug o =s? idOrSlug));
  match row with
  | Some o => mret o
  | None => fail (EText ("organization not found: " +:+ idOrSlug))
  end.

Definition ListOrganizations : Pg (list Organization) := select_by (earlier og_CreatedAt) (λ _, true).

(** [organizations o INNER JOIN org_members m ON o.id = m.organization_id WHERE m.user_id = $1]. *)
Definition orgs_of_member (userID : string) (db : PgDatabase) : list Organization :=
  mbind (M:=list) (λ o, (λ _, o) <$>
    sql_where (λ m, (og_ID o =s? om_OrganizationID m) && (om_UserID m =s? userID)) (org_members db))
    (organizations db).

Definition ListUserOrganizations (userID : string) : Pg (list Organization) :=
  user ← select_one (λ u, us_ID u =s? userID);
  if default "" (us_Role <$> user) =s? RoleAdmin then ListOrganizations
  else order_by (earlier og_CreatedAt) <$> query (orgs_of_member userID).

(** ** Projects *)

Definition CreateProject (project : Project) : Pg Project :=
  if TrimSpace (pj_OrganizationID project) =s? "" then
    fail (EText "organization_id is required to create a project")
  else
    id ← id_or_new (pj_ID project) "proj";
    t ← now;
    let project := project <| pj_ID := id |> <| pj_Slug := or_default (pj_Slug project) id |>
                           <| pj_CreatedAt := t |> <| pj_UpdatedAt := t |> in
    insert_into (project <| pj_ConfigVersion := 1%Z |> <| pj_CreatedAt := pg_time t |>
                         <| pj_UpdatedAt := pg_time t |>);;
    mret project.

(** [config_version] is not among the columns read. *)
Definition project_of_row (p : Project) : Project := p <| pj_ConfigVersion := 0%Z |>.

Definition GetProject (idOrSlug : string) : Pg Project :=
  row ← select_one (λ p, (pj_ID p =s? idOrSlug) || (pj_Slug p =s? idOrSlug));
  match row with
  | Some p => mret (project_of_row p)
  | None => fail (EText ("project not found: " +:+ idOrSlug))
  end.

Definition ListProjects (organizationID : string) : Pg (list Project) :=
  rows ← select_by (earlier pj_CreatedAt)
    (λ p, (organizationID =s? "") || (pj_OrganizationID p =s? organizationID));
  mret (project_of_row <$> rows).

(** ** Members *)

Definition same_member (a b : OrgMember) : bool :=
  (om_OrganizationID a =s? om_OrganizationID b) && (om_UserID a =s? om_UserID b).

Definition CreateOrgMember (member : OrgMember) : Pg OrgMember :=
  id ← id_or_new (om_ID member) "mem";
  t ← now;
  let member := member <| om_ID := id |> <| om_Role := or_default (om_Role member) "developer" |>
    <| om_CreatedAt := if IsZero (om_CreatedAt member) then t else om_CreatedAt member |> in
  upsert_into same_member (λ excluded old, old <| om_Role := om_Role excluded |>)
    (member <| om_CreatedAt := pg_time (om_CreatedAt member) |>);;
  mret member.

Definition GetOrgMember (organizationID userID : string) : Pg OrgMember :=
  row ← select_one (λ m, (om_OrganizationID m =s? organizationID) && (om_UserID m =s? userID));
  match row with
  | Some m => mret m
  | None => fail (ESentinel ErrNotFound)
  end.

Definition ListOrgMembers (organizationID : string) : Pg (list OrgMember) :=
  select_by (earlier om_CreatedAt) (λ m, om_OrganizationID m =s? organizationID).

(** ** Invitations *)

Definition CreateOrgInvitation (inv : OrgInvitation) : Pg OrgInvitation :=
  id ← id_or_new (iv_ID inv) "inv";
  token ← (if iv_Token inv =s? "" then (λ h, "inv_" +:+ h) <$> random_hex else mret (iv_Token inv));
  t ← now;
  let inv := inv <| iv_ID := id |> <| iv_Token := token |>
    <| iv_CreatedAt := if IsZero (iv_CreatedAt inv) then t else iv_CreatedAt inv |>
    <| iv_ExpiresAt := if IsZero (iv_ExpiresAt inv) then time_add t (7 * 24 * Hour)%Z else iv_ExpiresAt inv |>
    <| iv_Role := or_default (iv_Role inv) "developer" |> in
  insert_into (inv <| iv_ExpiresAt := pg_time (iv_ExpiresAt inv) |>
                   <| iv_CreatedAt := pg_time (iv_CreatedAt inv) |> <| iv_AcceptedAt := None |>);;
  mret inv.

Definition GetOrgInvitation (token : string) : Pg OrgInvitation :=
  row ← select_one (λ i, iv_Token i =s? token);
  match row with
  | None => fail (EText "invitation not found")
  | Some inv =>
      t ← now;
      if Invitation_IsExpired t inv then fail (EText "invitation has expired") else mret inv
  end.

Definition AcceptOrgInvitation (token userID : string) : Pg OrgMember :=
  inv ← GetOrgInvitation token;
  match iv_AcceptedAt inv with
  | Some _ => fail (EText "invitation already accepted")
  | None =>
    user ← select_one (λ u, us_ID u =s? userID);
    let userEmail := default "" (us_Email <$> user) in
    if negb (userEmail =s? "") && negb (iv_Email inv =s? "") && negb (EqualFold userEmail (iv_Email inv))
    then fail (EText ("invitation was issued for " +:+ iv_Email inv +:+ ", but accepted by " +:+ userEmail))
    else
      t ← now;
      update_rows (λ i, iv_Token i =s? token) (λ i, i <| iv_AcceptedAt := Some (pg_time t) |>);;
      h ← random_hex;
      CreateOrgMember (mkMember ("mem_" +:+ Itoa t +:+ "_" +:+ h) (iv_OrganizationID inv) userID (iv_Role inv) t)
  end.

Definition ListOrgInvitations (organizationID : string) : Pg (list OrgInvitation) :=
  select_by (descending (earlier iv_CreatedAt)) (λ i, iv_OrganizationID i =s? organizationID).

End Tenancy.

(** * Users, sessions, password resets and API keys in Postgres
    ([pkg/store/postgres.go]) *)

Section Identity.
Context `{SqlDriver, PostgresLib}.

(** ** Users *)

Definition CreateUser (user : User) : Pg User :=
  id ← id_or_new (us_ID user) "usr";
  t ← now;
  let user := user <| us_ID := id |> <| us_CreatedAt := t |> <| us_UpdatedAt := t |> in
  wrapped "failed to insert user" (insert_into (user <| us_CreatedAt := pg_time t |>
    <| us_UpdatedAt := pg_time t |> <| us_ActiveMembership := None |>));;
  mret user.

(** The hash of the password is not read. *)
Definition ListUsers : Pg (list User) :=
  rows ← select_by (earlier us_CreatedAt) (λ _, true);
  mret ((λ u, u <| us_PasswordHash := "" |>) <$> rows).

Definition GetUserByEmail (email : string) : Pg User :=
  row ← select_one (λ u, us_Email u =s? email);
  match row with
  | Some u => mret u
  | None => fail (EText ("user not found with email: " +:+ email))
  end.

Definition no_user_with_id (id : string) : GoError := EText ("user not found with ID: " +:+ id).

Definition GetUserByID (id : string) : Pg User :=
  row ← select_one (λ u, us_ID u =s? id);
  match row with
  | Some u => mret u
  | None => fail (no_user_with_id id)
  end.

Definition UpdateUser (user : User) : Pg User :=
  t ← now;
  rowsAffected ← wrapped "failed to update user" (update_rows (λ u : User, us_ID u =s? us_ID user)
    (λ u, u <| us_Name := us_Name user |> <| us_AvatarURL := us_AvatarURL user |>
            <| us_UpdatedAt := pg_time t |>));
  if (rowsAffected =? 0)%Z then fail (no_user_with_id (us_ID user)) else GetUserByID (us_ID user).

Definition UpdateUserPassword (userID newPasswordHash : string) : Pg () :=
  t ← now;
  rowsAffected ← wrapped "failed to update user password" (update_rows (λ u : User, us_ID u =s? userID)
    (λ u, u <| us_PasswordHash := newPasswordHash |> <| us_UpdatedAt := pg_time t |>));
  if (rowsAffected =? 0)%Z then fail (no_user_with_id userID) else mret ().

(** ** Sessions *)

Definition CreateSession (session : Session) : Pg () :=
  t ← now;
  wrapped "failed to create session" (insert_into (session <| ss_CreatedAt := pg_time t |>
    <| ss_ExpiresAt := pg_time (ss_ExpiresAt session) |> <| ss_User := None |>));;
  mret ().

Definition DeleteSession (token : string) : Pg () :=
  delete_from (λ s, ss_Token s =s? token);; mret ().

Definition DeleteUserSessions (userID : string) : Pg () :=
  delete_from (λ s, ss_UserID s =s? userID);; mret ().

(** A session with less than two days left is prolonged by seven. *)
Definition GetSession (token : string) : Pg Session :=
  row ← select_one (λ s, ss_Token s =s? token);
  match row with
  | None => fail (EText "session not found")
  | Some sess =>
      t ← now;
      if Session_IsExpired t sess then ignore (DeleteSession token);; fail (EText "session expired")
      else
        t ← now;
        sess ← (if (time_sub (ss_ExpiresAt sess) t <? 48 * Hour)%Z then
                  t ← now;
                  let newExp := time_add t (7 * 24 * Hour)%Z in
                  ignore (update_rows (λ s, ss_Token s =s? token) (λ s, s <| ss_ExpiresAt := pg_time newExp |>));;
                  mret (sess <| ss_ExpiresAt := newExp |>)
                else mret sess);
        user ← attempt (GetUserByID (ss_UserID sess));
        mret (sess <| ss_User := match user with Ok u => Some u | Err _ => None end |>)
  end.

(** ** Password resets *)

Definition CreatePasswordResetToken (email : string) (ttl : Duration) : Pg string :=
  count ← query_exact (λ db, length (sql_where (λ u, us_Email u =s? email) (users db)));
  if (count =? 0)%nat then fail (EText ("user not found with email: " +:+ email))
  else
    h ← random_hex;
    t ← now;
    let token := "flg_rst_" +:+ h in
    insert_into (mkResetToken token email (pg_time (time_add t ttl)) false (pg_time t));;
    mret token.

Definition GetPasswordResetToken (token : string) : Pg PasswordResetToken :=
  row ← select_one (λ r, pr_Token r =s? token);
  match row with
  | Some t => mret t
  | None => fail (EText "invalid or expired password reset token")
  end.

(** [DELETE FROM sessions WHERE user_id IN (SELECT id FROM users WHERE email = $1)]. *)
Definition delete_sessions_of (email : string) : Pg Z := exec (λ db,
  let '(t, n) := sql_delete (λ s, existsb (λ u, (us_ID u =s? ss_UserID s) && (us_Email u =s? email)) (users db))
                   (sessions db) in
  Ok (db <| sessions := t |>, n)).

Definition ResetPasswordWithToken (token newPasswordHash : string) : Pg () :=
  t ← GetPasswordResetToken token;
  if pr_Used t then fail (EText "reset token has already been used")
  else
    n ← now;
    if ResetToken_IsExpired n t then fail (EText "reset token has expired")
    else transaction (
      n ← now;
      rowsAffected ← update_rows (λ u : User, us_Email u =s? pr_Email t)
        (λ u, u <| us_PasswordHash := newPasswordHash |> <| us_UpdatedAt := pg_time n |>);
      if (rowsAffected =? 0)%Z then fail (EText ("user not found for email: " +:+ pr_Email t))
      else
        update_rows (λ r, pr_Token r =s? token) (λ r, r <| pr_Used := true |>);;
        ignore (delete_sessions_of (pr_Email t))).

(** ** API keys *)

Definition CreateAPIKey (key : APIKey) : Pg APIKey :=
  id ← id_or_new (ak_ID key) "key";
  t ← now;
  let key := key <| ak_ID := id |> <| ak_ProjectID := or_default (ak_ProjectID key) DefaultProjectID |>
    <| ak_Environment := or_default (ak_Environment key) "production" |>
    <| ak_CreatedAt := t |> <| ak_Revoked := false |> in
  insert_into (key <| ak_Key := "" |> <| ak_CreatedAt := pg_time t |> <| ak_LastUsedAt := None |>);;
  mret key.

(** [key_hash] is not read by the lists, and cleared by [GetAPIKeyByID]. *)
Definition without_hash (k : APIKey) : APIKey := k <| ak_KeyHash := "" |>.

Definition ListAPIKeys : Pg (list APIKey) :=
  rows ← select_by (descending (earlier ak_CreatedAt)) (λ _, true);
  mret (without_hash <$> rows).

Definition ListAPIKeysByProject (projectID : string) : Pg (list APIKey) :=
  let projectID := or_default projectID DefaultProjectID in
  rows ← select_by (descending (earlier ak_CreatedAt))
    (λ k, (ak_ProjectID k =s? projectID) && negb (ak_Revoked k));
  mret (without_hash <$> rows).

Definition GetAPIKeyByHash (hash : string) : Pg APIKey :=
  row ← select_one (λ k, (ak_KeyHash k =s? hash) && negb (ak_Revoked k));
  match row with
  | None => fail no_rows
  | Some k =>
      t ← now;
      ignore (update_rows (λ k', ak_ID k' =s? ak_ID k) (λ k', k' <| ak_LastUsedAt := Some (pg_time t) |>));;
      mret (k <| ak_LastUsedAt := Some t |>)
  end.

Definition GetAPIKeyByID (id : string) : Pg APIKey :=
  row ← select_one (λ k, ak_ID k =s? id);
  match row with
  | Some k => mret (without_hash k)
  | None => fail no_rows
  end.

Definition revoke (k : APIKey) : APIKey := k <| ak_Revoked := true |>.

Definition audit_revocation (projectID actor details : string) : Pg () :=
  t ← now;
  t' ← now;
  ignore (insertAuditLog (mkAudit ("audit_" +:+ Itoa t) projectID t' actor "API_KEY_REVOKED" "api-keys" "all"
    details "" "")).

Definition RevokeAPIKey (id actor : string) : Pg () :=
  update_rows (λ k, ak_ID k =s? id) revoke;;
  audit_revocation DefaultProjectID actor ("Revoked API Key " +:+ id).

Definition RevokeAPIKeyByProject (projectID id actor : string) : Pg () :=
  rows ← update_rows (λ k, (ak_ID k =s? id) && (ak_ProjectID k =s? projectID)) revoke;
  if (rows =? 0)%Z then fail (EText ("api key not found or not in project: " +:+ id))
  else audit_revocation projectID actor ("Revoked API Key " +:+ id +:+ " in project " +:+ projectID).

End Identity.

(** * Change requests in Postgres ([pkg/store/postgres.go]) *)

Section Governance.
Context `{SqlDriver, PostgresLib}.

Definition base_version (json : string) : Z :=
  match base_of_json json with Some v => if (0 <? v)%Z then v else 0%Z | None => 0%Z end.

Definition request_of_row (r : PgRequest) : ChangeRequest :=
  pq_request r <| cr_ProposedConfig := proposed_of (pq_proposed_config r) |>
               <| cr_BaseConfigVersion := base_version (pq_proposed_config r) |>.

(** [ListChangeRequestsByProject] does not read the base version. *)
Definition listed_request (r : PgRequest) : ChangeRequest :=
  pq_request r <| cr_ProposedConfig := proposed_of (pq_proposed_config r) |>
               <| cr_BaseConfigVersion := 0%Z |>.

Definition CreateChangeRequest (cr : ChangeRequest) : Pg ChangeRequest :=
  t ← now;
  id ← (if cr_ID cr =s? "" then (λ h, "cr_" +:+ Itoa t +:+ "_" +:+ h) <$> random_hex else mret (cr_ID cr));
  let cr := cr <| cr_ID := id |> <| cr_Status := ChangeRequestStatusPending |> <| cr_CreatedAt := t |>
               <| cr_ProjectID := or_default (cr_ProjectID cr) DefaultProjectID |> in
  cfg ← wrapped "failed to serialize proposed config"
    (lift (json_proposed (cr_ProposedConfig cr) (cr_BaseConfigVersion cr)));
  insert_into (mkPgRequest (cr <| cr_CreatedAt := pg_time t |> <| cr_ReviewerUserID := "" |>
    <| cr_ReviewerEmail := "" |> <| cr_ReviewerName := "" |> <| cr_ReviewComments := "" |>
    <| cr_ReviewedAt := None |> <| cr_AppliedAt := None |>) cfg);;
  mret cr.

Definition GetChangeRequest (id : string) : Pg ChangeRequest :=
  row ← select_one (λ r, cr_ID (pq_request r) =s? id);
  match row with
  | None => fail no_rows
  | Some r =>
      match proposed_error (pq_proposed_config r) with
      | Some err => fail err
      | None => mret (request_of_row r)
      end
  end.

Definition newest_request : PgRequest → PgRequest → bool :=
  descending (earlier (λ r, cr_CreatedAt (pq_request r))).

(** Without a project: the requests of all projects. *)
Definition ListChangeRequests (status : ChangeRequestStatus) : Pg (list ChangeRequest) :=
  rows ← select_by newest_request (λ r, (status =s? "") || (cr_Status (pq_request r) =s? status));
  mret (request_of_row <$> rows).

Definition ListChangeRequestsByProject (projectID : string) (status : ChangeRequestStatus)
    : Pg (list ChangeRequest) :=
  let projectID := or_default projectID DefaultProjectID in
  rows ← select_by newest_request (λ r, (cr_ProjectID (pq_request r) =s? projectID) &&
    ((status =s? "") || (cr_Status (pq_request r) =s? status)));
  mret (listed_request <$> rows).

Definition write_review (cr : ChangeRequest) (t : Time) (r : PgRequest) : PgRequest :=
  r <| pq_request := pq_request r <| cr_Status := cr_Status cr |> <| cr_ReviewerUserID := cr_ReviewerUserID cr |>
       <| cr_ReviewerEmail := cr_ReviewerEmail cr |> <| cr_ReviewerName := cr_ReviewerName cr |>
       <| cr_ReviewComments := cr_ReviewComments cr |> <| cr_ReviewedAt := Some (pg_time t) |> |>.

Definition ReviewChangeRequest (id reviewerID reviewerEmail reviewerName : string) (approved : bool)
    (comments : string) : Pg ChangeRequest :=
  cr ← GetChangeRequest id;
  t ← now;
  cr ← lift (Review t cr reviewerID reviewerEmail reviewerName approved comments);
  update_rows (λ r, cr_ID (pq_request r) =s? id) (write_review cr t);;
  mret cr.

Definition write_applied (t : Time) (r : PgRequest) : PgRequest :=
  r <| pq_request := pq_request r <| cr_Status := ChangeRequestStatusApplied |>
                                  <| cr_AppliedAt := Some (pg_time t) |> |>.

(** The flag is saved as a whole, in a statement that does not look at its version
    again. *)
Definition ApplyChangeRequest (id actor : string)
    : Pg (FeatureFlag * ChangeRequest * option AuditLogEntry) :=
  cr ← GetChangeRequest id;
  if negb (cr_Status cr =s? ChangeRequestStatusApproved) then
    fail (EText ("cannot apply change request with status '" +:+ cr_Status cr +:+
                 "' (must be APPROVED)"))
  else
    let cr := cr <| cr_ProjectID := or_default (cr_ProjectID cr) DefaultProjectID |> in
    flag ← GetFlagByProject (cr_ProjectID cr) (cr_FlagKey cr);
    if version_conflict cr flag then fail (ESentinel ErrChangeRequestConflict)
    else
      t ← now;
      let flag := flag <| ff_Environments := <[cr_Environment cr := cr_ProposedConfig cr]> (ff_Environments flag) |>
        <| ff_ProjectID := or_default (ff_ProjectID flag) (cr_ProjectID cr) |> <| ff_UpdatedAt := t |> in
      audit ← SaveFlag flag actor;
      t ← now;
      let cr := cr <| cr_Status := ChangeRequestStatusApplied |> <| cr_AppliedAt := Some t |> in
      ignore (update_rows (λ r, cr_ID (pq_request r) =s? id) (write_applied t));;
      mret (flag, cr, audit).

End Governance.

(** * Experiment events, canary schedules and OIDC configurations in Postgres
    ([pkg/store/postgres.go]) *)

(** ** Experiment events *)

Section Events.
Context `{SqlDriver, PostgresLib}.

Definition complete_event (ev : ExperimentEvent) : Pg ExperimentEvent :=
  id ← id_or_new (ev_ID ev) "evt";
  t ← (if IsZero (ev_Timestamp ev) then now else mret (ev_Timestamp ev));
  mret (ev <| ev_ID := id |> <| ev_ProjectID := or_default (ev_ProjectID ev) DefaultProjectID |>
           <| ev_Timestamp := pg_time t |> <| ev_EventType := or_default (ev_EventType ev) "conversion" |>
           <| ev_Environment := or_default (ev_Environment ev) EnvProduction |>).

Definition RecordExperimentEvents (events : list ExperimentEvent) : Pg () :=
  match events with
  | [] => mret ()
  | _ => transaction (for_each (λ ev, ev ← complete_event ev; insert_into ev;; mret ()) events)
  end.

Definition event_limit (limit : Z) : nat := Z.to_nat (if (limit <=? 0)%Z then 1000%Z else limit).

Definition GetExperimentEvents (flagKey : string) (limit : Z) : Pg (list ExperimentEvent) :=
  take (event_limit limit) <$> select_by (descending (earlier ev_Timestamp))
    (λ ev, (flagKey =s? "") || (ev_FlagKey ev =s? flagKey)).

Definition GetExperimentEventsByProject (projectID flagKey : string) (limit : Z)
    : Pg (list ExperimentEvent) :=
  let projectID := or_default projectID DefaultProjectID in
  take (event_limit limit) <$> select_by (descending (earlier ev_Timestamp))
    (λ ev, (ev_ProjectID ev =s? projectID) && ((flagKey =s? "") || (ev_FlagKey ev =s? flagKey))).

End Events.

(** ** Canary schedules *)

Section Canary.
Context `{SqlDriver, PostgresLib}.

Definition scanCanarySchedule (r : PgCanary) : CanarySchedule :=
  py_schedule r <| cs_Stages := stages_of (py_stages r) |>
                <| cs_Guardrails := guardrails_of (py_guardrails r) |>.

Definition same_canary (a b : PgCanary) : bool :=
  (cs_ProjectID (py_schedule a) =s? cs_ProjectID (py_schedule b)) &&
  (cs_FlagKey (py_schedule a) =s? cs_FlagKey (py_schedule b)).

(** The identifier, the environment and the time of creation stay. *)
Definition replace_canary (excluded old : PgCanary) : PgCanary :=
  let x := py_schedule excluded in
  mkPgCanary (py_schedule old <| cs_Status := cs_Status x |> <| cs_CurrentStageIdx := cs_CurrentStageIdx x |>
      <| cs_RollbackReason := cs_RollbackReason x |> <| cs_UpdatedAt := cs_UpdatedAt x |>
      <| cs_LastEvaluatedAt := cs_LastEvaluatedAt x |>)
    (py_stages excluded) (py_guardrails excluded).

Definition SaveCanarySchedule (sched : CanarySchedule) : Pg () :=
  t ← now;
  id ← (if cs_ID sched =s? "" then (λ h, "canary_" +:+ Itoa t +:+ "_" +:+ h) <$> random_hex
        else mret (cs_ID sched));
  let or_now x := if IsZero x then t else x in
  stages ← wrapped "failed to marshal canary stages" (lift (json_stages (cs_Stages sched)));
  guardrails ← wrapped "failed to marshal canary guardrails" (lift (json_guardrails (cs_Guardrails sched)));
  upsert_into same_canary replace_canary
    (mkPgCanary (sched <| cs_ID := id |> <| cs_ProjectID := or_default (cs_ProjectID sched) DefaultProjectID |>
       <| cs_CreatedAt := pg_time (or_now (cs_CreatedAt sched)) |> <| cs_UpdatedAt := pg_time t |>
       <| cs_LastEvaluatedAt := pg_time (or_now (cs_LastEvaluatedAt sched)) |>) stages guardrails);;
  mret ().

Definition GetCanarySchedule (projectID flagKey : string) : Pg (option CanarySchedule) :=
  let projectID := or_default projectID DefaultProjectID in
  row ← select_one (λ r, (cs_ProjectID (py_schedule r) =s? projectID) &&
                         (cs_FlagKey (py_schedule r) =s? flagKey));
  mret (scanCanarySchedule <$> row).

Definition ListActiveCanarySchedules : Pg (list CanarySchedule) :=
  rows ← select (λ r, cs_Status (py_schedule r) =s? CanaryStatusActive);
  mret (scanCanarySchedule <$> rows).

Definition ListCanarySchedulesByProject (projectID : string) : Pg (list CanarySchedule) :=
  let projectID := or_default projectID DefaultProjectID in
  rows ← select (λ r, cs_ProjectID (py_schedule r) =s? projectID);
  mret (scanCanarySchedule <$> rows).

Definition DeleteCanarySchedule (projectID flagKey : string) : Pg () :=
  let projectID := or_default projectID DefaultProjectID in
  delete_from (λ r, (cs_ProjectID (py_schedule r) =s? projectID) && (cs_FlagKey (py_schedule r) =s? flagKey));;
  mret ().

End Canary.

(** ** OIDC configurations *)

Section OIDC.
Context `{GoRuntime, SqlDriver, PostgresLib}.

Definition replace_oidc (excluded old : OIDCConfig) : OIDCConfig :=
  excluded <| oc_OrganizationID := oc_OrganizationID old |> <| oc_CreatedAt := oc_CreatedAt old |>.

Definition SaveOIDCConfig (cfg : OIDCConfig) : Pg () :=
  if oc_OrganizationID cfg =s? "" then fail (EText "organization_id is required")
  else
    t ← now;
    upsert_into (λ a b, oc_OrganizationID a =s? oc_OrganizationID b) replace_oidc
      (cfg <| oc_CreatedAt := pg_time (if IsZero (oc_CreatedAt cfg) then t else oc_CreatedAt cfg) |>
           <| oc_UpdatedAt := pg_time t |>
           <| oc_DefaultRole := or_default (oc_DefaultRole cfg) "developer" |>);;
    mret ().

Definition GetOIDCConfig (organizationID : string) : Pg (option OIDCConfig) :=
  select_one (λ c, oc_OrganizationID c =s? organizationID).

Definition GetOIDCConfigByDomain (emailDomain : string) : Pg (option OIDCConfig) :=
  let cleanDomain := ToLower (TrimPrefix (TrimSpace emailDomain) "@") in
  if cleanDomain =s? "" then mret None
  else
    rows ← select oc_Enabled;
    mret (snd <$> list_find (λ cfg, IsDomainAllowed (Some cfg) ("probe@" +:+ cleanDomain) = true) rows).

Definition DeleteOIDCConfig (organizationID : string) : Pg () :=
  delete_from (λ c, oc_OrganizationID c =s? organizationID);; mret ().

End OIDC.

(** * The Postgres store as a whole ([pkg/store/postgres.go])

    The name of the driver, the migration with its seed rows, and the reset. *)

Definition detectDriverName `{GoRuntime} (databaseURL : string) : string :=
  let lower := ToLower databaseURL in
  if Contains lower "supabase.co" || Contains lower "supabase.com" then "Supabase PostgreSQL"
  else if Contains lower "neon.tech" then "Neon PostgreSQL"
  else if Contains lower "rds.amazonaws.com" then "AWS RDS PostgreSQL"
  else if Contains lower "localhost" || Contains lower "127.0.0.1" || Contains lower "postgres:5432"
  then "Local PostgreSQL"
  else "PostgreSQL".

Definition DriverName (driverName : string) : string :=
  if negb (driverName =s? "") then driverName else "PostgreSQL".

Section Store.
Context `{SqlDriver, PostgresLib}.

(** [INSERT ... ON CONFLICT (id) DO NOTHING]: only for the identifier. *)
Definition insert_unless {R} `{Table PgDatabase R} (same : R → R → bool) (row : R) : Pg Z :=
  exists_ ← query_exact (λ db, existsb (same row) (tb_rows db));
  if (exists_ : bool) then mret 0%Z else insert_into row.

Definition seed_org (t : Time) : Organization :=
  mkOrg "org_default" "Default Organization" "default-org" "Primary workspace organization" t t.

Definition seed_project (t : Time) : Project :=
  mkProject "proj_default" "org_default" 1 "Default Project" "default-project" "Primary feature flag project" t t.

(** The tables are created when they are missing; the script is one implicit
    transaction, with one NOW for all its rows. *)
Definition autoMigrate : Pg () := transaction (
  t ← now;
  insert_unless (λ a b, og_ID a =s? og_ID b) (seed_org (pg_time t));;
  insert_unless (λ a b, pj_ID a =s? pj_ID b) (seed_project (pg_time t));;
  mret ()).

(** [NewPostgresStore], connected. *)
Definition NewPostgresStore : Pg () := wrapped "auto-migration failed" autoMigrate.

(** [TRUNCATE feature_flags, audit_logs, audit_anchors]; its error is ignored. *)
Definition Reset : Pg () :=
  ignore (exec (λ db, Ok (db <| feature_flags := [] |> <| audit_logs := [] |> <| audit_anchors := [] |>, 0%Z)));;
  autoMigrate.

End Store.
