(* ===== verification/PostgresFacts.v ===== *)
(** * The Postgres store: theorems and examples *)

From S2P Require Import Prelude GoFloat GoStrings GoTime Sha256 Errors Domain Entities StoreState StoreAudit.
From S2P Require Import Sql PostgresState Postgres.

(** * The Postgres store: what its theorems show

    A trail whose times are whole microseconds is kept linked by [insertAuditLog].
    A finer time is rounded by the column after it was hashed, and two appends
    whose look-ups come before both inserts are linked to the same entry: neither
    trail verifies any more.  A reset of a password is one transaction, after
    which the token is used and the sessions of the account are gone. *)

(** ** Chains *)

(** The hashes the entries of a chain are linked to: its start, and every hash but
    the last. *)
Lemma chained_prevs base l :
  chained base l → al_PrevHash <$> l = take (length l) (base :: (al_EntryHash <$> l)).
Proof.
  revert base. induction l as [|a l IH]; intros base; [done|].
  cbn [chained]. intros (Hp & _ & Hc). cbn. f_equal; [done|]. by apply IH.
Qed.

Lemma chained_sealed base l a :
  chained base l → a ∈ l → al_EntryHash a = ComputeAuditEntryHash (al_PrevHash a) a.
Proof.
  revert base. induction l as [|b l IH]; intros base; [by intros _ ?%not_elem_of_nil|].
  cbn [chained]. intros (Hp & Hh & Hc) [->|Ha]%elem_of_cons; [by rewrite Hp|by eapply IH].
Qed.

(** Two entries linked to the same hash: a hash occurs twice. *)
Lemma forked_chain base l a b :
  chained base l → a ∈ l → b ∈ l → a ≠ b → al_PrevHash a = al_PrevHash b →
  ¬ NoDup (base :: (al_EntryHash <$> l)).
Proof.
  intros Hc Ha Hb Hab Hp Hnd.
  assert (NoDup (al_PrevHash <$> l)) as Hnd'.
  { rewrite (chained_prevs base) by done. rewrite <- (take_drop (length l) (base :: _)) in Hnd.
    by apply NoDup_app in Hnd as [? _]. }
  apply list_elem_of_lookup in Ha as [i Hi]. apply list_elem_of_lookup in Hb as [j Hj].
  destruct (decide (i = j)) as [->|Hij]; [congruence|]. apply Hij.
  apply (NoDup_lookup (al_PrevHash <$> l) i j (al_PrevHash a)); [done|by rewrite list_lookup_fmap, Hi|].
  by rewrite list_lookup_fmap, Hj, Hp.
Qed.

(** ** Appending *)

Section Audit.
Context `{SqlDriver, PostgresLib}.

(** What the first entry of a trail is linked to. *)
Definition base_of (p : string) (db : PgDatabase) : string :=
  match filter (λ n, (pn_project_id n =s? p) = true) (audit_anchors db) with
  | n :: _ => if negb (pn_anchor_hash n =s? "") then pn_anchor_hash n else AuditGenesisHash
  | [] => AuditGenesisHash
  end.

(** One anchor per project. *)
Definition anchors_unique (db : PgDatabase) : Prop :=
  unique_rows (tb_clash (Db:=PgDatabase)) (audit_anchors db).

Definition trail_ok (p : string) (db : PgDatabase) : Prop := chained (base_of p db) (trail p db).

Lemma elem_of_trail p db a : a ∈ trail p db ↔ al_ProjectID a = p ∧ a ∈ audit_logs db.
Proof.
  unfold trail. rewrite elem_of_order_by, elem_of_where. unfold in_project. by rewrite str_eqb_eq.
Qed.

Lemma pg_chain_base_value p e (r : Run PgDatabase) :
  fair_scan e → anchors_unique (rn_db r) →
  ∃ r', chain_base p e r = Returned (Ok (base_of p (rn_db r))) r' ∧ rn_db r' = rn_db r.
Proof.
  intros He Hu. unfold chain_base.
  destruct (select_one (λ n : PgAnchor, pn_project_id n =s? p) e r) as [[o|]|] eqn:E; [|done..].
  destruct (select_one_found _ _ _ _ _ He E) as (Hdb & _ & Ho). rewrite (bind_ok _ _ _ _ _ _ E).
  eexists. split; [|exact Hdb]. unfold mret, sql_ret. do 2 f_equal. unfold base_of.
  destruct (filter _ (audit_anchors (rn_db r))) as [|n l] eqn:F.
  - destruct o as [x|]; [|done]. destruct Ho as [Hx Hp].
    assert (x ∈ @nil PgAnchor) as []%not_elem_of_nil. rewrite <- F. by apply list_elem_of_filter.
  - assert (n ∈ audit_anchors (rn_db r) ∧ (pn_project_id n =s? p) = true) as [Hn Hp].
    { apply and_comm, (list_elem_of_filter (λ n, (pn_project_id n =s? p) = true)). rewrite F. by left. }
    destruct o as [x|]; [|by rewrite (Ho n Hn) in Hp]. destruct Ho as [Hx Hpx].
    assert (x = n) as ->; [|done]. apply (unique_lookup (tb_clash (Db:=PgDatabase))) with (audit_anchors (rn_db r)).
    + intros a b. cbn. apply str_eqb_sym.
    + exact Hu.
    + done.
    + done.
    + cbn. apply str_eqb_eq. apply str_eqb_eq in Hp, Hpx. congruence.
Qed.

Lemma complete_entry_inv entry e r entry' r' :
  complete_entry entry e r = Returned (Ok entry') r' →
  rn_db r' = rn_db r ∧ al_ProjectID entry' = or_default (al_ProjectID entry) DefaultProjectID.
Proof.
  intros (id & r1 & E1 & (ts & r2 & E2 & [<- ->]%ret_inv)%bind_inv)%bind_inv.
  split; [|done]. assert (rn_db r2 = rn_db r1) as ->.
  { destruct (IsZero _); [by injection E2 as _ <-|by apply ret_inv in E2 as [_ ->]]. }
  destruct (al_ID entry =s? ""); [by injection E1 as _ <-|by apply ret_inv in E1 as [_ ->]].
Qed.

(** What an append puts in the table: a new row, linked and sealed before its time
    was rounded. *)
Lemma write_entry_inv prev entry e r log r' :
  write_entry prev entry e r = Returned (Ok log) r' →
  log = linked prev entry ∧ rn_db r' = rn_db r <| audit_logs := audit_logs (rn_db r) ++ [kept log] |> ∧
  Forall (λ a, al_ID a ≠ al_ID log) (audit_logs (rn_db r)).
Proof.
  unfold write_entry. cbv zeta. intros (n & r1 & Hrow & [<- ->]%ret_inv)%bind_inv. split; [done|].
  assert (existsb (tb_clash (Db:=PgDatabase) (kept (linked prev entry))) (audit_logs (rn_db r)) = false) as Hno.
  { unfold insert_into, exec, put_rows, sql_insert in Hrow. cbn [tb_refs tb_rows pg_audit] in Hrow.
    by destruct (existsb _ _). }
  apply insert_inv in Hrow as (_ & Hput & _). split; [exact Hput|]. rewrite Forall_forall. intros a Ha E.
  assert (existsb (tb_clash (Db:=PgDatabase) (kept (linked prev entry))) (audit_logs (rn_db r)) = true); [|congruence].
  apply existsb_exists. exists a. split; [by apply list_elem_of_In|]. cbn. by rewrite E, str_eqb_refl.
Qed.

Lemma reads_chain_base p : reads (chain_base p).
Proof. unfold reads, chain_base, select_one, select. by repeat moves_step. Qed.

Lemma reads_read_head p : reads (read_head p).
Proof. unfold reads, read_head. repeat moves_step. apply reads_chain_base. Qed.

(** The hash an append finds. *)
Definition last_hash (p : string) (db : PgDatabase) : string :=
  match head (newest (λ a, in_project p a && negb (al_EntryHash a =s? "")) db) with
  | Some a => al_EntryHash a
  | None => base_of p db
  end.

Lemma read_head_value p e (r : Run PgDatabase) h r' :
  fair_scan e → anchors_unique (rn_db r) → read_head p e r = Returned (Ok h) r' → h = last_hash p (rn_db r).
Proof.
  intros He Hu (la & r1 & E & Hh)%bind_inv. injection E as <- <-. unfold last_hash.
  destruct (head _) as [a|]; [by apply ret_inv in Hh as [-> _]|].
  destruct (pg_chain_base_value p e (mkRun (rn_db r) (rn_locked r) (rn_clock r) (rn_rand r) (S (rn_query r))))
    as (r2 & Hb & _); [done..|]. rewrite Hh in Hb. by injection Hb.
Qed.

(** With every hash in place it is the hash of the last entry. *)
Lemma last_hash_linked p db : trail_ok p db → last_hash p db = head_hash (base_of p db) (trail p db).
Proof.
  intros Hc. unfold last_hash, newest. rewrite where_andb.
  - rewrite head_reverse. fold (trail p db). unfold head_hash. by destruct (last (trail p db)).
  - rewrite Forall_forall. intros a Ha. apply negb_true_iff, str_eqb_neq.
    apply (chained_hash_nonempty _ _ _ Hc). by apply elem_of_order_by.
Qed.

Lemma insertAuditLog_inv entry e r log r' :
  fair_scan e → insertAuditLog entry e r = Returned (Ok log) r' →
  ∃ prev entry' r1 r2,
    al_ProjectID entry' = or_default (al_ProjectID entry) DefaultProjectID ∧ rn_db r1 = rn_db r ∧
    read_head (al_ProjectID entry') e r1 = Returned (Ok prev) r2 ∧
    log = linked prev entry' ∧ rn_db r' = rn_db r <| audit_logs := audit_logs (rn_db r) ++ [kept log] |>.
Proof.
  intros He (entry' & r1 & [E1 Hp]%complete_entry_inv & (prev & r2 & Hh & Hw)%bind_inv)%bind_inv.
  apply write_entry_inv in Hw as (-> & Hdb & _).
  pose proof (reads_inv _ _ _ _ _ He (reads_read_head _) Hh) as E2. rewrite E2, E1 in Hdb.
  by exists prev, entry', r1, r2.
Qed.

Lemma verified_chain p e (r : Run PgDatabase) res r' :
  VerifyAuditLogIntegrity p e r = Returned (Ok res) r' → ai_Valid res = true →
  ∃ base, chained base (trail (or_default p DefaultProjectID) (rn_db r)).
Proof.
  unfold VerifyAuditLogIntegrity. cbv zeta. intros (chain & r1 & E1 & (t & r2 & E2 & Hv)%bind_inv)%bind_inv Hval.
  injection E1 as <- _. destruct (trail _ (rn_db r)) as [|a l]; [by exists ""|].
  apply bind_inv in Hv as (base & r3 & _ & [<- _]%ret_inv).
  destruct (verify_chain_valid _ _ _ _ Hval) as (_ & b & _ & Hc & _). by exists b.
Qed.

End Audit.

Section Theorems.
Context `{SqlDriver, PostgresLaws}.

(** An entry whose time the column rounds is sealed with a time it does not have:
    the trail it is in verifies only with a SHA-256 collision. *)
Theorem pg_rounded_time_breaks_trail entry e e' db log r res r' :
  fair_scan e → call e (AppendAuditLog entry) db = Returned (Ok log) r →
  (al_Timestamp log mod 1000 ≠ 0)%Z → year_ok (al_Timestamp log) → year_ok (pg_time (al_Timestamp log)) →
  call e' (VerifyAuditLogIntegrity (al_ProjectID log)) (rn_db r) = Returned (Ok res) r' →
  ai_Valid res = true → sha256_collision.
Proof.
  intros He Hins Hns Hy Hy' Hv Hval.
  apply (verified_chain _ _ (at_rest (rn_db r))) in Hv as [base Hc]; [|done].
  apply insertAuditLog_inv in Hins as (prev & entry' & _ & _ & Hp & _ & _ & -> & Hdb); [|done].
  change (rn_db (at_rest ?d)) with d in *. change (al_ProjectID (linked prev entry')) with (al_ProjectID entry') in Hc.
  rewrite Hp, or_default_idem, <- Hp in Hc.
  assert (kept (linked prev entry') ∈ trail (al_ProjectID entry') (rn_db r)) as Hin.
  { apply elem_of_trail. split; [done|]. rewrite Hdb. cbn. set_solver. }
  pose proof (chained_sealed _ _ _ Hc Hin) as Hh. cbn in Hh.
  destruct (same_hash_same_payload prev prev entry' (kept (linked prev entry'))) as [Hpay|]; [exact Hh| |done].
  unfold audit_payload in Hpay. cbn in Hpay. simplify_eq/=.
  exfalso. apply Hns. rewrite <- (pg_time_micros (al_Timestamp (linked prev entry'))). f_equal. cbn.
  assert (parse_time (FormatRFC3339Nano (al_Timestamp entry'))
          = parse_time (FormatRFC3339Nano (pg_time (al_Timestamp entry')))) as E by (f_equal; assumption).
  by rewrite !parse_format_time in E.
Qed.

(** C27: A whole number of microseconds, not before the others: the entry is the last
    of its project's trail, linked to the one before it; the other projects'
    trails are as they were. *)
Theorem pg_append_keeps_chain entry e db log r :
  let p := or_default (al_ProjectID entry) DefaultProjectID in
  fair_scan e → anchors_unique db → trail_ok p db →
  call e (AppendAuditLog entry) db = Returned (Ok log) r →
  (al_Timestamp log mod 1000 = 0)%Z →
  Forall (λ a, older_entry a log = true) (trail p db) →
  trail p (rn_db r) = trail p db ++ [log] ∧ trail_ok p (rn_db r) ∧
  ∀ q, q ≠ p → trail q (rn_db r) = trail q db.
Proof.
  intros p He Hu Hc Hins Ht Hl. apply insertAuditLog_inv in Hins as
    (prev & entry' & r1 & r2 & Hp & Hdb1 & Hh & -> & Hdb); [|done]. fold p in Hp.
  assert (kept (linked prev entry') = linked prev entry') as Hk.
  { unfold kept. rewrite pg_time_exact by done. by destruct entry'. }
  rewrite Hk in Hdb. change (rn_db (at_rest ?d)) with d in *. rewrite Hp in Hh.
  assert (trail p (rn_db r) = trail p db ++ [linked prev entry']) as Htr.
  { unfold trail. rewrite Hdb. change (audit_logs (db <| audit_logs := ?x |>)) with x. rewrite where_snoc.
    replace (in_project p (linked prev entry')) with true by (symmetry; by apply str_eqb_eq).
    apply order_by_snoc. unfold trail in Hl. by rewrite order_by_perm in Hl. }
  split_and!; [done| |].
  - unfold trail_ok. rewrite Htr, Hdb. change (base_of p (db <| audit_logs := _ |>)) with (base_of p db).
    apply chained_app. split; [done|]. enough (prev = head_hash (base_of p db) (trail p db)) as <- by done.
    apply read_head_value in Hh as ->; [|done|by rewrite Hdb1]. rewrite Hdb1. by apply last_hash_linked.
  - intros q Hq. unfold trail. rewrite Hdb. change (audit_logs (db <| audit_logs := ?x |>)) with x.
    rewrite where_snoc. replace (in_project q (linked prev entry')) with false; [by rewrite app_nil_r|].
    symmetry. apply str_eqb_neq. cbn. congruence.
Qed.

(** Two requests that append at the same time: both look up the last hash before
    either inserts. *)
Definition interleaved_appends (p : string) (a b : AuditLogEntry) : Pg (AuditLogEntry * AuditLogEntry) :=
  ha ← read_head p;
  hb ← read_head p;
  a ← write_entry ha a;
  b ← write_entry hb b;
  mret (a, b).

(** C38: Both entries are in the trail and both are linked to the same hash.  When the
    trail verifies nevertheless, a hash occurs twice along the chain. *)
Theorem pg_concurrent_appends_fork p a b e e' db la lb r res r' :
  fair_scan e → anchors_unique db →
  or_default p DefaultProjectID = p → al_ProjectID a = p → al_ProjectID b = p →
  call e (interleaved_appends p a b) db = Returned (Ok (la, lb)) r →
  al_PrevHash la = al_PrevHash lb ∧ kept la ∈ trail p (rn_db r) ∧ kept lb ∈ trail p (rn_db r) ∧ kept la ≠ kept lb ∧
  (call e' (VerifyAuditLogIntegrity p) (rn_db r) = Returned (Ok res) r' → ai_Valid res = true →
   ∃ base, chained base (trail p (rn_db r)) ∧ ¬ NoDup (base :: (al_EntryHash <$> trail p (rn_db r)))).
Proof.
  intros He Hu Hpp Ha Hb (ha & r1 & Hha & (hb & r2 & Hhb & (wa & r3 & Hwa & (wb & r4 & Hwb & Hret)%bind_inv)%bind_inv)%bind_inv)%bind_inv.
  apply ret_inv in Hret as [[-> ->]%pair_equal_spec ->].
  pose proof (reads_inv _ _ _ _ _ He (reads_read_head p) Hha) as E1. change (rn_db (at_rest db)) with db in E1.
  pose proof (reads_inv _ _ _ _ _ He (reads_read_head p) Hhb) as E2. rewrite E1 in E2.
  assert (ha = hb) as ->.
  { apply read_head_value in Hha; [|done..]. apply read_head_value in Hhb; [|done|by rewrite E1].
    by rewrite Hha, Hhb, E1. }
  apply write_entry_inv in Hwa as (-> & Edb1 & _). apply write_entry_inv in Hwb as (-> & Edb2 & Hnew).
  rewrite E2 in Edb1. rewrite Edb1 in Edb2, Hnew.
  assert (kept (linked hb a) ∈ trail p (rn_db r4)) as Hina.
  { apply elem_of_trail. split; [done|]. rewrite Edb2. cbn. rewrite !elem_of_app, !list_elem_of_singleton. tauto. }
  assert (kept (linked hb b) ∈ trail p (rn_db r4)) as Hinb.
  { apply elem_of_trail. split; [done|]. rewrite Edb2. cbn. rewrite !elem_of_app, !list_elem_of_singleton. tauto. }
  assert (kept (linked hb a) ≠ kept (linked hb b)) as Hne.
  { cbn in Hnew. rewrite Forall_app, Forall_singleton in Hnew. destruct Hnew as [_ Hnew].
    intros E. apply Hnew. cbn. apply (f_equal al_ID) in E. exact E. }
  split_and!; [done..|]. intros Hv Hval.
  apply (verified_chain _ _ (at_rest (rn_db r4))) in Hv as [base Hc]; [|done]. rewrite Hpp in Hc.
  exists base. split; [exact Hc|]. by apply (forked_chain _ _ (kept (linked hb a)) (kept (linked hb b))).
Qed.

End Theorems.

(** ** Password resets *)

Section Passwords.
Context `{SqlDriver, PostgresLib}.

(** The account of the token has the new password and no session, and the token
    is used. *)
Record password_was_reset (token hash email : string) (db : PgDatabase) : Prop := {
  pw_set : Forall (λ u, us_Email u = email → us_PasswordHash u = hash) (users db);
  pw_sessions : Forall (λ s, Forall (λ u, us_Email u = email → us_ID u ≠ ss_UserID s) (users db)) (sessions db);
  pw_used : Forall (λ t, pr_Token t = token → pr_Used t = true) (password_reset_tokens db);
}.

Lemma Forall_update {R} (sel : R → bool) (upd : R → R) t (P : R → Prop) :
  (∀ r, sel r = true → P (upd r)) → (∀ r, sel r = false → P r) → Forall P (sql_update sel upd t).1.
Proof.
  intros H1 H2. unfold sql_update. cbn. rewrite Forall_fmap, Forall_forall. intros r _. cbn.
  destruct (sel r) eqn:E; auto.
Qed.

Definition same_email (email : string) (u : User) : bool := us_Email u =s? email.

(** The statements of the transaction: how they leave the tables. *)
Definition reset_rows (token hash email : string) (t : Time) (db : PgDatabase) : PgDatabase :=
  let db := db <| users := (sql_update (same_email email)
    (λ u, u <| us_PasswordHash := hash |> <| us_UpdatedAt := pg_time t |>) (users db)).1 |> in
  let db := db <| password_reset_tokens := (sql_update (λ r, pr_Token r =s? token)
    (λ r, r <| pr_Used := true |>) (password_reset_tokens db)).1 |> in
  db <| sessions := (sql_delete (λ s, existsb (λ u, (us_ID u =s? ss_UserID s) && (us_Email u =s? email)) (users db))
    (sessions db)).1 |>.

Lemma reset_rows_done token hash email t db : password_was_reset token hash email (reset_rows token hash email t db).
Proof.
  split; cbn [users sessions password_reset_tokens reset_rows].
  - apply Forall_update; [done|]. intros u Hu E. by apply str_eqb_neq in Hu.
  - unfold sql_delete. cbn. rewrite !Forall_forall. intros s [Hs _]%list_elem_of_filter. rewrite Forall_forall.
    intros u Hu He Hid. apply eq_true_false_abs with (2:=Hs). apply existsb_exists. exists u.
    split; [by apply list_elem_of_In|]. apply andb_true_iff. split; by apply str_eqb_eq.
  - apply Forall_update; [done|]. intros x Hx E. by apply str_eqb_neq in Hx.
Qed.

Lemma GetPasswordResetToken_inv token e (r : Run PgDatabase) t r' :
  fair_scan e → GetPasswordResetToken token e r = Returned (Ok t) r' →
  rn_db r' = rn_db r ∧ t ∈ password_reset_tokens (rn_db r) ∧ pr_Token t = token.
Proof.
  intros He Hg. unfold GetPasswordResetToken in Hg.
  apply (get_found (H:=pg_resets) e _ (λ t, t)) in Hg as (Hdb & _ & x & -> & Hx & Hs); [|done].
  split_and!; [done|done|]. by apply str_eqb_eq.
Qed.

Lemma ResetPasswordWithToken_inv token hash e (r : Run PgDatabase) u r' :
  fair_scan e → ResetPasswordWithToken token hash e r = Returned (Ok u) r' →
  ∃ t n, t ∈ password_reset_tokens (rn_db r) ∧ pr_Token t = token ∧ pr_Used t = false ∧
    rn_db r' = reset_rows token hash (pr_Email t) n (rn_db r).
Proof.
  intros He (t & r1 & Hget & Hres)%bind_inv. apply GetPasswordResetToken_inv in Hget as (Hdb & Ht & Hp); [|done].
  destruct (pr_Used t) eqn:Hu; [done|]. apply bind_inv in Hres as (n & r2 & E2 & Hres). injection E2 as <- <-.
  destruct (ResetToken_IsExpired _ _); [done|]. unfold transaction in Hres.
  destruct (mbind (M:=Sql PgDatabase) _ _ e _) as [[v|]|] eqn:E; [|done..]. injection Hres as -> <-.
  apply bind_inv in E as (n & r3 & E3 & E). injection E3 as <- <-.
  apply bind_inv in E as (rows & r4 & E4 & E). injection E4 as <- <-. cbn [rn_db rn_clock] in E. rewrite Hdb in E.
  destruct (_ =? 0)%Z; [done|]. exists t. eexists. split_and!; [done..|].
  apply bind_inv in E as (m & r5 & E5 & E). injection E5 as _ <-.
  apply bind_inv in E as (o & r6 & E6 & [_ ->]%ret_inv). by injection E6 as _ <-.
Qed.

(** A reset with a token works once, on the accounts of its address, and leaves
    no session of theirs; a reset that fails leaves the database as it was. *)
Theorem pg_password_reset token hash e db res r :
  fair_scan e → call e (ResetPasswordWithToken token hash) db = Returned res r →
  match res with
  | Ok _ =>
      (∃ t, t ∈ password_reset_tokens db ∧ pr_Token t = token ∧ pr_Used t = false ∧
            password_was_reset token hash (pr_Email t) (rn_db r)) ∧
      (∀ hash' e', fair_scan e' → ∃ err r', call e' (ResetPasswordWithToken token hash') (rn_db r)
                                             = Returned (Err err) r')
  | Err _ => rn_db r = db
  end.
Proof.
  intros He Hres. destruct res as [u|err].
  - pose proof Hres as (t & n & Ht & Hp & Hu & Hdb)%ResetPasswordWithToken_inv; [|done].
    assert (password_was_reset token hash (pr_Email t) (rn_db r)) as Hw by (rewrite Hdb; apply reset_rows_done).
    split; [by exists t|]. intros hash' e' He'. unfold call.
    destruct (ResetPasswordWithToken token hash' e' (at_rest (rn_db r))) as [[v|err] r'|r'] eqn:E.
    + apply ResetPasswordWithToken_inv in E as (t' & n' & Ht' & Hp' & Hu' & _); [|done]. exfalso.
      destruct Hw as [_ _ Hw]. rewrite Forall_forall in Hw. rewrite (Hw t') in Hu'; done.
    + by exists err, r'.
    + exfalso. assert (tame false (ResetPasswordWithToken token hash')) as Htame.
      { unfold ResetPasswordWithToken, GetPasswordResetToken, delete_sessions_of, select_one, select, update_rows.
        by repeat tame_step. }
      destruct (Htame e' (at_rest (rn_db r)) eq_refl) as (? & ? & E' & _). by rewrite E' in E.
  - unfold call, ResetPasswordWithToken in Hres. unfold mbind at 1, sql_bind at 1 in Hres.
    destruct (GetPasswordResetToken token e (at_rest db)) as [[t|err'] r1|] eqn:Eg; [| |done].
    + apply GetPasswordResetToken_inv in Eg as (Hdb & _ & _); [|done]. change (rn_db (at_rest db)) with db in Hdb.
      destruct (pr_Used t); [by injection Hres as _ <-|]. unfold mbind at 1, sql_bind at 1 in Hres. cbn [now] in Hres.
      destruct (ResetToken_IsExpired _ _); [by injection Hres as _ <-|]. unfold transaction in Hres.
      destruct (mbind (M:=Sql PgDatabase) _ _ e _) as [[v|]|]; [done| |done]. by injection Hres as _ <-.
    + unfold GetPasswordResetToken in Eg.
      apply (get_none (H:=pg_resets) e _ (λ t, t)) in Eg as (Hdb & _); [|done]. by injection Hres as _ <-.
Qed.

(** ** The reset of the store *)

(** [Reset] empties three tables; accounts, keys, requests and invitations stay. *)
Definition accounts (db : PgDatabase) :=
  (users db, sessions db, api_keys db, change_requests db, experiment_events db, password_reset_tokens db,
   org_members db, org_invitations db, canary_schedules db, oidc_configs db).

Definition kept_by_reset (db db' : PgDatabase) : Prop := accounts db' = accounts db.

#[local] Instance kept_by_reset_preorder : PreOrder kept_by_reset.
Proof. split; [by intros db|]. intros a b c Hab Hbc. unfold kept_by_reset. by rewrite Hbc. Qed.

Lemma insert_unless_kept {R} `{Table PgDatabase R} same (row : R) :
  (∀ t db, kept_by_reset db (tb_put t db)) → moves kept_by_reset (insert_unless same row).
Proof.
  intros Hput. unfold insert_unless, insert_into. repeat moves_step. apply moves_exec; [typeclasses eauto|].
  unfold put_rows. intros db db' n. destruct (if tb_refs _ _ then _ else _); [|done]. intros [= <- _]. apply Hput.
Qed.

Lemma pg_reset_keeps_accounts : moves kept_by_reset Reset.
Proof.
  unfold Reset, autoMigrate. repeat moves_step; try by apply insert_unless_kept.
  apply moves_exec; [typeclasses eauto|]. by intros db db' n [= <- _].
Qed.

End Passwords.

(** * The theorems of the Postgres store at work *)

#[local] Instance pg_driver : SqlDriver := {| constraint_error t := EText ("violates a constraint of " +:+ t) |}.

(** Times cut to microseconds, the C collation, JSON of nothing. *)
#[local] Instance pg_lib : PostgresLib := {|
  pg_time t := (t / 1000 * 1000)%Z;
  pg_collate := text_leb;
  json_envs _ := Ok "{}";
  envs_of _ := ∅;
  json_proposed _ _ := Ok "{}";
  proposed_of _ := mkEnvConfig false "" (f64_of_Z 0) [] [] "" "" false;
  proposed_error _ := None;
  base_of_json _ := None;
  json_stages _ := Ok "[]";
  stages_of _ := [];
  json_guardrails _ := Ok "{}";
  guardrails_of _ := mkGuardrails (f64_of_Z 5) (f64_of_Z 500) true "";
|}.

#[local] Instance pg_laws : PostgresLaws.
Proof.
  split.
  - intros t. cbn. apply Z.mod_mul. lia.
  - intros t Ht. cbn. pose proof (Z.div_mod t 1000). lia.
Qed.

Definition pg_env (t : Time) : Env := mkEnv (mkSys (λ k, (t + Z.of_nat k)%Z) (λ _, "00")) (λ _ _ l, l).

Lemma pg_env_fair t : fair_scan (pg_env t).
Proof. by intros k A l. Qed.

Definition pg_now : Env := pg_env 1500000000%Z.

(** 123 nanoseconds after the second, and a whole second. *)
Definition fine_entry : AuditLogEntry := mkAudit "a1" "shop" 1000000123%Z "alice" "FLAG_UPDATED" "checkout" "all" "" "" "".
Definition whole_entry : AuditLogEntry := mkAudit "a2" "shop" 2000000000%Z "alice" "FLAG_UPDATED" "checkout" "all" "" "" "".

(** One append, one verification: it fails, for the entry that was appended. *)
Example pg_fine_entry_broken :
  match call pg_now (AppendAuditLog fine_entry;; VerifyAuditLogIntegrity "shop") no_tables with
  | Returned (Ok res) _ => ai_Valid res = false ∧ ai_BrokenEntryID res = "a1"
  | _ => False
  end.
Proof. by vm_compute. Qed.

Lemma pg_rounded_time_breaks_trail_witness :
  ∃ log r, call pg_now (AppendAuditLog fine_entry) no_tables = Returned (Ok log) r ∧
    ∀ res r', call pg_now (VerifyAuditLogIntegrity (al_ProjectID log)) (rn_db r) = Returned (Ok res) r' →
      ai_Valid res = true → sha256_collision.
Proof.
  destruct (call pg_now (AppendAuditLog fine_entry) no_tables) as [[log|err] r|r] eqn:E;
    [|by vm_compute in E|by vm_compute in E].
  exists log, r. split; [done|]. intros res r' Hv Hval.
  assert (al_Timestamp log = 1000000123%Z) as Ht.
  { pose proof E as E'. vm_compute in E'. by injection E' as <- _. }
  apply (pg_rounded_time_breaks_trail fine_entry pg_now pg_now no_tables log r res r');
    [apply pg_env_fair|exact E| | | |exact Hv|exact Hval]; rewrite Ht; by vm_compute.
Defined.

Lemma pg_append_keeps_chain_witness :
  ∃ log r, call pg_now (AppendAuditLog whole_entry) no_tables = Returned (Ok log) r ∧
    trail "shop" (rn_db r) = [log] ∧ trail_ok "shop" (rn_db r).
Proof.
  destruct (call pg_now (AppendAuditLog whole_entry) no_tables) as [[log|err] r|r] eqn:E;
    [|by vm_compute in E|by vm_compute in E].
  exists log, r. split; [done|].
  assert (al_Timestamp log = 2000000000%Z) as Ht.
  { pose proof E as E'. vm_compute in E'. by injection E' as <- _. }
  destruct (pg_append_keeps_chain whole_entry pg_now no_tables log r) as (H1 & H2 & _);
    [apply pg_env_fair|constructor|done|exact E|by rewrite Ht|constructor|]. exact (conj H1 H2).
Defined.

(** Two appends at once; the trail holds two entries linked to the same hash. *)
Lemma pg_concurrent_appends_fork_witness :
  ∃ la lb r, call pg_now (interleaved_appends "shop" fine_entry whole_entry) no_tables = Returned (Ok (la, lb)) r ∧
    al_PrevHash la = al_PrevHash lb ∧ kept la ≠ kept lb.
Proof.
  destruct (call pg_now (interleaved_appends "shop" fine_entry whole_entry) no_tables) as [[[la lb]|err] r|r] eqn:E;
    [|by vm_compute in E|by vm_compute in E].
  destruct (pg_concurrent_appends_fork "shop" fine_entry whole_entry pg_now pg_now no_tables la lb r
    (mkIntegrity false 0 "" 0 "" "") (at_rest no_tables)) as (H1 & _ & _ & H2 & _);
    [apply pg_env_fair|constructor|done|done|done|exact E|].
  exists la, lb, r. exact (conj eq_refl (conj H1 H2)).
Defined.

Definition alice : User := mkUser "alice" "alice@shop" "old" "Alice" "admin" "" 0%Z 0%Z None.
Definition pg_accounts : PgDatabase := no_tables <| users := [alice] |>
  <| sessions := [mkSession "cookie" "alice" None 3000000000%Z 0%Z] |>
  <| password_reset_tokens := [mkResetToken "flg_rst_1" "alice@shop" 3000000000%Z false 0%Z] |>.

Lemma pg_password_reset_witness :
  ∃ r, call pg_now (ResetPasswordWithToken "flg_rst_1" "new") pg_accounts = Returned (Ok tt) r ∧
    sessions (rn_db r) = [] ∧
    ∃ err r', call pg_now (ResetPasswordWithToken "flg_rst_1" "newer") (rn_db r) = Returned (Err err) r'.
Proof.
  eexists. split; [by vm_compute|]. split; [by vm_compute|].
  refine (proj2 (pg_password_reset "flg_rst_1" "new" pg_now pg_accounts (Ok tt) _ (pg_env_fair _) _) "newer" pg_now
    (pg_env_fair _)).
  by vm_compute.
Defined.
