(* ===== verification/StoreIdentityFacts.v ===== *)
(** * What the identity and tenancy operations of the store guarantee *)

From S2P Require Import Prelude GoFloat GoStrings GoTime Sha256 Errors Domain Entities StoreState.
From S2P Require Import StoreAudit StoreIdentity StoreTenancy.

(** ** The two indexes of the user table *)

(** Every entry of the table is found under the identifier and the e-mail of its
    user, and under nothing else. *)
Definition users_coherent (m : gmap string User) : Prop :=
  map_Forall (λ key u, m !! us_ID u = Some u ∧ m !! us_Email u = Some u ∧
                       (key = us_ID u ∨ key = us_Email u)) m.

Definition put_user (u : User) (m : gmap string User) : gmap string User :=
  <[us_Email u := u]> (<[us_ID u := u]> m).

Lemma put_user_swap u m :
  <[us_ID u := u]> (<[us_Email u := u]> m) = put_user u m.
Proof.
  unfold put_user. destruct (decide (us_ID u = us_Email u)) as [->|Hne].
  - done.
  - by rewrite insert_insert_ne.
Qed.

Lemma put_user_lookup u m key :
  put_user u m !! key
  = if (key =s? us_Email u) || (key =s? us_ID u) then Some u else m !! key.
Proof.
  unfold put_user. rewrite !lookup_insert, !str_decide. unfold str_eqb.
  rewrite (bool_decide_ext (us_Email u = key) (key = us_Email u)) by done.
  rewrite (bool_decide_ext (us_ID u = key) (key = us_ID u)) by done.
  by destruct (bool_decide (key = us_Email u)).
Qed.

(** Putting a user keeps the table coherent when its two keys are both unused,
    or both lead to an older value with the same keys. *)
Lemma put_user_coherent u m :
  users_coherent m →
  (m !! us_ID u = None ∧ m !! us_Email u = None) ∨
  (∃ u0, m !! us_ID u0 = Some u0 ∧ m !! us_Email u0 = Some u0 ∧
     us_ID u0 = us_ID u ∧ us_Email u0 = us_Email u) →
  users_coherent (put_user u m).
Proof.
  intros Hm Hu key v. rewrite put_user_lookup.
  assert (∀ w, (us_ID w =s? us_Email u) || (us_ID w =s? us_ID u) = false →
    m !! us_ID w = Some w → (us_Email w =s? us_Email u) || (us_Email w =s? us_ID u) = false) as Hsep.
  { intros w Hw Hwm. simp_bool. apply orb_false_iff. split; apply str_eqb_neq; intros E;
      destruct (Hm _ _ Hwm) as (_ & He & _); rewrite E in He;
      destruct Hu as [[H1 H2]|(u0 & H1 & H2 & E1 & E2)]; congruence. }
  destruct ((key =s? us_Email u) || (key =s? us_ID u)) eqn:E.
  - intros [= <-]. rewrite !put_user_lookup, !str_eqb_refl, orb_true_r. simpl.
    split_and!; try done. apply orb_true_iff in E as [E|E]; apply str_eqb_eq in E; auto.
  - intros Hv. destruct (Hm _ _ Hv) as (Hi & He & Hk). rewrite !put_user_lookup.
    assert ((us_ID v =s? us_Email u) || (us_ID v =s? us_ID u) = false) as E1.
    { destruct Hk as [<-|Hk]; [done|]. simp_bool. apply orb_false_iff.
      split; apply str_eqb_neq; intros E1; rewrite E1 in Hi;
        destruct Hu as [[H1 H2]|(u0 & H1 & H2 & Ea & Eb)]; congruence. }
    rewrite E1, (Hsep v E1 Hi). done.
Qed.

(** The operations on users. *)
Inductive user_step (s : MemoryStore) : MemoryStore → Prop :=
| user_create sys u :
    (us_ID u = "" → ms_users s !! ("usr_" +:+ Itoa (sys_now sys 0) +:+ "_" +:+ sys_rand sys 0) = None) →
    (us_ID u ≠ "" → ms_users s !! us_ID u = None) →
    user_step s (CreateUser sys s u).1
| user_update sys u : user_step s (UpdateUser sys s u).1
| user_password sys id h : user_step s (UpdateUserPassword sys s id h).1
| user_reset sys t h : user_step s (ResetPasswordWithToken sys s t h).1
| user_other s' : ms_users s' = ms_users s → user_step s s'.

Lemma coherent_entry m key u :
  users_coherent m → m !! key = Some u → m !! us_ID u = Some u ∧ m !! us_Email u = Some u.
Proof. intros Hm Hk. destruct (Hm _ _ Hk) as (? & ? & _). done. Qed.

(** Looking a user up by identifier and by e-mail always gives the same user:
    the two indexes stay coherent under creation (with an unused identifier),
    profile and password updates and password resets. *)
Theorem users_stay_coherent s s' :
  users_coherent (ms_users s) → user_step s s' → users_coherent (ms_users s').
Proof.
  intros Hm Hstep. destruct Hstep as [sys u Hf Hg|sys u|sys id h|sys t h|s' Heq].
  - unfold CreateUser. destruct (ms_users s !! us_Email u) eqn:Ee; [done|]. simpl.
    match goal with |- users_coherent (<[_ := ?v]> _) =>
      change (users_coherent (<[us_ID v := v]> (<[us_Email v := v]> (ms_users s)))) end.
    rewrite put_user_swap. apply put_user_coherent; [done|left]. simpl. split; [|done].
    destruct (us_ID u =s? "") eqn:E; simp_bool; auto.
  - unfold UpdateUser. destruct (ms_users s !! us_ID u) as [u0|] eqn:E; [|done].
    destruct (coherent_entry _ _ _ Hm E) as [Hi He]. simpl.
    match goal with |- users_coherent (<[_ := ?v]> _) => change (users_coherent (put_user v (ms_users s))) end.
    apply put_user_coherent; [done|right]. exists u0. by repeat case_if.
  - unfold UpdateUserPassword. destruct (ms_users s !! id) as [u0|] eqn:E; [|done].
    destruct (coherent_entry _ _ _ Hm E) as [Hi He]. simpl.
    match goal with |- users_coherent (<[_ := ?v]> _) => change (users_coherent (put_user v (ms_users s))) end.
    apply put_user_coherent; [done|right]. by exists u0.
  - unfold ResetPasswordWithToken. destruct (ms_passwordResetTokens s !! t) as [tk|]; [|done].
    destruct (pr_Used tk); [done|]. destruct (ResetToken_IsExpired _ _); [done|].
    destruct (ms_users s !! pr_Email tk) as [u0|] eqn:E; [|done].
    destruct (coherent_entry _ _ _ Hm E) as [Hi He]. simpl.
    match goal with |- users_coherent (<[_ := ?v]> _) =>
      change (users_coherent (<[us_ID v := v]> (<[us_Email v := v]> (ms_users s)))) end.
    rewrite put_user_swap. apply put_user_coherent; [done|right]. by exists u0.
  - by rewrite Heq.
Qed.

(** ** Password reset *)

(** A password reset is single-use and logs the user out: when it succeeds
    the token was unused and not expired, the new password is stored, every
    session of the user is gone while the others stay, and the same token is
    refused from then on. *)
Theorem ResetPasswordWithToken_effect sys s token h s' :
  ResetPasswordWithToken sys s token h = (s', None) →
  ∃ t user, ms_passwordResetTokens s !! token = Some t ∧ pr_Used t = false ∧
    (sys_now sys 0 ≤ pr_ExpiresAt t)%Z ∧ ms_users s !! pr_Email t = Some user ∧
    (∃ user', ms_users s' !! us_ID user = Some user' ∧ us_PasswordHash user' = h) ∧
    (∀ tok sess, ms_sessions s' !! tok = Some sess ↔
       ms_sessions s !! tok = Some sess ∧ ss_UserID sess ≠ us_ID user) ∧
    (∀ sys' h', ResetPasswordWithToken sys' s' token h'
       = (s', Some (EText "reset token has already been used"))).
Proof.
  unfold ResetPasswordWithToken at 1. destruct (ms_passwordResetTokens s !! token) as [t|] eqn:Et; [|done].
  destruct (pr_Used t) eqn:Eu; [done|].
  destruct (ResetToken_IsExpired (sys_now sys 0) t) eqn:Ex; [done|].
  destruct (ms_users s !! pr_Email t) as [user|] eqn:Eusr; [|done]. intros [= <-].
  exists t, user. unfold ResetToken_IsExpired, After in Ex. simp_bool. split_and!; try done.
  - eexists. simpl. split; [apply lookup_insert_eq|done].
  - intros tok sess. simpl. unfold drop_sessions. by rewrite map_lookup_filter_Some.
  - intros sys' h'. unfold ResetPasswordWithToken. simpl. by rewrite lookup_insert_eq.
Qed.

(** ** API keys *)

Inductive KeyOp :=
| KCreate (key : APIKey)
| KUse (hash : string)
| KRevoke (id actor : string)
| KRevokeIn (projectID id actor : string).

Definition run_key_op (sys : Sys) (s : MemoryStore) (op : KeyOp) : MemoryStore :=
  match op with
  | KCreate key => (CreateAPIKey sys s key).1
  | KUse hash => (GetAPIKeyByHash sys s hash).1
  | KRevoke id actor => (RevokeAPIKey sys s id actor).1
  | KRevokeIn p id actor => (RevokeAPIKeyByProject sys s p id actor).1
  end.

Definition run_key_ops (s : MemoryStore) (ops : list (Sys * KeyOp)) : MemoryStore :=
  foldl (λ s so, run_key_op so.1 s so.2) s ops.

(** The operation creates no key with identifier [id]. *)
Definition creates_not (id : string) (so : Sys * KeyOp) : Prop :=
  match so.2 with
  | KCreate key => ak_ID (CreateAPIKey so.1 NewMemoryStore key).2 ≠ id
  | _ => True
  end.

Definition key_dead (id : string) (s : MemoryStore) : Prop :=
  ∃ k, ms_apiKeys s !! id = Some k ∧ ak_Revoked k = true.

Lemma append_apiKeys now s e :
  ms_apiKeys (appendAuditLogLocked now s e).1 = ms_apiKeys s ∧
  ms_apiKeysByHash (appendAuditLogLocked now s e).1 = ms_apiKeysByHash s.
Proof. unfold appendAuditLogLocked. by destruct (list_find _ _) as [[i l]|]. Qed.

Lemma revoke_dead id id' s k : key_dead id s → key_dead id (revoke s id' k).
Proof.
  intros (k0 & Hk & Hr). unfold key_dead, revoke. simpl.
  destruct (decide (id' = id)) as [->|Hne].
  - eexists. by rewrite lookup_insert_eq.
  - exists k0. by rewrite lookup_insert_ne.
Qed.

Lemma key_dead_step id sys s op :
  creates_not id (sys, op) → key_dead id s → key_dead id (run_key_op sys s op).
Proof.
  intros Hc Hd. destruct op as [key|hash|id' actor|p id' actor]; simpl in *.
  - destruct Hd as (k & Hk & Hr). exists k. split; [|done].
    unfold CreateAPIKey in *. simpl in *. case_if; simpl; by rewrite lookup_insert_ne.
  - unfold GetAPIKeyByHash. destruct (ms_apiKeysByHash s !! hash) as [i|]; [|done].
    destruct (ms_apiKeys s !! i) as [key|] eqn:Ek; [|done].
    destruct (ak_Revoked key) eqn:Er; [done|]. destruct Hd as (k & Hk & Hr). exists k.
    simpl. rewrite lookup_insert_ne; [done|]. intros ->. congruence.
  - unfold RevokeAPIKey. destruct (ms_apiKeys s !! id') as [key|] eqn:Ek; [|done].
    cbn [fst]. unfold key_dead. rewrite (proj1 (append_apiKeys _ _ _)). by apply revoke_dead.
  - unfold RevokeAPIKeyByProject. destruct (ms_apiKeys s !! id') as [key|] eqn:Ek; [|done].
    destruct (negb _); [done|].
    cbn [fst]. unfold key_dead. rewrite (proj1 (append_apiKeys _ _ _)). by apply revoke_dead.
Qed.

Lemma key_dead_steps id s ops :
  Forall (creates_not id) ops → key_dead id s → key_dead id (run_key_ops s ops).
Proof.
  intros Hf. revert s. induction Hf as [|[sys op] ops Hc _ IH]; intros s Hd; [done|].
  apply IH. by apply key_dead_step.
Qed.

(** Every key is filed under its own identifier. *)
Definition keys_named (s : MemoryStore) : Prop :=
  map_Forall (λ id k, ak_ID k = id) (ms_apiKeys s).

Lemma keys_named_revoke s id k : keys_named s → ak_ID k = id → keys_named (revoke s id k).
Proof. intros Hn Hk. by apply map_Forall_insert_2. Qed.

Lemma keys_named_step sys s op : keys_named s → keys_named (run_key_op sys s op).
Proof.
  intros Hn. destruct op as [key|hash|id actor|p id actor]; simpl.
  - unfold keys_named, CreateAPIKey. simpl. case_if; by apply map_Forall_insert_2.
  - unfold GetAPIKeyByHash. destruct (ms_apiKeysByHash s !! hash) as [i|]; [|done].
    destruct (ms_apiKeys s !! i) as [key|] eqn:Ek; [|done]. destruct (ak_Revoked key); [done|].
    apply map_Forall_insert_2; [|done]. exact (Hn i key Ek).
  - unfold RevokeAPIKey. destruct (ms_apiKeys s !! id) as [key|] eqn:Ek; [|done].
    cbn [fst]. unfold keys_named. rewrite (proj1 (append_apiKeys _ _ _)).
    apply keys_named_revoke; [done|]. exact (Hn id key Ek).
  - unfold RevokeAPIKeyByProject. destruct (ms_apiKeys s !! id) as [key|] eqn:Ek; [|done].
    destruct (negb _); [done|].
    cbn [fst]. unfold keys_named. rewrite (proj1 (append_apiKeys _ _ _)).
    apply keys_named_revoke; [done|]. exact (Hn id key Ek).
Qed.

Lemma keys_named_steps s ops : keys_named s → keys_named (run_key_ops s ops).
Proof.
  revert s. induction ops as [|[sys op] ops IH]; intros s Hn; [done|].
  apply IH. by apply keys_named_step.
Qed.

(** Revocation is final: once a key has been revoked, whatever keys are
    created (with other identifiers), used or revoked afterwards, no presented
    hash authenticates as that key. *)
Theorem revocation_is_final sys past id actor ops s' :
  RevokeAPIKey sys (run_key_ops NewMemoryStore past) id actor = (s', None) →
  Forall (creates_not id) ops →
  ∀ sys' h s'' k, GetAPIKeyByHash sys' (run_key_ops s' ops) h = (s'', Ok k) → ak_ID k ≠ id.
Proof.
  set (s := run_key_ops NewMemoryStore past). intros Hr Hf sys' h s'' k Hg.
  assert (keys_named (run_key_ops s' ops)) as Hn.
  { change s' with (s', @None GoError).1. rewrite <- Hr. apply keys_named_steps.
    apply (keys_named_step sys s (KRevoke id actor)), keys_named_steps, map_Forall_empty. }
  assert (key_dead id (run_key_ops s' ops)) as (k0 & Hk0 & Hd).
  { apply key_dead_steps; [done|]. revert Hr. unfold RevokeAPIKey.
    destruct (ms_apiKeys s !! id) as [key|]; [|done]. intros Hr.
    apply (f_equal fst) in Hr. cbn [fst] in Hr. subst s'. unfold key_dead.
    rewrite (proj1 (append_apiKeys _ _ _)). eexists. unfold revoke. simpl. by rewrite lookup_insert_eq. }
  revert Hg. unfold GetAPIKeyByHash. destruct (ms_apiKeysByHash _ !! h) as [i|]; [|done].
  destruct (ms_apiKeys _ !! i) as [k1|] eqn:Ek; [|done]. destruct (ak_Revoked k1) eqn:E1; [done|].
  intros [= <- <-]. simpl. rewrite (Hn _ _ Ek). intros ->. congruence.
Qed.

(** A key can be revoked only through its own project: a request for another
    project fails and changes nothing. *)
Theorem RevokeAPIKeyByProject_isolated sys s p id actor k :
  ms_apiKeys s !! id = Some k → ak_ProjectID k ≠ p →
  (RevokeAPIKeyByProject sys s p id actor).1 = s ∧
  (RevokeAPIKeyByProject sys s p id actor).2 ≠ None.
Proof.
  intros Hk Hp. unfold RevokeAPIKeyByProject. rewrite Hk.
  by rewrite (proj2 (str_eqb_neq _ _) Hp).
Qed.

(** ** Organizations and projects *)

(** Creating an organization never changes what existing names refer to, and
    the new organization is found under its identifier and its slug. *)
Theorem CreateOrganization_conservative sys s org s' o :
  CreateOrganization sys s org = (s', Ok o) →
  (∀ x o', ms_orgs s !! x = Some o' → GetOrganization s' x = Ok o') ∧
  GetOrganization s' (og_ID o) = Ok o ∧ GetOrganization s' (og_Slug o) = Ok o.
Proof.
  unfold CreateOrganization.
  set (org1 := org <| og_ID := _ |>). set (org2 := org1 <| og_Slug := _ |>).
  destruct (ms_orgs s !! og_ID org2) eqn:E1; [done|].
  destruct (ms_orgs s !! og_Slug org2) eqn:E2; [done|].
  set (o2 := org2 <| og_CreatedAt := _ |> <| og_UpdatedAt := _ |>).
  intros E. assert (s' = s <| ms_orgs := <[og_Slug o2 := o2]> (<[og_ID o2 := o2]> (ms_orgs s)) |> ∧
    o = o2) as [-> ->] by (by injection E).
  unfold GetOrganization. simpl ms_orgs. split_and!.
  - intros x o' Hx. rewrite !lookup_insert_ne; [by rewrite Hx|..]; intros <-;
      (assert (Some o' = None) by (rewrite <- Hx; exact E1 || exact E2); done).
  - rewrite !lookup_insert. by repeat case_decide.
  - by rewrite lookup_insert_eq.
Qed.

Definition victim_project : Project :=
  mkProject "proj_1" "org_victim" 0 "Victim" "victim" "" 0 0.

Definition attacker_project : Project :=
  mkProject "proj_2" "org_attacker" 0 "Attacker" "proj_1" "" 0 0.

Definition project_sys : Sys := mkSys (λ _, 1000%Z) (λ _, "00").

(** Creating a project does overwrite: a slug equal to the identifier of a
    project of another organization is accepted, and from then on that
    identifier leads to the new project. *)
Theorem CreateProject_takes_over :
  let s := (CreateProject project_sys NewMemoryStore victim_project).1 in
  let '(s', r) := CreateProject project_sys s attacker_project in
  is_ok r = true ∧
  match GetProject s "proj_1", GetProject s' "proj_1" with
  | Ok before, Ok after =>
      pj_OrganizationID before = "org_victim" ∧ pj_OrganizationID after = "org_attacker"
  | _, _ => False
  end.
Proof. vm_compute. done. Qed.

(** ** Invitations *)

Section Invitations.
Context `{GoRuntime}.

(** Accepting an invitation: it succeeds only before the invitation expires
    and has been accepted, and not for a known user with another address; it
    makes the user a member with the invited role. *)
Theorem AcceptOrgInvitation_effect sys s token userID s' m :
  AcceptOrgInvitation sys s token userID = (s', Ok m) →
  ∃ inv, ms_orgInvitations s !! token = Some inv ∧ (sys_now sys 0 ≤ iv_ExpiresAt inv)%Z ∧
    iv_AcceptedAt inv = None ∧
    (∀ u, ms_users s !! userID = Some u → us_Email u ≠ "" → iv_Email inv ≠ "" →
       EqualFold (us_Email u) (iv_Email inv) = true) ∧
    GetOrgMember s' (iv_OrganizationID inv) userID = Ok m ∧ om_Role m = iv_Role inv ∧
    (∀ sys' u', is_ok (AcceptOrgInvitation sys' s' token u').2 = false).
Proof.
  unfold AcceptOrgInvitation at 1. destruct (ms_orgInvitations s !! token) as [inv|] eqn:Ei; [|done].
  destruct (Invitation_IsExpired _ inv) eqn:Ex; [done|].
  destruct (IsAccepted inv) eqn:Ea; [done|].
  destruct (wrong_address _ inv) eqn:Ew; [done|]. intros [= <- <-].
  exists inv. unfold Invitation_IsExpired, After, IsAccepted in *. simp_bool.
  split_and!; try done.
  - by destruct (iv_AcceptedAt inv).
  - intros u Hu Hne Hne'. rewrite Hu in Ew. unfold wrong_address in Ew.
    rewrite (proj2 (str_eqb_neq _ _) Hne), (proj2 (str_eqb_neq _ _) Hne') in Ew.
    simpl in Ew. by simp_bool.
  - unfold GetOrgMember, put_member. simpl. by rewrite lookup_insert_eq.
  - intros sys' u'. unfold AcceptOrgInvitation. simpl.
    rewrite !lookup_insert. case_decide; simpl; rewrite ?decide_True by done;
      by destruct (Invitation_IsExpired _ _).
Qed.

End Invitations.

Definition two_way_invitation : OrgInvitation :=
  mkInvitation "inv_id" "org_1" "Org" "" "inv_token" "admin" "" 2000 None 0.

(** An invitation is filed under two names, and accepting it under one does
    not mark the copy under the other: the identifier works as a token, and
    then the token admits a second user. *)
Theorem invitation_accepted_twice `{GoRuntime} :
  let sys := mkSys (λ _, 1000%Z) (λ _, "00") in
  let s := (CreateOrgInvitation sys NewMemoryStore two_way_invitation).1 in
  let '(s1, r1) := AcceptOrgInvitation sys s "inv_id" "mallory" in
  let '(s2, r2) := AcceptOrgInvitation sys s1 "inv_token" "trent" in
  is_ok r1 = true ∧ is_ok r2 = true ∧
  is_ok (GetOrgMember s2 "org_1" "mallory") = true ∧ is_ok (GetOrgMember s2 "org_1" "trent") = true.
Proof. vm_compute. done. Qed.

(** ** Organizations of a user *)

Definition acme : Organization := mkOrg "org_acme" "Acme Corp" "acme-corp" "" 0 0.

Definition stranger : User := mkUser "usr_9" "x@y" "" "Corp" "developer" "" 0 0 None.

Definition acme_store : MemoryStore :=
  NewMemoryStore <| ms_orgs := {[ "org_acme" := acme ]} |> <| ms_users := {[ "usr_9" := stranger ]} |>.

(** A user who is a member of no organization is nevertheless given every
    organization whose slug contains the slug of the user's display name. *)
Theorem ListUserOrganizations_by_name :
  let orgs := @ListUserOrganizations sample_runtime acme_store [("org_acme", acme)] "usr_9" in
  ms_orgMembers acme_store = ∅ ∧ orgs = [acme].
Proof. vm_compute. done. Qed.

(** ** Instances *)

Definition carol : User := mkUser "usr_carol" "carol@x" "old" "Carol" "developer" "" 0 0 None.

Definition with_carol : MemoryStore := (CreateUser (sys_at 5) NewMemoryStore carol).1.

Lemma users_stay_coherent_witness :
  users_coherent (ms_users (UpdateUserPassword (sys_at 9) with_carol "usr_carol" "new").1).
Proof.
  apply (users_stay_coherent with_carol); [|apply user_password].
  apply (users_stay_coherent NewMemoryStore); [apply map_Forall_empty|].
  apply (user_create NewMemoryStore (sys_at 5) carol); done.
Defined.

Definition carol_token : PasswordResetToken := mkResetToken "tok" "carol@x" 100 false 0.

Definition resetting : MemoryStore :=
  with_carol <| ms_passwordResetTokens := {[ "tok" := carol_token ]} |>
    <| ms_sessions := {[ "s1" := mkSession "s1" "usr_carol" None 100 0 ]} |>.

Lemma ResetPasswordWithToken_effect_witness :
  let s' := (ResetPasswordWithToken (sys_at 9) resetting "tok" "new").1 in
  ∃ t user, ms_passwordResetTokens resetting !! "tok" = Some t ∧ pr_Used t = false ∧
    (9 ≤ pr_ExpiresAt t)%Z ∧ ms_users resetting !! pr_Email t = Some user ∧
    (∃ user', ms_users s' !! us_ID user = Some user' ∧ us_PasswordHash user' = "new") ∧
    (∀ tok sess, ms_sessions s' !! tok = Some sess ↔
       ms_sessions resetting !! tok = Some sess ∧ ss_UserID sess ≠ us_ID user) ∧
    (∀ sys' h', ResetPasswordWithToken sys' s' "tok" h'
       = (s', Some (EText "reset token has already been used"))).
Proof. by apply (ResetPasswordWithToken_effect (sys_at 9) resetting "tok" "new"). Defined.

Definition demo_key (id hash : string) : APIKey :=
  mkAPIKey id "shop" "" "" "fl_" hash "CI" "developer" "usr_carol" 0 None false.

(** Two keys: the first one is revoked, the second one keeps working. *)
Definition two_keys : list (Sys * KeyOp) :=
  [(sys_at 5, KCreate (demo_key "key_1" "hash_1")); (sys_at 5, KCreate (demo_key "key_2" "hash_2"))].

Lemma revocation_is_final_witness :
  let s' := (RevokeAPIKey (sys_at 6) (run_key_ops NewMemoryStore two_keys) "key_1" "ada").1 in
  ∃ s'' k, GetAPIKeyByHash (sys_at 11) (run_key_ops s' [(sys_at 9, KUse "hash_1")]) "hash_2" = (s'', Ok k) ∧
    ak_ID k ≠ "key_1".
Proof.
  intros s'. destruct (GetAPIKeyByHash _ _ _) as [s'' [k|e]] eqn:E; [|by vm_compute in E].
  exists s'', k. split; [reflexivity|].
  refine (revocation_is_final (sys_at 6) two_keys "key_1" "ada" [(sys_at 9, KUse "hash_1")] s'
    _ _ _ _ _ _ E).
  - subst s'. vm_compute. reflexivity.
  - repeat constructor.
Defined.

Lemma CreateOrganization_conservative_witness :
  let s' := (CreateOrganization (sys_at 9) acme_store (mkOrg "" "Bakery" "bakery" "" 0 0)).1 in
  ∃ o, (∀ x o', ms_orgs acme_store !! x = Some o' → GetOrganization s' x = Ok o') ∧
    GetOrganization s' (og_ID o) = Ok o ∧ GetOrganization s' (og_Slug o) = Ok o.
Proof.
  destruct (CreateOrganization _ _ _) as [s' [o|e]] eqn:E; [|by vm_compute in E].
  exists o. exact (CreateOrganization_conservative (sys_at 9) acme_store _ s' o E).
Defined.

Definition inviting : MemoryStore :=
  with_carol <| ms_orgInvitations := {[ "tok" :=
    mkInvitation "inv_1" "org_acme" "Acme" "Carol@X" "tok" "admin" "" 100 None 0 ]} |>.

Lemma AcceptOrgInvitation_effect_witness :
  ∃ s' m inv, AcceptOrgInvitation (H := sample_runtime) (sys_at 9) inviting "tok" "usr_carol" = (s', Ok m) ∧
    ms_orgInvitations inviting !! "tok" = Some inv ∧
    GetOrgMember s' (iv_OrganizationID inv) "usr_carol" = Ok m ∧ om_Role m = iv_Role inv.
Proof.
  destruct (AcceptOrgInvitation (H := sample_runtime) (sys_at 9) inviting "tok" "usr_carol")
    as [s' [m|e]] eqn:E; [|by vm_compute in E].
  destruct (AcceptOrgInvitation_effect _ _ _ _ s' m E) as (inv & Hi & _ & _ & _ & Hm & Hr & _).
  by exists s', m, inv.
Defined.
