(* ===== verification/CircuitBreakers.v ===== *)
(** * The circuit breakers of the two Go clients
    ([pkg/client/circuit_breaker.go], [sdks/go/circuit_breaker.go])

    Each breaker is a state machine; an operation takes the clock readings it
    makes.  Both run under the breaker's mutex, so concurrent use is a sequence
    of operations. *)

From S2P Require Import Prelude GoFloat GoStrings GoTime.

Inductive CircuitState := StateClosed | StateOpen | StateHalfOpen.

#[export] Instance CircuitState_eq_dec : EqDecision CircuitState.
Proof. solve_decision. Defined.

(** An [int] after [++]. *)
Definition incr (n : Z) : Z := wrap_i64 (n + 1).

(** ** The breaker of [pkg/client] *)

Module ClientBreaker.

Record CircuitBreaker := mkBreaker {
  cb_state : CircuitState;
  cb_failureCount : Z;
  cb_consecutiveSucc : Z;
  cb_failureThreshold : Z;
  cb_cooldown : Duration;
  cb_lastStateChange : Time;
}.

#[export] Instance eta_CircuitBreaker : Eta CircuitBreaker :=
  {| eta_expand r := mkBreaker (cb_state r) (cb_failureCount r) (cb_consecutiveSucc r)
       (cb_failureThreshold r) (cb_cooldown r) (cb_lastStateChange r) |}.

Definition NewCircuitBreaker (now : Time) (threshold : Z) (cooldown : Duration) : CircuitBreaker :=
  let threshold := if (threshold <=? 0)%Z then 5%Z else threshold in
  let cooldown := if (cooldown <=? 0)%Z then (10 * Second)%Z else cooldown in
  mkBreaker StateClosed 0 0 threshold cooldown now.

Definition cooled (now : Time) (cb : CircuitBreaker) : bool :=
  (cb_cooldown cb <=? time_sub now (cb_lastStateChange cb))%Z.

Definition enter (st : CircuitState) (now : Time) (cb : CircuitBreaker) : CircuitBreaker :=
  cb <| cb_state := st |> <| cb_lastStateChange := now |>.

(** [now] is the reading of [time.Since], [now'] the later one of
    [time.Now]. *)
Definition State (now now' : Time) (cb : CircuitBreaker) : CircuitBreaker * CircuitState :=
  let cb :=
    if bool_decide (cb_state cb = StateOpen) && cooled now cb
    then enter StateHalfOpen now' cb else cb in
  (cb, cb_state cb).

Definition Allow (now now' : Time) (cb : CircuitBreaker) : CircuitBreaker * bool :=
  match cb_state cb with
  | StateClosed => (cb, true)
  | StateOpen => if cooled now cb then (enter StateHalfOpen now' cb, true) else (cb, false)
  | StateHalfOpen => (cb, true)
  end.

Definition OnSuccess (now : Time) (cb : CircuitBreaker) : CircuitBreaker :=
  match cb_state cb with
  | StateHalfOpen =>
      let cb := cb <| cb_consecutiveSucc := incr (cb_consecutiveSucc cb) |> in
      if (2 <=? cb_consecutiveSucc cb)%Z then
        enter StateClosed now (cb <| cb_failureCount := 0%Z |> <| cb_consecutiveSucc := 0%Z |>)
      else cb
  | StateClosed => cb <| cb_failureCount := 0%Z |>
  | StateOpen => cb
  end.

Definition OnFailure (now : Time) (cb : CircuitBreaker) : CircuitBreaker :=
  let cb := cb <| cb_failureCount := incr (cb_failureCount cb) |>
               <| cb_consecutiveSucc := 0%Z |> in
  if bool_decide (cb_state cb = StateHalfOpen) ||
     (cb_failureThreshold cb <=? cb_failureCount cb)%Z
  then enter StateOpen now cb else cb.

(** *** Traces of operations *)

Inductive event := EvState | EvAllow | EvSuccess | EvFailure.

(** The breaker after an operation at time [now], and what [Allow] said. *)
Definition step (cb : CircuitBreaker) (te : Time * event) : CircuitBreaker * option bool :=
  match te.2 with
  | EvState => ((State te.1 te.1 cb).1, None)
  | EvAllow => let '(cb, b) := Allow te.1 te.1 cb in (cb, Some b)
  | EvSuccess => (OnSuccess te.1 cb, None)
  | EvFailure => (OnFailure te.1 cb, None)
  end.

Fixpoint run (cb : CircuitBreaker) (l : list (Time * event)) : CircuitBreaker * list bool :=
  match l with
  | [] => (cb, [])
  | te :: l =>
      let '(cb, r) := step cb te in
      let '(cb, rs) := run cb l in
      (cb, match r with Some b => b :: rs | None => rs end)
  end.

(** The state every sequence of operations keeps: sensible limits, a closed
    breaker is below its threshold, successes are counted only when half
    open. *)
Record breaker_ok (cb : CircuitBreaker) : Prop := {
  ok_threshold : (0 < cb_failureThreshold cb)%Z;
  ok_cooldown : (0 < cb_cooldown cb)%Z;
  ok_succ : (0 ≤ cb_consecutiveSucc cb < 2)%Z;
  ok_succ_half : cb_state cb ≠ StateHalfOpen → cb_consecutiveSucc cb = 0%Z;
  ok_closed : cb_state cb = StateClosed → (cb_failureCount cb < cb_failureThreshold cb)%Z;
}.

Lemma New_ok now threshold cooldown : breaker_ok (NewCircuitBreaker now threshold cooldown).
Proof.
  unfold NewCircuitBreaker, Second.
  split; simpl; repeat case_if; simp_bool; try done; lia.
Qed.

Ltac breaker_cases :=
  repeat case_if; simp_bool; split; simpl; intros; try discriminate; auto; try lia;
  try congruence.

Lemma step_ok cb te : breaker_ok cb → breaker_ok (step cb te).1.
Proof.
  destruct cb as [st f c t d l]. destruct te as [now e]. intros [H1 H2 H3 H4 H5]. simpl in *.
  destruct e; unfold step; simpl.
  - unfold State. destruct st; simpl; breaker_cases.
  - unfold Allow. destruct st; simpl; breaker_cases.
  - unfold OnSuccess. destruct st; simpl; try (unfold incr; rewrite wrap_i64_small by lia);
      breaker_cases.
  - unfold OnFailure. destruct st; simpl; breaker_cases.
Qed.

Lemma run_ok cb l : breaker_ok cb → breaker_ok (run cb l).1.
Proof.
  revert cb. induction l as [|te l IH]; intros cb Hok; simpl; [done|].
  pose proof (step_ok cb te Hok) as Hs. destruct (step cb te) as [cb1 r]. simpl in Hs.
  specialize (IH cb1 Hs). by destruct (run cb1 l) as [cb2 rs].
Qed.

(** The client's breaker keeps its invariant along every sequence of
    operations from a new breaker, whatever parameters it was created with. *)
Theorem client_breaker_invariant now threshold cooldown l :
  breaker_ok (run (NewCircuitBreaker now threshold cooldown) l).1.
Proof. apply run_ok, New_ok. Qed.

Definition failures (now : Time) (n : nat) : list (Time * event) := replicate n (now, EvFailure).

Lemma run_app cb l1 l2 :
  run cb (l1 ++ l2)
  = ((run (run cb l1).1 l2).1, (run cb l1).2 ++ (run (run cb l1).1 l2).2).
Proof.
  revert cb. induction l1 as [|te l1 IH]; intros cb; simpl; [by destruct (run cb l2)|].
  destruct (step cb te) as [cb1 r]. rewrite IH. destruct (run cb1 l1) as [cb2 rs]. simpl.
  by destruct r.
Qed.

Lemma failures_below cb now n :
  breaker_ok cb → cb_state cb = StateClosed →
  (0 ≤ cb_failureCount cb)%Z → (cb_failureThreshold cb < 2 ^ 63)%Z →
  (cb_failureCount cb + Z.of_nat n < cb_failureThreshold cb)%Z →
  (run cb (failures now n)).1
  = cb <| cb_failureCount := (cb_failureCount cb + Z.of_nat n)%Z |> .
Proof.
  intros Hok Hst Hf Ht. induction n as [|n IH]; intros Hn.
  - destruct cb. simpl. by rewrite Z.add_0_r.
  - unfold failures in *. rewrite replicate_S_end, run_app. simpl. rewrite IH by lia.
    unfold OnFailure. simpl. rewrite Hst. simpl. unfold incr. rewrite wrap_i64_small by lia.
    destruct (cb_failureThreshold cb <=? _)%Z eqn:E; simp_bool; [lia|].
    pose proof (ok_succ_half cb Hok ltac:(by rewrite Hst)) as Hsucc.
    destruct cb. simpl in *. subst. f_equal. lia.
Qed.

(** A closed breaker that has seen no failure since its last success opens at
    exactly its threshold of consecutive failures, and not before. *)
Theorem client_breaker_trips cb now n :
  breaker_ok cb → cb_state cb = StateClosed → cb_failureCount cb = 0%Z →
  (cb_failureThreshold cb < 2 ^ 63)%Z → (Z.of_nat n ≤ cb_failureThreshold cb)%Z →
  cb_state (run cb (failures now n)).1
  = if (Z.of_nat n =? cb_failureThreshold cb)%Z then StateOpen else StateClosed.
Proof.
  intros Hok Hst Hf Ht Hn. destruct (Z.of_nat n =? cb_failureThreshold cb)%Z eqn:E; simp_bool.
  - destruct n as [|n]; [pose proof (ok_threshold cb Hok); lia|].
    unfold failures. rewrite replicate_S_end, run_app. simpl.
    change (replicate n (now, EvFailure)) with (failures now n).
    rewrite failures_below by (done || lia).
    unfold OnFailure. simpl. rewrite Hst. simpl. unfold incr. rewrite wrap_i64_small by lia.
    destruct (cb_failureThreshold cb <=? _)%Z eqn:E'; simp_bool; [done|lia].
  - rewrite failures_below by (done || lia). done.
Qed.

(** While the breaker is open and every operation comes before the cool-down has
    passed since [since], it stays open. *)
Lemma run_open cb since l :
  cb_state cb = StateOpen → (since ≤ cb_lastStateChange cb)%Z →
  (cb_cooldown cb ≤ max_duration)%Z →
  Forall (λ te, (since ≤ te.1 < since + cb_cooldown cb)%Z) l →
  cb_state (run cb l).1 = StateOpen ∧ Forall (λ b, b = false) (run cb l).2.
Proof.
  intros Hst Hs Hd Hl. revert cb Hst Hs Hd Hl.
  induction l as [|[now e] l IH]; intros cb Hst Hs Hd Hl; simpl; [done|].
  apply Forall_cons in Hl as [Hn Hl]. simpl in Hn.
  assert (cooled now cb = false) as Hc.
  { unfold cooled, time_sub, max_duration, min_duration in *. apply Z.leb_gt. lia. }
  assert (∃ cb1 r, step cb (now, e) = (cb1, r) ∧ cb_state cb1 = StateOpen ∧
    (since ≤ cb_lastStateChange cb1)%Z ∧ cb_cooldown cb1 = cb_cooldown cb ∧
    (r = None ∨ r = Some false)) as (cb1 & r & -> & Hst1 & Hs1 & Hd1 & Hr).
  { unfold step. destruct e; simpl.
    - unfold State. rewrite Hc, andb_false_r. simpl. eexists _, _. by repeat split; auto.
    - unfold Allow. rewrite Hst, Hc. eexists _, _. by repeat split; auto.
    - unfold OnSuccess. rewrite Hst. eexists _, _. by repeat split; auto.
    - unfold OnFailure. simpl. case_if; eexists _, _; repeat split; simpl; auto; lia. }
  destruct (IH cb1) as [Hst2 Hb]; [done|done|lia|by rewrite Hd1|].
  destruct (run cb1 l) as [cb2 rs]. simpl in *. split; [done|].
  by destruct Hr as [-> | ->]; [|constructor].
Qed.

(** An open breaker fails fast: until its cool-down has passed, every request
    is refused, whatever results of earlier requests still arrive. *)
Theorem client_breaker_fails_fast cb l :
  cb_state cb = StateOpen → (cb_cooldown cb ≤ max_duration)%Z →
  Forall (λ te, (cb_lastStateChange cb ≤ te.1 < cb_lastStateChange cb + cb_cooldown cb)%Z) l →
  Forall (λ b, b = false) (run cb l).2.
Proof. intros Hst Hd Hl. by apply (run_open cb (cb_lastStateChange cb)). Qed.

(** An open breaker recovers: after the cool-down a request is let through,
    two successes in a row close it with its counters reset, and a failure
    opens it again. *)
Theorem client_breaker_recovers cb now :
  breaker_ok cb → cb_state cb = StateOpen → (cb_cooldown cb ≤ max_duration)%Z →
  (cb_lastStateChange cb + cb_cooldown cb ≤ now)%Z →
  let '(half, allowed) := Allow now now cb in
  allowed = true ∧ cb_state half = StateHalfOpen ∧
  let closed := OnSuccess now (OnSuccess now half) in
  cb_state closed = StateClosed ∧ cb_failureCount closed = 0%Z ∧ cb_consecutiveSucc closed = 0%Z ∧
  cb_state (OnFailure now half) = StateOpen.
Proof.
  intros Hok Hst Hd Hn. unfold Allow. rewrite Hst.
  assert (cooled now cb = true) as ->.
  { unfold cooled, time_sub, max_duration, min_duration in *. apply Z.leb_le. lia. }
  pose proof (ok_succ_half cb Hok ltac:(by rewrite Hst)) as Hsucc.
  destruct cb. simpl in *. subst. unfold OnSuccess, OnFailure, incr. simpl. done.
Qed.

End ClientBreaker.

(** ** The breaker of [sdks/go] *)

Module SdkBreaker.

Record SdkCircuitBreaker := mkSdkBreaker {
  sb_state : CircuitState;
  sb_failureCount : Z;
  sb_threshold : Z;
  sb_cooldown : Duration;
  sb_lastFailure : Time;
  sb_halfOpenInFlight : bool;
}.

#[export] Instance eta_SdkCircuitBreaker : Eta SdkCircuitBreaker :=
  {| eta_expand r := mkSdkBreaker (sb_state r) (sb_failureCount r) (sb_threshold r)
       (sb_cooldown r) (sb_lastFailure r) (sb_halfOpenInFlight r) |}.

Definition sdk_NewCircuitBreaker (threshold : Z) (cooldown : Duration) : SdkCircuitBreaker :=
  let threshold := if (threshold <=? 0)%Z then 5%Z else threshold in
  let cooldown := if (cooldown <=? 0)%Z then (10 * Second)%Z else cooldown in
  mkSdkBreaker StateClosed 0 threshold cooldown time_zero false.

Definition sdk_cooled (now : Time) (cb : SdkCircuitBreaker) : bool :=
  (sb_cooldown cb <=? time_sub now (sb_lastFailure cb))%Z.

Definition sdk_Allow (now : Time) (cb : SdkCircuitBreaker) : SdkCircuitBreaker * bool :=
  match sb_state cb with
  | StateClosed => (cb, true)
  | StateOpen =>
      if sdk_cooled now cb
      then (cb <| sb_state := StateHalfOpen |> <| sb_halfOpenInFlight := true |>, true)
      else (cb, false)
  | StateHalfOpen =>
      if negb (sb_halfOpenInFlight cb) then (cb <| sb_halfOpenInFlight := true |>, true)
      else (cb, false)
  end.

Definition RecordSuccess (cb : SdkCircuitBreaker) : SdkCircuitBreaker :=
  cb <| sb_failureCount := 0%Z |> <| sb_halfOpenInFlight := false |> <| sb_state := StateClosed |>.

Definition RecordFailure (now : Time) (cb : SdkCircuitBreaker) : SdkCircuitBreaker :=
  let cb := cb <| sb_lastFailure := now |> in
  if bool_decide (sb_state cb = StateHalfOpen)
  then cb <| sb_state := StateOpen |> <| sb_halfOpenInFlight := false |>
  else
    let cb := cb <| sb_failureCount := incr (sb_failureCount cb) |> in
    if (sb_threshold cb <=? sb_failureCount cb)%Z
    then cb <| sb_state := StateOpen |> <| sb_halfOpenInFlight := false |> else cb.

Definition sdk_State (now : Time) (cb : SdkCircuitBreaker) : SdkCircuitBreaker * CircuitState :=
  let cb :=
    if bool_decide (sb_state cb = StateOpen) && sdk_cooled now cb
    then cb <| sb_state := StateHalfOpen |> else cb in
  (cb, sb_state cb).

(** *** Traces of operations *)

Inductive sdk_event := SAllow | SState | SSuccess | SFailure.

#[export] Instance sdk_event_eq_dec : EqDecision sdk_event.
Proof. solve_decision. Defined.

Definition sdk_step (cb : SdkCircuitBreaker) (te : Time * sdk_event)
    : SdkCircuitBreaker * option bool :=
  match te.2 with
  | SAllow => let '(cb, b) := sdk_Allow te.1 cb in (cb, Some b)
  | SState => ((sdk_State te.1 cb).1, None)
  | SSuccess => (RecordSuccess cb, None)
  | SFailure => (RecordFailure te.1 cb, None)
  end.

Fixpoint sdk_run (cb : SdkCircuitBreaker) (l : list (Time * sdk_event))
    : SdkCircuitBreaker * list bool :=
  match l with
  | [] => (cb, [])
  | te :: l =>
      let '(cb, r) := sdk_step cb te in
      let '(cb, rs) := sdk_run cb l in
      (cb, match r with Some b => b :: rs | None => rs end)
  end.

(** A probe is in flight only while the breaker is half open. *)
Definition probe_ok (cb : SdkCircuitBreaker) : Prop :=
  sb_halfOpenInFlight cb = true → sb_state cb = StateHalfOpen.

Lemma sdk_step_probe_ok cb te : probe_ok cb → probe_ok (sdk_step cb te).1.
Proof.
  destruct cb as [st f t d l p]. destruct te as [now e]. unfold probe_ok. intros Hp. simpl in *.
  destruct e; unfold sdk_step, sdk_Allow, sdk_State, RecordFailure; simpl; try done;
    destruct st; simpl; repeat case_if; simpl; auto; try discriminate;
    intros E; by apply Hp in E.
Qed.

Lemma sdk_run_probe_ok cb l : probe_ok cb → probe_ok (sdk_run cb l).1.
Proof.
  revert cb. induction l as [|te l IH]; intros cb Hp; simpl; [done|].
  pose proof (sdk_step_probe_ok cb te Hp) as Hs. destruct (sdk_step cb te) as [cb1 r]. simpl in Hs.
  specialize (IH cb1 Hs). by destruct (sdk_run cb1 l) as [cb2 rs].
Qed.

Definition is_query (te : Time * sdk_event) : Prop := te.2 = SAllow ∨ te.2 = SState.

Definition count_true (l : list bool) : nat := length (filter (λ b, b = true) l).

Lemma count_true_cons b l : count_true (b :: l) = ((if b then 1 else 0) + count_true l)%nat.
Proof. unfold count_true. rewrite filter_cons. by destruct b. Qed.

Lemma count_true_replicate n : count_true (replicate n false) = 0%nat.
Proof. induction n as [|n IH]; [done|]. simpl. by rewrite count_true_cons, IH. Qed.

Lemma no_probe_while_in_flight cb l :
  sb_state cb = StateHalfOpen → sb_halfOpenInFlight cb = true → Forall is_query l →
  sdk_run cb l = (cb, replicate (length (sdk_run cb l).2) false).
Proof.
  intros Hst Hp Hl. induction Hl as [|[now e] l He _ IH]; [done|]. simpl.
  assert (sdk_step cb (now, e) = (cb, if bool_decide (e = SAllow) then Some false else None)) as ->.
  { unfold sdk_step, sdk_Allow, sdk_State. simpl. rewrite Hst, Hp. simpl.
    by destruct He as [He|He]; simpl in He; subst e. }
  rewrite IH. case_if; simpl; by rewrite ?length_replicate.
Qed.

Lemma probes_at_most_one cb l :
  sb_state cb ≠ StateClosed → probe_ok cb → Forall is_query l →
  (count_true (sdk_run cb l).2 ≤ 1)%nat.
Proof.
  intros Hst Hp Hl. revert cb Hst Hp. induction Hl as [|[now e] l He Hl IH]; intros cb Hst Hp.
  { simpl. unfold count_true. simpl. lia. }
  simpl. pose proof (sdk_step_probe_ok cb (now, e) Hp) as Hp1.
  assert (sb_state (sdk_step cb (now, e)).1 ≠ StateClosed ∧
    ((sdk_step cb (now, e)).2 = Some true →
     sb_state (sdk_step cb (now, e)).1 = StateHalfOpen ∧
     sb_halfOpenInFlight (sdk_step cb (now, e)).1 = true)) as [Hst1 Hb].
  { unfold sdk_step, sdk_Allow, sdk_State.
    destruct He as [He|He]; simpl in He; subst e; simpl; destruct cb as [st f t d lf p]; simpl in *;
      destruct st; simpl; repeat case_if; simpl; simp_bool; try done. }
  destruct (sdk_step cb (now, e)) as [cb1 r]. simpl in *.
  destruct r as [[]|]; simpl in *.
  - destruct (Hb eq_refl) as [Hh Hi]. rewrite (no_probe_while_in_flight cb1 l Hh Hi Hl).
    cbn [snd]. rewrite count_true_cons, count_true_replicate. lia.
  - specialize (IH cb1 Hst1 Hp1). destruct (sdk_run cb1 l) as [cb2 rs]. simpl in *.
    by rewrite count_true_cons.
  - specialize (IH cb1 Hst1 Hp1). by destruct (sdk_run cb1 l) as [cb2 rs].
Qed.

(** The SDK's breaker lets at most one probe through: in any state that is
    not closed and that some sequence of operations reaches, requests are
    answered with at most one permission until a result is recorded. *)
Theorem sdk_breaker_single_probe threshold cooldown past l :
  let cb := (sdk_run (sdk_NewCircuitBreaker threshold cooldown) past).1 in
  sb_state cb ≠ StateClosed → Forall is_query l →
  (count_true (sdk_run cb l).2 ≤ 1)%nat.
Proof.
  intros cb Hst Hl. apply probes_at_most_one; [done| |done].
  subst cb. apply sdk_run_probe_ok. done.
Qed.

(** The SDK's breaker recovers: a success closes it from any state and
    clears its counters, and a failed probe opens it again for a full
    cool-down. *)
Theorem sdk_breaker_recovers cb now :
  let closed := RecordSuccess cb in
  sb_state closed = StateClosed ∧ sb_failureCount closed = 0%Z ∧
  sb_halfOpenInFlight closed = false ∧
  (sb_state cb = StateHalfOpen → (sb_cooldown cb ≤ max_duration)%Z →
   let reopened := RecordFailure now cb in
   sb_state reopened = StateOpen ∧
   ∀ t, (now ≤ t < now + sb_cooldown cb)%Z → sdk_Allow t reopened = (reopened, false)).
Proof.
  split_and!; try done. intros Hst Hd. unfold RecordFailure. simpl. rewrite Hst. simpl.
  split; [done|]. intros t Ht. unfold sdk_Allow, sdk_cooled. simpl.
  destruct (_ <=? _)%Z eqn:E; [|done]. simp_bool.
  unfold time_sub, max_duration, min_duration in *. lia.
Qed.

End SdkBreaker.

(** The client's breaker does not limit probes: while it is half open every
    request passes, where the SDK's lets one through. *)
Theorem client_breaker_unlimited_probes cb now n :
  ClientBreaker.cb_state cb = StateHalfOpen →
  ClientBreaker.run cb (replicate n (now, ClientBreaker.EvAllow)) = (cb, replicate n true).
Proof.
  intros Hst. induction n as [|n IH]; [done|]. simpl. unfold ClientBreaker.step. simpl.
  unfold ClientBreaker.Allow. rewrite Hst. by rewrite IH.
Qed.

(** ** Instances *)

Module BreakerInstances.
Import ClientBreaker SdkBreaker.

Definition fresh : CircuitBreaker := NewCircuitBreaker 0 3 1000.
Definition tripped : CircuitBreaker := (run fresh (failures 5 3)).1.

Lemma tripped_ok : breaker_ok tripped.
Proof. apply run_ok, New_ok. Qed.

Lemma client_breaker_trips_witness :
  cb_state (run fresh (failures 5 3)).1 = StateOpen ∧
  cb_state (run fresh (failures 5 2)).1 = StateClosed.
Proof.
  split; [apply (client_breaker_trips fresh 5 3)|apply (client_breaker_trips fresh 5 2)];
    first [apply New_ok | done].
Defined.

Lemma client_breaker_fails_fast_witness :
  Forall (λ b, b = false)
    (run tripped [(6, EvAllow); (7, EvFailure); (8, EvSuccess); (1004, EvAllow)]%Z).2.
Proof.
  apply client_breaker_fails_fast; [done|done|].
  change (cb_lastStateChange tripped) with 5%Z. change (cb_cooldown tripped) with 1000%Z.
  repeat constructor; simpl; lia.
Defined.

Lemma client_breaker_recovers_witness :
  let '(half, allowed) := Allow 1005 1005 tripped in
  allowed = true ∧ cb_state half = StateHalfOpen ∧
  let closed := OnSuccess 1005 (OnSuccess 1005 half) in
  cb_state closed = StateClosed ∧ cb_failureCount closed = 0%Z ∧ cb_consecutiveSucc closed = 0%Z ∧
  cb_state (OnFailure 1005 half) = StateOpen.
Proof. apply (client_breaker_recovers tripped 1005); [apply tripped_ok|done..]. Defined.

Lemma sdk_breaker_single_probe_witness :
  let cb := (sdk_run (sdk_NewCircuitBreaker 1 1000) [(5, SFailure)]%Z).1 in
  (count_true (sdk_run cb [(2000, SAllow); (2001, SAllow); (2002, SState); (2003, SAllow)]%Z).2 ≤ 1)%nat.
Proof.
  apply (sdk_breaker_single_probe 1 1000 [(5, SFailure)]%Z); [done|].
  repeat constructor; by (left + right).
Defined.

Definition probing : SdkCircuitBreaker :=
  (sdk_run (sdk_NewCircuitBreaker 1 1000) [(5, SFailure); (2000, SAllow)]%Z).1.

Lemma sdk_breaker_recovers_witness :
  sb_state (RecordFailure 2100 probing) = StateOpen ∧
  sdk_Allow 3000 (RecordFailure 2100 probing) = (RecordFailure 2100 probing, false).
Proof.
  destruct (sdk_breaker_recovers probing 2100) as (_ & _ & _ & Hr).
  destruct (Hr eq_refl ltac:(done)) as [Ho Ha]. split; [exact Ho|].
  apply Ha. change (sb_cooldown probing) with 1000%Z. lia.
Defined.

End BreakerInstances.
