(* ===== verification/Scheduler.v ===== *)
(** * The canary scheduler

    [pkg/canary/scheduler.go] and what it promises. *)

From S2P Require Import Prelude GoFloat GoStrings GoTime Sha256 Errors Domain Engine Buckets EngineFacts.
From S2P Require Import Entities StoreState StoreAudit StoreFlags StoreFlagsFacts StoreTables.

(** * The canary scheduler ([pkg/canary/scheduler.go])

    The scheduler drives progressive rollouts through the store.  It is modelled
    against the interface [CanaryStore], the part of [store.Store] it calls; the
    in-memory store implements it.  The server always constructs the scheduler
    with a store, so the store is not nil.  Broadcasts are collected in order.
    A [Stages] slice is a value here; in the code the scheduler and the
    in-memory store share its backing array. *)

(** ** The interface *)

Class CanaryStore (St : Type) := {
  cst_UpdateRolloutByProject :
    Sys → St → string → string → Environment → f64 → string →
    St * result GoError (FeatureFlag * AuditLogEntry);
  cst_SaveCanarySchedule : Sys → St → CanarySchedule → St * option GoError;
  cst_GetCanarySchedule : St → string → string → result GoError (option CanarySchedule);
  cst_ListActiveCanarySchedules : St → result GoError (list CanarySchedule);
  cst_DeleteCanarySchedule : St → string → string → St * option GoError;
}.

(** What a store promises: in a valid store, and for names it accepts, the
    percentage [pct_of] it serves for a flag in an environment is the one of the
    last successful rollout; saving schedules does not change it; both keep the
    store valid. *)
Class CanaryStoreLaws (St : Type) `{CanaryStore St} := {
  store_valid : St → Prop;
  name_ok : string → string → Prop;
  pct_of : St → string → string → Environment → option f64;
  law_rollout sys s p k env pct actor s' r :
    store_valid s → name_ok p k → env ≠ "" →
    cst_UpdateRolloutByProject sys s p k env pct actor = (s', Ok r) →
    store_valid s' ∧ pct_of s' p k env = Some (clamp_pct pct);
  law_save sys s sched :
    store_valid s →
    store_valid (cst_SaveCanarySchedule sys s sched).1 ∧
    ∀ p k env, pct_of (cst_SaveCanarySchedule sys s sched).1 p k env = pct_of s p k env;
}.

Inductive BroadcastEvent :=
| canary_update (sched : CanarySchedule)
| canary_completed (projectID flagKey : string)
| canary_stage_advanced (projectID flagKey : string) (stage_index : nat) (target_percentage : f64)
| canary_rollback (projectID flagKey reason : string).

Section Scheduler.
Context {St : Type} `{CanaryStore St}.

Record CanaryScheduler := mkScheduler {
  sch_schedules : gmap string CanarySchedule;
  sch_store : St;
  sch_broadcaster : bool;
  sch_broadcasts : list BroadcastEvent;
}.

#[local] Instance eta_CanaryScheduler : Eta CanaryScheduler :=
  {| eta_expand r := mkScheduler (sch_schedules r) (sch_store r) (sch_broadcaster r)
       (sch_broadcasts r) |}.

Definition NewCanaryScheduler (st : St) (b : bool) : CanaryScheduler := mkScheduler ∅ st b [].

Definition scheduleKey (projectID flagKey : string) : string :=
  or_default projectID DefaultProjectID +:+ ":" +:+ flagKey.

(** [if cs.broadcaster != nil { cs.broadcaster.Broadcast(...) }]. *)
Definition broadcast (e : BroadcastEvent) (cs : CanaryScheduler) : CanaryScheduler :=
  if sch_broadcaster cs then cs <| sch_broadcasts := sch_broadcasts cs ++ [e] |> else cs.

Definition set_schedule (key : string) (sched : CanarySchedule) (cs : CanaryScheduler)
    : CanaryScheduler :=
  cs <| sch_schedules := <[key := sched]> (sch_schedules cs) |>.

(** [_ = cs.store.SaveCanarySchedule(ctx, sched)]. *)
Definition save_ignoring (sys : Sys) (sched : CanarySchedule) (cs : CanaryScheduler)
    : CanaryScheduler :=
  cs <| sch_store := (cst_SaveCanarySchedule sys (sch_store cs) sched).1 |>.

Definition auto_actor : string := "canary-scheduler-auto".

(** The submitted schedule with its defaults and its first stage started. *)
Definition prepared (now : Time) (sched : CanarySchedule) (first : CanaryStage)
    (rest : list CanaryStage) : CanarySchedule :=
  let id :=
    if cs_ID sched =s? "" then "canary_" +:+ cs_FlagKey sched +:+ "_" +:+ Itoa (now / Second)
    else cs_ID sched in
  sched <| cs_ID := id |> <| cs_ProjectID := or_default (cs_ProjectID sched) DefaultProjectID |>
        <| cs_Environment := or_default (cs_Environment sched) EnvProduction |>
        <| cs_Status := CanaryStatusActive |> <| cs_CurrentStageIdx := 0%nat |>
        <| cs_CreatedAt := now |> <| cs_UpdatedAt := now |> <| cs_LastEvaluatedAt := now |>
        <| cs_Stages := first <| cg_StartedAt := now |> :: rest |>.

Definition SubmitSchedule (sys sys1 sys2 : Sys) (cs : CanaryScheduler) (sched : CanarySchedule)
    : CanaryScheduler * result GoError CanarySchedule :=
  let now := sys_now sys 0 in
  match cs_Stages sched with
  | [] => (cs, Err (EText "canary schedule must contain at least 1 stage"))
  | first :: rest =>
      let sched := prepared now sched first rest in
      let cs := set_schedule (scheduleKey (cs_ProjectID sched) (cs_FlagKey sched)) sched cs in
      let '(st, r) := cst_UpdateRolloutByProject sys1 (sch_store cs) (cs_ProjectID sched)
        (cs_FlagKey sched) (cs_Environment sched) (cg_TargetPercentage first) auto_actor in
      let cs := cs <| sch_store := st |> in
      match r with
      | Err err =>
          (cs, Err (EWrap ("failed to apply initial canary rollout percentage: " +:+ Error err) err))
      | Ok _ =>
          let '(st, saved) := cst_SaveCanarySchedule sys2 (sch_store cs) sched in
          let cs := cs <| sch_store := st |> in
          match saved with
          | Some err => (cs, Err (EWrap ("failed to persist canary schedule: " +:+ Error err) err))
          | None => (broadcast (canary_update sched) cs, Ok sched)
          end
      end
  end.

(** A schedule the scheduler holds, or the store's, which it then adopts. *)
Definition lookup_schedule (cs : CanaryScheduler) (projectID flagKey : string)
    : CanaryScheduler * option CanarySchedule :=
  let key := scheduleKey projectID flagKey in
  match sch_schedules cs !! key with
  | Some sched => (cs, Some sched)
  | None =>
      match cst_GetCanarySchedule (sch_store cs) projectID flagKey with
      | Ok (Some sched) => (set_schedule key sched cs, Some sched)
      | _ => (cs, None)
      end
  end.

Definition GetSchedule (cs : CanaryScheduler) (projectID flagKey : string)
    : CanaryScheduler * option CanarySchedule :=
  lookup_schedule cs projectID flagKey.

Definition CancelSchedule (cs : CanaryScheduler) (projectID flagKey : string)
    : CanaryScheduler * bool :=
  let key := scheduleKey projectID flagKey in
  let found := bool_decide (is_Some (sch_schedules cs !! key)) in
  let cs := cs <| sch_schedules := delete key (sch_schedules cs) |> in
  match cst_GetCanarySchedule (sch_store cs) projectID flagKey with
  | Ok (Some _) =>
      (cs <| sch_store := (cst_DeleteCanarySchedule (sch_store cs) projectID flagKey).1 |>, true)
  | _ => (cs, found)
  end.

(** Take over the store's schedules that are new or newer. *)
Definition sync_one (cs : CanaryScheduler) (s : CanarySchedule) : CanaryScheduler :=
  let k := scheduleKey (cs_ProjectID s) (cs_FlagKey s) in
  match sch_schedules cs !! k with
  | None => set_schedule k s cs
  | Some existing =>
      if After (cs_UpdatedAt s) (cs_UpdatedAt existing) then set_schedule k s cs else cs
  end.

Definition sync_schedules (cs : CanaryScheduler) : CanaryScheduler :=
  match cst_ListActiveCanarySchedules (sch_store cs) with
  | Ok storeSchedules => foldl sync_one cs storeSchedules
  | Err _ => cs
  end.

Definition needs_attention (now : Time) (reason : string) (sched : CanarySchedule)
    : CanarySchedule :=
  sched <| cs_Status := CanaryStatusNeedsAttention |> <| cs_RollbackReason := reason |>
        <| cs_UpdatedAt := now |>.

(** One turn of the loop, for the schedule stored under [key]; the flag says
    whether it advanced a stage. *)
Definition evaluate_one (sys1 sys2 : Sys) (now : Time) (key : string) (cs : CanaryScheduler)
    : CanaryScheduler * bool :=
  match sch_schedules cs !! key with
  | None => (cs, false)
  | Some sched =>
      if negb (cs_Status sched =s? CanaryStatusActive) then (cs, false)
      else
        let sched := sched <| cs_LastEvaluatedAt := now |> in
        match CanAdvanceStage sched now with
        | (true, _, true) =>
            let sched := CommitStageAdvancement sched now in
            (broadcast (canary_completed (cs_ProjectID sched) (cs_FlagKey sched))
               (save_ignoring sys1 sched (set_schedule key sched cs)), false)
        | (true, Some nextStage, false) =>
            let '(st, r) := cst_UpdateRolloutByProject sys1 (sch_store cs) (cs_ProjectID sched)
              (cs_FlagKey sched) (cs_Environment sched) (cg_TargetPercentage nextStage)
              auto_actor in
            let cs := cs <| sch_store := st |> in
            match r with
            | Err err =>
                let sched :=
                  needs_attention now ("stage advancement failed to persist: " +:+ Error err) sched in
                (save_ignoring sys2 sched (set_schedule key sched cs), false)
            | Ok _ =>
                let sched := CommitStageAdvancement sched now in
                (broadcast (canary_stage_advanced (cs_ProjectID sched) (cs_FlagKey sched)
                              (cs_CurrentStageIdx sched) (cg_TargetPercentage nextStage))
                   (save_ignoring sys2 sched (set_schedule key sched cs)), true)
            end
        | _ => (set_schedule key sched cs, false)
        end
  end.

(** The loop over the keys in the order [keys] the runtime visits them; turn
    number [i] uses two of the outside worlds [sysf]. *)
Fixpoint evaluate_all (sysf : nat → Sys) (i : nat) (now : Time) (keys : list string)
    (cs : CanaryScheduler) : CanaryScheduler * nat :=
  match keys with
  | [] => (cs, 0%nat)
  | key :: keys' =>
      let '(cs, adv) := evaluate_one (sysf (2 * i)%nat) (sysf (2 * i + 1)%nat) now key cs in
      let '(cs, n) := evaluate_all sysf (S i) now keys' cs in
      (cs, ((if adv then 1 else 0) + n)%nat)
  end.

Definition EvaluateSchedules (sysf : nat → Sys) (now : Time)
    (order : gmap string CanarySchedule → list string) (cs : CanaryScheduler)
    : CanaryScheduler * nat :=
  let cs := sync_schedules cs in
  evaluate_all sysf 0 now (order (sch_schedules cs)) cs.

Definition TriggerHealthRollback (sys sys1 sys2 : Sys) (cs : CanaryScheduler)
    (projectID flagKey reason : string) : CanaryScheduler * option GoError :=
  let key := scheduleKey projectID flagKey in
  let '(cs, found) := lookup_schedule cs projectID flagKey in
  match found with
  | None =>
      (cs, Some (EText ("no active canary schedule for flag " +:+ flagKey +:+ " in project " +:+
                        projectID)))
  | Some sched =>
      let now := sys_now sys 0 in
      let '(st, r) := cst_UpdateRolloutByProject sys1 (sch_store cs) (cs_ProjectID sched)
        (cs_FlagKey sched) (cs_Environment sched) f64_zero "canary-health-rollback" in
      let cs := cs <| sch_store := st |> in
      match r with
      | Err err =>
          let sched := needs_attention now ("rollback failed to persist: " +:+ Error err) sched in
          (save_ignoring sys2 sched (set_schedule key sched cs),
           Some (EWrap ("failed to revert rollout to 0%: " +:+ Error err) err))
      | Ok _ =>
          let sched := sched <| cs_Status := CanaryStatusRolledBack |>
                             <| cs_RollbackReason := reason |> <| cs_UpdatedAt := now |> in
          (broadcast (canary_rollback (cs_ProjectID sched) (cs_FlagKey sched) reason)
             (save_ignoring sys2 sched (set_schedule key sched cs)), None)
      end
  end.

End Scheduler.

(** * What the canary scheduler guarantees *)

(** ** Schedules *)

(** The duration of a stage has passed. *)
Definition stage_over (stage : CanaryStage) (now : Time) : bool :=
  f64_leb (f64_of_Z (cg_DurationSec stage)) (Seconds (time_sub now (cg_StartedAt stage))).

(** An active schedule has a current stage; the index never passes the end, and
    a completed schedule is at the end. *)
Definition schedule_ok (cs : CanarySchedule) : Prop :=
  (cs_CurrentStageIdx cs ≤ length (cs_Stages cs))%nat ∧
  (cs_Status cs = CanaryStatusActive → (cs_CurrentStageIdx cs < length (cs_Stages cs))%nat) ∧
  (cs_Status cs = CanaryStatusCompleted → cs_CurrentStageIdx cs = length (cs_Stages cs)).

(** What [CanAdvanceStage] answers, case by case. *)
Lemma CanAdvanceStage_spec cs now can next completion :
  CanAdvanceStage cs now = (can, next, completion) →
  if can then
    cs_Status cs = CanaryStatusActive ∧
    (∃ stage, cs_Stages cs !! cs_CurrentStageIdx cs = Some stage ∧ stage_over stage now = true) ∧
    next = cs_Stages cs !! S (cs_CurrentStageIdx cs) ∧ completion = bool_decide (next = None)
  else next = None ∧ completion = false.
Proof.
  unfold CanAdvanceStage. destruct (cs_Status cs =s? CanaryStatusActive) eqn:Es; simpl;
    [|by intros [= <- <- <-]].
  destruct (cs_Stages cs !! cs_CurrentStageIdx cs) as [stage|] eqn:Ei; [|by intros [= <- <- <-]].
  fold (stage_over stage now). destruct (stage_over stage now) eqn:Eo; [|by intros [= <- <- <-]].
  simp_bool.
  destruct (cs_Stages cs !! S (cs_CurrentStageIdx cs)) as [n|] eqn:En; intros [= <- <- <-];
    split_and!; try done; by exists stage.
Qed.

Lemma CommitStageAdvancement_stages cs now :
  length (cs_Stages (CommitStageAdvancement cs now)) = length (cs_Stages cs).
Proof.
  unfold CommitStageAdvancement. destruct (cs_Stages cs !! cs_CurrentStageIdx cs); [|done].
  destruct (<[_ := _]> _ !! _); simpl; by rewrite !length_insert.
Qed.

Lemma CommitStageAdvancement_index cs now :
  (cs_CurrentStageIdx cs < length (cs_Stages cs))%nat →
  cs_CurrentStageIdx (CommitStageAdvancement cs now) = S (cs_CurrentStageIdx cs) ∧
  cs_Status (CommitStageAdvancement cs now)
    = if decide (S (cs_CurrentStageIdx cs) = length (cs_Stages cs))
      then CanaryStatusCompleted else cs_Status cs.
Proof.
  intros Hi. unfold CommitStageAdvancement.
  destruct (lookup_lt_is_Some_2 _ _ Hi) as [stage ->].
  rewrite list_lookup_insert_ne by lia.
  destruct (cs_Stages cs !! S (cs_CurrentStageIdx cs)) as [n|] eqn:En; simpl.
  - apply lookup_lt_Some in En. rewrite decide_False by lia. done.
  - apply lookup_ge_None in En. rewrite decide_True by lia. done.
Qed.

Lemma CommitStageAdvancement_ok cs now : schedule_ok cs → schedule_ok (CommitStageAdvancement cs now).
Proof.
  intros (Hl & Ha & Hc).
  destruct (decide (cs_CurrentStageIdx cs < length (cs_Stages cs))%nat) as [Hi|Hi].
  - destruct (CommitStageAdvancement_index cs now Hi) as [E1 E2].
    unfold schedule_ok. rewrite CommitStageAdvancement_stages, E1, E2.
    destruct (decide _) as [Hd|Hd]; [by split_and!; [lia| |]|].
    split_and!; [lia|lia|]. intros Hs. specialize (Hc Hs). lia.
  - unfold CommitStageAdvancement. by rewrite (proj2 (lookup_ge_None _ _)) by lia.
Qed.

(** One evaluation of a schedule by itself. *)
Definition advance (cs : CanarySchedule) (now : Time) : CanarySchedule := (NextStage cs now).1.

Lemma advance_spec cs now :
  advance cs now = (if (CanAdvanceStage cs now).1.1 then CommitStageAdvancement cs now else cs).
Proof.
  unfold advance, NextStage. destruct (CanAdvanceStage cs now) as [[can next] comp].
  by destruct can, comp.
Qed.

(** Evaluating a schedule moves it forward by at most one stage, only when it
    is active and the current stage's duration has passed, never backwards, and
    keeps it well formed: active exactly while a stage is left. *)
Theorem NextStage_safe cs now :
  schedule_ok cs →
  let cs' := (NextStage cs now).1 in
  schedule_ok cs' ∧
  (cs' = cs ∨
   cs_CurrentStageIdx cs' = S (cs_CurrentStageIdx cs) ∧ cs_Status cs = CanaryStatusActive ∧
   ∃ stage, cs_Stages cs !! cs_CurrentStageIdx cs = Some stage ∧ stage_over stage now = true).
Proof.
  intros Hok cs'. unfold cs'. fold (advance cs now). rewrite advance_spec.
  destruct (CanAdvanceStage cs now) as [[can next] comp] eqn:E.
  pose proof (CanAdvanceStage_spec _ _ _ _ _ E) as Hs. simpl. destruct can; [|by split; [|left]].
  destruct Hs as (Ha & Hst & _). split; [by apply CommitStageAdvancement_ok|]. right.
  destruct Hok as (_ & Hact & _). by destruct (CommitStageAdvancement_index cs now (Hact Ha)) as [-> _].
Qed.

(** Each of the evaluations [times] comes when the current stage is over. *)
Fixpoint due (cs : CanarySchedule) (times : list Time) : Prop :=
  match times with
  | [] => True
  | t :: times' =>
      (∃ stage, cs_Stages cs !! cs_CurrentStageIdx cs = Some stage ∧ stage_over stage t = true) ∧
      due (advance cs t) times'
  end.

(** A canary completes: an active schedule with [n] stages left is completed
    after exactly [n] evaluations that come when their stage is over. *)
Theorem canary_completes cs times :
  schedule_ok cs → cs_Status cs = CanaryStatusActive → due cs times →
  length times = (length (cs_Stages cs) - cs_CurrentStageIdx cs)%nat →
  cs_Status (foldl advance cs times) = CanaryStatusCompleted ∧
  cs_CurrentStageIdx (foldl advance cs times) = length (cs_Stages cs).
Proof.
  revert cs. induction times as [|t times IH]; intros cs Hok Ha Hd Hl.
  { destruct Hok as (_ & Hact & _). specialize (Hact Ha). simpl in Hl. lia. }
  destruct Hd as [(stage & Hi & Ho) Hd]. simpl in Hl. simpl.
  assert (CanAdvanceStage cs t
    = (true, cs_Stages cs !! S (cs_CurrentStageIdx cs),
       bool_decide (cs_Stages cs !! S (cs_CurrentStageIdx cs) = None))) as Hcan.
  { unfold CanAdvanceStage. rewrite Ha, Hi. simpl. fold (stage_over stage t). rewrite Ho.
    by destruct (cs_Stages cs !! S (cs_CurrentStageIdx cs)). }
  assert (advance cs t = CommitStageAdvancement cs t) as Eadv by (by rewrite advance_spec, Hcan).
  rewrite Eadv in *.
  pose proof (CommitStageAdvancement_ok cs t Hok) as Hok'.
  destruct (CommitStageAdvancement_index cs t) as [E1 E2]; [by apply Hok|].
  rewrite <- (CommitStageAdvancement_stages cs t).
  destruct (decide (S (cs_CurrentStageIdx cs) = length (cs_Stages cs))) as [He|Hne].
  - destruct times; simpl in *; [|lia]. split; [done|]. by apply Hok'.
  - apply IH; [done|by rewrite E2|done|]. rewrite E1, CommitStageAdvancement_stages. lia.
Qed.

(** ** The scheduler *)

Section SchedulerFacts.
Context {St : Type} `{CanaryStoreLaws St}.

Implicit Types cs : CanaryScheduler (St := St).

Lemma broadcast_schedules e cs : sch_schedules (broadcast e cs) = sch_schedules cs.
Proof. unfold broadcast. by case_if. Qed.

Lemma broadcast_store e cs : sch_store (broadcast e cs) = sch_store cs.
Proof. unfold broadcast. by case_if. Qed.

(** Persistence first: in one evaluation the scheduler reports a stage as
    advanced only if the schedule was active, its stage was over, and the store
    now serves the next stage's percentage; if the schedule does not advance
    its stage stays the same, unless the last stage was completed. *)
Theorem evaluate_one_store_first sys1 sys2 now key cs sched :
  store_valid (sch_store cs) → sch_schedules cs !! key = Some sched → schedule_ok sched →
  name_ok (cs_ProjectID sched) (cs_FlagKey sched) → cs_Environment sched ≠ "" →
  let '(cs', advanced) := evaluate_one sys1 sys2 now key cs in
  ∃ sched', sch_schedules cs' !! key = Some sched' ∧
    if advanced then
      cs_Status sched = CanaryStatusActive ∧
      cs_CurrentStageIdx sched' = S (cs_CurrentStageIdx sched) ∧
      (∃ stage, cs_Stages sched !! cs_CurrentStageIdx sched = Some stage ∧
         stage_over stage now = true) ∧
      ∃ next, cs_Stages sched !! S (cs_CurrentStageIdx sched) = Some next ∧
        pct_of (sch_store cs') (cs_ProjectID sched) (cs_FlagKey sched) (cs_Environment sched)
        = Some (clamp_pct (cg_TargetPercentage next))
    else
      cs_CurrentStageIdx sched' = cs_CurrentStageIdx sched ∨
      cs_Status sched' = CanaryStatusCompleted ∧
      cs_CurrentStageIdx sched' = length (cs_Stages sched).
Proof.
  intros Hv Hk Hok Hn He. unfold evaluate_one. rewrite Hk.
  destruct (cs_Status sched =s? CanaryStatusActive) eqn:Es; cbn [negb]; [|exists sched; auto].
  set (sched1 := sched <| cs_LastEvaluatedAt := now |>).
  destruct (CanAdvanceStage sched1 now) as [[can next] comp] eqn:Ec.
  pose proof (CanAdvanceStage_spec _ _ _ _ _ Ec) as Hs.
  destruct can; [|destruct Hs as [-> ->]; simpl; exists sched1; rewrite lookup_insert_eq; auto].
  destruct Hs as (Ha & Hst & -> & ->).
  assert (cs_CurrentStageIdx sched < length (cs_Stages sched))%nat as Hi by (by apply Hok).
  destruct (CommitStageAdvancement_index sched1 now Hi) as [E1 E2].
  change (cs_Stages sched1) with (cs_Stages sched) in *.
  change (cs_CurrentStageIdx sched1) with (cs_CurrentStageIdx sched) in *.
  destruct (cs_Stages sched !! S (cs_CurrentStageIdx sched)) as [nextStage|] eqn:En; simpl.
  - destruct (cst_UpdateRolloutByProject _ _ _ _ _ _ _) as [st [r|err]] eqn:Eu.
    + destruct (law_rollout _ _ _ _ _ _ _ _ _ Hv Hn He Eu) as [Hv' Hp].
      exists (CommitStageAdvancement sched1 now).
      rewrite broadcast_schedules, broadcast_store. simpl. split; [by apply lookup_insert_eq|].
      split_and!; [done|done|done|]. exists nextStage. split; [done|].
      destruct (law_save sys2 st (CommitStageAdvancement sched1 now) Hv') as [_ ->]. done.
    + eexists. simpl. split; [by apply lookup_insert_eq|]. by left.
  - exists (CommitStageAdvancement sched1 now). rewrite broadcast_schedules. simpl.
    split; [by apply lookup_insert_eq|]. right. apply lookup_ge_None in En.
    rewrite E2, decide_True by lia. split; [done|lia].
Qed.

Lemma clamp_pct_zero : clamp_pct f64_zero = f64_zero.
Proof. reflexivity. Qed.

(** A health rollback that succeeds leaves the store serving 0 per cent and
    the schedule rolled back, and no later evaluation of that schedule changes
    anything; one that fails says so and marks the schedule. *)
Theorem TriggerHealthRollback_effect sys sys1 sys2 cs p k reason sched :
  store_valid (sch_store cs) → sch_schedules cs !! scheduleKey p k = Some sched →
  name_ok (cs_ProjectID sched) (cs_FlagKey sched) → cs_Environment sched ≠ "" →
  let '(cs', err) := TriggerHealthRollback sys sys1 sys2 cs p k reason in
  ∃ sched', sch_schedules cs' !! scheduleKey p k = Some sched' ∧
    match err with
    | None =>
        cs_Status sched' = CanaryStatusRolledBack ∧ cs_RollbackReason sched' = reason ∧
        pct_of (sch_store cs') (cs_ProjectID sched) (cs_FlagKey sched) (cs_Environment sched)
          = Some f64_zero ∧
        ∀ sys3 sys4 now, evaluate_one sys3 sys4 now (scheduleKey p k) cs' = (cs', false)
    | Some _ => cs_Status sched' = CanaryStatusNeedsAttention
    end.
Proof.
  intros Hv Hk Hn He. unfold TriggerHealthRollback, lookup_schedule. rewrite Hk.
  destruct (cst_UpdateRolloutByProject _ _ _ _ _ _ _) as [st [r|err]] eqn:Eu.
  - destruct (law_rollout _ _ _ _ _ _ _ _ _ Hv Hn He Eu) as [Hv' Hp].
    match goal with |- context [save_ignoring sys2 ?x _] => set (sched' := x) end.
    exists sched'. rewrite broadcast_schedules, broadcast_store. simpl.
    split; [by apply lookup_insert_eq|]. split_and!; [done|done| |].
    + by destruct (law_save sys2 st sched' Hv') as [_ ->].
    + intros sys3 sys4 now. unfold evaluate_one. rewrite broadcast_schedules. simpl.
      by rewrite lookup_insert_eq.
  - eexists. simpl. split; [by apply lookup_insert_eq|done].
Qed.

(** When the initial rollout of a submitted schedule cannot be applied, the
    caller gets an error, yet the schedule stays registered as active. *)
Theorem SubmitSchedule_failure_keeps_schedule sys sys1 sys2 cs sched first rest st err :
  cs_Stages sched = first :: rest →
  cst_UpdateRolloutByProject sys1 (sch_store cs) (or_default (cs_ProjectID sched) DefaultProjectID)
    (cs_FlagKey sched) (or_default (cs_Environment sched) EnvProduction)
    (cg_TargetPercentage first) auto_actor = (st, Err err) →
  let '(cs', r) := SubmitSchedule sys sys1 sys2 cs sched in
  is_ok r = false ∧
  ∃ kept, sch_schedules cs' !! scheduleKey (cs_ProjectID sched) (cs_FlagKey sched) = Some kept ∧
    cs_Status kept = CanaryStatusActive.
Proof.
  intros Hs Hu. unfold SubmitSchedule. rewrite Hs. simpl. rewrite Hu. split; [done|].
  eexists. simpl. unfold scheduleKey. rewrite or_default_idem. split; [by apply lookup_insert_eq|done].
Qed.

End SchedulerFacts.

(** ** The in-memory store implements the interface *)

#[export] Instance memory_canary_store : CanaryStore MemoryStore := {|
  cst_UpdateRolloutByProject := UpdateRolloutByProject;
  cst_SaveCanarySchedule sys s sched := (SaveCanarySchedule sys s sched, None);
  cst_GetCanarySchedule s p k := Ok (GetCanarySchedule s p k);
  cst_ListActiveCanarySchedules s :=
    Ok (ListActiveCanarySchedules (map_to_list (ms_canarySchedules s)));
  cst_DeleteCanarySchedule s p k := (DeleteCanarySchedule s p k, None);
|}.

(** The percentage the store serves. *)
Definition memory_pct (s : MemoryStore) (p k : string) (env : Environment) : option f64 :=
  match GetFlagByProject s p k with
  | Ok f => ec_Percentage <$> ff_Environments f !! env
  | Err _ => None
  end.

Lemma memory_law_rollout sys s p k env pct actor s' r :
  flags_wf s ∧ plain_ids s → no_colon p ∧ p ≠ "" ∧ k ≠ "" → env ≠ "" →
  UpdateRolloutByProject sys s p k env pct actor = (s', Ok r) →
  (flags_wf s' ∧ plain_ids s') ∧ memory_pct s' p k env = Some (clamp_pct pct).
Proof.
  intros [Hwf Hpl] (Hp & Hne & Hk) He. unfold UpdateRolloutByProject.
  rewrite !or_default_nonempty by done. set (upd := rollout_one _ _ _ _ _). intros Hu.
  assert (keeps_names upd) as Hnames by done.
  assert ((update_by_project sys s p k upd).2 = Ok r) as Hok by (by rewrite Hu).
  pose proof (update_by_project_valid _ _ _ _ _ _ Hwf Hpl Hnames Hok) as Hv. rewrite Hu in Hv.
  split; [done|].
  destruct (update_by_project_read sys s p k upd r) as (j & f & Hf & Hm & Hg); try done.
  rewrite Hu in Hg. unfold memory_pct. simpl in Hg. rewrite Hg, snapshot_flag_envs. simpl.
  rewrite lookup_insert_eq. simpl. unfold rollout_cfg. by case_if.
Qed.

Lemma memory_law_save sys s sched :
  flags_wf s ∧ plain_ids s →
  (flags_wf (SaveCanarySchedule sys s sched) ∧ plain_ids (SaveCanarySchedule sys s sched)) ∧
  ∀ p k env, memory_pct (SaveCanarySchedule sys s sched) p k env = memory_pct s p k env.
Proof. done. Qed.

#[export] Instance memory_canary_laws : CanaryStoreLaws MemoryStore := {|
  store_valid s := flags_wf s ∧ plain_ids s;
  name_ok p k := no_colon p ∧ p ≠ "" ∧ k ≠ "";
  pct_of := memory_pct;
  law_rollout := memory_law_rollout;
  law_save := memory_law_save;
|}.

(** ** Instances *)

Definition half_hour : CanaryStage := mkStage 0 (f64_of_Z 10) 1800 0 0.

(** Two stages of half an hour for the checkout of the shop. *)
Definition demo_schedule : CanarySchedule :=
  mkSchedule "c1" "shop" "checkout" EnvProduction CanaryStatusActive 0
    [half_hour; mkStage 1 (f64_of_Z 60) 1800 0 0]
    (mkGuardrails f64_zero f64_zero false "") "" 0 0 0.

Definition hour : Time := (3600 * Second)%Z.

Lemma demo_schedule_ok : schedule_ok demo_schedule.
Proof. split_and!; simpl; [lia|lia|done]. Qed.

Lemma NextStage_safe_witness :
  let cs' := (NextStage demo_schedule hour).1 in
  schedule_ok cs' ∧
  (cs' = demo_schedule ∨
   cs_CurrentStageIdx cs' = 1%nat ∧ cs_Status demo_schedule = CanaryStatusActive ∧
   ∃ stage, cs_Stages demo_schedule !! 0%nat = Some stage ∧ stage_over stage hour = true).
Proof. exact (NextStage_safe demo_schedule hour demo_schedule_ok). Defined.

Lemma canary_completes_witness :
  cs_Status (foldl advance demo_schedule [hour; 2 * hour]%Z) = CanaryStatusCompleted ∧
  cs_CurrentStageIdx (foldl advance demo_schedule [hour; 2 * hour]%Z) = 2%nat.
Proof.
  apply (canary_completes demo_schedule [hour; 2 * hour]%Z); [apply demo_schedule_ok|done| |done].
  split; [exists half_hour; split; [done|vm_compute; reflexivity]|].
  split; [|done]. eexists. split; [vm_compute; reflexivity|vm_compute; reflexivity].
Defined.

(** The in-memory scheduler with that schedule. *)
Definition demo_scheduler : CanaryScheduler :=
  set_schedule (scheduleKey "shop" "checkout") demo_schedule (NewCanaryScheduler shops true).

Lemma shops_valid : flags_wf shops ∧ plain_ids shops.
Proof. split; [apply shops_wf|apply shops_plain]. Qed.

Lemma evaluate_one_store_first_witness :
  let '(cs', advanced) :=
    evaluate_one (sys_at 9) (sys_at 10) hour (scheduleKey "shop" "checkout") demo_scheduler in
  ∃ sched', sch_schedules cs' !! scheduleKey "shop" "checkout" = Some sched' ∧
    if advanced then
      cs_Status demo_schedule = CanaryStatusActive ∧
      cs_CurrentStageIdx sched' = S (cs_CurrentStageIdx demo_schedule) ∧
      (∃ stage, cs_Stages demo_schedule !! cs_CurrentStageIdx demo_schedule = Some stage ∧
         stage_over stage hour = true) ∧
      ∃ next, cs_Stages demo_schedule !! S (cs_CurrentStageIdx demo_schedule) = Some next ∧
        pct_of (sch_store cs') (cs_ProjectID demo_schedule) (cs_FlagKey demo_schedule)
          (cs_Environment demo_schedule) = Some (clamp_pct (cg_TargetPercentage next))
    else
      cs_CurrentStageIdx sched' = cs_CurrentStageIdx demo_schedule ∨
      cs_Status sched' = CanaryStatusCompleted ∧
      cs_CurrentStageIdx sched' = length (cs_Stages demo_schedule).
Proof.
  refine (evaluate_one_store_first (sys_at 9) (sys_at 10) hour (scheduleKey "shop" "checkout")
    demo_scheduler demo_schedule shops_valid _ demo_schedule_ok _ _); [|split_and!; done|done].
  apply lookup_insert_eq.
Defined.

Lemma TriggerHealthRollback_effect_witness :
  let '(cs', err) :=
    TriggerHealthRollback (sys_at 9) (sys_at 10) (sys_at 11) demo_scheduler "shop" "checkout" "slow" in
  ∃ sched', sch_schedules cs' !! scheduleKey "shop" "checkout" = Some sched' ∧
    match err with
    | None =>
        cs_Status sched' = CanaryStatusRolledBack ∧ cs_RollbackReason sched' = "slow" ∧
        pct_of (sch_store cs') (cs_ProjectID demo_schedule) (cs_FlagKey demo_schedule)
          (cs_Environment demo_schedule) = Some f64_zero ∧
        ∀ sys3 sys4 now, evaluate_one sys3 sys4 now (scheduleKey "shop" "checkout") cs' = (cs', false)
    | Some _ => cs_Status sched' = CanaryStatusNeedsAttention
    end.
Proof.
  refine (TriggerHealthRollback_effect (sys_at 9) (sys_at 10) (sys_at 11) demo_scheduler "shop"
    "checkout" "slow" demo_schedule shops_valid _ _ _); [|split_and!; done|done].
  apply lookup_insert_eq.
Defined.
