(* ===== verification/Http.v ===== *)
(** * Requests, replies and handlers ([pkg/api])

    A handler reads the request, calls the store, and writes one reply; a guard
    that fails writes an error reply and returns.  [Handler] is the monad of such
    code: a state ([World]) and an early exit ([Reply]).  The server, its
    environment variables and the outside world of every call are read from
    [Server].  The store is the in-memory one. *)

From S2P Require Import Prelude GoFloat GoStrings GoTime Sha256 Errors Domain Engine Diagnostics Entities StoreState.

(** ** Requests *)

(** A request as [net/http] presents it: [rq_Header] has the first value of each
    header the code looks up, under the name the code uses; [rq_Query] the first
    value of each query parameter; [rq_Cookies] the parsed cookies in order. *)
Record Request := mkRequest {
  rq_Method : string;
  rq_Path : string;
  rq_Host : string;
  rq_TLS : bool;
  rq_RemoteAddr : string;
  rq_Header : gmap string string;
  rq_Cookies : list (string * string);
  rq_Query : gmap string string;
}.

Definition HeaderGet (r : Request) (name : string) : string := default "" (rq_Header r !! name).
Definition QueryGet (r : Request) (name : string) : string := default "" (rq_Query r !! name).

(** [r.Cookie(name)]: the first one. *)
Definition Cookie (r : Request) (name : string) : option string :=
  snd <$> (snd <$> list_find (λ c, c.1 = name) (rq_Cookies r)).

Definition HeaderProjectID : string := "X-Project-ID".
Definition HeaderActor : string := "X-Actor".
Definition HeaderAPIKey : string := "X-API-Key".
Definition HeaderAuthorization : string := "Authorization".
Definition CookieSessionName : string := "flagura_session".
Definition CookieProjectName : string := "flagura_project_id".

(** ** Replies *)

(** What the dashboard page is made of. *)
Record DashboardView := mkDashboard {
  dv_User : User;
  dv_Flags : list FeatureFlag;
  dv_AuditLogs : list AuditLogEntry;
  dv_ChangeRequests : list ChangeRequest;
  dv_DriverName : string;
  dv_Organizations : list Organization;
  dv_Projects : list Project;
  dv_ProjectID : string;
  dv_PageTitle : string;
}.

(** What a handler writes: the envelope of [writeError], a plain text
    ([http.Error]), an error object of the authentication code, or a result. *)
Inductive Body :=
| BError (Code : ErrorCode) (Type_ Layer_ Message : string)
| BText (msg : string)
| BMessage (error message : string)
| BFlag (flag : FeatureFlag) (audit : option AuditLogEntry)
| BFlags (projectID : string) (flags : list FeatureFlag)
| BDeleted (id : string) (audit : AuditLogEntry)
| BResults (projectID : string) (results : gmap string EvaluationResult)
| BChangeRequest (cr : ChangeRequest)
| BChangeRequests (projectID : string) (crs : list ChangeRequest)
| BApplied (flag : FeatureFlag) (cr : ChangeRequest) (audit : AuditLogEntry)
| BAPIKey (key : APIKey)
| BAPIKeys (projectID : string) (keys : list APIKey)
| BUser (user : User) (session_cookie project_cookie : string)
| BProfile (user : User)
| BOrganizations (orgs : list Organization)
| BOrganization (org : Organization)
| BProjects (projects : list Project) (active : string)
| BProject (proj : Project) (project_cookie : option string)
| BInvitations (invs : list OrgInvitation)
| BInvitation (inv : OrgInvitation)
| BMember (member : OrgMember) (project_cookie : option string)
| BAuditLogs (projectID : string) (logs : list AuditLogEntry)
| BAuditFile (rows : list (list string))
| BIntegrity (res : AuditIntegrityResult)
| BPurged (projectID : string) (count : nat) (before : Time)
| BRedirect (location : string) (query : gmap string (list string))
| BProviders (google github : bool)
| BOIDCConfig (orgID : string) (cfg : option OIDCConfig)
| BCanary (sched : CanarySchedule)
| BCanaryStatus (status projectID flagKey reason : string)
| BHealth (status driver error : string) (flags_count : option nat)
| BDashboard (view : DashboardView)
| BPage (name : string)
| BBenchmark (metrics : BenchmarkMetrics)
| BDone.

Record Reply := mkReply { rp_Status : Z; rp_Body : Body }.

Definition StatusOK : Z := 200.
Definition StatusCreated : Z := 201.
Definition StatusFound : Z := 302.
Definition StatusBadRequest : Z := 400.
Definition StatusUnauthorized : Z := 401.
Definition StatusForbidden : Z := 403.
Definition StatusNotFound : Z := 404.
Definition StatusMethodNotAllowed : Z := 405.
Definition StatusConflict : Z := 409.
Definition StatusInternalServerError : Z := 500.

(** ** The monad *)

(** What one call finds outside: the clock and the random source, and the order
    in which the runtime visits a map. *)
Record Outside := mkOutside {
  out_sys : Sys;
  out_order : ∀ A : Type, gmap string A → list (string * A);
}.

(** The order is an enumeration of the map. *)
Definition fair (o : Outside) : Prop := ∀ A (m : gmap string A), out_order o A m ≡ₚ map_to_list m.

(** [os.Getenv], and the outside of the calls in the order they are made. *)
Record Server := mkServer {
  sv_Getenv : string → string;
  sv_out : nat → Outside;
}.

(** What the stream hub is told: the flags of a project, or a named event. *)
Inductive Broadcast :=
| FlagsOf (projectID : string) (env : Environment)
| Event (name : string).

(** The state a request works on: the store, the user in the request's context
    (a pointer, so that its membership can be filled in), the number of outside
    worlds used, what was broadcast, the count of evaluations, the schedules the
    canary scheduler of the server holds, and the cookies set with
    [http.SetCookie] (an empty value for a cookie that is cleared). *)
Record World := mkWorld {
  wd_store : MemoryStore;
  wd_user : option User;
  wd_step : nat;
  wd_broadcasts : list Broadcast;
  wd_evalCount : Z;
  wd_schedules : gmap string CanarySchedule;
  wd_cookies : list (string * string);
}.

#[export] Instance eta_World : Eta World :=
  {| eta_expand r := mkWorld (wd_store r) (wd_user r) (wd_step r) (wd_broadcasts r)
       (wd_evalCount r) (wd_schedules r) (wd_cookies r) |}.

Definition Handler (A : Type) : Type := Server → World → World * (A + Reply).

#[export] Instance handler_ret : MRet Handler := λ A a srv w, (w, inl a).

#[export] Instance handler_bind : MBind Handler := λ A B k m srv w,
  match m srv w with
  | (w', inl a) => k a srv w'
  | (w', inr rep) => (w', inr rep)
  end.

(** [write ...; return]. *)
Definition exit {A} (rep : Reply) : Handler A := λ srv w, (w, inr rep).

Definition outside : Handler Outside := λ srv w,
  (w <| wd_step := S (wd_step w) |>, inl (sv_out srv (wd_step w))).

Definition Getenv (name : string) : Handler string := λ srv w, (w, inl (sv_Getenv srv name)).

Definition get_store : Handler MemoryStore := λ srv w, (w, inl (wd_store w)).
Definition put_store (s : MemoryStore) : Handler () := λ srv w, (w <| wd_store := s |>, inl ()).

(** A call of the store. *)
Definition call {A} (f : Outside → MemoryStore → MemoryStore * A) : Handler A :=
  o ← outside; s ← get_store;
  let '(s', a) := f o s in put_store s';; mret a.

(** A call that only reads. *)
Definition read {A} (f : Outside → MemoryStore → A) : Handler A :=
  o ← outside; s ← get_store; mret (f o s).

(** [UserFromContext] and [WithUserContext]. *)
Definition UserFromContext : Handler (option User) := λ srv w, (w, inl (wd_user w)).
Definition WithUserContext (user : option User) : Handler () := λ srv w,
  (w <| wd_user := user |>, inl ()).

(** [s.broadcastCurrentFlags]: the hub gets the flags of the project as they are
    in the store. *)
Definition broadcastCurrentFlags (projectID : string) (env : Environment) : Handler () := λ srv w,
  (w <| wd_broadcasts := wd_broadcasts w ++ [FlagsOf (or_default projectID DefaultProjectID) env] |>,
   inl ()).

Definition broadcast_event (name : string) : Handler () := λ srv w,
  (w <| wd_broadcasts := wd_broadcasts w ++ [Event name] |>, inl ()).

(** [http.SetCookie]; an empty value clears the cookie.  Its attributes are the
    subject of [Cookies]. *)
Definition SetCookie (name value : string) : Handler () := λ srv w,
  (w <| wd_cookies := wd_cookies w ++ [(name, value)] |>, inl ()).

(** [writeError]. *)
Definition error_reply (err : GoError) : Reply :=
  match MapSentinelToAppError (Some err) with
  | Some (EApp code ty layer msg status _) => mkReply status (BError code ty layer msg)
  | _ => mkReply StatusInternalServerError BDone
  end.

Definition writeError {A} (err : GoError) : Handler A := exit (error_reply err).
Definition writeText {A} (status : Z) (msg : string) : Handler A := exit (mkReply status (BText msg)).
Definition writeJSON (status : Z) (body : Body) : Handler Reply := mret (mkReply status body).

(** [if err != nil { s.writeError(w, r, wrap err); return }]. *)
Definition unwrap {A} (wrap : GoError → GoError) (r : result GoError A) : Handler A :=
  match r with Ok a => mret a | Err e => writeError (wrap e) end.

(** The server's answer to a request. *)
Definition serve (srv : Server) (h : Handler Reply) (w : World) : World * Reply :=
  match h srv w with
  | (w', inl rep) => (w', rep)
  | (w', inr rep) => (w', rep)
  end.

(** [writeError]'s reply always has the status of an application error. *)
Lemma error_reply_app code msg status cause :
  error_reply (NewAppError code msg status cause)
  = mkReply status (BError code (code_String code) (Layer code) msg).
Proof. reflexivity. Qed.

Lemma error_reply_body err :
  match rp_Body (error_reply err) with BError _ _ _ _ | BDone => True | _ => False end.
Proof. unfold error_reply. by destruct (MapSentinelToAppError (Some err)) as [[]|]. Qed.

(** ** Reasoning *)

(** [wp srv m Q E w]: run from [w], [m] either returns a value that satisfies
    [Q] or replies early with [E], in the world it ends in. *)
Definition wp {A} (srv : Server) (m : Handler A) (Q : A → World → Prop) (E : Reply → World → Prop)
    (w : World) : Prop :=
  match m srv w with
  | (w', inl a) => Q a w'
  | (w', inr rep) => E rep w'
  end.

Lemma wp_ret {A} srv (a : A) Q E w : wp srv (mret a) Q E w ↔ Q a w.
Proof. reflexivity. Qed.

Lemma wp_bind {A B} srv (m : Handler A) (k : A → Handler B) Q E w :
  wp srv (m ≫= k) Q E w ↔ wp srv m (λ a, wp srv (k a) Q E) E w.
Proof.
  unfold wp, mbind, handler_bind. destruct (m srv w) as [w' [a|rep]]; [|done].
  by destruct (k a srv w') as [w'' [b|rep]].
Qed.

Lemma wp_mono {A} srv (m : Handler A) (Q Q' : A → World → Prop) (E E' : Reply → World → Prop) w :
  (∀ a w', Q a w' → Q' a w') → (∀ r w', E r w' → E' r w') → wp srv m Q E w → wp srv m Q' E' w.
Proof. intros HQ HE. unfold wp. destruct (m srv w) as [w' [a|rep]]; auto. Qed.

Lemma wp_exit {A} srv rep (Q : A → World → Prop) E w : wp srv (exit rep) Q E w ↔ E rep w.
Proof. reflexivity. Qed.

Lemma wp_call {A} srv (f : Outside → MemoryStore → MemoryStore * A) Q E w :
  wp srv (call f) Q E w
  ↔ let o := sv_out srv (wd_step w) in
    Q (f o (wd_store w)).2
      (w <| wd_step := S (wd_step w) |> <| wd_store := (f o (wd_store w)).1 |>).
Proof.
  unfold wp, call, mbind, handler_bind, outside, get_store, put_store, mret, handler_ret. simpl.
  by destruct (f (sv_out srv (wd_step w)) (wd_store w)).
Qed.

Lemma wp_read {A} srv (f : Outside → MemoryStore → A) Q E w :
  wp srv (read f) Q E w
  ↔ Q (f (sv_out srv (wd_step w)) (wd_store w)) (w <| wd_step := S (wd_step w) |>).
Proof. reflexivity. Qed.

Lemma wp_outside srv (Q : Outside → World → Prop) E w :
  wp srv outside Q E w ↔ Q (sv_out srv (wd_step w)) (w <| wd_step := S (wd_step w) |>).
Proof. reflexivity. Qed.

Lemma wp_getenv srv name Q E w : wp srv (Getenv name) Q E w ↔ Q (sv_Getenv srv name) w.
Proof. reflexivity. Qed.

Lemma wp_user srv Q E w : wp srv UserFromContext Q E w ↔ Q (wd_user w) w.
Proof. reflexivity. Qed.

Lemma wp_with_user srv u Q E w : wp srv (WithUserContext u) Q E w ↔ Q () (w <| wd_user := u |>).
Proof. reflexivity. Qed.

Lemma wp_set_cookie srv name value Q E w :
  wp srv (SetCookie name value) Q E w ↔ Q () (w <| wd_cookies := wd_cookies w ++ [(name, value)] |>).
Proof. reflexivity. Qed.

Lemma wp_unwrap {A} srv wrap (r : result GoError A) Q E w :
  wp srv (unwrap wrap r) Q E w
  ↔ match r with Ok a => Q a w | Err e => E (error_reply (wrap e)) w end.
Proof. by destruct r. Qed.

Lemma wp_writeError {A} srv err (Q : A → World → Prop) E w :
  wp srv (writeError err) Q E w ↔ E (error_reply err) w.
Proof. reflexivity. Qed.

(** A relation between stores that a handler keeps on every path. *)
Definition keeps {A} (R : MemoryStore → MemoryStore → Prop) (m : Handler A) : Prop :=
  ∀ srv w, R (wd_store w) (wd_store (m srv w).1).

Section Keeps.
Context (R : MemoryStore → MemoryStore → Prop) `{!PreOrder R}.

Lemma keeps_ret {A} (a : A) : keeps R (mret a).
Proof. intros srv w. reflexivity. Qed.

Lemma keeps_exit {A} rep : keeps R (exit (A := A) rep).
Proof. intros srv w. reflexivity. Qed.

Lemma keeps_bind {A B} (m : Handler A) (k : A → Handler B) :
  keeps R m → (∀ a, keeps R (k a)) → keeps R (m ≫= k).
Proof.
  intros Hm Hk srv w. unfold mbind, handler_bind. specialize (Hm srv w).
  destruct (m srv w) as [w' [a|rep]]; [|done]. etrans; [exact Hm|apply Hk].
Qed.

Lemma keeps_call {A} (f : Outside → MemoryStore → MemoryStore * A) :
  (∀ o s, R s (f o s).1) → keeps R (call f).
Proof.
  intros Hf srv w. unfold call, mbind, handler_bind, outside, get_store, put_store. simpl.
  specialize (Hf (sv_out srv (wd_step w)) (wd_store w)).
  by destruct (f (sv_out srv (wd_step w)) (wd_store w)).
Qed.

Lemma keeps_read {A} (f : Outside → MemoryStore → A) : keeps R (read f).
Proof. intros srv w. reflexivity. Qed.

Lemma keeps_outside : keeps R outside.
Proof. intros srv w. reflexivity. Qed.

Lemma keeps_getenv name : keeps R (Getenv name).
Proof. intros srv w. reflexivity. Qed.

Lemma keeps_user : keeps R UserFromContext.
Proof. intros srv w. reflexivity. Qed.

Lemma keeps_with_user u : keeps R (WithUserContext u).
Proof. intros srv w. reflexivity. Qed.

Lemma keeps_broadcast p env : keeps R (broadcastCurrentFlags p env).
Proof. intros srv w. reflexivity. Qed.

Lemma keeps_event name : keeps R (broadcast_event name).
Proof. intros srv w. reflexivity. Qed.

Lemma keeps_set_cookie name value : keeps R (SetCookie name value).
Proof. intros srv w. reflexivity. Qed.

Lemma keeps_unwrap {A} wrap (r : result GoError A) : keeps R (unwrap wrap r).
Proof. destruct r; intros srv w; reflexivity. Qed.

End Keeps.

Create HintDb keeps.
#[export] Hint Resolve keeps_ret keeps_exit keeps_read keeps_outside keeps_getenv keeps_user
  keeps_with_user keeps_broadcast keeps_event keeps_set_cookie keeps_unwrap : keeps.

(** Walks through a handler, leaving the calls that no hint covers. *)
Ltac keeps_step :=
  match goal with
  | |- keeps _ (_ ≫= _) => apply keeps_bind; [try (typeclasses eauto)| |intros ?]
  | |- keeps _ (match ?x with _ => _ end) => destruct x
  | |- keeps _ (if ?b then _ else _) => destruct b
  | |- keeps _ _ => solve [eauto with keeps typeclass_instances]
  end.
