(* ===== verification/Access.v ===== *)
(** * Which project a request works on ([pkg/api/handlers_flags.go],
    [pkg/api/middleware.go])

    A request names a project by header, query parameter or cookie; the caller
    must be allowed to use it.  An API key is bound to its project; a session
    user may use the projects of the organizations that are listed for it. *)

From S2P Require Import Prelude GoFloat GoStrings GoTime Sha256 Errors Domain Entities StoreState.
From S2P Require Import StoreAudit StoreIdentity StoreTenancy Http Auth.

Section Access.
Context `{GoRuntime}.

Definition project_not_found (projectID : string) : GoError :=
  NewAppError ErrCodeProjectNotFound ("project not found: " +:+ projectID) StatusNotFound
    (Some (ESentinel ErrProjectNotFound)).

Definition key_other_project (k : APIKey) (projectID : string) : GoError :=
  NewAppError ErrCodeProjectAccessDenied
    ("API key scoped to project '" +:+ ak_ProjectID k +:+ "' is not authorized to access project '" +:+
     projectID +:+ "'") StatusForbidden (Some (ESentinel ErrForbidden)).

Definition list_user_orgs (userID : string) : Handler (list Organization) :=
  read (λ o s, ListUserOrganizations s (out_order o Organization (ms_orgs s)) userID).

Definition get_project (projectID : string) : Handler (result GoError Project) :=
  read (λ _ s, GetProject s projectID).

(** The user in the context, or else the one the credentials name. *)
Definition current_user (r : Request) : Handler (option User) :=
  inContext ← UserFromContext;
  match inContext with
  | Some user => mret (Some user)
  | None =>
      found ← getUserFromRequest r;
      mret (match found with Ok user => Some user | Err _ => None end)
  end.

(** [None] is the nil error: access is granted. *)
Definition authorize_user (user : User) (projectID : string) : Handler (option GoError) :=
  if us_Role user =s? RoleAdmin then
    found ← get_project projectID;
    mret (match found with Ok _ => None | Err _ => Some (project_not_found projectID) end)
  else
    userOrgs ← list_user_orgs (us_ID user);
    found ← get_project projectID;
    mret (match found with
          | Err _ => Some (project_not_found projectID)
          | Ok proj =>
              if bool_decide (pj_OrganizationID proj ∈ og_ID <$> userOrgs) then None
              else Some (NewAppError ErrCodeProjectAccessDenied
                ("user '" +:+ us_Email user +:+ "' is not authorized to access project '" +:+
                 projectID +:+ "' (not a member of organization '" +:+ pj_OrganizationID proj +:+
                 "')") StatusForbidden (Some (ESentinel ErrForbidden)))
          end).

(** The API key that decides, when there is one with a project. *)
Definition project_key (apiKey : option APIKey) : option APIKey :=
  match apiKey with
  | Some k => if negb (ak_ProjectID k =s? "") then Some k else None
  | None => None
  end.

Definition authorizeProjectAccess (r : Request) (projectID : string) : Handler (option GoError) :=
  apiKey ← getAPIKeyFromRequest r;
  match project_key apiKey with
  | Some k =>
      mret (if negb (ak_ProjectID k =s? projectID) then Some (key_other_project k projectID) else None)
  | None =>
      user ← current_user r;
      match user with
      | Some user => authorize_user user projectID
      | None =>
          mret (Some (NewAppError ErrCodeUnauthorized "authentication required to access project"
            StatusUnauthorized (Some (ESentinel ErrUnauthorized))))
      end
  end.

(** The user with its membership in the project's organization filled in. *)
Definition enrichUserOrgMembership (user : User) (projectID : string) : Handler User :=
  if projectID =s? "" then mret user
  else if us_Role user =s? RoleAdmin then
    mret (user <| us_ActiveMembership := Some (mkMember "" "" (us_ID user) "admin" time_zero) |>)
  else
    found ← get_project projectID;
    match found with
    | Err _ => mret user
    | Ok proj =>
        member ← read (λ _ s, GetOrgMember s (pj_OrganizationID proj) (us_ID user));
        mret (match member with
              | Ok m => user <| us_ActiveMembership := Some m |>
              | Err _ => user
              end)
    end.

(** The effect of [enrichUserOrgMembership] on the user in the context; a user
    that was read from the credentials is local and not used again. *)
Definition enrich_context (projectID : string) : Handler () :=
  inContext ← UserFromContext;
  match inContext with
  | None => mret ()
  | Some user =>
      user ← enrichUserOrgMembership user projectID;
      WithUserContext (Some user)
  end.

(** The role in the organization that owns the project; the filled-in user is
    returned with it. *)
Definition resolveEffectiveOrgRole (user : option User) (projectID : string)
    : Handler (string * option User) :=
  match user with
  | None => mret ("", None)
  | Some user =>
      if us_Role user =s? RoleAdmin then mret ("admin", Some user)
      else
        match us_ActiveMembership user with
        | Some m =>
            if negb (om_Role m =s? "") then mret (om_Role m, Some user)
            else
              user ← enrichUserOrgMembership user projectID;
              mret (match us_ActiveMembership user with Some m => om_Role m | None => "" end,
                    Some user)
        | None =>
            user ← enrichUserOrgMembership user projectID;
            mret (match us_ActiveMembership user with Some m => om_Role m | None => "" end,
                  Some user)
        end
  end.

(** The project the request names, and whether it does so explicitly (not by
    cookie). *)
Definition candidate_project (r : Request) : string * bool :=
  let h := HeaderGet r HeaderProjectID in
  let q := QueryGet r "project_id" in
  let q' := QueryGet r "projectId" in
  if negb (h =s? "") then (h, true)
  else if negb (q =s? "") then (q, true)
  else if negb (q' =s? "") then (q', true)
  else (default "" (Cookie r CookieProjectName), false).

(** The first project of the first organization that has one. *)
Fixpoint first_project (orgs : list Organization) : Handler (option Project) :=
  match orgs with
  | [] => mret None
  | org :: orgs =>
      projs ← read (λ o s, ListProjects (out_order o Project (ms_projects s)) (og_ID org));
      match projs with
      | proj :: _ => mret (Some proj)
      | [] => first_project orgs
      end
  end.

Definition chosen (projectID : string) : Handler (result GoError string) :=
  enrich_context projectID;; mret (Ok projectID).

(** The project of a user who named none (or none it may use). *)
Definition default_for (user : User) : Handler (result GoError string) :=
  orgs ← list_user_orgs (us_ID user);
  if us_Role user =s? RoleAdmin then
    found ← first_project orgs;
    match found with
    | Some proj => chosen (pj_ID proj)
    | None => get_project DefaultProjectID;; chosen DefaultProjectID
    end
  else
    match orgs with
    | [] => mret (Err (NewAppError ErrCodeProjectAccessDenied "user has no assigned organizations"
              StatusForbidden (Some (ESentinel ErrForbidden))))
    | _ =>
        found ← first_project orgs;
        match found with
        | Some proj => chosen (pj_ID proj)
        | None => mret (Err (NewAppError ErrCodeProjectRequired "no active project found for user"
                    StatusBadRequest (Some (ESentinel ErrInvalidInput))))
        end
    end.

Definition resolve_anonymous (targetID : string) : Handler (result GoError string) :=
  if negb (targetID =s? "") then
    found ← get_project targetID;
    mret (match found with Ok _ => Ok targetID | Err _ => Err (project_not_found targetID) end)
  else
    mret (Err (NewAppError ErrCodeProjectRequired
      "project_id is required via X-Project-ID header or query parameter"
      StatusBadRequest (Some (ESentinel ErrInvalidInput)))).

Definition resolve_user (r : Request) (user : User) (targetID : string) (fromExplicit : bool)
    : Handler (result GoError string) :=
  if negb (targetID =s? "") then
    denied ← authorizeProjectAccess r targetID;
    match denied with
    | None => chosen targetID
    | Some err => if fromExplicit : bool then mret (Err err) else default_for user
    end
  else default_for user.

Definition resolveAndAuthorizeProjectID (r : Request) : Handler (result GoError string) :=
  let '(targetID, fromExplicit) := candidate_project r in
  apiKey ← getAPIKeyFromRequest r;
  match project_key apiKey with
  | Some k =>
      mret (if negb (targetID =s? "") && negb (targetID =s? ak_ProjectID k)
            then Err (key_other_project k targetID) else Ok (ak_ProjectID k))
  | None =>
      user ← current_user r;
      match user with
      | Some user => resolve_user r user targetID fromExplicit
      | None => resolve_anonymous targetID
      end
  end.

(** [resolveProjectID]: the empty string on an error. *)
Definition resolveProjectID (r : Request) : Handler string :=
  found ← resolveAndAuthorizeProjectID r;
  mret (match found with Ok pid => pid | Err _ => "" end).

(** The name written to the audit log. *)
Definition getActorFromRequest (r : Request) (fallback : string) : Handler string :=
  inContext ← UserFromContext;
  let email := match inContext with Some u => us_Email u | None => "" end in
  mret (or_default email (or_default (HeaderGet r HeaderActor)
         (or_default (QueryGet r "actor") (or_default fallback "developer@flagura.dev")))).

End Access.
