(* ===== verification/ApiFlags.v ===== *)
(** * The flag and evaluation handlers ([pkg/api/handlers_flags.go],
    [pkg/api/handlers_eval.go])

    A JSON body is an argument: the decoded value, or the decoder's error where
    the handler looks at it.  Fields of a reply that repeat fields of the flag
    are left out. *)

From S2P Require Import Prelude GoFloat GoStrings GoTime Sha256 Errors Domain Engine Diagnostics.
From S2P Require Import Entities StoreState StoreAudit StoreFlags StoreIdentity StoreTenancy.
From S2P Require Import Http Auth Access.

Section Handlers.
Context `{GoRuntime}.

(** ** Shared pieces *)

Definition malformed (msg : string) (cause : GoError) : GoError :=
  NewAppError ErrCodeMalformedPayload msg StatusBadRequest (Some cause).

Definition bad_payload (err : GoError) : GoError := malformed (Error err) err.

Definition invalid_input (msg : string) : GoError := malformed msg (ESentinel ErrInvalidInput).

Definition query_failed (err : GoError) : GoError :=
  NewAppError ErrCodeDatabaseQuery (Error err) StatusInternalServerError (Some err).

Definition no_such_flag (err : GoError) : GoError :=
  NewAppError ErrCodeFlagNotFound (Error err) StatusNotFound (Some (ESentinel ErrFlagNotFound)).

Definition bad_flag_key : GoError :=
  invalid_input
    "flag key must contain only alphanumeric characters, underscores, and hyphens (1-64 chars)".

(** [projectID, err := s.resolveAndAuthorizeProjectID(r)], errors written as they
    are. *)
Definition resolved (r : Request) : Handler string :=
  found ← resolveAndAuthorizeProjectID r;
  unwrap (λ e, e) found.

(** The flag names its project, if at all, like the request. *)
Definition claim_project (verb : string) (flag : FeatureFlag) (projectID : string)
    : Handler FeatureFlag :=
  if negb (ff_ProjectID flag =s? "") && negb (ff_ProjectID flag =s? projectID)
  then writeError (NewAppError ErrCodeProjectAccessDenied
         ("cannot " +:+ verb +:+ " flag in unauthorized project '" +:+ ff_ProjectID flag +:+ "'")
         StatusForbidden (Some (ESentinel ErrForbidden)))
  else mret (flag <| ff_ProjectID := projectID |>).

Definition validated (flag : FeatureFlag) : Handler () :=
  o ← outside;
  match ValidateFeatureFlag (out_order o EnvironmentConfig (ff_Environments flag)) with
  | Some err => writeError (invalid_input (Error err))
  | None => mret ()
  end.

Definition save (flag : FeatureFlag) (actor : string)
    : Handler (result GoError (option AuditLogEntry)) :=
  call (λ o s, SaveFlag (out_sys o) s flag actor).

(** The name of a flag in a path, up to the next slash, or up to a suffix. *)
Definition path_id (r : Request) : string :=
  default "" (head (Split (TrimPrefix (rq_Path r) "/api/v1/flags/") "/")).

Definition path_name (r : Request) (suffix : string) : string :=
  TrimSuffix (TrimPrefix (rq_Path r) "/api/v1/flags/") suffix.

(** A key bound to an environment may change only that one. *)
Definition check_environment (r : Request) (verb : string) (env : Environment) : Handler () :=
  apiKey ← getAPIKeyFromRequest r;
  if negb (AllowsEnvironment apiKey env)
  then writeError (NewAppError ErrCodeEnvironmentRestricted
         ("API key is scoped to environment '" +:+
          match apiKey with Some k => ak_Environment k | None => "" end +:+
          "' and cannot " +:+ verb +:+ " '" +:+ env +:+ "'")
         StatusForbidden (Some (ESentinel ErrEnvironmentRestricted)))
  else mret ().

(** ** Handlers *)

Definition handleGetFlags (r : Request) : Handler Reply :=
  projectID ← resolved r;
  flags ← read (λ _ s, ListFlagsByProject s projectID);
  writeJSON StatusOK (BFlags projectID flags).

Definition handleCreateFlag (body : result GoError FeatureFlag) (r : Request) : Handler Reply :=
  flag ← unwrap bad_payload body;
  if ff_Key flag =s? "" then writeError (invalid_input "flag key is required")
  else if negb (IsValidFlagKey (ff_Key flag)) then writeError bad_flag_key
  else
    projectID ← resolved r;
    flag ← claim_project "create" flag projectID;
    validated flag;;
    actor ← getActorFromRequest r "developer@flagura.dev";
    saved ← save flag actor;
    log ← unwrap query_failed saved;
    broadcastCurrentFlags (ff_ProjectID flag) "";;
    writeJSON StatusCreated (BFlag flag log).

Definition handleUpdateFlag (body : result GoError FeatureFlag) (r : Request) : Handler Reply :=
  flag ← unwrap bad_payload body;
  let flag := flag <| ff_Key := or_default (ff_Key flag) (path_id r) |> in
  if negb (IsValidFlagKey (ff_Key flag)) then writeError bad_flag_key
  else
    projectID ← resolved r;
    flag ← claim_project "update" flag projectID;
    found ← read (λ _ s, GetFlagByProject s projectID (ff_Key flag));
    existing ← unwrap no_such_flag found;
    let flag := flag <| ff_ID := or_default (ff_ID flag) (ff_ID existing) |> in
    validated flag;;
    actor ← getActorFromRequest r "developer@flagura.dev";
    saved ← save flag actor;
    log ← unwrap query_failed saved;
    broadcastCurrentFlags (ff_ProjectID flag) "";;
    writeJSON StatusOK (BFlag flag log).

Definition handleDeleteFlag (r : Request) : Handler Reply :=
  let id := path_id r in
  actor ← getActorFromRequest r "admin@flagura.dev";
  projectID ← resolved r;
  deleted ← call (λ o s, DeleteFlagByProject (out_sys o) s projectID id actor);
  log ← unwrap no_such_flag deleted;
  broadcastCurrentFlags projectID "";;
  writeJSON StatusOK (BDeleted id log).

Record ToggleRequest := mkToggle {
  tg_Environment : Environment;
  tg_Enabled : option bool;
  tg_Actor : string;
}.

(** [req] is what the decoder leaves: a decoding error is ignored. *)
Definition handleToggleFlag (req : ToggleRequest) (r : Request) : Handler Reply :=
  let id := path_name r "/toggle" in
  let env := or_default (tg_Environment req) EnvProduction in
  projectID ← resolved r;
  check_environment r "modify" env;;
  actor ← getActorFromRequest r (tg_Actor req);
  toggled ← call (λ o s, ToggleFlagByProject (out_sys o) s projectID id env (tg_Enabled req) actor);
  '(flag, log) ← unwrap no_such_flag toggled;
  broadcastCurrentFlags (ff_ProjectID flag) env;;
  writeJSON StatusOK (BFlag flag (Some log)).

Record RolloutRequest := mkRollout {
  ro_Environment : Environment;
  ro_Percentage : f64;
  ro_Actor : string;
}.

Definition handleUpdateRollout (body : result GoError RolloutRequest) (r : Request)
    : Handler Reply :=
  let id := path_name r "/rollout" in
  req ← unwrap bad_payload body;
  let env := or_default (ro_Environment req) EnvProduction in
  projectID ← resolved r;
  check_environment r "modify" env;;
  actor ← getActorFromRequest r (ro_Actor req);
  updated ← call (λ o s,
    UpdateRolloutByProject (out_sys o) s projectID id env (ro_Percentage req) actor);
  '(flag, log) ← unwrap no_such_flag updated;
  broadcastCurrentFlags (ff_ProjectID flag) env;;
  writeJSON StatusOK (BFlag flag (Some log)).

(** The copy of a configuration; the literal does not mention
    [RequiresApproval], which is false in the copy. *)
Definition promoted_config (src : EnvironmentConfig) : EnvironmentConfig :=
  zero_EnvironmentConfig
    <| ec_Enabled := ec_Enabled src |> <| ec_Strategy := ec_Strategy src |>
    <| ec_Percentage := ec_Percentage src |> <| ec_Rules := Rule_DeepCopy <$> ec_Rules src |>
    <| ec_Variants := (λ v, mkVariant (fv_Key v) (fv_Name v) (fv_Value v) (fv_Weight v)
                              (fv_Description v)) <$> ec_Variants src |>
    <| ec_DefaultVariant := ec_DefaultVariant src |> <| ec_OffVariant := ec_OffVariant src |>.

Definition handlePromoteEnvironment (r : Request) : Handler Reply :=
  if negb (rq_Method r =s? "POST") then writeText StatusMethodNotAllowed "Method Not Allowed"
  else
    let key := TrimSpace (path_name r "/promote") in
    if key =s? "" then writeText StatusBadRequest "flag key is required"
    else
      let fromEnv := QueryGet r "from" in
      let toEnv := QueryGet r "to" in
      if (fromEnv =s? "") || (toEnv =s? "")
      then writeText StatusBadRequest "query parameters 'from' and 'to' are required"
      else
        projectID ← resolved r;
        found ← read (λ _ s, GetFlagByProject s projectID key);
        flag ← unwrap (λ e, NewAppError ErrCodeFlagNotFound
          ("flag not found in project: " +:+ Error e) StatusNotFound
          (Some (ESentinel ErrFlagNotFound))) found;
        match ff_Environments flag !! fromEnv with
        | None =>
            writeText StatusBadRequest
              ("source environment " +:+ rt_quote fromEnv +:+ " does not exist on flag")
        | Some srcConfig =>
            o ← outside;
            let flag := flag
              <| ff_Environments := <[toEnv := promoted_config srcConfig]> (ff_Environments flag) |>
              <| ff_UpdatedAt := sys_now (out_sys o) 0 |> in
            actor ← getActorFromRequest r "system";
            saved ← save flag actor;
            match saved with
            | Err e => writeText StatusInternalServerError
                         ("failed to promote environment: " +:+ Error e)
            | Ok log =>
                broadcastCurrentFlags (ff_ProjectID flag) toEnv;;
                writeJSON StatusOK (BFlag flag log)
            end
        end.

(** ** Evaluation *)

Record EvaluateRequest := mkEvaluate {
  ev_Flags : list string;
  ev_Context : EvaluationContext;
  ev_Trace : bool;
}.

(** An API key fills in its environment, and may not evaluate in another. *)
Definition key_environment (apiKey : option APIKey) (env : Environment) : Environment :=
  match apiKey with
  | None => env
  | Some k =>
      if (env =s? "") && negb (ak_Environment k =s? "") && negb (ak_Environment k =s? EnvAll) &&
         negb (ak_Environment k =s? "*")
      then ak_Environment k else env
  end.

(** [targetMap]: by key and by identifier, later flags over earlier ones. *)
Definition target_map (flags : list FeatureFlag) : gmap string FeatureFlag :=
  foldl (λ m f, <[ff_ID f := f]> (<[ff_Key f := f]> m)) ∅ flags.

Definition missing_result (k : string) : EvaluationResult :=
  mkResult k false "off" (AnyBool false) ReasonFlagNotFound "" "" None None "" 65
    (f64_ratio 65 1000).

(** [ns] and [total] are the elapsed times the evaluation measures. *)
Definition evaluate_one_flag (trace : bool) (ns total : Z) (flag : FeatureFlag)
    (ctx : EvaluationContext) : EvaluationResult :=
  if trace then (EvaluateFlagWithTrace ns total flag ctx).1 else EvaluateFlag ns flag ctx.

Definition evaluate_requested (trace : bool) (ns total : Z) (ctx : EvaluationContext)
    (targets : gmap string FeatureFlag) (keys : list string) : gmap string EvaluationResult :=
  foldl (λ results k,
    match targets !! k with
    | Some flag => <[ff_Key flag := evaluate_one_flag trace ns total flag ctx]> results
    | None => <[k := missing_result k]> results
    end) ∅ keys.

Definition evaluate_everything (trace : bool) (ns total : Z) (ctx : EvaluationContext)
    (flags : list FeatureFlag) : gmap string EvaluationResult :=
  foldl (λ results flag, <[ff_Key flag := evaluate_one_flag trace ns total flag ctx]> results)
    ∅ flags.

Definition count_evaluations (n : nat) : Handler () := λ srv w,
  (w <| wd_evalCount := wrap_u64 (wd_evalCount w + Z.of_nat n) |>, inl ()).

Definition bulk_needs_auth : GoError :=
  NewAppError ErrCodeUnauthorized
    "Bulk evaluation without specific flag keys requires an authenticated API key or session credential"
    StatusUnauthorized (Some (ESentinel ErrUnauthorized)).

(** [ns] and [total] stand for the elapsed times of all evaluations. *)
Definition handleEvaluate (ns total : Z) (body : result GoError EvaluateRequest) (r : Request)
    : Handler Reply :=
  req ← unwrap bad_payload body;
  apiKey ← getAPIKeyFromRequest r;
  let env := key_environment apiKey (ctx_Environment (ev_Context req)) in
  (if negb (env =s? "") && negb (AllowsEnvironment apiKey env)
   then writeError (NewAppError ErrCodeEnvironmentRestricted
          ("API key is scoped to environment '" +:+
           match apiKey with Some k => ak_Environment k | None => "" end +:+
           "' and cannot access '" +:+ env +:+ "'")
          StatusForbidden (Some (ESentinel ErrEnvironmentRestricted)))
   else mret ());;
  let ctx := ev_Context req <| ctx_Environment := or_default env EnvProduction |> in
  let trace := ev_Trace req || (QueryGet r "trace" =s? "true") in
  projectID ← resolved r;
  allFlags ← read (λ _ s, ListFlagsByProject s projectID);
  results ←
    match ev_Flags req with
    | _ :: _ => mret (evaluate_requested trace ns total ctx (target_map allFlags) (ev_Flags req))
    | [] =>
        apiKey ← getAPIKeyFromRequest r;
        found ← getUserFromRequest r;
        if bool_decide (apiKey = None) && negb (is_ok found) then writeError bulk_needs_auth
        else mret (evaluate_everything trace ns total ctx allFlags)
    end;
  count_evaluations (size results);;
  writeJSON StatusOK (BResults projectID results).

(** ** Benchmarking *)

(** The body; the zero value where it does not decode. *)
Record BenchmarkRequest := mkBenchmark {
  bn_Iterations : Z;
  bn_Environment : Environment;
}.

Definition benchmark_baseline (env : Environment) : FeatureFlag :=
  zero_FeatureFlag <| ff_Key := "benchmark-baseline" |> <| ff_Name := "Benchmark Baseline" |>
    <| ff_Type := "boolean" |>
    <| ff_Environments := {[ env := zero_EnvironmentConfig <| ec_Enabled := true |>
                                      <| ec_Strategy := StrategyBoolean |> ]} |>.

(** [dur] and [total] are the times the benchmark measures.  A panic of the
    benchmark is answered as [internal_error] of [Middleware]. *)
Definition handleBenchmark (dur : Z → Z) (total : Duration) (req : BenchmarkRequest) (r : Request)
    : Handler Reply :=
  let iterations := if (bn_Iterations req <=? 0)%Z then 10000%Z else bn_Iterations req in
  let env := or_default (bn_Environment req) EnvProduction in
  projectID ← resolved r;
  allFlags ← read (λ _ s, ListFlagsByProject s projectID);
  let targetFlag := match allFlags with flag :: _ => flag | [] => benchmark_baseline env end in
  match RunBenchmark targetFlag env iterations dur total with
  | Some metrics => writeJSON StatusOK (BBenchmark metrics)
  | None => writeError (NewAppError ErrCodeInternal
      "An unexpected internal error occurred. Please contact support." StatusInternalServerError None)
  end.

End Handlers.
