(* ===== verification/ApiGovernance.v ===== *)
(** * The change-request handlers ([pkg/api/handlers_changerequest.go])

    The notification e-mails are not modelled; [emails] is what
    [GetGovernanceEmails] returns, empty without a mailer. *)

From S2P Require Import Prelude GoFloat GoStrings GoTime Sha256 Errors Domain Entities StoreState.
From S2P Require Import StoreAudit StoreFlags StoreGovernance Http Auth Access ApiFlags.

Section Governance.
Context `{GoRuntime}.

(** [http.Error(w, err.Error(), http.StatusBadRequest)]. *)
Definition bad_request {A} (r : result GoError A) : Handler A :=
  match r with Ok a => mret a | Err e => writeText StatusBadRequest (Error e) end.

(** [if err := ...; err != nil { s.writeError(w, r, err); return }]. *)
Definition check (err : option GoError) : Handler () :=
  match err with None => mret () | Some e => writeError e end.

Definition context_user : Handler User :=
  inContext ← UserFromContext;
  match inContext with
  | None => writeText StatusUnauthorized "Unauthorized"
  | Some user => mret user
  end.

(** The project of a new request: the one it names, if the caller may use it, or
    the one of the HTTP request. *)
Definition request_project (r : Request) (projectID : string) : Handler string :=
  if projectID =s? "" then resolved r
  else denied ← authorizeProjectAccess r projectID; check denied;; mret projectID.

Definition handleCreateChangeRequest (body : result GoError ChangeRequest) (r : Request)
    : Handler Reply :=
  user ← context_user;
  req ← unwrap (λ e, malformed ("Invalid JSON payload: " +:+ Error e) e) body;
  if cr_FlagKey req =s? "" then writeError (invalid_input "flag_key is required")
  else
    let req := req <| cr_Environment := or_default (cr_Environment req) EnvProduction |> in
    projectID ← request_project r (cr_ProjectID req);
    let req := req <| cr_ProjectID := projectID |> <| cr_AuthorUserID := us_ID user |>
                   <| cr_AuthorEmail := us_Email user |> <| cr_AuthorName := us_Name user |> in
    (match ValidateEnvironmentConfig (cr_ProposedConfig req) with
     | Some err => writeError (invalid_input (Error err))
     | None => mret ()
     end);;
    found ← read (λ _ s, GetFlagByProject s (cr_ProjectID req) (cr_FlagKey req));
    targetFlag ← unwrap (λ _, NewAppError ErrCodeFlagNotFound
      ("target flag not found: " +:+ cr_FlagKey req) StatusNotFound
      (Some (ESentinel ErrFlagNotFound))) found;
    let req := req <| cr_BaseConfigVersion := ff_ConfigVersion targetFlag |> in
    made ← call (λ o s, CreateChangeRequest (out_sys o) s req);
    created ← bad_request made;
    broadcast_event "change_request_created";;
    writeJSON StatusCreated (BChangeRequest created).

Definition handleListOrCreateChangeRequests (body : result GoError ChangeRequest) (r : Request)
    : Handler Reply :=
  if rq_Method r =s? "GET" then
    projectID ← resolved r;
    crs ← read (λ o s, ListChangeRequestsByProject
      (out_order o ChangeRequest (ms_changeRequests s)) projectID (QueryGet r "status"));
    writeJSON StatusOK (BChangeRequests projectID crs)
  else if rq_Method r =s? "POST" then RequireAuth (handleCreateChangeRequest body) r
  else writeText StatusMethodNotAllowed "Method Not Allowed".

(** The list of reviewers in the environment variable. *)
Definition env_reviewer (governance : string) (user : User) : bool :=
  negb (governance =s? "") &&
  existsb (λ e, EqualFold (TrimSpace (us_Email user)) (TrimSpace e)) (Split governance ",").

Definition not_a_reviewer : GoError :=
  NewAppError ErrCodeForbidden
    "4-Eyes governance requires review by an administrator, organization owner, or designated governance reviewer"
    StatusForbidden (Some (ESentinel ErrForbidden)).

Record ReviewRequest := mkReview { rv_Approved : bool; rv_Comments : string }.

Definition handleReviewChangeRequest (emails : list string) (id : string)
    (body : result GoError ReviewRequest) (r : Request) : Handler Reply :=
  context_user;;
  found ← read (λ _ s, GetChangeRequest s id);
  cr ← bad_request found;
  denied ← authorizeProjectAccess r (cr_ProjectID cr);
  check denied;;
  enrich_context (cr_ProjectID cr);;
  user ← context_user;
  governance ← Getenv "FLAGURA_GOVERNANCE_EMAILS";
  if negb (IsPrivileged (Some user) || existsb (λ e, EqualFold (us_Email user) e) emails ||
           env_reviewer governance user)
  then writeError not_a_reviewer
  else
    req ← match body with
          | Ok req => mret req
          | Err e => writeText StatusBadRequest ("Invalid JSON payload: " +:+ Error e)
          end;
    reviewed ← call (λ o s, ReviewChangeRequest (out_sys o) s id (us_ID user) (us_Email user)
      (us_Name user) (rv_Approved req) (rv_Comments req));
    updated ← bad_request reviewed;
    broadcast_event "change_request_reviewed";;
    writeJSON StatusOK (BChangeRequest updated).

Definition handleApplyChangeRequest (id : string) (r : Request) : Handler Reply :=
  inContext ← UserFromContext;
  let actor := match inContext with Some user => us_Email user | None => "system" end in
  found ← read (λ _ s, GetChangeRequest s id);
  targetCR ← bad_request found;
  denied ← authorizeProjectAccess r (cr_ProjectID targetCR);
  check denied;;
  applied ← call (λ o s, ApplyChangeRequest (out_sys o) s id actor);
  '(flag, cr, audit) ← bad_request applied;
  broadcastCurrentFlags (cr_ProjectID cr) (cr_Environment cr);;
  writeJSON StatusOK (BApplied flag cr audit).

(** The parts of the path after the prefix. *)
Definition item_path (r : Request) : list string :=
  Split (Trim (TrimPrefix (rq_Path r) "/api/v1/change-requests/") "/") "/".

Definition handleChangeRequestItem (emails : list string) (body : result GoError ReviewRequest)
    (r : Request) : Handler Reply :=
  match item_path r with
  | [] => writeText StatusBadRequest "Change request ID required"
  | id :: rest =>
      if id =s? "" then writeText StatusBadRequest "Change request ID required"
      else
        match rest with
        | [] =>
            if rq_Method r =s? "GET" then
              found ← read (λ _ s, GetChangeRequest s id);
              cr ← unwrap (λ e, NewAppError ErrCodeNotFound (Error e) StatusNotFound (Some e)) found;
              denied ← authorizeProjectAccess r (cr_ProjectID cr);
              check denied;;
              writeJSON StatusOK (BChangeRequest cr)
            else writeText StatusMethodNotAllowed "Method Not Allowed"
        | action :: _ =>
            if action =s? "review" then
              if negb (rq_Method r =s? "POST")
              then writeText StatusMethodNotAllowed "Method Not Allowed"
              else RequireAuth (handleReviewChangeRequest emails id body) r
            else if action =s? "apply" then
              if negb (rq_Method r =s? "POST")
              then writeText StatusMethodNotAllowed "Method Not Allowed"
              else RequireAuth (RequireRole RoleAdmin (handleApplyChangeRequest id)) r
            else writeText StatusNotFound "404 page not found"
        end
  end.

End Governance.
