(* ===== verification/ApiKeys.v ===== *)
(** * API keys, the kill-switch webhook and the reset
    ([pkg/api/handlers_apikey.go], [pkg/api/handlers_admin.go]) *)

From S2P Require Import Prelude GoFloat GoStrings GoTime Sha256 Errors Domain Entities StoreState.
From S2P Require Import StoreAudit StoreFlags StoreIdentity StoreTenancy Http Auth Access ApiFlags.
From S2P Require Import ApiGovernance.

Section Keys.
Context `{GoRuntime}.

(** The raw key, its prefix and its hash; the random source gives 32 bytes in
    hexadecimal. *)
Definition generateRawAPIKey (sys : Sys) : string * string * string :=
  let hexStr := sys_rand sys 0 in
  let rawKey := "flg_live_" +:+ hexStr in
  (rawKey, "flg_live_" +:+ str_take 8 hexStr +:+ "...****", sha256_hex rawKey).

Record CreateAPIKeyRequest := mkCreateKey {
  ck_Name : string;
  ck_Role : UserRole;
  ck_Environment : string;
}.

(** The role the key gets: only a privileged caller gives the admin role. *)
Definition granted_role (privileged : bool) (role : UserRole) : UserRole :=
  let role := or_default role RoleDeveloper in
  if (role =s? RoleAdmin) && negb privileged then RoleDeveloper else role.

Definition is_all (env : string) : bool := (env =s? EnvAll) || (env =s? "*").

Definition bad_environment : GoError :=
  NewAppError ErrCodeInvalidEnvironment
    "Invalid environment: must be 'production', 'staging', 'development', or 'all'"
    StatusBadRequest (Some (ESentinel ErrInvalidEnvironment)).

(** The environment the key is bound to. *)
Definition granted_environment (privileged : bool) (env : string) : Handler string :=
  let env := or_default (ToLower (TrimSpace env)) EnvProduction in
  if is_all env then mret (if privileged then env else EnvProduction)
  else if negb (env =s? EnvProduction) && negb (env =s? EnvStaging) && negb (env =s? EnvDevelopment)
  then writeError bad_environment
  else mret env.

Definition create_api_key (body : result GoError CreateAPIKeyRequest) (r : Request)
    : Handler Reply :=
  req ← unwrap (λ e, malformed ("Invalid request payload: " +:+ Error e) e) body;
  if TrimSpace (ck_Name req) =s? "" then writeError (invalid_input "Name is required for API Key")
  else
    found ← getUserFromRequest r;
    let user := match found with Ok u => Some u | Err _ => None end in
    let createdBy := or_default (match user with Some u => us_Email u | None => "" end) "system" in
    projectID ← resolveProjectID r;
    user ← match user with
           | None => mret None
           | Some u => u ← enrichUserOrgMembership u projectID; mret (Some u)
           end;
    let privileged := IsPrivileged user in
    env ← granted_environment privileged (ck_Environment req);
    o ← outside;
    let '(rawKey, prefix, hash) := generateRawAPIKey (out_sys o) in
    denied ← authorizeProjectAccess r projectID;
    check denied;;
    o ← outside;
    let apiKey := mkAPIKey (NewID (out_sys o) "key") projectID env rawKey prefix hash
      (TrimSpace (ck_Name req)) (granted_role privileged (ck_Role req)) createdBy
      (sys_now (out_sys o) 1) None false in
    created ← call (λ o s, CreateAPIKey (out_sys o) s apiKey);
    writeJSON StatusCreated (BAPIKey created).

Definition handleListOrCreateAPIKeys (body : result GoError CreateAPIKeyRequest) (r : Request)
    : Handler Reply :=
  if rq_Method r =s? "GET" then
    projectID ← resolved r;
    keys ← read (λ o s, ListAPIKeysByProject (out_order o APIKey (ms_apiKeys s)) projectID);
    writeJSON StatusOK (BAPIKeys projectID keys)
  else if rq_Method r =s? "POST" then create_api_key body r
  else writeText StatusMethodNotAllowed "Method Not Allowed".

Definition key_missing (message : string) : GoError :=
  NewAppError ErrCodeAPIKeyNotFound message StatusNotFound (Some (ESentinel ErrKeyNotFound)).

Definition handleRevokeAPIKey (r : Request) : Handler Reply :=
  if negb (rq_Method r =s? "DELETE") && negb (rq_Method r =s? "POST")
  then writeText StatusMethodNotAllowed "Method Not Allowed"
  else
    let id := TrimSpace (default "" (head (Split (TrimPrefix (rq_Path r) "/api/v1/api-keys/") "/"))) in
    if id =s? "" then writeError (invalid_input "API Key ID required")
    else
      found ← read (λ _ s, GetAPIKeyByID s id);
      key ← unwrap (λ _, key_missing ("API key not found: " +:+ id)) found;
      denied ← authorizeProjectAccess r (ak_ProjectID key);
      check denied;;
      actor ← getActorFromRequest r "admin@flagura.dev";
      failed ← call (λ o s, RevokeAPIKeyByProject (out_sys o) s (ak_ProjectID key) id actor);
      match failed with
      | Some e => writeError (key_missing (Error e))
      | None => writeJSON StatusOK BDone
      end.

(** ** The webhook that turns a flag off *)

Definition webhook_token (r : Request) : string :=
  let authHeader := HeaderGet r HeaderAuthorization in
  let token := if HasPrefix authHeader "Bearer " then TrimPrefix authHeader "Bearer " else "" in
  let token := or_default token (HeaderGet r "X-Webhook-Secret") in
  let token := or_default token (HeaderGet r HeaderAPIKey) in
  or_default token (QueryGet r "token").

Definition handleWebhookKillSwitch (r : Request) : Handler Reply :=
  if negb (rq_Method r =s? "POST") then writeText StatusMethodNotAllowed "Method Not Allowed"
  else
    webhookSecret ← Getenv "FLAGURA_WEBHOOK_SECRET";
    let providedToken := webhook_token r in
    let webhookSecretAuth :=
      negb (webhookSecret =s? "") && negb (providedToken =s? "") && (providedToken =s? webhookSecret) in
    bySession ←
      (if negb webhookSecretAuth && negb (providedToken =s? "") && (webhookSecret =s? "") then
         read (λ o s,
           match GetSession (out_sys o) s providedToken with
           | Ok sess => negb (Session_IsExpired (sys_now (out_sys o) 1) sess)
           | Err _ => false
           end)
       else mret false);
    apiKey ← getAPIKeyFromRequest r;
    found ← getUserFromRequest r;
    if negb (webhookSecretAuth || bySession || bool_decide (apiKey ≠ None) || is_ok found)
    then exit (unauthorized
      "Webhook authentication failed. Provide a valid Bearer token, X-Webhook-Secret header, or active session.")
    else
      let key := TrimSpace (default "" (head
        (Split (TrimPrefix (rq_Path r) "/api/v1/webhooks/kill-switch/") "/"))) in
      if key =s? "" then writeText StatusBadRequest "flag key is required in url path"
      else
        let env := or_default (QueryGet r "env") "production" in
        projectID ←
          (if webhookSecretAuth : bool
           then pid ← resolveProjectID r; mret (or_default pid DefaultProjectID)
           else resolved r);
        (if negb (AllowsEnvironment apiKey env)
         then writeError (NewAppError ErrCodeEnvironmentRestricted
                ("API key is scoped to environment '" +:+
                 match apiKey with Some k => ak_Environment k | None => "" end +:+
                 "' and cannot modify '" +:+ env +:+ "'")
                StatusForbidden (Some (ESentinel ErrEnvironmentRestricted)))
         else mret ());;
        actor ← getActorFromRequest r "webhook-alert-automation";
        toggled ← call (λ o s,
          ToggleFlagByProject (out_sys o) s projectID key env (Some false) actor);
        '(flag, log) ← unwrap (λ e, NewAppError ErrCodeFlagNotFound
          ("Flag not found or failed to disable: " +:+ Error e) StatusNotFound
          (Some (ESentinel ErrFlagNotFound))) toggled;
        broadcastCurrentFlags (ff_ProjectID flag) env;;
        writeJSON StatusOK (BFlag flag (Some log)).

Definition handleReset (r : Request) : Handler Reply :=
  projectID ← resolveProjectID r;
  call (λ _ s, (Reset s, ()));;
  broadcastCurrentFlags projectID "";;
  writeJSON StatusOK BDone.

End Keys.
