(* ===== verification/ApiAuth.v ===== *)
(** * Sign-up, login, logout and passwords ([pkg/api/handlers_auth.go],
    [pkg/api/handlers_password.go], [pkg/api/handlers_profile.go])

    [AuthLib] is the third-party [bcrypt] and the address parser of [net/mail].
    Welcome and reset e-mails are not modelled, nor the log of security events. *)

From S2P Require Import Prelude GoFloat GoStrings GoTime Sha256 Errors Domain Entities StoreState.
From S2P Require Import StoreAudit StoreIdentity StoreTenancy Http Auth Access ApiFlags.
From S2P Require Import ApiGovernance.

(** [GenerateFromPassword] with the salt it draws ([None]: an error, such as a
    password of more than 72 bytes), [CompareHashAndPassword] succeeding, and
    [mail.ParseAddress] succeeding with the whole text as the address. *)
Class AuthLib := {
  bcrypt_hash : string → string → option string;
  bcrypt_compare : string → string → bool;
  plain_address : string → bool;
}.

(** What is documented of [bcrypt]. *)
Class AuthLibLaws `{AuthLib} := {
  bcrypt_roundtrip salt p h : bcrypt_hash salt p = Some h → bcrypt_compare h p = true;
}.

Section AuthHandlers.
Context `{GoRuntime} `{AuthLib}.

Definition only_post {A} (r : Request) (k : Handler A) : Handler A :=
  if negb (rq_Method r =s? "POST") then writeText StatusMethodNotAllowed "Method Not Allowed"
  else k.

Definition internal (msg : string) (cause : option GoError) : GoError :=
  NewAppError ErrCodeInternal msg StatusInternalServerError cause.

Definition invalid_email : GoError := invalid_input "A valid email address is required".

Definition has_line_break (s : string) : bool :=
  str_mem (ascii_of_nat 13) s || str_mem (ascii_of_nat 10) s.

(** The last four bytes of an identifier. *)
Definition last4 (id : string) : string := str_drop (String.length id - 4) id.

Definition list_projects (orgID : string) : Handler (list Project) :=
  read (λ o s, ListProjects (out_order o Project (ms_projects s)) orgID).

(** A new session of the user; the token is 32 random bytes in hexadecimal. *)
Definition open_session (userID : string) : Handler string :=
  o ← outside;
  let token := sys_rand (out_sys o) 0 in
  let expiresAt := time_add (sys_now (out_sys o) 0) (7 * 24 * Hour) in
  call (λ _ s, (CreateSession s (mkSession token userID None expiresAt time_zero), ()));;
  mret token.

Record SignUpRequest := mkSignUp {
  su_Name : string;
  su_Email : string;
  su_Password : string;
  su_Role : UserRole;
  su_InviteToken : string;
}.

(** The project an invitation leads to; the empty string without one. *)
Definition accept_invite (req : SignUpRequest) (email : string) (user : User) : Handler string :=
  if su_InviteToken req =s? "" then mret ""
  else
    found ← read (λ o s, GetOrgInvitation (out_sys o) s (su_InviteToken req));
    match found with
    | Err _ => mret ""
    | Ok inv =>
        if (iv_Email inv =s? "") || EqualFold email (iv_Email inv) then
          call (λ o s, AcceptOrgInvitation (out_sys o) s (su_InviteToken req) (us_ID user));;
          projs ← list_projects (iv_OrganizationID inv);
          mret (match projs with p :: _ => pj_ID p | [] => "" end)
        else mret ""
    end.

(** A workspace of the user's own: an organization it owns, with a project. *)
Definition provision (user : User) : Handler string :=
  o ← outside;
  let userOrg := NewOrganization (out_sys o) (us_Name user +:+ "'s Workspace")
    (Slugify (us_Name user) +:+ "-" +:+ last4 (us_ID user))
    ("Dedicated workspace for " +:+ us_Name user) in
  createdOrg ← call (λ o s, CreateOrganization (out_sys o) s userOrg);
  let orgID :=
    match createdOrg with
    | Ok org => or_default (og_ID org) ("org_" +:+ us_ID user)
    | Err _ => "org_" +:+ us_ID user
    end in
  call (λ o s, CreateOrgMember (out_sys o) s (mkMember "" orgID (us_ID user) "owner" time_zero));;
  o ← outside;
  let userProj := NewProject (out_sys o) orgID "Production Flags" ("prod-" +:+ last4 (us_ID user))
    ("Production feature flags scope for " +:+ us_Name user) in
  createdProj ← call (λ o s, CreateProject (out_sys o) s userProj);
  mret (match createdProj with Ok p => pj_ID p | Err _ => "" end).

Definition handleSignUp (body : result GoError SignUpRequest) (r : Request) : Handler Reply :=
  only_post r (
    req ← unwrap (λ e, malformed ("Invalid JSON payload: " +:+ Error e) e) body;
    let email := TrimSpace (ToLower (su_Email req)) in
    let name := TrimSpace (su_Name req) in
    if (email =s? "") || has_line_break email then writeError invalid_email
    else if negb (plain_address email) || negb (Contains email ".") then writeError invalid_email
    else
      (match validatePasswordComplexity (su_Password req) with
       | Some e => writeError (NewAppError ErrCodePasswordTooWeak (Error e) StatusBadRequest (Some e))
       | None => mret ()
       end);;
      let name := or_default name (default "" (head (Split email "@"))) in
      known ← read (λ _ s, GetUserByEmail s email);
      if is_ok known
      then writeError (NewAppError ErrCodeEmailAlreadyExists
             "An account with this email address already exists" StatusConflict
             (Some (ESentinel ErrEmailAlreadyExists)))
      else
        o ← outside;
        match bcrypt_hash (sys_rand (out_sys o) 0) (su_Password req) with
        | None => writeError (internal "Failed to hash password" None)
        | Some hash =>
            o ← outside;
            let user := NewUser (out_sys o) email name hash RoleDeveloper in
            made ← call (λ o s, CreateUser (out_sys o) s user);
            createdUser ← unwrap (λ e, internal ("Failed to create user: " +:+ Error e) (Some e)) made;
            invited ← accept_invite req email createdUser;
            activeProjID ← (if invited =s? "" then provision createdUser else mret invited);
            token ← open_session (us_ID createdUser);
            writeJSON StatusCreated (BUser createdUser token activeProjID)
        end).

Record LoginRequest := mkLogin { lg_Email : string; lg_Password : string }.

Definition invalid_credentials : GoError :=
  NewAppError ErrCodeInvalidCredentials "Invalid email or password" StatusUnauthorized
    (Some (ESentinel ErrUnauthorized)).

Definition handleLogin (body : result GoError LoginRequest) (r : Request) : Handler Reply :=
  only_post r (
    req ← unwrap (λ e, malformed ("Invalid JSON payload: " +:+ Error e) e) body;
    let email := TrimSpace (ToLower (lg_Email req)) in
    found ← read (λ _ s, GetUserByEmail s email);
    match found with
    | Err _ => writeError invalid_credentials
    | Ok user =>
        if negb (bcrypt_compare (us_PasswordHash user) (lg_Password req))
        then writeError invalid_credentials
        else
          token ← open_session (us_ID user);
          orgs ← list_user_orgs (us_ID user);
          project ←
            match orgs with
            | _ :: _ => p ← first_project orgs; mret (match p with Some p => pj_ID p | None => "" end)
            | [] => mret (if us_Role user =s? RoleAdmin then DefaultProjectID else "")
            end;
          writeJSON StatusOK (BUser user token project)
    end).

(** The token of the session to close: the cookie, else the bearer token. *)
Definition logout_token (r : Request) : string :=
  let authHeader := HeaderGet r HeaderAuthorization in
  let bearer := if HasPrefix authHeader "Bearer " then TrimPrefix authHeader "Bearer " else "" in
  clean_token (or_default (default "" (Cookie r CookieSessionName)) bearer).

Definition handleLogout (r : Request) : Handler Reply :=
  (if negb (logout_token r =s? "")
   then call (λ _ s, (DeleteSession s (logout_token r), ())) else mret ());;
  writeJSON StatusOK BDone.

Definition validation_error (error message : string) {A} : Handler A :=
  exit (mkReply StatusBadRequest (BMessage error message)).

(** [http.Error(w, "Unauthorized: "+err.Error(), ...)]. *)
Definition request_user (r : Request) : Handler User :=
  found ← getUserFromRequest r;
  match found with
  | Ok u => mret u
  | Err e => writeText StatusUnauthorized ("Unauthorized: " +:+ Error e)
  end.

Definition invalid_payload {A} (body : result GoError A) : Handler A :=
  match body with
  | Ok a => mret a
  | Err e => writeText StatusBadRequest ("Invalid request payload: " +:+ Error e)
  end.

Record ChangePasswordRequest := mkChangePassword {
  cp_CurrentPassword : string;
  cp_NewPassword : string;
}.

Definition handleChangePassword (body : result GoError ChangePasswordRequest) (r : Request)
    : Handler Reply :=
  only_post r (
    user ← request_user r;
    found ← read (λ _ s, GetUserByID s (us_ID user));
    freshUser ← match found with
                | Ok u => mret u
                | Err _ => writeText StatusNotFound "User not found"
                end;
    req ← invalid_payload body;
    if cp_CurrentPassword req =s? ""
    then validation_error "Validation Error" "Current password is required."
    else if cp_NewPassword req =s? ""
    then validation_error "Validation Error" "New password is required."
    else if negb (bcrypt_compare (us_PasswordHash freshUser) (cp_CurrentPassword req))
    then validation_error "Incorrect Password" "The current password provided is incorrect."
    else
      match validatePasswordComplexity (cp_NewPassword req) with
      | Some e => validation_error "Weak Password" (Error e)
      | None =>
          o ← outside;
          match bcrypt_hash (sys_rand (out_sys o) 0) (cp_NewPassword req) with
          | None => writeText StatusInternalServerError "Failed to hash password"
          | Some hash =>
              failed ← call (λ o s, UpdateUserPassword (out_sys o) s (us_ID user) hash);
              match failed with
              | Some e => writeText StatusInternalServerError
                            ("Failed to update password: " +:+ Error e)
              | None =>
                  call (λ _ s, (DeleteUserSessions s (us_ID user), ()));;
                  writeJSON StatusOK BDone
              end
          end
      end).

(** [enabled]: the mailer exists and is enabled; the token goes out by e-mail. *)
Definition handleForgotPassword (enabled : bool) (body : result GoError string) (r : Request)
    : Handler Reply :=
  only_post r (
    if negb enabled
    then validation_error "Email Service Disabled"
      "Email delivery is disabled on this instance (SMTP is not configured). Please contact your workspace administrator to reset your credentials."
    else
      address ← invalid_payload body;
      let email := ToLower (TrimSpace address) in
      if email =s? "" then writeText StatusBadRequest "Email is required"
      else
        found ← read (λ _ s, GetUserByEmail s email);
        (if is_ok found
         then call (λ o s, ((CreatePasswordResetToken (out_sys o) s email (15 * Minute)).1, ()))
         else mret ());;
        writeJSON StatusOK BDone).

Record ResetPasswordRequest := mkResetPassword { rs_Token : string; rs_NewPassword : string }.

Definition handleResetPassword (body : result GoError ResetPasswordRequest) (r : Request)
    : Handler Reply :=
  only_post r (
    req ← invalid_payload body;
    let token := TrimSpace (rs_Token req) in
    if token =s? "" then writeText StatusBadRequest "Reset token is required"
    else
      match validatePasswordComplexity (rs_NewPassword req) with
      | Some e => validation_error "Weak Password" (Error e)
      | None =>
          o ← outside;
          match bcrypt_hash (sys_rand (out_sys o) 0) (rs_NewPassword req) with
          | None => writeText StatusInternalServerError "Failed to hash password"
          | Some hash =>
              failed ← call (λ o s, ResetPasswordWithToken (out_sys o) s token hash);
              match failed with
              | Some e => validation_error "Invalid or Expired Token" (Error e)
              | None => writeJSON StatusOK BDone
              end
          end
      end).

(** ** Profile *)

Record UpdateProfileRequest := mkProfile { up_Name : string; up_AvatarURL : string }.

Definition profile_user (id name avatar : string) : User :=
  mkUser id "" "" name "" avatar time_zero time_zero None.

Definition handleUpdateProfile (body : result GoError UpdateProfileRequest) (r : Request)
    : Handler Reply :=
  if negb (rq_Method r =s? "PATCH") && negb (rq_Method r =s? "PUT") && negb (rq_Method r =s? "POST")
  then writeText StatusMethodNotAllowed "Method Not Allowed"
  else
    user ← request_user r;
    req ← invalid_payload body;
    let trimmedName := TrimSpace (up_Name req) in
    if trimmedName =s? "" then validation_error "Validation Error" "Full Name cannot be empty."
    else
      updated ← call (λ o s, UpdateUser (out_sys o) s
        (profile_user (us_ID user) trimmedName (TrimSpace (up_AvatarURL req))));
      match updated with
      | Err e => writeText StatusInternalServerError ("Failed to update profile: " +:+ Error e)
      | Ok u => writeJSON StatusOK (BProfile u)
      end.

Definition handleMe (body : result GoError UpdateProfileRequest) (r : Request) : Handler Reply :=
  if (rq_Method r =s? "PATCH") || (rq_Method r =s? "PUT") then handleUpdateProfile body r
  else
    user ← request_user r;
    writeJSON StatusOK (BProfile user).

End AuthHandlers.
