(* ===== verification/ApiRoutes.v ===== *)
(** * Routing ([pkg/api/router.go], [pkg/api/server.go])

    Middleware chains, dispatch on the method, and the routes of the modelled
    handlers.  The rate limiter of a route, which answers 429 or runs the rest,
    is left out; so are the canary and experiment handlers below the flag
    prefix, which are arguments.  The multiplexer of [net/http] picks the route
    by the path. *)

From S2P Require Import Prelude GoFloat GoStrings GoTime Sha256 Errors Domain Engine Entities StoreState.
From S2P Require Import Http Auth Access ApiFlags ApiGovernance ApiKeys.

Definition HandlerFunc : Type := Request → Handler Reply.
Definition Middleware : Type := HandlerFunc → HandlerFunc.

(** [ChainMiddlewares(handler, m1, m2)] runs [m1], then [m2], then the handler. *)
Definition ChainMiddlewares (handler : HandlerFunc) (middlewares : list Middleware) : HandlerFunc :=
  foldr (λ m h, m h) handler middlewares.

Definition method_not_allowed : Reply :=
  mkReply StatusMethodNotAllowed (BText "Method Not Allowed").

(** [MethodRouter.ServeHTTP]. *)
Definition MethodRouter (routes : list (string * HandlerFunc)) : HandlerFunc := λ r,
  match list_find (λ mh, mh.1 = rq_Method r) routes with
  | Some (_, (_, h)) => h r
  | None => exit method_not_allowed
  end.

(** The JSON body of a request, as the handler of each route decodes it. *)
Record Bodies := mkBodies {
  bd_flag : result GoError FeatureFlag;
  bd_toggle : ToggleRequest;
  bd_rollout : result GoError RolloutRequest;
  bd_change : result GoError ChangeRequest;
  bd_review : result GoError ReviewRequest;
  bd_key : result GoError CreateAPIKeyRequest;
}.

Section Routes.
Context `{GoRuntime}.
Context (handleCanaryRoutes handleGetExperimentReport : HandlerFunc).

(** [RouteAPIFlags]. *)
Definition route_flags (b : Bodies) : HandlerFunc :=
  ChainMiddlewares
    (MethodRouter [("GET", handleGetFlags); ("POST", handleCreateFlag (bd_flag b))]) [RequireAuth].

(** [RouteAPIFlagsPrefix]. *)
Definition route_flags_prefix (b : Bodies) : HandlerFunc := λ r,
  let path := rq_Path r in
  let post := (rq_Method r =s? "PATCH") || (rq_Method r =s? "POST") in
  if Contains path "/canary" then handleCanaryRoutes r
  else if HasSuffix path "/toggle" && post then RequireAuth (handleToggleFlag (bd_toggle b)) r
  else if HasSuffix path "/rollout" && post then RequireAuth (handleUpdateRollout (bd_rollout b)) r
  else if HasSuffix path "/promote" && (rq_Method r =s? "POST")
  then RequireAuth handlePromoteEnvironment r
  else if HasSuffix path "/experiment" && (rq_Method r =s? "GET")
  then RequireAuth handleGetExperimentReport r
  else if (rq_Method r =s? "PUT") || post then RequireAuth (handleUpdateFlag (bd_flag b)) r
  else if rq_Method r =s? "DELETE" then RequireAuth handleDeleteFlag r
  else exit method_not_allowed.

Definition route_change_requests (b : Bodies) : HandlerFunc :=
  ChainMiddlewares (handleListOrCreateChangeRequests (bd_change b)) [RequireAuth].

Definition route_change_requests_prefix (emails : list string) (b : Bodies) : HandlerFunc :=
  ChainMiddlewares (handleChangeRequestItem emails (bd_review b)) [RequireAuth].

Definition route_api_keys (b : Bodies) : HandlerFunc :=
  ChainMiddlewares (handleListOrCreateAPIKeys (bd_key b)) [RequireAuth].

Definition route_api_keys_prefix : HandlerFunc := ChainMiddlewares handleRevokeAPIKey [RequireAuth].

Definition route_webhook : HandlerFunc := handleWebhookKillSwitch.

Definition route_reset : HandlerFunc :=
  ChainMiddlewares (MethodRouter [("POST", handleReset)]) [RequireAuth; RequireAdmin].

End Routes.

Lemma ChainMiddlewares_app h ms1 ms2 :
  ChainMiddlewares h (ms1 ++ ms2) = ChainMiddlewares (ChainMiddlewares h ms2) ms1.
Proof. unfold ChainMiddlewares. by rewrite foldr_app. Qed.
