(* ===== verification/AuthFacts.v ===== *)
(** * Who is let in

    The specification [authenticates] of the credentials the server accepts, and
    what the middleware does with them. *)

From S2P Require Import Prelude GoFloat GoStrings GoTime Sha256 Errors Domain Entities StoreState.
From S2P Require Import StoreAudit StoreIdentity Http Auth.

(** ** Stores that differ in the last use of a key *)

Definition forget_use (k : APIKey) : APIKey := k <| ak_LastUsedAt := None |>.

(** Only the times at which API keys were last used may differ. *)
Definition uses_only (s s' : MemoryStore) : Prop :=
  s' = s <| ms_apiKeys := ms_apiKeys s' |> ∧
  forget_use <$> ms_apiKeys s' = forget_use <$> ms_apiKeys s.

#[export] Instance uses_only_preorder : PreOrder uses_only.
Proof.
  split.
  - intros s. split; [by destruct s|done].
  - intros s1 s2 s3 [H1 E1] [H2 E2]. split; [|congruence]. rewrite H2, H1. by destruct s1.
Qed.

(** The key that a hash authenticates as. *)
Definition live_key (s : MemoryStore) (hash : string) : option APIKey :=
  match ms_apiKeysByHash s !! hash with
  | None => None
  | Some id =>
      match ms_apiKeys s !! id with
      | None => None
      | Some k => if ak_Revoked k then None else Some k
      end
  end.

Lemma forget_use_revoked k k' : forget_use k = forget_use k' → ak_Revoked k = ak_Revoked k'.
Proof. by intros [= ?]. Qed.

Lemma forget_use_fields k k' :
  forget_use k = forget_use k' →
  ak_ID k = ak_ID k' ∧ ak_ProjectID k = ak_ProjectID k' ∧ ak_Environment k = ak_Environment k' ∧
  ak_Role k = ak_Role k'.
Proof. by intros [= ? ? ? ? ? ? ? ? ? ? ?]. Qed.

Lemma live_key_uses s s' hash :
  uses_only s s' → forget_use <$> live_key s' hash = forget_use <$> live_key s hash.
Proof.
  intros [Hs Hk]. unfold live_key. rewrite Hs. cbn [ms_apiKeysByHash ms_apiKeys update_field].
  destruct (ms_apiKeysByHash s !! hash) as [id|]; [|done].
  apply (f_equal (λ m : gmap string APIKey, m !! id)) in Hk. rewrite !lookup_fmap in Hk.
  destruct (ms_apiKeys s' !! id) as [k'|], (ms_apiKeys s !! id) as [k|]; simpl in Hk; try done.
  apply (inj Some) in Hk. rewrite (forget_use_revoked _ _ Hk).
  destruct (ak_Revoked k); simpl; [done|by f_equal].
Qed.

Lemma GetAPIKeyByHash_spec sys s hash :
  uses_only s (GetAPIKeyByHash sys s hash).1 ∧
  match (GetAPIKeyByHash sys s hash).2 with
  | Ok k => ∃ k0, live_key s hash = Some k0 ∧ forget_use k = forget_use k0 ∧ ak_Revoked k = false
  | Err _ => live_key s hash = None
  end.
Proof.
  unfold GetAPIKeyByHash, live_key. destruct (ms_apiKeysByHash s !! hash) as [id|]; [|done].
  destruct (ms_apiKeys s !! id) as [k|] eqn:E; [|done]. destruct (ak_Revoked k) eqn:Er; [done|].
  simpl. split; [split; [done|]|by exists k].
  simpl. rewrite fmap_insert. apply insert_id. by rewrite lookup_fmap, E.
Qed.

(** ** Worlds that differ in what authentication touches *)

(** Same user and broadcasts, and the stores differ in the last uses of keys. *)
Record same_world (w w' : World) : Prop := {
  sw_store : uses_only (wd_store w) (wd_store w');
  sw_user : wd_user w' = wd_user w;
  sw_broadcasts : wd_broadcasts w' = wd_broadcasts w;
}.

#[export] Instance same_world_preorder : PreOrder same_world.
Proof.
  split.
  - intros w. split; done.
  - intros w1 w2 w3 [H1 H2 H3] [G1 G2 G3]. split; [by etrans|congruence|congruence].
Qed.

Lemma same_world_step w n : same_world w (w <| wd_step := n |>).
Proof. by split. Qed.

Lemma wp_find_key srv hash Q E w :
  (∀ r w', same_world w w' →
     match r with
     | Ok k => ∃ k0, live_key (wd_store w) hash = Some k0 ∧ forget_use k = forget_use k0 ∧
                 ak_Revoked k = false
     | Err _ => live_key (wd_store w) hash = None
     end → Q r w') →
  wp srv (find_key hash) Q E w.
Proof.
  intros HQ. unfold find_key. apply wp_call. simpl.
  destruct (GetAPIKeyByHash_spec (out_sys (sv_out srv (wd_step w))) (wd_store w) hash) as [Hu Hr].
  by apply HQ; [split|].
Qed.

(** ** The key a request presents *)

Definition presented_key (s : MemoryStore) (r : Request) : option APIKey :=
  if key_token r =s? "" then None else live_key s (sha256_hex (key_token r)).

Lemma presented_key_uses s s' r :
  uses_only s s' → forget_use <$> presented_key s' r = forget_use <$> presented_key s r.
Proof. intros Hu. unfold presented_key. case_if; [done|]. by apply live_key_uses. Qed.

Lemma wp_getAPIKeyFromRequest srv r Q E w :
  (∀ k w', same_world w w' → forget_use <$> k = forget_use <$> presented_key (wd_store w) r → Q k w') →
  wp srv (getAPIKeyFromRequest r) Q E w.
Proof.
  intros HQ. unfold getAPIKeyFromRequest, presented_key in *.
  destruct (key_token r =s? "") eqn:Et; [by apply wp_ret, HQ|].
  apply wp_bind, wp_find_key. intros res w' Hw Hres. destruct res as [k|e]; apply wp_ret, HQ; try done.
  - destruct Hres as (k0 & -> & Hk & ->). simpl. by rewrite Hk.
  - by rewrite Hres.
Qed.

(** ** The credentials the server accepts *)

(** The user a session stands for. *)
Definition session_owner (s : MemoryStore) (sess : Session) : option User :=
  match ms_users s !! ss_UserID sess with
  | Some u => Some u
  | None => ss_User sess
  end.

Definition key_tokens (r : Request) : list string := [api_key_header r; bearer_token r].

Inductive authenticates (srv : Server) (s : MemoryStore) (r : Request) : User → Prop :=
| auth_master tok :
    tok ∈ key_tokens r → tok ≠ "" → sv_Getenv srv "FLAGURA_API_KEY" = tok →
    authenticates srv s r service_account
| auth_key tok k :
    tok ∈ key_tokens r → tok ≠ "" → live_key s (sha256_hex tok) = Some k →
    authenticates srv s r (key_user k)
| auth_session tok sess n u :
    tok ∈ session_candidates r → ms_sessions s !! tok = Some sess →
    (sys_now (out_sys (sv_out srv n)) 0 ≤ ss_ExpiresAt sess)%Z → session_owner s sess = Some u →
    authenticates srv s r u.

Lemma key_user_forget k k' : forget_use k = forget_use k' → key_user k = key_user k'.
Proof. intros [= ? ? ? ? ? ? ? ? ? ? ?]. unfold key_user. congruence. Qed.

Lemma authenticates_uses srv s s' r u :
  uses_only s s' → authenticates srv s' r u → authenticates srv s r u.
Proof.
  intros Hs. pose proof Hs as [Hst _]. destruct 1 as [tok|tok k Ht Hne Hk|tok sess n u Ht Hg Hx Ho].
  - by apply (auth_master _ _ _ tok).
  - pose proof (live_key_uses _ _ (sha256_hex tok) Hs) as Hl. rewrite Hk in Hl.
    destruct (live_key s (sha256_hex tok)) as [k0|] eqn:E0; [|done].
    apply (inj Some) in Hl. rewrite (key_user_forget _ _ Hl). by apply (auth_key _ _ _ tok).
  - rewrite Hst in Hg. unfold session_owner in Ho. rewrite Hst in Ho.
    by apply (auth_session _ _ _ tok sess n).
Qed.

Lemma wp_try_keys srv master toks Q E w :
  (∀ u w', same_world w w' →
     match u with
     | Some u => ∃ tok, tok ∈ toks ∧ tok ≠ "" ∧
         (tok = master ∧ u = service_account ∨
          ∃ k, live_key (wd_store w) (sha256_hex tok) = Some k ∧ u = key_user k)
     | None => Forall (λ tok, tok = "" ∨ tok ≠ master ∧ live_key (wd_store w) (sha256_hex tok) = None)
                 toks
     end → Q u w') →
  wp srv (try_keys master toks) Q E w.
Proof.
  revert Q w. induction toks as [|tok toks IH]; intros Q w HQ; simpl.
  { by apply wp_ret, HQ. }
  destruct (tok =s? "") eqn:Et; simpl.
  { simp_bool. apply IH. intros u w' Hw Hu. apply HQ; [done|]. destruct u as [u|].
    - destruct Hu as (t & Ht & Hr). exists t. split; [by right|done].
    - constructor; [by left|done]. }
  destruct (negb (master =s? "") && (tok =s? master)) eqn:Em; simpl in *.
  { simp_bool. apply wp_ret, HQ; [done|]. exists tok. split; [by left|]. split; [done|]. by left. }
  assert (tok ≠ master) as Hm by (intros ->; simp_bool; rewrite str_eqb_refl in Em; simp_bool;
    apply andb_false_iff in Em as [Em|Em]; simp_bool; congruence).
  simp_bool. apply wp_bind, wp_find_key. intros res w1 Hw1 Hres. destruct res as [k|e].
  - destruct Hres as (k0 & Hk0 & Hk & ->). simpl. apply wp_ret, HQ; [done|].
    exists tok. split; [by left|]. split; [done|]. right. exists k0. split; [done|].
    by apply key_user_forget.
  - apply IH. intros u w' Hw Hu. assert (same_world w w') as Hww by (by etrans).
    apply HQ; [done|].
    assert (∀ t, live_key (wd_store w1) (sha256_hex t) = None →
      live_key (wd_store w) (sha256_hex t) = None) as Hnone.
    { intros t Ht. pose proof (live_key_uses _ _ (sha256_hex t) (sw_store _ _ Hw1)) as Hl.
      rewrite Ht in Hl. by destruct (live_key (wd_store w) (sha256_hex t)). }
    destruct u as [u|].
    + destruct Hu as (t & Ht & Hne & Hr). exists t. split; [by right|]. split; [done|].
      destruct Hr as [Hr|(k & Hk & ->)]; [by left|right].
      pose proof (live_key_uses _ _ (sha256_hex t) (sw_store _ _ Hw1)) as Hl. rewrite Hk in Hl.
      destruct (live_key (wd_store w) (sha256_hex t)) as [k0|]; [|done]. exists k0. split; [done|].
      apply key_user_forget. by apply (inj Some).
    + constructor; [by right|]. eapply Forall_impl; [exact Hu|]. simpl. intros t [?|[? ?]]; auto.
Qed.

Lemma wp_try_sessions srv toks Q E w :
  (∀ u w', same_world w w' → wd_store w' = wd_store w →
     match u with
     | Some u => ∃ tok sess n, tok ∈ toks ∧ ms_sessions (wd_store w) !! tok = Some sess ∧
         (sys_now (out_sys (sv_out srv n)) 0 ≤ ss_ExpiresAt sess)%Z ∧
         session_owner (wd_store w) sess = Some u
     | None => True
     end → Q u w') →
  wp srv (try_sessions toks) Q E w.
Proof.
  revert Q w. induction toks as [|tok toks IH]; intros Q w HQ; simpl; [by apply wp_ret, HQ|].
  apply wp_bind, wp_read. set (o := sv_out srv (wd_step w)). set (w1 := w <| wd_step := _ |>).
  assert (wp srv (try_sessions toks) Q E w1) as Hrest.
  { apply IH. intros u w' Hw Hs Hu. apply HQ; [by etrans; [apply same_world_step|]|done|].
    destruct u as [u|]; [|done]. destruct Hu as (t & sess & n & Ht & Hr).
    exists t, sess, n. split; [by right|done]. }
  unfold GetSession. destruct (ms_sessions (wd_store w) !! tok) as [sess|] eqn:Es; [|done].
  destruct (Session_IsExpired _ sess) eqn:Ex; [done|].
  unfold Session_IsExpired, After in Ex. simp_bool.
  assert (∀ u, session_owner (wd_store w) sess = Some u → ∃ tok' sess' n, tok' ∈ tok :: toks ∧
    ms_sessions (wd_store w) !! tok' = Some sess' ∧
    (sys_now (out_sys (sv_out srv n)) 0 ≤ ss_ExpiresAt sess')%Z ∧
    session_owner (wd_store w) sess' = Some u) as Hown.
  { intros u Hu. exists tok, sess, (wd_step w). split_and!; [by left|done|done|done]. }
  unfold session_owner in Hown at 1.
  destruct (ms_users (wd_store w) !! ss_UserID sess) as [u|] eqn:Eu; simpl.
  { apply wp_ret, HQ; [done|done|]. by apply Hown. }
  destruct (ss_User sess) as [u|] eqn:Eo; simpl.
  { apply wp_ret, HQ; [done|done|]. by apply Hown. }
  destruct (ss_UserID sess =s? ""); simpl; [done|]. apply wp_bind, wp_read.
  unfold GetUserByID. simpl. rewrite Eu.
  apply IH. intros u w' Hw Hs Hu. apply HQ; [by etrans; [|exact Hw]|done|].
  destruct u as [u|]; [|done]. destruct Hu as (t & s' & n & Ht & Hr).
  exists t, s', n. split; [by right|done].
Qed.

Lemma wp_getUserFromRequest srv r Q E w :
  (∀ res w', same_world w w' →
     match res with
     | Ok u => authenticates srv (wd_store w) r u
     | Err e => e = ESentinel ErrUnauthorized ∧
         Forall (λ tok, tok = "" ∨ tok ≠ sv_Getenv srv "FLAGURA_API_KEY" ∧
                   live_key (wd_store w) (sha256_hex tok) = None) (key_tokens r)
     end → Q res w') →
  wp srv (getUserFromRequest r) Q E w.
Proof.
  intros HQ. unfold getUserFromRequest. apply wp_bind, wp_getenv, wp_bind, wp_try_keys. intros byKey w1 Hw1 Hk. destruct byKey as [u|].
  - apply wp_ret, HQ; [done|]. destruct Hk as (tok & Ht & Hne & [[Hm ->]|(k & Hk & ->)]).
    + by apply (auth_master _ _ _ tok).
    + by apply (auth_key _ _ _ tok k).
  - apply wp_bind, wp_try_sessions. intros u w2 Hw2 _ Hu.
    assert (same_world w w2) as Hww by (by etrans).
    destruct u as [u|]; apply wp_ret, HQ; try done.
    destruct Hu as (tok & sess & n & Ht & Hs & Hx & Ho).
    destruct (sw_store _ _ Hw1) as [Hst _]. rewrite Hst in Hs, Ho. by apply (auth_session _ _ _ tok sess n).
Qed.

(** C10: authentication is sound: a user is recognized only by the master key, by
    a stored and unrevoked API key whose SHA-256 hash is that of a presented
    token, or by a session that has not expired; looking changes nothing but
    the last use of a key.  When nobody is recognized, no presented token is
    the master key or a live key. *)
Theorem getUserFromRequest_sound srv r w :
  wp srv (getUserFromRequest r)
    (λ res w', uses_only (wd_store w) (wd_store w') ∧
       match res with
       | Ok u => authenticates srv (wd_store w) r u
       | Err _ => ∀ tok, tok ∈ key_tokens r → tok ≠ "" →
                    tok ≠ sv_Getenv srv "FLAGURA_API_KEY" ∧
                    live_key (wd_store w) (sha256_hex tok) = None
       end)
    (λ _ _, False) w.
Proof.
  apply wp_getUserFromRequest. intros res w' Hw Hres. split; [apply Hw|].
  destruct res as [u|e]; [done|]. destruct Hres as [_ Hf]. intros tok Ht Hne.
  rewrite Forall_forall in Hf. by destruct (Hf tok Ht).
Qed.

Lemma key_tokens_bearer r tok :
  HeaderGet r HeaderAuthorization = "Bearer " +:+ tok → HeaderGet r HeaderAPIKey = "" → tok ≠ "" →
  key_tokens r = [""; clean_token tok] ∧ key_token r = tok.
Proof.
  intros Ha Hk Hne. unfold key_tokens, api_key_header, bearer_token, key_token.
  rewrite Ha, Hk, HasPrefix_app, TrimPrefix_app, !(or_default_nonempty tok) by done.
  done.
Qed.

(** A request whose only key token is that of a live key. *)
Lemma wp_getUser_key srv r w k tok :
  key_tokens r = [""; tok] → tok ≠ "" → tok ≠ sv_Getenv srv "FLAGURA_API_KEY" →
  live_key (wd_store w) (sha256_hex tok) = Some k →
  wp srv (getUserFromRequest r) (λ res _, res = Ok (key_user k)) (λ _ _, False) w.
Proof.
  intros Hts Hne Hm Hlive. unfold key_tokens in Hts.
  unfold getUserFromRequest. apply wp_bind, wp_getenv, wp_bind. rewrite Hts. cbn [try_keys].
  rewrite str_eqb_refl, (proj2 (str_eqb_neq _ _) Hne), (proj2 (str_eqb_neq _ _) Hm), andb_false_r.
  cbn [negb andb]. apply wp_bind, wp_find_key. intros res w1 _ Hres. rewrite Hlive in Hres.
  destruct res as [k1|e]; [|done]. destruct Hres as (k0 & [= <-] & Hf & ->).
  apply wp_ret, wp_ret. by rewrite (key_user_forget _ _ Hf).
Qed.

(** The two functions that read the credentials of a request disagree on a token
    that is not clean: the one trims it and finds the key's user, the other
    hashes it as it is and finds no key, so that neither the project nor the
    environment of the key binds the request. *)
Theorem padded_token_unscoped srv r w k tok :
  HeaderGet r HeaderAuthorization = "Bearer " +:+ tok → HeaderGet r HeaderAPIKey = "" →
  clean_token tok ≠ "" → clean_token tok ≠ sv_Getenv srv "FLAGURA_API_KEY" →
  live_key (wd_store w) (sha256_hex (clean_token tok)) = Some k →
  tok ≠ "" → live_key (wd_store w) (sha256_hex tok) = None →
  presented_key (wd_store w) r = None ∧
  wp srv (getUserFromRequest r) (λ res _, res = Ok (key_user k)) (λ _ _, False) w.
Proof.
  intros Ha Hk Hraw Hm Hlive Htok Hnone.
  destruct (key_tokens_bearer r tok) as [Hts Ht]; [done..|]. split.
  { unfold presented_key. rewrite Ht, Hnone. by destruct (tok =s? ""). }
  by apply (wp_getUser_key _ _ _ _ (clean_token tok)).
Qed.

(** ** The middleware *)

Lemma wp_serve srv h w (P : World → Reply → Prop) :
  wp srv h (λ rep w', P w' rep) (λ rep w', P w' rep) w ↔
  P (serve srv h w).1 (serve srv h w).2.
Proof. unfold wp, serve. by destruct (h srv w) as [w' [rep|rep]]. Qed.

(** Nobody gets past [RequireAuth] without credentials: if the request
    authenticates as no user, the wrapped handler does not run, whatever it is:
    the reply is 401 and the store keeps everything but the last use of a key. *)
Theorem RequireAuth_blocks srv next r w :
  (∀ u, ¬ authenticates srv (wd_store w) r u) →
  let x := serve srv (RequireAuth next r) w in
  rp_Status x.2 = StatusUnauthorized ∧ uses_only (wd_store w) (wd_store x.1).
Proof.
  intros Hno x. apply (wp_serve srv (RequireAuth next r) w
    (λ w' rep, rp_Status rep = StatusUnauthorized ∧ uses_only (wd_store w) (wd_store w'))).
  unfold RequireAuth. apply wp_bind, wp_getUserFromRequest. intros res w1 Hw Hres.
  destruct res as [u|e]; [by destruct (Hno u)|]. apply wp_exit. split; [done|apply Hw].
Qed.

(** Nobody gets past [RequireRole] without the role: behind [RequireAuth], if
    every user the request authenticates as has neither the admin role nor the
    required one, the wrapped handler does not run: the reply is 401 or 403 and
    the store keeps everything but the last use of a key. *)
Theorem RequireRole_blocks srv role next r w :
  (∀ u, authenticates srv (wd_store w) r u → us_Role u ≠ RoleAdmin ∧ us_Role u ≠ role) →
  let x := serve srv (RequireAuth (RequireRole role next) r) w in
  (rp_Status x.2 = StatusUnauthorized ∨ rp_Status x.2 = StatusForbidden) ∧
  uses_only (wd_store w) (wd_store x.1).
Proof.
  intros Hrole x. apply (wp_serve srv (RequireAuth (RequireRole role next) r) w
    (λ w' rep, (rp_Status rep = StatusUnauthorized ∨ rp_Status rep = StatusForbidden) ∧
       uses_only (wd_store w) (wd_store w'))).
  unfold RequireAuth. apply wp_bind, wp_getUserFromRequest. intros res w1 Hw Hres.
  destruct res as [u|e]; [|apply wp_exit; split; [by left|apply Hw]].
  destruct (Hrole u Hres) as [Ha Hr]. apply wp_bind, wp_with_user. unfold RequireRole.
  apply wp_bind, wp_user. cbn [wd_user]. apply wp_bind, wp_ret.
  rewrite (proj2 (str_eqb_neq _ _) Ha), (proj2 (str_eqb_neq _ _) Hr). simpl.
  apply wp_exit. split; [by right|apply Hw].
Qed.

(** ** Passwords *)

Definition has_byte (P : ascii → bool) (s : string) : Prop := ∃ a c b, s = a +:+ String c b ∧ P c = true.

Lemma has_byte_forallb P s : has_byte P s ↔ str_forallb (λ c, negb (P c)) s = false.
Proof.
  induction s as [|c s IH]; simpl.
  - split; [|done]. intros (a & c & b & E & _). by destruct a.
  - rewrite andb_false_iff, <- IH, negb_false_iff. split.
    + intros (a & c' & b & E & Hc). destruct a as [|c'' a].
      * rewrite str_append_nil_l in E. injection E as <- _. by left.
      * rewrite str_append_cons in E. injection E as _ E. right. by exists a, c', b.
    + intros [Hc|(a & c' & b & -> & Hc)].
      * by exists "", c, s.
      * exists (String c a), c', b. by rewrite str_append_cons.
Qed.

(** The password policy accepts exactly the passwords of at least eight bytes
    with an upper-case letter, a lower-case letter, a digit and a special
    character. *)
Theorem validatePasswordComplexity_spec password :
  validatePasswordComplexity password = None ↔
  (8 ≤ String.length password)%nat ∧ has_byte is_upper_byte password ∧
  has_byte is_lower_byte password ∧ has_byte is_digit_byte password ∧
  has_byte is_special_byte password.
Proof.
  rewrite !has_byte_forallb. unfold validatePasswordComplexity.
  destruct (String.length password <? 8)%nat eqn:El.
  { apply Nat.ltb_lt in El. split; [done|lia]. }
  apply Nat.ltb_ge in El.
  repeat match goal with
  | |- context [str_forallb ?P password] => destruct (str_forallb P password); simpl
  end; intuition congruence.
Qed.
