(* ===== verification/AccessFacts.v ===== *)
(** * Which projects a caller reaches

    [may_access] says which projects a request may work on; the functions that
    resolve and authorize the project of a request let through no other. *)

From S2P Require Import Prelude GoFloat GoStrings GoTime Sha256 Errors Domain Entities StoreState.
From S2P Require Import StoreAudit StoreIdentity StoreTenancy Http Auth Access AuthFacts.

(** ** Worlds behind the authentication *)

(** Nothing was broadcast, and the stores differ in the last uses of keys. *)
Record quiet (w w' : World) : Prop := {
  qu_store : uses_only (wd_store w) (wd_store w');
  qu_broadcasts : wd_broadcasts w' = wd_broadcasts w;
}.

#[export] Instance quiet_preorder : PreOrder quiet.
Proof.
  split.
  - intros w. split; done.
  - intros w1 w2 w3 [H1 H2] [G1 G2]. split; [by etrans|congruence].
Qed.

Lemma same_world_quiet w w' : same_world w w' → quiet w w'.
Proof. intros [? _ ?]. by split. Qed.

Lemma quiet_step w n : quiet w (w <| wd_step := n |>).
Proof. by split. Qed.

Lemma quiet_user w u : quiet w (w <| wd_user := u |>).
Proof. by split. Qed.

(** The user in the context, whatever membership is filled in. *)
Definition forget_member (u : User) : User := u <| us_ActiveMembership := None |>.

Definition acts_as (w : World) (u : User) : Prop :=
  ∃ u', wd_user w = Some u' ∧ forget_member u' = forget_member u.

Lemma forget_member_fields u u' :
  forget_member u' = forget_member u →
  us_ID u' = us_ID u ∧ us_Role u' = us_Role u ∧ us_Email u' = us_Email u ∧ us_Name u' = us_Name u.
Proof. by intros [= ? ? ? ? ? ? ? ?]. Qed.

Lemma acts_as_user w w' u : wd_user w' = wd_user w → acts_as w u → acts_as w' u.
Proof. unfold acts_as. by intros ->. Qed.

Lemma acts_as_same w w' u : same_world w w' → acts_as w u → acts_as w' u.
Proof. intros [_ Hu _]. by apply acts_as_user. Qed.

Lemma acts_as_self w u : wd_user w = Some u → acts_as w u.
Proof. intros Hu. by exists u. Qed.

(** What [uses_only] leaves alone. *)
Lemma uses_only_projects s s' : uses_only s s' → ms_projects s' = ms_projects s.
Proof. intros [Hs _]. by rewrite Hs. Qed.
Lemma uses_only_orgs s s' : uses_only s s' → ms_orgs s' = ms_orgs s.
Proof. intros [Hs _]. by rewrite Hs. Qed.
Lemma uses_only_users s s' : uses_only s s' → ms_users s' = ms_users s.
Proof. intros [Hs _]. by rewrite Hs. Qed.
Lemma uses_only_members s s' : uses_only s s' → ms_orgMembers s' = ms_orgMembers s.
Proof. intros [Hs _]. by rewrite Hs. Qed.
Lemma uses_only_sessions s s' : uses_only s s' → ms_sessions s' = ms_sessions s.
Proof. intros [Hs _]. by rewrite Hs. Qed.
Lemma uses_only_flags s s' : uses_only s s' → ms_flagsSnapshot s' = ms_flagsSnapshot s.
Proof. intros [Hs _]. by rewrite Hs. Qed.
Lemma uses_only_changes s s' : uses_only s s' → ms_changeRequests s' = ms_changeRequests s.
Proof. intros [Hs _]. by rewrite Hs. Qed.

Section Access.
Context `{GoRuntime}.

(** ** The specification *)

(** The organization is listed for the user: as a member, as a stored
    administrator, or because the organization's slug contains that of the
    user's display name. *)
Definition org_open (s : MemoryStore) (userID : string) (org : Organization) : bool :=
  is_member_of s userID (og_ID org) ||
  match ms_users s !! userID with
  | Some u => (us_Role u =s? RoleAdmin) || Contains (og_Slug org) (Slugify (us_Name u))
  | None => false
  end.

(** A project goes by the name, as a key of the table or as its identifier. *)
Definition project_named (s : MemoryStore) (p : string) (proj : Project) : Prop :=
  GetProject s p = Ok proj ∨ ∃ x, ms_projects s !! x = Some proj ∧ pj_ID proj = p.

Definition may_use (s : MemoryStore) (u : User) (p : string) : Prop :=
  us_Role u = RoleAdmin ∨
  ∃ proj x org, project_named s p proj ∧ ms_orgs s !! x = Some org ∧
    og_ID org = pj_OrganizationID proj ∧ org_open s (us_ID u) org = true.

(** A key with a project reaches that project only; anybody else, the projects
    of the organizations listed for the user. *)
Definition may_access (s : MemoryStore) (r : Request) (u : User) (p : string) : Prop :=
  match project_key (presented_key s r) with
  | Some k => p = ak_ProjectID k
  | None => may_use s u p
  end.

(** Organizations and projects have identifiers. *)
Definition named_tenants (s : MemoryStore) : Prop :=
  map_Forall (λ _ p, pj_ID p ≠ "") (ms_projects s) ∧ map_Forall (λ _ o, og_ID o ≠ "") (ms_orgs s).

Lemma may_use_uses s s' u u' p :
  uses_only s s' → forget_member u' = forget_member u → may_use s' u' p → may_use s u p.
Proof.
  intros Hs (HID & Hrole & _)%forget_member_fields. unfold may_use, project_named, GetProject, org_open, is_member_of.
  rewrite HID, Hrole, (uses_only_projects _ _ Hs), (uses_only_orgs _ _ Hs), (uses_only_users _ _ Hs),
    (uses_only_members _ _ Hs). done.
Qed.

Lemma named_tenants_uses s s' : uses_only s s' → named_tenants s → named_tenants s'.
Proof.
  intros Hs. unfold named_tenants.
  by rewrite (uses_only_projects _ _ Hs), (uses_only_orgs _ _ Hs).
Qed.

(** ** Listings *)

Lemma elem_of_collect {A} (id : A → string) sel seen l x :
  x ∈ collect id sel seen l → x ∈ l ∧ sel x = true.
Proof.
  revert seen. induction l as [|y l IH]; intros seen; simpl; [by intros ?%elem_of_nil|].
  destruct (negb _ && sel y) eqn:E.
  - intros [->|Hx]%elem_of_cons; [|destruct (IH _ Hx); split; [by right|done]].
    simp_bool. split; [by left|done].
  - intros Hx. destruct (IH _ Hx). split; [by right|done].
Qed.

Lemma elem_of_insert_org o l x : x ∈ insert_org o l ↔ x = o ∨ x ∈ l.
Proof.
  induction l as [|y l IH]; simpl.
  - rewrite list_elem_of_singleton, elem_of_nil. tauto.
  - destruct (String.leb _ _); rewrite !elem_of_cons, ?IH; tauto.
Qed.

Lemma elem_of_sort_orgs l x : x ∈ sort_orgs l ↔ x ∈ l.
Proof. induction l as [|y l IH]; simpl; [done|]. rewrite elem_of_insert_org, IH, elem_of_cons. tauto. Qed.

Lemma ListUserOrganizations_open s it userID org :
  org ∈ ListUserOrganizations s it userID → org ∈ it.*2 ∧ org_open s userID org = true.
Proof.
  unfold ListUserOrganizations, org_open. destruct (ms_users s !! userID) as [u|].
  2: { intros [? ->]%elem_of_collect. done. }
  destruct (us_Role u =s? RoleAdmin) eqn:Er.
  - set (all := sort_orgs _ ++ _). assert (∀ o, o ∈ all → o ∈ it.*2) as Hall.
    { intros o Ho. apply elem_of_app in Ho as [Ho|Ho]; apply elem_of_sort_orgs, list_elem_of_filter in Ho as [_ Ho];
        by apply elem_of_collect in Ho as [? _]. }
    destruct all as [|o all]; [intros [? _]%elem_of_collect|intros Ho; apply Hall in Ho];
      by rewrite orb_true_r.
  - intros [? Hsel]%elem_of_collect. done.
Qed.

Lemma fair_elem o {A} (m : gmap string A) x : fair o → x ∈ (out_order o A m).*2 → ∃ k, m !! k = Some x.
Proof.
  intros Hf Hx. rewrite (Hf A m) in Hx. apply list_elem_of_fmap in Hx as ([k y] & -> & Hk).
  exists k. by apply elem_of_map_to_list.
Qed.

(** ** The functions that resolve the project *)

Lemma wp_current_user srv r u Q E w :
  acts_as w u →
  (∀ u', forget_member u' = forget_member u → Q (Some u') w) →
  wp srv (current_user r) Q E w.
Proof.
  intros (u' & Hu & Hf) HQ. unfold current_user. apply wp_bind, wp_user. rewrite Hu.
  by apply wp_ret, HQ.
Qed.

Lemma wp_list_user_orgs srv uid Q E w :
  fair (sv_out srv (wd_step w)) →
  (∀ orgs, (∀ org, org ∈ orgs → (∃ x, ms_orgs (wd_store w) !! x = Some org) ∧
                                org_open (wd_store w) uid org = true) →
     Q orgs (w <| wd_step := S (wd_step w) |>)) →
  wp srv (list_user_orgs uid) Q E w.
Proof.
  intros Hf HQ. apply wp_read, HQ. intros org Ho.
  apply ListUserOrganizations_open in Ho as [Ho ?]. split; [|done]. by eapply fair_elem.
Qed.

Lemma wp_get_project srv p Q E w :
  wp srv (get_project p) Q E w ↔ Q (GetProject (wd_store w) p) (w <| wd_step := S (wd_step w) |>).
Proof. reflexivity. Qed.

Lemma wp_authorize_user srv u p Q E w :
  fair (sv_out srv (wd_step w)) →
  (∀ res w', quiet w w' → wd_user w' = wd_user w → (res = None → may_use (wd_store w) u p) → Q res w') →
  wp srv (authorize_user u p) Q E w.
Proof.
  intros Hf HQ. unfold authorize_user. destruct (us_Role u =s? RoleAdmin) eqn:Er.
  - apply wp_bind, wp_get_project, wp_ret, HQ; [apply quiet_step|done|]. intros _. left. by simp_bool.
  - apply wp_bind, wp_list_user_orgs; [done|]. intros orgs Horgs.
    apply wp_bind, wp_get_project, wp_ret.
    apply HQ; [by split|done|]. destruct (GetProject _ p) as [proj|e] eqn:Ep; [|done].
    case_bool_decide as Hin; [|done]. intros _. right.
    apply list_elem_of_fmap in Hin as (org & Hid & Ho). destruct (Horgs org Ho) as [(x & Hx) Hopen].
    exists proj, x, org. split_and!; [by left|done|done|done].
Qed.

Lemma project_key_uses s s' r :
  uses_only s s' →
  ak_ProjectID <$> project_key (presented_key s' r) = ak_ProjectID <$> project_key (presented_key s r).
Proof.
  intros Hs. pose proof (presented_key_uses _ _ r Hs) as E.
  destruct (presented_key s' r) as [k'|], (presented_key s r) as [k|]; try done. apply (inj Some) in E.
  destruct (forget_use_fields _ _ E) as (_ & Hp & _). simpl.
  rewrite Hp. destruct (ak_ProjectID k =s? ""); simpl; congruence.
Qed.

Lemma may_access_uses s s' r u p : uses_only s s' → may_access s' r u p → may_access s r u p.
Proof.
  intros Hs. unfold may_access. pose proof (project_key_uses _ _ r Hs) as E.
  destruct (project_key (presented_key s r)), (project_key (presented_key s' r)); try done.
  - injection E as E. by rewrite <- E.
  - by apply (may_use_uses _ _ u u).
Qed.

(** The key that decides, read from the request. *)
Lemma wp_project_key srv r Q E w :
  (∀ k w', same_world w w' →
     ak_ProjectID <$> project_key k = ak_ProjectID <$> project_key (presented_key (wd_store w) r) →
     Q k w') →
  wp srv (getAPIKeyFromRequest r) Q E w.
Proof.
  intros HQ. apply wp_getAPIKeyFromRequest. intros k w' Hw Hk. apply HQ; [done|].
  destruct k as [k|], (presented_key _ _) as [k0|]; try done. apply (inj Some) in Hk.
  destruct (forget_use_fields _ _ Hk) as (_ & Hp & _). simpl.
  rewrite Hp. destruct (ak_ProjectID k0 =s? ""); simpl; congruence.
Qed.

Lemma project_key_nonempty k k' : project_key k = Some k' → ak_ProjectID k' ≠ "".
Proof.
  destruct k as [k0|]; [|done]. simpl. destruct (ak_ProjectID k0 =s? "") eqn:E; [done|].
  intros [= <-]. by simp_bool.
Qed.

Definition all_fair (srv : Server) : Prop := ∀ n, fair (sv_out srv n).

Lemma wp_authorizeProjectAccess srv r u p Q E w :
  all_fair srv → acts_as w u →
  (∀ res w', quiet w w' → wd_user w' = wd_user w → (res = None → may_access (wd_store w) r u p) →
     Q res w') →
  wp srv (authorizeProjectAccess r p) Q E w.
Proof.
  intros Hf Hu HQ. unfold authorizeProjectAccess, may_access in *.
  apply wp_bind, wp_project_key. intros k w1 Hw1 Hk.
  pose proof (acts_as_same _ _ _ Hw1 Hu) as Hu1. pose proof (same_world_quiet _ _ Hw1) as Hq1.
  pose proof (sw_user _ _ Hw1) as Hwu1.
  destruct (project_key k) as [k1|], (project_key (presented_key (wd_store w) r)) as [k0|]; try done.
  - injection Hk as Hk. rewrite Hk. apply wp_ret, HQ; [done|done|].
    destruct (ak_ProjectID k0 =s? p) eqn:E1; [|done]. intros _. by simp_bool.
  - apply wp_bind, (wp_current_user _ _ u); [done|]. intros u' Hu'.
    apply wp_authorize_user; [apply Hf|]. intros res w2 Hw2 Hwu Hres.
    apply HQ; [by etrans|congruence|]. intros Hn.
    eapply may_use_uses; [apply Hq1|exact Hu'|by apply Hres].
Qed.

(** What filling in the membership for a project makes of a user. *)
Inductive member_view (s : MemoryStore) (p : string) (u : User) : User → Prop :=
| view_same : member_view s p u u
| view_admin m : us_Role u = RoleAdmin → member_view s p u (u <| us_ActiveMembership := Some m |>)
| view_member proj m :
    GetProject s p = Ok proj → GetOrgMember s (pj_OrganizationID proj) (us_ID u) = Ok m →
    member_view s p u (u <| us_ActiveMembership := Some m |>).

Lemma member_view_forget s p u u' : member_view s p u u' → forget_member u' = forget_member u.
Proof. by destruct 1. Qed.

Lemma member_view_uses s s' p u u' : uses_only s s' → member_view s' p u u' → member_view s p u u'.
Proof.
  intros Hs. destruct 1 as [|m Hr|proj m Hp Hm]; [constructor|by constructor|].
  apply (view_member _ _ _ proj m).
  - unfold GetProject in *. by rewrite <- (uses_only_projects _ _ Hs).
  - unfold GetOrgMember in *. by rewrite <- (uses_only_members _ _ Hs).
Qed.

Lemma wp_enrich_user srv u p Q E w :
  (∀ u' w', quiet w w' → wd_user w' = wd_user w → member_view (wd_store w) p u u' → Q u' w') →
  wp srv (enrichUserOrgMembership u p) Q E w.
Proof.
  intros HQ. unfold enrichUserOrgMembership. case_if; [apply wp_ret, HQ; [done|done|constructor]|].
  destruct (us_Role u =s? RoleAdmin) eqn:Er.
  { simp_bool. apply wp_ret, HQ; [done|done|by constructor]. }
  apply wp_bind, wp_get_project.
  destruct (GetProject (wd_store w) p) as [proj|e] eqn:Ep;
    [|apply wp_ret, HQ; [by split|done|constructor]].
  apply wp_bind, wp_read, wp_ret, HQ; [by split|done|].
  cbn [wd_store]. destruct (GetOrgMember _ _ _) as [m|e] eqn:Em; [|constructor].
  by apply (view_member _ _ _ proj).
Qed.

Lemma wp_enrich_context srv u p Q E w :
  wd_user w = Some u →
  (∀ u' w', quiet w w' → wd_user w' = Some u' → member_view (wd_store w) p u u' → Q () w') →
  wp srv (enrich_context p) Q E w.
Proof.
  intros Hu HQ. unfold enrich_context. apply wp_bind, wp_user. rewrite Hu.
  apply wp_bind, wp_enrich_user. intros u' w' Hw Hwu Hu'. apply wp_with_user, (HQ u'); [|done|done].
  etrans; [exact Hw|apply quiet_user].
Qed.

Lemma wp_chosen srv u p Q E w :
  acts_as w u → (∀ w', quiet w w' → acts_as w' u → Q (Ok p) w') → wp srv (chosen p) Q E w.
Proof.
  intros (u0 & Hu & Hf) HQ. apply wp_bind, (wp_enrich_context _ u0); [done|].
  intros u' w' Hw Hu' Hv. apply wp_ret, HQ; [done|]. exists u'. split; [done|].
  by rewrite (member_view_forget _ _ _ _ Hv).
Qed.

Lemma wp_first_project srv orgs Q E w :
  all_fair srv → Forall (λ o, og_ID o ≠ "") orgs →
  (∀ res w', quiet w w' → wd_user w' = wd_user w →
     match res with
     | Some proj => ∃ x org, ms_projects (wd_store w) !! x = Some proj ∧ org ∈ orgs ∧
                      og_ID org = pj_OrganizationID proj
     | None => True
     end → Q res w') →
  wp srv (first_project orgs) Q E w.
Proof.
  intros Hf. revert Q w. induction orgs as [|org orgs IH]; intros Q w Hne HQ; simpl; [by apply wp_ret, HQ|].
  apply Forall_cons in Hne as [Hid Hne]. apply wp_bind, wp_read.
  destruct (ListProjects _ (og_ID org)) as [|proj projs] eqn:El.
  - apply IH; [done|]. intros res w' Hw Hwu Hres. apply HQ; [by etrans; [apply (quiet_step w)|]|done|].
    destruct res as [proj|]; [|done]. destruct Hres as (x & o & Hx & Ho & Hio).
    exists x, o. split; [done|]. split; [by right|done].
  - assert (proj ∈ ListProjects (out_order (sv_out srv (wd_step w)) Project (ms_projects (wd_store w))) (og_ID org)) as Hin
      by (rewrite El; by left).
    apply elem_of_collect in Hin as [Hin Hsel]. apply fair_elem in Hin as [x Hx]; [|apply Hf].
    rewrite (proj2 (str_eqb_neq _ _) Hid) in Hsel. simpl in Hsel. simp_bool.
    apply wp_ret, HQ; [apply quiet_step|done|]. exists x, org. split; [done|]. split; [by left|done].
Qed.

(** The result of resolving a project: one that the user may use. *)
Definition resolves_to (s : MemoryStore) (allowed : string → Prop) (res : result GoError string) : Prop :=
  match res with Ok p => allowed p ∧ p ≠ "" | Err _ => True end.

Lemma wp_default_for srv u u' Q E w :
  all_fair srv → named_tenants (wd_store w) → acts_as w u → forget_member u' = forget_member u →
  (∀ res w', quiet w w' → acts_as w' u → resolves_to (wd_store w) (may_use (wd_store w) u) res → Q res w') →
  wp srv (default_for u') Q E w.
Proof.
  intros Hf [Hnp Hno] Hu Hu' HQ. destruct (forget_member_fields _ _ Hu') as (HID & Hrole & _).
  unfold default_for. apply wp_bind, wp_list_user_orgs; [apply Hf|]. intros orgs Horgs.
  set (w1 := w <| wd_step := _ |>). assert (quiet w w1) as Hw1 by apply quiet_step.
  assert (Forall (λ o, og_ID o ≠ "") orgs) as Hne.
  { apply Forall_forall. intros org Ho. destruct (Horgs org Ho) as [[x Hx] _]. by apply (Hno x). }
  assert (∀ Q', (∀ p w', quiet w w' → acts_as w' u → may_use (wd_store w) u p ∧ p ≠ "" → Q' (Some p) w') →
    (∀ w', quiet w w' → acts_as w' u → Q' None w') →
    wp srv (first_project orgs) (λ res w', Q' (pj_ID <$> res) w') E w1) as Hfirst.
  { intros Q' HS HN. apply wp_first_project; [done|done|]. intros res w2 Hw2 Hwu Hres.
    assert (quiet w w2) as Hww by (by etrans). assert (acts_as w2 u) as Hu2 by (by eapply acts_as_user).
    destruct res as [proj|]; [|by apply HN]. destruct Hres as (x & org & Hx & Ho & Hio).
    destruct (Horgs org Ho) as [[y Hy] Hopen]. apply HS; [done|done|]. split; [|by apply (Hnp x)].
    right. exists proj, y, org. rewrite HID in Hopen. split_and!; try done. right. by exists x. }
  assert (∀ p w', quiet w w' → acts_as w' u → may_use (wd_store w) u p ∧ p ≠ "" →
    wp srv (chosen p) Q E w') as Hchosen.
  { intros p w2 Hw2 Hu2 Hp. apply (wp_chosen _ u); [done|]. intros w3 Hw3 Hu3.
    apply HQ; [by etrans|done|done]. }
  destruct (us_Role u' =s? RoleAdmin) eqn:Er.
  - simp_bool. apply wp_bind. eapply wp_mono; [|by intros ? ? HE; exact HE|].
    2: apply (Hfirst (λ res w', wp srv (match res with Some p => chosen p
         | None => get_project DefaultProjectID;; chosen DefaultProjectID end) Q E w')).
    + by intros [proj|] w2.
    + done.
    + intros w2 Hw2 Hu2. apply wp_bind, wp_get_project, Hchosen.
      * etrans; [exact Hw2|apply quiet_step].
      * by eapply acts_as_user.
      * split; [left; congruence|done].
  - destruct orgs as [|org orgs']; [by apply wp_ret, HQ|].
    apply wp_bind. eapply wp_mono; [|by intros ? ? HE; exact HE|].
    2: apply (Hfirst (λ res w', wp srv (match res with Some p => chosen p
         | None => mret (Err (NewAppError ErrCodeProjectRequired "no active project found for user"
                    StatusBadRequest (Some (ESentinel ErrInvalidInput)))) end) Q E w')).
    + by intros [proj|] w2.
    + done.
    + intros w2 Hw2 Hu2. by apply wp_ret, HQ.
Qed.

Lemma wp_resolveAndAuthorizeProjectID srv r u Q E w :
  all_fair srv → named_tenants (wd_store w) → acts_as w u →
  (∀ res w', quiet w w' → acts_as w' u →
     resolves_to (wd_store w) (may_access (wd_store w) r u) res → Q res w') →
  wp srv (resolveAndAuthorizeProjectID r) Q E w.
Proof.
  intros Hf Hn Hu HQ. unfold resolveAndAuthorizeProjectID.
  destruct (candidate_project r) as [target explicit]. apply wp_bind, wp_project_key.
  intros k w1 Hw1 Hk. pose proof (acts_as_same _ _ _ Hw1 Hu) as Hu1.
  pose proof (same_world_quiet _ _ Hw1) as Hq1. unfold may_access in HQ.
  destruct (project_key k) as [k1|] eqn:Ek;
    destruct (project_key (presented_key (wd_store w) r)) as [k0|] eqn:E0; try done.
  - injection Hk as Hk. rewrite Hk. apply wp_ret, HQ; [done|done|].
    case_if; [done|]. split; [done|]. by eapply project_key_nonempty.
  - apply wp_bind, (wp_current_user _ _ u); [done|]. intros u' Hu'. unfold resolve_user.
    assert (∀ w2, quiet w w2 → acts_as w2 u → wp srv (default_for u') Q E w2) as Hdef.
    { intros w2 Hw2 Hu2. apply (wp_default_for _ u); try done.
      { eapply named_tenants_uses; [apply Hw2|done]. }
      intros res w3 Hw3 Hu3 Hres. apply HQ; [by etrans|done|].
      destruct res as [p|]; [|done]. destruct Hres as [Hres ?]. split; [|done].
      apply (may_use_uses _ _ u u p (qu_store _ _ Hw2)); done. }
    destruct (target =s? "") eqn:Et; simpl; [by apply Hdef|]. simp_bool.
    apply wp_bind, (wp_authorizeProjectAccess _ _ u); [done|done|]. intros res w2 Hw2 Hwu2 Hres.
    assert (quiet w w2) as Hww by (by etrans). pose proof (acts_as_user _ _ _ Hwu2 Hu1) as Hu2.
    destruct res as [err|].
    + destruct explicit; [by apply wp_ret, HQ|by apply Hdef].
    + apply (wp_chosen _ u); [done|]. intros w3 Hw3 Hu3. apply HQ; [by etrans|done|].
      split; [|done]. specialize (Hres eq_refl). unfold may_access in Hres.
      pose proof (project_key_uses _ _ r (qu_store _ _ Hq1)) as Hp. rewrite E0 in Hp.
      destruct (project_key (presented_key (wd_store w1) r)); [done|].
      apply (may_use_uses _ _ u u target (qu_store _ _ Hq1)); done.
Qed.

(** Behind [RequireAuth], the handler runs as a user that the credentials
    authenticate. *)
Lemma wp_RequireAuth srv next r Q E w :
  (∀ u w', quiet w w' → authenticates srv (wd_store w) r u → wd_user w' = Some u →
     wp srv (next r) Q E w') →
  (∀ m w', quiet w w' → E (unauthorized m) w') →
  wp srv (RequireAuth next r) Q E w.
Proof.
  intros HQ HE. unfold RequireAuth. apply wp_bind, wp_getUserFromRequest. intros res w1 Hw Hres.
  pose proof (same_world_quiet _ _ Hw). destruct res as [u|e].
  - apply wp_bind, wp_with_user, (HQ u); [by etrans; [|apply quiet_user]|done|done].
  - by apply wp_exit, HE.
Qed.

End Access.
