(* ===== verification/ApiFlagsFacts.v ===== *)
(** * What the flag handlers guarantee

    A request changes the flags of one project only, one that its caller may
    use; a key bound to an environment changes no other environment through the
    toggle, rollout and webhook handlers; the webhook only turns flags off. *)

From S2P Require Import Prelude GoFloat GoStrings GoTime Sha256 Errors Domain Engine Entities StoreState.
From S2P Require Import StoreAudit StoreFlags StoreFlagsFacts StoreIdentity StoreTenancy.
From S2P Require Import Http Auth Access AuthFacts AccessFacts ApiFlags ApiGovernance ApiKeys ApiRoutes.

(** ** Handlers judged by the store they leave *)

Definition ends {A} (srv : Server) (m : Handler A) (P : MemoryStore → Prop) (w : World) : Prop :=
  wp srv m (λ _ w', P (wd_store w')) (λ _ w', P (wd_store w')) w.

Lemma ends_serve srv h P w : ends srv h P w → P (wd_store (serve srv h w).1).
Proof. intros He. by apply (wp_serve srv h w (λ w' _, P (wd_store w'))). Qed.

(** A handler that keeps the store. *)
Lemma ends_keeps {A} srv (m : Handler A) P w : keeps eq m → P (wd_store w) → ends srv m P w.
Proof.
  intros Hk HP. unfold ends, wp. specialize (Hk srv w).
  destruct (m srv w) as [w' [a|rep]]; simpl in Hk; by rewrite <- Hk.
Qed.

(** The same, as the first part of a handler. *)
Lemma wp_keeps {A B} srv (m : Handler A) (k : A → Handler B) P w :
  keeps eq m → P (wd_store w) → (∀ a w', wd_store w' = wd_store w → ends srv (k a) P w') →
  ends srv (m ≫= k) P w.
Proof.
  intros Hk HP Hend. apply wp_bind. unfold wp. specialize (Hk srv w).
  destruct (m srv w) as [w' [a|rep]]; simpl in Hk; [by apply Hend|by rewrite <- Hk].
Qed.

Lemma ends_call {A B} srv (f : Outside → MemoryStore → MemoryStore * A) (k : A → Handler B) P w :
  (∀ a, keeps eq (k a)) → (∀ o, P (f o (wd_store w)).1) → ends srv (call f ≫= k) P w.
Proof. intros Hk HP. apply wp_bind, wp_call, ends_keeps; [apply Hk|apply HP]. Qed.

Ltac keeps_all := repeat (first [progress intros | keeps_step]).

Section Flags.
Context `{GoRuntime}.

Lemma keeps_actor r fb : keeps eq (getActorFromRequest r fb).
Proof. unfold getActorFromRequest. keeps_all. Qed.

Lemma keeps_claim verb flag p : keeps eq (claim_project verb flag p).
Proof. unfold claim_project, writeError. keeps_all. Qed.

Lemma keeps_validated flag : keeps eq (validated flag).
Proof. unfold validated, writeError. keeps_all. Qed.

(** ** Confinement to a project *)

Lemma wp_resolved srv r u Q E w :
  all_fair srv → named_tenants (wd_store w) → acts_as w u →
  (∀ p w', quiet w w' → acts_as w' u → may_access (wd_store w) r u p → p ≠ "" → Q p w') →
  (∀ rep w', quiet w w' → E rep w') →
  wp srv (resolved r) Q E w.
Proof.
  intros Hf Hn Hu HQ HE. apply wp_bind, (wp_resolveAndAuthorizeProjectID _ _ u); [done..|].
  intros res w' Hw Hu' Hres. apply wp_unwrap. destruct res as [p|e]; [|by apply HE].
  destruct Hres. by apply HQ.
Qed.

(** The flags of [s'] are well formed, and differ from those of [s] in one of the
    projects that [allowed] holds of. *)
Definition confined (allowed : string → Prop) (s s' : MemoryStore) : Prop :=
  flags_wf s' ∧
  (flags_of s' = flags_of s ∨
   ∃ p, allowed p ∧ other_projects p (flags_of s') = other_projects p (flags_of s)).

Lemma confined_uses allowed s s' : flags_wf s → uses_only s s' → confined allowed s s'.
Proof.
  intros Hwf Hu%uses_only_flags. unfold confined, flags_wf, flags_of in *. rewrite Hu. auto.
Qed.

Lemma confined_op (allowed : string → Prop) s s1 sys p actor op :
  flags_wf s → uses_only s s1 → allowed p → p ≠ "" →
  confined allowed s (run_flag_op sys s1 p actor op).1.
Proof.
  intros Hwf Hu Ha Hp. pose proof (uses_only_flags _ _ Hu) as Hs.
  assert (flags_of s1 = flags_of s) as Hfl by (unfold flags_of; by rewrite Hs).
  assert (flags_wf s1) as Hwf1 by (unfold flags_wf; by rewrite Hfl, Hs).
  destruct (run_flag_op_isolated sys s1 p actor op Hp Hwf1) as (Hw & Ho & _).
  split; [done|]. right. exists p. split; [done|]. by rewrite Ho, Hfl.
Qed.

Lemma run_toggle sys s p actor k env en :
  (ToggleFlagByProject sys s p k env en actor).1 = (run_flag_op sys s p actor (FToggle k env en)).1.
Proof. simpl. by destruct (ToggleFlagByProject _ _ _ _ _ _ _). Qed.

Lemma run_rollout sys s p actor k env pct :
  (UpdateRolloutByProject sys s p k env pct actor).1
  = (run_flag_op sys s p actor (FRollout k env pct)).1.
Proof. simpl. by destruct (UpdateRolloutByProject _ _ _ _ _ _ _). Qed.

Lemma run_delete sys s p actor k :
  (DeleteFlagByProject sys s p k actor).1 = (run_flag_op sys s p actor (FDelete k)).1.
Proof. simpl. by destruct (DeleteFlagByProject _ _ _ _ _). Qed.

Lemma run_save sys s flag actor :
  (SaveFlag sys s flag actor).1 = (run_flag_op sys s (ff_ProjectID flag) actor (FSave flag)).1.
Proof.
  simpl. replace (flag <| ff_ProjectID := ff_ProjectID flag |>) with flag by (by destruct flag).
  by destruct (SaveFlag _ _ _ _).
Qed.

(** The handlers that change flags, with their decoded bodies. *)
Inductive FlagRequest :=
| FlagCreate (body : result GoError FeatureFlag)
| FlagUpdate (body : result GoError FeatureFlag)
| FlagDelete
| FlagToggle (req : ToggleRequest)
| FlagRollout (body : result GoError RolloutRequest)
| FlagPromote.

Definition handle_flag_request (q : FlagRequest) : HandlerFunc :=
  match q with
  | FlagCreate body => handleCreateFlag body
  | FlagUpdate body => handleUpdateFlag body
  | FlagDelete => handleDeleteFlag
  | FlagToggle req => handleToggleFlag req
  | FlagRollout body => handleUpdateRollout body
  | FlagPromote => handlePromoteEnvironment
  end.

(** No name in the store contains the separator of the flag index. *)
Definition plain_names (s : MemoryStore) : Prop :=
  Forall (λ f, no_colon (ff_ID f) ∧ no_colon (ff_Key f) ∧ no_colon (ff_ProjectID f)) (flags_of s).

Lemma str_mem_colon p k : str_mem ":" (p +:+ ":" +:+ k) = true.
Proof. rewrite !str_mem_append. simpl. by rewrite orb_true_r. Qed.

Lemma plain_names_project s p k f :
  flags_wf s → plain_names s → p ≠ "" → GetFlagByProject s p k = Ok f → ff_ProjectID f = p.
Proof.
  intros Hwf Hpl Hp. unfold GetFlagByProject. rewrite or_default_nonempty by done.
  rewrite flags_wf_lookup by done. destruct (last _) as [g|] eqn:El; [|done].
  intros [= <-]. rewrite DeepCopy_id. apply last_Some in El as [l El].
  assert (g ∈ filter (λ f, indexed_as (p +:+ ":" +:+ k) f = true) (flags_of s)) as Hg.
  { rewrite El. apply elem_of_app. right. by left. }
  apply list_elem_of_filter in Hg as [Hi Hin].
  destruct (proj1 (Forall_forall _ _) Hpl g Hin) as (Hid & Hkey & Hpr).
  unfold indexed_as in Hi. rewrite !orb_true_iff, andb_true_iff, orb_true_iff, !str_eqb_eq in Hi.
  destruct Hi as [Hi|[_ [Hi|Hi]]]; try by apply (str_join_inj_plain ":") in Hi as [? _].
  exfalso. unfold no_colon in Hid. by rewrite Hi, str_mem_colon in Hid.
Qed.

(** After the project is resolved, a handler that ends with one flag operation
    of that project. *)
Lemma ends_flag_op {A B} srv (f : Outside → MemoryStore → MemoryStore * A) (k : A → Handler B)
    (allowed : string → Prop) s p w :
  flags_wf s → uses_only s (wd_store w) → allowed p → p ≠ "" → (∀ a, keeps eq (k a)) →
  (∀ o s1, ∃ sys actor op, (f o s1).1 = (run_flag_op sys s1 p actor op).1) →
  ends srv (call f ≫= k) (confined allowed s) w.
Proof.
  intros Hwf Hu Ha Hp Hk Hf. apply ends_call; [done|]. intros o.
  destruct (Hf o (wd_store w)) as (sys & actor & op & ->). by apply confined_op.
Qed.

(** The project a handler may write. *)
Definition allowed_for (srv : Server) (s : MemoryStore) (r : Request) (p : string) : Prop :=
  ∃ u, authenticates srv s r u ∧ may_access s r u p.

(** What a handler starts from, behind the authentication. *)
Record ready (srv : Server) (r : Request) (s : MemoryStore) (u : User) (w : World) : Prop := {
  rd_uses : uses_only s (wd_store w);
  rd_auth : authenticates srv s r u;
  rd_acts : acts_as w u;
}.

Lemma ready_store srv r s u w w' :
  ready srv r s u w → wd_store w' = wd_store w → acts_as w' u → ready srv r s u w'.
Proof. intros [? ? ?] Hs Hu. split; by rewrite ?Hs. Qed.

Section Requests.
Context (srv : Server) (r : Request) (s : MemoryStore).
Hypothesis (Hfair : all_fair srv) (Hwf : flags_wf s) (Hnames : plain_names s) (Hten : named_tenants s).
Local Abbreviation target := (confined (allowed_for srv s r) s).

Lemma target_uses w : uses_only s (wd_store w) → target (wd_store w).
Proof. by apply confined_uses. Qed.

Lemma ends_resolved {A} (k : string → Handler A) u w :
  ready srv r s u w →
  (∀ p w', uses_only s (wd_store w') → allowed_for srv s r p → p ≠ "" → ends srv (k p) target w') →
  ends srv (resolved r ≫= k) target w.
Proof.
  intros [Hu Ha Hact] Hk. apply wp_bind, (wp_resolved _ _ u); [done|by eapply named_tenants_uses|done| |].
  - intros p w' Hw _ Hp Hne. assert (uses_only s (wd_store w')) by (etrans; [exact Hu|apply Hw]).
    apply Hk; [done| |done]. exists u. split; [done|].
    by apply (may_access_uses _ _ _ _ _ Hu).
  - intros rep w' Hw. apply target_uses. etrans; [exact Hu|apply Hw].
Qed.

(** A part that keeps the store, before the write. *)
Lemma ends_skip {A B} (m : Handler A) (k : A → Handler B) w :
  keeps eq m → uses_only s (wd_store w) →
  (∀ a w', uses_only s (wd_store w') → ends srv (k a) target w') → ends srv (m ≫= k) target w.
Proof.
  intros Hm Hu Hk. apply wp_keeps; [done|by apply target_uses|]. intros a w' E. apply Hk. by rewrite E.
Qed.

Lemma ends_stop {A} (m : Handler A) w :
  keeps eq m → uses_only s (wd_store w) → ends srv m target w.
Proof. intros Hm Hu. apply ends_keeps; [done|by apply target_uses]. Qed.

Lemma ends_write {A B} (f : Outside → MemoryStore → MemoryStore * A) (k : A → Handler B) p w :
  uses_only s (wd_store w) → allowed_for srv s r p → p ≠ "" → (∀ a, keeps eq (k a)) →
  (∀ o s1, ∃ sys actor op, (f o s1).1 = (run_flag_op sys s1 p actor op).1) →
  ends srv (call f ≫= k) target w.
Proof. by apply ends_flag_op. Qed.

Lemma ends_save {A} flag actor (k : result GoError (option AuditLogEntry) → Handler A) w :
  uses_only s (wd_store w) → allowed_for srv s r (ff_ProjectID flag) → ff_ProjectID flag ≠ "" →
  (∀ a, keeps eq (k a)) → ends srv (save flag actor ≫= k) target w.
Proof.
  intros Hu Ha Hp Hk. apply (ends_write _ _ (ff_ProjectID flag)); [done..|].
  intros o s1. eexists _, _, _. apply run_save.
Qed.

(** A flag that claims the project carries it afterwards. *)
Lemma ends_claim {A} verb flag p (k : FeatureFlag → Handler A) w :
  uses_only s (wd_store w) →
  (ends srv (k (flag <| ff_ProjectID := p |>)) target w) → ends srv (claim_project verb flag p ≫= k) target w.
Proof.
  intros Hu Hk. unfold claim_project. destruct (negb _ && negb _).
  - by apply wp_bind, wp_writeError, target_uses.
  - by apply wp_bind, wp_ret.
Qed.

Hint Resolve keeps_actor keeps_claim keeps_validated : keeps.

Lemma ends_environment {A} verb env (k : () → Handler A) w :
  uses_only s (wd_store w) →
  (∀ w', uses_only s (wd_store w') → ends srv (k ()) target w') →
  ends srv (check_environment r verb env ≫= k) target w.
Proof.
  intros Hu Hk. unfold check_environment. apply wp_bind, wp_bind, wp_getAPIKeyFromRequest.
  intros key w' Hw _. assert (uses_only s (wd_store w')) by (etrans; [exact Hu|apply Hw]).
  case_if; [by apply target_uses|]. by apply wp_ret, Hk.
Qed.

Lemma ends_create u body w : ready srv r s u w → ends srv (handleCreateFlag body r) target w.
Proof.
  intros Hr. pose proof (rd_uses _ _ _ _ _ Hr) as Hu. unfold handleCreateFlag.
  destruct body as [flag|e]; [apply wp_bind, wp_unwrap|by apply target_uses].
  case_if; [by apply target_uses|]. case_if; [by apply target_uses|].
  apply (ends_resolved _ u); [done|]. intros p w1 Hu1 Ha Hp. apply ends_claim; [done|].
  apply ends_skip; [keeps_all|done|]. intros _ w2 Hu2.
  apply ends_skip; [keeps_all|done|]. intros actor w3 Hu3.
  apply ends_save; [done..|]. keeps_all.
Qed.

Lemma ends_update u body w : ready srv r s u w → ends srv (handleUpdateFlag body r) target w.
Proof.
  intros Hr. pose proof (rd_uses _ _ _ _ _ Hr) as Hu. unfold handleUpdateFlag.
  destruct body as [flag|e]; [apply wp_bind, wp_unwrap|by apply target_uses].
  case_if; [by apply target_uses|].
  apply (ends_resolved _ u); [done|]. intros p w1 Hu1 Ha Hp. apply ends_claim; [done|].
  apply ends_skip; [keeps_all|done|]. intros found w2 Hu2.
  apply ends_skip; [keeps_all|done|]. intros existing w3 Hu3.
  apply ends_skip; [keeps_all|done|]. intros _ w4 Hu4.
  apply ends_skip; [keeps_all|done|]. intros actor w5 Hu5.
  apply ends_save; [done..|]. keeps_all.
Qed.

Lemma ends_delete u w : ready srv r s u w → ends srv (handleDeleteFlag r) target w.
Proof.
  intros Hr. unfold handleDeleteFlag. apply wp_bind, wp_bind, wp_user, wp_ret.
  apply (ends_resolved _ u); [done|]. intros p w1 Hu1 Ha Hp.
  apply (ends_write _ _ p); [done..| |].
  - keeps_all.
  - intros o s1. eexists _, _, _. apply run_delete.
Qed.

Lemma ends_toggle u req w : ready srv r s u w → ends srv (handleToggleFlag req r) target w.
Proof.
  intros Hr. unfold handleToggleFlag.
  apply (ends_resolved _ u); [done|]. intros p w1 Hu1 Ha Hp.
  apply ends_environment; [done|]. intros w2 Hu2.
  apply ends_skip; [keeps_all|done|]. intros actor w3 Hu3.
  apply (ends_write _ _ p); [done..| |].
  - keeps_all.
  - intros o s1. eexists _, _, _. apply run_toggle.
Qed.

Lemma ends_rollout u body w : ready srv r s u w → ends srv (handleUpdateRollout body r) target w.
Proof.
  intros Hr. pose proof (rd_uses _ _ _ _ _ Hr) as Hu. unfold handleUpdateRollout.
  destruct body as [req|e]; [apply wp_bind, wp_unwrap|by apply target_uses].
  apply (ends_resolved _ u); [done|]. intros p w1 Hu1 Ha Hp.
  apply ends_environment; [done|]. intros w2 Hu2.
  apply ends_skip; [keeps_all|done|]. intros actor w3 Hu3.
  apply (ends_write _ _ p); [done..| |].
  - keeps_all.
  - intros o s1. eexists _, _, _. apply run_rollout.
Qed.

Lemma ends_promote u w : ready srv r s u w → ends srv (handlePromoteEnvironment r) target w.
Proof.
  intros Hr. pose proof (rd_uses _ _ _ _ _ Hr) as Hu. unfold handlePromoteEnvironment.
  case_if; [by apply target_uses|]. case_if; [by apply target_uses|]. case_if; [by apply target_uses|].
  apply (ends_resolved _ u); [done|]. intros p w1 Hu1 Ha Hp. apply wp_bind, wp_read.
  pose proof (uses_only_flags _ _ Hu1) as Hsnap.
  destruct (GetFlagByProject (wd_store w1) p _) as [flag|e] eqn:Eg;
    [apply wp_bind, wp_unwrap|by apply target_uses].
  assert (ff_ProjectID flag = p) as Hfp.
  { apply (plain_names_project s p (TrimSpace (path_name r "/promote"))); [done..|].
    unfold GetFlagByProject in *. by rewrite <- Hsnap. }
  destruct (ff_Environments flag !! _) as [src|]; [|by apply target_uses].
  apply ends_skip; [keeps_all|done|]. intros o w2 Hu2.
  apply ends_skip; [keeps_all|done|]. intros actor w3 Hu3.
  apply ends_save; [done|by rewrite <- Hfp in Ha|by rewrite <- Hfp in Hp|]. keeps_all.
Qed.

Lemma ends_flag_request u q w : ready srv r s u w → ends srv (handle_flag_request q r) target w.
Proof.
  destruct q; simpl; intros Hr.
  - by apply (ends_create u).
  - by apply (ends_update u).
  - by apply (ends_delete u).
  - by apply (ends_toggle u).
  - by apply (ends_rollout u).
  - by apply (ends_promote u).
Qed.

End Requests.


(** ** Confinement to an environment *)


Lemma keeps_uses_find_key hash : keeps uses_only (find_key hash).
Proof. apply keeps_call. intros o s. apply GetAPIKeyByHash_spec. Qed.
Hint Resolve keeps_uses_find_key : keeps.

Lemma keeps_uses_try_keys master toks : keeps uses_only (try_keys master toks).
Proof. induction toks as [|tok toks IH]; simpl; keeps_all; apply IH. Qed.
Hint Resolve keeps_uses_try_keys : keeps.

Lemma keeps_uses_try_sessions toks : keeps uses_only (try_sessions toks).
Proof. induction toks as [|tok toks IH]; simpl; keeps_all; apply IH. Qed.
Hint Resolve keeps_uses_try_sessions : keeps.

Lemma keeps_uses_getUser r : keeps uses_only (getUserFromRequest r).
Proof. unfold getUserFromRequest. keeps_all. Qed.
Hint Resolve keeps_uses_getUser : keeps.

Lemma keeps_uses_getKey r : keeps uses_only (getAPIKeyFromRequest r).
Proof. unfold getAPIKeyFromRequest. keeps_all. Qed.
Hint Resolve keeps_uses_getKey : keeps.

Lemma keeps_uses_first_project orgs : keeps uses_only (first_project orgs).
Proof. induction orgs as [|org orgs IH]; simpl; keeps_all; apply IH. Qed.
Hint Resolve keeps_uses_first_project : keeps.

Lemma keeps_uses_resolve r : keeps uses_only (resolveAndAuthorizeProjectID r).
Proof.
  unfold resolveAndAuthorizeProjectID, resolve_user, resolve_anonymous, authorizeProjectAccess, default_for,
    chosen, enrich_context, enrichUserOrgMembership, current_user, authorize_user, list_user_orgs, get_project.
  destruct (candidate_project r). keeps_all.
Qed.
Hint Resolve keeps_uses_resolve : keeps.

(** The configurations of all flags in one environment. *)
Definition env_view (e : Environment) (flags : list FeatureFlag) : list (option EnvironmentConfig) :=
  (λ f, ff_Environments f !! e) <$> flags.

Lemma update_by_project_env sys s p k upd e :
  (∀ j f, ff_Environments (upd j f).1 !! e = ff_Environments f !! e) →
  env_view e (flags_of (update_by_project sys s p k upd).1) = env_view e (flags_of s).
Proof.
  intros Hupd. unfold update_by_project.
  pose proof (update_flags_Forall2 (flag_matches p k) upd 0 (flags_of s)) as Hf.
  destruct (update_flags _ _ _ _) as [new [[f log]|]]; [|done]. cbn [fst] in *.
  destruct (appendAuditLogLocked _ _ _) as [s' log'] eqn:Ea.
  pose proof (append_flags (sys_now sys (3 * length new)) (store_flags s new) log) as [Hs _].
  rewrite Ea in Hs. cbn [fst] in *.
  assert (flags_of s' = snapshot_flag <$> new) as -> by (unfold flags_of; by rewrite Hs).
  unfold env_view. clear Hs Ea. induction Hf as [|g g' gs gs' Hg _ IH]; [done|]. csimpl. rewrite IH, snapshot_flag_envs.
  f_equal. destruct (flag_matches p k g); [|by rewrite Hg]. destruct Hg as [j ->]. apply Hupd.
Qed.

Lemma set_env_other env e cfg now f :
  env ≠ e → ff_Environments (set_env env cfg now f) !! e = ff_Environments f !! e.
Proof. intros Hne. unfold set_env. simpl. by rewrite lookup_insert_ne. Qed.

Lemma toggle_env sys s p k env en actor e :
  or_default env EnvProduction ≠ e →
  env_view e (flags_of (ToggleFlagByProject sys s p k env en actor).1) = env_view e (flags_of s).
Proof. intros Hne. apply update_by_project_env. intros j f. by apply set_env_other. Qed.

Lemma rollout_env sys s p k env pct actor e :
  or_default env EnvProduction ≠ e →
  env_view e (flags_of (UpdateRolloutByProject sys s p k env pct actor).1) = env_view e (flags_of s).
Proof. intros Hne. apply update_by_project_env. intros j f. by apply set_env_other. Qed.

Lemma allows_uses k k' e : forget_use k = forget_use k' → AllowsEnvironment (Some k) e = AllowsEnvironment (Some k') e.
Proof. intros (_ & _ & He & _)%forget_use_fields. simpl. by rewrite He. Qed.

Section Scope.
Context (srv : Server) (r : Request) (s : MemoryStore) (k : APIKey) (e : Environment).
Hypothesis (Hkey : presented_key s r = Some k) (Hno : AllowsEnvironment (Some k) e = false).

Definition same_env (s' : MemoryStore) : Prop := env_view e (flags_of s') = env_view e (flags_of s).

Lemma same_env_uses s' : uses_only s s' → same_env s'.
Proof. intros Hu%uses_only_flags. unfold same_env, flags_of. by rewrite Hu. Qed.

(** A part that may look keys up. *)
Lemma scope_skip {A B} (m : Handler A) (f : A → Handler B) w :
  keeps uses_only m → uses_only s (wd_store w) →
  (∀ a w', uses_only s (wd_store w') → ends srv (f a) same_env w') → ends srv (m ≫= f) same_env w.
Proof.
  intros Hm Hu Hk. apply wp_bind. unfold wp. specialize (Hm srv w).
  destruct (m srv w) as [w' [a|rep]]; simpl in Hm; [apply Hk|apply same_env_uses]; by etrans.
Qed.

(** The key as the handler reads it. *)
Lemma scope_key Q E w :
  uses_only s (wd_store w) →
  (∀ k' w', (∀ env, AllowsEnvironment k' env = AllowsEnvironment (Some k) env) →
     uses_only s (wd_store w') → Q k' w') →
  wp srv (getAPIKeyFromRequest r) Q E w.
Proof.
  intros Hu Hk. apply wp_getAPIKeyFromRequest. intros k' w' Hw Hk'.
  rewrite (presented_key_uses _ _ r Hu), Hkey in Hk'. destruct k' as [k'|]; [|done].
  apply Hk; [|by etrans; [|apply Hw]]. intros env. apply allows_uses. by apply (inj Some).
Qed.

Lemma allowed_not_e k' env :
  (∀ env, AllowsEnvironment k' env = AllowsEnvironment (Some k) env) →
  AllowsEnvironment k' env = true → env ≠ e.
Proof. intros Hk' Ha ->. rewrite Hk' in Ha. congruence. Qed.

Lemma scope_environment {B} verb env (f : () → Handler B) w :
  uses_only s (wd_store w) →
  (∀ w', env ≠ e → uses_only s (wd_store w') → ends srv (f ()) same_env w') →
  ends srv (check_environment r verb env ≫= f) same_env w.
Proof.
  intros Hu Hk. unfold check_environment. apply wp_bind, wp_bind, scope_key; [done|].
  intros k' w' Hk' Hu'. destruct (AllowsEnvironment k' env) eqn:Ea; cbn [negb].
  - apply wp_ret, Hk; [by eapply allowed_not_e|done].
  - by apply same_env_uses.
Qed.

Lemma scope_call {A B} (f : Outside → MemoryStore → MemoryStore * A) (c : A → Handler B) w :
  uses_only s (wd_store w) → (∀ a, keeps eq (c a)) →
  (∀ o s', env_view e (flags_of (f o s').1) = env_view e (flags_of s')) →
  ends srv (call f ≫= c) same_env w.
Proof.
  intros Hu Hc Hf. apply ends_call; [done|]. intros o. unfold same_env. rewrite Hf.
  by apply same_env_uses.
Qed.

Lemma scope_resolved {B} (f : string → Handler B) w :
  uses_only s (wd_store w) →
  (∀ a w', uses_only s (wd_store w') → ends srv (f a) same_env w') → ends srv (resolved r ≫= f) same_env w.
Proof. apply scope_skip. unfold resolved. keeps_all. Qed.

Lemma or_default_env env :
  or_default env EnvProduction ≠ e → or_default (or_default env EnvProduction) EnvProduction ≠ e.
Proof. unfold or_default. by destruct (env =s? "") eqn:E; [|rewrite E]. Qed.

Lemma scope_toggle req w : uses_only s (wd_store w) → ends srv (handleToggleFlag req r) same_env w.
Proof.
  intros Hu. unfold handleToggleFlag. apply scope_resolved; [done|]. intros p w1 Hu1.
  apply scope_environment; [done|]. intros w2 Hne Hu2.
  apply scope_skip; [unfold getActorFromRequest; keeps_all|done|]. intros actor w3 Hu3.
  apply scope_call; [done|keeps_all|]. intros o s'. by apply toggle_env, or_default_env.
Qed.

Lemma scope_rollout body w : uses_only s (wd_store w) → ends srv (handleUpdateRollout body r) same_env w.
Proof.
  intros Hu. unfold handleUpdateRollout. apply scope_skip; [keeps_all|done|]. intros req w0 Hu0.
  apply scope_resolved; [done|]. intros p w1 Hu1.
  apply scope_environment; [done|]. intros w2 Hne Hu2.
  apply scope_skip; [unfold getActorFromRequest; keeps_all|done|]. intros actor w3 Hu3.
  apply scope_call; [done|keeps_all|]. intros o s'. by apply rollout_env, or_default_env.
Qed.

Lemma scope_webhook w : uses_only s (wd_store w) → ends srv (handleWebhookKillSwitch r) same_env w.
Proof.
  intros Hu. unfold handleWebhookKillSwitch. case_if; [by apply same_env_uses|].
  apply wp_bind, wp_getenv. apply scope_skip; [keeps_all|done|]. intros bySession w1 Hu1.
  apply wp_bind, scope_key; [done|]. intros k' w2 Hk' Hu2.
  apply scope_skip; [keeps_all|done|]. intros found w3 Hu3.
  case_if; [by apply same_env_uses|]. case_if; [by apply same_env_uses|].
  apply scope_skip; [unfold resolveProjectID, resolved; keeps_all|done|]. intros p w4 Hu4.
  destruct (AllowsEnvironment k' _) eqn:Ea; cbn [negb]; [|by apply same_env_uses].
  apply wp_bind, wp_ret. apply scope_skip; [unfold getActorFromRequest; keeps_all|done|].
  intros actor w5 Hu5. apply scope_call; [done|keeps_all|]. intros o s'.
  apply toggle_env, or_default_env. by eapply allowed_not_e.
Qed.

End Scope.

(** C36: an API key that is bound to an environment reaches no other one by the
    toggle and rollout routes or the kill-switch webhook: when the request
    presents the key and the key does not allow the environment [e], no
    flag's configuration of [e] changes, in any project. *)
Theorem environment_scope_respected srv r w k e req body :
  presented_key (wd_store w) r = Some k → AllowsEnvironment (Some k) e = false →
  Forall (λ h : HandlerFunc,
    env_view e (flags_of (wd_store (serve srv (h r) w).1)) = env_view e (flags_of (wd_store w)))
    [RequireAuth (handleToggleFlag req); RequireAuth (handleUpdateRollout body);
     handleWebhookKillSwitch].
Proof.
  intros Hkey Hno. assert (∀ h : HandlerFunc,
    (∀ w', uses_only (wd_store w) (wd_store w') → ends srv (h r) (same_env (wd_store w) e) w') →
    ends srv (RequireAuth h r) (same_env (wd_store w) e) w) as Hauth.
  { intros h Hh. apply wp_RequireAuth.
    - intros u w' Hq _ _. apply Hh, Hq.
    - intros m w' Hq. apply same_env_uses, Hq. }
  repeat constructor; apply ends_serve.
  - apply Hauth. intros w' Hu. by apply (scope_toggle srv r _ k).
  - apply Hauth. intros w' Hu. by apply (scope_rollout srv r _ k).
  - by apply (scope_webhook srv r _ k).
Qed.

End Flags.
