(* ===== verification/ApiGovernanceFacts.v ===== *)
(** * What the change-request and key handlers guarantee

    A review that takes effect is one by an authenticated reviewer who is not
    the author; a change request is attributed to its caller; a new API key
    stays within its maker's project and rights, and works. *)

From S2P Require Import Prelude GoFloat GoStrings GoTime Sha256 Errors Domain Engine Entities StoreState.
From S2P Require Import StoreAudit StoreFlags StoreFlagsFacts StoreGovernance StoreIdentity StoreTenancy.
From S2P Require Import Http Auth Access AuthFacts AccessFacts ApiFlags ApiGovernance ApiKeys ApiRoutes.
From S2P Require Import ApiFlagsFacts.

Section Governance.
Context `{GoRuntime}.

(** ** Reviews *)

(** Who may review: somebody privileged in the organization of the project, or
    with a governance e-mail address. *)
Definition may_review (srv : Server) (emails : list string) (s : MemoryStore) (u : User) (p : string)
    : Prop :=
  ∃ u', member_view s p u u' ∧
    (IsPrivileged (Some u') || existsb (λ e, EqualFold (us_Email u) e) emails ||
     env_reviewer (sv_Getenv srv "FLAGURA_GOVERNANCE_EMAILS") u) = true.

Lemma wp_context_user srv u Q E w : wd_user w = Some u → Q u w → wp srv context_user Q E w.
Proof. intros Hu HQ. unfold context_user. apply wp_bind, wp_user. by rewrite Hu. Qed.

Lemma wp_bad_request {A} srv (res : result GoError A) Q E w :
  (∀ a, res = Ok a → Q a w) → (∀ e, res = Err e → E (mkReply StatusBadRequest (BText (Error e))) w) →
  wp srv (bad_request res) Q E w.
Proof. destruct res; intros HQ HE; [by apply HQ|by apply HE]. Qed.

Lemma wp_check srv err Q E w :
  (err = None → Q () w) → (∀ e, err = Some e → E (error_reply e) w) → wp srv (check err) Q E w.
Proof. destruct err; intros HQ HE; [by apply HE|by apply HQ]. Qed.

(** What one review does to the requests of the store. *)
Definition reviewed_by (srv : Server) (emails : list string) (r : Request) (id : string)
    (s s' : MemoryStore) : Prop :=
  ∃ u cr cr' now approved comments,
    authenticates srv s r u ∧ ms_changeRequests s !! id = Some cr ∧
    cr_Status cr = ChangeRequestStatusPending ∧ us_ID u ≠ cr_AuthorUserID cr ∧
    may_access s r u (cr_ProjectID cr) ∧ may_review srv emails s u (cr_ProjectID cr) ∧
    Review now cr (us_ID u) (us_Email u) (us_Name u) approved comments = Ok cr' ∧
    ms_changeRequests s' = <[id := cr']> (ms_changeRequests s).

Lemma ReviewChangeRequest_effect sys s id rid remail rname approved comments :
  (ReviewChangeRequest sys s id rid remail rname approved comments).1 = s ∨
  ∃ cr cr', ms_changeRequests s !! id = Some cr ∧
    Review (sys_now sys 0) cr rid remail rname approved comments = Ok cr' ∧
    (ReviewChangeRequest sys s id rid remail rname approved comments).1
    = s <| ms_changeRequests := <[id := cr']> (ms_changeRequests s) |>.
Proof.
  unfold ReviewChangeRequest. destruct (ms_changeRequests s !! id) as [cr|]; [|by left].
  destruct (Review _ _ _ _ _ _ _) as [cr'|e] eqn:Er; [|by left]. right. by exists cr, cr'.
Qed.

Lemma Review_guard now cr rid remail rname approved comments cr' :
  Review now cr rid remail rname approved comments = Ok cr' →
  cr_Status cr = ChangeRequestStatusPending ∧ rid ≠ cr_AuthorUserID cr.
Proof.
  unfold Review. destruct (cr_Status cr =s? _) eqn:Es; simpl; [|done].
  destruct (cr_AuthorUserID cr =s? rid) eqn:E; [done|]. simp_bool. intros _. split; congruence.
Qed.

(** C37: a review through the API takes effect only for an authenticated caller
    who is not the author, may use the project of the request, and is
    privileged in its organization or named as a governance reviewer; only a
    pending request is reviewed, and no other request changes. *)
Theorem review_through_api srv emails id body r w :
  all_fair srv →
  let s := wd_store w in
  let s' := wd_store (serve srv (RequireAuth (handleReviewChangeRequest emails id body) r) w).1 in
  ms_changeRequests s' = ms_changeRequests s ∨ reviewed_by srv emails r id s s'.
Proof.
  intros Hf s s'. set (P s' := ms_changeRequests s' = ms_changeRequests s ∨ reviewed_by srv emails r id s s').
  assert (∀ s', uses_only s s' → P s') as Hquiet by (intros s1 Hu; left; by apply uses_only_changes).
  apply (ends_serve srv _ P), wp_RequireAuth; [|intros m w' Hq; apply Hquiet, Hq].
  intros u w1 Hq1 Hau Hu1. unfold handleReviewChangeRequest.
  apply wp_bind, (wp_context_user _ u); [done|].
  apply wp_bind, wp_read, wp_bind, wp_bad_request; [|intros e _; apply Hquiet, Hq1].
  intros cr Hcr. apply wp_bind, (wp_authorizeProjectAccess _ _ u); [done|by apply acts_as_self|].
  intros denied w2 Hq2 Hu2 Hacc. assert (quiet w w2) as Hw2 by (etrans; [|exact Hq2]; etrans; [exact Hq1|apply quiet_step]).
  apply wp_bind, wp_check; [|intros e _; apply Hquiet, Hw2]. intros ->. specialize (Hacc eq_refl).
  apply wp_bind, (wp_enrich_context _ u); [exact (eq_trans Hu2 Hu1)|]. intros u' w3 Hq3 Hu3 Hview.
  assert (quiet w w3) as Hw3 by (by etrans).
  apply wp_bind, (wp_context_user _ u'); [done|]. apply wp_bind, wp_getenv.
  pose proof (member_view_forget _ _ _ _ Hview) as (Hid & _ & Hemail & Hname)%forget_member_fields.
  destruct (IsPrivileged (Some u') || _ || _) eqn:Ep; cbn [negb]; [|apply wp_writeError, Hquiet, Hw3].
  apply wp_bind. destruct body as [req|e]; [apply wp_ret|apply Hquiet, Hw3].
  apply ends_call; [unfold bad_request; keeps_all|]. intros o.
  destruct (ReviewChangeRequest_effect (out_sys o) (wd_store w3) id (us_ID u') (us_Email u') (us_Name u')
    (rv_Approved req) (rv_Comments req)) as [-> | (cr0 & cr' & Hcr0 & Hrev & ->)]; [apply Hquiet, Hw3|].
  pose proof (qu_store _ _ Hw3) as Hs3. rewrite (uses_only_changes _ _ Hs3) in *.
  assert (cr0 = cr) as ->.
  { unfold GetChangeRequest in Hcr. rewrite (uses_only_changes _ _ (qu_store _ _ Hq1)), Hcr0 in Hcr.
    by injection Hcr. }
  rewrite Hid, Hemail, Hname in Hrev. destruct (Review_guard _ _ _ _ _ _ _ _ Hrev) as [Hpend Hauth].
  right. exists u, cr, cr'. eexists _, _, _. split_and!; [done..| | |exact Hrev|done].
  - apply (may_access_uses _ _ _ _ _ (qu_store _ _ Hq1)), Hacc.
  - exists u'. split; [|by unfold env_reviewer in *; rewrite Hemail in Ep].
    apply (member_view_uses _ _ _ _ _ (qu_store _ _ Hw2)), Hview.
Qed.

(** ** Creation *)

(** The request [cr], stored in [s'], was made by a caller of [s]. *)
Definition attributed (srv : Server) (r : Request) (s s' : MemoryStore) (cr : ChangeRequest) : Prop :=
  ∃ u flag, authenticates srv s r u ∧
    cr_AuthorUserID cr = us_ID u ∧ cr_AuthorEmail cr = us_Email u ∧
    may_access s r u (cr_ProjectID cr) ∧ cr_Status cr = ChangeRequestStatusPending ∧
    GetFlagByProject s (cr_ProjectID cr) (cr_FlagKey cr) = Ok flag ∧
    cr_BaseConfigVersion cr = ff_ConfigVersion flag ∧
    ValidateEnvironmentConfig (cr_ProposedConfig cr) = None ∧
    ms_changeRequests s' !! cr_ID cr = Some cr.

Definition no_change_request (rep : Reply) : Prop :=
  match rp_Body rep with BChangeRequest _ => False | _ => True end.

Lemma error_reply_no_change_request err : no_change_request (error_reply err).
Proof. unfold no_change_request. pose proof (error_reply_body err). by destruct (rp_Body _). Qed.

Lemma wp_request_project srv r u p Q E w :
  all_fair srv → named_tenants (wd_store w) → acts_as w u →
  (∀ p' w', quiet w w' → may_access (wd_store w) r u p' → Q p' w') →
  (∀ err w', E (error_reply err) w') →
  wp srv (request_project r p) Q E w.
Proof.
  intros Hf Hn Hu HQ HE. unfold request_project. case_if.
  - apply wp_bind, (wp_resolveAndAuthorizeProjectID _ _ u); [done..|].
    intros res w' Hw Hu' Hres. apply wp_unwrap. destruct res as [p'|e]; [|apply HE].
    apply HQ; [done|apply Hres].
  - apply wp_bind, (wp_authorizeProjectAccess _ _ u); [done..|]. intros res w' Hw Hwu Hres.
    apply wp_bind, wp_check; [|intros e _; apply HE]. intros ->. apply wp_ret, HQ; auto.
Qed.

Lemma GetFlagByProject_uses s s' p k :
  uses_only s s' → GetFlagByProject s' p k = GetFlagByProject s p k.
Proof. intros Hs%uses_only_flags. unfold GetFlagByProject. by rewrite Hs. Qed.

(** A change request made through the API is attributed to its caller: when
    the reply carries a change request, the caller is authenticated and may use
    its project, is recorded as its author whatever the body says, and the
    request is stored as pending, on top of the current version of a flag that
    exists in the project. *)
Theorem change_request_attributed srv body r w :
  all_fair srv → named_tenants (wd_store w) →
  let x := serve srv (RequireAuth (handleCreateChangeRequest body) r) w in
  ∀ cr, rp_Body x.2 = BChangeRequest cr → attributed srv r (wd_store w) (wd_store x.1) cr.
Proof.
  intros Hf Hten x. set (P (w' : World) (rep : Reply) := ∀ cr, rp_Body rep = BChangeRequest cr →
    attributed srv r (wd_store w) (wd_store w') cr).
  assert (∀ w' rep, no_change_request rep → P w' rep) as Hno.
  { intros w' rep Hn cr Hc. unfold no_change_request in Hn. by rewrite Hc in Hn. }
  change (P x.1 x.2). apply wp_serve, wp_RequireAuth; [|by intros m w1 _; apply Hno]. intros u w1 Hq1 Hau Hu1.
  unfold handleCreateChangeRequest. apply wp_bind, (wp_context_user _ u); [done|].
  destruct body as [req|e]; apply wp_bind, wp_unwrap;
    [|apply Hno, error_reply_no_change_request].
  case_if; [apply wp_writeError, Hno, error_reply_no_change_request|].
  apply wp_bind, (wp_request_project _ _ u);
    [done|by apply (named_tenants_uses _ _ (qu_store _ _ Hq1))|by apply acts_as_self| |].
  2: { intros err w2. apply Hno, error_reply_no_change_request. }
  intros p w2 Hq2 Hacc. apply wp_bind.
  set (req' := req <| cr_Environment := _ |> <| cr_ProjectID := p |> <| cr_AuthorUserID := _ |>
    <| cr_AuthorEmail := _ |> <| cr_AuthorName := _ |>).
  destruct (ValidateEnvironmentConfig (cr_ProposedConfig req')) as [err|] eqn:Ev;
    [apply wp_writeError, Hno, error_reply_no_change_request|].
  apply wp_ret, wp_bind, wp_read, wp_bind, wp_unwrap.
  destruct (GetFlagByProject (wd_store w2) (cr_ProjectID req') (cr_FlagKey req')) as [flag|e] eqn:Eg;
    [|apply Hno, error_reply_no_change_request].
  apply wp_bind, wp_call. simpl. intros cr [= <-]. exists u, flag.
  pose proof (qu_store _ _ Hq1) as Hs1.
  assert (uses_only (wd_store w) (wd_store w2)) as Hs2 by (by etrans; [|apply Hq2]).
  rewrite (GetFlagByProject_uses _ _ _ _ Hs2) in Eg.
  split_and!; try done.
  - by apply (may_access_uses _ _ _ _ _ Hs1).
  - apply lookup_insert_eq.
Qed.

End Governance.
