(* ===== verification/ApiKeysFacts.v ===== *)
(** * What the key handlers guarantee

    A new API key stays within its maker's project and rights, works right
    away, and stops working when it is revoked. *)

From S2P Require Import Prelude GoFloat GoStrings GoTime Sha256 Errors Domain Engine Entities StoreState.
From S2P Require Import StoreAudit StoreFlags StoreIdentity StoreTenancy.
From S2P Require Import Http Auth Access AuthFacts AccessFacts ApiFlags ApiGovernance ApiKeys ApiRoutes.
From S2P Require Import ApiFlagsFacts ApiGovernanceFacts.

(** A created key is live under its hash. *)
Lemma CreateAPIKey_live sys s key s' key' :
  CreateAPIKey sys s key = (s', key') → ak_KeyHash key ≠ "" →
  live_key s' (ak_KeyHash key) = Some key' ∧ ak_Key key' = ak_Key key ∧ ak_KeyHash key' = ak_KeyHash key ∧
  ak_Role key' = ak_Role key ∧ ak_ProjectID key' = or_default (ak_ProjectID key) DefaultProjectID ∧
  ak_Environment key' = or_default (ak_Environment key) "production" ∧ ak_CreatedBy key' = ak_CreatedBy key.
Proof.
  intros [= <- <-] Hh. simpl. rewrite (proj2 (str_eqb_neq _ _) Hh). cbn [negb].
  split_and!; try done. unfold live_key. simpl. by rewrite !lookup_insert_eq.
Qed.

Section Keys.
Context `{GoRuntime}.

(** The caller of [s], when privileged in the organization of the project [p]. *)
Definition privileged_caller (srv : Server) (r : Request) (s : MemoryStore) (p : string) : Prop :=
  ∃ u v, authenticates srv s r u ∧ member_view s p u v ∧ IsPrivileged (Some v) = true.

(** A key made by the request [r] in [s], and stored in [s']. *)
Definition key_within (srv : Server) (r : Request) (s s' : MemoryStore) (key : APIKey) : Prop :=
  ∃ u p, authenticates srv s r u ∧ may_access s r u p ∧
    ak_ProjectID key = or_default p DefaultProjectID ∧
    (ak_Role key = RoleAdmin ∨ is_all (ak_Environment key) = true → privileged_caller srv r s p) ∧
    live_key s' (sha256_hex (ak_Key key)) = Some key.

Lemma wp_granted_environment srv priv env Q E w :
  (∀ e, (is_all e = true → priv = true) → e ≠ "" → Q e w) → (∀ err, E (error_reply err) w) →
  wp srv (granted_environment priv env) Q E w.
Proof.
  intros HQ HE. unfold granted_environment. set (e := or_default _ _).
  assert (e ≠ "") as Hne.
  { unfold e, or_default. by destruct (_ =s? "") eqn:Ee; [|simp_bool]. }
  destruct (is_all e) eqn:Ea.
  - apply wp_ret. destruct priv; by apply HQ.
  - case_if; [apply wp_writeError, HE|apply wp_ret, HQ; [by rewrite Ea|done]].
Qed.

Lemma granted_role_admin priv role : granted_role priv role = RoleAdmin → priv = true.
Proof.
  unfold granted_role. set (x := or_default role RoleDeveloper). destruct (x =s? RoleAdmin) eqn:Ex; simpl.
  - destruct priv; [done|by intros [=]].
  - intros ->. by rewrite str_eqb_refl in Ex.
Qed.

Definition no_key (rep : Reply) : Prop :=
  match rp_Body rep with BAPIKey _ => False | _ => True end.

Lemma error_reply_no_key err : no_key (error_reply err).
Proof. unfold no_key. pose proof (error_reply_body err). by destruct (rp_Body _). Qed.

Lemma wp_resolveProjectID srv r u Q E w :
  all_fair srv → named_tenants (wd_store w) → acts_as w u →
  (∀ p w', quiet w w' → acts_as w' u → Q p w') → wp srv (resolveProjectID r) Q E w.
Proof.
  intros Hf Hn Hu HQ. apply wp_bind, (wp_resolveAndAuthorizeProjectID _ _ u); [done..|].
  intros res w' Hw Hu' _. apply wp_ret. by destruct res; apply HQ.
Qed.

(** The user the credentials name, with the membership filled in. *)
Lemma wp_named_user srv r s (found : result GoError User) p Q E w :
  uses_only s (wd_store w) →
  match found with Ok u => authenticates srv s r u | Err _ => True end →
  (∀ user w', quiet w w' → wd_user w' = wd_user w →
     (IsPrivileged user = true → privileged_caller srv r s p) → Q user w') →
  wp srv (match match found with Ok u => Some u | Err _ => None end with
          | None => mret None
          | Some u => u ← enrichUserOrgMembership u p; mret (Some u)
          end : Handler (option User)) Q E w.
Proof.
  intros Hs Hfound HQ. destruct found as [u|e]; [|by apply wp_ret, HQ].
  apply wp_bind, wp_enrich_user. intros v w' Hw Hwu Hv. apply wp_ret, HQ; [done|done|].
  intros Hp. exists u, v. split_and!; [done|by apply (member_view_uses _ _ _ _ _ Hs)|done].
Qed.

Lemma create_api_key_within srv body r w :
  all_fair srv → named_tenants (wd_store w) →
  let x := serve srv (RequireAuth (create_api_key body) r) w in
  ∀ key, rp_Body x.2 = BAPIKey key → key_within srv r (wd_store w) (wd_store x.1) key.
Proof.
  intros Hf Hten x. set (P (w' : World) (rep : Reply) := ∀ key, rp_Body rep = BAPIKey key →
    key_within srv r (wd_store w) (wd_store w') key).
  assert (∀ w' rep, no_key rep → P w' rep) as Hno.
  { intros w' rep Hn key Hc. unfold no_key in Hn. by rewrite Hc in Hn. }
  change (P x.1 x.2). apply wp_serve, wp_RequireAuth; [|by intros m w1 _; apply Hno]. intros u w1 Hq1 Hau Hu1.
  unfold create_api_key.
  destruct body as [req|e]; apply wp_bind, wp_unwrap; [|apply Hno, error_reply_no_key].
  case_if; [apply wp_writeError, Hno, error_reply_no_key|].
  apply wp_bind, wp_getUserFromRequest. intros found w2 Hw2 Hfound.
  pose proof (same_world_quiet _ _ Hw2) as Hq2.
  pose proof (acts_as_same _ _ _ Hw2 (acts_as_self _ _ Hu1)) as Hu2.
  assert (uses_only (wd_store w) (wd_store w2)) as Hs2 by (etrans; [apply Hq1|apply Hq2]).
  apply wp_bind, (wp_resolveProjectID _ _ u); [done|by apply (named_tenants_uses _ _ Hs2)|done|].
  intros p w3 Hq3 Hu3. assert (uses_only (wd_store w) (wd_store w3)) as Hs3 by (etrans; [exact Hs2|apply Hq3]).
  apply wp_bind, (wp_named_user _ r (wd_store w)); [done| |].
  { destruct found as [u2|]; [|done]. by apply (authenticates_uses _ _ _ _ _ (qu_store _ _ Hq1)). }
  intros user w4 Hq4 Hwu4 Hpriv. pose proof (acts_as_user _ _ _ Hwu4 Hu3) as Hu4.
  assert (uses_only (wd_store w) (wd_store w4)) as Hs4 by (etrans; [exact Hs3|apply Hq4]).
  apply wp_bind, wp_granted_environment; [|intros err; apply Hno, error_reply_no_key].
  intros env Henv Hne. apply wp_bind, wp_outside. cbn [generateRawAPIKey].
  apply wp_bind, (wp_authorizeProjectAccess _ _ u); [done|done|]. intros denied w5 Hq5 Hwu5 Hacc.
  apply wp_bind, wp_check; [|intros err _; apply Hno, error_reply_no_key]. intros ->.
  specialize (Hacc eq_refl). apply wp_bind, wp_outside, wp_bind, wp_call.
  cbn zeta. match goal with |- context [CreateAPIKey ?sys ?st ?key] =>
    destruct (CreateAPIKey sys st key) as [s' key'] eqn:Ec end.
  destruct (CreateAPIKey_live _ _ _ _ _ Ec) as (Hlive & Hk & Hh & Hrole & Hp & He & _);
    [apply sha256_hex_nonempty|].
  apply wp_ret. intros key1 [= <-]. exists u, p. split_and!.
  - done.
  - by apply (may_access_uses _ _ _ _ _ Hs4).
  - by rewrite Hp.
  - intros Hadmin. apply Hpriv. destruct Hadmin as [Hadmin|Hall].
    + rewrite Hrole in Hadmin. by apply granted_role_admin in Hadmin.
    + apply Henv. by rewrite He, or_default_nonempty in Hall.
  - by rewrite Hk.
Qed.

(** An API key stays within the reach of the caller who makes it: when the
    reply carries a new key, the caller is authenticated and may use the key's
    project; a key with the admin role, or one for all environments, is made
    only for a caller who is privileged in the project's organization; and the
    SHA-256 hash of the key in the reply is live in the store. *)
Theorem created_key_within srv body r w :
  all_fair srv → named_tenants (wd_store w) →
  let x := serve srv (RequireAuth (create_api_key body) r) w in
  ∀ key, rp_Body x.2 = BAPIKey key → key_within srv r (wd_store w) (wd_store x.1) key.
Proof. apply create_api_key_within. Qed.

(** A new API key works right away: a request that presents it as its bearer
    token, without surrounding blanks or quotes, is authenticated as the user
    of the key, and is bound to the key's project and environment. *)
Theorem created_key_authenticates srv body r w r2 w2 key :
  all_fair srv → named_tenants (wd_store w) →
  let x := serve srv (RequireAuth (create_api_key body) r) w in
  rp_Body x.2 = BAPIKey key → uses_only (wd_store x.1) (wd_store w2) →
  HeaderGet r2 HeaderAuthorization = "Bearer " +:+ ak_Key key → HeaderGet r2 HeaderAPIKey = "" →
  ak_Key key ≠ "" → clean_token (ak_Key key) = ak_Key key → ak_Key key ≠ sv_Getenv srv "FLAGURA_API_KEY" →
  wp srv (getUserFromRequest r2) (λ res _, res = Ok (key_user key)) (λ _ _, False) w2 ∧
  forget_use <$> presented_key (wd_store w2) r2 = Some (forget_use key).
Proof.
  intros Hf Hten x. pose proof (create_api_key_within srv body r w Hf Hten) as Hmade. cbn zeta in Hmade. fold x in Hmade. intros Hrep Hu Ha Hk Hne Hclean Hm.
  destruct (Hmade key Hrep) as (_ & _ & _ & _ & _ & _ & Hlive).
  pose proof (live_key_uses _ _ (sha256_hex (ak_Key key)) Hu) as Hl. rewrite Hlive in Hl.
  destruct (live_key (wd_store w2) _) as [k|] eqn:Ek; [|done]. apply (inj Some) in Hl.
  destruct (key_tokens_bearer r2 (ak_Key key)) as [Hts Ht]; [done..|]. rewrite Hclean in Hts. split.
  - rewrite <- (key_user_forget _ _ Hl). by apply (wp_getUser_key _ _ _ _ (ak_Key key)).
  - unfold presented_key. rewrite Ht, (proj2 (str_eqb_neq _ _) Hne), Ek. simpl. by rewrite Hl.
Qed.

End Keys.
