(* ===== verification/ApiAuthFacts.v ===== *)
(** * What sign-up, login, logout and the password change guarantee *)

From S2P Require Import Prelude GoFloat GoStrings GoTime Sha256 Errors Domain Engine Entities StoreState.
From S2P Require Import StoreAudit StoreIdentity StoreTenancy StoreIdentityFacts.
From S2P Require Import Http Auth Access AuthFacts AccessFacts ApiFlags ApiGovernance ApiAuth ApiFlagsFacts.

(** ** A request that carries a session only *)

Definition session_request (r : Request) (tok : string) : Prop :=
  key_tokens r = [""; ""] ∧ session_candidates r = [tok].

Lemma wp_getUser_session srv r tok Q E w :
  session_request r tok →
  (∀ res w', wd_store w' = wd_store w →
     match res with
     | Ok u => ∃ sess, ms_sessions (wd_store w) !! tok = Some sess ∧ session_owner (wd_store w) sess = Some u
     | Err _ => ∀ sess u, ms_sessions (wd_store w) !! tok = Some sess →
                  ms_users (wd_store w) !! ss_UserID sess = Some u →
                  (ss_ExpiresAt sess < sys_now (out_sys (sv_out srv (wd_step w))) 0)%Z
     end → Q res w') →
  wp srv (getUserFromRequest r) Q E w.
Proof.
  intros [Hk Hc] HQ. unfold key_tokens in Hk. unfold getUserFromRequest.
  apply wp_bind, wp_getenv, wp_bind. rewrite Hk. cbn [try_keys]. rewrite str_eqb_refl. cbn [negb andb].
  apply wp_ret, wp_bind. rewrite Hc. cbn [try_sessions]. apply wp_bind, wp_read.
  unfold GetSession, session_owner in *.
  destruct (ms_sessions (wd_store w) !! tok) as [sess|] eqn:Es; [|by apply wp_ret, wp_ret, HQ].
  unfold Session_IsExpired, After.
  destruct (ss_ExpiresAt sess <? _)%Z eqn:Ex.
  { apply wp_ret, wp_ret, HQ; [done|]. intros sess' u [= <-] _. by simp_bool. }
  destruct (ms_users (wd_store w) !! ss_UserID sess) as [u|] eqn:Eu; simpl.
  { apply wp_ret, wp_ret, HQ; [done|]. exists sess. by rewrite Eu. }
  destruct (ss_User sess) as [u|] eqn:Eo; simpl.
  { apply wp_ret, wp_ret, HQ; [done|]. exists sess. by rewrite Eu. }
  destruct (ss_UserID sess =s? ""); simpl.
  { apply wp_ret, wp_ret, HQ; [done|]. intros sess' u [= <-] Hu. congruence. }
  apply wp_bind, wp_read. unfold GetUserByID. cbn [wd_store]. simpl. rewrite Eu.
  apply wp_ret, wp_ret, HQ; [done|]. intros sess' u [= <-] Hu. congruence.
Qed.

Section AuthFacts.
Context `{GoRuntime} `{AuthLib}.

(** ** Login and logout *)

Lemma wp_first_project_store srv orgs Q E w :
  (∀ res w', wd_store w' = wd_store w → Q res w') → wp srv (first_project orgs) Q E w.
Proof.
  revert w. induction orgs as [|org orgs IH]; intros w HQ; simpl; [by apply wp_ret, HQ|].
  apply wp_bind, wp_read. destruct (ListProjects _ _); [|by apply wp_ret, HQ]. apply IH.
  intros res w' Hw. by apply HQ.
Qed.

(** The session that a login or a sign-up opens. *)
Definition new_session (token userID : string) (now : Time) : Session :=
  mkSession token userID None (time_add now (7 * 24 * Hour)) time_zero.

Lemma wp_open_session srv uid Q E w :
  (∀ token now w', wd_store w' = CreateSession (wd_store w) (new_session token uid now) → Q token w') →
  wp srv (open_session uid) Q E w.
Proof.
  intros HQ. unfold open_session. apply wp_bind, wp_outside, wp_bind, wp_call, wp_ret.
  by eapply HQ.
Qed.

(** What a login leaves. *)
Definition logged_in (body : result GoError LoginRequest) (s s' : MemoryStore) (user : User)
    (token : string) : Prop :=
  (∃ req, body = Ok req ∧ ms_users s !! TrimSpace (ToLower (lg_Email req)) = Some user ∧
     bcrypt_compare (us_PasswordHash user) (lg_Password req) = true) ∧
  ∃ now, s' = CreateSession s (new_session token (us_ID user) now).

Lemma handleLogin_spec srv body r w :
  let x := serve srv (handleLogin body r) w in
  ∀ user token p, rp_Body x.2 = BUser user token p →
    logged_in body (wd_store w) (wd_store x.1) user token.
Proof.
  intros x.
  set (P (w' : World) (rep : Reply) := ∀ user token p, rp_Body rep = BUser user token p →
    logged_in body (wd_store w) (wd_store w') user token).
  assert (∀ w' err, P w' (error_reply err)) as Herr.
  { intros w' err user token p E. pose proof (error_reply_body err) as Hb. by rewrite E in Hb. }
  change (P x.1 x.2). apply wp_serve. unfold handleLogin, only_post. case_if; [done|].
  destruct body as [req|e]; apply wp_bind, wp_unwrap; [|apply Herr].
  apply wp_bind, wp_read. unfold GetUserByEmail.
  destruct (ms_users (wd_store w) !! _) as [user|] eqn:Eu; [|apply wp_writeError, Herr].
  destruct (bcrypt_compare _ _) eqn:Eb; cbn [negb]; [|apply wp_writeError, Herr].
  apply wp_bind, wp_open_session. intros token now w1 Hw1. apply wp_bind, wp_read, wp_bind.
  assert (∀ p w', wd_store w' = wd_store w1 → P w' (mkReply StatusOK (BUser user token p))) as Hdone.
  { intros p w' Hw' u t q [= <- <- _]. split; [by exists req|]. exists now. by rewrite Hw', Hw1. }
  destruct (ListUserOrganizations _ _ _) as [|org orgs].
  - by apply wp_ret, wp_ret, Hdone.
  - apply wp_bind, wp_first_project_store. intros proj w2 Hw2. by apply wp_ret, wp_ret, Hdone.
Qed.

(** Login and logout: a login succeeds only with the password of the stored
    user; the session it opens authenticates exactly that user, for seven days
    and on any later request that carries it (as long as the user is there and
    the session is not closed); and once a logout has been served, a request
    that carries the session is not authenticated any more. *)
Theorem login_logout srv body r w :
  users_coherent (ms_users (wd_store w)) →
  let x := serve srv (handleLogin body r) w in
  ∀ user token p, rp_Body x.2 = BUser user token p →
  (∃ req, body = Ok req ∧ bcrypt_compare (us_PasswordHash user) (lg_Password req) = true) ∧
  (∃ now, ms_sessions (wd_store x.1) !! token = Some (new_session token (us_ID user) now) ∧
   ∀ r2 w2, session_request r2 token → wd_store w2 = wd_store x.1 →
     (sys_now (out_sys (sv_out srv (wd_step w2))) 0 ≤ time_add now (7 * 24 * Hour))%Z →
     wp srv (getUserFromRequest r2) (λ res _, res = Ok user) (λ _ _, False) w2) ∧
  (∀ r2 w2 r3 w3, logout_token r2 = token → token ≠ "" → session_request r3 token →
     wd_store w3 = wd_store (serve srv (handleLogout r2) w2).1 →
     wp srv (getUserFromRequest r3) (λ res _, is_ok res = false) (λ _ _, False) w3).
Proof.
  intros Hc x. pose proof (handleLogin_spec srv body r w) as Hspec. cbn zeta in Hspec. fold x in Hspec.
  intros user token p Hrep.
  destruct (Hspec _ _ _ Hrep) as [(req & -> & Hu & Hb) (now & Hs')].
  split_and!; [by exists req| |].
  - exists now. rewrite Hs'. split; [apply lookup_insert_eq|].
    intros r2 w2 Hr2 Hw2 Hnow. apply (wp_getUser_session _ _ token); [done|].
    destruct (Hc _ _ Hu) as (Hid & _ & _).
    assert (ms_sessions (wd_store w2) !! token = Some (new_session token (us_ID user) now)) as Hsess
      by (rewrite Hw2; apply lookup_insert_eq).
    assert (ms_users (wd_store w2) !! us_ID user = Some user) as Hown by (by rewrite Hw2).
    intros [u|e] w4 _.
    + intros (sess & Hs & Ho). rewrite Hsess in Hs. injection Hs as <-.
      unfold session_owner in Ho. simpl in Ho. rewrite Hown in Ho. by injection Ho as ->.
    + intros Hexp. specialize (Hexp _ _ Hsess Hown). simpl in Hexp. lia.
  - intros r2 w2 r3 w3 Ht Hne Hr3 Hw3. apply (wp_getUser_session _ _ token); [done|].
    assert (ms_sessions (wd_store w3) !! token = None) as Hnone.
    { rewrite Hw3. unfold handleLogout. rewrite Ht, (proj2 (str_eqb_neq _ _) Hne). cbn [negb].
      apply lookup_delete_eq. }
    intros [u|e] w4 _; [|done]. intros (sess & Hs & _). congruence.
Qed.

(** ** Changing the password *)

Lemma UpdateUserPassword_Ok sys s uid h old :
  users_coherent (ms_users s) → ms_users s !! uid = Some old →
  (UpdateUserPassword sys s uid h).2 = None ∧
  ∃ new, ms_users (UpdateUserPassword sys s uid h).1 !! uid = Some new ∧ us_PasswordHash new = h.
Proof.
  intros Hc Hu. unfold UpdateUserPassword. rewrite Hu. split; [done|]. cbn [fst ms_users].
  set (new := old <| us_PasswordHash := h |> <| us_UpdatedAt := _ |>). exists new. split; [|done].
  change (put_user new (ms_users s) !! uid = Some new). rewrite put_user_lookup.
  destruct (Hc _ _ Hu) as (_ & _ & [->| ->]); by rewrite str_eqb_refl, ?orb_true_r.
Qed.

Lemma DeleteUserSessions_none s uid tok sess :
  ms_sessions (DeleteUserSessions s uid) !! tok = Some sess → ss_UserID sess ≠ uid.
Proof. simpl. unfold drop_sessions. rewrite map_lookup_filter_Some. by intros [_ ?]. Qed.

(** What a password change leaves. *)
Definition password_changed (srv : Server) (r : Request) (body : result GoError ChangePasswordRequest)
    (s s' : MemoryStore) : Prop :=
  ∃ u old req new, authenticates srv s r u ∧ ms_users s !! us_ID u = Some old ∧ body = Ok req ∧
    bcrypt_compare (us_PasswordHash old) (cp_CurrentPassword req) = true ∧
    validatePasswordComplexity (cp_NewPassword req) = None ∧
    ms_users s' !! us_ID u = Some new ∧
    bcrypt_compare (us_PasswordHash new) (cp_NewPassword req) = true ∧
    ∀ tok sess, ms_sessions s' !! tok = Some sess → ss_UserID sess ≠ us_ID u.

(** A password change that is answered with success was made by an
    authenticated caller who gave the current password; the new password meets
    the policy and is the one that logs the user in from then on; and every
    session of the user is closed. *)
Theorem change_password_effect `{!AuthLibLaws} srv body r w :
  users_coherent (ms_users (wd_store w)) →
  let x := serve srv (handleChangePassword body r) w in
  rp_Status x.2 = StatusOK → password_changed srv r body (wd_store w) (wd_store x.1).
Proof.
  intros Hc x. set (P (w' : World) (rep : Reply) := rp_Status rep = StatusOK →
    password_changed srv r body (wd_store w) (wd_store w')).
  change (P x.1 x.2). apply wp_serve. unfold handleChangePassword, only_post. case_if; [done|].
  apply wp_bind, wp_bind, wp_getUserFromRequest. intros res w1 Hw1 Hres.
  destruct res as [u|e]; [apply wp_ret|done]. pose proof (sw_store _ _ Hw1) as Hs1.
  apply wp_bind, wp_read, wp_bind. unfold GetUserByID. rewrite (uses_only_users _ _ Hs1).
  destruct (ms_users (wd_store w) !! us_ID u) as [old|] eqn:Eu; [apply wp_ret|done].
  destruct body as [req|e]; apply wp_bind; [apply wp_ret|done].
  case_if; [done|]. case_if; [done|].
  destruct (bcrypt_compare (us_PasswordHash old) _) eqn:Eb; cbn [negb]; [|done].
  destruct (validatePasswordComplexity _) as [e|] eqn:Ev; [done|]. apply wp_bind, wp_outside.
  destruct (bcrypt_hash _ _) as [h|] eqn:Eh; [|done]. apply wp_bind, wp_call.
  cbv zeta beta. match goal with |- context [UpdateUserPassword ?sys ?st (us_ID u) h] =>
    destruct (UpdateUserPassword_Ok sys st (us_ID u) h old) as (Hok & new & Hnew & Hhash) end.
  { cbn [wd_store]. simpl. by rewrite (uses_only_users _ _ Hs1). }
  { simpl. by rewrite (uses_only_users _ _ Hs1). }
  rewrite Hok. apply wp_bind, wp_call, wp_ret. intros _.
  exists u, old, req, new. split_and!; try done.
  - rewrite Hhash. by eapply bcrypt_roundtrip.
  - intros tok sess. apply DeleteUserSessions_none.
Qed.

(** ** Signing up *)

(** Users are only added, as developers. *)
Definition adds_developers (s s' : MemoryStore) : Prop :=
  ∀ key u, ms_users s' !! key = Some u → ms_users s !! key = Some u ∨ us_Role u = RoleDeveloper.

#[export] Instance adds_developers_preorder : PreOrder adds_developers.
Proof.
  split.
  - intros s key u. by left.
  - intros s1 s2 s3 H1 H2 key u Hu. destruct (H2 key u Hu) as [Hu2|?]; [|by right]. by apply H1.
Qed.

Lemma keeps_same_users {A} (f : Outside → MemoryStore → MemoryStore * A) :
  (∀ o s, ms_users (f o s).1 = ms_users s) → keeps adds_developers (call f).
Proof. intros Hf. apply keeps_call. intros o s key u. rewrite Hf. by left. Qed.

Lemma keeps_create_user sys email name h :
  keeps adds_developers
    (call (λ o s, CreateUser (out_sys o) s (NewUser sys email name h RoleDeveloper))).
Proof.
  apply keeps_call. intros o s key u. unfold CreateUser.
  destruct (ms_users s !! _); [by left|]. cbn [fst ms_users]. simpl.
  rewrite !lookup_insert. case_decide; [intros [= <-]; by right|].
  case_decide; [intros [= <-]; by right|by left].
Qed.

Lemma CreateOrganization_users sys s org : ms_users (CreateOrganization sys s org).1 = ms_users s.
Proof. unfold CreateOrganization. repeat destruct (ms_orgs s !! _); done. Qed.

Lemma CreateProject_users sys s proj : ms_users (CreateProject sys s proj).1 = ms_users s.
Proof.
  unfold CreateProject. destruct (_ =s? ""); [done|]. repeat destruct (ms_projects s !! _); done.
Qed.

Lemma AcceptOrgInvitation_users sys s (token uid : string) :
  ms_users (AcceptOrgInvitation sys s token uid).1 = ms_users s.
Proof.
  unfold AcceptOrgInvitation. destruct (ms_orgInvitations s !! token) as [inv|]; [|done].
  by destruct (Invitation_IsExpired _ _), (IsAccepted inv), (wrong_address (ms_users s !! uid) inv).
Qed.

Lemma keeps_accept_invite req email user : keeps adds_developers (accept_invite req email user).
Proof.
  unfold accept_invite, list_projects. keeps_all. apply keeps_same_users. intros o s.
  apply AcceptOrgInvitation_users.
Qed.

Lemma keeps_provision user : keeps adds_developers (provision user).
Proof.
  unfold provision. keeps_all; apply keeps_same_users; intros ? s;
    [apply CreateOrganization_users|done|apply CreateProject_users].
Qed.

Lemma keeps_open_session uid : keeps adds_developers (open_session uid).
Proof. unfold open_session. keeps_all. by apply keeps_same_users. Qed.

Hint Resolve keeps_accept_invite keeps_provision keeps_open_session keeps_create_user : keeps.

(** Signing up never yields more than a developer account: whatever role,
    address or invitation the body carries, every entry of the user table
    afterwards was there before or is a user with the developer role. *)
Theorem signup_adds_developers srv body r w :
  adds_developers (wd_store w) (wd_store (serve srv (handleSignUp body r) w).1).
Proof.
  assert (keeps adds_developers (handleSignUp body r)) as Hk.
  { unfold handleSignUp, only_post, writeText, writeError. keeps_all. }
  specialize (Hk srv w). unfold serve. by destruct (handleSignUp body r srv w) as [w' [rep|rep]].
Qed.

End AuthFacts.
