(* ===== verification/ApiExamples.v ===== *)
(** * The API at work on a small instance

    Two organizations with a project each; an administrator, a developer and an
    owner with sessions; instances of the theorems on the handlers, and runs
    that show what the handlers do not prevent. *)

From S2P Require Import Prelude GoFloat GoStrings GoTime Sha256 Errors Domain Engine EngineFacts Entities.
From S2P Require Import StoreState StoreAudit StoreFlags StoreFlagsFacts StoreGovernance StoreIdentity.
From S2P Require Import StoreTenancy StoreIdentityFacts Http Auth Access ApiFlags ApiGovernance ApiKeys.
From S2P Require Import ApiAuth ApiRoutes AuthFacts AccessFacts ApiFlagsFacts ApiGovernanceFacts.
From S2P Require Import ApiKeysFacts ApiAuthFacts.

(** ** The instance *)

Definition lib_demo : AuthLib :=
  {| bcrypt_hash _ p := Some ("hash:" +:+ p);
     bcrypt_compare h p := h =s? "hash:" +:+ p;
     plain_address _ := true |}.

Lemma lib_demo_laws : @AuthLibLaws lib_demo.
Proof. constructor. intros salt p h [= <-]. apply str_eqb_refl. Qed.

(** The [n]-th call finds the clock at [n] and its own random bytes. *)
Definition demo_server : Server :=
  mkServer (λ _, "")
    (λ n, mkOutside (mkSys (λ _, Z.of_nat n) (λ _, Itoa (Z.of_nat n))) (λ A m, map_to_list m)).

Lemma demo_fair : all_fair demo_server.
Proof. by intros n A m. Qed.

Definition person (id name role : string) : User :=
  mkUser id (id +:+ "@acme.dev") "hash:Secret-1" name role "" 0 0 None.

Definition ada : User := person "ada" "Ada" RoleAdmin.
Definition bob : User := person "bob" "Bob" RoleDeveloper.
Definition eve : User := person "eve" "Eve" RoleDeveloper.

Definition acme_org : Organization := mkOrg "org_acme" "Acme" "acme" "" 0 0.
Definition crumb_org : Organization := mkOrg "org_crumb" "Crumb" "crumb" "" 0 0.

Definition project (id org : string) : Project := mkProject id org 1 id id "" 0 0.

(** A key of the shop, bound to staging, with the admin role. *)
Definition ci_raw : string := "flg_live_c1".
Definition ci_key : APIKey :=
  mkAPIKey "key_ci" "shop" EnvStaging "" "" (sha256_hex ci_raw) "CI" RoleAdmin "eve@acme.dev" 0 None false.

Definition member (id org uid role : string) : OrgMember := mkMember id org uid role 0.

Definition demo_store : MemoryStore :=
  shops
    <| ms_users := put_user ada (put_user bob (put_user eve ∅)) |>
    <| ms_sessions := list_to_map
         ((λ u, ("s-" +:+ us_ID u, mkSession ("s-" +:+ us_ID u) (us_ID u) None 1000 0)) <$> [ada; bob; eve]) |>
    <| ms_orgs := {[ "org_acme" := acme_org; "org_crumb" := crumb_org ]} |>
    <| ms_projects := {[ "shop" := project "shop" "org_acme"; "bakery" := project "bakery" "org_crumb" ]} |>
    <| ms_orgMembers := {[ "org_acme:bob" := member "m1" "org_acme" "bob" "developer";
                           "org_acme:eve" := member "m2" "org_acme" "eve" "owner" ]} |>
    <| ms_apiKeys := {[ "key_ci" := ci_key ]} |>
    <| ms_apiKeysByHash := {[ sha256_hex ci_raw := "key_ci" ]} |>.

Definition demo_world : World := mkWorld demo_store None 0 [] 0 ∅ [].

Definition request (method path : string) (headers : list (string * string))
    (cookies : list (string * string)) : Request :=
  mkRequest method path "flags.acme.dev" true "10.0.0.1" (list_to_map headers) cookies ∅.

(** A request in somebody's session, and one with a bearer token. *)
Definition as_user (who project method path : string) : Request :=
  request method path [(HeaderProjectID, project)] [(CookieSessionName, "s-" +:+ who)].

Definition with_bearer (tok project method path : string) : Request :=
  request method path [(HeaderProjectID, project); (HeaderAuthorization, "Bearer " +:+ tok)] [].

Lemma demo_flags_wf : flags_wf demo_store.
Proof. apply (flags_wf_store NewMemoryStore). Qed.

Lemma demo_plain : plain_names demo_store.
Proof. repeat constructor. Qed.

Lemma demo_tenants : named_tenants demo_store.
Proof. split; apply (bool_decide_unpack _); vm_compute; exact I. Qed.

Lemma demo_coherent : users_coherent (ms_users demo_store).
Proof. repeat (apply put_user_coherent; [|by left]). apply map_Forall_empty. Qed.

(** ** Runs *)

Local Existing Instance sample_runtime.
Local Existing Instance lib_demo.

Definition toggle_off : ToggleRequest := mkToggle EnvProduction (Some false) "".

Definition run (h : HandlerFunc) (r : Request) (w : World) : World * Reply :=
  serve demo_server (h r) (w <| wd_user := None |>).

(** The toggle route, by bob in his project, and by the key outside its
    environment. *)
Example bob_toggles :
  rp_Status (run (RequireAuth (handleToggleFlag toggle_off))
    (as_user "bob" "shop" "POST" "/api/v1/flags/checkout/toggle") demo_world).2 = 200%Z.
Proof. vm_compute. reflexivity. Qed.

Example bob_blocked :
  rp_Status (run (RequireAuth (handleToggleFlag toggle_off))
    (as_user "bob" "bakery" "POST" "/api/v1/flags/checkout/toggle") demo_world).2 = 403%Z.
Proof. vm_compute. reflexivity. Qed.

Example key_blocked :
  rp_Status (run (RequireAuth (handleToggleFlag toggle_off))
    (with_bearer ci_raw "shop" "POST" "/api/v1/flags/checkout/toggle") demo_world).2 = 403%Z.
Proof. vm_compute. reflexivity. Qed.

(** ** What the handlers do not prevent *)

(** The key of the shop, bound to staging, sent with a second blank after the
    scheme: its holder turns off a production flag of another organization. *)
Theorem padded_key_crosses_tenants :
  let q := with_bearer (" " +:+ ci_raw) "bakery" "POST" "/api/v1/flags/checkout/toggle" in
  let '(w', rep) := run (RequireAuth (handleToggleFlag toggle_off)) q demo_world in
  rp_Status rep = 200%Z ∧
  option_map ec_Enabled ∘ (λ f, ff_Environments f !! EnvProduction) <$> flags_of (wd_store w')
  = [Some true; Some false] ∧ ff_ProjectID <$> flags_of (wd_store w') = ["shop"; "bakery"].
Proof. vm_compute. done. Qed.

Definition reply_key (rep : Reply) : APIKey :=
  match rp_Body rep with BAPIKey k => k | _ => ci_key end.

Definition create_key (name role env : string) : HandlerFunc :=
  RequireAuth (create_api_key (Ok (mkCreateKey name role env))).

(** The key API does not contain the rights of a developer: a developer of one
    organization, who may not reset the server, makes a key with the role
    owner; the key counts as privileged and makes a key with the admin role;
    and that key resets the server, for all organizations. *)
Theorem developer_becomes_admin :
  let q := as_user "bob" "shop" "POST" "/api/v1/api-keys" in
  let '(w1, rep1) := run (create_key "mine" "owner" "production") q demo_world in
  let raw1 := ak_Key (reply_key rep1) in
  let '(w2, rep2) := run (create_key "more" "admin" "all")
                       (with_bearer raw1 "shop" "POST" "/api/v1/api-keys") w1 in
  let raw2 := ak_Key (reply_key rep2) in
  let '(w3, rep3) := run route_reset (with_bearer raw2 "shop" "POST" "/api/v1/reset") w2 in
  us_Role bob = RoleDeveloper ∧
  rp_Status (run route_reset (as_user "bob" "shop" "POST" "/api/v1/reset") w2).2 = 403%Z ∧
  (rp_Status rep1, ak_Role (reply_key rep1)) = (201%Z, "owner") ∧
  (rp_Status rep2, ak_Role (reply_key rep2)) = (201%Z, RoleAdmin) ∧
  rp_Status rep3 = 200%Z ∧ flags_of (wd_store w2) ≠ [] ∧ flags_of (wd_store w3) = [].
Proof. vm_compute. done. Qed.

Definition proposal : ChangeRequest :=
  mkCR "cr_1" "" "checkout" "production" "Roll out" "" "" "" "" (rollout_demo 100) 0 "" "" "" "" "" 0 None None.

(** The author of a change request approves it, by a key of its own: the user of
    a key has the identifier of the key. *)
Theorem author_approves_by_key :
  let make := RequireAuth (handleCreateChangeRequest (Ok proposal)) in
  let '(w1, rep1) := run make (as_user "eve" "shop" "POST" "/api/v1/change-requests") demo_world in
  let '(w2, rep2) := run (create_key "mine" "admin" "all")
                       (as_user "eve" "shop" "POST" "/api/v1/api-keys") w1 in
  let review := RequireAuth (handleReviewChangeRequest [] "cr_1" (Ok (mkReview true ""))) in
  let '(w3, rep3) := run review
    (with_bearer (ak_Key (reply_key rep2)) "shop" "POST" "/api/v1/change-requests/cr_1/review") w2 in
  (rp_Status rep1, rp_Status rep2, rp_Status rep3) = (201%Z, 201%Z, 200%Z) ∧
  match ms_changeRequests (wd_store w3) !! "cr_1" with
  | Some cr => cr_Status cr = ChangeRequestStatusApproved ∧ cr_AuthorEmail cr = cr_ReviewerEmail cr
  | None => False
  end.
Proof. vm_compute. done. Qed.

(** A promoted configuration does not require approval, whatever its source. *)
Theorem promote_drops_approval cfg : ec_RequiresApproval (promoted_config cfg) = false.
Proof. reflexivity. Qed.

(** ** Instances of the theorems *)

(** A session request authenticates as the owner of the session only. *)
Lemma session_authenticates srv s r tok u sess owner :
  session_request r tok → ms_sessions s !! tok = Some sess → ms_users s !! ss_UserID sess = Some owner →
  authenticates srv s r u → u = owner.
Proof.
  intros [Hk Hc] Hs Ho Ha. destruct Ha as [t Ht Hne _|t k Ht Hne _|t s0 n u Ht Hs0 _ Hu].
  - exfalso. rewrite Hk, !elem_of_cons, elem_of_nil in Ht. tauto.
  - exfalso. rewrite Hk, !elem_of_cons, elem_of_nil in Ht. tauto.
  - rewrite Hc, list_elem_of_singleton in Ht. subst t. rewrite Hs in Hs0. injection Hs0 as <-.
    unfold session_owner in Hu. rewrite Ho in Hu. by injection Hu.
Qed.

Definition bob_resets : Request := as_user "bob" "shop" "POST" "/api/v1/reset".

Lemma RequireRole_blocks_witness :
  let x := serve demo_server (RequireAuth (RequireRole RoleAdmin handleReset) bob_resets) demo_world in
  (rp_Status x.2 = StatusUnauthorized ∨ rp_Status x.2 = StatusForbidden) ∧
  uses_only (wd_store demo_world) (wd_store x.1).
Proof.
  apply (RequireRole_blocks demo_server RoleAdmin handleReset bob_resets demo_world).
  intros u Hu. apply (session_authenticates _ _ _ "s-bob" u (mkSession "s-bob" "bob" None 1000 0) bob) in Hu;
    [by subst|by split|done|done].
Defined.

Definition bob_toggle_request : Request := as_user "bob" "shop" "POST" "/api/v1/flags/checkout/toggle".


Definition ci_request : Request := with_bearer ci_raw "shop" "POST" "/api/v1/flags/checkout/toggle".

Lemma environment_scope_respected_witness :
  Forall (λ h : HandlerFunc,
    env_view EnvProduction (flags_of (wd_store (serve demo_server (h ci_request) demo_world).1))
    = env_view EnvProduction (flags_of demo_store))
    [RequireAuth (handleToggleFlag toggle_off);
     RequireAuth (handleUpdateRollout (Ok (mkRollout EnvProduction f64_zero "")));
     handleWebhookKillSwitch].
Proof.
  apply (environment_scope_respected demo_server ci_request demo_world ci_key EnvProduction);
    vm_compute; reflexivity.
Defined.

Definition eve_proposes : Request := as_user "eve" "shop" "POST" "/api/v1/change-requests".

Definition reply_change (rep : Reply) : ChangeRequest :=
  match rp_Body rep with BChangeRequest cr => cr | _ => proposal end.

Lemma change_request_attributed_witness :
  let x := serve demo_server (RequireAuth (handleCreateChangeRequest (Ok proposal)) eve_proposes) demo_world in
  rp_Status x.2 = StatusCreated ∧
  attributed demo_server eve_proposes demo_store (wd_store x.1) (reply_change x.2).
Proof.
  split; [vm_compute; reflexivity|].
  refine (change_request_attributed demo_server (Ok proposal) eve_proposes demo_world
    demo_fair demo_tenants _ _).
  vm_compute. reflexivity.
Defined.

(** Eve's proposal, waiting for a review by ada. *)
Definition proposed_world : World :=
  (serve demo_server (RequireAuth (handleCreateChangeRequest (Ok proposal)) eve_proposes) demo_world).1
    <| wd_user := None |>.

Definition ada_reviews : Request := as_user "ada" "shop" "POST" "/api/v1/change-requests/cr_1/review".

Lemma review_through_api_witness :
  let s := wd_store proposed_world in
  let s' := wd_store (serve demo_server
    (RequireAuth (handleReviewChangeRequest [] "cr_1" (Ok (mkReview true "fine"))) ada_reviews)
    proposed_world).1 in
  cr_Status <$> ms_changeRequests s' !! "cr_1" = Some ChangeRequestStatusApproved ∧
  (ms_changeRequests s' = ms_changeRequests s ∨ reviewed_by demo_server [] ada_reviews "cr_1" s s').
Proof.
  split; [vm_compute; reflexivity|].
  exact (review_through_api demo_server [] "cr_1" (Ok (mkReview true "fine")) ada_reviews proposed_world demo_fair).
Defined.

Definition eve_makes_key : Request := as_user "eve" "shop" "POST" "/api/v1/api-keys".
Definition admin_key_body : result GoError CreateAPIKeyRequest := Ok (mkCreateKey "CI" "admin" "all").

Lemma created_key_within_witness :
  let x := serve demo_server (RequireAuth (create_api_key admin_key_body) eve_makes_key) demo_world in
  ak_Role (reply_key x.2) = RoleAdmin ∧ rp_Status x.2 = StatusCreated ∧
  key_within demo_server eve_makes_key demo_store (wd_store x.1) (reply_key x.2).
Proof.
  split; [vm_compute; reflexivity|]. split; [vm_compute; reflexivity|].
  refine (created_key_within demo_server admin_key_body eve_makes_key demo_world
    demo_fair demo_tenants _ _).
  vm_compute. reflexivity.
Defined.

(** The key that eve gets, and a request that presents it. *)
Definition eve_key : APIKey :=
  reply_key (serve demo_server (RequireAuth (create_api_key admin_key_body) eve_makes_key) demo_world).2.
Definition keyed_world : World :=
  (serve demo_server (RequireAuth (create_api_key admin_key_body) eve_makes_key) demo_world).1.
Definition keyed_request : Request := with_bearer (ak_Key eve_key) "shop" "GET" "/api/v1/flags".

Lemma created_key_authenticates_witness :
  wp demo_server (getUserFromRequest keyed_request) (λ res _, res = Ok (key_user eve_key))
    (λ _ _, False) keyed_world ∧
  forget_use <$> presented_key (wd_store keyed_world) keyed_request = Some (forget_use eve_key).
Proof.
  refine (created_key_authenticates demo_server admin_key_body eve_makes_key demo_world
    keyed_request keyed_world eve_key demo_fair demo_tenants _ _ _ _ _ _ _).
  all: try (vm_compute; reflexivity).
  - reflexivity.
  - vm_compute. discriminate.
  - vm_compute. discriminate.
Defined.

Definition bob_login : result GoError LoginRequest := Ok (mkLogin " BOB@acme.dev " "Secret-1").
Definition login_request : Request := request "POST" "/api/v1/auth/login" [] [].

Lemma login_logout_witness :
  let x := serve demo_server (handleLogin bob_login login_request) demo_world in
  (∃ req, bob_login = Ok req ∧ bcrypt_compare (us_PasswordHash bob) (lg_Password req) = true) ∧
  (∃ now, ms_sessions (wd_store x.1) !! "1" = Some (new_session "1" (us_ID bob) now) ∧
   ∀ r2 w2, session_request r2 "1" → wd_store w2 = wd_store x.1 →
     (sys_now (out_sys (sv_out demo_server (wd_step w2))) 0 ≤ time_add now (7 * 24 * Hour))%Z →
     wp demo_server (getUserFromRequest r2) (λ res _, res = Ok bob) (λ _ _, False) w2) ∧
  (∀ r2 w2 r3 w3, logout_token r2 = "1" → "1" ≠ "" → session_request r3 "1" →
     wd_store w3 = wd_store (serve demo_server (handleLogout r2) w2).1 →
     wp demo_server (getUserFromRequest r3) (λ res _, is_ok res = false) (λ _ _, False) w3).
Proof.
  refine (login_logout demo_server bob_login login_request demo_world demo_coherent bob "1" "shop" _).
  vm_compute. reflexivity.
Defined.

Definition bob_changes : Request := as_user "bob" "shop" "POST" "/api/v1/auth/change-password".
Definition new_password : result GoError ChangePasswordRequest :=
  Ok (mkChangePassword "Secret-1" "Secret-2").

Lemma change_password_effect_witness :
  let x := serve demo_server (handleChangePassword new_password bob_changes) demo_world in
  password_changed demo_server bob_changes new_password demo_store (wd_store x.1).
Proof.
  refine (change_password_effect (H1 := lib_demo_laws) demo_server new_password bob_changes
    demo_world demo_coherent _).
  vm_compute. reflexivity.
Defined.
