(* ===== verification/ApiSso.v ===== *)
(** * Single sign-on and social login ([pkg/api/handlers_oidc.go],
    [pkg/api/handlers_oauth.go])

    The login handlers put a state cookie in the browser and redirect to the
    identity provider; the callbacks check the state, exchange the code for a
    token, ask who the user is and open a session.  What the provider answers is
    the argument [idp]; [SsoLib] are the JSON codecs of the messages and
    [url.Parse].  A random token is the text it is encoded to.  Handlers are for
    GET requests of their own path; redirects carry the query as a map. *)

From S2P Require Import Prelude GoFloat GoStrings GoTime Sha256 Base64 Errors Domain Config Entities.
From S2P Require Import StoreState StoreIdentity StoreTenancy StoreTables Http Auth Access ApiFlags.
From S2P Require Import ApiGovernance ApiAuth.

Definition CookieOIDCStateName : string := "flagura_oidc_state".
Definition CookieOAuthStateName : string := "flagura_oauth_state".

(** ** Messages *)

Record OAuthStateClaims := mkOAuthState {
  oa_Provider : string;
  oa_State : string;
  oa_Nonce : string;
  oa_CreatedAt : Time;
}.

Record OIDCStateClaims := mkOIDCState {
  oi_State : string;
  oi_Nonce : string;
  oi_OrganizationID : string;
  oi_RedirectURI : string;
  oi_CreatedAt : Time;
}.

Record OIDCTokenResponse := mkTokenResponse {
  tr_AccessToken : string;
  tr_TokenType : string;
  tr_IDToken : string;
  tr_ExpiresIn : Z;
}.

Record OIDCIDTokenClaims := mkIDToken {
  it_Subject : string;
  it_Email : string;
  it_Name : string;
  it_Nonce : string;
}.

Record GoogleProfile := mkGoogleProfile { gp_Email : string; gp_Name : string; gp_Picture : string }.
Record GitHubUser := mkGitHubUser { gh_Login : string; gh_Name : string; gh_AvatarURL : string }.
Record GitHubEmail := mkGitHubEmail { ge_Email : string; ge_Primary : bool; ge_Verified : bool }.

(** A request to the identity provider, and its outcome: the request could not be
    built, could not be sent, or was answered with a status and a body. *)
Inductive HttpCall :=
| PostForm (url : string) (fields : list (string * string))
| PostJSON (url : string) (fields : list (string * string))
| GetBearer (url token : string).

Inductive Answer :=
| NoRequest (err : GoError)
| NoAnswer (err : GoError)
| Answered (status : Z) (body : string).

(** The decoders give an error or the struct; [unjson_gh_user] gives what decoding
    leaves in the struct, since the code does not look at its error. *)
Class SsoLib := {
  json_OAuthState : OAuthStateClaims → string;
  unjson_OAuthState : string → option OAuthStateClaims;
  json_OIDCState : OIDCStateClaims → string;
  unjson_OIDCState : string → option OIDCStateClaims;
  unjson_token : string → result GoError OIDCTokenResponse;
  unjson_claims : string → result GoError OIDCIDTokenClaims;
  unjson_profile : string → result GoError GoogleProfile;
  unjson_gh_user : string → GitHubUser;
  unjson_gh_emails : string → result GoError (list GitHubEmail);
  url_Parse : string → result GoError (string * gmap string (list string));
}.

(** Decoding a state that was encoded gives it back. *)
Class SsoLaws `{SsoLib} : Prop := {
  oauth_state_codec c : unjson_OAuthState (json_OAuthState c) = Some c;
  oidc_state_codec c : unjson_OIDCState (json_OIDCState c) = Some c;
}.

Record oauthEndpoints := mkEndpoints {
  ep_authURL : string;
  ep_tokenURL : string;
  ep_userInfoURL : string;
  ep_emailsURL : string;
}.

Definition googleEndpoints : oauthEndpoints :=
  mkEndpoints "https://accounts.google.com/o/oauth2/v2/auth" "https://oauth2.googleapis.com/token"
    "https://www.googleapis.com/oauth2/v3/userinfo" "".

Definition githubEndpoints : oauthEndpoints :=
  mkEndpoints "https://github.com/login/oauth/authorize" "https://github.com/login/oauth/access_token"
    "https://api.github.com/user" "https://api.github.com/user/emails".

Section Sso.
Context `{GoRuntime} `{AuthLib} `{SsoLib}.
Context (cfg : Config) (idp : HttpCall → Answer).

(** ** State cookies *)

(** The scheme and host a callback URL starts with. *)
Definition external_base (r : Request) : string :=
  let scheme :=
    if rq_TLS r || (HeaderGet r "X-Forwarded-Proto" =s? "https") then "https" else "http" in
  let host := or_default (or_default (HeaderGet r "X-Forwarded-Host") (rq_Host r)) "localhost:3000" in
  scheme +:+ "://" +:+ host.

Definition getOAuthRedirectURI (r : Request) (provider : string) : string :=
  external_base r +:+ "/api/v1/auth/oauth/" +:+ provider +:+ "/callback".

Definition getOIDCRedirectURI (r : Request) : string :=
  external_base r +:+ "/api/v1/auth/oidc/callback".

Definition setOAuthStateCookie (claims : OAuthStateClaims) : Handler () :=
  SetCookie CookieOAuthStateName (RawURL_encode (json_OAuthState claims)).

Definition clearOAuthStateCookie : Handler () := SetCookie CookieOAuthStateName "".

Definition getAndVerifyOAuthStateCookie (now : Time) (r : Request) (provider incomingState : string)
    : result GoError OAuthStateClaims :=
  match Cookie r CookieOAuthStateName with
  | None | Some "" => Err (EText "missing or expired oauth state cookie")
  | Some value =>
      match RawURL_decode value with
      | None => Err (EText "invalid oauth state cookie encoding")
      | Some decoded =>
          match unjson_OAuthState decoded with
          | None => Err (EText "invalid oauth state cookie payload")
          | Some claims =>
              if negb (oa_Provider claims =s? provider) then Err (EText "oauth provider mismatch")
              else if (10 * Minute <? time_sub now (oa_CreatedAt claims))%Z
              then Err (EText "oauth state expired")
              else if negb (incomingState =s? oa_State claims)
              then Err (EText "invalid oauth state token")
              else Ok claims
          end
      end
  end.

Definition setOIDCStateCookie (claims : OIDCStateClaims) : Handler () :=
  SetCookie CookieOIDCStateName (RawURL_encode (json_OIDCState claims)).

Definition clearOIDCStateCookie : Handler () := SetCookie CookieOIDCStateName "".

Definition getAndVerifyOIDCStateCookie (now : Time) (r : Request) (stateParam : string)
    : result GoError OIDCStateClaims :=
  match Cookie r CookieOIDCStateName with
  | None | Some "" => Err (EText "missing or expired OIDC state cookie")
  | Some value =>
      match RawURL_decode value with
      | None => Err (EText "malformed OIDC state cookie")
      | Some decoded =>
          match unjson_OIDCState decoded with
          | None => Err (EText "invalid OIDC state payload")
          | Some claims =>
              if negb (oi_State claims =s? stateParam)
              then Err (EText "OIDC state mismatch (possible CSRF)")
              else if (10 * Minute <? time_sub now (oi_CreatedAt claims))%Z
              then Err (EText "OIDC state has expired")
              else Ok claims
          end
      end
  end.

(** ** Starting a login *)

Definition redirect {A} (location : string) (query : gmap string (list string)) : Handler A :=
  exit (mkReply StatusFound (BRedirect location query)).

(** [q.Set] for each of the fields. *)
Definition set_query (fields : list (string * string)) (q : gmap string (list string))
    : gmap string (list string) :=
  foldl (λ q f, <[f.1 := [f.2]]> q) q fields.

(** A state and a nonce of 32 random bytes each, and the time. *)
Definition fresh_state : Handler (string * string * Time) :=
  o ← outside;
  mret (sys_rand (out_sys o) 0, sys_rand (out_sys o) 1, sys_now (out_sys o) 0).

(** Parse the URL, add the fields to its query and redirect there. *)
Definition redirect_to (url : string) (unparsed : string) (fields : list (string * string))
    : Handler Reply :=
  parsed ← unwrap (λ e, internal unparsed (Some e)) (url_Parse url);
  let '(base, q) := parsed in
  redirect base (set_query fields q).

Definition handleOAuthProviders : Handler Reply :=
  writeJSON StatusOK (BProviders (IsGoogleOAuthEnabled cfg) (IsGitHubOAuthEnabled cfg)).

Definition not_configured (msg : string) : GoError :=
  NewAppError ErrCodeNotFound msg StatusNotFound None.

Definition handleOAuthGoogleLogin (r : Request) : Handler Reply :=
  if negb (IsGoogleOAuthEnabled cfg)
  then writeError (not_configured "Google authentication is not configured on this server")
  else
    s ← fresh_state;
    let '(state, nonce, now) := s in
    setOAuthStateCookie (mkOAuthState "google" state nonce now);;
    redirect_to (ep_authURL googleEndpoints) "Failed to parse Google auth URL"
      [("response_type", "code"); ("client_id", cfg_GoogleClientID cfg);
       ("redirect_uri", getOAuthRedirectURI r "google"); ("scope", "openid email profile");
       ("state", state); ("nonce", nonce); ("access_type", "online")].

Definition handleOAuthGitHubLogin (r : Request) : Handler Reply :=
  if negb (IsGitHubOAuthEnabled cfg)
  then writeError (not_configured "GitHub authentication is not configured on this server")
  else
    s ← fresh_state;
    let '(state, nonce, now) := s in
    setOAuthStateCookie (mkOAuthState "github" state nonce now);;
    redirect_to (ep_authURL githubEndpoints) "Failed to parse GitHub auth URL"
      [("client_id", cfg_GitHubClientID cfg); ("redirect_uri", getOAuthRedirectURI r "github");
       ("scope", "read:user user:email"); ("state", state)].

(** [ctx] aside, the configuration of an organization or of an e-mail domain. *)
Definition get_oidc (orgID : string) : Handler (option OIDCConfig) :=
  read (λ _ s, GetOIDCConfig s orgID).

Definition get_oidc_by_domain (d : string) : Handler (option OIDCConfig) :=
  read (λ o s, GetOIDCConfigByDomain (out_order o OIDCConfig (ms_oidcConfigs s)) d).

Definition enabled (found : option OIDCConfig) : option OIDCConfig :=
  match found with Some c => if oc_Enabled c then Some c else None | None => None end.

Definition bad_sso (msg : string) : GoError := NewAppError ErrCodeBadRequest msg StatusBadRequest None.

Definition only_get {A} (r : Request) (k : Handler A) : Handler A :=
  if negb (rq_Method r =s? "GET") then writeText StatusMethodNotAllowed "Method Not Allowed" else k.

Definition handleOIDCLogin (r : Request) : Handler Reply :=
  only_get r (
    let orgID := TrimSpace (QueryGet r "org_id") in
    let domainQuery := TrimSpace (QueryGet r "domain") in
    found ←
      if negb (orgID =s? "") then get_oidc orgID
      else if negb (domainQuery =s? "") then get_oidc_by_domain domainQuery
      else writeError (bad_sso "Either 'org_id' or 'domain' query parameter is required to initiate SSO");
    match enabled found with
    | None =>
        writeError (not_configured
          "SSO via OIDC is not configured or is currently disabled for this organization")
    | Some c =>
        s ← fresh_state;
        let '(state, nonce, now) := s in
        setOIDCStateCookie (mkOIDCState state nonce (oc_OrganizationID c) "" now);;
        redirect_to (TrimRightSlash (oc_IssuerURL c) +:+ "/authorize")
          "Invalid OIDC issuer URL configuration"
          [("response_type", "code"); ("client_id", oc_ClientID c);
           ("redirect_uri", getOIDCRedirectURI r); ("scope", "openid profile email");
           ("state", state); ("nonce", nonce)]
    end).

(** ** Finishing a social login *)

(** Back to the login page with a message. *)
Definition auth_error {A} (msg : string) : Handler A := redirect "/auth" {["error" := [msg]]}.

(** The name before the [@]. *)
Definition local_part (email : string) : string := default "" (head (Split email "@")).

Definition new_account (email name hash : string) : Handler (result GoError User) :=
  o ← outside;
  let user := NewUser (out_sys o) email name hash RoleDeveloper in
  call (λ o s, CreateUser (out_sys o) s user).

(** [hash, _ := bcrypt.GenerateFromPassword(...)] of random bytes. *)
Definition random_hash : Handler string :=
  o ← outside;
  mret (default "" (bcrypt_hash (sys_rand (out_sys o) 0) (sys_rand (out_sys o) 1))).

(** The first project of the user's first organization, or else the default. *)
Definition active_project (userID : string) : Handler string :=
  orgs ← list_user_orgs userID;
  match orgs with
  | org :: _ =>
      projs ← list_projects (og_ID org);
      mret (match projs with p :: _ => or_default (pj_ID p) DefaultProjectID | [] => DefaultProjectID end)
  | [] => mret DefaultProjectID
  end.

Definition new_session (userID : string) : Handler string :=
  o ← outside;
  let token := sys_rand (out_sys o) 0 in
  let expiresAt := time_add (sys_now (out_sys o) 0) (7 * 24 * Hour) in
  call (λ _ s, (CreateSession s (mkSession token userID None expiresAt (sys_now (out_sys o) 1)), ()));;
  mret token.

Definition completeOAuthLogin (email name avatarURL : string) : Handler Reply :=
  found ← read (λ _ s, GetUserByEmail s email);
  who ←
    match found with
    | Ok user =>
        (if (us_AvatarURL user =s? "") && negb (avatarURL =s? "")
         then call (λ o s, ((UpdateUser (out_sys o) s (user <| us_AvatarURL := avatarURL |>)).1, ()))
         else mret ());;
        mret (us_ID user, "")
    | Err _ =>
        let name := if name =s? "" then local_part email else name in
        hash ← random_hash;
        o ← outside;
        let newUser := NewUser (out_sys o) email name hash RoleDeveloper <| us_AvatarURL := avatarURL |> in
        made ← call (λ o s, CreateUser (out_sys o) s newUser);
        match made with
        | Err err => auth_error ("Failed to create user account: " +:+ Error err)
        | Ok createdUser =>
            project ← provision createdUser;
            mret (us_ID createdUser, project)
        end
    end;
  let '(userID, project) := who in
  activeProjID ← (if project =s? "" then active_project userID else mret project);
  sessionToken ← new_session userID;
  SetCookie CookieSessionName sessionToken;;
  SetCookie CookieProjectName activeProjID;;
  redirect "/dashboard" ∅.

(** What both callbacks check before they talk to the provider; [label] is the
    provider's name in messages. *)
Definition oauth_precheck (provider label : string) (r : Request) : Handler string :=
  if negb (QueryGet r "error" =s? "") then
    clearOAuthStateCookie;;
    auth_error (label +:+ " login cancelled: " +:+ QueryGet r "error")
  else
    let stateParam := QueryGet r "state" in
    let codeParam := QueryGet r "code" in
    if (stateParam =s? "") || (codeParam =s? "") then
      clearOAuthStateCookie;;
      auth_error ("Missing code or state from " +:+ label)
    else
      o ← outside;
      match getAndVerifyOAuthStateCookie (sys_now (out_sys o) 0) r provider stateParam with
      | Err err =>
          clearOAuthStateCookie;;
          auth_error ("Authentication security check failed: " +:+ Error err)
      | Ok _ => clearOAuthStateCookie;; mret codeParam
      end.

(** One exchange with the provider: the messages are for a request that cannot be
    built and for an answer that is not [200 OK]. *)
Definition ask (c : HttpCall) (unbuilt failed : string) : Handler string :=
  match idp c with
  | NoRequest _ => auth_error unbuilt
  | NoAnswer _ => auth_error failed
  | Answered status body => if (status =? StatusOK)%Z then mret body else auth_error failed
  end.

(** The access token of an answer; an answer without one is refused. *)
Definition access_token (body failed : string) : Handler string :=
  match unjson_token body with
  | Ok t => if tr_AccessToken t =s? "" then auth_error failed else mret (tr_AccessToken t)
  | Err _ => auth_error failed
  end.

Definition handleOAuthGoogleCallback (r : Request) : Handler Reply :=
  codeParam ← oauth_precheck "google" "Google" r;
  body ← ask (PostForm (ep_tokenURL googleEndpoints)
      [("code", codeParam); ("client_id", cfg_GoogleClientID cfg);
       ("client_secret", cfg_GoogleClientSecret cfg);
       ("redirect_uri", getOAuthRedirectURI r "google"); ("grant_type", "authorization_code")])
    "Internal error preparing token exchange" "Failed to exchange authorization code with Google";
  token ← access_token body "Invalid token response from Google";
  body ← ask (GetBearer (ep_userInfoURL googleEndpoints) token)
    "Failed to fetch Google profile" "Failed to retrieve profile from Google";
  match unjson_profile body with
  | Ok profile =>
      if TrimSpace (gp_Email profile) =s? ""
      then auth_error "Google profile did not return a valid email address"
      else completeOAuthLogin (ToLower (TrimSpace (gp_Email profile))) (gp_Name profile) (gp_Picture profile)
  | Err _ => auth_error "Google profile did not return a valid email address"
  end.

(** The first primary verified address, or else the first verified one. *)
Definition verified_email (l : list GitHubEmail) : string :=
  let pick P := default "" (ge_Email ∘ snd <$> list_find (λ e, P e = true) l) in
  or_default (pick (λ e, ge_Primary e && ge_Verified e)) (pick ge_Verified).

Definition handleOAuthGitHubCallback (r : Request) : Handler Reply :=
  codeParam ← oauth_precheck "github" "GitHub" r;
  body ← ask (PostJSON (ep_tokenURL githubEndpoints)
      [("client_id", cfg_GitHubClientID cfg); ("client_secret", cfg_GitHubClientSecret cfg);
       ("code", codeParam); ("redirect_uri", getOAuthRedirectURI r "github")])
    "Internal error preparing token exchange" "Failed to exchange authorization code with GitHub";
  token ← access_token body "Invalid token response from GitHub";
  body ← ask (GetBearer (ep_userInfoURL githubEndpoints) token)
    "Failed to fetch GitHub profile" "Failed to retrieve profile from GitHub";
  let ghUser := unjson_gh_user body in
  body ← ask (GetBearer (ep_emailsURL githubEndpoints) token)
    "Failed to fetch GitHub emails" "Failed to query verified emails from GitHub";
  match unjson_gh_emails body with
  | Err _ => auth_error "Failed to parse GitHub emails"
  | Ok emailsList =>
      let verifiedEmail := verified_email emailsList in
      if verifiedEmail =s? ""
      then auth_error "Your GitHub account does not have a verified email address"
      else
        let displayName := or_default (or_default (gh_Name ghUser) (gh_Login ghUser)) (local_part verifiedEmail) in
        completeOAuthLogin (ToLower (TrimSpace verifiedEmail)) displayName (gh_AvatarURL ghUser)
  end.

(** ** Finishing an OpenID Connect login *)

(** [parseIDTokenClaims]: the payload of the token; its signature is not checked. *)
Definition parseIDTokenClaims (idToken : string) : result GoError OIDCIDTokenClaims :=
  match Split idToken "." with
  | _ :: payload :: _ =>
      match (match RawURL_decode payload with Some b => Some b | None => URL_decode payload end) with
      | None => Err (EText "failed to base64-decode JWT payload")
      | Some payloadBytes =>
          match unjson_claims payloadBytes with
          | Err e => Err (EWrap ("failed to unmarshal JWT claims: " +:+ Error e) e)
          | Ok claims => Ok claims
          end
      end
  | _ => Err (EText "malformed id_token JWT")
  end.

Definition fetchUserInfo (issuerURL accessToken : string) : result GoError OIDCIDTokenClaims :=
  match idp (GetBearer (TrimRightSlash issuerURL +:+ "/userinfo") accessToken) with
  | NoRequest err | NoAnswer err => Err err
  | Answered status body =>
      if (status =? StatusOK)%Z then unjson_claims body
      else Err (EText ("userinfo endpoint returned status " +:+ Itoa status +:+ ": " +:+ body))
  end.

(** [s.clearOIDCStateCookie(w, r); s.writeError(w, r, err); return]. *)
Definition oidc_error {A} (err : GoError) : Handler A := clearOIDCStateCookie;; writeError err.

Definition oidc_precheck (r : Request) : Handler (string * OIDCConfig) :=
  let errParam := QueryGet r "error" in
  if negb (errParam =s? "") then
    clearOIDCStateCookie;;
    auth_error (errParam +:+ ": " +:+ QueryGet r "error_description")
  else
    let stateParam := QueryGet r "state" in
    let codeParam := QueryGet r "code" in
    if (stateParam =s? "") || (codeParam =s? "")
    then oidc_error (bad_sso "Missing 'code' or 'state' parameter from IdP callback")
    else
      o ← outside;
      match getAndVerifyOIDCStateCookie (sys_now (out_sys o) 0) r stateParam with
      | Err err => oidc_error (NewAppError ErrCodeBadRequest (Error err) StatusBadRequest (Some err))
      | Ok stateClaims =>
          found ← get_oidc (oi_OrganizationID stateClaims);
          match enabled found with
          | None =>
              oidc_error (not_configured "Organization OIDC configuration not found or disabled")
          | Some c => mret (codeParam, c)
          end
      end.

(** The token endpoint's answer to the code. *)
Definition oidc_exchange (r : Request) (c : OIDCConfig) (codeParam : string) : Handler OIDCTokenResponse :=
  match idp (PostForm (TrimRightSlash (oc_IssuerURL c) +:+ "/token")
               [("grant_type", "authorization_code"); ("code", codeParam);
                ("redirect_uri", getOIDCRedirectURI r); ("client_id", oc_ClientID c);
                ("client_secret", oc_ClientSecret c)]) with
  | NoRequest err => oidc_error (internal "Failed to construct token exchange request" (Some err))
  | NoAnswer err => oidc_error (internal "Failed to connect to IdP token endpoint" (Some err))
  | Answered status body =>
      if negb (status =? StatusOK)%Z
      then oidc_error (bad_sso ("IdP token exchange failed (" +:+ Itoa status +:+ "): " +:+ body))
      else
        match unjson_token body with
        | Err err => oidc_error (internal "Failed to parse token response" (Some err))
        | Ok tokenData => mret tokenData
        end
  end.

(** The claims of the ID token, or of the userinfo endpoint when the token has no
    e-mail address. *)
Definition oidc_claims (c : OIDCConfig) (tokenData : OIDCTokenResponse)
    : Handler (option OIDCIDTokenClaims) :=
  let fromToken :=
    if tr_IDToken tokenData =s? "" then None
    else match parseIDTokenClaims (tr_IDToken tokenData) with Ok claims => Some claims | Err _ => None end in
  let without_email := match fromToken with Some claims => it_Email claims =s? "" | None => true end in
  if without_email && negb (tr_AccessToken tokenData =s? "") then
    match fetchUserInfo (oc_IssuerURL c) (tr_AccessToken tokenData) with
    | Ok claims => mret (Some claims)
    | Err err =>
        oidc_error (internal ("Failed to fetch user claims from userinfo endpoint: " +:+ Error err) (Some err))
    end
  else mret fromToken.

(** The user of an address, made on the first login. *)
Definition oidc_user (email name : string) : Handler User :=
  found ← read (λ _ s, GetUserByEmail s email);
  match found with
  | Ok user => mret user
  | Err _ =>
      hash ← random_hash;
      let userName := or_default (TrimSpace name) (local_part email) in
      made ← new_account email userName hash;
      match made with
      | Ok user => mret user
      | Err err => oidc_error (internal ("Failed to provision user: " +:+ Error err) (Some err))
      end
  end.

Definition ensure_member (c : OIDCConfig) (userID : string) : Handler () :=
  existing ← read (λ _ s, GetOrgMember s (oc_OrganizationID c) userID);
  match existing with
  | Ok _ => mret ()
  | Err _ =>
      call (λ o s, CreateOrgMember (out_sys o) s
        (mkMember "" (oc_OrganizationID c) userID (or_default (oc_DefaultRole c) "developer") time_zero));;
      mret ()
  end.

Definition handleOIDCCallback (r : Request) : Handler Reply :=
  only_get r (
    pre ← oidc_precheck r;
    let '(codeParam, c) := pre in
    tokenData ← oidc_exchange r c codeParam;
    claims ← oidc_claims c tokenData;
    match claims with
    | None => oidc_error (bad_sso "Identity provider did not return an email claim in token")
    | Some claims =>
        if TrimSpace (it_Email claims) =s? ""
        then oidc_error (bad_sso "Identity provider did not return an email claim in token")
        else
          let email := ToLower (TrimSpace (it_Email claims)) in
          if negb (IsDomainAllowed (Some c) email)
          then oidc_error (NewAppError ErrCodeForbidden
                 ("Email domain for " +:+ rt_quote email +:+ " is not authorized for this organization")
                 StatusForbidden None)
          else
            user ← oidc_user email (it_Name claims);
            ensure_member c (us_ID user);;
            sessionToken ← open_session (us_ID user);
            SetCookie CookieSessionName sessionToken;;
            projs ← list_projects (oc_OrganizationID c);
            (match projs with p :: _ => SetCookie CookieProjectName (pj_ID p) | [] => mret () end);;
            clearOIDCStateCookie;;
            redirect "/dashboard" ∅
    end).

(** ** The configuration of an organization *)

Definition masked : string := "••••••••".

Definition mask (c : OIDCConfig) : OIDCConfig :=
  if oc_ClientSecret c =s? "" then c else c <| oc_ClientSecret := masked |>.

Definition handleGetOIDCConfig (orgID : string) : Handler Reply :=
  found ← get_oidc orgID;
  writeJSON StatusOK (BOIDCConfig orgID (mask <$> found)).

Definition handleSaveOIDCConfig (body : result GoError OIDCConfig) (orgID : string) : Handler Reply :=
  req ← unwrap (λ e, NewAppError ErrCodeBadRequest ("Invalid JSON payload: " +:+ Error e) StatusBadRequest
                   (Some e)) body;
  if (oc_IssuerURL req =s? "") || (oc_ClientID req =s? "")
  then writeError (bad_sso "issuer_url and client_id are required")
  else
    secret ←
      if (TrimSpace (oc_ClientSecret req) =s? "") || (oc_ClientSecret req =s? masked) then
        existing ← get_oidc orgID;
        match existing with
        | Some e =>
            if oc_ClientSecret e =s? ""
            then writeError (bad_sso "client_secret is required when configuring OIDC")
            else mret (oc_ClientSecret e)
        | None => writeError (bad_sso "client_secret is required when configuring OIDC")
        end
      else mret (oc_ClientSecret req);
    let req := req <| oc_ClientSecret := secret |> <| oc_OrganizationID := orgID |> in
    failed ← call (λ o s, SaveOIDCConfig (out_sys o) s req);
    match failed with
    | Some e => writeError (internal ("Failed to save OIDC config: " +:+ Error e) (Some e))
    | None =>
        saved ← get_oidc orgID;
        match saved with
        | Some c => writeJSON StatusOK (BOIDCConfig orgID (Some (c <| oc_ClientSecret := masked |>)))
        | None => writeJSON StatusOK BDone
        end
    end.

Definition handleDeleteOIDCConfig (orgID : string) : Handler Reply :=
  call (λ _ s, (DeleteOIDCConfig s orgID, ()));;
  writeJSON StatusOK BDone.

(** The organization a path of the form [/api/v1/organizations/{id}/oidc] names. *)
Definition oidc_path (path : string) : option string :=
  match Split (Trim (TrimPrefix path "/api/v1/organizations/") "/") "/" with
  | [orgID; rest] => if rest =s? "oidc" then Some orgID else None
  | _ => None
  end.

(** Administrators, and owners and admins of the organization. *)
Definition may_configure (user : User) (orgID : string) : Handler () :=
  if us_Role user =s? RoleAdmin then mret ()
  else
    member ← read (λ _ s, GetOrgMember s orgID (us_ID user));
    match member with
    | Ok m =>
        if (om_Role m =s? "owner") || (om_Role m =s? "admin") then mret ()
        else writeError (NewAppError ErrCodeForbidden
               "Only organization owners and admins can configure Single Sign-On" StatusForbidden None)
    | Err _ => writeError (NewAppError ErrCodeForbidden
               "Only organization owners and admins can configure Single Sign-On" StatusForbidden None)
    end.

Definition handleOIDCConfigRoutes (body : result GoError OIDCConfig) (r : Request) : Handler Reply :=
  match oidc_path (rq_Path r) with
  | None => writeText StatusNotFound "Not Found"
  | Some orgID =>
      caller ← UserFromContext;
      match caller with
      | None => writeError (NewAppError ErrCodeUnauthorized "Authentication required" StatusUnauthorized None)
      | Some user =>
          may_configure user orgID;;
          if rq_Method r =s? "GET" then handleGetOIDCConfig orgID
          else if (rq_Method r =s? "PUT") || (rq_Method r =s? "POST") then handleSaveOIDCConfig body orgID
          else if rq_Method r =s? "DELETE" then handleDeleteOIDCConfig orgID
          else writeText StatusMethodNotAllowed "Method Not Allowed"
      end
  end.

End Sso.
