(* ===== verification/ApiSsoFacts.v ===== *)
(** * Social login and single sign-on: what they guarantee

    The soundness of the callbacks and of the state cookies, and the theorems
    applied to a small instance. *)

From S2P Require Import Prelude GoFloat GoStrings GoTime Sha256 Base64 Errors Domain Config Entities.
From S2P Require Import StoreState StoreIdentity StoreTenancy StoreTables StoreIdentityFacts Http Auth Access.
From S2P Require Import ApiFlags ApiGovernance ApiAuth AuthFacts AccessFacts ApiFlagsFacts ApiAuthFacts.
From S2P Require Import ApiExamples ApiSso.

(** * What single sign-on and social login guarantee *)

(** ** State cookies *)

Section State.
Context `{GoRuntime} `{AuthLib} `{SsoLib}.

(** The request carries the state cookie of a login with this provider, not older
    than ten minutes, and repeats its state. *)
Definition oauth_state_ok (now : Time) (r : Request) (provider : string) : Prop :=
  ∃ value decoded claims,
    Cookie r CookieOAuthStateName = Some value ∧ RawURL_decode value = Some decoded ∧
    unjson_OAuthState decoded = Some claims ∧ oa_Provider claims = provider ∧
    oa_State claims = QueryGet r "state" ∧ QueryGet r "state" ≠ "" ∧
    (time_sub now (oa_CreatedAt claims) ≤ 10 * Minute)%Z.

(** The same for an organization's single sign-on. *)
Definition oidc_state_ok (now : Time) (r : Request) (orgID : string) : Prop :=
  ∃ value decoded claims,
    Cookie r CookieOIDCStateName = Some value ∧ RawURL_decode value = Some decoded ∧
    unjson_OIDCState decoded = Some claims ∧ oi_OrganizationID claims = orgID ∧
    oi_State claims = QueryGet r "state" ∧ QueryGet r "state" ≠ "" ∧
    (time_sub now (oi_CreatedAt claims) ≤ 10 * Minute)%Z.

Lemma oauth_verified now r provider state claims :
  getAndVerifyOAuthStateCookie now r provider state = Ok claims ↔
  ∃ value decoded, value ≠ "" ∧
    Cookie r CookieOAuthStateName = Some value ∧ RawURL_decode value = Some decoded ∧
    unjson_OAuthState decoded = Some claims ∧ oa_Provider claims = provider ∧ oa_State claims = state ∧
    (time_sub now (oa_CreatedAt claims) ≤ 10 * Minute)%Z.
Proof.
  unfold getAndVerifyOAuthStateCookie. split.
  - destruct (Cookie r _) as [value|]; [|done]. destruct value as [|c value]; [done|].
    destruct (RawURL_decode _) as [decoded|] eqn:Hd; [|done].
    destruct (unjson_OAuthState decoded) as [cl|] eqn:Hj; [|done].
    destruct (oa_Provider cl =s? provider) eqn:Hp; [|done]. simpl negb.
    destruct (10 * Minute <? _)%Z eqn:Ht; [done|].
    destruct (state =s? oa_State cl) eqn:Hs; [|done]. intros [= <-].
    apply str_eqb_eq in Hp, Hs. apply Z.ltb_ge in Ht.
    exists (String c value), decoded. by repeat split.
  - intros (value & decoded & Hne & -> & Hd & Hj & Hp & Hs & Ht).
    destruct value as [|c value]; [done|]. rewrite Hd, Hj, Hp, Hs, !str_eqb_refl. simpl negb.
    apply Z.ltb_ge in Ht. by rewrite Ht.
Qed.

Lemma oidc_verified now r state claims :
  getAndVerifyOIDCStateCookie now r state = Ok claims ↔
  ∃ value decoded, value ≠ "" ∧
    Cookie r CookieOIDCStateName = Some value ∧ RawURL_decode value = Some decoded ∧
    unjson_OIDCState decoded = Some claims ∧ oi_State claims = state ∧
    (time_sub now (oi_CreatedAt claims) ≤ 10 * Minute)%Z.
Proof.
  unfold getAndVerifyOIDCStateCookie. split.
  - destruct (Cookie r _) as [value|]; [|done]. destruct value as [|c value]; [done|].
    destruct (RawURL_decode _) as [decoded|] eqn:Hd; [|done].
    destruct (unjson_OIDCState decoded) as [cl|] eqn:Hj; [|done].
    destruct (oi_State cl =s? state) eqn:Hs; [|done]. simpl negb.
    destruct (10 * Minute <? _)%Z eqn:Ht; [done|]. intros [= <-].
    apply str_eqb_eq in Hs. apply Z.ltb_ge in Ht. exists (String c value), decoded. by repeat split.
  - intros (value & decoded & Hne & -> & Hd & Hj & Hs & Ht).
    destruct value as [|c value]; [done|]. rewrite Hd, Hj, Hs, !str_eqb_refl. simpl negb.
    apply Z.ltb_ge in Ht. by rewrite Ht.
Qed.

(** An encoded text is empty only for the empty text. *)
Lemma RawURL_encode_nonempty s : s ≠ "" → RawURL_encode s ≠ "".
Proof.
  intros Hs He. pose proof (RawURL_roundtrip s) as Hr. rewrite He in Hr. by injection Hr as <-.
Qed.

(** The providers of social login. *)
Inductive Social := Google | GitHub.

Definition provider_name (p : Social) : string := match p with Google => "google" | GitHub => "github" end.

Definition social_enabled (cfg : Config) (p : Social) : bool :=
  match p with Google => IsGoogleOAuthEnabled cfg | GitHub => IsGitHubOAuthEnabled cfg end.

Definition social_url (p : Social) : string :=
  match p with Google => ep_authURL googleEndpoints | GitHub => ep_authURL githubEndpoints end.

Definition social_login (cfg : Config) (p : Social) (r : Request) : Handler Reply :=
  match p with Google => handleOAuthGoogleLogin cfg r | GitHub => handleOAuthGitHubLogin cfg r end.

Definition social_callback (cfg : Config) (idp : HttpCall → Answer) (p : Social) (r : Request)
    : Handler Reply :=
  match p with
  | Google => handleOAuthGoogleCallback cfg idp r
  | GitHub => handleOAuthGitHubCallback cfg idp r
  end.

Lemma set_query_last fields k v q : set_query (fields ++ [(k, v)]) q = <[k := [v]]> (set_query fields q).
Proof. unfold set_query. by rewrite foldl_app. Qed.

(** A login and its callback agree: the login redirects to the provider with a
    fresh state and sets one cookie; a callback within ten minutes that brings
    the cookie and the state passes the check for that provider. *)
Theorem social_state_roundtrip `{!SsoLaws} srv cfg p r w base q :
  social_enabled cfg p = true →
  url_Parse (social_url p) = Ok (base, q) →
  (∀ c, json_OAuthState c ≠ "") →
  let '(w', rep) := serve srv (social_login cfg p r) w in
  ∃ cookie state query created,
    wd_cookies w' = wd_cookies w ++ [(CookieOAuthStateName, cookie)] ∧ wd_store w' = wd_store w ∧
    rep = mkReply StatusFound (BRedirect base query) ∧ query !! "state" = Some [state] ∧
    ∀ r' now, Cookie r' CookieOAuthStateName = Some cookie →
      (created ≤ now ≤ created + 10 * Minute)%Z →
      is_ok (getAndVerifyOAuthStateCookie now r' (provider_name p) state) = true.
Proof.
  intros Hon Hurl Hjson.
  set (o := out_sys (sv_out srv (wd_step w))).
  set (claims := mkOAuthState (provider_name p) (sys_rand o 0) (sys_rand o 1) (sys_now o 0)).
  assert (Hcheck : ∀ r' now, Cookie r' CookieOAuthStateName = Some (RawURL_encode (json_OAuthState claims)) →
    (sys_now o 0 ≤ now ≤ sys_now o 0 + 10 * Minute)%Z →
    is_ok (getAndVerifyOAuthStateCookie now r' (provider_name p) (sys_rand o 0)) = true).
  { intros r' now Hc Ht. rewrite (proj2 (oauth_verified now r' (provider_name p) (sys_rand o 0) claims)); [done|].
    eexists _, _. split; [by apply RawURL_encode_nonempty, Hjson|]. split; [exact Hc|].
    split; [apply RawURL_roundtrip|]. split; [apply oauth_state_codec|]. split; [done|]. split; [done|].
    unfold time_sub, min_duration, max_duration, Minute, Second in *. subst claims. cbn [oa_CreatedAt]. lia. }
  destruct p; cbn [social_enabled] in Hon; simpl in Hurl.
  - unfold serve, social_login, handleOAuthGoogleLogin. rewrite Hon. simpl negb.
    unfold mbind, handler_bind, fresh_state, outside, setOAuthStateCookie, SetCookie, redirect_to, unwrap.
    simpl. rewrite Hurl. simpl.
    eexists _, (sys_rand o 0), _, (sys_now o 0). do 3 (split; [reflexivity|]).
    split; [|exact Hcheck]. rewrite !lookup_insert_ne by done. by rewrite lookup_insert_eq.
  - unfold serve, social_login, handleOAuthGitHubLogin. rewrite Hon. simpl negb.
    unfold mbind, handler_bind, fresh_state, outside, setOAuthStateCookie, SetCookie, redirect_to, unwrap.
    simpl. rewrite Hurl. simpl.
    eexists _, (sys_rand o 0), _, (sys_now o 0). do 3 (split; [reflexivity|]).
    split; [|exact Hcheck]. by rewrite lookup_insert_eq.
Qed.

(** ** Sessions that a handler opens *)

(** Every session afterwards belongs to the user it belonged to, or to one that
    satisfies [P]. *)
Definition opens (P : string → Prop) (s s' : MemoryStore) : Prop :=
  ∀ tok sess', ms_sessions s' !! tok = Some sess' →
    (∃ sess, ms_sessions s !! tok = Some sess ∧ ss_UserID sess = ss_UserID sess') ∨ P (ss_UserID sess').

Lemma opens_same P s s' : ms_sessions s' = ms_sessions s → opens P s s'.
Proof. intros Heq tok sess Hs. left. exists sess. by rewrite <- Heq. Qed.

#[export] Instance opens_preorder P : PreOrder (opens P).
Proof.
  split; [intros s; by apply opens_same|].
  intros s1 s2 s3 H12 H23 tok sess Hs. destruct (H23 tok sess Hs) as [(sess2 & Hs2 & Hu)|?]; [|by right].
  destruct (H12 tok sess2 Hs2) as [(sess1 & Hs1 & Hu1)|?]; [|right; by rewrite <- Hu].
  left. exists sess1. split; [done|congruence].
Qed.

Lemma opens_impl (P Q : string → Prop) s s' : (∀ u, P u → Q u) → opens P s s' → opens Q s s'.
Proof. intros HPQ Ho tok sess Hs. destruct (Ho tok sess Hs); auto. Qed.

Lemma opens_CreateSession (P : string → Prop) s sess : P (ss_UserID sess) → opens P s (CreateSession s sess).
Proof.
  intros HP tok sess'. unfold CreateSession. simpl. rewrite lookup_insert.
  case_decide; [intros [= <-]; by right|]. intros Hs. left. by exists sess'.
Qed.

Lemma opens_UpdateUser P sys s u : opens P s (UpdateUser sys s u).1.
Proof.
  unfold UpdateUser. destruct (ms_users s !! us_ID u) as [u0|]; [|by apply opens_same].
  intros tok sess'. simpl. unfold refresh_sessions. rewrite lookup_fmap.
  destruct (ms_sessions s !! tok) as [sess|] eqn:Hs; simpl; [|done]. intros [= <-].
  left. exists sess. split; [done|]. by repeat case_match.
Qed.

Lemma CreateUser_sessions sys s u : ms_sessions (CreateUser sys s u).1 = ms_sessions s.
Proof. unfold CreateUser. by destruct (ms_users s !! us_Email u). Qed.

Lemma keeps_opens_call {A} P (f : Outside → MemoryStore → MemoryStore * A) :
  (∀ o s, ms_sessions (f o s).1 = ms_sessions s) → keeps (opens P) (call f).
Proof. intros Hf. apply keeps_call. intros o s. apply opens_same, Hf. Qed.

Lemma CreateOrganization_sessions sys s org :
  ms_sessions (CreateOrganization sys s org).1 = ms_sessions s.
Proof. unfold CreateOrganization. by repeat destruct (ms_orgs s !! _). Qed.

Lemma CreateProject_sessions sys s proj : ms_sessions (CreateProject sys s proj).1 = ms_sessions s.
Proof.
  unfold CreateProject. destruct (_ =s? ""); [done|]. by repeat destruct (ms_projects s !! _).
Qed.

Lemma keeps_opens_provision P user : keeps (opens P) (provision user).
Proof.
  unfold provision. keeps_all; apply keeps_opens_call; intros ? s;
    [apply CreateOrganization_sessions|done|apply CreateProject_sessions].
Qed.

Lemma keeps_opens_new_session (P : string → Prop) uid : P uid → keeps (opens P) (new_session uid).
Proof.
  intros HP. unfold new_session. keeps_all. apply keeps_call. intros o s. by apply opens_CreateSession.
Qed.

Lemma keeps_opens_open_session (P : string → Prop) uid : P uid → keeps (opens P) (open_session uid).
Proof.
  intros HP. unfold open_session. keeps_all. apply keeps_call. intros o s. by apply opens_CreateSession.
Qed.

(** A handler that keeps a relation ends where the relation leads. *)
Lemma ends_relation {A} (R : MemoryStore → MemoryStore → Prop) srv (m : Handler A) (P : MemoryStore → Prop) w :
  keeps R m → (∀ s', R (wd_store w) s' → P s') → ends srv m P w.
Proof.
  intros Hk HP. unfold ends, wp. specialize (Hk srv w).
  destruct (m srv w) as [w' [a|rep]]; simpl in Hk; by apply HP.
Qed.

(** The account a login with this address is for: the one it has, or a new one
    with the developer role. *)
Definition account_of (s : MemoryStore) (email : string) (u : User) : Prop :=
  GetUserByEmail s email = Ok u ∨
  (is_ok (GetUserByEmail s email) = false ∧ us_Role u = RoleDeveloper ∧
   us_Email u = TrimSpace (ToLower email)).

Lemma CreateUser_account sys0 sys s email name hash avatar s' u :
  is_ok (GetUserByEmail s email) = false →
  CreateUser sys s (NewUser sys0 email name hash RoleDeveloper <| us_AvatarURL := avatar |>) = (s', Ok u) →
  account_of s email u.
Proof.
  intros Hnone. unfold CreateUser. destruct (ms_users s !! _); [done|]. intros [= <- <-].
  right. by repeat split.
Qed.

Lemma ends_completeOAuthLogin (P : string → Prop) srv email name avatar w :
  (∀ u, account_of (wd_store w) email u → P (us_ID u)) →
  ends srv (completeOAuthLogin email name avatar) (opens P (wd_store w)) w.
Proof.
  intros HP. unfold completeOAuthLogin. apply wp_bind, wp_read, wp_bind.
  assert (Hrest : ∀ uid project w', P uid → opens P (wd_store w) (wd_store w') →
    ends srv (activeProjID ← (if project =s? "" then active_project uid else mret project);
              sessionToken ← new_session uid;
              SetCookie CookieSessionName sessionToken;;
              SetCookie CookieProjectName activeProjID;;
              redirect (A := Reply) "/dashboard" ∅) (opens P (wd_store w)) w').
  { intros uid project w' Hu Ho. apply (ends_relation (opens P)); [|intros s' Hs'; by etrans].
    unfold active_project, list_user_orgs, list_projects, redirect.
    keeps_all. by apply keeps_opens_new_session. }
  destruct (GetUserByEmail (wd_store w) email) as [user|e] eqn:Hu.
  - assert (P (us_ID user)) by (apply HP; by left).
    apply wp_bind. destruct (_ && _).
    + apply wp_call, wp_ret, Hrest; [done|]. apply opens_UpdateUser.
    + apply wp_ret, wp_ret, Hrest; done.
  - apply wp_bind. unfold random_hash. apply wp_bind, wp_outside, wp_ret, wp_bind, wp_outside, wp_bind, wp_call.
    cbv beta zeta. match goal with |- context [CreateUser ?sys ?s ?u] => destruct (CreateUser sys s u) as [s1 [u1|err]] eqn:Hc end.
    + apply wp_bind. cbn [fst snd]. apply CreateUser_account in Hc as Ha; [|cbn; by rewrite Hu].
      eapply wp_mono; [| |apply (ends_relation (opens P) srv (provision u1)
        (opens P (wd_store w))); [apply keeps_opens_provision|]].
      * intros project w2 Ho. apply wp_ret, Hrest; [by apply HP|exact Ho].
      * intros rep w2 Ho. exact Ho.
      * cbn. intros s2 Hs2. etrans; [|exact Hs2]. apply opens_same.
        change s1 with (s1, @Ok GoError User u1).1. rewrite <- Hc. apply CreateUser_sessions.
    + apply wp_exit. cbn. apply opens_same.
      change s1 with (s1, @Err GoError User err).1. rewrite <- Hc. apply CreateUser_sessions.
Qed.

(** ** What the provider says *)

(** The token the provider gives for the code of the callback. *)
Definition exchanged (idp : HttpCall → Answer) (request : HttpCall) (token : string) : Prop :=
  ∃ body t, idp request = Answered StatusOK body ∧ unjson_token body = Ok t ∧
    tr_AccessToken t = token ∧ token ≠ "".

(** Google's user-info endpoint names the address, for the token the code gave;
    GitHub lists it as verified. *)
Definition social_says (cfg : Config) (idp : HttpCall → Answer) (p : Social) (r : Request) (email : string)
    : Prop :=
  match p with
  | Google => ∃ token body profile,
      exchanged idp (PostForm (ep_tokenURL googleEndpoints)
        [("code", QueryGet r "code"); ("client_id", cfg_GoogleClientID cfg);
         ("client_secret", cfg_GoogleClientSecret cfg);
         ("redirect_uri", getOAuthRedirectURI r "google"); ("grant_type", "authorization_code")]) token ∧
      idp (GetBearer (ep_userInfoURL googleEndpoints) token) = Answered StatusOK body ∧
      unjson_profile body = Ok profile ∧ email = ToLower (TrimSpace (gp_Email profile))
  | GitHub => ∃ token body emails e,
      exchanged idp (PostJSON (ep_tokenURL githubEndpoints)
        [("client_id", cfg_GitHubClientID cfg); ("client_secret", cfg_GitHubClientSecret cfg);
         ("code", QueryGet r "code"); ("redirect_uri", getOAuthRedirectURI r "github")]) token ∧
      idp (GetBearer (ep_emailsURL githubEndpoints) token) = Answered StatusOK body ∧
      unjson_gh_emails body = Ok emails ∧ e ∈ emails ∧ ge_Verified e = true ∧
      email = ToLower (TrimSpace (ge_Email e))
  end.

Lemma verified_email_spec l :
  verified_email l ≠ "" → ∃ e, e ∈ l ∧ ge_Verified e = true ∧ ge_Email e = verified_email l.
Proof.
  assert (Hpick : ∀ P : GitHubEmail → bool, (∀ e, P e = true → ge_Verified e = true) →
    let x := default "" (ge_Email ∘ snd <$> list_find (λ e, P e = true) l) in
    x ≠ "" → ∃ e, e ∈ l ∧ ge_Verified e = true ∧ ge_Email e = x).
  { intros P HP. destruct (list_find _ l) as [[i e]|] eqn:Hf; [|done]. cbn. intros _.
    apply list_find_Some in Hf as (Hl & He & _). exists e. split; [by eapply list_elem_of_lookup_2|auto]. }
  unfold verified_email, or_default. destruct (_ =s? "").
  - by apply (Hpick ge_Verified).
  - apply (Hpick (λ e, ge_Primary e && ge_Verified e)). by intros e [_ ?]%andb_true_iff.
Qed.

Lemma wp_ask srv idp c unbuilt failed Q E w :
  (∀ body, idp c = Answered StatusOK body → Q body w) → (∀ rep, E rep w) →
  wp srv (ask idp c unbuilt failed) Q E w.
Proof.
  intros HQ HE. unfold ask. destruct (idp c) as [err|err|status body] eqn:Hc; [by apply wp_exit..|].
  destruct (status =? StatusOK)%Z eqn:Hs; [|by apply wp_exit].
  apply Z.eqb_eq in Hs. subst status. by apply wp_ret, HQ.
Qed.

Lemma wp_access_token srv body failed Q E w :
  (∀ t, unjson_token body = Ok t → tr_AccessToken t ≠ "" → Q (tr_AccessToken t) w) → (∀ rep, E rep w) →
  wp srv (access_token body failed) Q E w.
Proof.
  intros HQ HE. unfold access_token. destruct (unjson_token body) as [t|e]; [|by apply wp_exit].
  destruct (tr_AccessToken t =s? "") eqn:Ht; [by apply wp_exit|]. apply wp_ret, HQ; [done|].
  by apply str_eqb_neq in Ht.
Qed.

Lemma wp_oauth_precheck srv provider label r Q E w :
  (oauth_state_ok (sys_now (out_sys (sv_out srv (wd_step w))) 0) r provider →
   ∀ w', wd_store w' = wd_store w → Q (QueryGet r "code") w') →
  (∀ rep w', wd_store w' = wd_store w → E rep w') →
  wp srv (oauth_precheck provider label r) Q E w.
Proof.
  intros HQ HE. unfold oauth_precheck, clearOAuthStateCookie, auth_error, redirect.
  destruct (negb (QueryGet r "error" =s? "")); [by apply wp_bind, wp_set_cookie, wp_exit, HE|].
  destruct ((QueryGet r "state" =s? "") || (QueryGet r "code" =s? "")) eqn:Hp;
    [by apply wp_bind, wp_set_cookie, wp_exit, HE|].
  apply wp_bind, wp_outside.
  destruct (getAndVerifyOAuthStateCookie _ r provider _) as [claims|err] eqn:Hv;
    [|by apply wp_bind, wp_set_cookie, wp_exit, HE].
  apply wp_bind, wp_set_cookie, wp_ret, HQ; [|done].
  apply oauth_verified in Hv as (value & decoded & _ & Hc & Hd & Hj & Hpr & Hs & Ht).
  exists value, decoded, claims. apply orb_false_iff in Hp as [Hne%str_eqb_neq _]. by repeat split.
Qed.


(** ** OpenID Connect *)

(** The issuer of the configuration names the address, in the ID token it gives
    for the code of the callback or at its user-info endpoint. *)
Definition issuer_says (idp : HttpCall → Answer) (r : Request) (c : OIDCConfig) (email : string) : Prop :=
  ∃ body t claims,
    idp (PostForm (TrimRightSlash (oc_IssuerURL c) +:+ "/token")
      [("grant_type", "authorization_code"); ("code", QueryGet r "code");
       ("redirect_uri", getOIDCRedirectURI r); ("client_id", oc_ClientID c);
       ("client_secret", oc_ClientSecret c)]) = Answered StatusOK body ∧
    unjson_token body = Ok t ∧
    (parseIDTokenClaims (tr_IDToken t) = Ok claims ∨
     fetchUserInfo idp (oc_IssuerURL c) (tr_AccessToken t) = Ok claims) ∧
    email = ToLower (TrimSpace (it_Email claims)).

Lemma wp_oidc_error {A} srv err (Q : A → World → Prop) (E : Reply → World → Prop) w :
  (∀ rep w', wd_store w' = wd_store w → E rep w') → wp srv (oidc_error err) Q E w.
Proof. intros HE. unfold oidc_error. by apply wp_bind, wp_set_cookie, wp_writeError, HE. Qed.

Lemma enabled_spec found c : enabled found = Some c → found = Some c ∧ oc_Enabled c = true.
Proof. unfold enabled. destruct found as [c'|]; [|done]. by destruct (oc_Enabled c') eqn:?; intros [= <-]. Qed.

Lemma wp_oidc_precheck srv r Q E w :
  (∀ orgID c w', oidc_state_ok (sys_now (out_sys (sv_out srv (wd_step w))) 0) r orgID →
     GetOIDCConfig (wd_store w) orgID = Some c → oc_Enabled c = true → wd_store w' = wd_store w →
     Q (QueryGet r "code", c) w') →
  (∀ rep w', wd_store w' = wd_store w → E rep w') →
  wp srv (oidc_precheck r) Q E w.
Proof.
  intros HQ HE. unfold oidc_precheck, clearOIDCStateCookie, auth_error, redirect. cbv zeta.
  destruct (negb (QueryGet r "error" =s? "")); [by apply wp_bind, wp_set_cookie, wp_exit, HE|].
  destruct ((QueryGet r "state" =s? "") || (QueryGet r "code" =s? "")) eqn:Hp; [by apply wp_oidc_error|].
  apply wp_bind, wp_outside.
  destruct (getAndVerifyOIDCStateCookie _ r _) as [claims|err] eqn:Hv; [|by apply wp_oidc_error].
  apply wp_bind, wp_read. destruct (enabled _) as [c|] eqn:Hc; [|by apply wp_oidc_error].
  apply enabled_spec in Hc as [Hc Hon].
  apply wp_ret, (HQ (oi_OrganizationID claims)); [|exact Hc|exact Hon|done].
  apply oidc_verified in Hv as (value & decoded & _ & Hck & Hd & Hj & Hs & Ht).
  exists value, decoded, claims. apply orb_false_iff in Hp as [Hne%str_eqb_neq _]. by repeat split.
Qed.

Lemma wp_oidc_exchange srv idp r c code Q E w :
  (∀ body t w',
     idp (PostForm (TrimRightSlash (oc_IssuerURL c) +:+ "/token")
       [("grant_type", "authorization_code"); ("code", code); ("redirect_uri", getOIDCRedirectURI r);
        ("client_id", oc_ClientID c); ("client_secret", oc_ClientSecret c)]) = Answered StatusOK body →
     unjson_token body = Ok t → wd_store w' = wd_store w → Q t w') →
  (∀ rep w', wd_store w' = wd_store w → E rep w') →
  wp srv (oidc_exchange idp r c code) Q E w.
Proof.
  intros HQ HE. unfold oidc_exchange.
  destruct (idp _) as [err|err|status body] eqn:Hi; [by apply wp_oidc_error..|].
  destruct (status =? StatusOK)%Z eqn:Hs; [|by apply wp_oidc_error]. apply Z.eqb_eq in Hs. subst status.
  simpl negb. destruct (unjson_token body) as [t|e] eqn:Ht; [|by apply wp_oidc_error].
  by apply wp_ret, (HQ body t).
Qed.

Lemma wp_oidc_claims srv idp c t Q E w :
  (∀ claims w', wd_store w' = wd_store w →
     (∀ x, claims = Some x →
        parseIDTokenClaims (tr_IDToken t) = Ok x ∨
        fetchUserInfo idp (oc_IssuerURL c) (tr_AccessToken t) = Ok x) → Q claims w') →
  (∀ rep w', wd_store w' = wd_store w → E rep w') →
  wp srv (oidc_claims idp c t) Q E w.
Proof.
  intros HQ HE. unfold oidc_claims. cbv zeta. destruct (_ && negb _).
  - destruct (fetchUserInfo _ _ _) as [x|err] eqn:Hf; [|by apply wp_oidc_error].
    apply wp_ret, HQ; [done|]. intros y [= <-]. by right.
  - apply wp_ret, HQ; [done|]. intros x. destruct (tr_IDToken t =s? ""); [done|].
    destruct (parseIDTokenClaims _) as [y|e]; [|done]. intros [= <-]. by left.
Qed.

Lemma wp_oidc_user srv email name (Q : User → World → Prop) E w :
  (∀ u w', account_of (wd_store w) email u → ms_sessions (wd_store w') = ms_sessions (wd_store w) → Q u w') →
  (∀ rep w', ms_sessions (wd_store w') = ms_sessions (wd_store w) → E rep w') →
  wp srv (oidc_user email name) Q E w.
Proof.
  intros HQ HE. unfold oidc_user. apply wp_bind, wp_read.
  destruct (GetUserByEmail (wd_store w) email) as [u|e] eqn:Hu; [apply wp_ret, HQ; [by left|done]|].
  apply wp_bind. unfold random_hash, new_account.
  apply wp_bind, wp_outside, wp_ret, wp_bind, wp_bind, wp_outside, wp_call. cbv beta zeta.
  match goal with |- context [CreateUser ?sys ?s ?u] =>
    destruct (CreateUser sys s u) as [s1 res] eqn:Hc; pose proof (CreateUser_sessions sys s u) as Hs end.
  rewrite Hc in Hs. cbn [fst snd] in *. destruct res as [u1|err].
  - apply wp_ret, HQ; [|exact Hs]. eapply CreateUser_account; [by rewrite Hu|exact Hc].
  - apply wp_oidc_error. intros rep w' Hw. apply HE. rewrite Hw. exact Hs.
Qed.


(** ** The configuration of an organization *)

(** Administrators, and owners and admins of the organization. *)
Definition manages (s : MemoryStore) (user : User) (orgID : string) : Prop :=
  us_Role user = RoleAdmin ∨
  ∃ m, GetOrgMember s orgID (us_ID user) = Ok m ∧ (om_Role m = "owner" ∨ om_Role m = "admin").

Lemma wp_may_configure srv user orgID (Q : () → World → Prop) (E : Reply → World → Prop) w :
  (∀ w', wd_store w' = wd_store w → manages (wd_store w) user orgID → Q () w') →
  (∀ rep w', wd_store w' = wd_store w → rp_Status rep = StatusForbidden →
     match rp_Body rep with BOIDCConfig _ _ => False | _ => True end → E rep w') →
  wp srv (may_configure user orgID) Q E w.
Proof.
  intros HQ HE. unfold may_configure.
  destruct (us_Role user =s? RoleAdmin) eqn:Hr.
  { apply str_eqb_eq in Hr. apply wp_ret, HQ; [done|by left]. }
  apply wp_bind, wp_read. destruct (GetOrgMember _ _ _) as [m|e] eqn:Hm; [|by apply wp_writeError, HE].
  destruct ((om_Role m =s? "owner") || (om_Role m =s? "admin")) eqn:Hrole; [|by apply wp_writeError, HE].
  apply wp_ret, HQ; [done|]. right. exists m. split; [done|].
  apply orb_true_iff in Hrole as [?|?]; [left|right]; by apply str_eqb_eq.
Qed.

(** The store with the configuration of one organization replaced. *)
Definition set_oidc (orgID : string) (found : option OIDCConfig) (s : MemoryStore) : MemoryStore :=
  s <| ms_oidcConfigs := partial_alter (λ _, found) orgID (ms_oidcConfigs s) |>.

Lemma wp_save_oidc srv body orgID (Q : Reply → World → Prop) w :
  (∀ rep w', wd_store w' = wd_store w ∨ (∃ found, wd_store w' = set_oidc orgID found (wd_store w)) →
     match rp_Body rep with BOIDCConfig _ (Some c) => oc_ClientSecret c = masked | _ => True end →
     Q rep w') →
  wp srv (handleSaveOIDCConfig body orgID) Q Q w.
Proof.
  intros HQ. unfold handleSaveOIDCConfig.
  assert (Herr : ∀ {A} err (w' : World), wd_store w' = wd_store w →
    wp srv (writeError (A := A) err) (λ _ _, False) Q w').
  { intros A err w' Hw. apply wp_writeError, HQ; [by left|].
    pose proof (error_reply_body err). by destruct (rp_Body _). }
  assert (Herr' : ∀ {A} err R (w' : World), wd_store w' = wd_store w → wp srv (writeError (A := A) err) R Q w').
  { intros A err R w' Hw. eapply wp_mono; [| |by apply Herr]; done. }
  apply wp_bind. destruct body as [req|e]; [apply wp_ret|by apply Herr'].
  destruct (_ || _); [by apply Herr'|]. apply wp_bind.
  assert (Hsave : ∀ secret w', wd_store w' = wd_store w →
    wp srv (failed ← call (λ o s, SaveOIDCConfig (out_sys o) s
              (req <| oc_ClientSecret := secret |> <| oc_OrganizationID := orgID |>));
            match failed with
            | Some e => writeError (internal ("Failed to save OIDC config: " +:+ Error e) (Some e))
            | None =>
                saved ← get_oidc orgID;
                match saved with
                | Some c => writeJSON StatusOK (BOIDCConfig orgID (Some (c <| oc_ClientSecret := masked |>)))
                | None => writeJSON StatusOK BDone
                end
            end) Q Q w').
  { intros secret w' Hw. apply wp_bind, wp_call. cbv beta zeta. unfold SaveOIDCConfig.
    match goal with |- context [oc_OrganizationID ?c =s? ""] => change (oc_OrganizationID c) with orgID end.
    destruct (orgID =s? ""); [by apply Herr'|].
    cbn [fst snd]. apply wp_bind, wp_read. destruct (IsZero _);
    destruct (GetOIDCConfig _ _) as [c|]; apply wp_ret, HQ; try done; right; rewrite <- Hw;
      eexists (Some _); reflexivity. }
  destruct (_ || _); [|by apply wp_ret, Hsave].
  apply wp_bind, wp_read. destruct (GetOIDCConfig _ _) as [c|]; [|by apply Herr'].
  destruct (oc_ClientSecret c =s? ""); [by apply Herr'|]. by apply wp_ret, Hsave.
Qed.

(** What a request to configure single sign-on may do: nothing, or replace the
    configuration of the organization its path names, for one who manages it. *)
Definition configures (srv : Server) (r : Request) (w : World) (s' : MemoryStore) : Prop :=
  s' = wd_store w ∨
  ∃ orgID user found, oidc_path (rq_Path r) = Some orgID ∧ wd_user w = Some user ∧
    manages (wd_store w) user orgID ∧ s' = set_oidc orgID found (wd_store w).

(** A reply that shows a configuration hides its secret. *)
Definition hides_secret (rep : Reply) : Prop :=
  match rp_Body rep with
  | BOIDCConfig _ (Some c) => oc_ClientSecret c = "" ∨ oc_ClientSecret c = masked
  | _ => True
  end.

(** The single sign-on of an organization is configured only by administrators
    and by its owners and admins, a request changes nothing in the store but the
    configuration of the organization in its path, and no reply contains a client
    secret. *)
Theorem oidc_config_confined srv body r w :
  let '(w', rep) := serve srv (handleOIDCConfigRoutes body r) w in
  configures srv r w (wd_store w') ∧ hides_secret rep.
Proof.
  rewrite (surjective_pairing (serve _ _ _)).
  apply (wp_serve srv (handleOIDCConfigRoutes body r) w
    (λ w' rep, configures srv r w (wd_store w') ∧ hides_secret rep)).
  assert (Hno : ∀ rep w', wd_store w' = wd_store w →
    match rp_Body rep with BOIDCConfig _ (Some _) => False | _ => True end →
    configures srv r w (wd_store w') ∧ hides_secret rep).
  { intros rep w' Hw Hb. split; [by left|]. unfold hides_secret. destruct (rp_Body rep); try done.
    by destruct cfg. }
  unfold handleOIDCConfigRoutes. destruct (oidc_path (rq_Path r)) as [orgID|] eqn:Hpath;
    [|by apply wp_exit, Hno].
  apply wp_bind, wp_user. destruct (wd_user w) as [user|] eqn:Huser; [|by apply wp_writeError, Hno].
  apply wp_bind, wp_may_configure; [|intros rep w' Hw _ Hb; apply Hno; [done|by destruct (rp_Body rep)]].
  intros w1 Hw1 Hm.
  destruct (rq_Method r =s? "GET").
  { apply wp_bind, wp_read, wp_ret. split; [by left|]. unfold hides_secret, writeJSON. cbn.
    destruct (GetOIDCConfig _ _) as [c|]; [|done]. cbn. unfold mask.
    destruct (oc_ClientSecret c =s? "") eqn:Hs; [left; by apply str_eqb_eq|by right]. }
  destruct (_ || _).
  { apply wp_save_oidc. intros rep w' Hw Hb. rewrite Hw1 in Hw. split.
    - destruct Hw as [Hw|[found Hw]]; [by left|]. right. by exists orgID, user, found.
    - unfold hides_secret. destruct (rp_Body rep); try done. destruct cfg; [by right|done]. }
  destruct (rq_Method r =s? "DELETE"); [|by apply wp_exit, Hno].
  apply wp_bind, wp_call, wp_ret. split; [|done]. right. exists orgID, user, None.
  repeat split; try done. cbn. unfold DeleteOIDCConfig. by rewrite Hw1.
Qed.

Lemma SaveOIDC_get sys s c :
  oc_OrganizationID c ≠ "" →
  ∃ created, (SaveOIDCConfig sys s c).2 = None ∧
    GetOIDCConfig (SaveOIDCConfig sys s c).1 (oc_OrganizationID c) =
      Some (c <| oc_CreatedAt := created |> <| oc_UpdatedAt := sys_now sys 0 |>
              <| oc_DefaultRole := or_default (oc_DefaultRole c) "developer" |>) ∧
    (IsZero (oc_CreatedAt c) = false → created = oc_CreatedAt c).
Proof.
  intros Hne%str_eqb_neq. unfold SaveOIDCConfig, GetOIDCConfig. rewrite Hne.
  destruct (IsZero (oc_CreatedAt c)) eqn:Hz; destruct c; eexists; (split; [done|]); split;
    try apply lookup_insert_eq; done.
Qed.

(** The store has the configuration, updated and with its defaults. *)
Definition saved_as (c : OIDCConfig) (orgID : string) (s : MemoryStore) : Prop :=
  ∃ created now, GetOIDCConfig s orgID =
    Some (c <| oc_CreatedAt := created |> <| oc_UpdatedAt := now |>
            <| oc_DefaultRole := or_default (oc_DefaultRole c) "developer" |>) ∧
    (IsZero (oc_CreatedAt c) = false → created = oc_CreatedAt c).

(** Saving the configuration as it was shown keeps it: a client that reads the
    configuration of an organization sees it with the secret masked, and saving
    that back leaves everything as it was, the secret included, but the time of
    the update and the defaults of an empty role and an unset creation time. *)
Theorem masked_save_roundtrip srv orgID c w w1 :
  GetOIDCConfig (wd_store w) orgID = Some c → GetOIDCConfig (wd_store w1) orgID = Some c →
  oc_OrganizationID c = orgID → orgID ≠ "" →
  oc_ClientSecret c ≠ "" → oc_IssuerURL c ≠ "" → oc_ClientID c ≠ "" →
  let '(_, shown) := serve srv (handleGetOIDCConfig orgID) w in
  rp_Body shown = BOIDCConfig orgID (Some (c <| oc_ClientSecret := masked |>)) ∧
  let '(w2, rep) := serve srv (handleSaveOIDCConfig (Ok (c <| oc_ClientSecret := masked |>)) orgID) w1 in
  rp_Status rep = StatusOK ∧ saved_as c orgID (wd_store w2).
Proof.
  intros Hc Hc1 Horg Hne Hs%str_eqb_neq Hi%str_eqb_neq Hid%str_eqb_neq.
  rewrite (surjective_pairing (serve srv (handleGetOIDCConfig orgID) w)). split.
  - apply (wp_serve srv _ w (λ _ rep, rp_Body rep = _)).
    apply wp_bind, wp_read, wp_ret. rewrite Hc. cbn. unfold mask. by rewrite Hs.
  - rewrite (surjective_pairing (serve srv (handleSaveOIDCConfig _ orgID) w1)).
    apply (wp_serve srv _ w1 (λ w2 rep, rp_Status rep = StatusOK ∧ saved_as c orgID (wd_store w2))).
    unfold handleSaveOIDCConfig. apply wp_bind, wp_ret.
    change (oc_IssuerURL (c <| oc_ClientSecret := masked |>)) with (oc_IssuerURL c).
    change (oc_ClientID (c <| oc_ClientSecret := masked |>)) with (oc_ClientID c).
    change (oc_ClientSecret (c <| oc_ClientSecret := masked |>)) with masked.
    rewrite Hi, Hid, str_eqb_refl, orb_true_r. cbn [orb].
    apply wp_bind, wp_bind, wp_read. rewrite Hc1, Hs. apply wp_ret, wp_bind, wp_call. cbv beta zeta.
    set (req := c <| oc_ClientSecret := masked |> <| oc_ClientSecret := _ |> <| oc_OrganizationID := orgID |>).
    assert (Hreq : req = c) by (unfold req; destruct c; cbn in Horg; subst; reflexivity).
    match goal with |- context [SaveOIDCConfig ?sys ?s req] =>
      destruct (SaveOIDC_get sys s req) as (created & He & Hg & Hcr); [by rewrite Hreq, Horg|];
      destruct (SaveOIDCConfig sys s req) as [s2 res] end.
    cbn [fst snd] in *. subst res. rewrite Hreq, Horg in Hg. rewrite Hreq in Hcr.
    apply wp_bind, wp_read. cbn [wd_store]. change (wd_store (_ <| wd_store := s2 |>)) with s2.
    rewrite Hg. apply wp_ret. split; [done|]. eexists created, _. split; [exact Hg|exact Hcr].
Qed.

End State.

(** * Single sign-on at work

    Codecs and providers on which the theorems apply, and what one organization's
    single sign-on can do to the accounts of the others. *)

(** ** Codecs *)

Fixpoint pos_bits (p : positive) : string :=
  match p with
  | xH => ""
  | xO p => String "0" (pos_bits p)
  | xI p => String "1" (pos_bits p)
  end.

Fixpoint bits_pos (s : string) : positive :=
  match s with
  | EmptyString => xH
  | String c s => if Ascii.eqb c "0" then xO (bits_pos s) else xI (bits_pos s)
  end.

Lemma bits_pos_bits p : bits_pos (pos_bits p) = p.
Proof. induction p as [p IH|p IH|]; simpl; by rewrite ?IH. Qed.

(** Any countable type written as digits between braces. *)
Definition write_any {A} `{Countable A} (a : A) : string := String "{" (pos_bits (encode a)).
Definition read_any {A} `{Countable A} (s : string) : option A :=
  match s with String _ s => decode (bits_pos s) | EmptyString => None end.

Lemma read_write {A} `{Countable A} (a : A) : read_any (write_any a) = Some a.
Proof. unfold read_any, write_any. by rewrite bits_pos_bits, decode_encode. Qed.

Definition sso_demo (email : string) : SsoLib := {|
  json_OAuthState c := write_any (oa_Provider c, oa_State c, oa_Nonce c, oa_CreatedAt c);
  unjson_OAuthState s :=
    '(p, s, n, t) ← read_any s; Some (mkOAuthState p s n t);
  json_OIDCState c :=
    write_any (oi_State c, oi_Nonce c, oi_OrganizationID c, oi_RedirectURI c, oi_CreatedAt c);
  unjson_OIDCState s :=
    '(s, n, o, u, t) ← read_any s; Some (mkOIDCState s n o u t);
  unjson_token _ := Ok (mkTokenResponse "at-1" "Bearer" "" 3600);
  unjson_claims _ := Ok (mkIDToken "0042" email "" "another nonce");
  unjson_profile _ := Ok (mkGoogleProfile email "" "");
  unjson_gh_user _ := mkGitHubUser "octo" "" "";
  unjson_gh_emails _ := Ok [mkGitHubEmail "old@acme.dev" true false; mkGitHubEmail email false true];
  url_Parse url := Ok (url, ∅);
|}.

Lemma sso_demo_laws email : @SsoLaws (sso_demo email).
Proof.
  constructor; intros []; unfold json_OAuthState, unjson_OAuthState, json_OIDCState, unjson_OIDCState, sso_demo;
    by rewrite read_write.
Qed.

(** A provider that answers every request. *)
Definition always : HttpCall → Answer := λ _, Answered StatusOK "{}".

(** A server with both social logins, and a login with its state. *)
Definition social_cfg : Config :=
  mkConfig "3000" "" "" EnvProduction "" LevelInfo "json" 0 0 0 0 0 (f64_of_Z 100) 200 []
    "google-id" "google-secret" "github-id" "github-secret".

Local Existing Instance sample_runtime.
Local Existing Instance lib_demo.

Definition login_page : Request := request "GET" "/api/v1/auth/oauth/google/login" [] [].

Lemma social_state_roundtrip_witness :
  social_enabled social_cfg GitHub = true ∧
  let L := sso_demo "ada@acme.dev" in
  let '(w', rep) := serve demo_server (social_login social_cfg GitHub login_page) demo_world in
  ∃ cookie state query created,
    wd_cookies w' = wd_cookies demo_world ++ [(CookieOAuthStateName, cookie)] ∧
    wd_store w' = wd_store demo_world ∧
    rep = mkReply StatusFound (BRedirect (ep_authURL githubEndpoints) query) ∧ query !! "state" = Some [state] ∧
    ∀ r' now, Cookie r' CookieOAuthStateName = Some cookie →
      (created ≤ now ≤ created + 10 * Minute)%Z →
      is_ok (getAndVerifyOAuthStateCookie now r' "github" state) = true.
Proof.
  split; [reflexivity|].
  exact (@social_state_roundtrip (sso_demo "ada@acme.dev") (sso_demo_laws _) demo_server social_cfg GitHub
    login_page demo_world (ep_authURL githubEndpoints) ∅ eq_refl eq_refl (λ _, ltac:(discriminate))).
Defined.

(** ** Runs *)

Definition callback_request (path cookie_name cookie : string) : Request :=
  mkRequest "GET" path "flags.acme.dev" true "10.0.0.1" ∅ [(cookie_name, cookie)]
    {[ "state" := "st-1"; "code" := "c-1" ]}.

Definition google_callback : Request :=
  callback_request "/api/v1/auth/oauth/google/callback" CookieOAuthStateName
    (RawURL_encode (@json_OAuthState (sso_demo "") (mkOAuthState "google" "st-1" "n-1" 0))).

(** A callback with its cookie opens a session for the account with the address;
    with the cookie of a login with the other provider it opens none. *)
Example google_lets_bob_in :
  let L := sso_demo "Bob@Acme.dev" in
  let '(w', rep) := ApiExamples.run (handleOAuthGoogleCallback social_cfg always) google_callback demo_world in
  let '(w2, rep2) := ApiExamples.run (handleOAuthGitHubCallback social_cfg always) google_callback demo_world in
  (rep = mkReply StatusFound (BRedirect "/dashboard" ∅) ∧
   wd_cookies w' = [(CookieOAuthStateName, ""); (CookieSessionName, "4"); (CookieProjectName, "shop")] ∧
   (λ s, ss_UserID s) <$> ms_sessions (wd_store w') !! "4" = Some "bob") ∧
  rep2 = mkReply StatusFound (BRedirect "/auth"
    {["error" := ["Authentication security check failed: oauth provider mismatch"]]}).
Proof. vm_compute. done. Qed.

(** The owner of Crumb configures an identity provider of its own, without a list
    of domains. *)
Definition crumb_oidc : OIDCConfig :=
  mkOIDC "org_crumb" true "https://idp.crumb.dev/" "client" "s3cret" "" "" 0 0.

Definition oidc_world : World :=
  demo_world <| wd_store := demo_store <| ms_oidcConfigs := {[ "org_crumb" := crumb_oidc ]} |> |>.

Definition oidc_callback : Request :=
  callback_request "/api/v1/auth/oidc/callback" CookieOIDCStateName
    (RawURL_encode (@json_OIDCState (sso_demo "") (mkOIDCState "st-1" "n-1" "org_crumb" "" 0))).

(** Single sign-on crosses organizations: the provider that the owner of one
    organization configures logs in as the administrator of the platform, who is
    not a member of it (and becomes one), by naming her address; the nonce of the
    token is not the one of the login. *)
Theorem oidc_takes_over_accounts :
  let L := sso_demo "ada@acme.dev" in
  let '(w', rep) := ApiExamples.run (handleOIDCCallback always) oidc_callback oidc_world in
  is_ok (GetOrgMember (wd_store oidc_world) "org_crumb" "ada") = false ∧
  rep = mkReply StatusFound (BRedirect "/dashboard" ∅) ∧ us_Role ada = RoleAdmin ∧
  (λ s, ss_UserID s) <$> ms_sessions (wd_store w') !! "5" = Some "ada" ∧
  (CookieSessionName, "5") ∈ wd_cookies w' ∧
  is_ok (GetOrgMember (wd_store w') "org_crumb" "ada") = true.
Proof. vm_compute. split_and!; try reflexivity. left. Qed.

Lemma masked_save_roundtrip_witness :
  GetOIDCConfig (wd_store oidc_world) "org_crumb" = Some crumb_oidc ∧
  let '(_, shown) := serve demo_server (handleGetOIDCConfig "org_crumb") oidc_world in
  rp_Body shown = BOIDCConfig "org_crumb" (Some (crumb_oidc <| oc_ClientSecret := masked |>)) ∧
  let '(w2, rep) := serve demo_server
    (handleSaveOIDCConfig (Ok (crumb_oidc <| oc_ClientSecret := masked |>)) "org_crumb") oidc_world in
  rp_Status rep = StatusOK ∧ saved_as crumb_oidc "org_crumb" (wd_store w2).
Proof.
  split; [reflexivity|].
  refine (masked_save_roundtrip demo_server "org_crumb" crumb_oidc oidc_world oidc_world eq_refl eq_refl eq_refl
    _ _ _ _); discriminate.
Defined.
