(* ===== verification/ApiCanary.v ===== *)
(** * Canary rollouts over HTTP

    The handlers of [pkg/api/handlers_canary.go] and what they guarantee. *)

From S2P Require Import Prelude GoFloat GoStrings GoTime Sha256 Errors Domain Engine EngineFacts Entities.
From S2P Require Import StoreState StoreAudit StoreFlags StoreFlagsFacts StoreIdentity StoreTenancy.
From S2P Require Import StoreTables Scheduler Http Auth Access ApiFlags ApiRoutes AuthFacts.
From S2P Require Import AccessFacts ApiFlagsFacts ApiExamples.

(** * Canary rollouts over HTTP ([pkg/api/handlers_canary.go])

    The routes below a flag that submit, show, cancel and roll back a canary
    schedule.  The server's scheduler shares the store of the server; its own
    table of schedules is part of the [World].  A call of the scheduler runs under
    its lock, as one step.  The server always has a scheduler, so the guards for a
    missing one are left out. *)

(** The name under which the hub is told of an event. *)
Definition event_name (e : BroadcastEvent) : string :=
  match e with
  | canary_update _ => "canary_update"
  | canary_completed _ _ => "canary_completed"
  | canary_stage_advanced _ _ _ _ => "canary_stage_advanced"
  | canary_rollback _ _ _ => "canary_rollback"
  end.

(** A call of the scheduler, with the outside of three calls. *)
Definition scheduler_call {A}
    (f : Sys → Sys → Sys → CanaryScheduler (St := MemoryStore) → CanaryScheduler (St := MemoryStore) * A)
    : Handler A :=
  o ← outside; o1 ← outside; o2 ← outside;
  λ srv w,
    let '(cs, a) := f (out_sys o) (out_sys o1) (out_sys o2)
      (mkScheduler (wd_schedules w) (wd_store w) true []) in
    (w <| wd_store := sch_store cs |> <| wd_schedules := sch_schedules cs |>
       <| wd_broadcasts := wd_broadcasts w ++ (Event ∘ event_name <$> sch_broadcasts cs) |>, inl a).

Section Canary.
Context `{GoRuntime}.

Definition handleCreateCanary (body : result GoError CanarySchedule) (projectID flagKey : string)
    : Handler Reply :=
  match body with
  | Err e => writeText StatusBadRequest ("Invalid JSON payload: " +:+ Error e)
  | Ok req =>
      submitted ← scheduler_call (λ sys sys1 sys2 cs,
        SubmitSchedule sys sys1 sys2 cs
          (req <| cs_FlagKey := flagKey |> <| cs_ProjectID := projectID |>));
      match submitted with
      | Err e => writeText StatusBadRequest (Error e)
      | Ok sched => writeJSON StatusCreated (BCanary sched)
      end
  end.

Definition handleGetCanary (projectID flagKey : string) : Handler Reply :=
  found ← scheduler_call (λ _ _ _ cs, GetSchedule cs projectID flagKey);
  match found with
  | Some sched => writeJSON StatusOK (BCanary sched)
  | None => writeText StatusNotFound ("No active canary schedule for flag " +:+ flagKey)
  end.

Definition handleDeleteCanary (projectID flagKey : string) : Handler Reply :=
  cancelled ← scheduler_call (λ _ _ _ cs, CancelSchedule cs projectID flagKey);
  if cancelled : bool then writeJSON StatusOK (BCanaryStatus "cancelled" "" flagKey "")
  else writeText StatusNotFound "No active canary schedule found to cancel".

(** [reason]: what decoding leaves in the request, empty on an error. *)
Definition handleCanaryRollback (reason projectID flagKey : string) : Handler Reply :=
  let reason := or_default reason "External APM Alert Triggered Rollback" in
  failed ← scheduler_call (λ sys sys1 sys2 cs,
    TriggerHealthRollback sys sys1 sys2 cs projectID flagKey reason);
  match failed with
  | Some e => writeText StatusInternalServerError (Error e)
  | None => writeJSON StatusOK (BCanaryStatus "rolled_back" projectID flagKey reason)
  end.

Definition canary_path (path : string) : string := TrimPrefix path "/api/v1/flags/".

Definition is_rollback (path : string) : bool := HasSuffix (canary_path path) "/canary/rollback".

Definition canary_flag (path : string) : string :=
  Trim (TrimSuffix (TrimSuffix (canary_path path) "/canary/rollback") "/canary") "/".

(** The secret of the webhooks, in a header, the query or as a bearer token. *)
Definition webhook_authed (secret : string) (r : Request) : bool :=
  negb (secret =s? "") &&
  ((HeaderGet r "X-Webhook-Secret" =s? secret) || (QueryGet r "token" =s? secret) ||
   (TrimPrefix (HeaderGet r HeaderAuthorization) "Bearer " =s? secret)).

Definition canary_unauthorized : Reply :=
  mkReply StatusUnauthorized (BMessage "Unauthorized"
    "Authentication required. Provide a valid session, Bearer token, or X-Webhook-Secret.").

Definition rollback_route (reason flagKey : string) (r : Request) : Handler Reply :=
  if negb (rq_Method r =s? "POST") then writeText StatusMethodNotAllowed "Method Not Allowed"
  else
    webhookSecret ← Getenv "FLAGURA_WEBHOOK_SECRET";
    user ← getUserFromRequest r;
    if negb (webhook_authed webhookSecret r) && negb (is_ok user) then exit canary_unauthorized
    else
      projectID ← (if is_ok user then resolved r else resolveProjectID r);
      handleCanaryRollback reason projectID flagKey.

Definition handleCanaryRoutes (body : result GoError CanarySchedule) (reason : string) (r : Request)
    : Handler Reply :=
  let flagKey := canary_flag (rq_Path r) in
  if flagKey =s? "" then writeText StatusBadRequest "Flag key is required"
  else if is_rollback (rq_Path r) then rollback_route reason flagKey r
  else if rq_Method r =s? "POST" then
    RequireAuth (λ r, projectID ← resolved r; handleCreateCanary body projectID flagKey) r
  else if rq_Method r =s? "GET" then
    RequireAuth (λ r, projectID ← resolved r; handleGetCanary projectID flagKey) r
  else if rq_Method r =s? "DELETE" then
    RequireAuth (λ r, projectID ← resolved r; handleDeleteCanary projectID flagKey) r
  else writeText StatusMethodNotAllowed "Method Not Allowed".

End Canary.

(** * What the canary routes guarantee, and what they do not *)

Lemma wp_scheduler_call {A} srv
    (f : Sys → Sys → Sys → CanaryScheduler (St := MemoryStore) → CanaryScheduler (St := MemoryStore) * A)
    (Q : A → World → Prop) E w :
  (∀ sys sys1 sys2 w',
     let '(cs, a) := f sys sys1 sys2 (mkScheduler (wd_schedules w) (wd_store w) true []) in
     wd_store w' = sch_store cs → wd_schedules w' = sch_schedules cs → Q a w') →
  wp srv (scheduler_call f) Q E w.
Proof.
  intros HQ. unfold scheduler_call. apply wp_bind, wp_outside, wp_bind, wp_outside, wp_bind, wp_outside.
  unfold wp. set (o0 := out_sys _). set (o1 := out_sys _). set (o2 := out_sys _).
  specialize (HQ o0 o1 o2).
  change (wd_schedules (_ <| wd_step := _ |>)) with (wd_schedules w).
  change (wd_store (_ <| wd_step := _ |>)) with (wd_store w).
  destruct (f o0 o1 o2 _) as [cs a]. by apply HQ.
Qed.

(** ** Submitting, reading and cancelling *)

Lemma broadcast_store_any {St} e (cs : CanaryScheduler (St := St)) :
  sch_store (broadcast e cs) = sch_store cs.
Proof. unfold broadcast. by destruct (sch_broadcaster cs). Qed.

Section Requests.
Context `{GoRuntime}.

(** A submitted schedule touches the flags as one rollout of its project, or not at
    all. *)
Lemma SubmitSchedule_flags sys sys1 sys2 cs sched :
  ms_flagsSnapshot (sch_store (SubmitSchedule sys sys1 sys2 cs sched).1) = ms_flagsSnapshot (sch_store cs) ∨
  ∃ actor k env pct,
    ms_flagsSnapshot (sch_store (SubmitSchedule sys sys1 sys2 cs sched).1) =
    ms_flagsSnapshot (run_flag_op sys1 (sch_store cs) (or_default (cs_ProjectID sched) DefaultProjectID) actor
      (FRollout k env pct)).1.
Proof.
  unfold SubmitSchedule. destruct (cs_Stages sched) as [|first rest]; [by left|right].
  set (p := prepared _ sched first rest).
  exists auto_actor, (cs_FlagKey sched), (cs_Environment p), (cg_TargetPercentage first).
  rewrite <- run_rollout. cbn [cst_UpdateRolloutByProject memory_canary_store].
  change (cs_ProjectID p) with (or_default (cs_ProjectID sched) DefaultProjectID).
  change (cs_FlagKey p) with (cs_FlagKey sched).
  change (sch_store (set_schedule _ _ cs)) with (sch_store cs).
  destruct (UpdateRolloutByProject _ _ _ _ _ _ _) as [st [res|err]] eqn:Hu; [|done].
  cbn [cst_SaveCanarySchedule memory_canary_store fst]. by rewrite broadcast_store_any.
Qed.

(** The scheduler's calls of the session routes confine their effect on the flags
    to the project. *)
Lemma ends_scheduler {A B} srv r s
    (f : Sys → Sys → Sys → CanaryScheduler (St := MemoryStore) → CanaryScheduler (St := MemoryStore) * A)
    (k : A → Handler B) p w :
  flags_wf s → uses_only s (wd_store w) → allowed_for srv s r p → p ≠ "" → (∀ a, keeps eq (k a)) →
  (∀ sys sys1 sys2 cs, let s' := sch_store (f sys sys1 sys2 cs).1 in
     ms_flagsSnapshot s' = ms_flagsSnapshot (sch_store cs) ∨
     ∃ actor op, ms_flagsSnapshot s' = ms_flagsSnapshot (run_flag_op sys1 (sch_store cs) p actor op).1) →
  ends srv (scheduler_call f ≫= k) (confined (allowed_for srv s r) s) w.
Proof.
  intros Hwf Hu Ha Hp Hk Hf. apply wp_bind, wp_scheduler_call. intros sys sys1 sys2 w'.
  specialize (Hf sys sys1 sys2 (mkScheduler (wd_schedules w) (wd_store w) true [])).
  destruct (f sys sys1 sys2 _) as [cs a]. cbn [fst] in Hf. intros Hs _.
  apply ends_keeps; [apply Hk|]. rewrite Hs.
  assert (Hsame : ∀ s1 s2, ms_flagsSnapshot s1 = ms_flagsSnapshot s2 →
    confined (allowed_for srv s r) s s2 → confined (allowed_for srv s r) s s1).
  { intros s1 s2 E. unfold confined, flags_wf, flags_of. by rewrite E. }
  destruct Hf as [Hf|(actor & op & Hf)]; eapply Hsame; try exact Hf.
  - by apply confined_uses.
  - by apply confined_op.
Qed.

(** Canary rollouts stay in the tenant: a request to submit, read or cancel a
    schedule leaves the flags as they are, or changes them in one project that a
    user the request authenticates as may use. *)
Theorem canary_requests_confined srv body reason r w :
  all_fair srv → flags_wf (wd_store w) → named_tenants (wd_store w) → is_rollback (rq_Path r) = false →
  let s := wd_store w in
  let s' := wd_store (serve srv (handleCanaryRoutes body reason r) w).1 in
  flags_wf s' ∧
  (flags_of s' = flags_of s ∨
   ∃ u p, authenticates srv s r u ∧ may_access s r u p ∧
     other_projects p (flags_of s') = other_projects p (flags_of s)).
Proof.
  intros Hf Hwf Hten Hroute s s'.
  assert (confined (allowed_for srv s r) s s') as [Hw' Hc].
  { apply ends_serve. unfold handleCanaryRoutes. cbv zeta. rewrite Hroute.
    assert (Hstay : ∀ rep, ends srv (exit (A := Reply) rep) (confined (allowed_for srv s r) s) w).
    { intros rep. by apply wp_exit, confined_uses. }
    assert (Hauth : ∀ k : string → Handler Reply,
      (∀ p w', uses_only s (wd_store w') → allowed_for srv s r p → p ≠ "" →
         ends srv (k p) (confined (allowed_for srv s r) s) w') →
      ends srv (RequireAuth (λ r, projectID ← resolved r; k projectID) r)
        (confined (allowed_for srv s r) s) w).
    { intros k Hk. apply wp_RequireAuth; [|intros m w' Hq; apply confined_uses; [done|apply Hq]].
      intros u w' Hq Hau Hact. apply (ends_resolved srv r s Hf Hwf Hten k u w'); [|exact Hk].
      split; [apply Hq|done|by exists u]. }
    destruct (_ =s? ""); [apply Hstay|]. destruct (rq_Method r =s? "POST").
    { apply Hauth. intros p w' Hu Ha Hp. unfold handleCreateCanary.
      destruct body as [req|e]; [|by apply wp_exit, confined_uses].
      apply (ends_scheduler _ _ _ _ _ p); [done..| |].
      - intros [sched|e]; unfold writeText; keeps_all.
      - intros sys sys1 sys2 cs.
        destruct (SubmitSchedule_flags sys sys1 sys2 cs
          (req <| cs_FlagKey := canary_flag (rq_Path r) |> <| cs_ProjectID := p |>)) as [Hs|(a & k & env & pct & Hs)];
          [by left|right].
        change (cs_ProjectID (_ <| cs_ProjectID := p |>)) with p in Hs.
        rewrite or_default_nonempty in Hs by done. by exists a, (FRollout k env pct). }
    destruct (rq_Method r =s? "GET").
    { apply Hauth. intros p w' Hu Ha Hp. unfold handleGetCanary.
      apply (ends_scheduler _ _ _ _ _ p); [done..| |].
      - intros [sched|]; unfold writeText; keeps_all.
      - intros sys sys1 sys2 cs. left. unfold GetSchedule, lookup_schedule.
        by repeat case_match. }
    destruct (rq_Method r =s? "DELETE"); [|apply Hstay].
    apply Hauth. intros p w' Hu Ha Hp. unfold handleDeleteCanary.
    apply (ends_scheduler _ _ _ _ _ p); [done..| |].
    - intros []; unfold writeText; keeps_all.
    - intros sys sys1 sys2 cs. left. unfold CancelSchedule. by repeat case_match. }
  split; [done|]. destruct Hc as [Hc|(p & (u & Ha & Hm) & Hp)]; [by left|]. right. by exists u, p.
Qed.

(** A rollback needs credentials: a request to roll back that authenticates as
    nobody and does not present the configured webhook secret is refused with 401,
    and changes no flag and no schedule. *)
Theorem canary_rollback_authenticated srv reason flagKey r w :
  rq_Method r = "POST" → (∀ u, ¬ authenticates srv (wd_store w) r u) →
  webhook_authed (sv_Getenv srv "FLAGURA_WEBHOOK_SECRET") r = false →
  let '(w', rep) := serve srv (rollback_route reason flagKey r) w in
  rp_Status rep = StatusUnauthorized ∧ uses_only (wd_store w) (wd_store w').
Proof.
  intros Hm Hno Hsec. rewrite (surjective_pairing (serve _ _ _)).
  apply (wp_serve srv (rollback_route reason flagKey r) w
    (λ w' rep, rp_Status rep = StatusUnauthorized ∧ uses_only (wd_store w) (wd_store w'))).
  unfold rollback_route. rewrite Hm, str_eqb_refl. apply wp_bind, wp_getenv, wp_bind, wp_getUserFromRequest.
  intros res w1 Hw Hres. destruct res as [u|e]; [by destruct (Hno u)|]. rewrite Hsec.
  apply wp_exit. split; [done|apply Hw].
Qed.

End Requests.

(** ** Instances *)

Local Existing Instance sample_runtime.

(** A schedule with one stage of [pct] percent of the production traffic. *)
Definition one_stage (pct : Z) : CanarySchedule :=
  mkSchedule "" "" "" EnvProduction "" 0 [mkStage 0 (f64_of_Z pct) 600 0 0]
    (mkGuardrails f64_zero f64_zero false "") "" 0 0 0.

Definition bob_canary : Request := as_user "bob" "shop" "POST" "/api/v1/flags/checkout/canary".

Lemma canary_requests_confined_witness :
  let s' := wd_store (serve demo_server (handleCanaryRoutes (Ok (one_stage 10)) "" bob_canary) demo_world).1 in
  flags_of s' ≠ flags_of demo_store ∧ flags_wf s' ∧
  (flags_of s' = flags_of demo_store ∨
   ∃ u p, authenticates demo_server demo_store bob_canary u ∧ may_access demo_store bob_canary u p ∧
     other_projects p (flags_of s') = other_projects p (flags_of demo_store)).
Proof.
  split.
  - intros Heq. apply (f_equal (λ l, (λ f, ec_Percentage (EnvConfig f EnvProduction)) <$> l)) in Heq. revert Heq. vm_compute. done.
  - exact (canary_requests_confined demo_server (Ok (one_stage 10)) "" bob_canary demo_world
      demo_fair demo_flags_wf demo_tenants eq_refl).
Defined.

(** A rollback without credentials. *)
Definition stranger_rollback : Request := request "POST" "/api/v1/flags/checkout/canary/rollback" [] [].

Lemma stranger_is_nobody u : ¬ authenticates demo_server demo_store stranger_rollback u.
Proof.
  assert (Hk : Forall (λ t, t = "") (key_tokens stranger_rollback ++ session_candidates stranger_rollback))
    by (vm_compute; repeat constructor).
  rewrite Forall_app, !Forall_forall in Hk. destruct Hk as [Hk Hs].
  destruct 1 as [tok Hin Hne|tok k Hin Hne|tok sess n u Hin Hses]; [by apply Hne, Hk..|].
  rewrite (Hs tok Hin) in Hses. by vm_compute in Hses.
Qed.

Lemma canary_rollback_authenticated_witness :
  (∀ u, ¬ authenticates demo_server demo_store stranger_rollback u) ∧
  let '(w', rep) := serve demo_server (rollback_route "" "checkout" stranger_rollback) demo_world in
  rp_Status rep = StatusUnauthorized ∧ uses_only demo_store (wd_store w').
Proof.
  split; [exact stranger_is_nobody|].
  exact (canary_rollback_authenticated demo_server "" "checkout" stranger_rollback demo_world eq_refl
    stranger_is_nobody eq_refl).
Defined.

Definition production_of (w : World) (p k : string) : option f64 :=
  match GetFlagByProject (wd_store w) p k with
  | Ok f => Some (ec_Percentage (EnvConfig f EnvProduction))
  | Err _ => None
  end.

(** Canary schedules do not respect the environment a key is bound to: a key
    that may not touch production, and is refused there by the toggle and rollout
    routes, submits a canary for production, which takes effect at once. *)
Theorem canary_ignores_key_environment :
  let q := with_bearer ci_raw "shop" "POST" in
  let '(w1, rep1) := ApiExamples.run (RequireAuth (handleUpdateRollout (Ok (mkRollout EnvProduction (f64_of_Z 7) ""))))
    (q "/api/v1/flags/checkout/rollout") demo_world in
  let '(w2, rep2) := ApiExamples.run (handleCanaryRoutes (Ok (one_stage 7)) "")
    (q "/api/v1/flags/checkout/canary") demo_world in
  rp_Status rep1 = StatusForbidden ∧ rp_Status rep2 = StatusCreated ∧
  production_of w1 "shop" "checkout" = production_of demo_world "shop" "checkout" ∧
  production_of w2 "shop" "checkout" = Some (f64_of_Z 7).
Proof. vm_compute. done. Qed.

(** A store with a flag whose key begins with [canary]. *)
Definition canary_named : World :=
  demo_world <| wd_store := demo_store
    <| ms_flagsSnapshot := ms_flagsSnapshot (store_with [named_flag "f9" "shop" "canary-tests"]) |> |>.

(** A flag whose key begins with [canary] cannot be managed: its path contains
    [/canary], so deleting it through the flag routes is taken for cancelling a
    schedule and fails, and updating it is not allowed. *)
Theorem canary_prefix_captures_flags body report :
  let route := route_flags_prefix (handleCanaryRoutes (Ok (one_stage 7)) "") report body in
  let q method := as_user "eve" "shop" method "/api/v1/flags/canary-tests" in
  let '(w1, rep1) := ApiExamples.run route (q "DELETE") canary_named in
  let '(w2, rep2) := ApiExamples.run route (q "PUT") canary_named in
  is_ok (GetFlagByProject (wd_store canary_named) "shop" "canary-tests") = true ∧
  rep1 = mkReply StatusNotFound (BText "No active canary schedule found to cancel") ∧
  is_ok (GetFlagByProject (wd_store w1) "shop" "canary-tests") = true ∧
  rep2 = mkReply StatusMethodNotAllowed (BText "Method Not Allowed").
Proof. vm_compute. done. Qed.
