(* ===== verification/StreamHub.v ===== *)
(** * The stream hub ([pkg/api/stream.go])

    [StreamHub] fans the flag updates of a project out to the connections that
    stream them.  First the hub and the connections as a step function, then what
    the hub promises: no step panics, and a connection is sent, in order and at
    most once each, a part of the messages addressed to it. *)

From S2P Require Import Prelude GoFloat GoStrings GoTime Sha256 Errors Domain Entities StoreState.

(** * The stream hub ([pkg/api/stream.go])

    [StreamHub] fans the flag updates of a project out to the connections that
    stream them.  Its loop takes events from three channels and a stop signal;
    every connection is a goroutine with a bounded channel of its own.  A client
    is a pointer, so clients are names into a heap; a case of the loop runs under
    the lock and is one step; what blocks, and what panics (a send on a closed
    channel, a second close), are outcomes of a step. *)

(** ** Channels *)

(** A buffered channel: what it holds, oldest first, and whether it is closed. *)
Record channel (A : Type) := mkChan { ch_buffer : list A; ch_closed : bool }.
Arguments mkChan {A} _ _.
Arguments ch_buffer {A} _.
Arguments ch_closed {A} _.

Inductive outcome (A : Type) : Type :=
| Next (a : A)
| Blocked
| Panic.
Arguments Next {A} a.
Arguments Blocked {A}.
Arguments Panic {A}.

#[export] Instance outcome_ret : MRet outcome := @Next.
#[export] Instance outcome_bind : MBind outcome := λ A B k m,
  match m with Next a => k a | Blocked => Blocked | Panic => Panic end.

(** [select { case c <- v: default: }]: a full channel drops the value. *)
Definition try_send {A} (cap : nat) (v : A) (c : channel A) : outcome (channel A) :=
  if ch_closed c then Panic
  else if (length (ch_buffer c) <? cap)%nat then Next (mkChan (ch_buffer c ++ [v]) false)
  else Next c.

(** [close(c)]. *)
Definition close_chan {A} (c : channel A) : outcome (channel A) :=
  if ch_closed c then Panic else Next (mkChan (ch_buffer c) true).

(** ** The hub *)

Record streamClient := mkClient {
  sc_projectID : string;
  sc_environment : string;
  sc_send : channel string;
}.

Record streamBroadcastMsg := mkMsg {
  bm_projectID : string;
  bm_environment : string;
  bm_data : string;
}.

#[export] Instance msg_eq_dec : EqDecision streamBroadcastMsg.
Proof. solve_decision. Defined.

Definition client_cap : nat := 20.
Definition broadcast_cap : nat := 100.

(** [hb_heap] are the clients that were made; [hb_subs] is keyed by project and by
    [project:environment]; the unbuffered channels [register] and [unregister]
    are the meetings of a connection with the loop. *)
Record StreamHub := mkHub {
  hb_heap : gmap nat streamClient;
  hb_clients : gset nat;
  hb_subs : gmap string (gset nat);
  hb_broadcast : list streamBroadcastMsg;
  hb_stopCh : bool;
  hb_running : bool;
}.

#[export] Instance eta_StreamHub : Eta StreamHub :=
  {| eta_expand r := mkHub (hb_heap r) (hb_clients r) (hb_subs r) (hb_broadcast r) (hb_stopCh r)
       (hb_running r) |}.

(** [NewStreamHub], with [Run] started. *)
Definition NewStreamHub : StreamHub := mkHub ∅ ∅ ∅ [] false true.

Definition env_key (c : streamClient) : string := sc_projectID c +:+ ":" +:+ sc_environment c.

(** The keys a client subscribes to. *)
Definition sub_keys (c : streamClient) : list string :=
  sc_projectID c :: (if negb (sc_environment c =s? "") then [env_key c] else []).

Definition subscribe (i : nat) (subs : gmap string (gset nat)) (key : string)
    : gmap string (gset nat) :=
  <[key := {[i]} ∪ default ∅ (subs !! key)]> subs.

Definition unsubscribe (i : nat) (subs : gmap string (gset nat)) (key : string)
    : gmap string (gset nat) :=
  match subs !! key with
  | Some sub => <[key := sub ∖ {[i]}]> subs
  | None => subs
  end.

(** A change of the channel of one client, and of several, in order. *)
Definition modify (f : channel string → outcome (channel string)) (heap : gmap nat streamClient)
    (i : nat) : outcome (gmap nat streamClient) :=
  match heap !! i with
  | None => Panic
  | Some c =>
      ch ← f (sc_send c);
      Next (<[i := mkClient (sc_projectID c) (sc_environment c) ch]> heap)
  end.

Fixpoint modify_all (f : channel string → outcome (channel string)) (heap : gmap nat streamClient)
    (order : list nat) : outcome (gmap nat streamClient) :=
  match order with
  | [] => Next heap
  | i :: order => heap' ← modify f heap i; modify_all f heap' order
  end.

(** [case client := <-h.register]. *)
Definition on_register (i : nat) (h : StreamHub) : outcome StreamHub :=
  if hb_running h then
    match hb_heap h !! i with
    | None => Panic
    | Some c =>
        Next (h <| hb_clients := {[i]} ∪ hb_clients h |>
                <| hb_subs := foldl (subscribe i) (hb_subs h) (sub_keys c) |>)
    end
  else Blocked.

(** [case client := <-h.unregister]. *)
Definition on_unregister (i : nat) (h : StreamHub) : outcome StreamHub :=
  if hb_running h then
    if bool_decide (i ∈ hb_clients h) then
      match hb_heap h !! i with
      | None => Panic
      | Some c =>
          heap ← modify close_chan (hb_heap h) i;
          Next (h <| hb_clients := hb_clients h ∖ {[i]} |>
                  <| hb_subs := foldl (unsubscribe i) (hb_subs h) (sub_keys c) |>
                  <| hb_heap := heap |>)
      end
    else Next h
  else Blocked.

(** Whether a subscriber of the message's project gets it. *)
Definition env_matches (msg : streamBroadcastMsg) (c : streamClient) : bool :=
  (sc_environment c =s? "") || (bm_environment msg =s? "") ||
  (sc_environment c =s? bm_environment msg).

Definition reaches (msg : streamBroadcastMsg) (h : StreamHub) (i : nat) : bool :=
  match hb_heap h !! i with Some c => env_matches msg c | None => false end.

Definition targets (msg : streamBroadcastMsg) (h : StreamHub) : gset nat :=
  filter (λ i, reaches msg h i = true) (default ∅ (hb_subs h !! bm_projectID msg)).

(** [case msg := <-h.broadcast]; [order] is the order in which the runtime visits
    the targets. *)
Definition on_broadcast (order : list nat) (h : StreamHub) : outcome StreamHub :=
  if hb_running h then
    match hb_broadcast h with
    | [] => Blocked
    | msg :: rest =>
        if bool_decide (NoDup order ∧ list_to_set order = targets msg h) then
          heap ← modify_all (try_send client_cap (bm_data msg)) (hb_heap h) order;
          Next (h <| hb_heap := heap |> <| hb_broadcast := rest |>)
        else Blocked
    end
  else Blocked.

(** [case <-h.stopCh]. *)
Definition on_stop (h : StreamHub) : outcome StreamHub :=
  if hb_running h && hb_stopCh h then
    heap ← modify_all close_chan (hb_heap h) (elements (hb_clients h));
    Next (h <| hb_heap := heap |> <| hb_clients := ∅ |> <| hb_subs := ∅ |> <| hb_running := false |>)
  else Blocked.

(** [Close]. *)
Definition Close (h : StreamHub) : StreamHub := h <| hb_stopCh := true |>.

Definition ActiveConnections (h : StreamHub) : nat := size (hb_clients h).

(** ** Publishing *)

(** The text of one server-sent event. *)
Definition sse_frame (event data : string) : string :=
  "event: " +:+ event +:+ String "010" ("data: " +:+ data +:+ String "010" (String "010" "")).

(** The non-blocking send on [h.broadcast]. *)
Definition enqueue (msg : streamBroadcastMsg) (h : StreamHub) : StreamHub :=
  if (length (hb_broadcast h) <? broadcast_cap)%nat
  then h <| hb_broadcast := hb_broadcast h ++ [msg] |> else h.

(** The object the flag events carry. *)
Record FlagsPayload := mkPayload {
  fp_event : string;
  fp_project_id : string;
  fp_environment : string;
  fp_config_version : Z;
  fp_timestamp : Z;
  fp_flags : list FeatureFlag;
}.

(** [time.Time.UnixMilli]. *)
Definition UnixMilli (t : Time) : Z := (t / 1000000)%Z.

(** [json.Marshal] of what the hub sends: [None] is its error. *)
Class StreamJson := {
  marshal_flags : FlagsPayload → option string;
}.

Section Publish.
Context `{StreamJson}.

Definition BroadcastProjectFlags (projectID : string) (env : Environment) (configVersion : Z)
    (flags : list FeatureFlag) (now : Time) (h : StreamHub) : StreamHub :=
  let projectID := or_default projectID DefaultProjectID in
  match marshal_flags
          (mkPayload "flags_update" projectID env configVersion (UnixMilli now) flags) with
  | None => h
  | Some payload => enqueue (mkMsg projectID env (sse_frame "flags_update" payload)) h
  end.

(** [Broadcast]; [payload] is the marshalled payload. *)
Definition BroadcastEvent (event : string) (payload : option string) (h : StreamHub) : StreamHub :=
  match payload with
  | None => h
  | Some data => enqueue (mkMsg DefaultProjectID "" (sse_frame event data)) h
  end.

Definition BroadcastFlags (flags : list FeatureFlag) (now : Time) (h : StreamHub) : StreamHub :=
  BroadcastProjectFlags DefaultProjectID "" 1%Z flags now h.

(** The largest version of the flags, at least 1. *)
Definition max_version (flags : list FeatureFlag) : Z :=
  foldl (λ v f, if (v <? ff_ConfigVersion f)%Z then ff_ConfigVersion f else v) 1%Z flags.

End Publish.

(** ** Connections *)

(** Where the goroutine of a connection is: it made its client; it streams; it
    runs its deferred [unregister]; it has returned. *)
Inductive phase := Opening | Streaming | Leaving | Gone.

#[export] Instance phase_eq_dec : EqDecision phase.
Proof. solve_decision. Defined.

(** [cn_written] is what was written to the response after the initial event. *)
Record Conn := mkConn { cn_phase : phase; cn_written : list string }.

(** [sy_handled] is the history of the messages the loop has delivered. *)
Record System := mkSystem {
  sy_hub : StreamHub;
  sy_conns : gmap nat Conn;
  sy_handled : list streamBroadcastMsg;
}.

#[export] Instance eta_System : Eta System :=
  {| eta_expand r := mkSystem (sy_hub r) (sy_conns r) (sy_handled r) |}.

(** The steps, by who moves: a connection, a publisher, the loop, the closer. *)
Inductive action :=
| AOpen (i : nat) (projectID environment : string)
| ARegister (i : nat)
| AReceive (i : nat) (written : bool)
| ADisconnect (i : nat)
| AUnregister (i : nat)
| APublish (msg : streamBroadcastMsg)
| ADeliver (order : list nat)
| AClose
| AStop.

Definition move (i : nat) (c : Conn) (h : StreamHub) (s : System) : System :=
  s <| sy_hub := h |> <| sy_conns := <[i := c]> (sy_conns s) |>.

(** [case msg, ok := <-client.send]: a failed write ends the stream, and so does
    a closed channel once it is drained. *)
Definition receive (i : nat) (written : bool) (c : Conn) (cl : streamClient) (s : System)
    : outcome System :=
  match ch_buffer (sc_send cl) with
  | msg :: rest =>
      let cl' := mkClient (sc_projectID cl) (sc_environment cl)
                   (mkChan rest (ch_closed (sc_send cl))) in
      let h := sy_hub s <| hb_heap := <[i := cl']> (hb_heap (sy_hub s)) |> in
      Next (move i (if written then mkConn Streaming (cn_written c ++ [msg])
                    else mkConn Leaving (cn_written c)) h s)
  | [] =>
      if ch_closed (sc_send cl) then Next (move i (mkConn Leaving (cn_written c)) (sy_hub s) s)
      else Blocked
  end.

Definition in_phase (p : phase) (i : nat) (s : System) (k : Conn → outcome System)
    : outcome System :=
  match sy_conns s !! i with
  | Some c => if bool_decide (cn_phase c = p) then k c else Blocked
  | None => Blocked
  end.

Definition step (a : action) (s : System) : outcome System :=
  let h := sy_hub s in
  match a with
  | AOpen i p e =>
      if bool_decide (i ∈ dom (hb_heap h)) then Blocked
      else Next (move i (mkConn Opening [])
                   (h <| hb_heap := <[i := mkClient p e (mkChan [] false)]> (hb_heap h) |>) s)
  | ARegister i =>
      in_phase Opening i s (λ c, h' ← on_register i h; Next (move i (mkConn Streaming (cn_written c)) h' s))
  | AReceive i written =>
      in_phase Streaming i s (λ c,
        match hb_heap h !! i with Some cl => receive i written c cl s | None => Panic end)
  | ADisconnect i => in_phase Streaming i s (λ c, Next (move i (mkConn Leaving (cn_written c)) h s))
  | AUnregister i =>
      in_phase Leaving i s (λ c, h' ← on_unregister i h; Next (move i (mkConn Gone (cn_written c)) h' s))
  | APublish msg => Next (s <| sy_hub := enqueue msg h |>)
  | ADeliver order =>
      h' ← on_broadcast order h;
      Next (s <| sy_hub := h' |> <| sy_handled := sy_handled s ++ take 1 (hb_broadcast h) |>)
  | AClose => Next (s <| sy_hub := Close h |>)
  | AStop => h' ← on_stop h; Next (s <| sy_hub := h' |>)
  end.

(** A run skips the actions that block. *)
Fixpoint run (acts : list action) (s : System) : outcome System :=
  match acts with
  | [] => Next s
  | a :: acts =>
      match step a s with
      | Next s' => run acts s'
      | Blocked => run acts s
      | Panic => Panic
      end
  end.

Definition init : System := mkSystem NewStreamHub ∅ [].

(** * What the stream hub promises

    [wf] relates the three views of a connection that the hub and its goroutines
    keep (the set of clients, the subscriptions, the phase of the goroutine) and
    bounds the channels; every step keeps it and no step of a well-formed system
    panics.  What a connection is sent is, in order and at most once each, a part
    of the messages addressed to it. *)

Lemma elem_of_sub_keys cl key :
  key ∈ sub_keys cl ↔ key = sc_projectID cl ∨ (sc_environment cl ≠ "" ∧ key = env_key cl).
Proof.
  unfold sub_keys.
  rewrite elem_of_cons. destruct (sc_environment cl =s? "") eqn:He; simpl.
  - apply str_eqb_eq in He. rewrite elem_of_nil. tauto.
  - apply str_eqb_neq in He. rewrite list_elem_of_singleton. tauto.
Qed.

#[local] Opaque sub_keys.

(** ** The loops over clients *)

Definition with_chan (c : streamClient) (ch : channel string) : streamClient :=
  mkClient (sc_projectID c) (sc_environment c) ch.

(** Changing several clients changes each of them, when no change panics. *)
Lemma modify_all_spec f l heap :
  NoDup l →
  (∀ i, i ∈ l → ∃ c ch, heap !! i = Some c ∧ f (sc_send c) = Next ch) →
  ∃ heap', modify_all f heap l = Next heap' ∧
    (∀ i, i ∉ l → heap' !! i = heap !! i) ∧
    (∀ i c ch, i ∈ l → heap !! i = Some c → f (sc_send c) = Next ch →
       heap' !! i = Some (with_chan c ch)).
Proof.
  revert heap. induction l as [|j l IH]; intros heap Hnd Hall; simpl.
  { exists heap. split_and!; [done|done|]. intros i c ch Hi. by apply not_elem_of_nil in Hi. }
  apply NoDup_cons in Hnd as [Hj Hnd].
  destruct (Hall j) as (c & ch & Hc & Hf); [apply elem_of_cons; by left|].
  destruct (IH (<[j := with_chan c ch]> heap)) as (heap' & Hrun & Hout & Hin); [done| |].
  - intros i Hi. destruct (Hall i) as (c' & ch' & Hc' & Hf'); [apply elem_of_cons; by right|].
    exists c', ch'. split; [|done]. rewrite lookup_insert_ne; [done|]. by intros ->.
  - exists heap'. unfold modify. rewrite Hc. cbn. rewrite Hf. split_and!; [exact Hrun| |].
    + intros i Hi. apply not_elem_of_cons in Hi as [? Hi]. rewrite Hout by done.
      by rewrite lookup_insert_ne.
    + intros i c' ch' Hi Hc' Hf'. destruct (decide (i = j)) as [-> | Hne].
      * rewrite Hout by done. rewrite lookup_insert_eq. congruence.
      * apply elem_of_cons in Hi as [? | Hi]; [done|]. apply Hin; [done| |done].
        by rewrite lookup_insert_ne.
Qed.

Lemma modify_spec f heap i c ch :
  heap !! i = Some c → f (sc_send c) = Next ch →
  modify f heap i = Next (<[i := with_chan c ch]> heap).
Proof. intros Hc Hf. unfold modify. rewrite Hc. cbn. by rewrite Hf. Qed.

(** ** Subscriptions *)

Definition subscribed (subs : gmap string (gset nat)) (key : string) (i : nat) : Prop :=
  i ∈ default ∅ (subs !! key).

Lemma subscribe_spec i subs k key j :
  subscribed (subscribe i subs k) key j ↔ (j = i ∧ key = k) ∨ subscribed subs key j.
Proof.
  unfold subscribed, subscribe. destruct (decide (k = key)) as [-> | Hne].
  - rewrite lookup_insert_eq. simpl. rewrite elem_of_union, elem_of_singleton. tauto.
  - rewrite lookup_insert_ne by done. intuition congruence.
Qed.

Lemma unsubscribe_spec i subs k key j :
  subscribed (unsubscribe i subs k) key j ↔ ¬ (j = i ∧ key = k) ∧ subscribed subs key j.
Proof.
  unfold subscribed, unsubscribe. destruct (subs !! k) as [sub|] eqn:Hk.
  - destruct (decide (k = key)) as [-> | Hne].
    + rewrite lookup_insert_eq, Hk. simpl. rewrite elem_of_difference, elem_of_singleton. tauto.
    + rewrite lookup_insert_ne by done. intuition congruence.
  - destruct (decide (k = key)) as [-> | Hne]; [|intuition congruence].
    rewrite Hk. simpl. rewrite elem_of_empty. tauto.
Qed.

Lemma subscribe_all_spec i keys subs key j :
  subscribed (foldl (subscribe i) subs keys) key j ↔ (j = i ∧ key ∈ keys) ∨ subscribed subs key j.
Proof.
  revert subs. induction keys as [|k keys IH]; intros subs; simpl.
  { rewrite elem_of_nil. tauto. }
  rewrite IH, subscribe_spec, elem_of_cons. tauto.
Qed.

Lemma unsubscribe_all_spec i keys subs key j :
  subscribed (foldl (unsubscribe i) subs keys) key j
  ↔ ¬ (j = i ∧ key ∈ keys) ∧ subscribed subs key j.
Proof.
  revert subs. induction keys as [|k keys IH]; intros subs; simpl.
  { rewrite elem_of_nil. tauto. }
  rewrite IH, unsubscribe_spec, elem_of_cons. tauto.
Qed.

(** ** The invariant *)

(** The messages addressed to a client: those of its project (or, the keys being
    shared, of a project named like its project and environment), for its
    environment or for all. *)
Definition addressed (cl : streamClient) (m : streamBroadcastMsg) : bool :=
  bool_decide (bm_projectID m ∈ sub_keys cl) && env_matches m cl.

Definition addressed_data (cl : streamClient) (ms : list streamBroadcastMsg) : list string :=
  bm_data <$> filter (λ m, addressed cl m = true) ms.

Record client_ok (running : bool) (live : Prop) (handled : list streamBroadcastMsg)
    (c : Conn) (cl : streamClient) : Prop := {
  co_bound : (length (ch_buffer (sc_send cl)) ≤ client_cap)%nat;
  co_live : live → ch_closed (sc_send cl) = false;
  co_opening : cn_phase c = Opening → ¬ live ∧ sc_send cl = mkChan [] false ∧ cn_written c = [];
  co_open : cn_phase c = Streaming ∨ cn_phase c = Leaving → running = true → live;
  co_gone : cn_phase c = Gone → ¬ live;
  co_sent : sublist (cn_written c ++ ch_buffer (sc_send cl)) (addressed_data cl handled);
}.

Definition slot_ok (running : bool) (live : Prop) (handled : list streamBroadcastMsg)
    (c : option Conn) (cl : option streamClient) : Prop :=
  match c, cl with
  | Some c, Some cl => client_ok running live handled c cl
  | None, None => ¬ live
  | _, _ => False
  end.

Definition keys_of (heap : gmap nat streamClient) (i : nat) : list string :=
  match heap !! i with Some cl => sub_keys cl | None => [] end.

Record wf (s : System) : Prop := {
  wf_queue : (length (hb_broadcast (sy_hub s)) ≤ broadcast_cap)%nat;
  wf_slot : ∀ i, slot_ok (hb_running (sy_hub s)) (i ∈ hb_clients (sy_hub s)) (sy_handled s)
                   (sy_conns s !! i) (hb_heap (sy_hub s) !! i);
  wf_subs : ∀ key i, subscribed (hb_subs (sy_hub s)) key i ↔
              i ∈ hb_clients (sy_hub s) ∧ key ∈ keys_of (hb_heap (sy_hub s)) i;
  wf_stopped : hb_running (sy_hub s) = false → hb_clients (sy_hub s) = ∅;
}.

Lemma wf_init : wf init.
Proof.
  split; simpl.
  - unfold broadcast_cap. lia.
  - intros i. rewrite !lookup_empty. simpl. apply not_elem_of_empty.
  - intros key i. unfold subscribed. rewrite lookup_empty. simpl. rewrite !elem_of_empty. tauto.
  - done.
Qed.

Lemma slot_conn running live handled c clo :
  slot_ok running live handled (Some c) clo → ∃ cl, clo = Some cl ∧ client_ok running live handled c cl.
Proof. destruct clo as [cl|]; [|done]. intros ?. by exists cl. Qed.

Lemma slot_live running (live : Prop) handled co clo :
  slot_ok running live handled co clo → live →
  ∃ c cl, co = Some c ∧ clo = Some cl ∧ client_ok running live handled c cl.
Proof. destruct co, clo; simpl; try done. intros ? ?. by eexists _, _. Qed.

Lemma slot_mono running (live live' : Prop) handled co clo :
  (live ↔ live') → slot_ok running live handled co clo → slot_ok running live' handled co clo.
Proof.
  intros Hl. destruct co as [c|], clo as [cl|]; simpl; try tauto.
  intros []. split; tauto.
Qed.

(** ** Every step keeps it *)

Lemma keys_of_insert heap i cl cl' j :
  heap !! i = Some cl → sub_keys cl' = sub_keys cl → keys_of (<[i := cl']> heap) j = keys_of heap j.
Proof.
  intros Hi Hk. unfold keys_of. destruct (decide (i = j)) as [-> | Hne].
  - by rewrite lookup_insert_eq, Hi.
  - by rewrite lookup_insert_ne.
Qed.

Lemma slot_other (s : System) i j (c : Conn) (cl : streamClient) (live : Prop) :
  i ≠ j → wf s → (j ∈ hb_clients (sy_hub s) ↔ live) →
  slot_ok (hb_running (sy_hub s)) live (sy_handled s)
    (<[i := c]> (sy_conns s) !! j) (<[i := cl]> (hb_heap (sy_hub s)) !! j).
Proof.
  intros Hne Hs Hl. rewrite !lookup_insert_ne by done. eapply slot_mono; [exact Hl|apply (wf_slot _ Hs)].
Qed.

(** A step that changes one connection, its channel and its place among the
    clients. *)
Lemma wf_one s i c cl (clients' : gset nat) (subs' : gmap string (gset nat)) :
  wf s → i ∈ dom (sy_conns s) →
  client_ok (hb_running (sy_hub s)) (i ∈ clients') (sy_handled s) c cl →
  sub_keys cl = keys_of (hb_heap (sy_hub s)) i →
  (∀ j, j ≠ i → j ∈ hb_clients (sy_hub s) ↔ j ∈ clients') →
  (∀ key j, subscribed subs' key j ↔
     if decide (j = i) then i ∈ clients' ∧ key ∈ sub_keys cl else subscribed (hb_subs (sy_hub s)) key j) →
  (hb_running (sy_hub s) = false → clients' = ∅) →
  wf (move i c (sy_hub s <| hb_clients := clients' |> <| hb_subs := subs' |>
        <| hb_heap := <[i := cl]> (hb_heap (sy_hub s)) |>) s).
Proof.
  intros Hs Hi Hc Hk Hcl Hsubs Hstop. split; simpl.
  - apply (wf_queue _ Hs).
  - intros j. destruct (decide (i = j)) as [<- | Hne].
    + rewrite !lookup_insert_eq. exact Hc.
    + apply slot_other; auto.
  - intros key j. rewrite Hsubs. unfold keys_of. case_decide as Hj.
    + subst j. by rewrite lookup_insert_eq.
    + rewrite lookup_insert_ne by done. rewrite (wf_subs _ Hs), <- Hcl by done. done.
  - exact Hstop.
Qed.

Lemma wf_move s i c cl :
  wf s → i ∈ dom (sy_conns s) →
  client_ok (hb_running (sy_hub s)) (i ∈ hb_clients (sy_hub s)) (sy_handled s) c cl →
  sub_keys cl = keys_of (hb_heap (sy_hub s)) i →
  wf (move i c (sy_hub s <| hb_heap := <[i := cl]> (hb_heap (sy_hub s)) |>) s).
Proof.
  intros Hs Hi Hc Hk.
  pose proof (wf_one s i c cl (hb_clients (sy_hub s)) (hb_subs (sy_hub s)) Hs Hi Hc Hk) as H.
  destruct s as [[] conns handled]. apply H; [done| |apply (wf_stopped _ Hs)].
  intros key j. case_decide as Hj; [|done]. subst. rewrite (wf_subs _ Hs). by rewrite Hk.
Qed.

Lemma wf_phase s i c cl :
  wf s → i ∈ dom (sy_conns s) → hb_heap (sy_hub s) !! i = Some cl →
  client_ok (hb_running (sy_hub s)) (i ∈ hb_clients (sy_hub s)) (sy_handled s) c cl →
  wf (move i c (sy_hub s) s).
Proof.
  intros Hs Hi Hcl Hc. assert (sub_keys cl = keys_of (hb_heap (sy_hub s)) i) as Hk.
  { unfold keys_of. by rewrite Hcl. }
  pose proof (wf_move s i c cl Hs Hi Hc Hk) as H.
  destruct s as [[heap] conns handled]. simpl in *. by rewrite (insert_id heap i cl Hcl) in H.
Qed.

(** A step that does not panic and, when it is taken, keeps the system well formed. *)
Definition safe (o : outcome System) : Prop :=
  match o with Next s => wf s | Blocked => True | Panic => False end.

Lemma in_phase_safe p i s k :
  wf s →
  (∀ c cl, i ∈ dom (sy_conns s) → hb_heap (sy_hub s) !! i = Some cl → cn_phase c = p →
     client_ok (hb_running (sy_hub s)) (i ∈ hb_clients (sy_hub s)) (sy_handled s) c cl →
     safe (k c)) →
  safe (in_phase p i s k).
Proof.
  intros Hs Hk. unfold in_phase. pose proof (wf_slot _ Hs i) as Hi.
  destruct (sy_conns s !! i) as [c|] eqn:Hc; [|done].
  case_bool_decide as Hp; [|done]. apply slot_conn in Hi as (cl & Hcl & Hok).
  apply (Hk c cl); [|done..]. apply elem_of_dom. by exists c.
Qed.

Lemma wf_open s i p e : wf s → safe (step (AOpen i p e) s).
Proof.
  intros Hs. simpl. case_bool_decide as Hi; [done|].
  apply not_elem_of_dom in Hi. pose proof (wf_slot _ Hs i) as Hslot. rewrite Hi in Hslot.
  destruct (sy_conns s !! i) eqn:Hc; [done|]. simpl in Hslot. split; simpl.
  - apply (wf_queue _ Hs).
  - intros j. destruct (decide (i = j)) as [<- | Hne].
    + rewrite !lookup_insert_eq. simpl. split; simpl; try done.
      * unfold client_cap. lia.
      * intros [? | ?]; done.
      * apply sublist_nil_l.
    + by apply slot_other.
  - intros key j. rewrite (wf_subs _ Hs). unfold keys_of.
    destruct (decide (i = j)) as [<- | Hne]; [tauto|]. by rewrite lookup_insert_ne.
  - apply (wf_stopped _ Hs).
Qed.

Lemma wf_register s i : wf s → safe (step (ARegister i) s).
Proof.
  intros Hs. apply in_phase_safe; [done|]. intros c cl Hi Hcl Hp Hok.
  destruct (co_opening _ _ _ _ _ Hok Hp) as (Hlive & Hch & Hw).
  unfold on_register. destruct (hb_running (sy_hub s)) eqn:Hrun; [|done].
  rewrite Hcl. cbv [mbind outcome_bind safe].
  assert (sy_hub s <| hb_heap := <[i := cl]> (hb_heap (sy_hub s)) |> = sy_hub s) as Hsame.
  { destruct (sy_hub s) as [heap]. simpl in *. by rewrite insert_id. }
  pose proof (wf_one s i (mkConn Streaming (cn_written c)) cl ({[i]} ∪ hb_clients (sy_hub s))
    (foldl (subscribe i) (hb_subs (sy_hub s)) (sub_keys cl)) Hs) as H.
  rewrite <- Hsame. destruct s as [[] conns handled]. simpl in *. apply H; clear H.
  - done.
  - rewrite Hrun, Hw. split; simpl; rewrite ?Hch; simpl; try done.
    + unfold client_cap. lia.
    + intros _ _. apply elem_of_union. left. by apply elem_of_singleton.
    + apply sublist_nil_l.
  - unfold keys_of. by rewrite Hcl.
  - intros j Hj. rewrite elem_of_union, elem_of_singleton. tauto.
  - intros key j. rewrite subscribe_all_spec. case_decide as Hj; [subst j|tauto].
    rewrite (wf_subs _ Hs). simpl. rewrite elem_of_union, elem_of_singleton. tauto.
  - congruence.
Qed.

Lemma wf_receive s i written : wf s → safe (step (AReceive i written) s).
Proof.
  intros Hs. apply in_phase_safe; [done|]. intros c cl Hi Hcl Hp []. rewrite Hcl.
  unfold receive. destruct (ch_buffer (sc_send cl)) as [|msg rest] eqn:Hb.
  - destruct (ch_closed (sc_send cl)) eqn:Hclosed; [|done]. simpl.
    apply (wf_phase s i _ cl); [done..|]. rewrite Hp in *.
    split; simpl; rewrite ?Hb, ?Hclosed; auto; done.
  - apply wf_move; [done|done| |unfold keys_of; by rewrite Hcl]. rewrite Hp in *.
    assert (length rest ≤ client_cap)%nat by (simpl in *; lia).
    destruct written; split; simpl; auto; try done.
    + by rewrite <- app_assoc.
    + etrans; [|exact co_sent0]. apply sublist_app; [done|]. by apply sublist_cons.
Qed.

Lemma wf_disconnect s i : wf s → safe (step (ADisconnect i) s).
Proof.
  intros Hs. apply in_phase_safe; [done|]. intros c cl Hi Hcl Hp []. rewrite Hp in *.
  apply (wf_phase s i _ cl); [done..|]. split; simpl; auto; done.
Qed.

Lemma wf_unregister s i : wf s → safe (step (AUnregister i) s).
Proof.
  intros Hs. apply in_phase_safe; [done|]. intros c cl Hi Hcl Hp Hok. unfold on_unregister.
  destruct (hb_running (sy_hub s)) eqn:Hrun; [|done].
  assert (i ∈ hb_clients (sy_hub s)) as Hlive by (apply (co_open _ _ _ _ _ Hok); auto).
  rewrite bool_decide_true by done. rewrite Hcl.
  assert (close_chan (sc_send cl) = Next (mkChan (ch_buffer (sc_send cl)) true)) as Hclose.
  { unfold close_chan. by rewrite (co_live _ _ _ _ _ Hok Hlive). }
  rewrite (modify_spec _ _ _ _ _ Hcl Hclose). cbv [mbind outcome_bind safe].
  pose proof (wf_one s i (mkConn Gone (cn_written c))
    (with_chan cl (mkChan (ch_buffer (sc_send cl)) true)) (hb_clients (sy_hub s) ∖ {[i]})
    (foldl (unsubscribe i) (hb_subs (sy_hub s)) (sub_keys cl)) Hs Hi) as H.
  destruct s as [[] conns handled]. simpl in *. apply H; clear H.
  - destruct Hok. split; simpl; auto; rewrite ?elem_of_difference, ?elem_of_singleton;
      try tauto; try done; intros [? | ?]; done.
  - unfold keys_of. by rewrite Hcl.
  - intros j Hj. rewrite elem_of_difference, elem_of_singleton. tauto.
  - intros key j. rewrite unsubscribe_all_spec. case_decide as Hj; [subst j|tauto].
    rewrite (wf_subs _ Hs). simpl. unfold keys_of. rewrite Hcl, elem_of_difference, elem_of_singleton.
    tauto.
  - congruence.
Qed.

Lemma enqueue_bound msg h :
  (length (hb_broadcast h) ≤ broadcast_cap)%nat → (length (hb_broadcast (enqueue msg h)) ≤ broadcast_cap)%nat.
Proof.
  unfold enqueue. destruct (Nat.ltb_spec (length (hb_broadcast h)) broadcast_cap); simpl; [|done].
  rewrite length_app. simpl. lia.
Qed.

Lemma wf_enqueue s msg : wf s → wf (s <| sy_hub := enqueue msg (sy_hub s) |>).
Proof.
  intros []. split; simpl; [by apply enqueue_bound|unfold enqueue; by case_match..].
Qed.

Lemma wf_close s : wf s → wf (s <| sy_hub := Close (sy_hub s) |>).
Proof. intros []. by split. Qed.

Lemma elem_of_targets s msg i :
  wf s →
  i ∈ targets msg (sy_hub s) ↔
  i ∈ hb_clients (sy_hub s) ∧ ∃ cl, hb_heap (sy_hub s) !! i = Some cl ∧ addressed cl msg = true.
Proof.
  intros Hs. unfold targets. rewrite elem_of_filter.
  pose proof (wf_subs _ Hs (bm_projectID msg) i) as Hsub. unfold subscribed in Hsub. rewrite Hsub.
  unfold reaches, keys_of, addressed. destruct (hb_heap (sy_hub s) !! i) as [cl|].
  - split.
    + intros (He & Hl & Hk). split; [done|]. exists cl. by rewrite bool_decide_true, He.
    + intros (Hl & _ & [= <-] & [Hk%bool_decide_eq_true He]%andb_true_iff). done.
  - split; [by intros [? _]|]. by intros (_ & ? & ? & _).
Qed.

Lemma try_send_spec {A} cap (v : A) c :
  ch_closed c = false → (length (ch_buffer c) ≤ cap)%nat →
  ∃ b, try_send cap v c = Next (mkChan b false) ∧ (length b ≤ cap)%nat ∧
    (b = ch_buffer c ++ [v] ∨ length (ch_buffer c) = cap ∧ b = ch_buffer c).
Proof.
  intros Hc Hb. unfold try_send. rewrite Hc.
  destruct (Nat.ltb_spec (length (ch_buffer c)) cap); eexists; split_and!; eauto.
  - rewrite length_app. simpl. lia.
  - destruct c as [b closed]. simpl in *. by rewrite Hc.
  - right. split; [lia|done].
Qed.

Lemma addressed_data_snoc cl ms m :
  addressed_data cl (ms ++ [m])
  = addressed_data cl ms ++ (if addressed cl m then [bm_data m] else []).
Proof.
  unfold addressed_data. rewrite filter_app, fmap_app. f_equal.
  destruct (addressed cl m) eqn:Ha; simpl.
  - by rewrite filter_cons_True.
  - rewrite filter_cons_False; [done|congruence].
Qed.

(** What the delivery of a message does to the clients. *)
Lemma deliver_effect s order msg rest :
  wf s → hb_running (sy_hub s) = true → hb_broadcast (sy_hub s) = msg :: rest →
  NoDup order → list_to_set order = targets msg (sy_hub s) →
  ∃ heap', step (ADeliver order) s
      = Next (s <| sy_hub := sy_hub s <| hb_heap := heap' |> <| hb_broadcast := rest |> |>
                <| sy_handled := sy_handled s ++ [msg] |>) ∧
    (∀ i, i ∉ targets msg (sy_hub s) → heap' !! i = hb_heap (sy_hub s) !! i) ∧
    (∀ i cl, i ∈ targets msg (sy_hub s) → hb_heap (sy_hub s) !! i = Some cl →
       ∃ b, heap' !! i = Some (with_chan cl (mkChan b false)) ∧ (length b ≤ client_cap)%nat ∧
         (b = ch_buffer (sc_send cl) ++ [bm_data msg] ∨
          length (ch_buffer (sc_send cl)) = client_cap ∧ b = ch_buffer (sc_send cl))).
Proof.
  intros Hs Hrun Hq Hnd Hset.
  assert (∀ i, i ∈ order ↔ i ∈ targets msg (sy_hub s)) as Hord.
  { intros i. by rewrite <- Hset, elem_of_list_to_set. }
  assert (∀ i, i ∈ order → ∃ cl b, hb_heap (sy_hub s) !! i = Some cl ∧
    try_send client_cap (bm_data msg) (sc_send cl) = Next (mkChan b false) ∧
    (length b ≤ client_cap)%nat ∧ (b = ch_buffer (sc_send cl) ++ [bm_data msg] ∨
          length (ch_buffer (sc_send cl)) = client_cap ∧ b = ch_buffer (sc_send cl))) as Hsend.
  { intros i [Hl (cl & Hcl & _)]%Hord%elem_of_targets; [|done].
    destruct (slot_live _ _ _ _ _ (wf_slot _ Hs i) Hl) as (c & cl' & _ & Hcl' & Hok).
    assert (cl' = cl) as -> by congruence.
    destruct (try_send_spec client_cap (bm_data msg) (sc_send cl)) as (b & ? & ? & ?);
      [by apply Hok..|]. by exists cl, b. }
  destruct (modify_all_spec (try_send client_cap (bm_data msg)) order (hb_heap (sy_hub s)))
    as (heap' & Hmod & Hout & Hin); [done| |].
  { intros i Hi. destruct (Hsend i Hi) as (cl & b & ? & ? & _). by eexists _, _. }
  exists heap'. split_and!.
  - unfold step, on_broadcast. rewrite Hrun, Hq, bool_decide_true by done. by rewrite Hmod.
  - intros i Hi. apply Hout. by rewrite Hord.
  - intros i cl Hi Hcl. destruct (Hsend i) as (cl' & b & Hcl' & Hb & ? & ?); [by apply Hord|].
    assert (cl' = cl) as -> by congruence. exists b. split_and!; [|done..].
    apply Hin; [by apply Hord|done..].
Qed.

Lemma wf_deliver s order : wf s → safe (step (ADeliver order) s).
Proof.
  intros Hs. destruct (hb_running (sy_hub s)) eqn:Hrun; [|unfold step, on_broadcast; by rewrite Hrun].
  destruct (hb_broadcast (sy_hub s)) as [|msg rest] eqn:Hq;
    [unfold step, on_broadcast; by rewrite Hrun, Hq|].
  destruct (decide (NoDup order ∧ list_to_set order = targets msg (sy_hub s))) as [[Hnd Hset] | Hno];
    [|unfold step, on_broadcast; by rewrite Hrun, Hq, bool_decide_false].
  destruct (deliver_effect s order msg rest) as (heap' & -> & Hout & Hin); [done..|].
  cbv [safe].
  assert (∀ i, keys_of heap' i = keys_of (hb_heap (sy_hub s)) i) as Hkeys.
  { intros i. unfold keys_of. destruct (decide (i ∈ targets msg (sy_hub s))) as [Hi | Hi].
    - pose proof Hi as [_ (cl & Hcl & _)]%elem_of_targets; [|done].
      destruct (Hin i cl Hi Hcl) as (b & -> & _). by rewrite Hcl.
    - by rewrite Hout. }
  split; simpl.
  - pose proof (wf_queue _ Hs) as Hb. rewrite Hq in Hb. simpl in Hb. lia.
  - intros i. destruct (decide (i ∈ targets msg (sy_hub s))) as [Hi | Hi].
    + pose proof Hi as [Hl (cl & Hcl & Ha)]%elem_of_targets; [|done].
      destruct (slot_live _ _ _ _ _ (wf_slot _ Hs i) Hl) as (c & cl' & Hc & Hcl' & []).
      assert (cl' = cl) as -> by congruence.
      destruct (Hin i cl Hi Hcl) as (b & -> & Hb & Hbuf). rewrite Hc. simpl. split; simpl; auto.
      * intros Hp. by destruct (co_opening0 Hp).
      * change (addressed_data (with_chan cl (mkChan b false)) ?ms) with (addressed_data cl ms).
        rewrite addressed_data_snoc, Ha. destruct Hbuf as [-> | [_ ->]].
        -- rewrite app_assoc. by apply sublist_app.
        -- by apply sublist_inserts_r.
    + rewrite Hout by done. pose proof (wf_slot _ Hs i) as Hslot.
      destruct (sy_conns s !! i), (hb_heap (sy_hub s) !! i); try done. destruct Hslot.
      split; auto. rewrite addressed_data_snoc. by apply sublist_inserts_r.
  - intros key i. by rewrite Hkeys, (wf_subs _ Hs).
  - apply (wf_stopped _ Hs).
Qed.

Lemma wf_stop s : wf s → safe (step AStop s).
Proof.
  intros Hs. unfold step, on_stop.
  destruct (hb_running (sy_hub s) && hb_stopCh (sy_hub s)) eqn:Hstop; [|done].
  assert (∀ i, i ∈ elements (hb_clients (sy_hub s)) → ∃ cl, hb_heap (sy_hub s) !! i = Some cl ∧
    close_chan (sc_send cl) = Next (mkChan (ch_buffer (sc_send cl)) true)) as Hclose.
  { intros i Hi%elem_of_elements.
    destruct (slot_live _ _ _ _ _ (wf_slot _ Hs i) Hi) as (c & cl & _ & Hcl & Hok).
    exists cl. split; [done|]. unfold close_chan. by rewrite (co_live _ _ _ _ _ Hok Hi). }
  destruct (modify_all_spec close_chan (elements (hb_clients (sy_hub s))) (hb_heap (sy_hub s)))
    as (heap' & -> & Hout & Hin); [apply NoDup_elements| |].
  { intros i Hi. destruct (Hclose i Hi) as (cl & ? & ?). by eexists _, _. }
  cbv [mbind outcome_bind safe]. split; simpl.
  - apply (wf_queue _ Hs).
  - intros i. pose proof (wf_slot _ Hs i) as Hslot.
    destruct (decide (i ∈ elements (hb_clients (sy_hub s)))) as [Hi | Hi].
    + destruct (Hclose i Hi) as (cl & Hcl & Hch). rewrite (Hin i cl _ Hi Hcl Hch).
      rewrite Hcl in Hslot. destruct (sy_conns s !! i) as [c|]; [|done]. destruct Hslot.
      assert (i ∈ hb_clients (sy_hub s)) as Hlive by (by apply elem_of_elements).
      split; simpl; auto; try done; try (intros ?; apply not_elem_of_empty).
      intros Hp. by destruct (co_opening0 Hp).
    + rewrite Hout by done. rewrite elem_of_elements in Hi.
      destruct (sy_conns s !! i), (hb_heap (sy_hub s) !! i); try done. destruct Hslot.
      split; auto; try done; try (intros ?; apply not_elem_of_empty).
      intros Hp. destruct (co_opening0 Hp) as (_ & ? & ?).
      split_and!; [apply not_elem_of_empty|done..].
  - intros key i. unfold subscribed. rewrite lookup_empty. simpl. rewrite !elem_of_empty. tauto.
  - done.
Qed.

Lemma wf_step a s : wf s → safe (step a s).
Proof.
  intros Hs. destruct a.
  - by apply wf_open.
  - by apply wf_register.
  - by apply wf_receive.
  - by apply wf_disconnect.
  - by apply wf_unregister.
  - by apply wf_enqueue.
  - by apply wf_deliver.
  - by apply wf_close.
  - by apply wf_stop.
Qed.

Lemma wf_run acts s : wf s → ∃ s', run acts s = Next s' ∧ wf s'.
Proof.
  revert s. induction acts as [|a acts IH]; intros s Hs; simpl; [by exists s|].
  pose proof (wf_step a s Hs) as Ha. destruct (step a s); [by apply IH|by apply IH|done].
Qed.

Lemma wf_reached acts s : run acts init = Next s → wf s.
Proof.
  intros Hrun. destruct (wf_run acts init wf_init) as (s' & Hrun' & Hs'). congruence.
Qed.

(** ** The properties *)


(** At every moment the broadcast channel holds at most 100 messages, each
    connection's channel at most 20, and the registered clients are exactly the
    subscribers: a slow reader cannot make the hub grow. *)
Theorem stream_channels_bounded (acts : list action) (s : System) :
  run acts init = Next s →
  (length (hb_broadcast (sy_hub s)) ≤ 100)%nat ∧
  (∀ i cl, hb_heap (sy_hub s) !! i = Some cl → (length (ch_buffer (sc_send cl)) ≤ 20)%nat) ∧
  (∀ i, i ∈ hb_clients (sy_hub s) ↔
     ∃ cl, hb_heap (sy_hub s) !! i = Some cl ∧ i ∈ default ∅ (hb_subs (sy_hub s) !! sc_projectID cl)).
Proof.
  intros Hs%wf_reached. split; [apply (wf_queue _ Hs)|]. split.
  - intros i cl Hcl. pose proof (wf_slot _ Hs i) as Hi. rewrite Hcl in Hi.
    destruct (sy_conns s !! i); [|done]. apply Hi.
  - intros i. split.
    + intros Hi. destruct (slot_live _ _ _ _ _ (wf_slot _ Hs i) Hi) as (c & cl & _ & Hcl & _).
      exists cl. split; [done|]. apply (wf_subs _ Hs). split; [done|]. unfold keys_of. rewrite Hcl.
      apply elem_of_sub_keys. by left.
    + intros (cl & _ & Hsub). by apply (wf_subs _ Hs) in Hsub as [? _].
Qed.

(** The messages of a client's project and environment. *)
Definition meant_for (cl : streamClient) (m : streamBroadcastMsg) : Prop :=
  bm_projectID m = sc_projectID cl ∧
  (sc_environment cl = "" ∨ bm_environment m = "" ∨ bm_environment m = sc_environment cl).

#[export] Instance meant_for_dec cl m : Decision (meant_for cl m).
Proof. unfold meant_for. apply _. Defined.

Lemma env_matches_spec m cl :
  env_matches m cl = true ↔
  sc_environment cl = "" ∨ bm_environment m = "" ∨ bm_environment m = sc_environment cl.
Proof.
  unfold env_matches. rewrite !orb_true_iff, !str_eqb_eq. intuition congruence.
Qed.


Lemma env_key_colon cl : str_mem ":" (env_key cl) = true.
Proof. unfold env_key. rewrite str_mem_append. simpl. apply orb_true_r. Qed.

Lemma addressed_meant cl m :
  str_mem ":" (bm_projectID m) = false → (addressed cl m = true ↔ meant_for cl m).
Proof.
  intros Hp. unfold addressed, meant_for. rewrite andb_true_iff, bool_decide_eq_true.
  rewrite env_matches_spec, elem_of_sub_keys. split; [|tauto]. intros [[-> | [_ Hk]] ?]; [done|].
  exfalso. rewrite Hk, env_key_colon in Hp. done.
Qed.

(** C22: what the hub writes to a connection is, in the order of publication and at
    most once each, a selection of the messages of the connection's project for
    its environment or for all environments: no tenant ever sees another
    tenant's flags on its stream.  Project identifiers have no colon, the
    separator of the subscription keys. *)
Theorem stream_delivery_isolated (acts : list action) (s : System) (i : nat) (c : Conn)
    (cl : streamClient) :
  run acts init = Next s →
  sy_conns s !! i = Some c → hb_heap (sy_hub s) !! i = Some cl →
  Forall (λ m, str_mem ":" (bm_projectID m) = false) (sy_handled s) →
  sublist (cn_written c) (bm_data <$> filter (meant_for cl) (sy_handled s)).
Proof.
  intros Hs%wf_reached Hc Hcl Hplain. pose proof (wf_slot _ Hs i) as Hi. rewrite Hc, Hcl in Hi.
  replace (bm_data <$> filter (meant_for cl) (sy_handled s)) with (addressed_data cl (sy_handled s)).
  { etrans; [|apply Hi]. by apply sublist_inserts_r. }
  unfold addressed_data. f_equal. clear -Hplain. induction Hplain as [|m ms Hm _ IH]; [done|].
  pose proof (addressed_meant cl m Hm). rewrite !filter_cons, IH. repeat case_decide; tauto.
Qed.

Lemma delivers_wf (s : System) (order : list nat)
    (msg : streamBroadcastMsg) (rest : list streamBroadcastMsg) :
  wf s →
  hb_running (sy_hub s) = true → hb_broadcast (sy_hub s) = msg :: rest →
  NoDup order → list_to_set order = targets msg (sy_hub s) →
  ∃ s', step (ADeliver order) s = Next s' ∧ hb_broadcast (sy_hub s') = rest ∧
    ∀ i cl, hb_heap (sy_hub s) !! i = Some cl →
      (i ∈ hb_clients (sy_hub s) → meant_for cl msg → (length (ch_buffer (sc_send cl)) < 20)%nat →
       ∃ cl', hb_heap (sy_hub s') !! i = Some cl' ∧
         ch_buffer (sc_send cl') = ch_buffer (sc_send cl) ++ [bm_data msg]) ∧
      (addressed cl msg = false → hb_heap (sy_hub s') !! i = Some cl).
Proof.
  intros Hs Hrun Hq Hnd Hset.
  destruct (deliver_effect s order msg rest Hs Hrun Hq Hnd Hset) as (heap' & Hstep & Hout & Hin).
  eexists. split; [exact Hstep|]. split; [done|]. intros i cl Hcl. simpl. split.
  - intros Hl [Hp He] Hroom.
    assert (addressed cl msg = true) as Ha.
    { apply andb_true_iff. split; [|by apply env_matches_spec].
      apply bool_decide_eq_true, elem_of_sub_keys. by left. }
    destruct (Hin i cl) as (b & Hb & _ & [-> | [Hfull _]]); [|done|by eexists|].
    + apply elem_of_targets; [done|]. eauto.
    + unfold client_cap in Hfull. lia.
  - intros Ha. rewrite Hout; [done|]. intros (_ & cl' & ? & ?)%elem_of_targets; [congruence|done].
Qed.

(** A published message reaches every registered connection it is meant for
    that has room: the loop appends it to that connection's channel, whatever the
    order of delivery, and touches no channel it is not addressed to. *)
Theorem stream_delivers (acts : list action) (s : System) (order : list nat)
    (msg : streamBroadcastMsg) (rest : list streamBroadcastMsg) :
  run acts init = Next s →
  hb_running (sy_hub s) = true → hb_broadcast (sy_hub s) = msg :: rest →
  NoDup order → list_to_set order = targets msg (sy_hub s) →
  ∃ s', step (ADeliver order) s = Next s' ∧ hb_broadcast (sy_hub s') = rest ∧
    ∀ i cl, hb_heap (sy_hub s) !! i = Some cl →
      (i ∈ hb_clients (sy_hub s) → meant_for cl msg → (length (ch_buffer (sc_send cl)) < 20)%nat →
       ∃ cl', hb_heap (sy_hub s') !! i = Some cl' ∧
         ch_buffer (sc_send cl') = ch_buffer (sc_send cl) ++ [bm_data msg]) ∧
      (addressed cl msg = false → hb_heap (sy_hub s') !! i = Some cl).
Proof. intros Hs%wf_reached. by apply delivers_wf. Qed.

(** ** After the hub is stopped *)

Lemma step_stopped a s s' :
  hb_running (sy_hub s) = false → step a s = Next s' →
  hb_running (sy_hub s') = false ∧
  ∀ i c', sy_conns s' !! i = Some c' → cn_phase c' = Gone →
    ∃ c, sy_conns s !! i = Some c ∧ cn_phase c = Gone.
Proof.
  intros Hrun.
  assert (∀ p i k, in_phase p i s k = Next s' →
    (∀ c s'', k c = Next s'' → hb_running (sy_hub s'') = false ∧
       ∃ c', sy_conns s'' = <[i := c']> (sy_conns s) ∧ cn_phase c' ≠ Gone) →
    hb_running (sy_hub s') = false ∧
    ∀ i c', sy_conns s' !! i = Some c' → cn_phase c' = Gone →
      ∃ c, sy_conns s !! i = Some c ∧ cn_phase c = Gone) as Hphase.
  { intros p i k Hk Hall. unfold in_phase in Hk. destruct (sy_conns s !! i) as [c|] eqn:Hc; [|done].
    case_bool_decide; [|done]. destruct (Hall _ _ Hk) as (Hr & c1 & -> & Hne).
    split; [done|]. intros j c' Hj Hg. destruct (decide (i = j)) as [<- | Hij].
    - rewrite lookup_insert_eq in Hj. congruence.
    - rewrite lookup_insert_ne in Hj by done. eauto. }
  destruct a; simpl.
  - case_bool_decide; [done|]. intros [= <-]. simpl. split; [done|]. intros j c' Hj Hg.
    destruct (decide (i = j)) as [<- | Hij].
    + rewrite lookup_insert_eq in Hj. injection Hj as <-. done.
    + rewrite lookup_insert_ne in Hj by done. eauto.
  - intros Hk. eapply Hphase; [exact Hk|]. intros c s''. unfold on_register. by rewrite Hrun.
  - intros Hk. eapply Hphase; [exact Hk|]. intros c s''. unfold receive.
    destruct (hb_heap (sy_hub s) !! i) as [cl|]; [|done].
    destruct (ch_buffer (sc_send cl)); [destruct (ch_closed (sc_send cl)); [|done]|];
      intros [= <-]; (split; [done|]); eexists; (split; [done|]); [done|by destruct written].
  - intros Hk. eapply Hphase; [exact Hk|]. intros c s'' [= <-]. split; [done|]. by eexists.
  - intros Hk. eapply Hphase; [exact Hk|]. intros c s''. unfold on_unregister. by rewrite Hrun.
  - intros [= <-]. split; [|eauto]. simpl. unfold enqueue. by case_match.
  - unfold on_broadcast. by rewrite Hrun.
  - intros [= <-]. eauto.
  - unfold on_stop. by rewrite Hrun.
Qed.

Lemma run_stopped acts s s' i c' :
  hb_running (sy_hub s) = false → run acts s = Next s' →
  sy_conns s' !! i = Some c' → cn_phase c' = Gone →
  ∃ c, sy_conns s !! i = Some c ∧ cn_phase c = Gone.
Proof.
  revert s. induction acts as [|a acts IH]; intros s Hrun; simpl.
  { intros [= <-] Hc' Hg. eauto. }
  destruct (step a s) as [s1| |] eqn:Ha; [|by eauto|done].
  destruct (step_stopped a s s1 Hrun Ha) as [Hrun1 Hgone]. intros Hs' Hc' Hg.
  destruct (IH s1 Hrun1 Hs' Hc' Hg) as (c1 & Hc1 & Hg1). eauto.
Qed.

(** Once the loop has stopped nothing receives from [unregister]: a connection
    that was open then never finishes, its deferred send blocks for ever. *)
Theorem stopped_hub_strands_connections (acts : list action) (s s' : System) (i : nat) (c : Conn) :
  hb_running (sy_hub s) = false → sy_conns s !! i = Some c → cn_phase c ≠ Gone →
  run acts s = Next s' →
  ∀ c', sy_conns s' !! i = Some c' → cn_phase c' ≠ Gone.
Proof.
  intros Hrun Hc Hp Hs' c' Hc' Hg. destruct (run_stopped acts s s' i c' Hrun Hs' Hc' Hg) as (c0 & ? & ?).
  congruence.
Qed.

(** ** A small instance *)

Definition shop_msg : streamBroadcastMsg := mkMsg "shop" "production" "v2".

(** Two tenants stream; an update of one is delivered to it. *)
Definition demo_acts : list action :=
  [AOpen 1 "shop" "production"; AOpen 2 "bank" ""; ARegister 1; ARegister 2; APublish shop_msg].

Definition demo_end : list action := demo_acts ++ [ADeliver [1%nat]; AReceive 1 true].

Definition reached (acts : list action) : System :=
  match run acts init with Next s => s | _ => init end.

(** The subscription keys of an environment and of a project can collide: a
    message of the project [shop:production] is written to a connection of the
    project [shop]. *)
Lemma colon_project_crosses_tenants :
  let s := reached [AOpen 1 "shop" "production"; ARegister 1; APublish (mkMsg "shop:production" "" "secret");
                    ADeliver [1%nat]; AReceive 1 true] in
  sc_projectID <$> hb_heap (sy_hub s) !! 1%nat = Some "shop" ∧
  cn_written <$> sy_conns s !! 1%nat = Some ["secret"].
Proof. split; vm_compute; reflexivity. Qed.

(** A connection reads the flags before it registers: an update delivered in
    between is never sent to it. *)
Lemma update_before_register_is_missed :
  let s := reached [AOpen 1 "shop" ""; APublish shop_msg; ADeliver []; ARegister 1; AReceive 1 true] in
  cn_phase <$> sy_conns s !! 1%nat = Some Streaming ∧
  cn_written <$> sy_conns s !! 1%nat = Some [] ∧ sy_handled s = [shop_msg] ∧
  hb_broadcast (sy_hub s) = [].
Proof. split_and!; vm_compute; reflexivity. Qed.

Lemma stream_channels_bounded_witness :
  run demo_end init = Next (reached demo_end) ∧
  (length (hb_broadcast (sy_hub (reached demo_end))) ≤ 100)%nat.
Proof.
  split; [vm_compute; reflexivity|].
  refine (proj1 (stream_channels_bounded demo_end (reached demo_end) _)). vm_compute. reflexivity.
Defined.

Lemma stream_delivery_isolated_witness :
  cn_written <$> sy_conns (reached demo_end) !! 1%nat = Some ["v2"] ∧
  sublist ["v2"] (bm_data <$> filter (meant_for (mkClient "shop" "production" (mkChan [] false)))
                    (sy_handled (reached demo_end))).
Proof.
  split; [vm_compute; reflexivity|].
  refine (stream_delivery_isolated demo_end (reached demo_end) 1 (mkConn Streaming ["v2"])
            (mkClient "shop" "production" (mkChan [] false)) _ _ _ _).
  - vm_compute. reflexivity.
  - vm_compute. reflexivity.
  - vm_compute. reflexivity.
  - replace (sy_handled (reached demo_end)) with [shop_msg] by (vm_compute; reflexivity).
    repeat constructor.
Defined.

Lemma stream_delivers_witness :
  ∃ s', step (ADeliver [1%nat]) (reached demo_acts) = Next s' ∧ hb_broadcast (sy_hub s') = [].
Proof.
  destruct (stream_delivers demo_acts (reached demo_acts) [1%nat] shop_msg []) as (s' & ? & ? & _).
  - vm_compute. reflexivity.
  - vm_compute. reflexivity.
  - vm_compute. reflexivity.
  - apply NoDup_singleton.
  - vm_compute. reflexivity.
  - by exists s'.
Defined.

Lemma stopped_hub_strands_connections_witness :
  let s := reached (demo_acts ++ [AClose; AStop]) in
  let acts := [AReceive 1%nat true; AUnregister 1%nat; AUnregister 2%nat] in
  hb_running (sy_hub s) = false ∧
  ∀ c', sy_conns (match run acts s with Next s' => s' | _ => s end) !! 1%nat = Some c' →
    cn_phase c' ≠ Gone.
Proof.
  split; [vm_compute; reflexivity|]. intros c'.
  refine (stopped_hub_strands_connections
            [AReceive 1%nat true; AUnregister 1%nat; AUnregister 2%nat]
            (reached (demo_acts ++ [AClose; AStop])) _ 1%nat (mkConn Streaming []) _ _ _ _ c').
  - vm_compute. reflexivity.
  - vm_compute. reflexivity.
  - done.
  - vm_compute. reflexivity.
Defined.
