(* ===== verification/RateLimit.v ===== *)
(** * Rate limiting

    The limiter of [pkg/api/ratelimit.go] and what it promises. *)

From S2P Require Import Prelude GoFloat GoStrings GoTime Sha256 Errors Domain Entities StoreState Http.

(** * Rate limiting ([pkg/api/ratelimit.go])

    Every limited route asks an [IPRateLimiter] for the token bucket of the
    caller's identity.  The bucket itself is [golang.org/x/time/rate], which is
    not part of the program: [RateLib] are the three functions the code calls and
    [RateLaws] what their documentation promises.  A request is one step: the
    look-up under the lock and the [Allow] on the bucket found.  The limiter runs
    before the authentication middleware. *)

(** ** The bucket library *)

(** The exact value of a finite float as a fraction: [rate_num / rate_den]. *)
Definition rate_num (r : f64) : Z :=
  match r with
  | S754_finite s m e => cond_Zopp s (Z.pos m * 2 ^ Z.max e 0)
  | _ => 0
  end%Z.

Definition rate_den (r : f64) : Z :=
  match r with S754_finite _ _ e => 2 ^ Z.max (- e) 0 | _ => 1 end%Z.

Class RateLib := {
  Limiter : Type;
  NewLimiter : f64 → Z → Limiter;
  Allow : Time → Limiter → Limiter * bool;
  Tokens : Time → Limiter → f64;
}.

(** [Allow] at each of the times, and how many it allowed. *)
Fixpoint allow_run `{RateLib} (l : Limiter) (ts : list Time) : Limiter * Z :=
  match ts with
  | [] => (l, 0%Z)
  | t :: ts =>
      let '(l, ok) := Allow t l in
      let '(l, n) := allow_run l ts in
      (l, ((if ok : bool then 1 else 0) + n)%Z)
  end.

(** The times never go back. *)
Fixpoint nondecreasing (t : Time) (ts : list Time) : Prop :=
  match ts with [] => True | t' :: ts => (t ≤ t')%Z ∧ nondecreasing t' ts end.

(** What the package documents: a limiter starts with a full bucket of [b] tokens
    and allows, from its first use to any later time, at most [b] events plus
    [r] a second. *)
Class RateLaws `(RL : RateLib) : Prop := {
  fresh_allows : ∀ r b t, (1 ≤ b)%Z → (Allow t (NewLimiter r b)).2 = true;
  rate_bound : ∀ r b t ts, (0 ≤ rate_num r)%Z → (1 ≤ b)%Z → nondecreasing t ts →
    (Second * rate_den r * ((allow_run (NewLimiter r b) (t :: ts)).2 - b)
     ≤ rate_num r * (List.last ts t - t))%Z;
}.

(** The parts of [net] the code calls: whether [net.ParseIP] accepts a text, and
    the host of [net.SplitHostPort]. *)
Class NetLib := {
  ParseIP_ok : string → bool;
  SplitHost : string → option string;
}.

(** ** Tiers *)

Definition RateLimitTier : Type := string.

Definition TierAnonymous : RateLimitTier := "anonymous".
Definition TierAuthenticated : RateLimitTier := "authenticated".
Definition TierSystem : RateLimitTier := "system".

Record TierConfig := mkTierConfig {
  tc_Rate : f64;
  tc_Burst : Z;
  tc_QuotaPerMinute : Z;
}.

#[export] Instance eta_TierConfig : Eta TierConfig :=
  {| eta_expand r := mkTierConfig (tc_Rate r) (tc_Burst r) (tc_QuotaPerMinute r) |}.

Definition anonymous_config : TierConfig := mkTierConfig (f64_of_Z 2) 30 120.

Definition DefaultTierConfigs (tier : RateLimitTier) : option TierConfig :=
  if tier =s? TierAnonymous then Some anonymous_config
  else if tier =s? TierAuthenticated then Some (mkTierConfig (f64_of_Z 20) 100 1200)
  else if tier =s? TierSystem then Some (mkTierConfig (f64_of_Z 200) 500 12000)
  else None.

(** The first environment variable of the list that is set. *)
Fixpoint first_env (getenv : string → string) (names : list string) : string :=
  match names with
  | [] => ""
  | n :: names => or_default (getenv n) (first_env getenv names)
  end.

Definition positive_env (v : string) : option Z :=
  match Atoi v with
  | Some n => if (0 <? n)%Z then Some n else None
  | None => None
  end.

(** The names of a tier's variables: its own, then its two aliases. *)
Definition tier_prefixes (tier : RateLimitTier) : list string :=
  if tier =s? TierAnonymous then ["ANONYMOUS"; "STANDARD"; "FREE"]
  else if tier =s? TierAuthenticated then ["AUTHENTICATED"; "ELEVATED"; "PRO"]
  else if tier =s? TierSystem then ["SYSTEM"; "HIGH_THROUGHPUT"; "ENTERPRISE"]
  else [].

Definition env_names (tier : RateLimitTier) (suffix : string) : list string :=
  (λ p, "FLAGURA_RATE_LIMIT_" +:+ p +:+ suffix) <$> tier_prefixes tier.

Definition getTierConfig (getenv : string → string) (tier : RateLimitTier) : TierConfig :=
  let config := default anonymous_config (DefaultTierConfigs tier) in
  let config :=
    match positive_env (first_env getenv (env_names tier "_RPM")) with
    | Some v => config <| tc_QuotaPerMinute := v |> <| tc_Rate := (f64_of_Z v / f64_of_Z 60)%f64 |>
    | None => config
    end in
  match positive_env (first_env getenv (env_names tier "_BURST")) with
  | Some v => config <| tc_Burst := v |>
  | None => config
  end.

(** ** The limiter of a group of routes *)

Section Limiter.
Context `{RL : RateLib}.

Record visitor := mkVisitor {
  vi_limiter : Limiter;
  vi_tier : RateLimitTier;
  vi_lastSeen : Time;
}.

Record IPRateLimiter := mkIPLimiter {
  il_visitors : gmap string visitor;
  il_rate : f64;
  il_burst : Z;
  il_enableTiers : bool;
}.

Definition NewIPRateLimiter (r : f64) (burst : Z) : IPRateLimiter := mkIPLimiter ∅ r burst false.

Definition EnableTiers (enable : bool) (i : IPRateLimiter) : IPRateLimiter :=
  mkIPLimiter (il_visitors i) (il_rate i) (il_burst i) enable.

Definition set_visitor (identity : string) (v : visitor) (i : IPRateLimiter) : IPRateLimiter :=
  mkIPLimiter (<[identity := v]> (il_visitors i)) (il_rate i) (il_burst i) (il_enableTiers i).

(** The limits that apply: the limiter's own, unless tiers are enabled. *)
Definition effective_config (getenv : string → string) (i : IPRateLimiter) (tier : RateLimitTier)
    : TierConfig :=
  if negb (il_enableTiers i) && f64_ltb f64_zero (il_rate i)
  then mkTierConfig (il_rate i) (il_burst i) (f64_trunc (il_rate i * f64_of_Z 60)%f64)
  else getTierConfig getenv tier.

(** [GetLimiterForTier]: the visitor of the identity, made when there is none or,
    with tiers, when its tier is another one. *)
Definition GetLimiterForTier (getenv : string → string) (now : Time) (identity : string)
    (tier : RateLimitTier) (i : IPRateLimiter) : IPRateLimiter * (Limiter * TierConfig) :=
  let config := effective_config getenv i tier in
  let fresh :=
    let limiter := NewLimiter (tc_Rate config) (tc_Burst config) in
    (set_visitor identity (mkVisitor limiter tier now) i, (limiter, config)) in
  match il_visitors i !! identity with
  | None => fresh
  | Some v =>
      if il_enableTiers i && negb (vi_tier v =s? tier) then fresh
      else (set_visitor identity (mkVisitor (vi_limiter v) (vi_tier v) now) i,
            (vi_limiter v, config))
  end.

Definition GetLimiter (getenv : string → string) (now : Time) (identity : string)
    (i : IPRateLimiter) : IPRateLimiter * Limiter :=
  let '(i, (l, _)) := GetLimiterForTier getenv now identity TierAnonymous i in (i, l).

(** One tick of [cleanupLoop]: the visitors idle for three minutes go. *)
Definition cleanup (now : Time) (i : IPRateLimiter) : IPRateLimiter :=
  mkIPLimiter
    (filter (λ kv, Before (vi_lastSeen kv.2) (time_add now (-3 * Minute)) = false) (il_visitors i))
    (il_rate i) (il_burst i) (il_enableTiers i).

(** What [LimitHandler] writes: the three headers, and the wait of a refusal. *)
Record Verdict := mkVerdict {
  ve_allowed : bool;
  ve_limit : Z;
  ve_remaining : Z;
  ve_reset : Z;
  ve_retryAfter : Z;
}.

Definition Unix (t : Time) : Z := (t / Second)%Z.

Definition headers (config : TierConfig) (allowed : bool) (tokens : f64) (now : Time) : Verdict :=
  let remaining := f64_trunc tokens in
  let remaining := if (remaining <? 0)%Z then 0%Z else remaining in
  let limitQuota :=
    if (tc_QuotaPerMinute config <=? 0)%Z then tc_Burst config else tc_QuotaPerMinute config in
  let remaining := if (limitQuota <? remaining)%Z then limitQuota else remaining in
  let hasRate := f64_ltb f64_zero (tc_Rate config) in
  let missing := f64_of_Z (tc_Burst config - remaining) in
  let secondsToReset :=
    if hasRate && f64_ltb f64_zero missing
    then f64_trunc (missing / tc_Rate config + f64_ratio 999 1000)%f64 else 1%Z in
  let secondsToReset := if (secondsToReset <? 1)%Z then 1%Z else secondsToReset in
  let timeForOne := (f64_of_Z 1 / tc_Rate config)%f64 in
  let retryAfter :=
    if hasRate && f64_ltb (f64_of_Z 1) timeForOne
    then f64_trunc (timeForOne + f64_ratio 999 1000)%f64 else 1%Z in
  mkVerdict allowed limitQuota remaining (Unix now + secondsToReset)%Z retryAfter.

(** The limiting part of [LimitHandler], for an identity and a tier. *)
Definition limit (getenv : string → string) (now : Time) (identity : string) (tier : RateLimitTier)
    (i : IPRateLimiter) : IPRateLimiter * Verdict :=
  let '(i, (l, config)) := GetLimiterForTier getenv now identity tier i in
  let '(l, allowed) := Allow now l in
  let i := match il_visitors i !! identity with
           | Some v => set_visitor identity (mkVisitor l (vi_tier v) (vi_lastSeen v)) i
           | None => i
           end in
  (i, headers config allowed (Tokens now l) now).

End Limiter.

(** ** Who a request is counted for *)

Section Identity.
Context `{GoRuntime} `{NetLib}.

Definition GetClientIP (getenv : string → string) (r : Request) : string :=
  let trustProxy :=
    EqualFold (getenv "FLAGURA_TRUST_PROXY") "true" || EqualFold (getenv "TRUST_PROXY") "true" in
  let remote :=
    match SplitHost (rq_RemoteAddr r) with
    | Some host => or_default host (rq_RemoteAddr r)
    | None => rq_RemoteAddr r
    end in
  let xff := HeaderGet r "X-Forwarded-For" in
  let xrip := HeaderGet r "X-Real-IP" in
  let forwarded := TrimSpace (default "" (head (Split xff ","))) in
  if trustProxy then
    if negb (xff =s? "") && ParseIP_ok forwarded then forwarded
    else if negb (xrip =s? "") && ParseIP_ok (TrimSpace xrip) then TrimSpace xrip
    else remote
  else remote.

(** The tier a header asks for. *)
Definition tier_of_header (h : string) : option RateLimitTier :=
  let n := ToLower (TrimSpace h) in
  if bool_decide (n ∈ ["anonymous"; "public"; "standard"; "free"; "default"])
  then Some TierAnonymous
  else if bool_decide (n ∈ ["authenticated"; "client"; "elevated"; "pro"; "developer"])
  then Some TierAuthenticated
  else if bool_decide (n ∈ ["system"; "admin"; "cluster"; "high-throughput"; "enterprise"; "production"])
  then Some TierSystem
  else None.

(** The identity and the tier before the header is looked at. *)
Definition base_identity (getenv : string → string) (apiKey : option APIKey) (user : option User)
    (r : Request) : string * RateLimitTier :=
  let ip := GetClientIP getenv r in
  let role_tier role := if role =s? RoleAdmin then TierSystem else TierAuthenticated in
  let anonymous :=
    let projectID := or_default (HeaderGet r HeaderProjectID)
      (or_default (QueryGet r "project_id")
        (or_default (QueryGet r "project") (default "" (Cookie r CookieProjectName)))) in
    if negb (projectID =s? "") then ("tenant:" +:+ projectID +:+ ":ip:" +:+ ip, TierAnonymous)
    else ("ip:" +:+ ip, TierAnonymous) in
  let by_cookie :=
    match Cookie r CookieSessionName with
    | Some v => if negb (v =s? "") then ("user:session:" +:+ v, TierAuthenticated) else anonymous
    | None => anonymous
    end in
  let by_header :=
    let authHeader := HeaderGet r HeaderAuthorization in
    if HasPrefix authHeader "Bearer " then
      let token := TrimSpace (TrimPrefix authHeader "Bearer ") in
      if negb (token =s? "") then
        (if HasPrefix token "flg_" then "apikey:" +:+ token else "user:session:" +:+ token,
         TierAuthenticated)
      else ("ip:" +:+ ip, TierAnonymous)
    else by_cookie in
  let by_user :=
    match user with
    | Some u => if negb (us_ID u =s? "") then ("user:" +:+ us_ID u, role_tier (us_Role u)) else by_header
    | None => by_header
    end in
  match apiKey with
  | Some k =>
      if negb (ak_ID k =s? "") then
        (if negb (ak_ProjectID k =s? "") then "tenant:" +:+ ak_ProjectID k +:+ ":apikey:" +:+ ak_ID k
         else "apikey:" +:+ ak_ID k, role_tier (ak_Role k))
      else by_user
  | None => by_user
  end.

Definition ResolveTenantIdentityAndTier (getenv : string → string) (apiKey : option APIKey)
    (user : option User) (r : Request) : string * RateLimitTier :=
  let '(identity, tier) := base_identity getenv apiKey user r in
  let tierHeader := or_default (HeaderGet r "X-RateLimit-Tier")
    (or_default (HeaderGet r "X-Traffic-Tier") (HeaderGet r "X-Tenant-Tier")) in
  (identity,
   if negb (tierHeader =s? "") then default tier (tier_of_header tierHeader) else tier).

Definition GetClientIdentity (getenv : string → string) (apiKey : option APIKey)
    (user : option User) (r : Request) : string :=
  (ResolveTenantIdentityAndTier getenv apiKey user r).1.

(** [LimitHandler]: the request is refused, or goes to the next handler.  The
    middleware runs first, so the context holds neither key nor user. *)
Definition LimitHandler `{RateLib} (getenv : string → string) (now : Time) (i : IPRateLimiter)
    (r : Request) : IPRateLimiter * Verdict :=
  let '(identity, tier) := ResolveTenantIdentityAndTier getenv None None r in
  limit getenv now identity tier i.

End Identity.

(** The two limiters of [NewServer]. *)
Definition authLimiter `{RateLib} : IPRateLimiter := NewIPRateLimiter (f64_of_Z 5) 10.
Definition apiLimiter `{RateLib} : IPRateLimiter := EnableTiers true (NewIPRateLimiter (f64_of_Z 200) 400).

(** * What the rate limiter promises

    With one rate for everybody, an identity is held to the burst plus the rate,
    whatever other identities do and whenever idle visitors are forgotten.  With
    tiers, and with identities taken from unchecked headers, a caller chooses its
    own limits: the last theorems show how. *)

(** ** Configurations *)

Lemma positive_env_pos v n : positive_env v = Some n → (1 ≤ n)%Z.
Proof. unfold positive_env. destruct (Atoi v) as [m|]; [|done]. case_match eqn:E; [|done]. intros [= <-]. lia. Qed.

Lemma DefaultTierConfigs_burst tier c : DefaultTierConfigs tier = Some c → (1 ≤ tc_Burst c)%Z.
Proof. unfold DefaultTierConfigs. repeat case_match; intros [= <-]; simpl; lia. Qed.

(** Every tier lets a first request through, whatever the environment says. *)
Lemma getTierConfig_burst getenv tier : (1 ≤ tc_Burst (getTierConfig getenv tier))%Z.
Proof.
  unfold getTierConfig. destruct (positive_env (first_env getenv (env_names tier "_BURST"))) eqn:Eb.
  { simpl. by eapply positive_env_pos. }
  assert (1 ≤ tc_Burst (default anonymous_config (DefaultTierConfigs tier)))%Z as H.
  { destruct (DefaultTierConfigs tier) eqn:E; simpl; [by eapply DefaultTierConfigs_burst|lia]. }
  by destruct (positive_env (first_env getenv (env_names tier "_RPM"))).
Qed.

Lemma rate_den_pos r : (0 < rate_den r)%Z.
Proof. destruct r; simpl; try lia. Qed.

Section Facts.
Context `{RL : RateLib} `{!RateLaws RL}.
Implicit Types (i : IPRateLimiter) (v : visitor).

Lemma allow_run_snoc l ts t :
  allow_run l (ts ++ [t])
  = let '(l1, n) := allow_run l ts in
    let '(l2, ok) := Allow t l1 in (l2, (n + if ok : bool then 1 else 0)%Z).
Proof.
  revert l. induction ts as [|t' ts IH]; intros l; simpl.
  - destruct (Allow t l) as [l2 []]; f_equal.
  - destruct (Allow t' l) as [l1 ok1]. rewrite IH.
    destruct (allow_run l1 ts) as [l2 n]. destruct (Allow t l2) as [l3 ok]. f_equal. lia.
Qed.

Lemma last_cons_default {A} (ts : list A) t d : List.last (t :: ts) d = List.last ts t.
Proof.
  revert t d. induction ts as [|w ts IH]; intros t d; [done|].
  change (List.last (w :: ts) d = List.last (w :: ts) t). by rewrite !IH.
Qed.

Lemma nondecreasing_snoc t ts t' :
  nondecreasing t ts → (List.last ts t ≤ t')%Z → nondecreasing t (ts ++ [t']).
Proof.
  revert t. induction ts as [|u ts IH]; intros t; cbn [app nondecreasing];
    [by intros _ ?|]. intros [? Hts] Hl. split; [done|]. apply IH; [done|]. by rewrite last_cons_default in Hl.
Qed.

Lemma last_snoc {A} (ts : list A) t d : List.last (ts ++ [t]) d = t.
Proof.
  revert d. induction ts as [|u ts IH]; intros d; [done|].
  change ((u :: ts) ++ [t]) with (u :: (ts ++ [t])). by rewrite last_cons_default.
Qed.

(** ** One step of the limiter *)

(** The visitor a request is counted on: a fresh one, or the one there is. *)
Definition keeps_visitor i (id : string) (tier : RateLimitTier) : option visitor :=
  match il_visitors i !! id with
  | Some v => if il_enableTiers i && negb (vi_tier v =s? tier) then None else Some v
  | None => None
  end.

Lemma limit_spec getenv now id tier i :
  let config := effective_config getenv i tier in
  let l := match keeps_visitor i id tier with
           | Some v => vi_limiter v
           | None => NewLimiter (tc_Rate config) (tc_Burst config)
           end in
  let tier' := match keeps_visitor i id tier with Some v => vi_tier v | None => tier end in
  limit getenv now id tier i
  = (set_visitor id (mkVisitor (Allow now l).1 tier' now) i,
     headers config (Allow now l).2 (Tokens now (Allow now l).1) now).
Proof.
  unfold limit, GetLimiterForTier, keeps_visitor.
  destruct (il_visitors i !! id) as [v|]; [destruct (il_enableTiers i && negb (vi_tier v =s? tier))|];
    simpl; destruct (Allow now _) as [l ok]; simpl;
    rewrite lookup_insert_eq; unfold set_visitor; simpl; by rewrite insert_insert_eq.
Qed.

Lemma limit_fresh getenv now id tier i :
  keeps_visitor i id tier = None → (1 ≤ tc_Burst (effective_config getenv i tier))%Z →
  ve_allowed (limit getenv now id tier i).2 = true.
Proof. intros Hk Hb. rewrite limit_spec, Hk. simpl. by apply fresh_allows. Qed.

(** ** The bound on one identity *)

Inductive event :=
| Hit (t : Time) (id : string) (tier : RateLimitTier)
| Tick (t : Time).

Definition ev_time (e : event) : Time := match e with Hit t _ _ => t | Tick t => t end.

(** The limiter after the events, and how many requests of [who] it let through. *)
Fixpoint serve_events (getenv : string → string) (who : string) (i : IPRateLimiter)
    (evs : list event) : IPRateLimiter * Z :=
  match evs with
  | [] => (i, 0%Z)
  | Hit t id tier :: evs =>
      let '(i, ve) := limit getenv t id tier i in
      let '(i, n) := serve_events getenv who i evs in
      (i, ((if bool_decide (id = who) && ve_allowed ve then 1 else 0) + n)%Z)
  | Tick t :: evs => serve_events getenv who (cleanup t i) evs
  end.

(** A limiter with one rate, and with idle visitors forgotten only after their
    bucket would be full again. *)
Record uniform i (r : f64) (b : Z) : Prop := {
  un_tiers : il_enableTiers i = false;
  un_rate : il_rate i = r;
  un_burst : il_burst i = b;
  un_positive : f64_ltb f64_zero r = true;
  un_one : (1 ≤ b)%Z;
  un_refill : (b * rate_den r ≤ 180 * rate_num r)%Z;
}.

Lemma uniform_config getenv i r b tier :
  uniform i r b → effective_config getenv i tier = mkTierConfig r b (f64_trunc (r * f64_of_Z 60)%f64).
Proof. intros [Ht Hr Hb Hp _ _]. unfold effective_config. by rewrite Ht, Hr, Hb, Hp. Qed.

Lemma uniform_keeps i r b id tier : uniform i r b → keeps_visitor i id tier = il_visitors i !! id.
Proof. intros [Ht _ _ _ _ _]. unfold keeps_visitor. rewrite Ht. by destruct (il_visitors i !! id). Qed.

(** The account of an identity at time [t], [n] of its requests let through since
    [t0]: either it has earned them all, or the ones before its current bucket. *)
Definition account (r : f64) (b : Z) (t0 t n : Z) (ov : option visitor) : Prop :=
  match ov with
  | None => (Second * rate_den r * n ≤ rate_num r * (t - t0))%Z
  | Some v =>
      ∃ t1 ts before,
        vi_limiter v = (allow_run (NewLimiter r b) (t1 :: ts)).1 ∧
        (n = before + (allow_run (NewLimiter r b) (t1 :: ts)).2)%Z ∧
        (Second * rate_den r * before ≤ rate_num r * (t1 - t0))%Z ∧
        nondecreasing t1 ts ∧ vi_lastSeen v = List.last ts t1 ∧ (vi_lastSeen v ≤ t)%Z
  end.

Lemma account_bound i r b t0 t n ov :
  uniform i r b → account r b t0 t n ov →
  (Second * rate_den r * (n - b) ≤ rate_num r * (t - t0))%Z.
Proof.
  intros [_ _ _ _ Hb Href] Hacc. pose proof (rate_den_pos r) as Hd.
  assert (0 ≤ rate_num r)%Z as Hn by nia. destruct ov as [v|].
  - destruct Hacc as (t1 & ts & before & _ & -> & Hbefore & Hnd & Hseen & Ht).
    pose proof (rate_bound r b t1 ts Hn Hb Hnd) as Hc. rewrite <- Hseen in Hc. nia.
  - unfold account in Hacc. unfold Second in *. nia.
Qed.

Lemma account_later i r b t0 t t' n ov :
  uniform i r b → (t ≤ t')%Z → account r b t0 t n ov → account r b t0 t' n ov.
Proof.
  intros [_ _ _ _ Hb Href] Ht Hacc. pose proof (rate_den_pos r) as Hd.
  assert (0 ≤ rate_num r)%Z as Hn by nia. destruct ov as [v|]; simpl in *; [|nia].
  destruct Hacc as (t1 & ts & before & ? & ? & ? & ? & ? & ?).
  exists t1, ts, before. split_and!; try done. lia.
Qed.

Lemma account_hit i r b t0 t n ov :
  uniform i r b → account r b t0 t n ov →
  let l := match ov with Some v => vi_limiter v | None => NewLimiter r b end in
  ∀ tier, account r b t0 t (n + if (Allow t l).2 then 1 else 0)%Z
            (Some (mkVisitor (Allow t l).1 tier t)).
Proof.
  intros Hu Hacc l tier. destruct ov as [v|].
  - destruct Hacc as (t1 & ts & before & Hl & -> & Hbefore & Hnd & Hseen & Ht).
    exists t1, (ts ++ [t]), before. simpl vi_limiter. simpl vi_lastSeen.
    change (t1 :: ts ++ [t]) with ((t1 :: ts) ++ [t]). rewrite allow_run_snoc. subst l.
    rewrite Hl. destruct (allow_run (NewLimiter r b) (t1 :: ts)) as [l1 c]. simpl in *.
    destruct (Allow t l1) as [l2 ok]. simpl. rewrite last_snoc. split_and!; try done; [lia|].
    apply nondecreasing_snoc; [done|]. by rewrite <- Hseen.
  - exists t, [], n. subst l. simpl. destruct (Allow t (NewLimiter r b)) as [l2 ok]. simpl.
    split_and!; try done; lia.
Qed.

Lemma account_cleanup i r b t0 t n id :
  uniform i r b → account r b t0 t n (il_visitors i !! id) →
  account r b t0 t n (il_visitors (cleanup t i) !! id).
Proof.
  intros Hu Hacc. unfold cleanup. simpl.
  destruct (il_visitors i !! id) as [v|] eqn:Hv.
  - destruct (Before (vi_lastSeen v) (time_add t (-3 * Minute))) eqn:Hold.
    + rewrite (proj2 (map_lookup_filter_None _ _ _)); [|right; intros x; rewrite Hv; intros [= <-]; simpl; congruence].
      destruct Hu as [_ _ _ _ Hb Href]. pose proof (rate_den_pos r) as Hd.
      assert (0 ≤ rate_num r)%Z as Hn by nia.
      destruct Hacc as (t1 & ts & before & _ & -> & Hbefore & Hnd & Hseen & Ht).
      pose proof (rate_bound r b t1 ts Hn Hb Hnd) as Hc. rewrite <- Hseen in Hc.
      set (c := (allow_run (NewLimiter r b) (t1 :: ts)).2) in *. clearbody c.
      cbn [account]. unfold Before, time_add, Minute, Second in *.
      assert (rate_num r * 180000000000 ≤ rate_num r * (t - vi_lastSeen v))%Z
        by (apply Z.mul_le_mono_nonneg_l; lia).
      nia.
    + rewrite (proj2 (map_lookup_filter_Some _ _ _ v)); [done|]. by rewrite Hv.
  - rewrite (proj2 (map_lookup_filter_None _ _ _)); [done|]. by left.
Qed.

Lemma limit_uniform getenv t id tier i r b :
  uniform i r b →
  limit getenv t id tier i
  = let l := match il_visitors i !! id with Some v => vi_limiter v | None => NewLimiter r b end in
    let tier' := match il_visitors i !! id with Some v => vi_tier v | None => tier end in
    (set_visitor id (mkVisitor (Allow t l).1 tier' t) i,
     headers (mkTierConfig r b (f64_trunc (r * f64_of_Z 60)%f64)) (Allow t l).2
       (Tokens t (Allow t l).1) t).
Proof. intros Hu. by rewrite limit_spec, (uniform_config _ _ _ _ _ Hu), (uniform_keeps _ _ _ _ _ Hu). Qed.

Lemma serve_account getenv who i r b t0 t n evs :
  uniform i r b → account r b t0 t n (il_visitors i !! who) →
  nondecreasing t (ev_time <$> evs) →
  let out := serve_events getenv who i evs in
  uniform out.1 r b ∧
  account r b t0 (List.last (ev_time <$> evs) t) (n + out.2)%Z (il_visitors out.1 !! who).
Proof.
  revert i t n. induction evs as [|e evs IH]; intros i t n Hu Hacc Hnd.
  { simpl. by rewrite Z.add_0_r. }
  rewrite fmap_cons, last_cons_default. rewrite fmap_cons in Hnd. destruct Hnd as [Ht Hnd].
  assert (∀ i', il_enableTiers i' = il_enableTiers i → il_rate i' = il_rate i →
    il_burst i' = il_burst i → uniform i' r b) as Hu'.
  { destruct Hu. intros i' H1 H2 H3. split; congruence. }
  pose proof (account_later _ _ _ _ _ _ _ _ Hu Ht Hacc) as Hacc'.
  destruct e as [u id tier|u]; simpl ev_time in *.
  - cbn [serve_events]. rewrite (limit_uniform _ _ _ _ _ _ _ Hu). cbv zeta beta.
    cbn [fst snd ve_allowed headers].
    set (l := match il_visitors i !! id with Some v => vi_limiter v | None => _ end).
    set (tier' := match il_visitors i !! id with Some v => vi_tier v | None => _ end).
    set (i' := set_visitor id (mkVisitor (Allow u l).1 tier' u) i).
    set (k := (if bool_decide (id = who) && (Allow u l).2 then 1 else 0)%Z).
    assert (account r b t0 u (n + k)%Z (il_visitors i' !! who)) as Hk.
    { subst i' k. simpl. case_bool_decide as Hid.
      - subst id. rewrite lookup_insert_eq. simpl.
        exact (account_hit _ _ _ _ _ _ _ Hu Hacc' tier').
      - rewrite lookup_insert_ne by done. simpl. by rewrite Z.add_0_r. }
    specialize (IH i' u (n + k)%Z (Hu' i' eq_refl eq_refl eq_refl) Hk Hnd).
    destruct (serve_events getenv who i' evs) as [i'' m]. cbn [fst snd] in *.
    by rewrite Z.add_assoc.
  - apply IH; [by apply Hu'|by apply (account_cleanup i)|done].
Qed.

(** C28: with one rate for all callers (the limiter of the login, sign-up and
    password routes), an identity is let through at most the burst plus the rate
    times the time elapsed, whatever requests of others and clean-ups of idle
    visitors come in between. *)
Theorem rate_limit_enforced getenv (who : string) (i : IPRateLimiter) (r : f64) (b : Z) (t0 : Time)
    (evs : list event) :
  uniform i r b → il_visitors i = ∅ → nondecreasing t0 (ev_time <$> evs) →
  (Second * rate_den r * ((serve_events getenv who i evs).2 - b)
   ≤ rate_num r * (List.last (ev_time <$> evs) t0 - t0))%Z.
Proof.
  intros Hu Hempty Hnd.
  destruct (serve_account getenv who i r b t0 t0 0 evs Hu) as [Hu' Hacc]; [|done|].
  { rewrite Hempty, lookup_empty. simpl. lia. }
  by apply (account_bound _ _ _ _ _ _ _ Hu') in Hacc.
Qed.

(** The headers of every answer are in range: the remaining count is between
    zero and the limit, the reset lies in the future, and a request of one
    identity leaves the buckets of all others alone. *)
Theorem limit_headers_bounded getenv now id tier i :
  (1 ≤ il_burst i)%Z →
  let out := limit getenv now id tier i in
  (0 ≤ ve_remaining out.2 ≤ ve_limit out.2)%Z ∧ (Unix now < ve_reset out.2)%Z ∧
  ∀ id', id' ≠ id → il_visitors out.1 !! id' = il_visitors i !! id'.
Proof.
  intros Hb. rewrite limit_spec. cbv zeta. cbn [fst snd].
  assert (1 ≤ tc_Burst (effective_config getenv i tier))%Z as Hburst.
  { unfold effective_config. case_match; [done|]. apply getTierConfig_burst. }
  split_and!.
  - unfold headers. cbn. repeat case_match; lia.
  - unfold headers. cbn. repeat case_match; lia.
  - unfold headers. cbn. repeat case_match; lia.
  - intros id' Hid. simpl. by rewrite lookup_insert_ne.
Qed.

(** ** Who chooses the limits *)

(** Requests of one identity, each with the tier it asks for. *)
Fixpoint serve_hits (getenv : string → string) (id : string) (i : IPRateLimiter)
    (hits : list (Time * RateLimitTier)) : IPRateLimiter * list Verdict :=
  match hits with
  | [] => (i, [])
  | (t, tier) :: hits =>
      let '(i, ve) := limit getenv t id tier i in
      let '(i, ves) := serve_hits getenv id i hits in
      (i, ve :: ves)
  end.

(** No two consecutive tiers are the same. *)
Fixpoint alternating (last : option RateLimitTier) (hits : list (Time * RateLimitTier)) : Prop :=
  match hits with
  | [] => True
  | (_, tier) :: hits => last ≠ Some tier ∧ alternating (Some tier) hits
  end.

Lemma limit_tiers getenv t id tier i :
  il_enableTiers i = true → vi_tier <$> il_visitors i !! id ≠ Some tier →
  let out := limit getenv t id tier i in
  ve_allowed out.2 = true ∧ il_enableTiers out.1 = true ∧
  vi_tier <$> il_visitors out.1 !! id = Some tier.
Proof.
  intros Ht Hne.
  assert (keeps_visitor i id tier = None) as Hk.
  { unfold keeps_visitor. destruct (il_visitors i !! id) as [v|]; [|done]. simpl in Hne.
    rewrite Ht. assert (vi_tier v ≠ tier) as Hv by congruence.
    by rewrite (proj2 (str_eqb_neq _ _) Hv). }
  assert (1 ≤ tc_Burst (effective_config getenv i tier))%Z as Hb.
  { unfold effective_config. rewrite Ht. apply getTierConfig_burst. }
  intros out. split; [by apply limit_fresh|]. unfold out. rewrite limit_spec, Hk. simpl.
  split; [done|]. by rewrite lookup_insert_eq.
Qed.

(** The tier is the caller's choice, and changing it makes a fresh bucket: a
    caller who alternates the tier header is never limited. *)
Theorem alternating_tiers_unlimited getenv (id : string) (i : IPRateLimiter)
    (hits : list (Time * RateLimitTier)) :
  il_enableTiers i = true → alternating (vi_tier <$> il_visitors i !! id) hits →
  Forall (λ ve, ve_allowed ve = true) (serve_hits getenv id i hits).2.
Proof.
  revert i. induction hits as [|[t tier] hits IH]; intros i Ht Halt; simpl; [constructor|].
  destruct Halt as [Hne Halt]. destruct (limit_tiers getenv t id tier i Ht Hne) as (Hok & Ht' & Hv).
  destruct (limit getenv t id tier i) as [i' ve]. simpl in *.
  specialize (IH i' Ht'). rewrite Hv in IH. specialize (IH Halt).
  destruct (serve_hits getenv id i' hits) as [i'' ves]. by constructor.
Qed.

Section Tokens.
Context `{GoRuntime} `{NetLib}.

(** A guess at a session token: text without surrounding space. *)
Definition guess (tok : string) : Prop :=
  tok ≠ "" ∧ TrimSpace tok = tok ∧ HasPrefix tok "flg_" = false.

Definition carries (r : Request) (tok : string) : Prop :=
  HeaderGet r HeaderAuthorization = "Bearer " +:+ tok.

Lemma guess_identity getenv r tok :
  guess tok → carries r tok →
  (ResolveTenantIdentityAndTier getenv None None r).1 = "user:session:" +:+ tok.
Proof.
  intros (Hne & Htrim & Hp) Hr. unfold ResolveTenantIdentityAndTier, base_identity, carries in *. cbv zeta. rewrite Hr.
  rewrite HasPrefix_app, TrimPrefix_app, Htrim, Hp. by rewrite (proj2 (str_eqb_neq _ _) Hne).
Qed.

Fixpoint serve_requests (getenv : string → string) (i : IPRateLimiter)
    (reqs : list (Time * Request)) : IPRateLimiter * list Verdict :=
  match reqs with
  | [] => (i, [])
  | (t, r) :: reqs =>
      let '(i, ve) := LimitHandler getenv t i r in
      let '(i, ves) := serve_requests getenv i reqs in
      (i, ve :: ves)
  end.

(** The limiter runs before authentication and believes the bearer token: a
    caller who sends a fresh made-up token with every attempt gets a fresh bucket
    each time, so any number of password guesses passes the login limiter. *)
Theorem fresh_tokens_unlimited getenv (i : IPRateLimiter) (reqs : list (Time * Request))
    (toks : list string) :
  il_enableTiers i = false → f64_ltb f64_zero (il_rate i) = true → (1 ≤ il_burst i)%Z →
  Forall2 (λ tr tok, guess tok ∧ carries tr.2 tok) reqs toks → NoDup toks →
  Forall (λ tok, il_visitors i !! ("user:session:" +:+ tok) = None) toks →
  Forall (λ ve, ve_allowed ve = true) (serve_requests getenv i reqs).2.
Proof.
  intros Ht Hr Hb Hall. revert i Ht Hr Hb.
  induction Hall as [|[t r] tok reqs toks [Hg Hc] _ IH]; intros i Ht Hr Hb Hnd Hnew; simpl; [constructor|].
  apply NoDup_cons in Hnd as [Hfresh Hnd]. apply Forall_cons in Hnew as [Hnone Hnew].
  unfold LimitHandler. pose proof (guess_identity getenv r tok Hg Hc) as Hid.
  destruct (ResolveTenantIdentityAndTier getenv None None r) as [id tier]. simpl in Hid. subst id.
  pose proof (limit_fresh getenv t ("user:session:" +:+ tok) tier i) as Hok.
  rewrite limit_spec in *. unfold keeps_visitor in *. rewrite Hnone in *. cbv zeta in *.
  unfold effective_config in Hok. rewrite Ht, Hr in Hok. specialize (Hok eq_refl Hb).
  cbn [fst snd] in *.
  specialize (IH (set_visitor ("user:session:" +:+ tok)
    (mkVisitor (Allow t (NewLimiter (tc_Rate (effective_config getenv i tier))
       (tc_Burst (effective_config getenv i tier)))).1 tier t) i) Ht Hr Hb Hnd).
  destruct (serve_requests getenv _ reqs) as [i'' ves]. constructor; [|apply IH].
  - unfold effective_config. rewrite Ht, Hr. exact Hok.
  - simpl. apply Forall_forall. intros tok' Hin. rewrite Forall_forall in Hnew.
    rewrite lookup_insert_ne; [by apply Hnew|]. intros ->%str_append_inj_l. done.
Qed.

End Tokens.
End Facts.

(** ** A concrete bucket *)

(** An exact token bucket: [bk_tokens] counts parts of which [bk_unit] make one
    token; [bk_last] is [None] before the first use. *)
Record bucket := mkBucket {
  bk_num : Z;
  bk_unit : Z;
  bk_cap : Z;
  bk_tokens : Z;
  bk_last : option Time;
}.

Definition refilled (t : Time) (b : bucket) : Z :=
  match bk_last b with
  | Some u => Z.min (bk_cap b) (bk_tokens b + bk_num b * Z.max 0 (t - u))
  | None => bk_tokens b
  end.

Definition bucket_allow (t : Time) (b : bucket) : bucket * bool :=
  let k := refilled t b in
  if (bk_unit b <=? k)%Z
  then (mkBucket (bk_num b) (bk_unit b) (bk_cap b) (k - bk_unit b) (Some t), true)
  else (mkBucket (bk_num b) (bk_unit b) (bk_cap b) k (Some t), false).

#[export] Instance exact_bucket : RateLib := {|
  Limiter := bucket;
  NewLimiter r b :=
    let unit := (Second * rate_den r)%Z in mkBucket (rate_num r) unit (b * unit) (b * unit) None;
  Allow := bucket_allow;
  Tokens t b := f64_of_Z (refilled t b / bk_unit b);
|}.

Lemma bucket_run (ts : list Time) (t : Time) (b : bucket) :
  bk_last b = Some t → (0 ≤ bk_num b)%Z → (0 < bk_unit b)%Z → (0 ≤ bk_tokens b)%Z →
  (0 ≤ bk_cap b)%Z → nondecreasing t ts →
  (bk_unit b * (@allow_run exact_bucket b ts).2 ≤
   bk_tokens b + bk_num b * (List.last ts t - t))%Z.
Proof.
  revert t b. induction ts as [|u ts IH]; intros t b Hl Hn Hu Hk Hc Hnd; cbn [allow_run].
  { simpl. lia. }
  destruct Hnd as [Htu Hnd]. rewrite last_cons_default. cbn [Allow exact_bucket].
  unfold bucket_allow. assert (0 ≤ refilled u b ≤ bk_tokens b + bk_num b * (u - t))%Z as Hr.
  { unfold refilled. rewrite Hl. nia. }
  destruct (Z.leb_spec (bk_unit b) (refilled u b)) as [Hle | Hgt].
  - specialize (IH u (mkBucket (bk_num b) (bk_unit b) (bk_cap b) (refilled u b - bk_unit b) (Some u))).
    destruct (allow_run _ ts) as [l n]. simpl in *.
    specialize (IH eq_refl Hn Hu ltac:(lia) Hc Hnd). nia.
  - specialize (IH u (mkBucket (bk_num b) (bk_unit b) (bk_cap b) (refilled u b) (Some u))).
    destruct (allow_run _ ts) as [l n]. simpl in *.
    specialize (IH eq_refl Hn Hu ltac:(lia) Hc Hnd). nia.
Qed.

#[export] Instance exact_bucket_laws : RateLaws exact_bucket.
Proof.
  split.
  - intros r b t Hb. pose proof (rate_den_pos r). cbn. unfold bucket_allow, refilled. cbn.
    destruct (Z.leb_spec (Second * rate_den r) (b * (Second * rate_den r))); [done|].
    unfold Second in *. nia.
  - intros r b t ts Hn Hb Hnd. pose proof (rate_den_pos r) as Hd. cbn [allow_run].
    cbn [Allow NewLimiter exact_bucket]. unfold bucket_allow, refilled.
    cbn [bk_last bk_tokens bk_unit bk_num bk_cap].
    set (unit := (Second * rate_den r)%Z). assert (0 < unit)%Z by (unfold unit, Second; lia).
    clearbody unit. destruct (Z.leb_spec unit (b * unit)); [|nia].
    pose proof (bucket_run ts t (mkBucket (rate_num r) unit (b * unit) (b * unit - unit) (Some t))) as Hrun.
    destruct (allow_run _ ts) as [l n]. cbn in *.
    specialize (Hrun eq_refl Hn ltac:(lia) ltac:(lia) ltac:(lia) Hnd). nia.
Qed.

(** ** Instances *)

#[export] Instance demo_net : NetLib := {|
  ParseIP_ok s := negb (s =s? "");
  SplitHost s := head (Split s ":");
|}.

Lemma authLimiter_uniform : uniform authLimiter (f64_of_Z 5) 10.
Proof. split; vm_compute; congruence. Qed.

(** Twelve guesses within the same second. *)
Definition burst_of_guesses : list event :=
  replicate 12 (Hit 1000%Z "ip:10.0.0.1" TierAnonymous) ++ [Tick 2000; Hit 3000%Z "ip:10.0.0.2" TierAnonymous].

Lemma rate_limit_enforced_witness :
  (serve_events (λ _, ""%string) "ip:10.0.0.1" authLimiter burst_of_guesses).2 = 10%Z ∧
  (Second * rate_den (f64_of_Z 5) *
     ((serve_events (λ _, ""%string) "ip:10.0.0.1" authLimiter burst_of_guesses).2 - 10)
   ≤ rate_num (f64_of_Z 5) * (List.last (ev_time <$> burst_of_guesses) 1000 - 1000))%Z.
Proof.
  split; [vm_compute; reflexivity|].
  refine (rate_limit_enforced (λ _, ""%string) "ip:10.0.0.1" authLimiter (f64_of_Z 5) 10 1000
            burst_of_guesses authLimiter_uniform _ _).
  - reflexivity.
  - vm_compute. repeat split; congruence.
Defined.

Lemma limit_headers_bounded_witness :
  (0 ≤ ve_remaining (limit (λ _, ""%string) 1000 "ip:10.0.0.1" TierAnonymous authLimiter).2)%Z.
Proof.
  refine (proj1 (proj1 (limit_headers_bounded (λ _, ""%string) 1000 "ip:10.0.0.1" TierAnonymous
            authLimiter _))).
  vm_compute. congruence.
Defined.

(** Two hundred requests, twice the burst of the larger tier. *)
Definition alternating_hits : list (Time * RateLimitTier) :=
  mjoin (replicate 100 [(1000%Z, TierAnonymous); (1000%Z, TierSystem)]).

Lemma alternating_tiers_unlimited_witness :
  Forall (λ ve, ve_allowed ve = true)
    (serve_hits (λ _, ""%string) "ip:10.0.0.1" apiLimiter alternating_hits).2.
Proof.
  refine (alternating_tiers_unlimited (λ _, ""%string) "ip:10.0.0.1" apiLimiter alternating_hits _ _).
  - reflexivity.
  - vm_compute. repeat split; congruence.
Defined.

Definition attempt (tok : string) : Request :=
  mkRequest "POST" "/api/v1/auth/login" "flagura.dev" true "10.0.0.1:9" {[HeaderAuthorization := "Bearer " +:+ tok]}
    [] ∅.

Lemma fresh_tokens_unlimited_witness :
  Forall (λ ve, ve_allowed ve = true)
    (serve_requests (H := sample_runtime) (λ _, ""%string) authLimiter
       [(1000%Z, attempt "a"); (1000%Z, attempt "b")]).2.
Proof.
  refine (fresh_tokens_unlimited (H := sample_runtime) (λ _, ""%string) authLimiter
            [(1000%Z, attempt "a"); (1000%Z, attempt "b")] ["a"; "b"] _ _ _ _ _ _).
  - reflexivity.
  - vm_compute. reflexivity.
  - vm_compute. congruence.
  - repeat constructor; vm_compute; congruence.
  - apply (bool_decide_eq_true _). vm_compute. reflexivity.
  - repeat constructor.
Defined.
