(* ===== verification/Cookies.v ===== *)
(** * Cookies ([pkg/api/session.go])

    What the server puts in [Set-Cookie] for the session and for the active
    project, with every attribute, and what a browser keeps of it.  The handlers
    of the other files record a cookie as its name and value; its attributes are
    the functions of this file.  The jar follows the storage model of RFC 6265:
    a cookie is known by its name, its host or domain, whether it is for the host
    only, and its path. *)

From S2P Require Import Prelude GoFloat GoStrings GoTime Sha256 Errors Domain Entities StoreState.
From S2P Require Import Http Auth RateLimit.

(** ** [http.Cookie] *)

Inductive SameSite := SameSiteDefaultMode | SameSiteLaxMode | SameSiteStrictMode | SameSiteNoneMode.

Record HttpCookie := mkCookie {
  ck_Name : string;
  ck_Value : string;
  ck_Path : string;
  ck_Domain : string;
  ck_Expires : Time;
  ck_MaxAge : Z;
  ck_HttpOnly : bool;
  ck_SameSite : SameSite;
  ck_Secure : bool;
}.

Section Server.
Context `{GoRuntime} `{NetLib} (env : string → string).

(** ** [resolveCookieDomain] *)

(** [r.Host] without its port. *)
Definition request_host (r : Request) : string := default (rq_Host r) (SplitHost (rq_Host r)).

Definition resolveCookieDomain (r : Request) : string :=
  if negb (env "COOKIE_DOMAIN" =s? "") then env "COOKIE_DOMAIN"
  else if rq_Host r =s? "" then ""
  else
    let host := request_host r in
    if (host =s? "localhost") || (host =s? "127.0.0.1") || (host =s? "::1") ||
       HasPrefix host "[" || ParseIP_ok host then ""
    else if HasSuffix host "flagura.dev" then "flagura.dev"
    else host.

(** ** Setting and clearing *)

(** [int(time.Until(expiresAt).Seconds())], and no less than zero. *)
Definition cookie_max_age (now expiresAt : Time) : Z :=
  let maxAge := f64_trunc (Seconds (time_sub expiresAt now)) in
  if (maxAge <? 0)%Z then 0%Z else maxAge.

Definition setProjectCookie (now : Time) (r : Request) (projectID : string) (expiresAt : Time)
    : list HttpCookie :=
  let isSecure := isCookieSecure env r in
  let maxAge := cookie_max_age now expiresAt in
  let cookieDomain := resolveCookieDomain r in
  [mkCookie CookieProjectName projectID "/" cookieDomain expiresAt maxAge false SameSiteLaxMode isSecure].

Definition setSessionCookie (now : Time) (r : Request) (token : string) (expiresAt : Time)
    : list HttpCookie :=
  let isSecure := isCookieSecure env r in
  let maxAge := cookie_max_age now expiresAt in
  let cookieDomain := resolveCookieDomain r in
  [mkCookie CookieSessionName token "/" cookieDomain expiresAt maxAge true SameSiteLaxMode isSecure].

(** [time.Unix(0, 0)]. *)
Definition unix_epoch : Time := 0%Z.

Definition clearProjectCookie (r : Request) : list HttpCookie :=
  let isSecure := isCookieSecure env r in
  let cookieDomain := resolveCookieDomain r in
  mkCookie CookieProjectName "" "/" "" unix_epoch (-1) false SameSiteLaxMode isSecure ::
  (if negb (cookieDomain =s? "")
   then [mkCookie CookieProjectName "" "/" cookieDomain unix_epoch (-1) false SameSiteLaxMode isSecure]
   else []).

Definition clearSessionCookie (r : Request) : list HttpCookie :=
  let isSecure := isCookieSecure env r in
  let cookieDomain := resolveCookieDomain r in
  mkCookie CookieSessionName "" "/" "" unix_epoch (-1) true SameSiteLaxMode isSecure ::
  (if negb (cookieDomain =s? "")
   then [mkCookie CookieSessionName "" "/" cookieDomain unix_epoch (-1) true SameSiteLaxMode isSecure]
   else []).

(** ** What [http.SetCookie] writes *)

(** [isCookieDomainName] of [net/http], from the second byte on: the last byte,
    whether a letter was seen, and the length of the label. *)
Fixpoint cookie_domain_go (s : string) (last : ascii) (ok : bool) (partlen : nat) : bool :=
  match s with
  | EmptyString => negb (bool_decide (last = "-"%char)) && (partlen <=? 63)%nat && ok
  | String c s =>
      let letter := is_lower_byte c || is_upper_byte c in
      if letter then cookie_domain_go s c true (S partlen)
      else if is_digit_byte c then cookie_domain_go s c ok (S partlen)
      else if bool_decide (c = "-"%char) then
        if bool_decide (last = "."%char) then false else cookie_domain_go s c ok (S partlen)
      else if bool_decide (c = "."%char) then
        if bool_decide (last = "."%char) || bool_decide (last = "-"%char) then false
        else if (63 <? partlen)%nat || (partlen =? 0)%nat then false
        else cookie_domain_go s c ok 0
      else false
  end.

Definition strip_dot (s : string) : string :=
  match s with String "." s' => s' | _ => s end.

Definition isCookieDomainName (s : string) : bool :=
  if s =s? "" then false
  else if (255 <? String.length s)%nat then false
  else cookie_domain_go (strip_dot s) "." false 0.

Definition validCookieDomain (v : string) : bool :=
  isCookieDomainName v || (ParseIP_ok v && negb (Contains v ":")).

(** The [Domain] attribute, if one is written. *)
Definition domain_attr (dom : string) : option string :=
  if negb (dom =s? "") && validCookieDomain dom then Some (strip_dot dom) else None.

Definition wire_domain (c : HttpCookie) : option string := domain_attr (ck_Domain c).

(** When the browser drops the cookie: [Max-Age], which is left out when it is
    zero, comes before [Expires], which is left out before the year 1601 and has
    whole seconds; without either it stays for the session ([None]). *)
Definition wire_expiry (now : Time) (c : HttpCookie) : option Time :=
  if (0 <? ck_MaxAge c)%Z then Some (now + ck_MaxAge c * Second)%Z
  else if (ck_MaxAge c <? 0)%Z then Some now
  else if (-11644473600 * Second <=? ck_Expires c)%Z then Some (ck_Expires c / Second * Second)%Z
  else None.

(** ** The browser *)

Record Kept := mkKept { kp_Value : string; kp_HttpOnly : bool; kp_Secure : bool }.

(** By name, host or domain, host-only, and path. *)
Abbreviation Jar := (gmap (string * string * bool * string) Kept).

Definition domain_match (host d : string) : bool :=
  (host =s? d) || (HasSuffix host ("." +:+ d) && negb (ParseIP_ok host)).

Definition jar_put (now : Time) (k : string * string * bool * string) (c : HttpCookie) (J : Jar) : Jar :=
  match wire_expiry now c with
  | Some t => if (t <=? now)%Z then delete k J
              else <[k := mkKept (ck_Value c) (ck_HttpOnly c) (ck_Secure c)]> J
  | None => <[k := mkKept (ck_Value c) (ck_HttpOnly c) (ck_Secure c)]> J
  end.

(** Where the browser keeps the cookie, unless it is for a foreign domain. *)
Definition wire_place (host : string) (c : HttpCookie) : option (string * string * bool * string) :=
  match wire_domain c with
  | Some d => if domain_match host d then Some (ck_Name c, d, false, ck_Path c) else None
  | None => Some (ck_Name c, host, true, ck_Path c)
  end.

Definition jar_store (now : Time) (host : string) (J : Jar) (c : HttpCookie) : Jar :=
  match wire_place host c with Some k => jar_put now k c J | None => J end.

Definition jar_receive (now : Time) (host : string) (J : Jar) (cs : list HttpCookie) : Jar :=
  foldl (jar_store now host) J cs.

(** What the server may answer a browser with, as far as cookies go. *)
Inductive CookieOp :=
| SetSession (token : string) (expiresAt : Time)
| ClearSession
| SetProject (projectID : string) (expiresAt : Time)
| ClearProject.

Definition op_cookies (now : Time) (r : Request) (op : CookieOp) : list HttpCookie :=
  match op with
  | SetSession token exp => setSessionCookie now r token exp
  | ClearSession => clearSessionCookie r
  | SetProject p exp => setProjectCookie now r p exp
  | ClearProject => clearProjectCookie r
  end.

Definition jar_run (host : string) (J : Jar) (ops : list (Time * Request * CookieOp)) : Jar :=
  foldl (λ J '(now, r, op), jar_receive now host J (op_cookies now r op)) J ops.

(** ** What the attributes are *)

Lemma resolveCookieDomain_host r r' :
  rq_Host r = rq_Host r' → resolveCookieDomain r = resolveCookieDomain r'.
Proof. intros Hh. unfold resolveCookieDomain, request_host. by rewrite Hh. Qed.

(** No cookie is for a domain when the host is an address or [localhost]. *)
Lemma resolveCookieDomain_ip r :
  env "COOKIE_DOMAIN" = "" → ParseIP_ok (request_host r) = true → resolveCookieDomain r = "".
Proof.
  intros He Hip. unfold resolveCookieDomain. rewrite He, str_eqb_refl. cbn [negb].
  destruct (rq_Host r =s? ""); [done|]. cbn zeta. by rewrite Hip, !orb_true_r.
Qed.

Lemma isCookieSecure_https r :
  isRequestHTTPS r = true → EqualFold (env "ALLOW_INSECURE_COOKIES") "true" = false →
  EqualFold (env "SECURE_COOKIE") "false" = false → isCookieSecure env r = true.
Proof. intros Hs Ha Hb. unfold isCookieSecure. rewrite Ha, Hb. cbn [orb]. rewrite Hs. by destruct (EqualFold (env "SECURE_COOKIE") "true"). Qed.

(** Every cookie that carries or clears a session is hidden from scripts, withheld
    from cross-site posts, for the whole site, and bound to HTTPS whenever the
    request came by it and the environment does not say otherwise. *)
Theorem session_cookies_hardened now r op :
  op = ClearSession ∨ (∃ token exp, op = SetSession token exp) →
  Forall (λ c, ck_Name c = CookieSessionName ∧ ck_HttpOnly c = true ∧ ck_SameSite c = SameSiteLaxMode ∧
    ck_Path c = "/" ∧
    (isRequestHTTPS r = true → EqualFold (env "ALLOW_INSECURE_COOKIES") "true" = false →
     EqualFold (env "SECURE_COOKIE") "false" = false → ck_Secure c = true))
    (op_cookies now r op).
Proof.
  intros Hop. pose proof (isCookieSecure_https r) as Hs.
  destruct Hop as [->|(token & exp & ->)]; cbn; unfold clearSessionCookie, setSessionCookie;
    [case_if|]; repeat (constructor; [by repeat split|]); constructor.
Qed.

(** ** What a logout leaves in the browser *)

(** The places where a cookie of the server can be. *)
Definition cookie_place (host dom name : string) (k : string * string * bool * string) : Prop :=
  k = (name, host, true, "/") ∨
  ∃ d, domain_attr dom = Some d ∧ domain_match host d = true ∧ k = (name, d, false, "/").

Lemma jar_put_lookup now k c J k' : is_Some (jar_put now k c J !! k') → k' = k ∨ is_Some (J !! k').
Proof.
  intros Hs. destruct (decide (k' = k)) as [->|Hk]; [by left|]. right. revert Hs. unfold jar_put.
  destruct (wire_expiry now c) as [t|]; [case_if|];
    rewrite ?lookup_delete_ne, ?lookup_insert_ne by congruence; done.
Qed.

Lemma wire_place_within host c k :
  ck_Path c = "/" → wire_place host c = Some k → cookie_place host (ck_Domain c) (ck_Name c) k.
Proof.
  intros Hp. unfold wire_place, wire_domain. rewrite Hp.
  destruct (domain_attr (ck_Domain c)) as [d|] eqn:Hd; [|by intros [= <-]; left].
  destruct (domain_match host d) eqn:Hm; [|done]. intros [= <-]. right. eauto.
Qed.

Lemma jar_store_lookup now host J c k :
  ck_Path c = "/" → is_Some (jar_store now host J c !! k) →
  cookie_place host (ck_Domain c) (ck_Name c) k ∨ is_Some (J !! k).
Proof.
  intros Hp. unfold jar_store. destruct (wire_place host c) as [k'|] eqn:Hw; [|by right].
  intros [->|Hk]%jar_put_lookup; [left; by apply wire_place_within|by right].
Qed.

Lemma cookie_place_empty host dom name k : cookie_place host "" name k → cookie_place host dom name k.
Proof. intros [->|(d & Hd & _)]; [by left|discriminate Hd]. Qed.

(** The cookies of an answer are for the site, under one of the two names, for the
    domain of the host or for the host only. *)
Lemma op_cookies_shape now r op :
  Forall (λ c, ck_Path c = "/" ∧ (ck_Domain c = "" ∨ ck_Domain c = resolveCookieDomain r))
    (op_cookies now r op).
Proof.
  destruct op; cbn; unfold setSessionCookie, clearSessionCookie, setProjectCookie, clearProjectCookie;
    repeat case_if; repeat (constructor; [split; [done|by auto]|]); constructor.
Qed.

(** Everything in the jar is where the server puts cookies. *)
Definition jar_within (host dom : string) (J : Jar) : Prop :=
  ∀ k, is_Some (J !! k) → cookie_place host dom k.1.1.1 k.

Lemma jar_receive_within now host dom J cs :
  Forall (λ c, ck_Path c = "/" ∧ (ck_Domain c = "" ∨ ck_Domain c = dom)) cs →
  jar_within host dom J → jar_within host dom (jar_receive now host J cs).
Proof.
  revert J. unfold jar_receive. induction cs as [|c cs IH]; intros J Hcs HJ; [done|]. cbn [foldl].
  apply Forall_cons in Hcs as [[Hp Hd] Hcs]. apply IH; [done|].
  intros k [Hk|Hk]%jar_store_lookup; [|by apply HJ|done].
  assert (k.1.1.1 = ck_Name c) as -> by (destruct Hk as [->|(d & _ & _ & ->)]; done).
  destruct Hd as [Hd|Hd]; rewrite Hd in Hk; [by apply cookie_place_empty|done].
Qed.

Lemma jar_run_within host h J ops :
  (∀ r, rq_Host r = h → jar_within host (resolveCookieDomain r) J) →
  Forall (λ x, rq_Host x.1.2 = h) ops →
  ∀ r, rq_Host r = h → jar_within host (resolveCookieDomain r) (jar_run host J ops).
Proof.
  revert J. unfold jar_run. induction ops as [|[[now r'] op] ops IH]; intros J HJ Hops r Hr; [by apply HJ|].
  apply Forall_cons in Hops as [Hr' Hops]. cbn in Hr'. cbn [foldl]. apply IH; [|done|done].
  intros r0 Hr0. rewrite (resolveCookieDomain_host r0 r') by congruence.
  apply jar_receive_within; [apply op_cookies_shape|by apply HJ].
Qed.

(** A cookie that is sent to be dropped is dropped, and nothing is added. *)
Lemma jar_store_drop now host J c k :
  ck_MaxAge c = (-1)%Z → J !! k = None ∨ wire_place host c = Some k →
  jar_store now host J c !! k = None.
Proof.
  intros Ha Hk. unfold jar_store. destruct (wire_place host c) as [k'|]; [|by destruct Hk].
  unfold jar_put, wire_expiry. rewrite Ha. cbn. rewrite Z.leb_refl.
  destruct (decide (k = k')) as [->|Hn]; [apply lookup_delete_eq|].
  rewrite lookup_delete_ne by congruence. destruct Hk as [?|Hk]; congruence.
Qed.

(** The name of the cookie an operation clears. *)
Definition cleared_name (op : CookieOp) : option string :=
  match op with
  | ClearSession => Some CookieSessionName
  | ClearProject => Some CookieProjectName
  | _ => None
  end.

(** Both clearing functions send the two cookies that cover the places. *)
Lemma clear_covers now host J r op name k :
  cleared_name op = Some name → cookie_place host (resolveCookieDomain r) name k →
  jar_receive now host J (op_cookies now r op) !! k = None.
Proof.
  intros Hop Hk. unfold jar_receive.
  assert (∃ ho sec, op_cookies now r op =
    mkCookie name "" "/" "" unix_epoch (-1) ho SameSiteLaxMode sec ::
    (if negb (resolveCookieDomain r =s? "")
     then [mkCookie name "" "/" (resolveCookieDomain r) unix_epoch (-1) ho SameSiteLaxMode sec]
     else [])) as (ho & sec & ->).
  { destruct op; try discriminate Hop; injection Hop as <-; cbn; do 2 eexists; reflexivity. }
  destruct Hk as [->|(d & Hd & Hm & ->)].
  - case_if; cbn [foldl]; [apply jar_store_drop; [done|left]|]; by apply jar_store_drop; [|right].
  - case_if; cbn [foldl].
    + apply jar_store_drop; [done|right]. unfold wire_place, wire_domain. cbn. by rewrite Hd, Hm.
    + apply negb_false_iff, str_eqb_eq in Heqb. by rewrite Heqb in Hd.
Qed.


(** ** What a login leaves *)

Lemma HasSuffix_refl s : HasSuffix s s = true.
Proof.
  unfold HasSuffix. rewrite Nat.leb_refl, Nat.sub_diag, str_substring_all. apply str_eqb_refl.
Qed.

Lemma strip_dot_match h : ParseIP_ok h = false → domain_match h (strip_dot h) = true.
Proof.
  intros Hip. unfold domain_match, strip_dot. destruct h as [|c h]; [done|].
  destruct (decide (c = "."%char)) as [->|Hc].
  { rewrite Hip. cbn [negb]. change ("." +:+ h) with (String "." h). by rewrite HasSuffix_refl, orb_true_r. }
  assert (match String c h with String "." s' => s' | _ => String c h end = String c h) as ->.
  { destruct c as [[] [] [] [] [] [] [] []]; try done. }
  by rewrite str_eqb_refl.
Qed.

(** A login takes: the browser keeps the session cookie of an answer, hidden from
    scripts, when the site does not force a domain and its host is not one that
    merely ends in the letters of the product's own domain. *)
Theorem login_cookie_kept now r token exp J :
  env "COOKIE_DOMAIN" = "" →
  (HasSuffix (request_host r) "flagura.dev" = true → domain_match (request_host r) "flagura.dev" = true) →
  (0 < cookie_max_age now exp)%Z →
  ∃ k, k.1.1.1 = CookieSessionName ∧
    jar_receive now (request_host r) J (setSessionCookie now r token exp) !! k
    = Some (mkKept token true (isCookieSecure env r)).
Proof.
  intros He Hf Hage. unfold jar_receive, setSessionCookie. cbn [foldl]. unfold jar_store, wire_place.
  assert (Hput : ∀ k c, ck_MaxAge c = cookie_max_age now exp → ck_Value c = token → ck_HttpOnly c = true →
    ck_Secure c = isCookieSecure env r →
    jar_put now k c J !! k = Some (mkKept token true (isCookieSecure env r))).
  { intros k c Hm Hv Hh Hs. unfold jar_put, wire_expiry. rewrite Hm, Hv, Hh, Hs.
    rewrite (proj2 (Z.ltb_lt _ _) Hage). unfold Second in *.
    rewrite (proj2 (Z.leb_gt _ _)) by lia. by rewrite lookup_insert_eq. }
  unfold wire_domain. cbn [ck_Domain ck_Name ck_Path].
  destruct (domain_attr (resolveCookieDomain r)) as [d|] eqn:Hd; [|eexists; by split; [|apply Hput]].
  assert (domain_match (request_host r) d = true) as ->; [|eexists; by split; [|apply Hput]].
  unfold domain_attr in Hd. destruct (_ && _) eqn:Hc in Hd; [|done]. injection Hd as <-.
  apply andb_true_iff in Hc as [Hne _].
  unfold resolveCookieDomain in *. rewrite He, str_eqb_refl in *. cbn [negb] in *.
  destruct (rq_Host r =s? ""); [done|]. cbn zeta in *.
  destruct (ParseIP_ok (request_host r)) eqn:Hip; [by rewrite !orb_true_r in Hne|].
  case_if; [done|]. case_if; [by apply Hf|]. by apply strip_dot_match.
Qed.

End Server.

(** ** On a small instance *)

Definition site_request (host : string) : Request :=
  mkRequest "POST" "/api/v1/auth/login" host true "10.0.0.1" ∅ [] ∅.

(** Seven days. *)
Definition week : Duration := (168 * Hour)%Z.

#[local] Existing Instance sample_runtime.

(** [net.SplitHostPort] for a host without brackets, and dotted addresses. *)
Definition host_before_port (s : string) : option string :=
  match Split s ":" with [h; _] => Some h | _ => None end.

Definition dotted_byte (s : string) : bool :=
  match decimal_go s 0 with
  | Some n => negb (s =s? "") && (n <=? 255)%Z && (Itoa n =s? s)
  | None => false
  end.

Definition is_dotted (s : string) : bool :=
  let parts := Split s "." in (length parts =? 4)%nat && forallb dotted_byte parts.

#[local] Instance site_net : NetLib := {| ParseIP_ok := is_dotted; SplitHost := host_before_port |}.

Lemma session_cookies_hardened_witness :
  Forall (λ c, ck_Secure c = true)
    (op_cookies (λ _, "") 0 (site_request "acme.dev") (SetSession "tok" week)).
Proof.
  eapply Forall_impl; [apply (session_cookies_hardened (λ _, "") 0 (site_request "acme.dev")
    (SetSession "tok" week)); right; by do 2 eexists|].
  intros c (_ & _ & _ & _ & Hs). by apply Hs.
Defined.


Lemma login_cookie_kept_witness :
  let r := site_request "app.flagura.dev" in
  ∃ k, k.1.1.1 = CookieSessionName ∧
    jar_receive 0 (request_host r) ∅ (setSessionCookie (λ _, "") 0 r "tok" week) !! k
    = Some (mkKept "tok" true (isCookieSecure (λ _, "") r)).
Proof.
  apply (login_cookie_kept (λ _, "") 0 (site_request "app.flagura.dev") "tok" week ∅);
    [done|by vm_compute|by vm_compute].
Defined.

(** The domain is chosen by the last letters of the host, without a dot before
    them, so on a host such as this one the browser refuses the cookie, and nobody
    can log in. *)
Example lookalike_host_cannot_log_in :
  resolveCookieDomain (λ _, "") (site_request "myflagura.dev") = "flagura.dev" ∧
  jar_receive 0 "myflagura.dev" ∅
    (setSessionCookie (λ _, "") 0 (site_request "myflagura.dev") "tok" week) = ∅.
Proof. split; vm_compute; reflexivity. Qed.
