(* ===== verification/Telemetry.v ===== *)
(** * Telemetry of the clients ([pkg/client/telemetry.go], [sdks/go/telemetry.go])

    The client counts evaluations in memory and sends the counts in batches.  A
    flush takes the counts under the lock and sends them without it, so other
    operations run between its two halves.  Counters are [uint64]. *)

From S2P Require Import Prelude GoFloat GoStrings GoTime.

(** ** Sums over maps *)

Definition map_sum {A} (f : A → Z) (m : gmap string A) : Z := map_fold (λ _ a acc, f a + acc)%Z 0%Z m.

Lemma map_sum_empty {A} (f : A → Z) : map_sum f ∅ = 0%Z.
Proof. apply map_fold_empty. Qed.

Lemma map_sum_insert_new {A} (f : A → Z) m k a :
  m !! k = None → map_sum f (<[k := a]> m) = (f a + map_sum f m)%Z.
Proof.
  intros Hk. unfold map_sum.
  rewrite (map_fold_insert_L (λ _ a acc, f a + acc)%Z 0%Z); [done|intros; lia|done].
Qed.

Lemma map_sum_insert {A} (f : A → Z) m k a :
  map_sum f (<[k := a]> m)
  = (f a + map_sum f m - match m !! k with Some b => f b | None => 0 end)%Z.
Proof.
  destruct (m !! k) as [b|] eqn:Hk.
  - rewrite <- (insert_delete_id m k b Hk) at 2. rewrite <- insert_delete_eq.
    rewrite !map_sum_insert_new by apply lookup_delete_eq. lia.
  - rewrite map_sum_insert_new by done. lia.
Qed.

(** ** The buffer of [pkg/client] *)

Definition DefaultMaxBufferedFlags : Z := 1000.
Definition DefaultMaxVariantsPerFlag : Z := 50.

Record FlagMetric := mkMetric {
  fm_Evaluations : Z;
  fm_Variants : gmap string Z;
}.

Record TelemetryPayload := mkTelemetryPayload {
  tp_Timestamp : Z;
  tp_Events : gmap string FlagMetric;
  tp_DroppedEvents : Z;
}.

Record TelemetryBuffer := mkBuffer {
  tb_metrics : gmap string FlagMetric;
  tb_maxFlags : Z;
  tb_maxVariants : Z;
  tb_droppedEvents : Z;
}.

#[export] Instance eta_TelemetryBuffer : Eta TelemetryBuffer :=
  {| eta_expand r := mkBuffer (tb_metrics r) (tb_maxFlags r) (tb_maxVariants r) (tb_droppedEvents r) |}.

Definition NewTelemetryBuffer : TelemetryBuffer :=
  mkBuffer ∅ DefaultMaxBufferedFlags DefaultMaxVariantsPerFlag 0.

Definition SetCapacityBounds (maxFlags maxVariants : Z) (tb : TelemetryBuffer) : TelemetryBuffer :=
  let tb := if (0 <? maxFlags)%Z then tb <| tb_maxFlags := maxFlags |> else tb in
  if (0 <? maxVariants)%Z then tb <| tb_maxVariants := maxVariants |> else tb.

Definition drop_event (tb : TelemetryBuffer) : TelemetryBuffer :=
  tb <| tb_droppedEvents := wrap_u64 (tb_droppedEvents tb + 1) |>.

Definition map_len {A} (m : gmap string A) : Z := Z.of_nat (size m).

(** [Record]. *)
Definition RecordEvaluation (flagKey variant : string) (tb : TelemetryBuffer) : TelemetryBuffer :=
  if flagKey =s? "" then tb
  else
    let variant := or_default variant "off" in
    let absent := bool_decide (tb_metrics tb !! flagKey = None) in
    if absent && (tb_maxFlags tb <=? map_len (tb_metrics tb))%Z then drop_event tb
    else
      let m := default (mkMetric 0 ∅) (tb_metrics tb !! flagKey) in
      let tb := tb <| tb_metrics := <[flagKey := m]> (tb_metrics tb) |> in
      if bool_decide (fm_Variants m !! variant = None) &&
         (tb_maxVariants tb <=? map_len (fm_Variants m))%Z
      then drop_event tb
      else
        let count := default 0%Z (fm_Variants m !! variant) in
        tb <| tb_metrics :=
                <[flagKey := mkMetric (wrap_u64 (fm_Evaluations m + 1))
                               (<[variant := wrap_u64 (count + 1)]> (fm_Variants m))]>
                  (tb_metrics tb) |>.

(** The first half of [Flush], under the lock. *)
Definition flush_take (nowMilli : Z) (tb : TelemetryBuffer)
    : TelemetryBuffer * option TelemetryPayload :=
  let dropped := tb_droppedEvents tb in
  let tb := tb <| tb_droppedEvents := 0%Z |> in
  if bool_decide (tb_metrics tb = ∅) && (dropped =? 0)%Z then (tb, None)
  else (tb <| tb_metrics := ∅ |>, Some (mkTelemetryPayload nowMilli (tb_metrics tb) dropped)).

(** How sending went: the request could not be made, was not answered, or was
    answered with a status. *)
Inductive sending := NotSent | NoAnswer | Answered (status : Z).

Definition sent_ok (r : sending) : bool :=
  match r with Answered status => (status <? 400)%Z | _ => false end.

(** The second half: on a failure of the network or the server the dropped count
    is added back, the metrics are not. *)
Definition flush_done (r : sending) (p : TelemetryPayload) (tb : TelemetryBuffer) : TelemetryBuffer :=
  match r with
  | NotSent => tb
  | NoAnswer => tb <| tb_droppedEvents := wrap_u64 (tb_droppedEvents tb + tp_DroppedEvents p) |>
  | Answered status =>
      if (400 <=? status)%Z
      then tb <| tb_droppedEvents := wrap_u64 (tb_droppedEvents tb + tp_DroppedEvents p) |> else tb
  end.

(** ** Interleavings *)

Inductive tel_action :=
| TRecord (flagKey variant : string)
| TTake (nowMilli : Z)
| TDone (n : nat) (r : sending).

(** The buffer, the payloads being sent, and the history: the payloads the server
    accepted and the ones that were lost. *)
Record TelSystem := mkTel {
  ts_buffer : TelemetryBuffer;
  ts_inflight : list TelemetryPayload;
  ts_accepted : list TelemetryPayload;
  ts_failed : list (sending * TelemetryPayload);
}.

Definition tel_step (s : TelSystem) (a : tel_action) : TelSystem :=
  match a with
  | TRecord f v =>
      mkTel (RecordEvaluation f v (ts_buffer s)) (ts_inflight s) (ts_accepted s) (ts_failed s)
  | TTake now =>
      let '(tb, p) := flush_take now (ts_buffer s) in
      mkTel tb (ts_inflight s ++ option_list p) (ts_accepted s) (ts_failed s)
  | TDone n r =>
      match ts_inflight s !! n with
      | None => s
      | Some p =>
          let tb := flush_done r p (ts_buffer s) in
          let rest := delete n (ts_inflight s) in
          if sent_ok r then mkTel tb rest (p :: ts_accepted s) (ts_failed s)
          else mkTel tb rest (ts_accepted s) ((r, p) :: ts_failed s)
      end
  end.

Definition tel_run (acts : list tel_action) : TelSystem :=
  foldl tel_step (mkTel NewTelemetryBuffer [] [] []) acts.

Definition Zsum (l : list Z) : Z := foldr Z.add 0%Z l.

(** How many evaluations were recorded. *)
Definition records (a : tel_action) : Z :=
  match a with TRecord f _ => if f =s? "" then 0 else 1 | _ => 0 end%Z.

Definition recorded (acts : list tel_action) : Z := Zsum (records <$> acts).

Definition counted (m : gmap string FlagMetric) : Z := map_sum fm_Evaluations m.

Definition payload_count (p : TelemetryPayload) : Z := (counted (tp_Events p) + tp_DroppedEvents p)%Z.

(** What a failed flush loses: the metrics, and the dropped count only when the
    request was never made. *)
Definition lost_count (rp : sending * TelemetryPayload) : Z :=
  match rp.1 with NotSent => payload_count rp.2 | _ => counted (tp_Events rp.2) end.

(** All evaluations the system knows of. *)
Definition accounted (s : TelSystem) : Z :=
  (counted (tb_metrics (ts_buffer s)) + tb_droppedEvents (ts_buffer s) +
   Zsum (payload_count <$> ts_inflight s) + Zsum (payload_count <$> ts_accepted s) +
   Zsum (lost_count <$> ts_failed s))%Z.

(** ** Facts *)

Lemma wrap_eq a b : wrap_u64 a = wrap_u64 b ↔ ∃ k, (a = b + k * 2 ^ 64)%Z.
Proof.
  unfold wrap_u64. split.
  - intros H. exists (a / 2 ^ 64 - b / 2 ^ 64)%Z.
    pose proof (Z.div_mod a (2 ^ 64) ltac:(lia)). pose proof (Z.div_mod b (2 ^ 64) ltac:(lia)). lia.
  - intros [k ->]. by apply Z.mod_add.
Qed.

Lemma wrap_small_diff a : ∃ k, (wrap_u64 a = a + k * 2 ^ 64)%Z.
Proof.
  exists (- (a / 2 ^ 64))%Z. unfold wrap_u64.
  pose proof (Z.div_mod a (2 ^ 64) ltac:(lia)). lia.
Qed.

Lemma Zsum_app l1 l2 : Zsum (l1 ++ l2) = (Zsum l1 + Zsum l2)%Z.
Proof. induction l1 as [|x l1 IH]; simpl; [done|]. rewrite IH. lia. Qed.

Lemma Zsum_delete (l : list Z) n x : l !! n = Some x → (Zsum (delete n l) = Zsum l - x)%Z.
Proof.
  revert n. induction l as [|y l IH]; intros [|n] Hn; simplify_eq/=; [lia|]. rewrite (IH _ Hn). lia.
Qed.

(** The shape of the buffer: its bounds, and in each metric the evaluations are
    the sum of the variants. *)
Record buffer_ok (tb : TelemetryBuffer) : Prop := {
  bo_flags : (map_len (tb_metrics tb) ≤ tb_maxFlags tb)%Z;
  bo_variants : map_Forall (λ _ m, map_len (fm_Variants m) ≤ tb_maxVariants tb)%Z (tb_metrics tb);
  bo_sum : map_Forall (λ _ m, wrap_u64 (fm_Evaluations m) = wrap_u64 (map_sum id (fm_Variants m)))
             (tb_metrics tb);
  bo_limits : (0 < tb_maxFlags tb)%Z ∧ (0 < tb_maxVariants tb)%Z;
}.

Lemma map_len_insert {A} (m : gmap string A) k a :
  map_len (<[k := a]> m) = (map_len m + if bool_decide (m !! k = None) then 1 else 0)%Z.
Proof.
  unfold map_len. case_bool_decide as Hk.
  - rewrite map_size_insert_None by done. lia.
  - destruct (m !! k) as [b|] eqn:E; [|done]. rewrite map_size_insert_Some by eauto. lia.
Qed.

(** A metric as the buffer keeps it. *)
Definition metric_ok (tb : TelemetryBuffer) (m : FlagMetric) : Prop :=
  (map_len (fm_Variants m) ≤ tb_maxVariants tb)%Z ∧
  wrap_u64 (fm_Evaluations m) = wrap_u64 (map_sum id (fm_Variants m)).

Lemma put_metric_ok tb f m :
  buffer_ok tb → metric_ok tb m →
  (tb_metrics tb !! f = None → map_len (tb_metrics tb) < tb_maxFlags tb)%Z →
  buffer_ok (tb <| tb_metrics := <[f := m]> (tb_metrics tb) |>).
Proof.
  intros [Hf Hv Hs Hp] [Hm1 Hm2] Hroom. split; simpl; [|by apply map_Forall_insert_2..|done].
  rewrite map_len_insert. case_bool_decide as Hn; [specialize (Hroom Hn)|]; lia.
Qed.

Lemma found_metric_ok tb f : buffer_ok tb → metric_ok tb (default (mkMetric 0 ∅) (tb_metrics tb !! f)).
Proof.
  intros [Hf Hv Hs Hp]. destruct (tb_metrics tb !! f) as [m|] eqn:E; simpl.
  - split; [by apply (Hv f)|by apply (Hs f)].
  - split; simpl; [unfold map_len; rewrite map_size_empty; lia|by rewrite map_sum_empty].
Qed.

Lemma counted_metric_ok tb m v :
  metric_ok tb m → (fm_Variants m !! v = None → map_len (fm_Variants m) < tb_maxVariants tb)%Z →
  metric_ok tb (mkMetric (wrap_u64 (fm_Evaluations m + 1))
    (<[v := wrap_u64 (default 0%Z (fm_Variants m !! v) + 1)]> (fm_Variants m))).
Proof.
  intros [Hm1 Hm2] Hroom. split; simpl.
  - rewrite map_len_insert. case_bool_decide as Hn; [specialize (Hroom Hn)|]; lia.
  - rewrite map_sum_insert. apply wrap_eq in Hm2 as [k Hk]. apply wrap_eq.
    destruct (wrap_small_diff (fm_Evaluations m + 1)) as [k1 ->].
    destruct (wrap_small_diff (default 0%Z (fm_Variants m !! v) + 1)) as [k2 ->].
    exists (k + k1 - k2)%Z. rewrite Hk. unfold id. destruct (fm_Variants m !! v); simpl; lia.
Qed.

(** What [RecordEvaluation] does, as one of four cases. *)
Lemma record_cases f v tb :
  let m := default (mkMetric 0 ∅) (tb_metrics tb !! f) in
  let var := or_default v "off" in
  let m' := mkMetric (wrap_u64 (fm_Evaluations m + 1))
              (<[var := wrap_u64 (default 0%Z (fm_Variants m !! var) + 1)]> (fm_Variants m)) in
  let room := (tb_metrics tb !! f = None → map_len (tb_metrics tb) < tb_maxFlags tb)%Z in
  f = "" ∧ RecordEvaluation f v tb = tb ∨
  f ≠ "" ∧ RecordEvaluation f v tb = drop_event tb ∨
  f ≠ "" ∧ room ∧
    RecordEvaluation f v tb = drop_event (tb <| tb_metrics := <[f := m]> (tb_metrics tb) |>) ∨
  f ≠ "" ∧ room ∧ (fm_Variants m !! var = None → map_len (fm_Variants m) < tb_maxVariants tb)%Z ∧
    RecordEvaluation f v tb = tb <| tb_metrics := <[f := m']> (tb_metrics tb) |>.
Proof.
  intros m var m' room. unfold RecordEvaluation. fold m var.
  destruct (f =s? "") eqn:Ef; [left; by apply str_eqb_eq in Ef|].
  apply str_eqb_neq in Ef. right.
  destruct (bool_decide (tb_metrics tb !! f = None) && _) eqn:Hfull; [by left|]. right.
  assert room as Hroom.
  { intros Hn. rewrite bool_decide_true in Hfull by done. simpl in Hfull. lia. }
  cbv zeta. simpl tb_maxVariants.
  destruct (bool_decide (fm_Variants m !! var = None) && _) eqn:Hv; [by left|]. right.
  split_and!; [done|done| |].
  - intros Hn. rewrite bool_decide_true in Hv by done. simpl in Hv. lia.
  - destruct tb. simpl. by rewrite insert_insert_eq.
Qed.

Lemma drop_ok tb : buffer_ok tb → buffer_ok (drop_event tb).
Proof. intros []. by split. Qed.

Lemma record_ok f v tb : buffer_ok tb → buffer_ok (RecordEvaluation f v tb).
Proof.
  intros Hok. pose proof (found_metric_ok tb f Hok) as Hm.
  destruct (record_cases f v tb) as [[_ ->] | [[_ ->] | [(_ & Hr & ->) | (_ & Hr & Hv & ->)]]].
  - done.
  - by apply drop_ok.
  - apply drop_ok. by apply put_metric_ok.
  - apply put_metric_ok; [done|by apply counted_metric_ok|done].
Qed.

(** The evaluations a buffer holds or has dropped. *)
Definition held (tb : TelemetryBuffer) : Z := (counted (tb_metrics tb) + tb_droppedEvents tb)%Z.

Lemma counted_put tb f m :
  counted (<[f := m]> (tb_metrics tb))
  = (counted (tb_metrics tb) + fm_Evaluations m -
     fm_Evaluations (default (mkMetric 0 ∅) (tb_metrics tb !! f)))%Z.
Proof.
  unfold counted. rewrite map_sum_insert. destruct (tb_metrics tb !! f); simpl; lia.
Qed.

Lemma record_held f v tb :
  ∃ k, (held (RecordEvaluation f v tb)
        = held tb + records (TRecord f v) + k * 2 ^ 64)%Z.
Proof.
  unfold held.
  destruct (wrap_small_diff (tb_droppedEvents tb + 1)) as [k1 Hk1].
  destruct (record_cases f v tb) as [[Hf ->] | [[Hf ->] | [(Hf & _ & ->) | (Hf & _ & _ & ->)]]].
  - exists 0%Z. subst f. simpl. lia.
  - exists k1. simpl. rewrite (proj2 (str_eqb_neq _ _) Hf). lia.
  - exists k1. simpl. rewrite counted_put, (proj2 (str_eqb_neq _ _) Hf). lia.
  - destruct (wrap_small_diff (fm_Evaluations (default (mkMetric 0 ∅) (tb_metrics tb !! f)) + 1))
      as [k2 Hk2].
    exists k2. simpl. rewrite counted_put, (proj2 (str_eqb_neq _ _) Hf). simpl. lia.
Qed.

(** ** Along every interleaving *)

Lemma take_held now tb tb' p :
  flush_take now tb = (tb', p) →
  held tb = (held tb' + Zsum (payload_count <$> option_list p))%Z.
Proof.
  unfold flush_take, held, payload_count. simpl. destruct (bool_decide (tb_metrics tb = ∅) && _) eqn:E.
  - intros [= <- <-]. simpl. apply andb_true_iff in E as [_ E%Z.eqb_eq]. rewrite E. lia.
  - intros [= <- <-]. simpl. unfold counted. rewrite map_sum_empty. lia.
Qed.

Lemma take_ok now tb : buffer_ok tb → buffer_ok (flush_take now tb).1.
Proof.
  intros [Hf Hv Hs [? ?]]. unfold flush_take. simpl. destruct (bool_decide _ && _); [by split|].
  split; simpl; [unfold map_len; rewrite map_size_empty; lia|apply map_Forall_empty..|done].
Qed.

Lemma done_ok r p tb : buffer_ok tb → buffer_ok (flush_done r p tb).
Proof. intros []. destruct r as [| |status]; simpl; [by split..|]. case_match; by split. Qed.

Lemma done_held r p tb :
  ∃ k, (held tb + payload_count p = held (flush_done r p tb) +
        (if sent_ok r then payload_count p else lost_count (r, p)) + k * 2 ^ 64)%Z.
Proof.
  unfold held, payload_count, lost_count.
  destruct (wrap_small_diff (tb_droppedEvents tb + tp_DroppedEvents p)) as [k Hk].
  destruct r as [| |status]; simpl.
  - exists 0%Z. unfold payload_count. lia.
  - exists (- k)%Z. lia.
  - destruct (Z.leb_spec 400 status), (Z.ltb_spec status 400); try lia; simpl.
    + exists (- k)%Z. lia.
    + exists 0%Z. lia.
Qed.

Lemma tel_step_ok s a : buffer_ok (ts_buffer s) → buffer_ok (ts_buffer (tel_step s a)).
Proof.
  intros Hok. destruct a as [f v|now|n r]; simpl.
  - by apply record_ok.
  - pose proof (take_ok now _ Hok) as Ht. by destruct (flush_take now (ts_buffer s)).
  - destruct (ts_inflight s !! n) as [p|]; [|done]. destruct (sent_ok r); by apply done_ok.
Qed.

Lemma tel_step_accounted s a : ∃ k, (accounted (tel_step s a) = accounted s + records a + k * 2 ^ 64)%Z.
Proof.
  unfold accounted. destruct a as [f v|now|n r]; simpl.
  - destruct (record_held f v (ts_buffer s)) as [k Hk]. unfold held in Hk. exists k. simpl in Hk. lia.
  - destruct (flush_take now (ts_buffer s)) as [tb p] eqn:Ht. apply take_held in Ht.
    exists 0%Z. simpl. rewrite fmap_app, Zsum_app. unfold held in Ht. lia.
  - destruct (ts_inflight s !! n) as [p|] eqn:Hn; [|exists 0%Z; lia].
    assert ((payload_count <$> ts_inflight s) !! n = Some (payload_count p)) as Hn'.
    { by rewrite list_lookup_fmap, Hn. }
    destruct (done_held r p (ts_buffer s)) as [k Hk]. unfold held in Hk.
    exists (- k)%Z. revert Hk. destruct (sent_ok r); intros Hk; csimpl;
      rewrite list_fmap_delete, (Zsum_delete _ _ _ Hn'); lia.
Qed.

Lemma tel_run_ok acts : buffer_ok (ts_buffer (tel_run acts)).
Proof.
  unfold tel_run.
  assert (∀ s, buffer_ok (ts_buffer s) → buffer_ok (ts_buffer (foldl tel_step s acts))) as H.
  { induction acts as [|a acts IH]; intros s Hs; simpl; [done|]. by apply IH, tel_step_ok. }
  apply H. split; simpl; [|apply map_Forall_empty..|done].
  unfold map_len. rewrite map_size_empty. done.
Qed.

(** The client's telemetry buffer stays within its limits, 1000 flags of at
    most 50 variants each, along every interleaving of evaluations and flushes,
    and in every metric the evaluations are the sum of the variants' counts
    (as [uint64]s). *)
Theorem telemetry_bounded (acts : list tel_action) :
  let tb := ts_buffer (tel_run acts) in
  (map_len (tb_metrics tb) ≤ tb_maxFlags tb)%Z ∧
  map_Forall (λ _ m, map_len (fm_Variants m) ≤ tb_maxVariants tb ∧
    wrap_u64 (fm_Evaluations m) = wrap_u64 (map_sum id (fm_Variants m)))%Z (tb_metrics tb).
Proof.
  destruct (tel_run_ok acts) as [Hf Hv Hs _]. split; [done|].
  intros k m Hk. split; [by apply (Hv k)|by apply (Hs k)].
Qed.

(** No evaluation is counted twice and none disappears unaccounted: at every
    moment the recorded evaluations are those buffered, dropped for lack of room,
    being sent, accepted by the server or lost with a failed flush (modulo the
    width of the counters). *)
Theorem telemetry_conserved (acts : list tel_action) :
  wrap_u64 (accounted (tel_run acts)) = wrap_u64 (recorded acts).
Proof.
  unfold tel_run, recorded.
  assert (∀ s, ∃ k, (accounted (foldl tel_step s acts)
                     = accounted s + Zsum (records <$> acts) + k * 2 ^ 64)%Z) as H.
  { induction acts as [|a acts IH]; intros s; csimpl; [exists 0%Z; simpl; lia|].
    destruct (IH (tel_step s a)) as [k1 Hk1]. destruct (tel_step_accounted s a) as [k2 Hk2].
    exists (k1 + k2)%Z. lia. }
  destruct (H (mkTel NewTelemetryBuffer [] [] [])) as [k Hk]. apply wrap_eq. exists k. rewrite Hk.
  unfold accounted. simpl. unfold counted. rewrite map_sum_empty. lia.
Qed.

(** A failed flush loses its metrics: only the dropped count is added back. *)
Lemma failed_flush_loses_metrics :
  let s := tel_run [TRecord "dark-mode" "on"; TTake 1; TDone 0 (Answered 503)] in
  tb_metrics (ts_buffer s) = ∅ ∧ tb_droppedEvents (ts_buffer s) = 0%Z ∧ ts_accepted s = [].
Proof. split_and!; vm_compute; reflexivity. Qed.

(** ** The buffer of the Go SDK *)

Module SdkTelemetry.

Record TelemetryEvent := mkTelemetryEvent {
  te_FlagKey : string;
  te_ProjectID : string;
  te_Environment : string;
  te_Variant : string;
  te_Enabled : bool;
  te_EventType : string;
  te_MetricName : string;
  te_Value : f64;
  te_UserID : string;
  te_Timestamp : Time;
}.

(** [sb_spawned] counts the goroutines started by [go tb.Flush()] that have not
    run yet. *)
Record telemetryBuffer := mkSdkBuffer {
  sb_events : list TelemetryEvent;
  sb_spawned : nat;
}.

Definition batchSize : nat := 50.

Definition newTelemetryBuffer : telemetryBuffer := mkSdkBuffer [] 0.

Definition RecordEvent (e : TelemetryEvent) (tb : telemetryBuffer) : telemetryBuffer :=
  let events := sb_events tb ++ [e] in
  mkSdkBuffer events (if (batchSize <=? length events)%nat then S (sb_spawned tb) else sb_spawned tb).

(** [Flush] up to the request: the batch it sends, if any. *)
Definition Flush (tb : telemetryBuffer) : telemetryBuffer * option (list TelemetryEvent) :=
  match sb_events tb with
  | [] => (tb, None)
  | toSend => (mkSdkBuffer [] (sb_spawned tb), Some toSend)
  end.

Inductive sdk_action :=
| SRecord (e : TelemetryEvent)
| STick
| SSpawned.

(** The buffer and the batches sent so far. *)
Definition sdk_tel_step (s : telemetryBuffer * list (list TelemetryEvent)) (a : sdk_action)
    : telemetryBuffer * list (list TelemetryEvent) :=
  let '(tb, sent) := s in
  match a with
  | SRecord e => (RecordEvent e tb, sent)
  | STick => let '(tb, b) := Flush tb in (tb, sent ++ option_list b)
  | SSpawned =>
      match sb_spawned tb with
      | 0%nat => s
      | S n =>
          let '(tb, b) := Flush (mkSdkBuffer (sb_events tb) n) in (tb, sent ++ option_list b)
      end
  end.

Definition sdk_tel_run (acts : list sdk_action) : telemetryBuffer * list (list TelemetryEvent) :=
  foldl sdk_tel_step (newTelemetryBuffer, []) acts.

Definition sdk_recorded (acts : list sdk_action) : list TelemetryEvent :=
  omap (λ a, match a with SRecord e => Some e | _ => None end) acts.

Lemma flush_split tb :
  let '(tb', b) := Flush tb in sb_events tb = mjoin (option_list b) ++ sb_events tb'.
Proof. unfold Flush. destruct (sb_events tb) eqn:E; simpl; [done|]. by rewrite !app_nil_r. Qed.

(** The SDK sends every recorded event once and in order: at every moment the
    batches sent, joined, and the events still buffered are the events recorded. *)
Theorem sdk_telemetry_in_order (acts : list sdk_action) :
  let s := sdk_tel_run acts in mjoin s.2 ++ sb_events s.1 = sdk_recorded acts.
Proof.
  unfold sdk_tel_run.
  assert (∀ s, let s' := foldl sdk_tel_step s acts in
    mjoin s'.2 ++ sb_events s'.1 = (mjoin s.2 ++ sb_events s.1) ++ sdk_recorded acts) as H.
  { induction acts as [|a acts IH]; intros [tb sent]; simpl; [by rewrite app_nil_r|].
    rewrite IH. destruct a as [e| |]; simpl.
    - by rewrite <- !app_assoc.
    - pose proof (flush_split tb) as Hf. destruct (Flush tb) as [tb' b]. simpl.
      by rewrite join_app, Hf, <- !app_assoc.
    - destruct tb as [events [|n]]; simpl; [done|].
      pose proof (flush_split (mkSdkBuffer events n)) as Hf.
      destruct (Flush (mkSdkBuffer events n)) as [tb' b]. simpl in *.
      by rewrite join_app, Hf, <- !app_assoc. }
  by rewrite H.
Qed.

End SdkTelemetry.
