(* ===== verification/TelemetryServer.v ===== *)
(** * The telemetry aggregator of the server ([pkg/api/handlers_telemetry.go])

    Counts per project and flag, of at most 1000 flags where batches are merged;
    users per variant are remembered up to a limit.  An operation runs under the
    aggregator's lock.  The order in which the runtime visits a map is an
    argument.  Counters are [uint64]. *)

From S2P Require Import Prelude GoFloat GoStrings GoTime Domain Telemetry.

Definition maxFlagsPerProject : nat := 1000.
Definition maxTrackedUsersPerVariant : nat := 10 * 1000.

Record FlagAggregatedMetric := mkAggregated {
  am_TotalEvaluations : Z;
  am_Variants : gmap string Z;
  am_UniqueUsers : gmap string Z;
  am_LastEvaluatedAt : Z;
  am_uniqueUserSets : gmap string (gset string);
}.

Definition new_metric : FlagAggregatedMetric := mkAggregated 0 ∅ ∅ 0 ∅.

Record ProjectTelemetry := mkProject {
  pt_flagMetrics : gmap string FlagAggregatedMetric;
  pt_totalEvals : Z;
  pt_hourlyPoints : list Z;
}.

Definition new_project : ProjectTelemetry := mkProject ∅ 0 (replicate 24 0%Z).

(** [TelemetryAggregator], by project. *)
Abbreviation TelemetryAggregator := (gmap string ProjectTelemetry).

Definition project_of (ta : TelemetryAggregator) (projectID : string) : ProjectTelemetry :=
  default new_project (ta !! projectID).

(** [time.Time.Hour] in UTC. *)
Definition hour_of (t : Time) : nat := Z.to_nat ((t / Hour) mod 24)%Z.

Definition milli_of (t : Time) : Z := (t / 1000000)%Z.

Definition add_u64 (a b : Z) : Z := wrap_u64 (a + b).

Definition add_counts (m counts : gmap string Z) : gmap string Z :=
  union_with (λ a b, Some (add_u64 a b)) m counts.

(** One entry of a batch. *)
Record IngestMetric := mkIngest {
  im_Evaluations : Z;
  im_Variants : gmap string Z;
  im_UniqueUsers : gmap string Z;
}.

Definition max_int64 : Z := (2 ^ 63 - 1)%Z.

(** The flag evaluated longest ago, the first visited among equals. *)
Definition older (acc : string * Z) (kv : string * FlagAggregatedMetric) : string * Z :=
  if (am_LastEvaluatedAt kv.2 <? acc.2)%Z then (kv.1, am_LastEvaluatedAt kv.2) else acc.

Definition oldest (visit : list (string * FlagAggregatedMetric)) : string :=
  (foldl older ("", max_int64) visit).1.

(** Room for one more flag. *)
Definition evict (order : gmap string FlagAggregatedMetric → list (string * FlagAggregatedMetric))
    (m : gmap string FlagAggregatedMetric) : gmap string FlagAggregatedMetric :=
  if (maxFlagsPerProject <=? size m)%nat then
    let oldestKey := oldest (order m) in
    if oldestKey =s? "" then m else delete oldestKey m
  else m.

(** The counters of the project after [n] more evaluations at time [now]. *)
Definition bump (now : Time) (n : Z) (m : gmap string FlagAggregatedMetric) (proj : ProjectTelemetry)
    : ProjectTelemetry :=
  mkProject m (add_u64 (pt_totalEvals proj) n)
    (alter (λ x, add_u64 x n) (hour_of now) (pt_hourlyPoints proj)).

Definition ingest_one (order : gmap string FlagAggregatedMetric → list (string * FlagAggregatedMetric))
    (now : Time) (acc : ProjectTelemetry * Z) (e : string * IngestMetric) : ProjectTelemetry * Z :=
  let '(proj, updated) := acc in
  let '(flagKey, metric) := e in
  if (im_Evaluations metric =? 0)%Z then acc
  else
    let '(flags, m) :=
      match pt_flagMetrics proj !! flagKey with
      | Some m => (pt_flagMetrics proj, m)
      | None => (evict order (pt_flagMetrics proj), new_metric)
      end in
    let m := mkAggregated (add_u64 (am_TotalEvaluations m) (im_Evaluations metric))
      (add_counts (am_Variants m) (im_Variants metric))
      (add_counts (am_UniqueUsers m) (im_UniqueUsers metric)) (milli_of now) (am_uniqueUserSets m) in
    (bump now (im_Evaluations metric) (<[flagKey := m]> flags) proj, (updated + 1)%Z).

(** [Ingest]; [events] in the order in which the runtime visits the batch. *)
Definition Ingest (order : gmap string FlagAggregatedMetric → list (string * FlagAggregatedMetric))
    (now : Time) (projectID : string) (events : list (string * IngestMetric))
    (ta : TelemetryAggregator) : TelemetryAggregator * Z :=
  let projectID := or_default projectID DefaultProjectID in
  let '(proj, updated) := foldl (ingest_one order now) (project_of ta projectID, 0%Z) events in
  (<[projectID := proj]> ta, updated).

Definition expose (variant userID : string) (nowMilli : Z) (m : FlagAggregatedMetric)
    : FlagAggregatedMetric :=
  let set := default ∅ (am_uniqueUserSets m !! variant) in
  let seen := bool_decide (userID ∈ set) in
  let set' := if negb seen && (size set <? maxTrackedUsersPerVariant)%nat
              then {[userID]} ∪ set else set in
  let users := if seen then am_UniqueUsers m
               else <[variant := add_u64 (default 0%Z (am_UniqueUsers m !! variant)) 1]>
                      (am_UniqueUsers m) in
  mkAggregated (add_u64 (am_TotalEvaluations m) 1)
    (<[variant := add_u64 (default 0%Z (am_Variants m !! variant)) 1]> (am_Variants m))
    users nowMilli (<[variant := set']> (am_uniqueUserSets m)).

Definition RecordExposure (now : Time) (projectID flagKey variant userID : string)
    (ta : TelemetryAggregator) : TelemetryAggregator :=
  if (flagKey =s? "") || (variant =s? "") || (userID =s? "") then ta
  else
    let projectID := or_default projectID DefaultProjectID in
    let proj := project_of ta projectID in
    let m := default new_metric (pt_flagMetrics proj !! flagKey) in
    let m := expose variant userID (milli_of now) m in
    <[projectID := bump now 1 (<[flagKey := m]> (pt_flagMetrics proj)) proj]> ta.

(** [Stats]: of one flag, or of all. *)
Inductive TelemetryStats :=
| FlagStats (flagKey : string) (total : Z) (variants users : gmap string Z) (last : Z) (hourly : list Z)
| ProjectStats (total : Z) (flags : gmap string FlagAggregatedMetric) (hourly : list Z).

(** The copy of a metric that a snapshot carries: without the sets of users. *)
Definition exported (m : FlagAggregatedMetric) : FlagAggregatedMetric :=
  mkAggregated (am_TotalEvaluations m) (am_Variants m) (am_UniqueUsers m) (am_LastEvaluatedAt m) ∅.

Definition Stats (projectID flagKey : string) (ta : TelemetryAggregator) : TelemetryStats :=
  let projectID := or_default projectID DefaultProjectID in
  match ta !! projectID with
  | None => ProjectStats 0 ∅ (replicate 24 0%Z)
  | Some proj =>
      if negb (flagKey =s? "") && negb (flagKey =s? "all") then
        match pt_flagMetrics proj !! flagKey with
        | Some m => FlagStats flagKey (am_TotalEvaluations m) (am_Variants m) (am_UniqueUsers m)
                      (am_LastEvaluatedAt m) (pt_hourlyPoints proj)
        | None => FlagStats flagKey 0 ∅ ∅ 0 (pt_hourlyPoints proj)
        end
      else ProjectStats (pt_totalEvals proj) (exported <$> pt_flagMetrics proj) (pt_hourlyPoints proj)
  end.

(** ** Facts *)

Definition fair_order (order : gmap string FlagAggregatedMetric → list (string * FlagAggregatedMetric)) : Prop :=
  ∀ m, order m ≡ₚ map_to_list m.

(** The day has 24 hours, and the evaluations of the hours sum to the total. *)
Record project_ok (proj : ProjectTelemetry) : Prop := {
  po_hours : length (pt_hourlyPoints proj) = 24%nat;
  po_total : wrap_u64 (Zsum (pt_hourlyPoints proj)) = wrap_u64 (pt_totalEvals proj);
}.

Lemma hour_of_range t : (hour_of t < 24)%nat.
Proof. unfold hour_of. pose proof (Z.mod_pos_bound (t / Hour) 24 ltac:(lia)). lia. Qed.

Lemma Zsum_alter_u64 (l : list Z) i n :
  (i < length l)%nat → ∃ k, (Zsum (alter (λ x, add_u64 x n) i l) = Zsum l + n + k * 2 ^ 64)%Z.
Proof.
  unfold Zsum. revert i. induction l as [|x l IH]; intros [|i] Hi; simpl in *; try lia.
  - destruct (wrap_small_diff (x + n)) as [k Hk]. exists k. unfold add_u64. rewrite Hk. lia.
  - destruct (IH i ltac:(lia)) as [k Hk]. exists k. unfold alter in Hk. lia.
Qed.

Lemma bump_ok now n m proj : project_ok proj → project_ok (bump now n m proj).
Proof.
  intros [Hh Ht]. split; cbn [bump pt_hourlyPoints pt_totalEvals]; [by rewrite length_alter|].
  destruct (Zsum_alter_u64 (pt_hourlyPoints proj) (hour_of now) n) as [k Hk].
  { rewrite Hh. apply hour_of_range. }
  apply wrap_eq in Ht as [k1 Hk1]. destruct (wrap_small_diff (pt_totalEvals proj + n)) as [k2 Hk2].
  apply wrap_eq. exists (k + k1 - k2)%Z. rewrite Hk. unfold add_u64. lia.
Qed.

Lemma new_project_ok : project_ok new_project.
Proof. by split. Qed.

Lemma project_of_ok ta p : map_Forall (λ _, project_ok) ta → project_ok (project_of ta p).
Proof.
  intros H. unfold project_of. destruct (ta !! p) eqn:E; simpl; [by eapply H|apply new_project_ok].
Qed.

Lemma ingest_fold_ok order now events proj n :
  project_ok proj → project_ok (foldl (ingest_one order now) (proj, n) events).1.
Proof.
  revert proj n. induction events as [|[f m] events IH]; intros proj n Hp; cbn [foldl]; [done|].
  unfold ingest_one at 2. destruct (im_Evaluations m =? 0)%Z; [by apply IH|].
  destruct (pt_flagMetrics proj !! f); apply IH; by apply bump_ok.
Qed.

(** The operations of the aggregator. *)
Inductive agg_op :=
| OIngest (order : gmap string FlagAggregatedMetric → list (string * FlagAggregatedMetric))
    (now : Time) (projectID : string) (events : list (string * IngestMetric))
| OExpose (now : Time) (projectID flagKey variant userID : string).

Definition agg_step (ta : TelemetryAggregator) (o : agg_op) : TelemetryAggregator :=
  match o with
  | OIngest order now p events => (Ingest order now p events ta).1
  | OExpose now p f v u => RecordExposure now p f v u ta
  end.

Definition op_project (o : agg_op) : string :=
  match o with OIngest _ _ p _ => p | OExpose _ p _ _ _ => p end.

Lemma agg_step_ok ta o : map_Forall (λ _, project_ok) ta → map_Forall (λ _, project_ok) (agg_step ta o).
Proof.
  intros Hta. destruct o as [order now p events|now p f v u]; simpl.
  - unfold Ingest. pose proof (ingest_fold_ok order now events
      (project_of ta (or_default p DefaultProjectID)) 0 (project_of_ok _ _ Hta)) as Hf.
    destruct (foldl _ _ events) as [proj n]. simpl. by apply map_Forall_insert_2.
  - unfold RecordExposure. destruct (_ || _); [done|].
    apply map_Forall_insert_2; [|done]. by apply bump_ok, project_of_ok.
Qed.

Lemma agg_step_other ta o q :
  q ≠ or_default (op_project o) DefaultProjectID → agg_step ta o !! q = ta !! q.
Proof.
  intros Hq. destruct o as [order now p events|now p f v u]; simpl in *.
  - unfold Ingest. destruct (foldl _ _ events) as [proj n]. simpl. by rewrite lookup_insert_ne.
  - unfold RecordExposure. destruct (_ || _); [done|]. by rewrite lookup_insert_ne.
Qed.

(** Along every sequence of batches and exposures, a project's hourly
    histogram has 24 entries whose sum is the project's total (as [uint64]s), and
    what is reported to one project never changes another's statistics. *)
Theorem telemetry_totals_agree (ops : list agg_op) (q : string) :
  let ta := foldl agg_step ∅ ops in
  map_Forall (λ _, project_ok) ta ∧
  (Forall (λ o, q ≠ or_default (op_project o) DefaultProjectID) ops → ta !! q = None).
Proof.
  assert (∀ ta0, map_Forall (λ _, project_ok) ta0 →
    map_Forall (λ _, project_ok) (foldl agg_step ta0 ops) ∧
    (Forall (λ o, q ≠ or_default (op_project o) DefaultProjectID) ops →
     foldl agg_step ta0 ops !! q = ta0 !! q)) as H.
  { induction ops as [|o ops IH]; intros ta0 H0; cbn [foldl]; [done|].
    destruct (IH (agg_step ta0 o) (agg_step_ok _ _ H0)) as [H1 H2]. split; [done|].
    intros [Ho Hops]%Forall_cons. rewrite H2 by done. by apply agg_step_other. }
  destruct (H ∅ (map_Forall_empty _)) as [H1 H2]. split; [done|].
  intros Hops. rewrite H2 by done. apply lookup_empty.
Qed.

(** ** The number of flags *)

Lemma older_fold l acc :
  let r := foldl older acc l in
  (r = acc ∧ Forall (λ kv, acc.2 ≤ am_LastEvaluatedAt kv.2)%Z l ∨ r.1 ∈ l.*1).
Proof.
  revert acc. induction l as [|[k m] l IH]; intros acc; cbn [foldl].
  { left. split; [done|constructor]. }
  destruct (IH (older acc (k, m))) as [[Hr Hall] | Hin].
  - unfold older in *. cbn [fst snd] in *. destruct (Z.ltb_spec (am_LastEvaluatedAt m) acc.2).
    + right. rewrite Hr. csimpl. apply elem_of_cons. by left.
    + left. split; [done|]. by constructor.
  - right. csimpl. apply elem_of_cons. by right.
Qed.

(** The flags are named, and were evaluated before the end of time. *)
Definition named_metrics (m : gmap string FlagAggregatedMetric) : Prop :=
  map_Forall (λ k fm, k ≠ "" ∧ am_LastEvaluatedAt fm < max_int64)%Z m.

Lemma evict_spec order m :
  fair_order order → named_metrics m → (size m ≤ maxFlagsPerProject)%nat →
  (size (evict order m) < maxFlagsPerProject)%nat ∧ named_metrics (evict order m).
Proof.
  intros Hf Hn Hs. unfold evict. destruct (Nat.leb_spec maxFlagsPerProject (size m)); [|done].
  unfold oldest. destruct (older_fold (order m) ("", max_int64)) as [[Hr Hall] | Hin].
  - exfalso. destruct (map_to_list m) as [|[k fm] l] eqn:E.
    { apply map_to_list_empty_iff in E. subst m. rewrite map_size_empty in *. unfold maxFlagsPerProject in *. lia. }
    assert ((k, fm) ∈ map_to_list m) as Hk by (rewrite E; apply elem_of_cons; by left).
    rewrite Forall_forall in Hall. specialize (Hall (k, fm)). rewrite (Hf m) in Hall. specialize (Hall Hk).
    apply elem_of_map_to_list, Hn in Hk as [_ ?]. simpl in Hall. lia.
  - set (k := (foldl older _ _).1) in *. clearbody k.
    apply list_elem_of_fmap in Hin as ([k' fm] & -> & Hin). rewrite (Hf m) in Hin.
    apply elem_of_map_to_list in Hin. pose proof (Hn _ _ Hin) as [Hne _]. cbn [fst].
    rewrite (proj2 (str_eqb_neq _ _) Hne). split.
    + rewrite map_size_delete_Some by eauto. unfold maxFlagsPerProject in *. lia.
    + by apply map_Forall_delete.
Qed.

Lemma ingest_one_bounded order now proj n e :
  fair_order order → (milli_of now < max_int64)%Z → e.1 ≠ "" →
  named_metrics (pt_flagMetrics proj) → (size (pt_flagMetrics proj) ≤ maxFlagsPerProject)%nat →
  let proj' := (ingest_one order now (proj, n) e).1 in
  named_metrics (pt_flagMetrics proj') ∧ (size (pt_flagMetrics proj') ≤ maxFlagsPerProject)%nat.
Proof.
  intros Hf Hnow He Hn Hs. destruct e as [f m]. unfold ingest_one.
  destruct (im_Evaluations m =? 0)%Z; [done|].
  destruct (pt_flagMetrics proj !! f) as [fm|] eqn:E; cbn [fst bump pt_flagMetrics].
  - split; [by apply map_Forall_insert_2|]. by rewrite map_size_insert_Some by eauto.
  - destruct (evict_spec order _ Hf Hn Hs) as [Hs' Hn'].
    split; [by apply map_Forall_insert_2|].
    rewrite map_size_insert. destruct (evict _ _ !! f); simpl; lia.
Qed.

(** Merging batches keeps at most 1000 flags per project, however many flags
    the clients report: the flag evaluated longest ago makes room. *)
Theorem ingest_bounded order now projectID events ta :
  fair_order order → (milli_of now < max_int64)%Z → Forall (λ e, e.1 ≠ "") events →
  let p := or_default projectID DefaultProjectID in
  named_metrics (pt_flagMetrics (project_of ta p)) →
  (size (pt_flagMetrics (project_of ta p)) ≤ 1000)%nat →
  (size (pt_flagMetrics (project_of (Ingest order now projectID events ta).1 p)) ≤ 1000)%nat.
Proof.
  intros Hf Hnow He p Hn Hs. unfold Ingest. fold p.
  assert (∀ proj n, named_metrics (pt_flagMetrics proj) →
    (size (pt_flagMetrics proj) ≤ maxFlagsPerProject)%nat →
    (size (pt_flagMetrics (foldl (ingest_one order now) (proj, n) events).1) ≤ maxFlagsPerProject)%nat) as H.
  { clear Hn Hs. induction He as [|e events He _ IH]; intros proj n Hn Hs; cbn [foldl]; [done|].
    pose proof (ingest_one_bounded order now proj n e Hf Hnow He Hn Hs) as [Hn' Hs'].
    destruct (ingest_one order now (proj, n) e) as [proj' n']. by apply IH. }
  specialize (H (project_of ta p) 0%Z Hn Hs).
  destruct (foldl _ _ events) as [proj n]. simpl in *. unfold project_of. by rewrite lookup_insert_eq.
Qed.

(** Single exposures have no such limit: [n] exposures of distinct flags leave
    [n] flags in memory, whatever [n]. *)
Theorem exposures_unbounded now projectID variant userID (flags : list string) :
  variant ≠ "" → userID ≠ "" → NoDup flags → Forall (λ f, f ≠ "") flags →
  let ta := foldl (λ ta f, RecordExposure now projectID f variant userID ta) ∅ flags in
  size (pt_flagMetrics (project_of ta (or_default projectID DefaultProjectID))) = length flags.
Proof.
  intros Hv Hu Hnd Hne. set (p := or_default projectID DefaultProjectID).
  assert (∀ ta, let m := pt_flagMetrics (project_of ta p) in
    Forall (λ f, m !! f = None) flags →
    size (pt_flagMetrics (project_of
      (foldl (λ ta f, RecordExposure now projectID f variant userID ta) ta flags) p))
    = (size m + length flags)%nat) as H.
  { induction flags as [|f flags IH]; intros ta m Hm; cbn [foldl length];
      [by rewrite Nat.add_0_r|].
    apply NoDup_cons in Hnd as [Hf Hnd]. apply Forall_cons in Hm as [Hmf Hm].
    apply Forall_cons in Hne as [Hfne Hne].
    assert (pt_flagMetrics (project_of (RecordExposure now projectID f variant userID ta) p)
      = <[f := expose variant userID (milli_of now) (default new_metric (m !! f))]> m) as Hr.
    { unfold RecordExposure. fold p. rewrite (proj2 (str_eqb_neq _ _) Hfne),
        (proj2 (str_eqb_neq _ _) Hv), (proj2 (str_eqb_neq _ _) Hu). simpl.
      unfold project_of at 1. by rewrite lookup_insert_eq. }
    rewrite IH; [|done|done|].
    - rewrite Hr, map_size_insert_None by done. lia.
    - rewrite Hr. apply Forall_forall. intros f' Hin. rewrite Forall_forall in Hm.
      rewrite lookup_insert_ne; [by apply Hm|]. by intros ->. }
  intros ta. unfold ta. rewrite H; [by cbn|]. apply Forall_forall. intros. apply lookup_empty.
Qed.

Lemma expose_untracked variant userID t m (tracked : gset string) (c : Z) :
  default ∅ (am_uniqueUserSets m !! variant) = tracked →
  default 0%Z (am_UniqueUsers m !! variant) = c →
  (maxTrackedUsersPerVariant ≤ size tracked)%nat → userID ∉ tracked → (0 ≤ c < 2 ^ 64 - 1)%Z →
  default ∅ (am_uniqueUserSets (expose variant userID t m) !! variant) = tracked ∧
  default 0%Z (am_UniqueUsers (expose variant userID t m) !! variant) = (c + 1)%Z.
Proof.
  intros Hs Hc Hfull Hu Hr. unfold expose. rewrite Hs, Hc, bool_decide_false by done.
  cbn [negb andb am_uniqueUserSets am_UniqueUsers].
  destruct (Nat.ltb_spec (size tracked) maxTrackedUsersPerVariant); [exfalso; lia|].
  rewrite !lookup_insert_eq. cbn. split; [done|]. unfold add_u64. rewrite wrap_u64_small; lia.
Qed.

(** Once 10,000 users of a variant are tracked, a user who is not among them
    is counted again at every exposure: the unique-user count grows by one each
    time the same user comes back. *)
Theorem unique_users_overcounted variant userID t (m : FlagAggregatedMetric) (n : nat) :
  let tracked := default ∅ (am_uniqueUserSets m !! variant) in
  let c := default 0%Z (am_UniqueUsers m !! variant) in
  (maxTrackedUsersPerVariant ≤ size tracked)%nat → userID ∉ tracked →
  (0 ≤ c)%Z → (c + Z.of_nat n < 2 ^ 64)%Z →
  default 0%Z (am_UniqueUsers (Nat.iter n (expose variant userID t) m) !! variant)
  = (c + Z.of_nat n)%Z.
Proof.
  intros tracked c Hfull Hu Hc Hn.
  assert (default ∅ (am_uniqueUserSets m !! variant) = tracked) as Hs0 by done.
  assert (default 0%Z (am_UniqueUsers m !! variant) = c) as Hc0 by done. clearbody tracked c.
  apply (proj2 (A := default ∅ (am_uniqueUserSets
    (Nat.iter n (expose variant userID t) m) !! variant) = tracked)).
  induction n as [|n IH]; [split; [done|]; cbn [Nat.iter nat_rect]; lia|].
  destruct IH as [IHs IHc]; [lia|].
  destruct (expose_untracked variant userID t _ _ _ IHs IHc) as [H1 H2]; [done|done|lia|].
  split; [exact H1|]. etrans; [exact H2|]. lia.
Qed.

(** ** Instances *)

Definition in_order (m : gmap string FlagAggregatedMetric) : list (string * FlagAggregatedMetric) :=
  map_to_list m.

Lemma ingest_bounded_witness :
  (size (pt_flagMetrics (project_of
     (Ingest in_order 0 "shop" [("checkout", mkIngest 3 {["on" := 3%Z]} ∅)] ∅).1 "shop")) ≤ 1000)%nat.
Proof.
  refine (ingest_bounded in_order 0 "shop" [("checkout", mkIngest 3 {["on" := 3%Z]} ∅)] ∅ _ _ _ _ _).
  - intros m. reflexivity.
  - vm_compute. reflexivity.
  - repeat constructor. discriminate.
  - apply map_Forall_empty.
  - apply Nat.le_0_l.
Defined.

Lemma exposures_unbounded_witness :
  size (pt_flagMetrics (project_of
    (foldl (λ ta f, RecordExposure 0 "shop" f "on" "ada" ta) ∅ ["a"; "b"; "c"]) "shop")) = 3%nat.
Proof.
  refine (exposures_unbounded 0 "shop" "on" "ada" ["a"; "b"; "c"] _ _ _ _).
  - discriminate.
  - discriminate.
  - apply (bool_decide_eq_true _). vm_compute. reflexivity.
  - repeat constructor; discriminate.
Defined.

(** A metric with as many tracked users as there may be. *)
Definition full_metric : FlagAggregatedMetric :=
  mkAggregated 0 ∅ {["on" := 5%Z]} 0
    {["on" := list_to_set ((λ n : nat, String "u" (pretty n)) <$> seq 0 maxTrackedUsersPerVariant)]}.

Lemma full_metric_tracked :
  default ∅ (am_uniqueUserSets full_metric !! "on")
  = list_to_set ((λ n : nat, String "u" (pretty n)) <$> seq 0 maxTrackedUsersPerVariant).
Proof. unfold full_metric. cbn [am_uniqueUserSets]. by rewrite lookup_singleton_eq. Qed.

Lemma unique_users_overcounted_witness :
  default 0%Z (am_UniqueUsers (Nat.iter 2 (expose "on" "ada" 0) full_metric) !! "on") = 7%Z.
Proof.
  refine (unique_users_overcounted "on" "ada" 0 full_metric 2 _ _ _ _).
  - rewrite full_metric_tracked, size_list_to_set.
    + rewrite length_fmap, length_seq. reflexivity.
    + apply NoDup_fmap_2; [|apply NoDup_seq]. intros n1 n2 [= H]. by apply (inj pretty).
  - rewrite full_metric_tracked. intros (n & [=] & _)%elem_of_list_to_set%list_elem_of_fmap.
  - cbn [am_UniqueUsers full_metric]. rewrite lookup_singleton_eq. cbn. lia.
  - cbn [am_UniqueUsers full_metric]. rewrite lookup_singleton_eq. cbn. lia.
Defined.
