(* ===== verification/Stats.v ===== *)
(** * Experiment statistics ([pkg/stats/stats.go], [pkg/domain/experiment.go])

    The report of an A/B test: conversion rates, confidence intervals, and a
    two-proportion z-test of every treatment against the control.  All arithmetic
    is [float64]; the square root is the exactly rounded one; the error function
    of [math] is the parameter [math_Erf], of which nothing is assumed. *)

From S2P Require Import Prelude GoFloat GoStrings GoTime Sha256 Errors Domain Entities Engine Diagnostics.

Class MathLib := { math_Erf : f64 → f64 }.

Definition f64_sqrt : f64 → f64 := SFsqrt 53 1024.
Definition f64_inf : f64 := S754_infinity false.
Definition f64_one : f64 := f64_of_Z 1.

(** [math.Ceil]. *)
Definition f64_ceil (x : f64) : f64 := SFopp (f64_floor (SFopp x)).

(** [math.MaxFloat64] is [(2^53 - 1) * 2^971]. *)
Definition f64_max_value : f64 := S754_finite false (2 ^ 53 - 1) 971.

Definition EventTypeExposure : string := "exposure".
Definition EventTypeConversion : string := "conversion".

Record VariantMetricStats := mkVariantStats {
  vs_Variant : string;
  vs_Exposures : Z;
  vs_Conversions : Z;
  vs_ConversionRate : f64;
  vs_SumValue : f64;
  vs_Mean : f64;
  vs_Variance : f64;
  vs_StandardError : f64;
  vs_CI95Lower : f64;
  vs_CI95Upper : f64;
  vs_CI99Lower : f64;
  vs_CI99Upper : f64;
}.

Inductive ExperimentStatus := NoStatus | InsufficientData | Inconclusive | Winning | Losing.

#[export] Instance ExperimentStatus_eq_dec : EqDecision ExperimentStatus.
Proof. solve_decision. Defined.

Record VariantComparison := mkComparison {
  vc_TreatmentVariant : string;
  vc_ControlVariant : string;
  vc_AbsoluteLift : f64;
  vc_RelativeLiftPct : f64;
  vc_ZScore : f64;
  vc_PValue : f64;
  vc_ConfidencePct : f64;
  vc_IsSignificant95 : bool;
  vc_IsSignificant99 : bool;
  vc_Status : ExperimentStatus;
  vc_RecommendedAction : string;
  vc_RequiredSampleSize : Z;
}.

#[export] Instance eta_VariantComparison : Eta VariantComparison :=
  {| eta_expand r := mkComparison (vc_TreatmentVariant r) (vc_ControlVariant r) (vc_AbsoluteLift r)
       (vc_RelativeLiftPct r) (vc_ZScore r) (vc_PValue r) (vc_ConfidencePct r) (vc_IsSignificant95 r)
       (vc_IsSignificant99 r) (vc_Status r) (vc_RecommendedAction r) (vc_RequiredSampleSize r) |}.

Record ExperimentReport := mkReport {
  er_FlagKey : string;
  er_MetricName : string;
  er_EventType : string;
  er_Environment : Environment;
  er_ControlVariant : string;
  er_TotalExposures : Z;
  er_TotalEvents : Z;
  er_VariantStats : gmap string VariantMetricStats;
  er_Comparisons : gmap string VariantComparison;
  er_WinnerVariant : string;
  er_GeneratedAt : Time;
}.

Definition MinSampleSizeForSignificance : Z := 30.

(** ** One variant *)

Definition empty_stats (variant : string) (exposures conversions : Z) : VariantMetricStats :=
  mkVariantStats variant exposures conversions f64_zero f64_zero f64_zero f64_zero f64_zero
    f64_zero f64_zero f64_zero f64_zero.

Definition ComputeVariantBinaryStats (variant : string) (exposures conversions : Z)
    : VariantMetricStats :=
  if (exposures <=? 0)%Z then empty_stats variant exposures conversions
  else
    let p := (f64_of_Z conversions / f64_of_Z exposures)%f64 in
    let variance := (p * (f64_one - p))%f64 in
    let se := f64_sqrt (variance / f64_of_Z exposures)%f64 in
    let lower z := f64_max f64_zero (p - z * se)%f64 in
    let upper z := f64_min f64_one (p + z * se)%f64 in
    mkVariantStats variant exposures conversions p f64_zero p variance se
      (lower (f64_ratio 196 100)) (upper (f64_ratio 196 100))
      (lower (f64_ratio 2576 1000)) (upper (f64_ratio 2576 1000)).

(** ** The test *)

Section Test.
Context `{MathLib}.

(** [math.Sqrt2] is the float nearest to the square root of two. *)
Definition Sqrt2 : f64 := f64_sqrt (f64_of_Z 2).

Definition NormalCDF (z : f64) : f64 :=
  (f64_ratio 1 2 * (f64_one + math_Erf (z / Sqrt2)))%f64.

Definition TwoTailedPValue (z : f64) : f64 :=
  let cdf := NormalCDF (f64_abs z) in
  let pValue := (f64_of_Z 2 * (f64_one - cdf))%f64 in
  if f64_ltb pValue f64_zero then f64_zero
  else if f64_ltb f64_one pValue then f64_one
  else pValue.

Definition relative_lift (pC pT : f64) : f64 :=
  if f64_ltb f64_zero pC then ((pT - pC) / pC * f64_of_Z 100)%f64
  else if f64_ltb f64_zero pT then f64_inf
  else f64_zero.

(** The comparison before the test. *)
Definition base_comparison (control treatment : VariantMetricStats) : VariantComparison :=
  let pC := vs_ConversionRate control in
  let pT := vs_ConversionRate treatment in
  mkComparison (vs_Variant treatment) (vs_Variant control) (pT - pC)%f64 (relative_lift pC pT)
    f64_zero f64_zero f64_zero false false NoStatus "" 0.

(** The pooled conversion rate. *)
Definition pooled_rate (control treatment : VariantMetricStats) : f64 :=
  (f64_of_Z (wrap_i64 (vs_Conversions control + vs_Conversions treatment)) /
   (f64_of_Z (vs_Exposures control) + f64_of_Z (vs_Exposures treatment)))%f64.

(** The exposures the rule [n p >= 5] asks for. *)
Definition required_sample (pPool : f64) : Z :=
  if f64_ltb f64_zero pPool && f64_ltb pPool f64_one then
    let rate := f64_min pPool (f64_one - pPool)%f64 in
    let reqN := f64_trunc (f64_ceil (f64_of_Z 5 / rate)%f64) in
    if (reqN <? MinSampleSizeForSignificance)%Z then MinSampleSizeForSignificance else reqN
  else 100%Z.

Definition too_few (nC nT pPool : f64) : bool :=
  let success := f64_min (nC * pPool)%f64 (nT * pPool)%f64 in
  let failure := f64_min (nC * (f64_one - pPool))%f64 (nT * (f64_one - pPool))%f64 in
  f64_ltb success (f64_of_Z 5) || f64_ltb failure (f64_of_Z 5).

(** The verdict from the adjusted p-value. *)
Definition conclude (comp : VariantComparison) (variant : string) (numComparisons : Z)
    (zScore adjPValue : f64) : VariantComparison :=
  let confidencePct := f64_max f64_zero ((f64_one - adjPValue) * f64_of_Z 100)%f64 in
  let isSignificant95 := f64_ltb adjPValue (f64_ratio 5 100) in
  let lift := vc_AbsoluteLift comp in
  let relative := vc_RelativeLiftPct comp in
  let comp := comp <| vc_ZScore := zScore |> <| vc_PValue := adjPValue |>
    <| vc_ConfidencePct := confidencePct |> <| vc_IsSignificant95 := isSignificant95 |>
    <| vc_IsSignificant99 := f64_ltb adjPValue (f64_ratio 1 100) |> in
  let note :=
    if (1 <? numComparisons)%Z
    then " (Bonferroni-corrected for " +:+ Itoa numComparisons +:+ " variants)" else "" in
  let confidence := FormatFixed 1 confidencePct in
  let p := FormatFixed 4 adjPValue in
  if isSignificant95 then
    if f64_ltb f64_zero lift then
      let liftStr :=
        match relative with
        | S754_infinity false =>
            "+" +:+ FormatFixed 2 (lift * f64_of_Z 100)%f64 +:+
            "% absolute (baseline 0.00%)"
        | _ => "+" +:+ FormatFixed 2 relative +:+ "%"
        end in
      comp <| vc_Status := Winning |>
           <| vc_RecommendedAction :=
                "Treatment '" +:+ variant +:+ "' is outperforming Control by " +:+ liftStr +:+
                " (Statistically Significant with " +:+ confidence +:+ "% confidence, p=" +:+ p +:+
                note +:+ "). Safe to roll out to 100%." |>
    else
      comp <| vc_Status := Losing |>
           <| vc_RecommendedAction :=
                "Treatment '" +:+ variant +:+ "' is underperforming Control by " +:+
                FormatFixed 2 relative +:+ "% (Statistically Significant with " +:+
                confidence +:+ "% confidence, p=" +:+ p +:+ note +:+
                "). Recommended to rollback or iterate." |>
  else
    comp <| vc_Status := Inconclusive |>
         <| vc_RecommendedAction :=
              "Results are not yet statistically significant (p=" +:+ p +:+ note +:+ ", confidence=" +:+
              confidence +:+ "%). Continue running the experiment to gather more samples." |>.

(** The text of the advice when the rule [n p >= 5] is not met; the sign is the
    UTF-8 of the source. *)
Definition rate_advice (pPool : f64) (reqN nC nT : Z) : string :=
  "Observed conversion rate (" +:+ FormatFixed 1 (pPool * f64_of_Z 100)%f64 +:+
  "%) requires at least " +:+ Itoa reqN +:+
  " exposures per variant for statistical test validity (n" +:+ bytes_str [194; 183]%N +:+ "p " +:+
  bytes_str [226; 137; 165]%N +:+ " 5 rule). Current: Control=" +:+ Itoa nC +:+ ", Treatment=" +:+
  Itoa nT +:+ ".".

Definition CompareBinaryVariantsWithCorrection (control treatment : VariantMetricStats)
    (numComparisons : Z) : VariantComparison :=
  let numComparisons := if (numComparisons <? 1)%Z then 1%Z else numComparisons in
  let comp := base_comparison control treatment in
  let nC := f64_of_Z (vs_Exposures control) in
  let nT := f64_of_Z (vs_Exposures treatment) in
  if (vs_Exposures control <? MinSampleSizeForSignificance)%Z ||
     (vs_Exposures treatment <? MinSampleSizeForSignificance)%Z
  then
    comp <| vc_Status := InsufficientData |>
         <| vc_RecommendedAction :=
              "Collect more data (current sample: Control=" +:+ Itoa (vs_Exposures control) +:+
              ", Treatment=" +:+ Itoa (vs_Exposures treatment) +:+ "; minimum required=" +:+
              Itoa MinSampleSizeForSignificance +:+ " per variant)." |>
         <| vc_RequiredSampleSize := MinSampleSizeForSignificance |>
  else
    let pPool := pooled_rate control treatment in
    if too_few nC nT pPool then
      let reqN := required_sample pPool in
      comp <| vc_Status := InsufficientData |> <| vc_RequiredSampleSize := reqN |>
           <| vc_RecommendedAction :=
                rate_advice pPool reqN (vs_Exposures control) (vs_Exposures treatment) |>
    else
      let sePool :=
        f64_sqrt (pPool * (f64_one - pPool) * (f64_one / nC + f64_one / nT))%f64 in
      if bool_decide (SFeqb sePool f64_zero = true) then
        comp <| vc_Status := Inconclusive |> <| vc_ConfidencePct := f64_zero |>
             <| vc_RecommendedAction := "No variance detected between variants." |>
      else
        let zScore := (vc_AbsoluteLift comp / sePool)%f64 in
        let adjPValue := f64_min f64_one (TwoTailedPValue zScore * f64_of_Z numComparisons)%f64 in
        conclude comp (vs_Variant treatment) numComparisons zScore adjPValue.

Definition CompareBinaryVariants (control treatment : VariantMetricStats) : VariantComparison :=
  CompareBinaryVariantsWithCorrection control treatment 1.

(** ** The report *)

(** The events a report counts. *)
Definition counts_for (flagKey metricName : string) (env : Environment) (ev : ExperimentEvent) : bool :=
  (ev_FlagKey ev =s? flagKey) && (ev_MetricName ev =s? metricName) &&
  ((ev_Environment ev =s? "") || (ev_Environment ev =s? env)).

(** The distinct users who converted, and the events without a user, by variant. *)
Definition converted_users (events : list ExperimentEvent) : gmap string (gset string) :=
  foldl (λ m ev, if ev_UserID ev =s? "" then m
                 else <[ev_Variant ev := {[ev_UserID ev]} ∪ default ∅ (m !! ev_Variant ev)]> m)
    ∅ events.

Definition anonymous_conversions (events : list ExperimentEvent) : gmap string Z :=
  foldl (λ m ev, if ev_UserID ev =s? "" then <[ev_Variant ev := (default 0 (m !! ev_Variant ev) + 1)%Z]> m
                 else m)
    ∅ events.

(** [variantConversions] after both loops. *)
Definition conversions (events : list ExperimentEvent) : gmap string Z :=
  union_with (λ a b, Some (a + b)%Z) (anonymous_conversions events)
    ((λ us : gset string, Z.of_nat (size us)) <$> converted_users events).

Definition variant_stats (exposures convs : gmap string Z) (v : string) : VariantMetricStats :=
  let n := default 0%Z (exposures !! v) in
  let k := default 0%Z (convs !! v) in
  ComputeVariantBinaryStats v (if (n <? k)%Z then k else n) k.

(** The winner among the comparisons, visited in the order of the runtime. *)
Definition best (acc : string * f64) (vc : string * VariantComparison) : string * f64 :=
  if bool_decide (vc_Status vc.2 = Winning) && f64_ltb acc.2 (vc_RelativeLiftPct vc.2)
  then (vc.1, vc_RelativeLiftPct vc.2) else acc.

(** [order] is the order in which the runtime visits the variants; [total] sums
    the exposures. *)
Definition AnalyzeExperiment (now : Time) (order : list string)
    (flagKey metricName eventType : string) (env : Environment) (controlVariant : string)
    (exposures : gmap string Z) (events : list ExperimentEvent) : ExperimentReport :=
  let controlVariant := or_default controlVariant "control" in
  let counted := filter (λ ev, counts_for flagKey metricName env ev = true) events in
  let convs := conversions counted in
  let allVariants := dom exposures ∪ dom convs ∪ {[controlVariant]} in
  let stats := set_to_map (λ v, (v, variant_stats exposures convs v)) allVariants in
  let controlStats := variant_stats exposures convs controlVariant in
  let n := (Z.of_nat (size stats) - 1)%Z in
  let numComparisons := if (n <? 1)%Z then 1%Z else n in
  let comparisons :=
    (λ vs, CompareBinaryVariantsWithCorrection controlStats vs numComparisons) <$>
      delete controlVariant stats in
  let visited := omap (λ v, (λ c, (v, c)) <$> comparisons !! v) order in
  mkReport flagKey metricName eventType env controlVariant
    (wrap_i64 (map_fold (λ _ e acc, e + acc)%Z 0%Z exposures)) (Z.of_nat (length counted))
    stats comparisons (foldl best ("", SFopp f64_max_value) visited).1 now.

(** ** Properties *)

(** A p-value is a probability: whatever the error function returns, the
    result is not a number or lies between zero and one. *)
Theorem TwoTailedPValue_bounds z :
  is_nan (TwoTailedPValue z) = true ∨
  f64_leb f64_zero (TwoTailedPValue z) = true ∧ f64_leb (TwoTailedPValue z) f64_one = true.
Proof.
  unfold TwoTailedPValue. set (p := (f64_of_Z 2 * _)%f64). clearbody p.
  destruct (f64_ltb p f64_zero) eqn:H0; [by right|].
  destruct (f64_ltb f64_one p) eqn:H1; [by right|].
  destruct (is_nan p) eqn:Hn; [by left|]. right.
  rewrite f64_ltb_negb_leb in H0, H1 by done. by apply negb_false_iff in H0, H1.
Qed.

Lemma conclude_winning comp v n z p :
  vc_Status (conclude comp v n z p) = Winning →
  f64_ltb p (f64_ratio 5 100) = true ∧ f64_ltb f64_zero (vc_AbsoluteLift comp) = true ∧
  vc_PValue (conclude comp v n z p) = p.
Proof.
  unfold conclude. cbv zeta. destruct (f64_ltb p (f64_ratio 5 100)); [|discriminate].
  destruct (f64_ltb f64_zero (vc_AbsoluteLift comp)); [|discriminate]. intros _. by split_and!.
Qed.

Lemma conclude_lift comp v n z p :
  vc_RelativeLiftPct (conclude comp v n z p) = vc_RelativeLiftPct comp.
Proof.
  unfold conclude. cbv zeta. destruct (f64_ltb p (f64_ratio 5 100)); [destruct (f64_ltb f64_zero (vc_AbsoluteLift comp))|]; reflexivity.
Qed.

Lemma compare_lift control treatment n :
  vc_RelativeLiftPct (CompareBinaryVariantsWithCorrection control treatment n)
  = relative_lift (vs_ConversionRate control) (vs_ConversionRate treatment).
Proof.
  unfold CompareBinaryVariantsWithCorrection. cbv zeta. destruct (_ || _); [reflexivity|].
  destruct (too_few _ _ _); [reflexivity|]. case_bool_decide; [reflexivity|]. by rewrite conclude_lift.
Qed.

Lemma compare_winning control treatment n :
  let comp := CompareBinaryVariantsWithCorrection control treatment n in
  vc_Status comp = Winning →
  (30 ≤ vs_Exposures control)%Z ∧ (30 ≤ vs_Exposures treatment)%Z ∧
  f64_ltb (vc_PValue comp) (f64_ratio 5 100) = true ∧
  f64_ltb f64_zero (vs_ConversionRate treatment - vs_ConversionRate control)%f64 = true.
Proof.
  unfold CompareBinaryVariantsWithCorrection, MinSampleSizeForSignificance. cbv zeta.
  destruct (Z.ltb_spec (vs_Exposures control) 30); [done|].
  destruct (Z.ltb_spec (vs_Exposures treatment) 30); [done|]. cbn [orb].
  destruct (too_few _ _ _); [done|]. case_bool_decide; [done|].
  intros Hw. destruct (conclude_winning _ _ _ _ _ Hw) as (Hp & Hl & HP). rewrite HP. done.
Qed.

Lemma f64_ltb_not_nan x y : f64_ltb x y = true → is_nan x = false ∧ is_nan y = false.
Proof. destruct x, y; by intros. Qed.

Lemma best_fold l acc :
  is_nan acc.2 = false →
  let r := foldl best acc l in
  (r = acc ∨ ∃ c, (r.1, c) ∈ l ∧ vc_Status c = Winning ∧ vc_RelativeLiftPct c = r.2) ∧
  is_nan r.2 = false ∧ f64_leb acc.2 r.2 = true ∧
  ∀ v c, (v, c) ∈ l → vc_Status c = Winning → f64_ltb r.2 (vc_RelativeLiftPct c) = false.
Proof.
  revert acc. induction l as [|[v c] l IH]; intros acc Hnan; cbn [foldl].
  { split_and!; [by left|done| |]; [|intros ? ? Hin; by apply not_elem_of_nil in Hin].
    apply negb_false_iff. rewrite <- f64_ltb_negb_leb by done. apply f64_lt_irrefl. }
  assert (is_nan (best acc (v, c)).2 = false ∧ f64_leb acc.2 (best acc (v, c)).2 = true ∧
    (vc_Status c = Winning → f64_ltb (best acc (v, c)).2 (vc_RelativeLiftPct c) = false)) as (Hb & Hle & Hc).
  { assert (f64_leb acc.2 acc.2 = true) as Hrefl.
    { apply negb_false_iff. rewrite <- f64_ltb_negb_leb by done. apply f64_lt_irrefl. }
    unfold best. cbn [fst snd]. case_bool_decide as Hw; cbn [andb]; [|done].
    destruct (f64_ltb acc.2 (vc_RelativeLiftPct c)) eqn:Hlt; [|done]. cbn.
    split_and!; [by apply f64_ltb_not_nan in Hlt as [_ ?]|by apply f64_lt_le|].
    intros _. apply f64_lt_irrefl. }
  destruct (IH (best acc (v, c)) Hb) as (Hr & Hn & Hle' & Hall). set (r := foldl best _ l) in *.
  clearbody r. split_and!; [|done|by eapply f64_le_trans|].
  - destruct Hr as [-> | (c' & Hin & ? & ?)].
    + unfold best. cbn. case_bool_decide; cbn; [|by left]. case_match; [|by left].
      right. exists c. cbn. split; [|done]. apply elem_of_cons. by left.
    + right. exists c'. split; [|done]. apply elem_of_cons. by right.
  - intros v' c' [[= -> ->] | Hin]%elem_of_cons; [|by apply (Hall v')].
    intros Hw. specialize (Hc Hw). destruct (f64_ltb r.2 (vc_RelativeLiftPct c)) eqn:E; [|done].
    by rewrite (f64_le_lt_trans _ _ _ Hle' E) in Hc.
Qed.

(** The variant a report names as the winner is a treatment, was shown at
    least 30 times as was the control, converts better than the control with an
    adjusted p-value below 0.05, and no other winning treatment has a larger
    lift; so it does not depend on the order in which variants are visited, ties
    apart. *)
Theorem winner_sound now order flagKey metricName eventType env control exposures events :
  let rep := AnalyzeExperiment now order flagKey metricName eventType env control exposures events in
  (∀ v, v ∈ order ↔ v ∈ dom (er_Comparisons rep)) →
  er_WinnerVariant rep ≠ "" →
  ∃ comp ts cs,
    er_Comparisons rep !! er_WinnerVariant rep = Some comp ∧ vc_Status comp = Winning ∧
    er_VariantStats rep !! er_WinnerVariant rep = Some ts ∧
    er_VariantStats rep !! er_ControlVariant rep = Some cs ∧
    er_WinnerVariant rep ≠ er_ControlVariant rep ∧
    (30 ≤ vs_Exposures cs)%Z ∧ (30 ≤ vs_Exposures ts)%Z ∧
    f64_ltb (vc_PValue comp) (f64_ratio 5 100) = true ∧
    f64_ltb f64_zero (vs_ConversionRate ts - vs_ConversionRate cs)%f64 = true ∧
    ∀ v c, er_Comparisons rep !! v = Some c → vc_Status c = Winning →
      f64_ltb (vc_RelativeLiftPct comp) (vc_RelativeLiftPct c) = false.
Proof.
  intros rep Hord Hw. unfold rep, AnalyzeExperiment in *. cbn -[f64_max_value] in *.
  set (convs := conversions _) in *. set (ctl := or_default control "control") in *.
  set (all := dom exposures ∪ dom convs ∪ {[ctl]}) in *.
  set (stats := set_to_map (λ v, (v, variant_stats exposures convs v)) all) in *.
  set (n := if (Z.of_nat (size stats) - 1 <? 1)%Z then 1%Z else _) in *.
  set (comps := _ <$> delete ctl stats) in *. set (visited := omap _ order) in *.
  destruct (best_fold visited ("", SFopp f64_max_value) eq_refl) as (Hr & _ & _ & Hall).
  set (r := foldl best _ visited) in *.
  destruct Hr as [Hr | (comp & Hin & Hwin & Hl)]; [by rewrite Hr in Hw|].
  assert (∀ v c, (v, c) ∈ visited ↔ v ∈ order ∧ comps !! v = Some c) as Hvis.
  { intros v c. unfold visited. rewrite list_elem_of_omap. split.
    - intros (v' & Hv' & Hc). destruct (comps !! v') eqn:E; [|done]. simpl in Hc.
      injection Hc as <- <-. done.
    - intros [Ho Hc]. exists v. split; [done|]. by rewrite Hc. }
  apply Hvis in Hin as [Ho Hcomp].
  assert (∀ v s, stats !! v = Some s ↔ v ∈ all ∧ s = variant_stats exposures convs v) as Hst.
  { intros v s. unfold stats. rewrite lookup_set_to_map by (intros ? ? ? ? ?; simplify_eq/=; done).
    split; [by intros (? & ? & [= -> ->])|]. intros [? ->]. by exists v. }
  pose proof Hcomp as Hcomp'. unfold comps in Hcomp'. rewrite lookup_fmap in Hcomp'.
  destruct (delete ctl stats !! r.1) as [ts|] eqn:Hts; [|done]. simpl in Hcomp'.
  injection Hcomp' as Hc. apply lookup_delete_Some in Hts as [Hne Hts].
  subst comp. destruct (compare_winning _ _ _ Hwin) as (? & ? & ? & ?).
  eexists _, ts, (variant_stats exposures convs ctl).
  split_and!; try done.
  - apply Hst. split; [|done]. unfold all. apply elem_of_union. right. by apply elem_of_singleton.
  - intros v c Hv Hcw. rewrite Hl. apply (Hall v c); [|done]. apply Hvis. split; [|done].
    apply Hord, elem_of_dom. by exists c.
Qed.

(** The users and the user-less events of a variant. *)
Definition users_of (events : list ExperimentEvent) (v : string) : gset string :=
  list_to_set (ev_UserID <$> filter (λ ev, ev_Variant ev = v ∧ ev_UserID ev ≠ "") events).

Definition anonymous_of (events : list ExperimentEvent) (v : string) : nat :=
  length (filter (λ ev, ev_Variant ev = v ∧ ev_UserID ev = "") events).

Lemma converted_users_spec events v :
  default ∅ (converted_users events !! v) = users_of events v.
Proof.
  unfold converted_users.
  assert (∀ m : gmap string (gset string), default ∅ (foldl (λ m ev, if ev_UserID ev =s? "" then m
      else <[ev_Variant ev := {[ev_UserID ev]} ∪ default ∅ (m !! ev_Variant ev)]> m) m events !! v)
    = default ∅ (m !! v) ∪ users_of events v) as Hgen; [|rewrite Hgen, lookup_empty; simpl; apply (left_id_L ∅ _)].
  unfold users_of. induction events as [|ev events IH]; intros m; cbn [foldl].
  { simpl. by rewrite (right_id_L ∅ _). }
  rewrite IH, filter_cons. destruct (ev_UserID ev =s? "") eqn:Eu.
  - apply str_eqb_eq in Eu. rewrite decide_False; [done|tauto].
  - apply str_eqb_neq in Eu. destruct (decide (ev_Variant ev = v)) as [<- | Hne].
    + rewrite decide_True by done. rewrite lookup_insert_eq. csimpl.
      rewrite (comm_L (∪) {[ev_UserID ev]}), <- (assoc_L (∪)). done.
    + rewrite decide_False by tauto. by rewrite lookup_insert_ne.
Qed.

Lemma anonymous_spec events v :
  default 0%Z (anonymous_conversions events !! v) = Z.of_nat (anonymous_of events v).
Proof.
  unfold anonymous_conversions.
  assert (∀ m : gmap string Z, default 0%Z (foldl (λ m ev, if ev_UserID ev =s? ""
      then <[ev_Variant ev := (default 0 (m !! ev_Variant ev) + 1)%Z]> m else m) m events !! v)
    = (default 0%Z (m !! v) + Z.of_nat (anonymous_of events v))%Z) as Hgen;
    [|rewrite Hgen, lookup_empty; simpl; lia].
  unfold anonymous_of. induction events as [|ev events IH]; intros m; cbn [foldl]; [simpl; lia|].
  rewrite IH, filter_cons. destruct (ev_UserID ev =s? "") eqn:Eu.
  - apply str_eqb_eq in Eu. destruct (decide (ev_Variant ev = v)) as [<- | Hne].
    + rewrite decide_True by done. rewrite lookup_insert_eq. simpl. lia.
    + rewrite decide_False by tauto. by rewrite lookup_insert_ne.
  - apply str_eqb_neq in Eu. rewrite decide_False; [done|tauto].
Qed.

Lemma conversions_spec events v :
  default 0%Z (conversions events !! v)
  = (Z.of_nat (anonymous_of events v) + Z.of_nat (size (users_of events v)))%Z.
Proof.
  rewrite <- anonymous_spec, <- converted_users_spec. unfold conversions.
  rewrite lookup_union_with, lookup_fmap.
  destruct (anonymous_conversions events !! v), (converted_users events !! v); cbn;
    rewrite ?size_empty; lia.
Qed.

(** In a report every variant converts at most as often as it was shown, and
    its conversions are the distinct users with a matching event plus the matching
    events without a user: a user who converts twice counts once. *)
Theorem report_counts now order flagKey metricName eventType env control exposures events v st :
  let rep := AnalyzeExperiment now order flagKey metricName eventType env control exposures events in
  let counted := filter (λ ev, counts_for flagKey metricName env ev = true) events in
  er_VariantStats rep !! v = Some st →
  vs_Conversions st = (Z.of_nat (anonymous_of counted v) + Z.of_nat (size (users_of counted v)))%Z ∧
  (0 ≤ vs_Conversions st ≤ vs_Exposures st)%Z.
Proof.
  intros rep counted Hst. unfold rep, AnalyzeExperiment in Hst. cbn in Hst. fold counted in Hst.
  rewrite lookup_set_to_map in Hst by (intros ? ? ? ? ?; simplify_eq/=; done).
  destruct Hst as (v' & _ & [= -> <-]). unfold variant_stats, ComputeVariantBinaryStats.
  rewrite conversions_spec. set (k := (_ + _)%Z). assert (0 ≤ k)%Z by lia. clearbody k.
  set (n := default 0%Z (exposures !! v)). clearbody n.
  destruct (Z.ltb_spec n k); case_match; cbn; lia.
Qed.

(** When nobody in the control group converts and somebody in a treatment
    does, the relative lift of the comparison is the infinite float, which JSON
    cannot represent: the report cannot be encoded. *)
Theorem zero_baseline_infinite_lift control treatment n :
  f64_ltb f64_zero (vs_ConversionRate control) = false →
  f64_ltb f64_zero (vs_ConversionRate treatment) = true →
  vc_RelativeLiftPct (CompareBinaryVariantsWithCorrection control treatment n) = f64_inf.
Proof.
  intros HC HT. rewrite compare_lift. unfold relative_lift. by rewrite HC, HT.
Qed.

End Test.

(** ** An instance *)

(** An error function that saturates. *)
#[export] Instance step_math : MathLib := {| math_Erf x := if f64_ltb f64_one x then f64_one else f64_zero |}.

Definition demo_exposures : gmap string Z := <["control" := 100%Z]> {["blue" := 100%Z]}.

(** Fifty users convert on the treatment, ten on the control, one of them twice. *)
Definition demo_events : list ExperimentEvent :=
  let ev v u := mkEvent "" "shop" "checkout" v "signup" "conversion" f64_one u "production" time_zero in
  ev "control" "c0" :: ((λ n : nat, ev "control" ("c" +:+ pretty n)) <$> seq 0 10) ++
  ((λ n : nat, ev "blue" ("b" +:+ pretty n)) <$> seq 0 50).

Definition demo_report : ExperimentReport :=
  AnalyzeExperiment time_zero ["blue"] "checkout" "signup" "conversion" "production" "" demo_exposures
    demo_events.

Lemma winner_sound_witness :
  er_WinnerVariant demo_report = "blue" ∧
  ∃ comp, er_Comparisons demo_report !! "blue" = Some comp ∧ vc_Status comp = Winning.
Proof.
  split; [vm_compute; reflexivity|].
  destruct (winner_sound time_zero ["blue"] "checkout" "signup" "conversion" "production" ""
              demo_exposures demo_events) as (comp & _ & _ & Hc & Hw & _).
  - intros v. replace (dom _) with ({["blue"]} : gset string) by (vm_compute; reflexivity).
    by rewrite list_elem_of_singleton, elem_of_singleton.
  - vm_compute. congruence.
  - exists comp. split; [|done]. rewrite <- Hc. vm_compute. reflexivity.
Defined.

Lemma report_counts_witness :
  ∃ st, er_VariantStats demo_report !! "control" = Some st ∧ vs_Conversions st = 10%Z ∧
    (vs_Conversions st ≤ vs_Exposures st)%Z.
Proof.
  destruct (er_VariantStats demo_report !! "control") as [st|] eqn:E; [|by vm_compute in E].
  exists st. split; [done|].
  destruct (report_counts time_zero ["blue"] "checkout" "signup" "conversion" "production" ""
              demo_exposures demo_events "control" st E) as [Hk [_ Hle]].
  split; [|done]. rewrite Hk. vm_compute. reflexivity.
Defined.

Lemma zero_baseline_infinite_lift_witness :
  vc_RelativeLiftPct (CompareBinaryVariants (ComputeVariantBinaryStats "control" 100 0)
                        (ComputeVariantBinaryStats "blue" 100 1)) = f64_inf.
Proof.
  refine (zero_baseline_infinite_lift (ComputeVariantBinaryStats "control" 100 0)
            (ComputeVariantBinaryStats "blue" 100 1) 1 _ _); vm_compute; reflexivity.
Defined.
