(* ===== verification/HandlerFacts.v ===== *)
(** * Handlers that look and answer

    Authentication and the resolution of a project return on every path and change
    nothing in the store but the last use of a key, whoever asks: the common start
    of the handlers that also serve anonymous callers. *)

From S2P Require Import Prelude GoFloat GoStrings GoTime Sha256 Errors Domain Engine EngineFacts Diagnostics Entities.
From S2P Require Import StoreState StoreFlags Http Auth Access AuthFacts AccessFacts ApiFlags ApiFlagsFacts.

(** A handler that returns a value on every path. *)
Definition returns {A} (m : Handler A) : Prop := ∀ srv w, ∃ a, (m srv w).2 = inl a.

Lemma returns_ret {A} (a : A) : returns (mret a).
Proof. by eexists. Qed.
Lemma returns_bind {A B} (m : Handler A) (k : A → Handler B) :
  returns m → (∀ a, returns (k a)) → returns (m ≫= k).
Proof.
  intros Hm Hk srv w. unfold mbind, handler_bind. destruct (Hm srv w) as [a Ha].
  destruct (m srv w) as [w' r]. simpl in Ha. subst r. apply Hk.
Qed.
Lemma returns_call {A} (f : Outside → MemoryStore → MemoryStore * A) : returns (call f).
Proof.
  intros srv w. unfold call, mbind, handler_bind, outside, get_store, put_store. simpl.
  destruct (f _ _). by eexists.
Qed.
Lemma returns_read {A} (f : Outside → MemoryStore → A) : returns (read f).
Proof. by eexists. Qed.
Lemma returns_getenv name : returns (Getenv name).
Proof. by eexists. Qed.
Lemma returns_user : returns UserFromContext.
Proof. by eexists. Qed.
Lemma returns_with_user u : returns (WithUserContext u).
Proof. by eexists. Qed.

Create HintDb returns.
#[export] Hint Resolve returns_ret returns_call returns_read returns_getenv returns_user
  returns_with_user : returns.

Ltac returns_step :=
  match goal with
  | |- returns (_ ≫= _) => apply returns_bind; [|intros ?]
  | |- returns (match ?x with _ => _ end) => destruct x
  | |- returns _ => solve [eauto with returns]
  end.
Ltac returns_all := repeat (first [progress intros | returns_step]).

Lemma returns_find_key hash : returns (find_key hash).
Proof. unfold find_key. returns_all. Qed.
Lemma returns_try_keys master toks : returns (try_keys master toks).
Proof. induction toks; simpl; repeat (first [apply returns_find_key | returns_step | progress intros]). Qed.
Lemma returns_try_sessions toks : returns (try_sessions toks).
Proof. induction toks; simpl; returns_all. Qed.
#[export] Hint Resolve returns_find_key returns_try_keys returns_try_sessions : returns.

Section Identity.
Context `{GoRuntime}.

Lemma returns_getUser r : returns (getUserFromRequest r).
Proof. unfold getUserFromRequest. returns_all. Qed.
Lemma returns_getKey r : returns (getAPIKeyFromRequest r).
Proof. unfold getAPIKeyFromRequest. returns_all. Qed.
Lemma returns_first_project orgs : returns (first_project orgs).
Proof. induction orgs; simpl; returns_all. Qed.
Hint Resolve returns_getUser returns_getKey returns_first_project : returns.

Lemma returns_resolve r : returns (resolveAndAuthorizeProjectID r).
Proof.
  unfold resolveAndAuthorizeProjectID, resolve_user, resolve_anonymous, authorizeProjectAccess, default_for,
    chosen, enrich_context, enrichUserOrgMembership, current_user, authorize_user, list_user_orgs, get_project.
  destruct (candidate_project r). returns_all.
Qed.

Lemma returns_resolveProject r : returns (resolveProjectID r).
Proof. unfold resolveProjectID. apply returns_bind; [apply returns_resolve|intros; apply returns_ret]. Qed.

Lemma wp_uses {A} srv (m : Handler A) (Q : A → World → Prop) E w :
  returns m → keeps uses_only m →
  (∀ a w', uses_only (wd_store w) (wd_store w') → Q a w') → wp srv m Q E w.
Proof.
  intros Hr Hk HQ. unfold wp. specialize (Hk srv w). destruct (Hr srv w) as [a Ha].
  destruct (m srv w) as [w' res]. simpl in *. subst res. by apply HQ.
Qed.

Lemma ListFlagsByProject_uses s s' p : uses_only s s' → ListFlagsByProject s' p = ListFlagsByProject s p.
Proof. intros Hu. unfold ListFlagsByProject, flags_of. by rewrite (uses_only_flags _ _ Hu). Qed.

(** A benchmark, which anybody may ask for, always answers, whatever it measures:
    with the figures of between 500 and 100,000 runs, each counted in one of a
    hundred buckets, or with the error that keeps the caller from a project; it
    changes nothing but the last use of a key. *)
Theorem benchmark_answers srv dur total req r w :
  let '(w', rep) := serve srv (handleBenchmark dur total req r) w in
  uses_only (wd_store w) (wd_store w') ∧
  match (resolveAndAuthorizeProjectID r srv w).2 with
  | inl (Ok p) => ∃ m, rep = mkReply StatusOK (BBenchmark m) ∧ (500 ≤ bm_Iterations m ≤ 100000)%Z ∧
      length (bm_HashBuckets m) = 100%nat ∧ Zsum (bm_HashBuckets m) = bm_Iterations m
  | inl (Err e) => rep = error_reply e
  | inr _ => False
  end.
Proof.
  pose proof (keeps_uses_resolve r srv w) as Hs. destruct (returns_resolve r srv w) as [res Hr].
  destruct (serve srv _ w) as [w' rep] eqn:Ew. revert Ew.
  unfold serve, handleBenchmark, resolved, mbind, handler_bind.
  destruct (resolveAndAuthorizeProjectID r srv w) as [w1 x]. cbn in Hr, Hs. subst x. cbn [snd].
  destruct res as [p|e]; [|by intros [= <- <-]]. unfold unwrap, read, outside, get_store, mbind, handler_bind, mret, handler_ret.
  cbn -[RunBenchmark]. match goal with |- context [RunBenchmark ?f ?env ?n _ _] =>
    destruct (RunBenchmark_returns f env n dur total) as (m & -> & Hi & Hb);
    destruct (bench_histogram_total f env n dur) as (H1 & H2 & H3) end.
  intros [= <- <-]. split; [done|]. exists m. rewrite Hi, Hb. repeat split; try done; apply H1.
Qed.

End Identity.
