(* ===== verification/Client.v ===== *)
(** * The evaluation client ([pkg/client/client.go], [pkg/client/stream.go])

    A client evaluates flags remotely, through the server, behind a circuit
    breaker, or locally, on a cache kept fresh by polling and by the server's
    event stream.  What a request comes back with ([http]), what the snapshot file
    holds and what the clock says are arguments.  Each operation runs under the
    client's locks. *)

From S2P Require Import Stats.
From S2P Require Import Prelude GoFloat GoStrings GoTime Sha256 Errors Domain Engine Entities CircuitBreakers.
From S2P Require Import Telemetry.

(** ** Configuration *)

Record Config := mkConfig {
  cg_Endpoint : string;
  cg_APIKey : string;
  cg_DefaultEnvironment : Environment;
  cg_LocalEvaluation : bool;
  cg_SyncInterval : Duration;
  cg_SnapshotFile : string;
  cg_CircuitBreakerThreshold : Z;
  cg_CircuitBreakerCooldown : Duration;
  cg_DisableCircuitBreaker : bool;
  cg_DisableStreaming : bool;
  cg_TelemetryFlushInterval : Duration;
  cg_DisableTelemetry : bool;
  cg_FallbackPollInterval : Duration;
  cg_ProjectID : string;
}.

#[export] Instance eta_Config : Eta Config :=
  {| eta_expand r := mkConfig (cg_Endpoint r) (cg_APIKey r) (cg_DefaultEnvironment r)
       (cg_LocalEvaluation r) (cg_SyncInterval r) (cg_SnapshotFile r) (cg_CircuitBreakerThreshold r)
       (cg_CircuitBreakerCooldown r) (cg_DisableCircuitBreaker r) (cg_DisableStreaming r)
       (cg_TelemetryFlushInterval r) (cg_DisableTelemetry r) (cg_FallbackPollInterval r)
       (cg_ProjectID r) |}.

Definition ClientOption : Type := Config → Config.

Definition WithAPIKey (key : string) : ClientOption := λ c, c <| cg_APIKey := key |>.
Definition WithProject (projectID : string) : ClientOption := λ c, c <| cg_ProjectID := projectID |>.
Definition WithProjectID (projectID : string) : ClientOption := WithProject projectID.
Definition WithEnvironment (env : Environment) : ClientOption := λ c,
  c <| cg_DefaultEnvironment := env |>.
Definition WithLocalEvaluation (syncInterval : Duration) : ClientOption := λ c,
  c <| cg_LocalEvaluation := true |> <| cg_SyncInterval := syncInterval |>.
Definition WithSnapshotFile (path : string) : ClientOption := λ c, c <| cg_SnapshotFile := path |>.
Definition WithCircuitBreaker (threshold : Z) (cooldown : Duration) : ClientOption := λ c,
  c <| cg_CircuitBreakerThreshold := threshold |> <| cg_CircuitBreakerCooldown := cooldown |>.
Definition WithDisabledCircuitBreaker : ClientOption := λ c, c <| cg_DisableCircuitBreaker := true |>.
Definition WithStreaming (enabled : bool) : ClientOption := λ c,
  c <| cg_DisableStreaming := negb enabled |>.
Definition WithTelemetryFlushInterval (d : Duration) : ClientOption := λ c,
  c <| cg_TelemetryFlushInterval := d |>.
Definition WithDisabledTelemetry : ClientOption := λ c, c <| cg_DisableTelemetry := true |>.
Definition WithFallbackPollInterval (d : Duration) : ClientOption := λ c,
  c <| cg_FallbackPollInterval := d |>.

Definition default_config (endpoint : string) : Config :=
  mkConfig (TrimRightSlash endpoint) "" EnvProduction false (30 * Second) "" 5 (10 * Second) false
    false (60 * Second) false (5 * Second) "".

(** ** Values on the wire *)

Record ClientContext := mkClientContext {
  cc_UserID : string;
  cc_Email : string;
  cc_Country : string;
  cc_Role : string;
  cc_Tier : string;
  cc_Environment : Environment;
  cc_Custom : gmap string GoAny;
}.

Record ClientResult := mkClientResult {
  cr_FlagKey : string;
  cr_Enabled : bool;
  cr_Variant : string;
  cr_Value : GoAny;
  cr_Reason : string;
  cr_Bucket : f64;
  cr_LatencyNs : Z;
  cr_LatencyUs : f64;
}.

(** The JSON of a client's context as the server's decoder reads it: the fields
    are matched by their tags, and [custom] is not one of the server's. *)
Definition wire_context (ctx : ClientContext) : EvaluationContext :=
  mkCtx (cc_UserID ctx) (cc_Email ctx) (cc_Country ctx) (cc_Role ctx) (cc_Tier ctx)
    (cc_Environment ctx) ∅.

(** The JSON of the server's result as the client's decoder reads it: the bucket
    and the latencies have other tags on the two sides. *)
Definition wire_result (res : EvaluationResult) : ClientResult :=
  mkClientResult (er_FlagKey res) (er_Enabled res) (er_Variant res) (er_Value res) (er_Reason res)
    f64_zero 0 f64_zero.

(** ** The client *)

Inductive ConnectionState := StateDisconnected | StateConnecting | StateConnectedSSE | StateConnectedPolling.

#[export] Instance ConnectionState_eq_dec : EqDecision ConnectionState.
Proof. solve_decision. Defined.

(** [cl_disk] is the content of the snapshot file, when it can be read and
    decoded; [cl_connLog] and [cl_updateLog] are the calls of the listeners, the
    newest last. *)
Record Client := mkClient {
  cl_config : Config;
  cl_connState : ConnectionState;
  cl_connLog : list (ConnectionState * ConnectionState);
  cl_flags : gmap string FeatureFlag;
  cl_updateLog : list (list string);
  cl_disk : option (list FeatureFlag);
  cl_cb : option ClientBreaker.CircuitBreaker;
  cl_telemetry : option TelemetryBuffer;
  cl_closed : bool;
}.

#[export] Instance eta_Client : Eta Client :=
  {| eta_expand r := mkClient (cl_config r) (cl_connState r) (cl_connLog r) (cl_flags r)
       (cl_updateLog r) (cl_disk r) (cl_cb r) (cl_telemetry r) (cl_closed r) |}.

(** What an HTTP request comes back with: it could not be made; nothing; a status
    other than 200; or a body with what its decoder makes of it. *)
Inductive http (A : Type) : Type :=
| Unsent (err : GoError)
| NoResponse
| BadStatus (code : Z)
| Answer (decoded : result GoError A).
Arguments Unsent {A} err.
Arguments NoResponse {A}.
Arguments BadStatus {A} code.
Arguments Answer {A} decoded.

Definition setConnectionState (next : ConnectionState) (c : Client) : Client :=
  if bool_decide (cl_connState c = next) then c
  else c <| cl_connState := next |> <| cl_connLog := cl_connLog c ++ [(cl_connState c, next)] |>.

(** *** The cache *)

Definition index_flag (m : gmap string FeatureFlag) (f : FeatureFlag) : gmap string FeatureFlag :=
  <[ff_ID f := f]> (<[ff_Key f := f]> m).

Definition index_flags (flags : list FeatureFlag) : gmap string FeatureFlag := foldl index_flag ∅ flags.

(** Whether a flag is reported as changed against the cache. *)
Definition flag_changed (old : gmap string FeatureFlag) (f : FeatureFlag) : bool :=
  match old !! ff_Key f with
  | None => true
  | Some o => negb (ff_UpdatedAt o =? ff_UpdatedAt f)%Z
  end.

(** [updateFlags]; the write of the snapshot file succeeds. *)
Definition updateFlags (flags : list FeatureFlag) (c : Client) : Client :=
  let changedKeys := ff_Key <$> filter (λ f, flag_changed (cl_flags c) f = true) flags in
  let c := c <| cl_flags := index_flags flags |> in
  let c := if negb (cg_SnapshotFile (cl_config c) =s? "") then c <| cl_disk := Some flags |> else c in
  match changedKeys with
  | [] => c
  | _ => c <| cl_updateLog := cl_updateLog c ++ [changedKeys] |>
  end.

(** [None] is the nil error. *)
Definition loadSnapshot (c : Client) : Client * option GoError :=
  if cg_SnapshotFile (cl_config c) =s? "" then (c, None)
  else
    match cl_disk c with
    | None => (c, Some (EText "snapshot unreadable"))
    | Some flags => (c <| cl_flags := index_flags flags |>, None)
    end.

Definition on_failure (now : Time) (c : Client) : Client :=
  c <| cl_cb := ClientBreaker.OnFailure now <$> cl_cb c |>.

Definition on_success (now : Time) (c : Client) : Client :=
  c <| cl_cb := ClientBreaker.OnSuccess now <$> cl_cb c |>.

Definition syncFlags (now : Time) (resp : http (list FeatureFlag)) (c : Client)
    : Client * option GoError :=
  match resp with
  | Unsent e => (c, Some e)
  | NoResponse => (on_failure now c, Some (EText "no response"))
  | BadStatus code => (on_failure now c, Some (EText ("fetch flags returned status " +:+ Itoa code)))
  | Answer decoded =>
      let c := on_success now c in
      match decoded with
      | Err e => (c, Some e)
      | Ok flags => (updateFlags flags c, None)
      end
  end.

(** [New], up to the goroutines it starts. *)
Definition New (now : Time) (endpoint : string) (opts : list ClientOption)
    (disk : option (list FeatureFlag)) (resp : http (list FeatureFlag)) : Client :=
  let cfg := foldl (λ c opt, opt c) (default_config endpoint) opts in
  let cb := if cg_DisableCircuitBreaker cfg then None
            else Some (ClientBreaker.NewCircuitBreaker now (cg_CircuitBreakerThreshold cfg)
                         (cg_CircuitBreakerCooldown cfg)) in
  let tel := if cg_DisableTelemetry cfg then None else Some NewTelemetryBuffer in
  let c := mkClient cfg StateDisconnected [] ∅ [] disk cb tel false in
  let c := if negb (cg_SnapshotFile cfg =s? "") then (loadSnapshot c).1 else c in
  if cg_LocalEvaluation cfg then
    let c := setConnectionState StateConnecting c in
    let '(c, err) := syncFlags now resp c in
    match err with
    | Some _ => if negb (cg_SnapshotFile cfg =s? "") then (loadSnapshot c).1 else c
    | None => if cg_DisableStreaming cfg then setConnectionState StateConnectedPolling c else c
    end
  else c.

(** *** Evaluation *)

Definition off_result (flagKey reason : string) : ClientResult :=
  mkClientResult flagKey false "off" (AnyBool false) reason f64_zero 0 f64_zero.

Definition toDomainContext (c : Client) (ctx : ClientContext) : EvaluationContext :=
  mkCtx (cc_UserID ctx) (cc_Email ctx) (cc_Country ctx) (cc_Role ctx) (cc_Tier ctx)
    (or_default (cc_Environment ctx) (cg_DefaultEnvironment (cl_config c))) (cc_Custom ctx).

Definition record_telemetry (flagKey variant : string) (c : Client) : Client :=
  c <| cl_telemetry := RecordEvaluation flagKey variant <$> cl_telemetry c |>.

Section Evaluation.
Context `{GoRuntime}.

Definition evaluateLocal (ns : Z) (flagKey : string) (evalCtx : ClientContext) (c : Client)
    : Client * (ClientResult * option GoError) :=
  match cl_flags c !! flagKey with
  | None =>
      (c, (off_result flagKey ReasonFlagNotFound,
           Some (EText ("flag " +:+ rt_quote flagKey +:+ " not found in local cache"))))
  | Some flag =>
      let domRes := EvaluateFlag ns flag (toDomainContext c evalCtx) in
      (record_telemetry flagKey (er_Variant domRes) c,
       (mkClientResult (er_FlagKey domRes) (er_Enabled domRes) (er_Variant domRes) (er_Value domRes)
          (er_Reason domRes) (default f64_zero (er_BucketVal domRes))
          (er_EvaluationLatencyNs domRes) (er_EvaluationLatencyUs domRes), None))
  end.

(** The body of a request for an evaluation. *)
Definition remote_context (c : Client) (ctx : ClientContext) : ClientContext :=
  mkClientContext (cc_UserID ctx) (cc_Email ctx) (cc_Country ctx) (cc_Role ctx) (cc_Tier ctx)
    (or_default (cc_Environment ctx) (cg_DefaultEnvironment (cl_config c))) (cc_Custom ctx).

(** [send] is the server: the answer to the keys and the context, as decoded. *)
Definition Transport : Type := list string → ClientContext → http (gmap string ClientResult).

Definition open_results (flagKeys : list string) : gmap string ClientResult :=
  foldl (λ m k, <[k := off_result k "circuit_breaker_open"]> m) ∅ flagKeys.

(** [t] is the time before the request, [t'] after it. *)
Definition evaluateBatchRemote (t t' : Time) (send : Transport) (flagKeys : list string)
    (evalCtx : ClientContext) (c : Client)
    : Client * (gmap string ClientResult * option GoError) :=
  let '(c, allowed) :=
    match cl_cb c with
    | None => (c, true)
    | Some cb => let '(cb, b) := ClientBreaker.Allow t t cb in (c <| cl_cb := Some cb |>, b)
    end in
  if negb allowed then
    (c, (open_results flagKeys,
         Some (EText "circuit breaker is OPEN: fast-failing remote evaluation")))
  else
    match send flagKeys (remote_context c evalCtx) with
    | Unsent e => (c, (∅, Some e))
    | NoResponse => (on_failure t' c, (∅, Some (EText "evaluation request failed")))
    | BadStatus code =>
        (on_failure t' c, (∅, Some (EText ("evaluation returned status " +:+ Itoa code))))
    | Answer (Err e) => (on_success t' c, (∅, Some (EWrap "failed to decode response" e)))
    | Answer (Ok results) => (on_success t' c, (results, None))
    end.

Definition evaluateRemote (t t' : Time) (send : Transport) (flagKey : string)
    (evalCtx : ClientContext) (c : Client) : Client * (ClientResult * option GoError) :=
  let '(c, (results, err)) := evaluateBatchRemote t t' send [flagKey] evalCtx c in
  match err, results !! flagKey with
  | Some e, Some res => (record_telemetry flagKey (cr_Variant res) c, (res, Some e))
  | Some e, None => (c, (off_result flagKey "client_request_error", Some e))
  | None, None =>
      (c, (off_result flagKey ReasonFlagNotFound,
           Some (EText ("flag " +:+ rt_quote flagKey +:+ " missing from response"))))
  | None, Some res => (record_telemetry flagKey (cr_Variant res) c, (res, None))
  end.

Definition Evaluate (t t' : Time) (ns : Z) (send : Transport) (flagKey : string)
    (evalCtx : ClientContext) (c : Client) : Client * (ClientResult * option GoError) :=
  if cg_LocalEvaluation (cl_config c) then evaluateLocal ns flagKey evalCtx c
  else evaluateRemote t t' send flagKey evalCtx c.

Definition local_batch (ns : Z) (evalCtx : ClientContext) (acc : Client * gmap string ClientResult)
    (key : string) : Client * gmap string ClientResult :=
  let '(c, results) := acc in
  let '(c, (res, _)) := evaluateLocal ns key evalCtx c in
  (c, <[key := res]> results).

Definition EvaluateBatch (t t' : Time) (ns : Z) (send : Transport) (flagKeys : list string)
    (evalCtx : ClientContext) (c : Client) : Client * (gmap string ClientResult * option GoError) :=
  if cg_LocalEvaluation (cl_config c) then
    let '(c, results) := foldl (local_batch ns evalCtx) (c, ∅) flagKeys in (c, (results, None))
  else evaluateBatchRemote t t' send flagKeys evalCtx c.

Definition IsEnabled (t t' : Time) (ns : Z) (send : Transport) (flagKey : string)
    (evalCtx : ClientContext) (c : Client) : Client * bool :=
  let '(c, (res, err)) := Evaluate t t' ns send flagKey evalCtx c in
  (c, match err with Some _ => false | None => cr_Enabled res end).

Definition GetVariant (t t' : Time) (ns : Z) (send : Transport) (flagKey : string)
    (evalCtx : ClientContext) (fallback : string) (c : Client) : Client * string :=
  let '(c, (res, err)) := Evaluate t t' ns send flagKey evalCtx c in
  (c, match err with
      | Some _ => fallback
      | None => if (cr_Variant res =s? "") || (cr_Variant res =s? "off") then fallback else cr_Variant res
      end).

End Evaluation.

Definition CircuitBreakerState (now : Time) (c : Client) : Client * CircuitState :=
  match cl_cb c with
  | None => (c, StateClosed)
  | Some cb => let '(cb, st) := ClientBreaker.State now now cb in (c <| cl_cb := Some cb |>, st)
  end.

(** *** Conversions *)

(** The request of [Track]: its address, the credentials it carries and the event
    of its payload. *)
Record TrackRequest := mkTrackRequest {
  tq_URL : string;
  tq_Authorization : option string;
  tq_Project : option string;
  tq_Event : ExperimentEvent;
}.

(** A header that is set when its value is not empty. *)
Definition header_if (v : string) (h : string) : option string := if negb (v =s? "") then Some h else None.

Definition track_request (t : Time) (flagKey variant metricName : string) (value : f64) (userID : string)
    (c : Client) : TrackRequest :=
  let cfg := cl_config c in
  mkTrackRequest (TrimRightSlash (cg_Endpoint cfg) +:+ "/api/v1/events")
    (header_if (cg_APIKey cfg) ("Bearer " +:+ cg_APIKey cfg)) (header_if (cg_ProjectID cfg) (cg_ProjectID cfg))
    (mkEvent "" (cg_ProjectID cfg) flagKey variant metricName EventTypeConversion value userID
       (cg_DefaultEnvironment cfg) t).

(** What [json.Marshal] refuses: a number that is not finite. *)
Definition unsupported_value (value : f64) : option string :=
  match value with
  | S754_nan => Some "NaN"
  | S754_infinity false => Some "+Inf"
  | S754_infinity true => Some "-Inf"
  | _ => None
  end.

(** [send] gives the status and the body of the answer, or why there is none.
    Nothing is kept of an event that is not delivered. *)
Definition Track (t : Time) (send : TrackRequest → result GoError (Z * string))
    (flagKey variant metricName : string) (value : f64) (userID : string) (c : Client) : option GoError :=
  match unsupported_value value with
  | Some v => Some (EText ("json: unsupported value: " +:+ v))
  | None =>
      match send (track_request t flagKey variant metricName value userID c) with
      | Err err => Some err
      | Ok (code, body) =>
          if (400 <=? code)%Z
          then Some (EText ("track request failed with status " +:+ Itoa code +:+ ": " +:+ body))
          else None
      end
  end.

(** [Close]; later calls do nothing. *)
Definition Close (c : Client) : Client :=
  if cl_closed c then c else setConnectionState StateDisconnected (c <| cl_closed := true |>).
