(* ===== verification/ClientStream.v ===== *)
(** * The client's event stream ([pkg/client/stream.go])

    The parser of server-sent events, the exponential backoff, and the loop that
    keeps a stream open and polls while it is down. *)

From S2P Require Import Prelude GoFloat GoStrings GoTime Sha256 Errors Domain Entities Engine CircuitBreakers.
From S2P Require Import StoreState StreamHub Telemetry Client.

(** ** Lines *)

Definition newline : ascii := "010".
Definition carriage_return : ascii := "013".

(** A trailing carriage return is dropped, as [bufio.ScanLines] does. *)
Definition strip_cr (s : string) : string := TrimSuffix s (String carriage_return "").

(** The lines [bufio.Scanner] delivers; [cur] is the line being read. *)
Fixpoint scan_lines (s cur : string) : list string :=
  match s with
  | EmptyString => if cur =s? "" then [] else [strip_cr cur]
  | String c s' =>
      if bool_decide (c = newline) then strip_cr cur :: scan_lines s' ""
      else scan_lines s' (cur +:+ String c "")
  end.

(** ** The parser *)

Definition MaxStreamPayloadSize : Z := (10 * 1024 * 1024)%Z.

Record SseState := mkSse { ss_event : string; ss_data : string }.

(** One line: the new state, and the event it completes. *)
Definition sse_line (st : SseState) (line : string) : SseState * option (string * string) :=
  if HasPrefix line ":" then (st, None)
  else if HasPrefix line "event:" then
    (mkSse (TrimSpace (TrimPrefix line "event:")) (ss_data st), None)
  else if HasPrefix line "data:" then
    let dataContent := TrimPrefix line "data:" in
    if (MaxStreamPayloadSize <?
        Z.of_nat (String.length (ss_data st)) + Z.of_nat (String.length dataContent))%Z
    then (mkSse "" "", None)
    else (mkSse (ss_event st) (ss_data st +:+ TrimSpace dataContent), None)
  else if (line =s? "") && negb (ss_data st =s? "") then (mkSse "" "", Some (ss_event st, ss_data st))
  else (st, None).

Fixpoint sse_run (st : SseState) (lines : list string) : list (string * string) :=
  match lines with
  | [] => []
  | l :: lines =>
      let '(st, ev) := sse_line st l in option_list ev ++ sse_run st lines
  end.

(** The events of a response body. *)
Definition sse_parse (body : string) : list (string * string) := sse_run (mkSse "" "") (scan_lines body "").

(** [json.Unmarshal] of an event's data: the [flags] it has, [None] when it does
    not decode or has none. *)
Class StreamDecoder := { unmarshal_flags : string → option (list FeatureFlag) }.

Definition apply_event `{StreamDecoder} (c : Client) (ev : string * string) : Client :=
  if (ev.1 =s? "flags_init") || (ev.1 =s? "flags_update") then
    match unmarshal_flags ev.2 with
    | Some flags => updateFlags flags c
    | None => c
    end
  else c.

(** The reading loop of [listenSSEStream]. *)
Definition consume `{StreamDecoder} (body : string) (c : Client) : Client :=
  foldl apply_event c (sse_parse body).

(** ** Backoff *)

Definition Millisecond : Duration := 1000000%Z.

(** [jitter] is the number [crypto/rand] returns below the base, or zero. *)
Definition computeJitteredBackoff (attempt : Z) (base max : Duration) (jitter : Z → Z) : Duration :=
  let base := if (base <=? 0)%Z then (500 * Millisecond)%Z else base in
  let max := if (max <=? 0)%Z then (30 * Second)%Z else max in
  let multiplier := wrap_i64 (2 ^ attempt) in
  let multiplier := if ((multiplier <=? 0) || (1024 <? multiplier))%Z then 1024%Z else multiplier in
  let backoff := wrap_i64 (base * multiplier) in
  let backoff := if (max <? backoff)%Z then max else backoff in
  let total := wrap_i64 (backoff + jitter base) in
  if (max <? total)%Z then max else total.

(** ** The supervising loop *)

Record Supervisor := mkSupervisor {
  sp_attempt : Z;
  sp_fallback : bool;
  sp_client : Client;
}.

(** How [listenSSEStream] ended: whether the stream was established, and with an
    error or at the end of the body. *)
Record listened := mkListened { li_connected : bool; li_error : bool }.

Definition startFallback (s : Supervisor) : Supervisor :=
  if sp_fallback s then s
  else mkSupervisor (sp_attempt s) true (setConnectionState StateConnectedPolling (sp_client s)).

(** [onConnected]. *)
Definition connected (s : Supervisor) : Supervisor :=
  mkSupervisor 0 false (setConnectionState StateConnectedSSE (sp_client s)).

(** One turn of the loop of [startSSEStream], and how long it waits. *)
Definition supervise (jitter : Z → Z) (s : Supervisor) (l : listened) : Supervisor * option Duration :=
  let s := if li_connected l then connected s else s in
  let s := startFallback s in
  if li_error l then
    (mkSupervisor (sp_attempt s + 1) (sp_fallback s) (sp_client s),
     Some (computeJitteredBackoff (sp_attempt s) (500 * Millisecond) (30 * Second) jitter))
  else (mkSupervisor 0 (sp_fallback s) (sp_client s), None).

(** ** Facts *)

Lemma str_append_snoc a c b : (a +:+ String c "") +:+ b = a +:+ String c b.
Proof. by rewrite str_append_assoc. Qed.

Lemma strip_cr_free s : str_mem carriage_return s = false → strip_cr s = s.
Proof.
  intros Hm. unfold strip_cr, TrimSuffix. destruct (HasSuffix s (String carriage_return "")) eqn:E; [|done].
  unfold HasSuffix in E. apply andb_true_iff in E as [_ E%str_eqb_eq].
  assert (str_mem carriage_return s = true); [|congruence].
  eapply str_mem_substring. rewrite E. done.
Qed.

(** A line in front is delivered first. *)
Lemma scan_line a s cur :
  str_mem newline a = false →
  scan_lines (a +:+ String newline s) cur = strip_cr (cur +:+ a) :: scan_lines s "".
Proof.
  revert cur. induction a as [|c a IH]; intros cur Hm; simpl.
  - by rewrite str_append_nil_r.
  - simpl in Hm. apply orb_false_iff in Hm as [Hc%bool_decide_eq_false Hm].
    rewrite bool_decide_false by done. rewrite IH by done.
    by rewrite str_append_snoc.
Qed.

(** Text that survives the framing: one line, no surrounding space. *)
Record framable (s : string) : Prop := {
  fr_line : str_mem newline s = false;
  fr_cr : str_mem carriage_return s = false;
  fr_trim : TrimSpace (" " +:+ s) = s;
}.

Lemma frame_lines event data rest :
  sse_frame event data +:+ rest =
  ("event: " +:+ event) +:+ String newline
    (("data: " +:+ data) +:+ String newline ("" +:+ String newline rest)).
Proof.
  unfold sse_frame.
  by repeat (rewrite str_append_assoc || rewrite str_append_cons || rewrite str_append_nil_l).
Qed.

Lemma scan_frame event data rest :
  framable event → framable data →
  scan_lines (sse_frame event data +:+ rest) "" =
  ("event: " +:+ event) :: ("data: " +:+ data) :: "" :: scan_lines rest "".
Proof.
  intros [He1 He2 _] [Hd1 Hd2 _]. rewrite frame_lines.
  rewrite !scan_line by (rewrite ?str_mem_append; simpl; rewrite ?He1, ?Hd1; done).
  rewrite !str_append_nil_l, !strip_cr_free; try done; rewrite str_mem_append; simpl; by rewrite ?He2, ?Hd2.
Qed.

Lemma sse_event_line event st :
  framable event → sse_line st ("event: " +:+ event) = (mkSse event (ss_data st), None).
Proof.
  intros [_ _ Ht]. unfold sse_line.
  change ("event: " +:+ event) with ("event:" +:+ (" " +:+ event)).
  rewrite HasPrefix_app, TrimPrefix_app, Ht. done.
Qed.

Lemma sse_data_line event data :
  framable data → (Z.of_nat (String.length data) < MaxStreamPayloadSize)%Z →
  sse_line (mkSse event "") ("data: " +:+ data) = (mkSse event data, None).
Proof.
  intros [_ _ Ht] Hlen. unfold sse_line.
  change ("data: " +:+ data) with ("data:" +:+ (" " +:+ data)).
  rewrite HasPrefix_app, TrimPrefix_app, Ht. cbn [ss_data ss_event].
  assert (HasPrefix ("data:" +:+ (" " +:+ data)) ":" = false) as -> by reflexivity.
  assert (HasPrefix ("data:" +:+ (" " +:+ data)) "event:" = false) as -> by reflexivity.
  destruct (Z.ltb_spec MaxStreamPayloadSize
    (Z.of_nat (String.length "") + Z.of_nat (String.length (" " +:+ data)))) as [Hlt | _]; [|done].
  exfalso. unfold MaxStreamPayloadSize in *. rewrite str_length_append in Hlt. cbn in Hlt. lia.
Qed.

Lemma sse_blank_line event data :
  data ≠ "" → sse_line (mkSse event data) "" = (mkSse "" "", Some (event, data)).
Proof. intros Hne. unfold sse_line. cbn. by rewrite (proj2 (str_eqb_neq _ _) Hne). Qed.

(** The client reads exactly what the server's hub wrote: for every sequence of
    events with one-line names and payloads below the limit, parsing the stream of
    their frames gives the events back, in order. *)
Theorem sse_roundtrip (events : list (string * string)) :
  Forall (λ e, framable e.1 ∧ framable e.2 ∧ e.2 ≠ "" ∧
    Z.of_nat (String.length e.2) < MaxStreamPayloadSize)%Z events →
  sse_parse (foldr (λ e s, sse_frame e.1 e.2 +:+ s) "" events) = events.
Proof.
  unfold sse_parse. intros Hall. induction Hall as [|[ev data] events (He & Hd & Hne & Hlen) _ IH]; [done|].
  cbn [foldr fst snd] in *. rewrite scan_frame by done. cbn [sse_run].
  rewrite sse_event_line by done. cbn [ss_data]. rewrite sse_data_line by done.
  rewrite sse_blank_line by done. cbn [option_list app]. by rewrite IH.
Qed.

(** ** Backoff *)

(** A delay is at least the doubled base (up to the cap), at most the maximum,
    and positive, for every number of attempts: the shift cannot overflow into a
    zero or negative wait. *)
Lemma backoff_range (attempt base max : Z) (jitter : Z → Z) :
  (0 ≤ attempt)%Z → (0 < base)%Z → (base ≤ max)%Z → (max < 2 ^ 52)%Z →
  (0 ≤ jitter base < base)%Z →
  (Z.min (base * Z.min (2 ^ attempt) 1024) max ≤ computeJitteredBackoff attempt base max jitter ≤ max)%Z ∧
  (0 < computeJitteredBackoff attempt base max jitter)%Z.
Proof.
  intros Ha Hb Hbm Hm Hj. unfold computeJitteredBackoff.
  destruct (Z.leb_spec base 0); [lia|]. destruct (Z.leb_spec max 0); [lia|].
  set (m := if _ || _ then 1024%Z else wrap_i64 (2 ^ attempt)).
  assert (m = Z.min (2 ^ attempt) 1024) as ->.
  { unfold m. destruct (Z.le_gt_cases attempt 10) as [Hs | Hs].
    - assert (2 ^ attempt ≤ 2 ^ 10)%Z by (apply Z.pow_le_mono_r; lia).
      assert (0 < 2 ^ attempt)%Z by (apply Z.pow_pos_nonneg; lia).
      rewrite wrap_i64_small by lia.
      destruct (Z.leb_spec (2 ^ attempt) 0), (Z.ltb_spec 1024 (2 ^ attempt)); simpl; lia.
    - assert (2 ^ 11 ≤ 2 ^ attempt)%Z as H11 by (apply Z.pow_le_mono_r; lia).
      rewrite Z.min_r by lia.
      destruct (Z.le_gt_cases attempt 62) as [H62 | H62].
      + assert (2 ^ attempt ≤ 2 ^ 62)%Z by (apply Z.pow_le_mono_r; lia).
        rewrite wrap_i64_small by lia. destruct (Z.ltb_spec 1024 (2 ^ attempt)); [|lia].
        by rewrite orb_true_r.
      + assert (wrap_i64 (2 ^ attempt) ≤ 0)%Z as Hneg.
        { destruct (Z.eq_dec attempt 63%Z) as [-> | H63]; [vm_compute; congruence|].
          unfold wrap_i64. replace attempt with (64 + (attempt - 64))%Z by lia.
          rewrite Z.pow_add_r, Z.add_comm, Z.mul_comm, Z.mod_add by lia. vm_compute. congruence. }
        by rewrite (proj2 (Z.leb_le _ _) Hneg). }
  set (k := Z.min (2 ^ attempt) 1024).
  assert (1 ≤ k ≤ 1024)%Z as Hk.
  { assert (0 < 2 ^ attempt)%Z by (apply Z.pow_pos_nonneg; lia). lia. }
  clearbody k. rewrite (wrap_i64_small (base * k)) by nia.
  set (b := if (max <? base * k)%Z then max else (base * k)%Z).
  assert (b = Z.min (base * k) max) as Hbk by (unfold b; destruct (Z.ltb_spec max (base * k)); lia).
  assert (0 < b ≤ max)%Z by nia. clearbody b.
  rewrite wrap_i64_small by lia. destruct (Z.ltb_spec max (b + jitter base)); lia.
Qed.

(** ** The loop *)

(** After every turn of the loop, however the stream ended, polling is on and
    the client reports itself as polling; a turn that ends in an error waits
    between half a second and thirty. *)
Theorem stream_down_polls (jitter : Z → Z) (s : Supervisor) (l : listened) :
  (0 ≤ sp_attempt s)%Z → (∀ b, 0 < b → 0 ≤ jitter b < b)%Z →
  (sp_fallback s = true → cl_connState (sp_client s) = StateConnectedPolling) →
  let '(s', d) := supervise jitter s l in
  sp_fallback s' = true ∧ cl_connState (sp_client s') = StateConnectedPolling ∧
  (0 ≤ sp_attempt s')%Z ∧
  (li_error l = true → ∃ w, d = Some w ∧ (500 * Millisecond ≤ w ≤ 30 * Second)%Z) ∧
  cl_flags (sp_client s') = cl_flags (sp_client s).
Proof.
  intros Ha Hj Hinv. unfold supervise.
  set (s1 := startFallback (if li_connected l then connected s else s)).
  assert (sp_fallback s1 = true ∧ cl_connState (sp_client s1) = StateConnectedPolling ∧
    (0 ≤ sp_attempt s1)%Z ∧ cl_flags (sp_client s1) = cl_flags (sp_client s)) as (H1 & H2 & H3 & H4).
  { assert (∀ st c, cl_connState (setConnectionState st c) = st) as Hst.
    { intros st c. unfold setConnectionState. by case_bool_decide. }
    assert (∀ st c, cl_flags (setConnectionState st c) = cl_flags c) as Hfl.
    { intros st c. unfold setConnectionState. by case_bool_decide. }
    unfold s1, startFallback, connected. destruct (li_connected l); simpl.
    - by rewrite Hst, !Hfl.
    - destruct (sp_fallback s) eqn:E; simpl; [by auto|]. by rewrite Hst, Hfl. }
  clearbody s1. destruct (li_error l); simpl; split_and!; try done; try lia.
  intros _. eexists. split; [done|].
  assert (0 < 2 ^ sp_attempt s1)%Z by (apply Z.pow_pos_nonneg; lia).
  pose proof (backoff_range (sp_attempt s1) (500 * Millisecond) (30 * Second) jitter H3) as Hb.
  unfold Millisecond, Second in *.
  destruct Hb as [[Hlo Hhi] _]; [lia|lia|lia|apply Hj; lia|]. lia.
Qed.

(** A stream that ends without an error is reopened at once: there is no wait. *)
Lemma clean_end_reconnects_at_once jitter s c :
  (supervise jitter s (mkListened c false)).2 = None.
Proof. done. Qed.
