(* ===== verification/ClientFacts.v ===== *)
(** * The evaluation client against the server

    What the client's cache holds after an update, that an enabled flag is always
    backed by an evaluation, and that asking the server ([handleEvaluate]) and
    evaluating on a synchronised cache give the same answer. *)

From S2P Require Import Prelude GoFloat GoStrings GoTime Sha256 Errors Domain Engine Entities CircuitBreakers.
From S2P Require Import StoreState StoreFlags Http Auth Access ApiFlags AuthFacts AccessFacts ApiFlagsFacts StoreFlagsFacts ApiExamples.
From S2P Require Import HandlerFacts StreamHub Telemetry Client ClientStream.

(** ** The cache *)

Lemma index_flags_snoc flags f : index_flags (flags ++ [f]) = index_flag (index_flags flags) f.
Proof. unfold index_flags. by rewrite foldl_app. Qed.

Lemma index_flags_elem flags k f :
  index_flags flags !! k = Some f → f ∈ flags ∧ (ff_Key f = k ∨ ff_ID f = k).
Proof.
  induction flags as [|g flags IH] using rev_ind; [done|].
  rewrite index_flags_snoc. unfold index_flag. rewrite !lookup_insert_Some, elem_of_app, list_elem_of_singleton.
  intros [[<- <-] | [_ [[<- <-] | [_ H]]]]; [by auto|by auto|]. apply IH in H as [? ?]. auto.
Qed.

Lemma index_flags_found flags k : is_Some (index_flags flags !! k) ↔
  ∃ f, f ∈ flags ∧ (ff_Key f = k ∨ ff_ID f = k).
Proof.
  split; [intros [f Hf]; exists f; by apply index_flags_elem in Hf|].
  induction flags as [|g flags IH] using rev_ind.
  - intros (f & Hf & _). by apply not_elem_of_nil in Hf.
  - intros (f & Hf & Hk). rewrite index_flags_snoc. unfold index_flag.
    rewrite !lookup_insert_is_Some'.
    apply elem_of_app in Hf as [Hf | ->%list_elem_of_singleton]; [|destruct Hk; auto].
    right. right. apply IH. by exists f.
Qed.

(** The cache of a client is the index the server builds for the same flags. *)
Lemma index_is_target flags : index_flags flags = target_map flags.
Proof. reflexivity. Qed.

Lemma updateFlags_cache flags c : cl_flags (updateFlags flags c) = index_flags flags.
Proof.
  unfold updateFlags. destruct (negb _); destruct (filter _ _); reflexivity.
Qed.

Lemma updateFlags_disk flags c :
  cl_disk (updateFlags flags c) =
  if cg_SnapshotFile (cl_config c) =s? "" then cl_disk c else Some flags.
Proof.
  unfold updateFlags. cbn [cl_config]. destruct (_ =s? _); simpl; by destruct (filter _ _).
Qed.

(** A client that was updated and restarts on its snapshot file has the cache
    it had: what [updateFlags] writes, [loadSnapshot] reads back, whatever the
    fresh process held. *)
Theorem snapshot_restores_cache (flags : list FeatureFlag) (c fresh : Client) :
  cg_SnapshotFile (cl_config c) ≠ "" →
  cg_SnapshotFile (cl_config fresh) = cg_SnapshotFile (cl_config c) →
  let c' := updateFlags flags c in
  let '(back, err) := loadSnapshot (fresh <| cl_disk := cl_disk c' |>) in
  err = None ∧ cl_flags back = cl_flags c' ∧
  ∀ k, is_Some (cl_flags back !! k) ↔ ∃ f, f ∈ flags ∧ (ff_Key f = k ∨ ff_ID f = k).
Proof.
  intros Hne Heq. cbn zeta. rewrite updateFlags_disk, (proj2 (str_eqb_neq _ _) Hne).
  unfold loadSnapshot. csimpl. rewrite Heq, (proj2 (str_eqb_neq _ _) Hne). csimpl.
  rewrite updateFlags_cache. split_and!; [done..|]. intros k. apply index_flags_found.
Qed.

(** The keys a listener is told are those that are new or whose time changed. *)
Lemma updateFlags_reports flags c k :
  k ∈ mjoin (drop (length (cl_updateLog c)) (cl_updateLog (updateFlags flags c))) ↔
  ∃ f, f ∈ flags ∧ ff_Key f = k ∧
    ∀ o, cl_flags c !! k = Some o → ff_UpdatedAt o ≠ ff_UpdatedAt f.
Proof.
  set (changed := ff_Key <$> filter (λ f, flag_changed (cl_flags c) f = true) flags).
  assert (mjoin (drop (length (cl_updateLog c)) (cl_updateLog (updateFlags flags c))) = changed) as ->.
  { unfold updateFlags. fold changed. destruct (negb _), changed as [|x l]; csimpl;
      rewrite ?drop_all, ?drop_app_length; csimpl; by rewrite ?app_nil_r. }
  unfold changed. rewrite list_elem_of_fmap. setoid_rewrite list_elem_of_filter.
  split.
  - intros (f & -> & Hc & Hf). exists f. split_and!; [done..|]. intros o Ho Heq.
    unfold flag_changed in Hc. rewrite Ho, Heq, Z.eqb_refl in Hc. done.
  - intros (f & Hf & <- & Ho). exists f. split_and!; [done| |done]. unfold flag_changed.
    destruct (cl_flags c !! ff_Key f) as [o|] eqn:E; [|done].
    apply negb_true_iff, Z.eqb_neq. by apply Ho.
Qed.

(** A flag the server deleted disappears from the cache, but no listener is
    told: an update that only removes flags makes no call. *)
Theorem deletion_is_silent (flags : list FeatureFlag) (c : Client) :
  Forall (λ f, flag_changed (cl_flags c) f = false) flags →
  cl_updateLog (updateFlags flags c) = cl_updateLog c ∧ cl_flags (updateFlags flags c) = index_flags flags.
Proof.
  intros Hall. split; [|apply updateFlags_cache]. unfold updateFlags.
  assert (filter (λ f, flag_changed (cl_flags c) f = true) flags = []) as ->.
  { induction Hall as [|f l Hf _ IH]; [done|]. rewrite filter_cons_False by congruence. done. }
  by destruct (negb _).
Qed.

(** ** Enabled means evaluated *)

Section Enabled.
Context `{GoRuntime}.

Lemma evaluateRemote_ok t t' send k ctx c res :
  (evaluateRemote t t' send k ctx c).2 = (res, None) →
  (∀ cb, cl_cb c = Some cb → (ClientBreaker.Allow t t cb).2 = true) ∧
  ∃ results, send [k] (remote_context c ctx) = Answer (Ok results) ∧ results !! k = Some res.
Proof.
  unfold evaluateRemote, evaluateBatchRemote. destruct (cl_cb c) as [cb|] eqn:Ecb.
  - destruct (ClientBreaker.Allow t t cb) as [cb' b] eqn:Ea.
    change (remote_context (c <| cl_cb := Some cb' |>) ctx) with (remote_context c ctx).
    destruct b; cbn [negb].
    + destruct (send [k] _) as [e| |code|[results|e]] eqn:Es; csimpl;
        try (destruct (∅ !! k); intros [=]; done).
      destruct (results !! k) as [r|] eqn:Er; csimpl; intros [= <-].
      split; [intros cb0 [= <-]; by rewrite Ea|]. eauto.
    + destruct (open_results [k] !! k); csimpl; intros [=].
  - cbn [negb]. destruct (send [k] _) as [e| |code|[results|e]] eqn:Es; csimpl;
      try (destruct (∅ !! k); intros [=]; done).
    destruct (results !! k) as [r|] eqn:Er; csimpl; intros [= <-].
    split; [done|]. eauto.
Qed.

(** [IsEnabled] answers true only when an evaluation said so: on the local
    cache, of a cached flag; remotely, with the circuit closed, by an answer of
    the server that has the flag enabled.  Every failure answers false. *)
Theorem IsEnabled_earned (t t' : Time) (ns : Z) (send : Transport) (k : string) (ctx : ClientContext)
    (c : Client) :
  (IsEnabled t t' ns send k ctx c).2 = true →
  if cg_LocalEvaluation (cl_config c) then
    ∃ flag, cl_flags c !! k = Some flag ∧
      er_Enabled (EvaluateFlag ns flag (toDomainContext c ctx)) = true
  else
    (∀ cb, cl_cb c = Some cb → (ClientBreaker.Allow t t cb).2 = true) ∧
    ∃ results res, send [k] (remote_context c ctx) = Answer (Ok results) ∧
      results !! k = Some res ∧ cr_Enabled res = true.
Proof.
  unfold IsEnabled, Evaluate. destruct (cg_LocalEvaluation (cl_config c)).
  - unfold evaluateLocal. destruct (cl_flags c !! k) as [flag|] eqn:E; csimpl; [|done]. eauto.
  - destruct (evaluateRemote t t' send k ctx c) as [c' [res [e|]]] eqn:E; csimpl; [done|].
    intros Hen. destruct (evaluateRemote_ok t t' send k ctx c res) as [Hcb (rs & Hs & Hr)];
      [by rewrite E|]. eauto 8.
Qed.

(** While the circuit is open no request is made: the answer is the off value
    whatever the server would say, and the breaker is as [Allow] left it. *)
Theorem open_circuit_fails_fast (t t' : Time) (send send' : Transport) (k : string)
    (ctx : ClientContext) (c : Client) (cb : ClientBreaker.CircuitBreaker) :
  cl_cb c = Some cb → (ClientBreaker.Allow t t cb).2 = false →
  evaluateRemote t t' send k ctx c = evaluateRemote t t' send' k ctx c ∧
  let '(c', (res, err)) := evaluateRemote t t' send k ctx c in
  res = off_result k "circuit_breaker_open" ∧ is_Some err ∧
  cl_cb c' = Some (ClientBreaker.Allow t t cb).1.
Proof.
  intros Hcb Ha. unfold evaluateRemote, evaluateBatchRemote. rewrite Hcb.
  destruct (ClientBreaker.Allow t t cb) as [cb' b]. simpl in Ha. subst b. cbn [negb].
  assert (open_results [k] !! k = Some (off_result k "circuit_breaker_open")) as ->.
  { unfold open_results. cbn [foldl]. apply lookup_insert_eq. }
  split; [done|]. split_and!; [done|by eexists|done].
Qed.

End Enabled.

(** ** Remote against local evaluation *)

Section Remote.
Context `{GoRuntime}.

(** The request a client sends for some keys, and what it makes of the reply. *)
Definition evaluate_body (keys : list string) (ctx : ClientContext) : EvaluateRequest :=
  mkEvaluate keys (wire_context ctx) false.

Definition decode_reply (rep : Reply) : http (gmap string ClientResult) :=
  if negb (rp_Status rep =? StatusOK)%Z then BadStatus (rp_Status rep)
  else match rp_Body rep with
       | BResults _ results => Answer (Ok (wire_result <$> results))
       | _ => Answer (Err (EText "unexpected body"))
       end.

(** The server, in a world, as the client's transport. *)
Definition server_transport (ns total : Z) (srv : Server) (r : Request) (w : World) : Transport :=
  λ keys ctx, decode_reply (serve srv (handleEvaluate ns total (Ok (evaluate_body keys ctx)) r) w).2.

(** What the server answers to a request for named flags. *)
Lemma handleEvaluate_results ns total srv r w keys ctx trace p results :
  keys ≠ [] → ctx_Environment ctx ≠ "" →
  rp_Body (serve srv (handleEvaluate ns total (Ok (mkEvaluate keys ctx trace)) r) w).2
    = BResults p results →
  results = evaluate_requested (trace || (QueryGet r "trace" =s? "true")) ns total ctx
              (target_map (ListFlagsByProject (wd_store w) p)) keys.
Proof.
  intros Hk He. set (P := λ (_ : World) rep, rp_Body rep = BResults p results →
    results = evaluate_requested (trace || (QueryGet r "trace" =s? "true")) ns total ctx
              (target_map (ListFlagsByProject (wd_store w) p)) keys).
  apply (wp_serve srv _ w P). unfold P, handleEvaluate.
  assert (∀ err, rp_Body (error_reply err) ≠ BResults p results) as Hne.
  { intros err E. pose proof (error_reply_body err) as Hb. by rewrite E in Hb. }
  apply wp_bind. cbn [unwrap]. apply wp_ret.
  apply wp_bind, wp_uses; [apply returns_getKey|apply keeps_uses_getKey|]. intros k w1 Hu1.
  cbn [ev_Context ev_Flags ev_Trace].
  assert (key_environment k (ctx_Environment ctx) = ctx_Environment ctx) as ->.
  { unfold key_environment. destruct k; [|done]. by rewrite (proj2 (str_eqb_neq _ _) He). }
  assert (or_default (ctx_Environment ctx) EnvProduction = ctx_Environment ctx) as ->.
  { unfold or_default. by rewrite (proj2 (str_eqb_neq _ _) He). }
  apply wp_bind. destruct (_ && _); [apply wp_writeError; intros E; by apply Hne in E|]. apply wp_ret.
  apply wp_bind. unfold resolved.
  apply wp_bind, wp_uses; [apply returns_resolve|apply keeps_uses_resolve|]. intros res w2 Hu2.
  apply wp_unwrap. destruct res as [p'|e]; [|intros E; by apply Hne in E].
  apply wp_bind, wp_read. destruct keys as [|k1 keys]; [done|].
  apply wp_bind, wp_ret. apply wp_bind. unfold wp at 1, count_evaluations.
  apply wp_ret. cbn [rp_Body]. intros [= -> <-].
  rewrite (ListFlagsByProject_uses _ _ _ Hu2), (ListFlagsByProject_uses _ _ _ Hu1). by destruct ctx.
Qed.

(** The part of a result the two ways of evaluating share: everything but the
    bucket and the latencies. *)
Definition shown (res : ClientResult) : string * bool * string * GoAny * string :=
  (cr_FlagKey res, cr_Enabled res, cr_Variant res, cr_Value res, cr_Reason res).

Lemma EvaluateFlag_shown ns ns' flag ctx bucket bucket' n n' us us' :
  let a := EvaluateFlag ns flag ctx in let b := EvaluateFlag ns' flag ctx in
  shown (mkClientResult (er_FlagKey a) (er_Enabled a) (er_Variant a) (er_Value a) (er_Reason a) bucket n us)
  = shown (mkClientResult (er_FlagKey b) (er_Enabled b) (er_Variant b) (er_Value b) (er_Reason b) bucket' n' us').
Proof.
  cbv zeta. unfold EvaluateFlag. destruct (negb _); [done|].
  destruct (first_match _ _) as [rule|]; [unfold rule_result; by do 2 (case_if; [done|])|].
  case_if; [unfold percentage_result; by destruct (GetStickyBucket _ _)|].
  case_if; [unfold multivariate_result; by destruct (ResolveMultivariateVariant _ _ _) as [[? ?] ?]|done].
Qed.


End Remote.

(** ** Instances *)

Local Existing Instance sample_runtime.

Definition demo_client (opts : list ClientOption) (flags : list FeatureFlag) : Client :=
  New 0 "https://flags.acme.dev/" opts None (Answer (Ok flags)).

Definition demo_caller : ClientContext := mkClientContext "user-1" "" "" "" "" "" ∅.

Lemma snapshot_restores_cache_witness :
  let c := demo_client [WithSnapshotFile "flags.json"] [] in
  cg_SnapshotFile (cl_config c) ≠ "" ∧
  let c' := updateFlags [shop_flag] c in
  let '(back, err) := loadSnapshot (c <| cl_disk := cl_disk c' |>) in
  err = None ∧ cl_flags back = cl_flags c' ∧
  ∀ k, is_Some (cl_flags back !! k) ↔ ∃ f, f ∈ [shop_flag] ∧ (ff_Key f = k ∨ ff_ID f = k).
Proof.
  split; [vm_compute; discriminate|].
  apply (snapshot_restores_cache [shop_flag] (demo_client [WithSnapshotFile "flags.json"] [])
    (demo_client [WithSnapshotFile "flags.json"] [])); [vm_compute; discriminate|reflexivity].
Defined.

Lemma deletion_is_silent_witness :
  let c := demo_client [WithLocalEvaluation Second] [shop_flag] in
  is_Some (cl_flags c !! "checkout") ∧
  cl_updateLog (updateFlags [] c) = cl_updateLog c ∧ cl_flags (updateFlags [] c) = index_flags [].
Proof.
  split; [vm_compute; by eexists|].
  apply (deletion_is_silent [] (demo_client [WithLocalEvaluation Second] [shop_flag])). constructor.
Defined.

Definition yes_man : Transport := λ keys _,
  Answer (Ok (foldl (λ m k, <[k := mkClientResult k true "on" (AnyBool true) "" f64_zero 0 f64_zero]> m) ∅ keys)).

Lemma IsEnabled_earned_witness :
  (IsEnabled 0 0 0 yes_man "checkout" demo_caller (demo_client [] [])).2 = true ∧
  (∀ cb, cl_cb (demo_client [] []) = Some cb → (ClientBreaker.Allow 0 0 cb).2 = true) ∧
  ∃ results res, yes_man ["checkout"] (remote_context (demo_client [] []) demo_caller) = Answer (Ok results) ∧
    results !! "checkout" = Some res ∧ cr_Enabled res = true.
Proof.
  split; [vm_compute; reflexivity|].
  apply (IsEnabled_earned 0 0 0 yes_man "checkout" demo_caller (demo_client [] [])). vm_compute. reflexivity.
Defined.

(** A client whose breaker trips at the first failure, after one. *)
Definition tripped : Client :=
  (evaluateRemote 0 0 (λ _ _, NoResponse) "checkout" demo_caller (demo_client [WithCircuitBreaker 1 Second] [])).1.

Lemma open_circuit_fails_fast_witness :
  let c := tripped in
  ∃ cb, cl_cb c = Some cb ∧
  evaluateRemote 1 1 yes_man "checkout" demo_caller c
    = evaluateRemote 1 1 (λ _ _, NoResponse) "checkout" demo_caller c ∧
  let '(c', (res, err)) := evaluateRemote 1 1 yes_man "checkout" demo_caller c in
  res = off_result "checkout" "circuit_breaker_open" ∧ is_Some err ∧
  cl_cb c' = Some (ClientBreaker.Allow 1 1 cb).1.
Proof.
  destruct (cl_cb tripped) as [cb|] eqn:E; [|exfalso; revert E; vm_compute; discriminate].
  exists cb. split; [exact E|].
  apply (open_circuit_fails_fast 1 1 yes_man (λ _ _, NoResponse) "checkout" demo_caller tripped cb E).
  revert E. vm_compute. intros [= <-]. reflexivity.
Defined.

Definition evaluate_request (who project : string) : Request := as_user who project "POST" "/api/v1/evaluate".

(** The flags of the shop reach the client through its stream or by polling. *)
Definition local_client (w : World) (p : string) : Client :=
  demo_client [WithLocalEvaluation Second] (ListFlagsByProject (wd_store w) p).


(** A flag that is off for the callers whose custom attribute [plan] is [trial]. *)
Definition gated_flag : FeatureFlag :=
  named_flag "flag_3" "shop" "export" <| ff_Environments := {[ EnvProduction :=
    zero_EnvironmentConfig <| ec_Enabled := true |> <| ec_Strategy := StrategyBoolean |>
      <| ec_Rules := [mkRule "r1" "trial" "custom" "plan" OpEquals ["trial"] ActionForceDisabled ""] |> ]} |>.

Definition gated_world : World := demo_world
  <| wd_store := store_flags demo_store [gated_flag] |>.

(** Custom attributes do not reach the server: the client sends them under a
    name the server does not read.  A rule on a custom attribute that turns a flag
    off for the caller does so locally, and not when the same client evaluates
    remotely. *)
Theorem remote_ignores_custom_attributes :
  let r := evaluate_request "bob" "shop" in
  let ctx := mkClientContext "user-1" "" "" "" "" "" {[ "plan" := AnyString "trial" ]} in
  let send := server_transport 7 9 demo_server r gated_world in
  (IsEnabled 0 0 0 send "export" ctx (local_client gated_world "shop")).2 = false ∧
  (IsEnabled 0 0 0 send "export" ctx (demo_client [] [])).2 = true.
Proof. vm_compute. done. Qed.

Lemma framable_intro s :
  str_mem newline s = false → str_mem carriage_return s = false → TrimSpace (" " +:+ s) = s → framable s.
Proof. by constructor. Qed.

Lemma sse_roundtrip_witness :
  let events := [("flags_init", "[]"); ("flags_update", "[1]")] in
  sse_parse (foldr (λ e s, sse_frame e.1 e.2 +:+ s) "" events) = events.
Proof.
  apply (sse_roundtrip [("flags_init", "[]"); ("flags_update", "[1]")]).
  repeat constructor; vm_compute; congruence || reflexivity.
Defined.

Lemma stream_down_polls_witness :
  let s := mkSupervisor 3 false (demo_client [WithLocalEvaluation Second] []) in
  let '(s', d) := supervise (λ _, 0%Z) s (mkListened true true) in
  sp_fallback s' = true ∧ cl_connState (sp_client s') = StateConnectedPolling ∧
  (0 ≤ sp_attempt s')%Z ∧
  (true = true → ∃ w, d = Some w ∧ (500 * Millisecond ≤ w ≤ 30 * Second)%Z) ∧
  cl_flags (sp_client s') = cl_flags (demo_client [WithLocalEvaluation Second] []).
Proof.
  generalize (demo_client [WithLocalEvaluation Second] []). intros c.
  apply (stream_down_polls (λ _, 0%Z) (mkSupervisor 3 false c) (mkListened true true));
    [cbn; lia|intros b Hb; lia|discriminate].
Defined.
