(* ===== verification/ApiStream.v ===== *)
(** * The event stream of the API ([pkg/api/stream.go])

    [handleFlagsStream] up to the point where its connection is registered with
    the hub, [broadcastCurrentFlags] on the hub, and the way of an update from the
    store through the hub to the cache of a connected client. *)

From S2P Require Import Prelude GoFloat GoStrings GoTime Sha256 Errors Domain Engine Entities CircuitBreakers.
From S2P Require Import StoreState StoreFlags Http Auth Access ApiFlags AuthFacts AccessFacts ApiFlagsFacts.
From S2P Require Import StoreFlagsFacts ApiExamples HandlerFacts StreamHub Telemetry Client.
From S2P Require Import ClientStream ClientFacts.

(** ** Opening a stream *)

(** What a connection starts with: the initial event that was written and the
    client that it registers. *)
Record Opened := mkOpened { op_init : string; op_projectID : string; op_environment : string }.

Section Stream.
Context `{GoRuntime} `{StreamJson}.

Definition stream_needs_auth : GoError :=
  NewAppError ErrCodeUnauthorized
    "Authentication required to stream flag configurations (provide API key or active session)"
    StatusUnauthorized (Some (ESentinel ErrUnauthorized)).

Definition stream_needs_project : GoError :=
  NewAppError ErrCodeProjectRequired
    "project_id is required via X-Project-ID header, project_id query parameter, or API key"
    StatusBadRequest (Some (ESentinel ErrInvalidInput)).

(** [flusher]: the response writer is an [http.Flusher].  The error of the
    marshaller is ignored: its text is empty then. *)
Definition handleFlagsStream (flusher : bool) (r : Request) : Handler Opened :=
  if negb flusher then writeText StatusBadRequest "Streaming unsupported by client connection"
  else
    apiKey ← getAPIKeyFromRequest r;
    user ← current_user r;
    if bool_decide (apiKey = None) && bool_decide (user = None) then writeError stream_needs_auth
    else
      projectID ← resolved r;
      if projectID =s? "" then writeError stream_needs_project
      else
        let envParam := QueryGet r "environment" in
        flags ← read (λ _ s, ListFlagsByProject s projectID);
        o ← outside;
        let payload := mkPayload "flags_init" projectID envParam (max_version flags)
                         (UnixMilli (sys_now (out_sys o) 0)) flags in
        mret (mkOpened (sse_frame "flags_init" (default "" (marshal_flags payload))) projectID envParam).

(** [broadcastCurrentFlags], on the hub. *)
Definition publishCurrentFlags (s : MemoryStore) (now : Time) (projectID : string) (env : Environment)
    (h : StreamHub) : StreamHub :=
  let projectID := or_default projectID DefaultProjectID in
  let flags := ListFlagsByProject s projectID in
  BroadcastProjectFlags projectID env (max_version flags) flags now h.

(** What the requests left in [wd_broadcasts], on the hub; [payload] is the
    marshalled payload of a named event. *)
Definition publish (s : MemoryStore) (now : Time) (payload : string → option string) (b : Broadcast)
    (h : StreamHub) : StreamHub :=
  match b with
  | FlagsOf projectID env => publishCurrentFlags s now projectID env h
  | Event name => BroadcastEvent name (payload name) h
  end.

(** ** Who may listen *)

Lemma wp_current_user_auth srv r (Q : option User → World → Prop) E w :
  wd_user w = None →
  (∀ u w', same_world w w' → (∀ x, u = Some x → authenticates srv (wd_store w) r x) → Q u w') →
  wp srv (current_user r) Q E w.
Proof.
  intros Hu HQ. unfold current_user. apply wp_bind, wp_user. rewrite Hu.
  apply wp_bind, wp_getUserFromRequest. intros res w' Hw Hres.
  apply wp_ret, HQ; [done|]. destruct res as [x|e]; [|done]. by intros ? [= <-].
Qed.

(** A key with a project resolves to that project, whoever presents it. *)
Lemma wp_resolved_key srv r (Q : string → World → Prop) (E : Reply → World → Prop) w :
  (∀ p w', uses_only (wd_store w) (wd_store w') →
     (∀ k, project_key (presented_key (wd_store w) r) = Some k → p = ak_ProjectID k) → Q p w') →
  (∀ err w', E (error_reply err) w') →
  wp srv (resolved r) Q E w.
Proof.
  intros HQ HE. unfold resolved. apply wp_bind.
  destruct (project_key (presented_key (wd_store w) r)) as [k0|] eqn:E0.
  - unfold resolveAndAuthorizeProjectID. destruct (candidate_project r) as [target explicit].
    apply wp_bind, wp_project_key. intros k w1 Hw1 Hk. rewrite E0 in Hk.
    destruct (project_key k) as [k1|]; [|done]. injection Hk as Hk. rewrite Hk.
    apply wp_ret, wp_unwrap. case_if; [apply HE|]. apply HQ; [apply Hw1|]. by intros ? [= <-].
  - apply wp_uses; [apply returns_resolve|apply keeps_uses_resolve|]. intros res w2 Hu.
    apply wp_unwrap. destruct res as [p|e]; [by apply HQ|apply HE].
Qed.

(** Raw flag configurations are streamed to authenticated callers only: a
    stream that opens was asked for with a stored, unrevoked key or as a user
    that the credentials authenticate; a key that belongs to a project opens the
    stream of that project; the initial event carries the flags of the project as
    they are in the store; nothing in the store changes but the use of a key. *)
Theorem stream_requires_credentials (srv : Server) (flusher : bool) (r : Request) (w : World) :
  wd_user w = None →
  wp srv (handleFlagsStream flusher r)
    (λ op w', uses_only (wd_store w) (wd_store w') ∧
       (is_Some (presented_key (wd_store w) r) ∨ ∃ u, authenticates srv (wd_store w) r u) ∧
       (∀ k, project_key (presented_key (wd_store w) r) = Some k → op_projectID op = ak_ProjectID k) ∧
       op_projectID op ≠ "" ∧
       ∃ n, let flags := ListFlagsByProject (wd_store w) (op_projectID op) in
         op_init op = sse_frame "flags_init" (default "" (marshal_flags
           (mkPayload "flags_init" (op_projectID op) (op_environment op) (max_version flags)
              (UnixMilli (sys_now (out_sys (sv_out srv n)) 0)) flags))))
    (λ rep w', match rp_Body rep with BError _ _ _ _ | BDone | BText _ => True | _ => False end) w.
Proof.
  intros Hu. unfold handleFlagsStream. destruct flusher; [|done]. cbn [negb].
  assert (∀ err, match rp_Body (error_reply err) with BError _ _ _ _ | BDone | BText _ => True | _ => False end)
    as Herr by (intros err; pose proof (error_reply_body err); by destruct (rp_Body (error_reply err))).
  apply wp_bind, wp_getAPIKeyFromRequest. intros k w1 Hw1 Hk.
  pose proof (sw_store _ _ Hw1) as Hs1.
  apply wp_bind, wp_current_user_auth; [by rewrite (sw_user _ _ Hw1)|]. intros u w2 Hw2 Hau.
  pose proof (sw_store _ _ Hw2) as Hs2.
  destruct (bool_decide (k = None) && bool_decide (u = None)) eqn:Eb; [apply wp_writeError, Herr|].
  assert (is_Some (presented_key (wd_store w) r) ∨ ∃ u, authenticates srv (wd_store w) r u) as Hcred.
  { destruct k as [k|].
    - left. destruct (presented_key (wd_store w) r); [by eexists|done].
    - right. destruct u as [x|]; [|by rewrite !bool_decide_true in Eb]. exists x. eapply authenticates_uses; [exact Hs1|]. by apply Hau. }
  apply wp_bind, wp_resolved_key; [|intros; apply Herr]. intros p w3 Hs3 Hp.
  destruct (p =s? "") eqn:Ep; [apply wp_writeError, Herr|]. simp_bool.
  apply wp_bind, wp_read, wp_bind, wp_outside, wp_ret. cbn [op_projectID op_environment op_init].
  assert (uses_only (wd_store w) (wd_store w3)) as Hs by (transitivity (wd_store w2); [by transitivity (wd_store w1)|done]).
  split_and!; [exact Hs|done| |done|].
  - intros k0 Hk0.
    assert (uses_only (wd_store w) (wd_store w2)) as Hs02 by (by transitivity (wd_store w1)).
    pose proof (project_key_uses _ _ r Hs02) as Hpk. rewrite Hk0 in Hpk.
    destruct (project_key (presented_key (wd_store w2) r)) as [k2|] eqn:E2; [|done].
    injection Hpk as Hpk. rewrite (Hp k2 eq_refl). by rewrite Hpk.
  - rewrite <- (ListFlagsByProject_uses _ _ p Hs). by eexists.
Qed.

End Stream.

(** ** From the store to the client *)

(** What the two ends assume of the JSON of an event: the marshaller writes one
    line without surrounding space, and the decoder reads the flags back. *)
Class StreamCodec `{StreamJson} `{StreamDecoder} : Prop := {
  codec_line p text : marshal_flags p = Some text → framable text ∧ text ≠ "";
  codec_flags p text : marshal_flags p = Some text → unmarshal_flags text = Some (fp_flags p);
}.

Lemma sse_parse_frame event data :
  framable event → framable data → data ≠ "" → (Z.of_nat (String.length data) < MaxStreamPayloadSize)%Z →
  sse_parse (sse_frame event data) = [(event, data)].
Proof.
  intros He Hd Hne Hlen. unfold sse_parse.
  rewrite <- (str_append_nil_r (sse_frame event data)), scan_frame by done. cbn [sse_run scan_lines].
  rewrite sse_event_line by done. cbn [ss_data]. rewrite sse_data_line by done. by rewrite sse_blank_line.
Qed.

Lemma framable_update : framable "flags_update".
Proof. constructor; vm_compute; reflexivity. Qed.

Section Propagation.
Context `{StreamCodec}.

(** A client that reads an event with flags has exactly these in its cache. *)
Lemma consume_update (c : Client) p text :
  marshal_flags p = Some text → (Z.of_nat (String.length text) < MaxStreamPayloadSize)%Z →
  cl_flags (consume (sse_frame "flags_update" text) c) = index_flags (fp_flags p).
Proof.
  intros Hm Hlen. destruct (codec_line p text Hm) as [Hline Hne].
  unfold consume. rewrite sse_parse_frame by (done || apply framable_update).
  cbn [foldl]. unfold apply_event. cbn [fst snd]. rewrite (codec_flags p text Hm).
  apply updateFlags_cache.
Qed.


End Propagation.

(** ** Instances *)

Local Existing Instance sample_runtime.

(** A codec for the flags of the demonstration store and for no flags. *)
Definition shop_flags : list FeatureFlag := ListFlagsByProject demo_store "shop".

#[export] Instance GoAny_eq_dec : EqDecision GoAny.
Proof. solve_decision. Defined.
#[export] Instance TargetingRule_eq_dec : EqDecision TargetingRule.
Proof. solve_decision. Defined.
#[export] Instance FlagVariant_eq_dec : EqDecision FlagVariant.
Proof. solve_decision. Defined.
#[export] Instance EnvironmentConfig_eq_dec : EqDecision EnvironmentConfig.
Proof. solve_decision. Defined.
#[export] Instance FeatureFlag_eq_dec : EqDecision FeatureFlag.
Proof. solve_decision. Defined.

Definition demo_json : StreamJson :=
  {| marshal_flags p := if decide (fp_flags p = shop_flags) then Some "[checkout]"
                        else if decide (fp_flags p = []) then Some "[]" else None |}.

Definition demo_decoder : StreamDecoder :=
  {| unmarshal_flags s := if s =s? "[checkout]" then Some shop_flags
                          else if s =s? "[]" then Some [] else None |}.

Lemma demo_codec : @StreamCodec demo_json demo_decoder.
Proof.
  split; intros p text; cbn [marshal_flags unmarshal_flags demo_json demo_decoder];
    destruct (decide (fp_flags p = shop_flags)) as [E | _]; [|destruct (decide (fp_flags p = [])) as [E | _]| |
      destruct (decide (fp_flags p = [])) as [E | _]]; intros [= <-].
  - split; [|discriminate]. constructor; vm_compute; reflexivity.
  - split; [|discriminate]. constructor; vm_compute; reflexivity.
  - by rewrite E.
  - by rewrite E.
Qed.

Local Existing Instance demo_json.
Local Existing Instance demo_decoder.
Local Existing Instance demo_codec.

Definition stream_request (tok env : string) : Request :=
  mkRequest "GET" "/api/v1/flags/stream" "flags.acme.dev" true "10.0.0.1"
    {[ HeaderAuthorization := "Bearer " +:+ tok ]} [] {[ "environment" := env ]}.

(** A key bound to an environment streams all of them: the stream checks that
    the key is live, but not the environment that is asked for, and the
    initial event holds the configurations of every environment. *)
Theorem stream_ignores_key_environment :
  AllowsEnvironment (Some ci_key) EnvProduction = false ∧
  let x := handleFlagsStream true (stream_request ci_raw EnvProduction) demo_server demo_world in
  x.2 = inl (mkOpened (sse_frame "flags_init" "[checkout]") "shop" EnvProduction) ∧
  (λ f, bool_decide (is_Some (ff_Environments f !! EnvProduction))) <$> shop_flags = [true].
Proof. split; [vm_compute; reflexivity|]. cbv zeta. split; vm_compute; reflexivity. Qed.

Lemma stream_requires_credentials_witness :
  wp demo_server (handleFlagsStream true (stream_request ci_raw EnvProduction))
    (λ op w', uses_only demo_store (wd_store w') ∧
       (is_Some (presented_key demo_store (stream_request ci_raw EnvProduction)) ∨
        ∃ u, authenticates demo_server demo_store (stream_request ci_raw EnvProduction) u) ∧
       (∀ k, project_key (presented_key demo_store (stream_request ci_raw EnvProduction)) = Some k →
          op_projectID op = ak_ProjectID k) ∧
       op_projectID op ≠ "" ∧
       ∃ n, let flags := ListFlagsByProject demo_store (op_projectID op) in
         op_init op = sse_frame "flags_init" (default "" (marshal_flags
           (mkPayload "flags_init" (op_projectID op) (op_environment op) (max_version flags)
              (UnixMilli (sys_now (out_sys (sv_out demo_server n)) 0)) flags))))
    (λ rep w', match rp_Body rep with BError _ _ _ _ | BDone | BText _ => True | _ => False end) demo_world.
Proof.
  apply (stream_requires_credentials demo_server true (stream_request ci_raw EnvProduction) demo_world).
  reflexivity.
Defined.

