(* ===== verification/OpenFeature.v ===== *)
(** * The OpenFeature provider ([pkg/openfeature/provider.go])

    The adapter between the evaluation client and the OpenFeature SDK: the
    flattened context, the typed evaluations, the mapping of reasons and errors and
    the events.  What the client's evaluation comes back with is an argument. *)

From S2P Require Import Prelude GoFloat GoStrings GoTime Sha256 Errors Domain Engine CircuitBreakers.
From S2P Require Import Telemetry Client.

(** ** What the SDK defines *)

Inductive Reason := ErrorReason | DisabledReason | TargetingMatchReason | SplitReason | DefaultReason | StaticReason.

Inductive ResolutionError :=
| FlagNotFoundError (msg : string)
| GeneralError (msg : string)
| TypeMismatchError (msg : string).

Record Detail (A : Type) := mkDetail {
  dt_Value : A;
  dt_Error : option ResolutionError;
  dt_Reason : Reason;
  dt_Variant : string;
}.
Arguments mkDetail {A} dt_Value dt_Error dt_Reason dt_Variant.
Arguments dt_Value {A} d.
Arguments dt_Error {A} d.
Arguments dt_Reason {A} d.
Arguments dt_Variant {A} d.

Inductive EventType := ProviderReady | ProviderConfigChange | ProviderError.

Record OfEvent := mkEvent { oe_Type : EventType; oe_Message : string; oe_FlagChanges : list string }.

(** ** The provider's events *)

(** [pv_events] is the buffered channel. *)
Record Provider := mkProvider { pv_events : list OfEvent }.

Definition events_cap : nat := 50.

Definition emit (e : OfEvent) (p : Provider) : Provider :=
  if (length (pv_events p) <? events_cap)%nat then mkProvider (pv_events p ++ [e]) else p.

Definition state_name (s : ConnectionState) : string :=
  match s with
  | StateDisconnected => "DISCONNECTED"
  | StateConnecting => "CONNECTING"
  | StateConnectedSSE => "CONNECTED_SSE"
  | StateConnectedPolling => "CONNECTED_POLLING"
  end.

Definition connected_event (s : ConnectionState) : OfEvent :=
  mkEvent ProviderReady ("Flagura provider connected (" +:+ state_name s +:+ ")") [].

(** The listener of connection states. *)
Definition on_state (next : ConnectionState) (p : Provider) : Provider :=
  match next with
  | StateConnectedSSE | StateConnectedPolling => emit (connected_event next) p
  | StateDisconnected =>
      emit (mkEvent ProviderError "Flagura client disconnected from control plane" []) p
  | StateConnecting => p
  end.

(** The listener of updates. *)
Definition on_update (changedKeys : list string) (p : Provider) : Provider :=
  emit (mkEvent ProviderConfigChange "Flag configurations synchronized from Flagura control plane"
          changedKeys) p.

Definition NewProvider (initialState : ConnectionState) : Provider :=
  let p := mkProvider [] in
  match initialState with
  | StateConnectedSSE | StateConnectedPolling => emit (connected_event initialState) p
  | _ => p
  end.

Definition Init (p : Provider) : Provider :=
  emit (mkEvent ProviderReady "Flagura provider initialized successfully" []) p.

(** ** The context *)

(** One entry of the flattened context. *)
Definition add_attribute (ctx : ClientContext) (kv : string * GoAny) : ClientContext :=
  let '(k, v) := kv in
  let set (upd : string → ClientContext) := match v with AnyString s => upd s | _ => ctx end in
  let '(mkClientContext uid email country role tier env custom) := ctx in
  if existsb (String.eqb k) ["targetingKey"; "user_id"; "userId"; "id"]
  then set (λ s, mkClientContext s email country role tier env custom)
  else if k =s? "email" then set (λ s, mkClientContext uid s country role tier env custom)
  else if k =s? "country" then set (λ s, mkClientContext uid email s role tier env custom)
  else if k =s? "role" then set (λ s, mkClientContext uid email country s tier env custom)
  else if k =s? "tier" then set (λ s, mkClientContext uid email country role s env custom)
  else if existsb (String.eqb k) ["environment"; "env"]
  then set (λ s, mkClientContext uid email country role tier s custom)
  else mkClientContext uid email country role tier env (<[k := v]> custom).

(** [flatCtx] lists the map in the order the runtime visits it. *)
Definition extractContext (flatCtx : list (string * GoAny)) : ClientContext :=
  foldl add_attribute (mkClientContext "" "" "" "" "" "" ∅) flatCtx.

(** ** Evaluation *)

(** What [int64(x)] yields for an [x] that is not an [int64]: the language leaves
    it to the implementation. *)
Class FloatConversion := { conv_overflow : f64 → Z }.

Definition is_int64 (z : Z) : bool := ((- 2 ^ 63 <=? z) && (z <? 2 ^ 63))%Z.

Definition f64_finite (x : f64) : bool :=
  match x with S754_finite _ _ _ | S754_zero _ => true | _ => false end.

Section Provider.
Context `{GoRuntime} `{FloatConversion}.

Definition int64_of (x : f64) : Z :=
  if f64_finite x && is_int64 (f64_trunc x) then f64_trunc x else conv_overflow x.

Definition isFlagNotFound (r : string) : bool := ToUpper r =s? ReasonFlagNotFound.

Definition mapReason (r : string) : Reason :=
  let norm := ToUpper r in
  let among := existsb (String.eqb norm) in
  if among [ReasonKillSwitchDisabled; ReasonEnvDisabled; "DISABLED"] then DisabledReason
  else if among [ReasonTargetingRuleMatch; "TARGETING_MATCH"] then TargetingMatchReason
  else if among [ReasonPercentageBucket; ReasonMultivariateBucket; "PERCENTAGE_ROLLOUT_MATCH";
                 "MULTIVARIATE_VARIANT_MATCH"; "SPLIT"] then SplitReason
  else if among [ReasonDefaultEnabled; ReasonDefaultOff; "DEFAULT_VARIANT"; "DEFAULT"] then DefaultReason
  else StaticReason.

Definition mapEvaluationError (err : GoError) (reason : string) : ResolutionError :=
  if isFlagNotFound reason then FlagNotFoundError (Error err) else GeneralError (Error err).

(** [None]: the value does not convert. *)
Definition toFloat64 (v : GoAny) : option f64 :=
  match v with
  | AnyFloat64 x => Some x
  | AnyInt n | AnyInt64 n => Some (f64_of_Z n)
  | AnyString s => rt_parse_float s
  | _ => None
  end.

Definition toInt64 (v : GoAny) : option Z :=
  match v with
  | AnyInt64 n | AnyInt n => Some n
  | AnyFloat64 x => Some (int64_of x)
  | AnyString s => ParseInt s
  | _ => None
  end.

(** The part the five evaluations share: the error of the client, the missing
    flag and the disabled flag answer with the default; [enabled] is the rest. *)
Definition resolve {A} (flag : string) (defaultValue : A) (answer : ClientResult * option GoError)
    (enabled : ClientResult → Detail A) : Detail A :=
  let '(res, err) := answer in
  match err with
  | Some e => mkDetail defaultValue (Some (mapEvaluationError e (cr_Reason res))) ErrorReason ""
  | None =>
      if isFlagNotFound (cr_Reason res) then
        mkDetail defaultValue (Some (FlagNotFoundError ("flag '" +:+ flag +:+ "' not found"))) ErrorReason ""
      else if negb (cr_Enabled res) then
        mkDetail defaultValue None (mapReason (cr_Reason res)) (cr_Variant res)
      else enabled res
  end.

Definition served {A} (v : A) (res : ClientResult) : Detail A :=
  mkDetail v None (mapReason (cr_Reason res)) (cr_Variant res).

Definition BooleanEvaluation (flag : string) (defaultValue : bool)
    (answer : ClientResult * option GoError) : Detail bool :=
  resolve flag defaultValue answer (λ res,
    served (match cr_Value res with
            | AnyBool b => b
            | AnyNil => true
            | AnyString s => default defaultValue (ParseBool s)
            | _ => defaultValue
            end) res).

Definition StringEvaluation (flag : string) (defaultValue : string)
    (answer : ClientResult * option GoError) : Detail string :=
  resolve flag defaultValue answer (λ res,
    let byVariant := if negb (cr_Variant res =s? "") then cr_Variant res else defaultValue in
    served (match cr_Value res with
            | AnyString s => if negb (s =s? "") then s else byVariant
            | _ => byVariant
            end) res).

(** [text] is what the verb [%v] prints for the value. *)
Definition FloatEvaluation (text : GoAny → string) (flag : string) (defaultValue : f64)
    (answer : ClientResult * option GoError) : Detail f64 :=
  resolve flag defaultValue answer (λ res,
    match toFloat64 (cr_Value res) with
    | Some v => served v res
    | None =>
        mkDetail defaultValue
          (Some (TypeMismatchError ("cannot convert value " +:+ text (cr_Value res) +:+ " to float64")))
          ErrorReason ""
    end).

Definition IntEvaluation (text : GoAny → string) (flag : string) (defaultValue : Z)
    (answer : ClientResult * option GoError) : Detail Z :=
  resolve flag defaultValue answer (λ res,
    match toInt64 (cr_Value res) with
    | Some v => served v res
    | None =>
        mkDetail defaultValue
          (Some (TypeMismatchError ("cannot convert value " +:+ text (cr_Value res) +:+ " to int64")))
          ErrorReason ""
    end).

Definition ObjectEvaluation (flag : string) (defaultValue : GoAny)
    (answer : ClientResult * option GoError) : Detail GoAny :=
  resolve flag defaultValue answer (λ res,
    served (match cr_Value res with AnyNil => defaultValue | v => v end) res).

End Provider.

(** ** Facts *)

(** *** The context does not depend on the order of the map *)

(** What an entry sets. *)
Inductive field := FUser | FEmail | FCountry | FRole | FTier | FEnv | FCustom (k : string).

Definition field_of (k : string) : field :=
  if existsb (String.eqb k) ["targetingKey"; "user_id"; "userId"; "id"] then FUser
  else if k =s? "email" then FEmail
  else if k =s? "country" then FCountry
  else if k =s? "role" then FRole
  else if k =s? "tier" then FTier
  else if existsb (String.eqb k) ["environment"; "env"] then FEnv
  else FCustom k.

Definition put_field (f : field) (v : GoAny) (ctx : ClientContext) : ClientContext :=
  let '(mkClientContext uid email country role tier env custom) := ctx in
  match f, v with
  | FUser, AnyString s => mkClientContext s email country role tier env custom
  | FEmail, AnyString s => mkClientContext uid s country role tier env custom
  | FCountry, AnyString s => mkClientContext uid email s role tier env custom
  | FRole, AnyString s => mkClientContext uid email country s tier env custom
  | FTier, AnyString s => mkClientContext uid email country role s env custom
  | FEnv, AnyString s => mkClientContext uid email country role tier s custom
  | FCustom k, _ => mkClientContext uid email country role tier env (<[k := v]> custom)
  | _, _ => ctx
  end.

Lemma add_attribute_field ctx k v : add_attribute ctx (k, v) = put_field (field_of k) v ctx.
Proof.
  destruct ctx. unfold add_attribute, field_of.
  do 6 (match goal with |- context [if ?c then FUser else _] => destruct c
        | |- context [if ?c then FEmail else _] => destruct c
        | |- context [if ?c then FCountry else _] => destruct c
        | |- context [if ?c then FRole else _] => destruct c
        | |- context [if ?c then FTier else _] => destruct c
        | |- context [if ?c then FEnv else _] => destruct c end; [by destruct v|]).
  by destruct v.
Qed.

Lemma add_attribute_commute ctx a b :
  field_of a.1 ≠ field_of b.1 →
  add_attribute (add_attribute ctx a) b = add_attribute (add_attribute ctx b) a.
Proof.
  destruct a as [k v], b as [k' v']. cbn [fst]. rewrite !add_attribute_field.
  generalize (field_of k), (field_of k'). intros f f' Hne.
  destruct ctx, f as [| | | | | |x], f' as [| | | | | |y]; cbn; try congruence; try (by destruct v, v'); try (by destruct v); try (by destruct v').
  f_equal. rewrite insert_insert_ne; [done|congruence].
Qed.

Lemma extract_perm l l' ctx :
  Permutation l l' → NoDup (field_of ∘ fst <$> l) → foldl add_attribute ctx l = foldl add_attribute ctx l'.
Proof.
  intros Hp. revert ctx. induction Hp as [|a l l' Hp IH|a b l|l1 l2 l3 H1 IH1 H2 IH2]; intros ctx Hnd.
  - done.
  - cbn [foldl]. apply IH. by apply NoDup_cons in Hnd as [_ ?].
  - cbn [foldl]. rewrite add_attribute_commute; [done|].
    apply NoDup_cons in Hnd as [Hn _]. intros E. apply Hn. csimpl. rewrite <- E. by left.
  - rewrite IH1 by done. apply IH2. by rewrite <- H1.
Qed.

(** The evaluation context of a provider does not depend on the order in which
    the runtime visits the caller's map, as long as no two of its keys are names
    of the same attribute. *)
Theorem extractContext_order (flatCtx flatCtx' : list (string * GoAny)) :
  Permutation flatCtx flatCtx' → NoDup (field_of ∘ fst <$> flatCtx) →
  extractContext flatCtx = extractContext flatCtx'.
Proof. intros Hp Hnd. by apply extract_perm. Qed.

(** With two names of one attribute in the map the order decides: here the user,
    hence the bucket. *)
Lemma aliases_depend_on_order :
  let a := ("targetingKey", AnyString "u-1") in let b := ("id", AnyString "order-77") in
  cc_UserID (extractContext [a; b]) = "order-77" ∧ cc_UserID (extractContext [b; a]) = "u-1".
Proof. by vm_compute. Qed.

(** *** Types and defaults *)

(** The dynamic integers of a value are within their width. *)
Definition any_ok (v : GoAny) : Prop :=
  match v with AnyInt n | AnyInt64 n => is_int64 n = true | _ => True end.

(** A value that has no number in it. *)
Definition not_numeric (v : GoAny) : bool :=
  match v with AnyNil | AnyBool _ | AnyStringer _ | AnyOther _ => true | _ => false end.

Section Typing.
Context `{GoRuntime} `{FloatConversion}.

Lemma ParseInt_int64 s n : ParseInt s = Some n → is_int64 n = true.
Proof.
  unfold ParseInt, is_int64. destruct (match s with String _ _ => _ | _ => _ end) as [neg digits].
  destruct (digits =s? ""); [done|]. destruct (decimal_go digits 0) as [m|]; [|done].
  destruct ((- 2 ^ 63 <=? if neg then (- m)%Z else m) && ((if neg then (- m)%Z else m) <? 2 ^ 63))%Z eqn:E; [|done].
  by intros [= <-].
Qed.

Lemma toInt64_int64 v n :
  (∀ x, is_int64 (conv_overflow x) = true) → any_ok v → toInt64 v = Some n → is_int64 n = true.
Proof.
  intros Hc Hv. destruct v; simpl; intros E; try done; try (injection E as <-; done).
  - by eapply ParseInt_int64.
  - injection E as <-. unfold int64_of. destruct (f64_finite x && is_int64 (f64_trunc x)) eqn:Ef; [|apply Hc].
    by apply andb_true_iff in Ef as [_ ?].
Qed.

(** What the shared part makes of an answer. *)
Lemma resolve_cases {A} flag (d : A) res err enabled :
  (resolve flag d (res, err) enabled = enabled res ∧ err = None ∧ cr_Enabled res = true) ∨
  (dt_Value (resolve flag d (res, err) enabled) = d ∧
   (is_Some (dt_Error (resolve flag d (res, err) enabled)) →
    dt_Reason (resolve flag d (res, err) enabled) = ErrorReason)).
Proof.
  unfold resolve. destruct err as [e|]; [by right|]. destruct (isFlagNotFound _); [by right|].
  destruct (cr_Enabled res); [by left|]. right. split; [done|]. by intros [? ?].
Qed.


(** A provider that reports an error serves the caller's default, and says so,
    for each of the five types. *)
Theorem provider_errors_serve_default (text : GoAny → string) (flag : string)
    (answer : ClientResult * option GoError) (b : bool) (s : string) (x : f64) (n : Z) (v : GoAny) :
  let ok {A} (d : A) (out : Detail A) :=
    (is_Some answer.2 → is_Some (dt_Error out)) ∧
    (is_Some (dt_Error out) → dt_Value out = d ∧ dt_Reason out = ErrorReason) in
  ok b (BooleanEvaluation flag b answer) ∧ ok s (StringEvaluation flag s answer) ∧
  ok x (FloatEvaluation text flag x answer) ∧ ok n (IntEvaluation text flag n answer) ∧
  ok v (ObjectEvaluation flag v answer).
Proof.
  assert (∀ A (d : A) enabled,
    (is_Some (dt_Error (enabled answer.1)) → dt_Value (enabled answer.1) = d ∧ dt_Reason (enabled answer.1) = ErrorReason) →
    (is_Some answer.2 → is_Some (dt_Error (resolve flag d answer enabled))) ∧
    (is_Some (dt_Error (resolve flag d answer enabled)) →
     dt_Value (resolve flag d answer enabled) = d ∧ dt_Reason (resolve flag d answer enabled) = ErrorReason)) as Hall.
  { intros A d enabled Hen. destruct answer as [res err]. cbn [fst snd] in *. split.
    - intros [e ->]. by eexists.
    - destruct (resolve_cases flag d res err enabled) as [(-> & _ & _) | [-> Hr]]; auto. }
  cbv zeta beta. split; [|split; [|split; [|split]]]; apply Hall; try by intros [? [=]].
  - destruct (toFloat64 (cr_Value answer.1)); [by intros [? [=]]|done].
  - destruct (toInt64 (cr_Value answer.1)); [by intros [? [=]]|done].
Qed.

(** A flag that is switched off in its environment is answered by the caller's
    default, not by off: with the default [true], the kill switch of a flag does
    not turn it off for an application that evaluates through the provider. *)
Theorem killed_flag_serves_default (ns : Z) (flagKey : string) (d : bool) (ctx : ClientContext) (c : Client)
    (flag : FeatureFlag) :
  cl_flags c !! flagKey = Some flag →
  ec_Enabled (eval_config flag (toDomainContext c ctx)) = false →
  dt_Value (BooleanEvaluation flagKey d (evaluateLocal ns flagKey ctx c).2) = d ∧
  dt_Reason (BooleanEvaluation flagKey d (evaluateLocal ns flagKey ctx c).2) = DisabledReason.
Proof.
  intros Hf Hk. unfold BooleanEvaluation, evaluateLocal. rewrite Hf. cbn [snd].
  unfold resolve, EvaluateFlag. rewrite Hk. cbn [negb kill_switch_result cr_Reason er_Reason cr_Enabled er_Enabled].
  by vm_compute.
Qed.

End Typing.

(** *** Instances *)

Local Existing Instance sample_runtime.

(** The conversion of amd64: the smallest integer. *)
Definition amd64_conversion : FloatConversion := {| conv_overflow _ := (- 2 ^ 63)%Z |}.
Local Existing Instance amd64_conversion.

Lemma extractContext_order_witness :
  let l := [("id", AnyString "u-1"); ("plan", AnyString "pro"); ("env", AnyString "staging")] in
  extractContext l = extractContext (reverse l) ∧ cc_UserID (extractContext l) = "u-1".
Proof.
  split; [|vm_compute; reflexivity].
  apply (extractContext_order [("id", AnyString "u-1"); ("plan", AnyString "pro"); ("env", AnyString "staging")]).
  - by rewrite reverse_Permutation.
  - repeat constructor; rewrite ?elem_of_cons, ?elem_of_nil; vm_compute; intuition discriminate.
Defined.

Definition served_value (v : GoAny) : ClientResult :=
  mkClientResult "limit" true "on" v "DEFAULT" f64_zero 0 f64_zero.


Definition killed_client : Client :=
  updateFlags [zero_FeatureFlag <| ff_ID := "f1" |> <| ff_Key := "risky" |>]
    (New 0 "" [WithLocalEvaluation Second] None NoResponse).

Lemma killed_flag_serves_default_witness :
  let ctx := mkClientContext "u-1" "" "" "" "" "" ∅ in
  dt_Value (BooleanEvaluation "risky" true (evaluateLocal 0 "risky" ctx killed_client).2) = true ∧
  dt_Reason (BooleanEvaluation "risky" true (evaluateLocal 0 "risky" ctx killed_client).2) = DisabledReason.
Proof.
  eapply (killed_flag_serves_default 0 "risky" true (mkClientContext "u-1" "" "" "" "" "" ∅) killed_client);
    vm_compute; reflexivity.
Defined.
