(* ===== verification/Backup.v ===== *)
(** * Backup and restore ([pkg/store/backup.go])

    The export of a store into a snapshot and the import into another one, over
    the in-memory store.  The JSON and gzip codecs are parameters; the order in
    which the runtime visits maps and the clock are arguments. *)

From S2P Require Import Prelude GoFloat GoStrings GoTime Sha256 Errors Domain Entities StoreState.
From S2P Require Import StoreAudit StoreFlags StoreFlagsFacts StoreIdentity StoreTenancy StoreTables Http.

Definition CurrentSnapshotVersion : string := "1.0.0".

Record SnapshotData := mkSnap {
  sd_Version : string;
  sd_ExportedAt : Time;
  sd_Driver : string;
  sd_Organizations : list Organization;
  sd_OrgMembers : list OrgMember;
  sd_Projects : list Project;
  sd_Flags : list FeatureFlag;
  sd_Users : list User;
  sd_APIKeys : list APIKey;
  sd_AuditLogs : list AuditLogEntry;
  sd_CanarySchedules : list CanarySchedule;
}.

Definition DriverName : string := "In-Memory Edge Store".

(** ** Export *)

(** The projects of the organizations, each once, and the default project. *)
Definition snapshot_projects (o : Outside) (s : MemoryStore) (orgs : list Organization) : list Project :=
  let listed := mjoin ((λ org, ListProjects (out_order o Project (ms_projects s)) (og_ID org)) <$> orgs) in
  let projects := collect pj_ID (λ _, true) [] listed in
  if existsb (λ p, pj_ID p =s? DefaultProjectID) projects then projects
  else match GetProject s DefaultProjectID with
       | Ok defProj => projects ++ [defProj]
       | Err _ => projects
       end.

(** [CreateSnapshot], up to the encoding; the store's reads do not fail. *)
Definition CreateSnapshot (o : Outside) (s : MemoryStore) : SnapshotData :=
  let orgs := ListOrganizations (out_order o Organization (ms_orgs s)) in
  let members := mjoin ((λ org, ListOrgMembers (out_order o OrgMember (ms_orgMembers s)) (og_ID org)) <$> orgs) in
  let projects := snapshot_projects o s orgs in
  let flags := mjoin ((λ p, ListFlagsByProject s (pj_ID p)) <$> projects) in
  let logs := mjoin ((λ p, ExportAuditLogs s (pj_ID p) None None (100 * 1000)) <$> projects) in
  mkSnap CurrentSnapshotVersion (sys_now (out_sys o) 0) DriverName orgs members projects flags
    (ListUsers (out_order o User (ms_users s)))
    (ListAPIKeys (out_order o APIKey (ms_apiKeys s)))
    (collect al_ID (λ _, true) [] logs)
    (ListActiveCanarySchedules (out_order o CanarySchedule (ms_canarySchedules s))).

(** ** Import *)

(** The loops: every element in turn, errors ignored; [sys k] is the outside of
    the [k]-th call. *)
Fixpoint each {A} (op : Sys → MemoryStore → A → MemoryStore) (sys : nat → Sys) (k : nat) (l : list A)
    (s : MemoryStore) : MemoryStore :=
  match l with
  | [] => s
  | x :: l => each op sys (S k) l (op (sys k) s x)
  end.

(** The eight loops; [sys i] is the outside of the [i]-th. *)
Definition restore_entities `{GoRuntime} (sys : nat → nat → Sys) (snap : SnapshotData) (s : MemoryStore)
    : MemoryStore :=
  let s := each (λ y s org, (CreateOrganization y s org).1) (sys 1%nat) 0 (sd_Organizations snap) s in
  let s := each (λ y s u, (CreateUser y s u).1) (sys 2%nat) 0 (sd_Users snap) s in
  let s := each (λ y s m, (CreateOrgMember y s m).1) (sys 3%nat) 0 (sd_OrgMembers snap) s in
  let s := each (λ y s p, (CreateProject y s p).1) (sys 4%nat) 0 (sd_Projects snap) s in
  let s := each (λ y s k, (CreateAPIKey y s k).1) (sys 5%nat) 0 (sd_APIKeys snap) s in
  let s := each (λ y s f, (SaveFlag y s f "snapshot_restore").1) (sys 6%nat) 0 (sd_Flags snap) s in
  let s := each (λ y s l, (AppendAuditLog y s l).1) (sys 7%nat) 0
             (collect al_ID (λ _, true) [] (reverse (sd_AuditLogs snap))) s in
  each (λ y s c, SaveCanarySchedule y s c) (sys 8%nat) 0 (sd_CanarySchedules snap) s.

(** The codecs: [gzip.NewReader] with what reading it to the end gives, the bytes
    it has taken from the reader when there is no gzip header, and the JSON
    decoder. *)
Class SnapshotCodec := {
  sc_gunzip : string → option string;
  sc_consumed : string → nat;
  sc_decode : string → result GoError SnapshotData;
}.

(** [RestoreSnapshot]: without a gzip header, the decoder reads what is left. *)
Definition RestoreSnapshot `{GoRuntime} `{SnapshotCodec} (sys : nat → nat → Sys) (input : string)
    (s : MemoryStore) : MemoryStore * result GoError SnapshotData :=
  let text := match sc_gunzip input with
              | Some text => text
              | None => str_drop (sc_consumed input) input
              end in
  match sc_decode text with
  | Err e => (s, Err (EWrap "failed to decode snapshot JSON" e))
  | Ok snap =>
      if sd_Version snap =s? "" then (s, Err (EText "invalid snapshot: missing version identifier"))
      else (restore_entities sys snap s, Ok snap)
  end.

(** ** The loops *)

(** What no call of a loop touches is as before. *)
Lemma each_keeps {A B} (P : MemoryStore → B) (op : Sys → MemoryStore → A → MemoryStore) sys k l s :
  (∀ y s x, P (op y s x) = P s) → P (each op sys k l s) = P s.
Proof.
  intros Hop; revert k s. induction l as [|x l IH]; intros k s; [done|]. cbn [each]. by rewrite IH, Hop.
Qed.

Lemma collect_ids {A} (id : A → string) seen l :
  NoDup (id <$> collect id (λ _, true) seen l) ∧
  ∀ i, i ∈ (id <$> collect id (λ _, true) seen l) ↔ (i ∉ seen) ∧ i ∈ (id <$> l).
Proof.
  revert seen. induction l as [|x l IH]; intros seen; cbn [collect].
  - split; [constructor|]. intros i. csimpl. rewrite elem_of_nil. tauto.
  - rewrite andb_true_r. destruct (existsb (str_eqb (id x)) seen) eqn:E; cbn [negb].
    + assert (id x ∈ seen) as Hx.
      { apply existsb_exists in E as (y & Hy & ->%str_eqb_eq). by apply list_elem_of_In. }
      destruct (IH seen) as [Hnd Hel]. split; [done|]. intros i. rewrite Hel. csimpl. rewrite elem_of_cons.
      split; [tauto|]. intros [Hi [-> | Hl]]; tauto.
    + assert (id x ∉ seen) as Hx.
      { intros Hin%list_elem_of_In. assert (existsb (str_eqb (id x)) seen = true); [|congruence].
        apply existsb_exists. exists (id x). split; [done|apply str_eqb_refl]. }
      destruct (IH (id x :: seen)) as [Hnd Hel]. csimpl. split.
      * constructor; [|done]. rewrite Hel, elem_of_cons. tauto.
      * intros i. rewrite !elem_of_cons, Hel, elem_of_cons. destruct (decide (i = id x)) as [-> | Hne]; tauto.
Qed.

Lemma collect_has {A} (id : A → string) sel seen l x :
  x ∈ l → sel x = true → id x ∉ seen → id x ∈ (id <$> collect id sel seen l).
Proof.
  revert seen. induction l as [|y l IH]; intros seen Hx Hsel Hs; [by apply not_elem_of_nil in Hx|].
  cbn [collect]. destruct (decide (id y = id x)) as [E | Hne].
  - apply elem_of_cons in Hx as [<- | Hx].
    + rewrite Hsel. assert (existsb (str_eqb (id x)) seen = false) as ->.
      { apply not_true_iff_false. intros (z & Hz & <-%str_eqb_eq)%existsb_exists.
        by apply Hs, list_elem_of_In. }
      csimpl. by left.
    + case_if; [csimpl; rewrite E; by left|by apply IH].
  - apply elem_of_cons in Hx as [<- | Hx]; [done|].
    case_if; [csimpl; right|]; apply IH; rewrite ?elem_of_cons; try done.
    intros [? | ?]; [by apply Hne|done].
Qed.

Lemma collect_distinct {A} (id : A → string) l : NoDup (id <$> l) → collect id (λ _, true) [] l = l.
Proof.
  assert (∀ seen, NoDup (id <$> l) → (∀ i, i ∈ (id <$> l) → i ∉ seen) → collect id (λ _, true) seen l = l) as Hgen.
  { induction l as [|x l IH]; intros seen Hnd Hs; [done|]. cbn [collect].
    csimpl in Hnd. apply NoDup_cons in Hnd as [Hx Hnd].
    assert (existsb (str_eqb (id x)) seen = false) as ->.
    { apply not_true_iff_false. intros (y & Hy & <-%str_eqb_eq)%existsb_exists.
      eapply (Hs (id x)); [csimpl; by left|by apply list_elem_of_In]. }
    cbn [negb andb]. f_equal. apply IH; [done|]. intros i Hi [-> | Hin]%elem_of_cons; [done|].
    eapply Hs; [csimpl; by right|done]. }
  intros Hnd. apply Hgen; [done|]. intros i _. apply not_elem_of_nil.
Qed.

(** ** Flags *)

(** A flag without its times, which an import sets anew. *)
Definition content (f : FeatureFlag) : FeatureFlag := f <| ff_CreatedAt := 0%Z |> <| ff_UpdatedAt := 0%Z |>.

Definition by_key (f : FeatureFlag) : string * string := (ff_ProjectID f, ff_Key f).
Definition by_id (f : FeatureFlag) : string * string := (ff_ProjectID f, ff_ID f).

(** Flags that an import creates as they are. *)
Definition restorable (f : FeatureFlag) : Prop :=
  normal_flag f ∧ ff_ID f ≠ "" ∧ TrimSpace (ff_ProjectID f) ≠ "".

Lemma by_key_content f : by_key (content f) = by_key f.
Proof. reflexivity. Qed.
Lemma by_id_content f : by_id (content f) = by_id f.
Proof. reflexivity. Qed.

Lemma save_created_content sys f : restorable f → content (save_created sys f) = content f.
Proof.
  intros ([_ Hv] & Hid & _). unfold save_created. rewrite (proj2 (str_eqb_neq _ _) Hid), (proj2 (Z.eqb_neq _ _) Hv).
  by destruct f.
Qed.

Lemma save_created_normal sys f : restorable f → normal_flag (save_created sys f).
Proof.
  intros ([Hp Hv] & _). split; [done|]. unfold save_created.
  by rewrite (proj2 (Z.eqb_neq _ _) Hv).
Qed.

Lemma save_no_match flag flags :
  Forall normal_flag flags → by_key flag ∉ (by_key <$> flags) → by_id flag ∉ (by_id <$> flags) →
  list_find (λ f, save_matches flag f = true) flags = None.
Proof.
  intros Hn Hk Hi. apply list_find_None, Forall_forall. intros f Hf Hm.
  rewrite Forall_forall in Hn. destruct (Hn f Hf) as [Hp _]. unfold save_matches in Hm.
  apply andb_true_iff in Hm as [Hor Hproj]. unfold flag_project, or_default in Hproj.
  rewrite (proj2 (str_eqb_neq _ _) Hp) in Hproj. apply str_eqb_eq in Hproj.
  apply orb_true_iff in Hor as [E%str_eqb_eq | E%str_eqb_eq].
  - apply Hi, list_elem_of_fmap. exists f. split; [|done]. unfold by_id. congruence.
  - apply Hk, list_elem_of_fmap. exists f. split; [|done]. unfold by_key. congruence.
Qed.

Lemma restore_actor : or_default "snapshot_restore" "developer@flagura.dev" = "snapshot_restore".
Proof. reflexivity. Qed.

Lemma SaveFlag_restores sys s f :
  restorable f → Forall normal_flag (flags_of s) →
  by_key f ∉ (by_key <$> flags_of s) → by_id f ∉ (by_id <$> flags_of s) →
  flags_of (SaveFlag sys s f "snapshot_restore").1 = save_created sys f :: flags_of s.
Proof.
  intros Hr Hn Hk Hi. unfold SaveFlag. rewrite DeepCopy_id.
  rewrite restore_actor.
  destruct Hr as (Hf & Hid & Hsp). rewrite (proj2 (str_eqb_neq _ _) Hsp).
  unfold save_plan. rewrite save_no_match by done. cbn [fst snd]. rewrite str_eqb_refl. cbn [fst].
  apply (newFlagSnapshot_list_normal (save_created sys f :: flags_of s)).
  constructor; [|done]. by apply save_created_normal.
Qed.

Lemma fmap_by_key_content (l : list FeatureFlag) : by_key <$> (content <$> l) = by_key <$> l.
Proof. rewrite <- list_fmap_compose. by apply list_fmap_ext. Qed.
Lemma fmap_by_id_content (l : list FeatureFlag) : by_id <$> (content <$> l) = by_id <$> l.
Proof. rewrite <- list_fmap_compose. by apply list_fmap_ext. Qed.

Lemma each_save_flags sys k l s :
  Forall restorable l → Forall normal_flag (flags_of s) →
  NoDup (by_key <$> l ++ flags_of s) → NoDup (by_id <$> l ++ flags_of s) →
  content <$> flags_of (each (λ y s f, (SaveFlag y s f "snapshot_restore").1) sys k l s)
  = reverse (content <$> l) ++ (content <$> flags_of s).
Proof.
  revert k s. induction l as [|f l IH]; intros k s Hr Hn Hk Hi; [done|]. cbn [each].
  apply Forall_cons in Hr as [Hf Hr]. cbn [app] in Hk, Hi. csimpl in Hk. csimpl in Hi.
  apply NoDup_cons in Hk as [Hk1 Hk], Hi as [Hi1 Hi].
  rewrite fmap_app, elem_of_app in Hk1, Hi1.
  assert (flags_of (SaveFlag (sys k) s f "snapshot_restore").1 = save_created (sys k) f :: flags_of s) as E
    by (apply SaveFlag_restores; tauto).
  rewrite IH; rewrite ?E.
  - csimpl. rewrite save_created_content by done. rewrite reverse_cons, <- app_assoc. done.
  - done.
  - constructor; [by apply save_created_normal|done].
  - rewrite fmap_app. csimpl. rewrite <- by_key_content, save_created_content, by_key_content by done.
    rewrite <- Permutation_middle, <- fmap_app. constructor; [|done]. rewrite fmap_app, elem_of_app. tauto.
  - rewrite fmap_app. csimpl. rewrite <- by_id_content, save_created_content, by_id_content by done.
    rewrite <- Permutation_middle, <- fmap_app. constructor; [|done]. rewrite fmap_app, elem_of_app. tauto.
Qed.

(** What the other calls leave alone. *)
Ltac by_cases_on op := intros; unfold op; repeat case_match; done.

Lemma org_keeps_flags y s org : ms_flagsSnapshot (CreateOrganization y s org).1 = ms_flagsSnapshot s.
Proof. by_cases_on CreateOrganization. Qed.
Lemma user_keeps_flags y s u : ms_flagsSnapshot (CreateUser y s u).1 = ms_flagsSnapshot s.
Proof. by_cases_on CreateUser. Qed.
Lemma project_keeps_flags `{GoRuntime} y s p : ms_flagsSnapshot (CreateProject y s p).1 = ms_flagsSnapshot s.
Proof. by_cases_on CreateProject. Qed.
Lemma key_keeps_flags y s k : ms_flagsSnapshot (CreateAPIKey y s k).1 = ms_flagsSnapshot s.
Proof. by_cases_on CreateAPIKey. Qed.
Lemma log_keeps_flags y s l : ms_flagsSnapshot (AppendAuditLog y s l).1 = ms_flagsSnapshot s.
Proof. unfold AppendAuditLog, appendAuditLogLocked. by intros; repeat case_match. Qed.

Lemma org_keeps_logs y s org : ms_auditLogs (CreateOrganization y s org).1 = ms_auditLogs s.
Proof. by_cases_on CreateOrganization. Qed.
Lemma user_keeps_logs y s u : ms_auditLogs (CreateUser y s u).1 = ms_auditLogs s.
Proof. by_cases_on CreateUser. Qed.
Lemma project_keeps_logs `{GoRuntime} y s p : ms_auditLogs (CreateProject y s p).1 = ms_auditLogs s.
Proof. by_cases_on CreateProject. Qed.
Lemma key_keeps_logs y s k : ms_auditLogs (CreateAPIKey y s k).1 = ms_auditLogs s.
Proof. by_cases_on CreateAPIKey. Qed.
Lemma flag_keeps_logs y s f : ms_auditLogs (SaveFlag y s f "snapshot_restore").1 = ms_auditLogs s.
Proof.
  unfold SaveFlag. rewrite restore_actor.
  case_if; [done|]. by destruct (save_plan _ _ _ _).
Qed.

Section Restore.
Context `{GoRuntime}.

Lemma restore_flags sys snap s :
  Forall restorable (sd_Flags snap) → flags_of s = [] →
  NoDup (by_key <$> sd_Flags snap) → NoDup (by_id <$> sd_Flags snap) →
  content <$> flags_of (restore_entities sys snap s) = reverse (content <$> sd_Flags snap).
Proof.
  intros Hr Hs Hk Hi. unfold restore_entities, flags_of.
  rewrite (each_keeps ms_flagsSnapshot (λ y s c, SaveCanarySchedule y s c)) by done.
  rewrite (each_keeps ms_flagsSnapshot (λ y s l, (AppendAuditLog y s l).1)) by (intros; apply log_keeps_flags).
  match goal with |- context [each (λ y s f, (SaveFlag y s f _).1) _ _ _ ?s5] => set (s5' := s5) end.
  assert (flags_of s5' = []) as H5.
  { unfold s5', flags_of.
    rewrite (each_keeps ms_flagsSnapshot) by (intros; apply key_keeps_flags).
    rewrite (each_keeps ms_flagsSnapshot) by (intros; apply project_keeps_flags).
    rewrite (each_keeps ms_flagsSnapshot) by done.
    rewrite (each_keeps ms_flagsSnapshot) by (intros; apply user_keeps_flags).
    rewrite (each_keeps ms_flagsSnapshot) by (intros; apply org_keeps_flags). exact Hs. }
  pose proof (each_save_flags (sys 6%nat) 0 (sd_Flags snap) s5' Hr) as He.
  rewrite H5, !app_nil_r in He. by apply He.
Qed.

(** *** The projects of a snapshot *)

(** The default project is not the alias of another. *)
Definition default_plain (s : MemoryStore) : Prop :=
  ∀ proj, ms_projects s !! DefaultProjectID = Some proj → pj_ID proj = DefaultProjectID.

Lemma snapshot_projects_ids o s orgs : default_plain s →
  NoDup (pj_ID <$> snapshot_projects o s orgs) ∧ DefaultProjectID ∈ (pj_ID <$> snapshot_projects o s orgs) ∧
  ∀ org proj, org ∈ orgs → proj ∈ (out_order o Project (ms_projects s)).*2 →
    pj_OrganizationID proj = og_ID org → pj_ID proj ∈ (pj_ID <$> snapshot_projects o s orgs).
Proof.
  intros Hd. unfold snapshot_projects.
  set (listed := mjoin _). pose proof (collect_ids pj_ID [] listed) as [Hnd Hel].
  set (ps := collect pj_ID (λ _, true) [] listed) in *.
  assert (∀ org proj, org ∈ orgs → proj ∈ (out_order o Project (ms_projects s)).*2 →
    pj_OrganizationID proj = og_ID org → pj_ID proj ∈ (pj_ID <$> ps)) as Hin.
  { intros org proj Ho Hp He. apply Hel. split; [apply not_elem_of_nil|].
    assert (pj_ID proj ∈ (pj_ID <$> ListProjects (out_order o Project (ms_projects s)) (og_ID org))) as Hl.
    { apply collect_has; [done|by rewrite He, str_eqb_refl, orb_true_r|apply not_elem_of_nil]. }
    apply list_elem_of_fmap in Hl as (q & Hq & Hql). rewrite Hq. apply list_elem_of_fmap_2.
    apply list_elem_of_join. eexists. split; [exact Hql|]. apply list_elem_of_fmap. by exists org. }
  destruct (existsb _ ps) eqn:E.
  - apply existsb_exists in E as (q & Hq & E%str_eqb_eq). split_and!; [done| |done].
    rewrite <- E. apply list_elem_of_fmap_2. by apply list_elem_of_In.
  - assert (DefaultProjectID ∉ (pj_ID <$> ps)) as Hno.
    { intros (q & Hq & Hin')%list_elem_of_fmap. apply not_true_iff_false in E. apply E, existsb_exists.
      exists q. split; [by apply list_elem_of_In|]. rewrite <- Hq. apply str_eqb_refl. }
    assert (∃ d, GetProject s DefaultProjectID = Ok d ∧ pj_ID d = DefaultProjectID) as (d & -> & Hdd).
    { unfold GetProject. destruct (ms_projects s !! DefaultProjectID) as [q|] eqn:Eq; [|by eexists].
      exists q. split; [done|]. by apply Hd. }
    rewrite fmap_app. csimpl. rewrite Hdd. split_and!.
    + apply NoDup_app. split_and!; [done| |apply NoDup_singleton].
      intros i Hi ->%list_elem_of_singleton. done.
    + apply elem_of_app. right. by apply list_elem_of_singleton.
    + intros org proj Ho Hp He. apply elem_of_app. left. by eapply Hin.
Qed.

(** *** The round trip of flags *)

Lemma project_flags_of s p : p ≠ "" → ListFlagsByProject s p = filter (λ f, ff_ProjectID f = p) (flags_of s).
Proof.
  intros Hp. unfold ListFlagsByProject, or_default. rewrite (proj2 (str_eqb_neq _ _) Hp).
  rewrite <- (list_fmap_id (filter _ _)) at 2. apply list_fmap_ext. intros _ f _. apply DeepCopy_id.
Qed.

(** The elements of several groups, one group after the other. *)
Definition grouped {A} (g : A → string) (ids : list string) (l : list A) : list A :=
  mjoin ((λ p, filter (λ x, g x = p) l) <$> ids).

Lemma elem_of_grouped {A} (g : A → string) ids l x : x ∈ grouped g ids l ↔ x ∈ l ∧ g x ∈ ids.
Proof.
  unfold grouped. rewrite list_elem_of_join. split.
  - intros (k & Hx & (p & -> & Hp)%list_elem_of_fmap). apply list_elem_of_filter in Hx as [<- ?]. done.
  - intros [Hx Hp]. exists (filter (λ y, g y = g x) l). split.
    + by apply list_elem_of_filter.
    + apply list_elem_of_fmap. by eexists.
Qed.

Lemma NoDup_fmap_inj_on {A B} (h : A → B) l x y : NoDup (h <$> l) → x ∈ l → y ∈ l → h x = h y → x = y.
Proof.
  intros Hnd (i & Hi)%list_elem_of_lookup (j & Hj)%list_elem_of_lookup E.
  assert (i = j) as ->; [|congruence].
  eapply NoDup_lookup; [exact Hnd|by rewrite list_lookup_fmap, Hi|rewrite list_lookup_fmap, Hj; by rewrite E].
Qed.

Lemma grouped_nodup {A B} (g : A → string) (h : A → B) ids l :
  NoDup ids → NoDup (h <$> l) → NoDup (h <$> grouped g ids l).
Proof.
  intros Hids Hl. induction Hids as [|p ids Hp _ IH]; [constructor|].
  unfold grouped. csimpl. rewrite fmap_app. apply NoDup_app. split_and!; [| |exact IH].
  - eapply sublist_NoDup; [exact Hl|]. apply fmap_sublist, sublist_filter.
  - intros z (x & -> & [Hx Hxl]%list_elem_of_filter)%list_elem_of_fmap (y & E & Hy)%list_elem_of_fmap.
    fold (grouped g ids l) in Hy. apply elem_of_grouped in Hy as [Hyl Hy].
    assert (x = y) as -> by (by apply (NoDup_fmap_inj_on h l)). congruence.
Qed.

Lemma grouped_one {A} (g : A → string) ids l p : NoDup ids → p ∈ ids →
  filter (λ x, g x = p) (grouped g ids l) = filter (λ x, g x = p) l.
Proof.
  intros Hnd. induction Hnd as [|q ids Hq _ IH]; intros Hp; [by apply not_elem_of_nil in Hp|].
  unfold grouped. csimpl. rewrite filter_app. fold (grouped g ids l).
  destruct (decide (p = q)) as [-> | Hne].
  - rewrite list_filter_filter_l by (by intros). rewrite <- (app_nil_r (filter _ l)) at 2. f_equal.
    apply elem_of_nil_inv. intros x [Hx Hin]%list_elem_of_filter.
    apply elem_of_grouped in Hin as [_ Hin]. congruence.
  - apply elem_of_cons in Hp as [? | Hp]; [done|]. rewrite IH by done.
    assert (filter (λ x, g x = p) (filter (λ x, g x = q) l) = []) as ->; [|done].
    apply elem_of_nil_inv. intros x [Hx [Hq' _]%list_elem_of_filter]%list_elem_of_filter. congruence.
Qed.

(** The stored flags can be told apart, and an import creates them as they are. *)
Record flags_distinct (s : MemoryStore) : Prop := {
  fd_keys : NoDup (by_key <$> flags_of s);
  fd_ids : NoDup (by_id <$> flags_of s);
  fd_restorable : Forall restorable (flags_of s);
}.

Lemma snapshot_flags_eq o s :
  Forall (λ p, pj_ID p ≠ "") (sd_Projects (CreateSnapshot o s)) →
  sd_Flags (CreateSnapshot o s) = grouped ff_ProjectID (pj_ID <$> sd_Projects (CreateSnapshot o s)) (flags_of s).
Proof.
  unfold CreateSnapshot. cbn [sd_Projects sd_Flags]. intros Hall.
  unfold grouped. f_equal. rewrite <- list_fmap_compose.
  induction Hall as [|p ps Hp _ IH]; [done|]. csimpl. f_equal; [|done]. by apply project_flags_of.
Qed.


(** *** The audit log *)

(** An entry as the store keeps it. *)
Definition sealed (e : AuditLogEntry) : Prop :=
  al_ProjectID e ≠ "" ∧ IsZero (al_Timestamp e) = false ∧ al_PrevHash e ≠ "" ∧ al_EntryHash e ≠ "".

Lemma append_sealed y s e :
  sealed e → al_ID e ∉ (al_ID <$> ms_auditLogs s) → ms_auditLogs (AppendAuditLog y s e).1 = e :: ms_auditLogs s.
Proof.
  intros (Hp & Ht & Hprev & Hh) Hid. unfold AppendAuditLog, appendAuditLogLocked.
  assert (e <| al_ProjectID := or_default (al_ProjectID e) DefaultProjectID |> = e) as ->.
  { unfold or_default. rewrite (proj2 (str_eqb_neq _ _) Hp). by destruct e. }
  rewrite Ht. unfold seal_entry. rewrite (proj2 (str_eqb_neq _ _) Hprev), (proj2 (str_eqb_neq _ _) Hh). cbn [orb].
  assert (list_find (λ l, al_ID l = al_ID e ∧ al_ProjectID l = al_ProjectID e) (ms_auditLogs s) = None) as ->; [|done].
  apply list_find_None, Forall_forall. intros l Hl [E _]. apply Hid. rewrite <- E. by apply list_elem_of_fmap_2.
Qed.

Lemma each_append sys k l s :
  Forall sealed l → NoDup (al_ID <$> l ++ ms_auditLogs s) →
  ms_auditLogs (each (λ y s e, (AppendAuditLog y s e).1) sys k l s) = reverse l ++ ms_auditLogs s.
Proof.
  revert k s. induction l as [|e l IH]; intros k s Hs Hnd; [done|]. cbn [each].
  apply Forall_cons in Hs as [He Hs]. cbn [app] in Hnd. csimpl in Hnd. apply NoDup_cons in Hnd as [He' Hnd].
  rewrite fmap_app, elem_of_app in He'.
  assert (ms_auditLogs (AppendAuditLog (sys k) s e).1 = e :: ms_auditLogs s) as E by (apply append_sealed; tauto).
  rewrite IH; rewrite ?E; [by rewrite reverse_cons, <- app_assoc|done|].
  rewrite fmap_app. csimpl. rewrite <- Permutation_middle, <- fmap_app. constructor; [|done].
  rewrite fmap_app, elem_of_app. tauto.
Qed.

Lemma restore_logs sys snap s :
  Forall sealed (sd_AuditLogs snap) → NoDup (al_ID <$> sd_AuditLogs snap) → ms_auditLogs s = [] →
  ms_auditLogs (restore_entities sys snap s) = sd_AuditLogs snap.
Proof.
  intros Hs Hnd H0. unfold restore_entities.
  rewrite (each_keeps ms_auditLogs (λ y s c, SaveCanarySchedule y s c)) by done.
  match goal with |- context [each (λ y s l, (AppendAuditLog y s l).1) _ _ _ ?s6] => set (s6' := s6) end.
  assert (ms_auditLogs s6' = []) as H6.
  { unfold s6'.
    rewrite (each_keeps ms_auditLogs) by (intros; apply flag_keeps_logs).
    rewrite (each_keeps ms_auditLogs) by (intros; apply key_keeps_logs).
    rewrite (each_keeps ms_auditLogs) by (intros; apply project_keeps_logs).
    rewrite (each_keeps ms_auditLogs) by done.
    rewrite (each_keeps ms_auditLogs) by (intros; apply user_keeps_logs).
    rewrite (each_keeps ms_auditLogs) by (intros; apply org_keeps_logs). exact H0. }
  assert (NoDup (al_ID <$> reverse (sd_AuditLogs snap))) as Hrev by (by rewrite reverse_Permutation).
  rewrite collect_distinct, each_append, H6, reverse_involutive, app_nil_r; [done| | |done].
  - by apply Forall_reverse.
  - by rewrite H6, app_nil_r.
Qed.

Lemma restore_anchors sys snap s : ms_auditAnchors (restore_entities sys snap s) = ms_auditAnchors s.
Proof.
  unfold restore_entities. rewrite !(each_keeps ms_auditAnchors); try done; intros.
  - unfold CreateOrganization. by repeat case_match.
  - unfold CreateUser. by repeat case_match.
  - unfold CreateProject. by repeat case_match.
  - unfold CreateAPIKey. by repeat case_match.
  - unfold SaveFlag. rewrite restore_actor.
    case_if; [done|]. by destruct (save_plan _ _ _ _).
  - unfold AppendAuditLog, appendAuditLogLocked. by repeat case_match.
Qed.

Lemma export_all s p : p ≠ "" → (Z.of_nat (length (ms_auditLogs s)) ≤ 100 * 1000)%Z →
  ExportAuditLogs s p None None (100 * 1000) = filter (λ e, al_ProjectID e = p) (ms_auditLogs s).
Proof.
  intros Hp Hlen. unfold ExportAuditLogs, or_default. rewrite (proj2 (str_eqb_neq _ _) Hp).
  assert (filter (λ e, export_selects p None None e = true) (ms_auditLogs s)
          = filter (λ e, al_ProjectID e = p) (ms_auditLogs s)) as ->.
  { apply list_filter_iff. intros e. unfold export_selects. cbn [negb]. rewrite !andb_true_r. apply str_eqb_eq. }
  unfold limited. destruct (0 <? 100 * 1000)%Z; [|done]. apply take_ge.
  pose proof (length_filter (λ e, al_ProjectID e = p) (ms_auditLogs s)). lia.
Qed.

Lemma export_groups s ps : Forall (λ q, pj_ID q ≠ "") ps → (Z.of_nat (length (ms_auditLogs s)) ≤ 100 * 1000)%Z →
  (λ p, ExportAuditLogs s (pj_ID p) None None (100 * 1000)) <$> ps
  = (λ q, filter (λ e, al_ProjectID e = q) (ms_auditLogs s)) <$> (pj_ID <$> ps).
Proof.
  intros Hne Hlen. induction Hne as [|q ps Hq _ IH]; [done|]. csimpl. f_equal; [by apply export_all|exact IH].
Qed.

(** The audit trail survives a backup: of a store with at most 100000 sealed
    entries with distinct identifiers, the restored store has, for every project
    of the snapshot, the same entries with the same hashes in the same order;
    and for a project that was never purged the verification of the chain says
    what it said. *)
Theorem backup_restores_audit (sys : nat → nat → Sys) (o : Outside) (s : MemoryStore) (p : string) (y : Sys) :
  default_plain s → Forall (λ q, pj_ID q ≠ "") (sd_Projects (CreateSnapshot o s)) →
  Forall sealed (ms_auditLogs s) → NoDup (al_ID <$> ms_auditLogs s) →
  (Z.of_nat (length (ms_auditLogs s)) ≤ 100 * 1000)%Z →
  p ∈ (pj_ID <$> sd_Projects (CreateSnapshot o s)) →
  let s' := restore_entities sys (CreateSnapshot o s) NewMemoryStore in
  project_logs p (ms_auditLogs s') = project_logs p (ms_auditLogs s) ∧
  (ms_auditAnchors s !! p = None → VerifyAuditLogIntegrity y s' p = VerifyAuditLogIntegrity y s p).
Proof.
  intros Hd Hne Hsealed Hids Hlen Hp s'.
  destruct (snapshot_projects_ids o s (sd_Organizations (CreateSnapshot o s)) Hd) as (Hnd & _).
  change (snapshot_projects o s (sd_Organizations (CreateSnapshot o s))) with (sd_Projects (CreateSnapshot o s)) in *.
  set (ids := pj_ID <$> sd_Projects (CreateSnapshot o s)) in *.
  assert (NoDup (al_ID <$> grouped al_ProjectID ids (ms_auditLogs s))) as Hg by (by apply grouped_nodup).
  assert (sd_AuditLogs (CreateSnapshot o s) = grouped al_ProjectID ids (ms_auditLogs s)) as HL.
  { rewrite <- (collect_distinct al_ID (grouped _ _ _)) by done.
    unfold grouped, ids. rewrite <- (export_groups s) by done. reflexivity. }
  assert (ms_auditLogs s' = grouped al_ProjectID ids (ms_auditLogs s)) as Hlogs.
  { rewrite <- HL. apply restore_logs; [|by rewrite HL|done].
    rewrite HL. rewrite Forall_forall in Hsealed |- *. intros e [He _]%elem_of_grouped. by apply Hsealed. }
  assert (project_logs p (ms_auditLogs s') = project_logs p (ms_auditLogs s)) as Hsame.
  { rewrite Hlogs. by apply grouped_one. }
  split; [done|]. intros Ha. unfold VerifyAuditLogIntegrity.
  assert (p ≠ "") as Hpne.
  { apply list_elem_of_fmap in Hp as (q & -> & Hq). rewrite Forall_forall in Hne. by apply Hne. }
  unfold or_default. rewrite (proj2 (str_eqb_neq _ _) Hpne). rewrite Hsame.
  assert (anchor_of s' p = anchor_of s p) as ->; [|done].
  unfold anchor_of. rewrite Ha. unfold s'. by rewrite restore_anchors.
Qed.

(** *** Credentials *)

Lemma each_inv {A} (I : MemoryStore → Prop) (op : Sys → MemoryStore → A → MemoryStore) sys k l s :
  (∀ y s x, x ∈ l → I s → I (op y s x)) → I s → I (each op sys k l s).
Proof.
  intros Hop. revert k s. induction l as [|x l IH]; intros k s Hs; [done|]. cbn [each].
  apply IH; [|by apply Hop, Hs; left]. intros y s' z Hz. apply Hop. by right.
Qed.

Definition no_credentials (s : MemoryStore) : Prop :=
  ms_apiKeysByHash s = ∅ ∧ map_Forall (λ _ u, us_PasswordHash u = "") (ms_users s).

(** A restored store has no credentials: the export blanks the hashes of
    passwords and keys, so after a restore into an empty store no API key is
    recognized, whatever is presented, and every user has an empty hash. *)
Theorem backup_loses_credentials (sys : nat → nat → Sys) (o : Outside) (s : MemoryStore) (y : Sys) (hash : string) :
  let s' := restore_entities sys (CreateSnapshot o s) NewMemoryStore in
  (∃ e, (GetAPIKeyByHash y s' hash).2 = Err e) ∧ map_Forall (λ _ u, us_PasswordHash u = "") (ms_users s').
Proof.
  cbv zeta. assert (no_credentials (restore_entities sys (CreateSnapshot o s) NewMemoryStore)) as [Hk Hu].
  { unfold restore_entities.
    repeat match goal with |- no_credentials (each _ _ _ _ _) => apply each_inv end; unfold no_credentials.
    - by intros.
    - intros y0 s0 l _. unfold AppendAuditLog, appendAuditLogLocked. by repeat case_match.
    - intros y0 s0 f _. unfold SaveFlag.
      rewrite restore_actor.
      case_if; [done|]. by destruct (save_plan _ _ _ _).
    - intros y0 s0 k (k0 & -> & _)%list_elem_of_fmap [Hk Hu]. split; [exact Hk|exact Hu].
    - intros y0 s0 x _. unfold CreateProject. by repeat case_match.
    - by intros.
    - intros y0 s0 u (u0 & -> & _)%list_elem_of_fmap [Hk Hu]. unfold CreateUser.
      case_match; [done|]. cbn. split; [done|]. repeat apply map_Forall_insert_2; done.
    - intros y0 s0 x _. unfold CreateOrganization. by repeat case_match.
    - by split. }
  split; [|done]. unfold GetAPIKeyByHash. rewrite Hk, lookup_empty. by eexists.
Qed.

End Restore.

(** *** Instances *)

Local Existing Instance sample_runtime.

Definition plain_outside : Outside := mkOutside (sys_at 20) (λ A m, map_to_list m).
Definition plain_sys (_ _ : nat) : Sys := sys_at 30.

Definition acme : Organization := mkOrg "org_a" "Acme" "acme" "" 0 0.
Definition shop_project : Project := mkProject "shop" "org_a" 1 "Shop" "shop" "" 0 0.

(** A shop with two flags and an audit trail. *)
Definition shop_store : MemoryStore :=
  store_with [named_flag "flag_1" "shop" "checkout"; named_flag "flag_2" "shop" "search"]
    <| ms_orgs := {[ "org_a" := acme ]} |> <| ms_projects := {[ "shop" := shop_project ]} |>
    <| ms_auditLogs := ms_auditLogs demo_trail |>.

Lemma shop_default_plain : default_plain shop_store.
Proof. intros proj. vm_compute. discriminate. Qed.

Lemma shop_projects_named : Forall (λ q, pj_ID q ≠ "") (sd_Projects (CreateSnapshot plain_outside shop_store)).
Proof. vm_compute. repeat constructor; discriminate. Qed.

#[local] Instance restorable_dec f : Decision (restorable f).
Proof. unfold restorable, normal_flag. apply _. Defined.

Lemma shop_distinct : flags_distinct shop_store.
Proof. split; apply (bool_decide_unpack _); vm_compute; exact I. Qed.


Lemma backup_restores_audit_witness :
  let s' := restore_entities plain_sys (CreateSnapshot plain_outside shop_store) NewMemoryStore in
  project_logs "shop" (ms_auditLogs s') = project_logs "shop" (ms_auditLogs shop_store) ∧
  (ms_auditAnchors shop_store !! "shop" = None →
   VerifyAuditLogIntegrity (sys_at 40) s' "shop" = VerifyAuditLogIntegrity (sys_at 40) shop_store "shop").
Proof.
  apply (backup_restores_audit plain_sys plain_outside shop_store "shop" (sys_at 40)).
  - apply shop_default_plain.
  - apply shop_projects_named.
  - vm_compute. repeat constructor; discriminate.
  - apply (bool_decide_unpack _). vm_compute. exact I.
  - vm_compute. discriminate.
  - vm_compute. left.
Defined.

(** The anchor that a purge leaves is not part of a snapshot: a purged trail
    that verifies does not verify any more after a backup and a restore. *)
Theorem restore_breaks_purged_chain :
  let s := (PurgeAuditLogs shop_store "shop" 6).1 in
  let s' := restore_entities plain_sys (CreateSnapshot plain_outside s) NewMemoryStore in
  project_logs "shop" (ms_auditLogs s') = project_logs "shop" (ms_auditLogs s) ∧
  ai_Valid (VerifyAuditLogIntegrity (sys_at 40) s "shop") = true ∧
  ai_Valid (VerifyAuditLogIntegrity (sys_at 40) s' "shop") = false.
Proof. cbv zeta. split_and!; vm_compute; reflexivity. Qed.

(** An uncompressed snapshot cannot be restored: the test for a gzip header has
    taken its first bytes. *)
Lemma plain_snapshot_loses_its_head `{SnapshotCodec} sys input s :
  sc_gunzip input = None → is_ok (sc_decode (str_drop (sc_consumed input) input)) = false →
  is_ok (RestoreSnapshot sys input s).2 = false ∧ (RestoreSnapshot sys input s).1 = s.
Proof.
  intros Hg Hd. unfold RestoreSnapshot. rewrite Hg. by destruct (sc_decode _).
Qed.
