(* ===== verification/ApiTenancy.v ===== *)
(** * Organizations, projects and invitations over HTTP

    The handlers and what they guarantee. *)

From S2P Require Import Prelude GoFloat GoStrings GoTime Sha256 Errors Domain Engine Entities StoreState.
From S2P Require Import StoreFlagsFacts StoreIdentity StoreTenancy StoreIdentityFacts Http Auth Access.
From S2P Require Import ApiFlags ApiAuth ApiRoutes AuthFacts AccessFacts ApiFlagsFacts ApiExamples.
From S2P Require Import HandlerFacts.

(** * Organizations, projects and invitations in the API
    ([pkg/api/handlers_projects.go], [pkg/api/handlers_admin.go]) *)

Record OrganizationRequest := mkOrgRequest { oq_Name : string; oq_Slug : string; oq_Description : string }.

Record ProjectRequest := mkProjRequest {
  pq_OrganizationID : string;
  pq_Name : string;
  pq_Slug : string;
  pq_Description : string;
}.

Record SwitchRequest := mkSwitch { sq_ProjectID : string; sq_ProjectIDCamel : string }.

Record InviteRequest := mkInvite { iq_OrganizationID : string; iq_Email : string; iq_Role : string }.

Section Tenancy.
Context `{GoRuntime}.

Definition only (method : string) (r : Request) (h : Handler Reply) : Handler Reply :=
  if negb (rq_Method r =s? method) then writeText StatusMethodNotAllowed "Method Not Allowed" else h.

Definition list_projects_of (orgID : string) : Handler (list Project) :=
  read (λ o s, ListProjects (out_order o Project (ms_projects s)) orgID).

Definition list_all_orgs : Handler (list Organization) :=
  read (λ o s, ListOrganizations (out_order o Organization (ms_orgs s))).

(** [user != nil && user.Role != domain.RoleAdmin]. *)
Definition is_tenant (user : option User) : option User :=
  match user with
  | Some u => if us_Role u =s? RoleAdmin then None else Some u
  | None => None
  end.

(** The check that repeats: the caller, unless it is an administrator, has the
    organization among its own. *)
Definition authorized_for (orgID : string) (refusal : GoError) : Handler () :=
  user ← UserFromContext;
  match is_tenant user with
  | None => mret ()
  | Some u =>
      orgs ← list_user_orgs (us_ID u);
      if existsb (λ o, og_ID o =s? orgID) orgs then mret () else writeError refusal
  end.

Definition forbidden (code : ErrorCode) (msg : string) : GoError :=
  NewAppError code msg StatusForbidden (Some (ESentinel ErrForbidden)).

(** ** Organizations *)

Definition handleListOrganizations (r : Request) : Handler Reply :=
  only "GET" r (
    user ← UserFromContext;
    orgs ← match is_tenant user with
           | Some u => list_user_orgs (us_ID u)
           | None => list_all_orgs
           end;
    writeJSON StatusOK (BOrganizations orgs)).

Definition handleCreateOrganization (body : result GoError OrganizationRequest) (r : Request)
    : Handler Reply :=
  only "POST" r (
    req ← unwrap bad_payload body;
    if TrimSpace (oq_Name req) =s? "" then writeError (invalid_input "organization name is required")
    else
      o ← outside;
      let org := NewOrganization (out_sys o) (oq_Name req) (oq_Slug req) (oq_Description req) in
      created ← call (λ o s, CreateOrganization (out_sys o) s org);
      org ← unwrap (λ e, NewAppError ErrCodeOrgConflict (Error e) StatusBadRequest (Some e)) created;
      writeJSON StatusCreated (BOrganization org)).

(** ** Projects *)

Definition projects_reply (r : Request) (projects : list Project) : Handler Reply :=
  active ← resolveProjectID r;
  writeJSON StatusOK (BProjects projects active).

(** The projects of several organizations, one after the other. *)
Fixpoint projects_of_all (orgs : list Organization) : Handler (list Project) :=
  match orgs with
  | [] => mret []
  | o :: orgs =>
      projs ← list_projects_of (og_ID o);
      rest ← projects_of_all orgs;
      mret (projs ++ rest)
  end.

Definition handleListProjects (r : Request) : Handler Reply :=
  only "GET" r (
    user ← UserFromContext;
    let orgID := or_default (QueryGet r "organization_id") (QueryGet r "org_id") in
    match is_tenant user with
    | Some u =>
        userOrgs ← list_user_orgs (us_ID u);
        if negb (orgID =s? "") then
          if negb (existsb (λ o, og_ID o =s? orgID) userOrgs)
          then writeError (forbidden ErrCodeForbidden
                 "user not authorized to view projects for this organization")
          else projects ← list_projects_of orgID; projects_reply r projects
        else projects ← projects_of_all userOrgs; projects_reply r projects
    | None => projects ← list_projects_of orgID; projects_reply r projects
    end).

(** The organization of a new project: the one named, or the caller's first. *)
Definition project_org (req : ProjectRequest) : Handler string :=
  if pq_OrganizationID req =s? "" then
    user ← UserFromContext;
    match user with
    | Some u =>
        orgs ← list_user_orgs (us_ID u);
        mret (match orgs with o :: _ => og_ID o | [] => "" end)
    | None => mret ""
    end
  else mret (pq_OrganizationID req).

Definition handleCreateProject (body : result GoError ProjectRequest) (r : Request) : Handler Reply :=
  only "POST" r (
    req ← unwrap bad_payload body;
    if TrimSpace (pq_Name req) =s? "" then writeError (invalid_input "project name is required")
    else
      orgID ← project_org req;
      if orgID =s? "" then writeError (invalid_input "organization_id is required to create a project")
      else
        authorized_for orgID (forbidden ErrCodeForbidden "not authorized to create projects in this organization");;
        o ← outside;
        let proj := NewProject (out_sys o) orgID (pq_Name req) (pq_Slug req) (pq_Description req) in
        created ← call (λ o s, CreateProject (out_sys o) s proj);
        proj ← unwrap (λ e, NewAppError ErrCodeProjectConflict (Error e) StatusBadRequest (Some e)) created;
        writeJSON StatusCreated (BProject proj (Some (pj_ID proj)))).

Definition handleGetProject (r : Request) : Handler Reply :=
  only "GET" r (
    let id := TrimSpace (default "" (head (Split (TrimPrefix (rq_Path r) "/api/v1/projects/") "/"))) in
    id ← (if id =s? "" then resolveProjectID r else mret id);
    found ← get_project id;
    proj ← unwrap (λ e, NewAppError ErrCodeProjectNotFound (Error e) StatusNotFound
      (Some (ESentinel ErrProjectNotFound))) found;
    authorized_for (pj_OrganizationID proj)
      (forbidden ErrCodeProjectAccessDenied "user not authorized to view this project");;
    writeJSON StatusOK (BProject proj None)).

Definition handleSwitchActiveProject (body : result GoError SwitchRequest) (r : Request) : Handler Reply :=
  only "POST" r (
    req ← unwrap bad_payload body;
    let pid := or_default (sq_ProjectID req) (sq_ProjectIDCamel req) in
    if pid =s? "" then
      writeError (NewAppError ErrCodeProjectRequired "project_id is required" StatusBadRequest
        (Some (ESentinel ErrInvalidInput)))
    else
      found ← get_project pid;
      proj ← unwrap (λ _, NewAppError ErrCodeProjectNotFound ("project not found: " +:+ sq_ProjectID req)
        StatusNotFound (Some (ESentinel ErrProjectNotFound))) found;
      authorized_for (pj_OrganizationID proj)
        (forbidden ErrCodeProjectAccessDenied "user not authorized to switch to this project");;
      writeJSON StatusOK (BProject proj (Some (pj_ID proj)))).

(** ** Invitations *)

Definition authenticated (r : Request) : Handler User :=
  found ← getUserFromRequest r;
  unwrap (λ e, NewAppError ErrCodeUnauthorized "Unauthorized" StatusUnauthorized (Some e)) found.

(** The organization a request names, or else the caller's first. *)
Definition named_or_first (orgID : string) (user : User) : Handler string :=
  if orgID =s? "" then
    orgs ← list_user_orgs (us_ID user);
    mret (match orgs with o :: _ => og_ID o | [] => "" end)
  else mret orgID.

Definition handleListInvitations (r : Request) (user : User) : Handler Reply :=
  orgID ← named_or_first (QueryGet r "organization_id") user;
  invitations ← read (λ o s, ListOrgInvitations (out_order o OrgInvitation (ms_orgInvitations s)) orgID);
  writeJSON StatusOK (BInvitations invitations).

(** The role of the caller among the members the store lists. *)
Definition caller_role (user : User) (members : list OrgMember) : string :=
  match list_find (λ m, om_UserID m = us_ID user) members with
  | Some (_, m) => om_Role m
  | None => ""
  end.

Definition may_invite (user : User) (org : Organization) (role : string) : Handler () :=
  if us_Role user =s? RoleAdmin then mret ()
  else
    members ← read (λ o s, ListOrgMembers (out_order o OrgMember (ms_orgMembers s)) (og_ID org));
    let callerRole := caller_role user members in
    if negb (callerRole =s? "owner") && negb (callerRole =s? "admin")
    then writeError (forbidden ErrCodeForbidden "Only organization owners and admins can invite new members")
    else if negb (callerRole =s? "owner") && ((role =s? "admin") || (role =s? "owner"))
    then writeError (forbidden ErrCodeForbidden "Only organization owners can invite admins or owners")
    else mret ().

Definition handleCreateInvitation (body : result GoError InviteRequest) (user : User) : Handler Reply :=
  req ← unwrap bad_payload body;
  orgID ← named_or_first (iq_OrganizationID req) user;
  let role := or_default (iq_Role req) "developer" in
  found ← read (λ _ s, GetOrganization s orgID);
  org ← unwrap (λ e, NewAppError ErrCodeNotFound "Organization not found" StatusNotFound (Some e)) found;
  may_invite user org role;;
  inv ← call (λ o s, CreateOrgInvitation (out_sys o) s
    (mkInvitation "" (og_ID org) (og_Name org) (TrimSpace (ToLower (iq_Email req))) "" role (us_Email user)
       time_zero None time_zero));
  writeJSON StatusCreated (BInvitation inv).

Definition handleInvitations (body : result GoError InviteRequest) (r : Request) : Handler Reply :=
  user ← authenticated r;
  if rq_Method r =s? "GET" then handleListInvitations r user
  else if rq_Method r =s? "POST" then handleCreateInvitation body user
  else writeText StatusMethodNotAllowed "Method Not Allowed".

Definition handleGetInvitationByToken (r : Request) : Handler Reply :=
  let parts := Split (Trim (rq_Path r) "/") "/" in
  if (length parts <? 4)%nat then writeText StatusBadRequest "invalid invitation token path"
  else
    let token := default "" (last parts) in
    found ← read (λ o s, GetOrgInvitation (out_sys o) s token);
    inv ← unwrap (λ e, NewAppError ErrCodeNotFound (Error e) StatusNotFound (Some e)) found;
    writeJSON StatusOK (BInvitation inv).

Definition handleAcceptInvitation (body : result GoError string) (r : Request) : Handler Reply :=
  only "POST" r (
    user ← authenticated r;
    token ← unwrap bad_payload body;
    found ← read (λ o s, GetOrgInvitation (out_sys o) s token);
    inv ← unwrap (λ e, NewAppError ErrCodeNotFound (Error e) StatusNotFound (Some e)) found;
    if negb (iv_Email inv =s? "") && negb (us_Email user =s? "") && negb (EqualFold (us_Email user) (iv_Email inv))
    then writeError (forbidden ErrCodeForbidden
           ("Invitation was issued for " +:+ iv_Email inv +:+ ", but accepted by " +:+ us_Email user))
    else
      accepted ← call (λ o s, AcceptOrgInvitation (out_sys o) s token (us_ID user));
      member ← unwrap (λ e, NewAppError ErrCodeNotFound (Error e) StatusNotFound (Some e)) accepted;
      projs ← list_projects_of (om_OrganizationID member);
      writeJSON StatusOK (BMember member (pj_ID <$> head projs))).

End Tenancy.

(** * Tenants in the API

    What the project handlers show and create stays in the organizations of the
    caller; who may invite whom; and what the listing of invitations gives away. *)

Section Facts.
Context `{GoRuntime}.

(** ** The organizations of the caller *)

(** An administrator, and a caller without an account, is not confined. *)
Definition reaches_org (s : MemoryStore) (user : option User) (orgID : string) : Prop :=
  match is_tenant user with
  | None => True
  | Some u => ∃ x org, ms_orgs s !! x = Some org ∧ og_ID org = orgID ∧ org_open s (us_ID u) org = true
  end.

Lemma wp_authorized_for srv orgID refusal (Q : () → World → Prop) E w :
  all_fair srv →
  (∀ n, reaches_org (wd_store w) (wd_user w) orgID → Q () (w <| wd_step := n |>)) →
  (∀ n, E (error_reply refusal) (w <| wd_step := n |>)) →
  wp srv (authorized_for orgID refusal) Q E w.
Proof.
  intros Hf HQ HE. unfold authorized_for. apply wp_bind, wp_user. unfold reaches_org in HQ.
  destruct (is_tenant (wd_user w)) as [u|].
  - apply wp_bind, wp_list_user_orgs; [apply Hf|]. intros orgs Horgs.
    destruct (existsb (λ o, og_ID o =s? orgID) orgs) eqn:E0; [|apply wp_writeError, HE].
    apply wp_ret, HQ. apply existsb_exists in E0 as (org & Ho & E0%str_eqb_eq).
    apply list_elem_of_In in Ho. destruct (Horgs org Ho) as [[x Hx] Hopen]. by exists x, org.
  - apply wp_ret. specialize (HQ (wd_step w) I). by destruct w.
Qed.

(** ** Listings *)

Lemma elem_of_ListProjects o s orgID p :
  fair o → orgID ≠ "" → p ∈ ListProjects (out_order o Project (ms_projects s)) orgID →
  pj_OrganizationID p = orgID ∧ ∃ k, ms_projects s !! k = Some p.
Proof.
  intros Hf Hne [Hp Hsel]%elem_of_collect. rewrite (proj2 (str_eqb_neq _ _) Hne) in Hsel. simpl in Hsel.
  split; [by apply str_eqb_eq|by eapply fair_elem].
Qed.

Lemma wp_projects_of_all srv (orgs : list Organization) (Q : list Project → World → Prop) E w :
  all_fair srv → Forall (λ o, og_ID o ≠ "") orgs →
  (∀ ps n, (∀ p, p ∈ ps → ∃ o, o ∈ orgs ∧ pj_OrganizationID p = og_ID o) → Q ps (w <| wd_step := n |>)) →
  wp srv (projects_of_all orgs) Q E w.
Proof.
  intros Hf. revert Q w. induction orgs as [|o orgs IH]; intros Q w Hne HQ; cbn [projects_of_all].
  - apply wp_ret. specialize (HQ [] (wd_step w)). destruct w. apply HQ. by intros p ?%elem_of_nil.
  - apply Forall_cons in Hne as [Ho Hne]. apply wp_bind, wp_read, wp_bind, IH; [done|].
    intros ps n Hps. apply wp_ret, (HQ _ n). intros p [Hp | Hp]%elem_of_app.
    + apply elem_of_ListProjects in Hp as [Hp _]; [|apply Hf|done]. exists o. split; [by left|done].
    + destruct (Hps p Hp) as (o' & Ho' & E'). exists o'. split; [by right|done].
Qed.

(** A reply that lists projects lists projects of the caller's organizations. *)
Definition own_projects (s : MemoryStore) (user : option User) (rep : Reply) : Prop :=
  match rp_Body rep with
  | BProjects ps _ => ∀ p, p ∈ ps → reaches_org s user (pj_OrganizationID p)
  | _ => True
  end.

Lemma own_projects_error s user err : own_projects s user (error_reply err).
Proof. unfold own_projects. pose proof (error_reply_body err). by destruct (rp_Body (error_reply err)). Qed.

Lemma wp_projects_reply srv r ps s user w :
  (∀ p, p ∈ ps → reaches_org s user (pj_OrganizationID p)) →
  wp srv (projects_reply r ps) (λ rep _, own_projects s user rep) (λ rep _, own_projects s user rep) w.
Proof.
  intros Hps. unfold projects_reply, wp, mbind, handler_bind.
  pose proof (returns_resolveProject r srv w) as [a Ha].
  destruct (resolveProjectID r srv w) as [w' res]. simpl in Ha. subst res. exact Hps.
Qed.

(** Listing projects does not cross tenants: the reply to a caller that is not
    an administrator holds projects of organizations that are open to it, and
    no others, whatever organization the request names. *)
Theorem project_listing_isolated (srv : Server) (r : Request) (w : World) :
  all_fair srv → named_tenants (wd_store w) →
  own_projects (wd_store w) (wd_user w) (serve srv (handleListProjects r) w).2.
Proof.
  intros Hf [_ Hn]. apply (wp_serve srv _ w (λ _ rep, own_projects (wd_store w) (wd_user w) rep)).
  unfold handleListProjects, only. destruct (negb _); [done|].
  apply wp_bind, wp_user. unfold reaches_org.
  destruct (is_tenant (wd_user w)) as [u|] eqn:Eu.
  - apply wp_bind, wp_list_user_orgs; [apply Hf|]. intros orgs Horgs.
    assert (∀ org, org ∈ orgs → og_ID org ≠ "" ∧ reaches_org (wd_store w) (wd_user w) (og_ID org)) as Hown.
    { intros org Ho. destruct (Horgs org Ho) as [[x Hx] Hopen]. split; [by apply (Hn x)|].
      unfold reaches_org. rewrite Eu. by exists x, org. }
    destruct (negb (or_default _ _ =s? "")).
    + destruct (existsb _ orgs) eqn:E; [|apply wp_writeError, own_projects_error]. cbn [negb].
      apply existsb_exists in E as (org & Ho%list_elem_of_In & E%str_eqb_eq).
      apply wp_bind, wp_read, wp_projects_reply. intros p Hp.
      destruct (Hown org Ho) as [Hne Hre]. rewrite <- E in Hp.
      apply elem_of_ListProjects in Hp as [-> _]; [done|apply Hf|done].
    + apply wp_bind, wp_projects_of_all; [done| |].
      * apply Forall_forall. intros org Ho. by apply Hown.
      * intros ps n Hps. apply wp_projects_reply. intros p Hp. destruct (Hps p Hp) as (o & Ho & ->).
        by apply Hown.
  - apply wp_bind, wp_read, wp_projects_reply. intros p _. unfold reaches_org. by rewrite Eu.
Qed.

(** ** Creation *)

Lemma CreateProject_table sys s proj k p :
  ms_projects (CreateProject sys s proj).1 !! k = Some p →
  ms_projects s !! k = Some p ∨ pj_OrganizationID p = pj_OrganizationID proj.
Proof.
  unfold CreateProject. intros Hk. repeat case_match; cbn in Hk; try (by left);
    rewrite !lookup_insert_Some in Hk; destruct Hk as [[_ <-] | [_ [[_ <-] | [_ [[_ <-] | [_ ?]]]]]]; by (right + left).
Qed.

(** A project is created in an organization of its creator: every project that
    the table has after the request and had not before belongs to an
    organization that is open to the caller, unless the caller is an
    administrator. *)
Theorem project_creation_isolated (srv : Server) (body : result GoError ProjectRequest) (r : Request)
    (w : World) (k : string) (p : Project) :
  all_fair srv →
  ms_projects (wd_store (serve srv (handleCreateProject body r) w).1) !! k = Some p →
  ms_projects (wd_store w) !! k = Some p ∨
  reaches_org (wd_store w) (wd_user w) (pj_OrganizationID p).
Proof.
  intros Hf. apply (wp_serve srv _ w (λ w' _, ms_projects (wd_store w') !! k = Some p → _)).
  unfold handleCreateProject, only. destruct (negb _); [by left|].
  apply wp_bind, wp_unwrap. destruct body as [req|e]; [|by left].
  case_if; [by left|]. apply wp_bind.
  assert (∀ orgID n, wp srv
    (if orgID =s? "" then writeError (invalid_input "organization_id is required to create a project")
     else authorized_for orgID (forbidden ErrCodeForbidden "not authorized to create projects in this organization");;
       o ← outside;
       let proj := NewProject (out_sys o) orgID (pq_Name req) (pq_Slug req) (pq_Description req) in
       created ← call (λ o s, CreateProject (out_sys o) s proj);
       proj ← unwrap (λ e, NewAppError ErrCodeProjectConflict (Error e) StatusBadRequest (Some e)) created;
       writeJSON StatusCreated (BProject proj (Some (pj_ID proj))))
    (λ _ w', ms_projects (wd_store w') !! k = Some p →
       ms_projects (wd_store w) !! k = Some p ∨ reaches_org (wd_store w) (wd_user w) (pj_OrganizationID p))
    (λ _ w', ms_projects (wd_store w') !! k = Some p →
       ms_projects (wd_store w) !! k = Some p ∨ reaches_org (wd_store w) (wd_user w) (pj_OrganizationID p))
    (w <| wd_step := n |>)) as Hrest.
  { intros orgID n. destruct (orgID =s? "") eqn:Eo; [by left|]. simp_bool.
    apply wp_bind, wp_authorized_for; [done| |by left]. intros m Hreach. cbn [wd_store wd_user] in Hreach.
    apply wp_bind, wp_outside. cbv zeta. apply wp_bind, wp_call. cbv zeta.
    set (proj := NewProject _ _ _ _ _). set (res := CreateProject _ _ proj).
    assert (ms_projects res.1 !! k = Some p →
      ms_projects (wd_store w) !! k = Some p ∨ reaches_org (wd_store w) (wd_user w) (pj_OrganizationID p)) as Hres.
    { assert (pj_OrganizationID proj = orgID) as Hp.
      { unfold proj, NewProject, or_default. by rewrite (proj2 (str_eqb_neq _ _) Eo). }
      intros [? | ->]%CreateProject_table; [by left|right; by rewrite Hp]. }
    clearbody res. apply wp_bind, wp_unwrap. by destruct (res.2). }
  unfold project_org. case_if; [|apply wp_ret; specialize (Hrest (pq_OrganizationID req) (wd_step w)); by destruct w].
  apply wp_bind, wp_user. destruct (wd_user w) as [u|] eqn:Eu.
  - apply wp_bind, wp_list_user_orgs; [apply Hf|]. intros orgs _. apply wp_ret. apply Hrest.
  - apply wp_ret. specialize (Hrest "" (wd_step w)). by destruct w.
Qed.

(** ** Invitations *)

(** Who may invite to an organization with a role. *)
Definition may_issue (s : MemoryStore) (user : User) (orgID role : string) : Prop :=
  us_Role user = RoleAdmin ∨
  ∃ k m, ms_orgMembers s !! k = Some m ∧ om_OrganizationID m = orgID ∧ om_UserID m = us_ID user ∧
    (om_Role m = "owner" ∨ om_Role m = "admin" ∧ role ≠ "admin" ∧ role ≠ "owner").

Lemma wp_may_invite srv user org role (Q : () → World → Prop) E w :
  all_fair srv →
  (∀ n, may_issue (wd_store w) user (og_ID org) role → Q () (w <| wd_step := n |>)) →
  (∀ n err, E (error_reply err) (w <| wd_step := n |>)) →
  wp srv (may_invite user org role) Q E w.
Proof.
  intros Hf HQ HE. unfold may_invite. destruct (us_Role user =s? RoleAdmin) eqn:Er.
  - apply wp_ret. specialize (HQ (wd_step w)). destruct w. apply HQ. left. by apply str_eqb_eq.
  - apply wp_bind, wp_read. set (members := ListOrgMembers _ _).
    unfold caller_role. destruct (list_find (λ m, om_UserID m = us_ID user) members) as [[i m]|] eqn:E0.
    + apply list_find_Some in E0 as (Hi & Hu & _). apply list_elem_of_lookup_2 in Hi.
      apply elem_of_collect in Hi as [Hi Ho%str_eqb_eq]. apply fair_elem in Hi as [k Hk]; [|apply Hf].
      destruct (om_Role m =s? "owner") eqn:Eo; cbn [negb andb].
      * apply wp_ret, HQ. right. exists k, m. split_and!; [done..|]. left. by apply str_eqb_eq.
      * destruct (om_Role m =s? "admin") eqn:Ea; cbn [negb]; [|apply wp_writeError, HE].
        destruct ((role =s? "admin") || (role =s? "owner")) eqn:Ero; [apply wp_writeError, HE|].
        apply wp_ret, HQ. right. exists k, m. split_and!; [done..|]. right. simp_bool. done.
    + cbn [negb andb]. apply wp_writeError, HE.
Qed.

Lemma CreateOrgInvitation_table sys s inv k i :
  iv_Role inv ≠ "" →
  ms_orgInvitations (CreateOrgInvitation sys s inv).1 !! k = Some i →
  ms_orgInvitations s !! k = Some i ∨ iv_OrganizationID i = iv_OrganizationID inv ∧ iv_Role i = iv_Role inv.
Proof.
  intros Hr. unfold CreateOrgInvitation. cbn [fst].
  set (i1 := inv <| iv_ID := _ |>).
  match goal with |- context [<[_ := ?x]> (<[_ := ?x]> _)] => set (i2 := x) end.
  assert (iv_OrganizationID i2 = iv_OrganizationID inv ∧ iv_Role i2 = iv_Role inv) as [Ho Hr2].
  { unfold i2, i1. split.
    - cbn. by repeat (case_match; cbn).
    - cbn. assert (or_default (iv_Role inv) "developer" = iv_Role inv) as E
        by (unfold or_default; by rewrite (proj2 (str_eqb_neq _ _) Hr)).
      by repeat (case_match; cbn). }
  clearbody i2. cbn. rewrite !lookup_insert_Some. intros [[_ <-] | [_ [[_ <-] | [_ ?]]]]; auto.
Qed.

(** Nobody hands out more than they have: an invitation that is in the store
    after the request and was not there before was issued by an administrator,
    by an owner of its organization, or by an admin of its organization for a
    role that is neither owner nor admin. *)
Theorem invitation_roles_bounded (srv : Server) (body : result GoError InviteRequest) (user : User) (w : World)
    (k : string) (inv : OrgInvitation) :
  all_fair srv →
  ms_orgInvitations (wd_store (serve srv (handleCreateInvitation body user) w).1) !! k = Some inv →
  ms_orgInvitations (wd_store w) !! k = Some inv ∨
  may_issue (wd_store w) user (iv_OrganizationID inv) (iv_Role inv).
Proof.
  intros Hf. set (P := λ w', ms_orgInvitations (wd_store w') !! k = Some inv →
    ms_orgInvitations (wd_store w) !! k = Some inv ∨
    may_issue (wd_store w) user (iv_OrganizationID inv) (iv_Role inv)).
  apply (wp_serve srv _ w (λ w' _, P w')). unfold handleCreateInvitation.
  apply wp_bind, wp_unwrap. destruct body as [req|e]; [|by left]. apply wp_bind.
  set (role := or_default (iq_Role req) "developer").
  assert (role ≠ "") as Hrole by (by apply or_default_neq_empty).
  match goal with |- wp _ _ (λ orgID, wp srv (@?f orgID) _ _) _ _ =>
    assert (∀ orgID n, wp srv (f orgID) (λ _ w', P w') (λ _ w', P w') (w <| wd_step := n |>)) as Hrest end.
  { intros orgID n. apply wp_bind, wp_read, wp_bind, wp_unwrap.
    destruct (GetOrganization _ orgID) as [org|e]; [|by left].
    apply wp_bind, wp_may_invite; [done| |by left]. intros m Hmay.
    apply wp_bind, wp_call. cbv zeta. apply wp_ret. unfold P. cbn [wd_store].
    intros [Hin | [-> ->]]%CreateOrgInvitation_table; [by left|by right|done]. }
  unfold named_or_first. case_if; [|apply wp_ret; specialize (Hrest (iq_OrganizationID req) (wd_step w)); by destruct w].
  apply wp_bind, wp_list_user_orgs; [apply Hf|]. intros orgs _. apply wp_ret. apply Hrest.
Qed.

End Facts.

(** ** Instances *)

Local Existing Instance sample_runtime.
Local Existing Instance lib_demo.

Definition bob_world : World := demo_world <| wd_user := Some bob |>.

Lemma project_listing_isolated_witness :
  own_projects (wd_store bob_world) (wd_user bob_world)
    (serve demo_server (handleListProjects (as_user "bob" "shop" "GET" "/api/v1/projects")) bob_world).2.
Proof.
  exact (project_listing_isolated demo_server (as_user "bob" "shop" "GET" "/api/v1/projects") bob_world
    demo_fair demo_tenants).
Defined.

(** Bob sees the project of his organization. *)
Example bob_lists :
  rp_Body (serve demo_server (handleListProjects (as_user "bob" "shop" "GET" "/api/v1/projects"))
    bob_world).2 = BProjects [project "shop" "org_acme"] "shop".
Proof. vm_compute. reflexivity. Qed.

Definition new_project (org : string) : result GoError ProjectRequest :=
  Ok (mkProjRequest org "Labs" "labs" "").

Definition labs : Project := mkProject "proj_1_1" "org_acme" 0 "Labs" "labs" "" 2 2.

Lemma project_creation_isolated_witness :
  ms_projects demo_store !! "labs" = Some labs ∨ reaches_org (wd_store bob_world) (wd_user bob_world) "org_acme".
Proof.
  refine (project_creation_isolated demo_server (new_project "org_acme")
    (as_user "bob" "shop" "POST" "/api/v1/projects") bob_world "labs" labs demo_fair _).
  vm_compute. reflexivity.
Defined.

(** Eve, an owner, invites a co-owner. *)
Definition invite_boss : result GoError InviteRequest := Ok (mkInvite "org_acme" "boss@acme.dev" "owner").

Definition invited_world : World := (serve demo_server (handleCreateInvitation invite_boss eve) demo_world).1.

Definition boss_invitation : OrgInvitation :=
  mkInvitation "inv_2_2" "org_acme" "Acme" "boss@acme.dev" "inv_2" "owner" "eve@acme.dev" 604800000000002 None 2.

Lemma invitation_roles_bounded_witness :
  ms_orgInvitations (wd_store demo_world) !! "inv_2" = Some boss_invitation ∨
  may_issue (wd_store demo_world) eve (iv_OrganizationID boss_invitation) (iv_Role boss_invitation).
Proof.
  refine (invitation_roles_bounded demo_server invite_boss eve demo_world "inv_2" boss_invitation demo_fair _).
  vm_compute. reflexivity.
Defined.

(** An outsider without an organization. *)
Definition mal : User := person "mal" "Mallory" RoleDeveloper.

Definition outsider_world : World :=
  invited_world <| wd_store := wd_store invited_world
    <| ms_users := put_user mal (ms_users (wd_store invited_world)) |>
    <| ms_sessions := <["s-mal" := mkSession "s-mal" "mal" None 1000 0]> (ms_sessions (wd_store invited_world)) |> |>.

Definition list_acme_invitations : Request :=
  mkRequest "GET" "/api/v1/invitations" "flags.acme.dev" true "10.0.0.1" ∅ [(CookieSessionName, "s-mal")]
    {[ "organization_id" := "org_acme" ]}.

Definition first_invitation (rep : Reply) : option OrgInvitation :=
  match rp_Body rep with BInvitations l => head l | _ => None end.

(** The list of invitations is an open door: any user with a session names an
    organization it does not belong to and gets that organization's pending
    invitations with their tokens; signing up with the invited address, which is
    never verified, and the token, it becomes an owner of the organization. *)
Theorem invitation_listing_takes_over :
  let '(w1, rep1) := run (handleInvitations invite_boss) list_acme_invitations outsider_world in
  let signup := mkSignUp "Boss" (iv_Email boss_invitation) "Sup3r-Secret" "" (iv_Token boss_invitation) in
  let '(w2, rep2) := run (handleSignUp (Ok signup)) (request "POST" "/api/v1/auth/signup" [] []) w1 in
  first_invitation rep1 = Some boss_invitation ∧
  existsb (λ m, om_UserID m =s? "mal") (map_to_list (ms_orgMembers (wd_store outsider_world))).*2 = false ∧
  rp_Status rep2 = 201%Z ∧
  match rp_Body rep2 with
  | BUser user _ _ =>
      (λ m, (om_OrganizationID m, om_Role m)) <$> ms_orgMembers (wd_store w2) !! member_key "org_acme" (us_ID user)
      = Some ("org_acme", "owner")
  | _ => False
  end.
Proof. vm_compute. done. Qed.
