(* ===== verification/ApiAudit.v ===== *)
(** * The audit trail and backups in the API
    ([pkg/api/handlers_audit.go], [pkg/api/handlers_admin.go],
    [pkg/api/handlers_backup.go]) *)

From S2P Require Import Prelude GoFloat GoStrings GoTime Sha256 Errors Domain Engine Entities StoreState.
From S2P Require Import StoreAudit Http Auth Access ApiFlags ApiTenancy Backup.

(** [t.AddDate(0, 0, -days)] of a time in UTC. *)
Definition days_before (days : Z) (t : Time) : Time := (t - days * (24 * Hour))%Z.

(** ** Cells *)

Section Audit.
Context `{GoRuntime}.

Definition sanitizeCSVCell (val : string) : string :=
  match TrimSpace val with
  | String c _ => if existsb (Ascii.eqb c) ["="; "+"; "-"; "@"]%char then "'" +:+ val else val
  | EmptyString => val
  end.

Definition csv_header : list string :=
  ["id"; "project_id"; "timestamp"; "actor"; "action"; "flag_key"; "environment"; "details"; "prev_hash";
   "entry_hash"].

Definition csv_row (l : AuditLogEntry) : list string :=
  [sanitizeCSVCell (al_ID l); sanitizeCSVCell (al_ProjectID l); FormatRFC3339Nano (al_Timestamp l);
   sanitizeCSVCell (al_Actor l); sanitizeCSVCell (al_Action l); sanitizeCSVCell (al_FlagKey l);
   sanitizeCSVCell (al_Environment l); sanitizeCSVCell (al_Details l); sanitizeCSVCell (al_PrevHash l);
   sanitizeCSVCell (al_EntryHash l)].

(** ** Reading *)

(** A limit that is not a number is ignored. *)
Definition handleGetAuditLogs (r : Request) : Handler Reply :=
  let l := QueryGet r "limit" in
  let limit := if l =s? "" then 50%Z else default 50%Z (Atoi l) in
  projectID ← resolveProjectID r;
  logs ← read (λ _ s, ListAuditLogsByProject s projectID limit);
  writeJSON StatusOK (BAuditLogs projectID logs).

Definition handleVerifyAuditChain (r : Request) : Handler Reply :=
  only "GET" r (
    projectID ← resolved r;
    result ← read (λ o s, VerifyAuditLogIntegrity (out_sys o) s projectID);
    writeJSON StatusOK (BIntegrity result)).

Definition bad_request (msg : string) : GoError := NewAppError ErrCodeBadRequest msg StatusBadRequest None.

(** A bound of the export: none, or a time. *)
Definition time_param (r : Request) (name : string) : Handler (option Time) :=
  let text := QueryGet r name in
  if text =s? "" then mret None
  else
    match ParseRFC3339 text with
    | Some t => mret (Some t)
    | None =>
        match ParseRFC3339 text with
        | Some t => mret (Some t)
        | None => writeError (bad_request ("invalid '" +:+ name +:+ "' timestamp: must be RFC3339"))
        end
    end.

Definition export_limit (r : Request) : Z :=
  let l := QueryGet r "limit" in
  let limit :=
    if l =s? "" then 1000%Z
    else match Atoi l with Some val => if (0 <? val)%Z then val else 1000%Z | None => 1000%Z end in
  if (10000 <? limit)%Z then 10000%Z else limit.

(** What the export writes, in each of the three formats. *)
Definition export_body (format projectID : string) (logs : list AuditLogEntry) : Body :=
  if format =s? "csv" then BAuditFile (csv_header :: (csv_row <$> logs)) else BAuditLogs projectID logs.

Definition handleExportAuditLogs (r : Request) : Handler Reply :=
  only "GET" r (
    projectID ← resolved r;
    let format := or_default (ToLower (TrimSpace (QueryGet r "format"))) "csv" in
    if negb (existsb (String.eqb format) ["csv"; "json"; "ndjson"])
    then writeError (bad_request "unsupported export format: must be 'csv', 'json', or 'ndjson'")
    else
      from ← time_param r "from";
      to ← time_param r "to";
      logs ← read (λ _ s, ExportAuditLogs s projectID from to (export_limit r));
      writeJSON StatusOK (export_body format projectID logs)).

(** ** Purging *)

(** The decoded body; a body that does not decode counts as empty. *)
Record PurgeRequest := mkPurge { pr_Before : option Time; pr_RetentionDays : Z }.

(** The time to purge before: [None] when the request and the environment give
    none. *)
Definition purge_before (req : PurgeRequest) (r : Request) (retention : string) (now : Time) : option Time :=
  let days :=
    if (0 <? pr_RetentionDays req)%Z then pr_RetentionDays req
    else match Atoi (QueryGet r "retention_days") with
         | Some val => if (0 <? val)%Z then val else pr_RetentionDays req
         | None => pr_RetentionDays req
         end in
  let before :=
    match pr_Before req with
    | Some t => Some t
    | None => if QueryGet r "before" =s? "" then None else ParseRFC3339 (QueryGet r "before")
    end in
  if (0 <? days)%Z then Some (days_before days now)
  else match before with
       | Some t => Some t
       | None =>
           match Atoi retention with
           | Some days => if (0 <? days)%Z then Some (days_before days now) else None
           | None => None
           end
       end.

Definition purge_entry (projectID actor : string) (now : Time) (count : nat) (before : Time) : AuditLogEntry :=
  mkAudit "" projectID now actor "AUDIT_LOGS_PURGED" "audit-logs" "all"
    ("Purged " +:+ Itoa (Z.of_nat count) +:+ " audit logs before " +:+ FormatRFC3339 before) "" "".

Definition handlePurgeAuditLogs (req : PurgeRequest) (r : Request) : Handler Reply :=
  only "POST" r (
    projectID ← resolved r;
    u ← UserFromContext;
    if match u with Some _ => negb (IsPrivileged u) | None => false end
    then writeError (NewAppError ErrCodeForbidden "Admin or Owner role required to purge audit logs"
           StatusForbidden None)
    else
      actor ← getActorFromRequest r "admin@flagura.dev";
      retention ← Getenv "FLAGURA_AUDIT_RETENTION_DAYS";
      o ← outside;
      let before := default time_zero (purge_before req r retention (sys_now (out_sys o) 0)) in
      if IsZero before then writeError (bad_request "'retention_days' or 'before' timestamp is required")
      else if After before (sys_now (out_sys o) 1)
      then writeError (bad_request "cannot purge audit logs with a future timestamp")
      else
        purgedCount ← call (λ _ s, PurgeAuditLogs s projectID before);
        o ← outside;
        call (λ o' s, AppendAuditLog (out_sys o') s
                        (purge_entry projectID actor (sys_now (out_sys o) 0) purgedCount before));;
        writeJSON StatusOK (BPurged projectID purgedCount before)).

(** ** Backups *)

(** No handler puts an API key into the context, so that the second test never
    succeeds. *)
Definition isBackupAuthorized (user : option User) (apiKeyInContext : option APIKey) : bool :=
  match user with
  | Some _ => IsPrivileged user
  | None => false
  end ||
  match apiKeyInContext with
  | Some k => ak_Role k =s? RoleAdmin
  | None => false
  end.

Definition backup_refused : GoError :=
  NewAppError ErrCodeForbidden "Admin or Organization Owner privileges required for backup operations"
    StatusForbidden None.

Definition handleExportBackup (r : Request) : Handler SnapshotData :=
  if negb (rq_Method r =s? "GET") then writeText StatusMethodNotAllowed "Method Not Allowed"
  else
    user ← UserFromContext;
    if negb (isBackupAuthorized user None) then writeError backup_refused
    else read CreateSnapshot.

Definition handleImportBackup `{SnapshotCodec} (body : string) (r : Request) : Handler SnapshotData :=
  if negb (rq_Method r =s? "POST") then writeText StatusMethodNotAllowed "Method Not Allowed"
  else
    user ← UserFromContext;
    if negb (isBackupAuthorized user None)
    then writeError (NewAppError ErrCodeForbidden
           "Admin or Organization Owner privileges required for restore operations" StatusForbidden None)
    else
      restored ← call (λ o s, RestoreSnapshot (λ _ _, out_sys o) body s);
      unwrap (λ e, NewAppError ErrCodeMalformedPayload ("failed to restore snapshot: " +:+ Error e)
        StatusBadRequest (Some e)) restored.

End Audit.
