(* ===== verification/ApiAuditFacts.v ===== *)
(** * The audit trail and backups in the API: what is exported, purged and recorded *)

From S2P Require Import Prelude GoFloat GoStrings GoTime Sha256 Errors Domain Engine Entities StoreState.
From S2P Require Import StoreAudit StoreIdentity StoreIdentityFacts StoreTenancy StoreFlags StoreFlagsFacts Http Auth.
From S2P Require Import Access ApiFlags ApiAuth ApiKeys ApiRoutes AuthFacts AccessFacts ApiFlagsFacts ApiExamples.
From S2P Require Import HandlerFacts ApiTenancy Backup ApiAudit.

(** ** Cells *)

(** No encoding of a space begins with a single quote. *)
Lemma quote_not_space s : leading_space (String "'" s) = None.
Proof. reflexivity. Qed.

Lemma spaces_not_quote p : p ∈ go_spaces → ∃ c p', p = String c p' ∧ c ≠ "'"%char.
Proof.
  intros Hp. assert (Forall (λ p, match p with String c _ => c ≠ "'"%char | _ => False end) go_spaces) as Hall.
  { vm_compute. repeat constructor; discriminate. }
  rewrite Forall_forall in Hall. specialize (Hall p Hp). destruct p as [|c p]; [done|]. eauto.
Qed.

Lemma trim_right_quote fuel s : ∃ s', trim_right_space fuel (String "'" s) = String "'" s'.
Proof.
  revert s. induction fuel as [|fuel IH]; intros s; cbn [trim_right_space]; [by eexists|].
  destruct (trailing_space (String "'" s)) as [p|] eqn:E; [|by eexists].
  unfold trailing_space in E. destruct (list_find _ go_spaces) as [[i q]|] eqn:Ef; [|done].
  injection E as ->. apply list_find_Some in Ef as (Hi & Hs & _).
  apply list_elem_of_lookup_2, spaces_not_quote in Hi as (c & p' & -> & Hc).
  unfold HasSuffix in Hs. apply andb_true_iff in Hs as [Hlen Hsub%str_eqb_eq].
  apply Nat.leb_le in Hlen. set (n := (String.length (String "'" s) - String.length (String c p'))%nat) in *.
  destruct n as [|n].
  - exfalso. apply Hc. revert Hsub. cbn. destruct (String.length p'); by intros [= -> _].
  - unfold str_take. cbn [String.substring]. apply IH.
Qed.

(** An exported cell is not a formula: whatever the audit trail holds, a cell
    that went through the sanitizer does not begin, after leading space, with one
    of the characters a spreadsheet takes as a formula. *)
Theorem csv_cell_inert (val : string) :
  match TrimSpace (sanitizeCSVCell val) with
  | String c _ => c ∉ ["="; "+"; "-"; "@"]%char
  | EmptyString => True
  end.
Proof.
  assert (∀ c, existsb (Ascii.eqb c) ["="; "+"; "-"; "@"]%char = false → c ∉ ["="; "+"; "-"; "@"]%char) as Hin.
  { intros c Hc Hin%list_elem_of_In. apply not_true_iff_false in Hc. apply Hc, existsb_exists.
    exists c. split; [done|apply Ascii.eqb_refl]. }
  unfold sanitizeCSVCell. destruct (TrimSpace val) as [|c t] eqn:E; [by rewrite E|].
  destruct (existsb (Ascii.eqb c) _) eqn:Ec; [|rewrite E; by apply Hin].
  unfold TrimSpace. change ("'" +:+ val) with (String "'" val).
  assert (∀ fuel, trim_left_space fuel (String "'" val) = String "'" val) as ->.
  { intros [|fuel]; [done|]. cbn [trim_left_space]. by rewrite quote_not_space. }
  destruct (trim_right_quote (String.length (String "'" val)) val) as [s' ->]. by apply Hin.
Qed.

(** ** Export *)

Lemma uses_only_logs s s' : uses_only s s' → ms_auditLogs s' = ms_auditLogs s.
Proof. intros [Hs _]. by rewrite Hs. Qed.

Lemma export_limit_range r : (0 < export_limit r ≤ 10000)%Z.
Proof.
  unfold export_limit. set (l := if _ =s? "" then 1000%Z else _).
  assert (0 < l)%Z as Hl.
  { unfold l. case_if; [lia|]. destruct (Atoi _) as [v|]; [|lia]. destruct (Z.ltb_spec 0 v); lia. }
  clearbody l. destruct (Z.ltb_spec 10000 l); lia.
Qed.

Section Facts.
Context `{GoRuntime}.

(** A reply of the export: an error, or the entries of one project. *)
Definition exports (s : MemoryStore) (allowed : string → Prop) (rep : Reply) : Prop :=
  match rp_Body rep with
  | BError _ _ _ _ | BDone | BText _ => True
  | body => ∃ format p logs, body = export_body format p logs ∧ allowed p ∧
      (Z.of_nat (length logs) ≤ 10000)%Z ∧ sublist logs (project_logs p (ms_auditLogs s))
  end.

Lemma exports_error s allowed err : exports s allowed (error_reply err).
Proof. unfold exports. pose proof (error_reply_body err). by destruct (rp_Body (error_reply err)). Qed.

Lemma wp_time_param srv r name (Q : option Time → World → Prop) (E : Reply → World → Prop) w :
  (∀ t, Q t w) → (∀ err, E (error_reply err) w) → wp srv (time_param r name) Q E w.
Proof.
  intros HQ HE. unfold time_param. case_if; [apply wp_ret, HQ|].
  destruct (ParseRFC3339 _); [apply wp_ret, HQ|].
  apply wp_writeError, HE.
Qed.

Lemma ExportAuditLogs_sublist s p from to limit :
  p ≠ "" → (0 < limit)%Z →
  (Z.of_nat (length (ExportAuditLogs s p from to limit)) ≤ limit)%Z ∧
  sublist (ExportAuditLogs s p from to limit) (project_logs p (ms_auditLogs s)).
Proof.
  intros Hp Hl. unfold ExportAuditLogs, or_default. rewrite (proj2 (str_eqb_neq _ _) Hp).
  unfold limited. rewrite (proj2 (Z.ltb_lt _ _) Hl). rewrite length_take. split; [lia|].
  etrans; [apply sublist_take|]. unfold project_logs.
  induction (ms_auditLogs s) as [|e l IH]; [done|]. rewrite !filter_cons.
  destruct (decide (export_selects p from to e = true)) as [Hs | _].
  - assert (al_ProjectID e = p) as Hp'.
    { unfold export_selects in Hs. apply andb_true_iff in Hs as [[Hs _]%andb_true_iff _]. by apply str_eqb_eq. }
    rewrite decide_True by done. by constructor.
  - case_decide; [by constructor|done].
Qed.

(** An export stays within a project and within its bounds: what a caller gets
    are at most 10000 entries of one project that it may access, in the order of
    the trail, whatever the request asks for. *)
Theorem audit_export_confined (srv : Server) (r : Request) (u : User) (w : World) :
  all_fair srv → named_tenants (wd_store w) → acts_as w u →
  exports (wd_store w) (may_access (wd_store w) r u) (serve srv (handleExportAuditLogs r) w).2.
Proof.
  intros Hf Hn Hu. set (P := exports (wd_store w) (may_access (wd_store w) r u)).
  apply (wp_serve srv _ w (λ _ rep, P rep)). unfold handleExportAuditLogs, only. destruct (negb _); [done|].
  unfold resolved. apply wp_bind, wp_bind, (wp_resolveAndAuthorizeProjectID _ _ u); [done..|].
  intros res w1 Hw1 _ Hres. apply wp_unwrap. destruct res as [p|e]; [|apply exports_error].
  destruct Hres as [Hmay Hp]. cbv zeta. destruct (negb (existsb _ _)); [apply wp_writeError, exports_error|].
  apply wp_bind, wp_time_param; [|intros; apply exports_error]. intros from.
  apply wp_bind, wp_time_param; [|intros; apply exports_error]. intros to.
  apply wp_bind, wp_read, wp_ret.
  destruct (export_limit_range r) as [Hl1 Hl2].
  destruct (ExportAuditLogs_sublist (wd_store w1) p from to (export_limit r) Hp Hl1) as [Hlen Hsub].
  set (logs := ExportAuditLogs _ _ _ _ _) in *. clearbody logs.
  rewrite (uses_only_logs _ _ (qu_store _ _ Hw1)) in Hsub.
  set (format := or_default _ _). unfold P, exports. cbn [rp_Body].
  assert (∃ f p0 l, export_body format p logs = export_body f p0 l ∧ may_access (wd_store w) r u p0 ∧
    (Z.of_nat (length l) ≤ 10000)%Z ∧ sublist l (project_logs p0 (ms_auditLogs (wd_store w)))) as Hex.
  { exists format, p, logs. split_and!; [done..|lia|done]. }
  clearbody format. revert Hex. unfold export_body at 1 3. by destruct (format =s? "csv").
Qed.

(** ** Purging *)

Lemma AppendAuditLog_grows y s e x : x ∈ ms_auditLogs s → x ∈ ms_auditLogs (AppendAuditLog y s e).1.
Proof.
  intros Hx. unfold AppendAuditLog, appendAuditLogLocked. repeat case_match; try done; cbn; by right.
Qed.

(** A purge removes what it may: an entry that is gone after the request was of
    a project that the caller may access, is older than the clock, and the caller
    is privileged there. *)
Theorem purge_confined (srv : Server) (req : PurgeRequest) (r : Request) (u : User) (w : World)
    (e : AuditLogEntry) :
  all_fair srv → named_tenants (wd_store w) → acts_as w u →
  let w' := (serve srv (handlePurgeAuditLogs req r) w).1 in
  e ∈ ms_auditLogs (wd_store w) → e ∉ ms_auditLogs (wd_store w') →
  may_access (wd_store w) r u (al_ProjectID e) ∧
  (∃ u', wd_user w' = Some u' ∧ forget_member u' = forget_member u ∧ IsPrivileged (Some u') = true) ∧
  ∃ n, (al_Timestamp e < sys_now (out_sys (sv_out srv n)) 1)%Z.
Proof.
  intros Hf Hn Hu w' He. set (P := λ w' : World, e ∉ ms_auditLogs (wd_store w') →
    may_access (wd_store w) r u (al_ProjectID e) ∧
    (∃ u', wd_user w' = Some u' ∧ forget_member u' = forget_member u ∧ IsPrivileged (Some u') = true) ∧
    ∃ n, (al_Timestamp e < sys_now (out_sys (sv_out srv n)) 1)%Z).
  apply (wp_serve srv _ w (λ w' _, P w')). clear w'.
  assert (∀ w1, quiet w w1 → P w1) as Hquiet.
  { intros w1 Hw1 Hnot. by rewrite (uses_only_logs _ _ (qu_store _ _ Hw1)) in Hnot. }
  unfold handlePurgeAuditLogs, only. destruct (negb _); [by apply (Hquiet w)|].
  apply wp_bind, (wp_resolved _ _ u); [done..| |]; [|by intros rep w1 ?; apply Hquiet].
  intros p w1 Hw1 (u' & Hu' & Hfm) Hmay Hp. apply wp_bind, wp_user. rewrite Hu'.
  destruct (negb (IsPrivileged (Some u'))) eqn:Epr; [by apply wp_writeError, Hquiet|].
  apply negb_false_iff in Epr. unfold getActorFromRequest.
  apply wp_bind, wp_bind, wp_user, wp_ret, wp_bind, wp_getenv, wp_bind, wp_outside.
  set (n := wd_step w1). set (before := default time_zero _).
  assert (∀ m, P (w1 <| wd_step := m |>)) as Hstep by (intros m; apply Hquiet; by etrans; [|apply quiet_step]).
  destruct (IsZero before); [apply wp_writeError, Hstep|].
  destruct (After before _) eqn:Ea; [apply wp_writeError, Hstep|].
  unfold After in Ea. apply Z.ltb_ge in Ea.
  apply wp_bind, wp_call. cbv zeta. apply wp_bind, wp_outside, wp_bind, wp_call. cbv zeta. apply wp_ret.
  unfold P. cbn [wd_store wd_user]. intros Hnot.
  assert (e ∉ ms_auditLogs (PurgeAuditLogs (wd_store w1) p before).1) as Hgone.
  { intros Hin. apply Hnot. by apply AppendAuditLog_grows. }
  unfold PurgeAuditLogs, or_default in Hgone. rewrite (proj2 (str_eqb_neq _ _) Hp) in Hgone. cbn in Hgone.
  rewrite list_elem_of_filter, (uses_only_logs _ _ (qu_store _ _ Hw1)) in Hgone.
  destruct (purged_by p before e) eqn:Eb; [|tauto].
  unfold purged_by in Eb. apply andb_true_iff in Eb as [<-%str_eqb_eq Hb%Z.ltb_lt].
  split; [done|]. split; [exists u'; split; [exact Hu'|done]|]. exists n. lia.
Qed.

End Facts.

(** ** Instances *)

Local Existing Instance sample_runtime.
Local Existing Instance lib_demo.


(** The demonstration server with an audit trail in the shop and in the default
    project. *)
Definition audited_world (u : User) : World :=
  demo_world <| wd_user := Some u |>
    <| wd_store := demo_store <| ms_auditLogs :=
         (AppendAuditLog (sys_at 9) (demo_store <| ms_auditLogs := ms_auditLogs demo_trail |>)
            (mkAudit "log_9" DefaultProjectID 9 "root" "FLAG_CREATED" "secret" "all" "Created" "" "")).1.(ms_auditLogs) |> |>.

Definition export_request : Request := as_user "bob" "shop" "GET" "/api/v1/audit-logs/export".

Lemma audit_export_confined_witness :
  exports (wd_store (audited_world bob)) (may_access (wd_store (audited_world bob)) export_request bob)
    (serve demo_server (handleExportAuditLogs export_request) (audited_world bob)).2.
Proof.
  refine (audit_export_confined demo_server export_request bob (audited_world bob) demo_fair _ _).
  - exact demo_tenants.
  - exact (acts_as_self (audited_world bob) bob eq_refl).
Defined.

Example bob_exports :
  match rp_Body (serve demo_server (handleExportAuditLogs export_request) (audited_world bob)).2 with
  | BAuditFile rows => length rows = 3%nat
  | _ => False
  end.
Proof. vm_compute. reflexivity. Qed.

Definition purge_request : Request := as_user "eve" "shop" "POST" "/api/v1/audit-logs/purge".

(** Everything older than the clock. *)
Definition purge_old : PurgeRequest := mkPurge (Some 6%Z) 0.

Definition late_server : Server :=
  mkServer (λ _, "") (λ n, mkOutside (sys_at (100 + Z.of_nat n)) (λ A m, map_to_list m)).

Lemma late_fair : all_fair late_server.
Proof. by intros n A m. Qed.

Definition oldest_entry : AuditLogEntry := default (demo_entry "log_1" 5) (last (ms_auditLogs demo_trail)).

Lemma purge_confined_witness :
  let w := audited_world eve in
  let w' := (serve late_server (handlePurgeAuditLogs purge_old purge_request) w).1 in
  may_access (wd_store w) purge_request eve (al_ProjectID oldest_entry) ∧
  (∃ u', wd_user w' = Some u' ∧ forget_member u' = forget_member eve ∧ IsPrivileged (Some u') = true) ∧
  ∃ n, (al_Timestamp oldest_entry < sys_now (out_sys (sv_out late_server n)) 1)%Z.
Proof.
  refine (purge_confined late_server purge_old purge_request eve (audited_world eve) oldest_entry
    late_fair _ _ _ _).
  - exact demo_tenants.
  - exact (acts_as_self (audited_world eve) eve eq_refl).
  - vm_compute. right. right. left.
  - vm_compute. intros Hin. repeat (apply elem_of_cons in Hin as [Hin | Hin]; [discriminate Hin|]).
    by apply elem_of_nil in Hin.
Defined.

Definition purges_recorded (w : World) : nat :=
  length (filter (λ e, al_Action e = "AUDIT_LOGS_PURGED") (ms_auditLogs (wd_store w))).

(** Only the first purge of a project is recorded: the entry a purge appends has
    no identifier, and the store takes a second entry without one for a
    duplicate; a second purge removes entries and leaves no trace. *)
Theorem second_purge_unrecorded :
  let '(w1, rep1) := serve late_server (handlePurgeAuditLogs purge_old purge_request) (audited_world eve) in
  let '(w2, rep2) := serve late_server (handlePurgeAuditLogs (mkPurge (Some 8%Z) 0) purge_request) w1 in
  rp_Body rep1 = BPurged "shop" 1 6 ∧ rp_Body rep2 = BPurged "shop" 1 8 ∧
  purges_recorded w1 = 1%nat ∧ purges_recorded w2 = 1%nat.
Proof. vm_compute. done. Qed.

(** A caller who is refused a project reads the trail of the default project
    instead: the handler takes the empty name for the failure of the check, and
    the store takes the empty name for the default project. *)
Theorem refused_project_reads_default :
  let r := as_user "bob" "bakery" "GET" "/api/v1/audit-logs" in
  rp_Status (serve demo_server (handleVerifyAuditChain r) (audited_world bob)).2 = 403%Z ∧
  match rp_Body (serve demo_server (handleGetAuditLogs r) (audited_world bob)).2 with
  | BAuditLogs p logs => p = "" ∧ al_FlagKey <$> logs = ["secret"]
  | _ => False
  end.
Proof. vm_compute. done. Qed.

(** A backup of everything is one key away: a developer of one organization
    creates a key with the role of an owner; the holder of the key exports the
    flags, keys and users of all organizations. *)
Theorem owner_key_exports_everything :
  let '(w1, rep) := run (create_key "mine" "owner" "production")
                      (as_user "bob" "shop" "POST" "/api/v1/api-keys") demo_world in
  let export := request "GET" "/api/v1/backup/export" [] [] in
  match handleExportBackup export demo_server (w1 <| wd_user := Some (key_user (reply_key rep)) |>),
        handleExportBackup export demo_server (w1 <| wd_user := Some bob |>) with
  | (_, inl snap), (_, inr refused) =>
      rp_Status refused = 403%Z ∧ ff_ProjectID <$> sd_Flags snap = ["bakery"; "shop"] ∧
      us_ID <$> sd_Users snap = ["eve"; "ada"; "bob"]
  | _, _ => False
  end.
Proof. vm_compute. done. Qed.
