(* ===== verification/SdkClient.v ===== *)
(** * The Go SDK's client ([sdks/go/client.go], [sdks/go/stream.go])

    The SDK evaluates remotely or on a cache of its own, with its own breaker and
    telemetry; what a request comes back with, the snapshot file and the clock are
    arguments. *)

From S2P Require Import Prelude GoFloat GoStrings GoTime Errors Domain Engine SdkEngine CircuitBreakers.
From S2P Require Import Telemetry.
Import SdkTelemetry SdkBreaker.

(** ** Configuration *)

Record SdkConfig := mkSdkConfig {
  xg_Endpoint : string;
  xg_APIKey : string;
  xg_ProjectID : string;
  xg_DefaultEnvironment : string;
  xg_LocalEvaluation : bool;
  xg_SyncInterval : Duration;
  xg_SnapshotFile : string;
  xg_CircuitBreakerThreshold : Z;
  xg_CircuitBreakerCooldown : Duration;
  xg_DisableCircuitBreaker : bool;
}.

#[export] Instance eta_SdkConfig : Eta SdkConfig :=
  {| eta_expand r := mkSdkConfig (xg_Endpoint r) (xg_APIKey r) (xg_ProjectID r) (xg_DefaultEnvironment r)
       (xg_LocalEvaluation r) (xg_SyncInterval r) (xg_SnapshotFile r) (xg_CircuitBreakerThreshold r)
       (xg_CircuitBreakerCooldown r) (xg_DisableCircuitBreaker r) |}.

Definition Option : Type := SdkConfig → SdkConfig.

Definition slash : ascii := "/".

(** [strings.TrimRight(s, "/")]. *)
Definition trim_slashes (s : string) : string := String.rev (trim_left_byte slash (String.rev s)).

Definition normalizeEndpoint (ep : string) : string :=
  let ep := TrimSpace ep in
  if ep =s? "" then "https://flagura.dev"
  else
    let ep :=
      if negb (HasPrefix ep "http://") && negb (HasPrefix ep "https://") then
        (if HasPrefix ep "localhost" || HasPrefix ep "127.0.0.1" then "http://" else "https://") +:+ ep
      else ep in
    trim_slashes ep.

Definition WithAPIKey (key : string) : Option := λ c, c <| xg_APIKey := key |>.
Definition WithEndpoint (endpoint : string) : Option := λ c, c <| xg_Endpoint := normalizeEndpoint endpoint |>.
Definition WithProjectID (projectID : string) : Option := λ c, c <| xg_ProjectID := projectID |>.
Definition WithEnvironment (env : string) : Option := λ c, c <| xg_DefaultEnvironment := env |>.
Definition WithLocalEvaluation (enabled : bool) : Option := λ c, c <| xg_LocalEvaluation := enabled |>.
Definition WithSyncInterval (d : Duration) : Option := λ c, c <| xg_SyncInterval := d |>.
Definition WithSnapshotFile (path : string) : Option := λ c, c <| xg_SnapshotFile := path |>.
Definition WithCircuitBreaker (threshold : Z) (cooldown : Duration) : Option := λ c,
  c <| xg_CircuitBreakerThreshold := threshold |> <| xg_CircuitBreakerCooldown := cooldown |>.
Definition WithDisableCircuitBreaker (disabled : bool) : Option := λ c, c <| xg_DisableCircuitBreaker := disabled |>.

Definition default_sdk_config (getenv : string → string) (endpoint apiKey : string) : SdkConfig :=
  let endpoint :=
    if endpoint =s? "" then or_default (getenv "FLAGURA_ENDPOINT") "https://flagura.dev" else endpoint in
  mkSdkConfig (normalizeEndpoint endpoint) apiKey "" EnvProduction false (30 * Second) "" 5 (10 * Second) false.

(** ** The client *)

(** [xc_updates] counts the calls of each listener: they are always told [nil]
    changed keys. *)
Record SdkClient := mkSdkClient {
  xc_config : SdkConfig;
  xc_cb : option SdkCircuitBreaker;
  xc_telemetry : telemetryBuffer;
  xc_flags : gmap string SdkFlag;
  xc_updates : nat;
  xc_disk : option (gmap string SdkFlag);
}.

#[export] Instance eta_SdkClient : Eta SdkClient :=
  {| eta_expand r := mkSdkClient (xc_config r) (xc_cb r) (xc_telemetry r) (xc_flags r) (xc_updates r) (xc_disk r) |}.

(** What a request comes back with: an error, before or at the transport; a status
    other than 200; a body that decodes or does not. *)
Inductive fetched (A : Type) : Type :=
| Failed (err : GoError)
| Status (code : Z) (body : string)
| Decoded (a : A)
| Undecoded (err : GoError).
Arguments Failed {A} err.
Arguments Status {A} code body.
Arguments Decoded {A} a.
Arguments Undecoded {A} err.

Definition saveSnapshot (c : SdkClient) : SdkClient := c <| xc_disk := Some (xc_flags c) |>.

(** A file that cannot be read, or holds no flags, changes nothing. *)
Definition loadSnapshot (c : SdkClient) : SdkClient :=
  match xc_disk c with
  | Some flags => if bool_decide (flags = ∅) then c else c <| xc_flags := flags |>
  | None => c
  end.

Definition updateLocalFlags (newFlags : gmap string SdkFlag) (c : SdkClient) : SdkClient :=
  let c := c <| xc_flags := newFlags |> in
  let c := if negb (xg_SnapshotFile (xc_config c) =s? "") then saveSnapshot c else c in
  c <| xc_updates := S (xc_updates c) |>.

Definition flag_map (flags : list SdkFlag) : gmap string SdkFlag :=
  foldl (λ m f, <[sf_Key f := f]> m) ∅ flags.

Definition syncFlags (resp : fetched (list SdkFlag)) (c : SdkClient) : SdkClient * option GoError :=
  match resp with
  | Failed e | Undecoded e => (c, Some e)
  | Status code _ => (c, Some (EText ("failed to fetch flags: status " +:+ Itoa code)))
  | Decoded flags => (updateLocalFlags (flag_map flags) c, None)
  end.

(** [NewClient], up to the goroutines it starts. *)
Definition NewClient (getenv : string → string) (endpoint apiKey : string) (opts : list Option)
    (disk : option (gmap string SdkFlag)) (resp : fetched (list SdkFlag)) : SdkClient :=
  let cfg := foldl (λ c opt, opt c) (default_sdk_config getenv endpoint apiKey) opts in
  let cb := if xg_DisableCircuitBreaker cfg then None
            else Some (sdk_NewCircuitBreaker (xg_CircuitBreakerThreshold cfg) (xg_CircuitBreakerCooldown cfg)) in
  let c := mkSdkClient cfg cb newTelemetryBuffer ∅ 0 disk in
  if xg_LocalEvaluation cfg then
    let c := if negb (xg_SnapshotFile cfg =s? "") then loadSnapshot c else c in
    (syncFlags resp c).1
  else c.

(** ** Evaluation *)

Definition sdk_failed (flagKey reason : string) : SdkResult :=
  mkSdkResult flagKey false "" AnyNil reason f64_zero 0 f64_zero.

Definition in_environment (c : SdkClient) (ctx : SdkContext) : SdkContext :=
  mkSdkContext (sc_UserID ctx) (sc_Email ctx) (sc_Country ctx) (sc_Role ctx) (sc_Tier ctx)
    (or_default (sc_Environment ctx) (xg_DefaultEnvironment (xc_config c))) (sc_Custom ctx).

Definition ErrCircuitBreakerOpen : GoError := EText
  "circuit breaker is OPEN: Flagura control plane is currently unreachable, falling back to local/cached value".

Section Evaluation.
Context `{GoRuntime}.

Definition evaluateLocal (ns : Z) (flagKey : string) (evalCtx : SdkContext) (c : SdkClient)
    : SdkResult * option GoError :=
  match xc_flags c !! flagKey with
  | None => (sdk_failed flagKey "FLAG_NOT_FOUND_IN_CACHE",
             Some (EText ("flag " +:+ rt_quote flagKey +:+ " not found in local cache")))
  | Some flag => (SdkEngine.Evaluate ns flag evalCtx, None)
  end.

(** The request of [evaluateBatchRemote]: keys and context to the results. *)
Definition SdkTransport : Type := list string → SdkContext → fetched (gmap string SdkResult).

Definition evaluateBatchRemote (send : SdkTransport) (flagKeys : list string) (evalCtx : SdkContext)
    : result GoError (gmap string SdkResult) :=
  match send flagKeys evalCtx with
  | Failed e | Undecoded e => Err e
  | Status code body => Err (EText ("server returned status " +:+ Itoa code +:+ ": " +:+ body))
  | Decoded results => Ok results
  end.

(** [t] is the time before the request, [t'] after it. *)
Definition evaluateRemote (t t' : Time) (send : SdkTransport) (flagKey : string) (evalCtx : SdkContext)
    (c : SdkClient) : SdkClient * (SdkResult * option GoError) :=
  let '(cb, allowed) :=
    match xc_cb c with
    | None => (None, true)
    | Some cb => let '(cb, b) := sdk_Allow t cb in (Some cb, b)
    end in
  let c := c <| xc_cb := cb |> in
  if negb allowed then (c, (sdk_failed flagKey "CIRCUIT_BREAKER_OPEN", Some ErrCircuitBreakerOpen))
  else
    match evaluateBatchRemote send [flagKey] evalCtx with
    | Err e =>
        (c <| xc_cb := RecordFailure t' <$> xc_cb c |>,
         (sdk_failed flagKey ("REMOTE_EVALUATION_ERROR: " +:+ Error e), Some e))
    | Ok results =>
        (c <| xc_cb := RecordSuccess <$> xc_cb c |>,
         match results !! flagKey with
         | None => (sdk_failed flagKey "FLAG_NOT_FOUND_IN_RESPONSE",
                    Some (EText ("flag " +:+ rt_quote flagKey +:+ " not found in response")))
         | Some res => (res, None)
         end)
    end.

(** [t''] is the time of the telemetry event. *)
Definition Evaluate (t t' t'' : Time) (ns : Z) (send : SdkTransport) (flagKey : string) (evalCtx : SdkContext)
    (c : SdkClient) : SdkClient * (SdkResult * option GoError) :=
  let evalCtx := in_environment c evalCtx in
  let '(c, (res, err)) :=
    if xg_LocalEvaluation (xc_config c) then (c, evaluateLocal ns flagKey evalCtx c)
    else evaluateRemote t t' send flagKey evalCtx c in
  let c :=
    match err with
    | Some _ => c
    | None =>
        c <| xc_telemetry := RecordEvent
          (mkTelemetryEvent flagKey (xg_ProjectID (xc_config c)) (sc_Environment evalCtx) (sx_Variant res)
             (sx_Enabled res) "evaluation" "" f64_zero (sc_UserID evalCtx) t'') (xc_telemetry c) |>
    end in
  (c, (res, err)).

Definition IsEnabled (t t' t'' : Time) (ns : Z) (send : SdkTransport) (flagKey : string) (evalCtx : SdkContext)
    (c : SdkClient) : SdkClient * (bool * option GoError) :=
  let '(c, (res, err)) := Evaluate t t' t'' ns send flagKey evalCtx c in
  (c, (match err with Some _ => false | None => sx_Enabled res end, err)).

Definition GetVariant (t t' t'' : Time) (ns : Z) (send : SdkTransport) (flagKey : string) (evalCtx : SdkContext)
    (c : SdkClient) : SdkClient * (string * option GoError) :=
  let '(c, (res, err)) := Evaluate t t' t'' ns send flagKey evalCtx c in
  (c, (match err with Some _ => "" | None => sx_Variant res end, err)).

(** A batch does not touch the client: neither the breaker nor the telemetry. *)
Definition EvaluateBatch (ns : Z) (send : SdkTransport) (flagKeys : list string) (evalCtx : SdkContext)
    (c : SdkClient) : result GoError (gmap string SdkResult) :=
  let evalCtx := in_environment c evalCtx in
  if xg_LocalEvaluation (xc_config c)
  then Ok (foldl (λ results key, <[key := (evaluateLocal ns key evalCtx c).1]> results) ∅ flagKeys)
  else evaluateBatchRemote send flagKeys evalCtx.

Definition Track (t : Time) (flagKey metricName : string) (value : f64) (userID : string) (c : SdkClient)
    : SdkClient :=
  c <| xc_telemetry := RecordEvent
    (mkTelemetryEvent flagKey (xg_ProjectID (xc_config c)) (xg_DefaultEnvironment (xc_config c)) "" false
       "conversion" metricName value userID t) (xc_telemetry c) |>.

End Evaluation.

(** [Close]; the buffer is flushed by its own goroutine. *)
Definition Close (c : SdkClient) : SdkClient :=
  if negb (xg_SnapshotFile (xc_config c) =s? "") then saveSnapshot c else c.

(** ** The stream *)

(** What [json.Unmarshal] makes of the data of a line: the [flags] field as a list
    or as a map of flags. *)
Class SdkStreamDecoder := {
  sdk_flag_list : string → option (list SdkFlag);
  sdk_flag_map : string → option (gmap string SdkFlag);
}.

Section Stream.
Context `{SdkStreamDecoder}.

(** One line of the stream, trimmed. *)
Definition sse_data (line : string) : option string :=
  let line := TrimSpace line in
  if HasPrefix line "data:" then
    let data := TrimSpace (TrimPrefix line "data:") in
    if (data =s? "") || (data =s? "ping") then None else Some data
  else None.

(** An empty list is not taken for an update, and an empty map is not either. *)
Definition on_line (c : SdkClient) (line : string) : SdkClient :=
  match sse_data line with
  | None => c
  | Some data =>
      match sdk_flag_list data with
      | Some (f :: flags) => updateLocalFlags (flag_map (f :: flags)) c
      | _ =>
          match sdk_flag_map data with
          | Some flags => if bool_decide (flags = ∅) then c else updateLocalFlags flags c
          | None => c
          end
      end
  end.

Definition connectSSE (lines : list string) (c : SdkClient) : SdkClient := foldl on_line c lines.

End Stream.

(** [startStreaming]: the wait before the next attempt, if any, and the backoff
    after it; [failed]: the connection ended with an error. *)
Definition next_backoff (failed : bool) (backoff : Duration) : option Duration * Duration :=
  if failed then
    (Some backoff, let b := (backoff * 2)%Z in if (30 * Second <? b)%Z then (30 * Second)%Z else b)
  else (None, (1 * Second)%Z).

(** The waits of a sequence of connections. *)
Fixpoint waits (ends : list bool) (backoff : Duration) : list Duration :=
  match ends with
  | [] => []
  | failed :: ends =>
      let '(wait, backoff) := next_backoff failed backoff in option_list wait ++ waits ends backoff
  end.

(** ** Facts *)

Section Facts.
Context `{GoRuntime}.

(** What makes an evaluation of the SDK succeed. *)
Lemma sdk_evaluateRemote_ok t t' send k ctx c res :
  (evaluateRemote t t' send k ctx c).2 = (res, None) →
  (∀ cb, xc_cb c = Some cb → (sdk_Allow t cb).2 = true) ∧
  ∃ results, send [k] ctx = Decoded results ∧ results !! k = Some res.
Proof.
  unfold evaluateRemote, evaluateBatchRemote. destruct (xc_cb c) as [cb|] eqn:Ecb.
  - destruct (sdk_Allow t cb) as [cb' b] eqn:Ea. destruct b; cbn [negb]; [|by intros [=]].
    destruct (send [k] ctx) as [e|code body|results|e]; csimpl; try (by intros [=]).
    destruct (results !! k) as [r|] eqn:Er; intros [= <-]. split; [intros ? [= <-]; by rewrite Ea|]. eauto.
  - cbn [negb]. destruct (send [k] ctx) as [e|code body|results|e]; csimpl; try (by intros [=]).
    destruct (results !! k) as [r|] eqn:Er; intros [= <-]. split; [done|]. eauto.
Qed.

(** The SDK answers true, and records an evaluation, only for an evaluation that
    took place: of a cached flag by the SDK's evaluator, or of an answer of the
    server that has the flag enabled, with the circuit closed; every failure
    answers false and leaves the telemetry alone. *)
Theorem sdk_IsEnabled_earned (t t' t'' : Time) (ns : Z) (send : SdkTransport) (k : string) (ctx : SdkContext)
    (c : SdkClient) :
  let '(c', (enabled, err)) := IsEnabled t t' t'' ns send k ctx c in
  (enabled = true →
   if xg_LocalEvaluation (xc_config c) then
     ∃ flag, xc_flags c !! k = Some flag ∧ sx_Enabled (SdkEngine.Evaluate ns flag (in_environment c ctx)) = true
   else
     (∀ cb, xc_cb c = Some cb → (sdk_Allow t cb).2 = true) ∧
     ∃ results res, send [k] (in_environment c ctx) = Decoded results ∧ results !! k = Some res ∧
       sx_Enabled res = true) ∧
  (is_Some err → enabled = false ∧ xc_telemetry c' = xc_telemetry c) ∧
  (err = None → length (sb_events (xc_telemetry c')) = S (length (sb_events (xc_telemetry c)))).
Proof.
  unfold IsEnabled, Evaluate. destruct (xg_LocalEvaluation (xc_config c)).
  - unfold evaluateLocal. destruct (xc_flags c !! k) as [flag|] eqn:E; csimpl.
    + split_and!; [intros Hen; by exists flag|by intros [? [=]]|]. intros _. rewrite length_app. simpl. lia.
    + split_and!; [done|done|by intros [=]].
  - pose proof (sdk_evaluateRemote_ok t t' send k (in_environment c ctx) c) as Hok.
    assert (xc_telemetry (evaluateRemote t t' send k (in_environment c ctx) c).1 = xc_telemetry c) as Htel.
    { unfold evaluateRemote. destruct (match xc_cb c with Some _ => _ | None => _ end) as [cb b].
      destruct (negb b); [done|]. by destruct (evaluateBatchRemote _ _ _). }
    destruct (evaluateRemote t t' send k (in_environment c ctx) c) as [c' [res err]]. cbn [fst snd] in *.
    destruct err as [e|]; csimpl.
    + split_and!; [done|by rewrite Htel|by intros [=]].
    + destruct (Hok res eq_refl) as [Hcb (results & Hs & Hr)].
      split_and!; [intros Hen; split; [done|by exists results, res]|by intros [? [=]]|].
      intros _. rewrite Htel, length_app. simpl. lia.
Qed.

(** Once the breaker is open, [Evaluate] sends nothing, but a batch does. *)
Lemma sdk_open_circuit t t' send k ctx c cb :
  xc_cb c = Some cb → (sdk_Allow t cb).2 = false →
  (evaluateRemote t t' send k ctx c).2 = (sdk_failed k "CIRCUIT_BREAKER_OPEN", Some ErrCircuitBreakerOpen) ∧
  (xg_LocalEvaluation (xc_config c) = false →
   EvaluateBatch 0 send [k] ctx c = evaluateBatchRemote send [k] (in_environment c ctx)).
Proof.
  intros Hcb Ha. unfold evaluateRemote, EvaluateBatch. rewrite Hcb.
  destruct (sdk_Allow t cb) as [cb' b]. simpl in Ha. subst b. split; [done|]. by intros ->.
Qed.

End Facts.

(** The SDK never stops trying and never waits too long: between two attempts
    to connect it waits at least a second and at most thirty, twice as long after
    each failure in a row, and not at all after a stream that ended cleanly. *)
Theorem sdk_waits_bounded (ends : list bool) :
  Forall (λ w, 1 * Second ≤ w ≤ 30 * Second)%Z (waits ends (1 * Second)) ∧
  length (waits ends (1 * Second)) = length (filter (λ failed, failed = true) ends).
Proof.
  assert (∀ b, (1 * Second ≤ b ≤ 30 * Second)%Z →
    Forall (λ w, 1 * Second ≤ w ≤ 30 * Second)%Z (waits ends b) ∧
    length (waits ends b) = length (filter (λ failed, failed = true) ends)) as Hall; [|apply Hall; unfold Second; lia].
  induction ends as [|failed ends IH]; intros b Hb; [by split|].
  cbn [waits]. unfold next_backoff. rewrite filter_cons.
  destruct failed; [rewrite decide_True by done|rewrite decide_False by done]; cbn [option_list app length]; cbv zeta.
  - destruct (IH (if (30 * Second <? b * 2)%Z then 30 * Second else b * 2)%Z) as [Hf Hl].
    { destruct (Z.ltb_spec (30 * Second) (b * 2)); unfold Second in *; lia. }
    split; [by constructor|]. by apply (f_equal S).
  - apply IH. unfold Second. lia.
Qed.

(** The cache of the SDK holds the flags of the last update, by key; the last flag
    of a key counts. *)
Lemma flag_map_key flags k f : flag_map flags !! k = Some f → f ∈ flags ∧ sf_Key f = k.
Proof.
  induction flags as [|g flags IH] using rev_ind; [done|]. unfold flag_map. rewrite foldl_app. cbn [foldl].
  fold (flag_map flags). rewrite lookup_insert_Some, elem_of_app, list_elem_of_singleton.
  intros [[<- <-] | [_ Hf]]; [by auto|]. apply IH in Hf as [? ?]. auto.
Qed.

(** The SDK does not learn that a project has no flags left: an update without
    flags, as the server sends it after the last deletion, is ignored, and the
    deleted flags are evaluated as before. *)
Theorem sdk_last_deletion_missed `{SdkStreamDecoder} (c : SdkClient) (line data : string) :
  sse_data line = Some data → sdk_flag_list data = Some [] → sdk_flag_map data = None →
  on_line c line = c.
Proof. intros Hl Hf Hm. unfold on_line. by rewrite Hl, Hf, Hm. Qed.

(** ** Instances *)

(** A decoder that finds an empty list of flags in every event. *)
Definition empty_decoder : SdkStreamDecoder := {| sdk_flag_list _ := Some []; sdk_flag_map _ := None |}.

Definition one_flag_client : SdkClient :=
  NewClient (λ _, "") "localhost:8080/" "" [WithLocalEvaluation true] None (Decoded [halves_sdk_flag]).

Lemma sdk_last_deletion_missed_witness :
  sse_data "data: []" = Some "[]" ∧ xc_flags one_flag_client ≠ ∅ ∧
  on_line (H := empty_decoder) one_flag_client "data: []" = one_flag_client.
Proof.
  split; [vm_compute; reflexivity|]. split; [vm_compute; discriminate|].
  apply (sdk_last_deletion_missed (H := empty_decoder) one_flag_client "data: []" "[]");
    [vm_compute; reflexivity|reflexivity|reflexivity].
Defined.

Example endpoints :
  normalizeEndpoint " localhost:8080/ " = "http://localhost:8080" ∧
  normalizeEndpoint "flags.acme.dev//" = "https://flags.acme.dev" ∧ normalizeEndpoint "" = "https://flagura.dev".
Proof. by vm_compute. Qed.
