(* ===== verification/SdkOpenFeature.v ===== *)
(** * The OpenFeature provider of the SDK ([sdks/go/openfeature/provider.go])

    The same adapter as [OpenFeature], over the SDK's client: it prints what is not
    a text, tells reasons by what they contain, and serves what the evaluation says
    even for a flag that is off.  What the client's evaluation comes back with is
    an argument; the types of the OpenFeature SDK are those of [OpenFeature]. *)

From S2P Require Import Prelude GoFloat GoStrings GoTime Sha256 Errors Domain Engine SdkEngine CircuitBreakers.
From S2P Require Import Telemetry SdkClient OpenFeature.

(** ** The provider's events *)

(** The listener it registers with the client; the client names no keys. *)
Definition sdk_on_update (changedKeys : list string) (p : Provider) : Provider :=
  emit (mkEvent ProviderConfigChange "Flag configurations synchronized from Flagura control plane" changedKeys) p.

Definition sdk_NewProvider : Provider := mkProvider [].

Definition sdk_Init (p : Provider) : Provider :=
  emit (mkEvent ProviderReady "Flagura provider initialized successfully" []) p.

Section Provider.
Context `{GoRuntime} `{FloatConversion}.

(** ** The context *)

(** One entry of the flattened context: every value is printed with [%v]. *)
Definition sdk_add_attribute (ctx : SdkContext) (kv : string * GoAny) : SdkContext :=
  let '(k, v) := kv in
  let name := ToLower k in
  let s := sprint_any v in
  let '(mkSdkContext uid email country role tier env custom) := ctx in
  if existsb (String.eqb name) ["targetingkey"; "user_id"; "userid"]
  then mkSdkContext s email country role tier env custom
  else if name =s? "email" then mkSdkContext uid s country role tier env custom
  else if name =s? "country" then mkSdkContext uid email s role tier env custom
  else if name =s? "role" then mkSdkContext uid email country s tier env custom
  else if name =s? "tier" then mkSdkContext uid email country role s env custom
  else if name =s? "environment" then mkSdkContext uid email country role tier s custom
  else mkSdkContext uid email country role tier env (<[k := v]> custom).

(** [flatCtx] lists the map in the order the runtime visits it. *)
Definition sdk_extractContext (flatCtx : list (string * GoAny)) : SdkContext :=
  foldl sdk_add_attribute (mkSdkContext "" "" "" "" "" "" ∅) flatCtx.

(** ** Reasons and errors *)

Definition sdk_mapReason (internalReason : string) : Reason :=
  let has := Contains internalReason in
  if has "FLAG_NOT_FOUND" then ErrorReason
  else if has "RULE_MATCH" then TargetingMatchReason
  else if has "PERCENTAGE_ROLLOUT" || has "MULTIVARIATE" then SplitReason
  else if has "DISABLED" then DisabledReason
  else DefaultReason.

Definition sdk_mapEvaluationError (err : GoError) (reason : string) : ResolutionError :=
  if Contains reason "FLAG_NOT_FOUND" || Contains (Error err) "not found" then FlagNotFoundError (Error err)
  else if Contains reason "TYPE_MISMATCH" then TypeMismatchError (Error err)
  else GeneralError (Error err).

(** ** Evaluation *)

(** The part the five evaluations share. *)
Definition sdk_resolve {A} (defaultValue : A) (answer : SdkResult * option GoError) (value : SdkResult → A)
    : Detail A :=
  let '(res, err) := answer in
  match err with
  | Some e => mkDetail defaultValue (Some (sdk_mapEvaluationError e (sx_Reason res))) ErrorReason ""
  | None => mkDetail (value res) None (sdk_mapReason (sx_Reason res)) (sx_Variant res)
  end.

Definition sdk_BooleanEvaluation (defaultValue : bool) (answer : SdkResult * option GoError) : Detail bool :=
  sdk_resolve defaultValue answer sx_Enabled.

Definition sdk_StringEvaluation (defaultValue : string) (answer : SdkResult * option GoError) : Detail string :=
  sdk_resolve defaultValue answer (λ res,
    let val := if negb (sx_Variant res =s? "") then sx_Variant res else defaultValue in
    match sx_Value res with AnyString s => if negb (s =s? "") then s else val | _ => val end).

Definition sdk_FloatEvaluation (defaultValue : f64) (answer : SdkResult * option GoError) : Detail f64 :=
  sdk_resolve defaultValue answer (λ res,
    match sx_Value res with
    | AnyFloat64 v => v
    | AnyInt v | AnyInt64 v => f64_of_Z v
    | AnyString s => default defaultValue (rt_parse_float s)
    | _ => defaultValue
    end).

Definition sdk_IntEvaluation (defaultValue : Z) (answer : SdkResult * option GoError) : Detail Z :=
  sdk_resolve defaultValue answer (λ res,
    match sx_Value res with
    | AnyInt64 v | AnyInt v => v
    | AnyFloat64 v => int64_of v
    | AnyString s => default defaultValue (ParseInt s)
    | _ => defaultValue
    end).

Definition sdk_ObjectEvaluation (defaultValue : GoAny) (answer : SdkResult * option GoError) : Detail GoAny :=
  sdk_resolve defaultValue answer (λ res, match sx_Value res with AnyNil => defaultValue | v => v end).

(** ** Facts *)

(** *** Switched off is off *)

(** A flag that is off in the environment of the call is off for the application,
    whatever its default: the reason says so and there is no error.  (The provider
    of the evaluation client serves the default, see [killed_flag_serves_default].) *)
Theorem sdk_provider_kill_switch t t' t'' ns send flagKey d flatCtx c flag cfg :
  xg_LocalEvaluation (xc_config c) = true →
  xc_flags c !! flagKey = Some flag →
  sf_Environments flag !! sdk_env (in_environment c (sdk_extractContext flatCtx)) = Some cfg →
  se_Enabled cfg = false →
  sdk_BooleanEvaluation d (SdkClient.Evaluate t t' t'' ns send flagKey (sdk_extractContext flatCtx) c).2
  = mkDetail false None DisabledReason "".
Proof.
  intros Hl Hf Hc He. unfold SdkClient.Evaluate, SdkClient.evaluateLocal. rewrite Hl, Hf.
  unfold SdkEngine.Evaluate. rewrite Hc, He. reflexivity.
Qed.

(** *** Reasons *)

Lemma contains_rule_match id :
  Contains id "FLAG_NOT_FOUND" = false → sdk_mapReason ("RULE_MATCH: " +:+ id) = TargetingMatchReason.
Proof.
  intros Hid. unfold sdk_mapReason.
  assert (Contains ("RULE_MATCH: " +:+ id) "FLAG_NOT_FOUND" = false) as -> by exact Hid.
  by assert (Contains ("RULE_MATCH: " +:+ id) "RULE_MATCH" = true) as -> by (destruct id; reflexivity).
Qed.

(** The OpenFeature reason of a local evaluation, from the flag's configuration. *)
Definition told_reason (flag : SdkFlag) (ctx : SdkContext) : Reason :=
  match sf_Environments flag !! sdk_env ctx with
  | None => DefaultReason
  | Some cfg =>
      if negb (se_Enabled cfg) then DisabledReason
      else if se_Strategy cfg =s? StrategyPercentage then SplitReason
      else if se_Strategy cfg =s? StrategyMultivariate then SplitReason
      else if (se_Strategy cfg =s? StrategyRules) && existsb (rule_matches ctx) (se_Rules cfg)
      then TargetingMatchReason
      else DefaultReason
  end.

Lemma list_find_existsb {A} (f : A → bool) l :
  existsb f l = match list_find (λ x, f x = true) l with Some _ => true | None => false end.
Proof.
  induction l as [|x l IH]; [done|]. cbn [existsb list_find]. destruct (f x); [done|].
  rewrite decide_False by done. rewrite IH. cbn. by destruct (list_find _ l) as [[? ?]|].
Qed.

(** What the application is told agrees with why the flag was decided as it was,
    as long as no rule has the name of an error. *)
Theorem sdk_provider_reasons ns flag ctx :
  (∀ cfg r, sf_Environments flag !! sdk_env ctx = Some cfg → r ∈ se_Rules cfg →
            Contains (sr_ID r) "FLAG_NOT_FOUND" = false) →
  sdk_mapReason (sx_Reason (SdkEngine.Evaluate ns flag ctx)) = told_reason flag ctx.
Proof.
  intros Hids. unfold SdkEngine.Evaluate, told_reason.
  destruct (sf_Environments flag !! sdk_env ctx) as [cfg|] eqn:Hc; [|reflexivity].
  destruct (se_Enabled cfg); cbn [negb]; [|reflexivity].
  destruct (se_Strategy cfg =s? StrategyBoolean) eqn:E1; [apply str_eqb_eq in E1; rewrite E1; reflexivity|].
  destruct (se_Strategy cfg =s? StrategyPercentage) eqn:E2; [by case_match|].
  destruct (se_Strategy cfg =s? StrategyRules) eqn:E3; cbn [andb].
  - apply str_eqb_eq in E3. rewrite E3. cbn [str_eqb]. rewrite list_find_existsb.
    destruct (list_find _ (se_Rules cfg)) as [[i rule]|] eqn:E; [|reflexivity].
    apply list_find_Some in E as (Hi & _ & _). cbn [sx_Reason].
    rewrite contains_rule_match by by eapply Hids, list_elem_of_lookup_2. reflexivity.
  - destruct (se_Strategy cfg =s? StrategyMultivariate); [by case_match|reflexivity].
Qed.

(** *** Types and defaults *)

(** A provider that reports an error serves the caller's default, and says so. *)
Theorem sdk_provider_errors_serve_default answer (b : bool) (s : string) (x : f64) (n : Z) (v : GoAny) :
  let ok {A} (d : A) (out : Detail A) :=
    (is_Some (dt_Error out) ↔ is_Some answer.2) ∧
    (is_Some answer.2 → dt_Value out = d ∧ dt_Reason out = ErrorReason ∧ dt_Variant out = "") in
  ok b (sdk_BooleanEvaluation b answer) ∧ ok s (sdk_StringEvaluation s answer) ∧
  ok x (sdk_FloatEvaluation x answer) ∧ ok n (sdk_IntEvaluation n answer) ∧ ok v (sdk_ObjectEvaluation v answer).
Proof.
  destruct answer as [res [e|]]; cbn.
  - repeat split; by eexists.
  - split_and!; (split; [by intros [? [=]]|by intros [? [=]]]) || by intros [? [=]].
Qed.

(** The integer evaluation yields an [int64] whatever the flag serves. *)
Theorem sdk_IntEvaluation_typed d res err :
  is_int64 d = true → any_ok (sx_Value res) → (∀ x, is_int64 (conv_overflow x) = true) →
  is_int64 (dt_Value (sdk_IntEvaluation d (res, err))) = true.
Proof.
  intros Hd Hv Hc. destruct err as [e|]; [done|]. cbn [sdk_IntEvaluation sdk_resolve dt_Value].
  destruct (sx_Value res) as [|s| | |z|z|x|] eqn:E; try done.
  - destruct (ParseInt s) as [z|] eqn:Hs; [by eapply ParseInt_int64|done].
  - pose proof (toInt64_int64 (AnyFloat64 x) (int64_of x) Hc I eq_refl). done.
Qed.

(** *** The order of the map *)

Definition sdk_field_of (k : string) : field :=
  let name := ToLower k in
  if existsb (String.eqb name) ["targetingkey"; "user_id"; "userid"] then FUser
  else if name =s? "email" then FEmail
  else if name =s? "country" then FCountry
  else if name =s? "role" then FRole
  else if name =s? "tier" then FTier
  else if name =s? "environment" then FEnv
  else FCustom k.

Definition sdk_put_field (f : field) (v : GoAny) (ctx : SdkContext) : SdkContext :=
  let s := sprint_any v in
  let '(mkSdkContext uid email country role tier env custom) := ctx in
  match f with
  | FUser => mkSdkContext s email country role tier env custom
  | FEmail => mkSdkContext uid s country role tier env custom
  | FCountry => mkSdkContext uid email s role tier env custom
  | FRole => mkSdkContext uid email country s tier env custom
  | FTier => mkSdkContext uid email country role s env custom
  | FEnv => mkSdkContext uid email country role tier s custom
  | FCustom k => mkSdkContext uid email country role tier env (<[k := v]> custom)
  end.

Lemma sdk_add_attribute_field ctx k v : sdk_add_attribute ctx (k, v) = sdk_put_field (sdk_field_of k) v ctx.
Proof. destruct ctx. unfold sdk_add_attribute, sdk_field_of. cbv zeta. by repeat case_match. Qed.

Lemma sdk_add_attribute_commute ctx a b :
  sdk_field_of a.1 ≠ sdk_field_of b.1 →
  sdk_add_attribute (sdk_add_attribute ctx a) b = sdk_add_attribute (sdk_add_attribute ctx b) a.
Proof.
  destruct a as [k v], b as [k' v']. cbn [fst]. rewrite !sdk_add_attribute_field.
  generalize (sdk_field_of k), (sdk_field_of k'). intros f f' Hne.
  destruct ctx, f as [| | | | | |x], f' as [| | | | | |y]; cbn; try congruence.
  f_equal. rewrite insert_insert_ne; [done|congruence].
Qed.

(** The evaluation context does not depend on the order in which the runtime visits
    the caller's map, as long as no two of its keys name the same attribute. *)
Theorem sdk_extractContext_order (flatCtx flatCtx' : list (string * GoAny)) :
  Permutation flatCtx flatCtx' → NoDup (sdk_field_of ∘ fst <$> flatCtx) →
  sdk_extractContext flatCtx = sdk_extractContext flatCtx'.
Proof.
  unfold sdk_extractContext. generalize (mkSdkContext "" "" "" "" "" "" ∅). intros ctx Hp. revert ctx.
  induction Hp as [|a l l' Hp IH|a b l|l1 l2 l3 H1 IH1 H2 IH2]; intros ctx Hnd.
  - done.
  - cbn [foldl]. apply IH. by apply NoDup_cons in Hnd as [_ ?].
  - cbn [foldl]. rewrite sdk_add_attribute_commute; [done|].
    apply NoDup_cons in Hnd as [Hn _]. intros E. apply Hn. csimpl. rewrite <- E. by left.
  - rewrite IH1 by done. apply IH2. by rewrite <- H1.
Qed.

End Provider.
