(* ===== verification/ApiExperiments.v ===== *)
(** * Telemetry and experiments over HTTP

    The handlers and whose events count for what. *)

From S2P Require Import Prelude GoFloat GoStrings GoTime Sha256 Errors Domain Engine SdkEngine Entities.
From S2P Require Import StoreState StoreAudit StoreFlags StoreFlagsFacts StoreTables Http Auth Access.
From S2P Require Import ApiFlags AuthFacts AccessFacts ApiFlagsFacts ApiExamples StreamHub Telemetry.
From S2P Require Import TelemetryServer Stats HandlerFacts Client ClientStream ClientFacts ApiStream.
From S2P Require Import SdkClient.

(** * Telemetry and experiments in the API
    ([pkg/api/handlers_telemetry.go], [pkg/api/handlers_experiment.go])

    The handlers around the aggregator ([TelemetryServer]), the stored experiment
    events and the statistics ([Stats]).  The aggregator is not part of the store:
    the handlers take it and give it back. *)

(** ** Payloads *)

(** An event of an SDK, as the handler decodes it. *)
Record TrackEvent := mkTrack {
  tk_FlagKey : string;
  tk_Variant : string;
  tk_MetricName : string;
  tk_Value : GoAny;
  tk_UserID : string;
  tk_Environment : string;
}.

(** The body of an ingestion, as the two attempts to decode it find it: a map of
    flags, in the order the runtime visits it, and a list of events. *)
Record TelemetryBody := mkTelemetryBody {
  tb_map : option (list (string * IngestMetric));
  tb_list : option (list TrackEvent);
}.

Definition StatusAccepted : Z := 202.

(** The stored form of an event of an SDK. *)
Definition experiment_event (projectID : string) (now : Time) (ev : TrackEvent) : ExperimentEvent :=
  mkEvent "" projectID (tk_FlagKey ev) (tk_Variant ev) (tk_MetricName ev)
    (if tk_MetricName ev =s? "" then EventTypeExposure else EventTypeConversion)
    (match tk_Value ev with AnyFloat64 v => v | AnyInt v => f64_of_Z v | _ => f64_one end)
    (tk_UserID ev) (or_default (tk_Environment ev) EnvProduction) now.

(** The exposures of a list of events; the clock is read for each. *)
Fixpoint expose_all (sys : Sys) (k : nat) (projectID : string) (events : list TrackEvent)
    (ta : TelemetryAggregator) : TelemetryAggregator :=
  match events with
  | [] => ta
  | ev :: events =>
      let ta :=
        if negb (tk_UserID ev =s? "") && negb (tk_FlagKey ev =s? "") && negb (tk_Variant ev =s? "")
        then RecordExposure (sys_now sys k) projectID (tk_FlagKey ev) (tk_Variant ev) (tk_UserID ev) ta
        else ta in
      expose_all sys (S k) projectID events ta
  end.

Section Handlers.
Context `{GoRuntime}.

(** [None]: the body cannot be read.  The number is that of the answer. *)
Definition handleIngestTelemetry
    (order : gmap string FlagAggregatedMetric → list (string * FlagAggregatedMetric))
    (body : option TelemetryBody) (r : Request) (ta : TelemetryAggregator) : Handler (TelemetryAggregator * Z) :=
  if negb (rq_Method r =s? "POST") then writeText StatusMethodNotAllowed "Method Not Allowed"
  else
    projectID ← resolved r;
    match body with
    | None => writeText StatusBadRequest "unexpected EOF"
    | Some body =>
        match tb_map body, tb_list body with
        | Some events, _ =>
            o ← outside;
            mret (Ingest order (sys_now (out_sys o) 0) projectID events ta)
        | None, Some (ev :: rest) =>
            let events := ev :: rest in
            o ← outside;
            let ta := expose_all (out_sys o) 0 projectID events ta in
            o ← outside;
            let now := sys_now (out_sys o) 0 in
            let expEvents := experiment_event projectID now <$> filter (λ ev, tk_FlagKey ev ≠ "") events in
            (match expEvents with
             | [] => mret ()
             | _ => call (λ o s, (RecordExperimentEvents (out_sys o) s expEvents, ()))
             end);;
            mret (ta, Z.of_nat (length events))
        | None, _ => writeText StatusBadRequest "Invalid telemetry payload format"
        end
    end.

Definition handleGetTelemetryStats (r : Request) (ta : TelemetryAggregator) : Handler TelemetryStats :=
  projectID ← resolved r;
  mret (TelemetryServer.Stats projectID (QueryGet r "flag") ta).

(** The body: the list and the single event. *)
Definition handleIngestEvents (body : result GoError (list ExperimentEvent * option ExperimentEvent))
    (r : Request) : Handler Reply :=
  if negb (rq_Method r =s? "POST") then writeText StatusMethodNotAllowed "Method Not Allowed"
  else
    match body with
    | Err e => writeText StatusBadRequest ("Invalid JSON payload: " +:+ Error e)
    | Ok (list, single) =>
        let events := list ++ option_list single in
        match events with
        | [] => writeText StatusBadRequest "No events provided in payload"
        | _ =>
            projectID ← resolved r;
            let events := (λ ev, ev <| ev_ProjectID := projectID |>) <$> events in
            call (λ o s, (RecordExperimentEvents (out_sys o) s events, ()));;
            writeJSON StatusAccepted BDone
        end
    end.

(** ** The report *)

Definition report_flag (path : string) : string :=
  let flagKey :=
    if HasPrefix path "/api/v1/experiments/" then TrimPrefix path "/api/v1/experiments/"
    else if HasPrefix path "/api/v1/flags/" && HasSuffix path "/experiment"
    then TrimSuffix (TrimPrefix path "/api/v1/flags/") "/experiment"
    else "" in
  Trim flagKey "/".

Definition clamp_count (n : Z) : Z := if (max_int64 <? n)%Z then max_int64 else n.

(** The exposures the aggregator knows: unique users, or else evaluations. *)
Definition known_exposures (st : TelemetryStats) : gmap string Z :=
  match st with
  | FlagStats _ _ variants users _ _ =>
      clamp_count <$> (if bool_decide (users = ∅) then variants else users)
  | ProjectStats _ _ _ => ∅
  end.

(** The users that exposure events name, by variant. *)
Definition exposed_users (flagKey : string) (env : Environment) (events : list ExperimentEvent)
    : gmap string (gset string) :=
  foldl (λ m ev,
    if (ev_FlagKey ev =s? flagKey) && ((ev_Environment ev =s? "") || (ev_Environment ev =s? env)) &&
       (ev_EventType ev =s? EventTypeExposure) && negb (ev_UserID ev =s? "")
    then <[ev_Variant ev := {[ev_UserID ev]} ∪ default ∅ (m !! ev_Variant ev)]> m
    else m) ∅ events.

(** A variant that only occurs in events counts as never shown. *)
Definition with_baseline (flagKey : string) (events : list ExperimentEvent) (exposures : gmap string Z)
    : gmap string Z :=
  foldl (λ m ev,
    if ev_FlagKey ev =s? flagKey then
      match m !! ev_Variant ev with Some _ => m | None => <[ev_Variant ev := 0%Z]> m end
    else m) exposures events.

Definition report_exposures (flagKey : string) (env : Environment) (st : TelemetryStats)
    (events : list ExperimentEvent) : gmap string Z :=
  with_baseline flagKey events
    (((λ us : gset string, Z.of_nat (size us)) <$> exposed_users flagKey env events) ∪ known_exposures st).

Definition report_control (flag : FeatureFlag) (env : Environment) (control : string) : string :=
  if control =s? "" then
    match ff_Environments flag !! env with
    | Some cfg => if negb (ec_OffVariant cfg =s? "") then ec_OffVariant cfg else "control"
    | None => "control"
    end
  else control.

(** [order] is the order in which the runtime visits the variants. *)
Definition handleGetExperimentReport `{MathLib} (order : list string) (r : Request) (ta : TelemetryAggregator)
    : Handler ExperimentReport :=
  if negb (rq_Method r =s? "GET") then writeText StatusMethodNotAllowed "Method Not Allowed"
  else
    let flagKey := report_flag (rq_Path r) in
    if flagKey =s? "" then writeText StatusBadRequest "Flag key is required"
    else
      projectID ← resolved r;
      found ← read (λ _ s, GetFlagByProject s projectID flagKey);
      flag ← unwrap (λ _, NewAppError ErrCodeFlagNotFound ("Flag not found: " +:+ flagKey) StatusNotFound
        (Some (ESentinel ErrFlagNotFound))) found;
      let metricName := or_default (QueryGet r "metric") "conversion" in
      let env := or_default (QueryGet r "env") EnvProduction in
      let controlVariant := report_control flag env (QueryGet r "control") in
      events ← read (λ _ s, GetExperimentEventsByProject s projectID flagKey 10000);
      let exposures := report_exposures flagKey env (TelemetryServer.Stats projectID flagKey ta) events in
      o ← outside;
      mret (AnalyzeExperiment (sys_now (out_sys o) 0) order flagKey metricName EventTypeConversion env
              controlVariant exposures events).

End Handlers.

(** * Telemetry and experiments in the API: whose events count for what *)

(** ** Exposures *)

(** The exposure events of a variant. *)
Definition exposes (flagKey : string) (env : Environment) (v : string) (ev : ExperimentEvent) : Prop :=
  ev_FlagKey ev = flagKey ∧ (ev_Environment ev = "" ∨ ev_Environment ev = env) ∧
  ev_EventType ev = EventTypeExposure ∧ ev_UserID ev ≠ "" ∧ ev_Variant ev = v.

#[export] Instance exposes_dec flagKey env v ev : Decision (exposes flagKey env v ev).
Proof. unfold exposes. apply _. Defined.

Definition exposed_to (flagKey : string) (env : Environment) (v : string) (events : list ExperimentEvent) : gset string :=
  list_to_set (ev_UserID <$> filter (exposes flagKey env v) events).

Lemma exposed_users_spec flagKey env v events :
  exposed_users flagKey env events !! v =
  if decide (exposed_to flagKey env v events = ∅) then None else Some (exposed_to flagKey env v events).
Proof.
  unfold exposed_to, exposed_users. induction events as [|ev events IH] using rev_ind.
  - rewrite decide_True; [done|]. reflexivity.
  - rewrite foldl_app. cbn [foldl]. rewrite filter_app, fmap_app, list_to_set_app_L.
    set (m := foldl _ _ events) in *. clearbody m.
    set (us := list_to_set (ev_UserID <$> filter (exposes flagKey env v) events)) in *. clearbody us.
    set (b := _ && _ && _ && _). assert (b = true ↔ exposes flagKey env (ev_Variant ev) ev) as Hb.
    { unfold b, exposes. rewrite !andb_true_iff, orb_true_iff, negb_true_iff, !str_eqb_eq, str_eqb_neq. tauto. }
    rewrite filter_cons, filter_nil. destruct (decide (exposes flagKey env v ev)) as [He | He].
    + assert (ev_Variant ev = v) as <- by apply He. rewrite (proj2 Hb He), lookup_insert_eq, IH.
      cbn [fmap list_fmap]. rewrite list_to_set_singleton_L.
      rewrite (decide_False (P := us ∪ {[ev_UserID ev]} = ∅)).
      * f_equal. destruct (decide (us = ∅)) as [-> | _]; apply (comm_L (∪)).
      * intros E. apply (not_elem_of_empty (C := gset string) (ev_UserID ev)). rewrite <- E.
        apply elem_of_union. right. by apply elem_of_singleton.
    + cbn [fmap list_fmap list_to_set]. rewrite (right_id_L ∅ (∪)), <- IH.
      destruct b eqn:Eb; [|done]. apply lookup_insert_ne. intros E. apply He. rewrite <- E. by apply Hb.
Qed.

Lemma with_baseline_spec flagKey events m v :
  with_baseline flagKey events m !! v =
  match m !! v with
  | Some n => Some n
  | None => if decide (v ∈ (ev_Variant <$> filter (λ ev, ev_FlagKey ev = flagKey) events)) then Some 0%Z else None
  end.
Proof.
  unfold with_baseline. revert m. induction events as [|ev events IH]; intros m; cbn [foldl].
  - destruct (m !! v); [done|]. rewrite decide_False; [done|]. apply not_elem_of_nil.
  - rewrite IH, filter_cons. destruct (ev_FlagKey ev =s? flagKey) eqn:E.
    + apply str_eqb_eq in E. rewrite (decide_True (P := ev_FlagKey ev = flagKey)) by done. csimpl.
      destruct (decide (ev_Variant ev = v)) as [<- | Hne].
      * destruct (m !! ev_Variant ev) as [n|] eqn:Em; [by rewrite Em|]. rewrite lookup_insert_eq.
        rewrite decide_True by (by left). done.
      * assert ((match m !! ev_Variant ev with Some _ => m | None => <[ev_Variant ev:=0%Z]> m end) !! v = m !! v) as ->.
        { destruct (m !! ev_Variant ev); [done|]. by apply lookup_insert_ne. }
        destruct (m !! v); [done|]. apply decide_ext. rewrite elem_of_cons. split; [by right|]. by intros [E' | ?]; [destruct Hne|].
    + apply str_eqb_neq in E. rewrite (decide_False (P := ev_FlagKey ev = flagKey)) by done. done.
Qed.

(** The exposures of a report are people: for a variant that exposure events
    name, the number of distinct users among them, however often each saw it; for
    any other, what the aggregator counted; and zero, not missing, for a variant
    that only conversions name. *)
Theorem report_exposures_spec (flagKey : string) (env : Environment) (st : TelemetryStats)
    (events : list ExperimentEvent) (v : string) :
  report_exposures flagKey env st events !! v =
  if decide (exposed_to flagKey env v events = ∅) then
    match known_exposures st !! v with
    | Some n => Some n
    | None => if decide (v ∈ (ev_Variant <$> filter (λ ev, ev_FlagKey ev = flagKey) events)) then Some 0%Z else None
    end
  else Some (Z.of_nat (size (exposed_to flagKey env v events))).
Proof.
  unfold report_exposures. rewrite with_baseline_spec, lookup_union, lookup_fmap, exposed_users_spec.
  destruct (decide (exposed_to flagKey env v events = ∅)); cbn [fmap option_fmap option_map].
  - rewrite (left_id_L None union). done.
  - by destruct (known_exposures st !! v).
Qed.

(** ** Whose events *)

Lemma stamped sys k events ev : ev ∈ stamp_events sys k events → ∃ ev', ev' ∈ events ∧ ev_ProjectID ev = ev_ProjectID ev'.
Proof.
  revert k. induction events as [|x events IH]; intros k; cbn [stamp_events]; [by intros ?%elem_of_nil|].
  case_if; intros [-> | Hin]%elem_of_cons; try (exists x; split; [by left|done]);
    destruct (IH _ Hin) as (y & Hy & E); exists y; (split; [by right|done]).
Qed.

Lemma RecordExperimentEvents_adds sys s events p ev :
  Forall (λ x, ev_ProjectID x = p) events →
  ev ∈ ms_events (RecordExperimentEvents sys s events) → ev ∈ ms_events s ∨ ev_ProjectID ev = p.
Proof.
  intros Hall. unfold RecordExperimentEvents. set (all := ms_events s ++ stamp_events sys 0 events).
  set (kept := if (max_events <? length all)%nat then drop (length all - max_events) all else all).
  intros Hin. change (ev ∈ kept) in Hin.
  assert (ev ∈ ms_events s ++ stamp_events sys 0 events) as [Hin' | Hin']%elem_of_app.
  { revert Hin. unfold kept. case_if; [|done]. intros Hin. eapply elem_of_sublist; [exact Hin|apply sublist_drop]. }
  - by left.
  - right. apply stamped in Hin' as (y & Hy & ->). rewrite Forall_forall in Hall. by apply Hall.
Qed.

Section Facts.
Context `{GoRuntime}.

(** Experiment events are filed under the caller's project: an event that the
    store has after the request and had not before carries the one project the
    request resolves to, whatever its payload says; for a key with a project, the
    key's. *)
Theorem ingested_events_isolated (srv : Server)
    (body : result GoError (list ExperimentEvent * option ExperimentEvent)) (r : Request) (w : World) :
  ∃ p, (∀ k, project_key (presented_key (wd_store w) r) = Some k → p = ak_ProjectID k) ∧
    ∀ ev, ev ∈ ms_events (wd_store (serve srv (handleIngestEvents body r) w).1) →
      ev ∈ ms_events (wd_store w) ∨ ev_ProjectID ev = p.
Proof.
  set (P := λ w' : World, ∃ p, (∀ k, project_key (presented_key (wd_store w) r) = Some k → p = ak_ProjectID k) ∧
    ∀ ev, ev ∈ ms_events (wd_store w') → ev ∈ ms_events (wd_store w) ∨ ev_ProjectID ev = p).
  apply (wp_serve srv _ w (λ w' _, P w')).
  assert (∀ w', uses_only (wd_store w) (wd_store w') → P w') as Hquiet.
  { intros w' [Hs _]. exists (match project_key (presented_key (wd_store w) r) with Some k => ak_ProjectID k | None => "" end).
    split; [by intros k ->|]. rewrite Hs. by left. }
  unfold handleIngestEvents. destruct (negb _); [by apply Hquiet|].
  destruct body as [[l single]|e]; [|by apply Hquiet].
  cbv zeta. destruct (l ++ option_list single) as [|e0 rest] eqn:El; [by apply Hquiet|]. rewrite <- El.
  apply wp_bind. pose proof (wp_resolved_key srv r) as Hres.
  assert (keeps uses_only (resolved r)) as Hk.
  { unfold resolved. apply keeps_bind; [typeclasses eauto|apply keeps_uses_resolve|].
    intros res. apply keeps_unwrap; typeclasses eauto. }
  assert (wp srv (resolved r)
    (λ p w', uses_only (wd_store w) (wd_store w') ∧
       ∀ k, project_key (presented_key (wd_store w) r) = Some k → p = ak_ProjectID k)
    (λ _ w', uses_only (wd_store w) (wd_store w')) w) as Hw.
  { specialize (Hk srv w). specialize (Hres (λ p w', uses_only (wd_store w) (wd_store w') ∧
       ∀ k, project_key (presented_key (wd_store w) r) = Some k → p = ak_ProjectID k) (λ _ _, True) w).
    unfold wp in *. destruct (resolved r srv w) as [w' [p|rep]]; [|exact Hk]. apply Hres; auto. }
  eapply wp_mono; [| |exact Hw]; [|intros rep w' Hs; by apply Hquiet].
  intros p w' [Hs Hp]. apply wp_bind, wp_call. cbv zeta. apply wp_ret. exists p. split; [done|].
  cbn [wd_store fst]. intros ev Hin. apply (RecordExperimentEvents_adds _ _ _ p) in Hin as [Hin | Hin]; [|by right|].
  - left. destruct Hs as [Hs _]. by rewrite Hs in Hin.
  - apply Forall_forall. by intros x (y & -> & _)%list_elem_of_fmap.
Qed.

(** ** The events of the client *)

(** The server as a client of [pkg/client] sees it: the event of a request of
    [Track] is decoded as it was sent, and the client gets the status. *)
Definition receive_track (srv : Server) (w : World) (r : Request) (q : Client.TrackRequest) : World * Reply :=
  serve srv (handleIngestEvents (Ok ([], Some (Client.tq_Event q))) r) w.

Lemma RecordExperimentEvents_one sys s ev :
  ∃ before n, ms_events (RecordExperimentEvents sys s [ev]) = drop n before ++ stamp_events sys 0 [ev] ∧
    before = ms_events s ∧ (n ≤ length before)%nat.
Proof.
  unfold RecordExperimentEvents. cbn [ms_events]. set (one := stamp_events sys 0 [ev]).
  assert (length one = 1%nat) as Hl by (unfold one; cbn; by case_if).
  exists (ms_events s). rewrite length_app, Hl. case_if.
  - exists (length (ms_events s) + 1 - max_events)%nat. split; [|split; [done|unfold max_events; lia]].
    rewrite <- drop_app_le by (unfold max_events; lia). reflexivity.
  - exists 0%nat. split; [done|]. split; [done|lia].
Qed.

(** A conversion that an application tracks with the client of [pkg/client] is the
    newest event of the project its request resolves to, with its variant, its
    value and its user, and [Track] reports no error; when the project is refused
    nothing is stored, and [Track] reports the status of the refusal. *)
Theorem tracked_conversion_stored srv w r t flagKey variant metricName value userID c :
  rq_Method r = "POST" → unsupported_value value = None → t ≠ time_zero →
  let q := Client.track_request t flagKey variant metricName value userID c in
  let '(w', rep) := receive_track srv w r q in
  let err := Client.Track t (λ q, Ok (rp_Status (receive_track srv w r q).2, "")) flagKey variant metricName
    value userID c in
  match (resolveAndAuthorizeProjectID r srv w).2 with
  | inl (Ok p) => err = None ∧ ∃ before,
      ms_events (wd_store w') = before ++
        [mkEvent "" p flagKey variant metricName EventTypeConversion value userID
           (Client.cg_DefaultEnvironment (Client.cl_config c)) t]
  | inl (Err e) => rep = error_reply e ∧ (err = None ↔ rp_Status rep < 400)%Z ∧
      ms_events (wd_store w') = ms_events (wd_store w)
  | inr _ => False
  end.
Proof.
  intros Hm Hv Ht q. destruct (receive_track srv w r q) as [w' rep] eqn:Ew.
  unfold Client.Track. rewrite Hv. fold q. rewrite Ew. cbn [snd].
  pose proof (keeps_uses_resolve r srv w) as Hs. destruct (returns_resolve r srv w) as [res Hr].
  revert Ew. unfold receive_track, serve, handleIngestEvents. rewrite Hm. cbn [negb str_eqb].
  rewrite str_eqb_refl. cbn [negb app option_list].
  unfold resolved, unwrap, call, outside, get_store, put_store, writeJSON, mbind, handler_bind, mret, handler_ret.
  destruct (resolveAndAuthorizeProjectID r srv w) as [w1 x] eqn:Er. cbn in Hr, Hs. subst x. cbn [snd].
  cbn. rewrite Er. destruct res as [p|e].
  - cbn -[RecordExperimentEvents]. intros [= <- <-]. split; [done|]. cbn [wd_store].
    match goal with |- context [RecordExperimentEvents ?sys ?s [?ev]] =>
      destruct (RecordExperimentEvents_one sys s ev) as (b & n & -> & _) end.
    exists (drop n b). cbn. unfold IsZero. by rewrite (proj2 (Z.eqb_neq _ _) Ht).
  - cbn -[error_reply]. intros [= <- <-]. split; [done|]. split.
    + destruct (Z.leb_spec 400 (rp_Status (error_reply e))); split; intros; try done; lia.
    + destruct Hs as [Hs _]. by rewrite Hs.
Qed.

End Facts.

(** ** The events of the SDK *)

(** What the handler decodes of an event the SDK sends. *)
Definition sent_event (e : SdkTelemetry.TelemetryEvent) : TrackEvent :=
  mkTrack (SdkTelemetry.te_FlagKey e) (SdkTelemetry.te_Variant e) (SdkTelemetry.te_MetricName e)
    (AnyFloat64 (SdkTelemetry.te_Value e)) (SdkTelemetry.te_UserID e) (SdkTelemetry.te_Environment e).

(** An evaluation has no metric; a conversion has no variant. *)
Definition sdk_shaped (e : SdkTelemetry.TelemetryEvent) : Prop :=
  SdkTelemetry.te_MetricName e = "" ∨ SdkTelemetry.te_Variant e = "".

Definition sdk_recorded_events (c : SdkClient) : list SdkTelemetry.TelemetryEvent :=
  SdkTelemetry.sb_events (xc_telemetry c).

(** Every event that the SDK records has this shape. *)
Lemma Track_shaped t k m value u c :
  Forall sdk_shaped (sdk_recorded_events c) → Forall sdk_shaped (sdk_recorded_events (SdkClient.Track t k m value u c)).
Proof.
  intros Hc. unfold sdk_recorded_events, Track. cbn. apply Forall_app. split; [done|].
  constructor; [by right|constructor].
Qed.

Lemma Evaluate_shaped `{GoRuntime} t t' t'' ns send k ctx c :
  Forall sdk_shaped (sdk_recorded_events c) →
  Forall sdk_shaped (sdk_recorded_events (SdkClient.Evaluate t t' t'' ns send k ctx c).1).
Proof.
  intros Hc. unfold SdkClient.Evaluate.
  assert (xc_telemetry (SdkClient.evaluateRemote t t' send k (in_environment c ctx) c).1 = xc_telemetry c) as Htel.
  { unfold SdkClient.evaluateRemote. destruct (match xc_cb c with Some _ => _ | None => _ end) as [cb b].
    destruct (negb b); [done|]. by destruct (SdkClient.evaluateBatchRemote _ _ _). }
  unfold sdk_recorded_events in *.
  destruct (xg_LocalEvaluation (xc_config c)).
  - destruct (SdkClient.evaluateLocal ns k (in_environment c ctx) c) as [res [e|]]; cbn; [done|].
    apply Forall_app. split; [done|]. constructor; [by left|constructor].
  - destruct (SdkClient.evaluateRemote t t' send k (in_environment c ctx) c) as [c' [res [e|]]]; cbn in *; rewrite Htel; [done|].
    apply Forall_app. split; [done|]. constructor; [by left|constructor].
Qed.

(** Conversions that an application tracks with the SDK count for nobody: the
    SDK sends them without the variant the user saw, so that in a report over
    events of the SDK no named variant has a conversion. *)
Theorem sdk_conversions_unattributed `{MathLib} (es : list SdkTelemetry.TelemetryEvent) (projectID : string)
    (sent now : Time) (order : list string) (flagKey metricName : string) (env : Environment) (control : string)
    (exposures : gmap string Z) (v : string) (st : VariantMetricStats) :
  Forall sdk_shaped es → metricName ≠ "" → v ≠ "" →
  er_VariantStats (AnalyzeExperiment now order flagKey metricName EventTypeConversion env control exposures
    ((λ e, experiment_event projectID sent (sent_event e)) <$> es)) !! v = Some st →
  vs_Conversions st = 0%Z.
Proof.
  intros Hes Hm Hv Hst. unfold AnalyzeExperiment in Hst. cbn in Hst.
  rewrite lookup_set_to_map in Hst by (intros ? ? ? ? ?; simplify_eq/=; done).
  destruct Hst as (v' & _ & [= -> <-]). unfold variant_stats, ComputeVariantBinaryStats.
  rewrite conversions_spec.
  assert (∀ ev, ev ∈ filter (λ ev, counts_for flagKey metricName env ev = true)
                 ((λ e, experiment_event projectID sent (sent_event e)) <$> es) → ev_Variant ev ≠ v) as Hnone.
  { intros ev [Hc (e & -> & He)%list_elem_of_fmap]%list_elem_of_filter.
    rewrite Forall_forall in Hes. destruct (Hes e He) as [Hsh | Hsh]; cbn.
    - exfalso. apply Hm. unfold counts_for in Hc. cbn in Hc. rewrite Hsh in Hc.
      apply andb_true_iff in Hc as [[_ Hc]%andb_true_iff _]. by apply str_eqb_eq in Hc.
    - rewrite Hsh. congruence. }
  set (counted := filter _ _) in *.
  assert (anonymous_of counted v = 0%nat) as ->.
  { unfold anonymous_of. apply length_zero_iff_nil, elem_of_nil_inv.
    intros ev [Hq Hin]%list_elem_of_filter. by destruct (Hnone ev Hin); apply Hq. }
  assert (users_of counted v = ∅) as ->.
  { unfold users_of.
    assert (filter (λ ev, ev_Variant ev = v ∧ ev_UserID ev ≠ "") counted = []) as ->; [|done].
    apply elem_of_nil_inv. intros ev [Hq Hin]%list_elem_of_filter. by destruct (Hnone ev Hin); apply Hq. }
  rewrite size_empty. destruct (Z.ltb_spec (default 0%Z (exposures !! v)) (Z.of_nat 0 + Z.of_nat 0)); case_match; cbn; lia.
Qed.

(** ** Instances *)

Local Existing Instance sample_runtime.
Local Existing Instance lib_demo.

(** A request without any credentials that names a project. *)
Definition anonymous_events : Request :=
  request "POST" "/api/v1/events" [(HeaderProjectID, "bakery")] [].

Definition fake_conversion : ExperimentEvent :=
  mkEvent "" "" "checkout" "blue" "conversion" EventTypeConversion f64_one "nobody" EnvProduction 1.

(** Anybody can decide an experiment: a request without credentials that names
    an existing project has its events recorded there. *)
Theorem anonymous_poisons_experiment :
  let '(w', rep) := ApiExamples.run (handleIngestEvents (Ok ([fake_conversion], None))) anonymous_events demo_world in
  rp_Status rep = StatusAccepted ∧
  (λ ev, (ev_ProjectID ev, ev_Variant ev)) <$> ms_events (wd_store w') = [("bakery", "blue")].
Proof. vm_compute. split; reflexivity. Qed.

(** Two evaluations and a tracked conversion. *)
Definition tracked_client : SdkClient :=
  SdkClient.Track 5 "checkout" "signup" f64_one "u-1"
    (SdkClient.Evaluate 0 0 1 3 (λ _ _, Failed (EText "offline")) "split"
       (mkSdkContext "u-1" "" "" "" "" "" ∅) one_flag_client).1.

Lemma sdk_conversions_unattributed_witness :
  length (sdk_recorded_events tracked_client) = 2%nat ∧
  ∀ st, er_VariantStats (AnalyzeExperiment 9 [] "checkout" "signup" EventTypeConversion EnvProduction "control" ∅
    ((λ e, experiment_event "shop" 8 (sent_event e)) <$> sdk_recorded_events tracked_client)) !! "control" = Some st →
  vs_Conversions st = 0%Z.
Proof.
  split; [vm_compute; reflexivity|]. intros st.
  refine (sdk_conversions_unattributed (sdk_recorded_events tracked_client) "shop" 8 9 [] "checkout" "signup"
    EnvProduction "control" ∅ "control" st _ _ _).
  - apply Track_shaped, Evaluate_shaped. constructor.
  - discriminate.
  - discriminate.
Defined.
