(* ===== verification/Router.v ===== *)
(** * The route table of the server ([pkg/api/routes.go], [pkg/api/server.go])

    Which handler and which middlewares every path leads to.  The handlers are
    arguments here, by name, so that what is said of the table holds whatever they
    do; their definitions are in the other files.  The multiplexer of [net/http]
    picks the exact pattern, or else the longest prefix that ends in a slash; it
    redirects to a prefix that only lacks the slash.  The embedded files are there,
    so their route is registered. *)

From S2P Require Import Prelude GoFloat GoStrings GoTime Sha256 Errors Domain Entities StoreState.
From S2P Require Import Http Auth Access AuthFacts AccessFacts ApiFlags ApiGovernance ApiKeys ApiRoutes ApiFlagsFacts ApiExamples.

(** ** Paths *)

Definition RouteRoot : string := "/".
Definition RouteHealth : string := "/health".
Definition RouteHealthz : string := "/healthz".
Definition RouteAPIHealth : string := "/api/health".
Definition RouteAPIV1Health : string := "/api/v1/health".
Definition RouteLivez : string := "/livez".
Definition RouteReadyz : string := "/readyz".
Definition RouteMetrics : string := "/metrics".
Definition RouteDocs : string := "/docs".
Definition RouteDocsPrefix : string := "/docs/".
Definition RouteStaticPrefix : string := "/static/".
Definition RouteInstallScript : string := "/install.sh".
Definition RouteUIAuth : string := "/auth".
Definition RouteUIDashboard : string := "/dashboard".
Definition RouteUIDashboardPrefix : string := "/dashboard/".
Definition RouteAuthSignUp : string := "/api/v1/auth/signup".
Definition RouteAuthLogin : string := "/api/v1/auth/login".
Definition RouteAuthLogout : string := "/api/v1/auth/logout".
Definition RouteAuthForgotPassword : string := "/api/v1/auth/forgot-password".
Definition RouteAuthResetPassword : string := "/api/v1/auth/reset-password".
Definition RouteAuthMe : string := "/api/v1/auth/me".
Definition RouteAuthProfile : string := "/api/v1/auth/profile".
Definition RouteAuthChangePassword : string := "/api/v1/auth/change-password".
Definition RouteAuthOIDCLogin : string := "/api/v1/auth/oidc/login".
Definition RouteAuthOIDCCallback : string := "/api/v1/auth/oidc/callback".
Definition RouteAuthOAuthProviders : string := "/api/v1/auth/oauth/providers".
Definition RouteAuthOAuthGoogleLogin : string := "/api/v1/auth/oauth/google/login".
Definition RouteAuthOAuthGoogleCallback : string := "/api/v1/auth/oauth/google/callback".
Definition RouteAuthOAuthGitHubLogin : string := "/api/v1/auth/oauth/github/login".
Definition RouteAuthOAuthGitHubCallback : string := "/api/v1/auth/oauth/github/callback".
Definition RouteAPIFlags : string := "/api/v1/flags".
Definition RouteAPIFlagsPrefix : string := "/api/v1/flags/".
Definition RouteAPIFlagsStream : string := "/api/v1/flags/stream".
Definition RouteAPIEvaluate : string := "/api/v1/evaluate".
Definition RouteAPIBenchmark : string := "/api/v1/benchmark".
Definition RouteAPITelemetryEvents : string := "/api/v1/telemetry/events".
Definition RouteAPITelemetryStats : string := "/api/v1/telemetry/stats".
Definition RouteAPITelemetryStatsPrefix : string := "/api/v1/telemetry/stats/".
Definition RouteAPIWebhooksKillSwitch : string := "/api/v1/webhooks/kill-switch/".
Definition RouteAPIEvents : string := "/api/v1/events".
Definition RouteAPIExperimentsPrefix : string := "/api/v1/experiments/".
Definition RouteAPIOrganizations : string := "/api/v1/organizations".
Definition RouteAPIOrganizationsPrefix : string := "/api/v1/organizations/".
Definition RouteAPIProjects : string := "/api/v1/projects".
Definition RouteAPIProjectsActive : string := "/api/v1/projects/active".
Definition RouteAPIProjectsPrefix : string := "/api/v1/projects/".
Definition RouteAPIInvitations : string := "/api/v1/invitations".
Definition RouteAPIInvitationsAccept : string := "/api/v1/invitations/accept".
Definition RouteAPIInvitationsPrefix : string := "/api/v1/invitations/".
Definition RouteAPIChangeRequests : string := "/api/v1/change-requests".
Definition RouteAPIChangeRequestsPrefix : string := "/api/v1/change-requests/".
Definition RouteAPIKeys : string := "/api/v1/api-keys".
Definition RouteAPIKeysPrefix : string := "/api/v1/api-keys/".
Definition RouteAPIAuditLogs : string := "/api/v1/audit-logs".
Definition RouteAPIAuditVerify : string := "/api/v1/audit/verify".
Definition RouteAPIAuditExport : string := "/api/v1/audit/export".
Definition RouteAPIAuditPurge : string := "/api/v1/audit/purge".
Definition RouteAPIBackupExport : string := "/api/v1/backup/export".
Definition RouteAPIBackupImport : string := "/api/v1/backup/import".
Definition RouteAPIReset : string := "/api/v1/reset".

(** ** Registrations *)

Inductive Guard := LimitAuth | LimitAPI | Auth | Admin.

#[export] Instance Guard_eq_dec : EqDecision Guard.
Proof. solve_decision. Defined.

(** A handler, or one for each method. *)
Inductive Endpoint :=
| Plain (handler : string)
| Methods (handlers : list (string * string)).

Record Registration := mkReg {
  rg_Pattern : string;
  rg_Endpoint : Endpoint;
  rg_Guards : list Guard;
}.

(** The top-level shortcuts to views of the dashboard. *)
Definition shortcuts : list Registration :=
  (λ v, mkReg ("/" +:+ v) (Plain "dashboard view") []) <$>
    ["overview"; "flags"; "analytics"; "evaluator"; "benchmark"; "audit"; "sdk"; "profile"; "settings"].

Definition routes : list Registration := shortcuts ++
  [
   mkReg RouteStaticPrefix (Plain "static files") [];
   mkReg RouteRoot (Plain "handleLanding") [];
   mkReg RouteInstallScript (Plain "handleInstallScript") [];
   mkReg RouteDocs (Plain "handleDocs") [];
   mkReg RouteDocsPrefix (Plain "handleDocs") [];
   mkReg RouteUIAuth (Plain "handleAuth") [];
   mkReg RouteUIDashboard (Plain "handleDashboard") [];
   mkReg RouteUIDashboardPrefix (Plain "handleDashboard") [];
   mkReg RouteAuthSignUp (Plain "handleSignUp") [LimitAuth];
   mkReg RouteAuthLogin (Plain "handleLogin") [LimitAuth];
   mkReg RouteAuthForgotPassword (Plain "handleForgotPassword") [LimitAuth];
   mkReg RouteAuthResetPassword (Plain "handleResetPassword") [LimitAuth];
   mkReg RouteAuthLogout (Plain "handleLogout") [];
   mkReg RouteAuthMe (Plain "handleMe") [];
   mkReg RouteAuthProfile (Plain "handleUpdateProfile") [Auth];
   mkReg RouteAuthChangePassword (Plain "handleChangePassword") [LimitAuth; Auth];
   mkReg RouteAuthOIDCLogin (Plain "handleOIDCLogin") [LimitAuth];
   mkReg RouteAuthOIDCCallback (Plain "handleOIDCCallback") [LimitAuth];
   mkReg RouteAuthOAuthProviders (Plain "handleOAuthProviders") [];
   mkReg RouteAuthOAuthGoogleLogin (Plain "handleOAuthGoogleLogin") [LimitAuth];
   mkReg RouteAuthOAuthGoogleCallback (Plain "handleOAuthGoogleCallback") [LimitAuth];
   mkReg RouteAuthOAuthGitHubLogin (Plain "handleOAuthGitHubLogin") [LimitAuth];
   mkReg RouteAuthOAuthGitHubCallback (Plain "handleOAuthGitHubCallback") [LimitAuth];
   mkReg RouteHealth (Plain "handleHealth") [];
   mkReg RouteHealthz (Plain "handleHealthz") [];
   mkReg RouteAPIHealth (Plain "handleHealthz") [];
   mkReg RouteAPIV1Health (Plain "handleHealth") [];
   mkReg RouteLivez (Plain "handleLivez") [];
   mkReg RouteReadyz (Plain "handleReadyz") [];
   mkReg RouteMetrics (Plain "handleMetrics") [];
   mkReg RouteAPIFlagsStream (Plain "handleFlagsStream") [];
   mkReg RouteAPITelemetryEvents (Plain "handleIngestTelemetry") [LimitAPI; Auth];
   mkReg RouteAPITelemetryStats (Plain "handleGetTelemetryStats") [LimitAPI; Auth];
   mkReg RouteAPITelemetryStatsPrefix (Plain "handleGetTelemetryStats") [LimitAPI; Auth];
   mkReg RouteAPIWebhooksKillSwitch (Plain "handleWebhookKillSwitch") [LimitAPI];
   mkReg RouteAPIFlags (Methods [("GET", "handleGetFlags"); ("POST", "handleCreateFlag")]) [LimitAPI; Auth];
   mkReg RouteAPIFlagsPrefix (Plain "flag routes") [LimitAPI];
   mkReg RouteAPIOrganizations (Methods [("GET", "handleListOrganizations"); ("POST", "handleCreateOrganization")]) [LimitAPI; Auth];
   mkReg RouteAPIOrganizationsPrefix (Plain "handleOIDCConfigRoutes") [LimitAPI; Auth];
   mkReg RouteAPIProjects (Methods [("GET", "handleListProjects"); ("POST", "handleCreateProject")]) [LimitAPI; Auth];
   mkReg RouteAPIProjectsActive (Plain "handleSwitchActiveProject") [LimitAPI; Auth];
   mkReg RouteAPIProjectsPrefix (Plain "handleGetProject") [LimitAPI; Auth];
   mkReg RouteAPIInvitations (Plain "handleInvitations") [LimitAPI; Auth];
   mkReg RouteAPIInvitationsAccept (Plain "handleAcceptInvitation") [LimitAPI; Auth];
   mkReg RouteAPIInvitationsPrefix (Plain "handleGetInvitationByToken") [LimitAPI];
   mkReg RouteAPIEvents (Plain "handleIngestEvents") [LimitAPI];
   mkReg RouteAPIExperimentsPrefix (Plain "handleGetExperimentReport") [LimitAPI; Auth];
   mkReg RouteAPIChangeRequests (Plain "handleListOrCreateChangeRequests") [LimitAPI; Auth];
   mkReg RouteAPIChangeRequestsPrefix (Plain "handleChangeRequestItem") [LimitAPI; Auth];
   mkReg RouteAPIKeys (Plain "handleListOrCreateAPIKeys") [LimitAPI; Auth];
   mkReg RouteAPIKeysPrefix (Plain "handleRevokeAPIKey") [LimitAPI; Auth];
   mkReg RouteAPIEvaluate (Methods [("POST", "handleEvaluate")]) [LimitAPI];
   mkReg RouteAPIBenchmark (Methods [("POST", "handleBenchmark")]) [LimitAPI];
   mkReg RouteAPIAuditLogs (Plain "handleGetAuditLogs") [Auth];
   mkReg RouteAPIAuditVerify (Plain "handleVerifyAuditChain") [Auth];
   mkReg RouteAPIAuditExport (Plain "handleExportAuditLogs") [Auth];
   mkReg RouteAPIAuditPurge (Plain "handlePurgeAuditLogs") [Auth; Admin];
   mkReg RouteAPIBackupExport (Plain "handleExportBackup") [Auth];
   mkReg RouteAPIBackupImport (Plain "handleImportBackup") [Auth];
   mkReg RouteAPIReset (Methods [("POST", "handleReset")]) [Auth; Admin] ].

(** ** The multiplexer *)

Definition exact (path : string) : option Registration :=
  snd <$> list_find (λ g, rg_Pattern g = path) routes.

Definition longer (a b : Registration) : Registration :=
  if (String.length (rg_Pattern a) <? String.length (rg_Pattern b))%nat then b else a.

(** The registered prefix of the path with most characters. *)
Definition longest_prefix (path : string) : option Registration :=
  foldr (λ g best, Some (match best with Some b => longer g b | None => g end)) None
    (filter (λ g, HasSuffix (rg_Pattern g) "/" && HasPrefix path (rg_Pattern g) = true) routes).

Inductive Routed := Found (reg : Registration) | AddSlash | NotRouted.

Definition mux (path : string) : Routed :=
  match exact path with
  | Some reg => Found reg
  | None =>
      if bool_decide (is_Some (exact (path +:+ "/"))) then AddSlash
      else match longest_prefix path with Some reg => Found reg | None => NotRouted end
  end.

Definition too_many : Reply := mkReply 429 (BText "Too Many Requests").

Section Dispatch.
Context `{GoRuntime}.
Context (impl : string → HandlerFunc).
(** What the limiters say to a request. *)
Context (auth_allows api_allows : Request → bool).

Definition limited (allows : Request → bool) : Middleware := λ next r,
  if allows r then next r else exit too_many.

Definition guard (g : Guard) : Middleware :=
  match g with
  | LimitAuth => limited auth_allows
  | LimitAPI => limited api_allows
  | Auth => RequireAuth
  | Admin => RequireAdmin
  end.

Definition endpoint (e : Endpoint) : HandlerFunc :=
  match e with
  | Plain h => impl h
  | Methods hs => MethodRouter ((λ mh, (mh.1, impl mh.2)) <$> hs)
  end.

(** [s.handle] and [s.handleMethods]. *)
Definition handle (reg : Registration) : HandlerFunc :=
  ChainMiddlewares (endpoint (rg_Endpoint reg)) (guard <$> rg_Guards reg).

Definition ServeMux (r : Request) : Handler Reply :=
  match mux (rq_Path r) with
  | Found reg => handle reg r
  | AddSlash => exit (mkReply 301 (BRedirect (rq_Path r +:+ "/") ∅))
  | NotRouted => exit (mkReply StatusNotFound (BText "404 page not found"))
  end.

(** The paths that anybody may ask: pages, health, the ways in, and those whose
    handlers look at the credentials themselves or need none. *)
Definition public_patterns : list string :=
  (rg_Pattern <$> shortcuts) ++
  [RouteStaticPrefix; RouteRoot; RouteInstallScript; RouteDocs; RouteDocsPrefix; RouteUIAuth; RouteUIDashboard;
   RouteUIDashboardPrefix; RouteAuthSignUp; RouteAuthLogin; RouteAuthForgotPassword; RouteAuthResetPassword;
   RouteAuthLogout; RouteAuthMe; RouteAuthOIDCLogin; RouteAuthOIDCCallback; RouteAuthOAuthProviders;
   RouteAuthOAuthGoogleLogin; RouteAuthOAuthGoogleCallback; RouteAuthOAuthGitHubLogin;
   RouteAuthOAuthGitHubCallback; RouteHealth; RouteHealthz; RouteAPIHealth; RouteAPIV1Health; RouteLivez;
   RouteReadyz; RouteMetrics; RouteAPIFlagsStream; RouteAPIWebhooksKillSwitch; RouteAPIFlagsPrefix;
   RouteAPIInvitationsPrefix; RouteAPIEvents; RouteAPIEvaluate; RouteAPIBenchmark].

(** [RequireAuth] comes first, after the limiters. *)
Fixpoint authenticated_first (gs : list Guard) : bool :=
  match gs with
  | Auth :: _ => true
  | LimitAuth :: gs | LimitAPI :: gs => authenticated_first gs
  | _ => false
  end.

Lemma guarded_or_public reg :
  reg ∈ routes → rg_Pattern reg ∈ public_patterns ∨ authenticated_first (rg_Guards reg) = true.
Proof.
  assert (Hall : forallb (λ reg, bool_decide (rg_Pattern reg ∈ public_patterns) ||
    authenticated_first (rg_Guards reg)) routes = true) by (vm_compute; reflexivity).
  rewrite forallb_forall in Hall. intros Hreg%list_elem_of_In%Hall.
  apply orb_true_iff in Hreg as [Hr|Hr]; [left; by apply bool_decide_eq_true in Hr|by right].
Qed.

Lemma longest_in l reg :
  foldr (λ g best, Some (match best with Some b => longer g b | None => g end)) None l = Some reg → reg ∈ l.
Proof.
  revert reg. induction l as [|g l IH]; intros reg; cbn; [done|]. intros [= <-].
  destruct (foldr _ _ l) as [b|]; [|left]. unfold longer. case_match; [right; by apply IH|left].
Qed.

Lemma mux_found path reg : mux path = Found reg → reg ∈ routes.
Proof.
  unfold mux. destruct (exact path) as [g|] eqn:Hf.
  { intros [= <-]. unfold exact in Hf. destruct (list_find _ routes) as [[i g']|] eqn:Hl; [|discriminate Hf].
    injection Hf as <-. apply list_find_Some in Hl as (Hl & _). by eapply list_elem_of_lookup_2. }
  destruct (bool_decide _); [discriminate|].
  destruct (longest_prefix path) as [g|] eqn:Hl; [|discriminate]. intros [= <-].
  unfold longest_prefix in Hl. apply longest_in, list_elem_of_filter in Hl. apply Hl.
Qed.

(** What a refused request gets, and leaves. *)
Definition refused (s : MemoryStore) (w' : World) (rep : Reply) : Prop :=
  (rp_Status rep = StatusUnauthorized ∨ rp_Status rep = 429%Z) ∧ uses_only s (wd_store w').

Lemma chain_blocks srv (h : HandlerFunc) gs r w :
  (∀ u, ¬ authenticates srv (wd_store w) r u) → authenticated_first gs = true →
  let x := serve srv (ChainMiddlewares h (guard <$> gs) r) w in refused (wd_store w) x.1 x.2.
Proof.
  intros Hno. induction gs as [|g gs IH]; [done|]. intros Hg x.
  assert (Hlim : ∀ allows, authenticated_first gs = true →
    let x := serve srv (limited allows (ChainMiddlewares h (guard <$> gs)) r) w in refused (wd_store w) x.1 x.2).
  { intros allows Hgs. unfold limited. destruct (allows r); [by apply IH|]. split; [by right|reflexivity]. }
  destruct g; try (by apply Hlim); [|done].
  destruct (RequireAuth_blocks srv (ChainMiddlewares h (guard <$> gs)) r w Hno) as [Hs Hu].
  split; [by left|exact Hu].
Qed.

(** C33: nothing but the public paths answers strangers: whatever the handlers do and
    the limiters say, a request that authenticates as nobody and is routed to a
    registration that is not one of the public ones is refused with 401 or 429,
    and the store keeps everything but the last use of a key. *)
Theorem strangers_see_public_routes srv r w reg :
  (∀ u, ¬ authenticates srv (wd_store w) r u) →
  mux (rq_Path r) = Found reg → rg_Pattern reg ∉ public_patterns →
  let x := serve srv (ServeMux r) w in refused (wd_store w) x.1 x.2.
Proof.
  intros Hno Hmux Hpub. unfold ServeMux. rewrite Hmux.
  destruct (guarded_or_public reg (mux_found _ _ Hmux)) as [?|Hg]; [done|]. by apply chain_blocks.
Qed.

(** Below the flag prefix a stranger reaches only the canary routes: a request
    that authenticates as nobody is refused there with 401, or 405 for a method
    without a route. *)
Theorem strangers_below_flags srv canary report bodies r w :
  (∀ u, ¬ authenticates srv (wd_store w) r u) → Contains (rq_Path r) "/canary" = false →
  let x := serve srv (route_flags_prefix canary report bodies r) w in
  (rp_Status x.2 = StatusUnauthorized ∨ rp_Status x.2 = StatusMethodNotAllowed) ∧
  uses_only (wd_store w) (wd_store x.1).
Proof.
  intros Hno Hc x. unfold x, route_flags_prefix. rewrite Hc.
  assert (Hblock : ∀ h, let x := serve srv (RequireAuth h r) w in
    (rp_Status x.2 = StatusUnauthorized ∨ rp_Status x.2 = StatusMethodNotAllowed) ∧
    uses_only (wd_store w) (wd_store x.1)).
  { intros h. destruct (RequireAuth_blocks srv h r w Hno) as [Hs Hu]. split; [by left|exact Hu]. }
  repeat (case_if; [apply Hblock|]). split; [by right|reflexivity].
Qed.

End Dispatch.

(** The longest pattern wins, and what only lacks the slash is redirected. *)
Example mux_sample :
  (match mux "/api/v1/projects/active" with Found g => rg_Endpoint g | _ => Plain "" end,
   match mux "/api/v1/projects/p-1" with Found g => rg_Endpoint g | _ => Plain "" end,
   mux "/api/v1/webhooks/kill-switch",
   match mux "/nowhere" with Found g => rg_Endpoint g | _ => Plain "" end)
  = (Plain "handleSwitchActiveProject", Plain "handleGetProject", AddSlash, Plain "handleLanding").
Proof. vm_compute. reflexivity. Qed.

#[export] Instance Endpoint_eq_dec : EqDecision Endpoint.
Proof. solve_decision. Defined.
#[export] Instance Registration_eq_dec : EqDecision Registration.
Proof. solve_decision. Defined.

Definition leads_to (path : string) (reg : Registration) : bool :=
  match mux path with Found g => bool_decide (g = reg) | _ => false end.

(** Every registered pattern is reached: asking for a pattern leads to its own
    registration, so no route shadows another. *)
Theorem routes_not_shadowed reg : reg ∈ routes → mux (rg_Pattern reg) = Found reg.
Proof.
  assert (Hall : forallb (λ reg, leads_to (rg_Pattern reg) reg) routes = true) by (vm_compute; reflexivity).
  rewrite forallb_forall in Hall. intros Hreg%list_elem_of_In%Hall. unfold leads_to in Hreg.
  destruct (mux _) as [g| |]; [|discriminate..]. apply bool_decide_eq_true in Hreg. by subst.
Qed.

Lemma routes_not_shadowed_witness :
  mux RouteAPIAuditLogs = Found (mkReg RouteAPIAuditLogs (Plain "handleGetAuditLogs") [Auth]).
Proof.
  refine (routes_not_shadowed (mkReg RouteAPIAuditLogs (Plain "handleGetAuditLogs") [Auth]) _).
  apply list_elem_of_In. vm_compute. tauto.
Defined.

(** ** Instances *)

Definition stranger (path : string) : Request := request "DELETE" path [] [].

Lemma strangers_are_nobody path u : ¬ authenticates demo_server demo_store (stranger path) u.
Proof.
  assert (Hk : Forall (λ t, t = "") (key_tokens (stranger path) ++ session_candidates (stranger path)))
    by (vm_compute; repeat constructor).
  rewrite Forall_app, !Forall_forall in Hk. destruct Hk as [Hk Hs].
  destruct 1 as [tok Hin Hne|tok k Hin Hne|tok sess n u Hin Hses]; [by apply Hne, Hk..|].
  rewrite (Hs tok Hin) in Hses. by vm_compute in Hses.
Qed.

Definition every_handler : string → HandlerFunc := λ _ _, writeJSON StatusOK BDone.

Lemma strangers_see_public_routes_witness :
  let R := sample_runtime in
  (∀ u, ¬ authenticates demo_server demo_store (stranger RouteAPIAuditLogs) u) ∧
  let x := serve demo_server (ServeMux every_handler (λ _, true) (λ _, true) (stranger RouteAPIAuditLogs))
    demo_world in refused demo_store x.1 x.2.
Proof.
  intros R. split; [apply strangers_are_nobody|].
  refine (strangers_see_public_routes every_handler (λ _, true) (λ _, true) demo_server
    (stranger RouteAPIAuditLogs) demo_world (mkReg RouteAPIAuditLogs (Plain "handleGetAuditLogs") [Auth]) _ _ _).
  - apply strangers_are_nobody.
  - vm_compute. reflexivity.
  - apply (bool_decide_eq_true_1 (_ ∉ _)). vm_compute. reflexivity.
Defined.

Lemma strangers_below_flags_witness :
  let R := sample_runtime in
  let body := mkBodies (Err (EText "")) toggle_off (Err (EText "")) (Err (EText "")) (Err (EText ""))
    (Err (EText "")) in
  let x := serve demo_server (route_flags_prefix (every_handler "canary") (every_handler "report") body
    (stranger "/api/v1/flags/checkout")) demo_world in
  (rp_Status x.2 = StatusUnauthorized ∨ rp_Status x.2 = StatusMethodNotAllowed) ∧
  uses_only demo_store (wd_store x.1).
Proof.
  intros R body.
  exact (strangers_below_flags demo_server (every_handler "canary") (every_handler "report") body
    (stranger "/api/v1/flags/checkout") demo_world (strangers_are_nobody _) eq_refl).
Defined.
