(* ===== verification/Middleware.v ===== *)
(** * The way of a request through the server ([pkg/api/middleware.go],
    [pkg/api/middleware_trace.go], [pkg/api/server.go])

    [ServeHTTP] decides on the CORS headers, then six middlewares wrap the
    multiplexer: recovery from panics, tracing, request identifiers, the request
    log, security headers and the limit on bodies.  An exchange is the state of one
    response: the headers that may still change, what was sent, the fields of the
    writers the middlewares put around the connection, the log and the spans.  A
    handler may panic; a panic unwinds to the recovery. *)

From S2P Require Import Prelude GoFloat GoStrings GoTime Sha256 Base64 Errors Domain Entities StoreState.
From S2P Require Import Http Auth AuthFacts ApiRoutes RateLimit ApiExamples Router.

(** ** Requests in flight *)

(** What the middlewares put in the context of a request. *)
Record Context := mkContext {
  cx_RequestID : string;
  cx_User : option User;
  cx_TraceID : string;
  cx_Nonce : string;
}.

#[export] Instance eta_Context : Eta Context :=
  {| eta_expand r := mkContext (cx_RequestID r) (cx_User r) (cx_TraceID r) (cx_Nonce r) |}.

(** [context.Background()]: nothing there yet. *)
Definition background : Context := mkContext "" None "" "".

(** A body, and the limit a [http.MaxBytesReader] puts on it. *)
Record RequestBody := mkBody { bd_data : string; bd_limit : option Z }.

Record Incoming := mkIncoming {
  in_Request : Request;
  in_Context : Context;
  in_Body : option RequestBody;
}.

#[export] Instance eta_Incoming : Eta Incoming :=
  {| eta_expand r := mkIncoming (in_Request r) (in_Context r) (in_Body r) |}.

(** [io.ReadAll(r.Body)]. *)
Definition ReadAll (b : RequestBody) : result GoError string :=
  match bd_limit b with
  | None => Ok (bd_data b)
  | Some n => if (Z.of_nat (String.length (bd_data b)) <=? Z.max 0 n)%Z then Ok (bd_data b)
              else Err (EText "http: request body too large")
  end.

(** ** Exchanges *)

(** What is written to a connection; the encoders give its bytes. *)
Inductive Chunk :=
| CEnvelope (Code : ErrorCode) (Type_ Layer_ Message : string) (status : Z) (request_id : string)
| CText (s : string)
| CPayload (b : Body).

Inductive LogLine :=
| HttpRequest (method path : string) (status bytes : Z) (duration_ms : f64)
    (request_id user_id remote_addr : string)
| PanicRecovered (value request_id : string).

(** A finished span: the status and the error recorded on it, if any. *)
Record Span := mkSpan {
  sp_method : string; sp_route : string; sp_client_ip : string;
  sp_status : option Z; sp_error : option string;
}.

Record Exchange := mkExchange {
  ex_Header : gmap string string;
  ex_Sent : option (Z * gmap string string);
  ex_Body : list Chunk;
  ex_traceStatus : Z;
  ex_logStatus : Z;
  ex_logBytes : Z;
  ex_log : list LogLine;
  ex_spans : list Span;
  ex_step : nat;
}.

#[export] Instance eta_Exchange : Eta Exchange :=
  {| eta_expand r := mkExchange (ex_Header r) (ex_Sent r) (ex_Body r) (ex_traceStatus r)
       (ex_logStatus r) (ex_logBytes r) (ex_log r) (ex_spans r) (ex_step r) |}.

Definition new_exchange : Exchange := mkExchange ∅ None [] 0 0 0 [] [] 0.

(** The environment, and the outside of each step; [None] when [rand.Read] fails. *)
Record Ambient := mkAmbient {
  am_Getenv : string → string;
  am_sys : nat → Sys;
  am_rand : nat → option (list Z);
}.

(** What the code relies on outside: the encoders, the tracer's identifier for a
    request (empty when there is none), and the host of [url.Parse]. *)
Class WireLib := {
  chunk_bytes : Chunk → string;
  trace_id_of : Request → string;
  URL_Host : string → option string;
}.

(** ** The monad: state, and panics *)

Inductive Outcome (A : Type) := Done (a : A) | Panicked (value : string).
Arguments Done {A} a.
Arguments Panicked {A} value.

Definition Serve (A : Type) : Type := Ambient → Exchange → Exchange * Outcome A.

#[export] Instance serve_ret : MRet Serve := λ A a am ex, (ex, Done a).

#[export] Instance serve_bind : MBind Serve := λ A B k m am ex,
  match m am ex with
  | (ex', Done a) => k a am ex'
  | (ex', Panicked v) => (ex', Panicked v)
  end.

Definition panic {A} (value : string) : Serve A := λ am ex, (ex, Panicked value).
Definition modify (f : Exchange → Exchange) : Serve () := λ am ex, (f ex, Done ()).
Definition gets {A} (f : Exchange → A) : Serve A := λ am ex, (ex, Done (f ex)).
Definition getenv (name : string) : Serve string := λ am ex, (ex, Done (am_Getenv am name)).

Definition sys : Serve Sys := λ am ex,
  (ex <| ex_step := S (ex_step ex) |>, Done (am_sys am (ex_step ex))).
Definition rand_Read : Serve (option (list Z)) := λ am ex,
  (ex <| ex_step := S (ex_step ex) |>, Done (am_rand am (ex_step ex))).

(** [w.Header().Set]: the wrappers share the header map of the connection. *)
Definition HeaderSet (key value : string) : Serve () :=
  modify (λ ex, ex <| ex_Header := <[key := value]> (ex_Header ex) |>).

Definition HeaderDel (key : string) : Serve () :=
  modify (λ ex, ex <| ex_Header := delete key (ex_Header ex) |>).

(** ** Writers *)

(** The connection, and the two wrappers around it. *)
Inductive Writer := Conn | traceResponseWriter (w : Writer) | responseWriter (w : Writer).

(** [WriteHeader] of [net/http]: the first call sends the headers as they are, a
    later one is ignored, an informational status is not the answer. *)
Definition conn_WriteHeader (code : Z) : Serve () := λ am ex,
  match ex_Sent ex with
  | Some _ => (ex, Done ())
  | None =>
      if ((code <? 100) || (999 <? code))%Z then (ex, Panicked "invalid WriteHeader code")
      else if ((code <=? 199) && negb (code =? 101))%Z then (ex, Done ())
      else (ex <| ex_Sent := Some (code, ex_Header ex) |>, Done ())
  end.

Fixpoint WriteHeader (w : Writer) (code : Z) : Serve () :=
  match w with
  | Conn => conn_WriteHeader code
  | traceResponseWriter w => modify (λ ex, ex <| ex_traceStatus := code |>);; WriteHeader w code
  | responseWriter w => modify (λ ex, ex <| ex_logStatus := code |>);; WriteHeader w code
  end.

Section Server.
Context `{GoRuntime} `{NetLib} `{WireLib}.

Definition chunk_len (c : Chunk) : Z := Z.of_nat (String.length (chunk_bytes c)).

(** [Write] of [net/http] sends the headers with status 200 if need be.  The
    network takes all that is written. *)
Definition conn_Write (c : Chunk) : Serve Z :=
  conn_WriteHeader StatusOK;;
  modify (λ ex, ex <| ex_Body := ex_Body ex ++ [c] |>);;
  mret (chunk_len c).

Fixpoint Write (w : Writer) (c : Chunk) : Serve Z :=
  match w with
  | Conn => conn_Write c
  | traceResponseWriter w => Write w c
  | responseWriter w =>
      modify (λ ex, if (ex_logStatus ex =? 0)%Z then ex <| ex_logStatus := StatusOK |> else ex);;
      n ← Write w c;
      modify (λ ex, ex <| ex_logBytes := (ex_logBytes ex + n)%Z |>);;
      mret n
  end.

(** [http.Error]. *)
Definition http_Error (w : Writer) (msg : string) (code : Z) : Serve () :=
  HeaderDel "Content-Length";;
  HeaderSet "Content-Type" "text/plain; charset=utf-8";;
  HeaderSet "X-Content-Type-Options" "nosniff";;
  WriteHeader w code;;
  Write w (CText (msg +:+ String (ascii_of_nat 10) ""));;
  mret ().

Definition HTTPHandler : Type := Writer → Incoming → Serve ().

(** ** Errors *)

(** [s.writeError], with the request identifier of the context it is given. *)
Definition writeError (w : Writer) (r : Incoming) (err : GoError) : Serve () :=
  match MapSentinelToAppError (Some err) with
  | Some (EApp code ty layer msg status _) =>
      let reqID := cx_RequestID (in_Context r) in
      HeaderSet "Content-Type" "application/json; charset=utf-8";;
      WriteHeader w status;;
      Write w (CEnvelope code ty layer msg status reqID);;
      mret ()
  | _ => mret ()
  end.

Definition writeJSON (w : Writer) (status : Z) (data : Body) : Serve () :=
  HeaderSet "Content-Type" "application/json; charset=utf-8";;
  WriteHeader w status;;
  Write w (CPayload data);;
  mret ().

(** ** The middlewares *)

Definition HeaderRequestID : string := "X-Request-ID".

Definition RequestIDMiddleware (next : HTTPHandler) : HTTPHandler := λ w r,
  let reqID := HeaderGet (in_Request r) HeaderRequestID in
  reqID ← (if reqID =s? "" then o ← sys; mret (NewID o "req") else mret reqID);
  HeaderSet HeaderRequestID reqID;;
  next w (r <| in_Context := in_Context r <| cx_RequestID := reqID |> |>).

Definition is_probe (path : string) : bool :=
  (path =s? "/livez") || (path =s? "/readyz") || (path =s? "/healthz").

(** [float64(duration.Microseconds())/1000.0]. *)
Definition duration_ms (d : Duration) : f64 := (f64_of_Z (Z.quot d 1000) / f64_of_Z 1000)%f64.

Definition StructuredLoggerMiddleware (next : HTTPHandler) : HTTPHandler := λ w r,
  start ← sys;
  modify (λ ex, ex <| ex_logStatus := StatusOK |> <| ex_logBytes := 0%Z |>);;
  next (responseWriter w) r;;
  stop ← sys;
  let duration := time_sub (sys_now stop 0) (sys_now start 0) in
  let reqID := cx_RequestID (in_Context r) in
  status ← gets ex_logStatus;
  if is_probe (rq_Path (in_Request r)) && (status =? StatusOK)%Z then mret ()
  else
    let userID := match cx_User (in_Context r) with Some u => us_ID u | None => "" end in
    bytes ← gets ex_logBytes;
    modify (λ ex, ex <| ex_log := ex_log ex ++
      [HttpRequest (rq_Method (in_Request r)) (rq_Path (in_Request r)) status bytes (duration_ms duration)
         reqID userID (rq_RemoteAddr (in_Request r))] |>).

(** The error of the recovery. *)
Definition internal_error : GoError :=
  NewAppError ErrCodeInternal "An unexpected internal error occurred. Please contact support."
    StatusInternalServerError (Some (ESentinel ErrInternal)).

Definition PanicRecoveryMiddleware (next : HTTPHandler) : HTTPHandler := λ w r am ex,
  match next w r am ex with
  | (ex', Done u) => (ex', Done u)
  | (ex', Panicked rec) =>
      (let reqID := cx_RequestID (in_Context r) in
       modify (λ ex, ex <| ex_log := ex_log ex ++ [PanicRecovered rec reqID] |>);;
       writeError w r internal_error) am ex'
  end.

(** The alphabet of [base64.StdEncoding], with its padding. *)
Definition std_digit (d : Z) : ascii :=
  if (d =? 62)%Z then "+"%char else if (d =? 63)%Z then "/"%char else chr (digit_char d).

Definition StdEncoding (bs : list Z) : string :=
  let ds := digits_of_bytes bs in
  foldr (λ d s, String (std_digit d) s) "" ds +:+
  (if (length ds mod 4 =? 2)%nat then "==" else if (length ds mod 4 =? 3)%nat then "=" else "").

Definition csp (nonce : string) : string :=
  "default-src 'self'; " +:+
  "script-src 'self' 'nonce-" +:+ nonce +:+
  "' https://cdn.tailwindcss.com https://cdn.jsdelivr.net https://unpkg.com https://cdnjs.cloudflare.com; " +:+
  "style-src 'self' 'unsafe-inline' https://fonts.googleapis.com; " +:+
  "font-src 'self' https://fonts.gstatic.com data:; " +:+
  "img-src 'self' data: https: blob:; " +:+
  "connect-src 'self' https: wss: ws:;".

Definition needs_hsts (environment : string) (r : Request) : bool :=
  rq_TLS r || (HeaderGet r "X-Forwarded-Proto" =s? "https") || (environment =s? "production").

Definition SecurityHeadersMiddleware (next : HTTPHandler) : HTTPHandler := λ w r,
  HeaderSet "X-Content-Type-Options" "nosniff";;
  HeaderSet "X-Frame-Options" "SAMEORIGIN";;
  HeaderSet "X-XSS-Protection" "1; mode=block";;
  HeaderSet "Referrer-Policy" "strict-origin-when-cross-origin";;
  HeaderSet "Permissions-Policy" "camera=(), microphone=(), geolocation=()";;
  environment ← getenv "ENVIRONMENT";
  (if needs_hsts environment (in_Request r)
   then HeaderSet "Strict-Transport-Security" "max-age=31536000; includeSubDomains" else mret ());;
  nonceBytes ← rand_Read;
  match nonceBytes with
  | None => http_Error w "Internal Server Error" StatusInternalServerError
  | Some bs =>
      let nonce := StdEncoding bs in
      HeaderSet "Content-Security-Policy" (csp nonce);;
      next w (r <| in_Context := in_Context r <| cx_Nonce := nonce |> |>)
  end.

Definition limited_method (m : string) : bool := (m =s? "POST") || (m =s? "PUT") || (m =s? "PATCH").

Definition MaxBytesMiddleware (maxBytes : Z) (next : HTTPHandler) : HTTPHandler := λ w r,
  match in_Body r with
  | Some b =>
      if limited_method (rq_Method (in_Request r))
      then next w (r <| in_Body := Some (mkBody (bd_data b) (Some maxBytes)) |>)
      else next w r
  | None => next w r
  end.

(** The status a finished request leaves on its span. *)
Definition span_error (status : Z) : option string :=
  if (500 <=? status)%Z then Some ("server error: " +:+ Itoa status) else None.

(** [span.End] is deferred, so a panic ends the span too, without a status. *)
Definition TracingMiddleware (next : HTTPHandler) : HTTPHandler := λ w r am ex,
  let span := mkSpan (rq_Method (in_Request r)) (rq_Path (in_Request r))
                (GetClientIP (am_Getenv am) (in_Request r)) in
  let traceID := trace_id_of (in_Request r) in
  let finish status error := modify (λ ex, ex <| ex_spans := ex_spans ex ++ [span status error] |>) in
  let body : Serve () :=
    (if negb (traceID =s? "") then HeaderSet "X-Trace-ID" traceID else mret ());;
    modify (λ ex, ex <| ex_traceStatus := StatusOK |>);;
    next (traceResponseWriter w) (r <| in_Context := in_Context r <| cx_TraceID := traceID |> |>) in
  match body am ex with
  | (ex', Done _) => finish (Some (ex_traceStatus ex')) (span_error (ex_traceStatus ex')) am ex'
  | (ex', Panicked rec) => ((finish None None am ex').1, Panicked rec)
  end.

(** [s.handler] of [NewServer]. *)
Definition handler (mux : HTTPHandler) : HTTPHandler :=
  PanicRecoveryMiddleware
    (TracingMiddleware
       (RequestIDMiddleware
          (StructuredLoggerMiddleware
             (SecurityHeadersMiddleware
                (MaxBytesMiddleware (Z.shiftl 1 20) mux))))).

(** ** CORS *)

(** [u.Hostname()]: the host without a port of digits, and without brackets. *)
Definition valid_port (s : string) : bool := str_forallb is_digit_byte s.

Fixpoint last_colon (s : string) : option (string * string) :=
  match s with
  | EmptyString => None
  | String c s' =>
      match last_colon s' with
      | Some (a, b) => Some (String c a, b)
      | None => if bool_decide (c = ":"%char) then Some ("", s') else None
      end
  end.

Definition Hostname (host : string) : string :=
  let h := match last_colon host with
           | Some (a, b) => if valid_port b then a else host
           | None => host
           end in
  if HasPrefix h "[" && HasSuffix h "]" then str_take (String.length h - 2) (str_drop 1 h) else h.

Definition echo_origin (origin : string) : Serve () :=
  HeaderSet "Access-Control-Allow-Origin" origin;;
  HeaderSet "Access-Control-Allow-Credentials" "true";;
  HeaderSet "Vary" "Origin".

(** The origins of [FLAGURA_ALLOWED_ORIGIN]. *)
Definition allowed_origins (allowedOrigin : string) : list string := TrimSpace <$> Split allowedOrigin ",".

(** What the default accepts: the same host, or a server on the caller's machine. *)
Definition local_origin (origin host : string) : bool :=
  match URL_Host origin with
  | Some h => negb (h =s? "") &&
              ((h =s? host) || (Hostname h =s? "localhost") || (Hostname h =s? "127.0.0.1"))
  | None => false
  end.

Definition cors_headers (allowedOrigin origin host : string) : Serve () :=
  if negb (allowedOrigin =s? "") then
    if allowedOrigin =s? "*" then HeaderSet "Access-Control-Allow-Origin" "*"
    else if negb (origin =s? "") then
      if existsb (λ ao, ao =s? origin) (allowed_origins allowedOrigin) then echo_origin origin else mret ()
    else mret ()
  else if negb (origin =s? "") then
    if local_origin origin host then echo_origin origin else mret ()
  else mret ().

Definition ServeHTTP (mux : HTTPHandler) (r : Incoming) : Serve () :=
  let origin := HeaderGet (in_Request r) "Origin" in
  allowedOrigin ← getenv "FLAGURA_ALLOWED_ORIGIN";
  cors_headers allowedOrigin origin (rq_Host (in_Request r));;
  HeaderSet "Access-Control-Allow-Methods" "GET, POST, PUT, PATCH, DELETE, OPTIONS";;
  HeaderSet "Access-Control-Allow-Headers" "Content-Type, Authorization, X-API-Key, X-Webhook-Secret, X-Actor, X-Project-ID, X-Organization-ID, traceparent, tracestate";;
  HeaderSet "Access-Control-Expose-Headers" "X-Trace-ID, X-RateLimit-Limit, X-RateLimit-Remaining, X-RateLimit-Reset, Retry-After";;
  if rq_Method (in_Request r) =s? "OPTIONS" then WriteHeader Conn StatusOK
  else handler mux Conn r.

(** [net/http] serves one request: a new exchange, and a bare 200 if the handler
    wrote nothing; a panic that reaches it closes the connection. *)
Definition exchange (mux : HTTPHandler) (am : Ambient) (r : Incoming) : Exchange * Outcome () :=
  match ServeHTTP mux r am new_exchange with
  | (ex, Done u) => conn_WriteHeader StatusOK am ex
  | x => x
  end.

(** ** The multiplexer as a handler *)

(** How the handlers of the other files put their reply on the wire. *)
Definition write_reply (w : Writer) (r : Incoming) (rep : Reply) : Serve () :=
  match rp_Body rep with
  | BError code ty layer msg =>
      HeaderSet "Content-Type" "application/json; charset=utf-8";;
      WriteHeader w (rp_Status rep);;
      Write w (CEnvelope code ty layer msg (rp_Status rep) (cx_RequestID (in_Context r)));;
      mret ()
  | BText msg => http_Error w msg (rp_Status rep)
  | data => writeJSON w (rp_Status rep) data
  end.

Definition reply_handler (answer : Incoming → Reply) : HTTPHandler := λ w r, write_reply w r (answer r).

(** ** Reasoning *)

(** An operation that keeps a property of the exchange, panic or not. *)
Definition preserves {A} (I : Exchange → Prop) (m : Serve A) : Prop := ∀ am ex, I ex → I (m am ex).1.

Section Preserves.
Context (I : Exchange → Prop).

Lemma preserves_ret {A} (a : A) : preserves I (mret a).
Proof. by intros am ex. Qed.

Lemma preserves_bind {A B} (m : Serve A) (k : A → Serve B) :
  preserves I m → (∀ a, preserves I (k a)) → preserves I (m ≫= k).
Proof.
  intros Hm Hk am ex Hex. unfold mbind, serve_bind. specialize (Hm am ex Hex).
  destruct (m am ex) as [ex' [a|v]]; [by apply Hk|done].
Qed.

Lemma preserves_modify f : (∀ ex, I ex → I (f ex)) → preserves I (modify f).
Proof. intros Hf am ex. apply Hf. Qed.

Lemma preserves_gets {A} (f : Exchange → A) : preserves I (gets f).
Proof. by intros am ex. Qed.

Lemma preserves_getenv name : preserves I (getenv name).
Proof. by intros am ex. Qed.

End Preserves.

(** Walks through an operation. *)
Ltac preserves_step :=
  match goal with
  | |- preserves _ (_ ≫= _) => apply preserves_bind; [|intros ?]
  | |- preserves _ (match ?x with _ => _ end) => destruct x
  | |- preserves _ (if ?b then _ else _) => destruct b
  | |- preserves _ (mret _) => apply preserves_ret
  | |- preserves _ (gets _) => apply preserves_gets
  | |- preserves _ (getenv _) => apply preserves_getenv
  end.

(** Headers that are set, and are sent if anything is. *)
Definition has_headers (l : list (string * string)) (h : gmap string string) : Prop :=
  Forall (λ kv, h !! kv.1 = Some kv.2) l.

Definition guarded (l : list (string * string)) (ex : Exchange) : Prop :=
  has_headers l (ex_Header ex) ∧
  match ex_Sent ex with Some (_, h) => has_headers l h | None => True end.

Definition fits (l : list (string * string)) (k v : string) : Prop := Forall (λ kv, kv.1 = k → kv.2 = v) l.

Lemma has_headers_insert l k v h : fits l k v → has_headers l h → has_headers l (<[k := v]> h).
Proof.
  unfold has_headers, fits. rewrite !Forall_forall. intros Hf Hh kv Hkv.
  destruct (decide (kv.1 = k)) as [He|Hne].
  - rewrite He, lookup_insert_eq. f_equal. symmetry. by apply Hf.
  - rewrite lookup_insert_ne by congruence. by apply Hh.
Qed.

Definition CSP : string := "Content-Security-Policy".

(** The headers every answer has. *)
Definition security_headers (env : string → string) (r : Request) : list (string * string) :=
  [("X-Content-Type-Options", "nosniff"); ("X-Frame-Options", "SAMEORIGIN");
   ("X-XSS-Protection", "1; mode=block"); ("Referrer-Policy", "strict-origin-when-cross-origin");
   ("Permissions-Policy", "camera=(), microphone=(), geolocation=()")] ++
  (if needs_hsts (env "ENVIRONMENT") r
   then [("Strict-Transport-Security", "max-age=31536000; includeSubDomains")] else []).

(** The names no handler may change. *)
Definition security_names : list string :=
  ["X-Frame-Options"; "X-XSS-Protection"; "Referrer-Policy"; "Permissions-Policy";
   "Strict-Transport-Security"; CSP].

Definition secured (env : string → string) (r : Request) (ex : Exchange) : Prop :=
  guarded (security_headers env r) ex ∧
  ((∃ nonce, guarded [(CSP, csp nonce)] ex) ∨ (∃ h, ex_Sent ex = Some (StatusInternalServerError, h))).

Lemma security_headers_named env r :
  Forall (λ kv, kv = ("X-Content-Type-Options", "nosniff") ∨ kv.1 ∈ security_names) (security_headers env r).
Proof.
  unfold security_headers. destruct (needs_hsts _ _); cbn [app];
    repeat (apply Forall_cons; split; [first [by left|right; apply list_elem_of_In; cbn; tauto]|]); constructor.
Qed.

Lemma security_headers_not_csp env r v : fits (security_headers env r) CSP v.
Proof.
  unfold fits, security_headers, CSP. destruct (needs_hsts _ _); cbn [app];
    repeat (constructor; [cbn; congruence|]); constructor.
Qed.

Lemma CSP_named : CSP ∈ security_names.
Proof. apply list_elem_of_In. cbn. tauto. Qed.

Section Secured.
Context (env : string → string) (r : Request).
#[local] Abbreviation I := (secured env r).

Lemma preserves_sys : preserves I sys.
Proof. by intros am ex. Qed.

Lemma preserves_log g :
  (∀ ex, ex_Header (g ex) = ex_Header ex) → (∀ ex, ex_Sent (g ex) = ex_Sent ex) → preserves I (modify g).
Proof. intros Hh Hs am ex. unfold secured, guarded. cbn. by rewrite Hh, Hs. Qed.

Lemma preserves_HeaderSet k v :
  k ∉ security_names → (k = "X-Content-Type-Options" → v = "nosniff") → preserves I (HeaderSet k v).
Proof.
  intros Hk Hx am ex [[Hh Hs] Hc]. unfold secured, guarded, HeaderSet, modify in *. cbn.
  assert (Hf : fits (security_headers env r) k v).
  { eapply Forall_impl; [apply security_headers_named|]. intros kv [->|Hkv] Hk'; cbn in *; [by rewrite Hx|].
    by rewrite Hk' in Hkv. }
  split; [split; [by apply has_headers_insert|done]|].
  destruct Hc as [(n & Hn & Hns)|Hc]; [left; exists n|by right]. split; [|done].
  apply has_headers_insert; [|done]. constructor; [|constructor]. cbn. intros <-. by destruct (Hk CSP_named).
Qed.

Lemma preserves_HeaderDel k :
  k ∉ "X-Content-Type-Options" :: security_names → preserves I (HeaderDel k).
Proof.
  intros Hk am ex [[Hh Hs] Hc]. unfold secured, guarded, HeaderDel, modify in *. cbn.
  assert (Hd : ∀ l h, Forall (λ kv, kv.1 ∈ "X-Content-Type-Options" :: security_names) l →
    has_headers l h → has_headers l (delete k h)).
  { unfold has_headers. intros l h Hl Hl'. rewrite Forall_forall in *. intros kv Hkv.
    rewrite lookup_delete_ne; [by apply Hl'|]. intros ->. by apply Hk, Hl. }
  split; [split; [apply Hd; [|done]|done]|].
  - eapply Forall_impl; [apply security_headers_named|].
    intros kv [->|Hkv]; apply elem_of_cons; [by left|by right].
  - destruct Hc as [(n & Hn & Hns)|Hc]; [left; exists n|by right]. split; [|done].
    apply Hd; [|done]. constructor; [|constructor]. apply elem_of_cons. right. apply CSP_named.
Qed.

Lemma preserves_conn_WriteHeader code : preserves I (conn_WriteHeader code).
Proof.
  intros am ex Hex. unfold conn_WriteHeader. destruct (ex_Sent ex) as [x|] eqn:Hs; [done|].
  repeat (case_if; [done|]). destruct Hex as [[Hh _] Hc]. unfold secured, guarded. cbn.
  split; [by split|]. destruct Hc as [(n & Hn & _)|[h Hc]]; [left; exists n; by split|congruence].
Qed.

Lemma preserves_WriteHeader w code : preserves I (WriteHeader w code).
Proof.
  induction w; cbn; [apply preserves_conn_WriteHeader|..];
    (apply preserves_bind; [by apply preserves_log|by intros ?]).
Qed.

Lemma preserves_Write w c : preserves I (Write w c).
Proof.
  induction w; cbn; [|done|].
  - unfold conn_Write. repeat preserves_step; [apply preserves_conn_WriteHeader|by apply preserves_log].
  - repeat preserves_step; [|done|by apply preserves_log].
    apply preserves_log; intros ex; cbn; by case_if.
Qed.

Lemma preserves_ContentType v : preserves I (HeaderSet "Content-Type" v).
Proof.
  apply preserves_HeaderSet; [|done]. intros Hk%list_elem_of_In. cbn in Hk. by repeat destruct Hk as [Hk|Hk].
Qed.

Lemma preserves_writeError w q err : preserves I (writeError w q err).
Proof.
  unfold writeError. repeat preserves_step; first [apply preserves_ContentType|apply preserves_WriteHeader
    |apply preserves_Write].
Qed.

Lemma preserves_http_Error w msg code : preserves I (http_Error w msg code).
Proof.
  unfold http_Error. repeat preserves_step;
    [|apply preserves_ContentType| |apply preserves_WriteHeader|apply preserves_Write].
  - apply preserves_HeaderDel. intros Hk%list_elem_of_In. cbn in Hk. by repeat destruct Hk as [Hk|Hk].
  - apply preserves_HeaderSet; [|done]. intros Hk%list_elem_of_In. cbn in Hk. by repeat destruct Hk as [Hk|Hk].
Qed.

(** The replies of the handlers leave the security headers as they are. *)
Lemma preserves_write_reply w q rep : preserves I (write_reply w q rep).
Proof.
  unfold write_reply, writeJSON. destruct (rp_Body rep); try apply preserves_http_Error;
    repeat preserves_step; first [apply preserves_ContentType|apply preserves_WriteHeader|apply preserves_Write].
Qed.

End Secured.

(** An operation that returns, and leaves the answer unsent. *)
Definition quiet {A} (m : Serve A) : Prop :=
  ∀ am ex, ex_Sent ex = None → ∃ a, (m am ex).2 = Done a ∧ ex_Sent (m am ex).1 = None.

Lemma quiet_ret {A} (a : A) : quiet (mret a).
Proof. intros am ex Hex. by exists a. Qed.

Lemma quiet_bind {A B} (m : Serve A) (k : A → Serve B) : quiet m → (∀ a, quiet (k a)) → quiet (m ≫= k).
Proof.
  intros Hm Hk am ex Hex. destruct (Hm am ex Hex) as (a & Ha & Hs). unfold mbind, serve_bind.
  destruct (m am ex) as [ex' r]. cbn in *. subst r. by apply Hk.
Qed.

Lemma quiet_modify f : (∀ ex, ex_Sent (f ex) = ex_Sent ex) → quiet (modify f).
Proof. intros Hf am ex Hex. exists (). split; [done|]. cbn. by rewrite Hf. Qed.

Lemma quiet_getenv name : quiet (getenv name).
Proof. intros am ex Hex. by eexists. Qed.

Lemma quiet_sys : quiet sys.
Proof. intros am ex Hex. by eexists. Qed.

Create HintDb quiet.
#[local] Hint Resolve quiet_ret quiet_getenv quiet_sys : quiet.

Ltac quiet_all :=
  repeat first
    [ progress intros | apply quiet_bind | solve [auto with quiet] | apply quiet_modify
    | progress unfold HeaderSet, HeaderDel, echo_origin | case_if | done ].

Lemma quiet_cors allowedOrigin origin host : quiet (cors_headers allowedOrigin origin host).
Proof. unfold cors_headers. quiet_all. Qed.

Section Secures.
Context (am : Ambient) (r : Request).
#[local] Abbreviation I := (secured (am_Getenv am) r).

(** From an answer that is unsent, the operation puts the headers in place. *)
Definition secures {A} (m : Serve A) : Prop := ∀ ex, ex_Sent ex = None → I (m am ex).1.

Lemma secures_after {A B} (m : Serve A) (k : A → Serve B) :
  quiet m → (∀ a, secures (k a)) → secures (m ≫= k).
Proof.
  intros Hm Hk ex Hex. destruct (Hm am ex Hex) as (a & Ha & Hs). unfold mbind, serve_bind.
  destruct (m am ex) as [ex' o]. cbn in *. subst o. by apply Hk.
Qed.

Lemma secures_before {A B} (m : Serve A) (k : A → Serve B) :
  secures m → (∀ a, preserves I (k a)) → secures (m ≫= k).
Proof.
  intros Hm Hk ex Hex. specialize (Hm ex Hex). unfold mbind, serve_bind.
  destruct (m am ex) as [ex' [a|v]]; [by apply Hk|done].
Qed.

Lemma WriteHeader_unsent w code ex :
  ex_Sent ex = None → (200 ≤ code ≤ 999)%Z →
  (WriteHeader w code am ex).2 = Done () ∧
  ex_Header (WriteHeader w code am ex).1 = ex_Header ex ∧
  ex_Sent (WriteHeader w code am ex).1 = Some (code, ex_Header ex).
Proof.
  intros Hex Hc. revert ex Hex. induction w as [|w IH|w IH]; intros ex Hex; cbn; [|by apply IH..].
  unfold conn_WriteHeader. rewrite Hex.
  rewrite (proj2 (Z.ltb_ge code 100)), (proj2 (Z.ltb_ge 999 code)), (proj2 (Z.leb_gt code 199)) by lia. done.
Qed.

Lemma secures_http_Error w msg ex :
  ex_Sent ex = None → has_headers (security_headers (am_Getenv am) r) (ex_Header ex) →
  I (http_Error w msg StatusInternalServerError am ex).1.
Proof.
  intros Hex Hh. unfold http_Error, HeaderDel, HeaderSet, modify, mbind, serve_bind.
  set (ex1 := ex <| ex_Header := _ |> <| ex_Header := _ |> <| ex_Header := _ |>).
  destruct (WriteHeader_unsent w StatusInternalServerError ex1 Hex ltac:(unfold StatusInternalServerError; lia)) as (Hd & Hh1 & Hs1).
  fold ex1. destruct (WriteHeader w _ am ex1) as [ex2 o]. cbn in Hd, Hh1, Hs1. subst o.
  assert (HI : I ex2).
  { assert (Hg : has_headers (security_headers (am_Getenv am) r) (ex_Header ex1)).
    { eapply Forall_impl; [apply Forall_and; split; [apply security_headers_named|exact Hh]|].
      intros kv [[->|Hkv] Hl]; cbn; [by rewrite lookup_insert_eq|].
      rewrite !lookup_insert_ne, lookup_delete_ne; [done|..]; intros He; rewrite <- He in Hkv;
        apply list_elem_of_In in Hkv; by repeat destruct Hkv as [Hkv|Hkv]. }
    split; [split; [by rewrite Hh1|by rewrite Hs1]|right; eauto]. }
  pose proof (preserves_Write (am_Getenv am) r w (CText (msg +:+ String (ascii_of_nat 10) "")) am ex2 HI) as HW.
  by destruct (Write w _ am ex2) as [ex3 [n|v]].
Qed.

Lemma secures_SecurityHeaders next w (q : Incoming) :
  in_Request q = r → (∀ w q, in_Request q = r → preserves I (next w q)) →
  secures (SecurityHeadersMiddleware next w q).
Proof.
  intros Hq Hnext ex Hex. unfold SecurityHeadersMiddleware, HeaderSet, modify, getenv, rand_Read, mbind, serve_bind.
  rewrite Hq. set (h := <["Permissions-Policy" := _]> _).
  set (h' := if needs_hsts (am_Getenv am "ENVIRONMENT") r
             then <["Strict-Transport-Security" := "max-age=31536000; includeSubDomains"]> h else h).
  assert (Hh : has_headers (security_headers (am_Getenv am) r) h').
  { unfold has_headers, security_headers, h', h. cbn.
    destruct (needs_hsts _ _); repeat (constructor; [cbn; by simplify_map_eq|]); constructor. }
  destruct (needs_hsts (am_Getenv am "ENVIRONMENT") r); cbn;
    (destruct (am_rand am (ex_step ex)) as [bs|]; cbn; [|by apply secures_http_Error]);
    (apply Hnext; [done|]; split; [split; [|by rewrite Hex]|left; exists (StdEncoding bs); split; [|by rewrite Hex]]);
    try (constructor; [apply lookup_insert_eq|constructor]);
    (apply has_headers_insert; [apply security_headers_not_csp|done]).
Qed.

Lemma secures_handler mux w q :
  in_Request q = r → (∀ w q, in_Request q = r → preserves I (mux w q)) → secures (handler mux w q).
Proof.
  intros Hq Hmux.
  assert (H1' : ∀ w q, in_Request q = r → preserves I (MaxBytesMiddleware (Z.shiftl 1 20) mux w q)).
  { intros w' q' Hq'. unfold MaxBytesMiddleware. repeat preserves_step; by apply Hmux. }
  assert (H2' : ∀ w q, in_Request q = r → secures
    (StructuredLoggerMiddleware (SecurityHeadersMiddleware (MaxBytesMiddleware (Z.shiftl 1 20) mux)) w q)).
  { intros w' q' Hq'. unfold StructuredLoggerMiddleware.
    apply secures_after; [apply quiet_sys|intros start]. apply secures_after; [by apply quiet_modify|intros _].
    apply secures_before; [by apply secures_SecurityHeaders|intros _].
    repeat preserves_step; first [apply preserves_sys|by apply preserves_log]. }
  assert (H3' : ∀ w q, in_Request q = r → secures (RequestIDMiddleware (StructuredLoggerMiddleware
    (SecurityHeadersMiddleware (MaxBytesMiddleware (Z.shiftl 1 20) mux))) w q)).
  { intros w' q' Hq'. unfold RequestIDMiddleware.
    apply secures_after; [quiet_all|intros id]. apply secures_after; [quiet_all|intros _]. by apply H2'. }
  assert (H4' : ∀ w q, in_Request q = r → secures (TracingMiddleware (RequestIDMiddleware
    (StructuredLoggerMiddleware (SecurityHeadersMiddleware (MaxBytesMiddleware (Z.shiftl 1 20) mux)))) w q)).
  { intros w' q' Hq' ex Hex. unfold TracingMiddleware.
    match goal with |- context [match ?m am ex with _ => _ end] => assert (Hb : I (m am ex).1) end.
    { apply secures_after; [quiet_all|intros _|done]. apply secures_after; [quiet_all|intros _]. by apply H3'. }
    match goal with |- context [match ?m am ex with _ => _ end] => destruct (m am ex) as [ex' [u|v]] end;
      by apply preserves_log. }
  intros ex Hex. unfold handler, PanicRecoveryMiddleware. specialize (H4' w q Hq ex Hex).
  destruct (TracingMiddleware _ w q am ex) as [ex' [u|v]]; [exact H4'|].
  cbn zeta. match goal with |- I ((?m) am ex').1 => assert (Hp : preserves I m) end; [|by apply Hp].
  apply preserves_bind; [by apply preserves_log|intros _; apply preserves_writeError].
Qed.

End Secures.

(** ** Every answer *)

(** An operation that does not panic. *)
Definition total {A} (m : Serve A) : Prop := ∀ am ex, ∃ a, (m am ex).2 = Done a.

Lemma total_bind {A B} (m : Serve A) (k : A → Serve B) : total m → (∀ a, total (k a)) → total (m ≫= k).
Proof.
  intros Hm Hk am ex. unfold mbind, serve_bind. destruct (Hm am ex) as [a Ha].
  destruct (m am ex) as [ex' o]. cbn in Ha. subst o. apply Hk.
Qed.

Lemma total_modify f : total (modify f).
Proof. intros am ex. by eexists. Qed.

Lemma total_ret {A} (a : A) : total (mret a).
Proof. intros am ex. by eexists. Qed.

Lemma total_WriteHeader w code : (200 ≤ code ≤ 999)%Z → total (WriteHeader w code).
Proof.
  intros Hc. induction w; cbn; [|by apply total_bind; [apply total_modify|]..].
  intros am ex. exists (). unfold conn_WriteHeader. destruct (ex_Sent ex); [done|].
  rewrite (proj2 (Z.ltb_ge code 100)), (proj2 (Z.ltb_ge 999 code)), (proj2 (Z.leb_gt code 199)) by lia. done.
Qed.

Lemma total_Write w c : total (Write w c).
Proof.
  induction w; cbn; [|done|].
  - unfold conn_Write. apply total_bind; [by apply (total_WriteHeader Conn)|intros _].
    apply total_bind; [apply total_modify|intros _; apply total_ret].
  - repeat (apply total_bind; [done || apply total_modify|intros ?]). apply total_ret.
Qed.

Lemma total_writeError w q : total (writeError w q internal_error).
Proof.
  cbn. repeat (apply total_bind; [first [apply total_modify|by apply total_WriteHeader|apply total_Write]|intros ?]).
  apply total_ret.
Qed.

(** No panic reaches [net/http]. *)
Lemma handler_returns mux w q : total (handler mux w q).
Proof.
  intros am ex. unfold handler, PanicRecoveryMiddleware.
  destruct (TracingMiddleware _ _ _ _ _) as [ex' [u|v]]; [by eexists|].
  apply (total_bind (modify _)); [apply total_modify|intros _; apply total_writeError].
Qed.


(** ** CORS *)

(** A property of the headers, for those that may change and those that were sent. *)
Definition kept (P : gmap string string → Prop) (ex : Exchange) : Prop :=
  P (ex_Header ex) ∧ match ex_Sent ex with Some (_, h) => P h | None => True end.

Section Kept.
Context (P : gmap string string → Prop) (ks : list string).
Context (HP : ∀ h h', (∀ k, k ∈ ks → h !! k = h' !! k) → P h → P h').

Lemma kept_modify f :
  (∀ ex, ex_Header (f ex) = ex_Header ex) → (∀ ex, ex_Sent (f ex) = ex_Sent ex) →
  preserves (kept P) (modify f).
Proof. intros Hh Hs am ex. unfold kept. cbn. by rewrite Hh, Hs. Qed.

Lemma kept_HeaderSet k v : k ∉ ks → preserves (kept P) (HeaderSet k v).
Proof.
  intros Hk am ex [Hh Hs]. split; [|done]. cbn. eapply HP; [|exact Hh].
  intros k' Hk'. rewrite lookup_insert_ne; [done|]. by intros ->.
Qed.

Lemma kept_HeaderDel k : k ∉ ks → preserves (kept P) (HeaderDel k).
Proof.
  intros Hk am ex [Hh Hs]. split; [|done]. cbn. eapply HP; [|exact Hh].
  intros k' Hk'. rewrite lookup_delete_ne; [done|]. by intros ->.
Qed.

Lemma kept_conn_WriteHeader code : preserves (kept P) (conn_WriteHeader code).
Proof.
  intros am ex [Hh Hs]. unfold conn_WriteHeader. destruct (ex_Sent ex) as [[st h]|] eqn:He;
    [unfold kept; cbn; by rewrite He|]. repeat (case_if; [unfold kept; cbn; by rewrite He|]). done.
Qed.

Lemma kept_WriteHeader w code : preserves (kept P) (WriteHeader w code).
Proof.
  induction w; cbn; [apply kept_conn_WriteHeader|..];
    (apply preserves_bind; [by apply kept_modify|by intros ?]).
Qed.

Lemma kept_Write w c : preserves (kept P) (Write w c).
Proof.
  induction w; cbn; [|done|].
  - unfold conn_Write. repeat preserves_step; [apply kept_conn_WriteHeader|by apply kept_modify].
  - repeat preserves_step; [|done|by apply kept_modify].
    apply kept_modify; intros ex; cbn; by case_if.
Qed.

(** The names of the headers the middlewares write. *)
Definition handler_names : list string :=
  ["X-Content-Type-Options"; "Content-Type"; "Content-Length"; HeaderRequestID; "X-Trace-ID"] ++ security_names.

Context (Hks : ∀ k, k ∈ handler_names → k ∉ ks).

Ltac kept_all :=
  repeat first
    [ preserves_step
    | apply kept_HeaderSet, Hks, list_elem_of_In; cbn; tauto
    | apply kept_HeaderDel, Hks, list_elem_of_In; cbn; tauto
    | apply kept_WriteHeader | apply kept_Write | by apply kept_modify
    | by intros am ex ].

Lemma kept_writeError w q err : preserves (kept P) (writeError w q err).
Proof. unfold writeError. kept_all. Qed.

Lemma kept_write_reply w q rep : preserves (kept P) (write_reply w q rep).
Proof. unfold write_reply, writeJSON, http_Error. destruct (rp_Body rep); kept_all. Qed.

Lemma kept_handler mux w q :
  (∀ w q, preserves (kept P) (mux w q)) → preserves (kept P) (handler mux w q).
Proof.
  intros Hmux.
  assert (Hin : ∀ w q, preserves (kept P) (RequestIDMiddleware (StructuredLoggerMiddleware
    (SecurityHeadersMiddleware (MaxBytesMiddleware (Z.shiftl 1 20) mux))) w q)).
  { intros w' q'. unfold RequestIDMiddleware, StructuredLoggerMiddleware, SecurityHeadersMiddleware,
      MaxBytesMiddleware, http_Error. kept_all; apply Hmux. }
  intros am ex Hex. unfold handler, PanicRecoveryMiddleware.
  assert (Ht : preserves (kept P) (TracingMiddleware (RequestIDMiddleware (StructuredLoggerMiddleware
    (SecurityHeadersMiddleware (MaxBytesMiddleware (Z.shiftl 1 20) mux)))) w q)).
  { intros am' ex' Hex'. unfold TracingMiddleware.
    match goal with |- context [match ?m am' ex' with _ => _ end] =>
      assert (Hb : preserves (kept P) m) by (kept_all; apply Hin); specialize (Hb am' ex' Hex') end.
    match goal with |- context [match ?m am' ex' with _ => _ end] => destruct (m am' ex') as [ex1 [u|v]] end;
      by apply kept_modify. }
  specialize (Ht am ex Hex). destruct (TracingMiddleware _ _ _ am ex) as [ex1 [u|v]]; [exact Ht|].
  apply preserves_bind; [by apply kept_modify|intros _; apply kept_writeError|done].
Qed.

End Kept.

Definition cors_names : list string := ["Access-Control-Allow-Origin"; "Access-Control-Allow-Credentials"].

(** Credentials only together with the caller's own origin, and only for an origin
    the operator listed, or, without a list, for one of the same host or machine. *)
Definition cors_sound (allowedOrigin origin host : string) (h : gmap string string) : Prop :=
  h !! "Access-Control-Allow-Credentials" = Some "true" →
  origin ≠ "" ∧ h !! "Access-Control-Allow-Origin" = Some origin ∧
  if allowedOrigin =s? "" then local_origin origin host = true
  else allowedOrigin ≠ "*" ∧ origin ∈ allowed_origins allowedOrigin.

Lemma cors_headers_sound allowedOrigin origin host am :
  kept (cors_sound allowedOrigin origin host) (cors_headers allowedOrigin origin host am new_exchange).1.
Proof.
  split; [|by destruct (quiet_cors allowedOrigin origin host am new_exchange eq_refl) as (_ & _ & ->)].
  unfold cors_headers, cors_sound. destruct (allowedOrigin =s? "") eqn:Ha; cbn [negb].
  - destruct (origin =s? "") eqn:Ho; cbn [negb]; [done|]. apply str_eqb_neq in Ho.
    destruct (local_origin origin host); cbn; [by intros _; simplify_map_eq|done].
  - destruct (allowedOrigin =s? "*") eqn:Hs; [by cbn; intros Hc; simplify_map_eq|].
    destruct (origin =s? "") eqn:Ho; cbn [negb]; [done|]. apply str_eqb_neq in Ho, Hs.
    destruct (existsb _ _) eqn:He; cbn; [|done]. intros _. simplify_map_eq. repeat split; try done.
    apply existsb_exists in He as (ao & Hin & ->%str_eqb_eq). by apply list_elem_of_In.
Qed.

Section Cors.
Context (am : Ambient) (q : Incoming).
Let P : gmap string string → Prop :=
  cors_sound (am_Getenv am "FLAGURA_ALLOWED_ORIGIN") (HeaderGet (in_Request q) "Origin") (rq_Host (in_Request q)).

Lemma cors_sound_frame h h' : (∀ k, k ∈ cors_names → h !! k = h' !! k) → P h → P h'.
Proof.
  intros Hk. unfold P, cors_sound. rewrite !Hk by (apply list_elem_of_In; cbn; tauto). done.
Qed.

Lemma handler_names_no_cors k : k ∈ handler_names → k ∉ cors_names.
Proof.
  intros Hk%list_elem_of_In Hk'%list_elem_of_In. cbn in Hk, Hk'.
  destruct Hk' as [<-|[<-|[]]]; by repeat destruct Hk as [Hk|Hk].
Qed.

Lemma ServeHTTP_sound mux :
  (∀ w q', preserves (kept P) (mux w q')) →
  kept P (ServeHTTP mux q am new_exchange).1 ∧ ∃ u, (ServeHTTP mux q am new_exchange).2 = Done u.
Proof.
  intros Hmux. unfold ServeHTTP. set (k := λ _ : (), HeaderSet _ _ ;; _).
  assert (Hk : preserves (kept P) (k ()) ∧ total (k ())).
  { split; unfold k; [repeat preserves_step|repeat (apply total_bind; [apply total_modify|intros _])].
    1-3: apply (kept_HeaderSet P cors_names cors_sound_frame); intros Hk%list_elem_of_In; cbn in Hk;
      by repeat destruct Hk as [Hk|Hk].
    - apply kept_WriteHeader.
    - by apply (kept_handler P cors_names cors_sound_frame handler_names_no_cors).
    - case_if; [by apply total_WriteHeader|apply handler_returns]. }
  unfold getenv, mbind, serve_bind.
  pose proof (cors_headers_sound (am_Getenv am "FLAGURA_ALLOWED_ORIGIN") (HeaderGet (in_Request q) "Origin")
    (rq_Host (in_Request q)) am) as Hc.
  destruct (quiet_cors (am_Getenv am "FLAGURA_ALLOWED_ORIGIN") (HeaderGet (in_Request q) "Origin")
    (rq_Host (in_Request q)) am new_exchange eq_refl) as ([] & Hd & _).
  destruct (cors_headers _ _ _ _ _) as [ex1 o]. cbn in Hc, Hd. subst o.
  destruct Hk as [Hk Ht]. split; [by apply Hk|by apply Ht].
Qed.

(** C31: Whatever the handlers do, short of breaking this rule themselves, the answer to
    any request, preflights included, lets a page of another origin send
    credentials only if the origin is listed, or, without a list, local; and never
    together with the wildcard. *)
Theorem cors_credentials_sound mux :
  (∀ w q', preserves (kept P) (mux w q')) →
  ∃ status hs, ex_Sent (exchange mux am q).1 = Some (status, hs) ∧
    cors_sound (am_Getenv am "FLAGURA_ALLOWED_ORIGIN") (HeaderGet (in_Request q) "Origin")
      (rq_Host (in_Request q)) hs.
Proof.
  intros Hmux. destruct (ServeHTTP_sound mux Hmux) as [Hm [u Hu]].
  unfold exchange. destruct (ServeHTTP mux q am new_exchange) as [ex o]. cbn in Hm, Hu. subst o.
  pose proof (kept_conn_WriteHeader P StatusOK am ex Hm) as [_ Hs].
  assert (is_Some (ex_Sent (conn_WriteHeader StatusOK am ex).1)) as [[status hs] He].
  { unfold conn_WriteHeader. destruct (ex_Sent ex) eqn:He; cbn; rewrite ?He; eauto. }
  exists status, hs. rewrite He in Hs. by split.
Qed.

End Cors.

(** ** Panics *)

(** What [NewID] gives is never empty. *)
Lemma NewID_nonempty o : NewID o "req" ≠ "".
Proof. unfold NewID. by destruct (Itoa _). Qed.

(** Nothing was sent, written or logged on the way, and the identifier is still there. *)
Definition same (ex ex' : Exchange) : Prop :=
  ex_Sent ex' = None ∧ ex_Body ex' = ex_Body ex ∧ ex_log ex' = ex_log ex ∧
  ex_Header ex' !! HeaderRequestID = ex_Header ex !! HeaderRequestID.

Lemma same_trans ex1 ex2 ex3 : same ex1 ex2 → same ex2 ex3 → same ex1 ex3.
Proof. intros (? & ? & ? & ?) (? & ? & ? & ?). repeat split; congruence. Qed.

Section Panics.
Context (am : Ambient) (v : string).

Definition plain {A} (m : Serve A) : Prop :=
  ∀ ex, ex_Sent ex = None → ∃ a ex', m am ex = (ex', Done a) ∧ same ex ex'.

Definition crashes {A} (m : Serve A) : Prop :=
  ∀ ex, ex_Sent ex = None → ∃ ex', m am ex = (ex', Panicked v) ∧ same ex ex'.

Lemma crashes_after {A B} (m : Serve A) (k : A → Serve B) :
  plain m → (∀ a, crashes (k a)) → crashes (m ≫= k).
Proof.
  intros Hm Hk ex Hex. destruct (Hm ex Hex) as (a & ex1 & He & H1'). unfold mbind, serve_bind. rewrite He.
  destruct (Hk a ex1 (proj1 H1')) as (ex2 & -> & H2'). exists ex2. split; [done|by eapply same_trans].
Qed.

Lemma crashes_first {A B} (m : Serve A) (k : A → Serve B) : crashes m → crashes (m ≫= k).
Proof.
  intros Hm ex Hex. destruct (Hm ex Hex) as (ex1 & He & H1'). unfold mbind, serve_bind. rewrite He. eauto.
Qed.

Lemma plain_bind {A B} (m : Serve A) (k : A → Serve B) : plain m → (∀ a, plain (k a)) → plain (m ≫= k).
Proof.
  intros Hm Hk ex Hex. destruct (Hm ex Hex) as (a & ex1 & He & H1'). unfold mbind, serve_bind. rewrite He.
  destruct (Hk a ex1 (proj1 H1')) as (b & ex2 & -> & H2'). exists b, ex2. split; [done|by eapply same_trans].
Qed.

Lemma plain_modify f : (∀ ex, ex_Sent ex = None → same ex (f ex)) → plain (modify f).
Proof. intros Hf ex Hex. do 2 eexists. split; [reflexivity|by apply Hf]. Qed.

Lemma plain_HeaderSet k val : k ≠ HeaderRequestID → plain (HeaderSet k val).
Proof. intros Hk. apply plain_modify. intros ex Hex. repeat split; [done|cbn; by rewrite lookup_insert_ne]. Qed.

Lemma plain_ret {A} (a : A) : plain (mret a).
Proof. intros ex Hex. do 2 eexists. split; [reflexivity|by repeat split]. Qed.

Lemma plain_getenv name : plain (getenv name).
Proof. intros ex Hex. do 2 eexists. split; [reflexivity|by repeat split]. Qed.

Lemma plain_sys : plain sys.
Proof. intros ex Hex. do 2 eexists. split; [reflexivity|by repeat split]. Qed.

Lemma plain_if {A} (b : bool) (m n : Serve A) : plain m → plain n → plain (if b then m else n).
Proof. by destruct b. Qed.

Lemma plain_cors allowedOrigin origin host : plain (cors_headers allowedOrigin origin host).
Proof.
  unfold cors_headers, echo_origin. repeat first [apply plain_if|apply plain_bind; [|intros _]|apply plain_ret
    |by apply plain_HeaderSet].
Qed.

Lemma crashes_SecurityHeaders next w q :
  (∀ n, is_Some (am_rand am n)) → (∀ w q, crashes (next w q)) → crashes (SecurityHeadersMiddleware next w q).
Proof.
  intros Hrand Hnext. unfold SecurityHeadersMiddleware.
  repeat (apply crashes_after; [first [by apply plain_HeaderSet|apply plain_getenv
    |apply plain_if; [by apply plain_HeaderSet|apply plain_ret]]|intros ?]).
  intros ex Hex. unfold rand_Read, mbind, serve_bind. destruct (Hrand (ex_step ex)) as [bs ->].
  set (ex0 := ex <| ex_step := _ |>).
  destruct (crashes_after (HeaderSet "Content-Security-Policy" (csp (StdEncoding bs)))
    (λ _, next w (q <| in_Context := in_Context q <| cx_Nonce := StdEncoding bs |> |>))
    ltac:(by apply plain_HeaderSet) (λ _, Hnext _ _) ex0 Hex) as (ex' & He & Hsame).
  exists ex'. by split.
Qed.

(** The inner middlewares, from the request identifier on: the panic passes through. *)
Definition inner (mux : HTTPHandler) : HTTPHandler :=
  StructuredLoggerMiddleware (SecurityHeadersMiddleware (MaxBytesMiddleware (Z.shiftl 1 20) mux)).

Lemma crashes_inner w q : (∀ n, is_Some (am_rand am n)) → crashes (inner (λ _ _, panic v) w q).
Proof.
  intros Hrand. unfold inner, StructuredLoggerMiddleware.
  apply crashes_after; [apply plain_sys|intros start]. apply crashes_after; [by apply plain_modify|intros _].
  apply crashes_first, crashes_SecurityHeaders; [done|]. intros w' q' ex Hex. exists ex.
  unfold MaxBytesMiddleware. split; [|by repeat split]. by destruct (in_Body q'); [case_if|].
Qed.

Lemma crashes_RequestID w q ex :
  (∀ n, is_Some (am_rand am n)) → ex_Sent ex = None →
  ∃ ex' id, RequestIDMiddleware (inner (λ _ _, panic v)) w q am ex = (ex', Panicked v) ∧
    ex_Sent ex' = None ∧ ex_Body ex' = ex_Body ex ∧ ex_log ex' = ex_log ex ∧
    ex_Header ex' !! HeaderRequestID = Some id ∧ id ≠ "".
Proof.
  intros Hrand Hex. unfold RequestIDMiddleware.
  assert (Hid : ∃ id ex1, (if HeaderGet (in_Request q) HeaderRequestID =s? ""
      then o ← sys; mret (NewID o "req") else mret (HeaderGet (in_Request q) HeaderRequestID)) am ex
    = (ex1, Done id) ∧ id ≠ "" ∧ same ex ex1).
  { destruct (_ =s? "") eqn:He; do 2 eexists; (split; [reflexivity|]); (split; [|by repeat split]);
      [apply NewID_nonempty|by apply str_eqb_neq in He]. }
  destruct Hid as (id & ex1 & He & Hne & Hs1 & Hb1 & Hl1 & _). unfold mbind at 1, serve_bind at 1. rewrite He.
  unfold HeaderSet, modify, mbind, serve_bind.
  match goal with |- context [inner _ w ?q' am ?e] =>
    destruct (crashes_inner w q' Hrand e Hs1) as (ex2 & Hc & Hs2 & Hb2 & Hl2 & Hh2) end.
  exists ex2, id. split; [exact Hc|]. cbn in *. rewrite Hh2, lookup_insert_eq. repeat split; congruence.
Qed.

(** The tracing adds its header, and a span without a status. *)
Lemma crashes_Tracing w q ex :
  (∀ n, is_Some (am_rand am n)) → ex_Sent ex = None →
  ∃ ex' id, TracingMiddleware (RequestIDMiddleware (inner (λ _ _, panic v))) w q am ex = (ex', Panicked v) ∧
    ex_Sent ex' = None ∧ ex_Body ex' = ex_Body ex ∧ ex_log ex' = ex_log ex ∧
    ex_Header ex' !! HeaderRequestID = Some id ∧ id ≠ "".
Proof.
  intros Hrand Hex. unfold TracingMiddleware.
  set (q' := q <| in_Context := in_Context q <| cx_TraceID := trace_id_of (in_Request q) |> |>).
  set (span := mkSpan _ _ _).
  set (pre := if negb (trace_id_of (in_Request q) =s? "")
      then HeaderSet "X-Trace-ID" (trace_id_of (in_Request q)) else mret ()).
  assert (Hpre : plain (pre;; modify (λ ex, ex <| ex_traceStatus := StatusOK |>))).
  { apply plain_bind; [apply plain_if; [by apply plain_HeaderSet|apply plain_ret]|intros _].
    by apply plain_modify. }
  destruct (Hpre ex Hex) as ([] & ex1 & He1 & Hs1 & Hb1 & Hl1 & _).
  destruct (crashes_RequestID (traceResponseWriter w) q' ex1 Hrand Hs1) as (ex2 & id & He2 & Hs2 & Hb2 & Hl2 & Hh2 & Hid).
  assert (Hrun : (pre;; modify (λ ex, ex <| ex_traceStatus := StatusOK |>);;
    RequestIDMiddleware (inner (λ _ _, panic v)) (traceResponseWriter w) q') am ex = (ex2, Panicked v)).
  { revert He1 He2. unfold mbind, serve_bind. destruct (pre am ex) as [ex0 [[]|]]; [|done].
    cbn. intros [= <-]. done. }
  cbn zeta. rewrite Hrun. exists (ex2 <| ex_spans := ex_spans ex2 ++ [span None None] |>), id.
  split; [done|]. cbn. repeat split; congruence.
Qed.

End Panics.

(** A handler that panics before it writes is answered by the envelope of an
    internal error with status 500, and the panic is logged.  The identifier in
    both is the one of the context the server was called with, so there is none,
    although the response has a header with the identifier of the request; and the
    request has no line in the request log. *)
Theorem panics_are_answered am q v :
  (∀ n, is_Some (am_rand am n)) → rq_Method (in_Request q) ≠ "OPTIONS" →
  let x := (exchange (λ _ _, panic v) am q).1 in
  ∃ hs id, ex_Sent x = Some (StatusInternalServerError, hs) ∧
    hs !! HeaderRequestID = Some id ∧ id ≠ "" ∧
    ex_Body x = [CEnvelope ErrCodeInternal (code_String ErrCodeInternal) (Layer ErrCodeInternal)
                   "An unexpected internal error occurred. Please contact support."
                   StatusInternalServerError (cx_RequestID (in_Context q))] ∧
    ex_log x = [PanicRecovered v (cx_RequestID (in_Context q))].
Proof.
  intros Hrand Hm x. unfold x, exchange.
  assert (Hpre : ∃ ex1, ServeHTTP (λ _ _, panic v) q am new_exchange = handler (λ _ _, panic v) Conn q am ex1 ∧
    ex_Sent ex1 = None ∧ ex_Body ex1 = [] ∧ ex_log ex1 = []).
  { unfold ServeHTTP. rewrite (proj2 (str_eqb_neq _ _) Hm). unfold getenv, mbind, serve_bind.
    destruct (plain_cors am (am_Getenv am "FLAGURA_ALLOWED_ORIGIN") (HeaderGet (in_Request q) "Origin")
      (rq_Host (in_Request q)) new_exchange eq_refl) as ([] & ex0 & -> & Hs & Hb & Hl & _).
    eexists. split; [reflexivity|]. by repeat split. }
  destruct Hpre as (ex1 & -> & Hs & Hb & Hl).
  unfold handler, PanicRecoveryMiddleware. fold (inner (λ _ _, panic v)).
  destruct (crashes_Tracing am v Conn q ex1 Hrand Hs) as (ex2 & id & -> & Hs2 & Hb2 & Hl2 & Hh2 & Hid).
  cbn. unfold HeaderSet, conn_WriteHeader, conn_Write, modify, mret, serve_ret, mbind, serve_bind.
  cbn. rewrite Hs2. cbn. do 2 eexists. split; [reflexivity|].
  rewrite lookup_insert_ne by done. rewrite Hb2, Hb, Hl2, Hl. by repeat split.
Qed.

(** ** Bodies *)

(** A handler of a request that carries a body to be stored reads at most the limit
    of bytes, or an error: what it is given is the original body behind a reader
    that stops there. *)
Theorem bodies_are_limited mux w q n b :
  in_Body q = Some b → limited_method (rq_Method (in_Request q)) = true →
  ∃ q', MaxBytesMiddleware n mux w q = mux w q' ∧ in_Request q' = in_Request q ∧
    in_Context q' = in_Context q ∧
    ∃ b', in_Body q' = Some b' ∧
      match ReadAll b' with
      | Ok s => s = bd_data b ∧ (Z.of_nat (String.length s) ≤ Z.max 0 n)%Z
      | Err e => (Z.max 0 n < Z.of_nat (String.length (bd_data b)))%Z
      end.
Proof.
  intros Hb Hm. unfold MaxBytesMiddleware. rewrite Hb, Hm. eexists. split; [reflexivity|]. do 2 (split; [done|]).
  eexists. split; [reflexivity|]. unfold ReadAll. cbn. destruct (Z.leb_spec (Z.of_nat (String.length (bd_data b))) (Z.max 0 n)).
  - by split.
  - done.
Qed.

End Server.

(** ** A small instance *)

#[export] Instance demo_wire : WireLib := {|
  chunk_bytes c := match c with CText s => s | _ => "{}" end;
  trace_id_of r := HeaderGet r "traceparent";
  URL_Host s := head (Split (TrimPrefix (TrimPrefix s "http://") "https://") "/");
|}.

#[local] Existing Instance sample_runtime.

Definition demo_ambient (env : list (string * string)) : Ambient :=
  mkAmbient (λ k, default "" (list_to_map (M := gmap string string) env !! k))
    (λ n, mkSys (λ _, Z.of_nat n) (λ _, Itoa (Z.of_nat n))) (λ _, Some (replicate 16 7%Z)).

Definition arriving (r : Request) : Incoming := mkIncoming r background (Some (mkBody "{}" None)).

(** The multiplexer of the server on the demo store. *)
Definition demo_mux : HTTPHandler :=
  reply_handler (λ q, (serve demo_server
    (ServeMux (λ _ _, mret (mkReply StatusOK BDone)) (λ _, true) (λ _, true) (in_Request q)) demo_world).2).


(** The same from a page of another site: no credentials. *)
Lemma cors_credentials_sound_witness :
  let q := arriving (request "GET" "/livez" [("Origin", "https://evil.example")] []) in
  match ex_Sent (exchange demo_mux (demo_ambient []) q).1 with
  | Some (_, hs) => hs !! "Access-Control-Allow-Credentials" = None
  | None => False
  end ∧
  ∃ status hs, ex_Sent (exchange demo_mux (demo_ambient []) q).1 = Some (status, hs) ∧
    cors_sound "" "https://evil.example" "flags.acme.dev" hs.
Proof.
  split; [vm_compute; reflexivity|].
  apply (cors_credentials_sound (demo_ambient []) (arriving (request "GET" "/livez" [("Origin", "https://evil.example")] []))
    demo_mux).
  intros w q'. apply (kept_write_reply _ cors_names (cors_sound_frame _ _) handler_names_no_cors).
Defined.

Lemma panics_are_answered_witness :
  let q := arriving (stranger "/api/v1/flags") in
  let x := (exchange (λ _ _, panic "nil map") (demo_ambient []) q).1 in
  ∃ hs id, ex_Sent x = Some (StatusInternalServerError, hs) ∧ hs !! HeaderRequestID = Some id ∧ id ≠ "" ∧
    ex_Body x = [CEnvelope ErrCodeInternal (code_String ErrCodeInternal) (Layer ErrCodeInternal)
                   "An unexpected internal error occurred. Please contact support." StatusInternalServerError ""] ∧
    ex_log x = [PanicRecovered "nil map" ""].
Proof.
  apply (panics_are_answered (demo_ambient []) (arriving (stranger "/api/v1/flags")) "nil map"); [|done].
  intros n. by eexists.
Defined.

Lemma bodies_are_limited_witness :
  let q := arriving (request "POST" "/api/v1/flags" [] []) in
  ∃ q', MaxBytesMiddleware 1 demo_mux Conn q = demo_mux Conn q' ∧ in_Request q' = in_Request q ∧
    in_Context q' = in_Context q ∧
    ∃ b', in_Body q' = Some b' ∧
      match ReadAll b' with Ok s => s = "{}" ∧ (2 ≤ 1)%Z | Err e => (1 < 2)%Z end.
Proof.
  destruct (bodies_are_limited demo_mux Conn (arriving (request "POST" "/api/v1/flags" [] [])) 1
    (mkBody "{}" None) eq_refl eq_refl) as (q' & H1 & H2 & H3 & b' & H4 & H5).
  exists q'. repeat (split; [done|]). exists b'. split; [done|]. destruct (ReadAll b') as [s|e]; [|done].
  destruct H5 as [-> H5]. split; [done|exact H5].
Defined.

(** A request that Ada's session authenticates, through the chain: the log knows
    the identifier of the request and the status, but not Ada, since the middleware
    that authenticates sits inside the one that logs and hands the user on in a
    context of its own. *)
Example log_line_has_no_user :
  let q := arriving (as_user "ada" "shop" "GET" RouteAPIAuditLogs) in
  let x := (exchange demo_mux (demo_ambient []) q).1 in
  match ex_log x with
  | [HttpRequest m p status bytes _ id user remote] =>
      (m, p, status, bytes, user, remote) = ("GET", RouteAPIAuditLogs, 200%Z, 2%Z, "", "10.0.0.1") ∧
      match ex_Sent x with Some (200%Z, hs) => hs !! HeaderRequestID = Some id | _ => False end
  | _ => False
  end.
Proof. vm_compute. split; reflexivity. Qed.

(** Without a list of origins, a page served from the developer's own machine may
    send the credentials of a server in production. *)
Example localhost_is_trusted_in_production :
  let q := arriving (request "GET" "/api/v1/flags" [("Origin", "http://localhost:5173")] []) in
  match ex_Sent (exchange demo_mux (demo_ambient [("ENVIRONMENT", "production")]) q).1 with
  | Some (_, hs) => hs !! "Access-Control-Allow-Credentials" = Some "true" ∧
                    hs !! "Access-Control-Allow-Origin" = Some "http://localhost:5173"
  | None => False
  end.
Proof. vm_compute. split; reflexivity. Qed.

(** A status that comes after the first bytes is what the log and the span show,
    although the client saw 200. *)
Example late_status_is_logged :
  let mux : HTTPHandler := λ w q, (Write w (CText "<html>");; http_Error w "render error" 500) in
  let x := (exchange mux (demo_ambient []) (arriving (stranger "/dashboard"))).1 in
  fst <$> ex_Sent x = Some 200%Z ∧
  match ex_log x with [HttpRequest _ _ status _ _ _ _ _] => status = 500%Z | _ => False end ∧
  sp_status <$> ex_spans x = [Some 500%Z].
Proof. vm_compute. repeat split; reflexivity. Qed.

(** Behind a proxy that names the protocols of two hops the session cookie is bound
    to HTTPS, but the strict transport header is missing. *)
Example two_hops_lose_hsts :
  let r := mkRequest "GET" "/" "flags.acme.dev" false "10.0.0.1" {[ "X-Forwarded-Proto" := "https, http" ]} [] ∅ in
  isRequestHTTPS r = true ∧ needs_hsts "" r = false.
Proof. vm_compute. split; reflexivity. Qed.
