(* ===== verification/Mailer.v ===== *)
(** * E-mail ([pkg/email/mailer.go])

    The configuration from the environment, the three mailers, the text of a
    message and the dialogue with the mail server.  The templates and the parser of
    addresses are parameters; the client of [net/smtp] is modelled as far as the
    code depends on it: which commands it sends in which order, when it refuses to
    send credentials, and that it refuses an address with a line break. *)

From S2P Require Import Prelude GoFloat GoStrings GoTime Sha256 Errors Domain Entities StoreState Http RateLimit.

(** ** Configuration *)

Record Config := mkConfig {
  mc_Host : string;
  mc_Port : Z;
  mc_Username : string;
  mc_Password : string;
  mc_FromEmail : string;
  mc_SupportEmail : string;
  mc_BrandName : string;
  mc_AppURL : string;
  mc_GovernanceEmails : list string;
  mc_UseTLS : bool;
}.

#[export] Instance eta_Config : Eta Config :=
  {| eta_expand r := mkConfig (mc_Host r) (mc_Port r) (mc_Username r) (mc_Password r) (mc_FromEmail r)
       (mc_SupportEmail r) (mc_BrandName r) (mc_AppURL r) (mc_GovernanceEmails r) (mc_UseTLS r) |}.

Definition DefaultConfig : Config :=
  mkConfig "" 587 "" "" "no-reply@localhost" "" "Flagura" "http://localhost:3000" [] false.

(** The non-empty items of a comma-separated list. *)
Definition governance_list (rawGov : string) : list string :=
  filter (λ t, t ≠ "") (TrimSpace <$> Split rawGov ",").

(** [if v := os.Getenv(name); v != "" { ... }]. *)
Definition when_set (env : string → string) (name : string) (f : string → Config → Config) (cfg : Config) : Config :=
  if negb (env name =s? "") then f (env name) cfg else cfg.

Definition LoadConfigFromEnv (env : string → string) : Config :=
  let cfg := DefaultConfig in
  let cfg := when_set env "SMTP_HOST" (λ host cfg, cfg <| mc_Host := host |>) cfg in
  let cfg := when_set env "SMTP_PORT" (λ pStr cfg,
    match Atoi pStr with Some p => cfg <| mc_Port := p |> | None => cfg end) cfg in
  let cfg := if (mc_Port cfg =? 465)%Z || (env "SMTP_USE_TLS" =s? "true")
             then cfg <| mc_UseTLS := true |> else cfg in
  let cfg := when_set env "SMTP_USERNAME" (λ u cfg, cfg <| mc_Username := u |>) cfg in
  let cfg := when_set env "SMTP_PASSWORD" (λ p cfg, cfg <| mc_Password := p |>) cfg in
  let cfg := if negb (env "SMTP_FROM" =s? "") then cfg <| mc_FromEmail := env "SMTP_FROM" |>
             else when_set env "FLAGURA_FROM_EMAIL" (λ from cfg, cfg <| mc_FromEmail := from |>) cfg in
  let cfg := when_set env "FLAGURA_SUPPORT_EMAIL" (λ sup cfg, cfg <| mc_SupportEmail := sup |>) cfg in
  let cfg := when_set env "FLAGURA_BRAND_NAME" (λ b cfg, cfg <| mc_BrandName := b |>) cfg in
  let cfg := when_set env "FLAGURA_APP_URL" (λ u cfg, cfg <| mc_AppURL := TrimRightSlash u |>) cfg in
  when_set env "FLAGURA_GOVERNANCE_EMAILS" (λ rawGov cfg,
    match governance_list rawGov with [] => cfg | l => cfg <| mc_GovernanceEmails := l |> end) cfg.

(** ** Templates *)

Record PasswordResetData := mkPasswordReset {
  pr_ToEmail : string; pr_RecipientName : string; pr_ResetURL : string;
  pr_BrandName : string; pr_SupportEmail : string;
}.

Record WelcomeData := mkWelcome {
  we_ToEmail : string; we_RecipientName : string; we_DashboardURL : string;
  we_BrandName : string; we_SupportEmail : string;
}.

Record ChangeRequestData := mkChangeRequest {
  cd_ToEmail : string; cd_RecipientName : string; cd_RequesterName : string; cd_FlagKey : string;
  cd_Environment : string; cd_ActionType : string; cd_ReviewURL : string;
  cd_BrandName : string; cd_SupportEmail : string;
}.

(** The embedded templates, executed by [html/template], and [mail.ParseAddress]
    with the address it finds. *)
Class MailLib := {
  password_reset_html : PasswordResetData → result GoError string;
  welcome_html : WelcomeData → result GoError string;
  change_request_html : ChangeRequestData → result GoError string;
  ParseAddress : string → result GoError string;
}.

(** What is to be sent: one of the three kinds of e-mail. *)
Inductive Mail :=
| PasswordReset (toEmail recipientName resetURL : string)
| Welcome (toEmail recipientName dashboardURL : string)
| ChangeRequestReview (toEmail recipientName requesterName flagKey environment actionType reviewURL : string).

Definition recipient (m : Mail) : string :=
  match m with
  | PasswordReset to _ _ | Welcome to _ _ | ChangeRequestReview to _ _ _ _ _ _ => to
  end.

(** ** The dialogue with the mail server *)

(** What a mailer does, a command to the server or a line on the console. *)
Inductive Cmd :=
| TLSDial (addr serverName : string) (insecure : bool)
| Dial (addr : string)
| STARTTLS
| AuthPlain (username password : string)
| MAIL (from : string)
| RCPT (to : string)
| DATA (msg : string)
| QUIT
| LOG (text : string).

(** The server: whether it takes a command after those before it, and the
    extensions it offers. *)
Record Peer := mkPeer {
  pe_takes : list Cmd → Cmd → option GoError;
  pe_STARTTLS : bool;
  pe_AUTH : bool;
}.

(** Commands so far, and an early return with an error. *)
Definition Smtp (A : Type) : Type := Peer → list Cmd → list Cmd * result GoError A.

#[export] Instance smtp_ret : MRet Smtp := λ A a peer cs, (cs, Ok a).

#[export] Instance smtp_bind : MBind Smtp := λ A B k m peer cs,
  match m peer cs with
  | (cs', Ok a) => k a peer cs'
  | (cs', Err e) => (cs', Err e)
  end.

Definition fail {A} (e : GoError) : Smtp A := λ peer cs, (cs, Err e).

(** A command goes out, and the reply is awaited. *)
Definition command (c : Cmd) : Smtp () := λ peer cs,
  (cs ++ [c], match pe_takes peer cs c with None => Ok () | Some e => Err e end).

(** [fmt.Errorf(prefix + "%w", err)]. *)
Definition wrapped (prefix : string) {A} (m : Smtp A) : Smtp A := λ peer cs,
  match m peer cs with
  | (cs', Ok a) => (cs', Ok a)
  | (cs', Err e) => (cs', Err (EWrap (prefix +:+ Error e) e))
  end.

Definition CR : ascii := "013".
Definition LF : ascii := "010".
Definition CRLF : string := String CR (String LF "").

(** [validateLine] of [net/smtp]. *)
Definition line_ok (s : string) : bool := negb (str_mem LF s || str_mem CR s).

Definition bad_line : GoError := EText "smtp: A line must not contain CR or LF".

Definition client_Mail (from : string) : Smtp () := if line_ok from then command (MAIL from) else fail bad_line.
Definition client_Rcpt (to : string) : Smtp () := if line_ok to then command (RCPT to) else fail bad_line.

(** [PlainAuth] sends the password only over TLS, or to the same machine, and only
    to the host it was made for. *)
Definition isLocalhost (name : string) : bool :=
  (name =s? "localhost") || (name =s? "127.0.0.1") || (name =s? "::1").

Record Auth := mkAuth { au_username : string; au_password : string; au_host : string }.

Definition client_Auth (tls : bool) (serverName : string) (a : Auth) : Smtp () :=
  if negb tls && negb (isLocalhost serverName) then fail (EText "unencrypted connection")
  else if negb (serverName =s? au_host a) then fail (EText "wrong host name")
  else command (AuthPlain (au_username a) (au_password a)).

Definition extension (f : Peer → bool) : Smtp bool := λ peer cs, (cs, Ok (f peer)).

Section Send.
Context `{GoRuntime} `{NetLib} `{MailLib}.

(** [smtp.SendMail]. *)
Definition SendMail (addr : string) (a : option Auth) (from to msg : string) : Smtp () :=
  if negb (line_ok from) then fail bad_line
  else if negb (line_ok to) then fail bad_line
  else
    command (Dial addr);;
    let serverName := default "" (SplitHost addr) in
    tls ← extension pe_STARTTLS;
    (if tls : bool then command STARTTLS else mret ());;
    (match a with
     | Some a =>
         offered ← extension pe_AUTH;
         if offered : bool then client_Auth tls serverName a
         else fail (EText "smtp: server doesn't support AUTH")
     | None => mret ()
     end);;
    client_Mail from;;
    client_Rcpt to;;
    command (DATA msg);;
    command QUIT.

(** ** [sendHTMLEmail] *)

Definition sanitizeHeader (v : string) : string := TrimSpace (remove_byte LF (remove_byte CR v)).

Definition message (from to subject htmlBody : string) : string :=
  "From: " +:+ from +:+ CRLF +:+
  "To: " +:+ to +:+ CRLF +:+
  "Subject: " +:+ subject +:+ CRLF +:+
  "MIME-Version: 1.0" +:+ CRLF +:+
  "Content-Type: text/html; charset=UTF-8" +:+ CRLF +:+ CRLF +:+
  htmlBody +:+ CRLF.

(** The TLS branch, from the dialling on.  Closing the connection, which is
    deferred, and the reply to [QUIT] change nothing for the caller. *)
Definition send_over_tls (cfg : Config) (addr toEmail msg : string) (auth : option Auth) : Smtp () :=
  let insecure := (mc_Host cfg =s? "127.0.0.1") || (mc_Host cfg =s? "localhost") in
  wrapped "tls dial error: " (command (TLSDial addr (mc_Host cfg) insecure));;
  (match auth with
   | Some a =>
       ok ← extension pe_AUTH;
       if ok : bool then wrapped "smtp auth error: " (client_Auth true (mc_Host cfg) a) else mret ()
   | None => mret ()
   end);;
  client_Mail (mc_FromEmail cfg);;
  client_Rcpt toEmail;;
  command (DATA msg).

Definition sendHTMLEmail (cfg : Config) (toEmail subject htmlBody : string) : Smtp () :=
  match ParseAddress toEmail with
  | Err err => fail (EWrap ("invalid recipient email address: " +:+ Error err) err)
  | Ok cleanTo =>
      let cleanFrom := match ParseAddress (mc_FromEmail cfg) with
                       | Ok a => a
                       | Err _ => sanitizeHeader (mc_FromEmail cfg)
                       end in
      let cleanSubject := sanitizeHeader subject in
      let cleanToAddress := sanitizeHeader cleanTo in
      let cleanFromAddress := sanitizeHeader cleanFrom in
      let addr := mc_Host cfg +:+ ":" +:+ Itoa (mc_Port cfg) in
      let msg := message cleanFromAddress cleanToAddress cleanSubject htmlBody in
      let auth := if negb (mc_Username cfg =s? "")
                  then Some (mkAuth (mc_Username cfg) (mc_Password cfg) (mc_Host cfg)) else None in
      if (mc_Port cfg =? 465)%Z || mc_UseTLS cfg then send_over_tls cfg addr toEmail msg auth
      else SendMail addr auth (mc_FromEmail cfg) toEmail msg
  end.

(** ** The mailers *)

Inductive Mailer :=
| DisabledMailer (cfg : Config)
| ConsoleMailer (cfg : Config)
| SMTPMailer (cfg : Config).

(** [NewDisabledMailer(cfg...)] and [NewConsoleMailer(cfg...)]. *)
Definition NewDisabledMailer (cfg : list Config) : Mailer := DisabledMailer (default DefaultConfig (head cfg)).
Definition NewConsoleMailer (cfg : list Config) : Mailer := ConsoleMailer (default DefaultConfig (head cfg)).
Definition NewSMTPMailer (cfg : Config) : Mailer := SMTPMailer cfg.

Definition IsEnabled (m : Mailer) : bool := match m with DisabledMailer _ => false | _ => true end.

Definition GetConfig (m : Mailer) : Config :=
  match m with DisabledMailer cfg | ConsoleMailer cfg | SMTPMailer cfg => cfg end.

Definition GetGovernanceEmails (m : Mailer) : list string := mc_GovernanceEmails (GetConfig m).
Definition GetSupportEmail (m : Mailer) : string := mc_SupportEmail (GetConfig m).

(** The body, with the data the mailer fills in. *)
Definition render (cfg : Config) (m : Mail) : result GoError string :=
  match m with
  | PasswordReset to name url =>
      password_reset_html (mkPasswordReset to name url (mc_BrandName cfg) (mc_SupportEmail cfg))
  | Welcome to name url => welcome_html (mkWelcome to name url (mc_BrandName cfg) (mc_SupportEmail cfg))
  | ChangeRequestReview to name requester key env action url =>
      change_request_html (mkChangeRequest to name requester key env action url
        (mc_BrandName cfg) (mc_SupportEmail cfg))
  end.

Definition template_name (m : Mail) : string :=
  match m with
  | PasswordReset _ _ _ => "password_reset.html"
  | Welcome _ _ _ => "welcome.html"
  | ChangeRequestReview _ _ _ _ _ _ _ => "change_request.html"
  end.

Definition rendered (cfg : Config) (m : Mail) : Smtp string :=
  match render cfg m with
  | Ok html => mret html
  | Err err => fail (EWrap ("failed to render " +:+ template_name m +:+ ": " +:+ Error err) err)
  end.

Definition subject_of (cfg : Config) (m : Mail) : string :=
  match m with
  | PasswordReset _ _ _ => "Reset Your " +:+ mc_BrandName cfg +:+ " Console Password"
  | Welcome _ _ _ => "Welcome to " +:+ mc_BrandName cfg +:+ " Feature Flag Platform"
  | ChangeRequestReview _ _ _ key env _ _ =>
      "Action Required: Review Flag Change for " +:+ key +:+ " (" +:+ env +:+ ")"
  end.

(** The line the console mailer prints, with the size of the page. *)
Definition nl : string := String LF "".

Definition console_text (cfg : Config) (m : Mail) (html : string) : string :=
  let size := Itoa (Z.of_nat (String.length html)) in
  match m with
  | PasswordReset to name url =>
      nl +:+ "📧 [HTML EMAIL DISPATCH] Password Reset Request" +:+ nl +:+
      "   From:      " +:+ mc_FromEmail cfg +:+ nl +:+
      "   To:        " +:+ to +:+ " (" +:+ name +:+ ")" +:+ nl +:+
      "   Subject:   Reset Your " +:+ mc_BrandName cfg +:+ " Console Password" +:+ nl +:+
      "   Template:  pkg/email/templates/password_reset.html" +:+ nl +:+
      "   Reset URL: " +:+ url +:+ nl +:+
      "   Support:   " +:+ mc_SupportEmail cfg +:+ nl +:+
      "   HTML Size: " +:+ size +:+ " bytes" +:+ nl
  | Welcome to name url =>
      nl +:+ "📧 [HTML EMAIL DISPATCH] Welcome to " +:+ mc_BrandName cfg +:+ nl +:+
      "   From:      " +:+ mc_FromEmail cfg +:+ nl +:+
      "   To:        " +:+ to +:+ " (" +:+ name +:+ ")" +:+ nl +:+
      "   Subject:   Welcome to " +:+ mc_BrandName cfg +:+ " Feature Flag Platform!" +:+ nl +:+
      "   Template:  pkg/email/templates/welcome.html" +:+ nl +:+
      "   Dashboard: " +:+ url +:+ nl +:+
      "   Support:   " +:+ mc_SupportEmail cfg +:+ nl +:+
      "   HTML Size: " +:+ size +:+ " bytes" +:+ nl
  | ChangeRequestReview to name _ key env _ _ =>
      nl +:+ "📧 [HTML EMAIL DISPATCH] Change Request Review Required" +:+ nl +:+
      "   From:      " +:+ mc_FromEmail cfg +:+ nl +:+
      "   To:        " +:+ to +:+ " (" +:+ name +:+ ")" +:+ nl +:+
      "   Subject:   Four-Eyes Governance Approval Required" +:+ nl +:+
      "   Flag:      " +:+ key +:+ " (" +:+ env +:+ ")" +:+ nl +:+
      "   Template:  pkg/email/templates/change_request.html" +:+ nl +:+
      "   Support:   " +:+ mc_SupportEmail cfg +:+ nl +:+
      "   HTML Size: " +:+ size +:+ " bytes" +:+ nl
  end.

Definition print_line (text : string) : Smtp () := λ peer cs, (cs ++ [LOG text], Ok ()).

(** [SendPasswordReset], [SendWelcomeEmail] and [SendChangeRequestNotification] of
    the console mailer, and of the SMTP mailer. *)
Definition console_Send (cfg : Config) (m : Mail) : Smtp () :=
  html ← rendered cfg m;
  print_line (console_text cfg m html).

Definition smtp_Send (cfg : Config) (m : Mail) : Smtp () :=
  htmlBody ← rendered cfg m;
  sendHTMLEmail cfg (recipient m) (subject_of cfg m) htmlBody.

(** The same of the interface [Mailer]. *)
Definition Send (mailer : Mailer) (m : Mail) : Smtp () :=
  match mailer with
  | DisabledMailer _ => mret ()
  | ConsoleMailer cfg => console_Send cfg m
  | SMTPMailer cfg => smtp_Send cfg m
  end.

Definition NewMailerFromEnv (env : string → string) : Mailer :=
  let cfg := LoadConfigFromEnv env in
  if mc_Host cfg =s? "" then
    if env "ENABLE_CONSOLE_MAILER" =s? "true" then NewConsoleMailer [cfg] else NewDisabledMailer [cfg]
  else NewSMTPMailer cfg.

(** ** What a receiver reads *)

(** The text up to the first line end, and what comes after it. *)
Fixpoint read_line (s : string) : option (string * string) :=
  match s with
  | String c s' =>
      match s' with
      | String d s'' =>
          if bool_decide (c = CR) && bool_decide (d = LF) then Some ("", s'')
          else match read_line s' with Some (l, r) => Some (String c l, r) | None => None end
      | EmptyString => None
      end
  | EmptyString => None
  end.

(** The header fields of a message, up to the empty line, and its body.  Every
    field takes two bytes at least, so the length is fuel enough. *)
Fixpoint read_headers (fuel : nat) (s : string) : option (list string * string) :=
  match fuel with
  | 0 => None
  | S fuel =>
      match read_line s with
      | Some (l, rest) =>
          if l =s? "" then Some ([], rest)
          else match read_headers fuel rest with Some (ls, b) => Some (l :: ls, b) | None => None end
      | None => None
      end
  end.

Lemma read_line_crlf l rest : str_mem CR l = false → read_line (l +:+ CRLF +:+ rest) = Some (l, rest).
Proof.
  induction l as [|c l IH]; intros Hl; [done|]. cbn in Hl. apply orb_false_iff in Hl as [Hc Hl].
  specialize (IH Hl). rewrite str_append_cons. cbn [read_line].
  destruct (l +:+ CRLF +:+ rest) as [|d s'] eqn:Hs; [by destruct l|].
  rewrite Hc. cbn [andb]. by rewrite IH.
Qed.

Lemma sanitizeHeader_line c v : c = CR ∨ c = LF → str_mem c (sanitizeHeader v) = false.
Proof.
  intros Hc. destruct (str_mem c (sanitizeHeader v)) eqn:Hm; [|done]. apply TrimSpace_mem in Hm.
  rewrite !remove_byte_mem in Hm. apply andb_true_iff in Hm as [Hl [Hr _]%andb_true_iff].
  apply negb_true_iff, bool_decide_eq_false in Hl, Hr. by destruct Hc.
Qed.

(** The header section a receiver must find. *)
Definition header_fields (from to subject : string) : list string :=
  ["From: " +:+ from; "To: " +:+ to; "Subject: " +:+ subject; "MIME-Version: 1.0";
   "Content-Type: text/html; charset=UTF-8"].

Lemma message_read from to subject html :
  str_mem CR from = false → str_mem CR to = false → str_mem CR subject = false →
  read_headers (String.length (message from to subject html)) (message from to subject html)
  = Some (header_fields from to subject, html +:+ CRLF).
Proof.
  intros Hf Ht Hs. unfold message.
  match goal with |- read_headers (String.length ?t) _ = _ => assert (Hlen : (6 ≤ String.length t)%nat);
    [rewrite !str_length_append; cbn; lia|apply Nat.le_exists_sub in Hlen as (n & -> & _)] end.
  rewrite Nat.add_comm.
  assert (Hline : ∀ k l rest, str_mem CR l = false → l ≠ "" →
    read_headers (S k) (l +:+ CRLF +:+ rest)
    = match read_headers k rest with Some (ls, b) => Some (l :: ls, b) | None => None end).
  { intros k l rest Hl Hne. cbn [read_headers]. rewrite read_line_crlf by done.
    by rewrite (proj2 (str_eqb_neq _ _) Hne). }
  rewrite <- (str_append_assoc "From: "), <- (str_append_assoc "To: "), <- (str_append_assoc "Subject: ").
  cbn [Nat.add]. rewrite !Hline by (rewrite ?str_mem_append, ?Hf, ?Ht, ?Hs; done). done.
Qed.

(** ** What goes out *)

(** An operation all of whose commands have the property. *)
Definition emits {A} (P : Cmd → Prop) (m : Smtp A) : Prop :=
  ∀ peer cs, Forall P cs → Forall P (m peer cs).1.

Section Emits.
Context (P : Cmd → Prop).

Lemma emits_ret {A} (a : A) : emits P (mret a).
Proof. by intros peer cs. Qed.

Lemma emits_fail {A} e : emits P (fail (A := A) e).
Proof. by intros peer cs. Qed.

Lemma emits_extension f : emits P (extension f).
Proof. by intros peer cs. Qed.

Lemma emits_command c : P c → emits P (command c).
Proof. intros Hc peer cs Hcs. cbn. apply Forall_app. by repeat constructor. Qed.

Lemma emits_print text : P (LOG text) → emits P (print_line text).
Proof. intros Hc peer cs Hcs. cbn. apply Forall_app. by repeat constructor. Qed.

Lemma emits_bind {A B} (m : Smtp A) (k : A → Smtp B) : emits P m → (∀ a, emits P (k a)) → emits P (m ≫= k).
Proof.
  intros Hm Hk peer cs Hcs. unfold mbind, smtp_bind. specialize (Hm peer cs Hcs).
  destruct (m peer cs) as [cs' [a|e]]; [by apply Hk|done].
Qed.

Lemma emits_wrapped {A} p (m : Smtp A) : emits P m → emits P (wrapped p m).
Proof. intros Hm peer cs Hcs. unfold wrapped. specialize (Hm peer cs Hcs). by destruct (m peer cs) as [cs' [a|e]]. Qed.

End Emits.

Ltac emits_all :=
  repeat match goal with
  | |- emits _ (_ ≫= _) => apply emits_bind; [|intros ?]
  | |- emits _ (match ?x with _ => _ end) => destruct x
  | |- emits _ (mret _) => apply emits_ret
  | |- emits _ (fail _) => apply emits_fail
  | |- emits _ (extension _) => apply emits_extension
  | |- emits _ (wrapped _ _) => apply emits_wrapped
  | |- emits _ (command _) => apply emits_command
  | |- emits _ (print_line _) => apply emits_print
  | |- emits _ (client_Mail _) => unfold client_Mail
  | |- emits _ (client_Rcpt _) => unfold client_Rcpt
  | |- emits _ (client_Auth _ _ _) => unfold client_Auth
  end.

(** A message of the mailer, as its receiver reads it. *)
Definition well_formed (cfg : Config) (m : Mail) (c : Cmd) : Prop :=
  match c with
  | DATA msg => ∃ from to html,
      read_headers (String.length msg) msg
      = Some (header_fields from to (sanitizeHeader (subject_of cfg m)), html +:+ CRLF) ∧
      render cfg m = Ok html
  | _ => True
  end.


(** Whether a dialogue sends a password only once the connection is encrypted, or
    to a server that is on the same machine. *)
Fixpoint private_auth (enc : bool) (cs : list Cmd) : bool :=
  match cs with
  | [] => true
  | TLSDial _ _ _ :: cs | STARTTLS :: cs => private_auth true cs
  | AuthPlain _ _ :: cs => enc && private_auth enc cs
  | _ :: cs => private_auth enc cs
  end.

Definition encrypts (c : Cmd) : bool :=
  match c with TLSDial _ _ _ | STARTTLS => true | _ => false end.

Lemma private_auth_snoc enc cs c :
  private_auth enc (cs ++ [c])
  = private_auth enc cs && match c with AuthPlain _ _ => enc || existsb encrypts cs | _ => true end.
Proof.
  revert enc. induction cs as [|c' cs IH]; intros enc; cbn.
  - destruct c; by rewrite ?orb_false_r, ?andb_true_r.
  - destruct c'; cbn; rewrite ?IH, ?andb_assoc, ?orb_true_r; done.
Qed.

Section Private.
Context (local : bool).

(** The dialogue so far is private, and encrypted if [b] says so. *)
Definition private (b : bool) (cs : list Cmd) : Prop :=
  private_auth local cs = true ∧ (b = true → local || existsb encrypts cs = true).

(** From a private dialogue to one that is encrypted if [b'] says so. *)
Definition secures {A} (b : bool) (m : Smtp A) (b' : bool) : Prop :=
  ∀ peer cs, private b cs →
    match m peer cs with (cs', Ok _) => private b' cs' | (cs', Err _) => private b cs' end.

Lemma secures_ret {A} b (a : A) : secures b (mret a) b.
Proof. by intros peer cs. Qed.

Lemma secures_fail {A} b e b' : secures b (fail (A := A) e) b'.
Proof. by intros peer cs. Qed.

Lemma private_le b b' cs : (b = true → b' = true) → private b' cs → private b cs.
Proof. intros Hb [Hp He]. split; [done|]. by intros H'%Hb%He. Qed.

Lemma secures_bind {A B} b b' b'' (m : Smtp A) (k : A → Smtp B) :
  (b = true → b' = true) → secures b m b' → (∀ a, secures b' (k a) b'') → secures b (m ≫= k) b''.
Proof.
  intros Hb Hm Hk peer cs Hcs. unfold mbind, smtp_bind. specialize (Hm peer cs Hcs).
  destruct (m peer cs) as [cs' [a|e]]; [|done]. specialize (Hk a peer cs' Hm).
  destruct (k a peer cs') as [cs'' [x|e]]; [done|by eapply private_le].
Qed.

Lemma secures_wrapped {A} b p (m : Smtp A) b' : secures b m b' → secures b (wrapped p m) b'.
Proof.
  intros Hm peer cs Hcs. unfold wrapped. specialize (Hm peer cs Hcs). by destruct (m peer cs) as [cs' [a|e]].
Qed.

Lemma secures_command b c : (∀ u p, c = AuthPlain u p → b = true) → secures b (command c) (b || encrypts c).
Proof.
  intros Hc peer cs [Hp He]. cbn.
  assert (Hs : private (b || encrypts c) (cs ++ [c])).
  { split.
    - rewrite private_auth_snoc, Hp. destruct c; try done. cbn. by apply He, (Hc username password).
    - intros [Hb|Hb]%orb_true_iff; rewrite existsb_app; cbn; [|by rewrite Hb, !orb_true_r].
      rewrite orb_assoc, He by done. done. }
  destruct (pe_takes peer cs c); [|done]. eapply private_le; [|exact Hs]. by intros ->.
Qed.

Lemma secures_plain b c : encrypts c = false → (∀ u p, c ≠ AuthPlain u p) → secures b (command c) b.
Proof.
  intros He Hc. pose proof (secures_command b c) as Hs. rewrite He, orb_false_r in Hs. apply Hs. naive_solver.
Qed.

Lemma secures_extension {A} b f (k : bool → Smtp A) b' :
  (∀ v, secures b (k v) b') → secures b (extension f ≫= k) b'.
Proof. intros Hk peer cs Hcs. exact (Hk (f peer) peer cs Hcs). Qed.

Lemma secures_le {A} b (m : Smtp A) b' b'' : (b'' = true → b' = true) → secures b m b' → secures b m b''.
Proof.
  intros Hb Hm peer cs Hcs. specialize (Hm peer cs Hcs). destruct (m peer cs) as [cs' [a|e]]; [|done].
  by eapply private_le.
Qed.

Lemma secures_client_Mail b from : secures b (client_Mail from) b.
Proof. unfold client_Mail. case_if; [by apply secures_plain|apply secures_fail]. Qed.

Lemma secures_client_Rcpt b to : secures b (client_Rcpt to) b.
Proof. unfold client_Rcpt. case_if; [by apply secures_plain|apply secures_fail]. Qed.

(** The one command that needs it: the client lets it out only when it may. *)
Lemma secures_client_Auth b tls name a :
  (tls = true → b = true) → (isLocalhost (au_host a) = true → b = true) → secures b (client_Auth tls name a) b.
Proof.
  intros Ht Hl. unfold client_Auth. destruct (negb tls && negb (isLocalhost name)) eqn:He; [apply secures_fail|].
  destruct (name =s? au_host a) eqn:Hn; cbn [negb]; [|apply secures_fail]. apply str_eqb_eq in Hn. subst name.
  pose proof (secures_command b (AuthPlain (au_username a) (au_password a))) as Hs. cbn [encrypts] in Hs.
  rewrite orb_false_r in Hs. apply Hs. intros _ _ _. apply andb_false_iff in He as [He|He];
    apply negb_false_iff in He; auto.
Qed.

End Private.

(** The password of the mail account never crosses the network in the clear: the
    dialogue, whatever the server answers, sends it only after the connection is
    encrypted, unless the server is on the same machine. *)
Theorem mail_password_encrypted mailer m peer :
  private_auth (isLocalhost (mc_Host (GetConfig mailer))) (Send mailer m peer []).1 = true.
Proof.
  destruct mailer as [cfg|cfg|cfg]; cbn [Send GetConfig];
    [done|unfold console_Send, rendered; by destruct (render cfg m)|].
  unfold smtp_Send, rendered. destruct (render cfg m) as [html|e]; [|done].
  change (mret html ≫= ?k) with (k html). unfold sendHTMLEmail.
  destruct (ParseAddress (recipient m)) as [to|e]; [|done]. cbn zeta.
  set (msg := message _ _ _ _). generalize (mc_Host cfg +:+ ":" +:+ Itoa (mc_Port cfg)). intros addr.
  set (local := isLocalhost (mc_Host cfg)). set (auth := if negb (mc_Username cfg =s? "") then _ else _).
  assert (Hauth : ∀ a, auth = Some a → au_host a = mc_Host cfg).
  { unfold auth. intros a. case_if; [by intros [= <-]|done]. }
  assert (Hs : ∀ m : Smtp (), (∃ b, secures local local m b) → private_auth local (m peer []).1 = true).
  { intros m' [b Hm]. specialize (Hm peer [] (conj eq_refl (λ Hl, orb_true_intro _ _ (or_introl Hl)))).
    destruct (m' peer []) as [cs' [a|e]]; apply Hm. }
  apply Hs. clear Hs. destruct (_ || _).
  - exists true. unfold send_over_tls. eapply (secures_bind _ _ true); [done|apply secures_wrapped|intros _].
    + pose proof (secures_command local local (TLSDial addr (mc_Host cfg) ((mc_Host cfg =s? "127.0.0.1")
        || (mc_Host cfg =s? "localhost")))) as Hc. cbn in Hc. rewrite orb_true_r in Hc. by apply Hc.
    + eapply (secures_bind _ _ true); [done| |intros _].
      { destruct auth as [a|]; [|apply secures_ret]. apply secures_extension. intros [|]; [|apply secures_ret].
        by apply secures_wrapped, secures_client_Auth. }
      eapply secures_bind; [|apply secures_client_Mail|intros _]; [done|].
      eapply secures_bind; [|apply secures_client_Rcpt|intros _]; [done|]. by apply secures_plain.
  - exists local. unfold SendMail. case_if; [apply secures_fail|]. case_if; [apply secures_fail|].
    eapply secures_bind; [|by apply secures_plain|intros _]; [done|]. cbn zeta. apply secures_extension. intros tls.
    eapply secures_le; [|eapply (secures_bind _ _ (local || tls)); [by intros ->| |intros _]].
    2: { destruct tls; [by apply secures_command|]. rewrite orb_false_r. apply secures_ret. }
    2: { eapply secures_bind; [| |intros _; eapply secures_bind;
           [|apply secures_client_Mail|intros _; eapply secures_bind;
             [|apply secures_client_Rcpt|intros _; eapply secures_bind;
               [|by apply secures_plain|intros _; by apply secures_plain]]]]; try (intros H'; exact H').
         destruct auth as [a|]; [|apply secures_ret]. apply secures_extension. intros [|]; [|apply secures_fail].
         apply secures_client_Auth; [intros ->; apply orb_true_r|].
         rewrite (Hauth a) by done. fold local. by intros ->. }
    by intros ->.
Qed.

(** ** What the caller learns *)

(** The mailer without a mail server does nothing and reports no error; the console
    one prints a line, and does not talk to a server. *)
Lemma offline_mailers_are_silent cfg m peer :
  Send (DisabledMailer cfg) m peer [] = ([], Ok ()) ∧
  Forall (λ c, ∃ text, c = LOG text) (Send (ConsoleMailer cfg) m peer []).1.
Proof.
  split; [done|]. cbn. unfold console_Send, rendered. destruct (render cfg m); [|constructor].
  constructor; [by eexists|constructor].
Qed.

Definition is_data (c : Cmd) : bool := match c with DATA _ => true | _ => false end.

(** An operation that adds [n] messages to the dialogue, if it succeeds. *)
Definition adds {A} (n : nat) (m : Smtp A) : Prop :=
  ∀ peer cs a, (m peer cs).2 = Ok a →
    length (filter (λ c, is_data c = true) (m peer cs).1) = (length (filter (λ c, is_data c = true) cs) + n)%nat.

Lemma adds_ret {A} (a : A) : adds 0 (mret a).
Proof. intros peer cs x _. cbn. lia. Qed.

Lemma adds_fail {A} n e : adds n (fail (A := A) e).
Proof. by intros peer cs x. Qed.

Lemma adds_bind {A B} i j (m : Smtp A) (k : A → Smtp B) : adds i m → (∀ a, adds j (k a)) → adds (i + j) (m ≫= k).
Proof.
  intros Hm Hk peer cs x. unfold mbind, smtp_bind. specialize (Hm peer cs).
  destruct (m peer cs) as [cs' [a|e]]; [|done]. intros Hx. rewrite (Hk a peer cs' x Hx).
  specialize (Hm a eq_refl). cbn in Hm. lia.
Qed.

Lemma adds_command c : adds (if is_data c then 1 else 0) (command c).
Proof.
  intros peer cs x _. cbn. rewrite filter_app, length_app. f_equal. destruct (is_data c) eqn:Hc.
  - by rewrite filter_cons_True, filter_nil.
  - by rewrite filter_cons_False, filter_nil by (rewrite Hc; done).
Qed.

Lemma adds_wrapped {A} n p (m : Smtp A) : adds n m → adds n (wrapped p m).
Proof.
  intros Hm peer cs x. unfold wrapped. specialize (Hm peer cs). destruct (m peer cs) as [cs' [a|e]]; [|done].
  intros _. by apply (Hm a).
Qed.

Lemma adds_extension f : adds 0 (extension f).
Proof. intros peer cs x _. cbn. lia. Qed.

Lemma adds_line (s : string) c : is_data c = false → adds 0 (if line_ok s then command c else fail bad_line).
Proof. intros Hc. case_if; [|apply adds_fail]. pose proof (adds_command c) as Ha. by rewrite Hc in Ha. Qed.

Lemma adds_quiet c : is_data c = false → adds 0 (command c).
Proof. intros Hc. pose proof (adds_command c) as Ha. by rewrite Hc in Ha. Qed.

Lemma adds_client_Auth tls name a : adds 0 (client_Auth tls name a).
Proof. unfold client_Auth. repeat (case_if; [apply adds_fail|]). by apply adds_quiet. Qed.

(** What the mailer reports is what happened: it returns without an error only when
    the server has taken exactly one message. *)
Theorem mail_reported_sent cfg m peer cs :
  Send (SMTPMailer cfg) m peer [] = (cs, Ok ()) → length (filter (λ c, is_data c = true) cs) = 1.
Proof.
  intros Hsend.
  assert (Ha : adds 1 (Send (SMTPMailer cfg) m)); [|specialize (Ha peer [] ()); rewrite Hsend in Ha; by apply Ha].
  cbn [Send]. unfold smtp_Send. apply (adds_bind 0 1); [unfold rendered; destruct (render cfg m); [apply adds_ret|apply adds_fail]|].
  intros html. unfold sendHTMLEmail. destruct (ParseAddress (recipient m)) as [to|e]; [|apply adds_fail].
  cbn zeta. set (msg := message _ _ _ _). destruct (_ || _).
  - unfold send_over_tls. apply (adds_bind 0 1); [by apply adds_wrapped, adds_quiet|intros _].
    apply (adds_bind 0 1); [|intros _].
    { destruct (if negb _ then _ else _) as [a|]; [|apply adds_ret].
      apply (adds_bind 0 0); [apply adds_extension|intros [|]]; [apply adds_wrapped, adds_client_Auth|apply adds_ret]. }
    apply (adds_bind 0 1); [by apply adds_line|intros _]. apply (adds_bind 0 1); [by apply adds_line|intros _].
    apply (adds_command (DATA msg)).
  - unfold SendMail. case_if; [apply adds_fail|]. case_if; [apply adds_fail|].
    apply (adds_bind 0 1); [by apply adds_quiet|intros _]. cbn zeta.
    apply (adds_bind 0 1); [apply adds_extension|intros tls].
    apply (adds_bind 0 1); [destruct tls; [by apply adds_quiet|apply adds_ret]|intros _].
    apply (adds_bind 0 1); [|intros _].
    { destruct (if negb _ then _ else _) as [a|]; [|apply adds_ret].
      apply (adds_bind 0 0); [apply adds_extension|intros [|]]; [apply adds_client_Auth|apply adds_fail]. }
    apply (adds_bind 0 1); [by apply adds_line|intros _]. apply (adds_bind 0 1); [by apply adds_line|intros _].
    apply (adds_bind 1 0); [apply (adds_command (DATA msg))|intros _]. by apply adds_quiet.
Qed.

(** ** Which mailer *)

Lemma when_set_keeps {A} (f : Config → A) env name g cfg :
  (∀ v c, f (g v c) = f c) → f (when_set env name g cfg) = f cfg.
Proof. intros Hg. unfold when_set. by case_if. Qed.

Lemma LoadConfig_host env : mc_Host (LoadConfigFromEnv env) = env "SMTP_HOST".
Proof.
  unfold LoadConfigFromEnv. cbn zeta.
  rewrite (when_set_keeps mc_Host env "FLAGURA_GOVERNANCE_EMAILS") by (intros v c; by destruct (governance_list v)).
  rewrite !when_set_keeps by done. case_if; [cbn|rewrite when_set_keeps by done];
    rewrite !when_set_keeps by done; (case_if; [cbn|]);
    rewrite (when_set_keeps mc_Host env "SMTP_PORT") by (intros v c; by destruct (Atoi v));
    unfold when_set; destruct (env "SMTP_HOST" =s? "") eqn:Hh; cbn; try done; by apply str_eqb_eq in Hh.
Qed.

(** Without a mail host nothing is sent, unless the console is asked for; with one,
    the mailer speaks to that host. *)
Lemma mailer_from_env env :
  (env "SMTP_HOST" = "" → IsEnabled (NewMailerFromEnv env) = (env "ENABLE_CONSOLE_MAILER" =s? "true")) ∧
  (env "SMTP_HOST" ≠ "" → NewMailerFromEnv env = SMTPMailer (LoadConfigFromEnv env)).
Proof.
  unfold NewMailerFromEnv. rewrite LoadConfig_host. split; intros Hh.
  - rewrite Hh, str_eqb_refl. by case_if.
  - by rewrite (proj2 (str_eqb_neq _ _) Hh).
Qed.

End Send.

(** ** On a small instance *)

#[local] Existing Instance sample_runtime.

(** Addresses in angle brackets after a name, or bare. *)
#[local] Instance demo_mail : MailLib := {|
  password_reset_html d := Ok ("<a href=" +:+ pr_ResetURL d +:+ ">");
  welcome_html d := Ok "<h1>Welcome</h1>";
  change_request_html d := Ok ("<p>" +:+ cd_FlagKey d +:+ "</p>");
  ParseAddress s :=
    match Split s "<" with
    | [a] => if Contains a "@" then Ok a else Err (EText "mail: missing '@' or angle-addr")
    | [_; a] => Ok (TrimSuffix a ">")
    | _ => Err (EText "mail: expected single address")
    end;
|}.

Definition willing : Peer := mkPeer (λ _ _, None) true true.

Definition acme_mail : Config :=
  DefaultConfig <| mc_Host := "mail.acme.dev" |> <| mc_Username := "flags" |> <| mc_Password := "secret" |>
    <| mc_FromEmail := "flags@acme.dev" |>.

(** A flag key with a line break in it, and a recipient hidden in it. *)
Definition sly_review : Mail :=
  ChangeRequestReview "ann@acme.dev" "Ann" "Eve" ("key" +:+ CRLF +:+ "Bcc: eve@evil.example") "production"
    "UPDATE" "https://flags.acme.dev/cr/1".

Example sly_review_is_one_mail :
  match (Send (SMTPMailer acme_mail) sly_review willing []).1 with
  | [Dial _; STARTTLS; AuthPlain "flags" "secret"; MAIL _; RCPT "ann@acme.dev"; DATA msg; QUIT] =>
      fst <$> read_headers (String.length msg) msg
      = Some (header_fields "flags@acme.dev" "ann@acme.dev"
          "Action Required: Review Flag Change for keyBcc: eve@evil.example (production)")
  | _ => False
  end.
Proof. vm_compute. reflexivity. Qed.

Lemma mail_reported_sent_witness :
  ∃ cs, Send (SMTPMailer acme_mail) sly_review willing [] = (cs, Ok ()) ∧
    length (filter (λ c, is_data c = true) cs) = 1.
Proof.
  eexists. split; [vm_compute; reflexivity|].
  apply (mail_reported_sent acme_mail sly_review willing). vm_compute. reflexivity.
Defined.

(** An address with a display name passes the check of the recipient, and then goes
    to the server as it is: the envelope has the name in it, not the address that
    was found. *)
Example display_name_in_envelope :
  let m := PasswordReset "Ann <ann@acme.dev>" "Ann" "https://flags.acme.dev/reset" in
  ParseAddress "Ann <ann@acme.dev>" = Ok "ann@acme.dev" ∧
  match (Send (SMTPMailer acme_mail) m willing []).1 with
  | [_; _; _; _; RCPT to; _; _] => to = "Ann <ann@acme.dev>"
  | _ => False
  end.
Proof. split; vm_compute; reflexivity. Qed.

(** The two ways of sending disagree on a server without authentication: over TLS
    the configured account is passed over in silence, otherwise it is an error. *)
Example no_auth_extension :
  let peer := mkPeer (λ _ _, None) true false in
  let m := Welcome "ann@acme.dev" "Ann" "https://flags.acme.dev" in
  (Send (SMTPMailer (acme_mail <| mc_UseTLS := true |>)) m peer []).2 = Ok () ∧
  (Send (SMTPMailer acme_mail) m peer []).2 = Err (EText "smtp: server doesn't support AUTH").
Proof. split; vm_compute; reflexivity. Qed.
