(* ===== verification/Cli.v ===== *)
(** * The command line ([cmd/cli])

    The commands as programs that read flags, talk to the server, print and exit.
    A run is a list of effects and an exit code; the answers of the server, the
    files and the clock are the world.  The [flag] package is modelled as the code
    uses it: it stops at the first argument that is not a flag.  Decoding JSON,
    printing times and durations are parameters. *)

From S2P Require Import Prelude GoFloat GoStrings GoTime Sha256 Errors Domain Entities Stats.

(** ** The [flag] package *)

Inductive FlagValue := FString (v : string) | FBool (b : bool).

(** The flags that are defined, with their values so far. *)
Definition FlagSet : Type := gmap string FlagValue.

Inductive Parsed :=
| ParsedArgs (fs : FlagSet) (args : list string)
| ParseHelp
| ParseError (msg : string).

(** The name of a flag and the value after its first [=], which is never the first
    character. *)
Fixpoint cut_value (name : string) : string * option string :=
  match name with
  | EmptyString => ("", None)
  | String c s =>
      if bool_decide (c = "="%char) then ("", Some s)
      else let '(n, v) := cut_value s in (String c n, v)
  end.

Definition flag_name (name : string) : string * option string :=
  match name with
  | EmptyString => ("", None)
  | String c s => let '(n, v) := cut_value s in (String c n, v)
  end.

(** What [parseOne] sees in an argument. *)
Inductive Arg :=
| Positional
| Terminator
| BadSyntax
| AFlag (name : string) (value : option string).

Definition classify (s : string) : Arg :=
  match s with
  | String "-" (String "-" "") => Terminator
  | String "-" (String "-" name) | String "-" (String _ _ as name) =>
      if HasPrefix name "-" || HasPrefix name "=" then BadSyntax
      else let '(n, v) := flag_name name in AFlag n v
  | _ => Positional
  end.

(** [fs.Parse]: a boolean flag takes no further argument, another one takes the
    next argument if it has no value of its own. *)
Fixpoint Parse `{GoRuntime} (fs : FlagSet) (args : list string) : Parsed :=
  match args with
  | [] => ParsedArgs fs []
  | s :: rest =>
      match classify s with
      | Positional => ParsedArgs fs (s :: rest)
      | Terminator => ParsedArgs fs rest
      | BadSyntax => ParseError ("bad flag syntax: " +:+ s)
      | AFlag name value =>
          match fs !! name with
          | None => if (name =s? "help") || (name =s? "h") then ParseHelp
                    else ParseError ("flag provided but not defined: -" +:+ name)
          | Some (FBool _) =>
              match value with
              | Some v => match ParseBool v with
                          | Some b => Parse (<[name := FBool b]> fs) rest
                          | None => ParseError ("invalid boolean value " +:+ rt_quote v +:+ " for -" +:+ name +:+ ": parse error")
                          end
              | None => Parse (<[name := FBool true]> fs) rest
              end
          | Some (FString _) =>
              match value, rest with
              | Some v, _ => Parse (<[name := FString v]> fs) rest
              | None, v :: rest => Parse (<[name := FString v]> fs) rest
              | None, [] => ParseError ("flag needs an argument: -" +:+ name)
              end
          end
      end
  end.

Definition flag_string (fs : FlagSet) (name : string) : string :=
  match fs !! name with Some (FString v) => v | _ => "" end.
Definition flag_bool (fs : FlagSet) (name : string) : bool :=
  match fs !! name with Some (FBool b) => b | _ => false end.

(** ** Effects *)

(** The bodies the commands send. *)
Inductive Payload :=
| PRollout (environment : string) (percentage : f64)
| PEvaluate (flags : list string) (user_id email environment : string) (trace : bool)
| PReason (reason : string)
| PSchedule (sched : CanarySchedule)
| PReview (approved : bool) (comments : string)
| PAPIKey (name role : string)
| PFile (content : string).

(** [json.Marshal] refuses a float that is not a number. *)
Definition finite (x : f64) : bool :=
  match x with S754_nan | S754_infinity _ => false | _ => true end.

Definition encodable (p : Payload) : bool :=
  match p with
  | PRollout _ pct => finite pct
  | PSchedule s => forallb (λ g, finite (cg_TargetPercentage g)) (cs_Stages s)
  | _ => true
  end.

Record HttpCall := mkCall {
  hc_method : string;
  hc_url : string;
  hc_headers : list (string * string);
  hc_body : option Payload;
}.

Inductive Effect :=
| Stdout (text : string)
| Stderr (text : string)
| Table (rows : list (list string))
| Called (c : HttpCall)
| WroteFile (path content : string).

(** What the server answers: nothing, or a status and a body, which may break off. *)
Inductive Answer :=
| NoAnswer (err : string)
| Answered (status : Z) (body : string) (read_error : option string).

(** A file or a directory, as [filepath.Walk] finds it; [None] for a file that
    cannot be read. *)
#[warnings="-register-all"]
Inductive Node :=
| File (name : string) (symlink : bool) (content : option string)
| Dir (name : string) (children : list Node).

(** A flag of the audit, with what was found of it in the code. *)
Record FlagAuditItem := mkAuditItem {
  ai_Flag : FeatureFlag;
  ai_Health : FlagHealthReport;
  ai_Occurrences : nat;
  ai_Files : list string;
}.

(** A step of a printed trace, and [traces] of an evaluation answer. *)
Record TraceStep := mkTraceStep {
  ts_StepIndex : Z;
  ts_Name : string;
  ts_Passed : bool;
  ts_Detail : string;
}.

Record World := mkCliWorld {
  cl_env : string → string;
  cl_answer : list Effect → HttpCall → Answer;
  cl_open : string → result string string;
  cl_create : string → option string;
  cl_tree : string → option Node;
  cl_now : Time;
  cl_latency : Duration;
  cl_order : ∀ A : Type, gmap string A → list (string * A);
}.

(** Decoding a body ([None]: an error, with the text [json_error] gives it), the
    encodings that are printed, and what checks URLs and paths and prints times
    and durations.  A member that is missing from a body keeps its zero value. *)
Class CliLib := {
  decode_flags : string → option (list FeatureFlag);
  decode_results : string → option (gmap string EvaluationResult * gmap string (list TraceStep));
  decode_report : string → option ExperimentReport;
  decode_keys : string → option (list APIKey);
  decode_key : string → option APIKey;
  decode_requests : string → option (list ChangeRequest);
  json_error : string → string;
  json_flag : FeatureFlag → string;
  json_items : list FlagAuditItem → string;
  url_error : string → option string;
  Clean : string → string;
  ParseDuration : string → option Duration;
  parse_float_error : string → string;
  duration_String : Duration → string;
  time_Format : string → Time → string;
  flag_usage : FlagSet → string;
}.

(** ** The monad: effects, and [os.Exit] *)

Inductive Ended (A : Type) := Running (a : A) | Exited (code : Z).
Arguments Running {A} a.
Arguments Exited {A} code.

Definition Cli (A : Type) : Type := World → list Effect → list Effect * Ended A.

#[export] Instance cli_ret : MRet Cli := λ A a w es, (es, Running a).

#[export] Instance cli_bind : MBind Cli := λ A B k m w es,
  match m w es with
  | (es', Running a) => k a w es'
  | (es', Exited n) => (es', Exited n)
  end.

Definition os_Exit {A} (code : Z) : Cli A := λ w es, (es, Exited code).
Definition emit (e : Effect) : Cli () := λ w es, (es ++ [e], Running ()).
Definition Getenv (name : string) : Cli string := λ w es, (es, Running (cl_env w name)).
Definition the_world : Cli World := λ w es, (es, Running w).

(** The length of a slice, as [%d] prints it. *)
Definition count {A} (l : list A) : string := Itoa (Z.of_nat (length l)).

Definition nl : string := String "010" "".
Definition Println (s : string) : Cli () := emit (Stdout (s +:+ nl)).
Definition Printf (s : string) : Cli () := emit (Stdout s).
Definition Fprintf_err (s : string) : Cli () := emit (Stderr s).

(** A message on the error output and exit code 1. *)
Definition die {A} (msg : string) : Cli A := Fprintf_err msg;; os_Exit 1.

(** ** The client *)

(** The global variables the flags set. *)
Record Globals := mkGlobals {
  gl_endpoint : string;
  gl_apiKey : string;
  gl_env : string;
  gl_projectID : string;
  gl_json : bool;
}.

Section Commands.
Context `{GoRuntime} `{CliLib} (g : Globals).

Definition normalizeEndpoint (ep : string) : string :=
  let ep := TrimSpace ep in
  if ep =s? "" then "https://flagura.dev"
  else
    let ep := if negb (HasPrefix ep "http://") && negb (HasPrefix ep "https://") then
                if HasPrefix ep "localhost" || HasPrefix ep "127.0.0.1" then "http://" +:+ ep
                else "https://" +:+ ep
              else ep in
    TrimRightSlash ep.

Definition auth_headers : list (string * string) :=
  (if negb (gl_apiKey g =s? "") then [("Authorization", "Bearer " +:+ gl_apiKey g)] else []) ++
  (if negb (gl_projectID g =s? "") then [("X-Project-ID", gl_projectID g)] else []).

(** [Client.Do]. *)
Definition do_call (c : HttpCall) : Cli Answer := λ w es, (es ++ [Called c], Running (cl_answer w es c)).

(** [makeRequest]: the response, if there is one, its body, and an error. *)
Definition makeRequest (method path : string) (body : option Payload) : Cli (option Z * string * option string) :=
  let url := normalizeEndpoint (gl_endpoint g) +:+ path in
  if match body with Some p => negb (encodable p) | None => false end
  then mret (None, "", Some "json: unsupported value")
  else match url_error url with
  | Some err => mret (None, "", Some err)
  | None =>
    a ← do_call (mkCall method url (("Content-Type", "application/json") :: auth_headers) body);
    match a with
    | NoAnswer err => mret (None, "", Some err)
    | Answered status body readErr => mret (Some status, body, readErr)
    end
  end.

(** [err != nil || resp.StatusCode >= 400]. *)
Definition failed (r : option Z * string * option string) : bool :=
  match r with
  | (Some status, _, None) => (400 <=? status)%Z
  | _ => true
  end.

(** A request that must be answered with a status below 400, or the command dies
    with the body. *)
Definition must (prefix : string) (method path : string) (body : option Payload) : Cli string :=
  r ← makeRequest method path body;
  if failed r then die (prefix +:+ r.1.2 +:+ nl) else mret r.1.2.

(** A request whose status the command does not look at. *)
Definition fetch (prefix : string) (method path : string) (body : option Payload) : Cli string :=
  r ← makeRequest method path body;
  match r with
  | (_, body, None) => mret body
  | (_, _, Some err) => die (prefix +:+ err +:+ nl)
  end.

Definition decoded {A} (prefix body : string) (d : string → option A) : Cli A :=
  match d body with Some a => mret a | None => die (prefix +:+ json_error body +:+ nl) end.

(** [if jsonOut { fmt.Println(string(body)); return }]. *)
Definition unless_json (body : string) (k : Cli ()) : Cli () :=
  if gl_json g then Println body else k.

(** ** Listing and showing flags ([flags.go]) *)

Definition bool_text (b : bool) : string := if b then "true" else "false".
Definition pct_text (prec : nat) (x : f64) : string := FormatFixed prec x +:+ "%".

Definition list_row (now : Time) (f : FeatureFlag) : list string :=
  let prodEnv := default zero_EnvironmentConfig (ff_Environments f !! EnvProduction) in
  let status := if ec_Enabled prodEnv then "🟢 LIVE" else "🔴 OFF" in
  let hReport := AnalyzeFlagHealth now f in
  let health := if fh_Status hReport =s? HealthStatusStale then "🧹 Ready for Cleanup"
                else if fh_Status hReport =s? HealthStatusDead then "⚠️ Dead Flag"
                else "✅ Active" in
  [ff_Key f; ff_Type f; status; pct_text 0 (ec_Percentage prodEnv); ec_Strategy prodEnv; health].

Definition runList : Cli () :=
  body ← fetch "Error connecting to Flagura: " "GET" "/api/v1/flags" None;
  unless_json body
    (flags ← decoded "Error parsing flags response: " body decode_flags;
     Printf (nl +:+ "⚡ Flagura Feature Flags (" +:+ count flags +:+ " flags)" +:+ nl);;
     w ← the_world;
     emit (Table ([["KEY"; "TYPE"; "STATUS (PROD)"; "ROLLOUT"; "STRATEGY"; "HEALTH"];
                   ["---"; "----"; "-------------"; "-------"; "--------"; "------"]] ++
                  map (list_row (cl_now w)) flags));;
     Println "").

Definition rule_lines (rules : list TargetingRule) : list string :=
  imap (λ i r, "    [" +:+ Itoa (Z.of_nat (i + 1)) +:+ "] " +:+ tr_Name r +:+ ": " +:+ tr_Attribute r +:+ " " +:+
               tr_Operator r +:+ " " +:+ sprint_strings (tr_Values r) +:+
               " (Action: " +:+ tr_Action r +:+ ")" +:+ nl) rules.

Definition env_lines (ec : string * EnvironmentConfig) : list string :=
  let '(envKey, cfg) := ec in
  [nl +:+ "── Environment: " +:+ envKey +:+ " ──" +:+ nl;
   "  Status:     " +:+ bool_text (ec_Enabled cfg) +:+ " (Strategy: " +:+ ec_Strategy cfg +:+ ")" +:+ nl;
   "  Rollout:    " +:+ pct_text 1 (ec_Percentage cfg) +:+ nl;
   "  Rules:      " +:+ count (ec_Rules cfg) +:+ " active" +:+ nl] ++ rule_lines (ec_Rules cfg).

Definition print_all (lines : list string) : Cli () :=
  foldr (λ line k, Printf line;; k) (mret ()) lines.

Definition find_flag (key : string) (flags : list FeatureFlag) : option FeatureFlag :=
  find (λ f, (ff_Key f =s? key) || (ff_ID f =s? key)) flags.

Definition runGet (key : string) : Cli () :=
  body ← fetch "Error: " "GET" "/api/v1/flags" None;
  flags ← decoded "Error parsing response: " body decode_flags;
  match find_flag key flags with
  | None => die ("Flag " +:+ rt_quote key +:+ " not found" +:+ nl)
  | Some target =>
      if gl_json g then Println (json_flag target)
      else
        print_all [nl +:+ "⚡ Flag: " +:+ ff_Key target +:+ nl;
                   "Name:        " +:+ ff_Name target +:+ nl;
                   "Description: " +:+ ff_Description target +:+ nl;
                   "Type:        " +:+ ff_Type target +:+ nl;
                   "Tags:        " +:+ String.concat ", " (ff_Tags target) +:+ nl];;
        w ← the_world;
        print_all (flat_map env_lines (cl_order w _ (ff_Environments target)));;
        Println ""
  end.

(** ** Changing flags ([flags.go]) *)

Definition runToggle (key : string) : Cli () :=
  body ← must "Failed to toggle flag: " "PATCH"
           ("/api/v1/flags/" +:+ key +:+ "/toggle?env=" +:+ gl_env g) None;
  unless_json body
    (Printf ("✓ Successfully toggled flag " +:+ rt_quote key +:+ " in " +:+ gl_env g +:+
             " environment." +:+ nl)).

Definition runRollout (key : string) (pct : f64) : Cli () :=
  body ← must "Failed to update rollout: " "PATCH" ("/api/v1/flags/" +:+ key +:+ "/rollout")
           (Some (PRollout (gl_env g) pct));
  unless_json body
    (Printf ("✓ Set rollout percentage of " +:+ rt_quote key +:+ " to " +:+ pct_text 1 pct +:+ " in " +:+
             gl_env g +:+ " environment." +:+ nl)).

Definition runPromote (key from to : string) : Cli () :=
  body ← must "Promotion failed: " "POST"
           ("/api/v1/flags/" +:+ key +:+ "/promote?from=" +:+ from +:+ "&to=" +:+ to) None;
  unless_json body
    (Printf ("✓ Successfully promoted flag " +:+ rt_quote key +:+ " from " +:+ from +:+ " to " +:+ to +:+
             "." +:+ nl)).

Definition step_lines (s : TraceStep) : list string :=
  ["  [" +:+ (if ts_Passed s then "✓" else "✗") +:+ "] Step " +:+ Itoa (ts_StepIndex s) +:+ ": " +:+
     ts_Name s +:+ nl;
   "      ↳ " +:+ ts_Detail s +:+ nl].

Definition runEvaluate (key userID email : string) (trace : bool) : Cli () :=
  body ← fetch "Evaluation failed: " "POST" ("/api/v1/evaluate" +:+ (if trace then "?trace=true" else ""))
           (Some (PEvaluate [key] userID email (gl_env g) trace));
  unless_json body
    (data ← decoded "Error decoding evaluation response: " body decode_results;
     let '(results, traces) := data in
     match results !! key with
     | None => die ("Flag " +:+ rt_quote key +:+ " missing from evaluation response" +:+ nl)
     | Some res =>
         print_all [nl +:+ "⚡ Evaluation Result: " +:+ key +:+ nl;
                    "Status:    " +:+ (if er_Enabled res then "🟢 ON (Enabled)" else "🔴 OFF (Disabled)") +:+ nl;
                    "Variant:   " +:+ er_Variant res +:+ nl;
                    "Reason:    " +:+ er_Reason res +:+ nl;
                    "Latency:   " +:+ Itoa (er_EvaluationLatencyNs res) +:+ " ns (" +:+
                      FormatFixed 3 (er_EvaluationLatencyUs res) +:+ " µs)" +:+ nl];;
         (if trace then
            match traces !! key with
            | Some ((_ :: _) as steps) =>
                Printf (nl +:+ "── Visual Execution Trace (" +:+ count steps +:+ " steps) ──" +:+ nl);;
                print_all (flat_map step_lines steps)
            | _ => mret ()
            end
          else mret ());;
         Println ""
     end).

(** ** Health, experiments and canaries ([canary.go]) *)

Definition runHealth : Cli () :=
  r ← makeRequest "GET" "/healthz" None;
  w ← the_world;
  match r with
  | (Some 200%Z, _, None) =>
      Printf ("🟢 Flagura Control Plane is healthy and responsive at " +:+ gl_endpoint g +:+ " (RTT: " +:+
              duration_String (cl_latency w) +:+ ")" +:+ nl)
  | (_, _, err) =>
      Printf ("🔴 Flagura Control Plane unreachable at " +:+ gl_endpoint g +:+ " (" +:+
              default "<nil>" err +:+ ")" +:+ nl);;
      os_Exit 1
  end.

(** The verb [%+.2f]. *)
Definition signed_fixed (prec : nat) (x : f64) : string :=
  let s := FormatFixed prec x in
  if HasPrefix s "-" || HasPrefix s "+" then s else "+" +:+ s.

Definition variant_row (vs : string * VariantMetricStats) : list string :=
  let '(v, s) := vs in
  let ci := "[" +:+ pct_text 2 (vs_CI95Lower s * f64_of_Z 100)%f64 +:+ ", " +:+
            pct_text 2 (vs_CI95Upper s * f64_of_Z 100)%f64 +:+ "]" in
  [v; Itoa (vs_Exposures s); Itoa (vs_Conversions s); pct_text 2 (vs_ConversionRate s * f64_of_Z 100)%f64; ci].

Definition comparison_row (vc : string * VariantComparison) : list string :=
  let '(v, c) := vc in
  let statusStr := match vc_Status c with
                   | Winning => "🟢 WINNING"
                   | Losing => "🔴 LOSING"
                   | InsufficientData => "⏳ NEED SAMPLES"
                   | Inconclusive => "INCONCLUSIVE"
                   | NoStatus => ""
                   end in
  [v; signed_fixed 2 (vc_RelativeLiftPct c) +:+ "%"; FormatFixed 2 (vc_ZScore c);
   FormatFixed 4 (vc_PValue c); pct_text 1 (vc_ConfidencePct c); statusStr].

Definition runExperiment (key metric control : string) : Cli () :=
  body ← must "Failed to retrieve experiment report: " "GET"
           ("/api/v1/experiments/" +:+ key +:+ "?metric=" +:+ metric +:+ "&control=" +:+ control +:+
            "&env=" +:+ gl_env g) None;
  unless_json body
    (report ← decoded "Error parsing experiment report: " body decode_report;
     print_all ([nl +:+ "📊 Flagura A/B Experiment Analysis: " +:+ er_FlagKey report +:+ nl;
                 "Metric:          " +:+ er_MetricName report +:+ " (Type: " +:+ er_EventType report +:+ ")" +:+ nl;
                 "Control Variant: " +:+ er_ControlVariant report +:+ nl;
                 "Total Events:    " +:+ Itoa (er_TotalEvents report) +:+ nl] ++
                (if er_WinnerVariant report =s? "" then []
                 else ["🏆 Winner:       " +:+ er_WinnerVariant report +:+
                       " (Statistically Significant)" +:+ nl]));;
     Println (nl +:+ "── Variant Performance ──");;
     w ← the_world;
     emit (Table ([["VARIANT"; "EXPOSURES"; "CONVERSIONS"; "RATE"; "95% CONFIDENCE INTERVAL"];
                   ["-------"; "---------"; "-----------"; "----"; "-----------------------"]] ++
                  map variant_row (cl_order w _ (er_VariantStats report))));;
     (if bool_decide (er_Comparisons report = ∅) then mret ()
      else
        Println (nl +:+ "── Statistical Significance vs. Control ──");;
        emit (Table ([["TREATMENT"; "REL LIFT"; "Z-SCORE"; "P-VALUE"; "CONFIDENCE"; "STATUS"];
                      ["---------"; "--------"; "-------"; "-------"; "----------"; "------"]] ++
                     map comparison_row (cl_order w _ (er_Comparisons report)))));;
     Println "").

(** The part of [--stages] before the duration, and the duration in seconds: one
    that cannot be parsed counts as none. *)
Definition stage_of (i : nat) (part : string) : option CanaryStage :=
  let sub := Split (TrimSpace part) ":" in
  let pctStr := TrimSuffix (default "" (sub !! 0)) "%" in
  pct ← rt_parse_float pctStr;
  let durSec := match sub !! 1 with
                | Some text => if text =s? "" then 0%Z
                               else match ParseDuration text with
                                    | Some d => f64_trunc (Seconds d)
                                    | None => 0%Z
                                    end
                | None => 0%Z
                end in
  Some (mkStage (Z.of_nat i) pct durSec time_zero time_zero).

Fixpoint parse_stages (i : nat) (parts : list string) : Cli (list CanaryStage) :=
  match parts with
  | [] => mret []
  | part :: rest =>
      match stage_of i part with
      | None => die ("Invalid percentage in stage '" +:+ part +:+ "': " +:+
                     parse_float_error (TrimSuffix (default "" (Split (TrimSpace part) ":" !! 0)) "%") +:+ nl)
      | Some s => stages ← parse_stages (S i) rest; mret (s :: stages)
      end
  end.

Definition stage_row (s : CanaryStage) : list string :=
  let durStr := if (0 <? cg_DurationSec s)%Z then duration_String (cg_DurationSec s * Second)%Z
                else "Until Completion" in
  ["Step " +:+ Itoa (cg_Index s + 1); pct_text 1 (cg_TargetPercentage s); durStr].

(** The schedule that is sent: what it leaves out has the zero value. *)
Definition cli_schedule (key : string) (stages : list CanaryStage) : CanarySchedule :=
  mkSchedule "" "" key (gl_env g) "" 0 stages (mkGuardrails (f64_of_Z 1) f64_zero true "") ""
    time_zero time_zero time_zero.

Definition runCanary (key stagesStr : string) (isRollback : bool) : Cli () :=
  if isRollback then
    must "Rollback failed: " "POST" ("/api/v1/flags/" +:+ key +:+ "/canary/rollback")
      (Some (PReason "CLI Manual Health Rollback Triggered"));;
    Printf ("🚨 Health Rollback Executed: Flag '" +:+ key +:+ "' has been reverted to 0% rollout." +:+ nl)
  else
    stages ← parse_stages 0 (Split stagesStr ",");
    body ← must "Failed to submit canary schedule: " "POST" ("/api/v1/flags/" +:+ key +:+ "/canary")
             (Some (PSchedule (cli_schedule key stages)));
    unless_json body
      (print_all [nl +:+ "🚀 Progressive Canary Auto-Ramp Scheduled for Flag '" +:+ key +:+ "' (" +:+
                    gl_env g +:+ ")" +:+ nl;
                  "─────────────────────────────────────────────────────────────────" +:+ nl;
                  "Stage Count:  " +:+ count stages +:+ nl;
                  "Initial Step: " +:+ pct_text 1 (default f64_zero (cg_TargetPercentage <$> head stages)) +:+
                    " Rollout (Applied immediately)" +:+ nl;
                  "Guardrails:   Max Error Rate < 1.0% (Auto-Rollback Active)" +:+ nl +:+ nl];;
       emit (Table ([["STAGE"; "TARGET ROLLOUT"; "STAGE DURATION"];
                     ["-----"; "--------------"; "--------------"]] ++ map stage_row stages));;
       Println "").

(** ** The audit ([audit.go]) *)

Definition extensions : list string :=
  [".go"; ".ts"; ".js"; ".tsx"; ".jsx"; ".py"; ".rs"; ".java"; ".kt"; ".swift"].

(** [filepath.Ext]: from the last dot of the last element on. *)
Fixpoint Ext (path : string) : string :=
  match path with
  | EmptyString => ""
  | String c rest =>
      if Ext rest =s? "" then
        if bool_decide (c = "."%char) && negb (str_mem "/" rest) then path else ""
      else Ext rest
  end.

Definition scanned (path : string) : bool := existsb (String.eqb (Ext path)) extensions.

Definition skipped_dir (name : string) : bool :=
  (name =s? ".git") || (name =s? "node_modules") || (name =s? "vendor").

Definition node_name (n : Node) : string :=
  match n with File name _ _ => name | Dir name _ => name end.

(** [filepath.Walk] with the audit's function, over a directory whose entries are
    sorted by name: the files that are read, with their contents. *)
Fixpoint walk (path : string) (n : Node) : list (string * string) :=
  match n with
  | File _ symlink content =>
      if negb (scanned path) || symlink then []
      else match content with Some c => [(path, c)] | None => [] end
  | Dir name children =>
      if skipped_dir name then []
      else flat_map (λ child, walk (Clean (path +:+ "/" +:+ node_name child)) child) children
  end.

Definition quoted (q : ascii) (k : string) : string := String q (k +:+ String q "").

Definition mentions (content k : string) : bool :=
  Contains content (quoted "034" k) || Contains content (quoted "039" k).

Definition scan_file (items : list FlagAuditItem) (file : string * string) : list FlagAuditItem :=
  let '(path, content) := file in
  map (λ item, if mentions content (ff_Key (ai_Flag item)) then
                 mkAuditItem (ai_Flag item) (ai_Health item) (S (ai_Occurrences item)) (ai_Files item ++ [path])
               else item) items.

Definition audit_items (now : Time) (flags : list FeatureFlag) (files : list (string * string)) :
    list FlagAuditItem :=
  foldl scan_file (map (λ f, mkAuditItem f (AnalyzeFlagHealth now f) 0 []) flags) files.

Definition audit_row (dir : string) (item : FlagAuditItem) : list string :=
  let statusIcon := if fh_IsStale (ai_Health item) then
                      if fh_Status (ai_Health item) =s? HealthStatusStale then "🟡 Stale (100%)"
                      else "🔴 Dead Code"
                    else "🟢 Active" in
  let refCountStr := if (dir =s? "") || (length (ai_Files item) =? 0)%nat then "0 refs"
                     else count (ai_Files item) +:+ " file(s)" in
  [statusIcon; ff_Key (ai_Flag item); fh_Status (ai_Health item); refCountStr;
   fh_SuggestedAction (ai_Health item)].

Definition runAudit (dir : string) (failOnStale : bool) : Cli () :=
  body ← fetch "Error: " "GET" "/api/v1/flags" None;
  flags ← decoded "Error parsing flags response: " body decode_flags;
  w ← the_world;
  let files := if dir =s? "" then [] else match cl_tree w dir with Some n => walk dir n | None => [] end in
  let items := audit_items (cl_now w) flags files in
  if gl_json g then Printf (json_items items)
  else
    let staleCount := length (filter (λ item, fh_IsStale (ai_Health item)) items) in
    Println (nl +:+ "🧹 Flagura Codebase Audit & Technical Debt Report");;
    Println "─────────────────────────────────────────────────────────────────";;
    emit (Table ([["STATUS"; "FLAG KEY"; "HEALTH STATE"; "CODE REFS"; "RECOMMENDATION"];
                  ["------"; "--------"; "------------"; "---------"; "--------------"]] ++
                 map (audit_row dir) items));;
    (if (staleCount =? 0)%nat then
       Println (nl +:+ "✅ No technical debt detected! All feature flags are actively routing traffic.")
     else
       Printf (nl +:+ "⚠️  Found " +:+ Itoa (Z.of_nat staleCount) +:+ " flag(s) ready for code cleanup." +:+ nl));;
    Println "";;
    (if failOnStale && (0 <? staleCount)%nat then
       Printf ("❌ Failed CI: Found " +:+ Itoa (Z.of_nat staleCount) +:+
               " stale feature flag(s) that should be removed from code." +:+ nl);;
       os_Exit 1
     else mret ()).

(** ** Backup ([backup.go]) *)

Definition ok_status (status : Z) : bool := (status =? 200)%Z.

(** The request of a backup is not made by [makeRequest]: its body is a file. *)
Definition backup_request (what method url : string) (headers : list (string * string))
    (body : option Payload) (failure : string) : Cli (Z * string * option string) :=
  match url_error url with
  | Some err => die ("Failed to create " +:+ what +:+ "request: " +:+ err +:+ nl)
  | None =>
      a ← do_call (mkCall method url headers body);
      match a with
      | NoAnswer err => die (failure +:+ " request failed: " +:+ err +:+ nl)
      | Answered status body readErr => mret (status, body, readErr)
      end
  end.

Definition backup_name (compress : bool) (now : Time) : string :=
  "flagura-backup-" +:+ time_Format "20060102-150405" now +:+ (if compress then ".json.gz" else ".json").

Definition runBackup (subCmd : string) (file : string) (compress : bool) : Cli () :=
  if existsb (String.eqb subCmd) ["create"; "export"; "dump"] then
    w ← the_world;
    let file := if file =s? "" then backup_name compress (cl_now w) else file in
    let path := "/api/v1/backup/export" +:+ (if compress then "?compress=true" else "") in
    r ← backup_request "" "GET" (normalizeEndpoint (gl_endpoint g) +:+ path) auth_headers None "Backup";
    let '(status, body, readErr) := r in
    if negb (ok_status status) then
      die ("Backup failed (" +:+ Itoa status +:+ "): " +:+ body +:+ nl)
    else
      match cl_create w (Clean file) with
      | Some err => die ("Failed to open output file: " +:+ err +:+ nl)
      | None =>
          emit (WroteFile (Clean file) body);;
          match readErr with
          | Some err => die ("Failed to write backup data: " +:+ err +:+ nl)
          | None => Printf ("✓ Database backup created successfully (" +:+
                            Itoa (Z.of_nat (String.length body)) +:+ " bytes written to " +:+ file +:+ ")" +:+ nl)
          end
      end
  else if existsb (String.eqb subCmd) ["restore"; "import"; "load"] then
    if file =s? "" then die ("Usage: flagura backup restore --file=<path>" +:+ nl)
    else
      w ← the_world;
      match cl_open w (Clean file) with
      | Err err => die ("Failed to open backup file " +:+ file +:+ ": " +:+ err +:+ nl)
      | Ok content =>
          r ← backup_request "restore " "POST" (normalizeEndpoint (gl_endpoint g) +:+ "/api/v1/backup/import")
                (("Content-Type", "application/json") :: auth_headers) (Some (PFile content)) "Restore";
          let '(status, body, _) := r in
          if negb (ok_status status) then
            die ("Restore failed (" +:+ Itoa status +:+ "): " +:+ body +:+ nl)
          else Printf ("✓ Database snapshot restored successfully:" +:+ nl +:+ body +:+ nl)
      end
  else die ("Usage: flagura backup [create|restore] --file=<path> [--compress]" +:+ nl).

(** ** API keys ([apikeys.go]) *)

Definition key_row (k : APIKey) : list string :=
  [ak_ID k; ak_Name k; ak_Role k; ak_KeyPrefix k; ak_CreatedBy k;
   time_Format "2006-01-02 15:04" (ak_CreatedAt k);
   if ak_Revoked k then "🔴 Revoked" else "🟢 Active"].

Definition dq : string := String "034" "".

Definition runAPIKey (subCmd : string) (args : list string) (name role : string) : Cli () :=
  if existsb (String.eqb subCmd) ["list"; "ls"] then
    body ← must "Failed to list API keys: " "GET" "/api/v1/api-keys" None;
    unless_json body
      (keys ← decoded "Error parsing API keys response: " body decode_keys;
       Println (nl +:+ "🔑 Flagura Active API Keys & Service Tokens");;
       Println "─────────────────────────────────────────────────────────────────";;
       if (length keys =? 0)%nat then
         Println ("No active API keys found. Generate one using 'flagura api-key create --name=" +:+ dq +:+
                  "..." +:+ dq +:+ "'");;
         Println ""
       else
         emit (Table ([["ID"; "NAME"; "ROLE"; "KEY PREFIX"; "CREATED BY"; "CREATED"; "STATUS"];
                       ["--"; "----"; "----"; "----------"; "----------"; "-------"; "------"]] ++
                      map key_row keys));;
         Println "")
  else if existsb (String.eqb subCmd) ["create"; "new"; "add"] then
    body ← must "Failed to create API key: " "POST" "/api/v1/api-keys" (Some (PAPIKey name role));
    unless_json body
      (k ← decoded "Error parsing response: " body decode_key;
       Println (nl +:+ "✨ Flagura API Key Generated Successfully!");;
       Println "─────────────────────────────────────────────────────────────────";;
       print_all ["ID:         " +:+ ak_ID k +:+ nl;
                  "Name:       " +:+ ak_Name k +:+ nl;
                  "Role:       " +:+ ak_Role k +:+ nl;
                  "Created At: " +:+ time_Format "2006-01-02 15:04:05 UTC" (ak_CreatedAt k) +:+ nl +:+ nl;
                  "🔑 Secret API Key Token (STORE THIS NOW - IT WILL NOT BE SHOWN AGAIN):" +:+ nl;
                  "   " +:+ String "027" "[32m" +:+ ak_Key k +:+ String "027" "[0m" +:+ nl +:+ nl;
                  "Usage Example:" +:+ nl;
                  "   export FLAGURA_API_KEY=" +:+ dq +:+ ak_Key k +:+ dq +:+ nl;
                  "   flagura list" +:+ nl];;
       Println "")
  else if existsb (String.eqb subCmd) ["revoke"; "delete"; "rm"] then
    match args with
    | _ :: id :: _ =>
        must "Revoke failed: " "DELETE" ("/api/v1/api-keys/" +:+ id) None;;
        Printf ("✅ API Key '" +:+ id +:+ "' has been permanently REVOKED across all edge nodes." +:+ nl)
    | _ => die ("Usage: flagura api-key revoke <key-id>" +:+ nl)
    end
  else die ("Unknown api-key subcommand: " +:+ subCmd +:+ ". Use list, create, or revoke." +:+ nl).

(** ** Change requests ([changerequests.go]) *)

Definition request_row (cr : ChangeRequest) : list string :=
  [cr_ID cr; cr_FlagKey cr; cr_Environment cr; cr_AuthorEmail cr; cr_Status cr;
   time_Format "2006-01-02 15:04" (cr_CreatedAt cr)].

Definition runChangeRequest (subCmd : string) (args : list string) (status comments : string) : Cli () :=
  if existsb (String.eqb subCmd) ["list"; "ls"] then
    body ← must "Failed to list change requests: " "GET"
             ("/api/v1/change-requests" +:+ (if status =s? "" then "" else "?status=" +:+ status)) None;
    unless_json body
      (requests ← decoded "Error parsing change requests: " body decode_requests;
       Println (nl +:+ "🛡️  Flagura 4-Eyes Governance Change Requests");;
       Println "─────────────────────────────────────────────";;
       if (length requests =? 0)%nat then
         Println "No change requests found.";;
         Println ""
       else
         emit (Table ([["ID"; "FLAG KEY"; "ENV"; "AUTHOR"; "STATUS"; "CREATED"];
                       ["--"; "--------"; "---"; "------"; "------"; "-------"]] ++ map request_row requests));;
         Println "")
  else if existsb (String.eqb subCmd) ["approve"; "reject"] then
    match args with
    | _ :: id :: _ =>
        let approved := subCmd =s? "approve" in
        must "Review failed: " "POST" ("/api/v1/change-requests/" +:+ id +:+ "/review")
          (Some (PReview approved comments));;
        (if approved then Printf ("✅ ChangeRequest '" +:+ id +:+ "' has been APPROVED." +:+ nl)
         else Printf ("❌ ChangeRequest '" +:+ id +:+ "' has been REJECTED." +:+ nl))
    | _ => die ("Usage: flagura change-request " +:+ subCmd +:+ " <id> [--comments=" +:+ dq +:+ "..." +:+ dq +:+
                "]" +:+ nl)
    end
  else if subCmd =s? "apply" then
    match args with
    | _ :: id :: _ =>
        must "Apply failed: " "POST" ("/api/v1/change-requests/" +:+ id +:+ "/apply") None;;
        Printf ("🚀 ChangeRequest '" +:+ id +:+ "' successfully APPLIED to live feature flag config!" +:+ nl)
    | _ => die ("Usage: flagura change-request apply <id>" +:+ nl)
    end
  else die ("Unknown change-request subcommand: " +:+ subCmd +:+ ". Use list, approve, reject, or apply." +:+ nl).

End Commands.

(** ** The program ([main.go]) *)

(** [Version] and [CleanVersion] ([pkg/domain/version.go]). *)
Definition Version : string := "v1.7.0".
Definition CleanVersion : string := TrimPrefix Version "v".

Definition help_lines : list string :=
  ["⚡ Flagura Developer CLI (" +:+ Version +:+ ")";
   "High-performance feature flag management and terminal evaluation engine.";
   "";
   "Usage:";
   "  flagura <command> [arguments] [flags]";
   "";
   "Commands:";
   "  list, ls                  List all feature flags across environments";
   "  get <key>                 View detailed configuration for a specific flag";
   "  toggle <key>              Instantly toggle the master kill-switch for a flag";
   "  rollout <key> <pct>       Adjust gradual rollout percentage (0-100%)";
   "  evaluate <key>            Execute real-time flag evaluation in terminal";
   "  promote <key>             Promote configuration from Staging to Production";
   "  experiment <key>          Calculate A/B statistical significance and lift";
   "  canary <key>              Manage automated progressive canary ramp & guardrails";
   "  change-request [list|approve|reject|apply]";
   "                            Enforce 4-Eyes principle change approval governance";
   "  api-key [list|create|revoke]";
   "                            Generate, list, and revoke programmatic API service tokens";
   "  audit, scan, clean-up     Scan codebase files for technical debt & stale flag checks";
   "  backup [create|restore]   Create or restore database snapshots for disaster recovery";
   "  health                    Check connection to the Flagura control plane";
   "  version                   Print CLI version";
   "  help                      Show this help message";
   "";
   "Flags:";
   "  --endpoint <url>          Flagura control plane URL (default: $FLAGURA_ENDPOINT or https://flagura.dev)";
   "  --api-key <key>           API key for authentication (default: $FLAGURA_API_KEY)";
   "  --env <name>              Target environment: production, staging, development (default: production)";
   "  --name <name>             Name for newly generated API Key (default: CLI Service Key)";
   "  --role <role>             Role for API Key: developer or admin (default: developer)";
   "  --dir <path>              Codebase directory to scan during audit (default: .)";
   "  --fail-on-stale           Exit with code 1 if stale/dead flags are found (useful in CI/CD)";
   "  --json                    Output results as raw formatted JSON";
   "";
   "Examples:";
   "  flagura list";
   "  flagura toggle ai-smart-search --env=production";
   "  flagura rollout ai-smart-search 50% --env=production";
   "  flagura evaluate ai-smart-search --user=usr_alex_42 --trace";
   "  flagura promote ai-smart-search --from=staging --to=production";
   "  flagura api-key create --name=" +:+ dq +:+ "Production Kubernetes SDK" +:+ dq +:+ " --role=admin";
   "  flagura api-key list";
   "  flagura audit --dir=. --fail-on-stale"].

Definition printHelp : Cli () := Printf (String.concat nl help_lines +:+ nl).

(** The flags every command has; their defaults come from the process's
    environment. *)
Definition global_flags (env : string → string) : FlagSet :=
  let defaultEndpoint := if env "FLAGURA_ENDPOINT" =s? "" then "https://flagura.dev"
                         else env "FLAGURA_ENDPOINT" in
  {[ "endpoint" := FString defaultEndpoint; "api-key" := FString (env "FLAGURA_API_KEY");
     "env" := FString "production"; "project" := FString (env "FLAGURA_PROJECT_ID");
     "json" := FBool false ]}.

Definition globals_of (fs : FlagSet) : Globals :=
  mkGlobals (flag_string fs "endpoint") (flag_string fs "api-key") (flag_string fs "env")
    (flag_string fs "project") (flag_bool fs "json").

(** The flags of a command. *)
Definition command_flags (cmd : string) : list (string * FlagValue) :=
  let one_of := existsb (String.eqb cmd) in
  if one_of ["evaluate"; "eval"] then
    [("user", FString "usr_cli_01"); ("email", FString "dev@flagura.dev"); ("trace", FBool false)]
  else if one_of ["promote"] then [("from", FString "staging"); ("to", FString "production")]
  else if one_of ["experiment"; "exp"] then [("metric", FString "conversion"); ("control", FString "control")]
  else if one_of ["canary"] then [("stages", FString "5%:5m,25%:30m,50%:1h,100%:0s"); ("rollback", FBool false)]
  else if one_of ["change-request"; "cr"] then [("status", FString ""); ("comments", FString "")]
  else if one_of ["api-key"; "apikey"; "key"] then
    [("name", FString "CLI Service Key"); ("role", FString "developer")]
  else if one_of ["audit"; "scan"; "clean-up"; "cleanup"] then
    [("dir", FString "."); ("fail-on-stale", FBool false)]
  else if one_of ["backup"; "snapshot"] then [("file", FString ""); ("compress", FBool false)]
  else [].

Section Program.
Context `{GoRuntime} `{CliLib}.

(** [fs.Parse] of a flag set made with [flag.ExitOnError]. *)
Definition parse_or_exit (fs : FlagSet) (args : list string) : Cli (FlagSet * list string) :=
  match Parse fs args with
  | ParsedArgs fs' rest => mret (fs', rest)
  | ParseHelp => Fprintf_err (flag_usage fs);; os_Exit 0
  | ParseError msg => Fprintf_err (msg +:+ nl +:+ flag_usage fs);; os_Exit 2
  end.

(** A command that wants one argument. *)
Definition with_arg (args : list string) (usage : string) (k : string → Cli ()) : Cli () :=
  match args with
  | key :: _ => k key
  | [] => die (usage +:+ nl)
  end.

(** What follows the parsing of a command's flags. *)
Definition dispatch (cmd : string) (fs : FlagSet) (args : list string) : Cli () :=
  let g := globals_of fs in
  let one_of := existsb (String.eqb cmd) in
  let str := flag_string fs in
  let flg := flag_bool fs in
  if one_of ["list"; "ls"] then runList g
  else if one_of ["get"] then with_arg args "Usage: flagura get <flag-key>" (runGet g)
  else if one_of ["toggle"] then
    with_arg args "Usage: flagura toggle <flag-key> [--env=production]" (runToggle g)
  else if one_of ["rollout"] then
    match args with
    | key :: text :: _ =>
        match rt_parse_float (TrimSuffix text "%") with
        | None => die ("Invalid rollout percentage: " +:+ text +:+ nl)
        | Some pct => runRollout g key pct
        end
    | _ => die ("Usage: flagura rollout <flag-key> <percentage> [--env=production]" +:+ nl)
    end
  else if one_of ["evaluate"; "eval"] then
    with_arg args "Usage: flagura evaluate <flag-key> [--user=<id>] [--email=<email>] [--trace]"
      (λ key, runEvaluate g key (str "user") (str "email") (flg "trace"))
  else if one_of ["promote"] then
    with_arg args "Usage: flagura promote <flag-key> [--from=staging] [--to=production]"
      (λ key, runPromote g key (str "from") (str "to"))
  else if one_of ["experiment"; "exp"] then
    with_arg args "Usage: flagura experiment <flag-key> [--metric=conversion] [--control=control]"
      (λ key, runExperiment g key (str "metric") (str "control"))
  else if one_of ["canary"] then
    with_arg args "Usage: flagura canary <flag-key> [--stages=<stages>] [--rollback]"
      (λ key, runCanary g key (str "stages") (flg "rollback"))
  else if one_of ["change-request"; "cr"] then
    runChangeRequest g (default "list" (head args)) args (str "status") (str "comments")
  else if one_of ["api-key"; "apikey"; "key"] then
    runAPIKey g (default "list" (head args)) args (str "name") (str "role")
  else if one_of ["audit"; "scan"; "clean-up"; "cleanup"] then runAudit g (str "dir") (flg "fail-on-stale")
  else if one_of ["backup"; "snapshot"] then
    runBackup g (default "create" (head args)) (str "file") (flg "compress")
  else runHealth g.

(** The commands that parse flags. *)
Definition commands : list string :=
  ["list"; "ls"; "get"; "toggle"; "rollout"; "evaluate"; "eval"; "promote"; "experiment"; "exp";
   "canary"; "change-request"; "cr"; "api-key"; "apikey"; "key"; "audit"; "scan"; "clean-up";
   "cleanup"; "backup"; "snapshot"; "health"].

Definition flags_of (env : string → string) (cmd : string) : FlagSet :=
  list_to_map (command_flags cmd) ∪ global_flags env.

(** [main], on the arguments after the name of the program. *)
Definition main (args : list string) : Cli () :=
  match args with
  | [] => printHelp;; os_Exit 1
  | cmd :: rest =>
      let one_of := existsb (String.eqb cmd) in
      if one_of ["version"; "-v"; "--version"] then Printf ("Flagura CLI " +:+ Version +:+ nl)
      else if one_of ["help"; "--help"; "-h"] then printHelp
      else if one_of commands then
        w ← the_world;
        r ← parse_or_exit (flags_of (cl_env w) cmd) rest;
        dispatch cmd r.1 r.2
      else die ("Unknown command: " +:+ cmd +:+ nl +:+ "Run 'flagura help' for usage." +:+ nl)
  end.

(** A run of the program: its effects and its exit code. *)
Definition run (args : list string) (w : World) : list Effect * Z :=
  match main args w [] with
  | (es, Running _) => (es, 0%Z)
  | (es, Exited code) => (es, code)
  end.

End Program.

(** ** Flags come before arguments *)

Section ParseFacts.
Context `{GoRuntime} `{CliLib}.

Lemma Parse_stops fs pre fs' p rest :
  Parse fs pre = ParsedArgs fs' [] → classify p = Positional →
  Parse fs (pre ++ p :: rest) = ParsedArgs fs' (p :: rest).
Proof.
  intros Hpre Hp. remember (length pre) as n eqn:Hn. revert fs pre Hn Hpre.
  induction (lt_wf n) as [n _ IH]. intros fs [|s pre] -> Hpre; cbn in *.
  - injection Hpre as ->. by rewrite Hp.
  - destruct (classify s) as [| | |name value]; try discriminate.
    + injection Hpre as -> ->. done.
    + destruct (fs !! name) as [[v|b]|].
      * destruct value as [v'|]; [by eapply IH; [|reflexivity|]; [cbn; lia|]|].
        destruct pre as [|v' pre]; [discriminate|]. cbn.
        by eapply IH; [|reflexivity|]; [cbn; lia|].
      * destruct value as [v'|]; [destruct (ParseBool v'); [|discriminate]|];
          by eapply IH; [|reflexivity|]; [cbn; lia|].
      * by destruct ((name =s? "help") || (name =s? "h")).
Qed.

(** The commands that look at no argument after the first one. *)
Definition two_arg_commands : list string :=
  ["rollout"; "change-request"; "cr"; "api-key"; "apikey"; "key"].

Lemma head_two (args : list string) : args = [] ∨ (∃ a, args = [a]) ∨ ∃ a b r, args = a :: b :: r.
Proof. destruct args as [|a [|b r]]; eauto 10. Qed.

Lemma dispatch_second cmd fs p rest :
  dispatch cmd fs (p :: rest) = dispatch cmd fs (p :: take 1 rest).
Proof. unfold dispatch, runChangeRequest, runAPIKey. by destruct rest as [|q rest]. Qed.

Lemma dispatch_first cmd fs p rest :
  existsb (String.eqb cmd) two_arg_commands = false →
  dispatch cmd fs (p :: rest) = dispatch cmd fs [p].
Proof.
  intros Hcmd. unfold dispatch.
  assert (Hnot : ∀ l, (∀ x, In x l → In x two_arg_commands) → existsb (String.eqb cmd) l = false).
  { intros l Hl. destruct (existsb (String.eqb cmd) l) eqn:E; [|done].
    apply existsb_exists in E as (x & Hx & Heq). rewrite <- Hcmd. symmetry. apply existsb_exists.
    eauto. }
  rewrite !(Hnot ["rollout"]), !(Hnot ["change-request"; "cr"]), !(Hnot ["api-key"; "apikey"; "key"]);
    [done|cbn; intuition..].
Qed.

(** C30: Whatever follows the first argument that is not a flag is not parsed: of the
    words after it a command sees at most one, and the commands that take one
    argument see none, so that flags written there have no effect. *)
Theorem flags_after_argument_ignored cmd pre fs' p rest w :
  Parse (flags_of (cl_env w) cmd) pre = ParsedArgs fs' [] →
  classify p = Positional →
  run (cmd :: pre ++ p :: rest) w = run (cmd :: pre ++ p :: take 1 rest) w ∧
  (cmd ∉ two_arg_commands → run (cmd :: pre ++ p :: rest) w = run (cmd :: pre ++ [p]) w).
Proof.
  intros Hpre Hp. unfold run, main, parse_or_exit.
  destruct (existsb _ ["version"; _; _]); [done|]. destruct (existsb _ ["help"; _; _]); [done|].
  destruct (existsb _ commands); [|done]. unfold mbind, cli_bind, the_world.
  rewrite !(Parse_stops _ _ _ _ _ Hpre Hp). cbn [mret cli_ret fst snd]. split.
  - by rewrite dispatch_second.
  - intros Hcmd. rewrite (dispatch_first cmd fs' p rest); [done|].
    destruct (existsb _ _) eqn:E; [|done]. apply existsb_exists in E as (x & Hx & ->%String.eqb_eq).
    destruct Hcmd. by apply list_elem_of_In.
Qed.
End ParseFacts.

(** ** What success means *)

(** The answer to a call was a status below 400. *)
Definition accepts (w : World) (before : list Effect) (c : HttpCall) : Prop :=
  match cl_answer w before c with Answered status _ _ => (status < 400)%Z | NoAnswer _ => False end.

(** Every call of a run was accepted. *)
Definition accepted (w : World) (es : list Effect) : Prop :=
  ∀ i c, es !! i = Some (Called c) → accepts w (take i es) c.

(** A command that only ends well, or with exit code 0, when its calls were accepted. *)
Definition honest {A} (m : Cli A) : Prop :=
  ∀ w es es' o, m w es = (es', o) → accepted w es → accepted w es' ∨ ∃ n, o = Exited n ∧ n ≠ 0%Z.

Section Honest.
Context `{GoRuntime} `{CliLib}.

Lemma accepted_snoc w es e :
  accepted w es → (∀ c, e = Called c → accepts w es c) → accepted w (es ++ [e]).
Proof.
  intros Hes He i c Hi. destruct (decide (i < length es)) as [Hlt|Hge].
  - rewrite lookup_app_l in Hi by done. rewrite take_app_le by lia. by apply Hes.
  - rewrite lookup_app_r in Hi by lia. apply list_lookup_singleton_Some in Hi as [Hi Hc].
    rewrite take_app_ge, Hi, app_nil_r by lia. by apply He.
Qed.

Lemma honest_ret {A} (a : A) : honest (mret a : Cli A).
Proof. intros w es es' o [= <- <-] ?. by left. Qed.

Lemma honest_bind {A B} (m : Cli A) (k : A → Cli B) : honest m → (∀ a, honest (k a)) → honest (m ≫= k).
Proof.
  intros Hm Hk w es es' o. unfold mbind, cli_bind. destruct (m w es) as [es1 [a|n]] eqn:E; intros Hr Hes.
  - destruct (Hm _ _ _ _ E Hes) as [H1|(n & ? & ?)]; [|done]. by eapply Hk.
  - injection Hr as <- <-. destruct (Hm _ _ _ _ E Hes) as [H1|(n' & [= ->] & ?)]; eauto.
Qed.

Lemma honest_emit e : (∀ c, e ≠ Called c) → honest (emit e).
Proof. intros He w es es' o [= <- <-] Hes. left. by apply accepted_snoc; [|intros c ->; destruct (He c)]. Qed.

Lemma honest_exit {A} n : honest (os_Exit n : Cli A).
Proof. intros w es es' o [= <- <-] ?. by left. Qed.

Lemma honest_world : honest the_world.
Proof. intros w es es' o [= <- <-] ?. by left. Qed.

Lemma die_ends {A} msg w es : (die msg : Cli A) w es = (es ++ [Stderr msg], Exited 1).
Proof. reflexivity. Qed.

Lemma honest_die {A} msg : honest (die msg : Cli A).
Proof. intros w es es' o [= <- <-] _. right. eauto. Qed.

(** A request either is not sent, and gives an error, or is the one call of the run. *)
Lemma makeRequest_cases g method path body w es :
  ∃ r, (makeRequest g method path body w es = (es, Running r) ∧ failed r = true ∧ is_Some r.2 ∧ r.1.1 = None) ∨
  let c := mkCall method (normalizeEndpoint (gl_endpoint g) +:+ path)
             (("Content-Type", "application/json") :: auth_headers g) body in
  makeRequest g method path body w es = (es ++ [Called c], Running r) ∧
  match cl_answer w es c with
  | NoAnswer err => r = (None, "", Some err)
  | Answered status text readErr => r = (Some status, text, readErr)
  end.
Proof.
  unfold makeRequest. destruct (match body with Some p => _ | None => _ end); [eexists; left; cbn; eauto|].
  destruct (url_error _); [eexists; left; cbn; eauto|].
  unfold mbind, cli_bind, do_call. cbv zeta.
  destruct (cl_answer w es _) eqn:E; eexists; right; (split; [reflexivity|]); reflexivity.
Qed.

Lemma honest_must g prefix method path body : honest (must g prefix method path body).
Proof.
  intros w es es' o. unfold must. unfold mbind at 1, cli_bind at 1.
  destruct (makeRequest_cases g method path body w es) as [r [(-> & Hf & _)|(-> & Hr)]].
  - rewrite Hf, die_ends. intros [= <- <-] _. right. eauto.
  - destruct (failed r) eqn:Hf; [rewrite die_ends; intros [= <- <-] _; right; eauto|].
    intros [= <- <-] Hes. left. apply accepted_snoc; [done|]. intros c [= <-]. unfold accepts.
    destruct (cl_answer w es _); subst r; cbn in Hf; [done|].
    destruct read_error; [done|]. lia.
Qed.

Create HintDb honest discriminated.
#[local] Hint Resolve honest_ret honest_bind honest_exit honest_world honest_die honest_must : honest.
#[local] Hint Extern 1 (honest (emit _)) => apply honest_emit; done : honest.

Lemma honest_print_all lines : honest (print_all lines).
Proof. induction lines; cbn; unfold Printf; eauto with honest. Qed.
#[local] Hint Resolve honest_print_all : honest.

Ltac honest_tac :=
  unfold unless_json, decoded, Println, Printf, with_arg;
  repeat (case_match || simple apply honest_die || simple apply honest_must ||
          (simple apply honest_bind; [|intros ?]));
  eauto with honest.

Lemma honest_stages i parts : honest (parse_stages i parts).
Proof. revert i. induction parts as [|p parts IH]; intros i; cbn; [eauto with honest|]. honest_tac. Qed.
#[local] Hint Resolve honest_stages : honest.

Lemma honest_health g : honest (runHealth g).
Proof.
  intros w es es' o. unfold runHealth. unfold mbind at 1, cli_bind at 1.
  destruct (makeRequest_cases g "GET" "/healthz" None w es) as [r [(-> & _ & [e He] & Hn)|(-> & Hr)]].
  - destruct r as [[s b] e']. cbn in He, Hn. subst. intros [= <- <-] _. right. eauto.
  - intros Hrun Hes. destruct (cl_answer w es _) as [err|status text [err|]] eqn:E; subst r.
    + right. exists 1%Z. by injection Hrun as <- <-.
    + right. exists 1%Z. revert Hrun. unfold mbind, cli_bind, the_world.
      repeat (case_match; simplify_eq); by intros [= <- <-].
    + destruct (decide (status = 200%Z)) as [->|Hne].
      * injection Hrun as <- <-. left. apply accepted_snoc; [|done]. apply accepted_snoc; [done|].
        intros c [= <-]. unfold accepts. by rewrite E.
      * right. exists 1%Z. revert Hrun. unfold mbind, cli_bind, the_world.
        repeat (case_match; simplify_eq); by intros [= <- <-].
Qed.

Lemma backup_request_honest {A} what method url headers body failure
    (k : Z * string * option string → Cli A) :
  (∀ status text e, honest (k (status, text, e))) →
  (∀ status text e w es, (status ≠ 200)%Z → ∃ es', k (status, text, e) w es = (es', Exited 1)) →
  honest (backup_request what method url headers body failure ≫= k).
Proof.
  intros Hk Hbad w es es' o. unfold backup_request. destruct (url_error url).
  { unfold mbind, cli_bind. rewrite die_ends. intros [= <- <-] _. right. eauto. }
  unfold mbind, cli_bind, do_call. destruct (cl_answer w es _) as [err|status text e] eqn:E.
  { rewrite die_ends. intros [= <- <-] _. right. eauto. }
  cbn [mret cli_ret]. intros Hrun Hes.
  destruct (decide (status = 200%Z)) as [->|Hne].
  - eapply Hk; [exact Hrun|]. apply accepted_snoc; [done|]. intros c [= <-]. unfold accepts. by rewrite E.
  - destruct (Hbad status text e w (es ++ [Called (mkCall method url headers body)]) Hne) as [es2 Hb].
    rewrite Hb in Hrun. injection Hrun as <- <-. right. eauto.
Qed.

Lemma honest_backup g subCmd file compress : honest (runBackup g subCmd file compress).
Proof.
  unfold runBackup.
  assert (Hbad : ∀ status, (status ≠ 200)%Z → ok_status status = false).
  { intros status Hs. unfold ok_status. lia. }
  destruct (existsb _ _); [|destruct (existsb _ _)]; [| |apply honest_die].
  - apply honest_bind; [apply honest_world|]. intros w0. apply backup_request_honest.
    + intros status text e. honest_tac.
    + intros status text e w es Hs. rewrite (Hbad _ Hs). eexists. reflexivity.
  - destruct (file =s? ""); [apply honest_die|].
    apply honest_bind; [apply honest_world|]. intros w0.
    destruct (cl_open w0 (Clean file)) as [content|err]; [|apply honest_die].
    apply backup_request_honest.
    + intros status text e. honest_tac.
    + intros status text e w es Hs. rewrite (Hbad _ Hs). eexists. reflexivity.
Qed.
#[local] Hint Resolve honest_health honest_backup : honest.

(** The commands that do not look at the status of the answer. *)
Definition lenient_commands : list string :=
  ["list"; "ls"; "get"; "evaluate"; "eval"; "audit"; "scan"; "clean-up"; "cleanup"].

Lemma honest_dispatch cmd fs args :
  existsb (String.eqb cmd) lenient_commands = false → honest (dispatch cmd fs args).
Proof.
  intros Hcmd. unfold dispatch.
  assert (Hnot : ∀ l, (∀ x, In x l → In x lenient_commands) → existsb (String.eqb cmd) l = false).
  { intros l Hl. destruct (existsb (String.eqb cmd) l) eqn:E; [|done].
    apply existsb_exists in E as (x & Hx & Heq). rewrite <- Hcmd. symmetry. apply existsb_exists. eauto. }
  rewrite !(Hnot ["list"; "ls"]), !(Hnot ["get"]), !(Hnot ["evaluate"; "eval"]),
    !(Hnot ["audit"; "scan"; "clean-up"; "cleanup"]) by (cbn; intuition).
  unfold runToggle, runRollout, runPromote, runExperiment, runCanary, runAPIKey, runChangeRequest.
  honest_tac.
Qed.

(** C29: A command other than the reading ones ends with exit code 0 only if the server
    accepted everything it was asked: no failure of the server, of the network or
    of the request is reported as a success. *)
Theorem success_means_accepted cmd args w es :
  existsb (String.eqb cmd) lenient_commands = false →
  run (cmd :: args) w = (es, 0%Z) → accepted w es.
Proof.
  intros Hcmd. unfold run.
  assert (Hmain : honest (main (cmd :: args))).
  { unfold main, printHelp, parse_or_exit, Fprintf_err. pose proof (honest_dispatch cmd).
    honest_tac. }
  destruct (main (cmd :: args) w []) as [es' o] eqn:E.
  destruct (Hmain _ _ _ _ E) as [Hok|(n & -> & Hn)]; [by intros i c Hi| |].
  - intros Hrun. by destruct o; simplify_eq.
  - intros Hrun. by simplify_eq.
Qed.

(** ** The gate of the audit *)

Lemma audit_items_health now files flags :
  map ai_Health (audit_items now flags files) = map (AnalyzeFlagHealth now) flags.
Proof.
  unfold audit_items. set (items := map _ flags).
  replace (map (AnalyzeFlagHealth now) flags) with (map ai_Health items)
    by (unfold items; rewrite map_map; reflexivity).
  generalize items. induction files as [|[path content] files IH]; intros l; [done|].
  cbn [foldl]. rewrite IH. unfold scan_file. rewrite map_map. apply map_ext. intros item. by case_if.
Qed.

Lemma stale_count now files flags :
  (0 <? length (filter (λ item, fh_IsStale (ai_Health item)) (audit_items now flags files)))%nat =
  existsb (λ f, fh_IsStale (AnalyzeFlagHealth now f)) flags.
Proof.
  trans (existsb fh_IsStale (map (AnalyzeFlagHealth now) flags)).
  2: { induction flags as [|f flags IH]; [done|]. cbn. by rewrite IH. }
  rewrite <- (audit_items_health now files).
  generalize (audit_items now flags files). induction l as [|item l IH]; [done|]. cbn [map existsb].
  rewrite filter_cons. destruct (fh_IsStale (ai_Health item)) eqn:E; case_decide; cbn in *; try done.
Qed.

Definition flags_call (g : Globals) : HttpCall :=
  mkCall "GET" (normalizeEndpoint (gl_endpoint g) +:+ "/api/v1/flags")
    (("Content-Type", "application/json") :: auth_headers g) None.

(** Once the list of flags is decoded, the audit fails exactly when it is asked to
    fail on stale flags, one of them is stale, and the output is not JSON: what it
    finds in the code has no influence, and neither has the status of the answer. *)
Theorem audit_gate_decides g dir failOnStale w es status body flags :
  url_error (hc_url (flags_call g)) = None →
  cl_answer w es (flags_call g) = Answered status body None →
  decode_flags body = Some flags →
  (runAudit g dir failOnStale w es).2 =
    if negb (gl_json g) && failOnStale && existsb (λ f, fh_IsStale (AnalyzeFlagHealth (cl_now w) f)) flags
    then Exited 1 else Running ().
Proof.
  intros Hurl Hans Hdec. unfold runAudit, fetch, decoded.
  unfold mbind at 1, cli_bind at 1. unfold mbind at 1, cli_bind at 1.
  unfold makeRequest at 1. cbn in Hurl. rewrite Hurl. unfold mbind, cli_bind, do_call.
  fold (flags_call g). rewrite Hans. cbn [mret cli_ret]. rewrite Hdec. cbn [mret cli_ret the_world].
  cbv zeta. destruct (gl_json g); [done|]. cbn [negb andb].
  match goal with |- context [filter _ (audit_items ?n _ ?f)] => rewrite <- (stale_count n f) end.
  set (n := length _).
  destruct (n =? 0)%nat eqn:E1, failOnStale, (0 <? n)%nat eqn:E2; cbn [andb]; reflexivity || lia.
Qed.
End Honest.

(** ** Examples *)

(** A library that decodes one text as a list with one stale flag, another one as
    an empty list, as the envelope of an error is decoded, and refuses the rest. *)
Definition stale_flag : FeatureFlag :=
  zero_FeatureFlag <| ff_Key := "old" |>
    <| ff_Environments := {[ EnvProduction := zero_EnvironmentConfig <| ec_Enabled := true |>
                                               <| ec_Strategy := StrategyBoolean |> ]} |>.

Definition sample_cli : CliLib := {|
  decode_flags s := if s =s? "[old]" then Some [stale_flag] else if HasPrefix s "{" then Some [] else None;
  decode_results _ := None;
  decode_report _ := None;
  decode_keys _ := None;
  decode_key _ := None;
  decode_requests _ := None;
  json_error _ := "bad";
  json_flag f := ff_Key f;
  json_items _ := "";
  url_error _ := None;
  Clean := id;
  ParseDuration s := if s =s? "5m" then Some (5 * Minute)%Z else None;
  parse_float_error _ := "bad";
  duration_String d := Itoa d;
  time_Format layout _ := layout;
  flag_usage _ := "Usage of flagura:";
|}.

Section Examples.
#[local] Existing Instance sample_runtime.
#[local] Existing Instance sample_cli.

Definition sample_world (a : Answer) : World :=
  mkCliWorld (λ _, "") (λ _ _, a) (λ _, Ok "{}") (λ _, None) (λ _, None) 0 0
    (λ A m, map_to_list m).

Definition calls (es : list Effect) : list (string * string * option Payload) :=
  omap (λ e, match e with Called c => Some (hc_method c, hc_url c, hc_body c) | _ => None end) es.

(** What a run calls, and its exit code. *)
Definition observed (a : Answer) (args : list string) :=
  let r := run args (sample_world a) in (calls r.1, r.2).

(** The environment written where the usage text puts it is ignored: production is
    toggled. *)
Example toggle_staging_toggles_production :
  observed (Answered 200 "" None) ["toggle"; "new-ui"; "--env=staging"] =
    ([("PATCH", "https://flagura.dev/api/v1/flags/new-ui/toggle?env=production", None)], 0%Z) ∧
  observed (Answered 200 "" None) ["toggle"; "--env=staging"; "new-ui"] =
    ([("PATCH", "https://flagura.dev/api/v1/flags/new-ui/toggle?env=staging", None)], 0%Z).
Proof. vm_compute. done. Qed.

(** A rollback asked for after the flag starts the default ramp instead. *)
Example late_rollback_ramps_up :
  ∃ sched, observed (Answered 200 "" None) ["canary"; "new-ui"; "--rollback"] =
    ([("POST", "https://flagura.dev/api/v1/flags/new-ui/canary", Some (PSchedule sched))], 0%Z) ∧
  map cg_TargetPercentage (cs_Stages sched) = map f64_of_Z [5; 25; 50; 100]%Z ∧
  map cg_DurationSec (cs_Stages sched) = [300; 0; 0; 0]%Z.
Proof. eexists. split; [vm_compute; reflexivity|]. vm_compute. done. Qed.

(** The commands of the documentation for restoring a backup and for creating a key
    with a role: the first one never sends anything, the second one asks for
    another role. *)
Example documented_restore_fails :
  observed (Answered 200 "" None) ["backup"; "restore"; "--file"; "b.json"] = ([], 1%Z) ∧
  observed (Answered 200 "" None) ["backup"; "--file"; "b.json"; "restore"] =
    ([("POST", "https://flagura.dev/api/v1/backup/import", Some (PFile "{}"))], 0%Z).
Proof. vm_compute. done. Qed.

Example documented_role_is_lost :
  observed (Answered 200 "" None) ["api-key"; "--json"; "create"; "--name=ci"; "--role=admin"] =
    ([("POST", "https://flagura.dev/api/v1/api-keys", Some (PAPIKey "CLI Service Key" "developer"))], 0%Z).
Proof. vm_compute. done. Qed.

(** The gate in its documented form, with the directory as an argument, never fails;
    with [--json] it never fails either, nor when the server refuses the key. *)
Example gate_fails_open :
  (observed (Answered 200 "[old]" None) ["scan"; "./src"; "--fail-on-stale"]).2 = 0%Z ∧
  (observed (Answered 200 "[old]" None) ["scan"; "--fail-on-stale"]).2 = 1%Z ∧
  (observed (Answered 200 "[old]" None) ["scan"; "--json"; "--fail-on-stale"]).2 = 0%Z ∧
  (observed (Answered 401 "{error}" None) ["scan"; "--fail-on-stale"]).2 = 0%Z.
Proof. vm_compute. done. Qed.

(** [normalizeEndpoint] on the cases of its test. *)
Example normalized_endpoints :
  map normalizeEndpoint [""; "   "; "https://flagura.dev/"; "flagura.dev"; "localhost:3000/"; "127.0.0.1:8080"] =
    ["https://flagura.dev"; "https://flagura.dev"; "https://flagura.dev"; "https://flagura.dev";
     "http://localhost:3000"; "http://127.0.0.1:8080"].
Proof. reflexivity. Qed.

Lemma flags_after_argument_ignored_witness :
  let w := sample_world (Answered 200 "" None) in
  run ("toggle" :: ["--json"] ++ "k" :: ["--env=staging"]) w =
    run ("toggle" :: ["--json"] ++ "k" :: take 1 ["--env=staging"]) w ∧
  ("toggle" ∉ two_arg_commands →
   run ("toggle" :: ["--json"] ++ "k" :: ["--env=staging"]) w = run ("toggle" :: ["--json"] ++ ["k"]) w).
Proof.
  intros w. eapply (flags_after_argument_ignored "toggle" ["--json"]); vm_compute; reflexivity.
Defined.

Lemma success_means_accepted_witness :
  ∃ es, run ["toggle"; "k"] (sample_world (Answered 200 "" None)) = (es, 0%Z) ∧
        accepted (sample_world (Answered 200 "" None)) es.
Proof.
  eexists. split; [vm_compute; reflexivity|].
  apply (success_means_accepted "toggle" ["k"]); vm_compute; reflexivity.
Defined.

Lemma audit_gate_decides_witness :
  let g := mkGlobals "https://flagura.dev" "" "production" "" false in
  (runAudit g "" true (sample_world (Answered 200 "[old]" None)) []).2 = Exited 1.
Proof.
  intros g. rewrite (audit_gate_decides g "" true _ [] 200 "[old]" [stale_flag]); vm_compute; reflexivity.
Defined.
End Examples.
