(* ===== verification/Metrics.v ===== *)
(** * The metrics endpoint ([pkg/telemetry/metrics.go])

    Evaluations are counted by many goroutines at once: one counter per
    combination of labels, found or made under a read-write lock and incremented
    atomically.  The goroutines are threads that take one step at a time, a
    schedule says whose turn it is, and scrapes run among them.  Counters are
    [uint64]. *)

From S2P Require Import Prelude GoFloat GoStrings GoTime Domain.

(** ** Locks and threads *)

(** [sync.RWMutex]: how many readers hold it, or that a writer does.  An operation
    gives [None] while it has to wait. *)
Inductive RWMutex := Readers (n : Z) | Writer.

Definition mu_RLock (mu : RWMutex) : option RWMutex :=
  match mu with Readers n => Some (Readers (n + 1)) | Writer => None end.
Definition mu_RUnlock (mu : RWMutex) : option RWMutex :=
  match mu with Readers n => Some (Readers (n - 1)) | Writer => None end.
Definition mu_Lock (mu : RWMutex) : option RWMutex :=
  match mu with Readers 0 => Some Writer | _ => None end.
Definition mu_Unlock (mu : RWMutex) : option RWMutex :=
  match mu with Writer => Some (Readers 0) | Readers _ => None end.

Section Tally.
Context {A : Type}.
Implicit Types (f g : A → Z) (ts : list A).

(** The sum of a number over a list of threads. *)
Fixpoint tally f ts : Z :=
  match ts with [] => 0%Z | t :: ts => (f t + tally f ts)%Z end.

Lemma tally_insert f ts i t t' :
  ts !! i = Some t → tally f (<[i := t']> ts) = (tally f ts + (f t' - f t))%Z.
Proof.
  revert i. induction ts as [|x ts IH]; intros [|i] Hi; simplify_eq/=; [lia|]. rewrite (IH i); [lia|done].
Qed.

Lemma tally_nonneg f ts : (∀ t, 0 ≤ f t)%Z → (0 ≤ tally f ts)%Z.
Proof. intros Hf. induction ts as [|t ts IH]; simpl; [lia|]. specialize (Hf t). lia. Qed.

Lemma tally_member f ts i t : (∀ t, 0 ≤ f t)%Z → ts !! i = Some t → (f t ≤ tally f ts)%Z.
Proof.
  intros Hf. revert i. induction ts as [|x ts IH]; intros [|i] Hi; simplify_eq/=.
  - pose proof (tally_nonneg f ts Hf). lia.
  - specialize (IH i Hi). specialize (Hf x). lia.
Qed.

Lemma tally_two f ts i j t u :
  (∀ t, 0 ≤ f t)%Z → ts !! i = Some t → ts !! j = Some u → i ≠ j → (f t + f u ≤ tally f ts)%Z.
Proof.
  intros Hf. revert i j. induction ts as [|x ts IH]; intros [|i] [|j] Hi Hj Hij; simplify_eq/=.
  - pose proof (tally_member f ts j u Hf Hj). lia.
  - pose proof (tally_member f ts i t Hf Hi). lia.
  - pose proof (IH i j Hi Hj ltac:(congruence)). specialize (Hf x). lia.
Qed.

Lemma tally_positive f ts :
  (0 < tally f ts)%Z → ∃ i t, ts !! i = Some t ∧ (0 < f t)%Z.
Proof.
  induction ts as [|t ts IH]; simpl; [lia|]. intros Hpos.
  destruct (decide (0 < f t)%Z) as [Hf|Hf]; [by exists 0, t|].
  destruct IH as (i & u & Hi & Hu); [lia|]. by exists (S i), u.
Qed.

Lemma tally_le f g ts : (∀ t, f t ≤ g t)%Z → (tally f ts ≤ tally g ts)%Z.
Proof. intros Hfg. induction ts as [|t ts IH]; cbn; [lia|]. specialize (Hfg t). lia. Qed.

(** The lock is held by the threads that are counted as its readers and writers. *)
Definition lock_held (mu : RWMutex) (readers writers : Z) : Prop :=
  match mu with
  | Readers n => readers = n ∧ writers = 0%Z
  | Writer => readers = 0%Z ∧ writers = 1%Z
  end.

(** Two threads are not writers at once. *)
Lemma one_writer mu readers f ts i j t u :
  (∀ t, 0 ≤ f t)%Z → lock_held mu readers (tally f ts) → ts !! i = Some t → ts !! j = Some u → i ≠ j →
  f t = 1%Z → f u = 0%Z.
Proof.
  intros Hf Hl Hi Hj Hij Ht. pose proof (tally_two f ts i j t u Hf Hi Hj Hij). specialize (Hf u).
  unfold lock_held in Hl. destruct mu; lia.
Qed.

(** Some thread that has not finished can go on: one that holds the lock, or any
    one when nobody does. *)
Lemma lock_progress mu (finished : A → bool) r w ts :
  lock_held mu (tally r ts) (tally w ts) →
  (∀ t, r t = 0%Z ∨ r t = 1%Z) → (∀ t, w t = 0%Z ∨ w t = 1%Z) →
  (∀ t, finished t = true → r t = 0%Z ∧ w t = 0%Z) →
  forallb finished ts = false →
  ∃ i t, ts !! i = Some t ∧ finished t = false ∧
    match mu with Readers 0 => True | Readers _ => r t = 1%Z | Writer => w t = 1%Z end.
Proof.
  intros Hl Hr Hw Hends Hun.
  assert (Hpos : ∀ f, (0 < tally f ts)%Z → (∀ t, f t = 0%Z ∨ f t = 1%Z) →
    (∀ t, finished t = true → f t = 0%Z) → ∃ i t, ts !! i = Some t ∧ finished t = false ∧ f t = 1%Z).
  { intros f Hf H01 Hfin. destruct (tally_positive _ _ Hf) as (i & t & Ht & Hp). exists i, t.
    specialize (H01 t). split; [done|]. split; [|lia].
    destruct (finished t) eqn:E; [|done]. specialize (Hfin t E). lia. }
  unfold lock_held in Hl. destruct mu as [[|n|n]|].
  - destruct (existsb (λ t, negb (finished t)) ts) eqn:E.
    + apply existsb_exists in E as (t & Ht%list_elem_of_In & Hf). apply list_elem_of_lookup_1 in Ht as [i Hi].
      exists i, t. by rewrite negb_true_iff in Hf.
    + rewrite <- not_true_iff_false in Hun. destruct Hun. apply forallb_forall. intros t Ht.
      destruct (finished t) eqn:Et; [done|]. rewrite <- not_true_iff_false in E. destruct E.
      apply existsb_exists. exists t. by rewrite Et.
  - apply Hpos; [lia|done|by intros t Ht; apply Hends].
  - assert (0 ≤ tally r ts)%Z by (apply tally_nonneg; intros t; specialize (Hr t); lia). lia.
  - apply Hpos; [lia|done|by intros t Ht; apply Hends].
Qed.

End Tally.

(** ** The collector *)

Abbreviation loc := nat.

(** The map points to counters, which are cells of a heap. *)
Record MetricsCollector := mkCollector {
  mc_mu : RWMutex;
  mc_evalCounters : gmap string loc;
  mc_heap : list Z;
  mc_durationSum : Z;
  mc_durationCnt : Z;
}.

Definition globalCollector : MetricsCollector := mkCollector (Readers 0) ∅ [] 0 0.

Definition dquote : string := String "034" "".

(** The labels of an evaluation, printed without escaping anything. *)
Definition counter_key (flagKey : string) (env : Environment) (variant : string) (enabled : bool) : string :=
  let label name value := name +:+ "=" +:+ dquote +:+ value +:+ dquote in
  label "flag" flagKey +:+ "," +:+ label "environment" env +:+ "," +:+ label "variant" variant +:+ "," +:+
  label "enabled" (if enabled then "true" else "false").

Definition AddUint64 (x delta : Z) : Z := wrap_u64 (x + delta).

(** ** Threads *)

(** Where a call of [RecordEvaluation] is. *)
Inductive RecordAt :=
| RRLock
| RLookup
| RRUnlock (counter : option loc)
| RLock
| RRecheck
| RInsert
| RUnlock (counter : loc)
| RAdd (counter : loc)
| RAddSum
| RAddCnt
| RDone.

(** Where a scrape is: the counters it has still to load, and what it has loaded. *)
Inductive ScrapeAt :=
| SRLock
| SRange
| SLoad (todo : list (string * loc)) (snapshot : gmap string Z)
| SSum (snapshot : gmap string Z)
| SCnt (snapshot : gmap string Z) (durSum : Z)
| SRUnlock (snapshot : gmap string Z) (durSum durCnt : Z)
| SDone (snapshot : gmap string Z) (durSum durCnt : Z).

Inductive Thread :=
| TRecord (key : string) (latencyNs : Z) (at_ : RecordAt)
| TScrape (at_ : ScrapeAt).

Definition set_mu (c : MetricsCollector) (mu : RWMutex) : MetricsCollector :=
  mkCollector mu (mc_evalCounters c) (mc_heap c) (mc_durationSum c) (mc_durationCnt c).

Definition rlock (c : MetricsCollector) : option MetricsCollector := set_mu c <$> mu_RLock (mc_mu c).
Definition runlock (c : MetricsCollector) : option MetricsCollector := set_mu c <$> mu_RUnlock (mc_mu c).
Definition lock (c : MetricsCollector) : option MetricsCollector := set_mu c <$> mu_Lock (mc_mu c).
Definition unlock (c : MetricsCollector) : option MetricsCollector := set_mu c <$> mu_Unlock (mc_mu c).

(** [*counter], and the counter after it changed. *)
Definition load (c : MetricsCollector) (l : loc) : Z := default 0%Z (mc_heap c !! l).

Definition store (c : MetricsCollector) (l : loc) (v : Z) : MetricsCollector :=
  mkCollector (mc_mu c) (mc_evalCounters c) (<[l := v]> (mc_heap c)) (mc_durationSum c) (mc_durationCnt c).

(** A new counter under a key. *)
Definition new_counter (c : MetricsCollector) (key : string) : MetricsCollector :=
  mkCollector (mc_mu c) (<[key := length (mc_heap c)]> (mc_evalCounters c)) (mc_heap c ++ [0%Z])
    (mc_durationSum c) (mc_durationCnt c).

Definition add_sum (c : MetricsCollector) (d : Z) : MetricsCollector :=
  mkCollector (mc_mu c) (mc_evalCounters c) (mc_heap c) (AddUint64 (mc_durationSum c) d) (mc_durationCnt c).

Definition add_cnt (c : MetricsCollector) : MetricsCollector :=
  mkCollector (mc_mu c) (mc_evalCounters c) (mc_heap c) (mc_durationSum c) (AddUint64 (mc_durationCnt c) 1).

(** One step of [RecordEvaluation]; [None] while the thread has to wait. *)
Definition RecordEvaluation (key : string) (latencyNs : Z) (c : MetricsCollector) (r : RecordAt) :
    option (MetricsCollector * RecordAt) :=
  match r with
  | RRLock => c' ← rlock c; Some (c', RLookup)
  | RLookup => Some (c, RRUnlock (mc_evalCounters c !! key))
  | RRUnlock counter =>
      c' ← runlock c;
      Some (c', match counter with Some l => RAdd l | None => RLock end)
  | RLock => c' ← lock c; Some (c', RRecheck)
  | RRecheck => Some (c, match mc_evalCounters c !! key with Some l => RUnlock l | None => RInsert end)
  | RInsert => Some (new_counter c key, RUnlock (length (mc_heap c)))
  | RUnlock l => c' ← unlock c; Some (c', RAdd l)
  | RAdd l =>
      Some (store c l (AddUint64 (load c l) 1), if (0 <? latencyNs)%Z then RAddSum else RDone)
  | RAddSum => Some (add_sum c latencyNs, RAddCnt)
  | RAddCnt => Some (add_cnt c, RDone)
  | RDone => None
  end.

(** One step of the part of [PrometheusHandler] that reads the collector. *)
Definition scrape (c : MetricsCollector) (s : ScrapeAt) : option (MetricsCollector * ScrapeAt) :=
  match s with
  | SRLock => c' ← rlock c; Some (c', SRange)
  | SRange => Some (c, SLoad (map_to_list (mc_evalCounters c)) ∅)
  | SLoad [] snapshot => Some (c, SSum snapshot)
  | SLoad ((k, l) :: todo) snapshot => Some (c, SLoad todo (<[k := load c l]> snapshot))
  | SSum snapshot => Some (c, SCnt snapshot (mc_durationSum c))
  | SCnt snapshot durSum => Some (c, SRUnlock snapshot durSum (mc_durationCnt c))
  | SRUnlock snapshot durSum durCnt => c' ← runlock c; Some (c', SDone snapshot durSum durCnt)
  | SDone _ _ _ => None
  end.

Definition thread_step (c : MetricsCollector) (t : Thread) : option (MetricsCollector * Thread) :=
  match t with
  | TRecord key lat r => '(c', r') ← RecordEvaluation key lat c r; Some (c', TRecord key lat r')
  | TScrape s => '(c', s') ← scrape c s; Some (c', TScrape s')
  end.

(** The process: its collector and its threads. *)
Abbreviation Process := (MetricsCollector * list Thread)%type.

Definition step (p : Process) (i : nat) : option Process :=
  t ← p.2 !! i;
  '(c', t') ← thread_step p.1 t;
  Some (c', <[i := t']> p.2).

(** A schedule; a turn of a thread that cannot move is lost. *)
Definition turns (p : Process) (schedule : list nat) : Process :=
  foldl (λ p i, default p (step p i)) p schedule.

Definition finished (t : Thread) : bool :=
  match t with TRecord _ _ RDone | TScrape (SDone _ _ _) => true | _ => false end.

(** A call of [RecordEvaluation] and a scrape that have not started. *)
Definition recording (key : string) (latencyNs : Z) : Thread := TRecord key latencyNs RRLock.
Definition scraping : Thread := TScrape SRLock.

Definition starting (t : Thread) : bool :=
  match t with TRecord _ _ RRLock | TScrape SRLock => true | _ => false end.

(** ** The page *)

Definition line (s : string) : string := s +:+ String "010" "".

Definition killSwitchCount (flags : list FeatureFlag) : nat :=
  list_sum (map (λ f, length (filter (λ ec, negb (ec_Enabled ec.2)) (map_to_list (ff_Environments f)))) flags).

Definition flag_gauges (flags : list FeatureFlag) : list string :=
  ["# HELP flagura_flags_total Total number of registered feature flags";
   "# TYPE flagura_flags_total gauge";
   "flagura_flags_total " +:+ Itoa (Z.of_nat (length flags)); "";
   "# HELP flagura_kill_switches_active Total number of engaged kill-switches across all environments";
   "# TYPE flagura_kill_switches_active gauge";
   "flagura_kill_switches_active " +:+ Itoa (Z.of_nat (killSwitchCount flags)); ""].

Definition counter_line (kc : string * Z) : string :=
  "flagura_evaluations_total{" +:+ kc.1 +:+ "} " +:+ Itoa kc.2.

(** [PrometheusHandler], on the flags the store lists ([None]: an error) and what
    the scrape read; the runtime visits the snapshot in some order. *)
Definition PrometheusHandler (flags : option (list FeatureFlag)) (snapshotCounters : gmap string Z)
    (order : list (string * Z)) (durSum durCnt : Z) : string :=
  String.concat "" (map line
    (["# HELP flagura_up Status of Flagura server instance (1 = up)";
      "# TYPE flagura_up gauge";
      "flagura_up 1"; "";
      "# HELP flagura_build_info Version and metadata";
      "# TYPE flagura_build_info gauge";
      "flagura_build_info{version=" +:+ dquote +:+ "1.4.0" +:+ dquote +:+ ",engine=" +:+ dquote +:+
        "deterministic-fastpath" +:+ dquote +:+ "} 1"; ""] ++
     match flags with Some flags => flag_gauges flags | None => [] end ++
     ["# HELP flagura_evaluations_total Total number of flag evaluations performed";
      "# TYPE flagura_evaluations_total counter"] ++
     (if bool_decide (snapshotCounters = ∅)
      then ["flagura_evaluations_total{" +:+ counter_key "none" "production" "none" false +:+ "} 0"]
      else map counter_line order) ++
     ["";
      "# HELP flagura_evaluation_duration_seconds Latency summary of flag evaluations in seconds";
      "# TYPE flagura_evaluation_duration_seconds summary";
      "flagura_evaluation_duration_seconds_sum " +:+
        FormatFixed 6 (f64_div (f64_of_Z durSum) (f64_of_Z 1000000000));
      "flagura_evaluation_duration_seconds_count " +:+ Itoa durCnt])).

(** ** Counting threads *)

Definition is_reader (t : Thread) : Z :=
  match t with
  | TRecord _ _ (RLookup | RRUnlock _) => 1
  | TScrape (SRange | SLoad _ _ | SSum _ | SCnt _ _ | SRUnlock _ _ _) => 1
  | _ => 0
  end.

Definition is_writer (t : Thread) : Z :=
  match t with TRecord _ _ (RRecheck | RInsert | RUnlock _) => 1 | _ => 0 end.

(** The evaluation has been counted under [k], its latency has been added, and has
    been counted. *)
Definition counted (k : string) (t : Thread) : Z :=
  match t with
  | TRecord key _ (RAddSum | RAddCnt | RDone) => if key =s? k then 1 else 0
  | _ => 0
  end.

Definition summed (t : Thread) : Z :=
  match t with TRecord _ lat (RAddCnt | RDone) => Z.max 0 lat | _ => 0 end.

Definition timed (t : Thread) : Z :=
  match t with TRecord _ lat RDone => if (0 <? lat)%Z then 1 else 0 | _ => 0 end.

Lemma is_reader_range t : (0 ≤ is_reader t)%Z.
Proof. by destruct t as [? ? []|[]]. Qed.
Lemma is_writer_range t : (0 ≤ is_writer t)%Z.
Proof. by destruct t as [? ? []|[]]. Qed.
Lemma counted_range k t : (0 ≤ counted k t)%Z.
Proof. unfold counted. destruct t as [? ? []|[]]; try case_if; lia. Qed.

(** ** The invariant *)

(** The lock is held by the threads that are between its operations. *)
Definition lock_inv (p : Process) : Prop :=
  lock_held (mc_mu p.1) (tally is_reader p.2) (tally is_writer p.2).

(** What a thread holds: the counter of its key, or the lock and the knowledge that
    there is none, or a latency to add. *)
Definition holds (c : MetricsCollector) (t : Thread) : Prop :=
  match t with
  | TRecord key _ (RRUnlock (Some l) | RUnlock l | RAdd l) => mc_evalCounters c !! key = Some l
  | TRecord key _ RInsert => mc_evalCounters c !! key = None
  | TRecord _ lat (RAddSum | RAddCnt) => (0 < lat)%Z
  | TScrape (SLoad todo _) => Forall (λ kl, mc_evalCounters c !! kl.1 = Some kl.2) todo
  | _ => True
  end.

Record map_inv (p : Process) : Prop := {
  mi_bound : ∀ k l, mc_evalCounters p.1 !! k = Some l → l < length (mc_heap p.1);
  mi_inj : ∀ k k' l, mc_evalCounters p.1 !! k = Some l → mc_evalCounters p.1 !! k' = Some l → k = k';
  mi_holds : ∀ i t, p.2 !! i = Some t → holds p.1 t;
}.

(** What the counter of a key reads; no counter is a counter at zero. *)
Definition reading (c : MetricsCollector) (k : string) : Z :=
  match mc_evalCounters c !! k with Some l => load c l | None => 0%Z end.

Definition count_inv (p : Process) : Prop :=
  ∀ k, reading p.1 k = wrap_u64 (tally (counted k) p.2).

Definition duration_inv (p : Process) : Prop :=
  mc_durationSum p.1 = wrap_u64 (tally summed p.2) ∧ mc_durationCnt p.1 = wrap_u64 (tally timed p.2).

(** What a scrape has loaded was true when it loaded it. *)
Definition snapshot_of (t : Thread) : gmap string Z :=
  match t with
  | TScrape (SLoad _ s | SSum s | SCnt s _ | SRUnlock s _ _ | SDone s _ _) => s
  | _ => ∅
  end.

Definition snapshot_inv (p : Process) : Prop :=
  ∀ i t k v, p.2 !! i = Some t → snapshot_of t !! k = Some v →
  ∃ n, v = wrap_u64 n ∧ (0 ≤ n ≤ tally (counted k) p.2)%Z.

Record metrics_inv (p : Process) : Prop := {
  inv_lock : lock_inv p;
  inv_map : map_inv p;
  inv_count : count_inv p;
  inv_duration : duration_inv p;
  inv_snapshot : snapshot_inv p;
}.

(** ** A step keeps it *)

(** The thread that moves, and what its move is. *)
Lemma step_inv p i p' :
  step p i = Some p' →
  ∃ t c' t', p.2 !! i = Some t ∧ thread_step p.1 t = Some (c', t') ∧ p' = (c', <[i := t']> p.2).
Proof.
  unfold step. intros Hs. destruct (p.2 !! i) as [t|] eqn:Ht; [|discriminate]. cbn in Hs.
  destruct (thread_step p.1 t) as [[c' t']|] eqn:E; simplify_eq/=. eauto 10.
Qed.

(** One goal per move. *)
Ltac moves H :=
  match type of H with
  | thread_step _ ?t = Some _ =>
      destruct t as [key lat [| |counter| | | |l|l| | |]|[| |[|[k0 l0] todo] snap| | | |]];
      unfold thread_step, RecordEvaluation, scrape, rlock, runlock, lock, unlock,
        mu_RLock, mu_RUnlock, mu_Lock, mu_Unlock in H; cbn in H;
      repeat (match type of H with context [match ?x with _ => _ end] => destruct x eqn:? end; cbn in H);
      simplify_eq/=
  end.

Lemma step_lock p i p' : step p i = Some p' → lock_inv p → lock_inv p'.
Proof.
  intros (t & c' & t' & Ht & Hm & ->)%step_inv. unfold lock_inv, lock_held. cbn.
  rewrite !(tally_insert _ _ _ _ _ Ht).
  pose proof (tally_member is_reader p.2 i t is_reader_range Ht) as Hr.
  pose proof (tally_member is_writer p.2 i t is_writer_range Ht) as Hw.
  moves Hm; repeat case_match; simplify_eq/=; lia.
Qed.

(** Only the insertion changes the map. *)
Lemma step_same_map c t c' t' :
  thread_step c t = Some (c', t') →
  (mc_evalCounters c' = mc_evalCounters c ∧ length (mc_heap c') = length (mc_heap c)) ∨
  ∃ key lat, t = TRecord key lat RInsert ∧ c' = new_counter c key ∧
             t' = TRecord key lat (RUnlock (length (mc_heap c))).
Proof.
  intros Hm. moves Hm; eauto 10; left; (split; [reflexivity|]); cbn; by rewrite ?length_insert.
Qed.

Lemma holds_same c c' t : mc_evalCounters c' = mc_evalCounters c → holds c t → holds c' t.
Proof. intros Hc. unfold holds. by rewrite Hc. Qed.

(** What the moving thread holds afterwards. *)
Lemma step_holds c t c' t' :
  thread_step c t = Some (c', t') → holds c t →
  (∀ key l, mc_evalCounters c !! key = Some l → (l < length (mc_heap c))%nat) → holds c' t'.
Proof.
  intros Hm Hh Hb. moves Hm; try (repeat case_match; done); try lia.
  - by rewrite lookup_insert_eq.
  - apply Forall_forall. intros [k l] Hkl. by apply elem_of_map_to_list in Hkl.
  - by apply Forall_cons in Hh as [_ Hh].
Qed.

Lemma holds_new c t key :
  mc_evalCounters c !! key = None → holds c t → is_writer t = 0%Z → holds (new_counter c key) t.
Proof.
  intros Hkey Hh Hw.
  assert (Hkeep : ∀ k l, mc_evalCounters c !! k = Some l → mc_evalCounters (new_counter c key) !! k = Some l).
  { intros k l Hk. cbn. rewrite lookup_insert_ne; [done|]. by intros ->; rewrite Hkey in Hk. }
  destruct t as [k lat [| |[l|]| | | |l|l| | |]|[| |todo snap| | | |]]; try done; try by apply Hkeep.
  eapply Forall_impl; [exact Hh|]. intros [k l]. apply Hkeep.
Qed.

Lemma step_map p i p' : step p i = Some p' → lock_inv p → map_inv p → map_inv p'.
Proof.
  intros (t & c' & t' & Ht & Hm & ->)%step_inv Hlock [Hb Hinj Hh].
  pose proof (step_holds _ _ _ _ Hm (Hh i t Ht) Hb) as Hmine.
  assert (Hother : (∀ j u, j ≠ i → p.2 !! j = Some u → holds c' u) →
    ∀ j u, <[i := t']> p.2 !! j = Some u → holds c' u).
  { intros Ho j u Hj. destruct (decide (j = i)) as [->|Hne].
    - rewrite list_lookup_insert_eq in Hj by (by eapply lookup_lt_Some). by simplify_eq.
    - rewrite list_lookup_insert_ne in Hj by done. by eapply Ho. }
  destruct (step_same_map _ _ _ _ Hm) as [[Hsame Hlen]|(key & lat & -> & -> & ->)].
  - split; cbn; [by rewrite Hsame, Hlen|by rewrite Hsame|].
    apply Hother. intros j u _ Hj. eapply holds_same; [done|]. by eapply Hh.
  - pose proof (Hh i _ Ht) as Hkey. cbn in Hkey. split; cbn.
    + intros k l. rewrite length_app. cbn. destruct (decide (k = key)) as [->|Hne].
      * rewrite lookup_insert_eq. intros [= <-]. lia.
      * rewrite lookup_insert_ne by done. intros Hk. specialize (Hb k l Hk). lia.
    + intros k k' l. destruct (decide (k = key)) as [->|Hne], (decide (k' = key)) as [->|Hne'];
        rewrite ?lookup_insert_eq, ?lookup_insert_ne by done; try done; try apply Hinj.
      * intros [= <-] Hk'. specialize (Hb _ _ Hk'). lia.
      * intros Hk [= <-]. specialize (Hb _ _ Hk). lia.
    + apply Hother. intros j u Hne Hj. apply holds_new; [done|by eapply Hh|].
      by apply (one_writer _ _ is_writer p.2 i j _ u is_writer_range Hlock Ht Hj).
Qed.

(** ** Counters *)

Lemma wrap_u64_add a b : wrap_u64 (wrap_u64 a + b) = wrap_u64 (a + b).
Proof. unfold wrap_u64. by rewrite Zplus_mod_idemp_l. Qed.

Lemma reading_same c c' k :
  mc_evalCounters c' = mc_evalCounters c → mc_heap c' = mc_heap c → reading c' k = reading c k.
Proof. intros Hc Hh. unfold reading, load. by rewrite Hc, Hh. Qed.

(** Storing in the counter of a key. *)
Lemma reading_store p key l v k :
  map_inv p → mc_evalCounters p.1 !! key = Some l →
  reading (store p.1 l v) k = if key =s? k then v else reading p.1 k.
Proof.
  intros [Hb Hinj _] Hl. unfold reading, load, store. cbn. destruct (key =s? k) eqn:Hk.
  - apply str_eqb_eq in Hk as <-. rewrite Hl, list_lookup_insert_eq; [done|by eapply Hb].
  - destruct (mc_evalCounters p.1 !! k) as [l'|] eqn:Hl'; [|done].
    rewrite list_lookup_insert_ne; [done|]. intros ->. apply str_eqb_neq in Hk. destruct Hk. by eapply Hinj.
Qed.

(** What a step does to the count of a key and to its counter. *)
Lemma step_count p i p' : step p i = Some p' → map_inv p → count_inv p → count_inv p'.
Proof.
  intros (t & c' & t' & Ht & Hm & ->)%step_inv Hmap Hc k.
  pose proof (mi_holds _ Hmap i t Ht) as Hmine. pose proof (Hc k) as Hck.
  cbn. rewrite (tally_insert _ _ _ _ _ Ht).
  moves Hm; rewrite ?Z.sub_diag, ?Z.add_0_r; try exact Hck.
  { unfold reading, load in *. cbn. destruct (decide (k = key)) as [->|Hne].
    + rewrite lookup_insert_eq, lookup_app_r, Nat.sub_diag by lia. by rewrite Hmine in Hck.
    + rewrite lookup_insert_ne by done. destruct (mc_evalCounters p.1 !! k) as [l|] eqn:Hk; [|done].
      rewrite lookup_app_l; [done|by eapply mi_bound]. }
  all: rewrite (reading_store _ _ _ _ _ Hmap Hmine); specialize (Hc key); unfold reading in Hc;
    rewrite Hmine in Hc; destruct (key =s? k) eqn:Hk; [|rewrite Hck; f_equal; lia];
    apply str_eqb_eq in Hk as <-; unfold AddUint64; rewrite Hc, wrap_u64_add; f_equal; lia.
Qed.

Lemma step_duration p i p' : step p i = Some p' → map_inv p → duration_inv p → duration_inv p'.
Proof.
  intros (t & c' & t' & Ht & Hm & ->)%step_inv Hmap [Hs Hc]. unfold duration_inv. cbn.
  pose proof (mi_holds _ Hmap i t Ht) as Hmine.
  rewrite !(tally_insert _ _ _ _ _ Ht).
  moves Hm; unfold AddUint64; rewrite ?Hs, ?Hc, ?wrap_u64_add; cbn in Hmine; (split; f_equal);
    repeat case_match; lia.
Qed.

(** Counts only grow. *)
Lemma step_counted c t c' t' k : thread_step c t = Some (c', t') → (counted k t ≤ counted k t')%Z.
Proof. intros Hm. moves Hm; repeat case_match; lia. Qed.

Lemma step_snapshot p i p' :
  step p i = Some p' → map_inv p → count_inv p → snapshot_inv p → snapshot_inv p'.
Proof.
  intros (t & c' & t' & Ht & Hm & ->)%step_inv Hmap Hc Hs j u k v Hj Hv. cbn in *.
  pose proof (step_counted _ _ _ _ k Hm) as Hgrow.
  rewrite (tally_insert _ _ _ _ _ Ht).
  assert (Hold : ∀ w, ∀ n u', p.2 !! n = Some u' → snapshot_of u' !! k = Some w → ∃ n, w = wrap_u64 n ∧
    (0 ≤ n ≤ tally (counted k) p.2 + (counted k t' - counted k t))%Z).
  { intros w n u' Hn Hw. destruct (Hs n u' k w Hn Hw) as (m & -> & Hm'). exists m. split; [done|]. lia. }
  destruct (decide (j = i)) as [->|Hne].
  2: { rewrite list_lookup_insert_ne in Hj by done. by eapply Hold. }
  rewrite list_lookup_insert_eq in Hj by (by eapply lookup_lt_Some). injection Hj as <-.
  pose proof (mi_holds _ Hmap i t Ht) as Hmine.
  moves Hm; try (by eapply Hold; [exact Ht|]); try done.
  destruct (decide (k = k0)) as [->|Hne].
  - rewrite lookup_insert_eq in Hv. injection Hv as <-. apply Forall_cons in Hmine as [Hl _].
    exists (tally (counted k0) p.2). pose proof (tally_nonneg _ p.2 (counted_range k0)). split; [|lia].
    specialize (Hc k0). unfold reading in Hc. cbn in Hl. by rewrite Hl in Hc.
  - rewrite lookup_insert_ne in Hv by done. by eapply Hold.
Qed.

Lemma step_metrics p i p' : step p i = Some p' → metrics_inv p → metrics_inv p'.
Proof.
  intros Hs [Hl Hm Hc Hd Hsn].
  split; eauto using step_lock, step_map, step_count, step_duration, step_snapshot.
Qed.

Lemma turns_metrics p schedule : metrics_inv p → metrics_inv (turns p schedule).
Proof.
  revert p. induction schedule as [|i schedule IH]; intros p Hp; [done|]. apply IH.
  destruct (step p i) as [p'|] eqn:Hs; [|done]. by eapply step_metrics.
Qed.

(** Threads that have not started, on the collector of a process that starts. *)
Lemma start_metrics ts : forallb starting ts = true → metrics_inv (globalCollector, ts).
Proof.
  intros Hts.
  assert (Hzero : ∀ f, (∀ t, starting t = true → f t = 0%Z) → tally f ts = 0%Z).
  { intros f Hf. induction ts as [|t ts IH]; [done|]. cbn in *. apply andb_true_iff in Hts as [Ht Hts].
    rewrite (Hf t Ht), IH; done. }
  assert (Hstart : ∀ i t, ts !! i = Some t → starting t = true).
  { intros i t Hi. rewrite forallb_forall in Hts. apply Hts, list_elem_of_In. by eapply list_elem_of_lookup_2. }
  split.
  - by split; apply Hzero; intros [? ? []|[]].
  - split; cbn; try done. intros i t Hi%Hstart. by destruct t as [? ? []|[]].
  - intros k. cbn. by rewrite (Hzero (counted k)) by by intros [? ? []|[]].
  - by split; cbn; rewrite Hzero by by intros [? ? []|[]].
  - intros i t k v Hi%Hstart. by destruct t as [? ? []|[]].
Qed.

(** ** No thread waits for ever *)

(** A thread can always move, except to take the lock. *)
Lemma thread_moves c t :
  finished t = false →
  (match mc_mu c with Readers 0 => True | Readers _ => is_reader t = 1%Z | Writer => is_writer t = 1%Z end) →
  (is_reader t = 1%Z → mc_mu c ≠ Writer) → (is_writer t = 1%Z → mc_mu c = Writer) →
  is_Some (thread_step c t).
Proof.
  intros Hf Hmu Hr Hw.
  destruct t as [key lat [| |counter| | | |l|l| | |]|[| |[|[k0 l0] todo] snap| | | |]];
    try done; unfold thread_step, RecordEvaluation, scrape, rlock, runlock, lock, unlock,
      mu_RLock, mu_RUnlock, mu_Lock, mu_Unlock; cbn in *;
    destruct (mc_mu c) as [[]|]; try done; try (by specialize (Hw eq_refl)); try (by destruct (Hr eq_refl)); eauto.
Qed.

Lemma inv_progress p :
  metrics_inv p → forallb finished p.2 = false → ∃ i, is_Some (step p i).
Proof.
  intros [Hl _ _ _ _] Hun.
  assert (Hmove : ∀ i t, p.2 !! i = Some t → is_Some (thread_step p.1 t) → is_Some (step p i)).
  { intros i t Ht [[c' t'] Hm]. unfold step. rewrite Ht. cbn. rewrite Hm. by eexists. }
  destruct (lock_progress _ finished is_reader is_writer p.2 Hl) as (i & t & Ht & Hf & Hm);
    [by intros [? ? []|[]]; auto..|done|]. exists i.
  apply (Hmove i t Ht), thread_moves; [done|done|..].
  - intros Hr Hmu. unfold lock_inv, lock_held in Hl. rewrite Hmu in Hl.
    pose proof (tally_member is_reader p.2 i t is_reader_range Ht). lia.
  - intros Hw. unfold lock_inv, lock_held in Hl. destruct (mc_mu p.1); [|done].
    pose proof (tally_member is_writer p.2 i t is_writer_range Ht). lia.
Qed.

(** What is left to do: operations, and then counters to load. *)
Definition rank (t : Thread) : nat :=
  match t with
  | TRecord _ _ r =>
      match r with
      | RRLock => 10 | RLookup => 9 | RRUnlock _ => 8 | RLock => 7 | RRecheck => 6 | RInsert => 5
      | RUnlock _ => 4 | RAdd _ => 3 | RAddSum => 2 | RAddCnt => 1 | RDone => 0
      end
  | TScrape s =>
      match s with
      | SRLock => 6 | SRange => 5 | SLoad _ _ => 4 | SSum _ => 3 | SCnt _ _ => 2 | SRUnlock _ _ _ => 1
      | SDone _ _ _ => 0
      end
  end.

Definition to_load (t : Thread) : nat :=
  match t with TScrape (SLoad todo _) => length todo | _ => 0 end.

Definition sum_nat {A} (f : A → nat) (ts : list A) : nat := list_sum (map f ts).

Lemma sum_nat_insert {A} (f : A → nat) ts i t t' :
  ts !! i = Some t → sum_nat f (<[i := t']> ts) + f t = sum_nat f ts + f t'.
Proof.
  unfold sum_nat. revert i. induction ts as [|x ts IH]; intros [|i] Hi; simplify_eq/=; [lia|].
  specialize (IH i Hi). lia.
Qed.

Lemma step_ranks c t c' t' :
  thread_step c t = Some (c', t') → rank t' < rank t ∨ (rank t' = rank t ∧ to_load t' < to_load t).
Proof. intros Hm. moves Hm; repeat case_match; simpl; lia. Qed.

Definition later (p' p : Process) : Prop := ∃ i, step p i = Some p'.

Lemma later_wf : well_founded later.
Proof.
  intros p. remember (sum_nat rank p.2) as n eqn:Hn. revert p Hn.
  induction (lt_wf n) as [n _ IHn]. intros p ->.
  remember (sum_nat to_load p.2) as m eqn:Hm. revert p IHn Hm.
  induction (lt_wf m) as [m _ IHm]. intros p IHn ->. constructor.
  intros p' [i (t & c' & t' & Ht & Hs & ->)%step_inv].
  pose proof (sum_nat_insert rank _ _ _ t' Ht). pose proof (sum_nat_insert to_load _ _ _ t' Ht).
  destruct (step_ranks _ _ _ _ Hs) as [Hlt|[Heq Hlt]].
  - eapply IHn; [|reflexivity]. cbn [snd]. lia.
  - eapply IHm; [|intros y Hy; apply IHn|reflexivity]; cbn [snd] in *; lia.
Qed.

(** ** What the metrics say *)

(** The thread is a call of [RecordEvaluation] for [k]; the latency it reports. *)
Definition evaluates (k : string) (t : Thread) : Z :=
  match t with TRecord key _ _ => if key =s? k then 1 else 0 | TScrape _ => 0 end.
Definition latency (t : Thread) : Z := match t with TRecord _ lat _ => Z.max 0 lat | TScrape _ => 0 end.
Definition has_latency (t : Thread) : Z :=
  match t with TRecord _ lat _ => if (0 <? lat)%Z then 1 else 0 | TScrape _ => 0 end.

Lemma turns_tally f p schedule :
  (∀ c t c' t', thread_step c t = Some (c', t') → f t' = f t) →
  tally f (turns p schedule).2 = tally f p.2.
Proof.
  intros Hf. revert p. induction schedule as [|i schedule IH]; intros p; [done|].
  cbn [turns foldl]. fold (turns (default p (step p i)) schedule). rewrite IH.
  destruct (step p i) as [p'|] eqn:Hs; [|done].
  apply step_inv in Hs as (t & c' & t' & Ht & Hm & ->). cbn.
  rewrite (tally_insert _ _ _ _ _ Ht), (Hf _ _ _ _ Hm). lia.
Qed.

Lemma turns_evaluates k p schedule : tally (evaluates k) (turns p schedule).2 = tally (evaluates k) p.2.
Proof. apply turns_tally. intros c t c' t' Hm. by moves Hm. Qed.
Lemma turns_latency p schedule : tally latency (turns p schedule).2 = tally latency p.2.
Proof. apply turns_tally. intros c t c' t' Hm. by moves Hm. Qed.
Lemma turns_has_latency p schedule : tally has_latency (turns p schedule).2 = tally has_latency p.2.
Proof. apply turns_tally. intros c t c' t' Hm. by moves Hm. Qed.

Lemma tally_finished f g ts :
  (∀ t, finished t = true → f t = g t) → forallb finished ts = true → tally f ts = tally g ts.
Proof.
  intros Hfg. induction ts as [|t ts IH]; [done|]. cbn. intros [Ht Hts]%andb_true_iff.
  by rewrite (Hfg t Ht), (IH Hts).
Qed.

(** C12: However the calls of [RecordEvaluation] and the scrapes interleave, once they
    have all returned every evaluation is counted exactly once, under its labels,
    and every positive latency is in the sum and in the count; in a scrape no
    counter is above the number of evaluations with its labels. *)
Theorem evaluations_are_counted ts schedule :
  let p := turns (globalCollector, ts) schedule in
  forallb starting ts = true →
  (forallb finished p.2 = true →
   (∀ k, reading p.1 k = wrap_u64 (tally (evaluates k) ts)) ∧
   mc_durationSum p.1 = wrap_u64 (tally latency ts) ∧
   mc_durationCnt p.1 = wrap_u64 (tally has_latency ts)) ∧
  (∀ i t k v, p.2 !! i = Some t → snapshot_of t !! k = Some v →
   ∃ n, v = wrap_u64 n ∧ (0 ≤ n ≤ tally (evaluates k) ts)%Z).
Proof.
  intros p Hts. pose proof (turns_metrics _ schedule (start_metrics ts Hts)) as Hp. fold p in Hp.
  assert (Hev : ∀ k, tally (evaluates k) p.2 = tally (evaluates k) ts) by (intros k; apply turns_evaluates).
  split.
  - intros Hfin. destruct Hp as [_ _ Hc [Hs Hn] _]. split; [|split].
    + intros k. rewrite (Hc k), <- (Hev k). f_equal.
      apply tally_finished; [by intros [? ? []|[]]|done].
    + rewrite Hs. f_equal. trans (tally latency p.2); [|apply turns_latency].
      apply tally_finished; [by intros [? ? []|[]]|done].
    + rewrite Hn. f_equal. trans (tally has_latency p.2); [|apply turns_has_latency].
      apply tally_finished; [by intros [? ? []|[]]|done].
  - intros i t k v Hi Hv. destruct (inv_snapshot _ Hp i t k v Hi Hv) as (n & -> & Hle).
    exists n. split; [done|]. rewrite <- (Hev k).
    pose proof (tally_le (counted k) (evaluates k) p.2 ltac:(intros [? ? []|[]]; cbn; repeat case_match; lia)). lia.
Qed.

(** No call of [RecordEvaluation] and no scrape waits for ever: as long as one has
    not returned one of them can move, whatever has happened before, and there is
    no endless run. *)
Theorem recording_never_blocks ts schedule :
  let p := turns (globalCollector, ts) schedule in
  forallb starting ts = true →
  (forallb finished p.2 = true ∨ ∃ i, is_Some (step p i)) ∧
  Acc later p ∧
  ∃ rest, forallb finished (turns p rest).2 = true.
Proof.
  intros p Hts. pose proof (turns_metrics _ schedule (start_metrics ts Hts)) as Hp. fold p in Hp.
  split; [|split; [apply later_wf|]].
  - destruct (forallb finished p.2) eqn:E; [by left|right; by apply inv_progress].
  - clearbody p. induction (later_wf p) as [p _ IH].
    destruct (forallb finished p.2) eqn:E; [by exists []|].
    destruct (inv_progress p Hp E) as [i [p' Hs]].
    destruct (IH p' ltac:(by exists i) ltac:(by eapply step_metrics)) as [rest Hrest].
    exists (i :: rest). cbn [turns foldl]. by rewrite Hs.
Qed.

Lemma evaluations_are_counted_witness :
  let ts := [recording "k" 5; recording "k" 7; scraping] in
  let p := turns (globalCollector, ts) [0;1;0;1;0;1;0;0;0;0;0;0;0;1;1;1;2;2;1;2;2;2;2;2;1;1;1] in
  forallb finished p.2 = true ∧ reading p.1 "k" = 2%Z ∧ mc_durationSum p.1 = 12%Z ∧ mc_durationCnt p.1 = 2%Z.
Proof.
  intros ts p. assert (Hfin : forallb finished p.2 = true) by (vm_compute; reflexivity).
  destruct (evaluations_are_counted ts [0;1;0;1;0;1;0;0;0;0;0;0;0;1;1;1;2;2;1;2;2;2;2;2;1;1;1] eq_refl)
    as [Hall _]. destruct (Hall Hfin) as (Hk & Hs & Hc).
  split; [exact Hfin|]. split; [|split]; [exact (Hk "k")|exact Hs|exact Hc].
Defined.

Lemma recording_never_blocks_witness :
  let ts := [recording "k" 5; scraping] in
  ∃ rest, forallb finished (turns (turns (globalCollector, ts) [0; 0]) rest).2 = true.
Proof. intros ts. apply (recording_never_blocks ts [0; 0] eq_refl). Defined.

(** The labels are not escaped: the environment of an evaluation, which the caller
    chooses, can end its label and the line, and put a line of its own on the page. *)
Example forged_metric :
  let env := "x" +:+ dquote +:+ "} 1" +:+ String "010" ("flagura_up 0" +:+ String "010" "#") in
  ∃ before after, line (counter_line (counter_key "f" env "on" true, 1%Z)) = before +:+ line "flagura_up 0" +:+ after ∧
    before = line ("flagura_evaluations_total{flag=" +:+ dquote +:+ "f" +:+ dquote +:+ ",environment=" +:+
                   dquote +:+ "x" +:+ dquote +:+ "} 1").
Proof.
  eexists _, ("#" +:+ dquote +:+ ",variant=" +:+ dquote +:+ "on" +:+ dquote +:+ ",enabled=" +:+ dquote +:+
              "true" +:+ dquote +:+ "} 1" +:+ String "010" ""). split; [|reflexivity]. vm_compute. reflexivity.
Qed.

(** The page of a server that has done nothing yet. *)
Example first_page :
  Contains (PrometheusHandler (Some []) ∅ [] 0 0)
    (line ("flagura_evaluations_total{flag=" +:+ dquote +:+ "none" +:+ dquote +:+ ",environment=" +:+ dquote +:+
           "production" +:+ dquote +:+ ",variant=" +:+ dquote +:+ "none" +:+ dquote +:+ ",enabled=" +:+ dquote +:+
           "false" +:+ dquote +:+ "} 0")) = true ∧
  Contains (PrometheusHandler (Some []) ∅ [] 0 0) (line "flagura_evaluation_duration_seconds_sum 0.000000") = true.
Proof. split; vm_compute; reflexivity. Qed.
