(* ===== verification/Startup.v ===== *)
(** * Starting and stopping ([cmd/server/main.go], [api/index.go])

    The two ways the program is run.  The server process loads its configuration,
    picks a store, listens and waits for a signal.  The serverless entry point
    makes its server on the first request that needs one; requests come at the
    same time, so they are threads on a shared variable under a read-write lock. *)

From S2P Require Import Prelude GoFloat GoStrings GoTime Sha256 Errors Domain Config Metrics.

(** ** The store that is used *)

Inductive Backend := UseSQLite | UsePostgres | UseMemory.

Section Boot.
Context `{GoRuntime}.
(** What [store.NewSQLiteStore] and [store.NewPostgresStore] say of a URL, and
    [api.NewServer] of a store; [None] is the nil error. *)
Context (open_sqlite open_postgres : string → option GoError) (new_server : Backend → option GoError).
(** [os.Getenv]. *)
Context (env : string → string).

Definition isSQLite (dbURL : string) : bool :=
  let u := ToLower (TrimSpace dbURL) in
  HasPrefix u "sqlite://" || HasPrefix u "sqlite3://" || HasPrefix u "file:" ||
  HasSuffix u ".db" || HasSuffix u ".sqlite" || HasSuffix u ".sqlite3".

Inductive LogLevel := LInfo | LWarn | LError.
Definition LogLine : Type := LogLevel * string * option GoError.

Definition pick_store (dbURL : string) : Backend * LogLine :=
  if isSQLite dbURL then
    match open_sqlite dbURL with
    | Some err => (UseMemory, (LWarn, "Failed to initialize SQLite store. Falling back to In-Memory Edge Store", Some err))
    | None => (UseSQLite, (LInfo, "Connected to embedded database successfully", None))
    end
  else if negb (dbURL =s? "") then
    match open_postgres dbURL with
    | Some err => (UseMemory, (LWarn, "Failed to connect to PostgreSQL. Falling back to In-Memory Edge Store", Some err))
    | None => (UsePostgres, (LInfo, "Connected to database successfully", None))
    end
  else (UseMemory, (LInfo, "DATABASE_URL not set. Running with In-Memory Edge Store", None)).

(** ** The checks of a production configuration: they only warn *)

Definition is_production (cfg : Config) : bool :=
  (cfg_Environment cfg =s? "production") || EqualFold (env "ENVIRONMENT") "production" ||
  EqualFold (env "FLAGURA_ENV") "production".

Definition validateProductionSecurityConfig (cfg : Config) : list LogLine :=
  if negb (is_production cfg) then []
  else
    (if EqualFold (env "ALLOW_INSECURE_COOKIES") "true" || EqualFold (env "SECURE_COOKIE") "false"
     then [(LWarn, "SECURITY CONFIGURATION WARNING: Production environment running with insecure cookies enabled (ALLOW_INSECURE_COOKIES=true). Cookies will lack Secure attribute.", None)]
     else []) ++
    (if env "FLAGURA_WEBHOOK_SECRET" =s? ""
     then [(LWarn, "SECURITY CONFIGURATION WARNING: Production environment running without FLAGURA_WEBHOOK_SECRET configured. Automated canary rollbacks and kill-switch webhooks will reject unauthenticated calls.", None)]
     else []) ++
    (if env "FLAGURA_ALLOWED_ORIGIN" =s? "*"
     then [(LWarn, "SECURITY CONFIGURATION WARNING: Production environment configured with wildcard CORS origin (FLAGURA_ALLOWED_ORIGIN=*). Internal APIs are exposed to unauthorized cross-origin access.", None)]
     else []).

(** ** The server process *)

(** What [http.Server] is given. *)
Record HTTPServer := mkHTTPServer {
  hs_Addr : string;
  hs_ReadHeaderTimeout : Duration;
  hs_ReadTimeout : Duration;
  hs_WriteTimeout : Duration;
  hs_IdleTimeout : Duration;
  hs_MaxHeaderBytes : Z;
}.

Definition http_server (cfg : Config) : HTTPServer :=
  mkHTTPServer (":" +:+ cfg_ServerPort cfg) (cfg_ReadHeaderTimeout cfg) (cfg_ReadTimeout cfg)
    (cfg_WriteTimeout cfg) (cfg_IdleTimeout cfg) (cfg_MaxHeaderBytes cfg).

(** The process: it has ended, or it serves, or it is told to stop. *)
Inductive Process :=
| Ended (code : Z)
| Serving (srv : HTTPServer) (st : Backend).

(** Up to the point where it listens. *)
Definition start : list LogLine * Process :=
  match Load env with
  | Err err => ([(LError, "[FATAL] Failed to load configuration", Some err)], Ended 1)
  | Ok cfg =>
      let '(st, picked) := pick_store (cfg_DatabaseURL cfg) in
      let logs := validateProductionSecurityConfig cfg ++ [picked] in
      match new_server st with
      | Some err => (logs ++ [(LError, "Failed to initialize Flagura server", Some err)], Ended 1)
      | None => (logs, Serving (http_server cfg) st)
      end
  end.

(** What happens to a process that listens: listening fails, or a signal comes and
    [Shutdown] waits five seconds at most for the requests that are running. *)
Inductive Happening := ListenFailed (err : GoError) | ServerClosed | Signalled (shutdown : option GoError).

Definition happens (h : Happening) (p : Process) : list LogLine * Process :=
  match p with
  | Ended _ => ([], p)
  | Serving srv st =>
      match h with
      | ListenFailed err => ([(LError, "Server encountered fatal error", Some err)], Ended 1)
      | ServerClosed => ([], p)
      | Signalled (Some err) =>
          ([(LInfo, "Shutting down Flagura server gracefully...", None);
            (LError, "Server forced to shutdown", Some err)], Ended 1)
      | Signalled None =>
          ([(LInfo, "Shutting down Flagura server gracefully...", None);
            (LInfo, "Flagura server exited successfully", None)], Ended 0)
      end
  end.

(** ** The serverless entry point *)

(** The store of a serverless instance, or an error. *)
Definition index_store : result GoError Backend :=
  let dbURL := env "DATABASE_URL" in
  if negb (dbURL =s? "") then
    match open_postgres dbURL with
    | Some err =>
        if EqualFold (env "ALLOW_MEMORY_FALLBACK") "true" then Ok UseMemory
        else Err (EWrap ("database connection unavailable: " +:+ Error err) err)
    | None => Ok UsePostgres
    end
  else Ok UseMemory.

Definition index_server : result GoError Backend :=
  match index_store with
  | Err err => Err err
  | Ok st =>
      match new_server st with
      | Some err => Err (EWrap ("failed to initialize Flagura server: " +:+ Error err) err)
      | None => Ok st
      end
  end.

(** The process keeps running, whatever happens to its database, on a store that
    forgets everything: what the serverless entry point refuses to do. *)
Lemma pick_store_falls_back dbURL err :
  (isSQLite dbURL = true ∧ open_sqlite dbURL = Some err) ∨
  (isSQLite dbURL = false ∧ dbURL ≠ "" ∧ open_postgres dbURL = Some err) →
  (pick_store dbURL).1 = UseMemory ∧ (pick_store dbURL).2.1.1 = LWarn.
Proof.
  unfold pick_store. intros [[-> ->]|(-> & Hne%str_eqb_neq & Herr)]; [done|].
  by rewrite Hne; cbn; rewrite Herr.
Qed.

Lemma index_store_refuses err :
  env "DATABASE_URL" ≠ "" → open_postgres (env "DATABASE_URL") = Some err →
  EqualFold (env "ALLOW_MEMORY_FALLBACK") "true" = false →
  index_server = Err (EWrap ("database connection unavailable: " +:+ Error err) err).
Proof.
  intros Hne%str_eqb_neq Herr Hf. unfold index_server, index_store. rewrite Hne. cbn. by rewrite Herr, Hf.
Qed.

End Boot.

(** ** One server for all requests ([getServer]) *)

Section Index.
(** What the [n]-th attempt to make a server comes to. *)
Context (attempt : nat → result GoError ()).

(** The shared variables: the lock, the server (by the attempt that made it), and
    the attempts made so far. *)
Record Shared := mkShared {
  ix_mu : RWMutex;
  ix_server : option nat;
  ix_tries : nat;
}.

Definition initial : Shared := mkShared (Readers 0) None 0.

(** Where a call of [getServer] is. *)
Inductive GetAt :=
| GRLock
| GCheck
| GRUnlock (found : option nat)
| GLock
| GRecheck
| GCreate
| GUnlock (res : result GoError nat)
| GDone (res : result GoError nat).

Definition set_lock (s : Shared) (mu : RWMutex) : Shared := mkShared mu (ix_server s) (ix_tries s).

Definition getServer (s : Shared) (g : GetAt) : option (Shared * GetAt) :=
  match g with
  | GRLock => mu ← mu_RLock (ix_mu s); Some (set_lock s mu, GCheck)
  | GCheck => Some (s, GRUnlock (ix_server s))
  | GRUnlock found =>
      mu ← mu_RUnlock (ix_mu s);
      Some (set_lock s mu, match found with Some srv => GDone (Ok srv) | None => GLock end)
  | GLock => mu ← mu_Lock (ix_mu s); Some (set_lock s mu, GRecheck)
  | GRecheck => Some (s, match ix_server s with Some srv => GUnlock (Ok srv) | None => GCreate end)
  | GCreate =>
      Some (match attempt (ix_tries s) with
            | Ok _ => (mkShared (ix_mu s) (Some (ix_tries s)) (S (ix_tries s)), GUnlock (Ok (ix_tries s)))
            | Err err => (mkShared (ix_mu s) (ix_server s) (S (ix_tries s)), GUnlock (Err err))
            end)
  | GUnlock res => mu ← mu_Unlock (ix_mu s); Some (set_lock s mu, GDone res)
  | GDone _ => None
  end.

(** [Handler]: the request goes to the server, or is asked to come back. *)
Inductive IndexReply :=
| ServedBy (srv : nat)
| Unavailable (status : Z) (headers : list (string * string)) (error message : string).

Definition Handler (res : result GoError nat) : IndexReply :=
  match res with
  | Ok srv => ServedBy srv
  | Err _ =>
      Unavailable 503 [("Content-Type", "application/json; charset=utf-8"); ("Retry-After", "2")]
        "Service Unavailable" "Database connection establishing or temporarily unavailable. Please retry."
  end.

Definition get_step (p : Shared * list GetAt) (i : nat) : option (Shared * list GetAt) :=
  g ← p.2 !! i;
  '(s', g') ← getServer p.1 g;
  Some (s', <[i := g']> p.2).

Definition get_turns (p : Shared * list GetAt) (schedule : list nat) : Shared * list GetAt :=
  foldl (λ p i, default p (get_step p i)) p schedule.

Definition answered (g : GetAt) : bool := match g with GDone _ => true | _ => false end.

Definition g_reader (g : GetAt) : Z := match g with GCheck | GRUnlock _ => 1 | _ => 0 end.
Definition g_writer (g : GetAt) : Z := match g with GRecheck | GCreate | GUnlock _ => 1 | _ => 0 end.

(** What a call knows: the server it found, or, under the lock, that there is none;
    an error it has is that of an attempt. *)
Definition knows (s : Shared) (g : GetAt) : Prop :=
  match g with
  | GRUnlock (Some srv) | GUnlock (Ok srv) | GDone (Ok srv) => ix_server s = Some srv
  | GCreate => ix_server s = None
  | GUnlock (Err err) | GDone (Err err) => ∃ n, attempt n = Err err
  | _ => True
  end.

(** The server that is kept is that of the only attempt that worked. *)
Record index_inv (p : Shared * list GetAt) : Prop := {
  ii_lock : lock_held (ix_mu p.1) (tally g_reader p.2) (tally g_writer p.2);
  ii_knows : ∀ i g, p.2 !! i = Some g → knows p.1 g;
  ii_server : ∀ n, n < ix_tries p.1 → ix_server p.1 = Some n ∨ ∃ err, attempt n = Err err;
}.

Lemma g_reader_01 g : g_reader g = 0%Z ∨ g_reader g = 1%Z.
Proof. destruct g; auto. Qed.
Lemma g_writer_01 g : g_writer g = 0%Z ∨ g_writer g = 1%Z.
Proof. destruct g; auto. Qed.
Lemma g_writer_range g : (0 ≤ g_writer g)%Z.
Proof. by destruct g. Qed.
Lemma g_reader_range g : (0 ≤ g_reader g)%Z.
Proof. by destruct g. Qed.

Lemma get_step_inv p i p' :
  get_step p i = Some p' →
  ∃ g s' g', p.2 !! i = Some g ∧ getServer p.1 g = Some (s', g') ∧ p' = (s', <[i := g']> p.2).
Proof.
  unfold get_step. intros Hs. destruct (p.2 !! i) as [g|] eqn:Hg; [|discriminate]. cbn in Hs.
  destruct (getServer p.1 g) as [[s' g']|] eqn:E; simplify_eq/=. eauto 10.
Qed.

(** One goal per move. *)
Ltac gets H :=
  match type of H with
  | getServer _ ?g = Some _ =>
      destruct g as [| |found| | | |res|res];
      unfold getServer, mu_RLock, mu_RUnlock, mu_Lock, mu_Unlock in H; cbn in H;
      repeat (match type of H with context [match ?x with _ => _ end] => destruct x eqn:? end; cbn in H);
      simplify_eq/=
  end.

Lemma get_step_lock p i p' :
  get_step p i = Some p' → lock_held (ix_mu p.1) (tally g_reader p.2) (tally g_writer p.2) →
  lock_held (ix_mu p'.1) (tally g_reader p'.2) (tally g_writer p'.2).
Proof.
  intros (g & s' & g' & Hg & Hm & ->)%get_step_inv. unfold lock_held. cbn.
  rewrite !(tally_insert _ _ _ _ _ Hg).
  pose proof (tally_member g_reader p.2 i g g_reader_range Hg).
  pose proof (tally_member g_writer p.2 i g g_writer_range Hg).
  gets Hm; repeat case_match; simplify_eq/=; lia.
Qed.

(** The server changes only where a call makes one, and there was none. *)
Lemma get_same_server s g s' g' :
  getServer s g = Some (s', g') → knows s g →
  ix_server s' = ix_server s ∨ (g = GCreate ∧ ix_server s = None).
Proof. intros Hm Hk. gets Hm; auto. Qed.

Lemma get_step_index p i p' : get_step p i = Some p' → index_inv p → index_inv p'.
Proof.
  intros Hs [Hl Hk Hn]. pose proof (get_step_lock _ _ _ Hs Hl) as Hl'.
  destruct (get_step_inv _ _ _ Hs) as (g & s' & g' & Hg & Hm & ->). cbn in Hl'.
  pose proof (Hk i g Hg) as Hmine. split; [done|..]; cbn.
  - intros j u Hj. destruct (decide (j = i)) as [->|Hne].
    + rewrite list_lookup_insert_eq in Hj by (by eapply lookup_lt_Some). injection Hj as <-.
      gets Hm; repeat case_match; simplify_eq/=; eauto.
    + rewrite list_lookup_insert_ne in Hj by done. pose proof (Hk j u Hj) as Hu.
      destruct (get_same_server _ _ _ _ Hm Hmine) as [Hsame|[-> Hnone]].
      * unfold knows in *. by rewrite Hsame.
      * pose proof (one_writer _ _ g_writer p.2 i j _ u g_writer_range Hl Hg Hj ltac:(done) eq_refl).
        unfold knows in *. rewrite Hnone in Hu. by destruct u as [| |[]| | | |[]|[]].
  - intros n Hlt. gets Hm; try (by apply Hn); try (match goal with E : ix_server _ = _ |- _ => rewrite E end; by apply Hn).
    + destruct (decide (n = ix_tries p.1)) as [->|Hne]; [by left|].
      destruct (Hn n ltac:(lia)) as [Hx|]; [by rewrite Hmine in Hx|by right].
    + destruct (decide (n = ix_tries p.1)) as [->|Hne]; [right; eauto|]. apply Hn. lia.
Qed.

Lemma get_turns_index p schedule : index_inv p → index_inv (get_turns p schedule).
Proof.
  revert p. induction schedule as [|i schedule IH]; intros p Hp; [done|]. apply IH.
  destruct (get_step p i) as [p'|] eqn:Hs; [|done]. by eapply get_step_index.
Qed.

Lemma start_index calls : index_inv (initial, replicate calls GRLock).
Proof.
  split; cbn; [|by intros i g [-> _]%lookup_replicate|lia].
  by split; induction calls.
Qed.

Lemma get_progress p : index_inv p → forallb answered p.2 = false → ∃ i, is_Some (get_step p i).
Proof.
  intros [Hl _ _] Hun.
  destruct (lock_progress _ answered g_reader g_writer p.2 Hl g_reader_01 g_writer_01) as (i & g & Hg & Ha & Hm);
    [by intros []|done|]. exists i. unfold get_step. rewrite Hg. cbn.
  pose proof (tally_member g_reader p.2 i g g_reader_range Hg).
  pose proof (tally_member g_writer p.2 i g g_writer_range Hg). unfold lock_held in Hl.
  destruct g; try done; unfold getServer, mu_RLock, mu_RUnlock, mu_Lock, mu_Unlock; cbn in *;
    destruct (ix_mu p.1) as [[]|]; repeat case_match; simplify_eq/=; eauto; lia.
Qed.

Definition g_rank (g : GetAt) : nat :=
  match g with
  | GRLock => 7 | GCheck => 6 | GRUnlock _ => 5 | GLock => 4 | GRecheck => 3 | GCreate => 2 | GUnlock _ => 1
  | GDone _ => 0
  end.

Lemma get_rank s g s' g' : getServer s g = Some (s', g') → g_rank g' < g_rank g.
Proof. intros Hm. gets Hm; repeat case_match; cbn; lia. Qed.

Lemma get_finishes p : index_inv p → ∃ rest, forallb answered (get_turns p rest).2 = true.
Proof.
  remember (sum_nat g_rank p.2) as n eqn:Hn. revert p Hn.
  induction (lt_wf n) as [n _ IH]. intros p -> Hp.
  destruct (forallb answered p.2) eqn:E; [by exists []|].
  destruct (get_progress p Hp E) as [i [p' Hs]].
  destruct (get_step_inv _ _ _ Hs) as (g & s' & g' & Hg & Hm & ->).
  pose proof (sum_nat_insert g_rank _ _ _ g' Hg). pose proof (get_rank _ _ _ _ Hm).
  destruct (IH (sum_nat g_rank (<[i:=g']> p.2)) ltac:(lia) (s', <[i := g']> p.2) eq_refl) as [rest Hrest];
    [by eapply get_step_index|].
  exists (i :: rest). cbn [get_turns foldl]. by rewrite Hs.
Qed.

(** C16: However the first requests of a serverless instance interleave, at most one
    server is ever made, every request that is answered with a server gets that
    one, and a request is refused only because an attempt failed; all of them can
    be answered. *)
Theorem one_server_for_all calls schedule :
  let p := get_turns (initial, replicate calls GRLock) schedule in
  (∀ i j a b, p.2 !! i = Some (GDone (Ok a)) → p.2 !! j = Some (GDone (Ok b)) → a = b) ∧
  (∀ n m, n < ix_tries p.1 → m < ix_tries p.1 → attempt n = Ok () → attempt m = Ok () → n = m) ∧
  (∀ i err, p.2 !! i = Some (GDone (Err err)) → ∃ n, attempt n = Err err) ∧
  ∃ rest, forallb answered (get_turns p rest).2 = true.
Proof.
  intros p. assert (Hp : index_inv p) by apply get_turns_index, start_index.
  split; [|split; [|split]].
  - intros i j a b Ha%(ii_knows _ Hp) Hb%(ii_knows _ Hp). cbn in *. congruence.
  - intros n m Hn Hm Han Ham.
    destruct (ii_server _ Hp n Hn) as [Hsn|[? ?]], (ii_server _ Hp m Hm) as [Hsm|[? ?]]; congruence.
  - intros i err Hi%(ii_knows _ Hp). exact Hi.
  - by apply get_finishes.
Qed.
End Index.

(** ** On concrete inputs *)

#[local] Existing Instance sample_runtime.

(** Two requests race for the lock and the first attempt fails: the second one
    makes the server, and a third one finds it. *)
Definition flaky (n : nat) : result GoError () := match n with 0 => Err (EText "down") | _ => Ok () end.

Definition racing : list nat := [0; 1; 0; 1; 0; 1; 0; 1; 0; 0; 0; 1; 1; 1; 1; 2; 2; 2].

Example race_for_the_server :
  (get_turns flaky (initial, replicate 3 GRLock) racing).2 =
    [GDone (Err (EText "down")); GDone (Ok 1); GDone (Ok 1)].
Proof. vm_compute. reflexivity. Qed.

(** A Postgres database whose name ends like a file is opened with the SQLite
    driver; when that fails the process serves from memory, and says that it is
    healthy. *)
Example postgres_taken_for_sqlite :
  isSQLite "postgres://db.internal:5432/flags.db" = true ∧
  isSQLite "postgres://db.internal:5432/flags" = false ∧
  isSQLite "sqlite:///data/flags" = true.
Proof. by vm_compute. Qed.

Definition down_env (name : string) : string :=
  if name =s? "DATABASE_URL" then "postgres://db.internal:5432/flags" else "".

Example process_serves_from_memory :
  let down := λ _ : string, Some (EText "connection refused") in
  (∃ srv, (start down down (λ _, None) down_env).2 = Serving srv UseMemory) ∧
  index_server down (λ _, None) down_env =
    Err (EWrap "database connection unavailable: connection refused" (EText "connection refused")).
Proof. split; [eexists|]; vm_compute; reflexivity. Qed.
