(* ===== verification/ApiPages.v ===== *)
(** * Pages and health ([pkg/api/handlers_ui.go], [pkg/api/handlers_health.go])

    The pages of the console and the health endpoints, none of which is behind the
    authentication middleware: the dashboard looks at the credentials itself and
    chooses the project it shows.  Rendering is the views'; a page is what they
    are given. *)

From S2P Require Import Prelude GoFloat GoStrings GoTime Sha256 Errors Domain Entities StoreState.
From S2P Require Import StoreAudit StoreFlags StoreFlagsFacts StoreGovernance StoreIdentity StoreTenancy StoreIdentityFacts.
From S2P Require Import Http Auth Access AuthFacts AccessFacts ApiFlags ApiFlagsFacts ApiExamples.
From S2P Require Import HandlerFacts Backup ApiTenancy Router.

(** ** Health *)

Definition handleHealthz (r : Request) : Handler Reply :=
  writeJSON StatusOK (BHealth "ok" "" "" None).

Definition handleLivez (r : Request) : Handler Reply :=
  writeJSON StatusOK (BHealth "alive" "" "" None).

(** [ping] is what the store answers; the in-memory one answers nil. *)
Definition handleReadyz (ping : option GoError) (driver : string) (r : Request) : Handler Reply :=
  match ping with
  | Some err => writeJSON 503 (BHealth "unavailable" "" (Error err) None)
  | None => writeJSON StatusOK (BHealth "ready" driver "" None)
  end.

Definition handleHealth (r : Request) : Handler Reply :=
  flags ← read (λ _ s, ListFlags s);
  writeJSON StatusOK (BHealth "ok" DriverName "" (Some (length flags))).

(** ** Pages *)

Section Pages.
Context `{GoRuntime}.

Definition Redirect (status : Z) (location : string) : Handler Reply :=
  writeJSON status (BRedirect location ∅).

Definition StatusSeeOther : Z := 303.

Definition handleLanding (r : Request) : Handler Reply :=
  if negb (existsb (String.eqb (rq_Path r)) ["/"; "/api"; "/api/"])
  then writeText StatusNotFound "404 page not found"
  else
    found ← getUserFromRequest r;
    match found with
    | Ok _ => Redirect StatusSeeOther "/dashboard"
    | Err _ =>
        enabled ← Getenv "ENABLE_LANDING_PAGE";
        shown ← Getenv "SHOW_LANDING_PAGE";
        if negb (enabled =s? "true") && negb (shown =s? "true") then Redirect StatusSeeOther "/auth"
        else writeJSON StatusOK (BPage "landing")
    end.

Definition handleAuth (r : Request) : Handler Reply :=
  found ← getUserFromRequest r;
  match found with
  | Ok _ => Redirect StatusSeeOther "/dashboard"
  | Err _ => writeJSON StatusOK (BPage "auth")
  end.

(** [script] is the embedded file, if it is there. *)
Definition handleInstallScript (script : option string) (r : Request) : Handler Reply :=
  match script with
  | None => writeText StatusNotFound "Install script not found"
  | Some data => writeJSON StatusOK (BText data)
  end.

Definition docs_url : string := "https://github.com/dhawalhost/flagura/blob/main/docs/product/sdks-and-api.md".

Definition handleDocs (r : Request) : Handler Reply := Redirect 307 docs_url.

(** ** The dashboard *)

(** The organizations that are offered: those of the user, or all of them to an
    administrator who has none. *)
Definition dashboard_orgs (user : User) : Handler (list Organization) :=
  orgs ← list_user_orgs (us_ID user);
  match orgs with
  | [] => if us_Role user =s? RoleAdmin then list_all_orgs else mret []
  | _ => mret orgs
  end.

Definition dashboard_projects (user : User) (orgs : list Organization) : Handler (list Project) :=
  match orgs with
  | [] => if us_Role user =s? RoleAdmin then list_projects_of "" else mret []
  | _ => projects_of_all orgs
  end.

(** The project that is shown: the one of the request if it is allowed and offered,
    else the first one that is offered, else the default project. *)
Definition shown_project (resolved : result GoError string) (projects : list Project) : string :=
  let projectID := match resolved, projects with
                   | Ok p, _ => p
                   | Err _, p :: _ => pj_ID p
                   | Err _, [] => DefaultProjectID
                   end in
  match projects with
  | p :: _ => if existsb (λ p, pj_ID p =s? projectID) projects then projectID else pj_ID p
  | [] => projectID
  end.

(** The title of the view that is asked for by the path, or by a query parameter. *)
Definition view_name (r : Request) : string :=
  let viewName := Trim (TrimPrefix (rq_Path r) "/dashboard") "/" in
  let viewName := or_default viewName (QueryGet r "tab") in
  or_default viewName (QueryGet r "view").

Definition page_titles : list (list string * string) :=
  [(["flags"; "matrix"; "rollouts"], "Flags & Rollouts");
   (["analytics"; "telemetry"; "stats"], "Analytics & Telemetry");
   (["evaluator"; "sandbox"; "live"], "Live Evaluator");
   (["benchmark"; "latency"; "perf"], "Latency Benchmark");
   (["audit"; "logs"; "trail"], "Audit Trail");
   (["sdk"; "apikeys"; "quickstart"], "SDK Integration");
   (["profile"; "settings"; "account"], "Profile Settings");
   (["editor"; "new"], "Flag Editor")].

Definition page_title (viewName : string) : string :=
  match find (λ t, existsb (String.eqb (ToLower viewName)) t.1) page_titles with
  | Some (_, title) => title
  | None => "Developer Console"
  end.

Definition handleDashboard (r : Request) : Handler Reply :=
  found ← getUserFromRequest r;
  match found with
  | Err _ =>
      SetCookie CookieSessionName "";;
      Redirect StatusSeeOther "/auth"
  | Ok user =>
      orgs ← dashboard_orgs user;
      projects ← dashboard_projects user orgs;
      resolved ← resolveAndAuthorizeProjectID r;
      let projectID := shown_project resolved projects in
      SetCookie CookieProjectName projectID;;
      user ← enrichUserOrgMembership user projectID;
      flags ← read (λ _ s, ListFlagsByProject s projectID);
      logs ← read (λ _ s, ListAuditLogsByProject s projectID 20);
      changeRequests ← read (λ o s, ListChangeRequestsByProject
        (out_order o ChangeRequest (ms_changeRequests s)) projectID "");
      writeJSON StatusOK (BDashboard (mkDashboard user flags logs changeRequests DriverName orgs projects
        projectID (page_title (view_name r))))
  end.

(** ** What the dashboard shows *)

Lemma wp_SetCookie srv name value (Q : () → World → Prop) E w :
  Q () (w <| wd_cookies := wd_cookies w ++ [(name, value)] |>) → wp srv (SetCookie name value) Q E w.
Proof. done. Qed.

(** Projects that belong to one of some organizations. *)
Definition projects_in (s : MemoryStore) (orgs : list Organization) (projects : list Project) : Prop :=
  ∀ p, p ∈ projects → ∃ x org, ms_projects s !! x = Some p ∧ org ∈ orgs ∧ og_ID org = pj_OrganizationID p.

Lemma wp_offered_projects srv orgs Q E w :
  all_fair srv → Forall (λ o, og_ID o ≠ "") orgs →
  (∀ res w', wd_store w' = wd_store w → projects_in (wd_store w) orgs res → Q res w') →
  wp srv (projects_of_all orgs) Q E w.
Proof.
  intros Hf. revert Q w. induction orgs as [|org orgs IH]; intros Q w Hne HQ; simpl.
  { apply wp_ret, HQ; [done|]. by intros p ?%elem_of_nil. }
  apply Forall_cons in Hne as [Hid Hne]. apply wp_bind, wp_read, wp_bind, IH; [done|].
  intros rest w1 Hw1 Hrest. apply wp_ret, HQ; [done|]. intros p [Hp|Hp]%elem_of_app.
  - apply elem_of_collect in Hp as [Hin Hsel]. apply fair_elem in Hin as [x Hx]; [|apply Hf].
    rewrite (proj2 (str_eqb_neq _ _) Hid) in Hsel. simpl in Hsel. simp_bool.
    exists x, org. split; [done|]. split; [by left|done].
  - destruct (Hrest p Hp) as (x & o & Hx & Ho & Hio). exists x, o. split; [done|]. split; [by right|done].
Qed.

Lemma wp_projects_any srv orgs Q E w :
  (∀ res w', wd_store w' = wd_store w → Q res w') → wp srv (projects_of_all orgs) Q E w.
Proof.
  revert Q w. induction orgs as [|org orgs IH]; intros Q w HQ; simpl; [by apply wp_ret, HQ|].
  apply wp_bind, wp_read, wp_bind, IH. intros rest w1 Hw1. by apply wp_ret, HQ.
Qed.

(** What is offered to a user who is no administrator is open to the user. *)
Definition offered (s : MemoryStore) (u : User) (projects : list Project) : Prop :=
  us_Role u ≠ RoleAdmin → ∀ p, p ∈ projects → may_use s u (pj_ID p).

Lemma wp_offer srv u Q E w :
  all_fair srv → named_tenants (wd_store w) →
  (∀ orgs projects w', wd_store w' = wd_store w → offered (wd_store w) u projects → Q orgs projects w') →
  wp srv (dashboard_orgs u) (λ orgs w', wp srv (dashboard_projects u orgs) (Q orgs) E w') E w.
Proof.
  intros Hf [_ Hno] HQ. unfold dashboard_orgs. apply wp_bind, wp_list_user_orgs; [apply Hf|].
  intros orgs Horgs. set (w1 := w <| wd_step := _ |>).
  assert (Hids : Forall (λ o, og_ID o ≠ "") orgs).
  { apply Forall_forall. intros o Ho. destruct (Horgs o Ho) as [[x Hx] _]. by apply (Hno x). }
  assert (Hin : ∀ w2, wd_store w2 = wd_store w → wp srv (projects_of_all orgs) (Q orgs) E w2).
  { intros w2 Hw2. apply wp_offered_projects; [done|done|]. intros res w3 Hw3 Hres. apply HQ; [congruence|].
    intros _ p Hp. destruct (Hres p Hp) as (x & org & Hx & Ho & Hio). rewrite Hw2 in Hx.
    destruct (Horgs org Ho) as [[y Hy] Hopen]. right. exists p, y, org.
    split; [right; by exists x|done]. }
  destruct orgs as [|org orgs]; [|by apply wp_ret, Hin].
  destruct (us_Role u =s? RoleAdmin) eqn:Er.
  - simp_bool. apply wp_read. unfold dashboard_projects. destruct (ListOrganizations _) as [|o all] eqn:El.
    + rewrite Er. apply wp_read, HQ; [done|]. by intros [].
    + apply wp_projects_any. intros res w2 Hw2. apply HQ; [done|]. by intros [].
  - apply wp_ret. unfold dashboard_projects. rewrite Er. apply wp_ret, HQ; [done|]. by intros _ p ?%elem_of_nil.
Qed.

Lemma shown_listed resolved projects :
  projects ≠ [] → ∃ p, p ∈ projects ∧ shown_project resolved projects = pj_ID p.
Proof.
  unfold shown_project. destruct projects as [|p ps]; [done|]. intros _.
  destruct (existsb _ _) eqn:E; [|exists p; split; [by left|done]].
  apply existsb_exists in E as (q & Hq%list_elem_of_In & Heq%str_eqb_eq). exists q. split; [done|]. by symmetry.
Qed.

Lemma returns_enrich u p : returns (enrichUserOrgMembership u p).
Proof. unfold enrichUserOrgMembership, get_project. returns_all. Qed.

Lemma keeps_uses_enrich u p : keeps uses_only (enrichUserOrgMembership u p).
Proof. unfold enrichUserOrgMembership, get_project. keeps_all. Qed.


End Pages.

(** ** The dashboard at work *)

#[local] Existing Instance sample_runtime.

(** What the dashboard of a request shows: the project, and its flags. *)
Definition shown (w : World) (r : Request) : option (string * list string) :=
  match rp_Body (serve demo_server (handleDashboard r) w).2 with
  | BDashboard v => Some (dv_ProjectID v, ff_Key <$> dv_Flags v)
  | _ => None
  end.


(** A developer asks for the project of another tenant and is shown its own. *)
Example own_project_is_shown :
  fst <$> shown demo_world (as_user "bob" "shop" "GET" "/dashboard") = Some "shop" ∧
  fst <$> shown demo_world (as_user "bob" "bakery" "GET" "/dashboard") = Some "shop".
Proof. split; vm_compute; reflexivity. Qed.

(** The same store with a flag in the default project, and somebody who has just
    signed up and belongs to no organization. *)
Definition mallory : User := person "mallory" "Mallory" RoleDeveloper.

Definition newcomer_world : World :=
  let s := (SaveFlag (out_sys (sv_out demo_server 0)) demo_store
              (zero_FeatureFlag <| ff_ID := "flag_x" |> <| ff_Key := "secret-launch" |>
                                <| ff_Name := "Launch" |> <| ff_ProjectID := DefaultProjectID |>) "ada").1 in
  demo_world <| wd_store := s
    <| ms_users := put_user mallory (ms_users s) |>
    <| ms_sessions := <["s-mallory" := mkSession "s-mallory" "mallory" None 1000 0]> (ms_sessions s) |> |>.

(** The dashboard shows the default project, with its flags, to a user that the API
    refuses; and it shows an administrator's key, which is bound to one project,
    the projects of every tenant. *)
Example newcomer_sees_default_project :
  shown newcomer_world (as_user "mallory" "bakery" "GET" "/dashboard") =
    Some (DefaultProjectID, ["secret-launch"]) ∧
  match (resolveAndAuthorizeProjectID (as_user "mallory" DefaultProjectID "GET" "/api/v1/flags")
           demo_server newcomer_world).2 with
  | inl (Err _) => True
  | _ => False
  end.
Proof. split; vm_compute; done. Qed.

Example project_key_lists_all_tenants :
  match rp_Body (serve demo_server (handleDashboard (with_bearer ci_raw "shop" "GET" "/dashboard")) demo_world).2 with
  | BDashboard v => list_to_set (C:=gset string) (pj_ID <$> dv_Projects v) = {[ "shop"; "bakery" ]}
  | _ => False
  end.
Proof. vm_compute. done. Qed.
